(* ===== verification/_CoqProject ===== *)
-Q . S2P
Prelude.v
Clib.v
Timeval.v
Xlat.v
Quote.v
Decimal.v
Vprintf.v
Tracee.v
Decode.v
Io.v
Args.v
Mem.v
Options.v
Signal.v
Time.v
File.v
Stat.v
Sigcalls.v
Desc.v
Resource.v
Ipc.v
Process.v
Status.v
Exec.v
Inet.v
Net.v
System.v
Quota.v
Device.v
Sockio.v
Term.v
Mtd.v
Modules.v
Ioctl.v
Ioctlent.v
Ioctlgen.v
Sockets.v
Ready.v
Decoders.v
Qual.v
Mmap.v
Count.v
Report.v
Sysent.v
Errnoent.v
Tcb.v
Regs.v
Log.v
Table.v
Pathtrace.v
Syscall.v
Frame.v
Line.v
Stops.v
Shipped.v
Abi.v
Trace.v
Init.v
Startup.v
Child.v
Loop.v
Release.v
Rounds.v
Started.v
Cmdline.v
Dump.v
Drain.v
Recorded.v
Selftest.v
