(* ===== verification/Prelude.v ===== *)
(** * Verification of alice-strace

    alice-strace (src/alice-strace) is the tracer of ALICE, a fork of strace
    for Linux: alice-record runs the workload under it and the analysis of
    crash states reads what it has recorded.  Besides the log of a system call
    per line it keeps a binary dump of the data that the workload writes and a
    file of stack traces.  This library models the C code as the x86_64 build
    compiles it (three personalities: x86_64, i386 and x32) as executable
    functions, and proves what the tracer and its parts promise.

    ** How the program is put together

    main calls init, which reads the options, tests what ptrace can do on this
    kernel and starts or attaches to the processes to be traced; then trace, a
    loop that waits for a process to stop, handles the stop and restarts the
    process.  The stop of a system call goes to trace_syscall, which reads
    registers, finds the entry of the call in sysent, and on entry and on exit
    of the call prints its half of the line; the arguments are printed by the
    call's decoder, one of some 250 functions in the files named after their
    subject.  The state is a table of trace control blocks, one per process,
    the block that has an unfinished line (printing_tcp), and the static
    variables.

    ** The state and the outside

    - Tcb: struct tcb as a [Record], the table as a list of them ([tracer]; a
      struct tcb * is an index), the options ([options]), the static variables
      ([globals]), and the monad [M] of the tracer: a step ends with a value, by
      exit, or dies.  All that happens outside is an [event] of the history
      [log]: text and bytes written, requests to the kernel.  What the kernel
      answers is given by an oracle on the history, an argument of all
      definitions, so that theorems quantify over every behaviour of the kernel
      and of the traced processes, and the whole tracer can be run by
      [vm_compute] with a concrete oracle.
    - [world] (Syscall): what a stop needs besides: the tables of system calls
      and errors, the qualifiers and paths selected, the memory of the tracee at
      a moment of the history ([Kernel] of Tracee), the targets of descriptors,
      the decoders, the libunwind library, strerror, the clock text, and the
      bound on loops.  [shipped] (Shipped) fills in the real tables and decoders.
    - [machine] and [files] (Init, Startup): realpath, getpwnam, ids, malloc,
      stat, getcwd and PATH for start-up.
    - The decoders live in a monad of their own, [D] (Decode): they read the
      control block and the options and write text, bytes of the dump, and a few
      fields ([D] is run on a control block by [run_D] of Syscall).  An abort, a
      read past a buffer included, is [None].

    ** The files, from the bottom up

    - Prelude: machine integers, texts of numbers, lists of bytes, tactics.  Clib:
      strcmp and the contract of qsort.
    - util.c: Timeval (time arithmetic), Xlat (flag and value tables), Quote
      (string_quote), Tracee (umoven, umovestr, upeek), Decode (the printers of
      arguments), Args (printers that decoders share, and the contract
      [Decodes]), Options (string_to_uint; get_os_release of alice-strace.c).
    - vsprintf.c, which takes the place of the C library's formatter when
      USE_CUSTOM_PRINTF is defined: Decimal (digits without division), Vprintf.
    - Decoders, a file per source: Io (io.c), Mem, Signal and Sigcalls
      (signal.c), Time, File and Stat (file.c), Desc (desc.c, poll of stream.c),
      Resource, Ipc, Process, Net with Inet (net.c), System, Quota, Modules
      (bjm.c).  Ioctls: Device (block.c, loop.c, scsi.c, clocks of time.c), Sockio
      (sock.c), Term, Mtd, the dispatch in Ioctl (ioctl.c), the table of names in
      Ioctlent (linux/ioctlent.h), the programs that generate this table in
      Ioctlgen (linux/ioctlsort.c, ioctlsort.c).  Properties of decoders are in Status, Exec,
      Sockets and Ready.  Decoders collects them under the names of the tables.
    - The stop of a system call: Regs (register union), Qual (-e), Pathtrace (-P),
      Mmap (stack traces), Count and Report (-c), Log (the output functions and the line
      discipline), Table (the process table), Syscall (trace_syscall), Sysent and
      Errnoent (the tables), Shipped.  Frame, Line and Stops prove what a stop
      preserves, Abi what the ABI functions compute.
    - The loop and start-up: Trace (the event loop), Init (getopt, the switch over
      the options), Startup (tests of ptrace, startup_child, startup_attach,
      init, main), Child (exec_or_die and the other forked children, the signals).
      Release has the end of tracing (cleanup, die), and Loop, Rounds, Drain,
      Recorded, Started, Cmdline and Dump the properties of whole runs.

    - Selftest runs the decoders on the calls of alice-strace_test.c.

    A definition has the name of the function it models; a function is split
    where its body is long, and the parts are named after what they do.

    ** What is proved

    - Whole runs.  From the command line on, every reachable state has a sound
      process table and, in a log that all processes share, at most one
      unfinished line, as long as only leaders of thread groups call execve and
      -b execve is off (Started.program_logs_in_order, from
      Started.init_starts_the_loop and the invariants of Rounds; with a threaded
      execve two lines can be joined, Rounds.exec_switch_joins_lines); every stop
      is answered with the one restart that is right for it
      (Rounds.stops_are_answered); the loop ends when the kernel has no children
      left and the walks of -k over frame pointers end (Drain.main_loop_ends);
      the exit status is that of the program (Rounds.exit_status_is_mimicked);
      the end asks the kernel to let every process go and leaves the table empty
      (Release.cleanup_releases).  The program is run with the privileges
      asked for or not at all (Child.program_runs_as_asked).  What alice-record asks for is understood
      (Cmdline.alice_record_options), and for the write it depends on the log
      line and the dump are exactly what was written (Recorded.write_call_recorded,
      Io.sys_write_dumps_data); over a whole run each piece of a dump comes from
      the entry of such a call, in a round of its own, and nothing else reaches a
      dump (Dump.dumps_are_written_data).
    - The stop of a system call keeps the log in order and alternates between
      entry and exit (Stops); with the shipped tables every number has a function
      that exists, and all but 32 functions that are named apart return whatever
      the tracee holds (Shipped.shipped_calls_return; Ioctl.sys_ioctl_returns for
      ioctl).  The contract
      between trace_syscall and its decoders is the interface [Decodes] of Args;
      each decoder file discharges it, with the hints of the database [decodes].
    - Refinement: the process table implements a finite map (Table), umoven a
      plain read of memory (Tracee), the cache of the memory map a sorted list
      of regions that bisection searches (Mmap), the qualifiers a set (Qual), the
      formatter of vsprintf.c the rendering of a format given as data (Vprintf),
      the report of -c the history of calls (Report).
    - Texts that can be read back: string_quote, wait statuses, limits, error
      texts, open modes, flag words; lists shown completely: directory entries,
      descriptor sets, passed descriptors, the names of an ioctl, also with any
      table that the generator makes (Ioctlgen.generated_names_shown).
    - Bounds: the static buffers that hold, and, as theorems about errors, the
      ones that do not (Sockets.printsock_overruns, Ioctl.sg_io_needs_strings,
      Cmdline.search_overruns and others): there the model aborts where C would
      read or write past a buffer.

    ** Bounds and fuel

    Loops that are not structural take fuel, and running out is a result of its
    own ([out_of_fuel] of Tcb, or an abort in [D]), never a silent end:
    - the rounds of trace: the argument of main_loop; Drain gives the number that
      is enough;
    - waiting, the tests of ptrace, the threads of -p, stack walks: [loop_fuel] of
      the world; how long they take is up to the kernel and the tracee.  That the
      bound is enough is a hypothesis on these where the end is what is proved
      ([stack_walks_end] of Drain, [stops_end] of Release, the number of waits in
      Drain.main_loop_ends); the rest holds of every run that returns;
    - reading the text of a maps file, of a path, of an option: the length of the
      text, which is proved enough;
    - bisection (Ioctl, Mmap): the size of the table, proved enough;
    - loops of decoders over arrays of the tracee: the number of entries that fit
      in memory or in the counter of the code ([int_rounds], [fd_rounds], the
      size of a block); an array without an end overflows the counter, which C
      leaves undefined, and is an abort.

    ** Parameters

    Code that is not in the repository is an argument with its documented
    behaviour as a hypothesis where one is needed: the kernel ([kernel_ok] of
    Loop, [attach_ok] of Started, [MemOk] of Tracee), what the traced programs do
    ([leaders_exec] of Rounds), the flag that the signal handler sets
    ([stays_interrupted] of Started), qsort ([qsort_ok] of Clib), malloc
    ([malloc_ok], [heap_ok]), the stack ([vla_ok]), localtime, if_indextoname, libunwind.
    Witnesses show that the hypotheses can hold together.

    ** Not modelled

    - The messages of -d, the texts of usage and -V: output only.
    - The delivery of signals to the tracer: which are handled, ignored and blocked
      is in Child, but an interruption is an answer to the request [RIntr] at the
      places where the code looks at the variable.
    - The run of a child next to the tracer: to the tracer it is a process like
      others, which the oracle stands for; its code is in Child.
    - The putmsg calls of stream.c and the tables and code of other
      architectures and systems are not compiled in this build.
    - The rest of ALICE is Python and shell. *)

From Stdlib Require Export ZArith Lia Ascii.
From stdpp Require Export base tactics numbers strings option.
From stdpp Require Export list.

#[global] Open Scope Z_scope.

Declare Scope alice_scope.
Delimit Scope alice_scope with alice.
#[global] Open Scope alice_scope.

Create HintDb alice.
Create Rewrite HintDb alice_rw.

(** ** Machine integers (x86_64: int is 32 bits, long is 64 bits) *)

Definition u8 (z : Z) : Z := z mod 2 ^ 8.
Definition u32 (z : Z) : Z := z mod 2 ^ 32.
Definition u64 (z : Z) : Z := z mod 2 ^ 64.
Definition s32 (z : Z) : Z := (z + 2 ^ 31) mod 2 ^ 32 - 2 ^ 31.
Definition s64 (z : Z) : Z := (z + 2 ^ 63) mod 2 ^ 64 - 2 ^ 63.

Definition is_u8 (z : Z) : Prop := 0 <= z < 2 ^ 8.
Definition is_u32 (z : Z) : Prop := 0 <= z < 2 ^ 32.
Definition is_u64 (z : Z) : Prop := 0 <= z < 2 ^ 64.
Definition is_s32 (z : Z) : Prop := - 2 ^ 31 <= z < 2 ^ 31.
Definition is_s64 (z : Z) : Prop := - 2 ^ 63 <= z < 2 ^ 63.

(** Arithmetic on wrapped integers: unfold the wrap-arounds and let [lia]
    eliminate the divisions. *)
Ltac wrap_lia :=
  unfold is_u8, is_u32, is_u64, is_s32, is_s64, u8, u32, u64, s32, s64 in *;
  change (2 ^ 8) with 256 in *;
  change (2 ^ 31) with 2147483648 in *;
  change (2 ^ 32) with 4294967296 in *;
  change (2 ^ 63) with 9223372036854775808 in *;
  change (2 ^ 64) with 18446744073709551616 in *;
  Z.div_mod_to_equations; lia.

Lemma u8_range z : is_u8 (u8 z).
Proof. wrap_lia. Qed.
Lemma u32_range z : is_u32 (u32 z).
Proof. wrap_lia. Qed.
Lemma u64_range z : is_u64 (u64 z).
Proof. wrap_lia. Qed.
Lemma s32_range z : is_s32 (s32 z).
Proof. wrap_lia. Qed.
Lemma s64_range z : is_s64 (s64 z).
Proof. wrap_lia. Qed.
Lemma u32_s64 z : u32 (s64 z) = u32 z.
Proof. wrap_lia. Qed.
Lemma u8_id z : is_u8 z -> u8 z = z.
Proof. wrap_lia. Qed.
Lemma u32_id z : is_u32 z -> u32 z = z.
Proof. wrap_lia. Qed.
Lemma u64_id z : is_u64 z -> u64 z = z.
Proof. wrap_lia. Qed.
Lemma s32_id z : is_s32 z -> s32 z = z.
Proof. wrap_lia. Qed.
Lemma s64_id z : is_s64 z -> s64 z = z.
Proof. wrap_lia. Qed.
#[export] Hint Resolve u8_range u32_range u64_range s32_range s64_range : alice.

(** ** Flag words: [f & m], [f |= m], [f &= ~m] *)

Definition has_flag (f m : Z) : bool := negb (Z.land f m =? 0).
Definition set_flag (f m : Z) : Z := Z.lor f m.
Definition clear_flag (f m : Z) : Z := Z.land f (Z.lnot m).

Lemma has_set_disjoint f a b : Z.land a b = 0 -> has_flag (set_flag f a) b = has_flag f b.
Proof.
  intros H. unfold has_flag, set_flag. f_equal. f_equal.
  rewrite Z.land_lor_distr_l, H. apply Z.lor_0_r.
Qed.

Lemma has_set_sub f a b : b <> 0 -> Z.land a b = b -> has_flag (set_flag f a) b = true.
Proof.
  intros Hb H. unfold has_flag, set_flag.
  rewrite Z.land_lor_distr_l, H.
  destruct (Z.eqb_spec (Z.lor (Z.land f b) b) 0) as [E|E]; [|done].
  apply Z.lor_eq_0_iff in E. lia.
Qed.

Lemma has_clear_disjoint f a b : Z.land a b = 0 -> has_flag (clear_flag f a) b = has_flag f b.
Proof.
  intros H. unfold has_flag, clear_flag. f_equal. f_equal.
  apply Z.bits_inj'. intros n Hn.
  assert (Hb : Z.testbit (Z.land a b) n = false) by (rewrite H; apply Z.bits_0).
  rewrite Z.land_spec in Hb.
  rewrite !Z.land_spec, Z.lnot_spec by done.
  destruct (Z.testbit f n), (Z.testbit a n), (Z.testbit b n); done.
Qed.

Lemma has_clear_sub f a b : Z.land a b = b -> has_flag (clear_flag f a) b = false.
Proof.
  intros H. unfold has_flag, clear_flag.
  replace (Z.land (Z.land f (Z.lnot a)) b) with 0; [done|].
  symmetry. apply Z.bits_inj'. intros n Hn.
  assert (Hb : Z.testbit (Z.land a b) n = Z.testbit b n) by (by rewrite H).
  rewrite Z.land_spec in Hb.
  rewrite Z.bits_0, !Z.land_spec, Z.lnot_spec by done.
  destruct (Z.testbit f n), (Z.testbit a n), (Z.testbit b n); done.
Qed.

Lemma has_flag_0 m : has_flag 0 m = false.
Proof. done. Qed.

(** Decide a flag test through a chain of set and clear operations on
    concrete masks. *)
Ltac flag_step :=
  first
    [ rewrite has_flag_0
    | rewrite has_set_disjoint by reflexivity
    | rewrite has_set_sub by (first [reflexivity | discriminate])
    | rewrite has_clear_disjoint by reflexivity
    | rewrite has_clear_sub by reflexivity ].
Ltac flags := repeat flag_step.

(** ** Characters and strings *)

(** The character with code [z] (C conversion of an [int] to [char]). *)
Definition chr (z : Z) : ascii := ascii_of_N (Z.to_N (u8 z)).
(** The code of a character, as [unsigned char]. *)
Definition ord (c : ascii) : Z := Z.of_N (N_of_ascii c).

Lemma ord_range c : is_u8 (ord c).
Proof.
  unfold ord, is_u8. pose proof (N_ascii_bounded c). lia.
Qed.
Lemma chr_ord c : chr (ord c) = c.
Proof.
  unfold chr. rewrite u8_id by apply ord_range.
  unfold ord. rewrite N2Z.id. apply ascii_N_embedding.
Qed.
Lemma ord_chr z : is_u8 z -> ord (chr z) = z.
Proof.
  intros H. unfold ord, chr. rewrite u8_id by done.
  unfold is_u8 in H. rewrite N_ascii_embedding by lia. lia.
Qed.
#[export] Hint Resolve ord_range : alice.

Lemma app_String c s t : String c s +:+ t = String c (s +:+ t).
Proof. done. Qed.
Lemma app_Empty t : EmptyString +:+ t = t.
Proof. done. Qed.
Lemma sapp_nil_r s : s +:+ EmptyString = s.
Proof. induction s as [|c s IH]; [done|]. by rewrite app_String, IH. Qed.
Lemma sapp_assoc s t u : (s +:+ t) +:+ u = s +:+ (t +:+ u).
Proof. induction s as [|c s IH]; [done|]. by rewrite !app_String, IH. Qed.
#[export] Hint Rewrite app_String app_Empty sapp_nil_r sapp_assoc : alice_rw.

Fixpoint string_of_bytes (l : list Z) : string :=
  match l with
  | [] => EmptyString
  | z :: l => String (chr z) (string_of_bytes l)
  end.
Fixpoint bytes_of_string (s : string) : list Z :=
  match s with
  | EmptyString => []
  | String c s => ord c :: bytes_of_string s
  end.

Definition slen (s : string) : Z := Z.of_nat (String.length s).

Lemma string_of_bytes_of_string s : string_of_bytes (bytes_of_string s) = s.
Proof. induction s as [|c s IH]; [done|]. simpl. by rewrite chr_ord, IH. Qed.

Lemma bytes_of_string_of_bytes l :
  Forall is_u8 l -> bytes_of_string (string_of_bytes l) = l.
Proof. induction 1 as [|z l Hz _ IH]; [done|]. simpl. by rewrite ord_chr, IH. Qed.

Lemma bytes_of_string_range s : Forall is_u8 (bytes_of_string s).
Proof. induction s; simpl; constructor; auto with alice. Qed.

Lemma length_bytes_of_string s : length (bytes_of_string s) = String.length s.
Proof. induction s; simpl; congruence. Qed.

Lemma bytes_of_string_app s t :
  bytes_of_string (s +:+ t) = bytes_of_string s ++ bytes_of_string t.
Proof.
  induction s as [|c s IH]; [done|].
  rewrite app_String. simpl. by rewrite IH.
Qed.

(** [slen] is a homomorphism; the two facts every column computation uses. *)
Lemma slen_app s t : slen (s +:+ t) = slen s + slen t.
Proof.
  unfold slen. induction s as [|c s IH]; [done|].
  rewrite app_String. simpl String.length. lia.
Qed.
Lemma slen_nonneg s : 0 <= slen s.
Proof. unfold slen. lia. Qed.
#[export] Hint Resolve slen_nonneg : alice.

(** ** Characters classes of the C library *)

Definition is_space (c : ascii) : bool :=
  let o := ord c in (o =? 32) || ((9 <=? o) && (o <=? 13)).
Fixpoint skip_ws (s : string) : string :=
  match s with
  | String c s' => if is_space c then skip_ws s' else s
  | EmptyString => EmptyString
  end.

Definition is_dec (c : ascii) : bool := (48 <=? ord c) && (ord c <=? 57).

(** The decimal digits at the front of a text: their value and the rest. *)
Fixpoint scan_dec (acc : Z) (s : string) : Z * string :=
  match s with
  | String c s' => if is_dec c then scan_dec (10 * acc + (ord c - 48)) s' else (acc, s)
  | EmptyString => (acc, s)
  end.
Definition starts_dec (s : string) : bool :=
  match s with String c _ => is_dec c | EmptyString => false end.

(** The lower-case hexadecimal digits at the front of a text. *)
Definition is_hex (c : ascii) : bool := is_dec c || ((97 <=? ord c) && (ord c <=? 102)).
Definition hex_val (c : ascii) : Z := if is_dec c then ord c - 48 else ord c - 87.
Fixpoint scan_hex (acc : Z) (s : string) : Z * string :=
  match s with
  | String c s' => if is_hex c then scan_hex (16 * acc + hex_val c) s' else (acc, s)
  | EmptyString => (acc, s)
  end.
Definition starts_hex (s : string) : bool :=
  match s with String c _ => is_hex c | EmptyString => false end.

(** ** Number text: the C library's integer conversions *)

Definition digit_char (d : Z) : ascii :=
  if d <? 10 then chr (48 + d) else chr (87 + d).

(** Digits of [n] in [base], least significant first; [n = 0] has one digit. *)
Fixpoint digits_aux (fuel : nat) (base n : Z) : list Z :=
  match fuel with
  | O => []
  | S fuel => if n <? base then [n] else n mod base :: digits_aux fuel base (n / base)
  end.
Definition digits (base n : Z) : list Z := digits_aux (S (Z.to_nat (Z.log2 n))) base n.

Definition text_of_digits (ds : list Z) : string :=
  fold_left (fun acc d => String (digit_char d) acc) ds EmptyString.

(** %lu / %u, %x, %o of a non-negative value. *)
Definition fmt_u (n : Z) : string := text_of_digits (digits 10 n).
Definition fmt_x (n : Z) : string := text_of_digits (digits 16 n).
Definition fmt_o (n : Z) : string := text_of_digits (digits 8 n).
(** %d / %ld. *)
Definition fmt_d (n : Z) : string :=
  if n <? 0 then String "-" (fmt_u (- n)) else fmt_u n.
(** %#x and %#o: no prefix on zero. *)
Definition fmt_sx (n : Z) : string := if n =? 0 then "0"%string else ("0x" +:+ fmt_x n)%string.
Definition fmt_so (n : Z) : string := if n =? 0 then "0"%string else ("0" +:+ fmt_o n)%string.

(** Field width: pad on the left (or right) with a character. *)
Definition pad_left (w : Z) (c : ascii) (s : string) : string :=
  (String.string_of_list_ascii (repeat c (Z.to_nat (w - slen s))) +:+ s)%string.
Definition pad_right (w : Z) (c : ascii) (s : string) : string :=
  (s +:+ String.string_of_list_ascii (repeat c (Z.to_nat (w - slen s))))%string.

(** Value of a digit list, least significant digit first. *)
Fixpoint digits_val (base : Z) (ds : list Z) : Z :=
  match ds with
  | [] => 0
  | d :: ds => d + base * digits_val base ds
  end.

Lemma digits_aux_val fuel base n :
  2 <= base -> 0 <= n < 2 ^ Z.of_nat fuel ->
  digits_val base (digits_aux fuel base n) = n.
Proof.
  intros Hb. revert n. induction fuel as [|fuel IH]; intros n Hn.
  { simpl in *. lia. }
  cbn [digits_aux]. destruct (Z.ltb_spec n base) as [Hlt|Hge]; [simpl; lia|].
  cbn [digits_val]. rewrite IH.
  - pose proof (Z.div_mod n base ltac:(lia)). lia.
  - rewrite Nat2Z.inj_succ, Z.pow_succ_r in Hn by lia.
    split; [apply Z.div_pos; lia|].
    apply Z.div_lt_upper_bound; [lia|].
    assert (0 < 2 ^ Z.of_nat fuel) by (apply Z.pow_pos_nonneg; lia). nia.
Qed.

Lemma digits_fuel_ok n : 0 <= n -> 0 <= n < 2 ^ Z.of_nat (S (Z.to_nat (Z.log2 n))).
Proof.
  intros Hn. split; [done|].
  rewrite Nat2Z.inj_succ, Z2Nat.id by apply Z.log2_nonneg.
  destruct (decide (n = 0)) as [->|Hz]; [done|].
  pose proof (Z.log2_spec n). lia.
Qed.

Lemma digits_value base n : 2 <= base -> 0 <= n -> digits_val base (digits base n) = n.
Proof. intros. apply digits_aux_val; [done|]. by apply digits_fuel_ok. Qed.

Lemma digits_range base n :
  2 <= base -> 0 <= n -> Forall (fun d => 0 <= d < base) (digits base n).
Proof.
  intros Hb. unfold digits. generalize (S (Z.to_nat (Z.log2 n))) as fuel.
  intros fuel. revert n. induction fuel as [|fuel IH]; intros n Hn; [constructor|].
  cbn [digits_aux]. destruct (Z.ltb_spec n base); [repeat constructor; lia|].
  constructor; [apply Z.mod_pos_bound; lia|]. apply IH. apply Z.div_pos; lia.
Qed.

(** The number of digits. *)
Lemma length_digits_aux fuel base n k :
  2 <= base -> 0 <= n < base ^ Z.of_nat (S k) -> (length (digits_aux fuel base n) <= S k)%nat.
Proof.
  intros Hb. revert n k. induction fuel as [|fuel IH]; intros n k Hn; [simpl; lia|].
  cbn [digits_aux]. destruct (Z.ltb_spec n base); [simpl; lia|].
  destruct k as [|k]; [simpl in Hn; lia|]. cbn [length]. apply le_n_S, IH.
  split; [apply Z.div_pos; lia|]. apply Z.div_lt_upper_bound; [lia|].
  rewrite (Nat2Z.inj_succ (S k)), Z.pow_succ_r in Hn by lia. lia.
Qed.

Lemma slen_text_of_digits ds : slen (text_of_digits ds) = Z.of_nat (length ds).
Proof.
  unfold text_of_digits. enough (H : forall acc, slen (fold_left
    (fun acc d => String (digit_char d) acc) ds acc) = Z.of_nat (length ds) + slen acc)
    by (rewrite H; unfold slen; simpl; lia).
  induction ds as [|d ds IH]; intros acc; [done|]. cbn [fold_left length]. rewrite IH.
  unfold slen. simpl String.length. lia.
Qed.

(** A decimal number below 10^k has at most [k] digits. *)
Lemma slen_fmt_u n k : (0 < k)%nat -> 0 <= n < 10 ^ Z.of_nat k -> slen (fmt_u n) <= Z.of_nat k.
Proof.
  intros Hk Hn. unfold fmt_u. rewrite slen_text_of_digits. unfold digits.
  destruct k as [|k]; [lia|].
  pose proof (length_digits_aux (S (Z.to_nat (Z.log2 n))) 10 n k ltac:(lia) Hn). lia.
Qed.
Lemma slen_fmt_u_u64 n : is_u64 n -> slen (fmt_u n) <= 20.
Proof. intros Hn. apply (slen_fmt_u n 20); [lia|]. unfold is_u64 in Hn. lia. Qed.
Lemma slen_fmt_d_s32 n : is_s32 n -> slen (fmt_d n) <= 11.
Proof.
  intros Hn. unfold is_s32 in Hn. unfold fmt_d. destruct (Z.ltb_spec n 0).
  - change (slen (String "-" (fmt_u (- n)))) with (slen ("-" +:+ fmt_u (- n))).
    rewrite slen_app. change (slen "-") with 1.
    pose proof (slen_fmt_u (- n) 10 ltac:(lia)). lia.
  - pose proof (slen_fmt_u n 10 ltac:(lia)). lia.
Qed.

Lemma slen_fmt_sx_u64 n : is_u64 n -> slen (fmt_sx n) <= 18.
Proof.
  intros Hn. unfold fmt_sx. destruct (n =? 0); [done|]. rewrite slen_app.
  unfold fmt_x. rewrite slen_text_of_digits. unfold digits.
  pose proof (length_digits_aux (S (Z.to_nat (Z.log2 n))) 16 n 15). unfold is_u64 in Hn.
  change (16 ^ Z.of_nat 16) with (2 ^ 64) in *. change (slen "0x") with 2. lia.
Qed.
Lemma slen_fmt_sx_u32 n : is_u32 n -> slen (fmt_sx n) <= 10.
Proof.
  intros Hn. unfold fmt_sx. destruct (n =? 0); [done|]. rewrite slen_app.
  unfold fmt_x. rewrite slen_text_of_digits. unfold digits.
  pose proof (length_digits_aux (S (Z.to_nat (Z.log2 n))) 16 n 7). unfold is_u32 in Hn.
  change (16 ^ Z.of_nat 8) with (2 ^ 32) in *. change (slen "0x") with 2. lia.
Qed.

(** A property of all 256 byte values, by evaluation. *)
Lemma all_bytes (f : Z -> bool) c :
  forallb (fun n => f (Z.of_nat n)) (seq 0 256) = true -> is_u8 c -> f c = true.
Proof.
  intros Hf Hc. rewrite forallb_forall in Hf.
  replace c with (Z.of_nat (Z.to_nat c)) by (unfold is_u8 in Hc; lia).
  apply Hf, in_seq. unfold is_u8 in Hc. lia.
Qed.

(** ** Reading back decimal text *)

Lemma text_of_digits_snoc ds d :
  text_of_digits (ds ++ [d]) = String (digit_char d) (text_of_digits ds).
Proof. unfold text_of_digits. by rewrite fold_left_app. Qed.

Lemma digits_val_snoc base ds d :
  digits_val base (ds ++ [d]) = digits_val base ds + base ^ Z.of_nat (length ds) * d.
Proof.
  induction ds as [|d0 ds IH]; cbn [digits_val app length]; [lia|].
  rewrite IH, Nat2Z.inj_succ, Z.pow_succ_r by lia. ring.
Qed.

Lemma dec_digit_char d : 0 <= d < 10 -> is_dec (digit_char d) = true /\ ord (digit_char d) = 48 + d.
Proof.
  intros Hd. unfold digit_char, is_dec. replace (d <? 10) with true by lia.
  rewrite ord_chr by (unfold is_u8; lia). split; lia.
Qed.

Lemma scan_dec_digits acc ds s :
  Forall (fun d => 0 <= d < 10) ds -> starts_dec s = false ->
  scan_dec acc (text_of_digits ds +:+ s) =
    (acc * 10 ^ Z.of_nat (length ds) + digits_val 10 ds, s).
Proof.
  intros Hds Hs. revert acc. induction ds as [|d ds IH] using rev_ind; intros acc.
  { change (text_of_digits []) with EmptyString. rewrite app_Empty.
    replace (acc * _ + _) with acc by (simpl; lia).
    destruct s as [|c s]; [done|]. simpl in *. by rewrite Hs. }
  apply Forall_app in Hds as [Hds Hd]. inversion Hd as [|? ? Hd0 _]; subst.
  rewrite text_of_digits_snoc, app_String. cbn [scan_dec].
  destruct (dec_digit_char d Hd0) as [-> ->]. rewrite IH by done. f_equal.
  rewrite digits_val_snoc, length_app. simpl length.
  rewrite Nat2Z.inj_add, Z.pow_add_r by lia. change (10 ^ Z.of_nat 1) with 10. ring.
Qed.

Lemma scan_dec_fmt_u n s :
  0 <= n -> starts_dec s = false -> scan_dec 0 (fmt_u n +:+ s) = (n, s).
Proof.
  intros Hn Hs. unfold fmt_u. rewrite scan_dec_digits; [|by apply digits_range|done].
  by rewrite digits_value by lia.
Qed.

Lemma hex_digit_char d : 0 <= d < 16 -> is_hex (digit_char d) = true /\ hex_val (digit_char d) = d.
Proof.
  intros Hd. assert (Hin : In (Z.to_nat d) (seq 0 16)) by (apply in_seq; lia).
  rewrite <- (Z2Nat.id d) by lia. revert Hin. generalize (Z.to_nat d). clear. intros n.
  simpl. intros H. repeat destruct H as [<-|H]; try done.
Qed.

Lemma scan_hex_digits acc ds s :
  Forall (fun d => 0 <= d < 16) ds -> starts_hex s = false ->
  scan_hex acc (text_of_digits ds +:+ s) =
    (acc * 16 ^ Z.of_nat (length ds) + digits_val 16 ds, s).
Proof.
  intros Hds Hs. revert acc. induction ds as [|d ds IH] using rev_ind; intros acc.
  { change (text_of_digits []) with EmptyString. rewrite app_Empty.
    replace (acc * _ + _) with acc by (simpl; lia).
    destruct s as [|c s]; [done|]. simpl in *. by rewrite Hs. }
  apply Forall_app in Hds as [Hds Hd]. inversion Hd as [|? ? Hd0 _]; subst.
  rewrite text_of_digits_snoc, app_String. cbn [scan_hex].
  destruct (hex_digit_char d Hd0) as [-> ->]. rewrite IH by done. f_equal.
  rewrite digits_val_snoc, length_app. simpl length.
  rewrite Nat2Z.inj_add, Z.pow_add_r by lia. change (16 ^ Z.of_nat 1) with 16. ring.
Qed.

Lemma scan_hex_fmt_x n s :
  0 <= n -> starts_hex s = false -> scan_hex 0 (fmt_x n +:+ s) = (n, s).
Proof.
  intros Hn Hs. unfold fmt_x. rewrite scan_hex_digits; [|by apply digits_range|done].
  by rewrite digits_value by lia.
Qed.

(** A decimal number starts with a digit. *)
Lemma fmt_u_head n : 0 <= n -> exists c s, fmt_u n = String c s /\ is_dec c = true.
Proof.
  intros Hn. unfold fmt_u. pose proof (digits_range 10 n ltac:(lia) Hn) as Hr.
  destruct (digits 10 n) as [|d ds _] eqn:E using rev_ind.
  { unfold digits in E. cbn [digits_aux] in E. by destruct (n <? 10). }
  apply Forall_app in Hr as [_ Hd]. inversion Hd as [|? ? Hd0 _]; subst.
  rewrite text_of_digits_snoc. eexists _, _. split; [done|]. by apply dec_digit_char.
Qed.

(** Bits below and above a power of two do not overlap. *)
Lemma lor_add k a b : 0 <= k -> 0 <= b < 2 ^ k -> Z.lor (2 ^ k * a) b = 2 ^ k * a + b.
Proof.
  intros Hk Hb. symmetry. apply Z.add_nocarry_lor. apply Z.bits_inj'. intros n Hn.
  rewrite Z.land_spec, Z.bits_0, Z.mul_comm. destruct (Z.lt_ge_cases n k).
  - by rewrite Z.mul_pow2_bits_low.
  - destruct (decide (b = 0)) as [->|]; [by rewrite Z.bits_0, andb_comm|].
    rewrite (Z.bits_above_log2 b), andb_comm; [done|lia|].
    apply Z.log2_lt_pow2; [lia|]. apply Z.lt_le_trans with (2 ^ k); [lia|].
    apply Z.pow_le_mono_r; lia.
Qed.
