(* ===== verification/Clib.v ===== *)
(** * Functions of the C library that more than one component relies on

    strcmp, with the order it defines, and what is documented of qsort, which is a
    parameter wherever it is called. *)

From Stdlib Require Import Sorting.Sorted.
From stdpp Require Import sorting.
From S2P Require Import Prelude.
Local Open Scope string_scope.
Local Open Scope list_scope.
Local Open Scope Z_scope.

(** ** strcmp *)

Fixpoint strcmp (s t : string) : Z :=
  match s, t with
  | EmptyString, EmptyString => 0
  | EmptyString, _ => -1
  | _, EmptyString => 1
  | String a s, String b t =>
      let x := Z.of_N (N_of_ascii a) in
      let y := Z.of_N (N_of_ascii b) in
      if x =? y then strcmp s t else if x <? y then -1 else 1
  end.

Lemma strcmp_refl s : strcmp s s = 0.
Proof. induction s; simpl; [done|]. by rewrite Z.eqb_refl. Qed.

Lemma N_of_ascii_inj a b : N_of_ascii a = N_of_ascii b -> a = b.
Proof. intros H. by rewrite <- (ascii_N_embedding a), H, ascii_N_embedding. Qed.

Lemma strcmp_0 s t : strcmp s t = 0 <-> s = t.
Proof.
  split; [|intros ->; apply strcmp_refl].
  revert t. induction s as [|a s IH]; intros [|b t]; cbn [strcmp]; try done. cbv zeta.
  destruct (Z.eqb_spec (Z.of_N (N_of_ascii a)) (Z.of_N (N_of_ascii b))) as [H|H]; [|by destruct (_ <? _)].
  intros Hs. f_equal; [apply N_of_ascii_inj; lia|by apply IH].
Qed.

Lemma strcmp_antisym s t : strcmp t s = - strcmp s t.
Proof.
  revert t. induction s as [|a s IH]; intros [|b t]; cbn [strcmp]; try done. cbv zeta.
  rewrite (Z.eqb_sym (Z.of_N (N_of_ascii b))). destruct (Z.eqb_spec (Z.of_N (N_of_ascii a)) (Z.of_N (N_of_ascii b))); [apply IH|].
  destruct (Z.ltb_spec (Z.of_N (N_of_ascii a)) (Z.of_N (N_of_ascii b))),
    (Z.ltb_spec (Z.of_N (N_of_ascii b)) (Z.of_N (N_of_ascii a))); lia.
Qed.

Lemma strcmp_trans s t u : strcmp s t <= 0 -> strcmp t u <= 0 -> strcmp s u <= 0.
Proof.
  revert t u. induction s as [|a s IH]; intros [|b t] [|c u]; cbn [strcmp]; try lia. cbv zeta.
  repeat match goal with
  | |- context [?x =? ?y] => destruct (Z.eqb_spec x y)
  | |- context [?x <? ?y] => destruct (Z.ltb_spec x y)
  end; try lia. apply IH.
Qed.

(** The order of names. *)
Definition str_lt (s t : string) : Prop := strcmp s t < 0.

Lemma str_lt_trans s t u : str_lt s t -> str_lt t u -> str_lt s u.
Proof.
  unfold str_lt. intros H1 H2. pose proof (strcmp_trans s t u).
  destruct (Z.eq_dec (strcmp s u) 0) as [E|E]; [|lia]. apply strcmp_0 in E as <-.
  pose proof (strcmp_antisym s t). lia.
Qed.

(** ** qsort *)

(** A comparison that qsort can work with. *)
Record ordering {A} (cmp : A -> A -> Z) : Prop := {
  ord_total a b : cmp a b <= 0 \/ cmp b a <= 0;
  ord_trans a b c : cmp a b <= 0 -> cmp b c <= 0 -> cmp a c <= 0
}.

(** The array is permuted, and sorted when the comparison is consistent. *)
Definition qsort_ok {A} (qsort : (A -> A -> Z) -> list A -> list A) : Prop := forall cmp l,
  qsort cmp l ≡ₚ l /\ (ordering cmp -> Sorted (fun a b => cmp a b <= 0) (qsort cmp l)).

Lemma qsort_sorted {A} qsort cmp (l : list A) :
  qsort_ok qsort -> ordering cmp -> StronglySorted (fun a b => cmp a b <= 0) (qsort cmp l).
Proof.
  intros Hq Ho. apply Sorted_StronglySorted; [intros a b c; apply (ord_trans _ Ho)|]. by apply Hq.
Qed.

(** The contract can be met. *)
Definition merge_qsort {A} (cmp : A -> A -> Z) (l : list A) : list A :=
  @merge_sort _ (fun a b => cmp a b <= 0) (fun a b => decide (cmp a b <= 0)) l.
Lemma merge_qsort_ok {A} : qsort_ok (@merge_qsort A).
Proof.
  intros cmp l. split; [apply merge_sort_Permutation|]. intros Ho.
  apply Sorted_merge_sort. intros a b. apply (ord_total _ Ho).
Qed.
