(* ===== verification/Timeval.v ===== *)
(** * struct timeval arithmetic (util.c: tv_nz .. tv_mul)

    [time_t] and [suseconds_t] are signed 64-bit longs on x86_64.  Signed
    overflow is undefined in C, so the operations are written on exact
    integers.  C's [/] and [%] truncate towards zero: [Z.quot] and [Z.rem]. *)

From S2P Require Import Prelude.

Record timeval := mk_tv { tv_sec : Z; tv_usec : Z }.

#[global] Instance timeval_eq_dec : EqDecision timeval.
Proof. solve_decision. Defined.

Definition tv_zero : timeval := mk_tv 0 0.

(** C truth value of [a->tv_sec || a->tv_usec]. *)
Definition tv_nz (a : timeval) : bool :=
  negb (tv_sec a =? 0) || negb (tv_usec a =? 0).

Definition tv_cmp (a b : timeval) : Z :=
  if (tv_sec a <? tv_sec b) || ((tv_sec a =? tv_sec b) && (tv_usec a <? tv_usec b))
  then -1
  else if (tv_sec a >? tv_sec b) || ((tv_sec a =? tv_sec b) && (tv_usec a >? tv_usec b))
  then 1
  else 0.

Definition tv_add (a b : timeval) : timeval :=
  let sec := tv_sec a + tv_sec b in
  let usec := tv_usec a + tv_usec b in
  if usec >=? 1000000 then mk_tv (sec + 1) (usec - 1000000) else mk_tv sec usec.

Definition tv_sub (a b : timeval) : timeval :=
  let sec := tv_sec a - tv_sec b in
  let usec := tv_usec a - tv_usec b in
  if usec <? 0 then mk_tv (sec - 1) (usec + 1000000) else mk_tv sec usec.

Definition tv_div (a : timeval) (n : Z) : timeval :=
  let usec := Z.quot (Z.rem (tv_sec a) n * 1000000 + tv_usec a + Z.quot n 2) n in
  let sec := Z.quot (tv_sec a) n + Z.quot usec 1000000 in
  mk_tv sec (Z.rem usec 1000000).

Definition tv_mul (a : timeval) (n : Z) : timeval :=
  let usec := tv_usec a * n in
  let sec := tv_sec a * n + Z.quot usec 1000000 in
  mk_tv sec (Z.rem usec 1000000).

(** ** Specification: a timeval denotes a number of microseconds *)

Definition tv_us (a : timeval) : Z := tv_sec a * 1000000 + tv_usec a.
Definition tv_ok (a : timeval) : Prop := 0 <= tv_usec a < 1000000.

#[global] Instance tv_ok_dec a : Decision (tv_ok a).
Proof. unfold tv_ok. apply _. Defined.

Ltac tv_cases :=
  repeat match goal with
  | |- context [if ?b then _ else _] => destruct b eqn:?
  end.

Lemma tv_add_ok a b : tv_ok a -> tv_ok b -> tv_ok (tv_add a b).
Proof. unfold tv_ok, tv_add; simpl. intros. tv_cases; simpl; lia. Qed.

Lemma tv_add_us a b : tv_us (tv_add a b) = tv_us a + tv_us b.
Proof. unfold tv_us, tv_add; simpl. tv_cases; simpl; lia. Qed.

Lemma tv_sub_ok a b : tv_ok a -> tv_ok b -> tv_ok (tv_sub a b).
Proof. unfold tv_ok, tv_sub; simpl. intros. tv_cases; simpl; lia. Qed.

Lemma tv_sub_us a b : tv_us (tv_sub a b) = tv_us a - tv_us b.
Proof. unfold tv_us, tv_sub; simpl. tv_cases; simpl; lia. Qed.

Lemma tv_us_inj a b : tv_ok a -> tv_ok b -> tv_us a = tv_us b -> a = b.
Proof.
  destruct a as [s u], b as [s' u']. unfold tv_ok, tv_us; simpl. intros.
  f_equal; lia.
Qed.

Lemma tv_cmp_us a b : tv_ok a -> tv_ok b -> tv_cmp a b = Z.sgn (tv_us a - tv_us b).
Proof.
  intros Ha Hb. unfold tv_ok, tv_us, tv_cmp in *. tv_cases; lia.
Qed.

Lemma tv_nz_us a : tv_ok a -> tv_nz a = negb (tv_us a =? 0).
Proof. unfold tv_ok, tv_us, tv_nz. intros. lia. Qed.

Lemma tv_mul_us a n : tv_us (tv_mul a n) = n * tv_us a.
Proof.
  unfold tv_us, tv_mul; simpl.
  pose proof (Z.quot_rem' (tv_usec a * n) 1000000). lia.
Qed.

Lemma tv_mul_ok a n : tv_ok a -> 0 <= n -> tv_ok (tv_mul a n).
Proof.
  unfold tv_ok, tv_mul; simpl. intros Ha Hn.
  apply Z.rem_bound_pos; [nia|lia].
Qed.

(** Splitting a non-negative duration over [n] parts, before rounding. *)
Lemma tv_div_numerator a n :
  0 <= tv_sec a -> tv_ok a -> 0 < n ->
  (tv_us a + n / 2) / n
  = (tv_sec a / n) * 1000000 + (tv_sec a mod n * 1000000 + tv_usec a + n / 2) / n.
Proof.
  intros Hs Ha Hn. rewrite <- (Z.div_add_l _ n (_ + _)) by lia. f_equal.
  unfold tv_us. rewrite (Z.div_mod (tv_sec a) n) at 1 by lia. ring.
Qed.

Lemma tv_div_us a n :
  0 <= tv_sec a -> tv_ok a -> 0 < n ->
  tv_us (tv_div a n) = (tv_us a + n / 2) / n.
Proof.
  intros Hs Ha Hn. rewrite tv_div_numerator by done.
  pose proof (Z.mod_pos_bound (tv_sec a) n Hn).
  assert (0 <= n / 2) by (apply Z.div_pos; lia). unfold tv_ok in Ha.
  unfold tv_us, tv_div; simpl.
  rewrite (Z.rem_mod_nonneg (tv_sec a)), (Z.quot_div_nonneg n 2),
    (Z.quot_div_nonneg (tv_sec a)), (Z.quot_div_nonneg _ n) by lia.
  set (q := (_ + _ + _) / n).
  pose proof (Z.quot_rem' q 1000000). lia.
Qed.

Lemma tv_div_ok a n : 0 <= tv_sec a -> tv_ok a -> 0 < n -> tv_ok (tv_div a n).
Proof.
  unfold tv_ok, tv_div; simpl. intros Hs Ha Hn.
  apply Z.rem_bound_pos; [|lia]. apply Z.quot_pos; [|lia].
  pose proof (Z.rem_bound_pos (tv_sec a) n Hs Hn).
  assert (0 <= Z.quot n 2) by (apply Z.quot_pos; lia). lia.
Qed.
#[export] Hint Resolve tv_add_ok tv_sub_ok tv_mul_ok tv_div_ok : alice.

(** ** Properties *)

(** On normalised timevals (0 <= tv_usec < 10^6) tv_add and tv_sub are
    exact addition and subtraction of microsecond counts, tv_cmp is the sign of
    the difference and tv_nz tests it against zero, and the results are
    normalised again, also when the difference is negative. *)
Theorem tv_add_sub_cmp_exact a b :
  tv_ok a -> tv_ok b ->
  tv_us (tv_add a b) = tv_us a + tv_us b /\ tv_ok (tv_add a b) /\
  tv_us (tv_sub a b) = tv_us a - tv_us b /\ tv_ok (tv_sub a b) /\
  tv_cmp a b = Z.sgn (tv_us a - tv_us b) /\
  tv_nz (tv_sub a b) = negb (tv_us a =? tv_us b).
Proof.
  intros Ha Hb.
  split_and!; auto using tv_add_us, tv_sub_us, tv_cmp_us with alice.
  rewrite tv_nz_us by auto with alice. rewrite tv_sub_us. f_equal. lia.
Qed.

Lemma tv_add_sub_cmp_exact_witness :
  tv_us (tv_sub (mk_tv 3 100) (mk_tv 1 200)) = 1999900 /\
  tv_sub (mk_tv 3 100) (mk_tv 1 200) = mk_tv 1 999900.
Proof.
  split; [|reflexivity].
  refine (eq_trans (proj1 (proj2 (proj2
    (tv_add_sub_cmp_exact (mk_tv 3 100) (mk_tv 1 200) _ _)))) _);
    [split; vm_compute; congruence | split; vm_compute; congruence | reflexivity].
Defined.

(** Dividing a non-negative duration over n calls (tv_div) rounds the
    microsecond count to the nearest integer, ties up, and multiplying by a
    count (tv_mul) is exact; both return normalised timevals. *)
Theorem tv_div_rounds_to_nearest a n :
  0 <= tv_sec a -> tv_ok a -> 0 < n ->
  tv_us (tv_div a n) = (2 * tv_us a + 2 * (n / 2)) / (2 * n) /\
  2 * Z.abs (n * tv_us (tv_div a n) - tv_us a) <= n /\
  tv_ok (tv_div a n) /\
  tv_us (tv_mul a n) = n * tv_us a /\ tv_ok (tv_mul a n).
Proof.
  intros Hs Ha Hn. rewrite tv_div_us by done.
  replace (2 * tv_us a + 2 * (n / 2)) with (2 * (tv_us a + n / 2)) by lia.
  rewrite Z.div_mul_cancel_l by lia.
  split_and!; auto using tv_mul_us with alice zarith.
  Z.div_mod_to_equations. nia.
Qed.

Lemma tv_div_rounds_to_nearest_witness :
  tv_us (tv_div (mk_tv 7 500000) 4) = 1875000 /\ tv_div (mk_tv 7 500000) 4 = mk_tv 1 875000.
Proof.
  split; [|reflexivity].
  refine (eq_trans (proj1 (tv_div_rounds_to_nearest (mk_tv 7 500000) 4 _ _ _)) _);
    [vm_compute; congruence | split; vm_compute; congruence
    | reflexivity | reflexivity].
Defined.
