(* ===== verification/Xlat.v ===== *)
(** * Flag and value tables (util.c: xlookup, printxval, addflags,
      sprintflags, printflags; defs.h: struct xlat)

    A table is the list of its entries; the C terminator [{ 0, NULL }] is the
    end of the list.  [int] values are kept as signed 32-bit integers, on which
    [&] and [~] are [Z.land] and [Z.lnot]; [%#x] prints the unsigned image.
    Text sent to [tprints]/[tprintf] is returned. *)

From S2P Require Import Prelude.
Local Open Scope string_scope.
Local Open Scope list_scope.
Local Open Scope Z_scope.

Record xlat := mk_xlat { x_val : Z; x_str : string }.

Fixpoint xlookup (t : list xlat) (val : Z) : option string :=
  match t with
  | [] => None
  | e :: t => if x_val e =? val then Some (x_str e) else xlookup t val
  end.

Definition printxval (t : list xlat) (val : Z) (dflt : string) : string :=
  match xlookup t val with
  | Some str => str
  | None => fmt_sx (u32 val) +:+ " /* " +:+ dflt +:+ " */"
  end.

(** The flag loops of addflags and printflags take the entries whose bits are
    all set, in table order, and remove the bits they cover. *)
Definition flag_hit (e : xlat) (flags : Z) : bool :=
  negb (x_val e =? 0) && (Z.land flags (x_val e) =? x_val e).

Definition drop_bits (flags : Z) (e : xlat) : Z := Z.land flags (Z.lnot (x_val e)).

Fixpoint addflags (t : list xlat) (flags : Z) : string :=
  match t with
  | e :: t =>
      if flag_hit e flags
      then "|" +:+ x_str e +:+ addflags t (drop_bits flags e)
      else addflags t flags
  | [] => if flags =? 0 then "" else "|" +:+ fmt_sx (u32 flags)
  end.

(** The loop of sprintflags: zero entries match, and the loop stops when no
    bit is left.  [found] says whether a separator is due. *)
Fixpoint sprintflags_loop (t : list xlat) (flags : Z) (found : bool) : string :=
  match t with
  | e :: t =>
      if Z.land flags (x_val e) =? x_val e then
        (if found then "|" else "") +:+ x_str e +:+
        (let flags' := drop_bits flags e in
         if flags' =? 0 then "" else sprintflags_loop t flags' true)
      else sprintflags_loop t flags found
  | [] => if flags =? 0 then "" else (if found then "|" else "") +:+ fmt_sx (u32 flags)
  end.

Definition sprintflags (prefix : string) (t : list xlat) (flags : Z) : string :=
  prefix +:+ sprintflags_loop t flags false.

(** printflags: the loop returns the text printed, the flags left and the
    number of entries printed. *)
Fixpoint printflags_loop (t : list xlat) (flags : Z) (sep : string) (n : Z)
    : string * Z * string * Z :=
  match t with
  | e :: t =>
      if flag_hit e flags then
        let '(out, flags', sep', n') := printflags_loop t (drop_bits flags e) "|" (n + 1) in
        (sep +:+ x_str e +:+ out, flags', sep', n')
      else printflags_loop t flags sep n
  | [] => ("", flags, sep, n)
  end.

(** [None]: the table is empty and [flags] is 0, where the C code passes the
    terminator's NULL string to [tprints].  [dflt] is the [const char *]
    argument, NULL being [None]. *)
Definition printflags (t : list xlat) (flags : Z) (dflt : option string)
    : option (string * Z) :=
  let first_val := match t with e :: _ => x_val e | [] => 0 end in
  if (flags =? 0) && (first_val =? 0) then
    match t with
    | e :: _ => Some (x_str e, 1)
    | [] => None
    end
  else
    let '(out, flags', sep, n) := printflags_loop t flags "" 0 in
    Some
      (if negb (n =? 0) then
         if negb (flags' =? 0) then (out +:+ sep +:+ fmt_sx (u32 flags'), n + 1)
         else (out, n)
       else if negb (flags' =? 0) then
         (out +:+ fmt_sx (u32 flags') +:+
          match dflt with Some d => " /* " +:+ d +:+ " */" | None => "" end, n)
       else (out +:+ match dflt with Some _ => "0" | None => "" end, n)).

(** ** Specification: the decomposition of a flag word along a table *)

Fixpoint flag_entries (t : list xlat) (flags : Z) : list xlat :=
  match t with
  | [] => []
  | e :: t =>
      if flag_hit e flags then e :: flag_entries t (drop_bits flags e)
      else flag_entries t flags
  end.

Fixpoint flag_rest (t : list xlat) (flags : Z) : Z :=
  match t with
  | [] => flags
  | e :: t =>
      if flag_hit e flags then flag_rest t (drop_bits flags e) else flag_rest t flags
  end.

Definition bits_of (es : list xlat) : Z := foldr (fun e acc => Z.lor (x_val e) acc) 0 es.

(** Items joined by "|". *)
Fixpoint joined (items : list string) : string :=
  match items with
  | [] => ""
  | [s] => s
  | s :: items => s +:+ "|" +:+ joined items
  end.

Lemma flag_hit_spec e flags :
  flag_hit e flags = true <-> x_val e <> 0 /\ Z.land flags (x_val e) = x_val e.
Proof. unfold flag_hit. lia. Qed.

(** Removing a covered entry splits the word into two disjoint parts. *)
Lemma lor_drop_bits flags e :
  Z.land flags (x_val e) = x_val e -> Z.lor (x_val e) (drop_bits flags e) = flags.
Proof.
  intros H. unfold drop_bits. apply Z.bits_inj'. intros n Hn.
  assert (Hb : Z.testbit (Z.land flags (x_val e)) n = Z.testbit (x_val e) n) by (by rewrite H).
  rewrite Z.land_spec in Hb.
  rewrite Z.lor_spec, Z.land_spec, Z.lnot_spec by done.
  destruct (Z.testbit flags n), (Z.testbit (x_val e) n); done.
Qed.

Lemma land_drop_bits flags e : Z.land (drop_bits flags e) (x_val e) = 0.
Proof.
  unfold drop_bits. apply Z.bits_inj'. intros n Hn.
  rewrite !Z.land_spec, Z.lnot_spec, Z.bits_0 by done.
  destruct (Z.testbit flags n), (Z.testbit (x_val e) n); done.
Qed.

(** [sub a b]: every bit of [a] is a bit of [b]. *)
Definition sub (a b : Z) : Prop := Z.land a b = a.

Lemma sub_refl a : sub a a.
Proof. unfold sub. by rewrite Z.land_diag. Qed.
Lemma sub_land_0 a b c : sub a b -> Z.land b c = 0 -> Z.land a c = 0.
Proof. unfold sub. intros <- H. by rewrite <- Z.land_assoc, H, Z.land_0_r. Qed.
Lemma sub_trans a b c : sub a b -> sub b c -> sub a c.
Proof. unfold sub. intros <- H. by rewrite <- Z.land_assoc, H. Qed.
Lemma sub_drop_bits flags e : sub (drop_bits flags e) flags.
Proof.
  unfold sub, drop_bits.
  rewrite (Z.land_comm flags), <- Z.land_assoc, Z.land_diag. done.
Qed.

Lemma flag_rest_sub t flags : sub (flag_rest t flags) flags.
Proof.
  revert flags. induction t as [|e t IH]; intros flags; simpl; [apply sub_refl|].
  case_match; [|done]. eapply sub_trans; [apply IH|apply sub_drop_bits].
Qed.

(** No bit of the word is lost and none is invented. *)
Lemma flag_entries_lor t flags :
  Z.lor (bits_of (flag_entries t flags)) (flag_rest t flags) = flags.
Proof.
  revert flags. induction t as [|e t IH]; intros flags; simpl; [done|].
  destruct (flag_hit e flags) eqn:Hhit; [|done].
  apply flag_hit_spec in Hhit as [_ Hhit]. simpl.
  by rewrite <- Z.lor_assoc, IH, lor_drop_bits.
Qed.

Lemma flag_entries_disjoint t flags :
  Forall (fun e => Z.land (flag_rest t flags) (x_val e) = 0) (flag_entries t flags).
Proof.
  revert flags. induction t as [|e t IH]; intros flags; simpl; [constructor|].
  destruct (flag_hit e flags) eqn:Hhit; [|done].
  constructor; [|done]. eapply sub_land_0; [apply flag_rest_sub|apply land_drop_bits].
Qed.

Lemma flag_entries_sublist t flags : flag_entries t flags `sublist_of` t.
Proof.
  revert flags. induction t as [|e t IH]; intros flags; simpl; [constructor|].
  case_match; [by constructor|by apply sublist_cons].
Qed.

(** Nothing left over is nameable: no nonzero entry of the table is covered by
    the residual bits. *)
Lemma flag_rest_irreducible t flags :
  Forall (fun e => x_val e <> 0 -> ~ sub (x_val e) (flag_rest t flags)) t.
Proof.
  revert flags. induction t as [|e t IH]; intros flags; simpl; [constructor|].
  destruct (flag_hit e flags) eqn:Hhit; constructor; try done.
  - intros Hnz Hsub.
    assert (Z.land (flag_rest t (drop_bits flags e)) (x_val e) = 0) as H0
      by (eapply sub_land_0; [apply flag_rest_sub|apply land_drop_bits]).
    rewrite Z.land_comm in H0. unfold sub in Hsub. congruence.
  - intros Hnz Hsub.
    assert (Hs : sub (x_val e) flags) by (eapply sub_trans; [done|apply flag_rest_sub]).
    unfold sub in Hs. rewrite Z.land_comm in Hs.
    assert (flag_hit e flags = true) by (by apply flag_hit_spec). congruence.
Qed.

Lemma joined_cons s items : items <> [] -> joined (s :: items) = s +:+ "|" +:+ joined items.
Proof. by destruct items. Qed.

(** What the printflags loop computes, for both separators. *)
Lemma printflags_loop_spec t flags sep n :
  printflags_loop t flags sep n =
  (match flag_entries t flags with
   | [] => ""
   | es => sep +:+ joined (map x_str es)
   end,
   flag_rest t flags,
   match flag_entries t flags with [] => sep | _ => "|" end,
   n + Z.of_nat (length (flag_entries t flags))).
Proof.
  revert flags sep n. induction t as [|e t IH]; intros flags sep n; simpl.
  { f_equal. lia. }
  destruct (flag_hit e flags); [|apply IH].
  rewrite IH. destruct (flag_entries t (drop_bits flags e)) as [|e' es] eqn:He.
  - simpl. rewrite sapp_nil_r. f_equal. lia.
  - cbn [map].
    f_equal. simpl. lia.
Qed.

(** The text of printflags when the word is not a named zero: the names of the
    covered entries, then the residual bits in hex. *)
Definition flags_text (t : list xlat) (flags : Z) : list string :=
  map x_str (flag_entries t flags) ++
  (if flag_rest t flags =? 0 then [] else [fmt_sx (u32 (flag_rest t flags))]).

Lemma joined_snoc items s : items <> [] -> joined (items ++ [s]) = joined items +:+ "|" +:+ s.
Proof.
  induction items as [|a items IH]; [done|]. intros _.
  destruct items as [|b items]; [done|].
  change ((a :: b :: items) ++ [s]) with (a :: ((b :: items) ++ [s])).
  rewrite (joined_cons a ((b :: items) ++ [s])) by done. rewrite IH by done.
  rewrite (joined_cons a (b :: items)) by done.
  by rewrite !sapp_assoc.
Qed.

(** ** Properties *)

(** printflags loses and invents no bit.  Unless the word is a named zero,
    the text is the table's names of a sub-list of entries followed by the
    residual bits in hex, joined by "|" (or "0" for a word without bits when a
    default is given, or the hex value annotated with the default when no name
    applies); the values of the named entries together with the residual bits
    are exactly the flag word, the residual bits are disjoint from every
    printed name, and no nonzero entry of the table is left inside them.  The
    result counts the printed items. *)
Theorem printflags_lossless t flags dflt :
  ~ (flags = 0 /\ match t with e :: _ => x_val e = 0 | [] => True end) ->
  let es := flag_entries t flags in
  let rest := flag_rest t flags in
  Z.lor (bits_of es) rest = flags /\
  es `sublist_of` t /\
  Forall (fun e => Z.land rest (x_val e) = 0) es /\
  Forall (fun e => x_val e <> 0 -> ~ sub (x_val e) rest) t /\
  printflags t flags dflt =
    Some (if (length es =? 0)%nat then
            (if rest =? 0 then match dflt with Some _ => "0" | None => "" end
             else fmt_sx (u32 rest) +:+
                  match dflt with Some d => " /* " +:+ d +:+ " */" | None => "" end, 0)
          else (joined (flags_text t flags), Z.of_nat (length (flags_text t flags)))).
Proof.
  intros Hz es rest. split_and!.
  - apply flag_entries_lor.
  - apply flag_entries_sublist.
  - apply flag_entries_disjoint.
  - apply flag_rest_irreducible.
  - unfold printflags.
    replace ((flags =? 0) && _) with false by (destruct t; lia).
    rewrite printflags_loop_spec. fold rest. unfold flags_text. fold es rest.
    destruct es as [|e es'] eqn:Hes.
    + simpl. by destruct (rest =? 0).
    + replace (0 + Z.of_nat (length (e :: es')) =? 0) with false by (simpl; lia).
      cbn [negb length Nat.eqb].
      destruct (rest =? 0) eqn:Hr; cbn [negb].
      * rewrite app_nil_r, length_map. f_equal.
      * rewrite joined_snoc by done. rewrite length_app, length_map. f_equal. f_equal.
        simpl. lia.
Qed.

Lemma printflags_lossless_witness :
  printflags [mk_xlat 0 "O_RDONLY"; mk_xlat 1 "O_WRONLY"; mk_xlat 64 "O_CREAT"] 193
    (Some "O_???") = Some ("O_WRONLY|O_CREAT|0x80", 3).
Proof.
  refine (eq_trans (proj2 (proj2 (proj2 (proj2 (printflags_lossless
    [mk_xlat 0 "O_RDONLY"; mk_xlat 1 "O_WRONLY"; mk_xlat 64 "O_CREAT"] 193
    (Some "O_???") _))))) _); [intros [? _]; discriminate | reflexivity].
Defined.
