(* ===== verification/Quote.v ===== *)
(** * Quoting of traced strings (util.c: string_quote)

    [ustr] is the buffer as a list of unsigned bytes; a read past its end makes
    the model return [None].  The result is the text written to [outstr]
    without its NUL, and the return value.  The file gives a decoder for the C
    escapes the function emits and proves that quoting is reversible and stays
    within the buffer its callers allocate. *)

From S2P Require Import Prelude.
Local Open Scope string_scope.
Local Open Scope list_scope.
Local Open Scope Z_scope.

Definition dquote : string := String "034" EmptyString.

(** ** The scan that decides on hex quoting of the whole string (-x) *)
Fixpoint needs_hex (n : nat) (eol : Z) (l : list Z) : option bool :=
  match n with
  | O => Some false
  | S n =>
      match l with
      | [] => None
      | c :: l =>
          if c =? eol then Some false
          else if c >? 126 then Some true
          else if (c <? 32) && (u32 (c - 9) >=? 5) then Some true
          else needs_hex n eol l
      end
  end.

Definition quote_hex (c : Z) : string :=
  String "\" (String "x"
    (String (digit_char (Z.shiftr c 4)) (String (digit_char (Z.land c 15)) EmptyString))).

(** The [switch (c)] of the non-hex branch; [next_digit] is the look-ahead
    [i + 1 < size && ustr[i + 1] >= '0' && ustr[i + 1] <= '9']. *)
Definition quote_char (c : Z) (next_digit : bool) : string :=
  if (c =? 34) || (c =? 92) then String "\" (String (chr c) EmptyString)
  else if c =? 12 then "\f"
  else if c =? 10 then "\n"
  else if c =? 13 then "\r"
  else if c =? 9 then "\t"
  else if c =? 11 then "\v"
  else if (c >=? 32) && (c <=? 126) then String (chr c) EmptyString
  else
    let last := String (chr (48 + Z.land c 7)) EmptyString in
    let mid := String (chr (48 + Z.land (Z.shiftr c 3) 7)) last in
    let full := String (chr (48 + Z.shiftr c 6)) mid in
    String "\"
      (if next_digit then full
       else if negb (Z.shiftr c 3 =? 0) then
         if negb (Z.shiftr c 6 =? 0) then full else mid
       else last).

Definition is_digit (d : Z) : bool := (d >=? 48) && (d <=? 57).

(** [i + 1 < size && ustr[i + 1] >= '0' && ustr[i + 1] <= '9'], with [n] for
    [size - (i + 1)] and [l] for the buffer from [i + 1] on. *)
Definition next_digit (n : nat) (l : list Z) : bool :=
  match n, l with
  | S _, d :: _ => is_digit d
  | _, _ => false
  end.

(** The quoting loop: [n] is [size - i].  Returns the text, whether the loop
    left through [asciz_ended], and the buffer from position [i] on. *)
Fixpoint quote_loop (usehex : bool) (eol : Z) (n : nat) (l : list Z)
    : option (string * bool * list Z) :=
  match n with
  | O => Some ("", false, l)
  | S n =>
      match l with
      | [] => None
      | c :: l' =>
          if c =? eol then Some ("", true, l)
          else
            let txt := if usehex then quote_hex c else quote_char c (next_digit n l') in
            match quote_loop usehex eol n l' with
            | Some (out, ended, rest) => Some (txt +:+ out, ended, rest)
            | None => None
            end
      end
  end.

Definition string_quote (xflag : Z) (ustr : list Z) (len size : Z) : option (string * Z) :=
  let '(size, eol) := if len =? -1 then (size - 1, 0) else (size, 256) in
  let n := Z.to_nat size in
  match (if xflag >? 1 then Some true
         else if xflag =? 1 then needs_hex n eol ustr else Some false) with
  | None => None
  | Some usehex =>
      match quote_loop usehex eol n ustr with
      | None => None
      | Some (body, true, _) => Some (dquote +:+ body +:+ dquote, 0)
      | Some (body, false, rest) =>
          let out := dquote +:+ body +:+ dquote in
          if len =? -1 then
            match rest with
            | c :: _ => Some (out, if c =? 0 then 0 else 1)
            | [] => None
            end
          else Some (out, 1)
      end
  end.

(** ** A decoder for the emitted escapes: C string-literal syntax *)

Inductive ustate :=
  | UPlain
  | UEsc
  | UOct (k : nat) (acc : Z)
  | UHex (k : nat) (acc : Z).

Definition is_octal (c : ascii) : bool := (48 <=? ord c) && (ord c <=? 55).
Definition octal_val (c : ascii) : Z := ord c - 48.
Definition hex_val (c : ascii) : option Z :=
  if (48 <=? ord c) && (ord c <=? 57) then Some (ord c - 48)
  else if (97 <=? ord c) && (ord c <=? 102) then Some (ord c - 87)
  else None.

(** One character in plain text: the bytes it stands for and the next state;
    [None] as next state is the closing quote. *)
Definition plain_step (c : ascii) : list Z * option ustate :=
  if ord c =? 34 then ([], None)
  else if ord c =? 92 then ([], Some UEsc)
  else ([ord c], Some UPlain).

Definition esc_step (c : ascii) : option (list Z * ustate) :=
  if is_octal c then Some ([], UOct 1 (octal_val c))
  else if ord c =? 120 then Some ([], UHex 0 0)
  else if (ord c =? 34) || (ord c =? 92) then Some ([ord c], UPlain)
  else if ord c =? 102 then Some ([12], UPlain)
  else if ord c =? 110 then Some ([10], UPlain)
  else if ord c =? 114 then Some ([13], UPlain)
  else if ord c =? 116 then Some ([9], UPlain)
  else if ord c =? 118 then Some ([11], UPlain)
  else None.

(** One character: the bytes completed by it and the next state. *)
Definition ustep (st : ustate) (c : ascii) : option (list Z * option ustate) :=
  match st with
  | UPlain => Some (plain_step c)
  | UEsc => match esc_step c with Some (b, st) => Some (b, Some st) | None => None end
  | UOct k acc =>
      if is_octal c && (k <? 3)%nat
      then Some ([], Some (UOct (S k) (8 * acc + octal_val c)))
      else let '(b, st) := plain_step c in Some (acc :: b, st)
  | UHex k acc =>
      match hex_val c with
      | Some v =>
          match k with
          | O => Some ([], Some (UHex 1 v))
          | _ => Some ([16 * acc + v], Some UPlain)
          end
      | None => None
      end
  end.

(** Decode up to the closing quote; [None] when the text is not a literal. *)
Fixpoint unescape (st : ustate) (s : string) : option (list Z) :=
  match s with
  | EmptyString => None
  | String c s =>
      match ustep st c with
      | None => None
      | Some (b, None) => match s with EmptyString => Some b | _ => None end
      | Some (b, Some st) => app b <$> unescape st s
      end
  end.

Definition unquote (s : string) : option (list Z) :=
  match s with
  | String c s => if ord c =? 34 then unescape UPlain s else None
  | EmptyString => None
  end.

(** The bytes string_quote is asked to show: everything, or, for a
    NUL-terminated string, at most [size - 1] bytes up to the NUL. *)
Fixpoint until (eol : Z) (l : list Z) : list Z :=
  match l with
  | [] => []
  | c :: l => if c =? eol then [] else c :: until eol l
  end.
Definition payload (l : list Z) (len size : Z) : list Z :=
  if len =? -1 then until 0 (take (Z.to_nat (size - 1)) l) else take (Z.to_nat size) l.

(** ** Decoding what was emitted *)

(** The decoder on a text that does not close the literal. *)
Fixpoint run (st : ustate) (t : string) : option (list Z * ustate) :=
  match t with
  | EmptyString => Some ([], st)
  | String c t =>
      match ustep st c with
      | Some (b, Some st) =>
          match run st t with Some (b', st') => Some (b ++ b', st') | None => None end
      | _ => None
      end
  end.

Lemma unescape_run st t b st' s :
  run st t = Some (b, st') -> unescape st (t +:+ s) = app b <$> unescape st' s.
Proof.
  revert st b. induction t as [|c t IH]; intros st b.
  { intros [= <- <-]. rewrite app_Empty. by destruct (unescape st s). }
  rewrite app_String. simpl. destruct (ustep st c) as [[b1 [st1|]]|] eqn:Hstep; [|done..].
  destruct (run st1 t) as [[b2 st2]|] eqn:Hrun; [|done]. intros [= <- <-].
  rewrite (IH _ _ Hrun).
  destruct (unescape st2 s); simpl; [by rewrite app_assoc|done].
Qed.

Definition char_decodes (nd : bool) (c : Z) : bool :=
  match run UPlain (quote_char c nd) with
  | Some ([b], UPlain) => b =? c
  | Some ([], UOct k acc) => (acc =? c) && ((k =? 3)%nat || negb nd)
  | _ => false
  end.
Definition hex_decodes (c : Z) : bool :=
  match run UPlain (quote_hex c) with
  | Some ([b], UPlain) => b =? c
  | _ => false
  end.

Definition octal_head (s : string) : bool :=
  match s with String c _ => is_octal c | EmptyString => false end.

(** After an octal escape that is complete, or that no octal digit follows, the
    decoder continues as in plain text. *)
Lemma unescape_oct k acc s :
  (k = 3%nat \/ octal_head s = false) ->
  unescape (UOct k acc) s = app [acc] <$> unescape UPlain s.
Proof.
  intros Hk. destruct s as [|c s]; [done|]. simpl in *.
  replace (is_octal c && (k <? 3)%nat) with false.
  2: { destruct Hk as [-> | ->]; [by rewrite andb_comm|done]. }
  destruct (plain_step c) as [b [st|]]; simpl; [by destruct (unescape st s)|by destruct s].
Qed.

Lemma unescape_quote_char c nd s :
  is_u8 c -> (nd = true \/ octal_head s = false) ->
  unescape UPlain (quote_char c nd +:+ s) = app [c] <$> unescape UPlain s.
Proof.
  intros Hc Hs.
  assert (Hd : char_decodes nd c = true)
    by (apply (all_bytes (char_decodes nd)); [destruct nd; vm_compute; reflexivity|done]).
  unfold char_decodes in Hd.
  destruct (run UPlain (quote_char c nd)) as [[b st]|] eqn:Hrun; [|done].
  rewrite (unescape_run _ _ _ _ s Hrun).
  destruct b as [|b0 [|]], st as [| |k acc|]; try done.
  - apply andb_true_iff in Hd as [Hacc Hk]. apply Z.eqb_eq in Hacc as ->.
    rewrite unescape_oct; [by destruct (unescape UPlain s)|].
    destruct Hs as [-> | ]; [left|by right].
    rewrite orb_false_r in Hk. by apply Nat.eqb_eq.
  - by apply Z.eqb_eq in Hd as ->.
Qed.

Lemma unescape_quote_hex c s :
  is_u8 c -> unescape UPlain (quote_hex c +:+ s) = app [c] <$> unescape UPlain s.
Proof.
  intros Hc.
  assert (Hd : hex_decodes c = true)
    by (apply (all_bytes hex_decodes); [vm_compute; reflexivity|done]).
  unfold hex_decodes in Hd.
  destruct (run UPlain (quote_hex c)) as [[b st]|] eqn:Hrun; [|done].
  rewrite (unescape_run _ _ _ _ s Hrun).
  destruct b as [|b0 [|]], st; try done. by apply Z.eqb_eq in Hd as ->.
Qed.

(** ** The quoting loop *)

(** A byte that is not a digit is not quoted as a text starting with one. *)
Lemma quote_char_head d nd s :
  is_u8 d -> is_digit d = false -> octal_head (quote_char d nd +:+ s) = false.
Proof.
  intros Hd Hnd.
  pose (ok d := is_digit d || match quote_char d nd with
                              | EmptyString => false
                              | String c _ => negb (is_octal c) end).
  assert (H : ok d = true) by (apply all_bytes; [destruct nd; vm_compute; reflexivity|done]).
  unfold ok in H. rewrite Hnd in H. simpl in H.
  destruct (quote_char d nd) as [|c t]; [done|].
  rewrite app_String. simpl. by apply negb_true_iff.
Qed.

Lemma quote_char_len c nd : is_u8 c -> slen (quote_char c nd) <= 4.
Proof.
  intros Hc.
  pose (ok c := slen (quote_char c nd) <=? 4).
  assert (H : ok c = true) by (apply all_bytes; [destruct nd; vm_compute; reflexivity|done]).
  unfold ok in H. lia.
Qed.

(** What the loop yields on a buffer that holds the bytes it reads. *)
Record quoted (body : string) (shown : list Z) : Prop := {
  quoted_decodes s :
    octal_head s = false ->
    unescape UPlain (body +:+ s) = app shown <$> unescape UPlain s;
  quoted_len : slen body <= 4 * Z.of_nat (length shown)
}.

Lemma quoted_nil : quoted "" [].
Proof. split; [|done]. intros s _. rewrite app_Empty. by destruct (unescape UPlain s). Qed.

Lemma quoted_cons txt body c shown :
  slen txt <= 4 -> quoted body shown ->
  (forall s, octal_head s = false ->
     unescape UPlain (txt +:+ (body +:+ s)) = app [c] <$> unescape UPlain (body +:+ s)) ->
  quoted (txt +:+ body) (c :: shown).
Proof.
  intros Htxt [Hdec Hlen] Hc. split.
  - intros s Hs. rewrite sapp_assoc, Hc, Hdec by done.
    by destruct (unescape UPlain s).
  - rewrite slen_app. simpl length. lia.
Qed.

(** The text after a byte without digit look-ahead does not start with an
    octal digit. *)
Lemma quote_loop_head eol n l body ended rest s :
  Forall is_u8 l -> next_digit n l = false -> (n <= length l)%nat ->
  quote_loop false eol n l = Some (body, ended, rest) ->
  octal_head s = false -> octal_head (body +:+ s) = false.
Proof.
  intros Hl Hnd Hlen Hq Hs.
  destruct n as [|n]; simpl in Hq; [by simplify_eq|].
  destruct l as [|d l]; [done|]. inversion Hl; subst.
  destruct (d =? eol); [by simplify_eq|].
  destruct (quote_loop false eol n l) as [[[out e] r]|]; [|done].
  simplify_eq. rewrite sapp_assoc. by apply quote_char_head.
Qed.

Lemma quote_loop_spec usehex eol n l :
  Forall is_u8 l -> (n <= length l)%nat ->
  exists body,
    quote_loop usehex eol n l =
      Some (body, bool_decide (eol ∈ take n l),
            drop (length (until eol (take n l))) l) /\
    quoted body (until eol (take n l)).
Proof.
  revert l. induction n as [|n IH]; intros l Hl Hlen.
  { exists "". split; [reflexivity|apply quoted_nil]. }
  destruct l as [|c l]; [simpl in Hlen; lia|].
  inversion Hl as [|? ? Hc Hl']; subst. cbn [quote_loop take until].
  destruct (Z.eqb_spec c eol) as [->|Hne].
  { exists "". split; [|apply quoted_nil]. by rewrite bool_decide_eq_true_2 by left. }
  destruct (IH l Hl' ltac:(simpl in Hlen; lia)) as (body & Hq & Hb).
  rewrite Hq. eexists. split.
  - f_equal. f_equal. f_equal. apply bool_decide_ext.
    rewrite elem_of_cons. split; [by right|]. by intros [?|?].
  - apply quoted_cons; [|done|].
    + destruct usehex; [vm_compute; congruence|by apply quote_char_len].
    + intros s Hs. destruct usehex; [by apply unescape_quote_hex|].
      apply unescape_quote_char; [done|].
      destruct (next_digit n l) eqn:Hnd; [by left|right].
      eapply quote_loop_head; eauto. simpl in Hlen. lia.
Qed.

Lemma needs_hex_total n eol l : (n <= length l)%nat -> exists b, needs_hex n eol l = Some b.
Proof.
  revert l. induction n as [|n IH]; intros l Hl; simpl; [by eexists|].
  destruct l as [|c l]; [simpl in Hl; lia|].
  repeat case_match; eauto. apply IH. simpl in Hl. lia.
Qed.

Lemma until_256 l : Forall is_u8 l -> until 256 l = l.
Proof.
  induction 1 as [|c l Hc _ IH]; [done|]. simpl.
  destruct (Z.eqb_spec c 256); [unfold is_u8 in Hc; lia|by rewrite IH].
Qed.

Lemma not_elem_256 l : Forall is_u8 l -> 256 ∉ l.
Proof. intros Hl Hin. rewrite Forall_forall in Hl. specialize (Hl _ Hin). wrap_lia. Qed.

Lemma until_all eol l : eol ∉ l -> until eol l = l.
Proof.
  induction l as [|c l IH]; [done|]. simpl. intros H. apply not_elem_of_cons in H as [Hc Hl].
  destruct (Z.eqb_spec c eol); [congruence|by rewrite IH].
Qed.

Lemma quoted_unquote body shown :
  quoted body shown -> unquote (dquote +:+ body +:+ dquote) = Some shown.
Proof.
  intros [Hdec _]. change (unescape UPlain (body +:+ dquote) = Some shown).
  rewrite Hdec by done. simpl. by rewrite app_nil_r.
Qed.

Lemma quoted_total_len body shown :
  quoted body shown -> slen (dquote +:+ body +:+ dquote) <= 2 + 4 * Z.of_nat (length shown).
Proof. intros [_ Hlen]. rewrite !slen_app. unfold slen at 1 3. simpl. lia. Qed.

Lemma length_until eol l : (length (until eol l) <= length l)%nat.
Proof. induction l as [|c l IH]; simpl; [lia|]. case_match; simpl; lia. Qed.

(** The quoting step after the hex decision, for both kinds of string. *)
Lemma string_quote_loop xflag l len size :
  let n := Z.to_nat (if len =? -1 then size - 1 else size) in
  let eol := if len =? -1 then 0 else 256 in
  (n <= length l)%nat ->
  exists usehex,
    string_quote xflag l len size =
    match quote_loop usehex eol n l with
    | None => None
    | Some (body, true, _) => Some (dquote +:+ body +:+ dquote, 0)
    | Some (body, false, rest) =>
        if len =? -1 then
          match rest with
          | c :: _ => Some (dquote +:+ body +:+ dquote, if c =? 0 then 0 else 1)
          | [] => None
          end
        else Some (dquote +:+ body +:+ dquote, 1)
    end.
Proof.
  intros n eol Hn. unfold string_quote.
  replace (if len =? -1 then (size - 1, 0) else (size, 256)) with
    (if len =? -1 then size - 1 else size, eol) by (unfold eol; by destruct (len =? -1)).
  fold n. destruct (xflag >? 1); [by exists true|].
  destruct (xflag =? 1); [|by exists false].
  destruct (needs_hex_total n eol l Hn) as [b ->]. by exists b.
Qed.

(** The byte after the quoted part decides the result of an ASCIZ string. *)
Lemma elem_of_take_S (x : Z) l n c :
  l !! n = Some c -> (x ∈ take (S n) l <-> x ∈ take n l \/ c = x).
Proof.
  intros Hc. rewrite (take_S_r _ _ _ Hc), elem_of_app, list_elem_of_singleton.
  naive_solver.
Qed.

(** The result of the loop on an ASCIZ string. *)
Lemma asciz_result usehex l n :
  Forall is_u8 l -> (n < length l)%nat ->
  exists body r,
    match quote_loop usehex 0 n l with
    | None => None
    | Some (body, true, _) => Some (body, 0)
    | Some (body, false, c :: _) => Some (body, if c =? 0 then 0 else 1)
    | Some (_, false, []) => None
    end = Some (body, r) /\
    quoted body (until 0 (take n l)) /\
    (r = 0 <-> 0 ∈ take (S n) l) /\ (r = 0 \/ r = 1).
Proof.
  intros Hl Hn. destruct (lookup_lt_is_Some_2 l n Hn) as [c Hc].
  destruct (quote_loop_spec usehex 0 n l Hl ltac:(lia)) as (body & -> & Hq).
  pose proof (elem_of_take_S 0 _ _ _ Hc) as HS.
  destruct (decide (0 ∈ take n l)) as [Hin|Hnin].
  - rewrite bool_decide_eq_true_2 by done. exists body, 0. naive_solver.
  - rewrite bool_decide_eq_false_2, until_all by done.
    rewrite length_take, Nat.min_l, (drop_S _ _ _ Hc) by lia.
    rewrite until_all in Hq by done.
    exists body, (if c =? 0 then 0 else 1). split_and!; try done;
      destruct (Z.eqb_spec c 0); naive_solver.
Qed.

Lemma string_quote_spec xflag l len size :
  Forall is_u8 l -> 0 <= size <= Z.of_nat (length l) -> (len = -1 -> 1 <= size) ->
  exists out r,
    string_quote xflag l len size = Some (out, r) /\
    unquote out = Some (payload l len size) /\
    slen out + 1 <= 3 + 4 * (if len =? -1 then size - 1 else size) /\
    (r = 0 <-> len = -1 /\ 0 ∈ take (Z.to_nat size) l) /\ (r = 0 \/ r = 1).
Proof.
  intros Hl Hsize Hlen.
  destruct (Z.eqb_spec len (-1)) as [->|Hne].
  - specialize (Hlen eq_refl). set (n := Z.to_nat (size - 1)).
    assert (HS : Z.to_nat size = S n) by (unfold n; lia). rewrite HS.
    destruct (string_quote_loop xflag l (-1) size) as [usehex ->]; [simpl; lia|].
    simpl Z.eqb. cbn iota. fold n.
    destruct (asciz_result usehex l n Hl ltac:(unfold n; lia)) as (body & r & Hr & Hq & Hz & Hr').
    exists (dquote +:+ body +:+ dquote), r. split_and!; [| | |naive_solver|done].
    + destruct (quote_loop usehex 0 n l) as [[[? []] [|c ?]]|]; by simplify_eq.
    + by apply quoted_unquote.
    + apply quoted_total_len in Hq. pose proof (length_until 0 (take n l)) as Hu.
      rewrite length_take in Hu. unfold n in *. lia.
  - destruct (string_quote_loop xflag l len size) as [usehex ->]; [case_match; lia|].
    rewrite (proj2 (Z.eqb_neq len (-1))) by done.
    destruct (quote_loop_spec usehex 256 (Z.to_nat size) l Hl ltac:(lia)) as (body & -> & Hq).
    rewrite bool_decide_eq_false_2 by by apply not_elem_256, Forall_take.
    rewrite until_256 in Hq by by apply Forall_take.
    eexists _, 1. split_and!; [done| | |naive_solver|by right].
    + rewrite (quoted_unquote _ _ Hq). unfold payload.
      by rewrite (proj2 (Z.eqb_neq len (-1))).
    + apply quoted_total_len in Hq. rewrite length_take in Hq. lia.
Qed.

(** Quoting returns on every buffer that is long enough, whatever it holds. *)
Lemma quote_loop_total usehex eol n l :
  (n <= length l)%nat ->
  exists body ended rest, quote_loop usehex eol n l = Some (body, ended, rest) /\
    (ended = false -> length rest = (length l - n)%nat).
Proof.
  revert l. induction n as [|n IH]; intros l Hlen.
  { exists "", false, l. split; [done|]. intros _. lia. }
  destruct l as [|c l]; [simpl in Hlen; lia|]. cbn [quote_loop]. simpl in Hlen.
  destruct (c =? eol); [by eexists "", true, _|].
  destruct (IH l ltac:(lia)) as (body & ended & rest & -> & Hr).
  eexists _, ended, rest. split; [done|]. intros H. simpl. rewrite (Hr H). lia.
Qed.

Lemma string_quote_total xflag l len size :
  (Z.to_nat size <= length l)%nat -> (0 < length l)%nat ->
  exists res, string_quote xflag l len size = Some res.
Proof.
  intros Hs Hl. destruct (string_quote_loop xflag l len size) as [usehex ->];
    [destruct (len =? -1); lia|].
  destruct (quote_loop_total usehex (if len =? -1 then 0 else 256)
              (Z.to_nat (if len =? -1 then size - 1 else size)) l)
    as (body & ended & rest & -> & Hr); [destruct (len =? -1); lia|].
  destruct ended; [by eexists|]. destruct (len =? -1) eqn:E; [|by eexists].
  specialize (Hr eq_refl). destruct rest; [simpl in *; lia|by eexists].
Qed.

(** ** Properties *)

(** C31: string_quote is reversible and never writes past the buffer its callers
    give it.  On a buffer of [size] bytes, for every -x level and for both
    counted strings and NUL-terminated ones ([len == -1]), the emitted text is
    a C string literal that decodes to exactly the bytes asked for (all of
    them, or at most [size - 1] bytes up to the NUL), whatever escapes were
    chosen; it needs at most 3 + 4 * (number of bytes to show) bytes with its
    NUL; and the result is 0 exactly when an ASCIZ string was shown up to its
    NUL. *)
Theorem string_quote_roundtrip xflag l len size :
  Forall is_u8 l -> 0 <= size <= Z.of_nat (length l) -> (len = -1 -> 1 <= size) ->
  exists out r,
    string_quote xflag l len size = Some (out, r) /\
    unquote out = Some (payload l len size) /\
    slen out + 1 <= 3 + 4 * (if len =? -1 then size - 1 else size) /\
    (r = 0 <-> len = -1 /\ 0 ∈ take (Z.to_nat size) l) /\ (r = 0 \/ r = 1).
Proof. apply string_quote_spec. Qed.

Lemma string_quote_roundtrip_witness :
  exists out r,
    string_quote 0 [1; 55; 34; 97; 0; 98] (-1) 6 = Some (out, r) /\
    unquote out = Some [1; 55; 34; 97] /\ r = 0.
Proof.
  destruct (string_quote_roundtrip 0 [1; 55; 34; 97; 0; 98] (-1) 6) as (out & r & H & Hu & _ & Hr & _).
  - repeat constructor; vm_compute; congruence.
  - vm_compute. split; congruence.
  - intros _. vm_compute. congruence.
  - exists out, r. split; [exact H|]. split; [exact Hu|].
    apply Hr. split; [reflexivity|].
    apply (bool_decide_unpack (0 ∈ [1; 55; 34; 97; 0; 98])). vm_compute. exact I.
Defined.
