(* ===== verification/Decimal.v ===== *)
(** * Decimal conversion of strace's own vsnprintf (vsprintf.c: put_dec_full9,
      put_dec_trunc8, put_dec_full4 and both versions of put_dec)

    The digits are written without a division: a multiplication and a shift stand
    for the division by ten, within ranges on which they agree.  The digits come
    in reverse order, as in [tmp] of number().  The arithmetic is that of the C
    types: 32-bit products wrap, the casts to uint64_t give 64 bits. *)

From S2P Require Import Prelude.
Local Open Scope string_scope.
Local Open Scope list_scope.
Local Open Scope Z_scope.

(** [( d) + '0'] *)
Definition dec_char (d : Z) : ascii := chr (d + 48).

(** (q * (uint64_t)0x1999999a) >> 32, (q * 0x199a) >> 16, (q * 0xcd) >> 11,
    (q * 0xcccd) >> 19 *)
Definition tenth32 (q : Z) : Z := u32 (Z.shiftr (u64 (q * 0x1999999a)) 32).
Definition tenth16 (q : Z) : Z := Z.shiftr (u32 (q * 0x199a)) 16.
Definition tenth11 (q : Z) : Z := Z.shiftr (u32 (q * 0xcd)) 11.
Definition tenth19 (q : Z) : Z := Z.shiftr (u32 (q * 0xcccd)) 19.
(** [q - 10 * r], in 32 bits *)
Definition last_digit (q r : Z) : ascii := dec_char (u32 (q - 10 * r)).

Definition put_dec_full9 (q : Z) : list ascii :=
  let r := tenth32 q in
  last_digit q r ::
  let q := tenth32 r in
  last_digit r q ::
  let r := tenth32 q in
  last_digit q r ::
  let q := tenth32 r in
  last_digit r q ::
  let r := tenth32 q in
  last_digit q r ::
  let q := tenth16 r in
  last_digit r q ::
  let r := tenth11 q in
  last_digit q r ::
  let q := tenth11 r in
  last_digit r q ::
  [dec_char q].

Definition put_dec_trunc8 (r : Z) : list ascii :=
  let q := tenth32 r in
  last_digit r q ::
  if q =? 0 then [] else
  let r := tenth32 q in
  last_digit q r ::
  if r =? 0 then [] else
  let q := tenth32 r in
  last_digit r q ::
  if q =? 0 then [] else
  let r := tenth32 q in
  last_digit q r ::
  if r =? 0 then [] else
  let q := tenth16 r in
  last_digit r q ::
  if q =? 0 then [] else
  let r := tenth11 q in
  last_digit q r ::
  if r =? 0 then [] else
  let q := tenth11 r in
  last_digit r q ::
  if q =? 0 then [] else
  [dec_char q].

(** put_dec where long is 64 bits wide.  The loop makes at most two rounds for
    an unsigned long long. *)
Fixpoint put_dec_nines (fuel : nat) (n : Z) : list ascii * Z :=
  match fuel with
  | O => ([], n)
  | S fuel =>
      if 1000000000 <=? n then
        let '(l, m) := put_dec_nines fuel (n / 1000000000) in
        (put_dec_full9 (n mod 1000000000) ++ l, m)
      else ([], n)
  end.
Definition put_dec (n : Z) : list ascii :=
  if 100000000 <=? n then
    let '(l, n) := put_dec_nines 3 n in
    if 100000000 <=? n then l ++ put_dec_full9 n else l ++ put_dec_trunc8 n
  else put_dec_trunc8 n.

(** put_dec where long is 32 bits wide. *)
Definition put_dec_full4 (q : Z) : list ascii :=
  let r := tenth19 q in
  last_digit q r ::
  let q := tenth16 r in
  last_digit r q ::
  let r := tenth11 q in
  last_digit q r ::
  [dec_char r].

(** while (buf[-1] == '0') --buf *)
Fixpoint strip_zeros (l : list ascii) : list ascii :=
  match l with
  | [] => []
  | c :: l =>
      match strip_zeros l with
      | [] => if Ascii.eqb c "0" then [] else [c]
      | l => c :: l
      end
  end.

Definition put_dec32 (n : Z) : list ascii :=
  if n <? 100000000 then put_dec_trunc8 n
  else
    let d1 := Z.shiftr (u32 n) 16 in
    let h := u32 (Z.shiftr n 32) in
    let d2 := Z.land h 0xffff in
    let d3 := Z.shiftr h 16 in
    let q := u32 (656 * d3 + 7296 * d2 + 5536 * d1 + Z.land (u32 n) 0xffff) in
    let b1 := put_dec_full4 (q mod 10000) in
    let q := q / 10000 in
    let d1 := u32 (q + 7671 * d3 + 9496 * d2 + 6 * d1) in
    let b2 := put_dec_full4 (d1 mod 10000) in
    let q := d1 / 10000 in
    let d2 := u32 (q + 4749 * d3 + 42 * d2) in
    let b3 := put_dec_full4 (d2 mod 10000) in
    let q := d2 / 10000 in
    let d3 := u32 (q + 281 * d3) in
    if d3 =? 0 then strip_zeros (b1 ++ b2 ++ b3)
    else
      let b4 := put_dec_full4 (d3 mod 10000) in
      let q := d3 / 10000 in
      if q =? 0 then strip_zeros (b1 ++ b2 ++ b3 ++ b4)
      else strip_zeros (b1 ++ b2 ++ b3 ++ b4 ++ put_dec_full4 q).

(** ** The reciprocals are divisions on their ranges *)

Lemma tenth32_div q : 0 <= q < 1073741829 -> tenth32 q = q / 10.
Proof. intros H. unfold tenth32, u32, u64. rewrite Z.shiftr_div_pow2 by lia. Z.div_mod_to_equations. lia. Qed.
Lemma tenth16_div q : 0 <= q < 16389 -> tenth16 q = q / 10.
Proof. intros H. unfold tenth16, u32. rewrite Z.shiftr_div_pow2 by lia. Z.div_mod_to_equations. lia. Qed.
Lemma tenth11_div q : 0 <= q < 1029 -> tenth11 q = q / 10.
Proof. intros H. unfold tenth11, u32. rewrite Z.shiftr_div_pow2 by lia. Z.div_mod_to_equations. lia. Qed.
Lemma tenth19_div q : 0 <= q < 81920 -> tenth19 q = q / 10.
Proof. intros H. unfold tenth19, u32. rewrite Z.shiftr_div_pow2 by lia. Z.div_mod_to_equations. lia. Qed.

Lemma dec_char_digit d : 0 <= d < 10 -> dec_char d = digit_char d.
Proof. intros H. unfold dec_char, digit_char. replace (d <? 10) with true by lia. by rewrite Z.add_comm. Qed.

Lemma last_digit_div q : 0 <= q -> last_digit q (q / 10) = digit_char (q mod 10).
Proof.
  intros H. unfold last_digit. rewrite <- dec_char_digit by (apply Z.mod_pos_bound; lia).
  rewrite <- Z.mod_eq by lia. rewrite u32_id; [done|]. unfold is_u32.
  pose proof (Z.mod_pos_bound q 10). lia.
Qed.

(** ** Decimal digits *)

Definition decimal (n : Z) : list ascii := digit_char <$> digits 10 n.

Lemma digits_aux_more f g base n :
  2 <= base -> 0 <= n < 2 ^ Z.of_nat (S f) -> n < 2 ^ Z.of_nat (S g) ->
  digits_aux (S f) base n = digits_aux (S g) base n.
Proof.
  intros Hb. revert g n. induction f as [|f IH]; intros g n Hf Hg.
  { cbn [digits_aux]. change (2 ^ Z.of_nat 1) with 2 in Hf. by replace (n <? base) with true by lia. }
  change (digits_aux (S (S f)) base n)
    with (if n <? base then [n] else n mod base :: digits_aux (S f) base (n / base)).
  cbn [digits_aux]. destruct (Z.ltb_spec n base); [done|].
  destruct g as [|g]; [change (2 ^ Z.of_nat 1) with 2 in Hg; lia|].
  f_equal. rewrite Nat2Z.inj_succ, Z.pow_succ_r in Hf, Hg by lia.
  apply IH; [split; [apply Z.div_pos; lia|]|]; apply Z.div_lt_upper_bound; nia.
Qed.

Lemma digits_step base n : 2 <= base -> 0 <= n ->
  digits base n = if n <? base then [n] else n mod base :: digits base (n / base).
Proof.
  intros Hb Hn. unfold digits at 1. cbn [digits_aux]. destruct (Z.ltb_spec n base) as [|Hge]; [done|]. f_equal.
  pose proof (digits_fuel_ok n Hn) as [_ Hf]. rewrite Nat2Z.inj_succ, Z.pow_succ_r in Hf by lia.
  assert (Hd : 0 <= n / base < 2 ^ Z.of_nat (Z.to_nat (Z.log2 n))).
  { split; [apply Z.div_pos; lia|apply Z.div_lt_upper_bound; [lia|]].
    assert (0 < 2 ^ Z.of_nat (Z.to_nat (Z.log2 n))) by (apply Z.pow_pos_nonneg; lia). nia. }
  destruct (Z.to_nat (Z.log2 n)) as [|k].
  { pose proof (Z.log2_lt_pow2 n 1). simpl in Hf. lia. }
  apply digits_aux_more; [done|done|]. apply digits_fuel_ok. lia.
Qed.

Lemma decimal_step n : 0 <= n ->
  decimal n = digit_char (n mod 10) :: if n / 10 =? 0 then [] else decimal (n / 10).
Proof.
  intros Hn. unfold decimal. rewrite digits_step by lia. destruct (Z.ltb_spec n 10) as [H|H].
  - rewrite Z.mod_small, Z.div_small by lia. done.
  - replace (n / 10 =? 0) with false; [done|]. symmetry. apply Z.eqb_neq.
    assert (1 <= n / 10) by (apply Z.div_le_lower_bound; lia). lia.
Qed.

(** Exactly [k] digits. *)
Fixpoint fixed (k : nat) (n : Z) : list ascii :=
  match k with O => [] | S k => digit_char (n mod 10) :: fixed k (n / 10) end.

Lemma length_fixed k n : length (fixed k n) = k.
Proof. revert n. induction k as [|k IH]; intros n; simpl; [done|by rewrite IH]. Qed.

Lemma fixed_decimal k n : 0 < n -> n / 10 ^ Z.of_nat k <> 0 ->
  fixed k (n mod 10 ^ Z.of_nat k) ++ decimal (n / 10 ^ Z.of_nat k) = decimal n.
Proof.
  revert n. induction k as [|k IH]; intros n Hn Hk.
  { simpl. by rewrite Z.div_1_r. }
  rewrite Nat2Z.inj_succ, Z.pow_succ_r in * by lia. cbn [fixed app].
  assert (Hp : 0 < 10 ^ Z.of_nat k) by (apply Z.pow_pos_nonneg; lia).
  rewrite (decimal_step n) by lia.
  rewrite <- Z.div_div in * by lia.
  assert (Hn10 : 0 < n / 10).
  { destruct (Z.eq_dec (n / 10) 0) as [E|E]; [|pose proof (Z.div_pos n 10); lia].
    rewrite E in Hk. by rewrite Z.div_0_l in Hk by lia. }
  replace (n / 10 =? 0) with false by lia. rewrite <- (IH (n / 10)) by done.
  rewrite Z.rem_mul_r by lia. f_equal.
  - f_equal. rewrite Z.mul_comm, Z_mod_plus_full. apply Z.mod_mod. lia.
  - f_equal. f_equal. rewrite Z.mul_comm, Z.div_add by lia.
    rewrite (Z.div_small (n mod 10)) by (apply Z.mod_pos_bound; lia). done.
Qed.

Lemma fixed_app j k n : 0 <= n ->
  fixed j (n mod 10 ^ Z.of_nat j) ++ fixed k (n / 10 ^ Z.of_nat j) = fixed (j + k) n.
Proof.
  revert n. induction j as [|j IH]; intros n Hn.
  { simpl. by rewrite Z.div_1_r. }
  rewrite Nat2Z.inj_succ, Z.pow_succ_r by lia. cbn [fixed app Nat.add].
  assert (Hp : 0 < 10 ^ Z.of_nat j) by (apply Z.pow_pos_nonneg; lia).
  rewrite <- Z.div_div by lia. rewrite <- (IH (n / 10)) by (apply Z.div_pos; lia).
  rewrite Z.rem_mul_r by lia. f_equal.
  - f_equal. rewrite Z.mul_comm, Z_mod_plus_full. apply Z.mod_mod. lia.
  - f_equal. f_equal. rewrite Z.mul_comm, Z.div_add by lia.
    rewrite (Z.div_small (n mod 10)) by (apply Z.mod_pos_bound; lia). done.
Qed.

Lemma fixed_0 k : fixed k 0 = repeat "0"%char k.
Proof. induction k as [|k IH]; simpl; [done|]. by rewrite Zdiv_0_l, IH. Qed.
Lemma strip_zeros_repeat k : strip_zeros (repeat "0"%char k) = [].
Proof. induction k as [|k IH]; simpl; [done|]. by rewrite IH. Qed.

Lemma digit_char_zero d : 0 < d < 10 -> Ascii.eqb (digit_char d) "0" = false.
Proof.
  intros H. apply Ascii.eqb_neq. intros E. apply (f_equal ord) in E. revert E.
  unfold digit_char. replace (d <? 10) with true by lia. rewrite ord_chr by (unfold is_u8; lia).
  change (ord "0") with 48. lia.
Qed.

(** Leading zeros are at the end of the list. *)
Lemma strip_fixed k n : 0 < n < 10 ^ Z.of_nat k -> strip_zeros (fixed k n) = decimal n.
Proof.
  revert n. induction k as [|k IH]; intros n Hn.
  { simpl in Hn. lia. }
  rewrite Nat2Z.inj_succ, Z.pow_succ_r in Hn by lia. cbn [fixed strip_zeros].
  rewrite decimal_step by lia. destruct (Z.eqb_spec (n / 10) 0) as [E|E].
  - rewrite E, fixed_0, strip_zeros_repeat, digit_char_zero; [done|]. Z.div_mod_to_equations. lia.
  - rewrite IH by (split; [pose proof (Z.div_pos n 10); lia|apply Z.div_lt_upper_bound; lia]).
    rewrite (decimal_step (n / 10)) by (apply Z.div_pos; lia). done.
Qed.

(** ** The groups *)

Ltac div_bound := repeat first [apply Z.div_pos; [|lia] | apply Z.div_lt_upper_bound; [lia|]]; lia.

(** One digit of a group. *)
Ltac group_digit lem :=
  rewrite lem by (split; [div_bound|div_bound]); rewrite last_digit_div by div_bound.

Lemma put_dec_full9_fixed q : 0 <= q < 1000000000 -> put_dec_full9 q = fixed 9 q.
Proof.
  intros H. unfold put_dec_full9. cbv zeta.
  do 5 group_digit tenth32_div. group_digit tenth16_div. do 2 group_digit tenth11_div.
  rewrite dec_char_digit by (split; div_bound). cbn [fixed]. do 8 f_equal.
  rewrite Z.mod_small; [done|split; div_bound].
Qed.

Lemma put_dec_full4_fixed q : 0 <= q < 10000 -> put_dec_full4 q = fixed 4 q.
Proof.
  intros H. unfold put_dec_full4. cbv zeta.
  group_digit tenth19_div. group_digit tenth16_div. group_digit tenth11_div.
  rewrite dec_char_digit by (split; div_bound). cbn [fixed]. do 3 f_equal.
  rewrite Z.mod_small; [done|split; div_bound].
Qed.

Lemma decimal_small n : 0 <= n < 10 -> decimal n = [dec_char n].
Proof.
  intros H. rewrite decimal_step, Z.div_small, Z.mod_small, dec_char_digit by lia. done.
Qed.

(** One digit, behind which the function may return. *)
Ltac trunc_digit lem :=
  group_digit lem; rewrite decimal_step by div_bound; f_equal;
  lazymatch goal with |- (if ?b then _ else _) = _ => destruct b; [done|] end.

Lemma put_dec_trunc8_decimal r : 0 <= r < 100000000 -> put_dec_trunc8 r = decimal r.
Proof.
  intros H. unfold put_dec_trunc8. cbv zeta.
  do 4 trunc_digit tenth32_div. trunc_digit tenth16_div. do 2 trunc_digit tenth11_div.
  rewrite decimal_small; [done|split; div_bound].
Qed.

(** ** The numbers *)

Lemma put_dec_nines_spec fuel n : 0 <= n < 1000000000 ^ Z.of_nat (S fuel) ->
  let '(l, m) := put_dec_nines fuel n in 0 <= m < 1000000000 /\ (0 < n -> 0 < m) /\
    (0 < n -> l ++ decimal m = decimal n).
Proof.
  revert n. induction fuel as [|fuel IH]; intros n Hn; cbn [put_dec_nines].
  { change (1000000000 ^ Z.of_nat 1) with 1000000000 in Hn. split_and!; [lia|lia|lia|done]. }
  destruct (Z.leb_spec 1000000000 n) as [Hge|Hlt]; [|split_and!; [lia|lia|lia|done]].
  rewrite Nat2Z.inj_succ, Z.pow_succ_r in Hn by lia. specialize (IH (n / 1000000000)).
  destruct (put_dec_nines fuel (n / 1000000000)) as [l m].
  assert (Hd : 0 < n / 1000000000) by (apply Z.div_str_pos; lia).
  destruct IH as (H1 & H2 & H3); [split; [lia|apply Z.div_lt_upper_bound; lia]|].
  split_and!; [lia|lia|auto|]. intros _.
  rewrite put_dec_full9_fixed by (apply Z.mod_pos_bound; lia).
  rewrite <- app_assoc, H3 by done. apply (fixed_decimal 9); [lia|].
  change (10 ^ Z.of_nat 9) with 1000000000. lia.
Qed.

Lemma fixed_cat j k a b : 0 <= a < 10 ^ Z.of_nat j -> 0 <= b ->
  fixed j a ++ fixed k b = fixed (j + k) (a + 10 ^ Z.of_nat j * b).
Proof.
  intros Ha Hb. rewrite <- (fixed_app j k) by nia. rewrite Z.mul_comm, Z_mod_plus_full, Z.div_add by lia.
  by rewrite Z.mod_small, Z.div_small by lia.
Qed.

Lemma fixed_exact k n : 10 ^ Z.of_nat k <= n < 10 ^ Z.of_nat (S k) -> fixed (S k) n = decimal n.
Proof.
  intros Hn. rewrite Nat2Z.inj_succ, Z.pow_succ_r in Hn by lia.
  assert (Hp : 0 < 10 ^ Z.of_nat k) by (apply Z.pow_pos_nonneg; lia).
  assert (Hq : 1 <= n / 10 ^ Z.of_nat k < 10).
  { split; [apply Z.div_le_lower_bound; lia|apply Z.div_lt_upper_bound; lia]. }
  rewrite <- (fixed_decimal k n), (decimal_small (n / _)) by lia.
  rewrite <- Nat.add_1_r, <- fixed_app by lia. cbn [fixed]. f_equal. f_equal.
  rewrite dec_char_digit by lia. rewrite (Z.mod_small (n / _)) by lia. done.
Qed.

(** The four 16-bit pieces of a number, recombined in groups of four digits. *)
Lemma put_dec32_groups n d0 d1 d2 d3 q e1 e2 e3 :
  n = d0 + 65536 * d1 + 4294967296 * d2 + 281474976710656 * d3 ->
  q = 656 * d3 + 7296 * d2 + 5536 * d1 + d0 ->
  e1 = q / 10000 + 7671 * d3 + 9496 * d2 + 6 * d1 ->
  e2 = e1 / 10000 + 4749 * d3 + 42 * d2 -> e3 = e2 / 10000 + 281 * d3 ->
  n = q mod 10000 + 10000 * (e1 mod 10000 + 10000 * (e2 mod 10000 + 10000 * e3)).
Proof. intros -> -> -> -> ->. Z.div_mod_to_equations. lia. Qed.

Lemma put_dec32_decimal n : is_u64 n -> put_dec32 n = decimal n.
Proof.
  unfold is_u64. intros Hn. unfold put_dec32. destruct (Z.ltb_spec n 100000000) as [Hlt|Hge].
  { apply put_dec_trunc8_decimal. lia. }
  cbv zeta. rewrite !Z.shiftr_div_pow2 by lia. change 0xffff with (Z.ones 16). rewrite !Z.land_ones by lia.
  set (d0 := u32 n mod 2 ^ 16). set (d1 := u32 n / 2 ^ 16). set (d2 := u32 (n / 2 ^ 32) mod 2 ^ 16).
  set (d3 := u32 (n / 2 ^ 32) / 2 ^ 16).
  assert (Hd : n = d0 + 65536 * d1 + 4294967296 * d2 + 281474976710656 * d3 /\
    0 <= d0 < 65536 /\ 0 <= d1 < 65536 /\ 0 <= d2 < 65536 /\ 0 <= d3 < 65536).
  { unfold d0, d1, d2, d3, u32. Z.div_mod_to_equations. lia. }
  destruct Hd as (Hn4 & H0 & H1 & H2 & H3). clearbody d0 d1 d2 d3.
  rewrite !(u32_id (656 * _ + _ + _ + _)) by (unfold is_u32; lia).
  set (q := 656 * d3 + _ + _ + _). assert (Hq : 0 <= q < 10 ^ 9) by (unfold q; lia).
  assert (Hq' : 0 <= q / 10000 < 10 ^ 5) by (split; [div_bound|div_bound]).
  rewrite !(u32_id (q / 10000 + _ + _ + _)) by (unfold is_u32; lia).
  set (e1 := q / 10000 + _ + _ + _). assert (He1 : 0 <= e1 < 2 * 10 ^ 9) by (unfold e1; lia).
  assert (He1' : 0 <= e1 / 10000 < 2 * 10 ^ 5) by (split; [div_bound|div_bound]).
  rewrite !(u32_id (e1 / 10000 + _ + _)) by (unfold is_u32; lia).
  set (e2 := e1 / 10000 + _ + _). assert (He2 : 0 <= e2 < 10 ^ 9) by (unfold e2; lia).
  assert (He2' : 0 <= e2 / 10000 < 10 ^ 5) by (split; [div_bound|div_bound]).
  rewrite !(u32_id (e2 / 10000 + _)) by (unfold is_u32; lia).
  set (e3 := e2 / 10000 + _). assert (He3 : 0 <= e3 < 10 ^ 8) by (unfold e3; lia).
  pose proof (put_dec32_groups n d0 d1 d2 d3 q e1 e2 e3 Hn4 eq_refl eq_refl eq_refl eq_refl) as Hgr.
  clearbody q e1 e2 e3. clear Hn4.
  pose proof (Z.mod_pos_bound q 10000). pose proof (Z.mod_pos_bound e1 10000).
  pose proof (Z.mod_pos_bound e2 10000). pose proof (Z.mod_pos_bound e3 10000).
  rewrite !put_dec_full4_fixed by (split; first [lia|div_bound]).
  assert (Hp : 10 ^ Z.of_nat 4 = 10000) by done.
  destruct (Z.eqb_spec e3 0) as [E3|E3].
  { rewrite (fixed_cat 4 4), (fixed_cat 4 8) by lia. rewrite Hp.
    assert (Hn' : n < 10 ^ Z.of_nat 12) by (change (10 ^ Z.of_nat 12) with (10 ^ 12); lia).
    replace (q mod 10000 + _) with n by lia. apply (strip_fixed 12). lia. }
  assert (0 <= e3 / 10000) by div_bound. pose proof (Z.div_mod e3 10000 ltac:(lia)) as He.
  assert (Hn' : n < 10 ^ Z.of_nat 20) by (change (10 ^ Z.of_nat 20) with (10 ^ 20); lia).
  destruct (Z.eqb_spec (e3 / 10000) 0) as [E4|E4].
  { rewrite (fixed_cat 4 4), (fixed_cat 4 8), (fixed_cat 4 12) by lia. rewrite Hp.
    assert (Hn6 : n < 10 ^ Z.of_nat 16) by (change (10 ^ Z.of_nat 16) with (10 ^ 16); lia).
    replace (q mod 10000 + _) with n by lia. apply (strip_fixed 16). lia. }
  rewrite (fixed_cat 4 4), (fixed_cat 4 8), (fixed_cat 4 12), (fixed_cat 4 16) by lia. rewrite Hp.
  replace (q mod 10000 + _) with n by lia. apply (strip_fixed 20). lia.
Qed.

Lemma put_dec_generic n : is_u64 n -> put_dec n = decimal n.
Proof.
  intros Hn. unfold is_u64 in Hn.
  unfold put_dec. destruct (Z.leb_spec 100000000 n) as [Hge|Hlt].
  2: { apply put_dec_trunc8_decimal. lia. }
  pose proof (put_dec_nines_spec 3 n) as H. destruct (put_dec_nines 3 n) as [l m].
  destruct H as (H1 & H2 & H3); [change (1000000000 ^ Z.of_nat 4) with (10 ^ 36); lia|].
  rewrite <- H3 by lia. destruct (Z.leb_spec 100000000 m) as [Hm|Hm]; f_equal.
  - rewrite put_dec_full9_fixed by lia. apply (fixed_exact 8).
    change (10 ^ Z.of_nat 8) with 100000000. change (10 ^ Z.of_nat 9) with 1000000000. lia.
  - apply put_dec_trunc8_decimal. lia.
Qed.

(** C33: Division-free decimal conversion.  For every unsigned long long both
    versions of put_dec, the one for 64-bit and the one for 32-bit longs, give
    the decimal digits of the number, without leading zeros. *)
Theorem put_dec_decimal n : is_u64 n -> put_dec n = decimal n /\ put_dec32 n = decimal n.
Proof. intros Hn. split; [by apply put_dec_generic|by apply put_dec32_decimal]. Qed.

Lemma put_dec_decimal_witness :
  put_dec 18446744073709551615 = decimal 18446744073709551615 /\
  put_dec32 18446744073709551615 = decimal 18446744073709551615.
Proof. apply put_dec_decimal. split; vm_compute; congruence. Defined.
