(* ===== verification/Vprintf.v ===== *)
(** * strace's own vfprintf (vsprintf.c: skip_atoi, number, string, pointer,
      format_decode, kernel_vsnprintf, strace_vfprintf)

    The build uses it when USE_CUSTOM_PRINTF is defined.  The buffer is a block of
    bytes and a position that may run past its end; a store outside the block is
    [None], an undefined step of C.  int arithmetic is exact: the widths and
    lengths of the theorems are below 2 ^ 31.  The arguments are a list, from
    which va_arg takes the next one; one of the wrong kind is [None]. *)

From S2P Require Import Prelude Decimal.
Local Open Scope string_scope.
Local Open Scope list_scope.
Local Open Scope Z_scope.

(** ** Format specifications *)

Inductive format_type :=
  | FORMAT_TYPE_NONE | FORMAT_TYPE_WIDTH | FORMAT_TYPE_PRECISION | FORMAT_TYPE_CHAR
  | FORMAT_TYPE_STR | FORMAT_TYPE_PTR | FORMAT_TYPE_PERCENT_CHAR | FORMAT_TYPE_INVALID
  | FORMAT_TYPE_LONG_LONG | FORMAT_TYPE_ULONG | FORMAT_TYPE_LONG | FORMAT_TYPE_UINT
  | FORMAT_TYPE_INT.

Definition ZEROPAD : Z := 1.
Definition SIGN : Z := 2.
Definition LEFT : Z := 16.
Definition SPECIAL : Z := 64.

Record printf_spec := mk_spec {
  ps_type : format_type; ps_flags : Z; ps_base : Z; ps_qualifier : ascii;
  field_width : Z; precision : Z
}.
(** [{0}] *)
Definition spec0 : printf_spec := mk_spec FORMAT_TYPE_NONE 0 0 "000" 0 0.

Definition set_type (t : format_type) (p : printf_spec) : printf_spec :=
  mk_spec t (ps_flags p) (ps_base p) (ps_qualifier p) (field_width p) (precision p).
Definition set_pflags (f : Z) (p : printf_spec) : printf_spec :=
  mk_spec (ps_type p) f (ps_base p) (ps_qualifier p) (field_width p) (precision p).
Definition set_base (b : Z) (p : printf_spec) : printf_spec :=
  mk_spec (ps_type p) (ps_flags p) b (ps_qualifier p) (field_width p) (precision p).
Definition set_width (w : Z) (p : printf_spec) : printf_spec :=
  mk_spec (ps_type p) (ps_flags p) (ps_base p) (ps_qualifier p) w (precision p).
Definition set_precision (n : Z) (p : printf_spec) : printf_spec :=
  mk_spec (ps_type p) (ps_flags p) (ps_base p) (ps_qualifier p) (field_width p) n.
Definition set_qualifier (q : ascii) (p : printf_spec) : printf_spec :=
  mk_spec (ps_type p) (ps_flags p) (ps_base p) q (field_width p) (precision p).

(** The digits at [fmt]: their value and what is behind them. *)
Definition skip_atoi (fmt : string) : Z * string := scan_dec 0 fmt.

(** The end of format_decode, from the label qualifier. *)
Definition conversion (fmt : string) (spec : printf_spec) : string * printf_spec :=
  let '(fmt, q) :=
    match fmt with
    | String "l" (String "l" fmt) => (fmt, "L"%char)
    | String "l" fmt => (fmt, "l"%char)
    | _ => (fmt, "255"%char)
    end in
  let spec := set_base 10 (set_qualifier q spec) in
  let integer (fmt : string) (spec : printf_spec) :=
    (fmt, if Ascii.eqb q "L" then set_type FORMAT_TYPE_LONG_LONG spec
          else if Ascii.eqb q "l" then
            set_type (if has_flag (ps_flags spec) SIGN then FORMAT_TYPE_LONG else FORMAT_TYPE_ULONG) spec
          else set_type (if has_flag (ps_flags spec) SIGN then FORMAT_TYPE_INT else FORMAT_TYPE_UINT) spec) in
  match fmt with
  | String "c" fmt => (fmt, set_type FORMAT_TYPE_CHAR spec)
  | String "s" fmt => (fmt, set_type FORMAT_TYPE_STR spec)
  | String "p" fmt => (fmt, set_type FORMAT_TYPE_PTR spec)
  | String "%" fmt => (fmt, set_type FORMAT_TYPE_PERCENT_CHAR spec)
  | String "o" fmt => integer fmt (set_base 8 spec)
  | String "x" fmt | String "X" fmt => integer fmt (set_base 16 spec)
  | String "d" fmt | String "i" fmt => integer fmt (set_pflags (Z.lor (ps_flags spec) SIGN) spec)
  | String "u" fmt => integer fmt spec
  | _ => (fmt, set_type FORMAT_TYPE_INVALID spec)
  end.

(** From the label precision. *)
Definition get_precision (fmt : string) (spec : printf_spec) : string * printf_spec :=
  let spec := set_precision (-1) spec in
  match fmt with
  | String "." fmt =>
      if starts_dec fmt then
        let '(n, fmt) := skip_atoi fmt in conversion fmt (set_precision n spec)
      else match fmt with
           | String "*" fmt => (fmt, set_type FORMAT_TYPE_PRECISION spec)
           | _ => conversion fmt spec
           end
  | _ => conversion fmt spec
  end.

Fixpoint get_flags (fmt : string) (f : Z) : string * Z :=
  match fmt with
  | String "-" fmt => get_flags fmt (Z.lor f LEFT)
  | String "#" fmt => get_flags fmt (Z.lor f SPECIAL)
  | String "0" fmt => get_flags fmt (Z.lor f ZEROPAD)
  | _ => (fmt, f)
  end.

(** The text up to the next '%' or the end, and what is behind it. *)
Fixpoint plain_text (fmt : string) : string * string :=
  match fmt with
  | EmptyString => ("", "")
  | String c fmt' =>
      if Ascii.eqb c "%" then ("", fmt)
      else let '(t, r) := plain_text fmt' in (String c t, r)
  end.

(** format_decode: what is left of the format, instead of the number of
    characters read. *)
Definition format_decode (fmt : string) (spec : printf_spec) : string * printf_spec :=
  match ps_type spec with
  | FORMAT_TYPE_WIDTH =>
      let spec := if field_width spec <? 0
                  then set_pflags (Z.lor (ps_flags spec) LEFT) (set_width (- field_width spec) spec)
                  else spec in
      get_precision fmt (set_type FORMAT_TYPE_NONE spec)
  | FORMAT_TYPE_PRECISION =>
      let spec := if precision spec <? 0 then set_precision 0 spec else spec in
      conversion fmt (set_type FORMAT_TYPE_NONE spec)
  | _ =>
      let spec := set_type FORMAT_TYPE_NONE spec in
      let '(t, rest) := plain_text fmt in
      match t, rest with
      | EmptyString, String _ fmt =>
          let '(fmt, f) := get_flags fmt 0 in
          let spec := set_width (-1) (set_pflags f spec) in
          if starts_dec fmt then
            let '(n, fmt) := skip_atoi fmt in get_precision fmt (set_width n spec)
          else match fmt with
               | String "*" fmt => (fmt, set_type FORMAT_TYPE_WIDTH spec)
               | _ => get_precision fmt spec
               end
      | _, _ => (rest, spec)
      end
  end.

(** ** The buffer *)

(** [buf] .. [end], and the current position. *)
Record outbuf := mk_out { mem : list ascii; pos : Z }.
Definition size (o : outbuf) : Z := Z.of_nat (length (mem o)).
Definition room (o : outbuf) : Z := size o - pos o.
Definition skip (n : Z) (o : outbuf) : outbuf := mk_out (mem o) (pos o + n).

(** [*buf++ = c] *)
Definition store1 (c : ascii) (o : outbuf) : option outbuf :=
  if (0 <=? pos o) && (pos o <? size o) then Some (mk_out (<[Z.to_nat (pos o) := c]> (mem o)) (pos o + 1))
  else None.
(** [if (buf < end) *buf = c; ++buf] *)
Definition store_guarded (c : ascii) (o : outbuf) : option outbuf :=
  if pos o <? size o then store1 c o else Some (skip 1 o).

Fixpoint store_all (st : ascii -> outbuf -> option outbuf) (l : list ascii) (o : outbuf) : option outbuf :=
  match l with
  | [] => Some o
  | c :: l => o ← st c o; store_all st l o
  end.

(** while (--w >= 0) *buf++ = c; also the value of [w] afterwards. *)
Definition fill_end (w : Z) : Z := if 0 <=? w then -1 else w - 1.
Definition fill (w : Z) (c : ascii) (o : outbuf) : option (outbuf * Z) :=
  o ← store_all store1 (repeat c (Z.to_nat w)) o;
  Some (o, fill_end w).

(** ** Numbers *)

(** sizeof(long long)*3 + 4 *)
Definition sizeof_tmp : Z := 28.

(** do { tmp[i++] = digits[num & mask]; num >>= shift; } while (num) *)
Fixpoint power_digits (fuel : nat) (shift num : Z) : list ascii :=
  match fuel with
  | O => []
  | S fuel =>
      digit_char (Z.land (u8 num) (Z.shiftl 1 shift - 1)) ::
      let num := Z.shiftr num shift in
      if num =? 0 then [] else power_digits fuel shift num
  end.
(** [tmp], the digits in reverse order *)
Definition number_digits (num base : Z) : list ascii :=
  if num <? base then [digit_char num]
  else if negb (base =? 10) then power_digits 64 (if base =? 16 then 4 else 3) num
  else put_dec num.

Definition number (o : outbuf) (num : Z) (spec : printf_spec) : option outbuf :=
  let flags := ps_flags spec in
  let base := ps_base spec in
  let need_pfx := has_flag flags SPECIAL && negb (base =? 10) in
  let i := if sizeof_tmp <? field_width spec then field_width spec else sizeof_tmp in
  if room o <=? i then Some (skip i o)
  else
    let minus := has_flag flags SIGN && (s64 num <? 0) in
    let num := if minus then u64 (- s64 num) else num in
    let w := if minus then field_width spec - 1 else field_width spec in
    let w := if need_pfx then if base =? 16 then w - 2 else w - 1 else w in
    let tmp := number_digits num base in
    let w := w - Z.of_nat (length tmp) in
    '(o, w) ← (if negb (has_flag flags (ZEROPAD + LEFT)) then fill w " " o else Some (o, w));
    o ← (if minus then store1 "-" o else Some o);
    o ← (if need_pfx then
           o ← store1 "0" o; (if base =? 16 then store1 "x" o else Some o)
         else Some o);
    '(o, w) ← (if negb (has_flag flags LEFT) then fill w (if has_flag flags ZEROPAD then "0" else " ")%char o
               else Some (o, w));
    o ← store_all store1 (rev tmp) o;
    '(o, _) ← fill w " " o;
    Some o.

(** ** Strings and pointers *)

(** strnlen: a precision of -1 is the largest size. *)
Definition strnlen (s : string) (n : Z) : Z := if n <? 0 then slen s else Z.min (slen s) n.

(** while (len < w--) *buf++ = ' ' *)
Definition fill_to (len w : Z) (o : outbuf) : option (outbuf * Z) :=
  o ← store_all store1 (repeat " "%char (Z.to_nat (w - len))) o;
  Some (o, if len <? w then len - 1 else w - 1).

Definition string_conv (o : outbuf) (s : option string) (spec : printf_spec) : option outbuf :=
  let s := default "(null)" s in
  let len := strnlen s (precision spec) in
  let i := if len <? field_width spec then field_width spec else len in
  if room o <=? i then Some (skip i o)
  else
    '(o, w) ← (if negb (has_flag (ps_flags spec) LEFT) then fill_to len (field_width spec) o
               else Some (o, field_width spec));
    o ← store_all store1 (String.list_ascii_of_string (String.substring 0 (Z.to_nat len) s)) o;
    '(o, _) ← fill_to len w o;
    Some o.

Definition pointer (o : outbuf) (ptr : Z) (spec : printf_spec) : option outbuf :=
  let spec := if field_width spec =? -1
              then set_pflags (Z.lor (ps_flags spec) ZEROPAD) (set_width 16 spec) else spec in
  number o (u64 ptr) (set_base 16 spec).

(** ** kernel_vsnprintf *)

Inductive arg := AInt (n : Z) | AStr (s : option string).

(** va_arg as the value of an unsigned long long *)
Definition int_arg (t : format_type) (n : Z) : Z :=
  match t with
  | FORMAT_TYPE_INT => u64 (s32 n)
  | FORMAT_TYPE_LONG_LONG | FORMAT_TYPE_ULONG | FORMAT_TYPE_LONG => u64 n
  | _ => u32 n
  end.

(** while (--w > 0) *str++ = ' ', guarded *)
Definition fill_char (w : Z) (o : outbuf) : option (outbuf * Z) :=
  o ← store_all store_guarded (repeat " "%char (Z.to_nat (w - 1))) o;
  Some (o, if 0 <? w then 0 else w - 1).
Definition char_conv (o : outbuf) (c : ascii) (spec : printf_spec) : option outbuf :=
  '(o, w) ← (if negb (has_flag (ps_flags spec) LEFT) then fill_char (field_width spec) o
             else Some (o, field_width spec));
  o ← store_guarded c o;
  '(o, _) ← fill_char w o;
  Some o.

(** One round of the loop behind format_decode: [copy] is the text read. *)
Definition convert (copy : string) (spec : printf_spec) (args : list arg) (o : outbuf)
    : option (printf_spec * list arg * outbuf) :=
  match ps_type spec, args with
  | FORMAT_TYPE_NONE, _ => o ← store_all store_guarded (String.list_ascii_of_string copy) o; Some (spec, args, o)
  | FORMAT_TYPE_WIDTH, AInt n :: args => Some (set_width (s32 n) spec, args, o)
  | FORMAT_TYPE_PRECISION, AInt n :: args => Some (set_precision (s32 n) spec, args, o)
  | FORMAT_TYPE_CHAR, AInt n :: args => o ← char_conv o (chr n) spec; Some (spec, args, o)
  | FORMAT_TYPE_STR, AStr s :: args => o ← string_conv o s spec; Some (spec, args, o)
  | FORMAT_TYPE_PTR, AInt n :: args => o ← pointer o n spec; Some (spec, args, o)
  | FORMAT_TYPE_PERCENT_CHAR, _ | FORMAT_TYPE_INVALID, _ => o ← store_guarded "%" o; Some (spec, args, o)
  | FORMAT_TYPE_LONG_LONG, AInt n :: args | FORMAT_TYPE_ULONG, AInt n :: args
  | FORMAT_TYPE_LONG, AInt n :: args | FORMAT_TYPE_UINT, AInt n :: args | FORMAT_TYPE_INT, AInt n :: args =>
      o ← number o (int_arg (ps_type spec) n) spec; Some (spec, args, o)
  | _, _ => None
  end.

Fixpoint vsn_loop (fuel : nat) (fmt : string) (spec : printf_spec) (args : list arg) (o : outbuf)
    : option outbuf :=
  match fuel with
  | O => None
  | S fuel =>
      match fmt with
      | EmptyString => Some o
      | _ =>
          let '(rest, spec) := format_decode fmt spec in
          let copy := String.substring 0 (String.length fmt - String.length rest) fmt in
          '(spec, args, o) ← convert copy spec args o;
          vsn_loop fuel rest spec args o
      end
  end.

(** The contents of the block afterwards, and the result. *)
Definition kernel_vsnprintf (buf : list ascii) (fmt : string) (args : list arg) : option (list ascii * Z) :=
  o ← vsn_loop (2 * String.length fmt + 2) fmt spec0 args (mk_out buf 0);
  if pos o <? size o then o' ← store1 "000" o; Some (mem o', pos o) else Some (mem o, pos o).

(** fputs: the text before the NUL; without one the block is read past its end. *)
Fixpoint until_nul (buf : list ascii) : option string :=
  match buf with
  | [] => None
  | c :: buf => if Ascii.eqb c "000" then Some "" else s ← until_nul buf; Some (String c s)
  end.

(** strace_vfprintf: the static buffer [buf] of [buflen] bytes, NULL at first;
    [malloc] gives a block with whatever it contained.  The text written, the
    result and the buffer that is left. *)
Section vfprintf.
Context (malloc : Z -> option (list ascii)).

Definition strace_vfprintf (buf : list ascii) (fmt : string) (args : list arg)
    : option (string * Z * list ascii) :=
  let buflen := Z.of_nat (length buf) in
  '(buf, len) ← kernel_vsnprintf buf fmt args;
  let len := u32 len in
  buf ← (if buflen <=? len then
           buf ← malloc (u32 (len + 256));
           '(buf, _) ← kernel_vsnprintf buf fmt args; Some buf
         else Some buf);
  text ← until_nul buf;
  Some (text, len, buf).
End vfprintf.


(** ** Runs of stores *)

Definition chars (s : string) : list ascii := String.list_ascii_of_string s.
Abbreviation len l := (Z.of_nat (length l)).

(** The block with [l] at the position. *)
Definition wrote (l : list ascii) (o : outbuf) : outbuf :=
  mk_out (take (Z.to_nat (pos o)) (mem o) ++ l ++ drop (Z.to_nat (pos o) + length l) (mem o)) (pos o + len l).

Lemma room_wrote l o : 0 <= pos o -> len l <= room o ->
  room (wrote l o) = room o - len l /\ 0 <= pos (wrote l o) /\ size (wrote l o) = size o.
Proof.
  unfold room, size. intros Hp Hl. cbn [wrote mem pos].
  rewrite !length_app, length_take, length_drop. lia.
Qed.

Lemma wrote_nil o : wrote [] o = o.
Proof.
  destruct o as [m p]. unfold wrote. cbn [mem pos app length]. rewrite Nat.add_0_r, take_drop. f_equal. lia.
Qed.

Lemma wrote_wrote l k o : 0 <= pos o -> len l + len k <= room o ->
  wrote k (wrote l o) = wrote (l ++ k) o.
Proof.
  intros Hp Hr. unfold room, size in Hr. unfold wrote. cbn [mem pos]. rewrite length_app. f_equal; [|lia].
  replace (Z.to_nat (pos o + len l)) with (length (take (Z.to_nat (pos o)) (mem o) ++ l))
    by (rewrite length_app, length_take; lia).
  rewrite (app_assoc _ l), take_app_length. rewrite drop_app_add', drop_drop by done.
  rewrite <- app_assoc. f_equal. rewrite <- app_assoc. f_equal. f_equal. f_equal. lia.
Qed.

Lemma store1_wrote c o : 0 <= pos o -> 1 <= room o -> store1 c o = Some (wrote [c] o).
Proof.
  intros Hp Hr. unfold store1. unfold room in Hr.
  replace ((0 <=? pos o) && (pos o <? size o)) with true by lia. f_equal. unfold wrote. f_equal.
  unfold size in Hr. rewrite insert_take_drop by lia. simpl. do 3 f_equal. lia.
Qed.

Lemma store_all_wrote l o : 0 <= pos o -> len l <= room o -> store_all store1 l o = Some (wrote l o).
Proof.
  revert o. induction l as [|c l IH]; intros o Hp Hr; cbn [store_all]; [by rewrite wrote_nil|].
  cbn [length] in Hr. rewrite store1_wrote by lia. cbn [mbind option_bind].
  destruct (room_wrote [c] o) as (H1 & H2 & _); [done|simpl; lia|].
  rewrite IH by (simpl in *; lia). by rewrite wrote_wrote by (simpl; lia).
Qed.

(** ** Pieces of output

    The text of a conversion, the room it must leave ([room <= need] means that it
    is skipped or cut) and how far the position goes then. *)
Record piece := mk_piece { text : list ascii; need : Z; adv : Z }.
Definition crude (l : list ascii) (i : Z) : piece := mk_piece l i i.
Definition guarded (l : list ascii) : piece := mk_piece l (len l - 1) (len l).

Record ran (p : piece) (o o' : outbuf) : Prop := {
  ran_size : size o' = size o;
  ran_pos : pos o' = pos o + (if room o <=? need p then adv p else len (text p));
  ran_text : need p < room o -> o' = wrote (text p) o
}.
Definition Runs (f : outbuf -> option outbuf) (p : piece) : Prop :=
  forall o, 0 <= pos o -> exists o', f o = Some o' /\ ran p o o'.

Lemma store_all_app st l k o : store_all st (l ++ k) o = (o ← store_all st l o; store_all st k o).
Proof.
  revert o. induction l as [|c l IH]; intros o; cbn [app store_all]; [done|].
  destruct (st c o) as [o1|]; cbn [mbind option_bind]; [apply IH|done].
Qed.

Lemma runs_guarded l : Runs (store_all store_guarded l) (guarded l).
Proof.
  enough (H : forall o, 0 <= pos o -> exists o', store_all store_guarded l o = Some o' /\
            size o' = size o /\ pos o' = pos o + len l /\ (len l <= room o -> o' = wrote l o)).
  { intros o Hp. destruct (H o Hp) as (o' & H1 & H2 & H3 & H4). exists o'. split; [done|].
    split; cbn [guarded text need adv]; [done|by case_match|]. intros Hr. apply H4. lia. }
  induction l as [|c l IH]; intros o Hp; cbn [store_all].
  { exists o. rewrite wrote_nil. cbn. split_and!; [done|done|lia|done]. }
  assert (Hg : store_guarded c o = if pos o <? size o then store1 c o else Some (skip 1 o)) by done.
  rewrite Hg. cbn [length]. destruct (Z.ltb_spec (pos o) (size o)) as [Hlt|Hge].
  - rewrite store1_wrote by (unfold room; lia). cbn [mbind option_bind].
    destruct (room_wrote [c] o) as (H1 & H2 & H3); [done|unfold room; simpl; lia|].
    destruct (IH (wrote [c] o) H2) as (o' & E & Hs & Hpos & Ht). exists o'. split; [exact E|].
    split_and!; [congruence|rewrite Hpos; simpl; lia|]. intros Hr. simpl in H1.
    rewrite Ht by lia. by rewrite wrote_wrote by (simpl; lia).
  - cbn [mbind option_bind]. destruct (IH (skip 1 o)) as (o' & E & Hs & Hpos & _); [simpl; lia|].
    exists o'. split; [exact E|]. split_and!; [done|rewrite Hpos; simpl; lia|]. unfold room. lia.
Qed.

Lemma runs_crude (f : outbuf -> option outbuf) l i :
  len l <= i -> (forall o, f o = if room o <=? i then Some (skip i o) else store_all store1 l o) ->
  Runs f (crude l i).
Proof.
  intros Hl Hf o Hp. rewrite Hf. destruct (Z.leb_spec (room o) i) as [Hr|Hr].
  - eexists. split; [done|]. split; cbn [crude need adv text]; [done| |lia].
    replace (room o <=? i) with true by lia. done.
  - rewrite store_all_wrote by lia. eexists. split; [done|]. destruct (room_wrote l o) as (_ & _ & Hs); [done|lia|].
    split; cbn [crude need adv text]; [done| |done]. replace (room o <=? i) with false by lia. done.
Qed.

(** ** The text of a number *)

(** Sign or prefix and digits in a field. *)
Definition padded (left zero : bool) (w : Z) (pfx body : list ascii) : list ascii :=
  let n := Z.to_nat (w - len pfx - len body) in
  if left then pfx ++ body ++ repeat " "%char n
  else if zero then pfx ++ repeat "0"%char n ++ body
  else repeat " "%char n ++ pfx ++ body.

Definition minus_of (num : Z) (spec : printf_spec) : bool := has_flag (ps_flags spec) SIGN && (s64 num <? 0).
Definition prefix_of (spec : printf_spec) : list ascii :=
  if has_flag (ps_flags spec) SPECIAL && negb (ps_base spec =? 10) then
    "0"%char :: if ps_base spec =? 16 then ["x"%char] else []
  else [].
Definition number_text (num : Z) (spec : printf_spec) : list ascii :=
  let minus := minus_of num spec in
  padded (has_flag (ps_flags spec) LEFT) (has_flag (ps_flags spec) ZEROPAD) (field_width spec)
    ((if minus then ["-"%char] else []) ++ prefix_of spec)
    (rev (number_digits (if minus then u64 (- s64 num) else num) (ps_base spec))).

Lemma has_flag_lor f a b : has_flag f (Z.lor a b) = has_flag f a || has_flag f b.
Proof.
  unfold has_flag. rewrite Z.land_lor_distr_r. destruct (Z.eqb_spec (Z.lor (Z.land f a) (Z.land f b)) 0) as [E|E].
  - apply Z.lor_eq_0_iff in E as [-> ->]. done.
  - destruct (Z.eqb_spec (Z.land f a) 0) as [E1|]; [|done].
    destruct (Z.eqb_spec (Z.land f b) 0) as [E2|]; [|done]. by rewrite E1, E2 in E.
Qed.

Lemma fill_end_nat w : Z.to_nat (fill_end w) = 0%nat.
Proof. unfold fill_end. case_match; lia. Qed.

(** Steps through a sequence of stores on both sides. *)
Ltac stores :=
  repeat match goal with
  | |- ?x = ?x => reflexivity
  | |- context [store_all store1 (_ ++ _) _] => rewrite store_all_app
  | |- context [Z.to_nat (fill_end ?w)] => rewrite (fill_end_nat w); cbn [repeat store_all mbind option_bind]
  | |- context [store_all store1 ?l ?o] => destruct (store_all store1 l o); cbn [mbind option_bind]; [|done]
  | |- context [store1 ?c ?o] => destruct (store1 c o); cbn [mbind option_bind]; [|done]
  end.

Lemma number_stores o num spec :
  number o num spec =
    let i := if sizeof_tmp <? field_width spec then field_width spec else sizeof_tmp in
    if room o <=? i then Some (skip i o) else store_all store1 (number_text num spec) o.
Proof.
  unfold number, number_text. cbv zeta. destruct (room o <=? _); [done|].
  fold (minus_of num spec). destruct (minus_of num spec); cbv iota.
  all: set (tmp := number_digits _ _).
  all: change (ZEROPAD + LEFT) with (Z.lor ZEROPAD LEFT); rewrite has_flag_lor.
  all: unfold prefix_of, padded, fill; destruct (has_flag (ps_flags spec) SPECIAL && _), (ps_base spec =? 16),
         (has_flag (ps_flags spec) ZEROPAD), (has_flag (ps_flags spec) LEFT); cbn [orb negb app length].
  all: rewrite ?length_rev; cbn [length].
  all: lazymatch goal with |- context [Z.to_nat (?x - Z.of_nat ?k - ?y)] =>
         try replace (x - 1 - 2 - y) with (x - Z.of_nat k - y) by lia;
         try replace (x - 1 - 1 - y) with (x - Z.of_nat k - y) by lia;
         try replace (x - 2 - y) with (x - Z.of_nat k - y) by lia;
         try replace (x - 1 - y) with (x - Z.of_nat k - y) by lia;
         try replace (x - y) with (x - Z.of_nat k - y) by lia;
         generalize (x - Z.of_nat k - y); intros n end.
  all: cbn [store_all mbind option_bind]; stores.
Qed.

Lemma chars_app s t : chars (s +:+ t) = chars s ++ chars t.
Proof. induction s as [|c s IH]; [done|]. rewrite app_String. cbn. f_equal. exact IH. Qed.
Lemma len_chars s : len (chars s) = slen s.
Proof. unfold slen. f_equal. induction s as [|c s IH]; cbn; [done|f_equal; exact IH]. Qed.

Lemma chars_digits ds : chars (text_of_digits ds) = rev (digit_char <$> ds).
Proof.
  induction ds as [|d ds IH] using rev_ind; [done|].
  rewrite text_of_digits_snoc, fmap_app, rev_app_distr, <- IH. done.
Qed.

Lemma power_digits_ok fuel k num : 3 <= k <= 4 -> 0 <= num < 2 ^ (k * Z.of_nat (S fuel)) ->
  power_digits (S fuel) k num = digit_char <$> digits (2 ^ k) num.
Proof.
  intros Hk. assert (Hb : 8 <= 2 ^ k) by (apply (Z.pow_le_mono_r 2 3 k); lia).
  assert (Hm : forall n, Z.land (u8 n) (Z.shiftl 1 k - 1) = n mod 2 ^ k).
  { intros n. replace (Z.shiftl 1 k - 1) with (Z.ones k) by (rewrite Z.ones_equiv, Z.shiftl_mul_pow2; lia).
    rewrite Z.land_ones by lia. unfold u8. replace 8 with (k + (8 - k)) by lia.
    rewrite Z.pow_add_r, Z.rem_mul_r by lia. rewrite Z.mul_comm, Z_mod_plus_full. apply Z.mod_mod. lia. }
  revert num. induction fuel as [|fuel IH]; intros num Hn;
    rewrite digits_step by lia; cbn [power_digits]; rewrite Hm, Z.shiftr_div_pow2 by lia.
  - replace (k * Z.of_nat 1) with k in Hn by lia. rewrite Z.div_small, Z.mod_small by lia.
    by replace (num <? 2 ^ k) with true by lia.
  - destruct (Z.ltb_spec num (2 ^ k)) as [H|H].
    + rewrite Z.div_small, Z.mod_small by lia. done.
    + assert (1 <= num / 2 ^ k) by (apply Z.div_le_lower_bound; lia).
      replace (num / 2 ^ k =? 0) with false by lia. cbn [fmap list_fmap]. f_equal.
      apply IH. split; [lia|]. apply Z.div_lt_upper_bound; [lia|].
      rewrite <- Z.pow_add_r by lia. replace (k + k * Z.of_nat (S fuel)) with (k * Z.of_nat (S (S fuel))) by lia.
      lia.
Qed.

Lemma number_digits_ok num base : is_u64 num -> base = 8 \/ base = 10 \/ base = 16 ->
  rev (number_digits num base) = chars (text_of_digits (digits base num)).
Proof.
  intros Hn Hb. rewrite chars_digits. f_equal. unfold number_digits.
  destruct (Z.ltb_spec num base) as [H|H].
  { unfold is_u64 in Hn. rewrite digits_step by lia. by replace (num <? base) with true by lia. }
  destruct Hb as [->|[->| ->]]; cbn [negb Z.eqb Pos.eqb].
  - apply (power_digits_ok 63 3); [lia|]. unfold is_u64 in Hn.
    change (2 ^ (3 * Z.of_nat 64)) with (2 ^ 192). lia.
  - by apply put_dec_generic.
  - apply (power_digits_ok 63 4); [lia|]. unfold is_u64 in Hn.
    change (2 ^ (4 * Z.of_nat 64)) with (2 ^ 256). lia.
Qed.

(** sizeof_tmp is enough. *)
Lemma length_number_digits num base : is_u64 num -> base = 8 \/ base = 10 \/ base = 16 ->
  len (number_digits num base) <= 22.
Proof.
  intros Hn Hb. rewrite <- length_rev, number_digits_ok by done. rewrite len_chars, slen_text_of_digits.
  unfold digits. unfold is_u64 in Hn.
  pose proof (length_digits_aux (S (Z.to_nat (Z.log2 num))) base num 21) as H.
  assert (Hp : 8 ^ Z.of_nat 22 <= base ^ Z.of_nat 22) by (apply Z.pow_le_mono_l; lia).
  change (8 ^ Z.of_nat 22) with (2 ^ 66) in Hp. lia.
Qed.

Lemma len_padded left zero w pfx body :
  len (padded left zero w pfx body) = Z.max w (len pfx + len body).
Proof. unfold padded. destruct left, zero; rewrite !length_app, repeat_length; lia. Qed.

Lemma runs_number num spec : is_u64 num -> ps_base spec = 8 \/ ps_base spec = 10 \/ ps_base spec = 16 ->
  Runs (fun o => number o num spec) (crude (number_text num spec) (Z.max 28 (field_width spec))).
Proof.
  intros Hn Hb. apply runs_crude.
  - unfold number_text. rewrite len_padded, length_rev, length_app.
    assert (Hd : len (number_digits (if minus_of num spec then u64 (- s64 num) else num) (ps_base spec)) <= 22)
      by (apply length_number_digits; [case_match; [apply u64_range|done]|done]).
    assert (len (prefix_of spec) <= 2) by (unfold prefix_of; repeat case_match; simpl; lia).
    assert (len (if minus_of num spec then ["-"%char] else []) <= 1) by (case_match; simpl; lia). lia.
  - intros o. rewrite number_stores. cbv zeta. unfold sizeof_tmp.
    replace (if 28 <? field_width spec then field_width spec else 28) with (Z.max 28 (field_width spec))
      by (case_match; lia). done.
Qed.

(** ** The texts of strings and characters *)

Definition string_text (s : string) (left : bool) (w p : Z) : list ascii :=
  padded left false w [] (chars (String.substring 0 (Z.to_nat (strnlen s p)) s)).

Lemma slen_prefix n s : 0 <= n <= slen s -> slen (String.substring 0 (Z.to_nat n) s) = n.
Proof.
  unfold slen. intros Hn. enough (H : forall k, (k <= String.length s)%nat ->
    String.length (String.substring 0 k s) = k) by (rewrite H; lia).
  clear. induction s as [|c s IH]; intros [|k] Hk; simpl in *; try done; [lia|]. rewrite IH; lia.
Qed.

Lemma fill_to_end n w : Z.to_nat ((if n <? w then n - 1 else w - 1) - n) = 0%nat.
Proof. case_match; lia. Qed.

Lemma runs_string s spec :
  Runs (fun o => string_conv o s spec)
    (let s := default "(null)" s in
     crude (string_text s (has_flag (ps_flags spec) LEFT) (field_width spec) (precision spec))
       (Z.max (strnlen s (precision spec)) (field_width spec))).
Proof.
  cbv zeta. unfold string_conv. set (t := default "(null)" s). cbv zeta.
  assert (Hl : 0 <= strnlen t (precision spec) <= slen t).
  { unfold strnlen. pose proof (slen_nonneg t). case_match; lia. }
  assert (Hlen : len (chars (String.substring 0 (Z.to_nat (strnlen t (precision spec))) t)) =
                 strnlen t (precision spec)) by (rewrite len_chars; by apply slen_prefix).
  apply runs_crude.
  - unfold string_text. rewrite len_padded, Hlen. simpl. lia.
  - intros o. replace (if strnlen t _ <? field_width spec then _ else _)
      with (Z.max (strnlen t (precision spec)) (field_width spec)) by (case_match; lia).
    destruct (room o <=? _); [done|]. unfold string_text, padded. rewrite Hlen. cbn [length app].
    fold (chars (String.substring 0 (Z.to_nat (strnlen t (precision spec))) t)).
    set (cs := chars _). set (n := strnlen t (precision spec)).
    replace (field_width spec - Z.of_nat 0 - n) with (field_width spec - n) by lia. unfold fill_to.
    destruct (has_flag (ps_flags spec) LEFT); cbn [negb mbind option_bind]; stores.
    by rewrite fill_to_end.
Qed.

Lemma runs_char c spec :
  Runs (fun o => char_conv o c spec)
    (guarded (padded (has_flag (ps_flags spec) LEFT) false (field_width spec) [] [c])).
Proof.
  assert (Hg : forall o, char_conv o c spec =
    store_all store_guarded (padded (has_flag (ps_flags spec) LEFT) false (field_width spec) [] [c]) o).
  { intros o. unfold char_conv, padded, fill_char. cbn [length app].
    replace (field_width spec - Z.of_nat 0 - Z.of_nat 1) with (field_width spec - 1) by lia.
    assert (Hz : Z.to_nat ((if 0 <? field_width spec then 0 else field_width spec - 1) - 1) = 0%nat)
      by (case_match; lia).
    destruct (has_flag (ps_flags spec) LEFT); cbn [negb mbind option_bind store_all].
    - destruct (store_guarded c o); cbn [mbind option_bind]; [|done].
      by destruct (store_all store_guarded _ _).
    - rewrite store_all_app. destruct (store_all store_guarded _ _); cbn [mbind option_bind store_all]; [|done].
      rewrite Hz. by destruct (store_guarded c _). }
  intros o Hp. rewrite Hg. by apply runs_guarded.
Qed.

Lemma runs_pointer n spec :
  let spec' := set_base 16 (if field_width spec =? -1
                            then set_pflags (Z.lor (ps_flags spec) ZEROPAD) (set_width 16 spec) else spec) in
  Runs (fun o => pointer o n spec) (crude (number_text (u64 n) spec') (Z.max 28 (field_width spec'))).
Proof. cbv zeta. apply runs_number; [apply u64_range|]. cbn. tauto. Qed.

(** ** Formats

    The formats that vsprintf.c supports, as data. *)
Inductive count := Unset | Fixed (n : Z) | Star.
Inductive int_kind := Dec | Uns | Oct | Hex.
Record fmt_flags := mk_flags { left_ : bool; special_ : bool; zero_ : bool }.
Inductive directive :=
  | Plain (s : string)
  | Percent
  | Int (f : fmt_flags) (w : count) (longs : nat) (k : int_kind)
  | Str (f : fmt_flags) (w p : count)
  | Char (f : fmt_flags) (w : count)
  | Ptr (f : fmt_flags) (w : count).

Definition show_flags (f : fmt_flags) : string :=
  (if left_ f then "-" else "") +:+ (if special_ f then "#" else "") +:+ (if zero_ f then "0" else "").
Definition show_count (c : count) : string :=
  match c with Unset => "" | Fixed n => fmt_u n | Star => "*" end.
Definition show_precision (c : count) : string :=
  match c with Unset => "" | _ => "." +:+ show_count c end.
Definition show_longs (n : nat) : string := match n with O => "" | S O => "l" | _ => "ll" end.
Definition show_kind (k : int_kind) : string :=
  match k with Dec => "d" | Uns => "u" | Oct => "o" | Hex => "x" end.
Definition show_directive (d : directive) : string :=
  match d with
  | Plain s => s
  | Percent => "%%"
  | Int f w n k => "%" +:+ show_flags f +:+ show_count w +:+ show_longs n +:+ show_kind k
  | Str f w p => "%" +:+ show_flags f +:+ show_count w +:+ show_precision p +:+ "s"
  | Char f w => "%" +:+ show_flags f +:+ show_count w +:+ "c"
  | Ptr f w => "%" +:+ show_flags f +:+ show_count w +:+ "p"
  end.
Definition show_format (ds : list directive) : string :=
  foldr (fun d s => show_directive d +:+ s) "" ds.

(** What C promises for them: the next argument of a count or a conversion. *)
Definition take_count (c : count) (args : list arg) : option (Z * list arg) :=
  match c, args with
  | Unset, _ => Some (-1, args)
  | Fixed n, _ => Some (n, args)
  | Star, AInt n :: args => Some (s32 n, args)
  | Star, _ => None
  end.

(** A negative width from an argument is the flag '-' and the width. *)
Definition sized (f : fmt_flags) (c : count) (n : Z) : fmt_flags * Z :=
  match c with
  | Star => if n <? 0 then (mk_flags true (special_ f) (zero_ f), - n) else (f, n)
  | _ => (f, n)
  end.

Definition int_body (special : bool) (longs : nat) (k : int_kind) (v : Z) : list ascii * list ascii :=
  let u := match longs with O => u32 v | _ => u64 v end in
  match k with
  | Dec => let v := match longs with O => s32 v | _ => s64 v end in
           (if v <? 0 then ["-"%char] else [], chars (fmt_u (Z.abs v)))
  | Uns => ([], chars (fmt_u u))
  | Oct => (if special then ["0"%char] else [], chars (fmt_o u))
  | Hex => (if special then ["0"; "x"]%char else [], chars (fmt_x u))
  end.

(** The text of a directive, with the room that the code asks for. *)
Definition piece_of (d : directive) (args : list arg) : option (piece * list arg) :=
  match d with
  | Plain s => Some (guarded (chars s), args)
  | Percent => Some (guarded ["%"%char], args)
  | Int f w n k =>
      '(c, args) ← take_count w args;
      let '(f, c) := sized f w c in
      match args with
      | AInt v :: args =>
          let '(pfx, body) := int_body (special_ f) n k v in
          Some (crude (padded (left_ f) (zero_ f) c pfx body) (Z.max 28 c), args)
      | _ => None
      end
  | Str f w p =>
      '(c, args) ← take_count w args;
      let '(f, c) := sized f w c in
      '(m, args) ← take_count p args;
      let m := match p with Star => Z.max 0 m | _ => m end in
      match args with
      | AStr s :: args =>
          let s := default "(null)" s in
          Some (crude (string_text s (left_ f) c m) (Z.max (strnlen s m) c), args)
      | _ => None
      end
  | Char f w =>
      '(c, args) ← take_count w args;
      let '(f, c) := sized f w c in
      match args with
      | AInt v :: args => Some (guarded (padded (left_ f) false c [] [chr v]), args)
      | _ => None
      end
  | Ptr f w =>
      '(c, args) ← take_count w args;
      let '(f, c) := sized f w c in
      let '(c, zero) := if c =? -1 then (16, true) else (c, zero_ f) in
      match args with
      | AInt v :: args =>
          let '(pfx, body) := int_body (special_ f) 1 Hex v in
          Some (crude (padded (left_ f) zero c pfx body) (Z.max 28 c), args)
      | _ => None
      end
  end.

Fixpoint pieces_of (ds : list directive) (args : list arg) : option (list piece) :=
  match ds with
  | [] => Some []
  | d :: ds => '(p, args) ← piece_of d args; ps ← pieces_of ds args; Some (p :: ps)
  end.

(** The text of a format. *)
Definition render (ds : list directive) (args : list arg) : option (list ascii) :=
  ps ← pieces_of ds args; Some (concat (text <$> ps)).

(** Formats in a normal form. *)
Fixpoint no_percent (s : string) : bool :=
  match s with EmptyString => true | String c s => negb (Ascii.eqb c "%") && no_percent s end.
Definition count_ok (lo : Z) (c : count) : Prop := match c with Fixed n => lo <= n | _ => True end.
Definition directive_ok (d : directive) : Prop :=
  match d with
  | Plain s => s <> "" /\ no_percent s = true
  | Percent => True
  | Int _ w n _ => count_ok 1 w /\ (n <= 2)%nat
  | Str _ w p => count_ok 1 w /\ count_ok 0 p
  | Char _ w | Ptr _ w => count_ok 1 w
  end.
Fixpoint format_ok (ds : list directive) : Prop :=
  match ds with
  | [] => True
  | d :: ds => directive_ok d /\ match d, ds with Plain _, Plain _ :: _ => False | _, _ => True end /\ format_ok ds
  end.

(** ** Decoding a directive *)

Definition flags_of (f : fmt_flags) : Z :=
  Z.lor (if left_ f then LEFT else 0) (Z.lor (if special_ f then SPECIAL else 0) (if zero_ f then ZEROPAD else 0)).

(** The first character is none of the flags. *)
Definition no_flag (s : string) : bool :=
  match s with String "-" _ | String "#" _ | String "0" _ => false | _ => true end.

Lemma get_flags_stop s f : no_flag s = true -> get_flags s f = (s, f).
Proof. destruct s as [|[[] [] [] [] [] [] [] []] s]; done. Qed.

Lemma get_flags_show f s : no_flag s = true -> get_flags (show_flags f +:+ s) 0 = (s, flags_of f).
Proof.
  intros Hs. destruct f as [l p z]. unfold show_flags, flags_of. cbn [left_ special_ zero_].
  destruct l, p, z; rewrite ?app_String, ?app_Empty, ?app_String, ?app_Empty; cbn [get_flags];
    rewrite get_flags_stop by done; done.
Qed.

(** Characters that may follow a count. *)
Definition ends_count (s : string) : bool :=
  negb (starts_dec s) && no_flag s && match s with String "*" _ | EmptyString => false | _ => true end.

Lemma fmt_u_pos n : 1 <= n -> exists c s, fmt_u n = String c s /\ is_dec c = true /\ c <> "0"%char.
Proof.
  intros Hn. enough (H : exists ds d, digits 10 n = ds ++ [d] /\ 0 < d < 10).
  { destruct H as (ds & d & E & Hd). unfold fmt_u. rewrite E, text_of_digits_snoc. eexists _, _.
    split; [done|]. destruct (dec_digit_char d) as [H1 H2]; [lia|]. split; [done|].
    intros E0. rewrite E0 in H2. change (ord "0") with 48 in H2. lia. }
  assert (Hn0 : 0 <= n) by lia. revert Hn. pattern n. apply Z_lt_induction; [|exact Hn0]. clear n Hn0. intros n IH Hn.
  rewrite digits_step by lia. destruct (Z.ltb_spec n 10).
  - exists [], n. split; [done|lia].
  - destruct (IH (n / 10)) as (ds & d & -> & Hd).
    + split; [apply Z.div_pos; lia|apply Z.div_lt; lia].
    + apply Z.div_le_lower_bound; lia.
    + exists (n mod 10 :: ds), d. done.
Qed.

Lemma fixed_starts n s : 0 <= n -> starts_dec (fmt_u n +:+ s) = true.
Proof. intros Hn. destruct (fmt_u_head n Hn) as (c & t & -> & Hc). by rewrite app_String. Qed.
Lemma fixed_no_flag n s : 1 <= n -> no_flag (fmt_u n +:+ s) = true.
Proof.
  intros Hn. destruct (fmt_u_pos n Hn) as (c & t & -> & Hc & H0). rewrite app_String. revert Hc H0.
  by destruct c as [[] [] [] [] [] [] [] []].
Qed.

Definition neutral (spec : printf_spec) : Prop :=
  match ps_type spec with FORMAT_TYPE_WIDTH | FORMAT_TYPE_PRECISION => False | _ => True end.

(** The rest of a round behind format_decode, for what is not plain text. *)
Definition proceed (fuel : nat) (r : string * printf_spec) (args : list arg) (o : outbuf) : option outbuf :=
  '(spec, args, o) ← convert "" r.2 args o; vsn_loop fuel r.1 spec args o.

Lemma convert_copy copy spec args o :
  ps_type spec <> FORMAT_TYPE_NONE -> convert copy spec args o = convert "" spec args o.
Proof. unfold convert. by destruct (ps_type spec). Qed.

Lemma conversion_type s spec : ps_type (conversion s spec).2 <> FORMAT_TYPE_NONE.
Proof.
  unfold conversion. destruct (match s with String _ _ => _ | _ => _ end) as [fmt q].
  repeat (cbn [snd set_type ps_type set_base set_qualifier set_pflags]; case_match); done.
Qed.

(** The first character of a conversion. *)
Definition conv_head (s : string) : bool :=
  match s with
  | String c _ => existsb (Ascii.eqb c) ["l"; "d"; "u"; "o"; "x"; "s"; "c"; "p"]%char
  | EmptyString => false
  end.
Definition stars (c : count) : nat := match c with Star => 1 | _ => 0 end.

Lemma conv_head_cases c s : conv_head (String c s) = true ->
  c = "l"%char \/ c = "d"%char \/ c = "u"%char \/ c = "o"%char \/ c = "x"%char \/ c = "s"%char \/
  c = "c"%char \/ c = "p"%char.
Proof.
  intros H. apply existsb_exists in H as (x & Hx & E%Ascii.eqb_eq). subst c. cbn in Hx.
  repeat (destruct Hx as [<-|Hx]; [tauto|]). done.
Qed.

Lemma get_precision_type s spec : ps_type (get_precision s spec).2 <> FORMAT_TYPE_NONE.
Proof.
  assert (H : forall t sp, ps_type (conversion t sp).2 <> FORMAT_TYPE_NONE) by apply conversion_type.
  unfold get_precision. destruct s as [|c s]; [apply H|].
  destruct c as [[] [] [] [] [] [] [] []]; try apply H.
  destruct (starts_dec s); [destruct (skip_atoi s); apply H|].
  destruct s as [|c s]; [apply H|]. destruct c as [[] [] [] [] [] [] [] []]; try apply H; done.
Qed.

Lemma decode_precision fmt f b q w n :
  format_decode fmt (mk_spec FORMAT_TYPE_PRECISION f b q w n) =
  conversion fmt (mk_spec FORMAT_TYPE_NONE f b q w (Z.max 0 n)).
Proof.
  unfold format_decode. cbn [ps_type precision]. destruct (Z.ltb_spec n 0) as [H|H].
  - by replace (Z.max 0 n) with 0 by lia.
  - by replace (Z.max 0 n) with n by lia.
Qed.
Lemma decode_width fmt f b q n r :
  format_decode fmt (mk_spec FORMAT_TYPE_WIDTH (flags_of f) b q n r) =
  let '(f, n) := sized f Star n in get_precision fmt (mk_spec FORMAT_TYPE_NONE (flags_of f) b q n r).
Proof.
  unfold format_decode, sized. cbn [ps_type field_width]. destruct (Z.ltb_spec n 0) as [H|H]; [|done].
  destruct f as [l p z]. by destruct l, p, z.
Qed.

Lemma proceed_precision fuel c T f b q w r n args o :
  proceed (S fuel) (String c T, mk_spec FORMAT_TYPE_PRECISION f b q w r) (AInt n :: args) o =
  proceed fuel (conversion (String c T) (mk_spec FORMAT_TYPE_NONE f b q w (Z.max 0 (s32 n)))) args o.
Proof.
  unfold proceed at 1. unfold convert. cbn [fst snd ps_type mbind option_bind vsn_loop].
  unfold set_precision. cbn [ps_type ps_flags ps_base ps_qualifier field_width]. rewrite decode_precision.
  pose proof (conversion_type (String c T) (mk_spec FORMAT_TYPE_NONE f b q w (Z.max 0 (s32 n)))) as Ht.
  unfold proceed. destruct (conversion _ _) as [r' sp]. cbn [fst snd] in *. by rewrite convert_copy.
Qed.
Lemma proceed_width fuel c T f b q r n n' args o :
  proceed (S fuel) (String c T, mk_spec FORMAT_TYPE_WIDTH (flags_of f) b q n' r) (AInt n :: args) o =
  let '(f, n) := sized f Star (s32 n) in
  proceed fuel (get_precision (String c T) (mk_spec FORMAT_TYPE_NONE (flags_of f) b q n r)) args o.
Proof.
  unfold proceed at 1. unfold convert. cbn [fst snd ps_type mbind option_bind vsn_loop].
  unfold set_width. cbn [ps_type ps_flags ps_base ps_qualifier precision]. rewrite decode_width.
  destruct (sized f Star (s32 n)) as [f' m].
  pose proof (get_precision_type (String c T) (mk_spec FORMAT_TYPE_NONE (flags_of f') b q m r)) as Ht.
  unfold proceed. destruct (get_precision _ _) as [r' sp]. cbn [fst snd] in *. by rewrite convert_copy.
Qed.

(** The precision and what follows. *)
Lemma precision_run p T fuel f b q w r args o :
  count_ok 0 p -> conv_head T = true ->
  proceed (stars p + fuel) (get_precision (show_precision p +:+ T) (mk_spec FORMAT_TYPE_NONE f b q w r)) args o =
  ('(m, args) ← take_count p args;
   proceed fuel (conversion T (mk_spec FORMAT_TYPE_NONE f b q w (match p with Star => Z.max 0 m | _ => m end)))
     args o).
Proof.
  intros Hp HT. destruct p as [|n|]; cbn [show_precision stars take_count mbind option_bind Nat.add].
  - rewrite app_Empty. destruct T as [|c T]; [done|].
    apply conv_head_cases in HT. destruct HT as [->|[->|[->|[->|[->|[->|[->| ->]]]]]]]; done.
  - cbn [show_count]. rewrite app_String, app_String, !app_Empty. cbn [get_precision].
    cbn in Hp. rewrite fixed_starts by done. unfold skip_atoi. rewrite scan_dec_fmt_u; [done|done|].
    destruct T as [|c T]; [done|]. apply conv_head_cases in HT.
    destruct HT as [->|[->|[->|[->|[->|[->|[->| ->]]]]]]]; done.
  - cbn [show_count]. rewrite !app_String, !app_Empty.
    change (get_precision _ _) with (T, mk_spec FORMAT_TYPE_PRECISION f b q w (-1)).
    destruct T as [|c T]; [done|]. destruct args as [|[n|?] args]; [done| |done].
    apply proceed_precision.
Qed.

(** Behind the flags: [X] is a precision and a conversion. *)
Definition width_head (s : string) : bool := match s with String "." _ => true | _ => conv_head s end.

Lemma width_run f w X fuel spec args o :
  neutral spec -> count_ok 1 w -> width_head X = true ->
  vsn_loop (S (stars w + fuel)) ("%" +:+ show_flags f +:+ show_count w +:+ X) spec args o =
  ('(c, args) ← take_count w args;
   let '(f, c) := sized f w c in
   proceed fuel (get_precision X (mk_spec FORMAT_TYPE_NONE (flags_of f) (ps_base spec) (ps_qualifier spec) c
                                    (precision spec))) args o).
Proof.
  intros Hs Hw HX. assert (HX0 : exists c X', X = String c X').
  { destruct X as [|c X']; [done|by eexists _, _]. }
  assert (Hhead : starts_dec X = false /\ no_flag X = true /\ forall g, (match X with
            | String "*" fmt => (fmt, set_type FORMAT_TYPE_WIDTH g)
            | _ => get_precision X g end) = get_precision X g).
  { destruct HX0 as (c & X' & ->). cbn [width_head] in HX.
    assert (Hc : c = "."%char \/ conv_head (String c X') = true).
    { destruct (Ascii.eqb_spec c ".") as [->|Hne]; [by left|right].
      revert HX Hne. destruct c as [[] [] [] [] [] [] [] []]; try done. }
    destruct Hc as [->|[->|[->|[->|[->|[->|[->|[->| ->]]]]]]]%conv_head_cases]; done. }
  destruct Hhead as (Hdec & Hflag & Hstar).
  assert (Hd : forall s, no_flag s = true -> format_decode (String "%" (show_flags f +:+ s)) spec =
    let sp := set_width (-1) (set_pflags (flags_of f) (set_type FORMAT_TYPE_NONE spec)) in
    if starts_dec s then let '(n, fmt) := skip_atoi s in get_precision fmt (set_width n sp)
    else match s with
         | String "*" fmt => (fmt, set_type FORMAT_TYPE_WIDTH sp)
         | _ => get_precision s sp end).
  { intros s Hsf. unfold format_decode. unfold neutral in Hs.
    destruct (ps_type spec); try done; cbn [plain_text Ascii.eqb Bool.eqb]; by rewrite get_flags_show. }
  rewrite app_String, app_Empty. cbn [vsn_loop].
  destruct w as [|n|]; cbn [show_count stars take_count mbind option_bind Nat.add sized].
  - rewrite app_Empty, Hd by done. cbv zeta. rewrite Hdec, Hstar.
    pose proof (get_precision_type X (set_width (-1) (set_pflags (flags_of f) (set_type FORMAT_TYPE_NONE spec)))).
    unfold proceed. destruct spec as [ty fl b q wd r]. cbn [set_width set_pflags set_type ps_type ps_flags ps_base
      ps_qualifier precision field_width] in *.
    destruct (get_precision _ _) as [r' sp]. cbn [fst snd] in *. by rewrite convert_copy.
  - cbn in Hw. rewrite Hd by (by apply fixed_no_flag). cbv zeta. rewrite fixed_starts by lia.
    unfold skip_atoi. rewrite scan_dec_fmt_u by (done || lia).
    pose proof (get_precision_type X (set_width n (set_width (-1)
      (set_pflags (flags_of f) (set_type FORMAT_TYPE_NONE spec))))).
    unfold proceed. destruct spec as [ty fl b q wd r]. cbn [set_width set_pflags set_type ps_type ps_flags ps_base
      ps_qualifier precision field_width] in *.
    destruct (get_precision _ _) as [r' sp]. cbn [fst snd] in *. by rewrite convert_copy.
  - rewrite app_String, app_Empty, Hd by done. cbv zeta. cbn [starts_dec].
    change (is_dec "*") with false. cbv iota. destruct HX0 as (c & X' & ->).
    destruct spec as [ty fl b q wd r]. destruct args as [|[n|?] args]; [done| |done].
    apply proceed_width.
Qed.

(** ** Integers *)

Definition int_type (longs : nat) (k : int_kind) : format_type :=
  match longs, k with
  | O, Dec => FORMAT_TYPE_INT
  | O, _ => FORMAT_TYPE_UINT
  | S O, Dec => FORMAT_TYPE_LONG
  | S O, _ => FORMAT_TYPE_ULONG
  | _, _ => FORMAT_TYPE_LONG_LONG
  end.
Definition int_base (k : int_kind) : Z := match k with Oct => 8 | Hex => 16 | _ => 10 end.
Definition int_flags (f : fmt_flags) (k : int_kind) : Z :=
  match k with Dec => Z.lor (flags_of f) SIGN | _ => flags_of f end.

Lemma flags_has f k :
  has_flag (int_flags f k) LEFT = left_ f /\ has_flag (int_flags f k) SPECIAL = special_ f /\
  has_flag (int_flags f k) ZEROPAD = zero_ f /\
  has_flag (int_flags f k) SIGN = match k with Dec => true | _ => false end.
Proof. destruct f as [l p z], k, l, p, z; done. Qed.

Lemma conversion_int n k rest f b q c m : (n <= 2)%nat ->
  exists q', conversion (show_longs n +:+ show_kind k +:+ rest) (mk_spec FORMAT_TYPE_NONE (flags_of f) b q c m) =
    (rest, mk_spec (int_type n k) (int_flags f k) (int_base k) q' c m).
Proof.
  intros Hn. assert (Hs : has_flag (flags_of f) SIGN = false) by (destruct f as [[] [] []]; done).
  assert (Hd : has_flag (Z.lor (flags_of f) SIGN) SIGN = true) by (destruct f as [[] [] []]; done).
  destruct n as [|[|[|n]]]; [| | |lia]; destruct k; eexists; unfold conversion;
    cbn [show_longs show_kind]; rewrite ?app_String, ?app_Empty, ?app_String, ?app_Empty;
    cbn [ps_flags set_base set_qualifier set_pflags Ascii.eqb Bool.eqb]; rewrite ?Hs, ?Hd; reflexivity.
Qed.

Lemma int_arg_range t v : is_u64 (int_arg t v).
Proof.
  unfold int_arg. pose proof (u32_range v). destruct t; try apply u64_range;
    unfold is_u32, is_u64 in *; lia.
Qed.
Lemma u64_s64 v : u64 v = u64 (s64 v).
Proof.
  unfold u64, s64. rewrite Zminus_mod_idemp_l. f_equal. lia.
Qed.
Lemma s64_u64 x : is_s64 x -> s64 (u64 x) = x.
Proof.
  intros Hx. rewrite <- (s64_id x) at 2 by done. unfold s64, u64. by rewrite Zplus_mod_idemp_l.
Qed.

Lemma number_text_int f c m q n k v : (n <= 2)%nat ->
  number_text (int_arg (int_type n k) v) (mk_spec (int_type n k) (int_flags f k) (int_base k) q c m) =
  let '(pfx, body) := int_body (special_ f) n k v in padded (left_ f) (zero_ f) c pfx body.
Proof.
  intros Hn. destruct (flags_has f k) as (H1 & H2 & H3 & H4).
  unfold number_text, minus_of, prefix_of. cbn [ps_flags ps_base field_width]. rewrite H1, H2, H3, H4.
  assert (Hb : forall num base, is_u64 num -> base = 8 \/ base = 10 \/ base = 16 ->
            rev (number_digits num base) = chars (text_of_digits (digits base num))) by apply number_digits_ok.
  destruct k; cbn [int_base andb int_body].
  - set (x := match n with O => s32 v | _ => s64 v end).
    assert (Hx : is_s64 x).
    { unfold x. destruct n; [pose proof (s32_range v) as H|pose proof (s64_range v) as H];
        unfold is_s32, is_s64 in *; lia. }
    assert (Ha : int_arg (int_type n Dec) v = u64 x) by (unfold x; destruct n as [|[|[|]]]; [done|apply u64_s64..]).
    rewrite Ha, s64_u64 by done.
    rewrite andb_false_r, app_nil_r. destruct (Z.ltb_spec x 0) as [Hneg|Hpos].
    + rewrite Hb by (apply u64_range || tauto). rewrite u64_id by (unfold is_s64 in Hx; unfold is_u64; lia).
      by replace (Z.abs x) with (- x) by lia.
    + rewrite Hb by (apply u64_range || tauto). rewrite u64_id by (unfold is_s64 in Hx; unfold is_u64; lia).
      by replace (Z.abs x) with x by lia.
  - rewrite andb_false_r, app_nil_r, Hb by (apply int_arg_range || tauto). by destruct n as [|[|[|]]].
  - rewrite andb_true_r, Hb by (apply int_arg_range || tauto). destruct n as [|[|[|]]]; by destruct (special_ f).
  - rewrite andb_true_r, Hb by (apply int_arg_range || tauto). destruct n as [|[|[|]]]; by destruct (special_ f).
Qed.

(** ** Running a directive *)

Definition rounds (d : directive) : nat :=
  match d with
  | Plain _ | Percent => 1
  | Int _ w _ _ | Char _ w | Ptr _ w => S (stars w)
  | Str _ w p => S (stars w + stars p)
  end.

(** The loop does the piece [p] and goes on at [rest] with [args]. *)
Definition does (n : nat) (fmt rest : string) (spec : printf_spec) (args args' : list arg) (p : piece)
    (o : outbuf) : Prop :=
  forall fuel, exists spec' o', neutral spec' /\ ran p o o' /\
    vsn_loop (n + fuel) fmt spec args o = vsn_loop fuel rest spec' args' o'.

Lemma proceed_does fuel rest sp args args' p o f :
  Runs f p -> 0 <= pos o -> neutral sp ->
  (forall o, convert "" sp args o = (o ← f o; Some (sp, args', o))) ->
  exists spec' o', neutral spec' /\ ran p o o' /\
    proceed fuel (rest, sp) args o = vsn_loop fuel rest spec' args' o'.
Proof.
  intros Hf Hp Hn Hc. destruct (Hf o Hp) as (o' & E & Hr). exists sp, o'. split_and!; [done|done|].
  unfold proceed. cbn [fst snd]. by rewrite Hc, E.
Qed.

Lemma int_does f w n k rest spec args p args' o :
  neutral spec -> directive_ok (Int f w n k) -> 0 <= pos o -> piece_of (Int f w n k) args = Some (p, args') ->
  does (rounds (Int f w n k)) (show_directive (Int f w n k) +:+ rest) rest spec args args' p o.
Proof.
  intros Hs [Hw Hn] Hp Hpc fuel. cbn [show_directive rounds]. rewrite !sapp_assoc.
  change (S (stars w) + fuel)%nat with (S (stars w + fuel)).
  rewrite width_run; [|done|done|by destruct n as [|[|]], k].
  cbn [piece_of] in Hpc. destruct (take_count w args) as [[c args1]|]; [|done]. cbn [mbind option_bind] in *.
  destruct (sized f w c) as [f' c']. destruct args1 as [|[v|] args1]; [done| |done].
  pose proof (precision_run Unset (show_longs n +:+ show_kind k +:+ rest) fuel (flags_of f') (ps_base spec)
    (ps_qualifier spec) c' (precision spec) (AInt v :: args1) o I) as Hr.
  cbn [stars Nat.add show_precision take_count mbind option_bind] in Hr. rewrite app_Empty in Hr.
  rewrite Hr by (by destruct n as [|[|]], k).
  destruct (conversion_int n k rest f' (ps_base spec) (ps_qualifier spec) c' (-1) Hn) as [q' ->].
  pose proof (number_text_int f' c' (-1) q' n k v Hn) as Ht.
  destruct (int_body (special_ f') n k v) as [pfx body]. injection Hpc as <- <-. rewrite <- Ht.
  apply proceed_does with (f := fun o => number o (int_arg (int_type n k) v)
    (mk_spec (int_type n k) (int_flags f' k) (int_base k) q' c' (-1))).
  - apply runs_number; [apply int_arg_range|destruct k; cbn; tauto].
  - done.
  - by destruct n as [|[|]], k.
  - intros o1. by destruct n as [|[|]], k.
Qed.

Lemma conversion_str rest f b q c m :
  exists q', conversion ("s" +:+ rest) (mk_spec FORMAT_TYPE_NONE (flags_of f) b q c m) =
    (rest, mk_spec FORMAT_TYPE_STR (flags_of f) 10 q' c m).
Proof. by eexists. Qed.

Lemma flags_left f : has_flag (flags_of f) LEFT = left_ f.
Proof. by destruct f as [[] [] []]. Qed.

Lemma str_does f w r rest spec args p args' o :
  neutral spec -> directive_ok (Str f w r) -> 0 <= pos o -> piece_of (Str f w r) args = Some (p, args') ->
  does (rounds (Str f w r)) (show_directive (Str f w r) +:+ rest) rest spec args args' p o.
Proof.
  intros Hs [Hw Hr] Hp Hpc fuel. cbn [show_directive rounds]. rewrite !sapp_assoc.
  replace (S (stars w + stars r) + fuel)%nat with (S (stars w + (stars r + fuel))) by lia.
  rewrite width_run; [|done|done|by destruct r].
  cbn [piece_of] in Hpc. destruct (take_count w args) as [[c args1]|]; [|done]. cbn [mbind option_bind] in *.
  destruct (sized f w c) as [f' c']. rewrite precision_run by done.
  destruct (take_count r args1) as [[m args2]|]; [|done]. cbn [mbind option_bind] in *.
  destruct args2 as [|[|s] args2]; [done..|]. injection Hpc as <- <-.
  set (m' := match r with Star => _ | _ => m end).
  destruct (conversion_str rest f' (ps_base spec) (ps_qualifier spec) c' m') as [q' ->].
  pose proof (runs_string s (mk_spec FORMAT_TYPE_STR (flags_of f') 10 q' c' m')) as Hrun.
  cbn [ps_flags field_width precision] in Hrun. rewrite flags_left in Hrun. cbv zeta in Hrun.
  by apply proceed_does with (2 := Hp) (1 := Hrun).
Qed.

Lemma char_does f w rest spec args p args' o :
  neutral spec -> directive_ok (Char f w) -> 0 <= pos o -> piece_of (Char f w) args = Some (p, args') ->
  does (rounds (Char f w)) (show_directive (Char f w) +:+ rest) rest spec args args' p o.
Proof.
  intros Hs Hw Hp Hpc fuel. cbn [show_directive rounds]. rewrite !sapp_assoc.
  change (S (stars w) + fuel)%nat with (S (stars w + fuel)). rewrite width_run by done.
  cbn [piece_of] in Hpc. destruct (take_count w args) as [[c args1]|]; [|done]. cbn [mbind option_bind] in *.
  destruct (sized f w c) as [f' c']. destruct args1 as [|[v|] args1]; [done| |done]. injection Hpc as <- <-.
  pose proof (runs_char (chr v) (mk_spec FORMAT_TYPE_CHAR (flags_of f') 10 "255" c' (-1))) as Hrun.
  cbn [ps_flags field_width] in Hrun. rewrite flags_left in Hrun.
  by apply proceed_does with (2 := Hp) (1 := Hrun).
Qed.

Lemma ptr_does f w rest spec args p args' o :
  neutral spec -> directive_ok (Ptr f w) -> 0 <= pos o -> piece_of (Ptr f w) args = Some (p, args') ->
  does (rounds (Ptr f w)) (show_directive (Ptr f w) +:+ rest) rest spec args args' p o.
Proof.
  intros Hs Hw Hp Hpc fuel. cbn [show_directive rounds]. rewrite !sapp_assoc.
  change (S (stars w) + fuel)%nat with (S (stars w + fuel)). rewrite width_run by done.
  cbn [piece_of] in Hpc. destruct (take_count w args) as [[c args1]|]; [|done]. cbn [mbind option_bind] in *.
  destruct (sized f w c) as [f' c'].
  pose proof (runs_pointer) as Hrun.
  assert (Hz : exists f'' c'', (left_ f'' = left_ f' /\ special_ f'' = special_ f' /\
            (if c' =? -1 then (16, true) else (c', zero_ f')) = (c'', zero_ f'')) /\ forall v,
     Runs (fun o => pointer o v (mk_spec FORMAT_TYPE_PTR (flags_of f') 10 "255" c' (-1)))
       (crude (number_text (u64 v) (mk_spec FORMAT_TYPE_ULONG (int_flags f'' Hex) 16 "255" c'' (-1)))
          (Z.max 28 c''))).
  { clear Hpc. destruct (Z.eqb_spec c' (-1)) as [Hc|Hc]; [rewrite Hc|].
    - exists (mk_flags (left_ f') (special_ f') true), 16. split; [done|]. intros v.
      pose proof (runs_pointer v (mk_spec FORMAT_TYPE_PTR (flags_of f') 10 "255" (-1) (-1))) as H.
      cbv zeta in H. change (field_width _ =? -1) with true in H. cbv iota in H.
      destruct f' as [[] [] []]; exact H.
    - exists f', c'. split; [done|]. intros v.
      pose proof (runs_pointer v (mk_spec FORMAT_TYPE_PTR (flags_of f') 10 "255" c' (-1))) as H.
      cbv zeta in H. change (field_width (mk_spec FORMAT_TYPE_PTR (flags_of f') 10 "255" c' (-1))) with c' in H.
      apply Z.eqb_neq in Hc. rewrite Hc in H. exact H. }
  clear Hrun. destruct Hz as (f'' & c'' & (Hl & Hsp & Hz) & Hrun). rewrite Hz in Hpc.
  destruct args1 as [|[v|] args1]; [done| |done].
  pose proof (number_text_int f'' c'' (-1) "255" 1 Hex v ltac:(lia)) as Ht.
  rewrite Hl, Hsp in Ht. destruct (int_body (special_ f') 1 Hex v) as [pfx body]. injection Hpc as <- <-.
  rewrite <- Ht. by apply proceed_does with (2 := Hp) (1 := Hrun v).
Qed.

(** Plain text goes up to the next directive. *)
Lemma plain_text_app s rest : no_percent s = true ->
  match rest with String c _ => c = "%"%char | EmptyString => True end ->
  plain_text (s +:+ rest) = (s, rest).
Proof.
  intros Hs Hr. induction s as [|c s IH].
  - rewrite app_Empty. destruct rest as [|c rest]; [done|]. by subst c.
  - cbn [no_percent] in Hs. apply andb_true_iff in Hs as [Hc Hs]. rewrite app_String. cbn [plain_text].
    apply negb_true_iff in Hc. by rewrite Hc, IH.
Qed.

Lemma prefix_app s t : String.substring 0 (String.length (s +:+ t) - String.length t) (s +:+ t) = s.
Proof.
  assert (H : (String.length (s +:+ t) = String.length s + String.length t)%nat).
  { pose proof (slen_app s t). unfold slen in *. lia. }
  rewrite H, Nat.add_sub. clear H. induction s as [|c s IH].
  - rewrite app_Empty. by destruct t.
  - rewrite app_String. cbn. f_equal. exact IH.
Qed.

Lemma plain_does s rest spec args o :
  neutral spec -> directive_ok (Plain s) -> 0 <= pos o ->
  match rest with String c _ => c = "%"%char | EmptyString => True end ->
  does 1 (s +:+ rest) rest spec args args (guarded (chars s)) o.
Proof.
  intros Hs [Hne Hnp] Hp Hr fuel. destruct (runs_guarded (chars s) o Hp) as (o' & E & Hran).
  exists (set_type FORMAT_TYPE_NONE spec), o'. split_and!; [done|done|].
  assert (Hd : format_decode (s +:+ rest) spec = (rest, set_type FORMAT_TYPE_NONE spec)).
  { unfold format_decode. unfold neutral in Hs. rewrite plain_text_app by done.
    destruct (ps_type spec); try done; by destruct s. }
  destruct (s +:+ rest) as [|c fmt] eqn:Efmt; [by destruct s|]. cbn [Nat.add vsn_loop]. rewrite Hd, <- Efmt, prefix_app.
  cbn [convert ps_type set_type]. fold (chars s). rewrite E. done.
Qed.

Lemma percent_does rest spec args o :
  neutral spec -> 0 <= pos o -> does 1 ("%%" +:+ rest) rest spec args args (guarded ["%"%char]) o.
Proof.
  intros Hs Hp fuel. destruct (runs_guarded ["%"%char] o Hp) as (o' & E & Hran).
  cbn [store_all] in E.
  exists (set_type FORMAT_TYPE_PERCENT_CHAR (set_base 10 (set_qualifier "255" (set_precision (-1)
    (set_width (-1) (set_pflags 0 (set_type FORMAT_TYPE_NONE spec))))))), o'.
  split_and!; [done|done|]. rewrite !app_String, app_Empty. cbn [Nat.add vsn_loop].
  assert (Hd : format_decode (String "%" (String "%" rest)) spec =
    (rest, set_type FORMAT_TYPE_PERCENT_CHAR (set_base 10 (set_qualifier "255" (set_precision (-1)
    (set_width (-1) (set_pflags 0 (set_type FORMAT_TYPE_NONE spec)))))))).
  { unfold format_decode. unfold neutral in Hs. by destruct (ps_type spec). }
  rewrite Hd. destruct (store_guarded "%" o) as [o1|] eqn:E1; [|done]. injection E as <-.
  unfold convert. cbn [ps_type set_type]. by rewrite E1.
Qed.

Lemma directive_does d rest spec args p args' o :
  neutral spec -> directive_ok d -> 0 <= pos o -> piece_of d args = Some (p, args') ->
  match d with Plain _ => match rest with String c _ => c = "%"%char | EmptyString => True end | _ => True end ->
  does (rounds d) (show_directive d +:+ rest) rest spec args args' p o.
Proof.
  intros Hs Hd Hp Hpc Hr. destruct d as [s| |f w n k|f w r|f w|f w].
  - injection Hpc as <- <-. by apply plain_does.
  - injection Hpc as <- <-. by apply percent_does.
  - by apply int_does.
  - by apply str_does.
  - by apply char_does.
  - by apply ptr_does.
Qed.

(** ** Running a format *)

Record piece_ok (p : piece) : Prop := {
  ok_need : need p <= len (text p) + 28;
  ok_text : len (text p) <= need p + 1;
  ok_adv : len (text p) <= adv p /\ need p <= adv p
}.

Lemma digits_short base n : is_u64 n -> base = 8 \/ base = 10 \/ base = 16 ->
  len (chars (text_of_digits (digits base n))) <= 22.
Proof.
  intros Hn Hb. rewrite <- number_digits_ok by done. rewrite length_rev. by apply length_number_digits.
Qed.

Lemma int_body_short b n k v :
  let '(pfx, body) := int_body b n k v in len pfx + len body <= 24.
Proof.
  assert (Hu : is_u64 (match n with O => u32 v | _ => u64 v end)).
  { pose proof (u32_range v). destruct n; [unfold is_u32, is_u64 in *; lia|apply u64_range]. }
  destruct k; cbn [int_body].
  - set (x := match n with O => s32 v | _ => s64 v end).
    assert (Hx : is_u64 (Z.abs x)).
    { unfold x. pose proof (s32_range v). pose proof (s64_range v). unfold is_s32, is_s64, is_u64 in *.
      destruct n; lia. }
    pose proof (digits_short 10 _ Hx (or_intror (or_introl eq_refl))). unfold fmt_u.
    destruct (x <? 0); cbn [length]; lia.
  - pose proof (digits_short 10 _ Hu (or_intror (or_introl eq_refl))). unfold fmt_u. cbn [length]. lia.
  - pose proof (digits_short 8 _ Hu (or_introl eq_refl)). unfold fmt_o. destruct b; cbn [length]; lia.
  - pose proof (digits_short 16 _ Hu (or_intror (or_intror eq_refl))). unfold fmt_x.
    destruct b; cbn [length]; lia.
Qed.

Lemma guarded_ok l : piece_ok (guarded l).
Proof. split; cbn; lia. Qed.
Lemma crude_int_ok left zero c pfx body : len pfx + len body <= 24 ->
  piece_ok (crude (padded left zero c pfx body) (Z.max 28 c)).
Proof. intros H. split; cbn; rewrite ?len_padded; lia. Qed.
Lemma crude_str_ok s left c m : piece_ok (crude (string_text s left c m) (Z.max (strnlen s m) c)).
Proof.
  assert (Hl : 0 <= strnlen s m <= slen s).
  { unfold strnlen. pose proof (slen_nonneg s). case_match; lia. }
  split; cbn; unfold string_text; rewrite ?len_padded, len_chars, slen_prefix by done; simpl; lia.
Qed.

Lemma piece_of_ok d args p args' : piece_of d args = Some (p, args') -> piece_ok p.
Proof.
  destruct d as [s| |f w n k|f w r|f w|f w]; cbn [piece_of].
  - intros [= <- <-]. apply guarded_ok.
  - intros [= <- <-]. apply guarded_ok.
  - destruct (take_count w args) as [[c args1]|]; [|done]. cbn [mbind option_bind].
    destruct (sized f w c) as [f' c']. destruct args1 as [|[v|] args1]; [done| |done].
    pose proof (int_body_short (special_ f') n k v) as Hb. destruct (int_body _ n k v) as [pfx body].
    intros [= <- <-]. by apply crude_int_ok.
  - destruct (take_count w args) as [[c args1]|]; [|done]. cbn [mbind option_bind].
    destruct (sized f w c) as [f' c']. destruct (take_count r args1) as [[m args2]|]; [|done].
    cbn [mbind option_bind]. destruct args2 as [|[|s] args2]; [done..|]. intros [= <- <-]. apply crude_str_ok.
  - destruct (take_count w args) as [[c args1]|]; [|done]. cbn [mbind option_bind].
    destruct (sized f w c) as [f' c']. destruct args1 as [|[v|] args1]; [done| |done].
    intros [= <- <-]. apply guarded_ok.
  - destruct (take_count w args) as [[c args1]|]; [|done]. cbn [mbind option_bind].
    destruct (sized f w c) as [f' c']. destruct (if c' =? -1 then _ else _) as [c2 z].
    destruct args1 as [|[v|] args1]; [done| |done].
    pose proof (int_body_short (special_ f') 1 Hex v) as Hb. destruct (int_body _ 1 Hex v) as [pfx body].
    intros [= <- <-]. by apply crude_int_ok.
Qed.

Lemma pieces_of_ok ds args ps : pieces_of ds args = Some ps -> Forall piece_ok ps.
Proof.
  revert args ps. induction ds as [|d ds IH]; intros args ps; cbn [pieces_of]; [by intros [= <-]|].
  destruct (piece_of d args) as [[p args']|] eqn:E; [|done]. cbn [mbind option_bind].
  destruct (pieces_of ds args') as [ps'|] eqn:E'; [|done]. intros [= <-].
  constructor; [by eapply piece_of_ok|by eapply IH].
Qed.

(** The pieces one after the other. *)
Fixpoint Rans (ps : list piece) (o o' : outbuf) : Prop :=
  match ps with [] => o' = o | p :: ps => exists o1, ran p o o1 /\ Rans ps o1 o' end.

Definition texts (ps : list piece) : list ascii := concat (text <$> ps).
Definition asked (ps : list piece) : Z := foldr (fun p n => adv p + n) 0 ps.

Lemma ran_bounds p o o' : piece_ok p -> ran p o o' ->
  size o' = size o /\ pos o + len (text p) <= pos o' <= pos o + adv p /\
  (room o <= need p -> size o <= pos o').
Proof.
  intros [H1 H2 [H3 H4]] [Hs Hp Ht]. split; [done|]. rewrite Hp. unfold room in *.
  destruct (Z.leb_spec (size o - pos o) (need p)); lia.
Qed.

Lemma rans_bounds ps o o' : Forall piece_ok ps -> Rans ps o o' ->
  size o' = size o /\ pos o + len (texts ps) <= pos o' <= pos o + asked ps.
Proof.
  intros Hps. revert o. induction Hps as [|p ps Hp _ IH]; intros o; cbn [Rans].
  { intros ->. cbn. lia. }
  intros (o1 & Hr & Hrs). destruct (ran_bounds p o o1 Hp Hr) as (H1 & H2 & _).
  destruct (IH o1 Hrs) as (H3 & H4). unfold texts in *. cbn [fmap list_fmap concat asked foldr].
  rewrite length_app. fold (asked ps). split; [congruence|lia].
Qed.

(** A pass that ends inside the block has written everything. *)
Lemma rans_fit ps o o' : Forall piece_ok ps -> 0 <= pos o -> Rans ps o o' -> pos o' < size o' ->
  o' = wrote (texts ps) o.
Proof.
  intros Hps. revert o. induction Hps as [|p ps Hp Hps IH]; intros o Hpos; cbn [Rans].
  { intros -> _. by rewrite wrote_nil. }
  intros (o1 & Hr & Hrs) Hfit. destruct (ran_bounds p o o1 Hp Hr) as (H1 & H2 & H3).
  destruct (rans_bounds ps o1 o' Hps Hrs) as (H4 & H5).
  destruct (Z.leb_spec (room o) (need p)) as [Hroom|Hroom]; [lia|].
  pose proof (ran_text _ _ _ Hr Hroom) as ->. assert (Hp1 : 0 <= pos (wrote (text p) o)) by lia.
  rewrite (IH _ Hp1 Hrs Hfit). unfold texts. cbn [fmap list_fmap concat]. apply wrote_wrote; [done|].
  fold (texts ps). unfold room. lia.
Qed.

(** A pass with the room that an earlier pass asked for, and 256 bytes more. *)
Lemma rans_again ps o1 o1' o2 o2' : Forall piece_ok ps ->
  Rans ps o1 o1' -> Rans ps o2 o2' -> 0 <= pos o2 <= pos o1 -> pos o1' + 256 <= size o2 ->
  pos o2' < size o2'.
Proof.
  intros Hps. revert o1 o2. induction Hps as [|p ps Hp Hps IH]; intros o1 o2; cbn [Rans].
  { intros -> ->. lia. }
  intros (p1 & Hr1 & Hrs1) (p2 & Hr2 & Hrs2) Hpos Hsz.
  destruct (ran_bounds p o1 p1 Hp Hr1) as (H1 & H2 & _). destruct (ran_bounds p o2 p2 Hp Hr2) as (H3 & H4 & _).
  destruct (rans_bounds ps p1 o1' Hps Hrs1) as (_ & H5).
  apply (IH p1 p2 Hrs1 Hrs2); [|lia]. destruct Hp as [N1 N2 N3].
  assert (Hn : need p < room o2) by (unfold room; lia).
  pose proof (ran_pos _ _ _ Hr2) as Hpp. replace (room o2 <=? need p) with false in Hpp by lia. lia.
Qed.

Lemma rounds_length d : directive_ok d -> (rounds d <= 2 * String.length (show_directive d))%nat.
Proof.
  assert (Hlen : forall s t, String.length (s +:+ t) = (String.length s + String.length t)%nat).
  { intros s t. pose proof (slen_app s t). unfold slen in *. lia. }
  assert (Hc : forall c, (stars c <= String.length (show_count c))%nat) by (intros []; cbn; lia).
  destruct d as [s| |f w n k|f w r|f w|f w]; cbn [directive_ok rounds show_directive]; intros Hd;
    rewrite ?Hlen; try pose proof (Hc w).
  - destruct Hd as [Hd _]. destruct s; [done|simpl; lia].
  - simpl. lia.
  - simpl String.length. lia.
  - simpl String.length. assert (stars r <= String.length (show_precision r))%nat.
    { destruct r; cbn [stars]; [apply Nat.le_0_l..|by apply Nat.leb_le]. } lia.
  - simpl String.length. lia.
  - simpl String.length. lia.
Qed.

Lemma show_head d : directive_ok d -> match d with Plain _ => True | _ => exists s, show_directive d = String "%" s end.
Proof. destruct d; cbn; try done; intros _; rewrite ?app_String; by eexists. Qed.

Lemma vsn_run ds args ps : format_ok ds -> pieces_of ds args = Some ps ->
  exists n, (n <= 2 * String.length (show_format ds))%nat /\ forall spec o fuel, neutral spec -> 0 <= pos o ->
    exists o', vsn_loop (S (n + fuel)) (show_format ds) spec args o = Some o' /\ Rans ps o o'.
Proof.
  revert args ps. induction ds as [|d ds IH]; intros args ps Hok; cbn [pieces_of].
  { intros [= <-]. exists O. split; [lia|]. intros spec o fuel _ _. by exists o. }
  destruct Hok as (Hd & Hadj & Hok).
  destruct (piece_of d args) as [[p args']|] eqn:E; [|done]. cbn [mbind option_bind].
  destruct (pieces_of ds args') as [ps'|] eqn:E'; [|done]. intros [= <-].
  destruct (IH args' ps' Hok E') as (n & Hn & Hrun). exists (rounds d + n)%nat. split.
  { cbn [show_format foldr]. fold (show_format ds). pose proof (rounds_length d Hd).
    pose proof (slen_app (show_directive d) (show_format ds)). unfold slen in *. lia. }
  intros spec o fuel Hs Hp. cbn [show_format foldr]. fold (show_format ds).
  replace (S (rounds d + n + fuel)) with (rounds d + S (n + fuel))%nat by lia.
  destruct (directive_does d (show_format ds) spec args p args' o Hs Hd Hp E) with (fuel := S (n + fuel))
    as (spec' & o1 & Hs' & Hr & ->).
  { destruct d; try done. destruct ds as [|d' ds]; [done|]. cbn [show_format foldr].
    destruct Hok as [Hd' _].
    destruct d'; try done; destruct (show_head _ Hd') as [s' ->]; rewrite app_String; done. }
  destruct (ran_bounds p o o1 (piece_of_ok _ _ _ _ E) Hr) as (_ & Hp1 & _).
  destruct (Hrun spec' o1 fuel Hs' ltac:(lia)) as (o' & -> & Hrs). exists o'. split; [done|]. by exists o1.
Qed.

(** ** vfprintf *)

(** What fputs sees of a text that may hold NUL characters. *)
Fixpoint up_to_nul (l : list ascii) : string :=
  match l with
  | [] => ""
  | c :: l => if Ascii.eqb c "000" then "" else String c (up_to_nul l)
  end.

Lemma until_nul_app l rest : until_nul (l ++ "000"%char :: rest) = Some (up_to_nul l).
Proof.
  induction l as [|c l IH]; cbn [app until_nul up_to_nul]; [done|].
  destruct (Ascii.eqb c "000"); [done|]. by rewrite IH.
Qed.

(** A call of kernel_vsnprintf. *)
Lemma vsnprintf_run ds args ps buf : format_ok ds -> pieces_of ds args = Some ps ->
  exists o, Rans ps (mk_out buf 0) o /\
    (pos o < size o -> exists rest, kernel_vsnprintf buf (show_format ds) args =
       Some (texts ps ++ "000"%char :: rest, len (texts ps)) /\ pos o = len (texts ps) /\
       length (texts ps ++ "000"%char :: rest) = length buf) /\
    (size o <= pos o -> exists buf', kernel_vsnprintf buf (show_format ds) args = Some (buf', pos o)).
Proof.
  intros Hok Hps. destruct (vsn_run ds args ps Hok Hps) as (n & Hn & Hrun).
  pose proof (pieces_of_ok ds args ps Hps) as Hpok.
  destruct (Hrun spec0 (mk_out buf 0) (2 * String.length (show_format ds) + 1 - n)%nat I) as (o & E & Hr);
    [cbn; lia|].
  replace (S (n + (2 * String.length (show_format ds) + 1 - n)))%nat
    with (2 * String.length (show_format ds) + 2)%nat in E by lia.
  exists o. split; [done|]. unfold kernel_vsnprintf. rewrite E. cbn [mbind option_bind]. split.
  - intros Hfit. replace (pos o <? size o) with true by lia.
    pose proof (rans_fit ps (mk_out buf 0) o Hpok (Z.le_refl 0) Hr Hfit) as Ho.
    destruct (rans_bounds ps (mk_out buf 0) o Hpok Hr) as (Hs & Hb).
    assert (Hlen : len (texts ps) < len buf).
    { rewrite Hs in Hfit. unfold size in Hfit. cbn [mem pos] in *. lia. }
    rewrite Ho. rewrite store1_wrote.
    + rewrite wrote_wrote by (unfold room, size; cbn [mem pos length]; lia). cbn [mbind option_bind].
      unfold wrote. cbn [mem pos]. change (Z.to_nat 0) with 0%nat. cbn [take app]. rewrite <- app_assoc. cbn [app].
      eexists. split; [done|]. split; [lia|].
      rewrite length_app, length_cons, length_drop, length_app. cbn [length]. lia.
    + cbn. lia.
    + destruct (room_wrote (texts ps) (mk_out buf 0)) as (-> & _); unfold room, size; cbn [mem pos]; lia.
  - intros Hover. replace (pos o <? size o) with false by lia. by eexists.
Qed.

(** C32: strace's own vfprintf prints what the format says.  For every supported
    format (text, %%, %d %u %o %x with up to two l, %s with a precision, %c, %p,
    with flags and widths, also taken from arguments) and arguments of the right
    kinds, whatever the static buffer held, strace_vfprintf makes no store outside
    its block, writes exactly the text of the format, as far as its first NUL, and
    leaves a buffer that serves the next call.  Its result is at least the number
    of characters and at most what the conversions asked for; it is the number of
    characters when the buffer was large enough for the first pass. *)
Theorem vfprintf_prints malloc buf ds args ps :
  (forall n, 0 <= n -> exists b, malloc n = Some b /\ len b = n) ->
  format_ok ds -> pieces_of ds args = Some ps -> asked ps < 2 ^ 31 ->
  exists n buf', strace_vfprintf malloc buf (show_format ds) args = Some (up_to_nul (texts ps), n, buf') /\
    len (texts ps) <= n <= asked ps /\ n < len buf' /\ (n < len buf -> n = len (texts ps)).
Proof.
  intros Hm Hok Hps Hask. pose proof (pieces_of_ok ds args ps Hps) as Hpok.
  destruct (vsnprintf_run ds args ps buf Hok Hps) as (o & Hr & Hfit & Hover).
  destruct (rans_bounds ps (mk_out buf 0) o Hpok Hr) as (Hs & Hb). cbn [pos] in Hb.
  unfold size in Hs at 2. cbn [mem] in Hs. unfold strace_vfprintf.
  destruct (Z.lt_ge_cases (pos o) (size o)) as [H|H].
  - destruct (Hfit H) as (rest & E & Hpos & Hlen). rewrite E. cbn [mbind option_bind]. rewrite u32_id
      by (unfold is_u32; lia). replace (len buf <=? len (texts ps)) with false by lia. cbn [mbind option_bind].
    rewrite until_nul_app. cbn [mbind option_bind]. eexists _, _. split; [done|]. rewrite Hlen. lia.
  - destruct (Hover H) as (buf1 & E). rewrite E. cbn [mbind option_bind]. rewrite u32_id by (unfold is_u32; lia).
    replace (len buf <=? pos o) with true by lia. rewrite u32_id by (unfold is_u32; lia).
    destruct (Hm (pos o + 256)) as (b & Eb & Hlb); [lia|]. rewrite Eb. cbn [mbind option_bind].
    destruct (vsnprintf_run ds args ps b Hok Hps) as (o2 & Hr2 & Hfit2 & _).
    destruct Hfit2 as (rest & E2 & _ & Hlen2).
    { apply (rans_again ps (mk_out buf 0) o (mk_out b 0) o2 Hpok Hr Hr2); [cbn; lia|].
      unfold size. cbn [mem]. lia. }
    rewrite E2. cbn [mbind option_bind]. rewrite until_nul_app. cbn [mbind option_bind].
    eexists _, _. split; [done|]. rewrite Hlen2. lia.
Qed.

(** %s(%#lx, %-*d)%c with the arguments mmap, 4096, 6, -7 and a newline, as the
    first output of the program. *)
Definition zeros (n : Z) : option (list ascii) := Some (repeat "000"%char (Z.to_nat n)).
Definition demo_format : list directive :=
  [Str (mk_flags false false false) Unset Unset; Plain "("; Int (mk_flags false true false) Unset 1 Hex;
   Plain ", "; Int (mk_flags true false false) Star 0 Dec; Plain ")"; Char (mk_flags false false false) Unset].
Definition demo_args : list arg := [AStr (Some "mmap"); AInt 4096; AInt 6; AInt (-7); AInt 10].

Lemma vfprintf_prints_witness :
  show_format demo_format = "%s(%#lx, %-*d)%c" /\
  exists n buf, strace_vfprintf zeros [] (show_format demo_format) demo_args =
    Some ("mmap(0x1000, -7    )" +:+ String "010" "", n, buf) /\ 20 <= n.
Proof.
  split; [reflexivity|].
  destruct (pieces_of demo_format demo_args) as [ps|] eqn:E; [|vm_compute in E; discriminate E].
  assert (Ht : up_to_nul (texts ps) = "mmap(0x1000, -7    )" +:+ String "010" "" /\ len (texts ps) = 21 /\
               asked ps < 2 ^ 31).
  { vm_compute in E. injection E as <-. vm_compute. split_and!; reflexivity. }
  destruct Ht as (Ht & Hl & Ha).
  destruct (vfprintf_prints zeros [] demo_format demo_args ps) as (n & buf & H & Hn & _).
  - intros n Hn. eexists. split; [reflexivity|]. rewrite repeat_length. lia.
  - cbn. repeat split; try discriminate; lia.
  - exact E.
  - exact Ha.
  - exists n, buf. rewrite <- Ht. split; [exact H|lia].
Defined.

(** A number without flags and width. *)
Lemma padded_plain pfx body : padded false false (-1) pfx body = pfx ++ body.
Proof.
  unfold padded. by replace (Z.to_nat (-1 - len pfx - len body)) with 0%nat by lia.
Qed.
Lemma string_of_chars s : String.string_of_list_ascii (chars s) = s.
Proof. apply String.string_of_list_ascii_of_string. Qed.

(** The formats of the decoders come out as the C library prints them, but for
    %#lx of zero, which has a prefix here. *)
Lemma vfprintf_formats v :
  let plain := mk_flags false false false in
  let string_of d := p ← piece_of d [AInt v]; Some (String.string_of_list_ascii (text p.1)) in
  string_of (Int plain Unset 0 Dec) = Some (fmt_d (s32 v)) /\
  string_of (Int plain Unset 1 Dec) = Some (fmt_d (s64 v)) /\
  string_of (Int plain Unset 0 Uns) = Some (fmt_u (u32 v)) /\
  string_of (Int plain Unset 1 Uns) = Some (fmt_u (u64 v)) /\
  string_of (Int (mk_flags false true false) Unset 1 Hex) =
    Some (if u64 v =? 0 then "0x0" else fmt_sx (u64 v)).
Proof.
  cbv zeta. cbn [piece_of take_count mbind option_bind sized int_body left_ special_ zero_ fst crude text].
  rewrite !padded_plain. cbn [app]. rewrite !string_of_chars.
  assert (Hd : forall x, String.string_of_list_ascii ((if x <? 0 then ["-"%char] else []) ++ chars (fmt_u (Z.abs x))) =
            fmt_d x).
  { intros x. unfold fmt_d. destruct (Z.ltb_spec x 0) as [H|H]; cbn [app].
    - change (String.string_of_list_ascii ("-"%char :: chars (fmt_u (Z.abs x)))) with
        (String "-" (String.string_of_list_ascii (chars (fmt_u (Z.abs x))))). rewrite string_of_chars.
      by replace (Z.abs x) with (- x) by lia.
    - rewrite string_of_chars. by replace (Z.abs x) with x by lia. }
  rewrite !Hd. split_and!; [done..|]. f_equal. unfold fmt_sx. destruct (u64 v =? 0) eqn:E.
  - apply Z.eqb_eq in E. by rewrite E.
  - cbn. rewrite app_String, app_String, app_Empty. do 2 f_equal. apply string_of_chars.
Qed.

(** What the first call of the program makes of one digit: the result, which
    tprintf adds to the column, is what number() asked for. *)
Example vfprintf_miscounts :
  let '(t, n, _) := default ("", 0, []) (strace_vfprintf zeros [] "%d" [AInt 1]) in (t, n) = ("1", 28).
Proof. vm_compute. reflexivity. Qed.
