(* ===== verification/Tracee.v ===== *)
(** * Reading the tracee's memory (util.c: umoven, umovestr, upeek)

    The two ways the kernel gives access to a stopped tracee's memory,
    process_vm_readv and PTRACE_PEEKDATA, are fields of the class [Kernel];
    [MemOk] states the documented behaviour the code relies on, relative to the
    memory image of the tracee.  [umoven] is shown to implement a plain read of
    that image through either interface.

    State: the static flag process_vm_readv_not_supported, the trace text
    printed so far and the messages sent to stderr. *)

From S2P Require Import Prelude.
Local Open Scope string_scope.
Local Open Scope list_scope.
Local Open Scope Z_scope.

(** ** errno values used by the code (asm-generic/errno-base.h, errno.h) *)
Definition EPERM := 1.
Definition ESRCH := 3.
Definition EIO := 5.
Definition ECHILD := 10.
Definition EFAULT := 14.
Definition EINVAL := 22.
Definition EINTR := 4.
Definition ENOSYS := 38.

(** ** Little-endian words *)

Fixpoint le (l : list Z) : Z :=
  match l with
  | [] => 0
  | b :: l => b + 256 * le l
  end.

(** The [n] low bytes of a word: the [char x[]] view of the union. *)
Fixpoint bytes_le (n : nat) (z : Z) : list Z :=
  match n with
  | O => []
  | S n => z mod 256 :: bytes_le n (z / 256)
  end.

Lemma bytes_le_le l : Forall is_u8 l -> bytes_le (length l) (le l) = l.
Proof.
  induction 1 as [|b l Hb _ IH]; [done|]. unfold is_u8 in Hb. cbn [le length bytes_le].
  replace ((b + 256 * le l) mod 256) with b.
  2: { rewrite (Z.mul_comm 256), Z.mod_add, Z.mod_small by lia. done. }
  replace ((b + 256 * le l) / 256) with (le l); [by rewrite IH|].
  rewrite (Z.mul_comm 256), Z.div_add, Z.div_small by lia. lia.
Qed.

Lemma le_range l : Forall is_u8 l -> 0 <= le l < 256 ^ Z.of_nat (length l).
Proof.
  induction 1 as [|b l Hb _ IH]; [simpl; lia|]. unfold is_u8 in Hb.
  cbn [le length]. rewrite Nat2Z.inj_succ, Z.pow_succ_r by lia. lia.
Qed.

Lemma length_bytes_le n z : length (bytes_le n z) = n.
Proof. revert z. induction n; intros; simpl; auto. Qed.
Lemma le_bytes_le n z : 0 <= z < 256 ^ Z.of_nat n -> le (bytes_le n z) = z.
Proof.
  revert z. induction n as [|n IH]; intros z Hz; [simpl in *; lia|].
  rewrite Nat2Z.inj_succ, Z.pow_succ_r in Hz by lia.
  cbn [bytes_le le].
  rewrite IH; [|split; [apply Z.div_pos; lia|apply Z.div_lt_upper_bound; lia]].
  pose proof (Z.div_mod z 256). lia.
Qed.
#[global] Arguments bytes_le : simpl never.

(** ** The kernel interface *)

Inductive rv_result :=
  | RvOk (bs : list Z)     (* bytes transferred; their number is the result *)
  | RvErr (errno : Z).
Inductive pk_result :=
  | PkOk (val : Z)         (* the 64-bit word *)
  | PkErr (errno : Z).

Class Kernel := {
  vm_readv : Z -> Z -> rv_result;   (* address, length *)
  peekdata : Z -> pk_result;        (* word-aligned address *)
  peekuser : Z -> pk_result;        (* offset in struct user *)
  errno0 : Z                        (* errno as earlier calls left it *)
}.

(** Memory image: byte at an address, [None] where nothing is mapped. *)
Definition memory := Z -> option Z.

Fixpoint mem_read (m : memory) (addr : Z) (n : nat) : option (list Z) :=
  match n with
  | O => Some []
  | S n =>
      match m addr, mem_read m (addr + 1) n with
      | Some b, Some l => Some (b :: l)
      | _, _ => None
      end
  end.

(** What the manual pages promise of a tracee that is stopped: a full transfer
    of mapped memory; otherwise a short count or an error other than ENOSYS;
    and whole words from PTRACE_PEEKDATA, EIO or EFAULT where a byte is
    missing.  A kernel without process_vm_readv answers ENOSYS.  Memory is mapped
    in pages, so an aligned word is mapped as a whole ([mem_words]). *)
Class MemOk {K : Kernel} (m : memory) : Prop := {
  mem_bytes a b : m a = Some b -> is_u8 b;
  mem_words a b : m a = Some b -> exists bs, mem_read m (8 * (a / 8)) 8 = Some bs;
  readv_mapped a n bs :
    mem_read m a n = Some bs ->
    vm_readv a (Z.of_nat n) = RvOk bs \/ vm_readv a (Z.of_nat n) = RvErr ENOSYS;
  readv_unmapped a n :
    mem_read m a n = None ->
    match vm_readv a (Z.of_nat n) with
    | RvOk bs => (length bs < n)%nat /\ mem_read m a (length bs) = Some bs
    | RvErr _ => True
    end;
  readv_enosys a n a' n' :
    vm_readv a n = RvErr ENOSYS -> vm_readv a' n' = RvErr ENOSYS;
  peek_mapped a bs : mem_read m a 8 = Some bs -> peekdata a = PkOk (le bs);
  peek_unmapped a :
    mem_read m a 8 = None -> peekdata a = PkErr EIO \/ peekdata a = PkErr EFAULT
}.

(** process_vm_readv transfers bytes. *)
Class BytesOk {K : Kernel} : Prop :=
  readv_bytes a n bs : vm_readv a n = RvOk bs -> Forall is_u8 bs.

(** ** Printer state and monad *)

Record pstate := mk_pstate {
  readv_not_supported : bool;
  p_out : string;
  p_err : list string
}.

Definition P (A : Type) : Type := pstate -> A * pstate.
#[global] Instance P_ret : MRet P := fun A x s => (x, s).
#[global] Instance P_bind : MBind P := fun A B k c s => let '(x, s) := c s in k x s.

Definition get_ns : P bool := fun s => (readv_not_supported s, s).
Definition set_ns (b : bool) : P unit := fun s => (tt, mk_pstate b (p_out s) (p_err s)).
(** Text on its way to the log through tprints/tprintf. *)
Definition tprints (t : string) : P unit :=
  fun s => (tt, mk_pstate (readv_not_supported s) (p_out s +:+ t) (p_err s)).
(** error_msg / perror_msg: a message on stderr. *)
Definition error_msg (t : string) : P unit :=
  fun s => (tt, mk_pstate (readv_not_supported s) (p_out s) (p_err s ++ [t])).

(** ** umoven *)

Section umove.
Context `{K : Kernel}.
Context (wordsize pid : Z).

Definition mask_addr (addr : Z) : Z :=
  if wordsize <? 8 then Z.land addr (2 ^ (8 * wordsize) - 1) else addr.

Definition align8 (addr : Z) : Z := Z.land addr (-8).

(** "%s: short read (%d < %d) @0x%lx" *)
Definition short_read (fn : string) (got want addr : Z) : string :=
  fn +:+ ": short read (" +:+ fmt_d got +:+ " < " +:+ fmt_d want +:+ ") @0x" +:+ fmt_x (u64 addr).

(** The PTRACE_PEEKDATA error switch: what is reported on stderr.  The first,
    unaligned word is read with [nread] 0. *)
Definition peek_error (fn : string) (e nread len addr : Z) : P unit :=
  if (e =? ESRCH) || (e =? EINVAL) then mret tt
  else if (e =? EFAULT) || (e =? EIO) || (e =? EPERM) then
    if nread =? 0 then mret tt
    else error_msg (short_read fn nread (nread + len) (addr - nread))
  else error_msg (fn +:+ ": PTRACE_PEEKDATA pid:" +:+ fmt_d pid +:+ " @0x" +:+ fmt_x (u64 addr)).

(** [while (len)]: whole words from an aligned address on.  [fuel] bounds the
    number of words; [len] words are more than enough. *)
Fixpoint umoven_words (fuel : nat) (addr len nread : Z) : P (Z * list Z) :=
  match fuel with
  | O => mret (0, [])
  | S fuel =>
      if len =? 0 then mret (0, [])
      else
        match peekdata addr with
        | PkErr e => _ ← peek_error "umoven" e nread len addr; mret (-1, [])
        | PkOk val =>
            let m := Z.min 8 len in
            let chunk := take (Z.to_nat m) (bytes_le 8 val) in
            '(r, rest) ← umoven_words fuel (u64 (addr + 8)) (len - m) (nread + m);
            mret (r, chunk ++ rest)
        end
  end.

Definition umoven_peek (addr len : Z) : P (Z * list Z) :=
  if Z.land addr 7 =? 0 then umoven_words (S (Z.to_nat len)) addr len 0
  else
    let base := align8 addr in
    let n := addr - base in
    match peekdata base with
    | PkErr e => _ ← peek_error "umoven" e 0 len base; mret (-1, [])
    | PkOk val =>
        let m := Z.min (8 - n) len in
        let chunk := take (Z.to_nat m) (drop (Z.to_nat n) (bytes_le 8 val)) in
        '(r, rest) ← umoven_words (S (Z.to_nat len)) (u64 (base + 8)) (len - m) m;
        mret (r, chunk ++ rest)
    end.

(** umoven(tcp, addr, len, laddr): the result and the bytes stored at laddr. *)
Definition umoven (addr len : Z) : P (Z * list Z) :=
  let addr := mask_addr addr in
  ns ← get_ns;
  if ns : bool then umoven_peek addr len
  else
    match vm_readv addr len with
    | RvOk bs =>
        if Z.of_nat (length bs) =? len then mret (0, bs)
        else _ ← error_msg (short_read "umoven" (Z.of_nat (length bs)) len addr); mret (-1, bs)
    | RvErr e =>
        if e =? ENOSYS then _ ← set_ns true; umoven_peek addr len
        else if (e =? ESRCH) || (e =? EFAULT) || (e =? EIO) || (e =? EPERM)
        then mret (-1, [])
        else _ ← error_msg "process_vm_readv"; mret (-1, [])
    end.

(** ** umovestr *)

(** memchr(buf, 0, r) *)
Definition has_nul (l : list Z) : bool := existsb (fun b => b =? 0) l.

Definition x01010101 : Z := 0x0101010101010101.
Definition x80808080 : Z := 0x8080808080808080.

(** (u.val - x01010101) & ~u.val & x80808080, on unsigned longs *)
Definition nul_test (val : Z) : bool :=
  negb (Z.land (Z.land (u64 (val - x01010101)) (Z.lnot val)) x80808080 =? 0).

(** The length of the next process_vm_readv chunk: note that it is computed
    from [addr], the address the call started with. *)
Definition chunk_len (addr len : Z) : Z :=
  let chunk := if len >? 256 then 256 else len in
  let end_in_page := Z.land (u64 (addr + chunk)) 4095 in
  let r := chunk - end_in_page in
  if r >? 0 then r else chunk.

(** [while (len > 0)] around process_vm_readv.  The loop ends with a result and
    the bytes stored, or at [goto vm_readv_didnt_work] with the current [len]
    and [nread].  A count of 0 is handled by the errno switch, too. *)
Fixpoint umovestr_readv (fuel : nat) (addr remote len nread : Z) (acc : list Z)
    : P (Z * list Z + Z * Z) :=
  match fuel with
  | O => mret (inl (0, acc))
  | S fuel =>
      if len >? 0 then
        let fail (e : Z) : P (Z * list Z + Z * Z) :=
          if e =? ENOSYS then _ ← set_ns true; mret (inr (len, nread))
          else if e =? ESRCH then mret (inl (-1, acc))
          else if (e =? EFAULT) || (e =? EIO) || (e =? EPERM) then
            if nread =? 0 then mret (inl (-1, acc))
            else _ ← error_msg (short_read "umovestr" nread (nread + len) addr);
                 mret (inl (-1, acc))
          else _ ← error_msg "process_vm_readv"; mret (inl (-1, acc)) in
        match vm_readv remote (chunk_len addr len) with
        | RvOk [] => fail errno0
        | RvOk bs =>
            if has_nul bs then mret (inl (1, acc ++ bs))
            else
              let r := Z.of_nat (length bs) in
              umovestr_readv fuel addr (u64 (remote + r)) (len - r) (nread + r) (acc ++ bs)
        | RvErr e => fail e
        end
      else mret (inl (0, acc))
  end.

Fixpoint umovestr_words (fuel : nat) (addr len nread : Z) : P (Z * list Z) :=
  match fuel with
  | O => mret (0, [])
  | S fuel =>
      if len =? 0 then mret (0, [])
      else
        match peekdata addr with
        | PkErr e => _ ← peek_error "umovestr" e nread len addr; mret (-1, [])
        | PkOk val =>
            let m := Z.min 8 len in
            let chunk := take (Z.to_nat m) (bytes_le 8 val) in
            if nul_test val then mret (1, chunk)
            else
              '(r, rest) ← umovestr_words fuel (u64 (addr + 8)) (len - m) (nread + m);
              mret (r, chunk ++ rest)
        end
  end.

Definition umovestr_peek (addr len nread : Z) : P (Z * list Z) :=
  if Z.land addr 7 =? 0 then umovestr_words (S (Z.to_nat len)) addr len nread
  else
    let base := align8 addr in
    let n := addr - base in
    match peekdata base with
    | PkErr e => _ ← peek_error "umovestr" e 0 len base; mret (-1, [])
    | PkOk val =>
        let m := Z.min (8 - n) len in
        let tail := drop (Z.to_nat n) (bytes_le 8 val) in
        let chunk := take (Z.to_nat m) tail in
        (* while (n & (sizeof(long) - 1)) if (u.x[n++] == 0) return 1; *)
        if has_nul tail then mret (1, chunk)
        else
          '(r, rest) ← umovestr_words (S (Z.to_nat len)) (u64 (base + 8)) (len - m) (nread + m);
          mret (r, chunk ++ rest)
    end.

Definition umovestr (addr len : Z) : P (Z * list Z) :=
  let addr := mask_addr addr in
  ns ← get_ns;
  if ns : bool then umovestr_peek addr len 0
  else
    r ← umovestr_readv (S (Z.to_nat len)) addr addr len 0 [];
    match r with
    | inl res => mret res
    | inr (len, nread) => umovestr_peek addr len nread
    end.

(** upeek(tcp, off, res): result, value stored on success. *)
Definition upeek (off : Z) : P (Z * option Z) :=
  match peekuser off with
  | PkErr e =>
      if e =? ESRCH then mret (-1, None)
      else _ ← error_msg ("upeek: PTRACE_PEEKUSER pid:" +:+ fmt_d pid +:+ " @0x" +:+ fmt_x (u64 off) +:+ ")"); mret (-1, None)
  | PkOk val => mret (0, Some val)
  end.
End umove.

(** ** Reads print nothing *)

Definition quiet {A} (c : P A) : Prop := forall s, p_out (c s).2 = p_out s.

Lemma quiet_ret {A} (x : A) : quiet (mret x).
Proof. done. Qed.
Lemma quiet_bind {A B} (c : P A) (k : A -> P B) :
  quiet c -> (forall x, quiet (k x)) -> quiet (c ≫= k).
Proof.
  intros Hc Hk s. unfold mbind, P_bind. specialize (Hc s).
  destruct (c s) as [x s']. simpl in Hc. by rewrite Hk.
Qed.
Lemma quiet_error_msg t : quiet (error_msg t).
Proof. done. Qed.
Lemma quiet_set_ns b : quiet (set_ns b).
Proof. done. Qed.
Lemma quiet_get_ns : quiet get_ns.
Proof. done. Qed.
Create HintDb quiet.
#[export] Hint Resolve @quiet_ret quiet_error_msg quiet_set_ns quiet_get_ns : quiet.

(** Follow the structure of a computation. *)
Ltac quiet_tac :=
  repeat first
    [ solve [auto with quiet]
    | apply quiet_bind; [|intros ?]
    | match goal with
      | |- quiet (match ?x with _ => _ end) => destruct x
      | |- quiet (let '(_, _) := ?x in _) => destruct x
      end ].

Section quiet_reads.
Context `{K : Kernel}.

Lemma quiet_peek_error pid fn e nread len addr : quiet (peek_error pid fn e nread len addr).
Proof. unfold peek_error. quiet_tac. Qed.
Hint Resolve quiet_peek_error : quiet.

Lemma quiet_umoven_words pid fuel addr len nread : quiet (umoven_words pid fuel addr len nread).
Proof.
  revert addr len nread. induction fuel; intros; cbn [umoven_words]; quiet_tac.
Qed.
Hint Resolve quiet_umoven_words : quiet.

Lemma quiet_umoven ws pid addr len : quiet (umoven ws pid addr len).
Proof. unfold umoven, umoven_peek. quiet_tac. Qed.

Lemma quiet_umovestr_readv fuel addr remote len nread acc :
  quiet (umovestr_readv fuel addr remote len nread acc).
Proof.
  revert remote len nread acc. induction fuel; intros; cbn [umovestr_readv]; quiet_tac.
Qed.
Lemma quiet_umovestr_words pid fuel addr len nread :
  quiet (umovestr_words pid fuel addr len nread).
Proof.
  revert addr len nread. induction fuel; intros; cbn [umovestr_words]; quiet_tac.
Qed.
Hint Resolve quiet_umovestr_words quiet_umovestr_readv : quiet.

Lemma quiet_umovestr ws pid addr len : quiet (umovestr ws pid addr len).
Proof. unfold umovestr, umovestr_peek. quiet_tac. Qed.
End quiet_reads.
#[export] Hint Resolve quiet_umoven quiet_umovestr : quiet.

(** ** umoven reads the tracee's memory *)

Lemma mem_read_app m a n k :
  mem_read m a (n + k) =
  match mem_read m a n, mem_read m (a + Z.of_nat n) k with
  | Some l1, Some l2 => Some (l1 ++ l2)
  | _, _ => None
  end.
Proof.
  revert a. induction n as [|n IH]; intros a.
  { simpl. rewrite Z.add_0_r. by destruct (mem_read m a k). }
  simpl. rewrite IH. replace (a + 1 + Z.of_nat n) with (a + Z.of_nat (S n)) by lia.
  destruct (m a), (mem_read m (a + 1) n), (mem_read m (a + Z.of_nat (S n)) k); done.
Qed.

Lemma mem_read_length m a n bs : mem_read m a n = Some bs -> length bs = n.
Proof.
  revert a bs. induction n as [|n IH]; intros a bs; simpl; [by intros [= <-]|].
  destruct (m a), (mem_read m (a + 1) n) eqn:Hr; intros [= <-].
  simpl. f_equal. eauto.
Qed.

Lemma align8_div a : align8 a = 8 * (a / 8).
Proof.
  unfold align8. change (-8) with (Z.lnot (Z.ones 3)).
  rewrite <- Z.ldiff_land, Z.ldiff_ones_r, Z.shiftl_mul_pow2, Z.shiftr_div_pow2 by lia.
  change (2 ^ 3) with 8. lia.
Qed.
Lemma land7_mod a : Z.land a 7 = a mod 8.
Proof. change 7 with (Z.ones 3). by rewrite Z.land_ones. Qed.

Section umove_ok.
Context `{K : Kernel} (m : memory) `{!MemOk m}.

Lemma mem_read_bytes a n bs : mem_read m a n = Some bs -> Forall is_u8 bs.
Proof.
  revert a bs. induction n as [|n IH]; intros a bs; simpl; [intros [= <-]; constructor|].
  destruct (m a) eqn:Ha; [|done].
  destruct (mem_read m (a + 1) n) eqn:Hr; [|done]. intros [= <-].
  constructor; eauto using mem_bytes.
Qed.

(** A slice of an aligned word is mapped iff the word is. *)
Lemma word_slice a n k :
  a mod 8 = 0 -> (n + k <= 8)%nat -> (1 <= k)%nat ->
  mem_read m (a + Z.of_nat n) k = (fun w => take k (drop n w)) <$> mem_read m a 8.
Proof.
  intros Ha Hnk Hk. destruct (mem_read m a 8) as [w|] eqn:Hw; simpl.
  - replace 8%nat with (n + (k + (8 - n - k)))%nat in Hw by lia.
    rewrite mem_read_app in Hw.
    destruct (mem_read m a n) as [l1|] eqn:H1; [|done].
    rewrite mem_read_app in Hw.
    destruct (mem_read m (a + Z.of_nat n) k) as [l2|] eqn:H2; [|done].
    destruct (mem_read m _ (8 - n - k)) as [l3|]; [|done]. simplify_eq.
    apply mem_read_length in H1, H2.
    by rewrite drop_app_length', take_app_length' by lia.
  - destruct k as [|k]; [lia|]. simpl.
    destruct (m (a + Z.of_nat n)) as [b|] eqn:Hb; [exfalso|done].
    destruct (mem_words _ _ Hb) as [bs Hbs].
    replace (8 * ((a + Z.of_nat n) / 8)) with a in Hbs by (Z.div_mod_to_equations; lia).
    congruence.
Qed.

Lemma peek_word a :
  match mem_read m a 8 with
  | Some w => peekdata a = PkOk (le w) /\ bytes_le 8 (le w) = w
  | None => exists e, peekdata a = PkErr e
  end.
Proof.
  destruct (mem_read m a 8) as [w|] eqn:Hw.
  - split; [by apply peek_mapped|].
    rewrite <- (mem_read_length _ _ _ _ Hw) at 1.
    apply bytes_le_le. by eapply mem_read_bytes.
  - destruct (peek_unmapped a Hw); eauto.
Qed.

(** A read is right when it yields the bytes of the memory image, or fails
    where the image has a hole. *)
Definition reads (r : Z * list Z) (spec : option (list Z)) : Prop :=
  match spec with
  | Some bs => r = (0, bs)
  | None => r.1 = -1
  end.

Lemma reads_chunk r rest l1 spec1 spec2 :
  spec1 = Some l1 -> reads (r, rest) spec2 ->
  reads (r, l1 ++ rest)
    match spec1, spec2 with Some a, Some b => Some (a ++ b) | _, _ => None end.
Proof. intros ->. destruct spec2; simpl; [by intros [= -> ->]|done]. Qed.

Lemma umoven_words_reads pid fuel addr len nread s :
  addr mod 8 = 0 -> 0 <= len < Z.of_nat fuel -> 0 <= addr -> addr + len <= 2 ^ 64 ->
  reads (umoven_words pid fuel addr len nread s).1 (mem_read m addr (Z.to_nat len)).
Proof.
  revert addr len nread s. induction fuel as [|fuel IH]; intros addr len nread s Ha Hlen H0 Hw.
  { lia. }
  simpl. destruct (Z.eqb_spec len 0) as [->|Hne]; [done|].
  set (k := Z.to_nat (Z.min 8 len)).
  pose proof (word_slice addr 0 k Ha ltac:(unfold k; lia) ltac:(unfold k; lia)) as Hslice.
  rewrite Z.add_0_r in Hslice.
  replace (Z.to_nat len) with (k + Z.to_nat (len - Z.min 8 len))%nat by (unfold k; lia).
  rewrite mem_read_app.
  pose proof (peek_word addr) as Hp. destruct (mem_read m addr 8) as [w|].
  2: { destruct Hp as [e ->]. rewrite Hslice. simpl.
       unfold mbind, P_bind. by destruct (peek_error _ _ _ _ _ _ s). }
  destruct Hp as [-> Hb]. unfold mbind at 1, P_bind at 1.
  set (rec := umoven_words _ _ _ _ _ s).
  assert (Hrec : reads rec.1 (mem_read m (addr + Z.of_nat k) (Z.to_nat (len - Z.min 8 len)))).
  { destruct (decide (len <= 8)).
    - replace (Z.to_nat (len - Z.min 8 len)) with 0%nat by lia.
      unfold rec. destruct fuel as [|fuel]; [simpl; lia|]. simpl.
      by replace (len - Z.min 8 len =? 0) with true by lia.
    - replace (addr + Z.of_nat k) with (u64 (addr + 8)) by (unfold k; wrap_lia).
      apply IH; unfold k; wrap_lia. }
  destruct rec as [[r rest] s']. simpl in *.
  rewrite Hb.
  by apply reads_chunk.
Qed.

(** The bytes from an unaligned address up to the next word, then the rest. *)
Lemma umoven_peek_reads pid addr len s :
  0 < len -> 0 <= addr -> addr + len <= 2 ^ 64 ->
  reads (umoven_peek pid addr len s).1 (mem_read m addr (Z.to_nat len)).
Proof.
  intros Hlen H0 Hw. unfold umoven_peek. rewrite land7_mod, align8_div.
  destruct (Z.eqb_spec (addr mod 8) 0) as [Ha|Ha].
  { apply umoven_words_reads; lia. }
  set (base := 8 * (addr / 8)). set (n := Z.to_nat (addr - base)).
  set (k := Z.to_nat (Z.min (8 - (addr - base)) len)).
  assert (Hn : 0 < addr - base < 8) by (unfold base; Z.div_mod_to_equations; lia).
  assert (Hbase : base mod 8 = 0) by (unfold base; by rewrite Z.mul_comm, Z.mod_mul).
  pose proof (word_slice base n k Hbase ltac:(unfold k, n; lia) ltac:(unfold k; lia)) as Hslice.
  replace (base + Z.of_nat n) with addr in Hslice by (unfold n; lia).
  set (len' := len - Z.min (8 - (addr - base)) len).
  replace (Z.to_nat len) with (k + Z.to_nat len')%nat by (unfold k, len'; lia).
  rewrite mem_read_app.
  pose proof (peek_word base) as Hp. destruct (mem_read m base 8) as [w|].
  2: { destruct Hp as [e ->]. rewrite Hslice. simpl.
       unfold mbind, P_bind. by destruct (peek_error _ _ _ _ _ _ s). }
  destruct Hp as [-> ->]. unfold mbind, P_bind.
  assert (Hrec : forall nread, reads (umoven_words pid (S (k + Z.to_nat len')) (u64 (base + 8))
                   len' nread s).1 (mem_read m (addr + Z.of_nat k) (Z.to_nat len'))).
  { intros nread. destruct (decide (len' = 0)) as [->|]; [done|].
    replace (addr + Z.of_nat k) with (u64 (base + 8)) by (unfold k, len' in *; wrap_lia).
    apply umoven_words_reads; unfold k, len' in *; wrap_lia. }
  specialize (Hrec (Z.min (8 - (addr - base)) len)).
  destruct (umoven_words _ _ _ _ _ s) as [[r rest] s']. by apply reads_chunk.
Qed.

Lemma mask_addr_range ws addr : is_u64 addr -> 0 <= ws -> is_u64 (mask_addr ws addr).
Proof.
  intros Ha Hws. unfold mask_addr. case_match; [|done].
  replace (2 ^ (8 * ws) - 1) with (Z.ones (8 * ws)) by (rewrite Z.ones_equiv; lia).
  rewrite Z.land_ones by lia.
  assert (0 < 2 ^ (8 * ws) <= 2 ^ 64).
  { split; [apply Z.pow_pos_nonneg; lia|apply Z.pow_le_mono_r; lia]. }
  pose proof (Z.mod_pos_bound addr (2 ^ (8 * ws))). unfold is_u64. lia.
Qed.

Lemma umoven_reads ws pid addr len s :
  0 < len -> 0 <= mask_addr ws addr -> mask_addr ws addr + len <= 2 ^ 64 ->
  reads (umoven ws pid addr len s).1 (mem_read m (mask_addr ws addr) (Z.to_nat len)).
Proof.
  intros Hlen H0 Hw. unfold umoven. set (a := mask_addr ws addr) in *.
  assert (Hpeek : forall s', reads (umoven_peek pid a len s').1 (mem_read m a (Z.to_nat len)))
    by (intros; by apply umoven_peek_reads).
  unfold mbind at 1, P_bind at 1, get_ns. destruct (readv_not_supported s); [done|].
  destruct (mem_read m a (Z.to_nat len)) as [bs|] eqn:Hr.
  - pose proof (readv_mapped _ _ _ Hr) as Hv. rewrite Z2Nat.id in Hv by lia.
    apply mem_read_length in Hr as Hl.
    destruct Hv as [-> | ->].
    + by replace (Z.of_nat (length bs) =? len) with true by lia.
    + apply Hpeek.
  - pose proof (readv_unmapped _ _ Hr) as Hv. rewrite Z2Nat.id in Hv by lia.
    destruct (vm_readv a len) as [bs|e].
    + by replace (Z.of_nat (length bs) =? len) with false by lia.
    + destruct (Z.eqb_spec e ENOSYS) as [->|].
      * apply Hpeek.
      * by destruct (_ || _).
Qed.
End umove_ok.

(** ** A concrete kernel over a memory image *)

(** [vm]: whether the kernel has process_vm_readv; on a hole it transfers
    nothing and reports EFAULT, as Linux does for a single remote segment. *)
Definition mem_kernel (vm : bool) (m : memory) : Kernel := {|
  vm_readv a n :=
    if vm then
      match mem_read m a (Z.to_nat n) with Some bs => RvOk bs | None => RvErr EFAULT end
    else RvErr ENOSYS;
  peekdata a := match mem_read m a 8 with Some bs => PkOk (le bs) | None => PkErr EIO end;
  peekuser _ := PkErr ESRCH;
  errno0 := 0
|}.

#[global] Instance mem_kernel_ok vm m
  (Hb : forall a b, m a = Some b -> is_u8 b)
  (Hw : forall a b, m a = Some b -> exists bs, mem_read m (8 * (a / 8)) 8 = Some bs) :
  @MemOk (mem_kernel vm m) m.
Proof.
  split; [done|done|..]; cbn.
  - intros a n bs Hr. rewrite Nat2Z.id, Hr. destruct vm; auto.
  - intros a n Hr. rewrite Nat2Z.id, Hr. by destruct vm.
  - intros a n a' n'. destruct vm; [by case_match|done].
  - intros a bs ->. done.
  - intros a ->. auto.
Qed.

#[global] Instance mem_kernel_bytes vm m
  (Hb : forall a b, m a = Some b -> is_u8 b) : @BytesOk (mem_kernel vm m).
Proof.
  intros a n bs. cbn. destruct vm; [|done]. generalize (Z.to_nat n) as k. intros k.
  destruct (mem_read m a k) as [l|] eqn:Hr; [|done]. intros [= <-].
  revert a l Hr. induction k as [|k IH]; intros a l; cbn [mem_read]; [by intros [= <-]|].
  destruct (m a) eqn:Ha; [|done]. destruct (mem_read m (a + 1) k) eqn:Hk; [|done].
  intros [= <-]. constructor; eauto.
Qed.

(** [size] bytes of memory at [base]: byte [i] is [f i]; and one page of it. *)
Definition mapped_mem (size base : Z) (f : Z -> Z) : memory :=
  fun a => if (base <=? a) && (a <? base + size) then Some (u8 (f (a - base))) else None.
Definition page_mem : Z -> (Z -> Z) -> memory := mapped_mem 4096.

Lemma mapped_mem_u8 size base f a b : mapped_mem size base f a = Some b -> is_u8 b.
Proof. unfold mapped_mem. case_match; [|done]. intros [= <-]. apply u8_range. Qed.

Lemma mapped_mem_read size base f a n :
  base <= a -> a + Z.of_nat n <= base + size ->
  mem_read (mapped_mem size base f) a n = Some ((fun i => u8 (f (a - base + Z.of_nat i))) <$> seq 0 n).
Proof.
  revert a. induction n as [|n IH]; intros a H1 H2; [done|].
  simpl. unfold mapped_mem at 1.
  replace ((base <=? a) && (a <? base + size)) with true by lia.
  rewrite IH by lia. f_equal. f_equal.
  { f_equal. f_equal. lia. }
  rewrite <- fmap_S_seq, <- list_fmap_compose. apply list_fmap_ext.
  intros i x _. simpl. f_equal. f_equal. lia.
Qed.

Lemma mapped_mem_words size base f :
  base mod 8 = 0 -> size mod 8 = 0 ->
  forall a b, mapped_mem size base f a = Some b ->
  exists bs, mem_read (mapped_mem size base f) (8 * (a / 8)) 8 = Some bs.
Proof.
  intros Hbase Hsize a b Hb. eexists. apply mapped_mem_read;
    unfold mapped_mem in Hb; destruct ((base <=? a) && (a <? base + size)) eqn:Hin;
    try done; Z.div_mod_to_equations; lia.
Qed.

Lemma page_mem_u8 base f a b : page_mem base f a = Some b -> is_u8 b.
Proof. apply mapped_mem_u8. Qed.
Lemma page_mem_read base f a n :
  base <= a -> a + Z.of_nat n <= base + 4096 ->
  mem_read (page_mem base f) a n = Some ((fun i => u8 (f (a - base + Z.of_nat i))) <$> seq 0 n).
Proof. apply mapped_mem_read. Qed.
Lemma page_mem_words base f :
  base mod 8 = 0 ->
  forall a b, page_mem base f a = Some b ->
  exists bs, mem_read (page_mem base f) (8 * (a / 8)) 8 = Some bs.
Proof. intros Hb. by apply mapped_mem_words. Qed.

(** ** The NUL test on a whole word *)

Lemma le_app l1 l2 : le (l1 ++ l2) = le l1 + 256 ^ Z.of_nat (length l1) * le l2.
Proof.
  induction l1 as [|b l1 IH]; cbn [le app length]; [lia|].
  rewrite IH, Nat2Z.inj_succ, Z.pow_succ_r by lia. lia.
Qed.

(** Bit [n] of a word whose low byte is [a]. *)
Lemma testbit_cat a x n :
  is_u8 a -> 0 <= n ->
  Z.testbit (a + 256 * x) n = if n <? 8 then Z.testbit a n else Z.testbit x (n - 8).
Proof.
  intros Ha Hn. unfold is_u8 in Ha. destruct (Z.ltb_spec n 8).
  - rewrite <- (Z.mod_pow2_bits_low _ 8) by lia.
    rewrite Z.mul_comm, Z.mod_add, Z.mod_small by lia. done.
  - replace n with (n - 8 + 8) at 1 by lia. rewrite <- Z.div_pow2_bits by lia.
    change (2 ^ 8) with 256.
    rewrite Z.mul_comm, Z.div_add, Z.div_small by lia. done.
Qed.

(** [&] and [& ~] act bytewise. *)
Lemma land_cat a x b y :
  is_u8 a -> is_u8 b ->
  Z.land (a + 256 * x) (b + 256 * y) = Z.land a b + 256 * Z.land x y.
Proof.
  intros Ha Hb.
  assert (Hab : is_u8 (Z.land a b)).
  { unfold is_u8 in *. rewrite <- (Z.mod_small a (2 ^ 8)), <- Z.land_ones by lia.
    rewrite <- Z.land_assoc, (Z.land_comm _ b), Z.land_assoc, Z.land_ones by lia.
    apply Z.mod_pos_bound. lia. }
  apply Z.bits_inj'. intros n Hn.
  rewrite Z.land_spec, !testbit_cat by done.
  destruct (n <? 8); by rewrite Z.land_spec.
Qed.

Lemma land_lnot_cat a x b y :
  is_u8 a -> is_u8 b ->
  Z.land (a + 256 * x) (Z.lnot (b + 256 * y)) =
  Z.land a (255 - b) + 256 * Z.land x (Z.lnot y).
Proof.
  intros Ha Hb. rewrite <- land_cat by (done || wrap_lia). f_equal. unfold Z.lnot. lia.
Qed.

(** Subtracting 1 from every byte, with borrow, modulo 256^n. *)
Lemma sub_ones b l :
  is_u8 b ->
  (b + 256 * le l - le (repeat 1 (S (length l)))) mod 256 ^ Z.of_nat (S (length l)) =
  (b - 1) mod 256 +
  256 * ((le l - le (repeat 1 (length l)) + (b - 1) / 256) mod 256 ^ Z.of_nat (length l)).
Proof.
  intros Hb. cbn [repeat le]. rewrite Nat2Z.inj_succ, Z.pow_succ_r by lia.
  set (X := le l - le (repeat 1 (length l))).
  replace (b + 256 * le l - (1 + 256 * le (repeat 1 (length l))))
    with (b - 1 + 256 * X) by (unfold X; lia).
  set (M := 256 ^ Z.of_nat (length l)).
  assert (0 < M) by (apply Z.pow_pos_nonneg; lia).
  rewrite (Z.div_mod (b - 1) 256) at 1 by lia.
  replace (256 * ((b - 1) / 256) + (b - 1) mod 256 + 256 * X)
    with ((b - 1) mod 256 + 256 * (X + (b - 1) / 256)) by lia.
  rewrite Z.rem_mul_r by lia.
  rewrite (Z.mul_comm 256 (X + _)), Z.mod_add, Z.div_add by lia.
  rewrite Z.mod_mod, (Z.div_small (_ mod _)) by (try apply Z.mod_pos_bound; lia).
  rewrite Z.add_0_l. done.
Qed.

Definition word_test (n : nat) (v : Z) : Z :=
  Z.land (Z.land ((v - le (repeat 1 n)) mod 256 ^ Z.of_nat n) (Z.lnot v)) (le (repeat 128 n)).

Lemma word_test_cons b l :
  is_u8 b ->
  word_test (S (length l)) (b + 256 * le l) =
  Z.land (Z.land ((b - 1) mod 256) (255 - b)) 128 +
  256 * Z.land (Z.land ((le l - le (repeat 1 (length l)) + (b - 1) / 256)
                        mod 256 ^ Z.of_nat (length l)) (Z.lnot (le l)))
               (le (repeat 128 (length l))).
Proof.
  intros Hb. unfold word_test. rewrite sub_ones by done.
  assert (Hd : is_u8 ((b - 1) mod 256)) by (apply Z.mod_pos_bound; lia).
  rewrite land_lnot_cat by done. cbn [repeat le].
  apply land_cat; [|wrap_lia].
  pose (ok b := (0 <=? Z.land ((b - 1) mod 256) (255 - b)) &&
                (Z.land ((b - 1) mod 256) (255 - b) <? 256)).
  assert (H : ok b = true) by (apply all_bytes; [vm_compute; reflexivity|done]).
  unfold ok in H. unfold is_u8. lia.
Qed.

Lemma byte_test_pos b :
  is_u8 b -> b <> 0 -> Z.land (Z.land ((b - 1) mod 256) (255 - b)) 128 = 0.
Proof.
  intros Hb Hne.
  pose (ok b := (b =? 0) || (Z.land (Z.land ((b - 1) mod 256) (255 - b)) 128 =? 0)).
  assert (H : ok b = true) by (apply all_bytes; [vm_compute; reflexivity|done]).
  unfold ok in H. lia.
Qed.

Lemma land_nonneg_128 x n : 0 <= Z.land x (le (repeat 128 n)).
Proof.
  apply Z.land_nonneg. right. induction n; cbn [repeat le]; lia.
Qed.

Lemma word_test_spec l :
  Forall is_u8 l -> negb (word_test (length l) (le l) =? 0) = has_nul l.
Proof.
  induction 1 as [|b l Hb _ IH]; [done|].
  cbn [le length]. rewrite word_test_cons by done. cbn [has_nul existsb].
  destruct (Z.eqb_spec b 0) as [->|Hne].
  - change (Z.land (Z.land ((0 - 1) mod 256) (255 - 0)) 128) with 128. cbn [orb].
    match goal with |- context [256 * ?x] => assert (0 <= x) by apply land_nonneg_128 end. lia.
  - rewrite byte_test_pos by done. rewrite Z.div_small by wrap_lia. rewrite Z.add_0_r.
    cbn [orb]. fold (has_nul l). rewrite <- IH. fold (word_test (length l) (le l)). lia.
Qed.

Lemma nul_test_spec l :
  Forall is_u8 l -> length l = 8%nat -> nul_test (le l) = has_nul l.
Proof. intros Hl Hlen. rewrite <- word_test_spec by done. by rewrite Hlen. Qed.

(** ** umovestr reads a string *)

Lemma has_nul_elem l : has_nul l = true <-> 0 ∈ l.
Proof.
  unfold has_nul. rewrite existsb_exists. setoid_rewrite <- list_elem_of_In.
  split; [by intros (b & Hin & ->%Z.eqb_eq)|]. intros Hin. by exists 0.
Qed.
Lemma has_nul_false l : has_nul l = false <-> 0 ∉ l.
Proof. rewrite <- has_nul_elem. by destruct (has_nul l). Qed.

(** What a caller of umovestr may conclude when the [len] bytes [bs] at the
    address are mapped: the buffer holds a prefix of them; result 0 is given only
    without a NUL among them, and then all of them are stored; a NUL among them
    is always found and stored. *)
Record str_ok (res : Z * list Z) (bs : list Z) : Prop := {
  str_prefix : res.2 `prefix_of` bs;
  str_result : res.1 = 0 \/ res.1 = 1;
  str_zero : res.1 = 0 -> 0 ∉ bs;
  str_full : 0 ∉ bs -> res.2 = bs;
  str_nul : 0 ∈ bs -> res.1 = 1 /\ 0 ∈ res.2
}.

Lemma str_ok_more r buf c bs :
  0 ∉ c -> str_ok (r, buf) bs -> str_ok (r, c ++ buf) (c ++ bs).
Proof.
  intros Hc [Hp Hr Hz Hf Hn]. split; simpl in *.
  - by apply prefix_app.
  - done.
  - intros H0. rewrite elem_of_app. intros [?|?]; [done|]. by apply Hz.
  - rewrite elem_of_app. intros H0. f_equal. apply Hf. tauto.
  - rewrite !elem_of_app. intros [?|?]; [done|]. destruct Hn; auto.
Qed.

Lemma str_ok_stop c bs : (0 ∈ c \/ bs = []) -> str_ok (1, c) (c ++ bs).
Proof.
  intros H. split; simpl; [by eexists|by right|done| |]; rewrite elem_of_app.
  { intros Hno. destruct H as [| ->]; [tauto|by rewrite app_nil_r]. }
  intros [?|Hin]; [done|]. destruct H as [| ->]; [done|].
  by apply not_elem_of_nil in Hin.
Qed.

Lemma str_ok_nil : str_ok (0, []) [].
Proof.
  split; simpl; [done|by left|intros _; apply not_elem_of_nil|done|].
  intros Hin. by apply not_elem_of_nil in Hin.
Qed.

Lemma mem_read_split m a n k bs :
  mem_read m a (n + k) = Some bs ->
  exists l1 l2, bs = l1 ++ l2 /\ mem_read m a n = Some l1 /\
                mem_read m (a + Z.of_nat n) k = Some l2.
Proof.
  rewrite mem_read_app.
  destruct (mem_read m a n), (mem_read m _ k); try done. intros [= <-]. eauto.
Qed.

Section umovestr_ok.
Context `{K : Kernel} (m : memory) `{!MemOk m}.

(** Bytes [n, n+k) of the mapped aligned word at [a]: peeking the word gives
    them as a slice, and the word's NUL test covers the whole word. *)
Lemma peek_slice a n k c :
  a mod 8 = 0 -> (n + k <= 8)%nat -> (1 <= k)%nat ->
  mem_read m (a + Z.of_nat n) k = Some c ->
  exists w, peekdata a = PkOk (le w) /\ bytes_le 8 (le w) = w /\ length w = 8%nat /\
            nul_test (le w) = has_nul w /\ c = take k (drop n w).
Proof.
  intros Ha Hnk Hk Hr. rewrite (word_slice m) in Hr by done.
  pose proof (peek_word m a) as Hp.
  destruct (mem_read m a 8) as [w|] eqn:Hw; [|done]. destruct Hp as [Hp Hb].
  apply mem_read_length in Hw as Hlen. apply (mem_read_bytes m) in Hw as Hu8.
  exists w. simpl in Hr. simplify_eq. split_and!; try done. by apply nul_test_spec.
Qed.

Lemma umovestr_words_ok pid fuel addr len nread s bs :
  addr mod 8 = 0 -> 0 <= len < Z.of_nat fuel -> 0 <= addr -> addr + len <= 2 ^ 64 ->
  mem_read m addr (Z.to_nat len) = Some bs ->
  str_ok (umovestr_words pid fuel addr len nread s).1 bs.
Proof.
  revert addr len nread s bs.
  induction fuel as [|fuel IH]; intros addr len nread s bs Ha Hlen H0 Hw Hr; [lia|].
  simpl. destruct (Z.eqb_spec len 0) as [->|Hne].
  { simpl in Hr. simplify_eq. apply str_ok_nil. }
  set (k := Z.to_nat (Z.min 8 len)).
  replace (Z.to_nat len) with (k + Z.to_nat (len - Z.min 8 len))%nat in Hr by (unfold k; lia).
  apply mem_read_split in Hr as (c & bs' & -> & Hc & Hr).
  destruct (peek_slice addr 0 k c) as (w & -> & -> & Hwl & -> & ->);
    [done|unfold k; lia|unfold k; lia|by rewrite Z.add_0_r|].
  change (drop 0 w) with w in *.
  destruct (has_nul w) eqn:Hnul.
  - apply str_ok_stop. destruct (decide (len < 8)).
    + right. replace (Z.to_nat (len - Z.min 8 len)) with 0%nat in Hr by lia. by simplify_eq/=.
    + left. apply has_nul_elem in Hnul. by rewrite take_ge by (unfold k; lia).
  - unfold mbind, P_bind.
    set (rec := umovestr_words _ _ _ _ _ s).
    assert (Hrec : str_ok rec.1 bs').
    { destruct (decide (len - Z.min 8 len = 0)) as [Hz|].
      - unfold rec. rewrite Hz in *. simpl in Hr. simplify_eq.
        destruct fuel as [|fuel]; apply str_ok_nil.
      - replace (addr + Z.of_nat k) with (u64 (addr + 8)) in Hr by (unfold k; wrap_lia).
        apply IH; try done; unfold k in *; wrap_lia. }
    destruct rec as [[r rest] s']. apply str_ok_more; [|done].
    apply has_nul_false in Hnul. intros Hin. apply Hnul. eapply elem_of_take in Hin as (i & Hi & _).
    by eapply list_elem_of_lookup_2.
Qed.

Lemma umovestr_peek_ok pid addr len nread s bs :
  0 < len -> 0 <= addr -> addr + len <= 2 ^ 64 ->
  mem_read m addr (Z.to_nat len) = Some bs ->
  str_ok (umovestr_peek pid addr len nread s).1 bs.
Proof.
  intros Hlen H0 Hw Hr. unfold umovestr_peek. rewrite land7_mod, align8_div.
  destruct (Z.eqb_spec (addr mod 8) 0) as [Ha|Ha].
  { by apply umovestr_words_ok; try lia. }
  set (base := 8 * (addr / 8)). set (n := Z.to_nat (addr - base)).
  set (k := Z.to_nat (Z.min (8 - (addr - base)) len)).
  set (len' := len - Z.min (8 - (addr - base)) len).
  assert (Hn : 0 < addr - base < 8) by (unfold base; Z.div_mod_to_equations; lia).
  assert (Hbase : base mod 8 = 0) by (unfold base; by rewrite Z.mul_comm, Z.mod_mul).
  replace (Z.to_nat len) with (k + Z.to_nat len')%nat in * by (unfold k, len'; lia).
  apply mem_read_split in Hr as (c & bs' & -> & Hc & Hr).
  destruct (peek_slice base n k c) as (w & -> & -> & Hwl & _ & ->);
    [done|unfold k, n; lia|unfold k; lia| |].
  { by replace (base + Z.of_nat n) with addr by (unfold n; lia). }
  destruct (has_nul (drop n w)) eqn:Hnul.
  - apply str_ok_stop. destruct (decide (len' = 0)) as [Hz|].
    + right. rewrite Hz in Hr. by simplify_eq/=.
    + left. apply has_nul_elem in Hnul.
      rewrite take_ge by (rewrite length_drop; unfold k, len', n in *; lia). done.
  - unfold mbind, P_bind.
    assert (Hrec : forall f nr, Z.of_nat f > len' -> str_ok (umovestr_words pid f (u64 (base + 8)) len' nr s).1 bs').
    { intros f nr Hf. destruct (decide (len' = 0)) as [Hz|].
      - rewrite Hz in *. simpl in Hr. simplify_eq. destruct f; apply str_ok_nil.
      - replace (addr + Z.of_nat k) with (u64 (base + 8)) in Hr
          by (unfold k, len', n in *; wrap_lia).
        apply umovestr_words_ok; try done; unfold k, len', n in *; wrap_lia. }
    specialize (Hrec (S (k + Z.to_nat len')) (nread + Z.min (8 - (addr - base)) len)
                  ltac:(unfold len'; lia)).
    destruct (umovestr_words _ _ _ _ _ s) as [[r rest] s']. apply str_ok_more; [|done].
    apply has_nul_false in Hnul. intros Hin. apply Hnul.
    apply elem_of_take in Hin as (i & Hi & _). by eapply list_elem_of_lookup_2.
Qed.

Lemma chunk_len_range addr len : 0 < len -> 1 <= chunk_len addr len <= Z.min 256 len.
Proof.
  intros Hlen. unfold chunk_len. change 4095 with (Z.ones 12).
  rewrite Z.land_ones by lia.
  set (c := if len >? 256 then 256 else len).
  assert (1 <= c <= Z.min 256 len) by (unfold c; destruct (len >? 256) eqn:?; lia).
  pose proof (Z.mod_pos_bound (u64 (addr + c)) (2 ^ 12)).
  destruct (_ >? 0) eqn:?; lia.
Qed.

(** The process_vm_readv loop, on a kernel that has the call. *)
Lemma umovestr_readv_ok fuel addr remote len nread acc s bs0 bs :
  (forall a n, vm_readv a n <> RvErr ENOSYS) ->
  0 <= len < Z.of_nat fuel -> 0 <= remote -> remote + len <= 2 ^ 64 ->
  0 ∉ acc -> bs0 = acc ++ bs ->
  mem_read m remote (Z.to_nat len) = Some bs ->
  exists res, (umovestr_readv fuel addr remote len nread acc s).1 = inl res /\ str_ok res bs0.
Proof.
  intros Hsup. revert remote len nread acc s bs.
  induction fuel as [|fuel IH]; intros remote len nread acc s bs Hlen H0 Hw Hacc -> Hr; [lia|].
  cbn [umovestr_readv]. destruct (len >? 0) eqn:Hpos.
  2: { replace len with 0 in Hr by lia. simpl in Hr. simplify_eq.
       exists (0, acc). split; [done|].
       rewrite <- (app_nil_r acc) at 1. apply str_ok_more; [done|apply str_ok_nil]. }
  pose proof (chunk_len_range addr len ltac:(lia)) as Hk.
  set (k := chunk_len addr len) in *.
  replace (Z.to_nat len) with (Z.to_nat k + Z.to_nat (len - k))%nat in Hr by lia.
  apply mem_read_split in Hr as (c & bs' & -> & Hc & Hr).
  apply mem_read_length in Hc as Hcl.
  pose proof (readv_mapped _ _ _ Hc) as Hv. rewrite Z2Nat.id in Hv by lia.
  destruct Hv as [Hv|Hv]; [rewrite Hv|by apply Hsup in Hv].
  destruct c as [|c0 c]; [simpl in Hcl; lia|].
  destruct (has_nul (c0 :: c)) eqn:Hnul.
  - exists (1, acc ++ c0 :: c). split; [done|]. rewrite (app_assoc acc (c0 :: c)).
    apply str_ok_stop. left. apply elem_of_app. right. by apply has_nul_elem.
  - apply has_nul_false in Hnul.
    eapply IH; [lia|wrap_lia|wrap_lia| | |].
    + rewrite elem_of_app. tauto.
    + by rewrite <- app_assoc.
    + rewrite Hcl, Z2Nat.id in * by lia.
      destruct (decide (len - k = 0)) as [Hz|]; [by rewrite Hz in *|].
      by replace (u64 (remote + k)) with (remote + k) by wrap_lia.
Qed.

Lemma umovestr_ok ws pid addr len s bs :
  0 < len -> 0 <= mask_addr ws addr -> mask_addr ws addr + len <= 2 ^ 64 ->
  mem_read m (mask_addr ws addr) (Z.to_nat len) = Some bs ->
  str_ok (umovestr ws pid addr len s).1 bs.
Proof.
  intros Hlen H0 Hw Hr. unfold umovestr. set (a := mask_addr ws addr) in *.
  unfold mbind at 1, P_bind at 1, get_ns.
  destruct (readv_not_supported s); [by apply umovestr_peek_ok|].
  unfold mbind, P_bind.
  destruct (vm_readv a (chunk_len a len)) as [c|e] eqn:Hv.
  2: destruct (decide (e = ENOSYS)) as [->|He].
  2: { cbn [umovestr_readv]. replace (len >? 0) with true by lia. rewrite Hv.
       simpl. by apply umovestr_peek_ok. }
  all: assert (Hsup : forall x n, vm_readv x n <> RvErr ENOSYS)
         by (intros x n Hx; pose proof (readv_enosys _ _ a (chunk_len a len) Hx); congruence);
    destruct (umovestr_readv_ok (S (Z.to_nat len)) a a len 0 [] s bs bs Hsup)
      as (res & Hres & Hok); try (done || lia || apply not_elem_of_nil);
    destruct (umovestr_readv _ a a len 0 [] s) as [r s']; simpl in Hres; by subst r.
Qed.
End umovestr_ok.

(** ** A transfer that succeeds is complete *)

Section complete.
Context `{K : Kernel}.

Definition complete (len : Z) (x : Z * list Z) : Prop := 0 <= x.1 -> Z.of_nat (length x.2) = len.

Lemma umoven_words_complete pid fuel addr len nread s :
  0 <= len -> (Z.to_nat len < fuel)%nat -> complete len (umoven_words pid fuel addr len nread s).1.
Proof.
  revert addr len nread s. induction fuel as [|fuel IH]; intros addr len nread s Hlen Hf; [lia|].
  unfold complete. cbn [umoven_words]. destruct (Z.eqb_spec len 0) as [->|Hne]; [done|].
  unfold mbind, P_bind. destruct (peekdata addr); [|by destruct (peek_error _ _ _ _ _ _ _)].
  specialize (IH (u64 (addr + 8)) (len - Z.min 8 len) (nread + Z.min 8 len) s ltac:(lia) ltac:(lia)).
  destruct (umoven_words _ _ _ _ _ s) as [[r rest] s']. unfold complete in *. cbn [fst snd mret P_ret] in *.
  intros Hr. rewrite length_app, length_take, length_bytes_le. specialize (IH Hr). lia.
Qed.

Lemma umoven_peek_complete pid addr len s :
  0 <= len -> complete len (umoven_peek pid addr len s).1.
Proof.
  intros Hlen. unfold umoven_peek. rewrite land7_mod, align8_div.
  destruct (Z.eqb_spec (addr mod 8) 0) as [|Hne]; [by apply umoven_words_complete; lia|].
  unfold complete, mbind, P_bind. destruct (peekdata _); [|by destruct (peek_error _ _ _ _ _ _ _)].
  set (n := addr - 8 * (addr / 8)).
  assert (Hn : 0 < n < 8) by (subst n; pose proof (Z.div_mod addr 8); pose proof (Z.mod_pos_bound addr 8); lia).
  clearbody n.
  pose proof (umoven_words_complete pid (S (Z.to_nat len)) (u64 (8 * (addr / 8) + 8))
                (len - Z.min (8 - n) len) (Z.min (8 - n) len) s ltac:(lia) ltac:(lia)) as H.
  destruct (umoven_words _ _ _ _ _ s) as [[r rest] s']. unfold complete in *. cbn [fst snd mret P_ret] in *.
  intros Hr. rewrite length_app, length_take, length_drop, length_bytes_le. specialize (H Hr). lia.
Qed.

Lemma umoven_complete ws pid addr len s : 0 <= len -> complete len (umoven ws pid addr len s).1.
Proof.
  intros Hlen. unfold umoven, mbind, P_bind, get_ns.
  destruct (readv_not_supported s); [by apply umoven_peek_complete|].
  destruct (vm_readv _ _) as [bs|err].
  - unfold complete. destruct (Z.eqb_spec (Z.of_nat (length bs)) len); simpl; [done|lia].
  - destruct (_ =? ENOSYS); [by apply umoven_peek_complete|].
    unfold complete. destruct (_ || _); simpl; lia.
Qed.
End complete.

(** ** Properties *)

(** C29: umoven is a faithful read of the tracee's memory through either kernel
    interface.  For every address and positive length below the end of the
    address space, and whatever the static flag process_vm_readv_not_supported
    says, it returns 0 and the bytes of the memory image when they are all
    mapped, and -1 when one is not: process_vm_readv and the word-wise
    PTRACE_PEEKDATA fallback (unaligned head, whole words, partial tail) agree,
    and a 32-bit tracee's address is first truncated to its word size. *)
Theorem umoven_reads_memory `{K : Kernel} m `{!MemOk m} ws pid addr len s :
  is_u64 addr -> 0 <= ws -> 0 < len -> mask_addr ws addr + len <= 2 ^ 64 ->
  match mem_read m (mask_addr ws addr) (Z.to_nat len) with
  | Some bs => (umoven ws pid addr len s).1 = (0, bs)
  | None => (umoven ws pid addr len s).1.1 = -1
  end.
Proof.
  intros Ha Hws Hlen Hw. apply umoven_reads; [done|done| |done].
  by apply mask_addr_range.
Qed.

(** ** The shape of what is read, for any kernel that transfers bytes *)

Lemma bytes_le_u8 n z : Forall is_u8 (bytes_le n z).
Proof.
  revert z. induction n as [|n IH]; intros z; [constructor|].
  change (bytes_le (S n) z) with (z mod 256 :: bytes_le n (z / 256)).
  constructor; [|apply IH]. unfold is_u8. apply Z.mod_pos_bound. lia.
Qed.

Definition shaped (len : Z) (r : Z * list Z) : Prop :=
  0 <= r.1 -> length r.2 = Z.to_nat len /\ Forall is_u8 r.2.

Lemma shaped_chunk len m k val r rest :
  0 <= m <= len -> m + Z.of_nat k <= 8 -> shaped (len - m) (r, rest) ->
  shaped len (r, take (Z.to_nat m) (drop k (bytes_le 8 val)) ++ rest).
Proof.
  intros Hm Hk Hr H0. destruct (Hr H0) as [Hl Hu]. simpl in Hl, Hu |- *.
  rewrite length_app, length_take, length_drop, length_bytes_le, Hl. split; [lia|].
  apply Forall_app. split; [|done]. apply Forall_take, Forall_drop, bytes_le_u8.
Qed.

Lemma umoven_words_shape `{K : Kernel} pid fuel addr len nread s :
  0 <= len < Z.of_nat fuel -> shaped len (umoven_words pid fuel addr len nread s).1.
Proof.
  revert addr len nread s. induction fuel as [|fuel IH]; intros addr len nread s Hlen; [lia|].
  cbn [umoven_words]. destruct (Z.eqb_spec len 0) as [->|Hne]; [by intros _|].
  destruct (peekdata addr) as [val|err].
  2: { unfold mbind, P_bind. destruct (peek_error _ _ _ _ _ _ s). intros H. simpl in H. lia. }
  unfold mbind, P_bind.
  specialize (IH (u64 (addr + 8)) (len - Z.min 8 len) (nread + Z.min 8 len) s ltac:(lia)).
  destruct (umoven_words _ _ _ _ _ s) as [[r rest] s']. simpl in IH |- *.
  apply (shaped_chunk len (Z.min 8 len) 0); [lia|lia|done].
Qed.

Lemma umoven_shape `{K : Kernel} `{!BytesOk} ws pid addr len s :
  0 <= len -> shaped len (umoven ws pid addr len s).1.
Proof.
  intros Hlen. unfold umoven. set (a := mask_addr ws addr).
  assert (Hpeek : forall s', shaped len (umoven_peek pid a len s').1).
  { intros s'. unfold umoven_peek. rewrite land7_mod, align8_div.
    destruct (Z.eqb_spec (a mod 8) 0) as [Ha|Ha]; [apply umoven_words_shape; lia|].
    destruct (peekdata _) as [val|err].
    2: { unfold mbind, P_bind. destruct (peek_error _ _ _ _ _ _ s'). intros Hx. simpl in Hx. lia. }
    set (n := a - 8 * (a / 8)). assert (Hn : 0 < n < 8) by (unfold n; Z.div_mod_to_equations; lia).
    unfold mbind, P_bind. set (x := Z.min (8 - n) len).
    pose proof (umoven_words_shape pid (S (Z.to_nat len)) (u64 (8 * (a / 8) + 8)) (len - x) x s'
                  ltac:(unfold x; lia)) as Hr.
    destruct (umoven_words _ _ _ _ _ s') as [[r rest] s'']. apply shaped_chunk; [unfold x; lia..|done]. }
  unfold mbind at 1, P_bind at 1, get_ns. destruct (readv_not_supported s); [apply Hpeek|].
  destruct (vm_readv a len) as [bs|err] eqn:Hv.
  - destruct (Z.eqb_spec (Z.of_nat (length bs)) len) as [Hl|Hl].
    + intros _. simpl. split; [lia|]. by apply (readv_bytes a len).
    + unfold mbind, P_bind. destruct (error_msg _ s). intros Hx. simpl in Hx. lia.
  - repeat case_match; try apply Hpeek; unfold mbind, P_bind;
      try destruct (error_msg _ s); intros Hx; simpl in Hx; lia.
Qed.

(** The word trick (val - 0x01..01) & ~val & 0x80..80 that umovestr uses to
    look for a NUL is exact: on the eight bytes of a word it is nonzero iff one
    of them is zero, so no borrow ever produces a false positive. *)
Theorem umovestr_nul_test_exact l :
  Forall is_u8 l -> length l = 8%nat -> (nul_test (le l) = true <-> 0 ∈ l).
Proof. intros Hl Hlen. rewrite nul_test_spec by done. apply has_nul_elem. Qed.

Lemma umovestr_nul_test_exact_witness :
  nul_test (le [97; 1; 128; 0; 255; 1; 1; 1]) = true /\ 0 ∈ [97; 1; 128; 0; 255; 1; 1; 1].
Proof.
  assert (H : nul_test (le [97; 1; 128; 0; 255; 1; 1; 1]) = true) by reflexivity.
  split; [exact H|].
  apply (umovestr_nul_test_exact [97; 1; 128; 0; 255; 1; 1; 1]);
    [repeat constructor; vm_compute; congruence|reflexivity|exact H].
Defined.

(** umovestr never loses a string.  When the [len] bytes at the address are
    mapped, the buffer receives a prefix of them (nothing is stored past
    laddr[len-1]), the result is 0 or 1, a NUL among the bytes always gives
    result 1 with the NUL stored, without a NUL among them all [len] bytes are
    stored, and result 0 is only given in that case; this holds for process_vm_readv chunks and for the
    PTRACE_PEEKDATA fallback alike. *)
Theorem umovestr_finds_string `{K : Kernel} m `{!MemOk m} ws pid addr len s bs :
  is_u64 addr -> 0 <= ws -> 0 < len -> mask_addr ws addr + len <= 2 ^ 64 ->
  mem_read m (mask_addr ws addr) (Z.to_nat len) = Some bs ->
  str_ok (umovestr ws pid addr len s).1 bs.
Proof.
  intros Ha Hws Hlen Hw Hr. eapply (umovestr_ok m); try done. by apply mask_addr_range.
Qed.

(** The page used by the witnesses: "abcdefgh..." with a NUL at offset 12. *)
Definition demo_mem : memory := page_mem 4096 (fun i => if i =? 12 then 0 else 97 + i mod 26).
Definition demo_state (ns : bool) : pstate := mk_pstate ns "" [].
#[global] Instance demo_mem_ok vm : @MemOk (mem_kernel vm demo_mem) demo_mem.
Proof.
  apply mem_kernel_ok; [apply page_mem_u8|by apply page_mem_words].
Qed.

Lemma umoven_reads_memory_witness :
  (@umoven (mem_kernel false demo_mem) 8 1 4099 6 (demo_state true)).1
  = (0, [100; 101; 102; 103; 104; 105]).
Proof.
  refine (@umoven_reads_memory (mem_kernel false demo_mem) demo_mem (demo_mem_ok false)
            8 1 4099 6 (demo_state true) _ _ _ _);
    [split; vm_compute; congruence | vm_compute; congruence
    | reflexivity | vm_compute; congruence].
Defined.

Lemma umovestr_finds_string_witness :
  str_ok (@umovestr (mem_kernel true demo_mem) 8 1 4099 20 (demo_state false)).1
    ((fun i => u8 (if i =? 12 then 0 else 97 + i mod 26)) <$> seqZ 3 20).
Proof.
  refine (@umovestr_finds_string (mem_kernel true demo_mem) demo_mem (demo_mem_ok true)
            8 1 4099 20 (demo_state false) _ _ _ _ _ _);
    [split; vm_compute; congruence | vm_compute; congruence | reflexivity
    | vm_compute; congruence | vm_compute; reflexivity].
Defined.

(** In the PTRACE_PEEKDATA fallback umovestr can report a NUL that lies
    beyond the [len] bytes asked for: the word test and the unaligned-head loop
    inspect the whole word.  Here 3 mapped bytes without a NUL are read and the
    result is 1, while process_vm_readv on the same memory gives 0. *)
Theorem umovestr_peek_sees_past_len :
  let K := mem_kernel false demo_mem in
  mem_read demo_mem 4105 3 = Some [106; 107; 108] /\
  (@umovestr K 8 1 4105 3 (demo_state true)).1 = (1, [106; 107; 108]) /\
  (@umovestr (mem_kernel true demo_mem) 8 1 4105 3 (demo_state false)).1 = (0, [106; 107; 108]).
Proof. split_and!; vm_compute; reflexivity. Qed.

(** A string that ends on the last byte of a mapped page. *)
Definition edge_mem : memory := page_mem 4096 (fun i => if i =? 4095 then 0 else 97).

(** The chunks of umovestr are meant not to cross a page ("otherwise we can
    get EFAULT and fail to notice that terminating NUL lies in the existing
    (first) page"), but the chunk length is always computed from the start
    address, which is never advanced: the first chunk stops at the page end, yet
    a later one can cross it.  Here a NUL-terminated string of 384 bytes, mapped
    up to its NUL, is reported as unreadable, although reading it from where
    the second chunk starts succeeds. *)
Theorem umovestr_later_chunk_crosses_page :
  let K := mem_kernel true edge_mem in
  (exists bs, mem_read edge_mem 7808 384 = Some bs /\ 0 ∈ bs) /\
  (@umovestr K 8 1 7808 400 (demo_state false)).1.1 = -1 /\
  (@umovestr K 8 1 8064 144 (demo_state false)).1.1 = 1 /\
  (forall addr len, 0 <= addr -> 0 < len -> addr + 256 < 2 ^ 64 ->
     addr / 4096 = (addr + chunk_len addr len - 1) / 4096).
Proof.
  split_and!.
  - eexists. split; [apply page_mem_read; lia|].
    apply has_nul_elem. vm_compute. reflexivity.
  - vm_compute. reflexivity.
  - vm_compute. reflexivity.
  - intros addr len H0 Hlen Hw. unfold chunk_len. change 4095 with (Z.ones 12).
    rewrite Z.land_ones by lia. change (2 ^ 12) with 4096.
    set (c := if len >? 256 then 256 else len).
    assert (1 <= c <= 256) by (unfold c; destruct (len >? 256) eqn:?; lia).
    rewrite (u64_id (addr + c)) by (unfold is_u64; lia).
    destruct (c - (addr + c) mod 4096 >? 0) eqn:?; Z.div_mod_to_equations; lia.
Qed.
