(* ===== verification/Decode.v ===== *)
(** * The decoder monad and the argument printers (util.c: printllval,
      printnum, printnum_int, printfd, printuid, printpathn, printpath,
      printstr, dump_bytes, dumpstr, dumpiov)

    A system call decoder ([sys_func] of the syscall table) reads the trace
    control block and the options, prints to the trace log, may append to the
    byte dump and may abort (a failed [assert], or running out of memory).  [D]
    is the corresponding reader/state/error monad; [None] is an abort. *)

From S2P Require Import Prelude Xlat Quote Tracee.
Local Open Scope string_scope.
Local Open Scope list_scope.
Local Open Scope Z_scope.

(** The result of a decoder: how to print the return value (defs.h). *)
Definition RVAL_DECIMAL : Z := 0.
Definition RVAL_HEX : Z := 1.
Definition RVAL_OCTAL : Z := 2.
Definition RVAL_UDECIMAL : Z := 3.
Definition RVAL_MASK : Z := 7.
Definition RVAL_STR : Z := 8.
Definition RVAL_NONE : Z := 16.

(** Interrupted calls: the errors the kernel keeps to itself. *)
Definition ERESTARTSYS : Z := 512.
Definition ERESTARTNOINTR : Z := 513.
Definition ERESTARTNOHAND : Z := 514.
Definition ERESTART_RESTARTBLOCK : Z := 516.
Definition is_restart_error (u_error : Z) : bool :=
  existsb (Z.eqb u_error) [ERESTARTSYS; ERESTARTNOINTR; ERESTARTNOHAND; ERESTART_RESTARTBLOCK].

(** What a decoder reads: fields of struct tcb (defs.h), the global options and
    the environment.  Longs are kept as unsigned 64-bit images in [u_arg]. *)
Record denv := mk_denv {
  d_pid : Z;
  wordsize : Z;               (* current_wordsize *)
  d_pers : nat;               (* current_personality *)
  u_arg : list Z;
  d_entering : bool;          (* entering(tcp) *)
  d_error : Z;                (* tcp->u_error *)
  d_rval : Z;                 (* tcp->u_rval, signed *)
  d_verbose : bool;           (* verbose(tcp) *)
  d_abbrev : bool;            (* abbrev(tcp) *)
  xflag : Z;
  max_strlen : Z;
  show_fd_path : bool;        (* -y *)
  fdlink : Z -> option string; (* readlink of /proc/pid/fd/N *)
  junk : nat -> Z;            (* contents of buffers before they are filled *)
  d_nargs : Z                 (* tcp->s_ent->nargs *)
}.

(** getfdpath(tcp, fd, ..) (pathtrace.c) *)
Definition getfdpath (e : denv) (fd : Z) : option string :=
  if fd <? 0 then None else fdlink e fd.
Definition fdpath (e : denv) (fd : Z) : option string :=
  if show_fd_path e then getfdpath e fd else None.

(** What a decoder changes. *)
Record dstate := mk_dstate {
  d_p : pstate;               (* log text, stderr, process_vm_readv flag *)
  d_dump : list Z;            (* bytes written to tcp->out_dump_f *)
  d_strbuf : bool;            (* printstr's static buffers are allocated *)
  d_auxstr : option string;   (* tcp->auxstr *)
  d_cache_dropped : bool;     (* delete_mmap_cache(tcp) was called *)
  d_new_rval : option Z       (* what tcp->u_rval was set to *)
}.

Definition D (A : Type) : Type := denv -> dstate -> option (A * dstate).
#[global] Instance D_ret : MRet D := fun A x e s => Some (x, s).
#[global] Instance D_bind : MBind D := fun A B k c e s =>
  match c e s with
  | Some (x, s) => k x e s
  | None => None
  end.

Definition ask : D denv := fun e s => Some (e, s).
Definition abort {A} : D A := fun _ _ => None.
Definition lift {A} (c : P A) : D A := fun e s =>
  let '(x, p) := c (d_p s) in
  Some (x, mk_dstate p (d_dump s) (d_strbuf s) (d_auxstr s) (d_cache_dropped s)
              (d_new_rval s)).
Definition tp (t : string) : D unit := lift (tprints t).
Definition put_dump (bs : list Z) : D unit := fun e s =>
  Some (tt, mk_dstate (d_p s) (d_dump s ++ bs) (d_strbuf s) (d_auxstr s) (d_cache_dropped s)
              (d_new_rval s)).
Definition put_auxstr (a : option string) : D unit := fun e s =>
  Some (tt, mk_dstate (d_p s) (d_dump s) (d_strbuf s) a (d_cache_dropped s) (d_new_rval s)).
Definition get_auxstr : D (option string) := fun e s => Some (d_auxstr s, s).
Definition drop_cache : D unit := fun e s =>
  Some (tt, mk_dstate (d_p s) (d_dump s) (d_strbuf s) (d_auxstr s) true (d_new_rval s)).
Definition put_rval (v : Z) : D unit := fun e s =>
  Some (tt, mk_dstate (d_p s) (d_dump s) (d_strbuf s) (d_auxstr s) (d_cache_dropped s) (Some v)).
Definition get_strbuf : D bool := fun e s => Some (d_strbuf s, s).
Definition put_strbuf : D unit := fun e s =>
  Some (tt, mk_dstate (d_p s) (d_dump s) true (d_auxstr s) (d_cache_dropped s)
              (d_new_rval s)).

(** tcp->u_arg[i]; the C array has MAX_ARGS slots. *)
Definition arg (i : nat) : D Z := fun e s => Some (default 0 (u_arg e !! i), s).

Section printers.
Context `{K : Kernel}.

Definition d_umoven (addr len : Z) : D (Z * list Z) :=
  e ← ask; lift (umoven (wordsize e) (d_pid e) addr len).
Definition d_umovestr (addr len : Z) : D (Z * list Z) :=
  e ← ask; lift (umovestr (wordsize e) (d_pid e) addr len).

(** umove(tcp, addr, objp) of an unsigned object of [n] bytes: the value, or
    [None] when the read fails. *)
Definition umove (addr : Z) (n : nat) : D (option Z) :=
  '(r, bs) ← d_umoven addr (Z.of_nat n);
  mret (if r <? 0 then None else Some (le bs)).

Definition hexl (z : Z) : string := fmt_sx (u64 z).       (* %#lx *)

Definition print_flags (t : list xlat) (flags : Z) (dflt : string) : D unit :=
  match printflags t (s32 flags) (Some dflt) with
  | Some (txt, _) => tp txt
  | None => abort
  end.

(** printllval for x86_64 (three personalities): [fmt] is the format applied
    to one 64-bit value; returns the index of the next argument. *)
Definition printllval (fmt : Z -> string) (arg_no : nat) : D nat :=
  e ← ask;
  if wordsize e >? 4 then
    v ← arg arg_no; _ ← tp (fmt v); mret (arg_no + 1)%nat
  else
    lo ← arg arg_no; hi ← arg (arg_no + 1);
    (* LONG_LONG(a,b), little endian *)
    _ ← tp (fmt (Z.lor (u32 lo) (u64 (Z.shiftl hi 32)))); mret (arg_no + 2)%nat.

(** [n] is the size of the object read: long for printnum, int for
    printnum_int. *)
Definition printnum_n (n : nat) (addr : Z) (fmt : Z -> string) : D unit :=
  if addr =? 0 then tp "NULL"
  else
    v ← umove addr n;
    match v with
    | None => tp (hexl addr)
    | Some num => _ ← tp "["; _ ← tp (fmt num); tp "]"
    end.
Definition printnum := printnum_n 8.
Definition printnum_int := printnum_n 4.

Definition printfd (fd : Z) : D unit :=
  e ← ask;
  match fdpath e (s32 fd) with
  | Some path => tp (fmt_d (s32 fd) +:+ "<" +:+ path +:+ ">")
  | None => tp (fmt_d (s32 fd))
  end.

Definition printuid (text : string) (uid : Z) : D unit :=
  if uid =? u64 (-1) then tp (text +:+ fmt_d (s64 uid)) else tp (text +:+ fmt_u uid).

(** A local buffer of [n] bytes whose first bytes are [buf]. *)
Definition pad_buf (junk : nat -> Z) (n : nat) (buf : list Z) : list Z :=
  buf ++ (junk <$> seq (length buf) (n - length buf)).

Definition MAXPATHLEN : Z := 4096.

Definition printpathn (addr n : Z) : D unit :=
  if addr =? 0 then tp "NULL"
  else
    let n := if u64 n >? MAXPATHLEN then MAXPATHLEN else n in
    e ← ask;
    '(nul_seen, buf) ← d_umovestr addr (n + 1);
    if nul_seen <? 0 then tp (hexl addr)
    else
      let path := <[Z.to_nat n := 0]> (pad_buf (junk e) (Z.to_nat (MAXPATHLEN + 1)) buf) in
      match string_quote (xflag e) path (-1) (n + 1) with
      | None => abort
      | Some (outstr, _) =>
          _ ← tp outstr;
          if nul_seen =? 0 then tp "..." else mret tt
      end.

Definition printpath (addr : Z) : D unit := printpathn addr MAXPATHLEN.

(** unsigned int outstr_size = 4 * max_strlen + 3; the overflow check *)
Definition outstr_size (max_strlen : Z) : Z := u32 (4 * max_strlen + 3).
Definition outstr_size_ok (max_strlen : Z) : bool := outstr_size max_strlen / 4 =? max_strlen.

Definition alloc_strbuf : D unit :=
  allocated ← get_strbuf;
  if allocated : bool then mret tt
  else
    e ← ask;
    if outstr_size_ok (max_strlen e) then put_strbuf else abort.

(** The quoting half of printstr. *)
Definition printstr_quote (len size : Z) (buf : list Z) : D unit :=
  e ← ask;
  match string_quote (xflag e)
          (pad_buf (junk e) (Z.to_nat (max_strlen e + 1)) buf) len size with
  | None => abort
  | Some (outstr, r) =>
      let ellipsis := negb (r =? 0) && ((len <? 0) || (len >? max_strlen e)) in
      _ ← tp outstr;
      if ellipsis then tp "..." else mret tt
  end.

Definition printstr (addr len : Z) : D unit :=
  if addr =? 0 then tp "NULL"
  else
    _ ← alloc_strbuf;
    e ← ask;
    if len =? -1 then
      let size := s32 (max_strlen e + 1) in
      '(r, buf) ← d_umovestr addr size;
      if r <? 0 then tp (hexl addr) else printstr_quote len size buf
    else
      let size := s32 (max_strlen e) in
      let size := if u64 size >? u64 len then s32 (u64 len) else size in
      '(r, buf) ← d_umoven addr size;
      if r <? 0 then tp (hexl addr) else printstr_quote len size buf.

(** dump_bytes(tcp, addr, len): [umoven] takes an [int], tdump writes the whole
    [long]; what lies past the bytes read is what malloc returned.  A negative
    length aborts (malloc fails; for -1 the read fails with EINVAL).  A short
    write aborts in tdump; the write is taken to succeed. *)
Definition dump_bytes (addr len : Z) : D unit :=
  let len := s64 len in
  if len <? 0 then abort
  else
    '(r, bs) ← d_umoven addr (s32 len);
    if r <? 0 then abort
    else e ← ask; put_dump (pad_buf (junk e) (Z.to_nat len) bs).

(** ** printargs, printargs_lu and printargs_ld (syscall.c) of a call with [n]
    arguments *)

(** for (i = 0; i < n; i++) tprintf("%s%...", i ? ", " : "", tcp->u_arg[i]) *)
Fixpoint args_text (fmt : Z -> string) (first : bool) (args : list Z) : string :=
  match args with
  | [] => ""
  | a :: args => (if first then "" else ", ") +:+ fmt a +:+ args_text fmt false args
  end.
Definition printargs_fmt (fmt : Z -> string) (n : Z) : D Z :=
  e ← ask;
  _ ← (if d_entering e then tp (args_text fmt true (take (Z.to_nat n) (u_arg e))) else mret tt);
  mret 0.
Definition printargs (n : Z) : D Z := printargs_fmt hexl n.
Definition printargs_lu (n : Z) : D Z := printargs_fmt fmt_u n.
Definition printargs_ld (n : Z) : D Z := printargs_fmt (fun a => fmt_d (s64 a)) n.

(** ** Hex dumps (-e read=, -e write=) *)

Definition hex2 (b : Z) : string :=
  String (digit_char (Z.shiftr b 4)) (String (digit_char (Z.land b 15)) EmptyString).

(** The hex half of a line: [i] counts from the line's offset; [n] positions
    are left; bytes past [len] are blank. *)
Fixpoint dump_hex (n : nat) (i len : Z) (src : list Z) : string :=
  match n with
  | O => ""
  | S n =>
      (if i <? len then hex2 (default 32 (head src)) else "  ") +:+ " " +:+
      (if Z.land (i + 1) 7 =? 0 then " " else "") +:+
      dump_hex n (i + 1) len (tail src)
  end.

Fixpoint dump_ascii (n : nat) (src : list Z) : string :=
  match n with
  | O => ""
  | S n =>
      let c := default 32 (head src) in
      String (if (c >=? 32) && (c <? 127) then chr c else "."%char)
             (dump_ascii n (tail src))
  end.

Definition dump_line (i len : Z) (src : list Z) : string :=
  dump_hex 16 i len src +:+ dump_ascii 16 src.

(** The loop over the lines; [src] is the data from offset [i] on, padded with
    spaces to a multiple of 16. *)
Fixpoint dump_lines (fuel : nat) (i len : Z) (src : list Z) : string :=
  match fuel with
  | O => ""
  | S fuel =>
      if i <? len then
        " | " +:+ pad_left 5 "0" (fmt_x i) +:+ "  " +:+ dump_line i len src +:+ " |" +:+
        String "010" (dump_lines fuel (i + 16) len (drop 16 src))
      else ""
  end.

Definition dumpstr (addr len : Z) : D unit :=
  let len := s32 len in
  '(r, bs) ← d_umoven addr len;
  if r <? 0 then mret tt
  else tp (dump_lines (Z.to_nat len) 0 len bs).

(** One iovec as the tracee lays it out: base and length words of the
    personality's word size. *)
Definition sizeof_iov (ws : Z) : Z := if ws =? 4 then 8 else 16.
Definition iov_base (ws : Z) (bs : list Z) : Z :=
  if ws =? 4 then le (take 4 bs) else le (take 8 bs).
Definition iov_len (ws : Z) (bs : list Z) : Z :=
  if ws =? 4 then le (take 4 (drop 4 bs)) else le (take 8 (drop 8 bs)).

Fixpoint dumpiov_loop (n : nat) (i : Z) (bs : list Z) : D unit :=
  match n with
  | O => mret tt
  | S n =>
      e ← ask;
      let ws := wordsize e in
      _ ← tp (" * " +:+ fmt_u (iov_len ws bs) +:+ " bytes in buffer " +:+ fmt_d i +:+
              String "010" EmptyString);
      _ ← dumpstr (iov_base ws bs) (iov_len ws bs);
      dumpiov_loop n (i + 1) (drop (Z.to_nat (sizeof_iov ws)) bs)
  end.

Definition dumpiov (len addr : Z) : D unit :=
  let len := s32 len in
  e ← ask;
  let size := u32 (sizeof_iov (wordsize e) * len) in
  if u32 len >? 1024 * 1024 then
    lift (error_msg "Out of memory")
  else
    '(r, bs) ← d_umoven addr (s32 size);
    if r >=? 0 then dumpiov_loop (Z.to_nat len) 0 bs else mret tt.
End printers.

(** ** Specifications of decoders *)

(** [Does e c x t bs]: from every state, [c] returns [x], prints [t] and dumps
    [bs]; it leaves tcp->u_rval alone. *)
Definition Does {A} (e : denv) (c : D A) (x : A) (t : string) (bs : list Z) : Prop :=
  forall s, exists s',
    c e s = Some (x, s') /\
    p_out (d_p s') = p_out (d_p s) +:+ t /\ d_dump s' = d_dump s ++ bs /\
    d_new_rval s' = d_new_rval s.

Lemma Does_ret {A} e (x : A) : Does e (mret x) x "" [].
Proof. intros s. exists s. by rewrite sapp_nil_r, app_nil_r. Qed.

Lemma Does_bind {A B} e (c : D A) (k : A -> D B) x y t1 t2 b1 b2 :
  Does e c x t1 b1 -> Does e (k x) y t2 b2 ->
  Does e (c ≫= k) y (t1 +:+ t2) (b1 ++ b2).
Proof.
  intros Hc Hk s. destruct (Hc s) as (s1 & H1 & Ho1 & Hd1 & Hr1).
  destruct (Hk s1) as (s2 & H2 & Ho2 & Hd2 & Hr2). exists s2.
  unfold mbind, D_bind. rewrite H1, H2, Ho2, Ho1, Hd2, Hd1, Hr2.
  by rewrite sapp_assoc, app_assoc.
Qed.

Lemma Does_eq {A} e (c : D A) x t t' bs bs' :
  Does e c x t bs -> t = t' -> bs = bs' -> Does e c x t' bs'.
Proof. by intros H -> ->. Qed.

(** A step that prints and dumps nothing. *)
Lemma Does_silent {A B} e (c : D A) (k : A -> D B) x y t bs :
  Does e c x "" [] -> Does e (k x) y t bs -> Does e (c ≫= k) y t bs.
Proof. intros Hc Hk. eapply Does_eq; [by eapply Does_bind| |]; done. Qed.

Lemma Does_tp e t : Does e (tp t) tt t [].
Proof. intros s. eexists. split; [done|]. by rewrite app_nil_r. Qed.
Lemma Does_ask e : Does e ask e "" [].
Proof. intros s. exists s. by rewrite sapp_nil_r, app_nil_r. Qed.
Lemma Does_arg e i : Does e (arg i) (default 0 (u_arg e !! i)) "" [].
Proof. intros s. exists s. by rewrite sapp_nil_r, app_nil_r. Qed.
Lemma Does_put_dump e bs : Does e (put_dump bs) tt "" bs.
Proof. intros s. eexists. split; [done|]. by rewrite sapp_nil_r. Qed.

Lemma Does_lift {A} e (c : P A) x :
  quiet c -> (forall s, (c s).1 = x) -> Does e (lift c) x "" [].
Proof.
  intros Hq Hx s. unfold lift. specialize (Hq (d_p s)). specialize (Hx (d_p s)).
  destruct (c (d_p s)) as [y p]. simpl in *. subst y. eexists. split; [done|].
  simpl. by rewrite Hq, sapp_nil_r, app_nil_r.
Qed.

(** Print a text and go on. *)
Lemma Does_tp_bind {B} e t (k : unit -> D B) y t2 bs :
  Does e (k tt) y t2 bs -> Does e (tp t ≫= k) y (t +:+ t2) bs.
Proof. intros Hk. eapply Does_eq; [eapply Does_bind; [apply Does_tp|done]| |]; done. Qed.

Create HintDb does.
#[export] Hint Resolve Does_ret Does_tp Does_ask Does_arg Does_put_dump : does.

Definition fd_text (e : denv) (fd : Z) : string :=
  match fdpath e (s32 fd) with
  | Some path => fmt_d (s32 fd) +:+ "<" +:+ path +:+ ">"
  | None => fmt_d (s32 fd)
  end.

Lemma Does_printfd e fd : Does e (printfd fd) tt (fd_text e fd) [].
Proof.
  eapply Does_silent; [apply Does_ask|]. unfold fd_text.
  destruct (fdpath e (s32 fd)); apply Does_tp.
Qed.
#[export] Hint Resolve Does_printfd : does.

Lemma length_pad_buf j n buf : (length buf <= n)%nat -> length (pad_buf j n buf) = n.
Proof. intros H. unfold pad_buf. rewrite length_app, length_fmap, length_seq. lia. Qed.

Lemma pad_buf_u8 j n buf :
  (forall i, is_u8 (j i)) -> Forall is_u8 buf -> Forall is_u8 (pad_buf j n buf).
Proof.
  intros Hj Hb. apply Forall_app. split; [done|]. apply Forall_fmap, Forall_forall.
  intros i _. apply Hj.
Qed.

Lemma outstr_size_ok_iff n :
  is_u32 n -> (outstr_size_ok n = true <-> 4 * n + 3 < 2 ^ 32).
Proof. unfold outstr_size_ok, outstr_size. rewrite Z.eqb_eq. wrap_lia. Qed.

(** ** Buffers in the tracee *)

(** The end of the address space of a tracee with word size [ws]. *)
Definition addr_lim (ws : Z) : Z := if ws <? 8 then 2 ^ (8 * ws) else 2 ^ 64.

(** The bytes [l] are mapped at [a] (so is [a] itself when [l] is empty). *)
Definition buf_at (m : memory) (ws a : Z) (l : list Z) : Prop :=
  0 < a < addr_lim ws /\ a + Z.of_nat (length l) <= addr_lim ws /\ Z.of_nat (length l) < 2 ^ 31 /\
  is_Some (m a) /\ mem_read m a (length l) = Some l.

Lemma addr_lim_le ws : 0 <= ws -> addr_lim ws <= 2 ^ 64.
Proof.
  intros Hws. unfold addr_lim. destruct (Z.ltb_spec ws 8); [|done].
  apply Z.pow_le_mono_r; lia.
Qed.

Lemma mask_addr_id ws a : 0 <= ws -> 0 <= a < addr_lim ws -> mask_addr ws a = a.
Proof.
  intros Hws Ha. unfold mask_addr, addr_lim in *. destruct (ws <? 8); [|done].
  rewrite Z.sub_1_r, <- Z.ones_equiv, Z.land_ones by lia. by apply Z.mod_small.
Qed.

Lemma mem_read_take m a l k :
  mem_read m a (length l) = Some l -> mem_read m a (length (take k l)) = Some (take k l).
Proof.
  revert a k. induction l as [|b l IH]; intros a [|k] H; try done. simpl in *.
  destruct (m a); [|done]. destruct (mem_read m (a + 1) (length l)) eqn:Hr; [|done].
  simplify_eq. by rewrite IH.
Qed.

Lemma buf_at_take m ws a l k : buf_at m ws a l -> buf_at m ws a (take k l).
Proof.
  intros (H0 & Hl & H31 & Hm & Hr). unfold buf_at. apply (mem_read_take _ _ _ k) in Hr.
  rewrite Hr, length_take. split_and!; try done; lia.
Qed.

Section printers_ok.
Context `{K : Kernel} (m : memory) `{!MemOk m}.
Context (e : denv).
Context (Hws : 0 < wordsize e) (Hjunk : forall i, is_u8 (junk e i)).

Abbreviation at_ := (buf_at m (wordsize e)).

Lemma umoven_empty ws pid a s :
  is_Some (m (mask_addr ws a)) -> (umoven ws pid a 0 s).1 = (0, []).
Proof.
  intros [b Hb]. unfold umoven. set (x := mask_addr ws a) in *.
  assert (Hpeek : forall s', (umoven_peek pid x 0 s').1 = (0, [])).
  { intros s'. unfold umoven_peek. destruct (Z.land x 7 =? 0); [done|].
    destruct (mem_words _ _ Hb) as [bs Hbs]. rewrite align8_div, (peek_mapped _ _ Hbs).
    replace (Z.min _ 0) with 0; [done|]. Z.div_mod_to_equations. lia. }
  unfold mbind at 1, P_bind at 1, get_ns. destruct (readv_not_supported s); [done|].
  destruct (readv_mapped x 0 [] eq_refl) as [Hv|Hv]; change (Z.of_nat 0) with 0 in Hv; rewrite Hv; [done|].
  apply Hpeek.
Qed.

Lemma Does_umoven a l : at_ a l -> Does e (d_umoven a (Z.of_nat (length l))) (0, l) "" [].
Proof.
  intros (H0 & Hl & H31 & Hm & Hr). eapply Does_silent; [apply Does_ask|].
  apply Does_lift; [apply quiet_umoven|]. intros s.
  pose proof (addr_lim_le (wordsize e) ltac:(lia)) as Hlim.
  assert (Hid : mask_addr (wordsize e) a = a) by (apply mask_addr_id; lia).
  destruct l as [|b l]; [apply umoven_empty; by rewrite Hid|].
  pose proof (umoven_reads m (wordsize e) (d_pid e) a (Z.of_nat (length (b :: l))) s) as H.
  rewrite Hid, Nat2Z.id, Hr in H. apply H; simpl in *; lia.
Qed.

Lemma Does_alloc_strbuf :
  outstr_size_ok (max_strlen e) = true -> Does e alloc_strbuf tt "" [].
Proof.
  intros Hok s. unfold alloc_strbuf, mbind, D_bind, get_strbuf, ask.
  destruct (d_strbuf s); [apply (Does_ret e tt s)|]. rewrite Hok.
  eexists. split; [done|]. by rewrite sapp_nil_r, app_nil_r.
Qed.

(** A counted string: the literal shows the first min(len, max_strlen) bytes
    and "..." says that there are more. *)
Lemma Does_printstr a l :
  at_ a l -> 0 <= max_strlen e -> 4 * max_strlen e + 3 < 2 ^ 32 ->
  exists lit,
    unquote lit = Some (take (Z.to_nat (max_strlen e)) l) /\
    slen lit + 1 <= outstr_size (max_strlen e) /\
    Does e (printstr a (Z.of_nat (length l))) tt
      (lit +:+ if Z.of_nat (length l) >? max_strlen e then "..." else "") [].
Proof.
  intros Hat Hmax Hsz. set (len := Z.of_nat (length l)).
  set (bs := take (Z.to_nat (max_strlen e)) l).
  assert (Hbl : Z.of_nat (length bs) = Z.min len (max_strlen e))
    by (unfold bs, len; rewrite length_take; lia).
  pose proof (buf_at_take _ _ _ _ (Z.to_nat (max_strlen e)) Hat) as Hbs. fold bs in Hbs.
  destruct Hat as (H0 & _ & H31 & _). fold len in H31.
  pose proof Hbs as (_ & _ & _ & _ & Hb8). apply (mem_read_bytes m) in Hb8.
  set (buf := pad_buf (junk e) (Z.to_nat (max_strlen e + 1)) bs).
  assert (Hbuf : length buf = Z.to_nat (max_strlen e + 1)) by (apply length_pad_buf; lia).
  set (n := Z.min len (max_strlen e)) in *.
  destruct (string_quote_spec (xflag e) buf len n) as (lit & r & Hq & Hu & Hl & Hr0 & Hr01);
    [by apply pad_buf_u8|lia|lia|].
  assert (Hr1 : r = 1) by (destruct Hr01 as [->|]; [|done]; exfalso; apply proj1 in Hr0; lia).
  exists lit. split_and!.
  - rewrite Hu. unfold payload. replace (len =? -1) with false by lia.
    f_equal. unfold buf, pad_buf. by rewrite take_app_length' by lia.
  - replace (len =? -1) with false in Hl by lia. unfold outstr_size. rewrite u32_id by wrap_lia.
    lia.
  - unfold printstr. replace (a =? 0) with false by lia.
    eapply Does_silent; [apply Does_alloc_strbuf, outstr_size_ok_iff; wrap_lia|].
    eapply Does_silent; [apply Does_ask|]. replace (len =? -1) with false by lia.
    replace (if _ >? _ then _ else _) with (Z.of_nat (length bs))
      by (destruct (_ >? _) eqn:?; wrap_lia).
    eapply Does_silent; [by apply Does_umoven|].
    simpl. eapply Does_silent; [apply Does_ask|]. fold buf. rewrite Hbl, Hq, Hr1.
    apply Does_tp_bind. replace (len <? 0) with false by lia. cbn [negb orb andb Z.eqb].
    destruct (len >? max_strlen e); auto with does.
Qed.

(** Writing the terminator at [n] and the rest of the buffer do not matter for
    the string up to its NUL. *)
Lemma until_path (bs buf : list Z) (n : nat) j size :
  buf `prefix_of` bs -> length bs = S n -> (0 ∉ bs -> buf = bs) -> (0 ∈ bs -> 0 ∈ buf) ->
  until 0 (take n (<[n := 0]> (pad_buf j size buf))) = until 0 (take n bs).
Proof.
  intros [t ->] Hlen Hfull Hnul. rewrite take_insert_ge by done. unfold pad_buf.
  assert (Hcut : forall r1 r2, 0 ∈ buf -> until 0 (buf ++ r1) = until 0 (buf ++ r2)).
  { intros r1 r2. clear. induction buf as [|c buf IH]; [by intros ?%not_elem_of_nil|].
    simpl. destruct (Z.eqb_spec c 0); [done|]. rewrite elem_of_cons.
    intros [?|?]; [congruence|]. by rewrite IH. }
  destruct (decide (length buf <= n)%nat) as [Hle|Hgt].
  - rewrite !take_app_ge by done. apply Hcut. destruct (decide (0 ∈ buf ++ t)); [auto|].
    exfalso. apply (f_equal length) in Hfull; [|done]. lia.
  - by rewrite !take_app_le by lia.
Qed.

Lemma d_umovestr_ok a bs s :
  at_ a bs -> bs <> [] ->
  exists res s', d_umovestr a (Z.of_nat (length bs)) e s = Some (res, s') /\ str_ok res bs /\
    p_out (d_p s') = p_out (d_p s) /\ d_dump s' = d_dump s.
Proof.
  intros (H0 & Hl & H31 & Hm & Hr) Hne. unfold d_umovestr, mbind, D_bind, ask, lift.
  pose proof (addr_lim_le (wordsize e) ltac:(lia)) as Hlim.
  pose proof (umovestr_ok m (wordsize e) (d_pid e) a (Z.of_nat (length bs)) (d_p s) bs) as H.
  rewrite mask_addr_id, Nat2Z.id in H by lia.
  pose proof (quiet_umovestr (wordsize e) (d_pid e) a (Z.of_nat (length bs)) (d_p s)) as Hq.
  destruct (umovestr _ _ _ _ _) as [x p]. simpl in *.
  eexists _, _. split; [done|]. simpl. split_and!; [|done|done].
  apply H; [destruct bs; [done|simpl; lia]|lia|lia|done].
Qed.

(** A path: the literal shows it up to its NUL, at most [n] bytes, whatever the
    stack buffer contained before; "..." only appears without a NUL among the
    first [n + 1] bytes. *)
Lemma printpathn_ok a n bs s :
  at_ a bs -> Z.of_nat (length bs) = n + 1 -> 0 <= n <= MAXPATHLEN ->
  exists lit dots s',
    printpathn a n e s = Some (tt, s') /\
    p_out (d_p s') = p_out (d_p s) +:+ lit +:+ dots /\ d_dump s' = d_dump s /\
    unquote lit = Some (until 0 (take (Z.to_nat n) bs)) /\
    slen lit + 1 <= 4 * (n + 1) /\
    (0 ∈ bs -> dots = "") /\ (dots = "" \/ dots = "...").
Proof.
  intros Hat Hbl Hn. unfold MAXPATHLEN in *.
  destruct (d_umovestr_ok a bs s Hat)
    as ([r buf] & s1 & H1 & [Hp Hr01 Hz Hfull Hnul] & Ho & Hd); [by intros ->; simpl in *; lia|].
  simpl in *. rewrite Hbl in H1. destruct Hat as (H0 & _ & _ & _ & Hb8).
  apply (mem_read_bytes m) in Hb8.
  set (path := <[Z.to_nat n := 0]> (pad_buf (junk e) (Z.to_nat (4096 + 1)) buf)).
  assert (Hbufl : (length buf <= length bs)%nat) by (by apply prefix_length).
  assert (Hpl : length path = 4097%nat)
    by (unfold path; rewrite length_insert, length_pad_buf; lia).
  assert (Hpu : Forall is_u8 path).
  { apply Forall_insert; [|unfold is_u8; lia]. apply pad_buf_u8; [done|].
    destruct Hp as [t ->]. by apply Forall_app in Hb8 as [? _]. }
  destruct (string_quote_spec (xflag e) path (-1) (n + 1)) as (lit & q & Hq & Hu & Hl & _);
    [done|lia|lia|].
  assert (Hrun : printpathn a n e s =
            (_ ← tp lit; if r =? 0 then tp "..." else mret tt) e s1).
  { unfold printpathn, MAXPATHLEN. replace (a =? 0) with false by lia.
    replace (u64 n >? 4096) with false by wrap_lia.
    unfold mbind at 1 2, D_bind, ask. rewrite H1. replace (r <? 0) with false by lia.
    fold path. by rewrite Hq. }
  assert (Hlit : unquote lit = Some (until 0 (take (Z.to_nat n) bs))).
  { rewrite Hu. unfold payload. simpl Z.eqb. cbn iota.
    replace (n + 1 - 1) with n by lia. f_equal.
    apply until_path; [done|lia|done|]. intros Hin. by apply Hnul. }
  change (-1 =? -1) with true in Hl. cbn iota in Hl.
  destruct (Z.eqb_spec r 0) as [->|Hr0].
  - exists lit, "...". rewrite Hrun. eexists. split_and!; [done| |done|done|lia| |by right].
    + simpl. rewrite Ho. by rewrite sapp_assoc.
    + intros Hin. by apply Hz in Hin.
  - exists lit, "". rewrite Hrun. eexists. split_and!; [done| |done|done|lia|done|by left].
    simpl. by rewrite Ho, sapp_nil_r.
Qed.

(** The dump gets exactly the bytes of the buffer. *)
Lemma Does_dump_bytes a l :
  at_ a l -> Does e (dump_bytes a (Z.of_nat (length l))) tt "" l.
Proof.
  intros Hat. pose proof Hat as (_ & _ & H31 & _). unfold dump_bytes.
  rewrite s64_id, s32_id by wrap_lia. replace (_ <? 0) with false by lia.
  eapply Does_silent; [by apply Does_umoven|]. simpl.
  eapply Does_silent; [apply Does_ask|]. rewrite Nat2Z.id.
  replace (pad_buf _ _ l) with l; [auto with does|].
  unfold pad_buf. by rewrite Nat.sub_diag, app_nil_r.
Qed.
End printers_ok.

(** ** Properties *)

(** Printpathn shows the tracee's path.  For a readable NUL-terminated
    string of at most [n] bytes (and for the first [n] bytes of a longer one) the
    text is a literal that decodes to exactly the bytes before the NUL, and fits
    the 4 * (n + 1) byte buffer; a path that ends within the [n + 1] bytes
    examined is never followed by "...", whatever the stack buffer held before
    and whichever way the memory was read. *)
Theorem printpathn_shows_path `{K : Kernel} m `{!MemOk m} e a n bs s :
  0 < wordsize e -> (forall i, is_u8 (junk e i)) ->
  buf_at m (wordsize e) a bs -> Z.of_nat (length bs) = n + 1 -> 0 <= n <= MAXPATHLEN ->
  exists lit dots s',
    printpathn a n e s = Some (tt, s') /\
    p_out (d_p s') = p_out (d_p s) +:+ lit +:+ dots /\ d_dump s' = d_dump s /\
    unquote lit = Some (until 0 (take (Z.to_nat n) bs)) /\
    slen lit + 1 <= 4 * (n + 1) /\
    (0 ∈ bs -> dots = "") /\ (dots = "" \/ dots = "...").
Proof. intros. by apply (printpathn_ok m). Qed.

Lemma printpathn_shows_path_witness :
  let K := mem_kernel true demo_mem in
  let e := mk_denv 7 8 0 [] true 0 0 true true 0 32 false (fun _ => None) (fun _ => 0) 6 in
  exists lit s',
    @printpathn K 4105 5 e (mk_dstate (demo_state false) [] false None false None) = Some (tt, s') /\
    p_out (d_p s') = lit +:+ "" /\ unquote lit = Some [106; 107; 108].
Proof.
  intros K e.
  destruct (@printpathn_shows_path K demo_mem (demo_mem_ok true) e 4105 5
              [106; 107; 108; 0; 110; 111] (mk_dstate (demo_state false) [] false None false None))
    as (lit & dots & s' & Hrun & Ho & _ & Hu & _ & Hd & _).
  - reflexivity.
  - intros i. vm_compute. split; congruence.
  - split_and!; try (vm_compute; congruence). eexists. vm_compute. reflexivity.
  - reflexivity.
  - vm_compute. split; congruence.
  - exists lit, s'. split; [exact Hrun|]. rewrite Hd in Ho; [split; [exact Ho|exact Hu]|].
    apply (bool_decide_unpack (0 ∈ [106; 107; 108; 0; 110; 111])). vm_compute. exact I.
Defined.
