(* ===== verification/Io.v ===== *)
(** * Decoders of the I/O system calls (io.c)

    Every decoder is an element of the monad [D]; the integer is the C result.
    ALICE's additions to strace are here: write, pwrite, writev and pwritev also
    copy the data the tracee writes to the byte dump, from which the crash
    states are later rebuilt, and the vectored calls print the number of bytes
    dumped after their arguments. *)

From S2P Require Import Prelude Xlat Quote Tracee Decode.
Local Open Scope string_scope.
Local Open Scope list_scope.
Local Open Scope Z_scope.

Section io.
Context `{K : Kernel}.

Definition syserror (e : denv) : bool := negb (d_error e =? 0).

Definition sys_read : D Z :=
  e ← ask;
  if d_entering e then
    a0 ← arg 0; _ ← printfd a0; _ ← tp ", "; mret 0
  else
    a1 ← arg 1; a2 ← arg 2;
    _ ← (if syserror e then tp (hexl a1) else printstr a1 (d_rval e));
    _ ← tp (", " +:+ fmt_u a2);
    mret 0.

Definition sys_write : D Z :=
  e ← ask;
  if d_entering e then
    a0 ← arg 0; a1 ← arg 1; a2 ← arg 2;
    _ ← printfd a0;
    _ ← tp ", ";
    _ ← printstr a1 (s64 a2);
    _ ← dump_bytes a1 a2;
    _ ← tp (", " +:+ fmt_u a2);
    mret 0
  else mret 0.

(** The loop of tprint_iov_upto; the result is [failed].  At most [fuel]
    iterations; the caller gives the number of elements. *)
Fixpoint tprint_iov_loop (fuel : nat) (addr abbrev_end fin : Z) (decode_iov : bool)
    (cur data_size : Z) : D bool :=
  match fuel with
  | O => mret false
  | S fuel =>
      if cur <? fin then
        _ ← (if cur >? addr then tp ", " else mret tt);
        if cur >=? abbrev_end then _ ← tp "..."; mret false
        else
          e ← ask;
          let ws := wordsize e in
          '(r, iov) ← d_umoven cur (sizeof_iov ws);
          if r <? 0 then _ ← tp "?"; mret true
          else
            _ ← tp "{";
            data_size ←
              (if decode_iov then
                 let len := if iov_len ws iov >? data_size then data_size else iov_len ws iov in
                 _ ← printstr (iov_base ws iov) (s64 len);
                 mret (data_size - len)
               else _ ← tp (hexl (iov_base ws iov)); mret data_size);
            _ ← tp (", " +:+ fmt_u (iov_len ws iov) +:+ "}");
            tprint_iov_loop fuel addr abbrev_end fin decode_iov
              (u64 (cur + sizeof_iov ws)) data_size
      else mret false
  end.

Definition tprint_iov_upto (len addr : Z) (decode_iov : bool) (data_size : Z) : D unit :=
  if len =? 0 then tp "[]"
  else
    e ← ask;
    let sz := sizeof_iov (wordsize e) in
    let size := u64 (len * sz) in
    let fin := u64 (addr + size) in
    if negb (d_verbose e) || negb (size / sz =? len) || (fin <? addr) then tp (hexl addr)
    else
      let abbrev_end :=
        if d_abbrev e then
          let a := u64 (addr + max_strlen e * sz) in if a <? addr then fin else a
        else fin in
      _ ← tp "[";
      failed ← tprint_iov_loop (Z.to_nat len) addr abbrev_end fin decode_iov addr data_size;
      _ ← tp "]";
      if failed : bool then tp (" " +:+ hexl addr) else mret tt.

Definition tprint_iov (len addr : Z) (decode_iov : bool) : D unit :=
  tprint_iov_upto len addr decode_iov (u64 (-1)).

(** The loop of dump_iov. *)
Fixpoint dump_iov_loop (fuel : nat) (fin cur toret : Z) : D Z :=
  match fuel with
  | O => mret toret
  | S fuel =>
      if cur <? fin then
        e ← ask;
        let ws := wordsize e in
        '(r, iov) ← d_umoven cur (sizeof_iov ws);
        if r <? 0 then abort
        else
          _ ← dump_bytes (iov_base ws iov) (iov_len ws iov);
          dump_iov_loop fuel fin (u64 (cur + sizeof_iov ws)) (u64 (toret + iov_len ws iov))
      else mret toret
  end.

Definition dump_iov (len addr : Z) : D Z :=
  if len =? 0 then mret 0
  else
    e ← ask;
    let sz := sizeof_iov (wordsize e) in
    let size := u64 (len * sz) in
    let fin := u64 (addr + size) in
    if negb (size / sz =? len) || (fin <? addr) then abort
    else dump_iov_loop (Z.to_nat len) fin addr 0.

Definition sys_readv : D Z :=
  e ← ask;
  if d_entering e then
    a0 ← arg 0; _ ← printfd a0; _ ← tp ", "; mret 0
  else
    a1 ← arg 1; a2 ← arg 2;
    if syserror e then _ ← tp (hexl a1 +:+ ", " +:+ fmt_u a2); mret 0
    else
      _ ← tprint_iov a2 a1 true;
      _ ← tp (", " +:+ fmt_u a2);
      mret 0.

Definition sys_writev : D Z :=
  e ← ask;
  if d_entering e then
    a0 ← arg 0; a1 ← arg 1; a2 ← arg 2;
    _ ← printfd a0;
    _ ← tp ", ";
    _ ← tprint_iov a2 a1 true;
    total_size ← dump_iov a2 a1;
    _ ← tp (", " +:+ fmt_u a2);
    _ ← tp (", " +:+ fmt_u total_size);
    mret 0
  else mret 0.

Definition PREAD_OFFSET_ARG : nat := 3.

Definition sys_pread : D Z :=
  e ← ask;
  if d_entering e then
    a0 ← arg 0; _ ← printfd a0; _ ← tp ", "; mret 0
  else
    a1 ← arg 1; a2 ← arg 2;
    _ ← (if syserror e then tp (hexl a1) else printstr a1 (d_rval e));
    _ ← tp (", " +:+ fmt_u a2 +:+ ", ");
    _ ← printllval fmt_u PREAD_OFFSET_ARG;
    mret 0.

Definition sys_pwrite : D Z :=
  e ← ask;
  if d_entering e then
    a0 ← arg 0; a1 ← arg 1; a2 ← arg 2;
    _ ← printfd a0;
    _ ← tp ", ";
    _ ← printstr a1 (s64 a2);
    _ ← dump_bytes a1 a2;
    _ ← tp (", " +:+ fmt_u a2 +:+ ", ");
    _ ← printllval fmt_u PREAD_OFFSET_ARG;
    mret 0
  else mret 0.

Definition sys_preadv : D Z :=
  e ← ask;
  if d_entering e then
    a0 ← arg 0; _ ← printfd a0; _ ← tp ", "; mret 0
  else
    a1 ← arg 1; a2 ← arg 2;
    if syserror e then _ ← tp (hexl a1 +:+ ", " +:+ fmt_u a2); mret 0
    else
      _ ← tprint_iov a2 a1 true;
      _ ← tp (", " +:+ fmt_u a2 +:+ ", ");
      _ ← printllval fmt_u PREAD_OFFSET_ARG;
      mret 0.

Definition sys_pwritev : D Z :=
  e ← ask;
  if d_entering e then
    a0 ← arg 0; a1 ← arg 1; a2 ← arg 2;
    _ ← printfd a0;
    _ ← tp ", ";
    _ ← tprint_iov a2 a1 true;
    total_size ← dump_iov a2 a1;
    _ ← tp (", " +:+ fmt_u a2 +:+ ", ");
    _ ← printllval fmt_u PREAD_OFFSET_ARG;
    _ ← tp (", " +:+ fmt_u total_size);
    mret 0
  else mret 0.

(** print_off_t reads an unsigned long, or 32 bits for a 32-bit tracee. *)
Definition print_off_t (addr : Z) : D unit :=
  if addr =? 0 then tp "NULL"
  else
    e ← ask;
    off ← umove addr (if wordsize e =? 4 then 4%nat else 8%nat);
    match off with
    | None => tp (hexl addr)
    | Some off => tp ("[" +:+ fmt_u off +:+ "]")
    end.

Definition sys_sendfile : D Z :=
  e ← ask;
  if d_entering e then
    a0 ← arg 0; a1 ← arg 1; a2 ← arg 2; a3 ← arg 3;
    _ ← printfd a0; _ ← tp ", "; _ ← printfd a1; _ ← tp ", ";
    _ ← print_off_t a2;
    _ ← tp (", " +:+ fmt_u a3);
    mret 0
  else mret 0.

Definition print_loff_t (addr : Z) : D unit :=
  if addr =? 0 then tp "NULL"
  else
    off ← umove addr 8;
    match off with
    | None => tp (hexl addr)
    | Some off => tp ("[" +:+ fmt_u off +:+ "]")
    end.

Definition sys_sendfile64 : D Z :=
  e ← ask;
  if d_entering e then
    a0 ← arg 0; a1 ← arg 1; a2 ← arg 2; a3 ← arg 3;
    _ ← printfd a0; _ ← tp ", "; _ ← printfd a1; _ ← tp ", ";
    _ ← print_loff_t a2;
    _ ← tp (", " +:+ fmt_u a3);
    mret 0
  else mret 0.

Definition splice_flags : list xlat :=
  [ mk_xlat 1 "SPLICE_F_MOVE"; mk_xlat 2 "SPLICE_F_NONBLOCK";
    mk_xlat 4 "SPLICE_F_MORE"; mk_xlat 8 "SPLICE_F_GIFT" ].

Definition sys_tee : D Z :=
  e ← ask;
  if d_entering e then
    a0 ← arg 0; a1 ← arg 1; a2 ← arg 2; a3 ← arg 3;
    _ ← printfd a0; _ ← tp ", "; _ ← printfd a1; _ ← tp ", ";
    _ ← tp (fmt_u a2 +:+ ", ");
    _ ← print_flags splice_flags a3 "SPLICE_F_???";
    mret 0
  else mret 0.

Definition sys_splice : D Z :=
  e ← ask;
  if d_entering e then
    a0 ← arg 0; a1 ← arg 1; a2 ← arg 2; a3 ← arg 3; a4 ← arg 4; a5 ← arg 5;
    _ ← printfd a0; _ ← tp ", "; _ ← print_loff_t a1; _ ← tp ", ";
    _ ← printfd a2; _ ← tp ", "; _ ← print_loff_t a3; _ ← tp ", ";
    _ ← tp (fmt_u a4 +:+ ", ");
    _ ← print_flags splice_flags a5 "SPLICE_F_???";
    mret 0
  else mret 0.

Definition sys_vmsplice : D Z :=
  e ← ask;
  if d_entering e then
    a0 ← arg 0; a1 ← arg 1; a2 ← arg 2; a3 ← arg 3;
    _ ← printfd a0; _ ← tp ", ";
    _ ← tprint_iov a2 a1 true;
    _ ← tp (", " +:+ fmt_u a2 +:+ ", ");
    _ ← print_flags splice_flags a3 "SPLICE_F_???";
    mret 0
  else mret 0.
End io.

(** ** Iovec arrays in the tracee *)

(** [v] lists the elements of the array at [a]: each with the address and the
    contents of its buffer. *)
Fixpoint iovs_at (m : memory) (ws a : Z) (v : list (Z * list Z)) : Prop :=
  match v with
  | [] => True
  | (base, buf) :: v =>
      (exists raw, buf_at m ws a raw /\ Z.of_nat (length raw) = sizeof_iov ws /\
         iov_base ws raw = base /\ iov_len ws raw = Z.of_nat (length buf)) /\
      buf_at m ws base buf /\ iovs_at m ws (a + sizeof_iov ws) v
  end.

Definition bufs (v : list (Z * list Z)) : list Z := concat (snd <$> v).

(** The text of one element. *)
Definition elem_text (max : Z) (lit : string) (buf : list Z) : string :=
  "{" +:+ lit +:+ (if Z.of_nat (length buf) >? max then "..." else "") +:+ ", " +:+
  fmt_u (Z.of_nat (length buf)) +:+ "}".

Fixpoint elems_text (max : Z) (sep : string) (lits : list string) (v : list (Z * list Z))
    : string :=
  match lits, v with
  | lit :: lits, (_, buf) :: v => sep +:+ elem_text max lit buf +:+ elems_text max ", " lits v
  | _, _ => ""
  end.

Lemma sizeof_iov_pos ws : 0 < sizeof_iov ws.
Proof. unfold sizeof_iov. case_match; lia. Qed.

Section iov_ok.
Context `{K : Kernel} (m : memory) `{!MemOk m}.
Context (e : denv).
Context (Hws : 0 < wordsize e) (Hjunk : forall i, is_u8 (junk e i)).
Context (Hmax : 0 <= max_strlen e) (Hsz : 4 * max_strlen e + 3 < 2 ^ 32).
Let sz := sizeof_iov (wordsize e).

Lemma Does_umoven_iov a raw :
  buf_at m (wordsize e) a raw -> Z.of_nat (length raw) = sz ->
  Does e (d_umoven a sz) (0, raw) "" [].
Proof. intros Hb <-. by apply (Does_umoven m). Qed.

Lemma Does_dump_iov_loop v n fin cur toret :
  iovs_at m (wordsize e) cur v -> length v = n -> 0 <= cur ->
  fin = cur + Z.of_nat n * sz -> fin < 2 ^ 64 -> 0 <= toret ->
  toret + Z.of_nat (length (bufs v)) < 2 ^ 64 ->
  Does e (dump_iov_loop n fin cur toret) (toret + Z.of_nat (length (bufs v))) "" (bufs v).
Proof.
  pose proof (sizeof_iov_pos (wordsize e)) as Hpos. fold sz in Hpos.
  revert n cur toret. induction v as [|[base buf] v IH]; intros n cur toret Hv <- H0 -> Hlt Ht Hs.
  { unfold bufs. simpl. rewrite Z.add_0_r. apply Does_ret. }
  assert (0 <= Z.of_nat (length v) * sz) by (apply Z.mul_nonneg_nonneg; lia).
  destruct Hv as ((raw & Hraw & Hlen & Hb & Hl) & Hbuf & Hv).
  change (bufs ((base, buf) :: v)) with (buf ++ bufs v) in *. rewrite length_app in *.
  cbn [length dump_iov_loop] in *. rewrite (proj2 (Z.ltb_lt cur _)) by lia.
  eapply Does_silent; [apply Does_ask|].
  eapply Does_silent; [by apply Does_umoven_iov|]. simpl. rewrite Hb, Hl. fold sz.
  eapply Does_eq; [eapply Does_bind; [by apply (Does_dump_bytes m)|]|done|done].
  rewrite !u64_id by (unfold is_u64; lia).
  rewrite Nat2Z.inj_add, Z.add_assoc. apply IH; try done; lia.
Qed.

Lemma Does_dump_iov a v :
  iovs_at m (wordsize e) a v -> 0 <= a -> a + Z.of_nat (length v) * sz < 2 ^ 64 ->
  Z.of_nat (length (bufs v)) < 2 ^ 64 ->
  Does e (dump_iov (Z.of_nat (length v)) a) (Z.of_nat (length (bufs v))) "" (bufs v).
Proof.
  intros Hv H0 Hlt Hb. pose proof (sizeof_iov_pos (wordsize e)) as Hpos. fold sz in Hpos.
  destruct v as [|iov v]; [apply Does_ret|].
  unfold dump_iov. set (n := Z.of_nat (length (iov :: v))) in *.
  assert (Hn : 0 < n) by (unfold n; simpl; lia).
  assert (0 < n * sz) by (apply Z.mul_pos_pos; lia). replace (n =? 0) with false by lia.
  eapply Does_silent; [apply Does_ask|]. fold sz.
  rewrite (u64_id (n * sz)) by (unfold is_u64; lia). rewrite Z.div_mul, Z.eqb_refl by lia.
  rewrite u64_id by (unfold is_u64; lia). replace (_ <? a) with false by lia. simpl negb. cbn iota.
  apply (Does_dump_iov_loop (iov :: v)); try done; unfold n; lia.
Qed.

(** The bounds of the loop of tprint_iov that neither abbreviates nor runs out
    of the data size. *)
Lemma Does_tprint_iov_loop v n addr abbrev_end fin cur data :
  iovs_at m (wordsize e) cur v -> length v = n -> 0 <= addr <= cur ->
  fin = cur + Z.of_nat n * sz -> fin < 2 ^ 64 -> fin <= abbrev_end ->
  Z.of_nat (length (bufs v)) <= data ->
  exists lits,
    Forall2 (fun lit iov => unquote lit = Some (take (Z.to_nat (max_strlen e)) iov.2)) lits v /\
    Does e (tprint_iov_loop n addr abbrev_end fin true cur data) false
      (elems_text (max_strlen e) (if cur >? addr then ", " else "") lits v) [].
Proof.
  pose proof (sizeof_iov_pos (wordsize e)) as Hpos. fold sz in Hpos.
  revert n cur data. induction v as [|[base buf] v IH]; intros n cur data Hv <- H0 -> Hlt Habb Hd.
  { exists []. split; [done|]. apply Does_ret. }
  assert (0 <= Z.of_nat (length v) * sz) by (apply Z.mul_nonneg_nonneg; lia).
  destruct Hv as ((raw & Hraw & Hlen & Hb & Hl) & Hbuf & Hv).
  change (bufs ((base, buf) :: v)) with (buf ++ bufs v) in *. rewrite length_app in *.
  pose proof Hbuf as (_ & _ & H31 & _).
  destruct (Does_printstr m e Hws Hjunk base buf Hbuf Hmax Hsz) as (lit & Hu & _ & Hlit).
  destruct (IH (length v) (cur + sz) (data - Z.of_nat (length buf))) as (lits & Hlits & Hdo);
    try done; try (simpl length in *; lia).
  exists (lit :: lits). split; [by constructor|].
  cbn [length tprint_iov_loop elems_text] in *. rewrite (proj2 (Z.ltb_lt cur _)) by lia.
  eapply Does_eq; [eapply Does_bind with (b1 := [])| |].
  { instantiate (1 := if cur >? addr then ", " else "").
    instantiate (1 := tt). destruct (cur >? addr); auto with does. }
  2,3: reflexivity.
  replace (cur >=? abbrev_end) with false by lia.
  eapply Does_silent; [apply Does_ask|].
  eapply Does_silent; [by apply Does_umoven_iov|]. simpl. rewrite Hb, Hl. fold sz.
  replace (Z.of_nat (length buf) >? data) with false by lia.
  rewrite (s64_id (Z.of_nat (length buf))), u64_id by wrap_lia.
  unfold elem_text. rewrite !sapp_assoc. apply Does_tp_bind.
  rewrite <- (sapp_assoc lit).
  eapply Does_eq; [eapply Does_bind with (b1 := []);
    [eapply Does_eq; [eapply Does_bind; [exact Hlit|apply Does_ret]|by rewrite sapp_nil_r|done]|]| |].
  { eapply Does_tp_bind. eapply Does_eq; [exact Hdo| |]; reflexivity. }
  - replace (cur + sz >? addr) with true by lia. by rewrite !sapp_assoc.
  - done.
Qed.

Definition iov_text (lits : list string) (v : list (Z * list Z)) : string :=
  "[" +:+ elems_text (max_strlen e) "" lits v +:+ "]".

Lemma Does_tprint_iov a v :
  iovs_at m (wordsize e) a v -> 0 <= a -> a + Z.of_nat (length v) * sz < 2 ^ 64 ->
  Z.of_nat (length (bufs v)) < 2 ^ 64 -> d_verbose e = true ->
  (d_abbrev e = true -> Z.of_nat (length v) <= max_strlen e) ->
  exists lits,
    Forall2 (fun lit iov => unquote lit = Some (take (Z.to_nat (max_strlen e)) iov.2)) lits v /\
    Does e (tprint_iov (Z.of_nat (length v)) a true) tt (iov_text lits v) [].
Proof.
  intros Hv H0 Hlt Hb Hverb Habb. pose proof (sizeof_iov_pos (wordsize e)) as Hpos. fold sz in Hpos.
  destruct v as [|iov v]; [exists []; split; [done|apply Does_tp]|].
  unfold tprint_iov, tprint_iov_upto, iov_text. set (n := Z.of_nat (length (iov :: v))) in *.
  assert (Hn : 0 < n) by (unfold n; simpl; lia).
  assert (0 < n * sz) by (apply Z.mul_pos_pos; lia).
  pose (fin := a + n * sz).
  pose (ae := if d_abbrev e then
                let x := u64 (a + max_strlen e * sz) in if x <? a then fin else x
              else fin).
  assert (Hae : fin <= ae).
  { unfold ae, fin. destruct (d_abbrev e); [|lia]. specialize (Habb eq_refl).
    assert (n * sz <= max_strlen e * sz) by (apply Z.mul_le_mono_nonneg_r; lia).
    assert (max_strlen e * sz < 2 ^ 36) by (unfold sz, sizeof_iov; case_match; lia).
    cbv zeta. destruct (_ <? a) eqn:?; [lia|]. clear Hverb. wrap_lia. }
  destruct (Does_tprint_iov_loop (iov :: v) (Z.to_nat n) a ae fin a (u64 (-1)))
    as (lits & Hlits & Hdo); try done; try (unfold fin, n; lia).
  { change (u64 (-1)) with (2 ^ 64 - 1). lia. }
  exists lits. split; [done|]. replace (n =? 0) with false by lia.
  eapply Does_silent; [apply Does_ask|]. fold sz.
  rewrite (u64_id (n * sz)) by (unfold is_u64; lia). rewrite Z.div_mul, Z.eqb_refl by lia.
  rewrite (u64_id (a + n * sz)) by (unfold is_u64; lia). fold fin. fold ae.
  rewrite Hverb, (proj2 (Z.ltb_ge fin a)) by (unfold fin; lia). cbn [negb orb].
  apply Does_tp_bind. replace (a >? a) with false in Hdo by lia.
  eapply Does_eq; [eapply Does_bind; [exact Hdo|]| |].
  { cbn iota. eapply Does_bind; [apply Does_tp|apply Does_ret]. }
  - by rewrite sapp_nil_r.
  - done.
Qed.

(** The offset argument of pwrite and pwritev: one register, or two 32-bit
    halves. *)
Definition off_text (lo hi : Z) : string :=
  fmt_u (if wordsize e >? 4 then lo else Z.lor (u32 lo) (u64 (Z.shiftl hi 32))).

Lemma Does_printllval lo hi i :
  u_arg e !! i = Some lo -> u_arg e !! (i + 1)%nat = Some hi ->
  exists j, Does e (printllval fmt_u i) j (off_text lo hi) [].
Proof.
  intros Hlo Hhi. unfold printllval, off_text. destruct (wordsize e >? 4) eqn:Hw; eexists;
    (eapply Does_silent; [apply Does_ask|]); rewrite Hw;
    (eapply Does_silent; [apply Does_arg|]); rewrite Hlo.
  - eapply Does_eq; [apply Does_tp_bind, Does_ret|by rewrite sapp_nil_r|done].
  - eapply Does_silent; [apply Does_arg|]. rewrite Hhi.
    eapply Does_eq; [apply Does_tp_bind, Does_ret|by rewrite sapp_nil_r|done].
Qed.
End iov_ok.

(** Run a straight-line decoder: each step's effect from the [does] hints or
    the context, the texts and dumps collected. *)
Ltac does_steps :=
  repeat first
    [ eapply Does_bind; [solve [eassumption | eauto with does]|]
    | solve [eassumption | eauto with does] ].
Ltac does_collect :=
  rewrite ?app_Empty, ?sapp_nil_r, ?sapp_assoc, ?app_Empty, ?app_nil_l, ?app_nil_r; try reflexivity.

Lemma aborts_now {A B} e s (c : D A) (k : A -> D B) : c e s = None -> (c ≫= k) e s = None.
Proof. intros H. unfold mbind, D_bind. by rewrite H. Qed.
Lemma aborts_later {A B} e s (c : D A) (k : A -> D B) :
  (forall x s', c e s = Some (x, s') -> k x e s' = None) -> (c ≫= k) e s = None.
Proof. intros H. unfold mbind, D_bind. destruct (c e s) as [[x s']|]; [by apply H|done]. Qed.

(** ** Properties *)

Section properties.
Context `{K : Kernel} (m : memory) `{!MemOk m}.

(** What the printers and the dump rely on: a positive word size, byte-sized
    buffer contents, a string limit (possibly 0, -s 0) whose buffers can be allocated. *)
Record env_ok (e : denv) : Prop := {
  ws_pos : 0 < wordsize e;
  junk_u8 i : is_u8 (junk e i);
  max_nonneg : 0 <= max_strlen e;
  max_fits : 4 * max_strlen e + 3 < 2 ^ 32
}.

Lemma sys_write_does e fd a l lo hi x :
  env_ok e -> d_entering e = true -> u_arg e = [fd; a; Z.of_nat (length l); lo; hi; x] ->
  buf_at m (wordsize e) a l ->
  exists lit,
    unquote lit = Some (take (Z.to_nat (max_strlen e)) l) /\
    let shown := fd_text e fd +:+ ", " +:+ lit +:+
                 (if Z.of_nat (length l) >? max_strlen e then "..." else "") +:+
                 ", " +:+ fmt_u (Z.of_nat (length l)) in
    Does e sys_write 0 shown l /\
    Does e sys_pwrite 0 (shown +:+ ", " +:+ off_text e lo hi) l.
Proof.
  intros [Hws Hj Hmax Hsz] Hent Harg Hat.
  destruct (Does_printstr m e Hws Hj a l Hat Hmax Hsz) as (lit & Hu & _ & Hstr).
  pose proof (Does_dump_bytes m e Hws a l Hat) as Hdump.
  destruct (Does_printllval e lo hi 3) as [j Hoff]; [by rewrite Harg..|].
  pose proof Hat as (_ & _ & H31 & _).
  rewrite <- (s64_id (Z.of_nat (length l))) in Hstr at 1 by wrap_lia.
  exists lit. split; [done|]. unfold sys_write, sys_pwrite, PREAD_OFFSET_ARG. split.
  all: eapply Does_silent; [apply Does_ask|]; rewrite Hent.
  all: do 3 (eapply Does_silent; [apply Does_arg|]); rewrite Harg; simpl default.
  all: eapply Does_eq; [does_steps|does_collect..].
Qed.

(** The ALICE contract of write and pwrite.  On entry, when the [l] bytes
    the tracee passes are mapped, exactly these bytes are appended to the byte
    dump (all of them, never truncated to the string limit), and the log line
    gets the descriptor, a literal that decodes to the first max_strlen bytes,
    "..." iff there are more, and the length (for pwrite, the file offset too,
    from one register or two halves). *)
Theorem sys_write_dumps_data e fd a l lo hi x :
  env_ok e -> d_entering e = true -> u_arg e = [fd; a; Z.of_nat (length l); lo; hi; x] ->
  buf_at m (wordsize e) a l ->
  exists lit,
    unquote lit = Some (take (Z.to_nat (max_strlen e)) l) /\
    let shown := fd_text e fd +:+ ", " +:+ lit +:+
                 (if Z.of_nat (length l) >? max_strlen e then "..." else "") +:+
                 ", " +:+ fmt_u (Z.of_nat (length l)) in
    Does e sys_write 0 shown l /\
    Does e sys_pwrite 0 (shown +:+ ", " +:+ off_text e lo hi) l.
Proof. apply sys_write_does. Qed.

(** The ALICE contract of writev and pwritev.  On entry, for an iovec array
    whose elements and buffers are mapped (32-bit or 64-bit layout), the dump
    receives the concatenation of the buffers in order; the log shows the array
    with a literal of each buffer's first max_strlen bytes, the number of
    elements, the offset (pwritev) and, last, the total number of bytes, which
    is exactly the number of bytes appended to the dump. *)
Theorem sys_writev_dumps_data e fd a v lo hi x :
  env_ok e -> d_entering e = true -> u_arg e = [fd; a; Z.of_nat (length v); lo; hi; x] ->
  iovs_at m (wordsize e) a v -> 0 <= a ->
  a + Z.of_nat (length v) * sizeof_iov (wordsize e) < 2 ^ 64 ->
  Z.of_nat (length (bufs v)) < 2 ^ 64 -> d_verbose e = true ->
  (d_abbrev e = true -> Z.of_nat (length v) <= max_strlen e) ->
  exists lits,
    Forall2 (fun lit iov => unquote lit = Some (take (Z.to_nat (max_strlen e)) iov.2)) lits v /\
    let shown := fd_text e fd +:+ ", " +:+ iov_text e lits v +:+ ", " +:+
                 fmt_u (Z.of_nat (length v)) in
    let total := fmt_u (Z.of_nat (length (bufs v))) in
    Does e sys_writev 0 (shown +:+ ", " +:+ total) (bufs v) /\
    Does e sys_pwritev 0 (shown +:+ ", " +:+ off_text e lo hi +:+ ", " +:+ total) (bufs v).
Proof.
  intros [Hws Hj Hmax Hsz] Hent Harg Hv H0 Hlt Hb Hverb Habb.
  destruct (Does_tprint_iov m e Hws Hj Hmax Hsz a v) as (lits & Hlits & Htext); try done.
  pose proof (Does_dump_iov m e Hws a v Hv H0 Hlt Hb) as Hdump.
  destruct (Does_printllval e lo hi 3) as [j Hoff]; [by rewrite Harg..|].
  exists lits. split; [done|]. unfold sys_writev, sys_pwritev, PREAD_OFFSET_ARG. split.
  all: eapply Does_silent; [apply Does_ask|]; rewrite Hent.
  all: do 3 (eapply Does_silent; [apply Does_arg|]); rewrite Harg; simpl default.
  all: eapply Does_eq; [does_steps|does_collect..].
Qed.

(** The price of that contract: a tracee that passes an unreadable buffer to
    write or pwrite, which the kernel would answer with EFAULT, makes the
    tracer itself abort in dump_bytes. *)
Theorem sys_write_unreadable_aborts e s fd a len lo hi x :
  env_ok e -> d_entering e = true -> u_arg e = [fd; a; len; lo; hi; x] ->
  0 < a < addr_lim (wordsize e) -> 0 < len < 2 ^ 31 -> a + len <= addr_lim (wordsize e) ->
  mem_read m a (Z.to_nat len) = None ->
  sys_write e s = None /\ sys_pwrite e s = None.
Proof.
  intros [Hws Hj Hmax Hsz] Hent Harg Ha Hlen Hlim Hr.
  assert (Hdump : forall s, dump_bytes a len e s = None).
  { intros s'. pose proof (addr_lim_le (wordsize e) ltac:(lia)) as H64.
    pose proof (umoven_reads m (wordsize e) (d_pid e) a len (d_p s')) as H.
    rewrite mask_addr_id, Hr in H by lia. specialize (H ltac:(lia) ltac:(lia) ltac:(lia)).
    unfold dump_bytes. rewrite s64_id, s32_id by wrap_lia. replace (len <? 0) with false by lia.
    unfold d_umoven, mbind, D_bind, ask, lift. simpl in H.
    destruct (umoven _ _ _ _ _) as [[r bs] p]. simpl in H. by subst r. }
  split; apply aborts_later; intros ? ? [= <- <-]; rewrite Hent;
    do 3 (apply aborts_later; intros ? ? [= <- <-]); rewrite Harg; simpl default;
    do 3 (apply aborts_later; intros ? ? _); apply aborts_now, Hdump.
Qed.
End properties.

(** A tracee with two buffers and the 64-bit iovec array {4160, 3}, {4200, 2}
    at 4096. *)
Definition io_page : list Z :=
  bytes_le 8 4160 ++ bytes_le 8 3 ++ bytes_le 8 4200 ++ bytes_le 8 2.
Definition io_mem : memory := page_mem 4096 (fun i => default (97 + i mod 26) (io_page !! Z.to_nat i)).
Definition io_kernel : Kernel := mem_kernel true io_mem.
#[global] Instance io_mem_ok : @MemOk io_kernel io_mem.
Proof. apply mem_kernel_ok; [apply page_mem_u8|by apply page_mem_words]. Qed.
Definition io_env (args : list Z) : denv :=
  mk_denv 7 8 0 args true 0 0 true true 0 32 false (fun _ => None) (fun _ => 0) 6.
Definition io_state : dstate := mk_dstate (demo_state false) [] false None false None.
Definition io_iovs : list (Z * list Z) := [(4160, [109; 110; 111]); (4200, [97; 98])].

Lemma io_env_ok args : env_ok (io_env args).
Proof. split; [done| |done|done]. intros i. vm_compute. split; congruence. Qed.

Ltac at_buf := split_and!; try (vm_compute; congruence); eexists; vm_compute; reflexivity.

Lemma sys_write_dumps_data_witness :
  exists lit,
    unquote lit = Some [109; 110; 111] /\
    Does (io_env [1; 4160; 3; 0; 0; 0]) (@sys_write io_kernel) 0
      ("1, " +:+ lit +:+ ", 3") [109; 110; 111].
Proof.
  destruct (@sys_write_dumps_data io_kernel io_mem io_mem_ok (io_env [1; 4160; 3; 0; 0; 0])
              1 4160 [109; 110; 111] 0 0 0) as (lit & Hu & Hw & _).
  - apply io_env_ok.
  - reflexivity.
  - reflexivity.
  - at_buf.
  - exists lit. split; [exact Hu|exact Hw].
Defined.

Lemma sys_writev_dumps_data_witness :
  exists lits,
    Does (io_env [1; 4096; 2; 0; 0; 0]) (@sys_writev io_kernel) 0
      ("1, " +:+ iov_text (io_env [1; 4096; 2; 0; 0; 0]) lits io_iovs +:+ ", 2, 5")
      [109; 110; 111; 97; 98].
Proof.
  destruct (@sys_writev_dumps_data io_kernel io_mem io_mem_ok (io_env [1; 4096; 2; 0; 0; 0])
              1 4096 io_iovs 0 0 0) as (lits & _ & Hw & _); try reflexivity.
  - apply io_env_ok.
  - simpl. refine (conj _ (conj _ (conj _ (conj _ I)))); [|at_buf| |at_buf].
    + exists (take 16 io_page). split_and!; [at_buf|reflexivity..].
    + exists (drop 16 io_page). split_and!; [at_buf|reflexivity..].
  - vm_compute. congruence.
  - intros _. vm_compute. congruence.
  - exists lits. refine (Does_eq _ _ _ _ _ _ _ Hw _ _); [|reflexivity].
    rewrite !sapp_assoc. reflexivity.
Defined.

Lemma sys_write_unreadable_aborts_witness :
  @sys_write io_kernel (io_env [1; 16; 5; 0; 0; 0]) io_state = None.
Proof.
  apply (@sys_write_unreadable_aborts io_kernel io_mem io_mem_ok (io_env [1; 16; 5; 0; 0; 0])
           io_state 1 16 5 0 0 0); try reflexivity.
  - apply io_env_ok.
  - split; reflexivity.
  - split; reflexivity.
  - vm_compute. congruence.
Defined.
