(* ===== verification/Args.v ===== *)
(** * Shared parts of the decoders, and the discipline they obey

    The decoders in the following files (Mem to Ioctl) are written in the monad
    [D].  This file has the small printers they share
    and a program logic for the contract between a decoder and
    trace_syscall_entering and trace_syscall_exiting: [Decodes e c Q] says that
    [c] returns, whatever the tracee's memory holds and whatever the kernel
    answers, that its result satisfies [Q], that it only adds text to the log,
    and that it leaves the byte dump and the cache of the memory map alone. *)

From S2P Require Import Prelude Xlat Quote Tracee Decode Io.
Local Open Scope string_scope.
Local Open Scope list_scope.
Local Open Scope Z_scope.

(** ** Shared printers *)

(** printxval(table, value, default), printing. *)
Definition print_xval (t : list xlat) (v : Z) (dflt : string) : D unit :=
  tp (printxval t (s32 v) dflt).
(** addflags(table, flags), printing. *)
Definition add_flags (t : list xlat) (v : Z) : D unit := tp (addflags t (s32 v)).

(** printflags(table, flags, NULL): prints what it knows and nothing else, and
    returns the number of flags shown. *)
Definition print_flags_opt (t : list xlat) (flags : Z) : D Z :=
  match printflags t (s32 flags) None with
  | Some (txt, n) => _ ← tp txt; mret n
  | None => abort
  end.

(** [if (entering(tcp)) { ... }] and [if (exiting(tcp)) { ... }] *)
Definition if_entering (c : D unit) : D unit :=
  e ← ask; if d_entering e then c else mret tt.
Definition if_exiting (c : D unit) : D unit :=
  e ← ask; if d_entering e then mret tt else c.

(** %ld and %d of an argument. *)
Definition fmt_ld (v : Z) : string := fmt_d (s64 v).
Definition fmt_int (v : Z) : string := fmt_d (s32 v).
Definition fmt_uint (v : Z) : string := fmt_u (u32 v).
Definition fmt_oint (v : Z) : string := fmt_so (u32 v).   (* %#o of an int *)
Definition fmt_xint (v : Z) : string := fmt_sx (u32 v).   (* %#x of an int *)

(** %p *)
Definition fmt_p (z : Z) : string := if z =? 0 then "(nil)" else fmt_sx z.

(** The unsigned member of [n] bytes at offset [off] of a struct read from the
    tracee, and the signed 32-bit and 64-bit ones. *)
Definition fld (n off : nat) (bs : list Z) : Z := le (take n (drop off bs)).
Definition fld_int (off : nat) (bs : list Z) : Z := s32 (fld 4 off bs).
Definition fld_long (off : nat) (bs : list Z) : Z := s64 (fld 8 off bs).

(** A signed 16-bit member. *)
Definition fld_short (off : nat) (bs : list Z) : Z :=
  (fld 2 off bs + 2 ^ 15) mod 2 ^ 16 - 2 ^ 15.

(** umove(tcp, addr, &obj) of a struct of [n] bytes. *)
Definition umove_struct `{K : Kernel} (addr : Z) (n : Z) : D (option (list Z)) :=
  '(r, bs) ← d_umoven addr n;
  mret (if r <? 0 then None else Some bs).

(** ** Loops that the code does not bound *)

(** At most [p] rounds of [body], which says whether to go on ([inl]) or what
    the loop gives ([inr]).  The number is binary, so that a large bound costs
    nothing to a loop that ends early. *)
Section upto.
Context {A B : Type} (body : A -> D (A + B)).

Fixpoint upto (p : positive) (a : A) : D (A + B) :=
  match p with
  | xH => body a
  | xO p =>
      r ← upto p a;
      match r with inl a => upto p a | inr b => mret (inr b) end
  | xI p =>
      r ← body a;
      match r with
      | inl a =>
          r ← upto p a;
          match r with inl a => upto p a | inr b => mret (inr b) end
      | inr b => mret (inr b)
      end
  end.

Fixpoint times (n : nat) (a : A) : D (A + B) :=
  match n with
  | O => mret (inl a)
  | S n =>
      r ← body a;
      match r with inl a => times n a | inr b => mret (inr b) end
  end.

Lemma times_add n m a e s :
  times (n + m) a e s =
  (r ← times n a; match r with inl a => times m a | inr b => mret (inr b) end) e s.
Proof.
  revert a s. induction n as [|n IH]; intros a s; [done|].
  cbn [times Nat.add]. unfold mbind, D_bind. destruct (body a e s) as [[[a'|b] s']|]; [|done..].
  apply IH.
Qed.

Lemma upto_times p a e s : upto p a e s = times (Pos.to_nat p) a e s.
Proof.
  revert a s. induction p as [p IH|p IH|]; intros a s.
  - rewrite Pos2Nat.inj_xI. replace (2 * Pos.to_nat p)%nat with (Pos.to_nat p + Pos.to_nat p)%nat by lia.
    cbn [upto times]. unfold mbind at 1 3, D_bind at 1 3.
    destruct (body a e s) as [[[a'|b] s']|]; [|done..].
    rewrite times_add. unfold mbind, D_bind. rewrite IH.
    destruct (times _ a' e s') as [[[a2|b] s2]|]; [apply IH|done..].
  - rewrite Pos2Nat.inj_xO. replace (2 * Pos.to_nat p)%nat with (Pos.to_nat p + Pos.to_nat p)%nat by lia.
    cbn [upto]. rewrite times_add. unfold mbind, D_bind. rewrite IH.
    destruct (times _ a e s) as [[[a2|b] s2]|]; [apply IH|done..].
  - cbn [upto]. change (Pos.to_nat 1) with 1%nat. cbn [times]. unfold mbind, D_bind.
    by destruct (body a e s) as [[[a'|b] s']|].
Qed.
End upto.

(** ** What a result may say *)

(** The formats trace_syscall_exiting knows. *)
Definition rval_format_ok (r : Z) : Prop := 0 <= Z.land r RVAL_MASK <= RVAL_UDECIMAL.

(** ** The discipline *)

(** What a printer may do to the decoder's state. *)
Record only_prints (s s' : dstate) : Prop := {
  op_text : exists t, p_out (d_p s') = p_out (d_p s) +:+ t;
  op_dump : d_dump s' = d_dump s;
  op_cache : d_cache_dropped s' = d_cache_dropped s
}.

#[global] Instance only_prints_preorder : PreOrder only_prints.
Proof.
  split.
  - intros s. split; [|done..]. exists "". by rewrite sapp_nil_r.
  - intros s1 s2 s3 [[t1 H1] Hd1 Hc1] [[t2 H2] Hd2 Hc2]. split; [|congruence..].
    exists (t1 +:+ t2). by rewrite H2, H1, sapp_assoc.
Qed.

Definition Decodes {A} (e : denv) (c : D A) (Q : A -> Prop) : Prop :=
  forall s, exists x s', c e s = Some (x, s') /\ Q x /\ only_prints s s'.
Definition Prints {A} (e : denv) (c : D A) : Prop := Decodes e c (fun _ => True).

Section rules.
Context {A B : Type} (e : denv).

Lemma Decodes_ret (x : A) (Q : A -> Prop) : Q x -> Decodes e (mret x) Q.
Proof. intros HQ s. by exists x, s. Qed.

Lemma Decodes_bind (c : D A) (k : A -> D B) Q R :
  Decodes e c Q -> (forall x, Q x -> Decodes e (k x) R) -> Decodes e (c ≫= k) R.
Proof.
  intros Hc Hk s. destruct (Hc s) as (x & s1 & H1 & Hq & Ho1).
  destruct (Hk x Hq s1) as (y & s2 & H2 & Hr & Ho2). exists y, s2.
  unfold mbind, D_bind. rewrite H1. split_and!; [done..|]. by etrans.
Qed.

Lemma Decodes_seq (c : D A) (k : A -> D B) R :
  Prints e c -> (forall x, Decodes e (k x) R) -> Decodes e (c ≫= k) R.
Proof. intros Hc Hk. eapply Decodes_bind; [exact Hc|]. by intros x _. Qed.

Lemma Decodes_mono (c : D A) (Q R : A -> Prop) :
  Decodes e c Q -> (forall x, Q x -> R x) -> Decodes e c R.
Proof. intros Hc HQ s. destruct (Hc s) as (x & s' & ? & ? & ?). exists x, s'. auto. Qed.

Lemma Decodes_any (c : D A) (Q : A -> Prop) : Prints e c -> (forall x, Q x) -> Decodes e c Q.
Proof. intros Hc HQ. eapply Decodes_mono; [exact Hc|]. auto. Qed.

Lemma Decodes_ask (k : denv -> D B) R : Decodes e (k e) R -> Decodes e (ask ≫= k) R.
Proof. intros Hk s. exact (Hk s). Qed.

Lemma Decodes_arg i (k : Z -> D B) R :
  Decodes e (k (default 0 (u_arg e !! i))) R -> Decodes e (arg i ≫= k) R.
Proof. intros Hk s. exact (Hk s). Qed.

Lemma Decodes_quiet (c : P A) (Q : A -> Prop) :
  quiet c -> (forall s, Q (c s).1) -> Decodes e (lift c) Q.
Proof.
  intros Hq HQ s. specialize (Hq (d_p s)). specialize (HQ (d_p s)). unfold lift.
  destruct (c (d_p s)) as [x p]. simpl in *. eexists _, _. split; [done|]. split; [done|].
  split; [|done..]. exists "". by rewrite sapp_nil_r.
Qed.
End rules.

Create HintDb decodes.

Lemma Prints_tp e t : Prints e (tp t).
Proof. intros s. eexists _, _. split; [done|]. split; [done|]. split; [by eexists|done..]. Qed.
Lemma Prints_arg e i : Prints e (arg i).
Proof. intros s. by eexists _, s. Qed.
Lemma Prints_put_auxstr e a : Prints e (put_auxstr a).
Proof.
  intros s. eexists _, _. split; [done|]. split; [done|]. split; [|done..].
  exists "". by rewrite sapp_nil_r.
Qed.
Lemma Prints_get_auxstr e : Prints e get_auxstr.
Proof. intros s. by eexists _, s. Qed.
#[export] Hint Resolve Prints_tp Prints_arg Prints_put_auxstr Prints_get_auxstr : decodes.

Lemma Prints_if_entering e c : Prints e c -> Prints e (if_entering c).
Proof.
  intros Hc. apply Decodes_ask. destruct (d_entering e); [done|]. by apply Decodes_ret.
Qed.
Lemma Prints_if_exiting e c : Prints e c -> Prints e (if_exiting c).
Proof.
  intros Hc. apply Decodes_ask. destruct (d_entering e); [|done]. by apply Decodes_ret.
Qed.

(** Walk through a decoder: binds by their rules, case distinctions by cases,
    printers by the hints. *)
Ltac decodes_step :=
  lazymatch goal with
  | |- True => exact I
  | |- forall _, _ => intro
  | |- Decodes _ (mret _) _ => apply Decodes_ret
  | |- Prints _ (mret _) => apply Decodes_ret; exact I
  | |- Prints _ (if_entering _) => apply Prints_if_entering
  | |- Prints _ (if_exiting _) => apply Prints_if_exiting
  | |- Decodes _ (ask ≫= _) _ => apply Decodes_ask; cbv beta
  | |- Prints _ (ask ≫= _) => apply Decodes_ask; cbv beta
  | |- Decodes _ (_ ≫= _) _ => apply Decodes_seq
  | |- Prints _ (_ ≫= _) => apply Decodes_seq
  | |- Decodes _ (match string_quote _ _ _ _ with _ => _ end) _ => fail
  | |- Decodes _ (match ?x with _ => _ end) _ => destruct x
  | |- Prints _ (match ?x with _ => _ end) => destruct x
  | |- rval_format_ok (match ?x with _ => _ end) => destruct x
  | |- Decodes _ (let _ := _ in _) _ => cbv zeta
  | |- Prints _ (let _ := _ in _) => cbv zeta
  | |- Decodes ?e ?c (fun _ => True) => change (Prints e c)
  end.
Ltac decodes :=
  repeat first [ solve [auto with decodes nocore] | progress decodes_step ].

(** ** The printers of util.c obey it *)

Lemma Prints_print_xval e t v d : Prints e (print_xval t v d).
Proof. apply Prints_tp. Qed.
Lemma Prints_add_flags e t v : Prints e (add_flags t v).
Proof. apply Prints_tp. Qed.
Lemma Prints_print_flags e x t v d : Prints e (print_flags (x :: t) v d).
Proof.
  unfold print_flags, printflags. destruct (_ && _); [decodes|].
  destruct (printflags_loop _ _ _ _) as [[[? ?] ?] ?]. decodes.
Qed.
#[export] Hint Resolve Prints_print_xval Prints_add_flags : decodes.
Lemma Prints_print_flags_opt e x t v : Prints e (print_flags_opt (x :: t) v).
Proof.
  unfold print_flags_opt, printflags. destruct (_ && _); [decodes|].
  destruct (printflags_loop _ _ _ _) as [[[? ?] ?] ?]. decodes.
Qed.
#[export] Hint Extern 1 (Prints _ (print_flags _ _ _)) => apply Prints_print_flags : decodes.
#[export] Hint Extern 1 (Prints _ (print_flags_opt _ _)) => apply Prints_print_flags_opt : decodes.

(** ** Reads of the tracee *)

Section printers.
Context `{K : Kernel} (e : denv).

Lemma Prints_umoven a n : Prints e (d_umoven a n).
Proof.
  unfold d_umoven. decodes. apply Decodes_quiet; [apply quiet_umoven|done].
Qed.
Lemma Prints_umovestr a n : Prints e (d_umovestr a n).
Proof.
  unfold d_umovestr. decodes. apply Decodes_quiet; [apply quiet_umovestr|done].
Qed.
Lemma Prints_error_msg t : Prints e (lift (error_msg t)).
Proof. apply Decodes_quiet; [apply quiet_error_msg|done]. Qed.
Hint Resolve Prints_umoven Prints_umovestr Prints_error_msg : decodes.

Lemma Prints_umove a n : Prints e (umove a n).
Proof. unfold umove. decodes. Qed.
Lemma Prints_umove_struct a n : Prints e (umove_struct a n).
Proof. unfold umove_struct. decodes. Qed.
(** What umove fills is the whole object. *)
Definition fills (n : Z) (bs : list Z) : Prop := Z.of_nat (length bs) = n.
Lemma Decodes_umove_struct a n :
  0 <= n -> Decodes e (umove_struct a n) (fun r => forall bs, r = Some bs -> fills n bs).
Proof.
  intros Hn. unfold umove_struct. apply Decodes_bind with (complete n).
  - unfold d_umoven. apply Decodes_ask, Decodes_quiet; [apply quiet_umoven|]. intros s.
    by apply umoven_complete.
  - intros [r bs] Hc. apply Decodes_ret. destruct (Z.ltb_spec r 0); intros bs' [= <-].
    by apply Hc.
Qed.
Hint Resolve Prints_umove : decodes.

Lemma Prints_printllval f i : Prints e (printllval f i).
Proof. unfold printllval. decodes. Qed.
Lemma Prints_printnum_n n a f : Prints e (printnum_n n a f).
Proof. unfold printnum_n. decodes. Qed.
Lemma Prints_printnum a f : Prints e (printnum a f).
Proof. apply Prints_printnum_n. Qed.
Lemma Prints_printnum_int a f : Prints e (printnum_int a f).
Proof. apply Prints_printnum_n. Qed.
Lemma Prints_printfd fd : Prints e (printfd fd).
Proof. unfold printfd. decodes. Qed.
Lemma Prints_printuid t u : Prints e (printuid t u).
Proof. unfold printuid. decodes. Qed.

(** Quoting a buffer that is at least as long as asked for returns. *)
Lemma Prints_printpathn a n : is_s64 n -> Prints e (printpathn a n).
Proof.
  intros Hn. unfold printpathn, MAXPATHLEN. decodes.
  match goal with |- context[string_quote ?x ?l _ ?n] =>
    destruct (string_quote_total x l (-1) n) as [[out r] ->] end; [| |decodes].
  - rewrite length_insert. unfold pad_buf. rewrite length_app, length_fmap, length_seq.
    destruct (_ >? _) eqn:?; [lia|]. unfold is_s64 in Hn.
    destruct (Z.ltb_spec n 0); [lia|wrap_lia].
  - rewrite length_insert. unfold pad_buf. rewrite length_app, length_fmap, length_seq. lia.
Qed.
Lemma Prints_printpathn_int a n : Prints e (printpathn a (s32 n)).
Proof. apply Prints_printpathn. wrap_lia. Qed.
Lemma Prints_printpath a : Prints e (printpath a).
Proof. apply Prints_printpathn. unfold MAXPATHLEN, is_s64. lia. Qed.

(** printstr needs buffers of 4 * max_strlen + 3 bytes. *)
Context (Hmax : 0 <= max_strlen e) (Hsz : 4 * max_strlen e + 3 < 2 ^ 32).

Lemma Prints_printstr_quote len size buf :
  size <= max_strlen e + 1 -> Prints e (printstr_quote len size buf).
Proof.
  intros Hs. unfold printstr_quote. decodes.
  match goal with |- context[string_quote ?x ?l ?len ?n] =>
    destruct (string_quote_total x l len n) as [[out r] ->] end; [| |decodes];
    unfold pad_buf; rewrite length_app, length_fmap, length_seq; lia.
Qed.

Lemma Prints_alloc_strbuf : Prints e alloc_strbuf.
Proof.
  assert (Hok : outstr_size_ok (max_strlen e) = true) by (apply outstr_size_ok_iff; wrap_lia).
  intros s. unfold alloc_strbuf, mbind, D_bind, get_strbuf, ask.
  destruct (d_strbuf s); [by eexists _, s|]. rewrite Hok. eexists _, _.
  split; [done|]. split; [done|]. split; [|done..]. exists "". by rewrite sapp_nil_r.
Qed.
Hint Resolve Prints_alloc_strbuf : decodes.

Lemma Prints_printstr a len : Prints e (printstr a len).
Proof.
  unfold printstr. decodes; apply Prints_printstr_quote.
  - wrap_lia.
  - destruct (_ >? _) eqn:?; wrap_lia.
Qed.
End printers.

#[export] Hint Resolve Prints_umoven Prints_umovestr Prints_error_msg Prints_umove Prints_umove_struct
  Prints_printllval Prints_printnum_n Prints_printnum Prints_printnum_int Prints_printfd Prints_printuid Prints_printpath
  Prints_printpathn_int : decodes.

(** Decoders that print strings need the options' string limit to be usable. *)
Lemma Prints_printstr_ok `{K : Kernel} e a len : env_ok e -> Prints e (printstr a len).
Proof. intros []. by apply Prints_printstr. Qed.
#[export] Hint Resolve Prints_printstr_ok : decodes.

(** The printers of io.c. *)
Section io_printers.
Context `{K : Kernel} (e : denv) (Hok : env_ok e).
Lemma Prints_tprint_iov_loop fuel addr ae fin dec cur size :
  Prints e (tprint_iov_loop fuel addr ae fin dec cur size).
Proof. revert cur size. induction fuel; intros; simpl; decodes. Qed.
Hint Resolve Prints_tprint_iov_loop : decodes.
Lemma Prints_tprint_iov len addr dec : Prints e (tprint_iov len addr dec).
Proof. unfold tprint_iov, tprint_iov_upto. decodes. Qed.
Lemma Prints_print_off_t a : Prints e (print_off_t a).
Proof. unfold print_off_t. decodes. Qed.
Lemma Prints_print_loff_t a : Prints e (print_loff_t a).
Proof. unfold print_loff_t. decodes. Qed.
End io_printers.
#[export] Hint Resolve Prints_tprint_iov_loop Prints_tprint_iov Prints_print_off_t Prints_print_loff_t : decodes.

(** The constant results of the decoders have a format trace_syscall_exiting
    knows. *)
Lemma rval_format_small r : 0 <= r < 4 -> rval_format_ok r.
Proof.
  intros Hr. unfold rval_format_ok, RVAL_MASK, RVAL_UDECIMAL. change 7 with (Z.ones 3).
  rewrite Z.land_ones, Z.mod_small by lia. lia.
Qed.
Lemma rval_format_str : rval_format_ok RVAL_STR.
Proof. done. Qed.
#[export] Hint Extern 1 (rval_format_ok _) => apply rval_format_str : decodes.
#[export] Hint Extern 0 (rval_format_ok _) =>
  apply rval_format_small; split; [discriminate|reflexivity] : decodes.


(** ** Exact effects *)

(** The text of print_flags. *)
Definition print_flags_text (t : list xlat) (v : Z) (dflt : string) : string :=
  match printflags t (s32 v) (Some dflt) with Some (txt, _) => txt | None => "" end.

Lemma Does_print_flags e x t v d :
  Does e (print_flags (x :: t) v d) tt (print_flags_text (x :: t) v d) [].
Proof.
  unfold print_flags, print_flags_text, printflags. destruct (_ && _); [apply Does_tp|].
  destruct (printflags_loop _ _ _ _) as [[[? ?] ?] ?].
  lazymatch goal with |- Does _ (let (_, _) := ?p in _) _ _ _ => destruct p end. apply Does_tp.
Qed.
Lemma Does_print_xval e t v d : Does e (print_xval t v d) tt (printxval t (s32 v) d) [].
Proof. apply Does_tp. Qed.
Lemma Does_add_flags e t v : Does e (add_flags t v) tt (addflags t (s32 v)) [].
Proof. apply Does_tp. Qed.
Lemma Does_if_entering e c t bs :
  d_entering e = true -> Does e c tt t bs -> Does e (if_entering c) tt t bs.
Proof.
  intros He Hc. unfold if_entering. eapply Does_silent; [apply Does_ask|]. by rewrite He.
Qed.
#[export] Hint Resolve Does_print_xval Does_add_flags : does.
#[export] Hint Extern 1 (Does _ (print_flags _ _ _) _ _ _) => apply Does_print_flags : does.

(** The same stop with other arguments. *)
Definition on_args (e : denv) (args : list Z) : denv :=
  mk_denv (d_pid e) (wordsize e) (d_pers e) args (d_entering e) (d_error e) (d_rval e)
    (d_verbose e) (d_abbrev e) (xflag e) (max_strlen e) (show_fd_path e) (fdlink e) (junk e)
    (d_nargs e).

(** A read of a mapped structure. *)
Lemma Does_umove_struct `{K : Kernel} m `{!MemOk m} e a l :
  0 < wordsize e -> buf_at m (wordsize e) a l ->
  Does e (umove_struct a (Z.of_nat (length l))) (Some l) "" [].
Proof.
  intros Hws Hbuf. unfold umove_struct.
  eapply Does_silent; [by apply (Does_umoven m)|]. apply Does_ret.
Qed.
