(* ===== verification/Mem.v ===== *)
(** * Decoders of the memory system calls (mem.c)

    The x86_64 build.  mmap, munmap and mprotect also drop the cache of the
    tracee's memory map, on which stack traces rely, when they return. *)

From S2P Require Import Prelude Xlat Quote Tracee Decode Io Args.
Local Open Scope string_scope.
Local Open Scope list_scope.
Local Open Scope Z_scope.

(** sysconf(_SC_PAGESIZE) on x86_64 *)
Definition get_pagesize : Z := 4096.

Definition mmap_prot : list xlat :=
  [mk_xlat 0 "PROT_NONE"; mk_xlat 1 "PROT_READ"; mk_xlat 2 "PROT_WRITE"; mk_xlat 4 "PROT_EXEC";
   mk_xlat 8 "PROT_SEM"; mk_xlat 0x1000000 "PROT_GROWSDOWN"; mk_xlat 0x2000000 "PROT_GROWSUP"].

Definition mmap_flags : list xlat :=
  [mk_xlat 1 "MAP_SHARED"; mk_xlat 2 "MAP_PRIVATE"; mk_xlat 16 "MAP_FIXED";
   mk_xlat 32 "MAP_ANONYMOUS"; mk_xlat 64 "MAP_32BIT"; mk_xlat 0x4000 "MAP_NORESERVE";
   mk_xlat 0x8000 "MAP_POPULATE"; mk_xlat 0x10000 "MAP_NONBLOCK";
   mk_xlat 0x100 "MAP_GROWSDOWN"; mk_xlat 0x800 "MAP_DENYWRITE";
   mk_xlat 0x1000 "MAP_EXECUTABLE"; mk_xlat 0 "MAP_FILE"; mk_xlat 0x2000 "MAP_LOCKED";
   mk_xlat 0x20000 "MAP_STACK"; mk_xlat 0x4000000 "MAP_UNINITIALIZED"].

Definition mremap_flags : list xlat :=
  [mk_xlat 1 "MREMAP_MAYMOVE"; mk_xlat 2 "MREMAP_FIXED"].

Definition madvise_cmds : list xlat :=
  [mk_xlat 0 "MADV_NORMAL"; mk_xlat 1 "MADV_RANDOM"; mk_xlat 2 "MADV_SEQUENTIAL";
   mk_xlat 3 "MADV_WILLNEED"; mk_xlat 4 "MADV_DONTNEED"; mk_xlat 9 "MADV_REMOVE";
   mk_xlat 10 "MADV_DONTFORK"; mk_xlat 11 "MADV_DOFORK"; mk_xlat 0x64 "MADV_HWPOISON";
   mk_xlat 0x65 "MADV_SOFT_OFFLINE"; mk_xlat 12 "MADV_MERGEABLE";
   mk_xlat 13 "MADV_UNMERGEABLE"; mk_xlat 14 "MADV_HUGEPAGE"; mk_xlat 15 "MADV_NOHUGEPAGE";
   mk_xlat 16 "MADV_DONTDUMP"; mk_xlat 17 "MADV_DODUMP"].

Definition mlockall_flags : list xlat :=
  [mk_xlat 1 "MCL_CURRENT"; mk_xlat 2 "MCL_FUTURE"].

Definition mctl_sync : list xlat :=
  [mk_xlat 4 "MS_SYNC"; mk_xlat 1 "MS_ASYNC"; mk_xlat 2 "MS_INVALIDATE"].

Definition policies : list xlat :=
  [mk_xlat 0 "MPOL_DEFAULT"; mk_xlat 1 "MPOL_PREFERRED"; mk_xlat 2 "MPOL_BIND";
   mk_xlat 3 "MPOL_INTERLEAVE"].

Definition mbindflags : list xlat :=
  [mk_xlat 1 "MPOL_MF_STRICT"; mk_xlat 2 "MPOL_MF_MOVE"; mk_xlat 4 "MPOL_MF_MOVE_ALL"].

Definition mempolicyflags : list xlat :=
  [mk_xlat 1 "MPOL_F_NODE"; mk_xlat 2 "MPOL_F_ADDR"].

Definition move_pages_flags : list xlat :=
  [mk_xlat 2 "MPOL_MF_MOVE"; mk_xlat 4 "MPOL_MF_MOVE_ALL"].

Definition MAP_TYPE : Z := 0x0f.
Definition MREMAP_MAYMOVE : Z := 1.
Definition MREMAP_FIXED : Z := 2.

Section mem.
Context `{K : Kernel}.

Definition sys_brk : D Z :=
  _ ← if_entering (a0 ← arg 0; tp (hexl a0));
  mret RVAL_HEX.

(** The flags of a mapping: the type through printxval, the rest through
    addflags. *)
Definition print_map_flags (flags : Z) : D unit :=
  _ ← print_xval mmap_flags (Z.land flags MAP_TYPE) "MAP_???";
  add_flags mmap_flags (Z.land flags (Z.lnot MAP_TYPE)).

(** print_mmap(tcp, u_arg, offset); [u] are the arguments, in registers or
    read from the tracee's memory. *)
Definition print_mmap (u : list Z) (offset : Z) : D Z :=
  let a i := default 0 (u !! i) in
  _ ← if_entering (
    _ ← (if a 0%nat =? 0 then tp "NULL, " else tp (hexl (a 0%nat) +:+ ", "));
    _ ← tp (fmt_u (a 1%nat) +:+ ", ");
    _ ← print_flags mmap_prot (a 2%nat) "PROT_???";
    _ ← tp ", ";
    _ ← print_map_flags (a 3%nat);
    _ ← tp ", ";
    _ ← printfd (a 4%nat);
    tp (", " +:+ fmt_sx offset));
  mret RVAL_HEX.

(** The [n] 32-bit words at the front of a buffer. *)
Fixpoint narrow_args (n : nat) (bs : list Z) : list Z :=
  match n with
  | O => []
  | S n => le (take 4 bs) :: narrow_args n (drop 4 bs)
  end.

Definition sys_old_mmap : D Z :=
  a0 ← arg 0;
  '(r, bs) ← d_umoven a0 24;
  if r =? -1 then mret 0
  else
    let u := narrow_args 6 bs in
    print_mmap u (default 0 (u !! 5%nat)).

Definition sys_mmap : D Z :=
  e ← ask;
  offset ← arg 5;
  ret ← print_mmap (u_arg e) offset;
  _ ← if_exiting drop_cache;
  mret ret.

Definition sys_mmap_pgoff : D Z :=
  e ← ask;
  offset ← arg 5;
  print_mmap (u_arg e) (u64 (offset * get_pagesize)).

Definition sys_mmap_4koff : D Z :=
  e ← ask;
  offset ← arg 5;
  print_mmap (u_arg e) (u64 (Z.shiftl offset 12)).

Definition sys_munmap : D Z :=
  _ ← if_entering (a0 ← arg 0; a1 ← arg 1; tp (hexl a0 +:+ ", " +:+ fmt_u a1));
  _ ← if_exiting drop_cache;
  mret 0.

Definition sys_mprotect : D Z :=
  _ ← if_entering (
    a0 ← arg 0; a1 ← arg 1; a2 ← arg 2;
    _ ← tp (hexl a0 +:+ ", " +:+ fmt_u a1 +:+ ", ");
    print_flags mmap_prot a2 "PROT_???");
  _ ← if_exiting drop_cache;
  mret 0.

Definition sys_mremap : D Z :=
  _ ← if_entering (
    a0 ← arg 0; a1 ← arg 1; a2 ← arg 2; a3 ← arg 3; a4 ← arg 4;
    _ ← tp (hexl a0 +:+ ", " +:+ fmt_u a1 +:+ ", " +:+ fmt_u a2 +:+ ", ");
    _ ← print_flags mremap_flags a3 "MREMAP_???";
    let both := Z.lor MREMAP_MAYMOVE MREMAP_FIXED in
    if Z.land a3 both =? both then tp (", " +:+ hexl a4) else mret tt);
  mret RVAL_HEX.

Definition sys_madvise : D Z :=
  _ ← if_entering (
    a0 ← arg 0; a1 ← arg 1; a2 ← arg 2;
    _ ← tp (hexl a0 +:+ ", " +:+ fmt_u a1 +:+ ", ");
    print_xval madvise_cmds a2 "MADV_???");
  mret 0.

Definition sys_mlockall : D Z :=
  _ ← if_entering (a0 ← arg 0; print_flags mlockall_flags a0 "MCL_???");
  mret 0.

Definition sys_msync : D Z :=
  _ ← if_entering (
    a0 ← arg 0; a1 ← arg 1; a2 ← arg 2;
    _ ← tp (hexl a0);
    _ ← tp (", " +:+ fmt_u a1 +:+ ", ");
    print_flags mctl_sync a2 "MS_???");
  mret 0.

(** The loop over the vector of mincore; [vec] are the bytes from position [i]
    on. *)
Fixpoint mincore_loop (fuel : nat) (vec : list Z) (i len : Z) : D unit :=
  match fuel with
  | O => mret tt
  | S fuel =>
      if i <? len then
        e ← ask;
        if d_abbrev e && (i >=? max_strlen e) then tp "..."
        else
          _ ← tp (if negb (Z.land (default (junk e (Z.to_nat i)) (head vec)) 1 =? 0)
                  then "1" else "0");
          mincore_loop fuel (tail vec) (i + 1) len
      else mret tt
  end.

(** [malloc_ok len]: malloc(len) returns memory. *)
Definition sys_mincore (malloc_ok : Z -> bool) : D Z :=
  e ← ask;
  a0 ← arg 0; len ← arg 1; a2 ← arg 2;
  if d_entering e then _ ← tp (hexl a0 +:+ ", " +:+ fmt_u len +:+ ", "); mret 0
  else if syserror e || (a2 =? 0) || negb (malloc_ok len) then _ ← tp (hexl a2); mret 0
  else
    '(r, vec) ← d_umoven a2 (s32 len);
    if r <? 0 then _ ← tp (hexl a2); mret 0
    else
      _ ← tp "[";
      _ ← mincore_loop (Z.to_nat len) vec 0 len;
      _ ← tp "]";
      mret 0.

Definition sys_remap_file_pages : D Z :=
  _ ← if_entering (
    a0 ← arg 0; a1 ← arg 1; a2 ← arg 2; a3 ← arg 3; a4 ← arg 4;
    _ ← tp (hexl a0 +:+ ", " +:+ fmt_u a1 +:+ ", ");
    _ ← print_flags mmap_prot a2 "PROT_???";
    _ ← tp (", " +:+ fmt_u a3 +:+ ", ");
    print_map_flags a4);
  mret 0.

(** %#0*lx with width 18 *)
Definition fmt_node (n : Z) : string :=
  if n =? 0 then pad_left 18 "0" "" else "0x" +:+ pad_left 16 "0" (fmt_x n).

(** The loop of get_nodes; the result is [failed]. *)
Fixpoint get_nodes_loop (fuel : nat) (ptr abbrev_end fin cur : Z) : D bool :=
  match fuel with
  | O => mret false
  | S fuel =>
      if cur <? fin then
        _ ← (if cur >? ptr then tp ", " else mret tt);
        if cur >=? abbrev_end then _ ← tp "..."; mret false
        else
          n ← umove cur 8;
          match n with
          | None => _ ← tp "?"; mret true
          | Some n => _ ← tp (fmt_node n); get_nodes_loop fuel ptr abbrev_end fin (u64 (cur + 8))
          end
      else mret false
  end.

Definition get_nodes (ptr maxnodes : Z) (err : bool) : D unit :=
  e ← ask;
  let nlongs := u64 (maxnodes + 63) / 64 in
  let size := nlongs * 8 in
  let fin := u64 (ptr + size) in
  _ ← (if (nlongs =? 0) ||
          ((err || d_verbose e) && (u64 (size * 8) =? maxnodes) && (fin >? ptr)) then
         let abbrev_end :=
           if d_abbrev e then
             let a := u64 (ptr + max_strlen e * 8) in if a <? ptr then fin else a
           else fin in
         _ ← tp ", {";
         failed ← get_nodes_loop (Z.to_nat nlongs) ptr abbrev_end fin ptr;
         _ ← tp "}";
         if failed : bool then tp (" " +:+ hexl ptr) else mret tt
       else tp (", " +:+ hexl ptr));
  tp (", " +:+ fmt_u maxnodes).

Definition sys_mbind : D Z :=
  _ ← if_entering (
    a0 ← arg 0; a1 ← arg 1; a2 ← arg 2; a3 ← arg 3; a4 ← arg 4; a5 ← arg 5;
    _ ← tp (hexl a0 +:+ ", " +:+ fmt_u a1 +:+ ", ");
    _ ← print_xval policies a2 "MPOL_???";
    _ ← get_nodes a3 a4 false;
    _ ← tp ", ";
    print_flags mbindflags a5 "MPOL_???");
  mret 0.

Definition sys_set_mempolicy : D Z :=
  _ ← if_entering (
    a0 ← arg 0; a1 ← arg 1; a2 ← arg 2;
    _ ← print_xval policies a0 "MPOL_???";
    get_nodes a1 a2 false);
  mret 0.

Definition sys_get_mempolicy : D Z :=
  e ← ask;
  _ ← if_exiting (
    a0 ← arg 0; a1 ← arg 1; a2 ← arg 2; a3 ← arg 3; a4 ← arg 4;
    _ ← (if a0 =? 0 then tp "NULL"
         else if syserror e then tp (hexl a0)
         else
           pol ← umove a0 4;
           match pol with
           | None => tp (hexl a0)
           | Some pol => print_xval policies pol "MPOL_???"
           end);
    _ ← get_nodes a1 a2 (syserror e);
    _ ← tp (", " +:+ hexl a3 +:+ ", ");
    print_flags mempolicyflags a4 "MPOL_???");
  mret 0.

Definition sys_migrate_pages : D Z :=
  _ ← if_entering (
    a0 ← arg 0; a1 ← arg 1; a2 ← arg 2; a3 ← arg 3;
    _ ← tp (fmt_int a0 +:+ ", ");
    _ ← get_nodes a2 a1 false;
    _ ← tp ", ";
    get_nodes a3 a1 false);
  mret 0.


(** The three loops of move_pages: [n] items of [size] bytes from [user] on,
    printed with [fmt]; [first] suppresses the separator. *)
Fixpoint move_pages_loop (n : nat) (first : bool) (user : Z) (size : nat) (fmt : Z -> string)
    : D unit :=
  match n with
  | O => mret tt
  | S n =>
      _ ← (if first then mret tt else tp ", ");
      x ← umove user size;
      match x with
      | None => tp "???"
      | Some x => _ ← tp (fmt x); move_pages_loop n false (u64 (user + Z.of_nat size)) size fmt
      end
  end.

Definition move_pages_array (npages user : Z) (size : nat) (fmt : Z -> string) : D unit :=
  if user =? 0 then tp "NULL, "
  else
    _ ← tp "{";
    _ ← move_pages_loop (Z.to_nat npages) true user size fmt;
    tp "}, ".

Definition sys_move_pages : D Z :=
  a0 ← arg 0; npages ← arg 1; a2 ← arg 2; a3 ← arg 3; a4 ← arg 4; a5 ← arg 5;
  _ ← if_entering (
    _ ← tp (fmt_ld a0 +:+ ", " +:+ fmt_u npages +:+ ", ");
    _ ← move_pages_array npages a2 8 fmt_p;
    move_pages_array npages a3 4 fmt_sx);
  _ ← if_exiting (
    _ ← move_pages_array npages a4 4 fmt_sx;
    print_flags move_pages_flags a5 "MPOL_???");
  mret 0.
End mem.

(** ** The decoders return and only print *)

Section discipline.
Context `{K : Kernel} (e : denv).

Lemma Prints_print_map_flags f : Prints e (print_map_flags f).
Proof. unfold print_map_flags. decodes. Qed.
Hint Resolve Prints_print_map_flags : decodes.

Lemma Decodes_print_mmap u off : Decodes e (print_mmap u off) rval_format_ok.
Proof. unfold print_mmap. decodes. Qed.

Lemma Prints_mincore_loop fuel vec i len : Prints e (mincore_loop fuel vec i len).
Proof. revert vec i. induction fuel; intros; simpl; decodes. Qed.

Lemma Prints_get_nodes_loop fuel ptr ae fin cur : Prints e (get_nodes_loop fuel ptr ae fin cur).
Proof. revert cur. induction fuel; intros; simpl; decodes. Qed.
Hint Resolve Prints_get_nodes_loop : decodes.
Lemma Prints_get_nodes ptr n err : Prints e (get_nodes ptr n err).
Proof. unfold get_nodes. decodes. Qed.

Lemma Prints_move_pages_loop n first user size fmt :
  Prints e (move_pages_loop n first user size fmt).
Proof. revert first user. induction n; intros; simpl; decodes. Qed.
Hint Resolve Prints_move_pages_loop : decodes.
Lemma Prints_move_pages_array n user size fmt : Prints e (move_pages_array n user size fmt).
Proof. unfold move_pages_array. decodes. Qed.
End discipline.
#[export] Hint Resolve Decodes_print_mmap Prints_print_map_flags Prints_mincore_loop Prints_get_nodes
  Prints_move_pages_array : decodes.

(** ** One mapping call, four ABIs *)

(** The line of a mapping call. *)
Definition map_text (e : denv) (addr len prot flags fd offset : Z) : string :=
  (if addr =? 0 then "NULL, " else hexl addr +:+ ", ") +:+ fmt_u len +:+ ", " +:+
  print_flags_text mmap_prot prot "PROT_???" +:+ ", " +:+
  printxval mmap_flags (s32 (Z.land flags MAP_TYPE)) "MAP_???" +:+
  addflags mmap_flags (s32 (Z.land flags (Z.lnot MAP_TYPE))) +:+ ", " +:+
  fd_text e fd +:+ ", " +:+ fmt_sx offset.

(** The parameter block of the old i386 mmap. *)
Definition mmap_block (u : list Z) : list Z := concat (bytes_le 4 <$> u).

Lemma narrow_args_block u :
  Forall is_u32 u -> narrow_args (length u) (mmap_block u) = u.
Proof.
  induction 1 as [|z u Hz Hu IH]; [done|]. unfold mmap_block in *. cbn [length narrow_args].
  rewrite fmap_cons, concat_cons.
  rewrite take_app_length', drop_app_length' by (by rewrite length_bytes_le).
  rewrite IH, le_bytes_le; [done|]. unfold is_u32 in Hz. simpl. lia.
Qed.

Section mmap_ok.
Context `{K : Kernel} (m : memory) `{!MemOk m}.

Lemma Does_print_map_flags e flags :
  Does e (print_map_flags flags) tt
    (printxval mmap_flags (s32 (Z.land flags MAP_TYPE)) "MAP_???" +:+
     addflags mmap_flags (s32 (Z.land flags (Z.lnot MAP_TYPE)))) [].
Proof. unfold print_map_flags. eapply Does_eq; [does_steps|done..]. Qed.

Lemma Does_print_addr e addr :
  Does e (if addr =? 0 then tp "NULL, " else tp (hexl addr +:+ ", ")) tt
    (if addr =? 0 then "NULL, " else hexl addr +:+ ", ") [].
Proof. destruct (addr =? 0); auto with does. Qed.
Hint Resolve Does_print_map_flags Does_print_addr : does.

Lemma Does_print_mmap e u addr len prot flags fd off offset :
  d_entering e = true -> u = [addr; len; prot; flags; fd; off] ->
  Does e (print_mmap u offset) RVAL_HEX (map_text e addr len prot flags fd offset) [].
Proof.
  intros He ->. unfold print_mmap, map_text. cbn [lookup list_lookup from_option id].
  eapply Does_eq; [eapply Does_bind; [apply Does_if_entering; [done|]; does_steps|
                                      apply Does_ret]|does_collect|done].
Qed.

Lemma map_text_args e args addr len prot flags fd off :
  map_text (on_args e args) addr len prot flags fd off = map_text e addr len prot flags fd off.
Proof. done. Qed.

(** The four system calls that map a file agree.  For the same mapping, with
    a page-aligned offset below 4 GiB, mmap (the offset in bytes), mmap2 (in
    pages), the 4k variant and the old i386 mmap, whose arguments are a block in
    the tracee's memory, print the same line: the address or NULL, the length,
    the protection, the type and the flags, the descriptor and the offset in
    bytes; and all show their result in hexadecimal. *)
Theorem mmap_abis_agree e addr len prot flags fd page block x1 x2 x3 x4 x5 :
  d_entering e = true -> 0 < wordsize e ->
  Forall is_u32 [addr; len; prot; flags; fd; page * 4096] ->
  buf_at m (wordsize e) block (mmap_block [addr; len; prot; flags; fd; page * 4096]) ->
  let line := map_text e addr len prot flags fd (page * 4096) in
  Does (on_args e [addr; len; prot; flags; fd; page * 4096]) sys_mmap RVAL_HEX line [] /\
  Does (on_args e [addr; len; prot; flags; fd; page]) sys_mmap_pgoff RVAL_HEX line [] /\
  Does (on_args e [addr; len; prot; flags; fd; page]) sys_mmap_4koff RVAL_HEX line [] /\
  Does (on_args e [block; x1; x2; x3; x4; x5]) sys_old_mmap RVAL_HEX line [].
Proof.
  intros He Hws Hu Hblock line.
  assert (Hoff : u64 (page * 4096) = page * 4096).
  { apply u64_id. rewrite !Forall_cons in Hu. unfold is_u64, is_u32 in *. lia. }
  assert (Hmap : forall args u off offset, u = [addr; len; prot; flags; fd; off] ->
            offset = page * 4096 -> Does (on_args e args) (print_mmap u offset) RVAL_HEX line []).
  { intros args u off offset -> ->. unfold line. rewrite <- (map_text_args e args).
    by eapply Does_print_mmap. }
  split_and!.
  - unfold sys_mmap. eapply Does_silent; [apply Does_ask|]. eapply Does_silent; [apply Does_arg|].
    eapply Does_eq; [eapply Does_bind; [by eapply Hmap|]|by rewrite sapp_nil_r|done].
    eapply Does_silent; [|apply Does_ret]. unfold if_exiting.
    eapply Does_silent; [apply Does_ask|]. simpl. rewrite He. apply Does_ret.
  - unfold sys_mmap_pgoff, get_pagesize. eapply Does_silent; [apply Does_ask|].
    eapply Does_silent; [apply Does_arg|]. by eapply Hmap.
  - unfold sys_mmap_4koff. eapply Does_silent; [apply Does_ask|].
    eapply Does_silent; [apply Does_arg|]. eapply Hmap; [done|]. by rewrite Z.shiftl_mul_pow2.
  - unfold sys_old_mmap. eapply Does_silent; [apply Does_arg|].
    eapply Does_silent; [apply (Does_umoven m (on_args e _) Hws _ _ Hblock)|].
    cbv beta iota. change (0 =? -1) with false. cbv iota zeta.
    set (u := [addr; len; prot; flags; fd; page * 4096]) in *.
    change 6%nat with (length u). rewrite narrow_args_block by done. by eapply Hmap.
Qed.
End mmap_ok.

(** A mapping of descriptor 3 at page 2, its parameter block at 4096. *)
Definition map_args : list Z := [0; 4096; 5; 2; 3; 2 * 4096].
Definition map_mem : memory :=
  page_mem 4096 (fun i => default 0 (mmap_block map_args !! Z.to_nat i)).
#[global] Instance map_mem_ok : @MemOk (mem_kernel true map_mem) map_mem.
Proof. apply mem_kernel_ok; [apply page_mem_u8|by apply page_mem_words]. Qed.

Lemma mmap_abis_agree_witness :
  Does (io_env [4096; 0; 0; 0; 0; 0]) (@sys_old_mmap (mem_kernel true map_mem)) RVAL_HEX
    "NULL, 4096, PROT_READ|PROT_EXEC, MAP_PRIVATE, 3, 0x2000" [].
Proof.
  destruct (@mmap_abis_agree (mem_kernel true map_mem) map_mem map_mem_ok (io_env [])
              0 4096 5 2 3 2 4096 0 0 0 0 0) as (_ & _ & _ & Hold).
  - reflexivity.
  - reflexivity.
  - repeat constructor; vm_compute; congruence.
  - at_buf.
  - exact Hold.
Defined.
