(* ===== verification/Options.v ===== *)
(** * Numbers from the command line and from uname (util.c: string_to_uint;
      alice-strace.c: get_os_release) *)

From S2P Require Import Prelude.
Local Open Scope string_scope.
Local Open Scope list_scope.
Local Open Scope Z_scope.

(** strtol(s, &error, 10): the value, whether errno was set (ERANGE), and the
    text from [error] on. *)
Definition strtol (s : string) : Z * bool * string :=
  let t := skip_ws s in
  let '(neg, d) :=
    match t with
    | String c u => if Ascii.eqb c "-" then (true, u)
                    else if Ascii.eqb c "+" then (false, u) else (false, t)
    | EmptyString => (false, t)
    end in
  if starts_dec d then
    let '(v, rest) := scan_dec 0 d in
    let v := if neg : bool then - v else v in
    if v <? - 2 ^ 63 then (- 2 ^ 63, true, rest)
    else if v >=? 2 ^ 63 then (2 ^ 63 - 1, true, rest)
    else (v, false, rest)
  else (0, false, s).

Definition string_to_uint (s : string) : Z :=
  if String.eqb s "" then -1
  else
    let '(value, errno, error) := strtol s in
    if errno || negb (String.eqb error "") || (value <? 0) || negb (s32 value =? value)
    then -1 else value.

(** KERNEL_VERSION(a,b,c) of linux/version.h *)
Definition KERNEL_VERSION (a b c : Z) : Z := Z.shiftl a 16 + Z.shiftl b 8 + c.

(** while (p is a digit) p++ *)
Fixpoint skip_dec (s : string) : string :=
  match s with
  | String c s' => if is_dec c then skip_dec s' else s
  | EmptyString => EmptyString
  end.

Definition atoi (s : string) : Z := s32 (strtol s).1.1.

(** The for (;;) loop of get_os_release; [None] is error_msg_and_die.  Each
    round consumes a digit, so the length of the text is enough fuel. *)
Fixpoint os_release_loop (fuel : nat) (rel : Z) (p : string) : option Z :=
  match fuel with
  | O => None
  | S fuel =>
      if starts_dec p then
        let rel := Z.lor (u32 (Z.shiftl rel 8)) (u32 (atoi p)) in
        if rel >=? KERNEL_VERSION 1 0 0 then Some rel
        else
          match skip_dec p with
          | String c q =>
              if Ascii.eqb c "." then os_release_loop fuel rel q
              else if rel >=? KERNEL_VERSION 0 1 0 then Some (u32 (Z.shiftl rel 8)) else None
          | EmptyString =>
              if rel >=? KERNEL_VERSION 0 1 0 then Some (u32 (Z.shiftl rel 8)) else None
          end
      else None
  end.
Definition get_os_release (release : string) : option Z :=
  os_release_loop (S (String.length release)) 0 release.

(** ** Lemmas *)

Lemma dec_not_ws c : is_dec c = true -> is_space c = false.
Proof. unfold is_dec, is_space. lia. Qed.

Lemma strtol_fmt_u n s :
  0 <= n < 2 ^ 63 -> starts_dec s = false -> strtol (fmt_u n +:+ s) = (n, false, s).
Proof.
  intros Hn Hs. pose proof (scan_dec_fmt_u n s ltac:(lia) Hs) as Hscan.
  destruct (fmt_u_head n ltac:(lia)) as (c & t & Ht & Hc). rewrite Ht, app_String in *.
  unfold strtol. cbn [skip_ws]. rewrite dec_not_ws by done.
  assert (Ascii.eqb c "-" = false /\ Ascii.eqb c "+" = false) as [-> ->].
  { split; apply Ascii.eqb_neq; intros ->; by vm_compute in Hc. }
  cbn [starts_dec]. rewrite Hc, Hscan.
  replace (n <? - 2 ^ 63) with false by lia. by replace (n >=? 2 ^ 63) with false by lia.
Qed.

Lemma skip_dec_scan acc s : skip_dec s = (scan_dec acc s).2.
Proof.
  revert acc. induction s as [|c s IH]; intros acc; [done|]. simpl. by destruct (is_dec c).
Qed.

Lemma starts_dec_fmt_u n s : 0 <= n -> starts_dec (fmt_u n +:+ s) = true.
Proof. intros Hn. destruct (fmt_u_head n Hn) as (c & t & -> & Hc). done. Qed.

Lemma os_release_step fuel rel n s :
  0 <= rel < 2 ^ 24 -> 0 <= n < 2 ^ 31 -> starts_dec s = false ->
  os_release_loop (S fuel) rel (fmt_u n +:+ s) =
    let rel := Z.lor (256 * rel) n in
    if rel >=? 65536 then Some rel
    else match s with
         | String c q => if Ascii.eqb c "." then os_release_loop fuel rel q
                         else if rel >=? 256 then Some (u32 (256 * rel)) else None
         | EmptyString => if rel >=? 256 then Some (u32 (256 * rel)) else None
         end.
Proof.
  intros Hrel Hn Hs. cbn [os_release_loop]. rewrite starts_dec_fmt_u by lia.
  unfold atoi. rewrite strtol_fmt_u by (lia || done). simpl fst.
  rewrite (skip_dec_scan 0), scan_dec_fmt_u by (lia || done). simpl snd.
  rewrite !Z.shiftl_mul_pow2 by lia. change (2 ^ 8) with 256. rewrite (Z.mul_comm rel).
  rewrite (u32_id (256 * rel)), s32_id, (u32_id n) by wrap_lia.
  change (KERNEL_VERSION 1 0 0) with 65536. change (KERNEL_VERSION 0 1 0) with 256.
  by rewrite !(Z.mul_comm (Z.lor _ _) 256).
Qed.

Lemma string_to_uint_range s : string_to_uint s = -1 \/ 0 <= string_to_uint s < 2 ^ 31.
Proof.
  unfold string_to_uint. destruct (String.eqb s ""); [by left|].
  destruct (strtol s) as [[v err] rest].
  destruct (_ || negb (s32 v =? v)) eqn:H; [by left|right].
  pose proof (s32_range v). unfold is_s32 in *. lia.
Qed.

(** ** Properties *)

(** String_to_uint accepts exactly what fits an int.  The decimal text of
    every n below 2^31 is read back as n, larger numbers are rejected, and the
    result is -1 or a non-negative int for every text, so callers may use
    [< 0] (or the unsigned comparison of qual_syscall) as the error test. *)
Theorem string_to_uint_roundtrip :
  (forall n, 0 <= n < 2 ^ 31 -> string_to_uint (fmt_u n) = n) /\
  (forall n, 2 ^ 31 <= n < 2 ^ 63 -> string_to_uint (fmt_u n) = -1) /\
  (forall n, 0 < n < 2 ^ 63 -> string_to_uint (String "-" (fmt_u n)) = -1) /\
  (forall s, string_to_uint s = -1 \/ 0 <= string_to_uint s < 2 ^ 31).
Proof.
  assert (Hne : forall n, 0 <= n -> String.eqb (fmt_u n) "" = false).
  { intros n Hn. by destruct (fmt_u_head n Hn) as (c & t & -> & _). }
  split_and!.
  - intros n Hn. unfold string_to_uint. rewrite Hne by lia.
    rewrite <- (sapp_nil_r (fmt_u n)), strtol_fmt_u by (lia || done).
    rewrite s32_id by (unfold is_s32; lia). simpl.
    rewrite Z.eqb_refl. by replace (n <? 0) with false by lia.
  - intros n Hn. unfold string_to_uint. rewrite Hne by lia.
    rewrite <- (sapp_nil_r (fmt_u n)), strtol_fmt_u by (lia || done).
    replace (s32 n =? n) with false by wrap_lia. by rewrite orb_true_r.
  - intros n Hn. unfold string_to_uint, strtol. simpl String.eqb. cbn [skip_ws].
    change (is_space "-") with false. cbn iota. change (Ascii.eqb "-" "-") with true. cbn iota.
    rewrite <- (sapp_nil_r (fmt_u n)), starts_dec_fmt_u, scan_dec_fmt_u by (lia || done).
    replace (- n <? - 2 ^ 63) with false by lia. replace (- n >=? 2 ^ 63) with false by lia.
    replace (- n <? 0) with true by lia. by rewrite orb_true_r.
  - apply string_to_uint_range.
Qed.

(** Get_os_release encodes "a.b.c" the way KERNEL_VERSION does, ignoring
    what follows, and "a.b" as "a.b.0", for components up to 255. *)
Theorem get_os_release_encodes a b c t :
  1 <= a <= 255 -> 0 <= b <= 255 -> 0 <= c <= 255 -> starts_dec t = false ->
  get_os_release (fmt_u a +:+ "." +:+ fmt_u b +:+ "." +:+ fmt_u c +:+ t)
    = Some (KERNEL_VERSION a b c) /\
  ((forall d u, t = String d u -> Ascii.eqb d "." = false) ->
   get_os_release (fmt_u a +:+ "." +:+ fmt_u b +:+ t) = Some (KERNEL_VERSION a b 0)).
Proof.
  intros Ha Hb Hc Ht.
  assert (HKV : forall x, KERNEL_VERSION a b x = 256 * (256 * a + b) + x)
    by (intros; unfold KERNEL_VERSION; rewrite !Z.shiftl_mul_pow2 by lia; lia).
  assert (Hlen : forall n s, 0 <= n ->
    exists k, String.length (fmt_u n +:+ String "." s) = S (S k + String.length s)).
  { intros n s Hn. destruct (fmt_u_head n Hn) as (x & u & -> & _).
    exists (String.length u). rewrite app_String. simpl. f_equal.
    pose proof (slen_app u (String "." s)) as H. unfold slen in H. simpl in H. lia. }
  assert (Hlor : forall x y, 0 <= x -> 0 <= y <= 255 -> Z.lor (256 * x) y = 256 * x + y)
    by (intros x y ? ?; apply (lor_add 8); lia).
  unfold get_os_release. rewrite !(app_String "."), !app_Empty. split.
  - destruct (Hlen a (fmt_u b +:+ String "." (fmt_u c +:+ t))) as [k ->]; [lia|].
    rewrite os_release_step by (lia || done). cbv zeta. rewrite (Hlor 0 a) by lia.
    replace (_ >=? 65536) with false by lia.
    change (Ascii.eqb "." ".") with true. cbn iota.
    rewrite os_release_step by (lia || done). cbv zeta. rewrite (Hlor _ b) by lia.
    replace (_ >=? 65536) with false by lia.
    change (Ascii.eqb "." ".") with true. cbn iota.
    destruct (Hlen b (fmt_u c +:+ t)) as [k' ->]; [lia|]. cbn [Nat.add].
    rewrite os_release_step by (lia || done).
    cbv zeta. rewrite (Hlor _ c) by lia. replace (_ >=? 65536) with true by lia.
    by rewrite HKV.
  - intros Hdot. destruct (Hlen a (fmt_u b +:+ t)) as [k ->]; [lia|].
    rewrite os_release_step by (lia || done). cbv zeta. rewrite (Hlor 0 a) by lia.
    replace (_ >=? 65536) with false by lia.
    change (Ascii.eqb "." ".") with true. cbn iota.
    rewrite os_release_step by (lia || done). cbv zeta. rewrite (Hlor _ b) by lia.
    replace (_ >=? 65536) with false by lia. replace (_ >=? 256) with true by lia.
    assert (Some (u32 (256 * (256 * (256 * 0 + a) + b))) = Some (KERNEL_VERSION a b 0)).
    { rewrite HKV, u32_id by wrap_lia. f_equal. lia. }
    destruct t as [|d u]; [done|]. by rewrite (Hdot d u).
Qed.

Lemma get_os_release_encodes_witness :
  get_os_release "3.2.9-some-garbage" = Some (KERNEL_VERSION 3 2 9) /\
  get_os_release "3.2-some-garbage" = Some (KERNEL_VERSION 3 2 0).
Proof.
  destruct (get_os_release_encodes 3 2 9 "-some-garbage") as [H1 H2];
    [lia|lia|lia|reflexivity|]. split; [exact H1|].
  apply H2. intros d u [= <- <-]. reflexivity.
Defined.

(** A component above 255 is merged with the bits of the previous one
    instead of being limited: the stable kernels 4.4.256 to 4.4.302 are encoded
    as releases that compare greater than 4.5.0. *)
Theorem get_os_release_large_sublevel :
  get_os_release "4.4.302" = Some (KERNEL_VERSION 4 5 46) /\
  (forall c, 256 <= c <= 302 -> exists rel,
     get_os_release ("4.4." +:+ fmt_u c) = Some rel /\ rel >= KERNEL_VERSION 4 5 0).
Proof.
  split; [vm_compute; reflexivity|]. intros c Hc.
  pose (ok n := match get_os_release ("4.4." +:+ fmt_u (256 + Z.of_nat n)) with
                | Some rel => rel >=? KERNEL_VERSION 4 5 0 | None => false end).
  assert (Hall : forallb ok (seq 0 47) = true) by (vm_compute; reflexivity).
  rewrite forallb_forall in Hall. specialize (Hall (Z.to_nat (c - 256)) ltac:(apply in_seq; lia)).
  unfold ok in Hall. replace (256 + Z.of_nat (Z.to_nat (c - 256))) with c in Hall by lia.
  destruct (get_os_release _) as [rel|]; [|done]. exists rel. split; [done|].
  clear -Hall. lia.
Qed.
