(* ===== verification/Signal.v ===== *)
(** * Signal names, masks and siginfo (signal.c: signame, sprintsigmask,
      printsigmask, printsignal, printsiginfo; linux/signalent.h), and the macros
      of wait(2)

    Text is returned.  A signal set is the unsigned long whose bit [i - 1] is
    signal [i] (the first word of sigset_t, the only one the code fills). *)

From S2P Require Import Prelude Xlat.
Local Open Scope string_scope.
Local Open Scope list_scope.
Local Open Scope Z_scope.

Definition signalent : list string :=
  [ "SIG_0"; "SIGHUP"; "SIGINT"; "SIGQUIT"; "SIGILL"; "SIGTRAP"; "SIGABRT"; "SIGBUS";
    "SIGFPE"; "SIGKILL"; "SIGUSR1"; "SIGSEGV"; "SIGUSR2"; "SIGPIPE"; "SIGALRM"; "SIGTERM";
    "SIGSTKFLT"; "SIGCHLD"; "SIGCONT"; "SIGSTOP"; "SIGTSTP"; "SIGTTIN"; "SIGTTOU"; "SIGURG";
    "SIGXCPU"; "SIGXFSZ"; "SIGVTALRM"; "SIGPROF"; "SIGWINCH"; "SIGIO"; "SIGPWR"; "SIGSYS";
    "SIGRTMIN" ].
Definition nsignals : Z := Z.of_nat (length signalent).

Definition SIGTRAP : Z := 5.
Definition SIGTERM : Z := 15.
Definition SIGCHLD : Z := 17.
Definition SIGCONT : Z := 18.
Definition SIGSTOP : Z := 19.
Definition SIGTSTP : Z := 20.
Definition SIGTTIN : Z := 21.
Definition SIGTTOU : Z := 22.

(** __SIGRTMIN, __SIGRTMAX and NSIG of the C library *)
Definition SIGRTMIN : Z := 32.
Definition SIGRTMAX : Z := 64.
Definition NSIG : Z := 65.

(** ** Wait statuses (wait(2)) *)

Definition WIFSTOPPED (status : Z) : bool := Z.land status 0xff =? 0x7f.
Definition WSTOPSIG (status : Z) : Z := Z.shiftr (Z.land status 0xff00) 8.
Definition WTERMSIG (status : Z) : Z := Z.land status 0x7f.
Definition WIFEXITED (status : Z) : bool := WTERMSIG status =? 0.
Definition WEXITSTATUS (status : Z) : Z := Z.shiftr (Z.land status 0xff00) 8.
Definition WIFSIGNALED (status : Z) : bool :=
  negb (WTERMSIG status =? 0) && negb (WTERMSIG status =? 0x7f).
Definition WCOREDUMP (status : Z) : bool := has_flag status 0x80.
(** ** Names *)

Definition signame (sig : Z) : string :=
  match (if 0 <=? sig then signalent !! Z.to_nat sig else None) with
  | Some s => s
  | None =>
      if (SIGRTMIN <=? sig) && (sig <=? SIGRTMAX)
      then "SIGRT_" +:+ fmt_d (sig - SIGRTMIN) else fmt_d sig
  end.

Fixpoint drop_str (n : nat) (s : string) : string :=
  match n, s with
  | S n, String _ s => drop_str n s
  | _, _ => s
  end.

(** ** Masks *)

Definition sigismember (mask i : Z) : bool := Z.testbit mask (i - 1).

(** The name shown for signal [i] inside a mask. *)
Definition mask_name (i : Z) : string :=
  match (if 0 <=? i then signalent !! Z.to_nat i else None) with
  | Some s => drop_str 3 s
  | None =>
      if (SIGRTMIN <=? i) && (i <=? SIGRTMAX)
      then "RT_" +:+ fmt_u (i - SIGRTMIN) else fmt_u i
  end.

(** for (i = 1; i < maxsigs; i++) if (sigismember(mask, i) == show) ... with the
    separator in use; [n] rounds are left.  The text and the last separator. *)
Fixpoint mask_loop (n : nat) (i mask : Z) (show : bool) (sep : string) : string * string :=
  match n with
  | O => ("", sep)
  | S n =>
      if Bool.eqb (sigismember mask i) show then
        let '(out, sep') := mask_loop n (i + 1) mask show " " in
        (sep +:+ mask_name i +:+ out, sep')
      else mask_loop n (i + 1) mask show sep
  end.

Definition maxsigs (rt : bool) : Z := if rt then SIGRTMAX else nsignals.

Definition count_members (mask : Z) (rt : bool) : Z :=
  Z.of_nat (length (List.filter (fun i => sigismember mask (Z.of_nat i))
                      (seq 1 (Z.to_nat (maxsigs rt - 1))))).

Definition show_members (mask : Z) (rt : bool) : bool :=
  count_members mask rt <? Z.quot (nsignals * 2) 3.

Definition sprintsigmask (str : string) (mask : Z) (rt : bool) : string :=
  let show := show_members mask rt in
  let '(out, sep) := mask_loop (Z.to_nat (maxsigs rt - 1)) 1 mask show "[" in
  str +:+ (if show then "" else "~") +:+ out +:+ (if String.eqb sep "[" then "[" else "") +:+ "]".

(** sizeof(outstr) *)
Definition sigmask_bufsize : Z := 8 * (255 * 2 / 3).

(** ** siginfo *)

Record siginfo := mk_siginfo {
  si_signo : Z; si_errno : Z; si_code : Z;
  si_pid : Z; si_uid : Z; si_int : Z; si_ptr : Z;
  si_status : Z; si_utime : Z; si_stime : Z; si_addr : Z; si_band : Z
}.

Definition siginfo_codes : list xlat :=
  [ mk_xlat 0x80 "SI_KERNEL"; mk_xlat 0 "SI_USER"; mk_xlat (-1) "SI_QUEUE";
    mk_xlat (-2) "SI_TIMER"; mk_xlat (-3) "SI_MESGQ"; mk_xlat (-4) "SI_ASYNCIO";
    mk_xlat (-5) "SI_SIGIO"; mk_xlat (-6) "SI_TKILL"; mk_xlat (-60) "SI_ASYNCNL" ].
Definition sigill_codes : list xlat :=
  [ mk_xlat 1 "ILL_ILLOPC"; mk_xlat 2 "ILL_ILLOPN"; mk_xlat 3 "ILL_ILLADR";
    mk_xlat 4 "ILL_ILLTRP"; mk_xlat 5 "ILL_PRVOPC"; mk_xlat 6 "ILL_PRVREG";
    mk_xlat 7 "ILL_COPROC"; mk_xlat 8 "ILL_BADSTK" ].
Definition sigfpe_codes : list xlat :=
  [ mk_xlat 1 "FPE_INTDIV"; mk_xlat 2 "FPE_INTOVF"; mk_xlat 3 "FPE_FLTDIV";
    mk_xlat 4 "FPE_FLTOVF"; mk_xlat 5 "FPE_FLTUND"; mk_xlat 6 "FPE_FLTRES";
    mk_xlat 7 "FPE_FLTINV"; mk_xlat 8 "FPE_FLTSUB" ].
Definition sigtrap_codes : list xlat := [ mk_xlat 1 "TRAP_BRKPT"; mk_xlat 2 "TRAP_TRACE" ].
Definition sigchld_codes : list xlat :=
  [ mk_xlat 1 "CLD_EXITED"; mk_xlat 2 "CLD_KILLED"; mk_xlat 3 "CLD_DUMPED";
    mk_xlat 4 "CLD_TRAPPED"; mk_xlat 5 "CLD_STOPPED"; mk_xlat 6 "CLD_CONTINUED" ].
Definition sigpoll_codes : list xlat :=
  [ mk_xlat 1 "POLL_IN"; mk_xlat 2 "POLL_OUT"; mk_xlat 3 "POLL_MSG"; mk_xlat 4 "POLL_ERR";
    mk_xlat 5 "POLL_PRI"; mk_xlat 6 "POLL_HUP" ].
Definition sigprof_codes : list xlat := [].
Definition sigsegv_codes : list xlat := [ mk_xlat 1 "SEGV_MAPERR"; mk_xlat 2 "SEGV_ACCERR" ].
Definition sigbus_codes : list xlat :=
  [ mk_xlat 1 "BUS_ADRALN"; mk_xlat 2 "BUS_ADRERR"; mk_xlat 3 "BUS_OBJERR" ].

(** The table consulted after siginfo_codes, by signal number (SIGTRAP, SIGCHLD,
    SIGPOLL, SIGPROF, SIGILL, SIGFPE, SIGSEGV, SIGBUS). *)
Definition signal_codes (signo : Z) : list xlat :=
  if signo =? 5 then sigtrap_codes
  else if signo =? 17 then sigchld_codes
  else if signo =? 29 then sigpoll_codes
  else if signo =? 27 then sigprof_codes
  else if signo =? 4 then sigill_codes
  else if signo =? 8 then sigfpe_codes
  else if signo =? 11 then sigsegv_codes
  else if signo =? 7 then sigbus_codes
  else [].

Section siginfo.
Context (errnoent : list string).

Definition code_text (si : siginfo) : string :=
  let code := match xlookup siginfo_codes (si_code si) with
              | Some c => Some c
              | None => xlookup (signal_codes (si_signo si)) (si_code si)
              end in
  match code with
  | Some c => ", si_code=" +:+ c
  | None => ", si_code=" +:+ fmt_sx (u32 (si_code si))
  end.

Definition errno_text (si : siginfo) : string :=
  if si_errno si =? 0 then ""
  else match (if 0 <=? si_errno si then errnoent !! Z.to_nat (si_errno si) else None) with
       | Some e => ", si_errno=" +:+ e
       | None => ", si_errno=" +:+ fmt_d (si_errno si)
       end.

Definition value_text (verbose : bool) (si : siginfo) : string :=
  if si_ptr si =? 0 then ""
  else if negb verbose then ", ..."
  else ", si_value={int=" +:+ fmt_u (u32 (si_int si)) +:+ ", ptr=" +:+ fmt_sx (u64 (si_ptr si)) +:+ "}".

Definition sender_text (si : siginfo) : string :=
  ", si_pid=" +:+ fmt_u (u64 (si_pid si)) +:+ ", si_uid=" +:+ fmt_u (u64 (si_uid si)).

(** SI_FROMUSER(sip): si_code <= 0 *)
Definition user_text (verbose : bool) (si : siginfo) : string :=
  sender_text si +:+
  (if (si_code si =? 0) || (si_code si =? -6) then ""
   else if si_code si =? -2 then ", si_value=" +:+ fmt_d (si_int si)
   else value_text verbose si).

Definition kernel_text (verbose : bool) (si : siginfo) : string :=
  let signo := si_signo si in
  if signo =? 17 then
    ", si_pid=" +:+ fmt_d (si_pid si) +:+ ", si_status=" +:+
    (if si_code si =? 1 then fmt_d (si_status si) else signame (si_status si)) +:+
    (if negb verbose then ", ..."
     else ", si_utime=" +:+ fmt_u (u64 (si_utime si)) +:+ ", si_stime=" +:+ fmt_u (u64 (si_stime si)))
  else if (signo =? 4) || (signo =? 8) || (signo =? 11) || (signo =? 7) then
    ", si_addr=" +:+ fmt_sx (u64 (si_addr si))
  else if signo =? 29 then
    if (si_code si =? 1) || (si_code si =? 2) || (si_code si =? 3)
    then ", si_band=" +:+ fmt_d (si_band si) else ""
  else
    (if negb (si_pid si =? 0) || negb (si_uid si =? 0) then sender_text si else "") +:+
    value_text verbose si.

Definition printsiginfo (si : siginfo) (verbose : bool) : string :=
  if si_signo si =? 0 then "{}"
  else
    "{si_signo=" +:+ signame (si_signo si) +:+ code_text si +:+ errno_text si +:+
    (if si_code si <=? 0 then user_text verbose si else kernel_text verbose si) +:+ "}".
End siginfo.

(** ** Reading a mask back *)

(** The pieces between "[" and "]", separated by blanks. *)
Fixpoint mask_tokens (cur s : string) : list string :=
  match s with
  | EmptyString => []
  | String c s =>
      if Ascii.eqb c "]" then (if String.eqb cur "" then [] else [cur])
      else if Ascii.eqb c " " then cur :: mask_tokens "" s
      else mask_tokens (cur +:+ String c "") s
  end.

Definition token_value (t : string) : option Z :=
  Z.of_nat <$> head (List.filter (fun i => String.eqb t (mask_name (Z.of_nat i))) (seq 1 64)).

(** Whether members or the other signals are listed, and which. *)
Definition read_mask (s : string) : option (bool * list Z) :=
  match s with
  | String "~" (String "[" s) => Some (false, omap token_value (mask_tokens "" s))
  | String "[" s => Some (true, omap token_value (mask_tokens "" s))
  | _ => None
  end.

(** The signals the loop lists. *)
Fixpoint listed (n : nat) (i mask : Z) (show : bool) : list Z :=
  match n with
  | O => []
  | S n => if Bool.eqb (sigismember mask i) show then i :: listed n (i + 1) mask show
           else listed n (i + 1) mask show
  end.

Fixpoint no_sep (s : string) : bool :=
  match s with
  | EmptyString => true
  | String c s => negb (Ascii.eqb c "]") && negb (Ascii.eqb c " ") && no_sep s
  end.

Definition name_ok (i : nat) : bool :=
  let t := mask_name (Z.of_nat i) in
  no_sep t && negb (String.eqb t "") && (slen t <=? 7) &&
  match token_value t with Some j => j =? Z.of_nat i | None => false end.

Lemma mask_name_ok i : 1 <= i <= 64 ->
  let t := mask_name i in
  no_sep t = true /\ t <> "" /\ slen t <= 7 /\ token_value t = Some i.
Proof.
  intros Hi. assert (H : forallb name_ok (seq 1 64) = true) by (vm_compute; reflexivity).
  rewrite forallb_forall in H. specialize (H (Z.to_nat i) ltac:(apply in_seq; lia)).
  unfold name_ok in H. rewrite Z2Nat.id in H by lia. cbv zeta in *.
  destruct (token_value (mask_name i)) as [j|]; rewrite ?andb_false_r, ?andb_true_iff in H; [|done].
  destruct H as [[[H1 H2] H3] H4]. apply Z.eqb_eq in H4 as ->. apply Z.leb_le in H3.
  apply negb_true_iff, String.eqb_neq in H2. done.
Qed.

Lemma mask_tokens_word cur w s :
  no_sep w = true -> mask_tokens cur (w +:+ s) = mask_tokens (cur +:+ w) s.
Proof.
  revert cur. induction w as [|c w IH]; intros cur H; [by rewrite sapp_nil_r|].
  simpl in H. rewrite app_String. cbn [mask_tokens].
  destruct (Ascii.eqb c "]"); [done|]. destruct (Ascii.eqb c " "); [done|].
  rewrite IH by done. by rewrite sapp_assoc.
Qed.

Lemma mask_loop_spec n i mask show sep :
  1 <= i -> i + Z.of_nat n <= 64 ->
  let '(out, sep') := mask_loop n i mask show sep in
  let l := listed n i mask show in
  (l = [] -> out = "" /\ sep' = sep) /\
  (l <> [] -> sep' = " " /\ exists body,
     out = sep +:+ body /\ omap token_value (mask_tokens "" (body +:+ "]")) = l) /\
  slen out <= Z.of_nat n * (7 + Z.max 1 (slen sep)).
Proof.
  revert i sep. induction n as [|n IH]; intros i sep Hi Hn; simpl.
  { done. }
  destruct (Bool.eqb (sigismember mask i) show).
  - specialize (IH (i + 1) " " ltac:(lia) ltac:(lia)).
    destruct (mask_loop n (i + 1) mask show " ") as [out sep'].
    destruct IH as (Hnil & Hcons & Hlen).
    destruct (mask_name_ok i ltac:(lia)) as (Hsep & Hne & Hl7 & Hval). cbv zeta in *.
    split; [done|]. split.
    + intros _. destruct (listed n (i + 1) mask show) as [|j l] eqn:El.
      * destruct (Hnil eq_refl) as [-> ->]. split; [done|].
        exists (mask_name i). rewrite sapp_nil_r. split; [done|].
        rewrite mask_tokens_word, app_Empty by done. simpl.
        rewrite (proj2 (String.eqb_neq _ _) Hne). simpl. by rewrite Hval.
      * destruct Hcons as (-> & body & -> & Hb); [done|]. split; [done|].
        exists (mask_name i +:+ " " +:+ body). rewrite sapp_assoc. split; [done|].
        rewrite !sapp_assoc, mask_tokens_word, app_Empty by done.
        rewrite app_String, app_Empty. cbn [mask_tokens]. simpl. rewrite Hval. by rewrite <- Hb.
    + rewrite !slen_app. change (slen " ") with 1 in Hlen.
      pose proof (slen_nonneg sep). nia.
  - specialize (IH (i + 1) sep ltac:(lia) ltac:(lia)).
    destruct (mask_loop n (i + 1) mask show sep) as [out sep'].
    destruct IH as (Hnil & Hcons & Hlen). split_and!; [done|done|].
    pose proof (slen_nonneg sep). nia.
Qed.

Lemma elem_of_listed n i mask show j :
  j ∈ listed n i mask show <-> i <= j < i + Z.of_nat n /\ sigismember mask j = show.
Proof.
  revert i. induction n as [|n IH]; intros i; simpl.
  { rewrite elem_of_nil. lia. }
  destruct (Bool.eqb (sigismember mask i) show) eqn:E.
  - apply Bool.eqb_prop in E. rewrite elem_of_cons, IH.
    split; [intros [-> | ?]; (split; [lia|tauto])|].
    intros [? ?]. destruct (decide (j = i)); [by left|right]. split; [lia|done].
  - rewrite IH. split; [intros [? ?]; split; [lia|done]|].
    intros [? Hs]. split; [|done]. destruct (decide (j = i)) as [->|]; [|lia].
    rewrite Hs, Bool.eqb_reflx in E. done.
Qed.

(** ** Properties *)

(** sprintsigmask is readable.  For every mask the text can be read back
    as a polarity and a list of signals such that each signal from 1 to
    maxsigs - 1 is a member exactly when it is listed (members shown) or not
    listed ("~[...]"), and it always fits the static buffer. *)
Theorem sprintsigmask_readable mask rt :
  exists sigs,
    read_mask (sprintsigmask "" mask rt) = Some (show_members mask rt, sigs) /\
    (forall i, 1 <= i < maxsigs rt ->
       sigismember mask i = (if show_members mask rt then bool_decide (i ∈ sigs)
                             else negb (bool_decide (i ∈ sigs)))) /\
    slen (sprintsigmask "" mask rt) + 1 <= sigmask_bufsize.
Proof.
  set (show := show_members mask rt). set (n := Z.to_nat (maxsigs rt - 1)).
  assert (Hn : 1 + Z.of_nat n = maxsigs rt /\ maxsigs rt <= 64)
    by (unfold n; destruct rt; vm_compute; split; congruence).
  destruct Hn as [Hn Hmax].
  exists (listed n 1 mask show). split; [|split].
  - unfold sprintsigmask. fold show n.
    pose proof (mask_loop_spec n 1 mask show "[" ltac:(lia) ltac:(lia)) as H.
    destruct (mask_loop n 1 mask show "[") as [out sep]. destruct H as (Hnil & Hcons & _).
    destruct (listed n 1 mask show) as [|j l].
    + destruct (Hnil eq_refl) as [-> ->]. by destruct show.
    + destruct Hcons as (-> & body & -> & Hb); [done|].
      change (String.eqb " " "[") with false. cbn iota. rewrite app_Empty, !sapp_assoc.
      destruct show; simpl; by rewrite <- Hb.
  - intros i Hi. assert (Hin : i ∈ listed n 1 mask show <-> sigismember mask i = show)
      by (rewrite elem_of_listed; split; [tauto|]; intros; split; [lia|done]).
    destruct (decide (sigismember mask i = show)) as [E|E].
    + rewrite bool_decide_eq_true_2 by tauto. rewrite E. by destruct show.
    + rewrite bool_decide_eq_false_2 by tauto. by destruct show, (sigismember mask i).
  - unfold sprintsigmask. fold show n.
    pose proof (mask_loop_spec n 1 mask show "[" ltac:(lia) ltac:(lia)) as H.
    destruct (mask_loop n 1 mask show "[") as [out sep]. destruct H as (_ & _ & Hlen).
    rewrite !slen_app. change (slen "[") with 1 in Hlen. change (slen "]") with 1.
    assert (slen (if show then "" else "~") <= 1) by (by destruct show).
    assert (slen (if String.eqb sep "[" then "[" else "") <= 1) by (by destruct (String.eqb sep "[")).
    change (slen "") with 0. change sigmask_bufsize with 1360. change (Z.max 1 1) with 1 in Hlen. lia.
Qed.

(** The last real-time signal is never shown: the loops stop before
    __SIGRTMAX, so masks that differ only in signal 64 have the same text. *)
Theorem sprintsigmask_omits_sigrtmax mask str :
  sprintsigmask str (Z.setbit mask 63) true = sprintsigmask str (Z.clearbit mask 63) true.
Proof.
  assert (Hmem : forall i, 1 <= i < 64 ->
            sigismember (Z.setbit mask 63) i = sigismember (Z.clearbit mask 63) i).
  { intros i Hi. unfold sigismember. rewrite Z.setbit_neq, Z.clearbit_neq by lia. done. }
  assert (Hcount : count_members (Z.setbit mask 63) true = count_members (Z.clearbit mask 63) true).
  { unfold count_members. apply (f_equal Z.of_nat), (f_equal length), List.filter_ext_in. intros i Hi%in_seq.
    apply Hmem. change (Z.to_nat (maxsigs true - 1)) with 63%nat in Hi. lia. }
  unfold sprintsigmask, show_members. rewrite Hcount.
  set (show := _ <? _). change (Z.to_nat (maxsigs true - 1)) with 63%nat.
  assert (Hloop : forall n i sep, 1 <= i -> i + Z.of_nat n <= 64 ->
            mask_loop n i (Z.setbit mask 63) show sep = mask_loop n i (Z.clearbit mask 63) show sep).
  { induction n as [|n IH]; intros i sep Hi Hn; [done|]. cbn [mask_loop].
    rewrite Hmem by lia. destruct (Bool.eqb _ _); by rewrite IH by lia. }
  by rewrite Hloop by lia.
Qed.
