(* ===== verification/Time.v ===== *)
(** * Decoders of the time system calls (time.c)

    printtv(tcp, addr) and printitv(tcp, addr) are the macros of defs.h and
    time.c for BITNESS_CURRENT; BITNESS_32 is only passed on ALPHA. *)

From S2P Require Import Prelude Xlat Quote Tracee Decode Io Args Signal.
Local Open Scope string_scope.
Local Open Scope list_scope.
Local Open Scope Z_scope.

Definition UTIME_NOW : Z := 2 ^ 30 - 1.
Definition UTIME_OMIT : Z := 2 ^ 30 - 2.

Definition which : list xlat :=
  [mk_xlat 0 "ITIMER_REAL"; mk_xlat 1 "ITIMER_VIRTUAL"; mk_xlat 2 "ITIMER_PROF"].

Definition adjtimex_modes : list xlat :=
  [mk_xlat 0 "0"; mk_xlat 1 "ADJ_OFFSET"; mk_xlat 2 "ADJ_FREQUENCY"; mk_xlat 4 "ADJ_MAXERROR";
   mk_xlat 8 "ADJ_ESTERROR"; mk_xlat 16 "ADJ_STATUS"; mk_xlat 32 "ADJ_TIMECONST";
   mk_xlat 0x4000 "ADJ_TICK"; mk_xlat 0x8001 "ADJ_OFFSET_SINGLESHOT"].

Definition adjtimex_status : list xlat :=
  [mk_xlat 1 "STA_PLL"; mk_xlat 2 "STA_PPSFREQ"; mk_xlat 4 "STA_PPSTIME"; mk_xlat 8 "STA_FLL";
   mk_xlat 16 "STA_INS"; mk_xlat 32 "STA_DEL"; mk_xlat 64 "STA_UNSYNC";
   mk_xlat 0x80 "STA_FREQHOLD"; mk_xlat 0x100 "STA_PPSSIGNAL"; mk_xlat 0x200 "STA_PPSJITTER";
   mk_xlat 0x400 "STA_PPSWANDER"; mk_xlat 0x800 "STA_PPSERROR"; mk_xlat 0x1000 "STA_CLOCKERR";
   mk_xlat 0x2000 "STA_NANO"; mk_xlat 0x4000 "STA_MODE"; mk_xlat 0x8000 "STA_CLK"].

Definition adjtimex_state : list xlat :=
  [mk_xlat 0 "TIME_OK"; mk_xlat 1 "TIME_INS"; mk_xlat 2 "TIME_DEL"; mk_xlat 3 "TIME_OOP";
   mk_xlat 4 "TIME_WAIT"; mk_xlat 5 "TIME_ERROR"].

Definition clockflags : list xlat := [mk_xlat 1 "TIMER_ABSTIME"].

Definition clocknames : list xlat :=
  [mk_xlat 0 "CLOCK_REALTIME"; mk_xlat 1 "CLOCK_MONOTONIC";
   mk_xlat 2 "CLOCK_PROCESS_CPUTIME_ID"; mk_xlat 3 "CLOCK_THREAD_CPUTIME_ID";
   mk_xlat 4 "CLOCK_MONOTONIC_RAW"; mk_xlat 5 "CLOCK_REALTIME_COARSE";
   mk_xlat 6 "CLOCK_MONOTONIC_COARSE"].

Definition SIGEV_SIGNAL : Z := 0.
Definition SIGEV_NONE : Z := 1.
Definition SIGEV_THREAD : Z := 2.
Definition SIGEV_THREAD_ID : Z := 4.
Definition sigev_value : list xlat :=
  [mk_xlat (SIGEV_SIGNAL + 1) "SIGEV_SIGNAL"; mk_xlat (SIGEV_NONE + 1) "SIGEV_NONE";
   mk_xlat (SIGEV_THREAD + 1) "SIGEV_THREAD"; mk_xlat (SIGEV_THREAD_ID + 1) "SIGEV_THREAD_ID"].

Definition timerfdflags : list xlat := [mk_xlat 1 "TFD_TIMER_ABSTIME"].

(** tprint_timeval32 and tprint_timeval of a pair of unsigned numbers. *)
Definition timeval_text (sec usec : Z) : string :=
  "{" +:+ fmt_u sec +:+ ", " +:+ fmt_u usec +:+ "}".


Section time.
Context `{K : Kernel}.

(** The members of a pair of words (struct timeval, struct timeval32, struct
    timespec) of the tracee's word size. *)
Definition pair_size (e : denv) : Z := if wordsize e =? 4 then 8 else 16.
Definition pair_fst (e : denv) (bs : list Z) : Z :=
  if wordsize e =? 4 then fld 4 0 bs else fld 8 0 bs.
Definition pair_snd (e : denv) (bs : list Z) : Z :=
  if wordsize e =? 4 then fld 4 4 bs else fld 8 8 bs.

(** sprinttv; the text. *)
Definition sprinttv (addr : Z) (special : bool) : D string :=
  e ← ask;
  if addr =? 0 then mret "NULL"
  else if negb (d_verbose e) then mret (hexl addr)
  else
    tv ← umove_struct addr (pair_size e);
    mret
      match tv with
      | Some tv =>
          let sec := pair_fst e tv in
          let usec := pair_snd e tv in
          if special && (sec =? 0) && (usec =? UTIME_NOW) then "UTIME_NOW"
          else if special && (sec =? 0) && (usec =? UTIME_OMIT) then "UTIME_OMIT"
          else timeval_text sec usec
      | None => "{...}"
      end.

Definition printtv_bitness (addr : Z) (special : bool) : D unit :=
  buf ← sprinttv addr special; tp buf.
Definition printtv (addr : Z) : D unit := printtv_bitness addr false.

Definition sprint_timespec (addr : Z) : D string :=
  e ← ask;
  if addr =? 0 then mret "NULL"
  else if negb (d_verbose e) then mret (hexl addr)
  else
    ts ← umove_struct addr (pair_size e);
    mret
      match ts with
      | Some ts => timeval_text (pair_fst e ts) (pair_snd e ts)
      | None => "{...}"
      end.
Definition print_timespec (addr : Z) : D unit := buf ← sprint_timespec addr; tp buf.

Definition sys_time : D Z :=
  _ ← if_exiting (a0 ← arg 0; printnum a0 fmt_ld); mret 0.
Definition sys_stime : D Z :=
  _ ← if_exiting (a0 ← arg 0; printnum a0 fmt_ld); mret 0.

Definition sys_gettimeofday : D Z :=
  e ← ask;
  _ ← if_exiting (
    a0 ← arg 0; a1 ← arg 1;
    if syserror e then tp (hexl a0 +:+ ", " +:+ hexl a1)
    else _ ← printtv a0; _ ← tp ", "; printtv a1);
  mret 0.

Definition sys_settimeofday : D Z :=
  _ ← if_entering (a0 ← arg 0; a1 ← arg 1; _ ← printtv a0; _ ← tp ", "; printtv a1);
  mret 0.

(** [if (syserror(tcp)) tprintf("%#lx", addr); else print(tcp, addr);] *)
Definition unless_error (addr : Z) (print : Z -> D unit) : D unit :=
  e ← ask; if syserror e then tp (hexl addr) else print addr.

Definition sys_adjtime : D Z :=
  e ← ask;
  a0 ← arg 0; a1 ← arg 1;
  _ ← (if d_entering e then _ ← printtv a0; tp ", " else unless_error a1 printtv);
  mret 0.

Definition sys_nanosleep : D Z :=
  e ← ask;
  a0 ← arg 0; a1 ← arg 1;
  _ ← (if d_entering e then _ ← print_timespec a0; tp ", "
       else if is_restart_error (d_error e) || (a1 =? 0) then print_timespec a1
       else tp (hexl a1));
  mret 0.

Definition printitv (addr : Z) : D unit :=
  e ← ask;
  if addr =? 0 then tp "NULL"
  else if negb (d_verbose e) then tp (hexl addr)
  else
    itv ← umove_struct addr (2 * pair_size e);
    match itv with
    | Some itv =>
        let value := drop (Z.to_nat (pair_size e)) itv in
        _ ← tp "{it_interval=";
        _ ← tp (timeval_text (pair_fst e itv) (pair_snd e itv));
        _ ← tp ", it_value=";
        _ ← tp (timeval_text (pair_fst e value) (pair_snd e value));
        tp "}"
    | None => tp "{...}"
    end.

Definition sys_getitimer : D Z :=
  e ← ask;
  a0 ← arg 0; a1 ← arg 1;
  _ ← (if d_entering e then _ ← print_xval which a0 "ITIMER_???"; tp ", "
       else unless_error a1 printitv);
  mret 0.

Definition sys_setitimer : D Z :=
  e ← ask;
  a0 ← arg 0; a1 ← arg 1; a2 ← arg 2;
  _ ← (if d_entering e then
         _ ← print_xval which a0 "ITIMER_???"; _ ← tp ", "; _ ← printitv a1; tp ", "
       else unless_error a2 printitv);
  mret 0.

(** The body shared by tprint_timex32 and tprint_timex: [u] and [d] print the
    unsigned and signed member at an index of struct timex, [w] wide. *)
Definition timex_body (bs : list Z) (u d : nat -> string) (shift tm : string) (modes status : Z)
    : D unit :=
  _ ← tp "{modes=";
  _ ← print_flags adjtimex_modes modes "ADJ_???";
  _ ← tp (", offset=" +:+ d 1%nat +:+ ", freq=" +:+ d 2%nat +:+ ", maxerror=" +:+ d 3%nat +:+ ", ");
  _ ← tp ("esterror=" +:+ u 4%nat +:+ ", status=");
  _ ← print_flags adjtimex_status status "STA_???";
  _ ← tp (", constant=" +:+ d 6%nat +:+ ", precision=" +:+ u 7%nat +:+ ", ");
  _ ← tp ("tolerance=" +:+ d 8%nat +:+ ", time=");
  _ ← tp tm;
  _ ← tp (", tick=" +:+ d 11%nat +:+ ", ppsfreq=" +:+ d 12%nat +:+ ", jitter=" +:+ d 13%nat);
  _ ← tp (", shift=" +:+ shift +:+ ", stabil=" +:+ d 15%nat +:+ ", jitcnt=" +:+ d 16%nat);
  _ ← tp (", calcnt=" +:+ d 17%nat +:+ ", errcnt=" +:+ d 18%nat +:+ ", stbcnt=" +:+ d 19%nat);
  tp "}".

(** The members of the 32-bit struct are ints; those of struct timex are longs
    at multiples of 8, [modes], [status] and [shift] being ints with padding.
    The result is false when the struct cannot be read. *)
Definition tprint_timex32 (addr : Z) : D bool :=
  tx ← umove_struct addr 80;
  match tx with
  | None => mret false
  | Some tx =>
      _ ← timex_body tx
            (fun i => fmt_u (fld 4 (4 * i) tx)) (fun i => fmt_d (fld_int (4 * i) tx))
            (fmt_d (fld_int 56 tx)) (timeval_text (fld 4 36 tx) (fld 4 40 tx))
            (fld 4 0 tx) (fld 4 20 tx);
      mret true
  end.

Definition tprint_timex (addr : Z) : D bool :=
  e ← ask;
  if wordsize e =? 4 then tprint_timex32 addr
  else
    tx ← umove_struct addr 208;
    match tx with
    | None => mret false
    | Some tx =>
        _ ← timex_body tx
              (fun i => fmt_u (fld 8 (8 * i) tx)) (fun i => fmt_d (fld_long (8 * i) tx))
              (fmt_d (fld_int 112 tx)) (timeval_text (fld 8 72 tx) (fld 8 80 tx))
              (fld 4 0 tx) (fld 4 40 tx);
        mret true
    end.

Definition do_adjtimex (addr : Z) : D Z :=
  e ← ask;
  _ ← (if addr =? 0 then tp "NULL"
       else if syserror e || negb (d_verbose e) then tp (hexl addr)
       else ok ← tprint_timex addr; if ok : bool then mret tt else tp "{...}");
  if syserror e then mret 0
  else
    let name := xlookup adjtimex_state (s32 (d_rval e)) in
    _ ← put_auxstr name;
    mret match name with Some _ => RVAL_STR | None => 0 end.

Definition sys_adjtimex : D Z :=
  e ← ask;
  if d_entering e then mret 0 else a0 ← arg 0; do_adjtimex a0.

Definition print_clock (v : Z) : D unit := print_xval clocknames v "CLOCK_???".

Definition sys_clock_settime : D Z :=
  _ ← if_entering (a0 ← arg 0; a1 ← arg 1; _ ← print_clock a0; _ ← tp ", "; printtv a1);
  mret 0.

Definition sys_clock_gettime : D Z :=
  e ← ask;
  a0 ← arg 0; a1 ← arg 1;
  _ ← (if d_entering e then _ ← print_clock a0; tp ", " else unless_error a1 printtv);
  mret 0.

Definition sys_clock_nanosleep : D Z :=
  e ← ask;
  a0 ← arg 0; a1 ← arg 1; a2 ← arg 2; a3 ← arg 3;
  _ ← (if d_entering e then
         _ ← print_clock a0; _ ← tp ", ";
         _ ← print_flags clockflags a1 "TIMER_???"; _ ← tp ", ";
         _ ← printtv a2; tp ", "
       else unless_error a3 printtv);
  mret 0.

Definition sys_clock_adjtime : D Z :=
  e ← ask;
  a0 ← arg 0; a1 ← arg 1;
  if d_entering e then _ ← print_clock a0; _ ← tp ", "; mret 0
  else do_adjtimex a1.

(** The tail shared by printsigevent32 and printsigevent. *)
Definition sigevent_tail (value : string) (signo notify tid : Z) (thread : string) : D unit :=
  _ ← tp ("{" +:+ value +:+ ", ");
  _ ← (if notify =? SIGEV_SIGNAL then tp (signame signo +:+ ", ")
       else tp (fmt_uint signo +:+ ", "));
  _ ← print_xval sigev_value (notify + 1) "SIGEV_???";
  _ ← tp ", ";
  _ ← (if notify =? SIGEV_THREAD_ID then tp ("{" +:+ fmt_d tid +:+ "}")
       else if notify =? SIGEV_THREAD then tp thread
       else tp "{...}");
  tp "}".

Definition printsigevent32 (addr : Z) : D unit :=
  sev ← umove_struct addr 20;
  match sev with
  | None => tp "{...}"
  | Some sev =>
      sigevent_tail (fmt_sx (fld 4 0 sev)) (fld_int 4 sev) (fld_int 8 sev) (fld_int 12 sev)
        ("{" +:+ fmt_sx (fld 4 12 sev) +:+ ", " +:+ fmt_sx (fld 4 16 sev) +:+ "}")
  end.

Definition printsigevent (addr : Z) : D unit :=
  e ← ask;
  if wordsize e =? 4 then printsigevent32 addr
  else
    sev ← umove_struct addr 64;
    match sev with
    | None => tp "{...}"
    | Some sev =>
        sigevent_tail (fmt_p (fld 8 0 sev)) (fld_int 8 sev) (fld_int 12 sev) (fld_int 16 sev)
          ("{" +:+ fmt_p (fld 8 16 sev) +:+ ", " +:+ fmt_p (fld 8 24 sev) +:+ "}")
    end.

Definition sys_timer_create : D Z :=
  e ← ask;
  a0 ← arg 0; a1 ← arg 1; a2 ← arg 2;
  _ ← (if d_entering e then
         _ ← print_clock a0; _ ← tp ", "; _ ← printsigevent a1; tp ", "
       else if syserror e then tp (hexl a2)
       else
         id ← umove a2 4;
         match id with
         | None => tp (hexl a2)
         | Some id => tp ("{" +:+ fmt_int id +:+ "}")
         end);
  mret 0.

Definition sys_timer_settime : D Z :=
  e ← ask;
  a0 ← arg 0; a1 ← arg 1; a2 ← arg 2; a3 ← arg 3;
  _ ← (if d_entering e then
         _ ← tp (hexl a0 +:+ ", ");
         _ ← print_flags clockflags a1 "TIMER_???"; _ ← tp ", ";
         _ ← printitv a2; tp ", "
       else unless_error a3 printitv);
  mret 0.

Definition sys_timer_gettime : D Z :=
  e ← ask;
  a0 ← arg 0; a1 ← arg 1;
  _ ← (if d_entering e then tp (hexl a0 +:+ ", ") else unless_error a1 printitv);
  mret 0.

Definition sys_timerfd : D Z :=
  _ ← if_entering (
    a0 ← arg 0; a1 ← arg 1; a2 ← arg 2; a3 ← arg 3;
    _ ← tp (fmt_ld a0 +:+ ", ");
    _ ← print_clock a1; _ ← tp ", ";
    _ ← print_flags timerfdflags a2 "TFD_???"; _ ← tp ", ";
    printitv a3);
  mret 0.

Definition sys_timerfd_create : D Z :=
  _ ← if_entering (
    a0 ← arg 0; a1 ← arg 1;
    _ ← print_clock a0; _ ← tp ", ";
    print_flags timerfdflags a1 "TFD_???");
  mret 0.

Definition sys_timerfd_settime : D Z :=
  _ ← if_entering (
    a0 ← arg 0; a1 ← arg 1; a2 ← arg 2; a3 ← arg 3;
    _ ← printfd a0; _ ← tp ", ";
    _ ← print_flags timerfdflags a1 "TFD_???"; _ ← tp ", ";
    _ ← printitv a2; _ ← tp ", ";
    printitv a3);
  mret 0.

Definition sys_timerfd_gettime : D Z :=
  _ ← if_entering (
    a0 ← arg 0; a1 ← arg 1;
    _ ← printfd a0; _ ← tp ", ";
    printitv a1);
  mret 0.
End time.

(** ** The decoders return and only print *)

Section discipline.
Context `{K : Kernel} (e : denv).

Lemma Prints_sprinttv a sp : Prints e (sprinttv a sp).
Proof. unfold sprinttv. decodes. Qed.
Hint Resolve Prints_sprinttv : decodes.
Lemma Prints_printtv_bitness a sp : Prints e (printtv_bitness a sp).
Proof. unfold printtv_bitness. decodes. Qed.
Lemma Prints_printtv a : Prints e (printtv a).
Proof. apply Prints_printtv_bitness. Qed.
Lemma Prints_sprint_timespec a : Prints e (sprint_timespec a).
Proof. unfold sprint_timespec. decodes. Qed.
Hint Resolve Prints_sprint_timespec : decodes.
Lemma Prints_print_timespec a : Prints e (print_timespec a).
Proof. unfold print_timespec. decodes. Qed.
Lemma Prints_printitv a : Prints e (printitv a).
Proof. unfold printitv. decodes. Qed.
Lemma Prints_unless_error a f : (forall x, Prints e (f x)) -> Prints e (unless_error a f).
Proof. intros Hf. unfold unless_error. decodes. Qed.
Lemma Prints_print_clock v : Prints e (print_clock v).
Proof. apply Prints_tp. Qed.
Lemma Prints_timex_body bs u d sh tm m st : Prints e (timex_body bs u d sh tm m st).
Proof. unfold timex_body. decodes. Qed.
Hint Resolve Prints_timex_body : decodes.
Lemma Prints_tprint_timex a : Prints e (tprint_timex a).
Proof. unfold tprint_timex, tprint_timex32. decodes. Qed.
Lemma Prints_sigevent_tail v s n t th : Prints e (sigevent_tail v s n t th).
Proof. unfold sigevent_tail. decodes. Qed.
Hint Resolve Prints_sigevent_tail : decodes.
Lemma Prints_printsigevent a : Prints e (printsigevent a).
Proof. unfold printsigevent, printsigevent32. decodes. Qed.
End discipline.

#[export] Hint Resolve Prints_sprint_timespec Prints_printtv_bitness Prints_printtv
  Prints_print_timespec Prints_printitv
  Prints_unless_error Prints_print_clock Prints_tprint_timex Prints_printsigevent : decodes.
