(* ===== verification/File.v ===== *)
(** * Decoders of the file system calls that take paths, modes and offsets
      (file.c: open to swapon; sprint_open_modes, sprintmode, print_dirfd)

    The calls that read structures back from the tracee (stat, statfs,
    directory entries, extended attributes) are in Stat. *)

From S2P Require Import Prelude Xlat Quote Tracee Decode Io Args Signal Time.
Local Open Scope string_scope.
Local Open Scope list_scope.
Local Open Scope Z_scope.

Definition open_access_modes : list xlat :=
  [mk_xlat 0 "O_RDONLY"; mk_xlat 1 "O_WRONLY"; mk_xlat 2 "O_RDWR"; mk_xlat 3 "O_ACCMODE"].

Definition open_mode_flags : list xlat :=
  [mk_xlat 0x40 "O_CREAT"; mk_xlat 0x80 "O_EXCL"; mk_xlat 0x100 "O_NOCTTY";
   mk_xlat 0x200 "O_TRUNC"; mk_xlat 0x400 "O_APPEND"; mk_xlat 0x800 "O_NONBLOCK";
   mk_xlat 0x101000 "O_SYNC"; mk_xlat 0x2000 "O_ASYNC"; mk_xlat 0x1000 "O_DSYNC";
   mk_xlat 0x101000 "O_RSYNC"; mk_xlat 0x4000 "O_DIRECT"; mk_xlat 0x8000 "O_LARGEFILE";
   mk_xlat 0x10000 "O_DIRECTORY"; mk_xlat 0x20000 "O_NOFOLLOW"; mk_xlat 0x40000 "O_NOATIME";
   mk_xlat 0x80000 "O_CLOEXEC"; mk_xlat 0x800 "FNDELAY"; mk_xlat 0x400 "FAPPEND";
   mk_xlat 0x2000 "FASYNC"].

Definition access_flags : list xlat :=
  [mk_xlat 0 "F_OK"; mk_xlat 4 "R_OK"; mk_xlat 2 "W_OK"; mk_xlat 1 "X_OK"].

Definition whence_codes : list xlat :=
  [mk_xlat 0 "SEEK_SET"; mk_xlat 1 "SEEK_CUR"; mk_xlat 2 "SEEK_END"; mk_xlat 3 "SEEK_DATA";
   mk_xlat 4 "SEEK_HOLE"].

Definition modetypes : list xlat :=
  [mk_xlat 0x8000 "S_IFREG"; mk_xlat 0xc000 "S_IFSOCK"; mk_xlat 0x1000 "S_IFIFO";
   mk_xlat 0xa000 "S_IFLNK"; mk_xlat 0x4000 "S_IFDIR"; mk_xlat 0x6000 "S_IFBLK";
   mk_xlat 0x2000 "S_IFCHR"].

Definition at_flags : list xlat :=
  [mk_xlat 0x100 "AT_SYMLINK_NOFOLLOW"; mk_xlat 0x200 "AT_REMOVEDIR";
   mk_xlat 0x400 "AT_SYMLINK_FOLLOW"; mk_xlat 0x800 "AT_NO_AUTOMOUNT";
   mk_xlat 0x1000 "AT_EMPTY_PATH"].

Definition advise : list xlat :=
  [mk_xlat 0 "POSIX_FADV_NORMAL"; mk_xlat 1 "POSIX_FADV_RANDOM";
   mk_xlat 2 "POSIX_FADV_SEQUENTIAL"; mk_xlat 3 "POSIX_FADV_WILLNEED";
   mk_xlat 4 "POSIX_FADV_DONTNEED"; mk_xlat 5 "POSIX_FADV_NOREUSE"].

Definition inotify_modes : list xlat :=
  [mk_xlat 1 "IN_ACCESS"; mk_xlat 2 "IN_MODIFY"; mk_xlat 4 "IN_ATTRIB";
   mk_xlat 8 "IN_CLOSE_WRITE"; mk_xlat 16 "IN_CLOSE_NOWRITE"; mk_xlat 32 "IN_OPEN";
   mk_xlat 64 "IN_MOVED_FROM"; mk_xlat 0x80 "IN_MOVED_TO"; mk_xlat 0x100 "IN_CREATE";
   mk_xlat 0x200 "IN_DELETE"; mk_xlat 0x400 "IN_DELETE_SELF"; mk_xlat 0x800 "IN_MOVE_SELF";
   mk_xlat 0x2000 "IN_UNMOUNT"; mk_xlat 0x4000 "IN_Q_OVERFLOW"; mk_xlat 0x8000 "IN_IGNORED";
   mk_xlat 0x1000000 "IN_ONLYDIR"; mk_xlat 0x2000000 "IN_DONT_FOLLOW";
   mk_xlat 0x20000000 "IN_MASK_ADD"; mk_xlat 0x40000000 "IN_ISDIR";
   mk_xlat (-2147483648) "IN_ONESHOT"].

Definition inotify_init_flags : list xlat :=
  [mk_xlat 0x800 "IN_NONBLOCK"; mk_xlat 0x80000 "IN_CLOEXEC"].

Definition swap_flags : list xlat :=
  [mk_xlat 0x8000 "SWAP_FLAG_PREFER"; mk_xlat 0x10000 "SWAP_FLAG_DISCARD"].

Definition AT_FDCWD : Z := -100.
Definition O_CREAT : Z := 0x40.
Definition S_IFMT : Z := 0xf000.
Definition S_IFBLK : Z := 0x6000.
Definition S_IFCHR : Z := 0x2000.
Definition S_ISUID : Z := 0x800.
Definition S_ISGID : Z := 0x400.
Definition S_ISVTX : Z := 0x200.

(** ** Text *)

(** The loop of sprint_open_modes over the table; [sep] precedes the next item. *)
Fixpoint open_modes_loop (t : list xlat) (flags : Z) (sep : string) : string :=
  match t with
  | x :: t =>
      if Z.land flags (x_val x) =? x_val x then
        let flags' := Z.land flags (Z.lnot (x_val x)) in
        sep +:+ x_str x +:+ if flags' =? 0 then "" else open_modes_loop t flags' "|"
      else open_modes_loop t flags sep
  | [] => sep +:+ fmt_sx flags
  end.

(** sprint_open_modes; [flags] is a mode_t (unsigned int). *)
Definition sprint_open_modes (flags : Z) : string :=
  "flags" +:+
  match xlookup open_access_modes (Z.land flags 3) with
  | Some str =>
      let flags' := Z.land flags (Z.lnot 3) in
      " " +:+ str +:+ if flags' =? 0 then "" else open_modes_loop open_mode_flags flags' "|"
  | None => open_modes_loop open_mode_flags flags " "
  end.

(** s + n of a C string *)
Definition str_from (n : nat) (s : string) : string :=
  String.string_of_list_ascii (drop n (String.list_ascii_of_string s)).

(** sprintmode(int mode): [mode] is signed; %#o prints its unsigned image. *)
Definition sprintmode (mode : Z) : string :=
  let typ :=
    if Z.land mode S_IFMT =? 0 then Some "" else xlookup modetypes (Z.land mode S_IFMT) in
  match typ with
  | None => fmt_so (u32 mode)
  | Some s =>
      let buf := s +:+ (if has_flag mode S_ISUID then "|S_ISUID" else "") +:+
                       (if has_flag mode S_ISGID then "|S_ISGID" else "") +:+
                       (if has_flag mode S_ISVTX then "|S_ISVTX" else "") in
      let mode := Z.land mode (Z.lnot (Z.lor S_IFMT (Z.lor S_ISUID (Z.lor S_ISGID S_ISVTX)))) in
      let buf := buf +:+ if mode =? 0 then "" else "|" +:+ fmt_so (u32 mode) in
      let s := match buf with String "|" s => s | _ => buf end in
      match s with EmptyString => "0" | _ => s end
  end.

(** gnu_dev_major and gnu_dev_minor of the C library. *)
Definition dev_major (dev : Z) : Z :=
  u32 (Z.lor (Z.land (Z.shiftr dev 8) 0xfff) (Z.land (Z.shiftr dev 32) (Z.lnot 0xfff))).
Definition dev_minor (dev : Z) : Z :=
  u32 (Z.lor (Z.land dev 0xff) (Z.land (Z.shiftr dev 12) (Z.lnot 0xff))).
Definition makedev_text (dev : Z) : string :=
  "makedev(" +:+ fmt_u (dev_major dev) +:+ ", " +:+ fmt_u (dev_minor dev) +:+ ")".

(** The broken-down time localtime returns. *)
Record tm := mk_tm {
  tm_year : Z; tm_mon : Z; tm_mday : Z; tm_hour : Z; tm_min : Z; tm_sec : Z
}.

(** %02d *)
Definition fmt_02d (n : Z) : string :=
  if n <? 0 then String "-" (pad_left 1 "0" (fmt_u (- n))) else pad_left 2 "0" (fmt_u n).

(** snprintf into the buffer of sprinttime: at most 19 characters. *)
Definition snprint19 (s : string) : string :=
  String.string_of_list_ascii (take 19 (String.list_ascii_of_string s)).

Section file.
Context `{K : Kernel}.
(** localtime of the C library (the time zone of the tracer) *)
Context (localtime : Z -> option tm).

Definition sprinttime (t : Z) : string :=
  if t =? 0 then "0"
  else
    match localtime t with
    | Some m =>
        snprint19 (fmt_02d (s32 (tm_year m + 1900)) +:+ "/" +:+ fmt_02d (s32 (tm_mon m + 1)) +:+
                   "/" +:+ fmt_02d (tm_mday m) +:+ "-" +:+ fmt_02d (tm_hour m) +:+ ":" +:+
                   fmt_02d (tm_min m) +:+ ":" +:+ fmt_02d (tm_sec m))
    | None => snprint19 (fmt_u (u64 t))
    end.

(** ** The decoders *)

Definition print_dirfd (fd : Z) : D unit :=
  if s32 fd =? AT_FDCWD then tp "AT_FDCWD, " else _ ← printfd fd; tp ", ".

(** tprints(sprint_open_modes(flags) + sizeof("flags")) *)
Definition tprint_open_modes (flags : Z) : D unit :=
  tp (str_from 6 (sprint_open_modes (u32 flags))).

Definition decode_open (offset : nat) : D Z :=
  _ ← if_entering (
    path ← arg offset; flags ← arg (offset + 1); mode ← arg (offset + 2);
    _ ← printpath path;
    _ ← tp ", ";
    _ ← tprint_open_modes flags;
    if has_flag flags O_CREAT then tp (", " +:+ fmt_so mode) else mret tt);
  mret 0.

Definition sys_open : D Z := decode_open 0.

(** [if (entering(tcp)) print_dirfd(tcp, tcp->u_arg[0]);] before a decoder
    whose path is the second argument. *)
Definition at_dirfd (c : D Z) : D Z :=
  _ ← if_entering (a0 ← arg 0; print_dirfd a0); c.

Definition sys_openat : D Z := at_dirfd (decode_open 1).

Definition sys_creat : D Z :=
  _ ← if_entering (a0 ← arg 0; a1 ← arg 1; _ ← printpath a0; tp (", " +:+ fmt_so a1));
  mret 0.

Definition decode_access (offset : nat) : D Z :=
  _ ← if_entering (
    path ← arg offset; mode ← arg (offset + 1);
    _ ← printpath path; _ ← tp ", ";
    print_flags access_flags mode "?_OK");
  mret 0.
Definition sys_access : D Z := decode_access 0.
Definition sys_faccessat : D Z := at_dirfd (decode_access 1).

Definition sys_umask : D Z :=
  _ ← if_entering (a0 ← arg 0; tp (fmt_so a0));
  mret RVAL_OCTAL.

Definition sys_lseek : D Z :=
  _ ← if_entering (
    a0 ← arg 0; offset ← arg 1; a2 ← arg 2;
    let whence := s32 a2 in
    _ ← printfd a0;
    _ ← (if whence =? 0 then tp (", " +:+ fmt_u offset +:+ ", ")
         else tp (", " +:+ fmt_ld offset +:+ ", "));
    print_xval whence_codes whence "SEEK_???");
  mret RVAL_UDECIMAL.

Definition sys_llseek : D Z :=
  e ← ask;
  a0 ← arg 0; hi ← arg 1; lo ← arg 2; a3 ← arg 3; a4 ← arg 4;
  let offset := Z.lor (u64 (Z.shiftl hi 32)) (u32 lo) in
  if d_entering e then
    _ ← printfd a0;
    _ ← (if a4 =? 0 then tp (", " +:+ fmt_u offset +:+ ", ")
         else tp (", " +:+ fmt_ld offset +:+ ", "));
    mret 0
  else
    _ ← (if syserror e then tp (hexl a3 +:+ ", ")
         else
           off ← umove a3 8;
           match off with
           | None => tp (hexl a3 +:+ ", ")
           | Some off => tp ("[" +:+ fmt_u off +:+ "], ")
           end);
    _ ← print_xval whence_codes a4 "SEEK_???";
    mret 0.

Definition sys_readahead : D Z :=
  _ ← if_entering (
    a0 ← arg 0;
    _ ← printfd a0;
    argn ← printllval (fun v => ", " +:+ fmt_ld v) 1;
    v ← arg argn;
    tp (", " +:+ fmt_ld v));
  mret 0.

Definition sys_truncate : D Z :=
  _ ← if_entering (a0 ← arg 0; a1 ← arg 1; _ ← printpath a0; tp (", " +:+ fmt_u a1));
  mret 0.
Definition sys_truncate64 : D Z :=
  _ ← if_entering (
    a0 ← arg 0; _ ← printpath a0; _ ← printllval (fun v => ", " +:+ fmt_u v) 1; mret tt);
  mret 0.
Definition sys_ftruncate : D Z :=
  _ ← if_entering (a0 ← arg 0; a1 ← arg 1; _ ← printfd a0; tp (", " +:+ fmt_u a1));
  mret 0.
Definition sys_ftruncate64 : D Z :=
  _ ← if_entering (
    a0 ← arg 0; _ ← printfd a0; _ ← printllval (fun v => ", " +:+ fmt_u v) 1; mret tt);
  mret 0.

Definition sys_chdir : D Z := _ ← if_entering (a0 ← arg 0; printpath a0); mret 0.

(** path, %#lo: decode_mkdir and decode_chmod *)
Definition decode_mkdir (offset : nat) : D Z :=
  _ ← if_entering (
    path ← arg offset; mode ← arg (offset + 1);
    _ ← printpath path; tp (", " +:+ fmt_so mode));
  mret 0.
Definition sys_mkdir : D Z := decode_mkdir 0.
Definition sys_mkdirat : D Z := at_dirfd (decode_mkdir 1).

Definition sys_link : D Z :=
  _ ← if_entering (a0 ← arg 0; a1 ← arg 1; _ ← printpath a0; _ ← tp ", "; printpath a1);
  mret 0.

Definition sys_linkat : D Z :=
  _ ← if_entering (
    a0 ← arg 0; a1 ← arg 1; a2 ← arg 2; a3 ← arg 3; a4 ← arg 4;
    _ ← print_dirfd a0; _ ← printpath a1; _ ← tp ", ";
    _ ← print_dirfd a2; _ ← printpath a3; _ ← tp ", ";
    print_flags at_flags a4 "AT_???");
  mret 0.

Definition sys_unlinkat : D Z :=
  _ ← if_entering (
    a0 ← arg 0; a1 ← arg 1; a2 ← arg 2;
    _ ← print_dirfd a0; _ ← printpath a1; _ ← tp ", ";
    print_flags at_flags a2 "AT_???");
  mret 0.

Definition sys_symlinkat : D Z :=
  _ ← if_entering (
    a0 ← arg 0; a1 ← arg 1; a2 ← arg 2;
    _ ← printpath a0; _ ← tp ", "; _ ← print_dirfd a1; printpath a2);
  mret 0.

Definition decode_readlink (offset : nat) : D Z :=
  e ← ask;
  a0 ← arg offset; a1 ← arg (offset + 1); a2 ← arg (offset + 2);
  _ ← (if d_entering e then _ ← printpath a0; tp ", "
       else
         _ ← (if syserror e then tp (hexl a1) else printstr a1 (d_rval e));
         tp (", " +:+ fmt_u a2));
  mret 0.
Definition sys_readlink : D Z := decode_readlink 0.
Definition sys_readlinkat : D Z := at_dirfd (decode_readlink 1).

Definition sys_renameat : D Z :=
  _ ← if_entering (
    a0 ← arg 0; a1 ← arg 1; a2 ← arg 2; a3 ← arg 3;
    _ ← print_dirfd a0; _ ← printpath a1; _ ← tp ", "; _ ← print_dirfd a2; printpath a3);
  mret 0.

Definition sys_chown : D Z :=
  _ ← if_entering (
    a0 ← arg 0; a1 ← arg 1; a2 ← arg 2;
    _ ← printpath a0; _ ← printuid ", " a1; printuid ", " a2);
  mret 0.

Definition sys_fchownat : D Z :=
  _ ← if_entering (
    a0 ← arg 0; a1 ← arg 1; a2 ← arg 2; a3 ← arg 3; a4 ← arg 4;
    _ ← print_dirfd a0; _ ← printpath a1; _ ← printuid ", " a2; _ ← printuid ", " a3;
    _ ← tp ", ";
    print_flags at_flags a4 "AT_???");
  mret 0.

Definition sys_fchown : D Z :=
  _ ← if_entering (
    a0 ← arg 0; a1 ← arg 1; a2 ← arg 2;
    _ ← printfd a0; _ ← printuid ", " a1; printuid ", " a2);
  mret 0.

Definition decode_chmod (offset : nat) : D Z :=
  _ ← if_entering (
    path ← arg offset; mode ← arg (offset + 1);
    _ ← printpath path; tp (", " +:+ fmt_so mode));
  mret 0.
Definition sys_chmod : D Z := decode_chmod 0.
Definition sys_fchmodat : D Z := at_dirfd (decode_chmod 1).
Definition sys_fchmod : D Z :=
  _ ← if_entering (a0 ← arg 0; a1 ← arg 1; _ ← printfd a0; tp (", " +:+ fmt_so a1));
  mret 0.

(** sizeof(struct timeval) of the tracer, whatever the tracee's word size *)
Definition sizeof_timeval : Z := 16.

Definition decode_utimes (offset : nat) (special : bool) : D Z :=
  _ ← if_entering (
    path ← arg offset; tv ← arg (offset + 1);
    _ ← printpath path;
    _ ← tp ", ";
    if tv =? 0 then tp "NULL"
    else
      _ ← tp "{";
      _ ← printtv_bitness tv special;
      _ ← tp ", ";
      _ ← printtv_bitness (u64 (tv + sizeof_timeval)) special;
      tp "}");
  mret 0.
Definition sys_utimes : D Z := decode_utimes 0 false.
Definition sys_futimesat : D Z := at_dirfd (decode_utimes 1 false).
Definition sys_utimensat : D Z :=
  _ ← if_entering (
    a0 ← arg 0; a3 ← arg 3;
    _ ← print_dirfd a0;
    _ ← decode_utimes 1 true;
    _ ← tp ", ";
    print_flags at_flags a3 "AT_???");
  mret 0.

Definition sys_utime : D Z :=
  e ← ask;
  _ ← if_entering (
    a0 ← arg 0; a1 ← arg 1;
    _ ← printpath a0;
    _ ← tp ", ";
    if a1 =? 0 then tp "NULL"
    else if negb (d_verbose e) then tp (hexl a1)
    else
      u ← umove_struct a1 (2 * wordsize e);
      match u with
      | None => tp "[?, ?]"
      | Some u =>
          if wordsize e =? 8 then
            _ ← tp ("[" +:+ sprinttime (fld_long 0 u) +:+ ",");
            tp (" " +:+ sprinttime (fld_long 8 u) +:+ "]")
          else if wordsize e =? 4 then
            _ ← tp ("[" +:+ sprinttime (fld_int 0 u) +:+ ",");
            tp (" " +:+ sprinttime (fld_int 4 u) +:+ "]")
          else tp ("<decode error: unsupported wordsize " +:+ fmt_d (wordsize e) +:+ ">")
      end);
  mret 0.

(** [case S_IFCHR: case S_IFBLK:] *)
Definition is_device (mode : Z) : bool :=
  let typ := Z.land mode S_IFMT in (typ =? S_IFCHR) || (typ =? S_IFBLK).

Definition decode_mknod (offset : nat) : D Z :=
  _ ← if_entering (
    path ← arg offset; m ← arg (offset + 1); dev ← arg (offset + 2);
    let mode := s32 m in
    _ ← printpath path;
    _ ← tp (", " +:+ sprintmode mode);
    if is_device mode then tp (", " +:+ makedev_text dev) else mret tt);
  mret 0.
Definition sys_mknod : D Z := decode_mknod 0.
Definition sys_mknodat : D Z := at_dirfd (decode_mknod 1).

Definition sys_fadvise64 : D Z :=
  _ ← if_entering (
    a0 ← arg 0;
    _ ← printfd a0;
    argn ← printllval (fun v => ", " +:+ fmt_ld v) 1;
    len ← arg argn; adv ← arg (argn + 1);
    _ ← tp (", " +:+ fmt_ld len +:+ ", ");
    print_xval advise adv "POSIX_FADV_???");
  mret 0.

Definition sys_fadvise64_64 : D Z :=
  _ ← if_entering (
    a0 ← arg 0;
    _ ← printfd a0;
    argn ← printllval (fun v => ", " +:+ fmt_ld v +:+ ", ") 1;
    argn ← printllval (fun v => fmt_ld v +:+ ", ") argn;
    adv ← arg argn;
    print_xval advise adv "POSIX_FADV_???");
  mret 0.

Definition sys_inotify_add_watch : D Z :=
  _ ← if_entering (
    a0 ← arg 0; a1 ← arg 1; a2 ← arg 2;
    _ ← printfd a0; _ ← tp ", "; _ ← printpath a1; _ ← tp ", ";
    print_flags inotify_modes a2 "IN_???");
  mret 0.

Definition sys_inotify_rm_watch : D Z :=
  _ ← if_entering (a0 ← arg 0; a1 ← arg 1; _ ← printfd a0; tp (", " +:+ fmt_int a1));
  mret 0.

Definition sys_inotify_init1 : D Z :=
  _ ← if_entering (a0 ← arg 0; print_flags inotify_init_flags a0 "IN_???");
  mret 0.

Definition sys_fallocate : D Z :=
  _ ← if_entering (
    a0 ← arg 0; a1 ← arg 1;
    _ ← printfd a0;
    _ ← tp (", " +:+ fmt_so a1 +:+ ", ");
    argn ← printllval (fun v => fmt_u v +:+ ", ") 2;
    _ ← printllval fmt_u argn;
    mret tt);
  mret 0.

Definition sys_swapon : D Z :=
  _ ← if_entering (
    a0 ← arg 0; a1 ← arg 1;
    let flags := s32 a1 in
    _ ← printpath a0;
    _ ← tp ", ";
    _ ← print_flags swap_flags (Z.land flags (Z.lnot 0x7fff)) "SWAP_FLAG_???";
    if has_flag flags 0x8000 then tp ("|" +:+ fmt_d (Z.land flags 0x7fff)) else mret tt);
  mret 0.
End file.

(** ** The decoders return and only print *)

Section discipline.
Context `{K : Kernel} (e : denv).

Lemma Prints_print_dirfd fd : Prints e (print_dirfd fd).
Proof. unfold print_dirfd. decodes. Qed.
Lemma Prints_tprint_open_modes f : Prints e (tprint_open_modes f).
Proof. apply Prints_tp. Qed.
End discipline.
#[export] Hint Resolve Prints_print_dirfd Prints_tprint_open_modes : decodes.

Section discipline.
Context `{K : Kernel} (e : denv).
Lemma Decodes_at_dirfd c Q : Decodes e c Q -> Decodes e (at_dirfd c) Q.
Proof. intros Hc. unfold at_dirfd. decodes. Qed.
Lemma Prints_decode_utimes i sp : Prints e (decode_utimes i sp).
Proof. unfold decode_utimes. decodes. Qed.
End discipline.
#[export] Hint Resolve Prints_decode_utimes : decodes.

(** ** The text of open flags *)

(** Items, each after a separator. *)
Definition after_bars (items : list string) : string :=
  foldr (fun s acc => "|" +:+ s +:+ acc) "" items.

Lemma after_bars_cons s l : after_bars (s :: l) = "|" +:+ s +:+ after_bars l.
Proof. done. Qed.

Lemma joined_after_bars s items : joined (s :: items) = s +:+ after_bars items.
Proof.
  revert s. induction items as [|s' items IH]; intros s; [by rewrite sapp_nil_r|].
  rewrite joined_cons, IH by done. done.
Qed.

(** The names of the flags found, and what is left over. *)
Definition open_items (flags : Z) : list string :=
  (x_str <$> flag_entries open_mode_flags flags) ++
  (if flag_rest open_mode_flags flags =? 0 then []
   else [fmt_sx (flag_rest open_mode_flags flags)]).

Lemma flag_entries_0 t : flag_entries t 0 = [].
Proof.
  induction t as [|x t IH]; [done|]. simpl. unfold flag_hit. rewrite Z.land_0_l.
  destruct (Z.eqb_spec (x_val x) 0) as [|Hx]; [done|]. cbn [negb andb].
  by rewrite (proj2 (Z.eqb_neq 0 (x_val x))) by congruence.
Qed.
Lemma flag_rest_0 t : flag_rest t 0 = 0.
Proof.
  induction t as [|x t IH]; [done|]. simpl. unfold flag_hit. rewrite Z.land_0_l.
  destruct (Z.eqb_spec (x_val x) 0) as [|Hx]; [done|]. cbn [negb andb].
  by rewrite (proj2 (Z.eqb_neq 0 (x_val x))) by congruence.
Qed.

Lemma open_modes_loop_spec t flags :
  Forall (fun x => x_val x <> 0) t -> flags <> 0 ->
  open_modes_loop t flags "|" =
    after_bars ((x_str <$> flag_entries t flags) ++
                (if flag_rest t flags =? 0 then [] else [fmt_sx (flag_rest t flags)])).
Proof.
  intros Ht. revert flags. induction Ht as [|x t Hx _ IH]; intros flags Hf.
  { simpl. rewrite (proj2 (Z.eqb_neq flags 0)) by done. simpl. by rewrite sapp_nil_r. }
  cbn [open_modes_loop flag_entries flag_rest].
  assert (Hhit : flag_hit x flags = (Z.land flags (x_val x) =? x_val x)).
  { unfold flag_hit. by rewrite (proj2 (Z.eqb_neq (x_val x) 0)) by done. }
  rewrite !Hhit.
  destruct (_ =? x_val x); [|by apply IH]. rewrite fmap_cons.
  cbv zeta. cbn [app]. fold (drop_bits flags x). destruct (Z.eqb_spec (drop_bits flags x) 0) as [H0|H0].
  - by rewrite H0, flag_entries_0, flag_rest_0.
  - by rewrite IH, after_bars_cons.
Qed.

Lemma slen_after_bars items : slen (after_bars items) = foldr (fun s n => 1 + slen s + n) 0 items.
Proof.
  induction items as [|s items IH]; [done|]. rewrite after_bars_cons, !slen_app, IH. cbn [foldr].
  change (slen "|") with 1. lia.
Qed.

(** A sublist of a table has no longer text than the table. *)
Lemma sublist_text_le (es t : list xlat) :
  es `sublist_of` t ->
  foldr (fun s n => 1 + slen s + n) 0 (x_str <$> es) <=
  foldr (fun s n => 1 + slen s + n) 0 (x_str <$> t).
Proof.
  induction 1 as [|x l1 l2 _ IH|x l1 l2 _ IH]; [done| |];
    rewrite !fmap_cons; cbn [foldr]; pose proof (slen_nonneg (x_str x)); lia.
Qed.

Lemma foldr_text_app l1 l2 :
  foldr (fun s n => 1 + slen s + n) 0 (l1 ++ l2) =
  foldr (fun s n => 1 + slen s + n) 0 l1 + foldr (fun s n => 1 + slen s + n) 0 l2.
Proof. induction l1 as [|s l1 IH]; [done|]. cbn [app foldr]. rewrite IH. lia. Qed.

(** The access mode is always named. *)
Lemma open_access_named flags :
  exists x, In x open_access_modes /\ x_val x = Z.land flags 3 /\ slen (x_str x) <= 9 /\
    xlookup open_access_modes (Z.land flags 3) = Some (x_str x).
Proof.
  assert (H : 0 <= Z.land flags 3 < 4).
  { change 3 with (Z.ones 2). rewrite Z.land_ones by lia. apply Z.mod_pos_bound. lia. }
  set (v := Z.land flags 3) in *.
  assert (Hv : v = 0 \/ v = 1 \/ v = 2 \/ v = 3) by lia.
  destruct Hv as [-> | [-> | [-> | ->]]]; [exists (mk_xlat 0 "O_RDONLY")|
    exists (mk_xlat 1 "O_WRONLY")|exists (mk_xlat 2 "O_RDWR")|exists (mk_xlat 3 "O_ACCMODE")];
    (split; [simpl; tauto|done]).
Qed.

Lemma open_mode_flags_nonzero : Forall (fun x => x_val x <> 0) open_mode_flags.
Proof. repeat constructor; discriminate. Qed.

Lemma open_mode_flags_text :
  foldr (fun s n => 1 + slen s + n) 0 (x_str <$> open_mode_flags) = 170.
Proof. by vm_compute. Qed.

Lemma str_from_flags s : str_from 6 ("flags " +:+ s) = s.
Proof. unfold str_from. rewrite !app_String, app_Empty. apply String.string_of_list_ascii_of_string. Qed.

(** char outstr[(1 + ARRAY_SIZE(open_mode_flags)) * sizeof("O_LARGEFILE")], the
    terminator of the table included. *)
Definition outstr_bytes : Z := (1 + (Z.of_nat (length open_mode_flags) + 1)) * 12.

(** The loop from any table; [rest] are the bits without a name. *)
Lemma sprint_open_modes_text flags acc :
  xlookup open_access_modes (Z.land flags 3) = Some (x_str acc) ->
  sprint_open_modes flags =
    "flags " +:+ x_str acc +:+ after_bars (open_items (Z.land flags (Z.lnot 3))).
Proof.
  intros Hlook. unfold sprint_open_modes, open_items. rewrite Hlook. cbv zeta.
  generalize (Z.land flags (Z.lnot 3)) as high. intros high.
  generalize open_mode_flags open_mode_flags_nonzero. intros t Ht.
  destruct (Z.eqb_spec high 0) as [->|H0].
  - by rewrite flag_entries_0, flag_rest_0, !app_String, !app_Empty.
  - by rewrite (open_modes_loop_spec t high Ht H0), !app_String, !app_Empty.
Qed.

Lemma open_items_len high : is_u32 (flag_rest open_mode_flags high) ->
  slen (after_bars (open_items high)) <= 181.
Proof.
  intros Hr. rewrite slen_after_bars. unfold open_items. rewrite foldr_text_app.
  pose proof (sublist_text_le _ _ (flag_entries_sublist open_mode_flags high)) as Hsub.
  rewrite open_mode_flags_text in Hsub. pose proof (slen_fmt_sx_u32 _ Hr).
  destruct (_ =? 0); cbn [foldr]; lia.
Qed.

Lemma flag_rest_u32 t flags : is_u32 flags -> is_u32 (flag_rest t (Z.land flags (Z.lnot 3))).
Proof.
  intros Hf. set (rest := flag_rest t _). assert (Hs : sub rest flags).
  { eapply sub_trans; [apply flag_rest_sub|]. unfold sub.
    by rewrite <- Z.land_assoc, (Z.land_comm (Z.lnot 3)), Z.land_assoc, Z.land_diag. }
  assert (Ho : sub flags (Z.ones 32)).
  { unfold sub. rewrite Z.land_ones by lia. apply Z.mod_small, Hf. }
  pose proof (sub_trans _ _ _ Hs Ho) as H. unfold sub in H. rewrite Z.land_ones in H by lia.
  rewrite <- H. apply u32_range.
Qed.

(** C39: open flags are shown completely.  For every flag word, the text of
    tprint_open_modes is a list of items joined by "|": the name of the access
    mode first, then names of the table, then the bits that have no name; the
    values named, together with the remaining bits, make up exactly the flag
    word.  And the text always fits the static buffer it is built in. *)
Theorem open_modes_lossless flags :
  is_u32 flags ->
  let rest := flag_rest open_mode_flags (Z.land flags (Z.lnot 3)) in
  let es := flag_entries open_mode_flags (Z.land flags (Z.lnot 3)) in
  exists acc,
    In acc open_access_modes /\ es `sublist_of` open_mode_flags /\
    Z.lor (x_val acc) (Z.lor (bits_of es) rest) = flags /\
    str_from 6 (sprint_open_modes flags) =
      joined (x_str acc :: (x_str <$> es) ++ (if rest =? 0 then [] else [fmt_sx rest])) /\
    slen (sprint_open_modes flags) + 1 <= outstr_bytes.
Proof.
  intros Hf rest es. destruct (open_access_named flags) as (acc & Hin & Hacc & Hlen & Hlook).
  exists acc. rewrite (sprint_open_modes_text _ _ Hlook). split_and!.
  - exact Hin.
  - apply flag_entries_sublist.
  - rewrite Hacc. unfold rest, es. rewrite flag_entries_lor.
    by rewrite <- Z.land_lor_distr_r, Z.lor_lnot_diag, Z.land_m1_r.
  - by rewrite str_from_flags, joined_after_bars.
  - rewrite !slen_app. pose proof (open_items_len _ (flag_rest_u32 open_mode_flags flags Hf)).
    change (slen "flags ") with 6. change outstr_bytes with 252. lia.
Qed.

Lemma open_modes_lossless_witness :
  str_from 6 (sprint_open_modes 0x20000241) = "O_WRONLY|O_CREAT|O_TRUNC|0x20000000".
Proof.
  destruct (open_modes_lossless 0x20000241) as (acc & Hin & _ & _ & Htext & _).
  - unfold is_u32. lia.
  - rewrite Htext. simpl in Hin.
    destruct Hin as [<- | [<- | [<- | [<- | []]]]]; vm_compute in Htext |- *; first [reflexivity|discriminate Htext].
Defined.
