(* ===== verification/Stat.v ===== *)
(** * Decoders that read file structures back from the tracee (file.c: stat,
      statfs, directory entries, extended attributes)

    A struct is a list of bytes, its members are read at the offsets the
    x86_64 ABI gives them.  A read past the end of a heap buffer, which C leaves
    undefined, makes the model abort. *)

From S2P Require Import Prelude Xlat Quote Tracee Decode Io Args Signal Time File.
Local Open Scope string_scope.
Local Open Scope list_scope.
Local Open Scope Z_scope.

Definition fsmagic : list xlat :=
  [mk_xlat 0x73757245 "CODA_SUPER_MAGIC"; mk_xlat 0x12ff7b7 "COH_SUPER_MAGIC";
   mk_xlat 0x1373 "DEVFS_SUPER_MAGIC"; mk_xlat 0x1cd1 "DEVPTS_SUPER_MAGIC";
   mk_xlat 0x414a53 "EFS_SUPER_MAGIC"; mk_xlat 0xef51 "EXT2_OLD_SUPER_MAGIC";
   mk_xlat 0xef53 "EXT2_SUPER_MAGIC"; mk_xlat 0x137d "EXT_SUPER_MAGIC";
   mk_xlat (-107616183) "HPFS_SUPER_MAGIC"; mk_xlat 0x9660 "ISOFS_SUPER_MAGIC";
   mk_xlat 0x137f "MINIX_SUPER_MAGIC"; mk_xlat 0x138f "MINIX_SUPER_MAGIC2";
   mk_xlat 0x2468 "MINIX2_SUPER_MAGIC"; mk_xlat 0x2478 "MINIX2_SUPER_MAGIC2";
   mk_xlat 0x4d44 "MSDOS_SUPER_MAGIC"; mk_xlat 0x564c "NCP_SUPER_MAGIC";
   mk_xlat 0x6969 "NFS_SUPER_MAGIC"; mk_xlat 0x9fa0 "PROC_SUPER_MAGIC";
   mk_xlat 47 "QNX4_SUPER_MAGIC"; mk_xlat 0x52654973 "REISERFS_SUPER_MAGIC";
   mk_xlat 0x2011994 "SHMFS_SUPER_MAGIC"; mk_xlat 0x517b "SMB_SUPER_MAGIC";
   mk_xlat 0x12ff7b6 "SYSV2_SUPER_MAGIC"; mk_xlat 0x12ff7b5 "SYSV4_SUPER_MAGIC";
   mk_xlat 0x11954 "UFS_MAGIC"; mk_xlat 0x54190100 "UFS_CIGAM";
   mk_xlat 0x12ff7b4 "XENIX_SUPER_MAGIC"; mk_xlat 0x12fd16d "XIAFS_SUPER_MAGIC";
   mk_xlat 0x62656572 "SYSFS_MAGIC"].

(** dirent.h *)
Definition direnttypes : list xlat :=
  [mk_xlat 0 "DT_UNKNOWN"; mk_xlat 1 "DT_FIFO"; mk_xlat 2 "DT_CHR"; mk_xlat 4 "DT_DIR";
   mk_xlat 6 "DT_BLK"; mk_xlat 8 "DT_REG"; mk_xlat 10 "DT_LNK"; mk_xlat 12 "DT_SOCK";
   mk_xlat 14 "DT_WHT"].

Definition xattrflags : list xlat := [mk_xlat 1 "XATTR_CREATE"; mk_xlat 2 "XATTR_REPLACE"].

(** The members of struct stat the code prints. *)
Record stat := mk_stat {
  st_dev : Z; st_ino : Z; st_mode : Z; st_nlink : Z; st_uid : Z; st_gid : Z; st_rdev : Z;
  st_size : Z; st_blksize : Z; st_blocks : Z; st_atime : Z; st_mtime : Z; st_ctime : Z
}.

(** struct stat of x86_64 (144 bytes), struct stat64 of i386 as file.c declares
    it (96 bytes), struct __old_kernel_stat (32 bytes) *)
Definition sizeof_stat : Z := 144.
Definition stat_of (bs : list Z) : stat :=
  mk_stat (fld 8 0 bs) (fld 8 8 bs) (fld 4 24 bs) (fld 8 16 bs) (fld 4 28 bs) (fld 4 32 bs)
    (fld 8 40 bs) (fld 8 48 bs) (fld 8 56 bs) (fld 8 64 bs)
    (fld_long 72 bs) (fld_long 88 bs) (fld_long 104 bs).
Definition sizeof_stat64 : Z := 96.
Definition stat64_of (bs : list Z) : stat :=
  mk_stat (fld 8 0 bs) (fld 8 88 bs) (fld 4 16 bs) (fld 4 20 bs) (fld 4 24 bs) (fld 4 28 bs)
    (fld 8 32 bs) (fld 8 44 bs) (fld 4 52 bs) (fld 8 56 bs)
    (fld 4 64 bs) (fld 4 72 bs) (fld 4 80 bs).
Definition sizeof_oldstat : Z := 32.
Definition convertoldstat (bs : list Z) : stat :=
  mk_stat (fld 2 0 bs) (fld 2 2 bs) (fld 2 4 bs) (fld 2 6 bs) (fld 2 8 bs) (fld 2 10 bs)
    (fld 2 12 bs) (fld 4 16 bs) 0 0 (fld 4 20 bs) (fld 4 24 bs) (fld 4 28 bs).

(** sprintfstype *)
Definition sprintfstype (magic : Z) : string :=
  match xlookup fsmagic (s32 magic) with
  | Some s => dquote +:+ s +:+ dquote
  | None => fmt_sx (u32 magic)
  end.

Section stat.
Context `{K : Kernel}.
Context (localtime : Z -> option tm).

Abbreviation time_text t := (sprinttime localtime t).

(** The text of realprintstat, and of printstat64, which repeats it. *)
Definition realprintstat (st : stat) : D unit :=
  e ← ask;
  _ ← (if negb (d_abbrev e) then
         _ ← tp ("{st_dev=" +:+ makedev_text (st_dev st) +:+ ", st_ino=" +:+ fmt_u (st_ino st) +:+
                 ", st_mode=" +:+ sprintmode (s32 (st_mode st)) +:+ ", ");
         _ ← tp ("st_nlink=" +:+ fmt_u (st_nlink st) +:+ ", st_uid=" +:+ fmt_u (st_uid st) +:+
                 ", st_gid=" +:+ fmt_u (st_gid st) +:+ ", ");
         _ ← tp ("st_blksize=" +:+ fmt_u (st_blksize st) +:+ ", ");
         tp ("st_blocks=" +:+ fmt_u (st_blocks st) +:+ ", ")
       else tp ("{st_mode=" +:+ sprintmode (s32 (st_mode st)) +:+ ", "));
  _ ← (if is_device (st_mode st) then tp ("st_rdev=" +:+ makedev_text (st_rdev st) +:+ ", ")
       else tp ("st_size=" +:+ fmt_u (st_size st) +:+ ", "));
  if negb (d_abbrev e) then
    _ ← tp ("st_atime=" +:+ time_text (st_atime st) +:+ ", ");
    _ ← tp ("st_mtime=" +:+ time_text (st_mtime st) +:+ ", ");
    _ ← tp ("st_ctime=" +:+ time_text (st_ctime st));
    tp "}"
  else tp "...}".

(** The guards of printstat, printstat64 and printoldstat around reading [n]
    bytes. *)
Definition print_stat_at (addr n : Z) (conv : list Z -> stat) : D unit :=
  e ← ask;
  if addr =? 0 then tp "NULL"
  else if syserror e || negb (d_verbose e) then tp (hexl addr)
  else
    st ← umove_struct addr n;
    match st with
    | None => tp "{...}"
    | Some st => realprintstat (conv st)
    end.

Definition printstat (addr : Z) : D unit := print_stat_at addr sizeof_stat stat_of.
Definition printoldstat (addr : Z) : D unit := print_stat_at addr sizeof_oldstat convertoldstat.
Definition printstat64 (addr : Z) : D unit :=
  e ← ask;
  if addr =? 0 then tp "NULL"
  else if syserror e || negb (d_verbose e) then tp (hexl addr)
  else
    match d_pers e with
    | S O => print_stat_at addr sizeof_stat64 stat64_of
    | _ => printstat addr
    end.

(** A path or descriptor on entry, the struct on exit. *)
Definition path_then (print : D unit) : D Z :=
  e ← ask;
  _ ← (if d_entering e then a0 ← arg 0; _ ← printpath a0; tp ", " else print);
  mret 0.
Definition fd_then (print : D unit) : D Z :=
  e ← ask;
  _ ← (if d_entering e then a0 ← arg 0; _ ← printfd a0; tp ", " else print);
  mret 0.

Definition sys_stat : D Z := path_then (a1 ← arg 1; printstat a1).
Definition sys_stat64 : D Z := path_then (a1 ← arg 1; printstat64 a1).
Definition sys_oldstat : D Z := path_then (a1 ← arg 1; printoldstat a1).
Definition sys_fstat : D Z := fd_then (a1 ← arg 1; printstat a1).
Definition sys_fstat64 : D Z := fd_then (a1 ← arg 1; printstat64 a1).
Definition sys_oldfstat : D Z := fd_then (a1 ← arg 1; printoldstat a1).

Definition sys_newfstatat : D Z :=
  e ← ask;
  a0 ← arg 0; a1 ← arg 1; a2 ← arg 2; a3 ← arg 3;
  _ ← (if d_entering e then _ ← print_dirfd a0; _ ← printpath a1; tp ", "
       else _ ← printstat64 a2; _ ← tp ", "; print_flags at_flags a3 "AT_???");
  mret 0.

(** ** File systems *)

(** The members of struct statfs and struct statfs64 (120 bytes, the same
    layout on x86_64), and of struct compat_statfs64 (84 bytes). *)
Definition sizeof_statfs64 : Z := 120.
Definition sizeof_compat_statfs64 : Z := 84.

Definition statfs_text (typ bsize blocks bfree bavail files ffree fsid0 fsid1 namelen frsize : Z)
    : string :=
  "{f_type=" +:+ sprintfstype typ +:+ ", f_bsize=" +:+ fmt_u bsize +:+ ", f_blocks=" +:+
  fmt_u blocks +:+ ", f_bfree=" +:+ fmt_u bfree +:+ ", f_bavail=" +:+ fmt_u bavail +:+
  ", f_files=" +:+ fmt_u files +:+ ", f_ffree=" +:+ fmt_u ffree +:+ ", f_fsid={" +:+
  fmt_d fsid0 +:+ ", " +:+ fmt_d fsid1 +:+ "}" +:+ ", f_namelen=" +:+ fmt_u namelen +:+
  ", f_frsize=" +:+ fmt_u frsize.

Definition statfs_head (bs : list Z) : string :=
  statfs_text (fld 8 0 bs) (fld 8 8 bs) (fld 8 16 bs) (fld 8 24 bs) (fld 8 32 bs) (fld 8 40 bs)
    (fld 8 48 bs) (fld_int 56 bs) (fld_int 60 bs) (fld 8 64 bs) (fld 8 72 bs).

(** The guards around reading [n] bytes and printing them. *)
Definition print_statfs_at (addr n : Z) (text : list Z -> string) : D unit :=
  e ← ask;
  if syserror e || negb (d_verbose e) then tp (hexl addr)
  else
    bs ← umove_struct addr n;
    match bs with
    | None => tp "{...}"
    | Some bs => tp (text bs)
    end.

Definition printstatfs (addr : Z) : D unit :=
  print_statfs_at addr 120 (fun bs => statfs_head bs +:+ "}").
Definition printstatfs64 (addr : Z) : D unit :=
  print_statfs_at addr sizeof_statfs64
    (fun bs => statfs_head bs +:+ ", f_flags=" +:+ fmt_u (fld 8 80 bs) +:+ "}").
(** The last member printed is f_frsize once more, under the name f_flags. *)
Definition printcompat_statfs64 (addr : Z) : D unit :=
  print_statfs_at addr sizeof_compat_statfs64
    (fun bs =>
       statfs_text (fld 4 0 bs) (fld 4 4 bs) (fld 8 8 bs) (fld 8 16 bs) (fld 8 24 bs)
         (fld 8 32 bs) (fld 8 40 bs) (fld_int 48 bs) (fld_int 52 bs) (fld 4 56 bs) (fld 4 60 bs)
       +:+ ", f_flags=" +:+ fmt_u (fld 4 60 bs) +:+ "}").

Definition sys_statfs : D Z := path_then (a1 ← arg 1; printstatfs a1).
Definition sys_fstatfs : D Z := fd_then (a1 ← arg 1; printstatfs a1).

Definition statfs64_exit : D unit :=
  a1 ← arg 1; a2 ← arg 2;
  if a1 =? sizeof_statfs64 then printstatfs64 a2
  else if a1 =? sizeof_compat_statfs64 then printcompat_statfs64 a2
  else tp "{???}".

Definition sys_statfs64 : D Z :=
  e ← ask;
  a0 ← arg 0; a1 ← arg 1;
  _ ← (if d_entering e then _ ← printpath a0; tp (", " +:+ fmt_u a1 +:+ ", ")
       else statfs64_exit);
  mret 0.
Definition sys_fstatfs64 : D Z :=
  e ← ask;
  a0 ← arg 0; a1 ← arg 1;
  _ ← (if d_entering e then _ ← printfd a0; tp (", " +:+ fmt_u a1 +:+ ", ")
       else statfs64_exit);
  mret 0.

(** ** Directory entries *)

(** print_old_dirent: 12 bytes, the name at offset 10. *)
Definition print_old_dirent (addr : Z) : D unit :=
  e ← ask;
  if negb (d_verbose e) then tp (hexl addr)
  else
    d ← umove_struct addr 12;
    match d with
    | None => tp (hexl addr)
    | Some d =>
        let reclen := fld 2 8 d in
        _ ← tp ("{d_ino=" +:+ fmt_u (fld 4 0 d) +:+ ", d_off=" +:+ fmt_u (fld 4 4 d) +:+
                ", d_reclen=" +:+ fmt_u reclen +:+ ", d_name=" +:+ dquote);
        _ ← printpathn (u64 (addr + 10)) (s32 (if reclen >? 256 then 256 else reclen));
        tp (dquote +:+ "}")
    end.

Definition sys_readdir : D Z :=
  e ← ask;
  a0 ← arg 0; a1 ← arg 1; a2 ← arg 2;
  _ ← (if d_entering e then _ ← printfd a0; tp ", "
       else
         _ ← (if syserror e || (d_rval e =? 0) || negb (d_verbose e) then tp (hexl a1)
              else print_old_dirent a1);
         if negb (a2 =? 1) then tp (", " +:+ fmt_u a2) else mret tt);
  mret 0.

(** [buf[k]], and the C string at [buf + k]; both only inside the buffer. *)
Definition byte_at (buf : list Z) (k : nat) : D Z :=
  match buf !! k with Some b => mret b | None => abort end.
Fixpoint c_string (bs : list Z) : option (list Z) :=
  match bs with
  | [] => None
  | b :: bs => if b =? 0 then Some [] else cons b <$> c_string bs
  end.
Definition str_at (buf : list Z) (k : nat) : D string :=
  match c_string (drop k buf) with
  | Some s => mret (string_of_bytes s)
  | None => abort
  end.

(** A member of [n] bytes at [k]. *)
Definition fld_at (n k : nat) (buf : list Z) : D Z :=
  if (k + n <=? length buf)%nat then mret (fld n k buf) else abort.

(** (int) of a char *)
Definition s8 (b : Z) : Z := if b >? 127 then b - 256 else b.

(** One entry of sys_getdents at [i] (struct kernel_dirent: the type is the
    last byte of the record), and of sys_getdents64 (struct dirent64). *)
Definition dirent_text (buf : list Z) (i : nat) : D unit :=
  ino ← fld_at 8 i buf; off ← fld_at 8 (i + 8) buf; reclen ← fld_at 2 (i + 16) buf;
  _ ← tp ((if (i =? 0)%nat then "" else " ") +:+ "{d_ino=" +:+ fmt_u ino +:+ ", d_off=" +:+
          fmt_u off +:+ ", ");
  name ← str_at buf (i + 18);
  _ ← tp ("d_reclen=" +:+ fmt_u reclen +:+ ", d_name=" +:+ dquote +:+ name +:+ dquote +:+
          ", d_type=");
  typ ← (if Z.of_nat i + reclen - 1 <? 0 then abort
         else byte_at buf (Z.to_nat (Z.of_nat i + reclen - 1)));
  _ ← print_xval direnttypes (s8 typ) "DT_???";
  tp "}".

Definition dirent64_text (buf : list Z) (i : nat) : D unit :=
  ino ← fld_at 8 i buf; off ← fld_at 8 (i + 8) buf; reclen ← fld_at 2 (i + 16) buf;
  typ ← fld_at 1 (i + 18) buf;
  _ ← tp ((if (i =? 0)%nat then "" else " ") +:+ "{d_ino=" +:+ fmt_u ino +:+ ", d_off=" +:+
          fmt_ld off +:+ ", ");
  _ ← tp "d_type=";
  _ ← print_xval direnttypes typ "DT_???";
  _ ← tp ", ";
  name ← str_at buf (i + 19);
  tp ("d_reclen=" +:+ fmt_u reclen +:+ ", d_name=" +:+ dquote +:+ name +:+ dquote +:+ "}").

(** The loop of sys_getdents and sys_getdents64 from offset [i] on; the result
    is [dents].  Every iteration that goes on advances by d_reclen > 0. *)
Fixpoint getdents_loop (fuel : nat) (entry : list Z -> nat -> D unit) (buf : list Z)
    (i : nat) (dents : Z) : D Z :=
  match fuel with
  | O => mret dents
  | S fuel =>
      if (i <? length buf)%nat then
        e ← ask;
        _ ← (if negb (d_abbrev e) then entry buf i else mret tt);
        reclen ← fld_at 2 (i + 16) buf;
        if reclen =? 0 then
          _ ← tp "/* d_reclen == 0, problem here */"; mret dents
        else getdents_loop fuel entry buf (i + Z.to_nat reclen) (dents + 1)
      else mret dents
  end.

(** [len] of the code: the result clamped to 0 .. 1024*1024. *)
Definition getdents_len (rval : Z) : Z :=
  if rval >? 1024 * 1024 then 1024 * 1024 else if rval <? 0 then 0 else s32 rval.

Definition getdents_with (entry : list Z -> nat -> D unit) : D Z :=
  e ← ask;
  a0 ← arg 0; a1 ← arg 1; a2 ← arg 2;
  if d_entering e then _ ← printfd a0; _ ← tp ", "; mret 0
  else if syserror e || negb (d_verbose e) then
    _ ← tp (hexl a1 +:+ ", " +:+ fmt_u a2); mret 0
  else
    let len := getdents_len (d_rval e) in
    '(r, buf) ← d_umoven a1 len;
    if r <? 0 then _ ← tp (hexl a1 +:+ ", " +:+ fmt_u a2); mret 0
    else
      _ ← (if negb (d_abbrev e) then tp "{" else mret tt);
      dents ← getdents_loop (Z.to_nat len) entry buf 0 0;
      _ ← (if negb (d_abbrev e) then tp "}" else tp ("/* " +:+ fmt_u dents +:+ " entries */"));
      _ ← tp (", " +:+ fmt_u a2);
      mret 0.
Definition sys_getdents : D Z := getdents_with dirent_text.
Definition sys_getdents64 : D Z := getdents_with dirent64_text.

Definition sys_getcwd : D Z :=
  e ← ask;
  _ ← if_exiting (
    a0 ← arg 0; a1 ← arg 1;
    _ ← (if syserror e then tp (hexl a0) else printpathn a0 (s32 (d_rval e - 1)));
    tp (", " +:+ fmt_u a1));
  mret 0.

(** ** Extended attributes *)

(** "0123456789abcdef"[d] is [digit_char d]. *)
Definition xattr_escape (c : Z) : list Z :=
  if (c >=? 32) && (c <=? 126) then [c]
  else [92; 120; ord (digit_char (c / 16)); ord (digit_char (c mod 16))].

(** The loop of print_xattr_val: the input is the last quarter of the buffer
    ([inp] is its offset), the output grows from the front over the same
    buffer.  Returns the buffer and the offset of [out]. *)
Fixpoint xattr_loop (n : nat) (inp i out : nat) (buf : list Z) : option (list Z * nat) :=
  match n with
  | O => Some (buf, out)
  | S n =>
      match buf !! (inp + i)%nat with
      | None => None
      | Some c =>
          let txt := xattr_escape c in
          xattr_loop n inp (S i) (out + length txt) (list_inserts out txt buf)
      end
  end.

(** The text of a value of [size] bytes: [buf] has 4 * size + 1 bytes, the
    value at offset 3 * size. *)
Definition xattr_text (size : nat) (buf : list Z) : option string :=
  match xattr_loop size (3 * size) 0 0 buf with
  | None => None
  | Some (buf, out) =>
      let out :=
        if (0 <? size)%nat && (default 0 (buf !! (3 * size + size - 1)%nat) =? 0)
        then (out - 4)%nat else out in
      string_of_bytes <$> c_string (<[out := 0]> buf)
  end.

(** [malloc_ok n]: malloc(n) returns memory, with the contents [junk]. *)
Definition print_xattr_val (malloc_ok : Z -> bool) (failed : bool) (addr insize size : Z)
    : D unit :=
  e ← ask;
  let fail := tp (", 0x" +:+ fmt_x addr +:+ ", " +:+ fmt_ld insize) in
  let capacity := u64 (4 * size + 1) in
  if failed || (insize =? 0) || (capacity <? size) || negb (malloc_ok capacity) then fail
  else
    '(r, val) ← d_umoven addr (s32 size);
    if r <? 0 then fail
    else
      let front := junk e <$> seq 0 (Z.to_nat (3 * size)) in
      let buf := pad_buf (junk e) (Z.to_nat capacity) (front ++ val) in
      match xattr_text (Z.to_nat size) buf with
      | None => abort
      | Some txt => tp (", " +:+ dquote +:+ txt +:+ dquote +:+ ", " +:+ fmt_ld insize)
      end.

Section xattr.
Context (malloc_ok : Z -> bool).

Definition sys_setxattr : D Z :=
  _ ← if_entering (
    a0 ← arg 0; a1 ← arg 1; a2 ← arg 2; a3 ← arg 3; a4 ← arg 4;
    _ ← printpath a0; _ ← tp ", "; _ ← printstr a1 (-1);
    _ ← print_xattr_val malloc_ok false a2 a3 a3;
    _ ← tp ", ";
    print_flags xattrflags a4 "XATTR_???");
  mret 0.
Definition sys_fsetxattr : D Z :=
  _ ← if_entering (
    a0 ← arg 0; a1 ← arg 1; a2 ← arg 2; a3 ← arg 3; a4 ← arg 4;
    _ ← printfd a0; _ ← tp ", "; _ ← printstr a1 (-1);
    _ ← print_xattr_val malloc_ok false a2 a3 a3;
    _ ← tp ", ";
    print_flags xattrflags a4 "XATTR_???");
  mret 0.

Definition getxattr_exit : D unit :=
  e ← ask;
  a2 ← arg 2; a3 ← arg 3;
  print_xattr_val malloc_ok (syserror e) a2 a3 (u64 (d_rval e)).
Definition sys_getxattr : D Z :=
  e ← ask;
  a0 ← arg 0; a1 ← arg 1;
  _ ← (if d_entering e then _ ← printpath a0; _ ← tp ", "; printstr a1 (-1) else getxattr_exit);
  mret 0.
Definition sys_fgetxattr : D Z :=
  e ← ask;
  a0 ← arg 0; a1 ← arg 1;
  _ ← (if d_entering e then _ ← printfd a0; _ ← tp ", "; printstr a1 (-1) else getxattr_exit);
  mret 0.
End xattr.

Definition print_xattr_list (addr size : Z) : D unit :=
  e ← ask;
  _ ← (if syserror e then tp (hexl addr)
       else if addr =? 0 then tp "NULL"
       else printstr addr (s64 (if size <? u64 (d_rval e) then size else u64 (d_rval e))));
  tp (", " +:+ fmt_u size).

Definition sys_listxattr : D Z := path_then (a1 ← arg 1; a2 ← arg 2; print_xattr_list a1 a2).
Definition sys_flistxattr : D Z := fd_then (a1 ← arg 1; a2 ← arg 2; print_xattr_list a1 a2).

Definition sys_removexattr : D Z :=
  _ ← if_entering (a0 ← arg 0; a1 ← arg 1; _ ← printpath a0; _ ← tp ", "; printstr a1 (-1));
  mret 0.
Definition sys_fremovexattr : D Z :=
  _ ← if_entering (a0 ← arg 0; a1 ← arg 1; _ ← printfd a0; _ ← tp ", "; printstr a1 (-1));
  mret 0.
End stat.

(** ** The in-place expansion of print_xattr_val *)

Definition escapes (l : list Z) : list Z := concat (xattr_escape <$> l).
Definition printable (c : Z) : bool := (c >=? 32) && (c <=? 126).

Lemma length_xattr_escape c : length (xattr_escape c) = if printable c then 1%nat else 4%nat.
Proof. unfold xattr_escape, printable. by destruct (_ && _). Qed.

Lemma xattr_escape_no_nul c : is_u8 c -> 0 ∉ xattr_escape c.
Proof.
  intros Hc. rewrite <- has_nul_false. apply negb_true_iff.
  refine (all_bytes (fun c => negb (has_nul (xattr_escape c))) c _ Hc). by vm_compute.
Qed.

Lemma escapes_cons c l : escapes (c :: l) = xattr_escape c ++ escapes l.
Proof. done. Qed.
Lemma escapes_app l1 l2 : escapes (l1 ++ l2) = escapes l1 ++ escapes l2.
Proof. unfold escapes. by rewrite fmap_app, concat_app. Qed.

Lemma escapes_no_nul l : Forall is_u8 l -> 0 ∉ escapes l.
Proof.
  intros Hl. induction Hl as [|c l Hc _ IH]; [by intros ?%elem_of_nil|].
  rewrite escapes_cons, elem_of_app. intros [H|H]; [by apply xattr_escape_no_nul in H|done].
Qed.

(** Four characters per byte, and only when no byte is printable. *)
Lemma length_escapes l :
  (length (escapes l) = 4 * length l)%nat /\ forallb (fun c => negb (printable c)) l = true \/
  (length (escapes l) + 3 <= 4 * length l)%nat /\
    forallb (fun c => negb (printable c)) l = false.
Proof.
  induction l as [|c l IH]; [by left|].
  rewrite escapes_cons, length_app, length_xattr_escape. cbn [forallb length].
  destruct (printable c), IH as [[IH ->]|[IH ->]]; simpl negb; cbn [andb];
    (left; split; [lia|done]) || (right; split; [lia|done]).
Qed.
Lemma length_escapes_le l : (length (escapes l) <= 4 * length l)%nat.
Proof. destruct (length_escapes l) as [[]|[]]; lia. Qed.

(** The loop keeps the bytes it has still to read, and the bytes past what it
    writes. *)
Lemma xattr_loop_spec l n i buf :
  (i + n = length l)%nat -> length buf = (4 * length l + 1)%nat ->
  take (length (escapes (take i l))) buf = escapes (take i l) ->
  (forall j, (i <= j < length l)%nat -> buf !! (3 * length l + j)%nat = l !! j) ->
  exists buf',
    xattr_loop n (3 * length l) i (length (escapes (take i l))) buf =
      Some (buf', length (escapes l)) /\
    length buf' = length buf /\ take (length (escapes l)) buf' = escapes l /\
    (forall k, (length (escapes l) <= k)%nat -> buf' !! k = buf !! k).
Proof.
  revert i buf. induction n as [|n IH]; intros i buf Hi Hlen Hpre Hin.
  { assert (i = length l) as -> by lia. rewrite (take_ge l) in * by lia. by exists buf. }
  destruct (lookup_lt_is_Some_2 l i ltac:(lia)) as [c Hc].
  cbn [xattr_loop]. rewrite (Hin i ltac:(lia)), Hc. cbv zeta.
  assert (HS : escapes (take (S i) l) = escapes (take i l) ++ xattr_escape c).
  { by rewrite (take_S_r _ _ _ Hc), escapes_app, escapes_cons, app_nil_r. }
  pose proof (length_escapes_le (take i l)) as Hout. rewrite length_take in Hout.
  pose proof (length_xattr_escape c) as Hesc. set (out := length (escapes (take i l))) in *.
  set (buf1 := list_inserts out (xattr_escape c) buf).
  assert (Hlen1 : length buf1 = length buf) by (unfold buf1; apply length_inserts).
  assert (Hkeep : forall k, (out + length (xattr_escape c) <= k)%nat -> buf1 !! k = buf !! k)
    by (intros k Hk; unfold buf1; by rewrite list_lookup_inserts_ge).
  assert (Hout1 : (out + length (xattr_escape c))%nat = length (escapes (take (S i) l)))
    by (by rewrite HS, length_app).
  rewrite Hout1. destruct (IH (S i) buf1) as (buf' & Hrun & Hlen' & Htake & Hrest).
  - lia.
  - lia.
  - rewrite <- Hout1, HS. apply list_eq. intros k.
    destruct (decide (k < out + length (xattr_escape c))%nat) as [Hk|Hk].
    + rewrite lookup_take_lt by done. unfold buf1. destruct (decide (k < out)%nat).
      * rewrite list_lookup_inserts_lt, lookup_app_l by done.
        by rewrite <- Hpre, lookup_take_lt by done.
      * rewrite list_lookup_inserts, lookup_app_r; [done|unfold out in *; lia|lia|].
        destruct (printable c); lia.
    + rewrite lookup_take_ge by lia. symmetry. apply lookup_ge_None_2. rewrite length_app.
      unfold out in *; lia.
  - intros j Hj. rewrite Hkeep by (destruct (printable c); lia). apply Hin. lia.
  - exists buf'. split_and!; [done|lia|done|]. intros k Hk. rewrite Hrest by done. apply Hkeep.
    rewrite Hout1. rewrite <- (take_drop (S i) l), escapes_app, length_app in Hk. lia.
Qed.

Lemma c_string_nul s t : 0 ∉ s -> c_string (s ++ 0 :: t) = Some s.
Proof.
  induction s as [|c s IH]; [done|]. rewrite not_elem_of_cons. intros [H0 Hs].
  simpl. by rewrite (proj2 (Z.eqb_neq c 0)), IH by done.
Qed.

Lemma c_string_at out (s buf : list Z) :
  0 ∉ s -> take out buf = s -> (out < length buf)%nat -> c_string (<[out := 0]> buf) = Some s.
Proof.
  intros H0 Ht Hl. rewrite insert_take_drop, Ht by done. by apply c_string_nul.
Qed.

(** What is shown of a value. *)
Definition xattr_shown (l : list Z) : list Z :=
  if bool_decide (last l = Some 0) && negb (forallb (fun c => negb (printable c)) l)
  then removelast l else l.

Lemma xattr_text_ok l front z :
  Forall is_u8 l -> length front = (3 * length l)%nat ->
  xattr_text (length l) (front ++ l ++ [z]) = Some (string_of_bytes (escapes (xattr_shown l))).
Proof.
  intros Hl Hf. set (buf := front ++ l ++ [z]).
  assert (Hbl : length buf = (4 * length l + 1)%nat)
    by (unfold buf; rewrite !length_app; simpl; lia).
  destruct (xattr_loop_spec l (length l) 0 buf) as (buf' & Hrun & Hlen & Htake & Hrest); try done.
  { intros j Hj. unfold buf. rewrite lookup_app_r, lookup_app_l by lia. f_equal. lia. }
  change (length (escapes (take 0 l))) with 0%nat in Hrun.
  pose proof (length_escapes_le l) as Hle. unfold xattr_text. rewrite Hrun.
  pose proof (escapes_no_nul l Hl) as Hnul. unfold xattr_shown.
  destruct (decide (l = [])) as [->|Hne].
  { simpl. rewrite (c_string_at 0 []); [done|by intros ?%elem_of_nil|done|]. simpl in *. lia. }
  destruct (exists_last Hne) as (l0 & x & El).
  assert (Hpos : (0 < length l)%nat) by (destruct l; [done|simpl; lia]).
  assert (Hlast : l !! (length l - 1)%nat = Some x)
    by (rewrite El, length_app, Nat.add_sub; by apply list_lookup_middle).
  rewrite (proj2 (Nat.ltb_lt _ _) Hpos), (last_lookup l).
  replace (pred (length l)) with (length l - 1)%nat by lia. rewrite Hlast. cbn [andb].
  destruct (length_escapes l) as [[Hall ->]|[Hall ->]].
  - rewrite andb_false_r.
    destruct (lookup_lt_is_Some_2 (escapes l) (3 * length l + length l - 1)) as [d Hd]; [lia|].
    assert (Hd' : buf' !! (3 * length l + length l - 1)%nat = Some d)
      by (rewrite <- Htake, lookup_take_lt in Hd by lia; done).
    assert (Hb : (default 0 (buf' !! (3 * length l + length l - 1)%nat) =? 0) = false).
    { rewrite Hd'. apply Z.eqb_neq. intros H. simpl in H. subst d.
      by apply list_elem_of_lookup_2 in Hd. }
    rewrite Hb, (c_string_at _ (escapes l)); [done|done|exact Htake|lia].
  - rewrite andb_true_r.
    assert (Hb : default 0 (buf' !! (3 * length l + length l - 1)%nat) = x).
    { rewrite Hrest by lia. unfold buf. rewrite lookup_app_r, lookup_app_l by lia.
      replace (_ - length front)%nat with (length l - 1)%nat by lia. by rewrite Hlast. }
    rewrite Hb.
    destruct (Z.eqb_spec x 0) as [->|Hx].
    + rewrite bool_decide_eq_true_2 by done. rewrite El in Htake, Hnul, Hle |- *.
      rewrite escapes_app in Htake, Hnul, Hle. rewrite length_app in Htake, Hle.
      rewrite removelast_last, escapes_app, length_app. simpl length at 2. rewrite Nat.add_sub.
      rewrite (c_string_at _ (escapes l0)); [done| | |].
      * intros H. apply Hnul. rewrite elem_of_app. by left.
      * apply (f_equal (take (length (escapes l0)))) in Htake.
        by rewrite take_take, take_app_length, Nat.min_l in Htake by lia.
      * rewrite El in Hbl. rewrite length_app in Hle, Hbl. simpl in *. lia.
    + rewrite bool_decide_eq_false_2 by congruence. cbv iota. rewrite (c_string_at _ (escapes l)); [done|done|exact Htake|lia].
Qed.

(** ** The decoders return and only print *)

Section discipline.
Context `{K : Kernel} (localtime : Z -> option tm) (e : denv).

Lemma Prints_print_stat_at a n conv : Prints e (print_stat_at localtime a n conv).
Proof. unfold print_stat_at, realprintstat. decodes. Qed.
Hint Resolve Prints_print_stat_at : decodes.
Lemma Prints_printstat a : Prints e (printstat localtime a).
Proof. unfold printstat. decodes. Qed.
Lemma Prints_printoldstat a : Prints e (printoldstat localtime a).
Proof. unfold printoldstat. decodes. Qed.
Hint Resolve Prints_printstat : decodes.
Lemma Prints_printstat64 a : Prints e (printstat64 localtime a).
Proof. unfold printstat64. decodes. Qed.
Lemma Prints_print_statfs_at a n text : Prints e (print_statfs_at a n text).
Proof. unfold print_statfs_at. decodes. Qed.
Hint Resolve Prints_print_statfs_at : decodes.
Lemma Prints_printstatfs a : Prints e (printstatfs a).
Proof. unfold printstatfs. decodes. Qed.
Lemma Prints_statfs64_exit : Prints e statfs64_exit.
Proof. unfold statfs64_exit, printstatfs64, printcompat_statfs64. decodes. Qed.

Lemma Prints_print_old_dirent a : Prints e (print_old_dirent a).
Proof. unfold print_old_dirent. decodes. Qed.
Lemma Prints_path_then c : Prints e c -> Decodes e (path_then c) rval_format_ok.
Proof. intros Hc. unfold path_then. decodes. Qed.
Lemma Prints_fd_then c : Prints e c -> Decodes e (fd_then c) rval_format_ok.
Proof. intros Hc. unfold fd_then. decodes. Qed.

(** The buffer of print_xattr_val is large enough, once malloc has returned it. *)
Lemma xattr_loop_total n inp i out buf :
  (inp + i + n <= length buf)%nat ->
  exists buf' out', xattr_loop n inp i out buf = Some (buf', out') /\
    length buf' = length buf /\ (out' <= out + 4 * n)%nat.
Proof.
  revert i out buf. induction n as [|n IH]; intros i out buf Hl; [exists buf, out; split_and!; [done..|lia]|].
  cbn [xattr_loop]. destruct (lookup_lt_is_Some_2 buf (inp + i)) as [c ->]; [lia|].
  cbv zeta. destruct (IH (S i) (out + length (xattr_escape c))%nat
    (list_inserts out (xattr_escape c) buf)) as (buf' & out' & -> & Hlen & Hout).
  { rewrite length_inserts. lia. }
  exists buf', out'. rewrite length_inserts in Hlen. split_and!; [done..|].
  rewrite length_xattr_escape in Hout. destruct (printable c); lia.
Qed.

Lemma c_string_found (l : list Z) : 0 ∈ l -> exists s, c_string l = Some s.
Proof.
  induction l as [|b l IH]; [by intros ?%elem_of_nil|]. rewrite elem_of_cons. simpl.
  destruct (Z.eqb_spec b 0) as [|Hb]; [by eexists|]. intros [H|H]; [congruence|].
  destruct (IH H) as [s ->]. by eexists.
Qed.

Lemma xattr_text_total size buf :
  (4 * size < length buf)%nat -> exists txt, xattr_text size buf = Some txt.
Proof.
  intros Hl. unfold xattr_text.
  destruct (xattr_loop_total size (3 * size) 0 0 buf) as (buf' & out & -> & Hlen & Hout); [lia|].
  match goal with |- context[<[?o := 0]> buf'] =>
    assert (Ho : (o <= out)%nat) by (case_match; lia);
    destruct (c_string_found (<[o := 0]> buf')) as [s Hs] end; [|rewrite Hs; by eexists].
  eapply list_elem_of_lookup_2, list_lookup_insert_eq. lia.
Qed.

(** malloc does not return blocks larger than the address space. *)
Context (malloc_ok : Z -> bool) (Hmalloc : forall n, malloc_ok n = true -> n < 2 ^ 48).

Lemma Prints_print_xattr_val failed addr insize size :
  Prints e (print_xattr_val malloc_ok failed addr insize size).
Proof.
  unfold print_xattr_val. apply Decodes_ask. cbv zeta.
  destruct (_ || _) eqn:Hg; [decodes|]. apply orb_false_iff in Hg as [Hg Hm].
  apply orb_false_iff in Hg as [_ Hc]. apply negb_false_iff, Hmalloc in Hm.
  apply Decodes_seq; [decodes|]. intros [r val]. destruct (r <? 0); [decodes|].
  match goal with |- context[xattr_text ?n ?b] => destruct (xattr_text_total n b) as [txt ->] end.
  - unfold pad_buf. rewrite !length_app, !length_fmap, !length_seq. wrap_lia.
  - decodes.
Qed.
Hint Resolve Prints_print_xattr_val : decodes.

Lemma Prints_getxattr_exit : Prints e (getxattr_exit malloc_ok).
Proof. unfold getxattr_exit. decodes. Qed.

Context (Hok : env_ok e).
Lemma Prints_print_xattr_list a n : Prints e (print_xattr_list a n).
Proof. unfold print_xattr_list. decodes. Qed.
End discipline.
#[export] Hint Resolve Prints_printstat Prints_printstat64 Prints_printoldstat Prints_printstatfs
  Prints_statfs64_exit Prints_print_old_dirent Prints_print_xattr_val
  Prints_getxattr_exit  Prints_print_xattr_list : decodes.

(** ** Directory listings *)

(** A directory entry, with the padding the kernel adds. *)
Record entry := mk_entry {
  en_ino : Z; en_off : Z; en_type : Z; en_name : list Z; en_pad : list Z
}.
Definition reclen_of (d : entry) : Z := 20 + Z.of_nat (length (en_name d) + length (en_pad d)).

(** The record of getdents64 (struct dirent64). *)
Definition dirent64_bytes (d : entry) : list Z :=
  bytes_le 8 (en_ino d) ++ bytes_le 8 (en_off d) ++ bytes_le 2 (reclen_of d) ++ [en_type d] ++
  en_name d ++ 0 :: en_pad d.

Record entry_ok (d : entry) : Prop := {
  ino_ok : is_u64 (en_ino d);
  off_ok : is_u64 (en_off d);
  type_ok : is_u8 (en_type d);
  name_ok : 0 ∉ en_name d;
  reclen_ok : reclen_of d < 65536
}.

(** How an entry is shown. *)
Definition entry_text (d : entry) : string :=
  "{d_ino=" +:+ fmt_u (en_ino d) +:+ ", d_off=" +:+ fmt_ld (en_off d) +:+ ", " +:+ "d_type=" +:+
  printxval direnttypes (s32 (en_type d)) "DT_???" +:+ ", " +:+ "d_reclen=" +:+
  fmt_u (reclen_of d) +:+ ", d_name=" +:+ dquote +:+ string_of_bytes (en_name d) +:+
  dquote +:+ "}".
Fixpoint entries_text (first : bool) (ds : list entry) : string :=
  match ds with
  | [] => ""
  | d :: ds => (if first then "" else " ") +:+ entry_text d +:+ entries_text false ds
  end.

Lemma length_dirent64 d : Z.of_nat (length (dirent64_bytes d)) = reclen_of d.
Proof.
  unfold dirent64_bytes, reclen_of. rewrite !length_app, !length_bytes_le. simpl length. lia.
Qed.

(** A member inside the second part of a buffer. *)
Lemma fld_skip n k (pre l : list Z) : fld n (length pre + k) (pre ++ l) = fld n k l.
Proof. unfold fld. by rewrite drop_app_add. Qed.

Lemma fld_here n (v : Z) l : 0 <= v < 256 ^ Z.of_nat n -> fld n 0 (bytes_le n v ++ l) = v.
Proof.
  intros Hv. unfold fld. change (drop 0 ?l) with l.
  rewrite take_app_length' by (by rewrite length_bytes_le). by apply le_bytes_le.
Qed.

Lemma fld_past n k j v l : (j <= k)%nat -> fld n k (bytes_le j v ++ l) = fld n (k - j) l.
Proof.
  intros Hk. unfold fld. by rewrite drop_app_ge, length_bytes_le by (by rewrite length_bytes_le).
Qed.

Section getdents.
Context `{K : Kernel} (e : denv).

Lemma Does_fld_at n k buf : (k + n <= length buf)%nat -> Does e (fld_at n k buf) (fld n k buf) "" [].
Proof. intros H. unfold fld_at. rewrite (proj2 (Nat.leb_le _ _) H). apply Does_ret. Qed.

Lemma Does_str_at (name l buf : list Z) k :
  0 ∉ name -> drop k buf = name ++ 0 :: l -> Does e (str_at buf k) (string_of_bytes name) "" [].
Proof. intros H0 H. unfold str_at. rewrite H, c_string_nul by done. apply Does_ret. Qed.

(** The members of a record inside the buffer. *)
Lemma dirent64_members d pre l :
  entry_ok d -> let buf := pre ++ dirent64_bytes d ++ l in let i := length pre in
  fld 8 i buf = en_ino d /\ fld 8 (i + 8) buf = en_off d /\ fld 2 (i + 16) buf = reclen_of d /\
  fld 1 (i + 18) buf = en_type d /\ drop (i + 19) buf = en_name d ++ 0 :: en_pad d ++ l /\
  (i + 20 <= length buf)%nat.
Proof.
  intros [Hi Ho Ht Hn Hr] buf i. unfold buf, i, dirent64_bytes.
  assert (Hpos : 0 <= reclen_of d) by (unfold reclen_of; lia).
  unfold is_u64, is_u8 in *. rewrite <- !app_assoc.
  rewrite <- (Nat.add_0_r (length pre)) at 1. rewrite !fld_skip, drop_app_add.
  split_and!.
  - apply fld_here. simpl. lia.
  - rewrite fld_past by lia. apply fld_here. simpl. lia.
  - rewrite !fld_past by lia. apply fld_here. simpl. lia.
  - rewrite !fld_past by lia. unfold fld. simpl. lia.
  - rewrite !drop_app_ge, !length_bytes_le by (rewrite !length_bytes_le; lia). simpl. done.
  - rewrite !length_app, !length_bytes_le. simpl length. lia.
Qed.

Lemma Does_dirent64_text d pre l :
  entry_ok d ->
  Does e (dirent64_text (pre ++ dirent64_bytes d ++ l) (length pre)) tt
    ((if (length pre =? 0)%nat then "" else " ") +:+ entry_text d) [].
Proof.
  intros Hd. pose proof (dirent64_members d pre l Hd) as (Hi & Ho & Hr & Ht & Hn & Hl).
  set (buf := pre ++ dirent64_bytes d ++ l) in *. unfold dirent64_text.
  do 4 (eapply Does_silent; [apply Does_fld_at; lia|]). rewrite Hi, Ho, Hr, Ht.
  eapply Does_eq.
  - do 4 (eapply Does_bind; [eauto with does|]).
    eapply Does_bind; [eapply Does_str_at; [by apply name_ok|exact Hn]|]. apply Does_tp.
  - unfold entry_text. destruct (length pre =? 0)%nat; does_collect.
  - done.
Qed.

Lemma Does_getdents_loop fuel pre ds n :
  Forall entry_ok ds -> (length ds <= fuel)%nat ->
  Does e (getdents_loop fuel dirent64_text (pre ++ concat (dirent64_bytes <$> ds)) (length pre) n)
    (n + Z.of_nat (length ds))
    (if d_abbrev e then "" else entries_text (length pre =? 0)%nat ds) [].
Proof.
  revert pre ds n. induction fuel as [|fuel IH]; intros pre ds n Hds Hf.
  { destruct ds; [|simpl in Hf; lia]. rewrite Z.add_0_r. destruct (d_abbrev e); apply Does_ret. }
  cbn [getdents_loop]. destruct Hds as [|d ds Hd Hds].
  { cbn [fmap list_fmap concat]. rewrite app_nil_r, Nat.ltb_irrefl, Z.add_0_r.
    destruct (d_abbrev e); apply Does_ret. }
  rewrite fmap_cons, concat_cons. set (l := concat (dirent64_bytes <$> ds)).
  pose proof (dirent64_members d pre l Hd) as (_ & _ & Hr & _ & _ & Hl).
  assert (Hpos : 20 <= reclen_of d) by (unfold reclen_of; lia).
  rewrite (proj2 (Nat.ltb_lt _ _)) by lia. eapply Does_silent; [apply Does_ask|].
  assert (Hnext : Does e (reclen ← fld_at 2 (length pre + 16) (pre ++ dirent64_bytes d ++ l);
      if reclen =? 0 then _ ← tp "/* d_reclen == 0, problem here */"; mret n
      else getdents_loop fuel dirent64_text (pre ++ dirent64_bytes d ++ l)
             (length pre + Z.to_nat reclen) (n + 1))
      (n + Z.of_nat (S (length ds))) (if d_abbrev e then "" else entries_text false ds) []).
  { eapply Does_silent; [apply Does_fld_at; lia|]. rewrite Hr.
    replace (reclen_of d =? 0) with false by lia.
    pose proof (length_dirent64 d) as Hlen. simpl in Hf.
    specialize (IH (pre ++ dirent64_bytes d) ds (n + 1) Hds ltac:(lia)).
    rewrite <- app_assoc, length_app in IH. fold l in IH.
    replace (length (dirent64_bytes d)) with (Z.to_nat (reclen_of d)) in IH by lia.
    rewrite (proj2 (Nat.eqb_neq (length pre + _) 0)) in IH by lia.
    eapply Does_eq; [|done..]. replace (n + Z.of_nat (S (length ds))) with (n + 1 + Z.of_nat (length ds)) by lia.
    exact IH. }
  destruct (d_abbrev e); cbn [negb entries_text].
  - eapply Does_silent; [apply Does_ret|exact Hnext].
  - rewrite <- sapp_assoc. eapply Does_eq; [eapply Does_bind; [by apply Does_dirent64_text|exact Hnext]|done..].
Qed.
End getdents.

(** ** Properties *)

Section properties.
Context `{K : Kernel} (m : memory) `{!MemOk m}.

(** C15: a directory listing is shown entry by entry.  When getdents64 returns the
    records of the entries [ds], the line shows every entry once, in order, with
    its inode, offset, type, record length and name up to the NUL; with
    abbreviation only their number is shown. *)
Theorem getdents64_lists_entries e fd a count x3 x4 x5 ds :
  let buf := concat (dirent64_bytes <$> ds) in
  0 < wordsize e -> d_entering e = false -> d_error e = 0 -> d_verbose e = true ->
  u_arg e = [fd; a; count; x3; x4; x5] -> Forall entry_ok ds ->
  buf_at m (wordsize e) a buf -> d_rval e = Z.of_nat (length buf) ->
  Z.of_nat (length buf) <= 1024 * 1024 ->
  Does e sys_getdents64 0
    ((if d_abbrev e then "/* " +:+ fmt_u (Z.of_nat (length ds)) +:+ " entries */"
      else "{" +:+ entries_text true ds +:+ "}") +:+ ", " +:+ fmt_u count) [].
Proof.
  intros buf Hws He Herr Hv Ha Hds Hbuf Hrv Hlen.
  unfold sys_getdents64, getdents_with. eapply Does_silent; [apply Does_ask|].
  do 3 (eapply Does_silent; [apply Does_arg|]). rewrite He, Ha. unfold syserror.
  rewrite Herr, Hv. cbn [negb orb Z.eqb].
  assert (Hl : getdents_len (d_rval e) = Z.of_nat (length buf)).
  { unfold getdents_len. rewrite Hrv. replace (_ >? _) with false by lia.
    replace (_ <? 0) with false by lia. apply s32_id. unfold is_s32. lia. }
  rewrite Hl. eapply Does_silent; [by apply (Does_umoven m e Hws)|]. cbv beta iota.
  change (0 <? 0) with false. cbv iota. rewrite Nat2Z.id.
  assert (Hloop : Does e (getdents_loop (length buf) dirent64_text buf 0 0)
                    (0 + Z.of_nat (length ds)) (if d_abbrev e then "" else entries_text true ds) []).
  { apply (Does_getdents_loop e (length buf) [] ds 0 Hds). unfold buf. clear.
    induction ds as [|d ds IH]; [done|]. rewrite fmap_cons, concat_cons, length_app.
    pose proof (length_dirent64 d). unfold reclen_of in *. simpl length. lia. }
  destruct (d_abbrev e); cbn [negb].
  - eapply Does_silent; [apply Does_ret|]. eapply Does_silent; [exact Hloop|].
    eapply Does_eq; [does_steps|does_collect|done].
  - eapply Does_eq; [eapply Does_bind; [apply Does_tp|]; eapply Does_bind; [exact Hloop|];
      does_steps|does_collect|done].
Qed.

(** Print_xattr_val shows the value of an extended attribute.  The value is
    expanded inside the buffer it was read into, front to back; no byte is
    overwritten before it is read, so that the text has every byte, printable
    ones as they are and the others as two hex digits, and a final NUL is
    dropped.  Except when no byte of the value is printable: then the text
    reaches the end of the buffer, the test for the final NUL looks at the last
    hex digit instead, and the NUL is shown. *)
Theorem print_xattr_val_shows malloc_ok e addr insize l :
  0 < wordsize e -> buf_at m (wordsize e) addr l -> insize <> 0 -> Forall is_u8 l ->
  malloc_ok (4 * Z.of_nat (length l) + 1) = true ->
  Does e (print_xattr_val malloc_ok false addr insize (Z.of_nat (length l))) tt
    (", " +:+ dquote +:+
     string_of_bytes (escapes
       (if bool_decide (last l = Some 0) && negb (forallb (fun c => negb (printable c)) l)
        then removelast l else l)) +:+
     dquote +:+ ", " +:+ fmt_ld insize) [].
Proof.
  intros Hws Hbuf Hi Hl Hm. pose proof Hbuf as (_ & _ & H31 & _).
  unfold print_xattr_val. eapply Does_silent; [apply Does_ask|].
  rewrite (u64_id (4 * _ + 1)), Hm by wrap_lia. rewrite (proj2 (Z.eqb_neq insize 0)) by done.
  replace (_ <? Z.of_nat (length l)) with false by lia. cbn [negb orb].
  rewrite s32_id by wrap_lia.
  eapply Does_silent; [by apply (Does_umoven m e Hws)|]. cbv beta iota.
  change (0 <? 0) with false. cbv iota. rewrite Nat2Z.id. unfold pad_buf.
  rewrite length_app, length_fmap, length_seq.
  replace (Z.to_nat (4 * Z.of_nat (length l) + 1) - _)%nat with 1%nat by lia.
  cbn [seq fmap list_fmap]. rewrite <- app_assoc, xattr_text_ok; [apply Does_tp|done|].
  rewrite length_fmap, length_seq. lia.
Qed.
End properties.

(** A directory with one entry at 4096, and the attribute value "ok" with its
    NUL at 4200. *)
Definition demo_entry : entry := mk_entry 5 1 8 [97; 98] [0; 0].
Definition stat_mem : memory := page_mem 4096 (fun i =>
  default (default 0 ([111; 107; 0] !! Z.to_nat (i - 104))) (dirent64_bytes demo_entry !! Z.to_nat i)).
Definition stat_kernel : Kernel := mem_kernel true stat_mem.
#[global] Instance stat_mem_ok : @MemOk stat_kernel stat_mem.
Proof. apply mem_kernel_ok; [apply page_mem_u8|by apply page_mem_words]. Qed.
Definition stat_env (args : list Z) : denv :=
  mk_denv 7 8 0 args false 0 24 true false 0 32 false (fun _ => None) (fun _ => 0) 6.

Lemma getdents64_lists_entries_witness :
  Does (stat_env [3; 4096; 32768; 0; 0; 0]) (@sys_getdents64 stat_kernel) 0
    ("{" +:+ ("{d_ino=5, d_off=1, d_type=DT_REG, d_reclen=24, d_name=" +:+ dquote +:+ "ab" +:+
      dquote +:+ "}") +:+ "}, 32768") [].
Proof.
  refine (Does_eq _ _ _ _ _ _ _ (@getdents64_lists_entries stat_kernel stat_mem stat_mem_ok
    (stat_env [3; 4096; 32768; 0; 0; 0]) 3 4096 32768 0 0 0 [demo_entry] _ _ _ _ _ _ _ _ _) _ _);
    try reflexivity.
  - constructor; [|constructor]. split; try (vm_compute; split; congruence).
    apply (bool_decide_unpack (0 ∉ [97; 98])). vm_compute. exact I.
  - at_buf.
  - vm_compute. congruence.
Defined.

Lemma print_xattr_val_shows_witness :
  Does (stat_env [0; 0; 0; 0; 0; 0])
    (@print_xattr_val stat_kernel (fun n => n <? 1000) false 4200 3 3) tt
    (", " +:+ dquote +:+ "ok" +:+ dquote +:+ ", 3") [].
Proof.
  refine (Does_eq _ _ _ _ _ _ _ (@print_xattr_val_shows stat_kernel stat_mem stat_mem_ok
    (fun n => n <? 1000) (stat_env [0; 0; 0; 0; 0; 0]) 4200 3 [111; 107; 0] _ _ _ _ _) _ _);
    try reflexivity.
  - at_buf.
  - discriminate.
  - repeat constructor; vm_compute; congruence.
Defined.
