(* ===== verification/Sigcalls.v ===== *)
(** * Decoders of the signal system calls (signal.c: copy_sigset_len to
      sys_signalfd4)

    A sigset_t is the number whose bit [i - 1] is signal [i].  The messages of
    [errnoent] are the table of the current personality, which printsiginfo
    shows errors with. *)

From S2P Require Import Prelude Xlat Quote Tracee Decode Io Args Signal Time File.
Local Open Scope string_scope.
Local Open Scope list_scope.
Local Open Scope Z_scope.

Definition sigact_flags : list xlat :=
  [mk_xlat 0x4000000 "SA_RESTORER"; mk_xlat 0x8000000 "SA_STACK";
   mk_xlat 0x10000000 "SA_RESTART"; mk_xlat 0x20000000 "SA_INTERRUPT";
   mk_xlat 0x40000000 "SA_NODEFER"; mk_xlat (-2147483648) "SA_RESETHAND";
   mk_xlat 4 "SA_SIGINFO"; mk_xlat (-2147483648) "SA_RESETHAND";
   mk_xlat 0x8000000 "SA_ONSTACK"; mk_xlat 0x40000000 "SA_NODEFER"; mk_xlat 1 "SA_NOCLDSTOP";
   mk_xlat 2 "SA_NOCLDWAIT"].

Definition sigprocmaskcmds : list xlat :=
  [mk_xlat 0 "SIG_BLOCK"; mk_xlat 1 "SIG_UNBLOCK"; mk_xlat 2 "SIG_SETMASK"].

Definition sigaltstack_flags : list xlat := [mk_xlat 1 "SS_ONSTACK"; mk_xlat 2 "SS_DISABLE"].

Definition SA_RESTORER : Z := 0x04000000.

(** The result of a call that returns a set or a handler. *)
Definition RVAL_HEX_STR : Z := Z.lor RVAL_HEX RVAL_STR.
#[export] Hint Extern 1 (rval_format_ok RVAL_HEX_STR) => done : decodes.

(** sizeof(sigset_t) *)
Definition sizeof_sigset : Z := 128.

Section sigcalls.
Context `{K : Kernel} (errnoent : nat -> list string).

(** copy_sigset_len; [len] is an int that is compared with a size_t. *)
Definition copy_sigset_len (addr len : Z) : D (option Z) :=
  let len := if u64 (s32 len) >? sizeof_sigset then sizeof_sigset else s32 len in
  '(r, bs) ← d_umoven addr len;
  mret (if r <? 0 then None else Some (le bs)).

Definition printsigmask (mask : Z) (rt : bool) : D unit := tp (sprintsigmask "" mask rt).
Definition printsignal (nr : Z) : D unit := tp (signame (s32 nr)).

Definition print_sigset (addr : Z) (rt : bool) : D unit :=
  if addr =? 0 then tp "NULL"
  else
    ss ← copy_sigset_len addr 8;
    match ss with None => tp (hexl addr) | Some ss => printsigmask ss rt end.

(** siginfo_t of x86_64: the members of the union overlap. *)
Definition sizeof_siginfo : Z := 128.
Definition siginfo_of (bs : list Z) : siginfo :=
  mk_siginfo (fld_int 0 bs) (fld_int 4 bs) (fld_int 8 bs)
    (fld_int 16 bs) (fld 4 20 bs) (fld_int 24 bs) (fld 8 24 bs)
    (fld_int 24 bs) (fld_long 32 bs) (fld_long 40 bs) (fld 8 16 bs) (fld_long 16 bs).

Definition printsiginfo_at (addr : Z) : D unit :=
  e ← ask;
  if addr =? 0 then tp "NULL"
  else if syserror e then tp (hexl addr)
  else
    si ← umove_struct addr sizeof_siginfo;
    tp match si with
       | None => "{???}"
       | Some bs => printsiginfo (errnoent (d_pers e)) (siginfo_of bs) (d_verbose e)
       end.

Definition sys_sigsetmask : D Z :=
  e ← ask;
  if d_entering e then a0 ← arg 0; _ ← printsigmask a0 false; mret 0
  else if syserror e then mret 0
  else
    _ ← put_auxstr (Some (sprintsigmask "old mask " (u64 (d_rval e)) false));
    mret RVAL_HEX_STR.

(** SIG_ERR, SIG_DFL, SIG_IGN *)
Definition handler_name (h : Z) : option string :=
  if h =? u64 (-1) then Some "SIG_ERR"
  else if h =? 0 then Some "SIG_DFL"
  else if h =? 1 then Some "SIG_IGN"
  else None.
Definition handler_text (h : Z) : string := default (hexl h) (handler_name h).

(** The members of a sigaction that was read. *)
Definition print_sigaction (handler mask flags restorer : Z) (rt : bool) : D unit :=
  _ ← tp ("{" +:+ handler_text handler +:+ ", ");
  _ ← printsigmask mask rt;
  _ ← tp ", ";
  _ ← print_flags sigact_flags flags "SA_???";
  _ ← (if has_flag flags SA_RESTORER then tp (", " +:+ fmt_p restorer) else mret tt);
  tp "}".

(** struct old_sigaction: four longs.  The bytes of the variable [sa]: what was
    read of it. *)
Definition sys_sigaction : D Z :=
  e ← ask;
  a0 ← arg 0; a1 ← arg 1; a2 ← arg 2;
  _ ← (if d_entering e then _ ← printsignal a0; tp ", " else mret tt);
  let addr := if d_entering e then a1 else a2 in
  sa ← (if addr =? 0 then _ ← tp "NULL"; mret []
        else if negb (d_verbose e) then _ ← tp (hexl addr); mret []
        else
          '(r, bs) ← d_umoven addr 32;
          _ ← (if r <? 0 then tp "{...}"
               else print_sigaction (fld 8 0 bs) (fld 8 8 bs) (fld 8 16 bs) (fld 8 24 bs) false);
          mret bs);
  _ ← tp (if d_entering e then ", " else ", " +:+ hexl (fld 8 24 (pad_buf (junk e) 32 sa)));
  mret 0.

Definition sys_signal : D Z :=
  e ← ask;
  if d_entering e then
    a0 ← arg 0; a1 ← arg 1;
    _ ← printsignal a0;
    _ ← tp (", " +:+ handler_text a1);
    mret 0
  else if syserror e then mret 0
  else _ ← put_auxstr (handler_name (u64 (d_rval e))); mret RVAL_HEX_STR.

Definition sys_sigreturn : D Z := mret 0.

Definition sys_siggetmask : D Z :=
  e ← ask;
  _ ← if_exiting (put_auxstr (Some (sprintsigmask "mask " (u64 (d_rval e)) false)));
  mret RVAL_HEX_STR.

Definition sys_sigsuspend : D Z :=
  _ ← if_entering (a2 ← arg 2; printsigmask a2 false);
  mret 0.

(** stack_t: ss_sp, ss_flags (an int), ss_size *)
Definition print_stack_t (addr : Z) : D unit :=
  if addr =? 0 then tp "NULL"
  else
    ss ← umove_struct addr 24;
    match ss with
    | None => tp (hexl addr)
    | Some ss =>
        _ ← tp ("{ss_sp=" +:+ hexl (fld 8 0 ss) +:+ ", ss_flags=");
        _ ← print_flags sigaltstack_flags (fld_int 8 ss) "SS_???";
        tp (", ss_size=" +:+ fmt_u (fld 8 16 ss) +:+ "}")
    end.

Definition sys_sigaltstack : D Z :=
  e ← ask;
  _ ← (if d_entering e then a0 ← arg 0; print_stack_t a0
       else a1 ← arg 1; _ ← tp ", "; print_stack_t a1);
  mret 0.

Definition sys_sigprocmask : D Z :=
  e ← ask;
  _ ← (if d_entering e then
         a0 ← arg 0; a1 ← arg 1;
         _ ← print_xval sigprocmaskcmds a0 "SIG_???";
         _ ← tp ", ";
         _ ← print_sigset a1 false;
         tp ", "
       else
         a2 ← arg 2;
         if a2 =? 0 then tp "NULL"
         else if syserror e then tp (hexl a2)
         else print_sigset a2 false);
  mret 0.

(** widen_to_long *)
Definition widen_to_long (e : denv) (v : Z) : Z := if wordsize e =? 4 then s32 v else s64 v.

Definition sys_kill : D Z :=
  e ← ask;
  _ ← if_entering (a0 ← arg 0; a1 ← arg 1;
        tp (fmt_d (widen_to_long e a0) +:+ ", " +:+ signame (s32 a1)));
  mret 0.

Definition sys_tgkill : D Z :=
  e ← ask;
  _ ← if_entering (a0 ← arg 0; a1 ← arg 1; a2 ← arg 2;
        tp (fmt_d (widen_to_long e a0) +:+ ", " +:+ fmt_d (widen_to_long e a1) +:+ ", " +:+
            signame (s32 a2)));
  mret 0.

(** [if (copy_sigset_len(...) < 0) tprints("[?]"); else printsigmask(...);] *)
Definition print_sigset_len (addr len : Z) (rt : bool) : D unit :=
  ss ← copy_sigset_len addr len;
  match ss with None => tp "[?]" | Some ss => printsigmask ss rt end.

Definition sys_sigpending : D Z :=
  e ← ask;
  _ ← if_exiting (a0 ← arg 0;
        if syserror e then tp (hexl a0) else print_sigset_len a0 8 false);
  mret 0.

Definition sys_rt_sigprocmask : D Z :=
  e ← ask;
  a0 ← arg 0; a1 ← arg 1; a2 ← arg 2; a3 ← arg 3;
  _ ← (if d_entering e then
         _ ← print_xval sigprocmaskcmds a0 "SIG_???";
         _ ← tp ", ";
         if a1 =? 0 then tp "NULL, "
         else
           ss ← copy_sigset_len a1 a3;
           match ss with
           | None => tp (hexl a1 +:+ ", ")
           | Some ss => _ ← printsigmask ss true; tp ", "
           end
       else
         _ ← (if a2 =? 0 then tp "NULL"
              else if syserror e then tp (hexl a2)
              else print_sigset_len a2 a3 true);
         tp (", " +:+ fmt_u a3));
  mret 0.

(** The handler, the flags, the restorer and the bytes of the mask of a struct
    new_sigaction (the mask has 8 longs, NSIG / sizeof(long)) or of a struct
    new_sigaction32, whose mask is put together from two words. *)
Definition sizeof_new_sigaction (e : denv) : Z := if wordsize e =? 4 then 76 else 88.
Definition new_sigaction (e : denv) (bs : list Z) : Z * Z * Z * list Z :=
  if wordsize e =? 4 then
    (fld 4 0 bs, fld 4 4 bs, fld 4 8 bs,
     bytes_le 8 (u64 (fld 4 12 bs + Z.shiftl (fld 4 16 bs) 32)) ++ replicate 56 0)
  else (fld 8 0 bs, fld 8 8 bs, fld 8 16 bs, take 64 (drop 24 bs)).

(** The part of sys_rt_sigaction for a struct that was read.  At most
    sizeof(sigset_t) bytes are copied from sa_mask; those behind its 64 bytes
    hold no signal. *)
Definition print_new_sigaction (e : denv) (bs : list Z) (size : Z) : D unit :=
  let '(handler, flags, restorer, mask) := new_sigaction e bs in
  let n := Z.to_nat (if size <=? sizeof_sigset then size else sizeof_sigset) in
  print_sigaction handler (le (take n mask)) flags restorer true.

Definition sys_rt_sigaction : D Z :=
  e ← ask;
  a0 ← arg 0; a1 ← arg 1; a2 ← arg 2; a3 ← arg 3;
  _ ← (if d_entering e then _ ← printsignal a0; tp ", " else mret tt);
  let addr := if d_entering e then a1 else a2 in
  _ ← (if addr =? 0 then tp "NULL"
       else if negb (d_verbose e) then tp (hexl addr)
       else
         sa ← umove_struct addr (sizeof_new_sigaction e);
         match sa with
         | None => tp "{...}"
         | Some bs => print_new_sigaction e bs a3
         end);
  _ ← tp (if d_entering e then ", " else ", " +:+ fmt_u a3);
  mret 0.

Definition sys_rt_sigpending : D Z :=
  e ← ask;
  _ ← if_exiting (a0 ← arg 0; a1 ← arg 1;
        if syserror e then tp (hexl a0) else print_sigset_len a0 a1 true);
  mret 0.

Definition sys_rt_sigsuspend : D Z :=
  _ ← if_entering (a0 ← arg 0; a1 ← arg 1; print_sigset_len a0 a1 true);
  mret 0.

Definition print_sigqueueinfo (sig uinfo : Z) : D unit :=
  _ ← printsignal sig; _ ← tp ", "; printsiginfo_at uinfo.

Definition sys_rt_sigqueueinfo : D Z :=
  _ ← if_entering (a0 ← arg 0; a1 ← arg 1; a2 ← arg 2;
        _ ← tp (fmt_u a0 +:+ ", "); print_sigqueueinfo a1 a2);
  mret 0.

Definition sys_rt_tgsigqueueinfo : D Z :=
  _ ← if_entering (a0 ← arg 0; a1 ← arg 1; a2 ← arg 2; a3 ← arg 3;
        _ ← tp (fmt_u a0 +:+ ", " +:+ fmt_u a1 +:+ ", "); print_sigqueueinfo a2 a3);
  mret 0.

(** The time limit is shown on entry when no siginfo is asked for. *)
Definition sys_rt_sigtimedwait : D Z :=
  e ← ask;
  a0 ← arg 0; a1 ← arg 1; a2 ← arg 2; a3 ← arg 3;
  more ← (if d_entering e then
            _ ← print_sigset_len a0 a3 true;
            _ ← tp ", ";
            if a1 =? 0 then _ ← tp "NULL, "; mret true else mret false
          else if a1 =? 0 then mret false
          else _ ← printsiginfo_at a1; _ ← tp ", "; mret true);
  _ ← (if more : bool then _ ← print_timespec a2; tp (", " +:+ fmt_int a3) else mret tt);
  mret 0.

Definition sys_restart_syscall : D Z :=
  _ ← if_entering (tp "<... resuming interrupted call ...>"); mret 0.

(** [flags_arg] is [None] for -1. *)
Definition do_signalfd (flags_arg : option nat) : D Z :=
  _ ← if_entering (
        a0 ← arg 0; a1 ← arg 1; a2 ← arg 2;
        _ ← printfd a0;
        _ ← tp ", ";
        _ ← print_sigset a1 true;
        _ ← tp (", " +:+ fmt_u a2);
        match flags_arg with
        | None => mret tt
        | Some i => f ← arg i; _ ← tp ", "; print_flags open_mode_flags f "O_???"
        end);
  mret 0.
Definition sys_signalfd : D Z := do_signalfd None.
Definition sys_signalfd4 : D Z := do_signalfd (Some 3%nat).

(** ** The discipline *)

Lemma Prints_copy_sigset_len e a n : Prints e (copy_sigset_len a n).
Proof. unfold copy_sigset_len. decodes. Qed.
Hint Resolve Prints_copy_sigset_len : decodes.
Lemma Prints_print_sigset e a rt : Prints e (print_sigset a rt).
Proof. unfold print_sigset, printsigmask. decodes. Qed.
Lemma Prints_print_sigset_len e a n rt : Prints e (print_sigset_len a n rt).
Proof. unfold print_sigset_len, printsigmask. decodes. Qed.
Lemma Prints_printsigmask e m rt : Prints e (printsigmask m rt).
Proof. unfold printsigmask. decodes. Qed.
Lemma Prints_printsignal e n : Prints e (printsignal n).
Proof. unfold printsignal. decodes. Qed.
Lemma Prints_printsiginfo_at e a : Prints e (printsiginfo_at a).
Proof. unfold printsiginfo_at. decodes. Qed.
Hint Resolve Prints_printsigmask Prints_printsignal Prints_printsiginfo_at : decodes.
Lemma Prints_print_sigaction e h m f r rt : Prints e (print_sigaction h m f r rt).
Proof. unfold print_sigaction. decodes. Qed.
Lemma Prints_print_stack_t e a : Prints e (print_stack_t a).
Proof. unfold print_stack_t. decodes. Qed.
Lemma Prints_print_sigqueueinfo e s u : Prints e (print_sigqueueinfo s u).
Proof. unfold print_sigqueueinfo. decodes. Qed.
Hint Resolve Prints_print_sigaction : decodes.
Lemma Prints_print_new_sigaction e' e bs n : Prints e' (print_new_sigaction e bs n).
Proof. unfold print_new_sigaction. destruct (new_sigaction e bs) as [[[? ?] ?] ?]. decodes. Qed.
End sigcalls.

#[export] Hint Resolve Prints_copy_sigset_len Prints_print_sigset Prints_print_sigset_len
  Prints_printsigmask Prints_printsignal Prints_printsiginfo_at Prints_print_sigaction
  Prints_print_stack_t Prints_print_sigqueueinfo Prints_print_new_sigaction : decodes.
