(* ===== verification/Desc.v ===== *)
(** * Decoders of the descriptor calls (desc.c), and poll (stream.c)

    select and poll build the text of their result in a static buffer of 1024
    bytes; here it is the string written so far, and [slen] of it is the
    position of [outptr].  The x86_64 build has no libaio.h: the io_* calls show
    addresses only. *)

From S2P Require Import Prelude Xlat Quote Tracee Decode Io Args Signal Time File Sigcalls.
Local Open Scope string_scope.
Local Open Scope list_scope.
Local Open Scope Z_scope.

Definition fcntlcmds : list xlat :=
  [mk_xlat 0 "F_DUPFD"; mk_xlat 1 "F_GETFD"; mk_xlat 2 "F_SETFD"; mk_xlat 3 "F_GETFL";
   mk_xlat 4 "F_SETFL"; mk_xlat 5 "F_GETLK"; mk_xlat 6 "F_SETLK"; mk_xlat 7 "F_SETLKW";
   mk_xlat 9 "F_GETOWN"; mk_xlat 8 "F_SETOWN"; mk_xlat 10 "F_SETSIG"; mk_xlat 11 "F_GETSIG";
   mk_xlat 9 "F_GETOWN"; mk_xlat 8 "F_SETOWN"; mk_xlat 6 "F_SETLK"; mk_xlat 7 "F_SETLKW";
   mk_xlat 5 "F_GETLK"; mk_xlat 6 "F_SETLK64"; mk_xlat 7 "F_SETLKW64"; mk_xlat 5 "F_GETLK64";
   mk_xlat 0x400 "F_SETLEASE"; mk_xlat 0x401 "F_GETLEASE"; mk_xlat 0x402 "F_NOTIFY";
   mk_xlat 0x406 "F_DUPFD_CLOEXEC"].
Definition F_DUPFD : Z := 0.
Definition F_GETFD : Z := 1.
Definition F_SETFD : Z := 2.
Definition F_GETFL : Z := 3.
Definition F_SETFL : Z := 4.
Definition F_GETLK : Z := 5.
Definition F_SETLK : Z := 6.
Definition F_SETLKW : Z := 7.
Definition F_SETOWN : Z := 8.
Definition F_GETOWN : Z := 9.
Definition F_SETLEASE : Z := 0x400.
Definition F_GETLEASE : Z := 0x401.
Definition F_NOTIFY : Z := 0x402.
Definition F_DUPFD_CLOEXEC : Z := 0x406.

Definition fdflags : list xlat := [mk_xlat 1 "FD_CLOEXEC"].
Definition flockcmds : list xlat :=
  [mk_xlat 1 "LOCK_SH"; mk_xlat 2 "LOCK_EX"; mk_xlat 4 "LOCK_NB"; mk_xlat 8 "LOCK_UN"].
Definition lockfcmds : list xlat :=
  [mk_xlat 0 "F_RDLCK"; mk_xlat 1 "F_WRLCK"; mk_xlat 2 "F_UNLCK"; mk_xlat 4 "F_EXLCK";
   mk_xlat 8 "F_SHLCK"].
Definition notifyflags : list xlat :=
  [mk_xlat 1 "DN_ACCESS"; mk_xlat 2 "DN_MODIFY"; mk_xlat 4 "DN_CREATE"; mk_xlat 8 "DN_DELETE";
   mk_xlat 16 "DN_RENAME"; mk_xlat 32 "DN_ATTRIB"; mk_xlat (-2147483648) "DN_MULTISHOT"].
Definition perf_event_open_flags : list xlat :=
  [mk_xlat 1 "PERF_FLAG_FD_NO_GROUP"; mk_xlat 2 "PERF_FLAG_FD_OUTPUT";
   mk_xlat 4 "PERF_FLAG_PID_CGROUP"].
Definition epollctls : list xlat :=
  [mk_xlat 1 "EPOLL_CTL_ADD"; mk_xlat 3 "EPOLL_CTL_MOD"; mk_xlat 2 "EPOLL_CTL_DEL"].
Definition epollevents : list xlat :=
  [mk_xlat 1 "EPOLLIN"; mk_xlat 2 "EPOLLPRI"; mk_xlat 4 "EPOLLOUT"; mk_xlat 64 "EPOLLRDNORM";
   mk_xlat 0x80 "EPOLLRDBAND"; mk_xlat 0x100 "EPOLLWRNORM"; mk_xlat 0x200 "EPOLLWRBAND";
   mk_xlat 0x400 "EPOLLMSG"; mk_xlat 8 "EPOLLERR"; mk_xlat 16 "EPOLLHUP";
   mk_xlat 0x2000 "EPOLLRDHUP"; mk_xlat 0x40000000 "EPOLLONESHOT";
   mk_xlat (-2147483648) "EPOLLET"].
Definition epollflags : list xlat := [mk_xlat 0x80000 "EPOLL_CLOEXEC"].
Definition pollflags : list xlat :=
  [mk_xlat 1 "POLLIN"; mk_xlat 2 "POLLPRI"; mk_xlat 4 "POLLOUT"; mk_xlat 64 "POLLRDNORM";
   mk_xlat 0x100 "POLLWRNORM"; mk_xlat 0x80 "POLLRDBAND"; mk_xlat 0x200 "POLLWRBAND";
   mk_xlat 8 "POLLERR"; mk_xlat 16 "POLLHUP"; mk_xlat 32 "POLLNVAL"].

(** sizeof(outstr) and TIMEVAL_TEXT_BUFSIZE *)
Definition sizeof_outstr : Z := 1024.
Definition timeval_bufsize : Z := 8 * 3 * 2 + 9.

Section desc.
Context `{K : Kernel}.

(** ** fcntl, flock, close, dup *)

(** struct flock and, for a word size of 4, its 32-bit form: type, whence,
    start, len, pid. *)
Definition sizeof_flock (e : denv) : Z := if wordsize e =? 4 then 16 else 32.
Definition flock_of (e : denv) (bs : list Z) : Z * Z * Z * Z * Z :=
  if wordsize e =? 4 then
    (fld_short 0 bs, fld_short 2 bs, fld_int 4 bs, fld_int 8 bs, fld_int 12 bs)
  else (fld_short 0 bs, fld_short 2 bs, fld_long 8 bs, fld_long 16 bs, fld_int 24 bs).

Definition printflock (addr : Z) (getlk : bool) : D unit :=
  e ← ask;
  if negb (wordsize e =? 8) && negb (wordsize e =? 4) then
    tp ("<decode error: unsupported wordsize " +:+ fmt_d (wordsize e) +:+ ">")
  else
    fl ← umove_struct addr (sizeof_flock e);
    match fl with
    | None => tp "{...}"
    | Some bs =>
        let '(l_type, l_whence, l_start, l_len, l_pid) := flock_of e bs in
        _ ← tp "{type=";
        _ ← print_xval lockfcmds l_type "F_???";
        _ ← tp ", whence=";
        _ ← print_xval whence_codes l_whence "SEEK_???";
        _ ← tp (", start=" +:+ fmt_d l_start +:+ ", len=" +:+ fmt_d l_len);
        tp (if getlk then ", pid=" +:+ fmt_u (u64 l_pid) +:+ "}" else "}")
    end.

(** The commands whose argument is shown on entry. *)
Definition fcntl_entering (cmd a2 : Z) : D unit :=
  if cmd =? F_SETFD then _ ← tp ", "; print_flags fdflags a2 "FD_???"
  else if (cmd =? F_SETOWN) || (cmd =? F_DUPFD) || (cmd =? F_DUPFD_CLOEXEC) then
    tp (", " +:+ fmt_ld a2)
  else if cmd =? F_SETFL then _ ← tp ", "; tprint_open_modes a2
  else if (cmd =? F_SETLK) || (cmd =? F_SETLKW) then _ ← tp ", "; printflock a2 false
  else if cmd =? F_NOTIFY then _ ← tp ", "; print_flags notifyflags a2 "DN_???"
  else if cmd =? F_SETLEASE then _ ← tp ", "; print_xval lockfcmds a2 "F_???"
  else mret tt.

Definition fcntl_exiting (cmd a2 : Z) : D Z :=
  e ← ask;
  if existsb (Z.eqb cmd) [F_DUPFD; F_DUPFD_CLOEXEC; F_SETFD; F_SETFL; F_SETLK; F_SETLKW; F_SETOWN;
                          F_GETOWN; F_NOTIFY; F_SETLEASE] then mret 0
  else if cmd =? F_GETFD then
    if syserror e || (d_rval e =? 0) then mret 0
    else
      _ ← put_auxstr (Some (sprintflags "flags " fdflags (s32 (d_rval e))));
      mret RVAL_HEX_STR
  else if cmd =? F_GETFL then
    if syserror e then mret 0
    else _ ← put_auxstr (Some (sprint_open_modes (u32 (d_rval e)))); mret RVAL_HEX_STR
  else if cmd =? F_GETLK then _ ← tp ", "; _ ← printflock a2 true; mret 0
  else if cmd =? F_GETLEASE then
    if syserror e then mret 0
    else _ ← put_auxstr (xlookup lockfcmds (s32 (d_rval e))); mret RVAL_HEX_STR
  else _ ← tp (", " +:+ hexl a2); mret 0.

Definition sys_fcntl : D Z :=
  e ← ask;
  a0 ← arg 0; a1 ← arg 1; a2 ← arg 2;
  if d_entering e then
    _ ← printfd a0;
    _ ← tp ", ";
    _ ← print_xval fcntlcmds a1 "F_???";
    _ ← fcntl_entering a1 a2;
    mret 0
  else fcntl_exiting a1 a2.

Definition sys_flock : D Z :=
  _ ← if_entering (a0 ← arg 0; a1 ← arg 1;
        _ ← printfd a0; _ ← tp ", "; print_flags flockcmds a1 "LOCK_???");
  mret 0.

Definition sys_close : D Z := _ ← if_entering (a0 ← arg 0; printfd a0); mret 0.

Definition do_dup2 (flags_arg : option nat) : D Z :=
  _ ← if_entering (
        a0 ← arg 0; a1 ← arg 1;
        _ ← printfd a0; _ ← tp ", "; _ ← printfd a1;
        match flags_arg with
        | None => mret tt
        | Some i => f ← arg i; _ ← tp ", "; print_flags open_mode_flags f "O_???"
        end);
  mret 0.
Definition sys_dup2 : D Z := do_dup2 None.
Definition sys_dup3 : D Z := do_dup2 (Some 2%nat).

(** ** select *)

(** The bytes of the descriptor sets: the clamped number of descriptors, in
    whole longs. *)
Definition select_fdsize (n : Z) : Z :=
  let fdsize := if n >? 1024 * 1024 then 1024 * 1024 else if n <? 0 then 0 else u32 n in
  Z.land ((fdsize + 7) / 8 + 7) (-8).

(** FD_ISSET(j, fds); [None] outside of the buffer. *)
Definition fd_isset (j : Z) (fds : list Z) : option bool :=
  (fun b => Z.testbit b (j mod 8)) <$> fds !! Z.to_nat (j / 8).

(** The rounds to model of a loop over descriptors below [n]: a round past the
    buffer is the last one. *)
Definition fd_rounds (n : Z) (fds : list Z) : nat :=
  Z.to_nat (Z.min n (8 * Z.of_nat (length fds) + 1)).

Fixpoint select_set_loop (n : nat) (j : Z) (fds : list Z) (sep : string) : D unit :=
  match n with
  | O => mret tt
  | S n =>
      match fd_isset j fds with
      | None => abort
      | Some true => _ ← tp sep; _ ← printfd j; select_set_loop n (j + 1) fds " "
      | Some false => select_set_loop n (j + 1) fds sep
      end
  end.

(** One of the three sets on entry. *)
Definition select_set (nfds fdsize addr : Z) : D unit :=
  e ← ask;
  if addr =? 0 then tp ", NULL"
  else if negb (d_verbose e) then tp (", " +:+ hexl addr)
  else
    fds ← umove_struct addr fdsize;
    match fds with
    | None => tp ", [?]"
    | Some fds =>
        _ ← tp ", [";
        _ ← select_set_loop (fd_rounds nfds fds) 0 fds "";
        tp "]"
    end.

(** The text under construction on exit, the separator, and the number of
    descriptors still to be found. *)
Record select_out := mk_select_out { so_text : string; so_sep : string; so_left : Z }.

Definition set_name (i : Z) : string :=
  if i =? 0 then "in" else if i =? 1 then "out" else "except".

(** Descriptor [j] of set [i]; [first] is true up to the first one shown. *)
Definition select_member (i j : Z) (first : bool) (o : select_out) : bool * select_out :=
  let left := u32 (so_left o - 1) in
  if slen (so_text o) <? sizeof_outstr - (11 + 4 * 3 + 2) then
    if first then
      (false, mk_select_out (so_text o +:+ so_sep o +:+ set_name i +:+ " [" +:+ fmt_u j) ", " left)
    else (false, mk_select_out (so_text o +:+ " " +:+ fmt_u j) (so_sep o) left)
  else (first, mk_select_out (so_text o) (so_sep o) left).

Fixpoint select_member_loop (n : nat) (i j : Z) (fds : list Z) (first : bool) (o : select_out)
    : D select_out :=
  match n with
  | O => mret o
  | S n =>
      match fd_isset j fds with
      | None => abort
      | Some true =>
          let '(first, o) := select_member i j first o in
          select_member_loop n i (j + 1) fds first o
      | Some false => select_member_loop n i (j + 1) fds first o
      end
  end.

(** for (i = 0; i < 3; i++) *)
Fixpoint select_sets (i : Z) (addrs : list Z) (n fdsize : Z) (o : select_out) : D select_out :=
  match addrs with
  | [] => mret o
  | addr :: addrs =>
      fds ← (if addr =? 0 then mret None else umove_struct addr fdsize);
      match fds with
      | None => select_sets (i + 1) addrs n fdsize o
      | Some fds =>
          o ← select_member_loop (fd_rounds n fds) i 0 fds true o;
          let o := if slen (so_text o) =? 0 then o
                   else mk_select_out (so_text o +:+ "]") (so_sep o) (so_left o) in
          if so_left o =? 0 then mret o else select_sets (i + 1) addrs n fdsize o
      end
  end.

(** decode_select; [args] has the five arguments. *)
Definition decode_select (args : list Z) : D Z :=
  e ← ask;
  let arg i := default 0 (args !! i) in
  let n := s64 (arg 0%nat) in
  let fdsize := select_fdsize n in
  if d_entering e then
    _ ← tp (fmt_int n);
    _ ← select_set (u32 n) fdsize (arg 1%nat);
    _ ← select_set (u32 n) fdsize (arg 2%nat);
    _ ← select_set (u32 n) fdsize (arg 3%nat);
    _ ← tp ", ";
    _ ← printtv_bitness (arg 4%nat) false;
    mret 0
  else if syserror e then mret 0
  else if u32 (d_rval e) =? 0 then _ ← put_auxstr (Some "Timeout"); mret RVAL_STR
  else
    o ← select_sets 0 [arg 1%nat; arg 2%nat; arg 3%nat] n fdsize
          (mk_select_out "" "" (u32 (d_rval e)));
    txt ← (if negb (arg 4%nat =? 0) && (slen (so_text o) <? sizeof_outstr - (10 + timeval_bufsize))
           then left ← sprinttv (arg 4%nat) false;
                mret (so_text o +:+ so_sep o +:+ "left " +:+ left)
           else mret (so_text o));
    _ ← put_auxstr (Some txt);
    mret RVAL_STR.

(** The longs of sys_oldselect's array. *)
Definition longs (n : nat) (bs : list Z) : list Z := (fun i => fld 8 (8 * i) bs) <$> seq 0 n.

Definition sys_oldselect : D Z :=
  a0 ← arg 0;
  args ← umove_struct a0 40;
  match args with
  | None => _ ← tp "[...]"; mret 0
  | Some bs => decode_select (longs 5 bs)
  end.

Definition sys_select : D Z := e ← ask; decode_select (u_arg e).

Definition sys_pselect6 : D Z :=
  e ← ask;
  rc ← decode_select (u_arg e);
  _ ← if_entering (
        a5 ← arg 5;
        data ← umove_struct a5 16;
        match data with
        | None => tp (", " +:+ hexl a5)
        | Some data =>
            _ ← tp ", {";
            _ ← (if fld 8 8 data <? 8 then tp (hexl (fld 8 0 data))
                 else print_sigset (fld 8 0 data) false);
            tp (", " +:+ fmt_u (fld 8 8 data) +:+ "}")
        end);
  mret rc.

(** ** epoll *)

(** Not aliased to printargs_ld in the code; its table entries have one
    argument. *)
Definition sys_epoll_create : D Z := printargs_ld 1.

Definition sys_epoll_create1 : D Z :=
  _ ← if_entering (a0 ← arg 0; print_flags epollflags a0 "EPOLL_???"); mret 0.

(** struct epoll_event, packed: 12 bytes *)
Definition print_epoll_event (ev : list Z) : D unit :=
  _ ← tp "{";
  _ ← print_flags epollevents (fld 4 0 ev) "EPOLL???";
  tp (", {u32=" +:+ fmt_u (fld 4 4 ev) +:+ ", u64=" +:+ fmt_u (fld 8 4 ev) +:+ "}}").

Definition sys_epoll_ctl : D Z :=
  _ ← if_entering (
        a0 ← arg 0; a1 ← arg 1; a2 ← arg 2; a3 ← arg 3;
        _ ← printfd a0; _ ← tp ", ";
        _ ← print_xval epollctls a1 "EPOLL_CTL_???"; _ ← tp ", ";
        _ ← printfd a2; _ ← tp ", ";
        if a3 =? 0 then tp "NULL"
        else
          ev ← umove_struct a3 12;
          match ev with Some ev => print_epoll_event ev | None => tp "{...}" end);
  mret 0.

(** for (cur = start; cur < end; ++cur); whether a read failed *)
Fixpoint epoll_loop (n : nat) (start cur : Z) : D bool :=
  match n with
  | O => mret false
  | S n =>
      _ ← (if cur >? start then tp ", " else mret tt);
      ev ← umove_struct cur 12;
      match ev with
      | Some ev => _ ← print_epoll_event ev; epoll_loop n start (cur + 12)
      | None => _ ← tp "?"; mret true
      end
  end.

Definition epoll_wait_common : D unit :=
  e ← ask;
  a0 ← arg 0; a1 ← arg 1; a2 ← arg 2; a3 ← arg 3;
  if d_entering e then _ ← printfd a0; tp ", "
  else
    _ ← (if syserror e then tp (fmt_x a1)
         else if d_rval e =? 0 then tp "{}"
         else
           _ ← tp "{";
           failed ← epoll_loop (Z.to_nat (d_rval e)) a1 a1;
           _ ← tp "}";
           if failed : bool then tp (" " +:+ hexl a1) else mret tt);
    tp (", " +:+ fmt_int a2 +:+ ", " +:+ fmt_int a3).

Definition sys_epoll_wait : D Z := _ ← epoll_wait_common; mret 0.

Definition sys_epoll_pwait : D Z :=
  _ ← epoll_wait_common;
  _ ← if_exiting (a4 ← arg 4; _ ← tp ", "; print_sigset a4 false);
  mret 0.

(** ** Asynchronous I/O, eventfd, perf_event_open *)

Definition sys_io_setup : D Z :=
  e ← ask;
  a0 ← arg 0; a1 ← arg 1;
  _ ← (if d_entering e then tp (fmt_ld a0 +:+ ", ")
       else if syserror e then tp ("0x" +:+ fmt_x a1)
       else
         id ← umove a1 8;
         tp match id with Some id => "{" +:+ fmt_u id +:+ "}" | None => "{...}" end);
  mret 0.

Definition sys_io_destroy : D Z := _ ← if_entering (a0 ← arg 0; tp (fmt_u a0)); mret 0.

Definition sys_io_submit : D Z :=
  _ ← if_entering (
        a0 ← arg 0; a1 ← arg 1; a2 ← arg 2;
        _ ← tp (fmt_u a0 +:+ ", " +:+ fmt_ld a1 +:+ ", ");
        tp (if a1 =? 0 then "{}" else hexl a2));
  mret 0.

Definition sys_io_cancel : D Z :=
  e ← ask;
  a0 ← arg 0;
  _ ← tp (if d_entering e then fmt_u a0 +:+ ", {...}, " else "{...}");
  mret 0.

Definition sys_io_getevents : D Z :=
  e ← ask;
  a0 ← arg 0; a1 ← arg 1; a2 ← arg 2; a4 ← arg 4;
  _ ← (if d_entering e then tp (fmt_ld a0 +:+ ", " +:+ fmt_ld a1 +:+ ", " +:+ fmt_ld a2 +:+ ", ")
       else _ ← tp (if d_rval e =? 0 then "{}" else "{...}"); print_timespec a4);
  mret 0.

Definition do_eventfd (flags_arg : option nat) : D Z :=
  _ ← if_entering (
        a0 ← arg 0;
        _ ← tp (fmt_u a0);
        match flags_arg with
        | None => mret tt
        | Some i => f ← arg i; _ ← tp ", "; print_flags open_mode_flags f "O_???"
        end);
  mret 0.
Definition sys_eventfd : D Z := do_eventfd None.
Definition sys_eventfd2 : D Z := do_eventfd (Some 1%nat).

Definition sys_perf_event_open : D Z :=
  _ ← if_entering (
        a0 ← arg 0; a1 ← arg 1; a2 ← arg 2; a3 ← arg 3; a4 ← arg 4;
        _ ← tp (hexl a0 +:+ ", " +:+ fmt_int a1 +:+ ", " +:+ fmt_int a2 +:+ ", " +:+
                fmt_int a3 +:+ ", ");
        print_flags perf_event_open_flags a4 "PERF_FLAG_???");
  mret 0.

(** ** poll (stream.c) *)

(** Where an abbreviated list ends. *)
Definition poll_abbrev_end (e : denv) (start stop : Z) : Z :=
  if d_abbrev e then
    let a := u64 (start + max_strlen e * 8) in if a <? start then stop else a
  else stop.

Fixpoint poll_entry_loop (n : nat) (start cur abbrev_end : Z) : D bool :=
  match n with
  | O => mret false
  | S n =>
      _ ← (if cur >? start then tp ", " else mret tt);
      if cur >=? abbrev_end then _ ← tp "..."; mret false
      else
        fds ← umove_struct cur 8;
        match fds with
        | None => _ ← tp "?"; mret true
        | Some fds =>
            let fd := fld_int 0 fds in
            _ ← (if fd <? 0 then tp ("{fd=" +:+ fmt_d fd +:+ "}")
                 else
                   _ ← tp "{fd=";
                   _ ← printfd fd;
                   _ ← tp ", events=";
                   _ ← print_flags pollflags (fld_short 4 fds) "POLL???";
                   tp "}");
            poll_entry_loop n start (cur + 8) abbrev_end
        end
  end.

(** The text for one descriptor with events. *)
Definition poll_item (out : string) (fd revents : Z) : string :=
  let out := if slen out <? sizeof_outstr - (17 + 4 * 3) + 1
             then out +:+ "{fd=" +:+ fmt_d fd +:+ ", revents=" else out in
  let flagstr := sprintflags "" pollflags revents in
  if slen out <? sizeof_outstr - (slen flagstr + 2) then out +:+ flagstr +:+ "}" else out.

(** The text and whether a read failed. *)
Fixpoint poll_exit_loop (n : nat) (cur abbrev_end : Z) (out : string) : D (string * bool) :=
  match n with
  | O => mret (out, false)
  | S n =>
      fds ← umove_struct cur 8;
      match fds with
      | None => mret (if slen out <? sizeof_outstr - 2 then out +:+ "?" else out, true)
      | Some fds =>
          let revents := fld_short 6 fds in
          if revents =? 0 then poll_exit_loop n (cur + 8) abbrev_end out
          else
            let out := if slen out =? 0 then out +:+ "["
                       else if slen out <? sizeof_outstr - 3 then out +:+ ", " else out in
            if cur >=? abbrev_end then
              mret (if slen out <? sizeof_outstr - 4 then out +:+ "..." else out, false)
            else poll_exit_loop n (cur + 8) abbrev_end (poll_item out (fld_int 0 fds) revents)
      end
  end.

(** decode_poll; [pts] is the address of ppoll's timeout, 0 for poll. *)
Definition decode_poll (pts : Z) : D Z :=
  e ← ask;
  start ← arg 0; a1 ← arg 1;
  let nfds := u32 a1 in
  let stop := u64 (start + 8 * nfds) in
  let abbrev_end := poll_abbrev_end e start stop in
  if d_entering e then
    if (nfds =? 0) || (stop <? start) then
      _ ← tp (hexl start +:+ ", " +:+ fmt_int nfds +:+ ", "); mret 0
    else
      _ ← tp "[";
      failed ← poll_entry_loop (Z.to_nat nfds) start start abbrev_end;
      _ ← tp "]";
      _ ← (if failed : bool then tp (" " +:+ hexl start) else mret tt);
      _ ← tp (", " +:+ fmt_int nfds +:+ ", ");
      mret 0
  else if syserror e then mret 0
  else if d_rval e =? 0 then _ ← put_auxstr (Some "Timeout"); mret RVAL_STR
  else if (nfds =? 0) || (stop <? start) then mret 0
  else
    '(out, failed) ← poll_exit_loop (Z.to_nat nfds) start abbrev_end "";
    if failed : bool then mret 0
    else
      let out := if slen out =? 0 then out else out +:+ "]" in
      out ← (if negb (pts =? 0) && (slen out <? sizeof_outstr - (10 + timeval_bufsize)) then
               left ← sprint_timespec pts;
               mret (out +:+ (if slen out =? 0 then "left " else ", left ") +:+ left)
             else mret out);
      if slen out =? 0 then mret 0 else _ ← put_auxstr (Some out); mret RVAL_STR.

Definition sys_poll : D Z :=
  rc ← decode_poll 0;
  _ ← if_entering (a2 ← arg 2; tp (fmt_ld a2));
  mret rc.

Definition sys_ppoll : D Z :=
  a2 ← arg 2;
  rc ← decode_poll a2;
  _ ← if_entering (
        a3 ← arg 3; a4 ← arg 4;
        _ ← print_timespec a2;
        _ ← tp ", ";
        _ ← print_sigset a3 false;
        tp (", " +:+ fmt_u a4));
  mret rc.
End desc.

(** ** The discipline *)

Section discipline.
Context `{K : Kernel} (e : denv).
Lemma Prints_printflock a g : Prints e (printflock a g).
Proof. unfold printflock. decodes. Qed.
Hint Resolve Prints_printflock : decodes.
Lemma Prints_fcntl_entering c a : Prints e (fcntl_entering c a).
Proof. unfold fcntl_entering. decodes. Qed.
Lemma Decodes_fcntl_exiting c a : Decodes e (fcntl_exiting c a) rval_format_ok.
Proof. unfold fcntl_exiting. decodes. Qed.
Lemma Prints_print_epoll_event ev : Prints e (print_epoll_event ev).
Proof. unfold print_epoll_event. decodes. Qed.
Hint Resolve Prints_print_epoll_event : decodes.
Lemma Prints_epoll_loop n start cur : Prints e (epoll_loop n start cur).
Proof. revert cur. induction n; intros; simpl; decodes. Qed.
Hint Resolve Prints_epoll_loop : decodes.
Lemma Prints_epoll_wait_common : Prints e epoll_wait_common.
Proof. unfold epoll_wait_common. decodes. Qed.
Lemma Prints_poll_entry_loop n start cur ae : Prints e (poll_entry_loop n start cur ae).
Proof. revert cur. induction n; intros; simpl; decodes. Qed.
Lemma Prints_poll_exit_loop n cur ae out : Prints e (poll_exit_loop n cur ae out).
Proof. revert cur out. induction n; intros; cbn [poll_exit_loop]; decodes. Qed.
Hint Resolve Prints_poll_entry_loop Prints_poll_exit_loop : decodes.
Lemma Decodes_decode_poll pts : Decodes e (decode_poll pts) rval_format_ok.
Proof. unfold decode_poll. decodes. Qed.
Lemma Decodes_sys_poll : Decodes e sys_poll rval_format_ok.
Proof. unfold sys_poll. eapply Decodes_bind; [apply Decodes_decode_poll|]. intros rc Hrc. decodes. Qed.
Lemma Decodes_sys_ppoll : Decodes e sys_ppoll rval_format_ok.
Proof.
  unfold sys_ppoll. apply Decodes_seq; [decodes|]. intros a2.
  eapply Decodes_bind; [apply Decodes_decode_poll|]. intros rc Hrc. decodes.
Qed.
End discipline.
#[export] Hint Resolve Prints_fcntl_entering Decodes_fcntl_exiting Prints_print_epoll_event
  Prints_epoll_wait_common Decodes_sys_poll Decodes_sys_ppoll : decodes.
