(* ===== verification/Resource.v ===== *)
(** * Decoders of limits, usage and priorities (resource.c)

    The 64-bit and the 32-bit limits have printers of their own; struct rusage,
    struct sysinfo and struct tms are read with the layout of x86_64 whatever
    the personality. *)

From S2P Require Import Prelude Xlat Quote Tracee Decode Io Args.
Local Open Scope string_scope.
Local Open Scope list_scope.
Local Open Scope Z_scope.

Definition resources : list xlat :=
  [mk_xlat 9 "RLIMIT_AS"; mk_xlat 4 "RLIMIT_CORE"; mk_xlat 0 "RLIMIT_CPU";
   mk_xlat 2 "RLIMIT_DATA"; mk_xlat 1 "RLIMIT_FSIZE"; mk_xlat 10 "RLIMIT_LOCKS";
   mk_xlat 8 "RLIMIT_MEMLOCK"; mk_xlat 12 "RLIMIT_MSGQUEUE"; mk_xlat 13 "RLIMIT_NICE";
   mk_xlat 7 "RLIMIT_NOFILE"; mk_xlat 6 "RLIMIT_NPROC"; mk_xlat 5 "RLIMIT_RSS";
   mk_xlat 14 "RLIMIT_RTPRIO"; mk_xlat 15 "RLIMIT_RTTIME"; mk_xlat 11 "RLIMIT_SIGPENDING";
   mk_xlat 3 "RLIMIT_STACK"].
Definition usagewho : list xlat := [mk_xlat 0 "RUSAGE_SELF"; mk_xlat (-1) "RUSAGE_CHILDREN"].
Definition priorities : list xlat :=
  [mk_xlat 0 "PRIO_PROCESS"; mk_xlat 1 "PRIO_PGRP"; mk_xlat 2 "PRIO_USER"].

(** ** Limits *)

Definition sprint_rlim64 (lim : Z) : string :=
  if lim =? 2 ^ 64 - 1 then "RLIM64_INFINITY"
  else if (lim >? 1024) && (lim mod 1024 =? 0) then fmt_u (lim / 1024) +:+ "*1024"
  else fmt_u lim.
Definition sprint_rlim32 (lim : Z) : string :=
  if lim =? 2 ^ 32 - 1 then "RLIM_INFINITY"
  else if (lim >? 1024) && (lim mod 1024 =? 0) then fmt_u (lim / 1024) +:+ "*1024"
  else fmt_u lim.

(** The size of [buf] in the two functions. *)
Definition rlim64_bufsize : Z := 8 * 3 + 6.
Definition rlim32_bufsize : Z := 4 * 3 + 6.

Section resource.
Context `{K : Kernel}.

Definition rlimit_text (cur max : string) : string :=
  "{rlim_cur=" +:+ cur +:+ "," +:+ " rlim_max=" +:+ max +:+ "}".

Definition print_rlimit64 (addr : Z) : D unit :=
  rlim ← umove_struct addr 16;
  tp match rlim with
     | None => hexl addr
     | Some bs => rlimit_text (sprint_rlim64 (fld 8 0 bs)) (sprint_rlim64 (fld 8 8 bs))
     end.
Definition print_rlimit32 (addr : Z) : D unit :=
  rlim ← umove_struct addr 8;
  tp match rlim with
     | None => hexl addr
     | Some bs => rlimit_text (sprint_rlim32 (fld 4 0 bs)) (sprint_rlim32 (fld 4 4 bs))
     end.

(** [!addr], and [!verbose(tcp) || (exiting(tcp) && syserror(tcp))] *)
Definition rlimit_or (addr : Z) (print : D unit) : D unit :=
  e ← ask;
  if addr =? 0 then tp "NULL"
  else if negb (d_verbose e) || (negb (d_entering e) && syserror e) then tp (hexl addr)
  else print.
Definition decode_rlimit64 (addr : Z) : D unit := rlimit_or addr (print_rlimit64 addr).
Definition decode_rlimit (addr : Z) : D unit :=
  e ← ask;
  rlimit_or addr (if wordsize e =? 4 then print_rlimit32 addr else print_rlimit64 addr).

Definition sys_getrlimit : D Z :=
  e ← ask;
  a0 ← arg 0; a1 ← arg 1;
  _ ← (if d_entering e then _ ← print_xval resources a0 "RLIMIT_???"; tp ", "
       else decode_rlimit a1);
  mret 0.

Definition sys_setrlimit : D Z :=
  _ ← if_entering (
        a0 ← arg 0; a1 ← arg 1;
        _ ← print_xval resources a0 "RLIMIT_???"; _ ← tp ", "; decode_rlimit a1);
  mret 0.

Definition sys_prlimit64 : D Z :=
  e ← ask;
  a0 ← arg 0; a1 ← arg 1; a2 ← arg 2; a3 ← arg 3;
  _ ← (if d_entering e then
         _ ← tp (fmt_ld a0 +:+ ", ");
         _ ← print_xval resources a1 "RLIMIT_???"; _ ← tp ", ";
         _ ← decode_rlimit64 a2;
         tp ", "
       else decode_rlimit64 a3);
  mret 0.

(** ** Usage *)

(** struct rusage: two times, then fourteen longs. *)
Definition sizeof_rusage : Z := 144.
Definition rusage_long (bs : list Z) (i : nat) : string := fmt_u (fld 8 (32 + 8 * i) bs).
Definition rusage_times (bs : list Z) : string :=
  "{ru_utime={" +:+ fmt_u (fld 8 0 bs) +:+ ", " +:+ fmt_u (fld 8 8 bs) +:+
  "}, ru_stime={" +:+ fmt_u (fld 8 16 bs) +:+ ", " +:+ fmt_u (fld 8 24 bs) +:+ "}, ".
Definition rusage_rest (bs : list Z) : string :=
  let l := rusage_long bs in
  "ru_maxrss=" +:+ l 0%nat +:+ ", ru_ixrss=" +:+ l 1%nat +:+ ", " +:+
  "ru_idrss=" +:+ l 2%nat +:+ ", ru_isrss=" +:+ l 3%nat +:+ ", " +:+
  "ru_minflt=" +:+ l 4%nat +:+ ", ru_majflt=" +:+ l 5%nat +:+ ", ru_nswap=" +:+ l 6%nat +:+ ", " +:+
  "ru_inblock=" +:+ l 7%nat +:+ ", ru_oublock=" +:+ l 8%nat +:+ ", " +:+
  "ru_msgsnd=" +:+ l 9%nat +:+ ", ru_msgrcv=" +:+ l 10%nat +:+ ", " +:+
  "ru_nsignals=" +:+ l 11%nat +:+ ", ru_nvcsw=" +:+ l 12%nat +:+ ", ru_nivcsw=" +:+ l 13%nat +:+ "}".

Definition printrusage (addr : Z) : D unit :=
  e ← ask;
  if addr =? 0 then tp "NULL"
  else if syserror e || negb (d_verbose e) then tp (hexl addr)
  else
    ru ← umove_struct addr sizeof_rusage;
    tp match ru with
       | None => "{...}"
       | Some bs => rusage_times bs +:+ (if d_abbrev e then "...}" else rusage_rest bs)
       end.

Definition sys_getrusage : D Z :=
  e ← ask;
  a0 ← arg 0; a1 ← arg 1;
  _ ← (if d_entering e then _ ← print_xval usagewho a0 "RUSAGE_???"; tp ", "
       else printrusage a1);
  mret 0.

(** struct sysinfo *)
Definition sysinfo_text (bs : list Z) : string :=
  let l (off : nat) := fmt_u (fld 8 off bs) in
  "{uptime=" +:+ l 0%nat +:+ ", loads=[" +:+ l 8%nat +:+ ", " +:+ l 16%nat +:+ ", " +:+ l 24%nat +:+ "] " +:+
  "totalram=" +:+ l 32%nat +:+ ", freeram=" +:+ l 40%nat +:+ ", " +:+
  "sharedram=" +:+ l 48%nat +:+ ", bufferram=" +:+ l 56%nat +:+ "} " +:+
  "totalswap=" +:+ l 64%nat +:+ ", freeswap=" +:+ l 72%nat +:+ ", procs=" +:+ fmt_u (fld 2 80 bs) +:+ "}".

Definition sys_sysinfo : D Z :=
  e ← ask;
  _ ← if_exiting (
        a0 ← arg 0;
        if syserror e || negb (d_verbose e) then tp (hexl a0)
        else
          si ← umove_struct a0 112;
          tp match si with None => "{...}" | Some bs => sysinfo_text bs end);
  mret 0.

Definition sys_getpriority : D Z :=
  _ ← if_entering (
        a0 ← arg 0; a1 ← arg 1;
        _ ← print_xval priorities a0 "PRIO_???"; tp (", " +:+ fmt_u a1));
  mret 0.

Definition sys_setpriority : D Z :=
  _ ← if_entering (
        a0 ← arg 0; a1 ← arg 1; a2 ← arg 2;
        _ ← print_xval priorities a0 "PRIO_???"; tp (", " +:+ fmt_u a1 +:+ ", " +:+ fmt_ld a2));
  mret 0.

(** struct tms: four longs *)
Definition tms_text (bs : list Z) : string :=
  "{tms_utime=" +:+ fmt_u (fld 8 0 bs) +:+ ", tms_stime=" +:+ fmt_u (fld 8 8 bs) +:+ ", " +:+
  "tms_cutime=" +:+ fmt_u (fld 8 16 bs) +:+ ", tms_cstime=" +:+ fmt_u (fld 8 24 bs) +:+ "}".

Definition sys_times : D Z :=
  e ← ask;
  _ ← if_exiting (
        a0 ← arg 0;
        if a0 =? 0 then tp "NULL"
        else if syserror e then tp (hexl a0)
        else
          tbuf ← umove_struct a0 32;
          tp match tbuf with None => "{...}" | Some bs => tms_text bs end);
  mret 0.
End resource.

(** ** The discipline *)

Section discipline.
Context `{K : Kernel} (e : denv).
Lemma Prints_rlimit_or a c : Prints e c -> Prints e (rlimit_or a c).
Proof. intros Hc. unfold rlimit_or. decodes. Qed.
Lemma Prints_decode_rlimit64 a : Prints e (decode_rlimit64 a).
Proof. apply Prints_rlimit_or. unfold print_rlimit64. decodes. Qed.
Lemma Prints_decode_rlimit a : Prints e (decode_rlimit a).
Proof.
  unfold decode_rlimit. decodes. apply Prints_rlimit_or. unfold print_rlimit32, print_rlimit64. decodes.
Qed.
Lemma Prints_printrusage a : Prints e (printrusage a).
Proof. unfold printrusage. decodes. Qed.
End discipline.
#[export] Hint Resolve Prints_decode_rlimit64 Prints_decode_rlimit Prints_printrusage : decodes.

(** ** Reading a limit back *)

(** The number a text of sprint_rlim64 stands for. *)
Definition rlim_value (infinity : Z) (s : string) : option Z :=
  if starts_dec s then
    let '(n, rest) := scan_dec 0 s in
    if String.eqb rest "" then Some n
    else if String.eqb rest "*1024" then Some (1024 * n) else None
  else Some infinity.

Lemma fmt_u_starts n s : 0 <= n -> starts_dec (fmt_u n +:+ s) = true.
Proof. intros Hn. destruct (fmt_u_head n Hn) as (c & t & -> & Hc). rewrite app_String. exact Hc. Qed.

Lemma rlim_value_plain inf n : 0 <= n -> rlim_value inf (fmt_u n) = Some n.
Proof.
  intros Hn. unfold rlim_value. rewrite <- (sapp_nil_r (fmt_u n)), fmt_u_starts by done.
  by rewrite scan_dec_fmt_u.
Qed.
Lemma rlim_value_kilo inf n : 0 <= n -> rlim_value inf (fmt_u n +:+ "*1024") = Some (1024 * n).
Proof. intros Hn. unfold rlim_value. rewrite fmt_u_starts by done. by rewrite scan_dec_fmt_u. Qed.

(** The common part of the two printers. *)
Lemma rlim_value_text inf n :
  0 <= n ->
  rlim_value inf (if (n >? 1024) && (n mod 1024 =? 0) then fmt_u (n / 1024) +:+ "*1024" else fmt_u n)
  = Some n.
Proof.
  intros Hn. destruct (_ && _) eqn:H; [|by apply rlim_value_plain].
  apply andb_true_iff in H as [_ H%Z.eqb_eq]. rewrite rlim_value_kilo by (apply Z.div_pos; lia).
  f_equal. Z.div_mod_to_equations. lia.
Qed.

Lemma slen_rlim k n :
  (0 < k)%nat -> 0 <= n < 10 ^ Z.of_nat k ->
  slen (if (n >? 1024) && (n mod 1024 =? 0) then fmt_u (n / 1024) +:+ "*1024" else fmt_u n)
  <= Z.of_nat k + 5.
Proof.
  intros Hk Hn. destruct (_ && _).
  - rewrite slen_app. change (slen "*1024") with 5.
    pose proof (slen_fmt_u (n / 1024) k Hk). assert (0 <= n / 1024 <= n); [|lia].
    split; [apply Z.div_pos; lia|]. apply Z.div_le_upper_bound; lia.
  - pose proof (slen_fmt_u n k Hk Hn). lia.
Qed.

(** ** Properties *)

(** A limit can be read back from the line, for 64-bit and for 32-bit
    tracees: the infinite one, those shown in units of 1024 and the others are
    never confused; and the text fits the static buffer it is built in. *)
Theorem sprint_rlim_lossless lim :
  (is_u64 lim -> rlim_value (2 ^ 64 - 1) (sprint_rlim64 lim) = Some lim /\
                 slen (sprint_rlim64 lim) + 1 <= rlim64_bufsize) /\
  (is_u32 lim -> rlim_value (2 ^ 32 - 1) (sprint_rlim32 lim) = Some lim /\
                 slen (sprint_rlim32 lim) + 1 <= rlim32_bufsize).
Proof.
  unfold sprint_rlim64, sprint_rlim32, rlim64_bufsize, rlim32_bufsize.
  split; intros [H0 H1].
  - destruct (Z.eqb_spec lim (2 ^ 64 - 1)) as [->|_]; [split; [done|by vm_compute]|].
    split; [by apply rlim_value_text|].
    pose proof (slen_rlim 20 lim ltac:(lia) ltac:(lia)). lia.
  - destruct (Z.eqb_spec lim (2 ^ 32 - 1)) as [->|_]; [split; [done|by vm_compute]|].
    split; [by apply rlim_value_text|].
    pose proof (slen_rlim 10 lim ltac:(lia) ltac:(lia)). lia.
Qed.

Lemma sprint_rlim_lossless_witness :
  rlim_value (2 ^ 64 - 1) (sprint_rlim64 8388608) = Some 8388608 /\
  rlim_value (2 ^ 32 - 1) (sprint_rlim32 1000) = Some 1000.
Proof.
  split.
  - apply (sprint_rlim_lossless 8388608). split; [discriminate|reflexivity].
  - apply (sprint_rlim_lossless 1000). split; [discriminate|reflexivity].
Defined.
