(* ===== verification/Ipc.v ===== *)
(** * Decoders of System V IPC and of message queues (ipc.c)

    A 32-bit process reaches the System V calls through ipc(2): there the
    arguments are in other places ([indirect_ipccall]). *)

From S2P Require Import Prelude Xlat Quote Tracee Decode Io Args Time File.
Local Open Scope string_scope.
Local Open Scope list_scope.
Local Open Scope Z_scope.

Definition msgctl_flags : list xlat :=
  [mk_xlat 0 "IPC_RMID"; mk_xlat 1 "IPC_SET"; mk_xlat 2 "IPC_STAT"; mk_xlat 3 "IPC_INFO";
   mk_xlat 11 "MSG_STAT"; mk_xlat 12 "MSG_INFO"].
Definition semctl_flags : list xlat :=
  [mk_xlat 0 "IPC_RMID"; mk_xlat 1 "IPC_SET"; mk_xlat 2 "IPC_STAT"; mk_xlat 3 "IPC_INFO";
   mk_xlat 18 "SEM_STAT"; mk_xlat 19 "SEM_INFO"; mk_xlat 11 "GETPID"; mk_xlat 12 "GETVAL";
   mk_xlat 13 "GETALL"; mk_xlat 14 "GETNCNT"; mk_xlat 15 "GETZCNT"; mk_xlat 16 "SETVAL";
   mk_xlat 17 "SETALL"].
Definition shmctl_flags : list xlat :=
  [mk_xlat 0 "IPC_RMID"; mk_xlat 1 "IPC_SET"; mk_xlat 2 "IPC_STAT"; mk_xlat 3 "IPC_INFO";
   mk_xlat 13 "SHM_STAT"; mk_xlat 14 "SHM_INFO"; mk_xlat 11 "SHM_LOCK"; mk_xlat 12 "SHM_UNLOCK"].
Definition resource_flags : list xlat :=
  [mk_xlat 0x200 "IPC_CREAT"; mk_xlat 0x400 "IPC_EXCL"; mk_xlat 0x800 "IPC_NOWAIT"].
Definition shm_resource_flags : list xlat :=
  [mk_xlat 0x200 "IPC_CREAT"; mk_xlat 0x400 "IPC_EXCL"; mk_xlat 0x800 "SHM_HUGETLB"].
Definition shm_flags : list xlat :=
  [mk_xlat 0x4000 "SHM_REMAP"; mk_xlat 0x1000 "SHM_RDONLY"; mk_xlat 0x2000 "SHM_RND"].
Definition msg_flags : list xlat :=
  [mk_xlat 0x1000 "MSG_NOERROR"; mk_xlat 0x2000 "MSG_EXCEPT"; mk_xlat 0x800 "IPC_NOWAIT"].
Definition semop_flags : list xlat := [mk_xlat 0x1000 "SEM_UNDO"; mk_xlat 0x800 "IPC_NOWAIT"].

Definition IPC_64 : Z := 0x100.

Section ipc.
Context `{K : Kernel}.

Definition indirect_ipccall (e : denv) : bool := (d_pers e =? 1)%nat.

(** [if (printflags(table, v & ~0777, NULL) != 0) tprints("|");
     tprintf("%#lo", v & 0777);] *)
Definition print_ipc_mode (t : list xlat) (v : Z) : D unit :=
  n ← print_flags_opt t (clear_flag v 511);
  _ ← (if negb (n =? 0) then tp "|" else mret tt);
  tp (fmt_so (Z.land v 511)).

(** PRINTCTL *)
Definition PRINTCTL (t : list xlat) (v : Z) (dflt : string) : D unit :=
  _ ← (if has_flag v IPC_64 then tp "IPC_64|" else mret tt);
  print_xval t (clear_flag v IPC_64) dflt.

Definition key_text (k : Z) : string := if k =? 0 then "IPC_PRIVATE" else hexl k.

(** ** Messages *)

Definition sys_msgget : D Z :=
  _ ← if_entering (
        a0 ← arg 0; a1 ← arg 1;
        _ ← tp (key_text a0 +:+ ", ");
        print_ipc_mode resource_flags a1);
  mret 0.

Definition sys_msgctl : D Z :=
  e ← ask;
  _ ← if_entering (
        a0 ← arg 0; a1 ← arg 1; p ← arg (if indirect_ipccall e then 3 else 2);
        _ ← tp (fmt_u a0 +:+ ", ");
        _ ← PRINTCTL msgctl_flags a1 "MSG_???";
        tp (", " +:+ hexl p));
  mret 0.

(** [{mtype, text}] of a struct msgbuf, whose type is a long of the tracer. *)
Definition print_msgbuf (addr count : Z) (unreadable : bool) : D unit :=
  mtype ← (if unreadable then mret None else umove addr 8);
  match mtype with
  | None => tp (hexl addr)
  | Some mtype =>
      _ ← tp ("{" +:+ fmt_u mtype +:+ ", ");
      _ ← printstr (u64 (addr + 8)) (s64 count);
      tp "}"
  end.

Definition tprint_msgsnd (addr count flags : Z) : D unit :=
  _ ← print_msgbuf addr count false;
  _ ← tp (", " +:+ fmt_u count +:+ ", ");
  print_flags msg_flags flags "MSG_???".

Definition sys_msgsnd : D Z :=
  e ← ask;
  _ ← if_entering (
        a0 ← arg 0; a1 ← arg 1; a2 ← arg 2; a3 ← arg 3;
        _ ← tp (fmt_int a0 +:+ ", ");
        if indirect_ipccall e then tprint_msgsnd a3 a1 a2 else tprint_msgsnd a1 a2 a3);
  mret 0.

Definition tprint_msgrcv (addr count msgtyp : Z) : D unit :=
  e ← ask;
  _ ← print_msgbuf addr count (syserror e);
  tp (", " +:+ fmt_u count +:+ ", " +:+ fmt_ld msgtyp +:+ ", ").

Definition sys_msgrcv : D Z :=
  e ← ask;
  a0 ← arg 0; a1 ← arg 1; a2 ← arg 2; a3 ← arg 3; a4 ← arg 4;
  _ ← (if d_entering e then tp (fmt_int a0 +:+ ", ")
       else if indirect_ipccall e then
         tmp ← umove_struct a3 16;
         _ ← match tmp with
             | None => tp (hexl a3 +:+ ", " +:+ fmt_u a1 +:+ ", ")
             | Some bs => tprint_msgrcv (fld 8 0 bs) a1 (fld 8 8 bs)
             end;
         print_flags msg_flags a2 "MSG_???"
       else
         _ ← tprint_msgrcv a1 a2 a3;
         print_flags msg_flags a4 "MSG_???");
  mret 0.

(** ** Semaphores *)

(** One struct sembuf: an unsigned and two signed shorts. *)
Definition print_sembuf (sb : list Z) : D unit :=
  _ ← tp ("{" +:+ fmt_u (fld 2 0 sb) +:+ ", " +:+ fmt_d (fld_short 2 sb) +:+ ", ");
  _ ← print_flags semop_flags (fld_short 4 sb) "SEM_???";
  tp "}".

(** The loop from [i] on; [None] when the first read fails, and the value of
    [i] after it otherwise. *)
Fixpoint sembuf_loop (n : nat) (addr i : Z) : D (option Z) :=
  match n with
  | O => mret (Some i)
  | S n =>
      _ ← (if negb (i =? 0) then tp ", " else mret tt);
      sb ← umove_struct (u64 (addr + i * 6)) 6;
      match sb with
      | None => if negb (i =? 0) then _ ← tp "{???}"; mret (Some i) else mret None
      | Some sb =>
          _ ← (if i =? 0 then tp "{" else mret tt);
          _ ← print_sembuf sb;
          sembuf_loop n addr (i + 1)
      end
  end.

Definition tprint_sembuf (addr count : Z) : D unit :=
  e ← ask;
  let max_count := if d_abbrev e then (if max_strlen e <? count then max_strlen e else count)
                   else count in
  if max_count =? 0 then tp (hexl addr +:+ ", " +:+ fmt_u count)
  else
    r ← sembuf_loop (Z.to_nat max_count) addr 0;
    match r with
    | None => tp (hexl addr +:+ ", " +:+ fmt_u count)
    | Some i =>
        _ ← (if (i <? max_count) || (max_count <? count) then tp ", ..." else mret tt);
        tp ("}, " +:+ fmt_u count)
    end.

Definition sys_semop : D Z :=
  e ← ask;
  _ ← if_entering (
        a0 ← arg 0; a1 ← arg 1; a2 ← arg 2; a3 ← arg 3;
        _ ← tp (fmt_u a0 +:+ ", ");
        if indirect_ipccall e then tprint_sembuf a3 a1 else tprint_sembuf a1 a2);
  mret 0.

Definition sys_semtimedop : D Z :=
  e ← ask;
  _ ← if_entering (
        a0 ← arg 0; a1 ← arg 1; a2 ← arg 2; a3 ← arg 3; a4 ← arg 4;
        _ ← tp (fmt_u a0 +:+ ", ");
        if indirect_ipccall e then _ ← tprint_sembuf a3 a1; _ ← tp ", "; printtv a4
        else _ ← tprint_sembuf a1 a2; _ ← tp ", "; printtv a3);
  mret 0.

Definition sys_semget : D Z :=
  _ ← if_entering (
        a0 ← arg 0; a1 ← arg 1; a2 ← arg 2;
        _ ← tp (key_text a0);
        _ ← tp (", " +:+ fmt_u a1 +:+ ", ");
        print_ipc_mode resource_flags a2);
  mret 0.

Definition sys_semctl : D Z :=
  _ ← if_entering (
        a0 ← arg 0; a1 ← arg 1; a2 ← arg 2; a3 ← arg 3;
        _ ← tp (fmt_u a0 +:+ ", " +:+ fmt_u a1 +:+ ", ");
        _ ← PRINTCTL semctl_flags a2 "SEM_???";
        tp (", " +:+ hexl a3));
  mret 0.

(** ** Shared memory *)

Definition sys_shmget : D Z :=
  _ ← if_entering (
        a0 ← arg 0; a1 ← arg 1; a2 ← arg 2;
        _ ← tp (key_text a0);
        _ ← tp (", " +:+ fmt_u a1 +:+ ", ");
        print_ipc_mode shm_resource_flags a2);
  mret 0.

Definition sys_shmctl : D Z :=
  e ← ask;
  _ ← if_entering (
        a0 ← arg 0; a1 ← arg 1; p ← arg (if indirect_ipccall e then 3 else 2);
        _ ← tp (fmt_u a0 +:+ ", ");
        _ ← PRINTCTL shmctl_flags a1 "SHM_???";
        tp (", " +:+ hexl p));
  mret 0.

(** The address shmat(2) returned to a 32-bit process is where its third
    argument points; the result of the call is replaced by it. *)
Definition sys_shmat : D Z :=
  e ← ask;
  if d_entering e then mret 0
  else
    a0 ← arg 0; a1 ← arg 1; a2 ← arg 2; a3 ← arg 3;
    _ ← tp (fmt_u a0);
    _ ← (if indirect_ipccall e then _ ← tp (", " +:+ hexl a3 +:+ ", "); print_flags shm_flags a1 "SHM_???"
         else _ ← tp (", " +:+ hexl a1 +:+ ", "); print_flags shm_flags a2 "SHM_???");
    if syserror e then mret 0
    else if indirect_ipccall e then
      raddr ← umove a2 8;
      match raddr with
      | None => mret RVAL_NONE
      | Some raddr => _ ← put_rval (s64 raddr); mret RVAL_HEX
      end
    else mret RVAL_HEX.

Definition sys_shmdt : D Z :=
  e ← ask;
  _ ← if_entering (p ← arg (if indirect_ipccall e then 3 else 0); tp (hexl p));
  mret 0.

(** ** POSIX message queues: struct mq_attr is eight longs *)

Definition sizeof_mq_attr : Z := 64.

Definition sys_mq_open : D Z :=
  _ ← if_entering (
        a0 ← arg 0; a1 ← arg 1; a2 ← arg 2; a3 ← arg 3;
        _ ← printpath a0;
        _ ← tp ", ";
        _ ← tprint_open_modes a1;
        if has_flag a1 O_CREAT then
          _ ← tp (", " +:+ fmt_so a2 +:+ ", ");
          attr ← umove_struct a3 sizeof_mq_attr;
          tp match attr with
             | None => "{???}"
             | Some bs => "{mq_maxmsg=" +:+ fmt_d (fld_long 8 bs) +:+ ", mq_msgsize=" +:+
                          fmt_d (fld_long 16 bs) +:+ "}"
             end
        else mret tt);
  mret 0.

Definition mq_message : D unit :=
  a1 ← arg 1; a2 ← arg 2; a3 ← arg 3; a4 ← arg 4;
  _ ← printstr a1 (s64 a2);
  _ ← tp (", " +:+ fmt_u a2 +:+ ", " +:+ fmt_ld a3 +:+ ", ");
  printtv a4.

Definition sys_mq_timedsend : D Z :=
  _ ← if_entering (a0 ← arg 0; _ ← tp (fmt_ld a0 +:+ ", "); mq_message);
  mret 0.

Definition sys_mq_timedreceive : D Z :=
  e ← ask;
  a0 ← arg 0;
  _ ← (if d_entering e then tp (fmt_ld a0 +:+ ", ") else mq_message);
  mret 0.

Definition sys_mq_notify : D Z :=
  _ ← if_entering (
        a0 ← arg 0; a1 ← arg 1;
        _ ← tp (fmt_ld a0 +:+ ", "); printsigevent a1);
  mret 0.

Definition printmqattr (addr : Z) : D unit :=
  if addr =? 0 then tp "NULL"
  else
    attr ← umove_struct addr sizeof_mq_attr;
    match attr with
    | None => tp "{...}"
    | Some bs =>
        _ ← tp "{mq_flags=";
        _ ← tprint_open_modes (fld 8 0 bs);
        tp (", mq_maxmsg=" +:+ fmt_d (fld_long 8 bs) +:+ ", mq_msgsize=" +:+ fmt_d (fld_long 16 bs) +:+
            ", mq_curmsg=" +:+ fmt_d (fld_long 24 bs) +:+ "}")
    end.

Definition sys_mq_getsetattr : D Z :=
  e ← ask;
  a0 ← arg 0; a1 ← arg 1; a2 ← arg 2;
  _ ← (if d_entering e then _ ← tp (fmt_ld a0 +:+ ", "); _ ← printmqattr a1; tp ", "
       else printmqattr a2);
  mret 0.

Definition sys_ipc : D Z := e ← ask; printargs (d_nargs e).
End ipc.

(** ** The discipline *)

Section discipline.
Context `{K : Kernel} (e : denv) (Hok : env_ok e).
Lemma Prints_print_ipc_mode x t v : Prints e (print_ipc_mode (x :: t) v).
Proof. unfold print_ipc_mode. decodes. Qed.
Lemma Prints_PRINTCTL t v d : Prints e (PRINTCTL t v d).
Proof. unfold PRINTCTL. decodes. Qed.
Lemma Prints_print_msgbuf a n u : Prints e (print_msgbuf a n u).
Proof. unfold print_msgbuf. decodes. Qed.
Hint Resolve Prints_print_msgbuf : decodes.
Lemma Prints_tprint_msgsnd a n f : Prints e (tprint_msgsnd a n f).
Proof. unfold tprint_msgsnd. decodes. Qed.
Lemma Prints_tprint_msgrcv a n t : Prints e (tprint_msgrcv a n t).
Proof. unfold tprint_msgrcv. decodes. Qed.
Lemma Prints_print_sembuf sb : Prints e (print_sembuf sb).
Proof. unfold print_sembuf. decodes. Qed.
Hint Resolve Prints_print_sembuf : decodes.
Lemma Prints_sembuf_loop n a i : Prints e (sembuf_loop n a i).
Proof. revert i. induction n; intros; simpl; decodes. Qed.
Hint Resolve Prints_sembuf_loop : decodes.
Lemma Prints_tprint_sembuf a n : Prints e (tprint_sembuf a n).
Proof. unfold tprint_sembuf. decodes. Qed.
Lemma Prints_mq_message : Prints e mq_message.
Proof. unfold mq_message. decodes. Qed.
Lemma Prints_printmqattr a : Prints e (printmqattr a).
Proof. unfold printmqattr. decodes. Qed.
Lemma Prints_printargs_fmt f n : Prints e (printargs_fmt f n).
Proof. unfold printargs_fmt. decodes. Qed.
End discipline.
#[export] Hint Resolve Prints_PRINTCTL Prints_print_msgbuf Prints_tprint_msgsnd Prints_tprint_msgrcv
  Prints_tprint_sembuf Prints_mq_message Prints_printmqattr : decodes.
#[export] Hint Extern 1 (Prints _ (print_ipc_mode _ _)) => apply Prints_print_ipc_mode : decodes.
