(* ===== verification/Process.v ===== *)
(** * Decoders of the process calls (process.c)

    sys_exit, which completes its line, is in Syscall.v.  The arrays of strings
    given to execve have no length: their loops count entries in an [int], and
    [int_rounds] rounds without reaching the end overflow it, which the model
    takes as an abort. *)

From S2P Require Import Prelude Xlat Quote Tracee Decode Io Args Signal Time File Sigcalls Resource.
Local Open Scope string_scope.
Local Open Scope list_scope.
Local Open Scope Z_scope.

(** ** Names, ids and groups *)

Section ids.
Context `{K : Kernel}.

Definition sys_sethostname : D Z :=
  _ ← if_entering (
        a0 ← arg 0; a1 ← arg 1;
        _ ← printpathn a0 (s32 a1); tp (", " +:+ fmt_u a1));
  mret 0.
Definition sys_setdomainname : D Z := sys_sethostname.

(** The results are ids: they are shown as 32-bit numbers. *)
Definition truncate_rval (e : denv) : D unit := put_rval (u32 (d_rval e)).
Definition sys_getuid : D Z :=
  e ← ask; _ ← if_exiting (truncate_rval e); mret RVAL_UDECIMAL.
Definition sys_setfsuid : D Z :=
  e ← ask;
  a0 ← arg 0;
  _ ← (if d_entering e then tp (fmt_uint a0) else truncate_rval e);
  mret RVAL_UDECIMAL.

Definition sys_setuid : D Z := _ ← if_entering (a0 ← arg 0; tp (fmt_uint a0)); mret 0.

(** One of the three results of getresuid. *)
Definition print_uid_at (addr : Z) : D unit :=
  uid ← umove addr 4;
  tp match uid with None => hexl addr | Some uid => "[" +:+ fmt_u uid +:+ "]" end.

Definition sys_getresuid : D Z :=
  e ← ask;
  _ ← if_exiting (
        a0 ← arg 0; a1 ← arg 1; a2 ← arg 2;
        if syserror e then tp (hexl a0 +:+ ", " +:+ hexl a1 +:+ ", " +:+ hexl a2)
        else
          _ ← print_uid_at a0; _ ← tp ", ";
          _ ← print_uid_at a1; _ ← tp ", ";
          print_uid_at a2);
  mret 0.

Definition sys_setreuid : D Z :=
  _ ← if_entering (a0 ← arg 0; a1 ← arg 1; _ ← printuid "" a0; printuid ", " a1);
  mret 0.
Definition sys_setresuid : D Z :=
  _ ← if_entering (
        a0 ← arg 0; a1 ← arg 1; a2 ← arg 2;
        _ ← printuid "" a0; _ ← printuid ", " a1; printuid ", " a2);
  mret 0.

(** for (cur = start; cur < end; cur += sizeof(gid)); whether a read failed *)
Fixpoint groups_loop (n : nat) (start cur abbrev_end : Z) : D bool :=
  match n with
  | O => mret false
  | S n =>
      _ ← (if cur >? start then tp ", " else mret tt);
      if cur >=? abbrev_end then _ ← tp "..."; mret false
      else
        gid ← umove cur 4;
        match gid with
        | None => _ ← tp "?"; mret true
        | Some gid => _ ← tp (fmt_u gid); groups_loop n start (cur + 4) abbrev_end
        end
  end.

(** The array of [len] ids at [start]; [hidden] when only the address is shown. *)
Definition print_groups (len start : Z) (hidden : bool) : D unit :=
  e ← ask;
  if len =? 0 then tp "[]"
  else if start =? 0 then tp "NULL"
  else
    let size := u64 (len * 4) in
    let stop := u64 (start + size) in
    if hidden || negb (d_verbose e) || negb (size / 4 =? len) || (stop <? start) then tp (hexl start)
    else
      let abbrev_end :=
        if d_abbrev e then
          let a := u64 (start + max_strlen e * 4) in if a <? start then stop else a
        else stop in
      _ ← tp "[";
      failed ← groups_loop (Z.to_nat len) start start abbrev_end;
      _ ← tp "]";
      if failed : bool then tp (" " +:+ hexl start) else mret tt.

Definition sys_setgroups : D Z :=
  _ ← if_entering (
        a0 ← arg 0; a1 ← arg 1;
        _ ← tp (fmt_u a0 +:+ ", "); print_groups a0 a1 false);
  mret 0.

Definition sys_getgroups : D Z :=
  e ← ask;
  a0 ← arg 0; a1 ← arg 1;
  _ ← (if d_entering e then tp (fmt_u a0 +:+ ", ")
       else print_groups (u64 (d_rval e)) a1 (a0 =? 0));
  mret 0.

(** The 32-bit ids of the calls for 16-bit ones have the same width here. *)
Definition sys_setgroups32 : D Z := sys_setgroups.
Definition sys_getgroups32 : D Z := sys_getgroups.
End ids.

(** ** Creating processes *)

Definition CSIGNAL : Z := 0xff.
Definition CLONE_SETTLS : Z := 0x80000.
Definition CLONE_PARENT_SETTID : Z := 0x100000.
Definition CLONE_CHILD_CLEARTID : Z := 0x200000.
Definition CLONE_CHILD_SETTID : Z := 0x1000000.

Definition clone_flags : list xlat :=
  [mk_xlat 0x100 "CLONE_VM"; mk_xlat 0x200 "CLONE_FS"; mk_xlat 0x400 "CLONE_FILES";
   mk_xlat 0x800 "CLONE_SIGHAND"; mk_xlat 0x1000 "CLONE_IDLETASK"; mk_xlat 0x2000 "CLONE_PTRACE";
   mk_xlat 0x4000 "CLONE_VFORK"; mk_xlat 0x8000 "CLONE_PARENT"; mk_xlat 0x10000 "CLONE_THREAD";
   mk_xlat 0x20000 "CLONE_NEWNS"; mk_xlat 0x40000 "CLONE_SYSVSEM"; mk_xlat 0x80000 "CLONE_SETTLS";
   mk_xlat 0x100000 "CLONE_PARENT_SETTID"; mk_xlat 0x200000 "CLONE_CHILD_CLEARTID";
   mk_xlat 0x800000 "CLONE_UNTRACED"; mk_xlat 0x1000000 "CLONE_CHILD_SETTID";
   mk_xlat 0x2000000 "CLONE_STOPPED"; mk_xlat 0x4000000 "CLONE_NEWUTS";
   mk_xlat 0x8000000 "CLONE_NEWIPC"; mk_xlat 0x10000000 "CLONE_NEWUSER";
   mk_xlat 0x20000000 "CLONE_NEWPID"; mk_xlat 0x40000000 "CLONE_NEWNET";
   mk_xlat (-2147483648) "CLONE_IO"].

(** ARG_FLAGS, ARG_STACK, ARG_PTID, ARG_CTID and ARG_TLS are 0 to 4. *)
Definition sys_clone : D Z :=
  _ ← if_exiting (
        flags ← arg 0; stack ← arg 1; ptid ← arg 2; ctid ← arg 3; tls ← arg 4;
        _ ← tp ("child_stack=" +:+ hexl stack +:+ ", ");
        _ ← tp "flags=";
        n ← print_flags_opt clone_flags (clear_flag flags CSIGNAL);
        _ ← (if has_flag flags CSIGNAL
             then tp ((if n =? 0 then "" else "|") +:+ signame (Z.land flags CSIGNAL)) else mret tt);
        _ ← (if has_flag flags CLONE_PARENT_SETTID
             then tp (", parent_tidptr=" +:+ hexl ptid) else mret tt);
        _ ← (if has_flag flags CLONE_SETTLS then tp (", tls=" +:+ hexl tls) else mret tt);
        if has_flag flags (Z.lor CLONE_CHILD_SETTID CLONE_CHILD_CLEARTID)
        then tp (", child_tidptr=" +:+ hexl ctid) else mret tt);
  mret 0.

Definition sys_unshare : D Z :=
  _ ← if_entering (a0 ← arg 0; print_flags clone_flags a0 "CLONE_???"); mret 0.

Definition sys_fork : D Z := e ← ask; mret (if d_entering e then 0 else RVAL_UDECIMAL).
Definition sys_vfork : D Z := sys_fork.

(** ** execve *)

Section execve.
Context `{K : Kernel}.

(** 2^31 steps overflow a counter of type [int]. *)
Definition int_rounds : positive := 2147483648.

(** One round of printargv's loop, at entry number [n]. *)
Definition argv_round (st : Z * Z) : D (Z * Z + unit) :=
  let '(addr, n) := st in
  e ← ask;
  let sep := if n =? 0 then "" else ", " in
  if d_abbrev e && negb (n <? max_strlen e / 2) then _ ← tp (sep +:+ "..."); mret (inr tt)
  else
    cp ← umove addr (if wordsize e =? 4 then 4%nat else 8%nat);
    match cp with
    | None => _ ← tp (hexl addr); mret (inr tt)
    | Some cp =>
        if cp =? 0 then mret (inr tt)
        else
          _ ← tp sep;
          _ ← printstr cp (-1);
          mret (inl (u64 (addr + wordsize e), n + 1))
    end.

Definition printargv (addr : Z) : D unit :=
  r ← upto argv_round int_rounds (addr, 0);
  match r with inl _ => abort | inr _ => mret tt end.

(** printargc reads pointers of the tracer. *)
Definition argc_round (st : Z * Z) : D (Z * Z + Z) :=
  let '(addr, count) := st in
  cp ← umove addr 8;
  match cp with
  | None => mret (inr count)
  | Some cp => if cp =? 0 then mret (inr count) else mret (inl (u64 (addr + 8), count + 1))
  end.

(** The format of the only call: [", [/* %d var%s */]"] *)
Definition vars_text (count : Z) : string :=
  ", [/* " +:+ fmt_d count +:+ " var" +:+ (if count =? 1 then "" else "s") +:+ " */]".

Definition printargc (addr : Z) : D unit :=
  r ← upto argc_round int_rounds (addr, 0);
  match r with inl _ => abort | inr count => tp (vars_text count) end.

Definition print_strings (addr : Z) : D unit :=
  _ ← tp ", ["; _ ← printargv addr; tp "]".

Definition sys_execve : D Z :=
  e ← ask;
  if d_entering e then
    a0 ← arg 0; a1 ← arg 1; a2 ← arg 2;
    _ ← printpath a0;
    _ ← (if negb (d_verbose e) then tp (", " +:+ hexl a1) else print_strings a1);
    _ ← (if negb (d_verbose e) then tp (", " +:+ hexl a2)
         else if d_abbrev e then printargc a2
         else print_strings a2);
    mret 0
  else _ ← drop_cache; mret 0.
End execve.

(** ** Waiting *)

Definition wait4_options : list xlat :=
  [mk_xlat 1 "WNOHANG"; mk_xlat 4 "WEXITED"; mk_xlat 2 "WSTOPPED"; mk_xlat 8 "WCONTINUED";
   mk_xlat 0x1000000 "WNOWAIT"; mk_xlat (-2147483648) "__WCLONE"; mk_xlat 0x40000000 "__WALL";
   mk_xlat 0x20000000 "__WNOTHREAD"].
Definition waitid_types : list xlat :=
  [mk_xlat 1 "P_PID"; mk_xlat 2 "P_PGID"; mk_xlat 0 "P_ALL"].

Definition W_STOPCODE (sig : Z) : Z := Z.lor (Z.shiftl sig 8) 0x7f.
Definition W_EXITCODE (ret sig : Z) : Z := Z.lor (Z.shiftl ret 8) sig.
Definition WCOREFLAG : Z := 0x80.

(** What printstatus writes for a status, and the bits it then has not shown
    yet; [None] for the statuses that are shown as a number. *)
Definition status_part (status : Z) : option (string * Z) :=
  if WIFSTOPPED status then
    Some ("[{WIFSTOPPED(s) && WSTOPSIG(s) == " +:+ signame (WSTOPSIG status) +:+ "}",
          clear_flag status (W_STOPCODE (WSTOPSIG status)))
  else if WIFSIGNALED status then
    Some ("[{WIFSIGNALED(s) && WTERMSIG(s) == " +:+ signame (WTERMSIG status) +:+
          (if WCOREDUMP status then " && WCOREDUMP(s)" else "") +:+ "}",
          clear_flag status (Z.lor (W_EXITCODE 0 (WTERMSIG status)) WCOREFLAG))
  else if WIFEXITED status then
    Some ("[{WIFEXITED(s) && WEXITSTATUS(s) == " +:+ fmt_d (WEXITSTATUS status) +:+ "}",
          clear_flag status (W_EXITCODE (WEXITSTATUS status) 0))
  else None.

Definition status_text (status : Z) : string :=
  match status_part status with
  | None => "[" +:+ fmt_sx (u32 status) +:+ "]"
  | Some (txt, rest) =>
      txt +:+ (if rest =? 0 then "]" else " | " +:+ fmt_sx (u32 rest) +:+ "]")
  end.

Section wait.
Context `{K : Kernel} (errnoent : nat -> list string).

(** Returns whether the process exited. *)
Definition printstatus (status : Z) : D Z :=
  _ ← tp (status_text status);
  mret (if negb (WIFSTOPPED status) && negb (WIFSIGNALED status) && WIFEXITED status then 1 else 0).

(** printwaitn; [usage] when there is a fourth argument. *)
Definition printwaitn (usage : bool) : D Z :=
  e ← ask;
  a0 ← arg 0; a1 ← arg 1; a2 ← arg 2; a3 ← arg 3;
  if d_entering e then _ ← tp (fmt_int a0 +:+ ", "); mret 0
  else
    _ ← (if a1 =? 0 then tp "NULL"
         else if syserror e || (d_rval e =? 0) then tp (hexl a1)
         else
           status ← umove a1 4;
           match status with
           | None => tp "[?]"
           | Some status => _ ← printstatus (s32 status); mret tt
           end);
    _ ← tp ", ";
    _ ← print_flags wait4_options a2 "W???";
    _ ← (if usage then
           _ ← tp ", ";
           if a3 =? 0 then tp "NULL"
           else if d_rval e >? 0 then printrusage a3
           else tp (hexl a3)
         else mret tt);
    mret 0.
Definition sys_waitpid : D Z := printwaitn false.
Definition sys_wait4 : D Z := printwaitn true.

Definition sys_waitid : D Z :=
  e ← ask;
  a0 ← arg 0; a1 ← arg 1; a2 ← arg 2; a3 ← arg 3; a4 ← arg 4;
  _ ← (if d_entering e then
         _ ← print_xval waitid_types a0 "P_???"; tp (", " +:+ fmt_ld a1 +:+ ", ")
       else
         _ ← printsiginfo_at errnoent a2;
         _ ← tp ", ";
         _ ← print_flags wait4_options a3 "W???";
         if d_nargs e >? 4 then
           _ ← tp ", ";
           if a4 =? 0 then tp "NULL"
           else if negb (d_error e =? 0) then tp (hexl a4)
           else printrusage a4
         else mret tt);
  mret 0.

(** struct utsname: six members of 65 bytes.  The text of a member runs to the
    first NUL, past its own bytes if need be; a struct without one is read
    past its end. *)
Definition uts_field (i : nat) (bs : list Z) : option string :=
  let l := drop (65 * i) bs in
  if bool_decide (0 ∈ l) then Some (string_of_bytes (until 0 l)) else None.

Definition tp_uts (i : nat) (name : string) (bs : list Z) : D unit :=
  match uts_field i bs with
  | None => abort
  | Some s => tp (name +:+ "=" +:+ dquote +:+ s +:+ dquote)
  end.

Definition sys_uname : D Z :=
  e ← ask;
  _ ← if_exiting (
        a0 ← arg 0;
        if syserror e || negb (d_verbose e) then tp (hexl a0)
        else
          uts ← umove_struct a0 390;
          match uts with
          | None => tp "{...}"
          | Some bs =>
              _ ← tp "{";
              if negb (d_abbrev e) then
                _ ← tp_uts 0 "sysname" bs; _ ← tp ", ";
                _ ← tp_uts 1 "nodename" bs; _ ← tp ", ";
                _ ← tp_uts 2 "release" bs; _ ← tp ", ";
                _ ← tp_uts 3 "version" bs; _ ← tp ", ";
                _ ← tp_uts 4 "machine" bs; _ ← tp ", ";
                _ ← tp_uts 5 "domainname" bs; tp "}"
              else
                _ ← tp_uts 0 "sys" bs; _ ← tp ", ";
                _ ← tp_uts 1 "node" bs; tp ", ...}"
          end);
  mret 0.
End wait.

(** ** prctl *)

Definition prctl_options : list xlat :=
  [mk_xlat 1 "PR_SET_PDEATHSIG"; mk_xlat 2 "PR_GET_PDEATHSIG"; mk_xlat 3 "PR_GET_DUMPABLE";
   mk_xlat 4 "PR_SET_DUMPABLE"; mk_xlat 5 "PR_GET_UNALIGN"; mk_xlat 6 "PR_SET_UNALIGN";
   mk_xlat 7 "PR_GET_KEEPCAPS"; mk_xlat 8 "PR_SET_KEEPCAPS"; mk_xlat 9 "PR_GET_FPEMU";
   mk_xlat 10 "PR_SET_FPEMU"; mk_xlat 11 "PR_GET_FPEXC"; mk_xlat 12 "PR_SET_FPEXC";
   mk_xlat 13 "PR_GET_TIMING"; mk_xlat 14 "PR_SET_TIMING"; mk_xlat 15 "PR_SET_NAME";
   mk_xlat 16 "PR_GET_NAME"; mk_xlat 19 "PR_GET_ENDIAN"; mk_xlat 20 "PR_SET_ENDIAN";
   mk_xlat 21 "PR_GET_SECCOMP"; mk_xlat 22 "PR_SET_SECCOMP"; mk_xlat 23 "PR_CAPBSET_READ";
   mk_xlat 24 "PR_CAPBSET_DROP"; mk_xlat 25 "PR_GET_TSC"; mk_xlat 26 "PR_SET_TSC";
   mk_xlat 27 "PR_GET_SECUREBITS"; mk_xlat 28 "PR_SET_SECUREBITS"; mk_xlat 29 "PR_SET_TIMERSLACK";
   mk_xlat 30 "PR_GET_TIMERSLACK"; mk_xlat 31 "PR_TASK_PERF_EVENTS_DISABLE";
   mk_xlat 32 "PR_TASK_PERF_EVENTS_ENABLE"; mk_xlat 33 "PR_MCE_KILL"; mk_xlat 34 "PR_MCE_KILL_GET";
   mk_xlat 35 "PR_SET_MM"; mk_xlat 0x59616d61 "PR_SET_PTRACER"; mk_xlat 36 "PR_SET_CHILD_SUBREAPER";
   mk_xlat 37 "PR_GET_CHILD_SUBREAPER"; mk_xlat 38 "PR_SET_NO_NEW_PRIVS";
   mk_xlat 39 "PR_GET_NO_NEW_PRIVS"; mk_xlat 40 "PR_GET_TID_ADDRESS"].
Definition PR_SET_PDEATHSIG : Z := 1.
Definition PR_GET_PDEATHSIG : Z := 2.
Definition PR_GET_DUMPABLE : Z := 3.
Definition PR_SET_DUMPABLE : Z := 4.
Definition PR_GET_UNALIGN : Z := 5.
Definition PR_SET_UNALIGN : Z := 6.
Definition PR_GET_KEEPCAPS : Z := 7.
Definition PR_SET_KEEPCAPS : Z := 8.

Definition unalignctl_string (ctl : Z) : string :=
  if ctl =? 1 then "NOPRINT" else if ctl =? 2 then "SIGBUS" else fmt_x ctl.

Section prctl.
Context `{K : Kernel}.

(** The arguments of an option that prctl knows nothing of, from the second. *)
Definition other_args (e : denv) : string :=
  foldr (fun a t => ", " +:+ hexl a +:+ t) "" (take (Z.to_nat (d_nargs e - 1)) (drop 1 (u_arg e))).

Definition sys_prctl : D Z :=
  e ← ask;
  op ← arg 0; a1 ← arg 1;
  if d_entering e then
    _ ← print_xval prctl_options op "PR_???";
    _ ← tp (if existsb (Z.eqb op) [PR_SET_PDEATHSIG; PR_SET_DUMPABLE; PR_SET_KEEPCAPS]
            then ", " +:+ fmt_u a1
            else if existsb (Z.eqb op) [PR_GET_PDEATHSIG; PR_GET_DUMPABLE; PR_GET_KEEPCAPS] then ""
            else if op =? PR_SET_UNALIGN then ", " +:+ unalignctl_string (u32 a1)
            else if op =? PR_GET_UNALIGN then ", " +:+ hexl a1
            else other_args e);
    mret 0
  else if op =? PR_GET_PDEATHSIG then
    i ← umove a1 4;
    _ ← tp match i with None => ", " +:+ hexl a1 | Some i => ", {" +:+ fmt_u i +:+ "}" end;
    mret 0
  else if existsb (Z.eqb op) [PR_GET_DUMPABLE; PR_GET_KEEPCAPS] then mret RVAL_UDECIMAL
  else if op =? PR_GET_UNALIGN then
    i ← (if syserror e then mret None else umove a1 4);
    match i with
    | None => mret 0
    | Some i => _ ← put_auxstr (Some (unalignctl_string i)); mret RVAL_STR
    end
  else mret 0.
End prctl.

(** ** ptrace *)

Definition ptrace_cmds : list xlat :=
  [mk_xlat 0 "PTRACE_TRACEME"; mk_xlat 1 "PTRACE_PEEKTEXT"; mk_xlat 2 "PTRACE_PEEKDATA";
   mk_xlat 3 "PTRACE_PEEKUSER"; mk_xlat 4 "PTRACE_POKETEXT"; mk_xlat 5 "PTRACE_POKEDATA";
   mk_xlat 6 "PTRACE_POKEUSER"; mk_xlat 7 "PTRACE_CONT"; mk_xlat 8 "PTRACE_KILL";
   mk_xlat 9 "PTRACE_SINGLESTEP"; mk_xlat 16 "PTRACE_ATTACH"; mk_xlat 17 "PTRACE_DETACH";
   mk_xlat 12 "PTRACE_GETREGS"; mk_xlat 13 "PTRACE_SETREGS"; mk_xlat 14 "PTRACE_GETFPREGS";
   mk_xlat 15 "PTRACE_SETFPREGS"; mk_xlat 18 "PTRACE_GETFPXREGS"; mk_xlat 19 "PTRACE_SETFPXREGS";
   mk_xlat 0x4200 "PTRACE_SETOPTIONS"; mk_xlat 0x4201 "PTRACE_GETEVENTMSG";
   mk_xlat 0x4202 "PTRACE_GETSIGINFO"; mk_xlat 0x4203 "PTRACE_SETSIGINFO";
   mk_xlat 0x4204 "PTRACE_GETREGSET"; mk_xlat 0x4205 "PTRACE_SETREGSET"; mk_xlat 0x4206 "PTRACE_SEIZE";
   mk_xlat 0x4207 "PTRACE_INTERRUPT"; mk_xlat 0x4208 "PTRACE_LISTEN"; mk_xlat 24 "PTRACE_SYSCALL"].
Definition ptrace_setoptions_flags : list xlat :=
  [mk_xlat 1 "PTRACE_O_TRACESYSGOOD"; mk_xlat 2 "PTRACE_O_TRACEFORK"; mk_xlat 4 "PTRACE_O_TRACEVFORK";
   mk_xlat 8 "PTRACE_O_TRACECLONE"; mk_xlat 16 "PTRACE_O_TRACEEXEC"; mk_xlat 32 "PTRACE_O_TRACEVFORKDONE";
   mk_xlat 64 "PTRACE_O_TRACEEXIT"; mk_xlat 0x80 "PTRACE_O_TRACESECCOMP";
   mk_xlat 0x100000 "PTRACE_O_EXITKILL"].
Definition nt_descriptor_types : list xlat :=
  [mk_xlat 1 "NT_PRSTATUS"; mk_xlat 2 "NT_FPREGSET"; mk_xlat 3 "NT_PRPSINFO"; mk_xlat 4 "NT_PRXREG";
   mk_xlat 4 "NT_TASKSTRUCT"; mk_xlat 5 "NT_PLATFORM"; mk_xlat 6 "NT_AUXV"; mk_xlat 7 "NT_GWINDOWS";
   mk_xlat 8 "NT_ASRS"; mk_xlat 10 "NT_PSTATUS"; mk_xlat 13 "NT_PSINFO"; mk_xlat 14 "NT_PRCRED";
   mk_xlat 15 "NT_UTSNAME"; mk_xlat 16 "NT_LWPSTATUS"; mk_xlat 17 "NT_LWPSINFO";
   mk_xlat 20 "NT_PRFPXREG"; mk_xlat 0x46e62b7f "NT_PRXFPREG"; mk_xlat 0x100 "NT_PPC_VMX";
   mk_xlat 0x101 "NT_PPC_SPE"; mk_xlat 0x102 "NT_PPC_VSX"; mk_xlat 0x200 "NT_386_TLS";
   mk_xlat 0x201 "NT_386_IOPERM"; mk_xlat 0x202 "NT_X86_XSTATE"].
(** Offsets in struct user of x86_64. *)
Definition struct_user_offsets : list xlat :=
  [mk_xlat 0 "8*R15"; mk_xlat 8 "8*R14"; mk_xlat 16 "8*R13"; mk_xlat 24 "8*R12"; mk_xlat 32 "8*RBP";
   mk_xlat 40 "8*RBX"; mk_xlat 48 "8*R11"; mk_xlat 56 "8*R10"; mk_xlat 64 "8*R9"; mk_xlat 72 "8*R8";
   mk_xlat 80 "8*RAX"; mk_xlat 88 "8*RCX"; mk_xlat 96 "8*RDX"; mk_xlat 104 "8*RSI"; mk_xlat 112 "8*RDI";
   mk_xlat 120 "8*ORIG_RAX"; mk_xlat 128 "8*RIP"; mk_xlat 136 "8*CS"; mk_xlat 144 "8*EFL";
   mk_xlat 152 "8*RSP"; mk_xlat 160 "8*SS"; mk_xlat 216 "offsetof(struct user, u_fpvalid)";
   mk_xlat 224 "offsetof(struct user, i387)"; mk_xlat 736 "offsetof(struct user, u_tsize)";
   mk_xlat 744 "offsetof(struct user, u_dsize)"; mk_xlat 752 "offsetof(struct user, u_ssize)";
   mk_xlat 760 "offsetof(struct user, start_code)"; mk_xlat 768 "offsetof(struct user, start_stack)";
   mk_xlat 776 "offsetof(struct user, signal)"; mk_xlat 784 "offsetof(struct user, reserved)";
   mk_xlat 792 "offsetof(struct user, u_ar0)"; mk_xlat 800 "offsetof(struct user, u_fpstate)";
   mk_xlat 808 "offsetof(struct user, magic)"; mk_xlat 816 "offsetof(struct user, u_comm)";
   mk_xlat 848 "offsetof(struct user, u_debugreg)"; mk_xlat 912 "sizeof(struct user)"].
Definition PTRACE_PEEKTEXT : Z := 1.
Definition PTRACE_PEEKDATA : Z := 2.
Definition PTRACE_PEEKUSER : Z := 3.
Definition PTRACE_POKEUSER : Z := 6.
Definition PTRACE_CONT : Z := 7.
Definition PTRACE_SINGLESTEP : Z := 9.
Definition PTRACE_DETACH : Z := 17.
Definition PTRACE_SYSCALL : Z := 24.
Definition PTRACE_SETOPTIONS : Z := 0x4200.
Definition PTRACE_GETSIGINFO : Z := 0x4202.
Definition PTRACE_SETSIGINFO : Z := 0x4203.
Definition PTRACE_GETREGSET : Z := 0x4204.
Definition PTRACE_SETREGSET : Z := 0x4205.

(** The name of an offset: the last entry that is not past it; [prev] is the
    entry before the rest of the table. *)
Fixpoint user_offset (t : list xlat) (prev : option xlat) (addr : Z) : string :=
  match t with
  | [] => hexl addr
  | x :: t =>
      if x_val x >=? addr then
        match prev with
        | Some p => if x_val x >? addr then x_str p +:+ " + " +:+ fmt_d (addr - x_val p) else x_str x
        | None => x_str x
        end
      else user_offset t (Some x) addr
  end.

Section ptrace.
Context `{K : Kernel} (errnoent : nat -> list string).

Definition ptrace_entering (op a1 a2 a3 : Z) : D unit :=
  _ ← print_xval ptrace_cmds op "PTRACE_???";
  _ ← tp (", " +:+ fmt_u a1 +:+ ", ");
  _ ← (if existsb (Z.eqb op) [PTRACE_PEEKUSER; PTRACE_POKEUSER]
       then tp (user_offset struct_user_offsets None (s64 a2) +:+ ", ")
       else if existsb (Z.eqb op) [PTRACE_GETREGSET; PTRACE_SETREGSET]
       then _ ← print_xval nt_descriptor_types a2 "NT_???"; tp ", "
       else tp (hexl a2 +:+ ", "));
  if existsb (Z.eqb op) [PTRACE_PEEKDATA; PTRACE_PEEKTEXT; PTRACE_PEEKUSER;
                         PTRACE_GETSIGINFO; PTRACE_GETREGSET] then mret tt
  else if existsb (Z.eqb op) [PTRACE_CONT; PTRACE_SINGLESTEP; PTRACE_SYSCALL; PTRACE_DETACH]
  then printsignal a3
  else if op =? PTRACE_SETOPTIONS then print_flags ptrace_setoptions_flags a3 "PTRACE_O_???"
  else if op =? PTRACE_SETSIGINFO then printsiginfo_at errnoent a3
  else if op =? PTRACE_SETREGSET then tprint_iov 1 a3 false
  else tp (hexl a3).

Definition sys_ptrace : D Z :=
  e ← ask;
  op ← arg 0; a1 ← arg 1; a2 ← arg 2; a3 ← arg 3;
  _ ← (if d_entering e then ptrace_entering op a1 a2 a3
       else if existsb (Z.eqb op) [PTRACE_PEEKDATA; PTRACE_PEEKTEXT; PTRACE_PEEKUSER]
       then printnum a3 hexl
       else if op =? PTRACE_GETSIGINFO then printsiginfo_at errnoent a3
       else if op =? PTRACE_GETREGSET then tprint_iov 1 a3 false
       else mret tt);
  mret 0.
End ptrace.

(** ** futex *)

Definition futexops : list xlat :=
  [mk_xlat 0 "FUTEX_WAIT"; mk_xlat 1 "FUTEX_WAKE"; mk_xlat 2 "FUTEX_FD"; mk_xlat 3 "FUTEX_REQUEUE";
   mk_xlat 4 "FUTEX_CMP_REQUEUE"; mk_xlat 5 "FUTEX_WAKE_OP"; mk_xlat 6 "FUTEX_LOCK_PI";
   mk_xlat 7 "FUTEX_UNLOCK_PI"; mk_xlat 8 "FUTEX_TRYLOCK_PI"; mk_xlat 9 "FUTEX_WAIT_BITSET";
   mk_xlat 10 "FUTEX_WAKE_BITSET"; mk_xlat 11 "FUTEX_WAIT_REQUEUE_PI";
   mk_xlat 12 "FUTEX_CMP_REQUEUE_PI"; mk_xlat 0x80 "FUTEX_WAIT_PRIVATE";
   mk_xlat 0x81 "FUTEX_WAKE_PRIVATE"; mk_xlat 0x82 "FUTEX_FD_PRIVATE";
   mk_xlat 0x83 "FUTEX_REQUEUE_PRIVATE"; mk_xlat 0x84 "FUTEX_CMP_REQUEUE_PRIVATE";
   mk_xlat 0x85 "FUTEX_WAKE_OP_PRIVATE"; mk_xlat 0x86 "FUTEX_LOCK_PI_PRIVATE";
   mk_xlat 0x87 "FUTEX_UNLOCK_PI_PRIVATE"; mk_xlat 0x88 "FUTEX_TRYLOCK_PI_PRIVATE";
   mk_xlat 0x89 "FUTEX_WAIT_BITSET_PRIVATE"; mk_xlat 0x8a "FUTEX_WAKE_BITSET_PRIVATE";
   mk_xlat 0x8b "FUTEX_WAIT_REQUEUE_PI_PRIVATE"; mk_xlat 0x8c "FUTEX_CMP_REQUEUE_PI_PRIVATE";
   mk_xlat 0x109 "FUTEX_WAIT_BITSET|FUTEX_CLOCK_REALTIME";
   mk_xlat 0x189 "FUTEX_WAIT_BITSET_PRIVATE|FUTEX_CLOCK_REALTIME";
   mk_xlat 0x10b "FUTEX_WAIT_REQUEUE_PI|FUTEX_CLOCK_REALTIME";
   mk_xlat 0x18b "FUTEX_WAIT_REQUEUE_PI_PRIVATE|FUTEX_CLOCK_REALTIME"].
Definition futexwakeops : list xlat :=
  [mk_xlat 0 "FUTEX_OP_SET"; mk_xlat 1 "FUTEX_OP_ADD"; mk_xlat 2 "FUTEX_OP_OR";
   mk_xlat 3 "FUTEX_OP_ANDN"; mk_xlat 4 "FUTEX_OP_XOR"].
Definition futexwakecmps : list xlat :=
  [mk_xlat 0 "FUTEX_OP_CMP_EQ"; mk_xlat 1 "FUTEX_OP_CMP_NE"; mk_xlat 2 "FUTEX_OP_CMP_LT";
   mk_xlat 3 "FUTEX_OP_CMP_LE"; mk_xlat 4 "FUTEX_OP_CMP_GT"; mk_xlat 5 "FUTEX_OP_CMP_GE"].
Definition FUTEX_WAIT : Z := 0.
Definition FUTEX_REQUEUE : Z := 3.
Definition FUTEX_CMP_REQUEUE : Z := 4.
Definition FUTEX_WAKE_OP : Z := 5.
Definition FUTEX_WAIT_BITSET : Z := 9.
Definition FUTEX_WAKE_BITSET : Z := 10.
Definition FUTEX_WAIT_REQUEUE_PI : Z := 11.
Definition FUTEX_CMP_REQUEUE_PI : Z := 12.

Definition schedulers : list xlat :=
  [mk_xlat 0 "SCHED_OTHER"; mk_xlat 2 "SCHED_RR"; mk_xlat 1 "SCHED_FIFO"].
Definition archvals : list xlat :=
  [mk_xlat 0x1001 "ARCH_SET_GS"; mk_xlat 0x1002 "ARCH_SET_FS"; mk_xlat 0x1003 "ARCH_GET_FS";
   mk_xlat 0x1004 "ARCH_GET_GS"].
Definition ARCH_SET_GS : Z := 0x1001.
Definition ARCH_SET_FS : Z := 0x1002.
Definition ARCH_GET_FS : Z := 0x1003.
Definition ARCH_GET_GS : Z := 0x1004.

Section futex.
Context `{K : Kernel}.

(** The operation of FUTEX_WAKE_OP, an int with four fields. *)
Definition print_wake_op (v : Z) : D unit :=
  let field (sh mask : Z) := Z.land (Z.shiftr (s64 v) sh) mask in
  let shifted (sh : Z) := tp (if has_flag (field sh 8) 8 then "FUTEX_OP_OPARG_SHIFT|" else "") in
  _ ← shifted 28;
  _ ← print_xval futexwakeops (field 28 7) "FUTEX_OP_???";
  _ ← tp (", " +:+ fmt_d (field 12 0xfff) +:+ ", ");
  _ ← shifted 24;
  _ ← print_xval futexwakecmps (field 24 7) "FUTEX_OP_CMP_???";
  tp (", " +:+ fmt_d (field 0 0xfff) +:+ "}").

Definition sys_futex : D Z :=
  _ ← if_entering (
        a0 ← arg 0; a1 ← arg 1; a2 ← arg 2; a3 ← arg 3; a4 ← arg 4; a5 ← arg 5;
        let cmd := Z.land a1 127 in
        _ ← tp (fmt_p a0 +:+ ", ");
        _ ← print_xval futexops a1 "FUTEX_???";
        _ ← tp (", " +:+ fmt_ld a2);
        if cmd =? FUTEX_WAKE_BITSET then tp (", " +:+ fmt_x a5)
        else if cmd =? FUTEX_WAIT then _ ← tp ", "; printtv a3
        else if cmd =? FUTEX_WAIT_BITSET then _ ← tp ", "; _ ← printtv a3; tp (", " +:+ fmt_x a5)
        else if cmd =? FUTEX_REQUEUE then tp (", " +:+ fmt_ld a3 +:+ ", " +:+ fmt_p a4)
        else if (cmd =? FUTEX_CMP_REQUEUE) || (cmd =? FUTEX_CMP_REQUEUE_PI)
        then tp (", " +:+ fmt_ld a3 +:+ ", " +:+ fmt_p a4 +:+ ", " +:+ fmt_ld a5)
        else if cmd =? FUTEX_WAKE_OP
        then _ ← tp (", " +:+ fmt_ld a3 +:+ ", " +:+ fmt_p a4 +:+ ", {"); print_wake_op a5
        else if cmd =? FUTEX_WAIT_REQUEUE_PI
        then _ ← tp ", "; _ ← printtv a3; tp (", " +:+ fmt_p a4)
        else mret tt);
  mret 0.

(** ** Scheduling *)

(** The loop of print_affinitylist: what is left of [len] and [list], and
    whether nothing was printed. *)
Fixpoint affinity_loop (n : nat) (list len min_len : Z) (first : bool) : D (Z * Z * bool) :=
  match n with
  | O => mret (list, len, first)
  | S n =>
      if (len >=? 8) && (len >? min_len) then
        w ← umove list 8;
        match w with
        | None => mret (list, len, first)
        | Some w =>
            _ ← tp (if first then "{" else ", ");
            _ ← tp (fmt_x w);
            affinity_loop n (u64 (list + 8)) (len - 8) min_len false
        end
      else mret (list, len, first)
  end.

Definition print_affinitylist (list len : Z) : D unit :=
  e ← ask;
  let len := u32 len in
  let min_len := if d_abbrev e && (len / 8 >? max_strlen e)
                 then u64 (len - max_strlen e * 8) else 0 in
  '(at_, rest, first) ← affinity_loop (Z.to_nat (len / 8)) list len min_len true;
  tp (if negb (rest =? 0) then
        if first : bool then hexl at_
        else ", " +:+ (if (rest >=? 8) && (rest >? min_len) then "???" else "...") +:+ "}"
      else if first : bool then "{}" else "}").

Definition sys_sched_setaffinity : D Z :=
  _ ← if_entering (
        a0 ← arg 0; a1 ← arg 1; a2 ← arg 2;
        _ ← tp (fmt_ld a0 +:+ ", " +:+ fmt_u a1 +:+ ", "); print_affinitylist a2 a1);
  mret 0.

Definition sys_sched_getaffinity : D Z :=
  e ← ask;
  a0 ← arg 0; a1 ← arg 1; a2 ← arg 2;
  _ ← (if d_entering e then tp (fmt_ld a0 +:+ ", " +:+ fmt_u a1 +:+ ", ")
       else if d_rval e =? -1 then tp (hexl a2)
       else print_affinitylist a2 (d_rval e));
  mret 0.

(** [syserror(tcp) || !addr || umove(tcp, addr, &obj) < 0] *)
Definition result_at (addr : Z) : D (option Z) :=
  e ← ask; if syserror e || (addr =? 0) then mret None else umove addr 8.

Definition sys_get_robust_list : D Z :=
  e ← ask;
  a0 ← arg 0; a1 ← arg 1; a2 ← arg 2;
  _ ← (if d_entering e then tp (fmt_int a0 +:+ ", ")
       else
         addr ← result_at a1;
         _ ← tp match addr with None => hexl a1 +:+ ", " | Some v => "[" +:+ fmt_p v +:+ "], " end;
         len ← result_at a2;
         tp match len with None => hexl a2 | Some v => "[" +:+ fmt_u v +:+ "]" end);
  mret 0.

Definition sys_sched_getscheduler : D Z :=
  e ← ask;
  a0 ← arg 0;
  if d_entering e then _ ← tp (fmt_int a0); mret 0
  else if syserror e then mret 0
  else
    let s := xlookup schedulers (s32 (d_rval e)) in
    _ ← put_auxstr s;
    mret match s with Some _ => RVAL_STR | None => 0 end.

(** struct sched_param: an int *)
Definition sched_param_text (addr : Z) : D string :=
  p ← umove addr 4;
  mret match p with None => hexl addr | Some p => "{ " +:+ fmt_d (s32 p) +:+ " }" end.

Definition sys_sched_setscheduler : D Z :=
  _ ← if_entering (
        a0 ← arg 0; a1 ← arg 1; a2 ← arg 2;
        _ ← tp (fmt_int a0 +:+ ", ");
        _ ← print_xval schedulers a1 "SCHED_???";
        p ← sched_param_text a2; tp (", " +:+ p));
  mret 0.

Definition sys_sched_getparam : D Z :=
  e ← ask;
  a0 ← arg 0; a1 ← arg 1;
  _ ← (if d_entering e then tp (fmt_int a0 +:+ ", ") else p ← sched_param_text a1; tp p);
  mret 0.

Definition sys_sched_setparam : D Z :=
  _ ← if_entering (
        a0 ← arg 0; a1 ← arg 1;
        p ← sched_param_text a1; tp (fmt_int a0 +:+ ", " +:+ p));
  mret 0.

Definition sys_sched_get_priority_min : D Z :=
  _ ← if_entering (a0 ← arg 0; print_xval schedulers a0 "SCHED_???"); mret 0.

Definition sys_sched_rr_get_interval : D Z :=
  e ← ask;
  a0 ← arg 0; a1 ← arg 1;
  _ ← (if d_entering e then tp (fmt_int a0 +:+ ", ")
       else if syserror e then tp (hexl a1) else print_timespec a1);
  mret 0.

(** ** The rest *)

Definition sys_arch_prctl : D Z :=
  e ← ask;
  a0 ← arg 0; a1 ← arg 1;
  _ ← (if d_entering e then
         _ ← print_xval archvals a0 "ARCH_???";
         if existsb (Z.eqb a0) [ARCH_SET_GS; ARCH_SET_FS] then tp (", " +:+ hexl a1) else mret tt
       else if existsb (Z.eqb a0) [ARCH_GET_GS; ARCH_GET_FS] then
         v ← (if syserror e then mret None else umove a1 8);
         tp match v with None => ", " +:+ hexl a1 | Some v => ", [" +:+ hexl v +:+ "]" end
       else mret tt);
  mret 0.

(** One of the two results of getcpu. *)
Definition print_unsigned_at (addr : Z) : D unit :=
  if addr =? 0 then tp "NULL, "
  else
    u ← umove addr 4;
    tp match u with None => hexl addr +:+ ", " | Some u => "[" +:+ fmt_u u +:+ "], " end.

Definition sys_getcpu : D Z :=
  _ ← if_exiting (
        a0 ← arg 0; a1 ← arg 1; a2 ← arg 2;
        _ ← print_unsigned_at a0; _ ← print_unsigned_at a1; tp (hexl a2));
  mret 0.

(** The two vectors of process_vm_readv and process_vm_writev. *)
Definition print_vm_iovs : D unit :=
  e ← ask;
  a1 ← arg 1; a2 ← arg 2; a3 ← arg 3; a4 ← arg 4; a5 ← arg 5;
  _ ← (if syserror e then tp (hexl a1) else tprint_iov a2 a1 true);
  _ ← tp (", " +:+ fmt_u a2 +:+ ", ");
  _ ← (if syserror e then tp (hexl a3) else tprint_iov a4 a3 false);
  tp (", " +:+ fmt_u a4 +:+ ", " +:+ fmt_u a5).

Definition sys_process_vm_readv : D Z :=
  e ← ask;
  a0 ← arg 0;
  _ ← (if d_entering e then tp (fmt_ld a0 +:+ ", ") else print_vm_iovs);
  mret 0.

Definition sys_process_vm_writev : D Z :=
  _ ← if_entering (a0 ← arg 0; _ ← tp (fmt_ld a0 +:+ ", "); print_vm_iovs);
  mret 0.
End futex.

(** ** The discipline *)

Section discipline.
Context `{K : Kernel} (e : denv) (Hok : env_ok e).
Lemma Prints_print_uid_at a : Prints e (print_uid_at a).
Proof. unfold print_uid_at. decodes. Qed.
Lemma Prints_groups_loop n a c ae : Prints e (groups_loop n a c ae).
Proof. revert c. induction n; intros; simpl; decodes. Qed.
Hint Resolve Prints_groups_loop : decodes.
Lemma Prints_print_groups n a h : Prints e (print_groups n a h).
Proof. unfold print_groups. decodes. Qed.
Lemma Prints_printstatus s : Prints e (printstatus s).
Proof. unfold printstatus. decodes. Qed.
Hint Resolve Prints_printstatus : decodes.
Lemma Decodes_printwaitn u : Decodes e (printwaitn u) rval_format_ok.
Proof. unfold printwaitn. decodes. Qed.
Lemma Prints_ptrace_entering ent op a1 a2 a3 : Prints e (ptrace_entering ent op a1 a2 a3).
Proof. unfold ptrace_entering. decodes. Qed.
Lemma Prints_print_wake_op v : Prints e (print_wake_op v).
Proof. unfold print_wake_op. decodes. Qed.
Lemma Prints_affinity_loop n l len ml f : Prints e (affinity_loop n l len ml f).
Proof. revert l len f. induction n; intros; simpl; decodes. Qed.
Hint Resolve Prints_affinity_loop : decodes.
Lemma Prints_print_affinitylist l n : Prints e (print_affinitylist l n).
Proof. unfold print_affinitylist. decodes. Qed.
Lemma Prints_result_at a : Prints e (result_at a).
Proof. unfold result_at. decodes. Qed.
Lemma Prints_sched_param_text a : Prints e (sched_param_text a).
Proof. unfold sched_param_text. decodes. Qed.
Lemma Prints_print_unsigned_at a : Prints e (print_unsigned_at a).
Proof. unfold print_unsigned_at. decodes. Qed.
Lemma Prints_print_vm_iovs : Prints e print_vm_iovs.
Proof. unfold print_vm_iovs. decodes. Qed.
End discipline.
#[export] Hint Resolve Prints_printstatus Prints_print_uid_at Prints_print_groups Decodes_printwaitn
  Prints_ptrace_entering Prints_print_wake_op Prints_print_affinitylist Prints_result_at Prints_sched_param_text
  Prints_print_unsigned_at Prints_print_vm_iovs : decodes.
