(* ===== verification/Status.v ===== *)
(** * Wait statuses as printstatus shows them (process.c) can be read back *)

From S2P Require Import Prelude Xlat Quote Tracee Decode Io Args Signal Time File Sigcalls Resource.
From S2P Require Import Process.
Local Open Scope string_scope.
Local Open Scope list_scope.
Local Open Scope Z_scope.

(** ** Reading a status back *)

(** [s] without the prefix [p]. *)
Fixpoint strip (p s : string) : option string :=
  match p, s with
  | EmptyString, _ => Some s
  | String a p, String b s => if Ascii.eqb a b then strip p s else None
  | _, _ => None
  end.

(** A name ends at a brace or a space. *)
Definition ends_name (c : ascii) : bool := Ascii.eqb c "}" || Ascii.eqb c " ".
Fixpoint scan_name (s : string) : string * string :=
  match s with
  | String c s' =>
      if ends_name c then (EmptyString, s)
      else let '(name, rest) := scan_name s' in (String c name, rest)
  | EmptyString => (EmptyString, EmptyString)
  end.

Definition signal_named (name : string) : option Z :=
  Z.of_nat <$> List.find (fun n => String.eqb (signame (Z.of_nat n)) name) (seq 0 256).

(** The bits after the braces. *)
Definition read_rest (s : string) : option Z :=
  match strip " | 0x" s with
  | Some s => let '(v, s) := scan_hex 0 s in if String.eqb s "]" then Some v else None
  | None => if String.eqb s "]" then Some 0 else None
  end.

Definition stopped_prefix : string := "[{WIFSTOPPED(s) && WSTOPSIG(s) == ".
Definition signaled_prefix : string := "[{WIFSIGNALED(s) && WTERMSIG(s) == ".
Definition exited_prefix : string := "[{WIFEXITED(s) && WEXITSTATUS(s) == ".

(** The bits the braces stand for, and the text after them. *)
Definition read_part (s : string) : option (Z * string) :=
  match strip stopped_prefix s with
  | Some s =>
      let '(name, s) := scan_name s in
      n ← signal_named name; s ← strip "}" s; Some (W_STOPCODE n, s)
  | None =>
      match strip signaled_prefix s with
      | Some s =>
          let '(name, s) := scan_name s in
          n ← signal_named name;
          match strip " && WCOREDUMP(s)}" s with
          | Some s => Some (Z.lor (W_EXITCODE 0 n) WCOREFLAG, s)
          | None => s ← strip "}" s; Some (W_EXITCODE 0 n, s)
          end
      | None =>
          s ← strip exited_prefix s;
          let '(n, s) := scan_dec 0 s in
          s ← strip "}" s; Some (W_EXITCODE n 0, s)
      end
  end.

Definition read_status (s : string) : option Z :=
  match strip "[0x" s with
  | Some s => let '(v, s) := scan_hex 0 s in if String.eqb s "]" then Some (s32 v) else None
  | None => '(bits, s) ← read_part s; r ← read_rest s; Some (s32 (Z.lor r bits))
  end.

Lemma strip_app p s : strip p (p +:+ s) = Some s.
Proof. induction p as [|c p IH]; [done|]. rewrite app_String. cbn [strip]. by rewrite Ascii.eqb_refl. Qed.

Fixpoint no_end (s : string) : bool :=
  match s with String c s => negb (ends_name c) && no_end s | EmptyString => true end.

Lemma scan_name_app name c s :
  no_end name = true -> ends_name c = true -> scan_name (name +:+ String c s) = (name, String c s).
Proof.
  intros Hn Hc. induction name as [|a name IH].
  - rewrite app_Empty. cbn [scan_name]. by rewrite Hc.
  - rewrite app_String. cbn [scan_name no_end] in *. apply andb_true_iff in Hn as [Ha Hn].
    apply negb_true_iff in Ha. by rewrite Ha, IH.
Qed.

Definition name_reads (n : Z) : bool :=
  no_end (signame n) && match signal_named (signame n) with Some m => m =? n | None => false end.

Lemma signame_read n : is_u8 n -> no_end (signame n) = true /\ signal_named (signame n) = Some n.
Proof.
  intros Hn. assert (H : name_reads n = true).
  { apply all_bytes; [vm_compute; reflexivity|done]. }
  apply andb_true_iff in H as [H1 H2]. split; [done|].
  destruct (signal_named (signame n)) as [m|]; [|done]. f_equal. lia.
Qed.

Lemma read_rest_text rest :
  is_s32 rest ->
  read_rest (if rest =? 0 then "]" else " | " +:+ fmt_sx (u32 rest) +:+ "]") = Some (u32 rest).
Proof.
  intros Hr. destruct (Z.eqb_spec rest 0) as [->|Hne]; [done|].
  unfold fmt_sx. destruct (Z.eqb_spec (u32 rest) 0) as [H0|_]; [wrap_lia|].
  unfold read_rest. change (" | " +:+ ("0x" +:+ fmt_x (u32 rest)) +:+ "]")
    with (" | 0x" +:+ (fmt_x (u32 rest) +:+ "]")).
  rewrite strip_app, scan_hex_fmt_x by (done || apply u32_range). done.
Qed.

(** ** The bits *)

Lemma s32_u32 z : s32 (u32 z) = s32 z.
Proof. wrap_lia. Qed.

Lemma u32_land z : u32 z = Z.land z (Z.ones 32).
Proof. by rewrite Z.land_ones by lia. Qed.

Lemma s32_lor_u32 a m : s32 (Z.lor (u32 a) m) = s32 (Z.lor a m).
Proof.
  rewrite <- (s32_u32 (Z.lor a m)), <- s32_u32. f_equal. rewrite !u32_land.
  rewrite !Z.land_lor_distr_l, <- Z.land_assoc, Z.land_diag. done.
Qed.

Lemma s32_clear a k : is_s32 a -> 0 <= k < 2 ^ 31 -> is_s32 (clear_flag a k).
Proof.
  unfold is_s32, clear_flag. intros Ha Hk.
  assert (H : Z.shiftr (Z.land a (Z.lnot k)) 31 = Z.shiftr a 31).
  { rewrite Z.shiftr_land, <- Z.lnot_shiftr by lia.
    replace (Z.shiftr k 31) with 0; [by rewrite Z.land_m1_r|].
    rewrite Z.shiftr_div_pow2 by lia. symmetry. by apply Z.div_small. }
  rewrite !Z.shiftr_div_pow2 in H by lia. change (2 ^ 31) with 2147483648 in *.
  Z.div_mod_to_equations. lia.
Qed.

(** The bits cleared and the bits shown are the status. *)
Lemma lor_clear s m : Z.lor (clear_flag s m) (Z.land s m) = s.
Proof.
  unfold clear_flag. rewrite <- Z.land_lor_distr_r, Z.lor_comm, Z.lor_lnot_diag.
  by rewrite Z.land_m1_r.
Qed.

(** The second byte of a status is among its bits. *)
Lemma land_byte1 s : let b := Z.shiftl (Z.shiftr (Z.land s 0xff00) 8) 8 in Z.land s b = b.
Proof.
  intros b. assert (b = Z.land s 0xff00) as ->.
  { unfold b. rewrite <- Z.ldiff_ones_r by lia. rewrite Z.ldiff_land, <- Z.land_assoc. done. }
  by rewrite Z.land_assoc, Z.land_diag.
Qed.

Lemma byte1_range s : 0 <= Z.shiftr (Z.land s 0xff00) 8 < 256.
Proof.
  rewrite Z.shiftr_land. change (Z.shiftr 0xff00 8) with (Z.ones 8). rewrite Z.land_ones by lia.
  apply Z.mod_pos_bound. done.
Qed.

Lemma stopped_bits s :
  WIFSTOPPED s = true -> Z.land s (W_STOPCODE (WSTOPSIG s)) = W_STOPCODE (WSTOPSIG s).
Proof.
  unfold WIFSTOPPED, W_STOPCODE, WSTOPSIG. intros H%Z.eqb_eq.
  rewrite Z.land_lor_distr_r, land_byte1. f_equal.
  change 0x7f with (Z.land 0xff 0x7f) at 1. by rewrite Z.land_assoc, H.
Qed.

Lemma exited_bits s : Z.land s (W_EXITCODE (WEXITSTATUS s) 0) = W_EXITCODE (WEXITSTATUS s) 0.
Proof. unfold W_EXITCODE, WEXITSTATUS. rewrite Z.lor_0_r. apply land_byte1. Qed.

Lemma signaled_bits s :
  Z.land s (Z.lor (W_EXITCODE 0 (WTERMSIG s)) WCOREFLAG) =
  if WCOREDUMP s then Z.lor (W_EXITCODE 0 (WTERMSIG s)) WCOREFLAG else W_EXITCODE 0 (WTERMSIG s).
Proof.
  change (W_EXITCODE 0 (WTERMSIG s)) with (WTERMSIG s). unfold WTERMSIG, WCOREDUMP, has_flag, WCOREFLAG.
  rewrite Z.land_lor_distr_r, Z.land_assoc, Z.land_diag.
  destruct (Z.eqb_spec (Z.land s 0x80) 0) as [->|Hne]; [by rewrite Z.lor_0_r|]. cbn [negb]. f_equal.
  change 0x80 with (2 ^ 7) in *. apply Z.bits_inj'. intros i Hi.
  destruct (Z.testbit s 7) eqn:H7.
  - rewrite Z.land_spec, Z.pow2_bits_eqb by lia. destruct (Z.eqb_spec 7 i) as [<-|]; [|by rewrite andb_false_r].
    by rewrite H7.
  - exfalso. apply Hne, Z.bits_inj'. intros j Hj. rewrite Z.land_spec, Z.pow2_bits_eqb, Z.bits_0 by lia.
    destruct (Z.eqb_spec 7 j) as [<-|]; [by rewrite H7|by rewrite andb_false_r].
Qed.

Lemma WTERMSIG_u8 s : is_u8 (WTERMSIG s).
Proof.
  unfold WTERMSIG. change 0x7f with (Z.ones 7). rewrite Z.land_ones by lia.
  pose proof (Z.mod_pos_bound s (2 ^ 7) eq_refl). unfold is_u8. change (2 ^ 7) with 128 in *. lia.
Qed.

(** ** What is read of a status *)

Definition codes_small (n : Z) : bool :=
  (0 <=? W_STOPCODE n) && (W_STOPCODE n <? 2 ^ 16) && (0 <=? W_EXITCODE n 0) && (W_EXITCODE n 0 <? 2 ^ 16) &&
  (0 <=? Z.lor (W_EXITCODE 0 n) WCOREFLAG) && (Z.lor (W_EXITCODE 0 n) WCOREFLAG <? 2 ^ 16).
Lemma codes_range n : is_u8 n -> codes_small n = true.
Proof. intros Hn. apply all_bytes; [vm_compute; reflexivity|done]. Qed.

Lemma scan_signame n c s :
  is_u8 n -> ends_name c = true -> scan_name (signame n +:+ String c s) = (signame n, String c s).
Proof. intros Hn Hc. apply scan_name_app; [by apply signame_read|done]. Qed.

Lemma read_stopped n tail :
  is_u8 n -> read_part (stopped_prefix +:+ signame n +:+ "}" +:+ tail) = Some (W_STOPCODE n, tail).
Proof.
  intros Hn. unfold read_part. rewrite strip_app. rewrite app_String, app_Empty.
  rewrite scan_signame by done. destruct (signame_read n Hn) as [_ ->]. done.
Qed.

Lemma read_signaled n (core : bool) tail :
  is_u8 n ->
  read_part (signaled_prefix +:+ signame n +:+ (if core then " && WCOREDUMP(s)" else "") +:+ "}" +:+ tail) =
  Some (if core then Z.lor (W_EXITCODE 0 n) WCOREFLAG else W_EXITCODE 0 n, tail).
Proof.
  intros Hn. unfold read_part.
  change (strip stopped_prefix (signaled_prefix +:+ ?x)) with (@None string) at 1.
  rewrite strip_app. destruct core.
  - change (" && WCOREDUMP(s)" +:+ "}" +:+ tail) with (String " " ("&& WCOREDUMP(s)}" +:+ tail)).
    rewrite scan_signame by done. destruct (signame_read n Hn) as [_ ->]. cbn [mbind option_bind].
    change (String " " ("&& WCOREDUMP(s)}" +:+ tail)) with (" && WCOREDUMP(s)}" +:+ tail).
    by rewrite strip_app.
  - rewrite app_Empty, app_String, app_Empty. rewrite scan_signame by done.
    destruct (signame_read n Hn) as [_ ->]. done.
Qed.

Lemma read_exited n tail :
  0 <= n -> read_part (exited_prefix +:+ fmt_d n +:+ "}" +:+ tail) = Some (W_EXITCODE n 0, tail).
Proof.
  intros Hn. unfold read_part, fmt_d. replace (n <? 0) with false by lia.
  change (strip stopped_prefix (exited_prefix +:+ ?x)) with (@None string) at 1.
  change (strip signaled_prefix (exited_prefix +:+ ?x)) with (@None string) at 1.
  rewrite strip_app. cbn [mbind option_bind]. by rewrite scan_dec_fmt_u.
Qed.

(** The braces are read back as the bits they show. *)
Lemma read_part_text s txt rest tail :
  status_part s = Some (txt, rest) ->
  exists m, rest = clear_flag s m /\ 0 <= m < 2 ^ 16 /\
            read_part (txt +:+ tail) = Some (Z.land s m, tail).
Proof.
  assert (Hn1 : is_u8 (WSTOPSIG s)) by apply byte1_range.
  assert (Hn2 := WTERMSIG_u8 s). assert (Hn3 : is_u8 (WEXITSTATUS s)) by apply byte1_range.
  pose proof (codes_range _ Hn1) as C1. pose proof (codes_range _ Hn2) as C2.
  pose proof (codes_range _ Hn3) as C3. unfold codes_small in C1, C2, C3.
  rewrite !andb_true_iff in C1, C2, C3. unfold status_part.
  destruct (WIFSTOPPED s) eqn:H1; [|destruct (WIFSIGNALED s) eqn:H2; [|destruct (WIFEXITED s) eqn:H3]];
    intros [= <- <-]; eexists; (split; [done|]); (split; [lia|]); rewrite !sapp_assoc.
  - rewrite stopped_bits by done. by apply read_stopped.
  - rewrite signaled_bits. by apply read_signaled.
  - rewrite exited_bits. apply read_exited. unfold is_u8 in Hn3. lia.
Qed.

Lemma strip_hex_part s txt rest tail :
  status_part s = Some (txt, rest) -> strip "[0x" (txt +:+ tail) = None.
Proof.
  unfold status_part. destruct (WIFSTOPPED s); [|destruct (WIFSIGNALED s); [|destruct (WIFEXITED s)]];
    intros [= <- <-]; done.
Qed.

(** ** Properties *)

(** C25: a wait status is shown without loss: whatever its 32 bits, the text
    determines it; the signal or the exit code is shown by name or number and
    the bits that are neither follow it in hex. *)
Theorem status_text_lossless s : is_s32 s -> read_status (status_text s) = Some s.
Proof.
  intros Hs. unfold status_text. destruct (status_part s) as [[txt rest]|] eqn:Hp.
  - destruct (read_part_text s txt rest
      (if rest =? 0 then "]" else " | " +:+ fmt_sx (u32 rest) +:+ "]") Hp) as (m & Hrest & Hm & Hr).
    unfold read_status. rewrite (strip_hex_part s txt rest) by done. rewrite Hr. cbn [mbind option_bind].
    rewrite read_rest_text; [|subst rest; apply s32_clear; [done|]; change (2 ^ 16) with 65536 in Hm; lia].
    subst rest. cbn [mbind option_bind]. by rewrite s32_lor_u32, lor_clear, s32_id.
  - assert (Hne : s <> 0) by (intros ->; discriminate Hp).
    unfold fmt_sx. destruct (Z.eqb_spec (u32 s) 0) as [H0|_]; [wrap_lia|].
    unfold read_status. change ("[" +:+ ("0x" +:+ fmt_x (u32 s)) +:+ "]")
      with ("[0x" +:+ (fmt_x (u32 s) +:+ "]")).
    rewrite strip_app, scan_hex_fmt_x by (done || apply u32_range). by rewrite s32_u32, s32_id.
Qed.

Lemma status_text_lossless_witness : read_status (status_text 0x8b) = Some 0x8b.
Proof. apply (status_text_lossless 0x8b). split; [discriminate|reflexivity]. Defined.
