(* ===== verification/Exec.v ===== *)
(** * What execve shows of its vectors (process.c: printargv, printargc) *)

From S2P Require Import Prelude Xlat Quote Tracee Decode Io Args Process.
Local Open Scope string_scope.
Local Open Scope list_scope.
Local Open Scope Z_scope.

(** A part of a buffer is a buffer. *)
Lemma buf_at_part m ws a l1 l2 l3 :
  buf_at m ws a (l1 ++ l2 ++ l3) -> l2 <> [] -> buf_at m ws (a + Z.of_nat (length l1)) l2.
Proof.
  intros (H0 & Hl & H31 & _ & Hr) Hne. rewrite !length_app in *.
  rewrite mem_read_app in Hr. destruct (mem_read m a (length l1)) as [r1|] eqn:H1; [|done].
  rewrite mem_read_app in Hr.
  destruct (mem_read m (a + Z.of_nat (length l1)) (length l2)) as [r2|] eqn:H2; [|done].
  destruct (mem_read m _ (length l3)) as [r3|]; [|done]. simpl in Hr. apply (inj Some) in Hr.
  apply mem_read_length in H1 as Hl1. apply mem_read_length in H2 as Hl2.
  apply app_inj_1 in Hr as [_ Hr]; [|done]. apply app_inj_1 in Hr as [-> _]; [|done].
  assert (Hm : is_Some (m (a + Z.of_nat (length l1)))).
  { destruct l2 as [|b l2]; [done|]. simpl in H2. by destruct (m _). }
  assert (0 < length l2)%nat by (destruct l2; [done|simpl; lia]).
  unfold buf_at. split_and!; done || lia.
Qed.

Section upto_ok.
Context {A B : Type} (body : A -> D (A + B)) (e : denv).

(** A loop that ends within its bound. *)
Lemma Does_upto p n a b t :
  (n <= Pos.to_nat p)%nat -> Does e (times body n a) (inr b) t [] -> Does e (upto body p a) (inr b) t [].
Proof.
  intros Hn Hd s. destruct (Hd s) as (s' & H & Ht). exists s'. split; [|exact Ht].
  rewrite upto_times. replace (Pos.to_nat p) with (n + (Pos.to_nat p - n))%nat by lia.
  rewrite times_add. unfold mbind, D_bind. by rewrite H.
Qed.
End upto_ok.

Section exec.
Context `{K : Kernel} (m : memory) `{!MemOk m} (e : denv).
Context (Hws : 0 < wordsize e).

Lemma Does_umove_word a c :
  buf_at m (wordsize e) a c -> length c = 8%nat -> Does e (umove a 8) (Some (le c)) "" [].
Proof.
  intros Hat Hl. pose proof (Does_umoven m e Hws a c Hat) as H. rewrite Hl in H.
  unfold umove. eapply Does_silent; [exact H|]. apply Does_ret.
Qed.

(** The non-null words [cs] at [a], and a null one behind them. *)
Definition words_at (a : Z) (cs : list (list Z)) : Prop :=
  Forall (fun c => length c = 8%nat /\ le c <> 0) cs /\
  buf_at m (wordsize e) a (concat cs ++ replicate 8 0).

Lemma words_next a c cs :
  words_at a (c :: cs) -> buf_at m (wordsize e) a c /\ words_at (a + 8) cs /\ u64 (a + 8) = a + 8.
Proof.
  intros [Hcs Hat]. inversion Hcs as [|? ? [Hl _] Hcs']; subst. cbn [concat] in Hat.
  rewrite <- app_assoc in Hat.
  assert (Hne : concat cs ++ replicate 8 0 <> []) by (by destruct (concat cs)).
  assert (Hc : buf_at m (wordsize e) a c).
  { replace a with (a + Z.of_nat (length (@nil Z))) by (simpl; lia).
    apply (buf_at_part m _ a [] c _ Hat). by intros ->. }
  assert (Hrest : buf_at m (wordsize e) (a + 8) (concat cs ++ replicate 8 0)).
  { replace (a + 8) with (a + Z.of_nat (length c)) by (rewrite Hl; done).
    apply (buf_at_part m _ a c _ []); [by rewrite app_nil_r|exact Hne]. }
  split_and!; [done|by split|]. destruct Hrest as (H0 & Hlim & _).
  pose proof (addr_lim_le (wordsize e) ltac:(lia)). apply u64_id. unfold is_u64.
  change (Z.of_nat 8) with 8 in *. lia.
Qed.

Lemma words_end a : words_at a [] -> buf_at m (wordsize e) a (replicate 8 0).
Proof. by intros [_ H]. Qed.

Lemma Does_argc a cs n :
  words_at a cs ->
  Does e (times argc_round (S (length cs)) (a, n)) (inr (n + Z.of_nat (length cs))) "" [].
Proof.
  revert a n. induction cs as [|c cs IH]; intros a n Hw.
  - rewrite Z.add_0_r. cbn [times]. eapply Does_silent.
    { cbn [argc_round]. eapply Does_silent; [apply Does_umove_word; [by apply words_end|done]|].
      apply Does_ret. }
    apply Does_ret.
  - destruct (words_next a c cs Hw) as (Hc & Hrest & Hu). destruct Hw as [Hcs _].
    inversion Hcs as [|? ? [Hl Hz] _]; subst. cbn [length].
    change (times argc_round (S (S (length cs))) (a, n)) with
      (r ← argc_round (a, n);
       match r with inl st => times argc_round (S (length cs)) st | inr b => mret (inr b) end : D _).
    eapply Does_silent.
    { cbn [argc_round]. eapply Does_silent; [by apply Does_umove_word|].
      cbn beta iota. rewrite (proj2 (Z.eqb_neq _ _) Hz). apply Does_ret. }
    rewrite Hu. replace (n + Z.of_nat (S (length cs))) with (n + 1 + Z.of_nat (length cs)) by lia.
    by apply IH.
Qed.

Lemma int_rounds_enough n : Z.of_nat n < 2 ^ 31 -> (n <= Pos.to_nat int_rounds)%nat.
Proof.
  intros Hn. rewrite <- Z2Nat.inj_pos. change (Z.pos int_rounds) with 2147483648.
  change (2 ^ 31) with 2147483648 in Hn. lia.
Qed.

Lemma Does_printargc a cs :
  words_at a cs -> Z.of_nat (length cs) < 2 ^ 31 - 1 ->
  Does e (printargc a) tt (vars_text (Z.of_nat (length cs))) [].
Proof.
  intros Hw Hn. unfold printargc. eapply Does_silent.
  { apply (Does_upto argc_round e int_rounds (S (length cs))); [|by apply Does_argc].
    apply int_rounds_enough. lia. }
  apply Does_tp.
Qed.

(** With a string limit of 0 or 1, as under -s 0, no string of an abbreviated
    vector is shown. *)
Lemma Does_argv_none a :
  d_abbrev e = true -> 0 <= max_strlen e < 2 ->
  Does e (times argv_round 1 (a, 0)) (inr tt) "..." [].
Proof.
  intros Ha Hm. assert (Hr : Does e (argv_round (a, 0)) (inr tt) ("..." +:+ "") []).
  { cbn [argv_round]. eapply Does_silent; [apply Does_ask|].
    assert (max_strlen e / 2 <= 0) by (apply Z.lt_succ_r, Z.div_lt_upper_bound; lia).
    replace (0 <? max_strlen e / 2) with false by lia.
    rewrite Ha. cbn [negb andb]. apply Does_tp_bind, Does_ret. }
  cbn [times]. eapply Does_eq; [eapply Does_bind; [exact Hr|apply Does_ret]|done|done].
Qed.

Lemma Does_print_strings_none a :
  d_abbrev e = true -> 0 <= max_strlen e < 2 -> Does e (print_strings a) tt ", [...]" [].
Proof.
  intros Ha Hm. unfold print_strings. change ", [...]" with (", [" +:+ ("..." +:+ "]")).
  apply Does_tp_bind. assert (Hv : Does e (printargv a) tt ("..." +:+ "") ([] ++ [])).
  { unfold printargv. eapply Does_bind.
    - apply (Does_upto argv_round e int_rounds 1); [by apply int_rounds_enough|by apply Does_argv_none].
    - apply Does_ret. }
  eapply Does_eq; [eapply Does_bind; [exact Hv|apply Does_tp]|done|done].
Qed.

(** ** What execve shows on entry *)

Context (Hjunk : forall i, is_u8 (junk e i)).

Lemma execve_shows path a0 a1 a2 cs rest s :
  u_arg e = a0 :: a1 :: a2 :: rest ->
  d_entering e = true -> d_verbose e = true -> d_abbrev e = true -> 0 <= max_strlen e < 2 ->
  buf_at m (wordsize e) a0 path -> Z.of_nat (length path) = MAXPATHLEN + 1 -> 0 ∈ path ->
  words_at a2 cs -> Z.of_nat (length cs) < 2 ^ 31 - 1 ->
  exists lit s', sys_execve e s = Some (0, s') /\
    p_out (d_p s') = p_out (d_p s) +:+ lit +:+ ", [...]" +:+ vars_text (Z.of_nat (length cs)) /\
    d_dump s' = d_dump s /\ unquote lit = Some (until 0 (take (Z.to_nat MAXPATHLEN) path)).
Proof.
  intros Hargs He Hv Ha Hm Hp Hl H0 Hw Hn.
  destruct (printpathn_ok m e Hws Hjunk a0 MAXPATHLEN path s Hp Hl ltac:(done))
    as (lit & dots & s1 & Hrun & Ho & Hd & Hu & _ & Hdots & _).
  rewrite (Hdots H0), sapp_nil_r in Ho.
  destruct (Does_print_strings_none a1 Ha Hm s1) as (s2 & H2 & Ho2 & Hd2 & _).
  destruct (Does_printargc a2 cs Hw Hn s2) as (s3 & H3 & Ho3 & Hd3 & _).
  exists lit, s3. split_and!.
  - unfold sys_execve, printpath, mbind, D_bind, ask, arg. rewrite He, Hargs. cbn [lookup list_lookup].
    cbn [default from_option id]. rewrite Hrun, Hv, Ha. cbn [negb]. by rewrite H2, H3.
  - by rewrite Ho3, Ho2, Ho, !sapp_assoc.
  - by rewrite Hd3, Hd2, !app_nil_r.
  - done.
Qed.
End exec.

(** ** Properties *)

(** C20: what ALICE's -s 0 leaves of an execve.  For a 64-bit tracee, with
    verbose and abbreviated decoding (as by default), a string limit of 0 or 1
    and a path and an environment that can be read, on its entry the line shows
    the path of the program up to its NUL, an ellipsis for the arguments whatever
    they are, and the exact number of variables in the environment (the non-null
    words before the null one).  For 32-bit tracees the number is wrong
    (execve_miscounts_32bit). *)
Theorem execve_counts_environment `{K : Kernel} m `{!MemOk m} e path a0 a1 a2 env rest s :
  wordsize e = 8 -> (forall i, is_u8 (junk e i)) ->
  u_arg e = a0 :: a1 :: a2 :: rest ->
  d_entering e = true -> d_verbose e = true -> d_abbrev e = true -> 0 <= max_strlen e < 2 ->
  buf_at m 8 a0 path -> Z.of_nat (length path) = MAXPATHLEN + 1 -> 0 ∈ path ->
  Forall (fun p => is_u64 p /\ p <> 0) env -> Z.of_nat (length env) < 2 ^ 31 - 1 ->
  buf_at m 8 a2 (concat (bytes_le 8 <$> env) ++ replicate 8 0) ->
  exists lit s', sys_execve e s = Some (0, s') /\
    p_out (d_p s') = p_out (d_p s) +:+ lit +:+ ", [...]" +:+ vars_text (Z.of_nat (length env)) /\
    d_dump s' = d_dump s /\ unquote lit = Some (until 0 (take (Z.to_nat MAXPATHLEN) path)).
Proof.
  intros Hws Hj Hargs He Hv Ha Hm Hp Hl H0 Henv Hn Hat. rewrite <- Hws in Hp, Hat.
  rewrite <- (length_fmap (bytes_le 8) env) in *.
  eapply execve_shows; try done; [by rewrite Hws|]. split; [|done].
  apply Forall_fmap. eapply Forall_impl; [exact Henv|]. intros p [Hu Hne]. cbn.
  split; [apply length_bytes_le|]. by rewrite le_bytes_le.
Qed.

(** The count is wrong for 32-bit processes: printargc reads the array of
    4-byte pointers as 8-byte ones, so that an environment of [2 * n] variables
    (followed by two null words) is shown as [n]. *)
Theorem execve_miscounts_32bit `{K : Kernel} m `{!MemOk m} e path a0 a1 a2 env rest s :
  wordsize e = 4 -> (forall i, is_u8 (junk e i)) ->
  u_arg e = a0 :: a1 :: a2 :: rest ->
  d_entering e = true -> d_verbose e = true -> d_abbrev e = true -> 0 <= max_strlen e < 2 ->
  buf_at m 4 a0 path -> Z.of_nat (length path) = MAXPATHLEN + 1 -> 0 ∈ path ->
  Forall (fun '(p, q) => is_u32 p /\ p <> 0 /\ is_u32 q /\ q <> 0) env ->
  Z.of_nat (length env) < 2 ^ 31 - 1 ->
  buf_at m 4 a2 (concat ((fun '(p, q) => bytes_le 4 p ++ bytes_le 4 q) <$> env) ++ replicate 8 0) ->
  exists lit s', sys_execve e s = Some (0, s') /\
    p_out (d_p s') = p_out (d_p s) +:+ lit +:+ ", [...]" +:+ vars_text (Z.of_nat (length env)) /\
    d_dump s' = d_dump s /\ unquote lit = Some (until 0 (take (Z.to_nat MAXPATHLEN) path)).
Proof.
  intros Hws Hj Hargs He Hv Ha Hm Hp Hl H0 Henv Hn Hat. rewrite <- Hws in Hp, Hat.
  set (f := fun '(p, q) => bytes_le 4 p ++ bytes_le 4 q) in *. rewrite <- (length_fmap f env) in *.
  eapply execve_shows; try done; [by rewrite Hws|]. split; [|done].
  apply Forall_fmap. eapply Forall_impl; [exact Henv|]. intros [p q] (Hp0 & Hpn & Hq0 & _). cbn.
  split; [by rewrite length_app, !length_bytes_le|]. rewrite le_app, !le_bytes_le by done.
  rewrite length_bytes_le. unfold is_u32 in *. lia.
Qed.

(** ** Examples *)

(** "/bin/ls" at 4096; two vectors of two and of four pointers at 12288 and
    13000. *)
Definition exec_env : list Z := concat (bytes_le 8 <$> [16384; 20480]) ++ replicate 8 0.
Definition exec_env32 : list Z := concat (bytes_le 4 <$> [16384; 20480; 24576; 28672]) ++ replicate 8 0.
Definition exec_byte (i : Z) : Z :=
  if i <? 8192 then default 0 (bytes_of_string "/bin/ls" !! Z.to_nat i)
  else if i <? 8904 then default 0 (exec_env !! Z.to_nat (i - 8192))
  else default 0 (exec_env32 !! Z.to_nat (i - 8904)).
Definition exec_mem : memory := mapped_mem 12288 4096 exec_byte.
Definition exec_kernel : Kernel := mem_kernel true exec_mem.
#[global] Instance exec_mem_ok : @MemOk exec_kernel exec_mem.
Proof. apply mem_kernel_ok; [apply mapped_mem_u8|by apply mapped_mem_words]. Qed.

Definition exec_path : list Z := (fun i => u8 (exec_byte (Z.of_nat i))) <$> seq 0 4097.
Lemma exec_path_at ws : 0 < 4096 < addr_lim ws -> 8193 <= addr_lim ws -> buf_at exec_mem ws 4096 exec_path.
Proof.
  intros H0 Hl. assert (Hn : length exec_path = 4097%nat) by reflexivity.
  unfold buf_at. rewrite Hn. split_and!; [lia..|by eexists|].
  unfold exec_mem. rewrite mapped_mem_read by lia. reflexivity.
Qed.

Definition exec_denv (ws a2 : Z) : denv :=
  mk_denv 7 ws 0 [4096; 0; a2] true 0 0 true true 0 0 false (fun _ => None) (fun _ => 0) 3.
Definition exec_state : dstate := mk_dstate (demo_state false) [] false None false None.

Lemma execve_counts_environment_witness :
  exists lit s', @sys_execve exec_kernel (exec_denv 8 12288) exec_state = Some (0, s') /\
    p_out (d_p s') = "" +:+ lit +:+ ", [...]" +:+ vars_text 2 /\
    d_dump s' = [] /\ unquote lit = Some (until 0 (take (Z.to_nat MAXPATHLEN) exec_path)).
Proof.
  refine (@execve_counts_environment exec_kernel exec_mem exec_mem_ok (exec_denv 8 12288) exec_path
    4096 0 12288 [16384; 20480] [] exec_state eq_refl _ eq_refl eq_refl eq_refl eq_refl _ _ _ _ _ _ _).
  - intros i. split; [discriminate|reflexivity].
  - split; [discriminate|reflexivity].
  - apply exec_path_at; [split; reflexivity|discriminate].
  - reflexivity.
  - apply (bool_decide_unpack (0 ∈ exec_path)). vm_compute. exact I.
  - repeat constructor; discriminate.
  - reflexivity.
  - split_and!; try (vm_compute; congruence). eexists. vm_compute. reflexivity.
Defined.

Lemma execve_miscounts_32bit_witness :
  exists lit s', @sys_execve exec_kernel (exec_denv 4 13000) exec_state = Some (0, s') /\
    p_out (d_p s') = "" +:+ lit +:+ ", [...]" +:+ vars_text 2 /\
    d_dump s' = [] /\ unquote lit = Some (until 0 (take (Z.to_nat MAXPATHLEN) exec_path)).
Proof.
  refine (@execve_miscounts_32bit exec_kernel exec_mem exec_mem_ok (exec_denv 4 13000) exec_path
    4096 0 13000 [(16384, 20480); (24576, 28672)] [] exec_state eq_refl _ eq_refl eq_refl eq_refl
    eq_refl _ _ _ _ _ _ _).
  - intros i. split; [discriminate|reflexivity].
  - split; [discriminate|reflexivity].
  - apply exec_path_at; [split; reflexivity|discriminate].
  - reflexivity.
  - apply (bool_decide_unpack (0 ∈ exec_path)). vm_compute. exact I.
  - repeat constructor; discriminate.
  - reflexivity.
  - split_and!; try (vm_compute; congruence). eexists. vm_compute. reflexivity.
Defined.
