(* ===== verification/Inet.v ===== *)
(** * Texts of internet addresses (inet_ntoa and inet_ntop of the C library, as
      net.c and sock.c use them) *)

From S2P Require Import Prelude.
Local Open Scope string_scope.
Local Open Scope list_scope.
Local Open Scope Z_scope.

(** Big-endian numbers, the byte order of the network. *)
Definition be (l : list Z) : Z := fold_left (fun acc b => 256 * acc + b) l 0.

Definition byte_at (i : nat) (l : list Z) : Z := default 0 (l !! i).

(** inet_ntoa of the four bytes from [off] on. *)
Definition inet_ntoa (off : nat) (l : list Z) : string :=
  fmt_u (byte_at off l) +:+ "." +:+ fmt_u (byte_at (off + 1) l) +:+ "." +:+
  fmt_u (byte_at (off + 2) l) +:+ "." +:+ fmt_u (byte_at (off + 3) l).

(** ** inet_ntop(AF_INET6, ...) *)

(** The eight 16-bit words of an address. *)
Definition words6 (l : list Z) : list Z :=
  (fun i => 256 * byte_at (2 * i) l + byte_at (2 * i + 1) l) <$> seq 0 8.

(** The longest run of zero words, the first of several: its start and length.
    [cur] is the run that ends before position [i]. *)
Definition longer (cur best : option (Z * Z)) : option (Z * Z) :=
  match cur, best with
  | Some (_, n), Some (_, m) => if n >? m then cur else best
  | Some _, None => cur
  | None, _ => best
  end.
Fixpoint zero_run (i : Z) (ws : list Z) (cur best : option (Z * Z)) : option (Z * Z) :=
  match ws with
  | [] => longer cur best
  | w :: ws =>
      if w =? 0 then
        zero_run (i + 1) ws (match cur with Some (b, n) => Some (b, n + 1) | None => Some (i, 1) end) best
      else zero_run (i + 1) ws None (longer cur best)
  end.
(** A single zero is not shortened. *)
Definition best_run (ws : list Z) : option (Z * Z) :=
  match zero_run 0 ws None None with
  | Some (b, n) => if n <? 2 then None else Some (b, n)
  | None => None
  end.

Definition in_run (i : Z) (run : option (Z * Z)) : bool :=
  match run with Some (b, n) => (b <=? i) && (i <? b + n) | None => false end.
Definition starts_run (i : Z) (run : option (Z * Z)) : bool :=
  match run with Some (b, _) => b =? i | None => false end.

(** The last two words of ::a.b.c.d and ::ffff:a.b.c.d *)
Definition embeds_ipv4 (ws : list Z) (run : option (Z * Z)) : bool :=
  match run with
  | Some (b, n) => (b =? 0) && ((n =? 6) || ((n =? 5) && (byte_at 5 ws =? 0xffff)))
  | None => false
  end.

(** The loop over the words from [i] on. *)
Fixpoint ntop6_words (i : Z) (rest : list Z) (ws l : list Z) (run : option (Z * Z)) : string :=
  match rest with
  | [] => match run with Some (b, n) => if b + n =? 8 then ":" else "" | None => "" end
  | w :: rest =>
      if in_run i run then
        (if starts_run i run then ":" else "") +:+ ntop6_words (i + 1) rest ws l run
      else
        (if i =? 0 then "" else ":") +:+
        (if (i =? 6) && embeds_ipv4 ws run then inet_ntoa 12 l
         else fmt_x w +:+ ntop6_words (i + 1) rest ws l run)
  end.

Definition inet_ntop6 (l : list Z) : string :=
  let ws := words6 l in ntop6_words 0 ws ws l (best_run ws).

(** Some addresses of the literature. *)
Example ntop6_doc :
  inet_ntop6 [0x20; 1; 0xd; 0xb8; 0; 0; 0; 0; 0; 0; 0; 0; 0; 0; 0; 1] = "2001:db8::1".
Proof. reflexivity. Qed.
Example ntop6_loopback : inet_ntop6 [0; 0; 0; 0; 0; 0; 0; 0; 0; 0; 0; 0; 0; 0; 0; 1] = "::1".
Proof. reflexivity. Qed.
Example ntop6_any : inet_ntop6 (replicate 16 0) = "::".
Proof. reflexivity. Qed.
Example ntop6_mapped :
  inet_ntop6 [0; 0; 0; 0; 0; 0; 0; 0; 0; 0; 0xff; 0xff; 10; 0; 0; 1] = "::ffff:10.0.0.1".
Proof. reflexivity. Qed.
Example ntop6_one_zero :
  inet_ntop6 [0; 1; 0; 0; 0; 2; 0; 3; 0; 4; 0; 5; 0; 6; 0; 7] = "1:0:2:3:4:5:6:7".
Proof. reflexivity. Qed.

(** ** Reading an IPv4 address back *)

(** [n] numbers separated by dots. *)
Fixpoint read_dotted (n : nat) (s : string) : option (list Z) :=
  match n with
  | O => if String.eqb s "" then Some [] else None
  | S n =>
      let '(v, s) := scan_dec 0 s in
      match n, s with
      | O, EmptyString => Some [v]
      | S _, String c s => if Ascii.eqb c "." then cons v <$> read_dotted n s else None
      | _, _ => None
      end
  end.

Lemma read_dotted_inet_ntoa off l :
  Forall is_u8 l -> (off + 4 <= length l)%nat ->
  read_dotted 4 (inet_ntoa off l) = Some (take 4 (drop off l)).
Proof.
  intros Hl Hn. assert (Hb : forall i, 0 <= byte_at i l).
  { intros i. unfold byte_at. destruct (l !! i) as [b|] eqn:E; [|done].
    eapply Forall_lookup_1 in Hl; [|exact E]. simpl. unfold is_u8 in Hl. lia. }
  unfold inet_ntoa. cbn [read_dotted]. rewrite scan_dec_fmt_u by done.
  rewrite !app_String, !app_Empty.
  cbn [Ascii.eqb Bool.eqb]. rewrite scan_dec_fmt_u by done.
  cbn [Ascii.eqb Bool.eqb]. rewrite scan_dec_fmt_u by done.
  cbn [Ascii.eqb Bool.eqb].
  replace (fmt_u (byte_at (off + 3) l)) with (fmt_u (byte_at (off + 3) l) +:+ "") by apply sapp_nil_r.
  rewrite scan_dec_fmt_u by done. cbn [fmap option_fmap option_map].
  assert (Hk : forall k, byte_at (off + k) l = byte_at k (drop off l))
    by (intros k; unfold byte_at; by rewrite lookup_drop).
  replace (byte_at off l) with (byte_at (off + 0) l) by (f_equal; lia). rewrite !Hk.
  assert (Hd : (4 <= length (drop off l))%nat) by (rewrite length_drop; lia).
  destruct (drop off l) as [|a [|b [|c [|d r]]]]; simpl in Hd; try lia. done.
Qed.
