(* ===== verification/Net.v ===== *)
(** * Decoders of the socket calls (net.c)

    Addresses are read into a zeroed buffer of 128 bytes; ancillary data into a
    block of the length the tracee states.  [ifname] is if_indextoname(3),
    [malloc_ok n] says that malloc(n) returns memory.  A read past one of the
    tracer's own buffers is an abort. *)

From S2P Require Import Prelude Xlat Quote Tracee Decode Io Args Time File Inet.
Local Open Scope string_scope.
Local Open Scope list_scope.
Local Open Scope Z_scope.

Definition domains : list xlat :=
  [mk_xlat 0 "PF_UNSPEC"; mk_xlat 1 "PF_LOCAL"; mk_xlat 1 "PF_UNIX"; mk_xlat 2 "PF_INET";
   mk_xlat 3 "PF_AX25"; mk_xlat 4 "PF_IPX"; mk_xlat 5 "PF_APPLETALK"; mk_xlat 6 "PF_NETROM";
   mk_xlat 7 "PF_BRIDGE"; mk_xlat 8 "PF_ATMPVC"; mk_xlat 9 "PF_X25"; mk_xlat 10 "PF_INET6";
   mk_xlat 11 "PF_ROSE"; mk_xlat 12 "PF_DECnet"; mk_xlat 13 "PF_NETBEUI";
   mk_xlat 14 "PF_SECURITY"; mk_xlat 15 "PF_KEY"; mk_xlat 16 "PF_NETLINK";
   mk_xlat 16 "PF_ROUTE"; mk_xlat 17 "PF_PACKET"; mk_xlat 18 "PF_ASH"; mk_xlat 19 "PF_ECONET";
   mk_xlat 20 "PF_ATMSVC"; mk_xlat 21 "PF_RDS"; mk_xlat 22 "PF_SNA"; mk_xlat 23 "PF_IRDA";
   mk_xlat 24 "PF_PPPOX"; mk_xlat 25 "PF_WANPIPE"; mk_xlat 26 "PF_LLC"; mk_xlat 29 "PF_CAN";
   mk_xlat 30 "PF_TIPC"; mk_xlat 31 "PF_BLUETOOTH"; mk_xlat 32 "PF_IUCV";
   mk_xlat 33 "PF_RXRPC"; mk_xlat 34 "PF_ISDN"; mk_xlat 35 "PF_PHONET";
   mk_xlat 36 "PF_IEEE802154"; mk_xlat 37 "PF_CAIF"; mk_xlat 38 "PF_ALG"; mk_xlat 39 "PF_NFC";
   mk_xlat 40 "PF_VSOCK"].

Definition addrfams : list xlat :=
  [mk_xlat 0 "AF_UNSPEC"; mk_xlat 1 "AF_LOCAL"; mk_xlat 1 "AF_UNIX"; mk_xlat 2 "AF_INET";
   mk_xlat 3 "AF_AX25"; mk_xlat 4 "AF_IPX"; mk_xlat 5 "AF_APPLETALK"; mk_xlat 6 "AF_NETROM";
   mk_xlat 7 "AF_BRIDGE"; mk_xlat 8 "AF_ATMPVC"; mk_xlat 9 "AF_X25"; mk_xlat 10 "AF_INET6";
   mk_xlat 11 "AF_ROSE"; mk_xlat 12 "AF_DECnet"; mk_xlat 13 "AF_NETBEUI";
   mk_xlat 14 "AF_SECURITY"; mk_xlat 15 "AF_KEY"; mk_xlat 16 "AF_NETLINK";
   mk_xlat 16 "AF_ROUTE"; mk_xlat 17 "AF_PACKET"; mk_xlat 18 "AF_ASH"; mk_xlat 19 "AF_ECONET";
   mk_xlat 20 "AF_ATMSVC"; mk_xlat 21 "AF_RDS"; mk_xlat 22 "AF_SNA"; mk_xlat 23 "AF_IRDA";
   mk_xlat 24 "AF_PPPOX"; mk_xlat 25 "AF_WANPIPE"; mk_xlat 26 "AF_LLC"; mk_xlat 29 "AF_CAN";
   mk_xlat 30 "AF_TIPC"; mk_xlat 31 "AF_BLUETOOTH"; mk_xlat 32 "AF_IUCV";
   mk_xlat 33 "AF_RXRPC"; mk_xlat 34 "AF_ISDN"; mk_xlat 35 "AF_PHONET";
   mk_xlat 36 "AF_IEEE802154"; mk_xlat 37 "AF_CAIF"; mk_xlat 38 "AF_ALG"; mk_xlat 39 "AF_NFC";
   mk_xlat 40 "AF_VSOCK"].

Definition socktypes : list xlat :=
  [mk_xlat 1 "SOCK_STREAM"; mk_xlat 2 "SOCK_DGRAM"; mk_xlat 3 "SOCK_RAW"; mk_xlat 4 "SOCK_RDM";
   mk_xlat 5 "SOCK_SEQPACKET"; mk_xlat 6 "SOCK_DCCP"; mk_xlat 10 "SOCK_PACKET"].

Definition sock_type_flags : list xlat :=
  [mk_xlat 0x80000 "SOCK_CLOEXEC"; mk_xlat 0x800 "SOCK_NONBLOCK"].

Definition socketlayers : list xlat :=
  [mk_xlat 0 "SOL_IP"; mk_xlat 6 "SOL_TCP"; mk_xlat 17 "SOL_UDP"; mk_xlat 41 "SOL_IPV6";
   mk_xlat 58 "SOL_ICMPV6"; mk_xlat 0xff "SOL_RAW"; mk_xlat 0x100 "SOL_IPX";
   mk_xlat 0x105 "SOL_DECNET"; mk_xlat 0x106 "SOL_X25"; mk_xlat 0x107 "SOL_PACKET";
   mk_xlat 0x108 "SOL_ATM"; mk_xlat 0x109 "SOL_AAL"; mk_xlat 0x10a "SOL_IRDA";
   mk_xlat 0x10b "SOL_NETBEUI"; mk_xlat 0x10c "SOL_LLC"; mk_xlat 0x10d "SOL_DCCP";
   mk_xlat 0x10e "SOL_NETLINK"; mk_xlat 0x10f "SOL_TIPC"; mk_xlat 0x110 "SOL_RXRPC";
   mk_xlat 0x111 "SOL_PPPOL2TP"; mk_xlat 0x112 "SOL_BLUETOOTH"; mk_xlat 0x113 "SOL_PNPIPE";
   mk_xlat 0x114 "SOL_RDS"; mk_xlat 0x116 "SOL_CAIF"; mk_xlat 1 "SOL_SOCKET"].

Definition protocols : list xlat :=
  [mk_xlat 0 "IPPROTO_IP"; mk_xlat 1 "IPPROTO_ICMP"; mk_xlat 6 "IPPROTO_TCP";
   mk_xlat 17 "IPPROTO_UDP"; mk_xlat 2 "IPPROTO_IGMP"; mk_xlat 4 "IPPROTO_IPIP";
   mk_xlat 8 "IPPROTO_EGP"; mk_xlat 12 "IPPROTO_PUP"; mk_xlat 22 "IPPROTO_IDP";
   mk_xlat 29 "IPPROTO_TP"; mk_xlat 33 "IPPROTO_DCCP"; mk_xlat 41 "IPPROTO_IPV6";
   mk_xlat 43 "IPPROTO_ROUTING"; mk_xlat 44 "IPPROTO_FRAGMENT"; mk_xlat 46 "IPPROTO_RSVP";
   mk_xlat 47 "IPPROTO_GRE"; mk_xlat 50 "IPPROTO_ESP"; mk_xlat 51 "IPPROTO_AH";
   mk_xlat 58 "IPPROTO_ICMPV6"; mk_xlat 59 "IPPROTO_NONE"; mk_xlat 60 "IPPROTO_DSTOPTS";
   mk_xlat 0x5c "IPPROTO_MTP"; mk_xlat 0x62 "IPPROTO_ENCAP"; mk_xlat 0x67 "IPPROTO_PIM";
   mk_xlat 0x6c "IPPROTO_COMP"; mk_xlat 0x84 "IPPROTO_SCTP"; mk_xlat 0x88 "IPPROTO_UDPLITE";
   mk_xlat 0xff "IPPROTO_RAW"; mk_xlat 0x107 "IPPROTO_MAX"].

Definition msg_flags : list xlat :=
  [mk_xlat 1 "MSG_OOB"; mk_xlat 2 "MSG_PEEK"; mk_xlat 4 "MSG_DONTROUTE";
   mk_xlat 8 "MSG_CTRUNC"; mk_xlat 32 "MSG_TRUNC"; mk_xlat 64 "MSG_DONTWAIT";
   mk_xlat 0x80 "MSG_EOR"; mk_xlat 0x100 "MSG_WAITALL"; mk_xlat 0x200 "MSG_FIN";
   mk_xlat 0x400 "MSG_SYN"; mk_xlat 0x800 "MSG_CONFIRM"; mk_xlat 0x1000 "MSG_RST";
   mk_xlat 0x2000 "MSG_ERRQUEUE"; mk_xlat 0x4000 "MSG_NOSIGNAL"; mk_xlat 0x8000 "MSG_MORE";
   mk_xlat 0x10000 "MSG_WAITFORONE"; mk_xlat 0x20000000 "MSG_FASTOPEN";
   mk_xlat 0x40000000 "MSG_CMSG_CLOEXEC"].

Definition sockoptions : list xlat :=
  [mk_xlat 30 "SO_ACCEPTCONN"; mk_xlat 26 "SO_ATTACH_FILTER"; mk_xlat 25 "SO_BINDTODEVICE";
   mk_xlat 6 "SO_BROADCAST"; mk_xlat 14 "SO_BSDCOMPAT"; mk_xlat 1 "SO_DEBUG";
   mk_xlat 27 "SO_DETACH_FILTER"; mk_xlat 5 "SO_DONTROUTE"; mk_xlat 4 "SO_ERROR";
   mk_xlat 9 "SO_KEEPALIVE"; mk_xlat 13 "SO_LINGER"; mk_xlat 11 "SO_NO_CHECK";
   mk_xlat 10 "SO_OOBINLINE"; mk_xlat 16 "SO_PASSCRED"; mk_xlat 17 "SO_PEERCRED";
   mk_xlat 28 "SO_PEERNAME"; mk_xlat 31 "SO_PEERSEC"; mk_xlat 12 "SO_PRIORITY";
   mk_xlat 8 "SO_RCVBUF"; mk_xlat 18 "SO_RCVLOWAT"; mk_xlat 20 "SO_RCVTIMEO";
   mk_xlat 2 "SO_REUSEADDR"; mk_xlat 15 "SO_REUSEPORT";
   mk_xlat 22 "SO_SECURITY_AUTHENTICATION"; mk_xlat 24 "SO_SECURITY_ENCRYPTION_NETWORK";
   mk_xlat 23 "SO_SECURITY_ENCRYPTION_TRANSPORT"; mk_xlat 7 "SO_SNDBUF";
   mk_xlat 19 "SO_SNDLOWAT"; mk_xlat 21 "SO_SNDTIMEO"; mk_xlat 29 "SO_TIMESTAMP";
   mk_xlat 3 "SO_TYPE"].

Definition sockipoptions : list xlat :=
  [mk_xlat 1 "IP_TOS"; mk_xlat 2 "IP_TTL"; mk_xlat 3 "IP_HDRINCL"; mk_xlat 4 "IP_OPTIONS";
   mk_xlat 5 "IP_ROUTER_ALERT"; mk_xlat 6 "IP_RECVOPTS"; mk_xlat 7 "IP_RECVRETOPTS";
   mk_xlat 7 "IP_RETOPTS"; mk_xlat 8 "IP_PKTINFO"; mk_xlat 9 "IP_PKTOPTIONS";
   mk_xlat 10 "IP_MTU_DISCOVER"; mk_xlat 11 "IP_RECVERR"; mk_xlat 12 "IP_RECVTTL";
   mk_xlat 13 "IP_RECVTOS"; mk_xlat 14 "IP_MTU"; mk_xlat 32 "IP_MULTICAST_IF";
   mk_xlat 33 "IP_MULTICAST_TTL"; mk_xlat 34 "IP_MULTICAST_LOOP";
   mk_xlat 35 "IP_ADD_MEMBERSHIP"; mk_xlat 36 "IP_DROP_MEMBERSHIP"; mk_xlat 41 "IP_MSFILTER";
   mk_xlat 48 "MCAST_MSFILTER"; mk_xlat 15 "IP_FREEBIND"].

Definition sockipv6options : list xlat :=
  [mk_xlat 1 "IPV6_ADDRFORM"; mk_xlat 24 "IPV6_MTU"; mk_xlat 26 "IPV6_V6ONLY";
   mk_xlat 50 "IPV6_PKTINFO"; mk_xlat 52 "IPV6_HOPLIMIT"; mk_xlat 57 "IPV6_RTHDR";
   mk_xlat 54 "IPV6_HOPOPTS"; mk_xlat 59 "IPV6_DSTOPTS"; mk_xlat 11 "IPV6_FLOWINFO";
   mk_xlat 16 "IPV6_UNICAST_HOPS"; mk_xlat 18 "IPV6_MULTICAST_HOPS";
   mk_xlat 19 "IPV6_MULTICAST_LOOP"; mk_xlat 17 "IPV6_MULTICAST_IF";
   mk_xlat 23 "IPV6_MTU_DISCOVER"; mk_xlat 25 "IPV6_RECVERR"; mk_xlat 33 "IPV6_FLOWINFO_SEND";
   mk_xlat 20 "IPV6_ADD_MEMBERSHIP"; mk_xlat 21 "IPV6_DROP_MEMBERSHIP";
   mk_xlat 22 "IPV6_ROUTER_ALERT"].

Definition sockipxoptions : list xlat :=
  [mk_xlat 1 "IPX_TYPE"].

Definition sockrawoptions : list xlat :=
  [mk_xlat 1 "ICMP_FILTER"].

Definition sockpacketoptions : list xlat :=
  [mk_xlat 1 "PACKET_ADD_MEMBERSHIP"; mk_xlat 2 "PACKET_DROP_MEMBERSHIP";
   mk_xlat 3 "PACKET_RECV_OUTPUT"; mk_xlat 5 "PACKET_RX_RING"; mk_xlat 6 "PACKET_STATISTICS";
   mk_xlat 7 "PACKET_COPY_THRESH"; mk_xlat 8 "PACKET_AUXDATA"; mk_xlat 9 "PACKET_ORIGDEV";
   mk_xlat 10 "PACKET_VERSION"; mk_xlat 11 "PACKET_HDRLEN"; mk_xlat 12 "PACKET_RESERVE";
   mk_xlat 13 "PACKET_TX_RING"; mk_xlat 14 "PACKET_LOSS"].

Definition socktcpoptions : list xlat :=
  [mk_xlat 1 "TCP_NODELAY"; mk_xlat 2 "TCP_MAXSEG"; mk_xlat 3 "TCP_CORK";
   mk_xlat 4 "TCP_KEEPIDLE"; mk_xlat 5 "TCP_KEEPINTVL"; mk_xlat 6 "TCP_KEEPCNT";
   mk_xlat 7 "TCP_SYNCNT"; mk_xlat 8 "TCP_LINGER2"; mk_xlat 9 "TCP_DEFER_ACCEPT";
   mk_xlat 10 "TCP_WINDOW_CLAMP"; mk_xlat 11 "TCP_INFO"; mk_xlat 12 "TCP_QUICKACK";
   mk_xlat 13 "TCP_CONGESTION"; mk_xlat 14 "TCP_MD5SIG"; mk_xlat 15 "TCP_COOKIE_TRANSACTIONS";
   mk_xlat 16 "TCP_THIN_LINEAR_TIMEOUTS"; mk_xlat 17 "TCP_THIN_DUPACK";
   mk_xlat 18 "TCP_USER_TIMEOUT"; mk_xlat 19 "TCP_REPAIR"; mk_xlat 20 "TCP_REPAIR_QUEUE";
   mk_xlat 21 "TCP_QUEUE_SEQ"; mk_xlat 22 "TCP_REPAIR_OPTIONS"; mk_xlat 23 "TCP_FASTOPEN";
   mk_xlat 24 "TCP_TIMESTAMP"].

Definition icmpfilterflags : list xlat :=
  [mk_xlat 1 "ICMP_ECHOREPLY"; mk_xlat 8 "ICMP_DEST_UNREACH"; mk_xlat 16 "ICMP_SOURCE_QUENCH";
   mk_xlat 32 "ICMP_REDIRECT"; mk_xlat 0x100 "ICMP_ECHO"; mk_xlat 0x800 "ICMP_TIME_EXCEEDED";
   mk_xlat 0x1000 "ICMP_PARAMETERPROB"; mk_xlat 0x2000 "ICMP_TIMESTAMP";
   mk_xlat 0x4000 "ICMP_TIMESTAMPREPLY"; mk_xlat 0x8000 "ICMP_INFO_REQUEST";
   mk_xlat 0x10000 "ICMP_INFO_REPLY"; mk_xlat 0x20000 "ICMP_ADDRESS";
   mk_xlat 0x40000 "ICMP_ADDRESSREPLY"].

Definition af_packet_types : list xlat :=
  [mk_xlat 0 "PACKET_HOST"; mk_xlat 1 "PACKET_BROADCAST"; mk_xlat 2 "PACKET_MULTICAST";
   mk_xlat 3 "PACKET_OTHERHOST"; mk_xlat 4 "PACKET_OUTGOING"; mk_xlat 5 "PACKET_LOOPBACK";
   mk_xlat 6 "PACKET_FASTROUTE"].

Definition scmvals : list xlat :=
  [mk_xlat 1 "SCM_RIGHTS"; mk_xlat 2 "SCM_CREDENTIALS"].

Definition shutdown_modes : list xlat :=
  [mk_xlat 0 "SHUT_RD"; mk_xlat 1 "SHUT_WR"; mk_xlat 2 "SHUT_RDWR"].

Definition AF_UNIX : Z := 1.
Definition AF_INET : Z := 2.
Definition AF_IPX : Z := 4.
Definition AF_INET6 : Z := 10.
Definition AF_NETLINK : Z := 16.
Definition AF_PACKET : Z := 17.
Definition SOL_IP : Z := 0.
Definition SOL_SOCKET : Z := 1.
Definition SOL_TCP : Z := 6.
Definition SOL_IPV6 : Z := 41.
Definition SOL_RAW : Z := 255.
Definition SOL_IPX : Z := 256.
Definition SOL_PACKET : Z := 263.
Definition SO_LINGER : Z := 13.
Definition SO_PEERCRED : Z := 17.
Definition PACKET_RX_RING : Z := 5.
Definition PACKET_STATISTICS : Z := 6.
Definition PACKET_TX_RING : Z := 13.
Definition ICMP_FILTER : Z := 1.
Definition SCM_RIGHTS : Z := 1.
Definition SCM_CREDENTIALS : Z := 2.

Section net.
Context `{K : Kernel} (ifname : Z -> option string) (malloc_ok : Z -> bool).

(** ** Socket addresses *)

Definition sizeof_addrbuf : Z := 128.

(** addrbuf after the read: the bytes, zeros, and a NUL at the end. *)
Definition addrbuf (bs : list Z) : list Z := take 127 (bs ++ replicate 127 0) ++ [0].

(** ntohs of the member at [off] *)
Definition be16 (off : nat) (buf : list Z) : Z := be (take 2 (drop off buf)).

Definition hex_bytes (l : list Z) : string := foldr (fun b t => hex2 b +:+ t) "" l.

Definition print_un (addr addrlen : Z) (buf : list Z) : D unit :=
  let sun_path := drop 2 buf in
  if addrlen =? 2 then tp "NULL"
  else if negb (byte_at 0 sun_path =? 0) then
    _ ← tp "sun_path="; printpathn (u64 (addr + 2)) (Z.of_nat (length (until 0 sun_path)))
  else
    _ ← tp "sun_path=@"; printpathn (u64 (addr + 3)) (Z.of_nat (length (until 0 (drop 1 sun_path)))).

Definition in_text (buf : list Z) : string :=
  "sin_port=htons(" +:+ fmt_u (be16 2 buf) +:+ "), sin_addr=inet_addr(" +:+ dquote +:+
  inet_ntoa 4 buf +:+ dquote +:+ ")".

(** IN6_IS_ADDR_LINKLOCAL or IN6_IS_ADDR_MC_LINKLOCAL of the address *)
Definition link_local (a : list Z) : bool :=
  ((byte_at 0 a =? 0xfe) && (Z.land (byte_at 1 a) 0xc0 =? 0x80)) ||
  ((byte_at 0 a =? 0xff) && (Z.land (byte_at 1 a) 0xf =? 2)).

Definition in6_text (buf : list Z) : string :=
  let a := take 16 (drop 8 buf) in
  let scope := fld 4 24 buf in
  "sin6_port=htons(" +:+ fmt_u (be16 2 buf) +:+ "), inet_pton(AF_INET6, " +:+ dquote +:+
  inet_ntop6 a +:+ dquote +:+ ", &sin6_addr), sin6_flowinfo=" +:+ fmt_u (fld 4 4 buf) +:+
  match (if link_local a then ifname scope else None) with
  | Some name => ", sin6_scope_id=if_nametoindex(" +:+ dquote +:+ name +:+ dquote +:+ ")"
  | None => ", sin6_scope_id=" +:+ fmt_u scope
  end.

Definition ipx_text (buf : list Z) : string :=
  "sipx_port=htons(" +:+ fmt_u (be16 2 buf) +:+ "), " +:+
  pad_left 8 "0" (fmt_x (be (take 4 (drop 4 buf)))) +:+ ":" +:+
  hex_bytes (take 6 (drop 8 buf)) +:+ "/[" +:+ hex2 (byte_at 14 buf) +:+ "]".

(** %#04x *)
Definition fmt_sx04 (n : Z) : string :=
  if n =? 0 then "0000" else "0x" +:+ pad_left 2 "0" (fmt_x n).

(** struct sockaddr_ll; the hardware address has as many bytes as the tracee
    says, read on past the eight of the member and past the buffer. *)
Definition print_ll (buf : list Z) : D unit :=
  let halen := byte_at 11 buf in
  _ ← tp ("proto=" +:+ fmt_sx04 (be16 2 buf) +:+ ", if" +:+ fmt_d (fld_int 4 buf) +:+ ", pkttype=");
  _ ← print_xval af_packet_types (byte_at 10 buf) "?";
  _ ← tp (", addr(" +:+ fmt_d halen +:+ ")={" +:+ fmt_d (fld 2 8 buf) +:+ ", ");
  if Z.of_nat (length buf) <? 12 + halen then abort
  else tp (hex_bytes (take (Z.to_nat halen) (drop 12 buf))).

Definition nl_text (buf : list Z) : string :=
  "pid=" +:+ fmt_d (fld_int 4 buf) +:+ ", groups=" +:+ pad_left 8 "0" (fmt_x (fld 4 8 buf)).

Definition print_sockaddr (addr addrlen : Z) (buf : list Z) : D unit :=
  let family := fld 2 0 buf in
  if family =? AF_UNIX then print_un addr addrlen buf
  else if family =? AF_INET then tp (in_text buf)
  else if family =? AF_INET6 then tp (in6_text buf)
  else if family =? AF_IPX then tp (ipx_text buf)
  else if family =? AF_PACKET then print_ll buf
  else if family =? AF_NETLINK then tp (nl_text buf)
  else _ ← tp "sa_data="; printstr (u64 (addr + 2)) 14.

(** [addrlen] is an int. *)
Definition printsock (addr addrlen : Z) : D unit :=
  e ← ask;
  let addrlen := s32 addrlen in
  if addr =? 0 then tp "NULL"
  else if negb (d_verbose e) then tp (hexl addr)
  else
    let addrlen := if (addrlen <? 2) || (addrlen >? sizeof_addrbuf) then sizeof_addrbuf else addrlen in
    bs ← umove_struct addr addrlen;
    match bs with
    | None => tp "{...}"
    | Some bs =>
        let buf := addrbuf bs in
        _ ← tp "{sa_family=";
        _ ← print_xval addrfams (fld 2 0 buf) "AF_???";
        _ ← tp ", ";
        _ ← print_sockaddr addr addrlen buf;
        tp "}"
    end.

(** ** Ancillary data *)

Definition sizeof_cmsghdr : Z := 16.

(** The loop over the descriptors of an SCM_RIGHTS message: at offset [off] of
    the block, up to [cmsg_len]. *)
Fixpoint scm_fds (n : nat) (off cmsg_len : Z) (first : bool) (cmsg : list Z) : D unit :=
  match n with
  | O => mret tt
  | S n =>
      if off <? cmsg_len then
        _ ← (if first then mret tt else tp ", ");
        if Z.of_nat (length cmsg) <? off + 4 then abort
        else
          _ ← tp (fmt_d (fld_int (Z.to_nat off) cmsg));
          scm_fds n (off + 4) cmsg_len false cmsg
      else mret tt
  end.

Definition print_cmsg (len : Z) (cmsg : list Z) : D unit :=
  let stated := fld 8 0 cmsg in
  let level := fld_int 8 cmsg in
  let type := fld_int 12 cmsg in
  let cmsg_len := if len <? stated then len else stated in
  _ ← tp (", {cmsg_len=" +:+ fmt_uint stated +:+ ", cmsg_level=");
  _ ← print_xval socketlayers level "SOL_???";
  _ ← tp ", cmsg_type=";
  if level =? SOL_SOCKET then
    _ ← print_xval scmvals type "SCM_???";
    if (type =? SCM_RIGHTS) && (20 <=? cmsg_len) then
      _ ← tp ", {";
      _ ← scm_fds (Z.to_nat (cmsg_len / 4)) 16 cmsg_len true cmsg;
      tp "}}"
    else if (type =? SCM_CREDENTIALS) && (28 <=? cmsg_len) then
      tp ("{pid=" +:+ fmt_d (fld_int 16 cmsg) +:+ ", uid=" +:+ fmt_u (fld 4 20 cmsg) +:+
          ", gid=" +:+ fmt_u (fld 4 24 cmsg) +:+ "}}")
    else tp ", ...}"
  else tp ", ...}".

Definition printcmsghdr (addr len : Z) : D unit :=
  e ← ask;
  if (len <? sizeof_cmsghdr) || negb (malloc_ok len) then tp (", msg_control=" +:+ hexl addr)
  else
    '(r, bs) ← d_umoven addr (s32 len);
    if r <? 0 then tp (", msg_control=" +:+ hexl addr)
    else print_cmsg len (pad_buf (junk e) (Z.to_nat len) bs).

(** ** Messages *)

(** struct msghdr *)
Record msghdr := mk_msghdr {
  msg_name : Z; msg_namelen : Z; msg_iov : Z; msg_iovlen : Z;
  msg_control : Z; msg_controllen : Z; msg_hdr_flags : Z
}.
Definition msghdr_of (bs : list Z) : msghdr :=
  mk_msghdr (fld 8 0 bs) (fld 4 8 bs) (fld 8 16 bs) (fld 8 24 bs) (fld 8 32 bs) (fld 8 40 bs) (fld_int 48 bs).
(** struct msghdr32 *)
Definition msghdr32_of (bs : list Z) : msghdr :=
  mk_msghdr (fld 4 0 bs) (fld 4 4 bs) (fld 4 8 bs) (fld 4 12 bs) (fld 4 16 bs) (fld 4 20 bs) (fld_int 24 bs).

Definition do_msghdr (msg : msghdr) (data_size : Z) : D unit :=
  _ ← tp ("{msg_name(" +:+ fmt_int (msg_namelen msg) +:+ ")=");
  _ ← printsock (msg_name msg) (msg_namelen msg);
  _ ← tp (", msg_iov(" +:+ fmt_u (msg_iovlen msg) +:+ ")=");
  _ ← tprint_iov_upto (msg_iovlen msg) (msg_iov msg) true data_size;
  _ ← tp (", msg_controllen=" +:+ fmt_u (msg_controllen msg));
  _ ← (if msg_controllen msg =? 0 then mret tt
       else printcmsghdr (msg_control msg) (msg_controllen msg));
  _ ← tp ", msg_flags=";
  _ ← print_flags msg_flags (msg_hdr_flags msg) "MSG_???";
  tp "}".

Definition printmsghdr (addr data_size : Z) : D unit :=
  e ← ask;
  let narrow := wordsize e =? 4 in
  bs ← umove_struct addr (if narrow then 28 else 56);
  match bs with
  | None => tp (hexl addr)
  | Some bs => do_msghdr (if narrow then msghdr32_of bs else msghdr_of bs) data_size
  end.

(** The element [idx] of an array of struct mmsghdr. *)
Definition printmmsghdr (addr idx msg_len : Z) : D unit :=
  e ← ask;
  let narrow := wordsize e =? 4 in
  let size := if narrow then 32 else 64 in
  let addr := u64 (addr + size * idx) in
  bs ← umove_struct addr size;
  match bs with
  | None => tp (hexl addr)
  | Some bs =>
      let len := if narrow then fld 4 28 bs else fld 4 56 bs in
      _ ← tp "{";
      _ ← do_msghdr (if narrow then msghdr32_of bs else msghdr_of bs)
            (if msg_len =? 0 then len else msg_len);
      tp (", " +:+ fmt_u len +:+ "}")
  end.

Fixpoint mmsg_loop (n : nat) (addr i msg_len : Z) : D unit :=
  match n with
  | O => mret tt
  | S n =>
      _ ← (if i =? 0 then mret tt else tp ", ");
      _ ← printmmsghdr addr i msg_len;
      mmsg_loop n addr (i + 1) msg_len
  end.

Definition decode_mmsg (msg_len : Z) : D unit :=
  e ← ask;
  a1 ← arg 1; a2 ← arg 2; a3 ← arg 3;
  _ ← (if syserror e then tp (hexl a1)
       else
         _ ← tp "{";
         _ ← mmsg_loop (Z.to_nat (u32 (d_rval e))) a1 0 msg_len;
         tp "}");
  _ ← tp (", " +:+ fmt_uint a2 +:+ ", ");
  print_flags msg_flags a3 "MSG_???".

(** ** The calls *)

Definition tprint_sock_type (flags : Z) : D unit :=
  let flags := s32 flags in
  match xlookup socktypes (Z.land flags 0xf) with
  | Some str =>
      _ ← tp str;
      let flags := clear_flag flags 0xf in
      if flags =? 0 then mret tt else _ ← tp "|"; print_flags sock_type_flags flags "SOCK_???"
  | None => print_flags sock_type_flags flags "SOCK_???"
  end.

(** The arguments of socket and of socketpair; [inet] lists the families whose
    protocols have names. *)
Definition socket_args (inet : list Z) : D unit :=
  a0 ← arg 0; a1 ← arg 1; a2 ← arg 2;
  _ ← print_xval domains a0 "PF_???";
  _ ← tp ", ";
  _ ← tprint_sock_type a1;
  _ ← tp ", ";
  if existsb (Z.eqb a0) inet then print_xval protocols a2 "IPPROTO_???"
  else if a0 =? AF_IPX then _ ← tp "["; _ ← print_xval domains a2 "PF_???"; tp "]"
  else tp (fmt_u a2).

Definition sys_socket : D Z := _ ← if_entering (socket_args [AF_INET; AF_INET6]); mret 0.

Definition sys_bind : D Z :=
  _ ← if_entering (
        a0 ← arg 0; a1 ← arg 1; a2 ← arg 2;
        _ ← tp (fmt_ld a0 +:+ ", "); _ ← printsock a1 a2; tp (", " +:+ fmt_u a2));
  mret 0.
Definition sys_connect : D Z := sys_bind.

Definition sys_listen : D Z :=
  _ ← if_entering (a0 ← arg 0; a1 ← arg 1; tp (fmt_ld a0 +:+ ", " +:+ fmt_u a1)); mret 0.

(** [flags_arg] is [None] for -1. *)
Definition do_accept (flags_arg : option nat) : D Z :=
  e ← ask;
  a0 ← arg 0; a1 ← arg 1; a2 ← arg 2;
  if d_entering e then _ ← tp (fmt_ld a0 +:+ ", "); mret 0
  else
    _ ← (if a2 =? 0 then tp (hexl a1 +:+ ", NULL")
         else
           len ← (if (a1 =? 0) || syserror e then mret None else umove a2 4);
           _ ← match len with None => tp (hexl a1) | Some len => printsock a1 len end;
           _ ← tp ", ";
           printnum_int a2 fmt_u);
    _ ← match flags_arg with
        | None => mret tt
        | Some i => f ← arg i; _ ← tp ", "; print_flags sock_type_flags f "SOCK_???"
        end;
    mret 0.
Definition sys_accept : D Z := do_accept None.
Definition sys_accept4 : D Z := do_accept (Some 3%nat).
Definition sys_getsockname : D Z := sys_accept.
Definition sys_getpeername : D Z := sys_accept.

(** The common arguments of send and sendto. *)
Definition send_args : D unit :=
  a0 ← arg 0; a1 ← arg 1; a2 ← arg 2; a3 ← arg 3;
  _ ← tp (fmt_ld a0 +:+ ", ");
  _ ← printstr a1 (s64 a2);
  _ ← tp (", " +:+ fmt_u a2 +:+ ", ");
  print_flags msg_flags a3 "MSG_???".

Definition sys_send : D Z := _ ← if_entering send_args; mret 0.

Definition sys_sendto : D Z :=
  _ ← if_entering (
        a4 ← arg 4; a5 ← arg 5;
        _ ← send_args; _ ← tp ", "; _ ← printsock a4 a5; tp (", " +:+ fmt_u a5));
  mret 0.

Definition sys_sendmsg : D Z :=
  _ ← if_entering (
        a0 ← arg 0; a1 ← arg 1; a2 ← arg 2;
        _ ← tp (fmt_ld a0 +:+ ", ");
        _ ← printmsghdr a1 (u64 (-1));
        _ ← tp ", ";
        print_flags msg_flags a2 "MSG_???");
  mret 0.

Definition sys_sendmmsg : D Z :=
  e ← ask;
  a0 ← arg 0; a1 ← arg 1; a2 ← arg 2; a3 ← arg 3;
  _ ← (if d_entering e then
         _ ← tp (fmt_int a0 +:+ ", ");
         if d_verbose e then mret tt
         else
           _ ← tp (hexl a1 +:+ ", " +:+ fmt_uint a2 +:+ ", "); print_flags msg_flags a3 "MSG_???"
       else if d_verbose e then decode_mmsg (u64 (-1)) else mret tt);
  mret 0.

Definition sys_recv : D Z :=
  e ← ask;
  a0 ← arg 0; a1 ← arg 1; a2 ← arg 2; a3 ← arg 3;
  _ ← (if d_entering e then tp (fmt_ld a0 +:+ ", ")
       else
         _ ← (if syserror e then tp (hexl a1) else printstr a1 (d_rval e));
         _ ← tp (", " +:+ fmt_u a2 +:+ ", ");
         print_flags msg_flags a3 "MSG_???");
  mret 0.

Definition null_or_addr (a : Z) : string := if a =? 0 then ", NULL" else ", " +:+ hexl a.

(** The address is printed with the last argument, a pointer, as its length;
    the length read there is only shown. *)
Definition sys_recvfrom : D Z :=
  e ← ask;
  a0 ← arg 0; a1 ← arg 1; a2 ← arg 2; a3 ← arg 3; a4 ← arg 4; a5 ← arg 5;
  _ ← (if d_entering e then tp (fmt_ld a0 +:+ ", ")
       else if syserror e then
         tp (hexl a1 +:+ ", " +:+ fmt_u a2 +:+ ", " +:+ fmt_u a3 +:+ ", " +:+ hexl a4 +:+ ", " +:+ hexl a5)
       else
         _ ← printstr a1 (d_rval e);
         _ ← tp (", " +:+ fmt_u a2 +:+ ", ");
         _ ← print_flags msg_flags a3 "MSG_???";
         if (a4 =? 0) || (a5 =? 0) then tp (null_or_addr a4 +:+ null_or_addr a5)
         else
           fromlen ← umove a5 4;
           match fromlen with
           | None => tp ", {...}, [?]"
           | Some fromlen =>
               _ ← tp ", "; _ ← printsock a4 a5; tp (", [" +:+ fmt_u fromlen +:+ "]")
           end);
  mret 0.

Definition sys_recvmsg : D Z :=
  e ← ask;
  a0 ← arg 0; a1 ← arg 1; a2 ← arg 2;
  _ ← (if d_entering e then tp (fmt_ld a0 +:+ ", ")
       else
         _ ← (if syserror e || negb (d_verbose e) then tp (hexl a1)
              else printmsghdr a1 (u64 (d_rval e)));
         _ ← tp ", ";
         print_flags msg_flags a2 "MSG_???");
  mret 0.

(** The time limit is read on entry and kept in tcp->auxstr until the exit;
    [None] when strdup fails. *)
Definition sys_recvmmsg : D Z :=
  e ← ask;
  a0 ← arg 0; a1 ← arg 1; a2 ← arg 2; a3 ← arg 3; a4 ← arg 4;
  if d_entering e then
    _ ← tp (fmt_ld a0 +:+ ", ");
    _ ← (if d_verbose e then
           str ← sprint_timespec a4;
           put_auxstr (if malloc_ok (slen str + 1) then Some str else None)
         else
           _ ← tp (hexl a1 +:+ ", " +:+ fmt_ld a2 +:+ ", ");
           _ ← print_flags msg_flags a3 "MSG_???";
           _ ← tp ", ";
           print_timespec a4);
    mret 0
  else
    _ ← (if d_verbose e then
           _ ← decode_mmsg 0;
           aux ← get_auxstr;
           _ ← tp (", " +:+ default "{...}" aux);
           put_auxstr None
         else mret tt);
    if syserror e then mret 0
    else if d_rval e =? 0 then _ ← put_auxstr (Some "Timeout"); mret RVAL_STR
    else if negb (d_verbose e) then mret 0
    else
      left ← sprint_timespec a4;
      _ ← put_auxstr (Some ("left " +:+ left)); mret RVAL_STR.

Definition sys_shutdown : D Z :=
  _ ← if_entering (
        a0 ← arg 0; a1 ← arg 1;
        _ ← tp (fmt_ld a0 +:+ ", "); print_xval shutdown_modes a1 "SHUT_???");
  mret 0.

(** A pair of descriptors the call returned. *)
Definition fd_pair (addr : Z) (unreadable : string) : D string :=
  fds ← umove_struct addr 8;
  mret match fds with
       | None => unreadable
       | Some bs => "[" +:+ fmt_u (fld 4 0 bs) +:+ ", " +:+ fmt_u (fld 4 4 bs) +:+ "]"
       end.

Definition do_pipe (flags_arg : option nat) : D Z :=
  e ← ask;
  _ ← if_exiting (
        a0 ← arg 0;
        _ ← (if syserror e then tp (hexl a0) else t ← fd_pair a0 "[...]"; tp t);
        match flags_arg with
        | None => mret tt
        | Some i => f ← arg i; _ ← tp ", "; print_flags open_mode_flags f "O_???"
        end);
  mret 0.
Definition sys_pipe : D Z := do_pipe None.
Definition sys_pipe2 : D Z := do_pipe (Some 1%nat).

Definition sys_socketpair : D Z :=
  e ← ask;
  a3 ← arg 3;
  _ ← (if d_entering e then socket_args [AF_INET]
       else if syserror e then tp (", " +:+ hexl a3)
       else t ← fd_pair a3 "[...]"; tp (", " +:+ t));
  mret 0.

(** ** Options *)

(** The names of the options of a level. *)
Definition option_names (level : Z) : option (list xlat * string) :=
  if level =? SOL_SOCKET then Some (sockoptions, "SO_???")
  else if level =? SOL_IP then Some (sockipoptions, "IP_???")
  else if level =? SOL_IPV6 then Some (sockipv6options, "IPV6_???")
  else if level =? SOL_IPX then Some (sockipxoptions, "IPX_???")
  else if level =? SOL_PACKET then Some (sockpacketoptions, "PACKET_???")
  else if level =? SOL_TCP then Some (socktcpoptions, "TCP_???")
  else None.

Definition linger_text (bs : list Z) : string :=
  "{onoff=" +:+ fmt_d (fld_int 0 bs) +:+ ", linger=" +:+ fmt_d (fld_int 4 bs) +:+ "}".
Definition ucred_text (bs : list Z) : string :=
  "{pid=" +:+ fmt_d (fld_int 0 bs) +:+ ", uid=" +:+ fmt_u (fld 4 4 bs) +:+
  ", gid=" +:+ fmt_u (fld 4 8 bs) +:+ "}".
Definition tpacket_stats_text (bs : list Z) : string :=
  "{packets=" +:+ fmt_u (fld 4 0 bs) +:+ ", drops=" +:+ fmt_u (fld 4 4 bs) +:+ "}".
Definition tpacket_req_text (bs : list Z) : string :=
  "{block_size=" +:+ fmt_u (fld 4 0 bs) +:+ ", block_nr=" +:+ fmt_u (fld 4 4 bs) +:+
  ", frame_size=" +:+ fmt_u (fld 4 8 bs) +:+ ", frame_nr=" +:+ fmt_u (fld 4 12 bs) +:+ "}".

(** The structures getsockopt knows: size and text. *)
Definition getsockopt_struct (level name : Z) : option (Z * (list Z -> string)) :=
  if level =? SOL_SOCKET then
    if name =? SO_LINGER then Some (8, linger_text)
    else if name =? SO_PEERCRED then Some (12, ucred_text) else None
  else if level =? SOL_PACKET then
    if name =? PACKET_STATISTICS then Some (8, tpacket_stats_text) else None
  else None.
(** ... and those setsockopt knows. *)
Definition setsockopt_struct (level name : Z) : option (Z * (list Z -> string)) :=
  if level =? SOL_SOCKET then if name =? SO_LINGER then Some (8, linger_text) else None
  else if level =? SOL_PACKET then
    if (name =? PACKET_RX_RING) || (name =? PACKET_TX_RING) then Some (16, tpacket_req_text) else None
  else None.

(** The text of a value that is such a structure, of the right length and
    readable. *)
Definition struct_text (known : option (Z * (list Z -> string))) (addr len : Z) : D (option string) :=
  match known with
  | Some (size, text) =>
      if len =? size then bs ← umove_struct addr size; mret (text <$> bs) else mret None
  | None => mret None
  end.

(** An int, or a string of bytes. *)
Definition print_optval (addr len : Z) : D unit :=
  if len =? 4 then printnum_int addr (fun v => fmt_d (s32 v)) else printstr addr len.

Definition sys_getsockopt : D Z :=
  e ← ask;
  a0 ← arg 0; a1 ← arg 1; a2 ← arg 2; a3 ← arg 3; a4 ← arg 4;
  _ ← (if d_entering e then
         _ ← tp (fmt_ld a0 +:+ ", ");
         _ ← print_xval socketlayers a1 "SOL_???";
         _ ← tp ", ";
         _ ← match option_names a1 with
             | Some (t, dflt) => print_xval t a2 dflt
             | None => tp (fmt_u a2)
             end;
         tp ", "
       else
         len ← (if syserror e then mret None else umove a4 4);
         match len with
         | None => tp (hexl a3 +:+ ", " +:+ hexl a4)
         | Some len =>
             let len := s32 len in
             known ← struct_text (getsockopt_struct a1 a2) a3 len;
             match known with
             | Some t => tp (t +:+ ", [" +:+ fmt_d len +:+ "]")
             | None => _ ← print_optval a3 len; tp (", [" +:+ fmt_d len +:+ "]")
             end
         end);
  mret 0.

Definition printicmpfilter (addr : Z) : D unit :=
  e ← ask;
  if addr =? 0 then tp "NULL"
  else if syserror e || negb (d_verbose e) then tp (hexl addr)
  else
    filter ← umove addr 4;
    match filter with
    | None => tp "{...}"
    | Some data => _ ← tp "~("; _ ← print_flags icmpfilterflags (Z.lnot data) "ICMP_???"; tp ")"
    end.

Definition printsockopt (level name addr len : Z) : D unit :=
  let level := s32 level in
  let name := s32 name in
  let len := s32 len in
  _ ← print_xval socketlayers level "SOL_??";
  _ ← tp ", ";
  if level =? SOL_RAW then
    _ ← print_xval sockrawoptions name "RAW_???";
    if name =? ICMP_FILTER then _ ← tp ", "; printicmpfilter addr
    else _ ← tp ", "; print_optval addr len
  else
    _ ← match option_names level with
        | Some (t, dflt) => print_xval t name dflt
        | None => tp (fmt_uint name)
        end;
    known ← struct_text (setsockopt_struct level name) addr len;
    match known with
    | Some t => tp (", " +:+ t)
    | None => _ ← tp ", "; print_optval addr len
    end.

Definition sys_setsockopt : D Z :=
  _ ← if_entering (
        a0 ← arg 0; a1 ← arg 1; a2 ← arg 2; a3 ← arg 3; a4 ← arg 4;
        _ ← tp (fmt_ld a0 +:+ ", "); _ ← printsockopt a1 a2 a3 a4; tp (", " +:+ fmt_u a4));
  mret 0.

(** sock.c *)
Definition sys_socketcall : D Z := e ← ask; printargs (d_nargs e).
End net.

(** ** The discipline *)

Section discipline.
Context `{K : Kernel} (e : denv) (Hok : env_ok e).
Lemma Prints_tprint_sock_type f : Prints e (tprint_sock_type f).
Proof. unfold tprint_sock_type. decodes. Qed.
Hint Resolve Prints_tprint_sock_type : decodes.
Lemma Prints_socket_args l : Prints e (socket_args l).
Proof. unfold socket_args. decodes. Qed.
Lemma Prints_send_args : Prints e send_args.
Proof. unfold send_args. decodes. Qed.
Lemma Prints_fd_pair a t : Prints e (fd_pair a t).
Proof. unfold fd_pair. decodes. Qed.
Lemma Prints_struct_text k a n : Prints e (struct_text k a n).
Proof. unfold struct_text. decodes. Qed.
Lemma Prints_print_optval a n : Prints e (print_optval a n).
Proof. unfold print_optval. decodes. Qed.
Lemma Prints_printicmpfilter a : Prints e (printicmpfilter a).
Proof. unfold printicmpfilter. decodes. Qed.
Hint Resolve Prints_struct_text Prints_print_optval Prints_printicmpfilter : decodes.
Lemma Prints_printsockopt l n a len : Prints e (printsockopt l n a len).
Proof. unfold printsockopt. decodes. Qed.
End discipline.
#[export] Hint Resolve Prints_socket_args Prints_send_args Prints_fd_pair Prints_struct_text
  Prints_print_optval Prints_printsockopt : decodes.
