(* ===== verification/System.v ===== *)
(** * Decoders of system administration calls (system.c)

    mount, umount2, personality, syslog, reboot, capget, capset and sysctl.  The
    name of a sysctl is read into a block of the length the tracee states;
    [malloc_ok n] says that malloc(n) returns memory. *)

From S2P Require Import Prelude Xlat Quote Tracee Decode Io Args Process.
Local Open Scope string_scope.
Local Open Scope list_scope.
Local Open Scope Z_scope.

Definition mount_flags : list xlat :=
  [mk_xlat (-1058209792) "MS_MGC_VAL"; mk_xlat 1 "MS_RDONLY"; mk_xlat 2 "MS_NOSUID";
   mk_xlat 4 "MS_NODEV"; mk_xlat 8 "MS_NOEXEC"; mk_xlat 16 "MS_SYNCHRONOUS";
   mk_xlat 32 "MS_REMOUNT"; mk_xlat 0x200000 "MS_RELATIME"; mk_xlat 0x400000 "MS_KERNMOUNT";
   mk_xlat 0x800000 "MS_I_VERSION"; mk_xlat 0x1000000 "MS_STRICTATIME";
   mk_xlat 0x10000000 "MS_NOSEC"; mk_xlat 0x20000000 "MS_BORN"; mk_xlat 64 "MS_MANDLOCK";
   mk_xlat 0x400 "MS_NOATIME"; mk_xlat 0x800 "MS_NODIRATIME"; mk_xlat 0x1000 "MS_BIND";
   mk_xlat 0x2000 "MS_MOVE"; mk_xlat 0x4000 "MS_REC"; mk_xlat 0x8000 "MS_SILENT";
   mk_xlat 0x10000 "MS_POSIXACL"; mk_xlat 0x20000 "MS_UNBINDABLE";
   mk_xlat 0x40000 "MS_PRIVATE"; mk_xlat 0x80000 "MS_SLAVE"; mk_xlat 0x100000 "MS_SHARED";
   mk_xlat 0x40000000 "MS_ACTIVE"; mk_xlat (-2147483648) "MS_NOUSER"].

Definition umount_flags : list xlat :=
  [mk_xlat 1 "MNT_FORCE"; mk_xlat 2 "MNT_DETACH"; mk_xlat 4 "MNT_EXPIRE"].

Definition personality_options : list xlat :=
  [mk_xlat 0 "PER_LINUX"; mk_xlat 0x800000 "PER_LINUX_32BIT"; mk_xlat 0x4100001 "PER_SVR4";
   mk_xlat 0x5000002 "PER_SVR3"; mk_xlat 0x7000003 "PER_SCOSVR3"; mk_xlat 0x6000003 "PER_OSR5";
   mk_xlat 0x5000004 "PER_WYSEV386"; mk_xlat 0x4000005 "PER_ISCR4"; mk_xlat 6 "PER_BSD";
   mk_xlat 0x4000006 "PER_SUNOS"; mk_xlat 0x5000007 "PER_XENIX"; mk_xlat 8 "PER_LINUX32";
   mk_xlat 0x8000008 "PER_LINUX32_3GB"; mk_xlat 0x4000009 "PER_IRIX32";
   mk_xlat 0x400000a "PER_IRIXN32"; mk_xlat 0x400000b "PER_IRIX64"; mk_xlat 12 "PER_RISCOS";
   mk_xlat 0x400000d "PER_SOLARIS"; mk_xlat 0x410000e "PER_UW7"; mk_xlat 15 "PER_OSF4";
   mk_xlat 16 "PER_HPUX"].

Definition syslog_action_type : list xlat :=
  [mk_xlat 0 "SYSLOG_ACTION_CLOSE"; mk_xlat 1 "SYSLOG_ACTION_OPEN";
   mk_xlat 2 "SYSLOG_ACTION_READ"; mk_xlat 3 "SYSLOG_ACTION_READ_ALL";
   mk_xlat 4 "SYSLOG_ACTION_READ_CLEAR"; mk_xlat 5 "SYSLOG_ACTION_CLEAR";
   mk_xlat 6 "SYSLOG_ACTION_CONSOLE_OFF"; mk_xlat 7 "SYSLOG_ACTION_CONSOLE_ON";
   mk_xlat 8 "SYSLOG_ACTION_CONSOLE_LEVEL"; mk_xlat 9 "SYSLOG_ACTION_SIZE_UNREAD";
   mk_xlat 10 "SYSLOG_ACTION_SIZE_BUFFER"].

Definition bootflags1 : list xlat :=
  [mk_xlat (-18751827) "LINUX_REBOOT_MAGIC1"].

Definition bootflags2 : list xlat :=
  [mk_xlat 0x28121969 "LINUX_REBOOT_MAGIC2"; mk_xlat 0x5121996 "LINUX_REBOOT_MAGIC2A";
   mk_xlat 0x16041998 "LINUX_REBOOT_MAGIC2B"].

Definition bootflags3 : list xlat :=
  [mk_xlat 0 "LINUX_REBOOT_CMD_CAD_OFF"; mk_xlat 0x1234567 "LINUX_REBOOT_CMD_RESTART";
   mk_xlat (-839974621) "LINUX_REBOOT_CMD_HALT";
   mk_xlat (-1985229329) "LINUX_REBOOT_CMD_CAD_ON";
   mk_xlat 0x4321fedc "LINUX_REBOOT_CMD_POWER_OFF";
   mk_xlat (-1582119980) "LINUX_REBOOT_CMD_RESTART2"].

Definition capabilities : list xlat :=
  [mk_xlat 1 "CAP_CHOWN"; mk_xlat 2 "CAP_DAC_OVERRIDE"; mk_xlat 4 "CAP_DAC_READ_SEARCH";
   mk_xlat 8 "CAP_FOWNER"; mk_xlat 16 "CAP_FSETID"; mk_xlat 32 "CAP_KILL";
   mk_xlat 64 "CAP_SETGID"; mk_xlat 0x80 "CAP_SETUID"; mk_xlat 0x100 "CAP_SETPCAP";
   mk_xlat 0x200 "CAP_LINUX_IMMUTABLE"; mk_xlat 0x400 "CAP_NET_BIND_SERVICE";
   mk_xlat 0x800 "CAP_NET_BROADCAST"; mk_xlat 0x1000 "CAP_NET_ADMIN";
   mk_xlat 0x2000 "CAP_NET_RAW"; mk_xlat 0x4000 "CAP_IPC_LOCK"; mk_xlat 0x8000 "CAP_IPC_OWNER";
   mk_xlat 0x10000 "CAP_SYS_MODULE"; mk_xlat 0x20000 "CAP_SYS_RAWIO";
   mk_xlat 0x40000 "CAP_SYS_CHROOT"; mk_xlat 0x80000 "CAP_SYS_PTRACE";
   mk_xlat 0x100000 "CAP_SYS_PACCT"; mk_xlat 0x200000 "CAP_SYS_ADMIN";
   mk_xlat 0x400000 "CAP_SYS_BOOT"; mk_xlat 0x800000 "CAP_SYS_NICE";
   mk_xlat 0x1000000 "CAP_SYS_RESOURCE"; mk_xlat 0x2000000 "CAP_SYS_TIME";
   mk_xlat 0x4000000 "CAP_SYS_TTY_CONFIG"; mk_xlat 0x8000000 "CAP_MKNOD";
   mk_xlat 0x10000000 "CAP_LEASE"; mk_xlat 0x20000000 "CAP_AUDIT_WRITE";
   mk_xlat 0x40000000 "CAP_AUDIT_CONTROL"; mk_xlat (-2147483648) "CAP_SETFCAP"].

Definition cap_version : list xlat :=
  [mk_xlat 0x19980330 "_LINUX_CAPABILITY_VERSION_1";
   mk_xlat 0x20071026 "_LINUX_CAPABILITY_VERSION_3";
   mk_xlat 0x20080522 "_LINUX_CAPABILITY_VERSION_3"].

Definition sysctl_root : list xlat :=
  [mk_xlat 1 "CTL_KERN"; mk_xlat 2 "CTL_VM"; mk_xlat 3 "CTL_NET"; mk_xlat 4 "CTL_PROC";
   mk_xlat 5 "CTL_FS"; mk_xlat 6 "CTL_DEBUG"; mk_xlat 7 "CTL_DEV"; mk_xlat 8 "CTL_BUS";
   mk_xlat 9 "CTL_ABI"; mk_xlat 10 "CTL_CPU"].

Definition sysctl_kern : list xlat :=
  [mk_xlat 1 "KERN_OSTYPE"; mk_xlat 2 "KERN_OSRELEASE"; mk_xlat 3 "KERN_OSREV";
   mk_xlat 4 "KERN_VERSION"; mk_xlat 5 "KERN_SECUREMASK"; mk_xlat 6 "KERN_PROF";
   mk_xlat 7 "KERN_NODENAME"; mk_xlat 8 "KERN_DOMAINNAME"; mk_xlat 15 "KERN_PANIC";
   mk_xlat 21 "KERN_SPARC_REBOOT"; mk_xlat 22 "KERN_CTLALTDEL"; mk_xlat 23 "KERN_PRINTK";
   mk_xlat 24 "KERN_NAMETRANS"; mk_xlat 25 "KERN_PPC_HTABRECLAIM";
   mk_xlat 26 "KERN_PPC_ZEROPAGED"; mk_xlat 27 "KERN_PPC_POWERSAVE_NAP";
   mk_xlat 28 "KERN_MODPROBE"; mk_xlat 29 "KERN_SG_BIG_BUFF"; mk_xlat 30 "KERN_ACCT";
   mk_xlat 31 "KERN_PPC_L2CR"; mk_xlat 32 "KERN_RTSIGNR"; mk_xlat 33 "KERN_RTSIGMAX";
   mk_xlat 34 "KERN_SHMMAX"; mk_xlat 35 "KERN_MSGMAX"; mk_xlat 36 "KERN_MSGMNB";
   mk_xlat 37 "KERN_MSGPOOL"].

Definition sysctl_vm : list xlat :=
  [mk_xlat 5 "VM_OVERCOMMIT_MEMORY"; mk_xlat 10 "VM_PAGE_CLUSTER"].

Definition sysctl_net : list xlat :=
  [mk_xlat 1 "NET_CORE"; mk_xlat 2 "NET_ETHER"; mk_xlat 3 "NET_802"; mk_xlat 4 "NET_UNIX";
   mk_xlat 5 "NET_IPV4"; mk_xlat 6 "NET_IPX"; mk_xlat 7 "NET_ATALK"; mk_xlat 8 "NET_NETROM";
   mk_xlat 9 "NET_AX25"; mk_xlat 10 "NET_BRIDGE"; mk_xlat 11 "NET_ROSE"; mk_xlat 12 "NET_IPV6";
   mk_xlat 13 "NET_X25"; mk_xlat 14 "NET_TR"; mk_xlat 15 "NET_DECNET"].

Definition sysctl_net_core : list xlat :=
  [mk_xlat 1 "NET_CORE_WMEM_MAX"; mk_xlat 2 "NET_CORE_RMEM_MAX";
   mk_xlat 3 "NET_CORE_WMEM_DEFAULT"; mk_xlat 4 "NET_CORE_RMEM_DEFAULT";
   mk_xlat 6 "NET_CORE_MAX_BACKLOG"; mk_xlat 7 "NET_CORE_FASTROUTE";
   mk_xlat 8 "NET_CORE_MSG_COST"; mk_xlat 9 "NET_CORE_MSG_BURST";
   mk_xlat 10 "NET_CORE_OPTMEM_MAX"].

Definition sysctl_net_unix : list xlat :=
  [mk_xlat 1 "NET_UNIX_DESTROY_DELAY"; mk_xlat 2 "NET_UNIX_DELETE_DELAY"].

Definition sysctl_net_ipv4 : list xlat :=
  [mk_xlat 8 "NET_IPV4_FORWARD"; mk_xlat 9 "NET_IPV4_DYNADDR"; mk_xlat 16 "NET_IPV4_CONF";
   mk_xlat 17 "NET_IPV4_NEIGH"; mk_xlat 18 "NET_IPV4_ROUTE"; mk_xlat 19 "NET_IPV4_FIB_HASH";
   mk_xlat 33 "NET_IPV4_TCP_TIMESTAMPS"; mk_xlat 34 "NET_IPV4_TCP_WINDOW_SCALING";
   mk_xlat 35 "NET_IPV4_TCP_SACK"; mk_xlat 36 "NET_IPV4_TCP_RETRANS_COLLAPSE";
   mk_xlat 37 "NET_IPV4_DEFAULT_TTL"; mk_xlat 38 "NET_IPV4_AUTOCONFIG";
   mk_xlat 39 "NET_IPV4_NO_PMTU_DISC"; mk_xlat 40 "NET_IPV4_TCP_SYN_RETRIES";
   mk_xlat 41 "NET_IPV4_IPFRAG_HIGH_THRESH"; mk_xlat 42 "NET_IPV4_IPFRAG_LOW_THRESH";
   mk_xlat 43 "NET_IPV4_IPFRAG_TIME"; mk_xlat 44 "NET_IPV4_TCP_MAX_KA_PROBES";
   mk_xlat 45 "NET_IPV4_TCP_KEEPALIVE_TIME"; mk_xlat 46 "NET_IPV4_TCP_KEEPALIVE_PROBES";
   mk_xlat 47 "NET_IPV4_TCP_RETRIES1"; mk_xlat 48 "NET_IPV4_TCP_RETRIES2";
   mk_xlat 49 "NET_IPV4_TCP_FIN_TIMEOUT"; mk_xlat 50 "NET_IPV4_IP_MASQ_DEBUG";
   mk_xlat 51 "NET_TCP_SYNCOOKIES"; mk_xlat 52 "NET_TCP_STDURG"; mk_xlat 53 "NET_TCP_RFC1337";
   mk_xlat 54 "NET_TCP_SYN_TAILDROP"; mk_xlat 55 "NET_TCP_MAX_SYN_BACKLOG";
   mk_xlat 56 "NET_IPV4_LOCAL_PORT_RANGE"; mk_xlat 57 "NET_IPV4_ICMP_ECHO_IGNORE_ALL";
   mk_xlat 58 "NET_IPV4_ICMP_ECHO_IGNORE_BROADCASTS";
   mk_xlat 59 "NET_IPV4_ICMP_SOURCEQUENCH_RATE"; mk_xlat 60 "NET_IPV4_ICMP_DESTUNREACH_RATE";
   mk_xlat 61 "NET_IPV4_ICMP_TIMEEXCEED_RATE"; mk_xlat 62 "NET_IPV4_ICMP_PARAMPROB_RATE";
   mk_xlat 63 "NET_IPV4_ICMP_ECHOREPLY_RATE";
   mk_xlat 64 "NET_IPV4_ICMP_IGNORE_BOGUS_ERROR_RESPONSES";
   mk_xlat 0x41 "NET_IPV4_IGMP_MAX_MEMBERSHIPS"].

Definition sysctl_net_ipv4_route : list xlat :=
  [mk_xlat 1 "NET_IPV4_ROUTE_FLUSH"; mk_xlat 2 "NET_IPV4_ROUTE_MIN_DELAY";
   mk_xlat 3 "NET_IPV4_ROUTE_MAX_DELAY"; mk_xlat 4 "NET_IPV4_ROUTE_GC_THRESH";
   mk_xlat 5 "NET_IPV4_ROUTE_MAX_SIZE"; mk_xlat 6 "NET_IPV4_ROUTE_GC_MIN_INTERVAL";
   mk_xlat 7 "NET_IPV4_ROUTE_GC_TIMEOUT"; mk_xlat 8 "NET_IPV4_ROUTE_GC_INTERVAL";
   mk_xlat 9 "NET_IPV4_ROUTE_REDIRECT_LOAD"; mk_xlat 10 "NET_IPV4_ROUTE_REDIRECT_NUMBER";
   mk_xlat 11 "NET_IPV4_ROUTE_REDIRECT_SILENCE"; mk_xlat 12 "NET_IPV4_ROUTE_ERROR_COST";
   mk_xlat 13 "NET_IPV4_ROUTE_ERROR_BURST"; mk_xlat 14 "NET_IPV4_ROUTE_GC_ELASTICITY"].

Definition sysctl_net_ipv4_conf : list xlat :=
  [mk_xlat 1 "NET_IPV4_CONF_FORWARDING"; mk_xlat 2 "NET_IPV4_CONF_MC_FORWARDING";
   mk_xlat 3 "NET_IPV4_CONF_PROXY_ARP"; mk_xlat 4 "NET_IPV4_CONF_ACCEPT_REDIRECTS";
   mk_xlat 5 "NET_IPV4_CONF_SECURE_REDIRECTS"; mk_xlat 6 "NET_IPV4_CONF_SEND_REDIRECTS";
   mk_xlat 7 "NET_IPV4_CONF_SHARED_MEDIA"; mk_xlat 8 "NET_IPV4_CONF_RP_FILTER";
   mk_xlat 9 "NET_IPV4_CONF_ACCEPT_SOURCE_ROUTE"; mk_xlat 10 "NET_IPV4_CONF_BOOTP_RELAY";
   mk_xlat 11 "NET_IPV4_CONF_LOG_MARTIANS"].

Definition sysctl_net_ipv6 : list xlat :=
  [mk_xlat 16 "NET_IPV6_CONF"; mk_xlat 17 "NET_IPV6_NEIGH"; mk_xlat 18 "NET_IPV6_ROUTE"].

Definition sysctl_net_ipv6_route : list xlat :=
  [mk_xlat 1 "NET_IPV6_ROUTE_FLUSH"; mk_xlat 2 "NET_IPV6_ROUTE_GC_THRESH";
   mk_xlat 3 "NET_IPV6_ROUTE_MAX_SIZE"; mk_xlat 4 "NET_IPV6_ROUTE_GC_MIN_INTERVAL";
   mk_xlat 5 "NET_IPV6_ROUTE_GC_TIMEOUT"; mk_xlat 6 "NET_IPV6_ROUTE_GC_INTERVAL";
   mk_xlat 7 "NET_IPV6_ROUTE_GC_ELASTICITY"].

Definition MS_REMOUNT : Z := 32.
Definition MS_BIND : Z := 4096.
Definition MS_MOVE : Z := 8192.
Definition MS_MGC_VAL : Z := 0xc0ed0000.
Definition MS_MGC_MSK : Z := 0xffff0000.
Definition SYSLOG_ACTION_READ : Z := 2.
Definition SYSLOG_ACTION_READ_ALL : Z := 3.
Definition SYSLOG_ACTION_READ_CLEAR : Z := 4.
Definition LINUX_REBOOT_CMD_RESTART2 : Z := 0xa1b2c3d4.
Definition CTL_KERN : Z := 1.
Definition CTL_VM : Z := 2.
Definition CTL_NET : Z := 3.
Definition KERN_OSTYPE : Z := 1.
Definition KERN_OSRELEASE : Z := 2.
Definition NET_CORE : Z := 1.
Definition NET_UNIX : Z := 4.
Definition NET_IPV4 : Z := 5.
Definition NET_IPV6 : Z := 12.
Definition NET_IPV4_ROUTE : Z := 18.
Definition NET_IPV4_CONF : Z := 16.
Definition NET_IPV6_ROUTE : Z := 18.

Section system.
Context `{K : Kernel} (malloc_ok : Z -> bool).

(** ** mount *)

(** An argument that the flags make meaningless is shown as an address. *)
Definition str_unless (ignore : bool) (addr : Z) : D unit :=
  if ignore && negb (addr =? 0) then tp (hexl addr) else printstr addr (-1).

Definition sys_mount : D Z :=
  _ ← if_entering (
        a0 ← arg 0; a1 ← arg 1; a2 ← arg 2; a3 ← arg 3; a4 ← arg 4;
        let flags := if Z.land a3 MS_MGC_MSK =? MS_MGC_VAL then clear_flag a3 MS_MGC_MSK else a3 in
        let remount := has_flag flags MS_REMOUNT in
        let moved := negb remount && has_flag flags (Z.lor MS_BIND MS_MOVE) in
        _ ← printpath a0; _ ← tp ", ";
        _ ← printpath a1; _ ← tp ", ";
        _ ← str_unless (remount || moved) a2; _ ← tp ", ";
        _ ← print_flags mount_flags a3 "MS_???"; _ ← tp ", ";
        str_unless moved a4);
  mret 0.

Definition sys_umount2 : D Z :=
  _ ← if_entering (
        a0 ← arg 0; a1 ← arg 1;
        _ ← printstr a0 (-1); _ ← tp ", "; print_flags umount_flags a1 "MNT_???");
  mret 0.

Definition sys_personality : D Z :=
  _ ← if_entering (a0 ← arg 0; print_xval personality_options a0 "PER_???");
  mret 0.

(** ** syslog, reboot *)

Definition sys_syslog : D Z :=
  e ← ask;
  a0 ← arg 0; a1 ← arg 1; a2 ← arg 2;
  let type := s32 a0 in
  let reads := existsb (Z.eqb type)
                 [SYSLOG_ACTION_READ; SYSLOG_ACTION_READ_ALL; SYSLOG_ACTION_READ_CLEAR] in
  _ ← if_entering (_ ← print_xval syslog_action_type type "SYSLOG_ACTION_???"; tp ", ");
  if reads then
    if d_entering e then mret 0
    else
      _ ← (if syserror e then tp (hexl a1) else printstr a1 (d_rval e));
      _ ← tp (", " +:+ fmt_int a2);
      mret 0
  else
    _ ← if_entering (tp (hexl a1 +:+ ", " +:+ fmt_u a2));
    mret 0.

Definition sys_reboot : D Z :=
  _ ← if_entering (
        a0 ← arg 0; a1 ← arg 1; a2 ← arg 2; a3 ← arg 3;
        _ ← print_flags bootflags1 a0 "LINUX_REBOOT_MAGIC_???"; _ ← tp ", ";
        _ ← print_flags bootflags2 a1 "LINUX_REBOOT_MAGIC_???"; _ ← tp ", ";
        _ ← print_flags bootflags3 a2 "LINUX_REBOOT_CMD_???";
        if a2 =? LINUX_REBOOT_CMD_RESTART2 then _ ← tp ", "; printstr a3 (-1) else mret tt);
  mret 0.

(** ** Capabilities: struct __user_cap_header_struct and struct
    __user_cap_data_struct *)

Definition print_cap_header (addr : Z) : D unit :=
  e ← ask;
  if addr =? 0 then tp "NULL"
  else if negb (d_verbose e) then tp (hexl addr)
  else
    h ← umove_struct addr 8;
    match h with
    | None => tp (hexl addr)
    | Some h =>
        _ ← tp "{";
        _ ← print_xval cap_version (fld 4 0 h) "_LINUX_CAPABILITY_VERSION_???";
        tp (", " +:+ fmt_d (fld_int 4 h) +:+ "}")
    end.

Definition print_cap_data (addr : Z) : D unit :=
  e ← ask;
  if addr =? 0 then tp "NULL"
  else if negb (d_verbose e) || (negb (d_entering e) && syserror e) then tp (hexl addr)
  else
    d ← umove_struct addr 12;
    match d with
    | None => tp (hexl addr)
    | Some d =>
        _ ← tp "{";
        _ ← print_flags capabilities (fld 4 0 d) "CAP_???"; _ ← tp ", ";
        _ ← print_flags capabilities (fld 4 4 d) "CAP_???"; _ ← tp ", ";
        _ ← print_flags capabilities (fld 4 8 d) "CAP_???";
        tp "}"
    end.

Definition sys_capget : D Z :=
  e ← ask;
  a0 ← arg 0; a1 ← arg 1;
  _ ← (if d_entering e then _ ← print_cap_header a0; tp ", " else print_cap_data a1);
  mret 0.

Definition sys_capset : D Z :=
  _ ← if_entering (a0 ← arg 0; a1 ← arg 1; _ ← print_cap_header a0; _ ← tp ", "; print_cap_data a1);
  mret 0.

(** ** sysctl *)

(** struct __sysctl_args: name, nlen, oldval, oldlenp, newval, newlen and four
    unused words. *)
Definition sizeof_sysctl_args : Z := 80.

(** name[i]: what was read of the block, then what malloc left in it. *)
Definition name_at (junk : nat -> Z) (bs : list Z) (i : Z) : Z :=
  s32 (le ((fun k => let j := (Z.to_nat (4 * i) + k)%nat in default (junk j) (bs !! j)) <$> seq 0 4)).

(** What the switch over name[0], name[1] and name[2] prints of a CTL_NET name
    of more than two numbers. *)
Definition sysctl_net_path (nlen : Z) (name : Z -> Z) : D unit :=
  if name 1 =? NET_CORE then _ ← tp ", "; print_xval sysctl_net_core (name 2) "NET_CORE_???"
  else if name 1 =? NET_UNIX then _ ← tp ", "; print_xval sysctl_net_unix (name 2) "NET_UNIX_???"
  else if name 1 =? NET_IPV4 then
    _ ← tp ", ";
    _ ← print_xval sysctl_net_ipv4 (name 2) "NET_IPV4_???";
    if nlen =? 3 then mret tt
    else if name 2 =? NET_IPV4_ROUTE then
      _ ← tp ", "; print_xval sysctl_net_ipv4_route (name 3) "NET_IPV4_ROUTE_???"
    else if name 2 =? NET_IPV4_CONF then
      _ ← tp ", "; print_xval sysctl_net_ipv4_conf (name 3) "NET_IPV4_CONF_???"
    else mret tt
  else if name 1 =? NET_IPV6 then
    _ ← tp ", ";
    _ ← print_xval sysctl_net_ipv6 (name 2) "NET_IPV6_???";
    if nlen =? 3 then mret tt
    else if name 2 =? NET_IPV6_ROUTE then
      _ ← tp ", "; print_xval sysctl_net_ipv6_route (name 3) "NET_IPV6_ROUTE_???"
    else mret tt
  else mret tt.

(** The symbolic part of the name; the result is [cnt], the number of
    components the code counts as printed. *)
Definition sysctl_path (nlen : Z) (name : Z -> Z) : D Z :=
  if nlen =? 0 then mret 0
  else
    _ ← print_xval sysctl_root (name 0) "CTL_???";
    if nlen =? 1 then mret 1
    else if name 0 =? CTL_KERN then
      _ ← tp ", "; _ ← print_xval sysctl_kern (name 1) "KERN_???"; mret 2
    else if name 0 =? CTL_VM then
      _ ← tp ", "; _ ← print_xval sysctl_vm (name 1) "VM_???"; mret 2
    else if name 0 =? CTL_NET then
      _ ← tp ", "; _ ← print_xval sysctl_net (name 1) "NET_???";
      _ ← (if nlen =? 2 then mret tt else sysctl_net_path nlen name);
      mret 2
    else mret 1.

(** The rest of the name, in hex. *)
Fixpoint sysctl_rest (n : nat) (i : Z) (name : Z -> Z) : string :=
  match n with
  | O => ""
  | S n => ", " +:+ fmt_x (u32 (name i)) +:+ sysctl_rest n (i + 1) name
  end.

Definition sysctl_entering (nlen : Z) (name : Z -> Z) : D unit :=
  e ← ask;
  _ ← tp "{{";
  cnt ← sysctl_path nlen name;
  let max_cnt := if d_abbrev e && (nlen >? max_strlen e) then max_strlen e else nlen in
  _ ← tp (sysctl_rest (Z.to_nat (max_cnt - cnt)) cnt name);
  _ ← (if Z.max cnt max_cnt <? nlen then tp ", ..." else mret tt);
  tp ("}, " +:+ fmt_d nlen +:+ ", ").

Definition sysctl_exiting (nlen : Z) (name : Z -> Z) (info : list Z) : D unit :=
  e ← ask;
  let oldval := fld 8 16 info in
  let newval := fld 8 32 info in
  oldlen ← (if oldval =? 0 then _ ← tp "NULL"; mret 0
            else
              '(r, bs) ← d_umoven (fld 8 24 info) 8;
              _ ← (if (r >=? 0) && (2 <=? nlen) &&
                      ((name 0 =? CTL_KERN) && ((name 1 =? KERN_OSRELEASE) || (name 1 =? KERN_OSTYPE)))
                   then printpath oldval else tp (fmt_p oldval));
              mret (le (take 8 (bs ++ replicate 8 0))));
  _ ← tp (", " +:+ fmt_u oldlen +:+ ", ");
  _ ← (if newval =? 0 then tp "NULL"
       else if syserror e then tp (fmt_p newval)
       else printpath newval);
  tp (", " +:+ fmt_u (fld 8 40 info)).

Definition sys_sysctl : D Z :=
  e ← ask;
  a0 ← arg 0;
  info ← umove_struct a0 sizeof_sysctl_args;
  match info with
  | None => printargs (d_nargs e)
  | Some info =>
      let nlen := fld_int 8 info in
      let size := u64 (4 * u64 nlen) in
      name ← (if negb (size / 4 =? u64 nlen) || negb (malloc_ok size) then mret None
              else
                '(r, bs) ← d_umoven (fld 8 0 info) (s32 size);
                mret (if r <? 0 then None else Some (name_at (junk e) bs)));
      match name with
      | None =>
          _ ← if_entering (tp ("{" +:+ fmt_p (fld 8 0 info) +:+ ", " +:+ fmt_d nlen +:+ ", " +:+
                fmt_p (fld 8 16 info) +:+ ", " +:+ fmt_p (fld 8 24 info) +:+ ", " +:+
                fmt_p (fld 8 32 info) +:+ ", " +:+ fmt_u (fld 8 40 info) +:+ "}"));
          mret 0
      | Some name =>
          _ ← (if d_entering e then sysctl_entering nlen name else sysctl_exiting nlen name info);
          mret 0
      end
  end.
End system.

(** ** The discipline *)

Section discipline.
Context `{K : Kernel} (e : denv) (Hok : env_ok e).
Lemma Prints_str_unless b a : Prints e (str_unless b a).
Proof. unfold str_unless. decodes. Qed.
Lemma Prints_print_cap_header a : Prints e (print_cap_header a).
Proof. unfold print_cap_header. decodes. Qed.
Lemma Prints_print_cap_data a : Prints e (print_cap_data a).
Proof. unfold print_cap_data. decodes. Qed.
Lemma Prints_sysctl_net_path n name : Prints e (sysctl_net_path n name).
Proof. unfold sysctl_net_path. decodes. Qed.
Hint Resolve Prints_sysctl_net_path : decodes.
Lemma Prints_sysctl_path n name : Prints e (sysctl_path n name).
Proof. unfold sysctl_path. decodes. Qed.
Hint Resolve Prints_sysctl_path : decodes.
Lemma Prints_sysctl_entering n name : Prints e (sysctl_entering n name).
Proof. unfold sysctl_entering. decodes. Qed.
Lemma Prints_sysctl_exiting n name i : Prints e (sysctl_exiting n name i).
Proof. unfold sysctl_exiting. decodes. Qed.
End discipline.
#[export] Hint Resolve Prints_str_unless Prints_print_cap_header Prints_print_cap_data
  Prints_sysctl_entering Prints_sysctl_exiting : decodes.
