(* ===== verification/Quota.v ===== *)
(** * The decoder of quotactl (quota.c) *)

From S2P Require Import Prelude Xlat Quote Tracee Decode Io Args Stat Process.
Local Open Scope string_scope.
Local Open Scope list_scope.
Local Open Scope Z_scope.

Definition quotacmds : list xlat :=
  [mk_xlat 0x100 "Q_V1_QUOTAON"; mk_xlat 0x200 "Q_V1_QUOTAOFF"; mk_xlat 0x300 "Q_V1_GETQUOTA";
   mk_xlat 0x400 "Q_V1_SETQUOTA"; mk_xlat 0x500 "Q_V1_SETUSE"; mk_xlat 0x600 "Q_V1_SYNC";
   mk_xlat 0x700 "Q_SETQLIM"; mk_xlat 0x800 "Q_V1_GETSTATS"; mk_xlat 0x1000 "Q_V1_RSQUASH";
   mk_xlat 0xd00 "Q_V2_GETQUOTA"; mk_xlat 0xe00 "Q_V2_SETQUOTA"; mk_xlat 0xf00 "Q_V2_SETUSE";
   mk_xlat 0x900 "Q_V2_GETINFO"; mk_xlat 0xa00 "Q_V2_SETINFO"; mk_xlat 0xb00 "Q_V2_SETGRACE";
   mk_xlat 0xc00 "Q_V2_SETFLAGS"; mk_xlat 0x1100 "Q_V2_GETSTATS"; mk_xlat 0x800001 "Q_SYNC";
   mk_xlat 0x800002 "Q_QUOTAON"; mk_xlat 0x800003 "Q_QUOTAOFF"; mk_xlat 0x800004 "Q_GETFMT";
   mk_xlat 0x800005 "Q_GETINFO"; mk_xlat 0x800006 "Q_SETINFO"; mk_xlat 0x800007 "Q_GETQUOTA";
   mk_xlat 0x800008 "Q_SETQUOTA"; mk_xlat 0x5801 "Q_XQUOTAON"; mk_xlat 0x5802 "Q_XQUOTAOFF";
   mk_xlat 0x5803 "Q_XGETQUOTA"; mk_xlat 0x5804 "Q_XSETQLIM"; mk_xlat 0x5805 "Q_XGETQSTAT";
   mk_xlat 0x5806 "Q_XQUOTARM"; mk_xlat 0x5807 "Q_XQUOTASYNC"].

Definition quotatypes : list xlat :=
  [mk_xlat 0 "USRQUOTA"; mk_xlat 1 "GRPQUOTA"].

Definition quota_formats : list xlat :=
  [mk_xlat 1 "QFMT_VFS_OLD"; mk_xlat 2 "QFMT_VFS_V0"].

Definition xfs_quota_flags : list xlat :=
  [mk_xlat 1 "XFS_QUOTA_UDQ_ACCT"; mk_xlat 2 "XFS_QUOTA_UDQ_ENFD";
   mk_xlat 4 "XFS_QUOTA_GDQ_ACCT"; mk_xlat 8 "XFS_QUOTA_GDQ_ENFD"].

Definition xfs_dqblk_flags : list xlat :=
  [mk_xlat 1 "XFS_USER_QUOTA"; mk_xlat 2 "XFS_PROJ_QUOTA"; mk_xlat 4 "XFS_GROUP_QUOTA"].

Definition if_dqblk_valid : list xlat :=
  [mk_xlat 1 "QIF_BLIMITS"; mk_xlat 2 "QIF_SPACE"; mk_xlat 4 "QIF_ILIMITS";
   mk_xlat 8 "QIF_INODES"; mk_xlat 16 "QIF_BTIME"; mk_xlat 32 "QIF_ITIME"].

Definition if_dqinfo_valid : list xlat :=
  [mk_xlat 1 "IIF_BGRACE"; mk_xlat 2 "IIF_IGRACE"; mk_xlat 4 "IIF_FLAGS"].

Definition QCMD_CMD (cmd : Z) : Z := Z.shiftr (u32 cmd) 8.
Definition QCMD_TYPE (cmd : Z) : Z := Z.land (u32 cmd) 0xff.

Definition Q_V1_QUOTAON : Z := 0x100.
Definition Q_V1_GETQUOTA : Z := 0x300.
Definition Q_V1_SETQUOTA : Z := 0x400.
Definition Q_V1_SETUSE : Z := 0x500.
Definition Q_SETQLIM : Z := 0x700.
Definition Q_V1_GETSTATS : Z := 0x800.
Definition Q_V2_GETQUOTA : Z := 0xd00.
Definition Q_V2_SETQUOTA : Z := 0xe00.
Definition Q_V2_SETUSE : Z := 0xf00.
Definition Q_V2_GETINFO : Z := 0x900.
Definition Q_V2_SETINFO : Z := 0xa00.
Definition Q_V2_GETSTATS : Z := 0x1100.
Definition Q_QUOTAON : Z := 0x800002.
Definition Q_GETFMT : Z := 0x800004.
Definition Q_GETINFO : Z := 0x800005.
Definition Q_SETINFO : Z := 0x800006.
Definition Q_GETQUOTA : Z := 0x800007.
Definition Q_SETQUOTA : Z := 0x800008.
Definition Q_XQUOTAON : Z := 0x5801.
Definition Q_XGETQUOTA : Z := 0x5803.
Definition Q_XSETQLIM : Z := 0x5804.
Definition Q_XGETQSTAT : Z := 0x5805.

(** "name=value, ..." of consecutive members of a struct. *)
Fixpoint members_text (l : list (string * string)) : string :=
  match l with
  | [] => ""
  | (name, v) :: l => name +:+ "=" +:+ v +:+ ", " +:+ members_text l
  end.

Definition u (n off : nat) (bs : list Z) : string := fmt_u (fld n off bs).
Definition d4 (off : nat) (bs : list Z) : string := fmt_d (fld_int off bs).

Section quota.
Context `{K : Kernel}.

(** A struct of [size] bytes that the kernel fills ([get]) or reads. *)
Definition quota_data (get : bool) (size data : Z) (show : list Z -> D unit) : D unit :=
  e ← ask;
  if get && syserror e then tp (hexl data)
  else
    dq ← umove_struct data size;
    match dq with
    | None => tp ("{???} " +:+ hexl data)
    | Some dq => show dq
    end.

(** struct if_dqblk *)
Definition show_if_dqblk (dq : list Z) : D unit :=
  e ← ask;
  _ ← tp ("{" +:+ members_text
        [("bhardlimit", u 8 0 dq); ("bsoftlimit", u 8 8 dq); ("curspace", u 8 16 dq);
         ("ihardlimit", u 8 24 dq); ("isoftlimit", u 8 32 dq); ("curinodes", u 8 40 dq)]);
  if d_abbrev e then tp "...}"
  else
    _ ← tp (members_text [("btime", u 8 48 dq); ("itime", u 8 56 dq)] +:+ "valid=");
    _ ← print_flags if_dqblk_valid (fld 4 64 dq) "QIF_???";
    tp "}".

(** struct v1_dqblk *)
Definition show_v1_dqblk (dq : list Z) : D unit :=
  tp ("{" +:+ members_text
        [("bhardlimit", u 4 0 dq); ("bsoftlimit", u 4 4 dq); ("curblocks", u 4 8 dq);
         ("ihardlimit", u 4 12 dq); ("isoftlimit", u 4 16 dq); ("curinodes", u 4 20 dq);
         ("btime", u 8 24 dq)] +:+ "itime=" +:+ u 8 32 dq +:+ "}").

(** struct v2_dqblk *)
Definition show_v2_dqblk (dq : list Z) : D unit :=
  tp ("{" +:+ members_text
        [("ihardlimit", u 4 0 dq); ("isoftlimit", u 4 4 dq); ("curinodes", u 4 8 dq);
         ("bhardlimit", u 4 12 dq); ("bsoftlimit", u 4 16 dq); ("curspace", u 8 24 dq);
         ("btime", u 8 32 dq)] +:+ "itime=" +:+ u 8 40 dq +:+ "}").

(** struct xfs_dqblk *)
Definition show_xfs_dqblk (dq : list Z) : D unit :=
  e ← ask;
  _ ← tp ("{version=" +:+ fmt_d (s8 (fld 1 0 dq)) +:+ ", flags=");
  _ ← print_flags xfs_dqblk_flags (s8 (fld 1 1 dq)) "XFS_???_QUOTA";
  _ ← tp (", fieldmask=" +:+ fmt_sx (fld 2 2 dq) +:+ ", " +:+ members_text
        [("id", u 4 4 dq); ("blk_hardlimit", u 8 8 dq); ("blk_softlimit", u 8 16 dq);
         ("ino_hardlimit", u 8 24 dq); ("ino_softlimit", u 8 32 dq); ("bcount", u 8 40 dq);
         ("icount", u 8 48 dq)]);
  if d_abbrev e then tp "...}"
  else
    tp (members_text
          [("itimer", d4 56 dq); ("btimer", d4 60 dq); ("iwarns", u 2 64 dq); ("bwarns", u 2 66 dq);
           ("rtbcount", u 8 88 dq); ("rtbtimer", d4 96 dq)] +:+ "rtbwarns=" +:+ u 2 100 dq +:+ "}").

Definition show_format (dq : list Z) : D unit :=
  _ ← tp "{"; _ ← print_xval quota_formats (fld 4 0 dq) "QFMT_VFS_???"; tp "}".

(** struct if_dqinfo *)
Definition show_if_dqinfo (dq : list Z) : D unit :=
  _ ← tp ("{" +:+ members_text [("bgrace", u 8 0 dq); ("igrace", u 8 8 dq);
                                ("flags", fmt_sx (fld 4 16 dq))] +:+ "valid=");
  _ ← print_flags if_dqinfo_valid (fld 4 20 dq) "IIF_???";
  tp "}".

(** struct v2_dqinfo *)
Definition show_v2_dqinfo (dq : list Z) : D unit :=
  tp ("{" +:+ members_text
        [("bgrace", u 4 0 dq); ("igrace", u 4 4 dq); ("flags", fmt_sx (fld 4 8 dq));
         ("blocks", u 4 12 dq); ("free_blk", u 4 16 dq)] +:+ "free_entry=" +:+ u 4 20 dq +:+ "}").

(** struct v1_dqstats; struct v2_dqstats has the version as a ninth member. *)
Definition dqstats (dq : list Z) : list (string * string) :=
  [("lookups", u 4 0 dq); ("drops", u 4 4 dq); ("reads", u 4 8 dq); ("writes", u 4 12 dq);
   ("cache_hits", u 4 16 dq); ("allocated_dquots", u 4 20 dq); ("free_dquots", u 4 24 dq)].
Definition show_v1_dqstats (dq : list Z) : D unit :=
  tp ("{" +:+ members_text (dqstats dq) +:+ "syncs=" +:+ u 4 28 dq +:+ "}").
Definition show_v2_dqstats (dq : list Z) : D unit :=
  tp ("{" +:+ members_text (dqstats dq ++ [("syncs", u 4 28 dq)]) +:+ "version=" +:+ u 4 32 dq +:+ "}").

(** struct xfs_dqstats *)
Definition show_xfs_dqstats (dq : list Z) : D unit :=
  e ← ask;
  _ ← tp ("{version=" +:+ fmt_d (s8 (fld 1 0 dq)) +:+ ", ");
  if d_abbrev e then tp "...}"
  else
    _ ← tp "flags=";
    _ ← print_flags xfs_quota_flags (fld 2 2 dq) "XFS_QUOTA_???";
    tp (", " +:+ members_text
          [("incoredqs", u 4 56 dq); ("u_ino", u 8 8 dq); ("u_nblks", u 8 16 dq);
           ("u_nextents", u 4 24 dq); ("g_ino", u 8 32 dq); ("g_nblks", u 8 40 dq);
           ("g_nextents", u 4 48 dq); ("btimelimit", d4 60 dq); ("itimelimit", d4 64 dq);
           ("rtbtimelimit", d4 68 dq); ("bwarnlimit", u 2 72 dq)] +:+
        "iwarnlimit=" +:+ u 2 74 dq +:+ "}").

Definition show_xfs_flag (dq : list Z) : D unit :=
  _ ← tp "{"; _ ← print_flags xfs_quota_flags (fld 4 0 dq) "XFS_QUOTA_???"; tp "}".

Definition decode_cmd_data (cmd data : Z) : D unit :=
  if (cmd =? Q_GETQUOTA) || (cmd =? Q_SETQUOTA) then
    quota_data (cmd =? Q_GETQUOTA) 72 data show_if_dqblk
  else if (cmd =? Q_V1_GETQUOTA) || (cmd =? Q_V1_SETQUOTA) then
    quota_data (cmd =? Q_V1_GETQUOTA) 40 data show_v1_dqblk
  else if (cmd =? Q_V2_GETQUOTA) || (cmd =? Q_V2_SETQUOTA) then
    quota_data (cmd =? Q_V2_GETQUOTA) 48 data show_v2_dqblk
  else if (cmd =? Q_XGETQUOTA) || (cmd =? Q_XSETQLIM) then
    quota_data (cmd =? Q_XGETQUOTA) 112 data show_xfs_dqblk
  else if cmd =? Q_GETFMT then quota_data true 4 data show_format
  else if (cmd =? Q_GETINFO) || (cmd =? Q_SETINFO) then
    quota_data (cmd =? Q_GETINFO) 24 data show_if_dqinfo
  else if (cmd =? Q_V2_GETINFO) || (cmd =? Q_V2_SETINFO) then
    quota_data (cmd =? Q_V2_GETINFO) 24 data show_v2_dqinfo
  else if cmd =? Q_V1_GETSTATS then quota_data true 32 data show_v1_dqstats
  else if cmd =? Q_V2_GETSTATS then quota_data true 36 data show_v2_dqstats
  else if cmd =? Q_XGETQSTAT then quota_data true 80 data show_xfs_dqstats
  else if cmd =? Q_XQUOTAON then quota_data false 4 data show_xfs_flag
  else tp (hexl data).

(** How the id is shown. *)
Definition quota_id (cmd id a2 : Z) : D unit :=
  if (cmd =? Q_V1_QUOTAON) || (cmd =? Q_QUOTAON) then print_xval quota_formats id "QFMT_VFS_???"
  else if existsb (Z.eqb cmd)
            [Q_V1_GETQUOTA; Q_V2_GETQUOTA; Q_GETQUOTA; Q_V1_SETQUOTA; Q_V2_SETQUOTA; Q_V1_SETUSE;
             Q_V2_SETUSE; Q_SETQLIM; Q_SETQUOTA; Q_XGETQUOTA; Q_XSETQLIM]
  then tp (fmt_u id)
  else tp (hexl a2).

Definition sys_quotactl : D Z :=
  e ← ask;
  a0 ← arg 0; a1 ← arg 1; a2 ← arg 2; a3 ← arg 3;
  let qcmd := u32 a0 in
  let cmd := QCMD_CMD qcmd in
  if negb (d_verbose e) then printargs (d_nargs e)
  else
    _ ← (if d_entering e then
           _ ← print_xval quotacmds cmd "Q_???"; _ ← tp "|";
           _ ← print_xval quotatypes (QCMD_TYPE qcmd) "???QUOTA"; _ ← tp ", ";
           _ ← printpath a1; _ ← tp ", ";
           _ ← quota_id cmd (u32 a2) a2;
           tp ", "
         else if a3 =? 0 then tp "NULL"
         else decode_cmd_data cmd a3);
    mret 0.
End quota.

(** ** The discipline *)

Section discipline.
Context `{K : Kernel} (e : denv) (Hok : env_ok e).
Lemma Prints_quota_data g size data show :
  (forall dq, Prints e (show dq)) -> Prints e (quota_data g size data show).
Proof. intros Hs. unfold quota_data. decodes. Qed.
Lemma Prints_decode_cmd_data cmd data : Prints e (decode_cmd_data cmd data).
Proof.
  unfold decode_cmd_data. decodes; apply Prints_quota_data; intros dq.
  - unfold show_if_dqblk. decodes.
  - unfold show_v1_dqblk. decodes.
  - unfold show_v2_dqblk. decodes.
  - unfold show_xfs_dqblk. decodes.
  - unfold show_format. decodes.
  - unfold show_if_dqinfo. decodes.
  - unfold show_v2_dqinfo. decodes.
  - unfold show_v1_dqstats. decodes.
  - unfold show_v2_dqstats. decodes.
  - unfold show_xfs_dqstats. decodes.
  - unfold show_xfs_flag. decodes.
Qed.
Lemma Prints_quota_id cmd id a : Prints e (quota_id cmd id a).
Proof. unfold quota_id. decodes. Qed.
End discipline.
#[export] Hint Resolve Prints_decode_cmd_data Prints_quota_id : decodes.
