(* ===== verification/Device.v ===== *)
(** * Ioctls of block devices, loop devices, SCSI devices and clocks (block.c,
      loop.c, scsi.c and print_rtc, rtc_ioctl of time.c)

    A decoder of ioctls is asked on entry and on exit of the call; its result is
    zero when it leaves the argument to sys_ioctl. *)

From S2P Require Import Prelude Xlat Quote Tracee Decode Io Args Stat Process.
Local Open Scope string_scope.
Local Open Scope list_scope.
Local Open Scope Z_scope.

(** ** Shared shapes *)

(** The NUL-terminated bytes from [off] on, as %s prints them; [None] when there
    is no NUL in what was read. *)
Definition c_str_at (off : nat) (bs : list Z) : option string :=
  let l := drop off bs in
  if bool_decide (0 ∈ l) then Some (string_of_bytes (until 0 l)) else None.
(** %.*s of a member of [n] bytes *)
Definition str_prec (off n : nat) (bs : list Z) : string :=
  string_of_bytes (until 0 (take n (drop off bs))).

Definition is_one_of (code : Z) (l : list Z) : bool := existsb (Z.eqb code) l.

Section shapes.
Context `{K : Kernel}.

(** [if (umove(tcp, arg, &obj) < 0) tprintf(", %#lx", arg); else ...] *)
Definition arg_struct (addr n : Z) (show : list Z -> D unit) : D unit :=
  bs ← umove_struct addr n;
  match bs with None => tp (", " +:+ hexl addr) | Some bs => show bs end.
(** The same on exit, where the call may have failed. *)
Definition res_struct (addr n : Z) (show : list Z -> D unit) : D unit :=
  e ← ask;
  if syserror e then tp (", " +:+ hexl addr) else arg_struct addr n show.

(** [if (!verbose(tcp) || umove(tcp, arg, &obj) < 0) return 0; ...; return 1] *)
Definition shown_struct (addr n : Z) (show : list Z -> D unit) : D Z :=
  e ← ask;
  if negb (d_verbose e) then mret 0
  else
    bs ← umove_struct addr n;
    match bs with None => mret 0 | Some bs => _ ← show bs; mret 1 end.
End shapes.

Definition blkpg_ops : list xlat :=
  [mk_xlat 1 "BLKPG_ADD_PARTITION"; mk_xlat 2 "BLKPG_DEL_PARTITION"].

Definition loop_flags_options : list xlat :=
  [mk_xlat 1 "LO_FLAGS_READ_ONLY"; mk_xlat 4 "LO_FLAGS_AUTOCLEAR";
   mk_xlat 8 "LO_FLAGS_PARTSCAN"].

Definition loop_crypt_type_options : list xlat :=
  [mk_xlat 0 "LO_CRYPT_NONE"; mk_xlat 1 "LO_CRYPT_XOR"; mk_xlat 2 "LO_CRYPT_DES";
   mk_xlat 3 "LO_CRYPT_FISH2"; mk_xlat 4 "LO_CRYPT_BLOW"; mk_xlat 5 "LO_CRYPT_CAST128";
   mk_xlat 6 "LO_CRYPT_IDEA"; mk_xlat 9 "LO_CRYPT_DUMMY"; mk_xlat 10 "LO_CRYPT_SKIPJACK";
   mk_xlat 18 "LO_CRYPT_CRYPTOAPI"].

Definition sg_io_dxfer_direction : list xlat :=
  [mk_xlat (-1) "SG_DXFER_NONE"; mk_xlat (-2) "SG_DXFER_TO_DEV";
   mk_xlat (-3) "SG_DXFER_FROM_DEV"; mk_xlat (-4) "SG_DXFER_TO_FROM_DEV"].

Definition BLKRASET : Z := 0x1262.
Definition BLKFRASET : Z := 0x1264.
Definition BLKROSET : Z := 0x125d.
Definition BLKBSZSET : Z := 0x40081271.
Definition BLKSECTGET : Z := 0x1267.
Definition BLKROGET : Z := 0x125e.
Definition BLKBSZGET : Z := 0x80081270.
Definition BLKSSZGET : Z := 0x1268.
Definition BLKALIGNOFF : Z := 0x127a.
Definition BLKPBSZGET : Z := 0x127b.
Definition BLKIOMIN : Z := 0x1278.
Definition BLKIOOPT : Z := 0x1279.
Definition BLKDISCARDZEROES : Z := 0x127c.
Definition BLKRAGET : Z := 0x1263.
Definition BLKFRAGET : Z := 0x1265.
Definition BLKGETSIZE : Z := 0x1260.
Definition BLKGETSIZE64 : Z := 0x80081272.
Definition BLKDISCARD : Z := 0x1277.
Definition BLKSECDISCARD : Z := 0x127d.
Definition HDIO_GETGEO : Z := 0x301.
Definition BLKPG : Z := 0x1269.
Definition BLKTRACESETUP : Z := 0xc0481273.
Definition LOOP_SET_STATUS : Z := 0x4c02.
Definition LOOP_GET_STATUS : Z := 0x4c03.
Definition LOOP_SET_STATUS64 : Z := 0x4c04.
Definition LOOP_GET_STATUS64 : Z := 0x4c05.
Definition LOOP_CLR_FD : Z := 0x4c01.
Definition LOOP_SET_CAPACITY : Z := 0x4c07.
Definition LOOP_CTL_GET_FREE : Z := 0x4c82.
Definition SG_IO : Z := 0x2285.
Definition RTC_ALM_SET : Z := 0x40247007.
Definition RTC_SET_TIME : Z := 0x4024700a.
Definition RTC_ALM_READ : Z := 0x80247008.
Definition RTC_RD_TIME : Z := 0x80247009.
Definition RTC_IRQP_SET : Z := 0x4008700c.
Definition RTC_EPOCH_SET : Z := 0x4008700e.
Definition RTC_IRQP_READ : Z := 0x8008700b.
Definition RTC_EPOCH_READ : Z := 0x8008700d.
Definition RTC_WKALM_SET : Z := 0x4028700f.
Definition RTC_WKALM_RD : Z := 0x80287010.
Definition LO_NAME_SIZE : Z := 64.
Definition LO_KEY_SIZE : Z := 32.
Definition LO_CRYPT_NONE : Z := 0.
Definition SG_DXFER_TO_DEV : Z := -2.
Definition SG_DXFER_FROM_DEV : Z := -3.
Definition SG_DXFER_TO_FROM_DEV : Z := -4.

Section device.
Context `{K : Kernel}.

(** ** Block devices *)

(** struct blkpg_ioctl_arg and the struct blkpg_partition it points to *)
Definition print_blkpg_req (blkpg : list Z) : D unit :=
  let data := fld 8 16 blkpg in
  _ ← tp "{";
  _ ← print_xval blkpg_ops (fld 4 0 blkpg) "BLKPG_???";
  _ ← tp (", flags=" +:+ fmt_d (fld_int 4 blkpg) +:+ ", datalen=" +:+ fmt_d (fld_int 8 blkpg) +:+ ", ");
  p ← umove_struct data 152;
  tp match p with
     | None => hexl data +:+ "}"
     | Some p =>
         "{start=" +:+ fmt_d (fld_long 0 p) +:+ ", length=" +:+ fmt_d (fld_long 8 p) +:+ ", pno=" +:+
         fmt_d (fld_int 16 p) +:+ ", devname=" +:+ dquote +:+ str_prec 20 64 p +:+ dquote +:+
         ", volname=" +:+ dquote +:+ str_prec 84 64 p +:+ dquote +:+ "}}"
     end.

(** struct hd_geometry *)
Definition geometry_text (geo : list Z) : string :=
  ", {heads=" +:+ fmt_u (fld 1 0 geo) +:+ ", sectors=" +:+ fmt_u (fld 1 1 geo) +:+ ", cylinders=" +:+
  fmt_u (fld 2 2 geo) +:+ ", start=" +:+ fmt_u (fld 8 8 geo) +:+ "}".

(** struct blk_user_trace_setup *)
Definition trace_setup_text (buts : list Z) : string :=
  ", {act_mask=" +:+ fmt_u (fld 2 32 buts) +:+ ", buf_size=" +:+ fmt_u (fld 4 36 buts) +:+
  ", buf_nr=" +:+ fmt_u (fld 4 40 buts) +:+ ", start_lba=" +:+ fmt_u (fld 8 48 buts) +:+
  ", end_lba=" +:+ fmt_u (fld 8 56 buts) +:+ ", pid=" +:+ fmt_u (fld 4 64 buts) +:+ "}".

Definition block_ioctl (code a : Z) : D Z :=
  _ ← (if is_one_of code [BLKRASET; BLKFRASET] then if_entering (tp (", " +:+ fmt_ld a))
       else if is_one_of code [BLKROSET; BLKBSZSET] then
         if_entering (arg_struct a 4 (fun v => tp (", " +:+ fmt_d (fld_int 0 v))))
       else if code =? BLKSECTGET then
         if_exiting (res_struct a 2 (fun v => tp (", " +:+ fmt_u (fld 2 0 v))))
       else if is_one_of code [BLKROGET; BLKBSZGET; BLKSSZGET; BLKALIGNOFF] then
         if_exiting (res_struct a 4 (fun v => tp (", " +:+ fmt_d (fld_int 0 v))))
       else if is_one_of code [BLKPBSZGET; BLKIOMIN; BLKIOOPT; BLKDISCARDZEROES] then
         if_exiting (res_struct a 4 (fun v => tp (", " +:+ fmt_u (fld 4 0 v))))
       else if is_one_of code [BLKRAGET; BLKFRAGET] then
         if_exiting (res_struct a 8 (fun v => tp (", " +:+ fmt_d (fld_long 0 v))))
       else if is_one_of code [BLKGETSIZE; BLKGETSIZE64] then
         if_exiting (res_struct a 8 (fun v => tp (", " +:+ fmt_u (fld 8 0 v))))
       else if is_one_of code [BLKDISCARD; BLKSECDISCARD] then
         if_entering (arg_struct a 16 (fun r =>
           tp (", {" +:+ fmt_x (fld 8 0 r) +:+ ", " +:+ fmt_x (fld 8 8 r) +:+ "}")))
       else if code =? HDIO_GETGEO then if_exiting (res_struct a 16 (fun g => tp (geometry_text g)))
       else if code =? BLKPG then
         if_entering (arg_struct a 24 (fun r => _ ← tp ", "; print_blkpg_req r))
       else if code =? BLKTRACESETUP then
         _ ← if_entering (arg_struct a 72 (fun b => tp (trace_setup_text b)));
         if_exiting (res_struct a 72 (fun b =>
           tp (", {name=" +:+ dquote +:+ str_prec 0 32 b +:+ dquote +:+ "}")))
       else if_entering (tp (", " +:+ hexl a)));
  mret 1.

(** ** Loop devices *)

(** string_quote of [size] bytes at [off] into the local buffer. *)
Definition quoted_member (label : string) (off : nat) (len size : Z) (bs : list Z) : D unit :=
  e ← ask;
  match string_quote (xflag e) (drop off bs) len size with
  | None => abort
  | Some (s, _) => tp (", " +:+ label +:+ "=" +:+ s)
  end.

(** struct loop_info *)
Definition print_loop_info (info : list Z) : D unit :=
  e ← ask;
  let type := fld_int 36 info in
  let encrypted := negb (d_abbrev e) || negb (type =? LO_CRYPT_NONE) in
  _ ← tp (", {number=" +:+ fmt_d (fld_int 0 info));
  _ ← (if d_abbrev e then mret tt
       else tp (", device=" +:+ fmt_sx (fld 8 8 info) +:+ ", inode=" +:+ fmt_u (fld 8 16 info) +:+
                ", rdevice=" +:+ fmt_sx (fld 8 24 info)));
  _ ← tp (", offset=" +:+ fmt_sx (fld 4 32 info));
  _ ← (if encrypted then
         _ ← tp ", encrypt_type=";
         _ ← print_xval loop_crypt_type_options type "LO_CRYPT_???";
         tp (", encrypt_key_size=" +:+ fmt_d (fld_int 40 info))
       else mret tt);
  _ ← tp ", flags=";
  _ ← print_flags loop_flags_options (fld 4 44 info) "LO_FLAGS_???";
  _ ← quoted_member "name" 48 (-1) LO_NAME_SIZE info;
  _ ← (if encrypted then quoted_member "encrypt_key" 112 0 LO_KEY_SIZE info else mret tt);
  if d_abbrev e then tp ", ...}"
  else
    tp (", init={" +:+ fmt_sx (fld 8 144 info) +:+ ", " +:+ fmt_sx (fld 8 152 info) +:+ "}, reserved={" +:+
        String.concat ", " ((fun i => fmt_sx (u32 (s8 (fld 1 (160 + i) info)))) <$> seq 0 4) +:+ "}}").

(** struct loop_info64 *)
Definition print_loop_info64 (info : list Z) : D unit :=
  e ← ask;
  let type := fld 4 44 info in
  let encrypted := negb (d_abbrev e) || negb (type =? LO_CRYPT_NONE) in
  _ ← tp ", {";
  _ ← tp (if d_abbrev e then
            "offset=" +:+ fmt_sx (fld 8 24 info) +:+ ", number=" +:+ fmt_u (fld 4 40 info)
          else
            "device=" +:+ fmt_u (fld 8 0 info) +:+ ", inode=" +:+ fmt_u (fld 8 8 info) +:+
            ", rdevice=" +:+ fmt_u (fld 8 16 info) +:+ ", offset=" +:+ fmt_sx (fld 8 24 info) +:+
            ", sizelimit=" +:+ fmt_u (fld 8 32 info) +:+ ", number=" +:+ fmt_u (fld 4 40 info));
  _ ← (if encrypted then
         _ ← tp ", encrypt_type=";
         _ ← print_xval loop_crypt_type_options type "LO_CRYPT_???";
         tp (", encrypt_key_size=" +:+ fmt_u (fld 4 48 info))
       else mret tt);
  _ ← tp ", flags=";
  _ ← print_flags loop_flags_options (fld 4 52 info) "LO_FLAGS_???";
  _ ← quoted_member "file_name" 56 (-1) LO_NAME_SIZE info;
  _ ← (if encrypted then
         _ ← quoted_member "crypt_name" 120 (-1) LO_NAME_SIZE info;
         quoted_member "encrypt_key" 184 0 LO_KEY_SIZE info
       else mret tt);
  if d_abbrev e then tp ", ...}"
  else tp (", init={" +:+ fmt_sx (fld 8 216 info) +:+ ", " +:+ fmt_sx (fld 8 224 info) +:+ "}}").

Definition loop_ioctl (code a : Z) : D Z :=
  e ← ask;
  if d_entering e then mret 0
  else if is_one_of code [LOOP_SET_STATUS; LOOP_GET_STATUS] then shown_struct a 168 print_loop_info
  else if is_one_of code [LOOP_SET_STATUS64; LOOP_GET_STATUS64] then shown_struct a 232 print_loop_info64
  else if is_one_of code [LOOP_CLR_FD; LOOP_SET_CAPACITY; LOOP_CTL_GET_FREE] then mret 1
  else mret 0.

(** ** SCSI generic *)

(** print_sg_io_buffer: the buffer has [allocated] bytes and its first one is
    printed in any case. *)
Definition print_sg_io_buffer (addr len : Z) : D unit :=
  e ← ask;
  if len =? 0 then mret tt
  else
    let allocated := if u32 len >? max_strlen e then s32 (max_strlen e) else len in
    r ← (if len <? 0 then mret None else umove_struct addr allocated);
    match r with
    | None => tp (fmt_p addr)
    | Some [] => abort
    | Some buf =>
        _ ← tp (String.concat ", " (hex2 <$> buf));
        if allocated =? len then mret tt else tp ", ..."
    end.

(** The data of a transfer (struct sg_io_hdr) *)
Definition print_sg_data (sg_io : list Z) : D unit :=
  _ ← tp (", data[" +:+ fmt_u (fld 4 12 sg_io) +:+ "]=[");
  _ ← printstr (fld 8 16 sg_io) (fld 4 12 sg_io);
  tp "]".

Definition print_sg_io_req (sg_io : list Z) : D unit :=
  let dir := fld_int 4 sg_io in
  _ ← tp ("{'" +:+ String (chr (u8 (fld 4 0 sg_io))) "', ");
  _ ← print_xval sg_io_dxfer_direction dir "SG_DXFER_???";
  _ ← tp (", cmd[" +:+ fmt_u (fld 1 8 sg_io) +:+ "]=[");
  _ ← print_sg_io_buffer (fld 8 24 sg_io) (fld 1 8 sg_io);
  _ ← tp ("], mx_sb_len=" +:+ fmt_d (fld 1 9 sg_io) +:+ ", iovec_count=" +:+ fmt_d (fld 2 10 sg_io) +:+
          ", dxfer_len=" +:+ fmt_u (fld 4 12 sg_io) +:+ ", timeout=" +:+ fmt_u (fld 4 40 sg_io) +:+
          ", flags=" +:+ fmt_sx (fld 4 44 sg_io));
  if (dir =? SG_DXFER_TO_DEV) || (dir =? SG_DXFER_TO_FROM_DEV) then print_sg_data sg_io else mret tt.

Definition print_sg_io_res (sg_io : list Z) : D unit :=
  let dir := fld_int 4 sg_io in
  _ ← (if (dir =? SG_DXFER_FROM_DEV) || (dir =? SG_DXFER_TO_FROM_DEV) then print_sg_data sg_io else mret tt);
  _ ← tp (", status=" +:+ hex2 (fld 1 64 sg_io) +:+ ", masked_status=" +:+ hex2 (fld 1 65 sg_io) +:+
          ", sb[" +:+ fmt_u (fld 1 67 sg_io) +:+ "]=[");
  _ ← print_sg_io_buffer (fld 8 32 sg_io) (fld 1 67 sg_io);
  tp ("], host_status=" +:+ fmt_sx (fld 2 68 sg_io) +:+ ", driver_status=" +:+ fmt_sx (fld 2 70 sg_io) +:+
      ", resid=" +:+ fmt_d (fld_int 72 sg_io) +:+ ", duration=" +:+ fmt_d (fld_int 76 sg_io) +:+
      ", info=" +:+ fmt_sx (fld 4 80 sg_io) +:+ "}").

Definition scsi_ioctl (code a : Z) : D Z :=
  e ← ask;
  _ ← (if code =? SG_IO then
         if d_entering e then arg_struct a 88 (fun sg_io => _ ← tp ", "; print_sg_io_req sg_io)
         else
           sg_io ← (if syserror e then mret None else umove_struct a 88);
           match sg_io with Some sg_io => print_sg_io_res sg_io | None => tp "}" end
       else if_entering (tp (", " +:+ hexl a)));
  mret 1.

(** ** Real time clocks *)

(** struct rtc_time at [off]: nine ints *)
Definition print_rtc (off : nat) (rt : list Z) : D unit :=
  e ← ask;
  let f k := fmt_d (fld_int (off + 4 * k) rt) in
  _ ← tp ("{tm_sec=" +:+ f 0%nat +:+ ", tm_min=" +:+ f 1%nat +:+ ", tm_hour=" +:+ f 2%nat +:+
          ", tm_mday=" +:+ f 3%nat +:+ ", tm_mon=" +:+ f 4%nat +:+ ", tm_year=" +:+ f 5%nat +:+ ", ");
  tp (if d_abbrev e then "...}"
      else "tm_wday=" +:+ f 6%nat +:+ ", tm_yday=" +:+ f 7%nat +:+ ", tm_isdst=" +:+ f 8%nat +:+ "}").

(** struct rtc_wkalrm *)
Definition print_wkalrm (wk : list Z) : D unit :=
  _ ← tp (", {enabled=" +:+ fmt_d (fld 1 0 wk) +:+ ", pending=" +:+ fmt_d (fld 1 1 wk) +:+ ", ");
  _ ← print_rtc 4 wk;
  tp "}".

Definition rtc_ioctl (code a : Z) : D Z :=
  _ ← (if is_one_of code [RTC_ALM_SET; RTC_SET_TIME] then
         if_entering (arg_struct a 36 (fun rt => _ ← tp ", "; print_rtc 0 rt))
       else if is_one_of code [RTC_ALM_READ; RTC_RD_TIME] then
         if_exiting (res_struct a 36 (fun rt => _ ← tp ", "; print_rtc 0 rt))
       else if is_one_of code [RTC_IRQP_SET; RTC_EPOCH_SET] then if_entering (tp (", " +:+ fmt_u a))
       else if is_one_of code [RTC_IRQP_READ; RTC_EPOCH_READ] then if_exiting (tp (", " +:+ fmt_u a))
       else if code =? RTC_WKALM_SET then if_entering (arg_struct a 40 print_wkalrm)
       else if code =? RTC_WKALM_RD then if_exiting (res_struct a 40 print_wkalrm)
       else if_entering (tp (", " +:+ hexl a)));
  mret 1.
End device.

(** ** The discipline *)

(** An ioctl decoder says whether it has shown the argument. *)
Definition shown_or_not (r : Z) : Prop := r = 0 \/ r = 1.
Lemma shown_or_not_0 : shown_or_not 0. Proof. by left. Qed.
Lemma shown_or_not_1 : shown_or_not 1. Proof. by right. Qed.
#[export] Hint Resolve shown_or_not_0 shown_or_not_1 : decodes.

Section discipline.
Context `{K : Kernel} (e : denv) (Hok : env_ok e).

Lemma Prints_arg_struct a n show :
  0 <= n -> (forall bs, fills n bs -> Prints e (show bs)) -> Prints e (arg_struct a n show).
Proof.
  intros Hn Hs. unfold arg_struct. eapply Decodes_bind; [by apply Decodes_umove_struct|].
  intros [bs|] Hbs; [apply Hs; auto|decodes].
Qed.
Lemma Prints_res_struct a n show :
  0 <= n -> (forall bs, fills n bs -> Prints e (show bs)) -> Prints e (res_struct a n show).
Proof. intros Hn Hs. unfold res_struct. decodes. by apply Prints_arg_struct. Qed.
Lemma Decodes_shown_struct a n show :
  0 <= n -> (forall bs, fills n bs -> Prints e (show bs)) ->
  Decodes e (shown_struct a n show) shown_or_not.
Proof.
  intros Hn Hs. unfold shown_struct. apply Decodes_ask. destruct (negb _); [decodes|].
  eapply Decodes_bind; [by apply Decodes_umove_struct|].
  intros [bs|] Hbs; [|decodes]. apply Decodes_seq; [apply Hs; auto|decodes].
Qed.
End discipline.

(** Decoders of structures, down to what is printed of the bytes. *)
Ltac decodes_structs :=
  repeat first
    [ progress decodes
    | apply Prints_arg_struct; [lia|intros ? _]
    | apply Prints_res_struct; [lia|intros ? _]
    | apply Decodes_shown_struct; [lia|intros ? _] ].

Section device_discipline.
Context `{K : Kernel} (e : denv) (Hok : env_ok e).

Lemma Prints_print_blkpg_req b : Prints e (print_blkpg_req b).
Proof. unfold print_blkpg_req. decodes. Qed.
Hint Resolve Prints_print_blkpg_req : decodes.
Lemma Decodes_block_ioctl code a : Decodes e (block_ioctl code a) shown_or_not.
Proof. unfold block_ioctl. apply Decodes_seq; decodes_structs. Qed.

(** string_quote of a member of a structure that has been read as a whole *)
Lemma Prints_quoted_member label off len size n bs :
  fills n bs -> Z.of_nat off + size <= n -> 0 < size ->
  Prints e (quoted_member label off len size bs).
Proof.
  intros Hf Hn Hs. unfold fills in Hf. unfold quoted_member. decodes.
  destruct (string_quote_total (xflag e) (drop off bs) len size) as [[out r] ->];
    rewrite ?length_drop; [lia..|decodes].
Qed.
Lemma Prints_print_loop_info b : fills 168 b -> Prints e (print_loop_info b).
Proof.
  intros Hb. unfold print_loop_info, LO_NAME_SIZE, LO_KEY_SIZE. decodes;
    by eapply Prints_quoted_member.
Qed.
Lemma Prints_print_loop_info64 b : fills 232 b -> Prints e (print_loop_info64 b).
Proof.
  intros Hb. unfold print_loop_info64, LO_NAME_SIZE, LO_KEY_SIZE. decodes;
    by eapply Prints_quoted_member.
Qed.
Lemma Decodes_loop_ioctl code a : Decodes e (loop_ioctl code a) shown_or_not.
Proof.
  unfold loop_ioctl. decodes; apply Decodes_shown_struct;
    auto using Prints_print_loop_info, Prints_print_loop_info64 with lia.
Qed.

Lemma Prints_print_rtc off rt : Prints e (print_rtc off rt).
Proof. unfold print_rtc. decodes. Qed.
Hint Resolve Prints_print_rtc : decodes.
Lemma Prints_print_wkalrm wk : Prints e (print_wkalrm wk).
Proof. unfold print_wkalrm. decodes. Qed.
Hint Resolve Prints_print_wkalrm : decodes.
Lemma Decodes_rtc_ioctl code a : Decodes e (rtc_ioctl code a) shown_or_not.
Proof. unfold rtc_ioctl. apply Decodes_seq; decodes_structs. Qed.

(** The first byte of a SCSI buffer is there when strings have a length. *)
Lemma Prints_print_sg_io_buffer a len : 0 < max_strlen e -> Prints e (print_sg_io_buffer a len).
Proof.
  intros Hm. destruct Hok. unfold print_sg_io_buffer. apply Decodes_ask; cbv beta.
  destruct (Z.eqb_spec len 0); [decodes|]. cbv zeta. destruct (Z.ltb_spec len 0) as [|Hlen].
  { apply Decodes_bind with (fun r => r = None); [by apply Decodes_ret|]. intros ? ->. decodes. }
  set (alloc := if _ >? _ then _ else _).
  assert (Hn : 0 < alloc) by (subst alloc; destruct (_ >? _); wrap_lia). clearbody alloc.
  eapply Decodes_bind; [apply Decodes_umove_struct; lia|]. intros [bs|] Hbs; [|decodes].
  specialize (Hbs bs eq_refl). unfold fills in Hbs. destruct bs as [|b bs]; [simpl in Hbs; lia|decodes].
Qed.
Hint Resolve Prints_print_sg_io_buffer : decodes.
Lemma Prints_print_sg_data sg : Prints e (print_sg_data sg).
Proof. unfold print_sg_data. decodes. Qed.
Hint Resolve Prints_print_sg_data : decodes.
Lemma Decodes_scsi_ioctl code a :
  code <> SG_IO \/ 0 < max_strlen e -> Decodes e (scsi_ioctl code a) shown_or_not.
Proof.
  intros H. unfold scsi_ioctl. destruct (Z.eqb_spec code SG_IO) as [->|Hne].
  - destruct H as [H|H]; [done|]. apply Decodes_ask, Decodes_seq; [|decodes].
    destruct (d_entering e).
    + apply Prints_arg_struct; [lia|]. intros bs _. unfold print_sg_io_req. decodes.
    + decodes. unfold print_sg_io_res. decodes.
  - decodes.
Qed.
End device_discipline.
#[export] Hint Resolve Decodes_block_ioctl Decodes_loop_ioctl Decodes_rtc_ioctl : decodes.
