(* ===== verification/Sockio.v ===== *)
(** * Ioctls of sockets and network interfaces (sock.c)

    [vla_ok n] says that an array of [n] bytes fits on the stack of the tracer:
    the buffer for the list of interfaces is a variable-length array whose size
    the tracee states. *)

From S2P Require Import Prelude Xlat Quote Tracee Decode Io Args Process Inet Net Device.
Local Open Scope string_scope.
Local Open Scope list_scope.
Local Open Scope Z_scope.

Definition iffflags : list xlat :=
  [mk_xlat 1 "IFF_UP"; mk_xlat 2 "IFF_BROADCAST"; mk_xlat 4 "IFF_DEBUG";
   mk_xlat 8 "IFF_LOOPBACK"; mk_xlat 16 "IFF_POINTOPOINT"; mk_xlat 32 "IFF_NOTRAILERS";
   mk_xlat 64 "IFF_RUNNING"; mk_xlat 0x80 "IFF_NOARP"; mk_xlat 0x100 "IFF_PROMISC";
   mk_xlat 0x200 "IFF_ALLMULTI"; mk_xlat 0x400 "IFF_MASTER"; mk_xlat 0x800 "IFF_SLAVE";
   mk_xlat 0x1000 "IFF_MULTICAST"; mk_xlat 0x2000 "IFF_PORTSEL";
   mk_xlat 0x4000 "IFF_AUTOMEDIA"].

Definition FIOSETOWN : Z := 0x8901.
Definition FIOGETOWN : Z := 0x8903.
Definition SIOCSPGRP : Z := 0x8902.
Definition SIOCGPGRP : Z := 0x8904.
Definition SIOCATMARK : Z := 0x8905.
Definition SIOCGIFNAME : Z := 0x8910.
Definition SIOCSIFNAME : Z := 0x8923.
Definition SIOCGIFINDEX : Z := 0x8933.
Definition SIOCGIFADDR : Z := 0x8915.
Definition SIOCSIFADDR : Z := 0x8916.
Definition SIOCGIFDSTADDR : Z := 0x8917.
Definition SIOCSIFDSTADDR : Z := 0x8918.
Definition SIOCGIFBRDADDR : Z := 0x8919.
Definition SIOCSIFBRDADDR : Z := 0x891a.
Definition SIOCGIFNETMASK : Z := 0x891b.
Definition SIOCSIFNETMASK : Z := 0x891c.
Definition SIOCGIFFLAGS : Z := 0x8913.
Definition SIOCSIFFLAGS : Z := 0x8914.
Definition SIOCGIFMETRIC : Z := 0x891d.
Definition SIOCSIFMETRIC : Z := 0x891e.
Definition SIOCGIFMTU : Z := 0x8921.
Definition SIOCSIFMTU : Z := 0x8922.
Definition SIOCGIFSLAVE : Z := 0x8929.
Definition SIOCSIFSLAVE : Z := 0x8930.
Definition SIOCGIFHWADDR : Z := 0x8927.
Definition SIOCSIFHWADDR : Z := 0x8924.
Definition SIOCGIFTXQLEN : Z := 0x8942.
Definition SIOCSIFTXQLEN : Z := 0x8943.
Definition SIOCGIFMAP : Z := 0x8970.
Definition SIOCSIFMAP : Z := 0x8971.
Definition SIOCGIFCONF : Z := 0x8912.

(** The codes whose argument is a struct ifreq. *)
Definition ifreq_codes : list Z :=
  [SIOCGIFNAME; SIOCSIFNAME; SIOCGIFINDEX; SIOCGIFADDR; SIOCSIFADDR; SIOCGIFDSTADDR; SIOCSIFDSTADDR;
   SIOCGIFBRDADDR; SIOCSIFBRDADDR; SIOCGIFNETMASK; SIOCSIFNETMASK; SIOCGIFFLAGS; SIOCSIFFLAGS;
   SIOCGIFMETRIC; SIOCSIFMETRIC; SIOCGIFMTU; SIOCSIFMTU; SIOCGIFSLAVE; SIOCSIFSLAVE; SIOCGIFHWADDR;
   SIOCSIFHWADDR; SIOCGIFTXQLEN; SIOCSIFTXQLEN; SIOCGIFMAP; SIOCSIFMAP].

(** struct ifreq: the name, then a union at offset 16. *)
Definition sizeof_ifreq : Z := 40.
Definition ifr_addr_data : Z := 18.

Section sockio.
Context `{K : Kernel} (vla_ok : Z -> bool).

(** %s of the name at [off] of an array of ifreq; the member has no room for
    a NUL when it is full, and the text goes on behind it. *)
Definition tp_name (off : nat) (bs : list Z) : D unit :=
  match c_str_at off bs with
  | None => abort
  | Some s => tp (dquote +:+ s +:+ dquote)
  end.

(** print_addr of the ifreq at [off] *)
Definition print_addr (addr : Z) (off : nat) (ifr : list Z) : D unit :=
  if fld 2 (off + 16) ifr =? AF_INET then
    tp ("inet_addr(" +:+ dquote +:+ inet_ntoa (off + 20) ifr +:+ dquote +:+ ")")
  else printstr (u64 addr) 14.

(** The name of the address member; the cases of the switch fall through. *)
Definition addr_member (code : Z) : option string :=
  if is_one_of code [SIOCGIFADDR; SIOCSIFADDR] then Some "ifr_addr"
  else if is_one_of code [SIOCGIFDSTADDR; SIOCSIFDSTADDR] then Some "ifr_dstaddr"
  else if is_one_of code [SIOCGIFBRDADDR; SIOCSIFBRDADDR] then Some "ifr_broadaddr"
  else if is_one_of code [SIOCGIFNETMASK; SIOCSIFNETMASK] then Some "ifr_netmask"
  else None.

Definition hwaddr_text (ifr : list Z) : string :=
  String.concat ":" (hex2 <$> take 6 (drop 18 ifr)).

(** struct ifmap at offset 16 *)
Definition ifmap_text (ifr : list Z) : string :=
  "ifr_map={mem_start=" +:+ fmt_sx (fld 8 16 ifr) +:+ ", mem_end=" +:+ fmt_sx (fld 8 24 ifr) +:+
  ", base_addr=" +:+ fmt_sx (fld 2 32 ifr) +:+ ", irq=" +:+ fmt_u (fld 1 34 ifr) +:+
  ", dma=" +:+ fmt_u (fld 1 35 ifr) +:+ ", port=" +:+ fmt_u (fld 1 36 ifr) +:+ "}".

(** The inner switch. *)
Definition ifreq_member (code a2 : Z) (ifr : list Z) : D unit :=
  match addr_member code with
  | Some str =>
      _ ← tp (str +:+ "={");
      _ ← print_xval addrfams (fld 2 16 ifr) "AF_???";
      _ ← tp ", ";
      _ ← print_addr (a2 + ifr_addr_data) 0 ifr;
      tp "}"
  | None =>
      if code =? SIOCGIFINDEX then tp ("ifr_index=" +:+ fmt_d (fld_int 16 ifr))
      else if is_one_of code [SIOCGIFHWADDR; SIOCSIFHWADDR] then tp ("ifr_hwaddr=" +:+ hwaddr_text ifr)
      else if is_one_of code [SIOCGIFFLAGS; SIOCSIFFLAGS] then
        _ ← tp "ifr_flags="; print_flags iffflags (fld_short 16 ifr) "IFF_???"
      else if is_one_of code [SIOCGIFMETRIC; SIOCSIFMETRIC] then tp ("ifr_metric=" +:+ fmt_d (fld_int 16 ifr))
      else if is_one_of code [SIOCGIFMTU; SIOCSIFMTU] then tp ("ifr_mtu=" +:+ fmt_d (fld_int 16 ifr))
      else if is_one_of code [SIOCGIFSLAVE; SIOCSIFSLAVE] then _ ← tp "ifr_slave="; tp_name 16 ifr
      else if is_one_of code [SIOCGIFTXQLEN; SIOCSIFTXQLEN] then tp ("ifr_qlen=" +:+ fmt_d (fld_int 16 ifr))
      else if is_one_of code [SIOCGIFMAP; SIOCSIFMAP] then tp (ifmap_text ifr)
      else mret tt
  end.

Definition print_ifreq (code a2 : Z) : D unit :=
  e ← ask;
  let named := is_one_of code [SIOCGIFNAME; SIOCSIFNAME] in
  ifr ← umove_struct a2 sizeof_ifreq;
  match ifr with
  | None => tp (", " +:+ hexl a2)
  | Some ifr =>
      let index := ", {ifr_index=" +:+ fmt_d (fld_int 16 ifr) +:+ ", ifr_name=" in
      if syserror e then
        if named then tp (index +:+ "???}")
        else _ ← tp ", {ifr_name="; _ ← tp_name 0 ifr; tp ", ???}"
      else if named then _ ← tp index; _ ← tp_name 0 ifr; tp "}"
      else
        _ ← tp ", {ifr_name="; _ ← tp_name 0 ifr; _ ← tp ", ";
        _ ← ifreq_member code a2 ifr;
        tp "}"
  end.

(** The loop over the interfaces; the addresses are taken relative to the
    struct ifconf, not to its buffer. *)
Fixpoint ifconf_loop (n : nat) (i a2 : Z) (ifra : list Z) : D unit :=
  match n with
  | O => mret tt
  | S n =>
      e ← ask;
      let off := Z.to_nat (sizeof_ifreq * i) in
      _ ← (if 0 <? i then tp ", " else mret tt);
      _ ← tp "{"; _ ← tp_name off ifra; _ ← tp ", {";
      _ ← (if d_verbose e then
             _ ← print_xval addrfams (fld 2 (off + 16) ifra) "AF_???";
             _ ← tp ", ";
             print_addr (a2 + ifr_addr_data + sizeof_ifreq * i) off ifra
           else tp "...");
      _ ← tp "}}";
      ifconf_loop n (i + 1) a2 ifra
  end.

(** struct ifconf: length and buffer *)
Definition sizeof_ifconf : Z := 16.

Definition ifconf_exit (a2 : Z) : D unit :=
  e ← ask;
  ifc ← umove_struct a2 sizeof_ifconf;
  match ifc with
  | None => tp "???}"
  | Some ifc =>
      let len := fld_int 0 ifc in
      let buf := fld 8 8 ifc in
      _ ← tp (fmt_d len +:+ ", ");
      if syserror e then tp (fmt_x buf +:+ "}")
      else if buf =? 0 then tp "NULL}"
      else
        let nifra := u32 (u64 len / sizeof_ifreq) in
        let size := sizeof_ifreq * nifra in
        if negb (vla_ok size) then abort
        else
          '(r, bs) ← d_umoven buf (s32 size);
          if r <? 0 then tp (fmt_x buf +:+ "}")
          else
            _ ← tp "{";
            _ ← ifconf_loop (Z.to_nat nifra) 0 a2 (pad_buf (junk e) (Z.to_nat size) bs);
            tp "}}"
  end.

Definition sock_ioctl (code a : Z) : D Z :=
  e ← ask;
  a2 ← arg 2;
  if d_entering e then
    _ ← (if code =? SIOCGIFCONF then
           ifc ← umove_struct a2 sizeof_ifconf;
           tp match ifc with
              | Some ifc => if fld 8 8 ifc =? 0 then ", {" +:+ fmt_d (fld_int 0 ifc) +:+ " -> " else ", {"
              | None => ", {"
              end
         else mret tt);
    mret 0
  else if is_one_of code [FIOSETOWN; FIOGETOWN; SIOCSPGRP; SIOCGPGRP; SIOCATMARK] then
    _ ← printnum a (fun n => ", " +:+ fmt_int n); mret 1
  else if is_one_of code ifreq_codes then _ ← print_ifreq code a2; mret 1
  else if code =? SIOCGIFCONF then _ ← ifconf_exit a2; mret 1
  else mret 0.
End sockio.
