(* ===== verification/Term.v ===== *)
(** * Ioctls of terminals (term.c) *)

From S2P Require Import Prelude Xlat Quote Tracee Decode Io Args Process Device.
Local Open Scope string_scope.
Local Open Scope list_scope.
Local Open Scope Z_scope.

Definition tcxonc_options : list xlat :=
  [mk_xlat 0 "TCOOFF"; mk_xlat 1 "TCOON"; mk_xlat 2 "TCIOFF"; mk_xlat 3 "TCION"].

Definition baud_options : list xlat :=
  [mk_xlat 0 "B0"; mk_xlat 1 "B50"; mk_xlat 2 "B75"; mk_xlat 3 "B110"; mk_xlat 4 "B134";
   mk_xlat 5 "B150"; mk_xlat 6 "B200"; mk_xlat 7 "B300"; mk_xlat 8 "B600"; mk_xlat 9 "B1200";
   mk_xlat 10 "B1800"; mk_xlat 11 "B2400"; mk_xlat 12 "B4800"; mk_xlat 13 "B9600";
   mk_xlat 14 "B19200"; mk_xlat 15 "B38400"; mk_xlat 0x1001 "B57600"; mk_xlat 0x1002 "B115200";
   mk_xlat 0x1003 "B230400"; mk_xlat 0x1004 "B460800"; mk_xlat 0x1005 "B500000";
   mk_xlat 0x1006 "B576000"; mk_xlat 0x1007 "B921600"; mk_xlat 0x1008 "B1000000";
   mk_xlat 0x1009 "B1152000"; mk_xlat 0x100a "B1500000"; mk_xlat 0x100b "B2000000";
   mk_xlat 0x100c "B2500000"; mk_xlat 0x100d "B3000000"; mk_xlat 0x100e "B3500000";
   mk_xlat 0x100f "B4000000"; mk_xlat 14 "EXTA"; mk_xlat 15 "EXTB"].

Definition modem_flags : list xlat :=
  [mk_xlat 1 "TIOCM_LE"; mk_xlat 2 "TIOCM_DTR"; mk_xlat 4 "TIOCM_RTS"; mk_xlat 8 "TIOCM_ST";
   mk_xlat 16 "TIOCM_SR"; mk_xlat 32 "TIOCM_CTS"; mk_xlat 64 "TIOCM_CAR";
   mk_xlat 64 "TIOCM_CD"; mk_xlat 0x80 "TIOCM_RNG"; mk_xlat 0x80 "TIOCM_RI";
   mk_xlat 0x100 "TIOCM_DSR"].

Definition TCGETS : Z := 0x5401.
Definition TCSETS : Z := 0x5402.
Definition TCSETSW : Z := 0x5403.
Definition TCSETSF : Z := 0x5404.
Definition TCGETA : Z := 0x5405.
Definition TCSETA : Z := 0x5406.
Definition TCSETAW : Z := 0x5407.
Definition TCSETAF : Z := 0x5408.
Definition TIOCGWINSZ : Z := 0x5413.
Definition TIOCSWINSZ : Z := 0x5414.
Definition TCXONC : Z := 0x540a.
Definition TIOCSCTTY : Z := 0x540e.
Definition TIOCMGET : Z := 0x5415.
Definition TIOCMBIS : Z := 0x5416.
Definition TIOCMBIC : Z := 0x5417.
Definition TIOCMSET : Z := 0x5418.
Definition TIOCSTI : Z := 0x5412.
Definition CBAUD : Z := 0x100f.
Definition OPOST : Z := 0x1.
Definition ISIG : Z := 0x1.
Definition ICANON : Z := 0x2.
Definition ECHO : Z := 0x8.

(** The codes whose argument points to an int that is shown in decimal. *)
Definition term_num_codes : list Z :=
  [0x5410; 0x540f; 0x541b; 0x5411; 0x5421; 0x5452; 0x5424; 0x5423; 0x5420; 0x541a; 0x5419;
   0x40045431; 0x80045430].
(** TIOCNOTTY, FIOCLEX, FIONCLEX and TIOCCONS *)
Definition term_plain_codes : list Z := [0x5422; 0x5451; 0x5450; 0x541d].

Section term.
Context `{K : Kernel}.

(** struct termios and struct termio have the same members of different
    sizes: [w] bytes for each of the four flag words, then c_line and
    c_cc[n]. *)
Definition on_off (flags bit : Z) (name : string) : string :=
  " " +:+ (if has_flag flags bit then "" else "-") +:+ name.

Definition print_termios (w n : nat) (tios : list Z) : D unit :=
  e ← ask;
  let iflag := fld w 0 tios in
  let oflag := fld w w tios in
  let cflag := fld w (2 * w) tios in
  let lflag := fld w (3 * w) tios in
  let cc i := fld 1 (4 * w + 1 + i) tios in
  if d_abbrev e then
    _ ← tp ", {";
    _ ← print_xval baud_options (Z.land cflag CBAUD) "B???";
    tp (on_off oflag OPOST "opost" +:+ on_off lflag ISIG "isig" +:+ on_off lflag ICANON "icanon" +:+
        on_off lflag ECHO "echo" +:+ " ...}")
  else
    tp (", {c_iflags=" +:+ fmt_sx iflag +:+ ", c_oflags=" +:+ fmt_sx oflag +:+ ", c_cflags=" +:+
        fmt_sx cflag +:+ ", c_lflags=" +:+ fmt_sx lflag +:+ ", c_line=" +:+ fmt_u (fld 1 (4 * w) tios) +:+
        ", " +:+
        (if has_flag lflag ICANON then ""
         else "c_cc[VMIN]=" +:+ fmt_d (cc 6%nat) +:+ ", c_cc[VTIME]=" +:+ fmt_d (cc 5%nat) +:+ ", ") +:+
        "c_cc=" +:+ dquote +:+ foldr (fun i t => "\x" +:+ hex2 (cc i) +:+ t) "" (seq 0 n) +:+ dquote +:+ "}").

(** struct winsize *)
Definition winsize_text (ws : list Z) : string :=
  ", {ws_row=" +:+ fmt_d (fld 2 0 ws) +:+ ", ws_col=" +:+ fmt_d (fld 2 2 ws) +:+ ", ws_xpixel=" +:+
  fmt_d (fld 2 4 ws) +:+ ", ws_ypixel=" +:+ fmt_d (fld 2 6 ws) +:+ "}".

(** A "get" code falls through to the "set" ones unless the call failed. *)
Definition unless_failed (get : bool) (c : D Z) : D Z :=
  e ← ask; if get && syserror e then mret 0 else c.

Definition term_ioctl (code a : Z) : D Z :=
  e ← ask;
  if d_entering e then mret 0
  else if is_one_of code [TCGETS; TCSETS; TCSETSW; TCSETSF] then
    unless_failed (code =? TCGETS) (shown_struct a 36 (print_termios 4 19))
  else if is_one_of code [TCGETA; TCSETA; TCSETAW; TCSETAF] then
    unless_failed (code =? TCGETA) (shown_struct a 18 (print_termios 2 8))
  else if is_one_of code [TIOCGWINSZ; TIOCSWINSZ] then
    unless_failed (code =? TIOCGWINSZ) (shown_struct a 8 (fun ws => tp (winsize_text ws)))
  else if code =? TCXONC then
    _ ← tp ", "; _ ← print_xval tcxonc_options a "TC???"; mret 1
  else if code =? TIOCSCTTY then _ ← tp (", " +:+ fmt_ld a); mret 1
  else if is_one_of code [TIOCMGET; TIOCMBIS; TIOCMBIC; TIOCMSET] then
    i ← umove_struct a 4;
    match i with
    | None => mret 0
    | Some i =>
        _ ← tp ", ["; _ ← print_flags modem_flags (fld_int 0 i) "TIOCM_???"; _ ← tp "]"; mret 1
    end
  else if is_one_of code term_num_codes then
    _ ← tp ", "; _ ← printnum_int a (fun n => fmt_int n); mret 1
  else if code =? TIOCSTI then _ ← tp ", "; _ ← printstr a 1; mret 1
  else if is_one_of code term_plain_codes then mret 1
  else mret 0.
End term.

(** ** The discipline *)

Section discipline.
Context `{K : Kernel} (e : denv) (Hok : env_ok e).
Lemma Prints_print_termios w n t : Prints e (print_termios w n t).
Proof. unfold print_termios. decodes. Qed.
Hint Resolve Prints_print_termios : decodes.
Lemma Decodes_unless_failed get c :
  Decodes e c shown_or_not -> Decodes e (unless_failed get c) shown_or_not.
Proof. intros Hc. unfold unless_failed. decodes. Qed.
Lemma Decodes_term_ioctl code a : Decodes e (term_ioctl code a) shown_or_not.
Proof. unfold term_ioctl. decodes; try apply Decodes_unless_failed; decodes_structs. Qed.
End discipline.
#[export] Hint Resolve Decodes_term_ioctl : decodes.
