(* ===== verification/Mtd.v ===== *)
(** * Ioctls of flash memory (mtd.c) *)

From S2P Require Import Prelude Xlat Quote Tracee Decode Io Args Stat Process Device.
Local Open Scope string_scope.
Local Open Scope list_scope.
Local Open Scope Z_scope.

Definition mtd_mode_options : list xlat :=
  [mk_xlat 0 "MTD_OPS_PLACE_OOB"; mk_xlat 1 "MTD_OPS_AUTO_OOB"; mk_xlat 2 "MTD_OPS_RAW"].

Definition mtd_type_options : list xlat :=
  [mk_xlat 0 "MTD_ABSENT"; mk_xlat 1 "MTD_RAM"; mk_xlat 2 "MTD_ROM"; mk_xlat 3 "MTD_NORFLASH";
   mk_xlat 4 "MTD_NANDFLASH"; mk_xlat 6 "MTD_DATAFLASH"; mk_xlat 7 "MTD_UBIVOLUME";
   mk_xlat 8 "MTD_MLCNANDFLASH"].

Definition mtd_flags_options : list xlat :=
  [mk_xlat 0x400 "MTD_WRITEABLE"; mk_xlat 0x800 "MTD_BIT_WRITEABLE";
   mk_xlat 0x1000 "MTD_NO_ERASE"; mk_xlat 0x2000 "MTD_POWERUP_LOCK"].

Definition mtd_otp_options : list xlat :=
  [mk_xlat 0 "MTD_OTP_OFF"; mk_xlat 1 "MTD_OTP_FACTORY"; mk_xlat 2 "MTD_OTP_USER"].

Definition mtd_nandecc_options : list xlat :=
  [mk_xlat 0 "MTD_NANDECC_OFF"; mk_xlat 1 "MTD_NANDECC_PLACE";
   mk_xlat 2 "MTD_NANDECC_AUTOPLACE"; mk_xlat 3 "MTD_NANDECC_PLACEONLY";
   mk_xlat 4 "MTD_NANDECC_AUTOPL_USR"].

Definition ubi_volume_types : list xlat :=
  [mk_xlat 3 "UBI_DYNAMIC_VOLUME"; mk_xlat 4 "UBI_STATIC_VOLUME"].

Definition ubi_volume_props : list xlat :=
  [mk_xlat 1 "UBI_VOL_PROP_DIRECT_WRITE"].

Definition MEMGETINFO : Z := 0x80204d01.
Definition MEMERASE : Z := 0x40084d02.
Definition MEMLOCK : Z := 0x40084d05.
Definition MEMUNLOCK : Z := 0x40084d06.
Definition MEMISLOCKED : Z := 0x80084d17.
Definition MEMERASE64 : Z := 0x40104d14.
Definition MEMWRITEOOB : Z := 0xc0104d03.
Definition MEMREADOOB : Z := 0xc0104d04.
Definition MEMWRITEOOB64 : Z := 0xc0184d15.
Definition MEMREADOOB64 : Z := 0xc0184d16.
Definition MEMGETREGIONINFO : Z := 0xc0104d08.
Definition MEMGETOOBSEL : Z := 0x80c84d0a.
Definition OTPGETREGIONINFO : Z := 0x400c4d0f.
Definition OTPLOCK : Z := 0x800c4d10.
Definition ECCGETLAYOUT : Z := 0x81484d11.
Definition ECCGETSTATS : Z := 0x80104d12.
Definition MEMWRITE : Z := 0xc0304d18.
Definition OTPSELECT : Z := 0x80044d0d.
Definition MEMGETBADBLOCK : Z := 0x40084d0b.
Definition MEMSETBADBLOCK : Z := 0x40084d0c.
Definition OTPGETREGIONCOUNT : Z := 0x40044d0e.
Definition UBI_IOCMKVOL : Z := 0x40986f00.
Definition UBI_IOCRSVOL : Z := 0x400c6f02.
Definition UBI_IOCRNVOL : Z := 0x51106f03.
Definition UBI_IOCVOLUP : Z := 0x40084f00.
Definition UBI_IOCATT : Z := 0x40186f40.
Definition UBI_IOCEBMAP : Z := 0x40084f03.
Definition UBI_IOCSETVOLPROP : Z := 0x40104f06.

Definition UBI_MAX_VOLUME_NAME : Z := 127.
Definition UBI_MAX_RNVOL : Z := 32.

(** CLAMP(val, min, max) (defs.h) *)
Definition CLAMP (val min max : Z) : Z := if val <? min then min else if val >? max then max else val.

(** %#x of the [n] 32-bit words from [off] on *)
Definition hex_words (n off : nat) (bs : list Z) : string :=
  String.concat ", " ((fun i => fmt_sx (fld 4 (off + 4 * i) bs)) <$> seq 0 n).

Definition x4 (off : nat) (bs : list Z) : string := fmt_sx (fld 4 off bs).
Definition x8 (off : nat) (bs : list Z) : string := fmt_sx (fld 8 off bs).

Section mtd.
Context `{K : Kernel}.

(** struct mtd_info_user *)
Definition print_minfo (minfo : list Z) : D unit :=
  _ ← tp ", {type=";
  _ ← print_xval mtd_type_options (fld 1 0 minfo) "MTD_???";
  _ ← tp ", flags=";
  _ ← print_flags mtd_flags_options (fld 4 4 minfo) "MTD_???";
  tp (", size=" +:+ x4 8 minfo +:+ ", erasesize=" +:+ x4 12 minfo +:+ ", writesize=" +:+ x4 16 minfo +:+
      ", oobsize=" +:+ x4 20 minfo +:+ ", padding=" +:+ x8 24 minfo +:+ "}").

(** struct nand_oobinfo; the text of the pairs closes each before the next. *)
Definition print_oobinfo (ninfo : list Z) : D unit :=
  _ ← tp ", {useecc=";
  _ ← print_xval mtd_nandecc_options (fld 4 0 ninfo) "MTD_NANDECC_???";
  tp (", eccbytes=" +:+ x4 4 ninfo +:+ ", oobfree={{" +:+
      String.concat "}, {" ((fun i => hex_words 2 (8 + 8 * i) ninfo) <$> seq 0 8) +:+
      "}}, eccpos={" +:+ hex_words 32 72 ninfo +:+ "}").

(** struct nand_ecclayout_user *)
Definition print_ecclayout (nlay : list Z) : D unit :=
  tp (", {eccbytes=" +:+ x4 0 nlay +:+ ", eccpos={" +:+ hex_words 64 4 nlay +:+ "}, oobavail=" +:+
      x4 260 nlay +:+ ", oobfree={" +:+
      String.concat ", " ((fun i => "{offset=" +:+ x4 (264 + 8 * i) nlay +:+ ", length=" +:+
                                    x4 (268 + 8 * i) nlay +:+ "}") <$> seq 0 8) +:+ "}").

(** struct mtd_write_req *)
Definition print_write_req (mreq : list Z) : D unit :=
  _ ← tp (", {start=" +:+ x8 0 mreq +:+ ", len=" +:+ x8 8 mreq +:+ ", ooblen=" +:+ x8 16 mreq +:+
          ", usr_data=" +:+ x8 24 mreq +:+ ", usr_oob=" +:+ x8 32 mreq +:+ ", mode=");
  _ ← print_xval mtd_mode_options (fld 1 40 mreq) "MTD_OPS_???";
  tp ", padding=...}".

Definition mtd_ioctl (code a : Z) : D Z :=
  e ← ask;
  if d_entering e then mret 0
  else if code =? MEMGETINFO then shown_struct a 32 print_minfo
  else if is_one_of code [MEMERASE; MEMLOCK; MEMUNLOCK; MEMISLOCKED] then
    shown_struct a 8 (fun s => tp (", {start=" +:+ x4 0 s +:+ ", length=" +:+ x4 4 s +:+ "}"))
  else if code =? MEMERASE64 then
    shown_struct a 16 (fun s => tp (", {start=" +:+ x8 0 s +:+ ", length=" +:+ x8 8 s +:+ "}"))
  else if is_one_of code [MEMWRITEOOB; MEMREADOOB] then
    shown_struct a 16 (fun s => tp (", {start=" +:+ x4 0 s +:+ ", length=" +:+ x4 4 s +:+ ", ptr=...}"))
  else if is_one_of code [MEMWRITEOOB64; MEMREADOOB64] then
    shown_struct a 24 (fun s => tp (", {start=" +:+ x8 0 s +:+ ", length=" +:+ x4 12 s +:+ ", ptr=...}"))
  else if code =? MEMGETREGIONINFO then
    shown_struct a 16 (fun s => tp (", {offset=" +:+ x4 0 s +:+ ", erasesize=" +:+ x4 4 s +:+
      ", numblocks=" +:+ x4 8 s +:+ ", regionindex=" +:+ x4 12 s +:+ "}"))
  else if code =? MEMGETOOBSEL then shown_struct a 200 print_oobinfo
  else if is_one_of code [OTPGETREGIONINFO; OTPLOCK] then
    shown_struct a 12 (fun s => tp (", {start=" +:+ x4 0 s +:+ ", length=" +:+ x4 4 s +:+
      ", locked=" +:+ fmt_u (fld 4 8 s) +:+ "}"))
  else if code =? ECCGETLAYOUT then shown_struct a 328 print_ecclayout
  else if code =? ECCGETSTATS then
    shown_struct a 16 (fun s => tp (", {corrected=" +:+ x4 0 s +:+ ", failed=" +:+ x4 4 s +:+
      ", badblocks=" +:+ x4 8 s +:+ ", bbtblocks=" +:+ x4 12 s +:+ "}"))
  else if code =? MEMWRITE then shown_struct a 48 print_write_req
  else if code =? OTPSELECT then
    shown_struct a 4 (fun i =>
      _ ← tp ", ["; _ ← print_xval mtd_otp_options (fld_int 0 i) "MTD_OTP_???"; tp "]")
  else if is_one_of code [MEMGETBADBLOCK; MEMSETBADBLOCK] then
    if negb (d_verbose e) then mret 0 else _ ← tp ", "; _ ← print_loff_t a; mret 1
  else if code =? OTPGETREGIONCOUNT then
    shown_struct a 4 (fun i => tp (", [" +:+ fmt_d (fld_int 0 i) +:+ "]"))
  else mret 0.

(** ** UBI *)

(** string_quote(name, vol_name, -1, CLAMP(name_len, 0, UBI_MAX_VOLUME_NAME)),
    and the ellipsis; [name] is at [off]. *)
Definition vol_name_size : Z := (UBI_MAX_VOLUME_NAME + 1) * 4.
Definition print_vol_name (off : nat) (name_len : Z) (bs : list Z) : D unit :=
  e ← ask;
  match string_quote (xflag e) (drop off bs) (-1) (CLAMP name_len 0 UBI_MAX_VOLUME_NAME) with
  | None => abort
  | Some (vol_name, ret) => tp (vol_name +:+ (if ret =? 0 then "" else "..."))
  end.

(** struct ubi_mkvol_req *)
Definition print_mkvol (mkvol : list Z) : D unit :=
  let name_len := fld_short 18 mkvol in
  _ ← tp (", {vol_id=" +:+ fmt_d (fld_int 0 mkvol) +:+ ", alignment=" +:+ fmt_d (fld_int 4 mkvol) +:+
          ", bytes=" +:+ fmt_d (fld_long 8 mkvol) +:+ ", vol_type=");
  _ ← print_xval ubi_volume_types (s8 (fld 1 16 mkvol)) "UBI_???_VOLUME";
  _ ← tp (", name_len=" +:+ fmt_d name_len +:+ ", name=");
  _ ← print_vol_name 24 name_len mkvol;
  tp "}".

(** The entries of struct ubi_rnvol_req: 136 bytes each, from offset 16 on. *)
Fixpoint rnvol_loop (n : nat) (c : nat) (rnvol : list Z) : D unit :=
  match n with
  | O => mret tt
  | S n =>
      let off := (16 + 136 * c)%nat in
      let name_len := fld_short (off + 4) rnvol in
      _ ← (match c with O => mret tt | S _ => tp ", " end);
      _ ← tp ("{vol_id=" +:+ fmt_d (fld_int off rnvol) +:+ ", name_len=" +:+ fmt_d name_len +:+ ", name=");
      _ ← print_vol_name (off + 8) name_len rnvol;
      _ ← tp "}";
      rnvol_loop n (S c) rnvol
  end.
Definition print_rnvol (rnvol : list Z) : D unit :=
  let count := fld_int 0 rnvol in
  _ ← tp (", {count=" +:+ fmt_d count +:+ ", ents=[");
  _ ← rnvol_loop (Z.to_nat (CLAMP count 0 UBI_MAX_RNVOL)) 0 rnvol;
  tp "]}".

Definition ubi_ioctl (code a : Z) : D Z :=
  e ← ask;
  if d_entering e then mret 0
  else if code =? UBI_IOCMKVOL then shown_struct a 152 print_mkvol
  else if code =? UBI_IOCRSVOL then
    shown_struct a 12 (fun s =>
      tp (", {vol_id=" +:+ fmt_d (fld_int 8 s) +:+ ", bytes=" +:+ fmt_d (fld_long 0 s) +:+ "}"))
  else if code =? UBI_IOCRNVOL then shown_struct a 4368 print_rnvol
  else if code =? UBI_IOCVOLUP then
    shown_struct a 8 (fun s => tp (", " +:+ fmt_d (fld_long 0 s)))
  else if code =? UBI_IOCATT then
    shown_struct a 24 (fun s =>
      tp (", {ubi_num=" +:+ fmt_d (fld_int 0 s) +:+ ", mtd_num=" +:+ fmt_d (fld_int 4 s) +:+
          ", vid_hdr_offset=" +:+ fmt_d (fld_int 8 s) +:+ ", max_beb_per1024=" +:+
          fmt_d (fld_short 12 s) +:+ "}"))
  else if code =? UBI_IOCEBMAP then
    shown_struct a 8 (fun s =>
      tp (", {lnum=" +:+ fmt_d (fld_int 0 s) +:+ ", dtype=" +:+ fmt_d (s8 (fld 1 4 s)) +:+ "}"))
  else if code =? UBI_IOCSETVOLPROP then
    shown_struct a 16 (fun s =>
      _ ← tp ", {property=";
      _ ← print_xval ubi_volume_props (fld 1 0 s) "UBI_VOL_PROP_???";
      tp (", value=" +:+ x8 8 s +:+ "}"))
  else mret 0.
End mtd.

(** ** The discipline *)

Section discipline.
Context `{K : Kernel} (e : denv) (Hok : env_ok e).
Lemma Prints_print_minfo b : Prints e (print_minfo b).
Proof. unfold print_minfo. decodes. Qed.
Lemma Prints_print_oobinfo b : Prints e (print_oobinfo b).
Proof. unfold print_oobinfo. decodes. Qed.
Lemma Prints_print_ecclayout b : Prints e (print_ecclayout b).
Proof. unfold print_ecclayout. decodes. Qed.
Lemma Prints_print_write_req b : Prints e (print_write_req b).
Proof. unfold print_write_req. decodes. Qed.
Hint Resolve Prints_print_minfo Prints_print_oobinfo Prints_print_ecclayout Prints_print_write_req : decodes.
Lemma Decodes_mtd_ioctl code a : Decodes e (mtd_ioctl code a) shown_or_not.
Proof. unfold mtd_ioctl. decodes; decodes_structs. Qed.

(** A volume name of at most UBI_MAX_VOLUME_NAME bytes lies in the request. *)
Lemma Prints_print_vol_name off len n bs :
  fills n bs -> Z.of_nat off + 128 <= n -> Prints e (print_vol_name off len bs).
Proof.
  intros Hf Hn. unfold fills in Hf. unfold print_vol_name. apply Decodes_ask; cbv beta.
  destruct (string_quote_total (xflag e) (drop off bs) (-1) (CLAMP len 0 UBI_MAX_VOLUME_NAME))
    as [[out r] ->]; rewrite ?length_drop; [|lia|decodes].
  unfold CLAMP, UBI_MAX_VOLUME_NAME. destruct (_ <? _); [lia|]. destruct (_ >? _) eqn:?; lia.
Qed.
Lemma Prints_print_mkvol b : fills 152 b -> Prints e (print_mkvol b).
Proof. intros Hb. unfold print_mkvol. decodes. by eapply Prints_print_vol_name. Qed.
Lemma Prints_rnvol_loop n c b :
  fills 4368 b -> (c + n <= 32)%nat -> Prints e (rnvol_loop n c b).
Proof.
  intros Hb. revert c. induction n as [|n IH]; intros c Hc; cbn [rnvol_loop]; [decodes|].
  cbv zeta. apply Decodes_seq; [decodes|intros _]. apply Decodes_seq; [decodes|intros _].
  apply Decodes_seq; [eapply Prints_print_vol_name; [done|lia]|intros _].
  apply Decodes_seq; [decodes|intros _]. apply IH. lia.
Qed.
Lemma Prints_print_rnvol b : fills 4368 b -> Prints e (print_rnvol b).
Proof.
  intros Hb. unfold print_rnvol. decodes. apply Prints_rnvol_loop; [done|].
  unfold CLAMP, UBI_MAX_RNVOL. destruct (_ <? _); [lia|]. destruct (_ >? _) eqn:?; lia.
Qed.
Lemma Decodes_ubi_ioctl code a : Decodes e (ubi_ioctl code a) shown_or_not.
Proof.
  unfold ubi_ioctl. decodes; apply Decodes_shown_struct; try lia; intros b Hb;
    auto using Prints_print_mkvol, Prints_print_rnvol; decodes.
Qed.
End discipline.
#[export] Hint Resolve Decodes_mtd_ioctl Decodes_ubi_ioctl : decodes.

(** ** Properties *)

(** The name of a volume whose stated length is the length of the name (the
    kernel's convention, without a NUL) loses its last byte: string_quote is
    asked for a NUL-terminated string in a buffer of that length, so that the
    text is a C literal of all bytes but the last one, and the ellipsis. *)
Theorem ubi_names_lose_a_byte `{K : Kernel} e off n bs :
  1 <= n <= UBI_MAX_VOLUME_NAME -> Forall is_u8 bs -> Z.of_nat off + n <= Z.of_nat (length bs) ->
  0 ∉ take (Z.to_nat n) (drop off bs) ->
  exists lit, unquote lit = Some (take (Z.to_nat (n - 1)) (drop off bs)) /\
    Does e (print_vol_name off n bs) tt (lit +:+ "...") [].
Proof.
  intros Hn Hu Hl H0. unfold UBI_MAX_VOLUME_NAME in Hn.
  assert (Hc : CLAMP n 0 UBI_MAX_VOLUME_NAME = n).
  { unfold CLAMP, UBI_MAX_VOLUME_NAME. destruct (Z.ltb_spec n 0); [lia|]. destruct (n >? 127) eqn:?; lia. }
  destruct (string_quote_spec (xflag e) (drop off bs) (-1) n) as (lit & r & Hq & Hlit & _ & Hr & Hr01).
  { by apply Forall_drop. } { rewrite length_drop. lia. } { lia. }
  exists lit. split.
  - rewrite Hlit. f_equal. change (until 0 (take (Z.to_nat (n - 1)) (drop off bs)) = take (Z.to_nat (n - 1)) (drop off bs)).
    apply until_all. intros H. apply H0. revert H.
    replace (take (Z.to_nat (n - 1)) (drop off bs)) with (take (Z.to_nat (n - 1)) (take (Z.to_nat n) (drop off bs)))
      by (rewrite take_take; f_equal; lia).
    intros (i & Hi & _)%elem_of_take. by apply list_elem_of_lookup_2 in Hi.
  - unfold print_vol_name. eapply Does_silent; [apply Does_ask|]. rewrite Hc, Hq.
    replace (r =? 0) with false; [apply Does_tp|]. symmetry. apply Z.eqb_neq. intros ->.
    by destruct (proj1 Hr eq_refl).
Qed.

(** A volume "abc" *)
Lemma ubi_names_lose_a_byte_witness :
  exists lit, unquote lit = Some [97; 98] /\
    Does (io_env []) (@print_vol_name 2 3 [1; 2; 97; 98; 99; 0]) tt (lit +:+ "...") [].
Proof.
  refine (@ubi_names_lose_a_byte io_kernel (io_env []) 2 3 [1; 2; 97; 98; 99; 0] _ _ _ _).
  - split; discriminate.
  - repeat constructor; discriminate.
  - discriminate.
  - apply (bool_decide_unpack (0 ∉ [97; 98; 99])). vm_compute. exact I.
Defined.
