(* ===== verification/Modules.v ===== *)
(** * Decoders of the old kernel module calls (bjm.c)

    query_module reads the answer of the call into a block of the size the
    tracee states and walks it as far as the stated number of entries; a read
    past the block is an abort.  [malloc_ok n] says that malloc(n) returns
    memory. *)

From S2P Require Import Prelude Xlat Quote Tracee Decode Io Args Process Device.
Local Open Scope string_scope.
Local Open Scope list_scope.
Local Open Scope Z_scope.

Definition which : list xlat :=
  [mk_xlat 0 "0"; mk_xlat 1 "QM_MODULES"; mk_xlat 2 "QM_DEPS"; mk_xlat 3 "QM_REFS";
   mk_xlat 4 "QM_SYMBOLS"; mk_xlat 5 "QM_INFO"].

Definition modflags : list xlat :=
  [mk_xlat 0 "MOD_UNINITIALIZED"; mk_xlat 1 "MOD_RUNNING"; mk_xlat 2 "MOD_DELETED";
   mk_xlat 4 "MOD_AUTOCLEAN"; mk_xlat 8 "MOD_VISITED"; mk_xlat 16 "MOD_USED_ONCE";
   mk_xlat 32 "MOD_JUST_FREED"].

Definition QM_MODULES : Z := 1.
Definition QM_DEPS : Z := 2.
Definition QM_REFS : Z := 3.
Definition QM_SYMBOLS : Z := 4.
Definition QM_INFO : Z := 5.

Section modules.
Context `{K : Kernel} (malloc_ok : Z -> bool).

(** The names of [n] modules, one NUL-terminated string after the other. *)
Fixpoint module_names (n : nat) (first : bool) (off : nat) (data : list Z) : D unit :=
  match n with
  | O => mret tt
  | S n =>
      match c_str_at off data with
      | None => abort
      | Some name =>
          _ ← tp ((if first then "" else ", ") +:+ name);
          module_names n false (off + String.length name + 1) data
      end
  end.

(** [n] symbols: struct module_symbol, a value and the offset of a name *)
Fixpoint module_symbols (n : nat) (idx : nat) (data : list Z) : D unit :=
  match n with
  | O => mret tt
  | S n =>
      if (length data <? 16 * idx + 16)%nat then abort
      else
        let name := fld_long (16 * idx + 8) data in
        match (if name <? 0 then None else c_str_at (Z.to_nat name) data) with
        | None => abort
        | Some str =>
            _ ← tp ((match idx with O => "" | S _ => " " end) +:+ "{name=" +:+ str +:+ ", value=" +:+
                    fmt_u (fld 8 (16 * idx) data) +:+ "}");
            module_symbols n (S idx) data
        end
  end.

(** The list between the braces: the answer of [size] bytes at [addr], or only
    the number of its entries. *)
Definition module_list (addr size ret : Z) (show : list Z -> D unit) : D unit :=
  e ← ask;
  let entries := " /* " +:+ fmt_u ret +:+ " entries */ " in
  if d_abbrev e then tp entries
  else if negb (malloc_ok size) then _ ← lift (error_msg "out of memory"); tp entries
  else
    '(r, bs) ← d_umoven addr (s32 size);
    if r <? 0 then tp entries else show (pad_buf (junk e) (Z.to_nat size) bs).

(** struct module_info *)
Definition print_module_info (mi : list Z) : D unit :=
  _ ← tp ("{address=" +:+ fmt_sx (fld 8 0 mi) +:+ ", size=" +:+ fmt_u (fld 8 8 mi) +:+ ", flags=");
  _ ← print_flags modflags (fld 8 16 mi) "MOD_???";
  tp (", usecount=" +:+ fmt_u (fld 8 24 mi) +:+ "}, ").

Definition query_exit : D unit :=
  e ← ask;
  a1 ← arg 1; a2 ← arg 2; a3 ← arg 3; a4 ← arg 4;
  ret ← (if negb (d_verbose e) || syserror e then mret None else umove a4 8);
  match ret with
  | None => tp (hexl a2 +:+ ", " +:+ fmt_u a3 +:+ ", " +:+ hexl a4)
  | Some ret =>
      if a1 =? QM_INFO then
        mi ← umove_struct a2 32;
        _ ← match mi with None => tp (hexl a2 +:+ ", ") | Some mi => print_module_info mi end;
        tp (fmt_u ret)
      else if (a1 =? QM_MODULES) || (a1 =? QM_DEPS) || (a1 =? QM_REFS) then
        _ ← tp "{";
        _ ← module_list a2 a3 ret (module_names (Z.to_nat ret) true 0);
        tp ("}, " +:+ fmt_u ret)
      else if a1 =? QM_SYMBOLS then
        _ ← tp "{";
        _ ← module_list a2 a3 ret (module_symbols (Z.to_nat ret) 0);
        tp ("}, " +:+ fmt_d (s64 ret))
      else
        _ ← printstr a2 (s64 a3); tp (", " +:+ hexl a4)
  end.

Definition sys_query_module : D Z :=
  e ← ask;
  _ ← (if d_entering e then
         a0 ← arg 0; a1 ← arg 1;
         _ ← printstr a0 (-1); _ ← tp ", "; _ ← print_xval which a1 "QM_???"; tp ", "
       else query_exit);
  mret 0.

Definition sys_create_module : D Z :=
  _ ← if_entering (a0 ← arg 0; a1 ← arg 1; _ ← printpath a0; tp (", " +:+ fmt_u a1));
  mret RVAL_HEX.

Definition sys_init_module : D Z :=
  _ ← if_entering (
        a0 ← arg 0; a1 ← arg 1; a2 ← arg 2;
        _ ← tp (hexl a0 +:+ ", " +:+ fmt_u a1 +:+ ", "); printstr a2 (-1));
  mret 0.
End modules.
