(* ===== verification/Ioctl.v ===== *)
(** * ioctl: the names of the codes and the dispatch to the device decoders
      (ioctl.c, sys_ioctl of io.c)

    The table of names is sorted by code and searched by bisection; several
    names can share a code and all of them are shown.  [ioctlent] is the table,
    [vla_ok] the parameter of Sockio.v. *)

From stdpp Require Import sorting.
From S2P Require Import Prelude Xlat Quote Tracee Decode Io Args Process Device Sockio Term Mtd.
Local Open Scope string_scope.
Local Open Scope list_scope.
Local Open Scope Z_scope.

(** struct_ioctlent (defs.h) *)
Record struct_ioctlent := mk_ioctlent { doth : string; symbol : string; ioc_code : Z }.

(** ** The search *)

(** bsearch of the C library, on indices: [l] and [u] bound the part that is
    left.  [cmp] is the comparison of the key with an entry. *)
Section bsearch.
Context {A : Type} (cmp : A -> comparison).

Fixpoint bsearch_loop (fuel l u : nat) (base : list A) : option nat :=
  match fuel with
  | O => None
  | S fuel =>
      if (l <? u)%nat then
        let idx := ((l + u) / 2)%nat in
        match base !! idx with
        | None => None
        | Some a =>
            match cmp a with
            | Lt => bsearch_loop fuel l idx base
            | Gt => bsearch_loop fuel (S idx) u base
            | Eq => Some idx
            end
        end
      else None
  end.
Definition bsearch (base : list A) : option nat := bsearch_loop (S (length base)) 0 (length base) base.
End bsearch.

Section lookup.
Context (ioctlent : list struct_ioctlent).

Definition ioc_mask : Z := 0xffff.   (* _IOC_NRMASK and _IOC_TYPEMASK in their places *)

Definition compare (code : Z) (b : struct_ioctlent) : comparison := code ?= ioc_code b.

Definition code_at (i : nat) : option Z := ioc_code <$> ioctlent !! i.

(** Back to the first entry of the code. *)
Fixpoint rewind (i : nat) (code : Z) : nat :=
  match i with
  | O => O
  | S j => if bool_decide (code_at j = Some code) then rewind j code else i
  end.

(** The result is an index into the table. *)
Definition ioctl_lookup (code : Z) : option nat :=
  let code := Z.land code ioc_mask in
  (fun i => rewind i code) <$> bsearch (compare code) ioctlent.

Definition ioctl_next_match (i : nat) : option nat :=
  if bool_decide (code_at (S i) = code_at i) && (S i <? length ioctlent)%nat then Some (S i) else None.

(** while ((iop = ioctl_next_match(iop))) tprintf(" or %s", iop->symbol) *)
Fixpoint more_names (fuel i : nat) : string :=
  match fuel with
  | O => ""
  | S fuel =>
      match ioctl_next_match i with
      | Some i => " or " +:+ default "" (symbol <$> ioctlent !! i) +:+ more_names fuel i
      | None => ""
      end
  end.

(** What sys_ioctl shows for a code. *)
Definition ioctl_name (code : Z) : string :=
  match ioctl_lookup code with
  | Some i => default "" (symbol <$> ioctlent !! i) +:+ more_names (length ioctlent) i
  | None => hexl code
  end.
End lookup.

(** ** The dispatch *)

Section ioctl.
Context `{K : Kernel} (vla_ok : Z -> bool) (ioctlent : list struct_ioctlent).

Definition ioctl_decode (code a : Z) : D Z :=
  let type := Z.land (Z.shiftr code 8) 0xff in
  if type =? 0x54 then term_ioctl code a
  else if type =? 0x89 then sock_ioctl vla_ok code a
  else if type =? 0x70 then rtc_ioctl code a
  else if (type =? 0x03) || (type =? 0x12) then block_ioctl code a
  else if type =? 0x22 then scsi_ioctl code a
  else if type =? 0x4c then loop_ioctl code a
  else if type =? 0x4d then mtd_ioctl code a
  else if (type =? 0x6f) || (type =? 0x4f) then ubi_ioctl code a
  else mret 0.

Definition sys_ioctl : D Z :=
  e ← ask;
  a0 ← arg 0; a1 ← arg 1; a2 ← arg 2;
  if d_entering e then
    _ ← printfd a0;
    _ ← tp ", ";
    _ ← tp (ioctl_name ioctlent a1);
    _ ← ioctl_decode a1 a2;
    mret 0
  else
    ret ← ioctl_decode a1 a2;
    if ret =? 0 then _ ← tp (", " +:+ hexl a2); mret 0 else mret (ret - 1).
End ioctl.

(** ** The search is right *)

Definition ioc_le (a b : struct_ioctlent) : Prop := ioc_code a <= ioc_code b.
#[global] Instance ioc_le_dec : RelDecision ioc_le.
Proof. intros a b. unfold ioc_le. apply _. Defined.
#[global] Instance ioc_le_trans : Transitive ioc_le.
Proof. intros a b c. unfold ioc_le. lia. Qed.
#[global] Instance ioc_le_total : Total ioc_le.
Proof. intros a b. unfold ioc_le. lia. Qed.

(** bsearch finds a matching entry, or there is none. *)
Section bsearch_ok.
Context {A : Type} (cmp : A -> comparison) (base : list A).
(** [cmp] is monotone along the array. *)
Context (Hmono : forall i j a b, (i <= j)%nat -> base !! i = Some a -> base !! j = Some b ->
  (cmp a = Lt -> cmp b = Lt) /\ (cmp b = Gt -> cmp a = Gt)).

Lemma bsearch_loop_spec fuel l u :
  (u - l < fuel)%nat -> (u <= length base)%nat ->
  match bsearch_loop cmp fuel l u base with
  | Some i => (l <= i < u)%nat /\ exists a, base !! i = Some a /\ cmp a = Eq
  | None => forall i a, (l <= i < u)%nat -> base !! i = Some a -> cmp a <> Eq
  end.
Proof.
  revert l u. induction fuel as [|fuel IH]; intros l u Hf Hu; [lia|]. cbn [bsearch_loop].
  destruct (Nat.ltb_spec l u) as [Hlu|Hlu]; [|intros i a Hi; lia].
  set (idx := ((l + u) / 2)%nat).
  assert (Hidx : (l <= idx < u)%nat).
  { unfold idx. split; [apply Nat.div_le_lower_bound; lia|apply Nat.Div0.div_lt_upper_bound; lia]. }
  clearbody idx.
  destruct (lookup_lt_is_Some_2 base idx ltac:(lia)) as [b Hb]. rewrite Hb.
  destruct (cmp b) eqn:Hc.
  - split; [done|]. eauto.
  - specialize (IH l idx ltac:(lia) ltac:(lia)). destruct (bsearch_loop cmp fuel l idx base) as [i|].
    + destruct IH as [Hi He]. split; [lia|done].
    + intros i a Hi Ha. destruct (decide (i < idx)%nat) as [Hlt|Hge]; [apply (IH i a); [lia|done]|].
      destruct (Hmono idx i b a ltac:(lia) Hb Ha) as [H1 _]. rewrite H1; done.
  - specialize (IH (S idx) u ltac:(lia) ltac:(lia)).
    destruct (bsearch_loop cmp fuel (S idx) u base) as [i|].
    + destruct IH as [Hi He]. split; [lia|done].
    + intros i a Hi Ha. destruct (decide (idx < i)%nat) as [Hlt|Hge]; [apply (IH i a); [lia|done]|].
      destruct (Hmono i idx a b ltac:(lia) Ha Hb) as [_ H2]. rewrite H2; done.
Qed.

Lemma bsearch_spec :
  match bsearch cmp base with
  | Some i => exists a, base !! i = Some a /\ cmp a = Eq
  | None => forall a, a ∈ base -> cmp a <> Eq
  end.
Proof.
  pose proof (bsearch_loop_spec (S (length base)) 0 (length base) ltac:(lia) ltac:(lia)) as H.
  unfold bsearch. destruct (bsearch_loop _ _ _ _ _); [apply H|].
  intros a [i Hi]%list_elem_of_lookup. apply (H i a); [|done]. apply lookup_lt_Some in Hi. lia.
Qed.
End bsearch_ok.

(** ** All names of a code, and only these *)

Section names.
Context (ioctlent : list struct_ioctlent) (Hsorted : StronglySorted ioc_le ioctlent).

Definition matching (c : Z) (l : list struct_ioctlent) : list struct_ioctlent :=
  filter (fun x => ioc_code x = c) l.

Lemma matching_nil c l : (forall x, x ∈ l -> ioc_code x <> c) -> matching c l = [].
Proof.
  induction l as [|x l IH]; intros Hl; [done|]. unfold matching in *.
  rewrite filter_cons_False by (apply Hl; left). apply IH. intros y Hy. apply Hl. by right.
Qed.

Lemma sorted_lookup i j a b :
  (i <= j)%nat -> ioctlent !! i = Some a -> ioctlent !! j = Some b -> ioc_code a <= ioc_code b.
Proof.
  intros Hij Ha Hb. destruct (decide (i = j)) as [<-|Hne]; [simplify_eq; lia|].
  pose proof Hsorted as Hs. rewrite <- (take_drop (S i) ioctlent) in Hs.
  apply (StronglySorted_app_1_elem_of ioc_le) with (x1 := a) (x2 := b) in Hs; [done|..].
  - apply list_elem_of_lookup. exists i. by rewrite lookup_take_lt by lia.
  - apply list_elem_of_lookup. exists (j - S i)%nat. rewrite lookup_drop.
    by replace (S i + (j - S i))%nat with j by lia.
Qed.

Lemma compare_monotone c i j a b :
  (i <= j)%nat -> ioctlent !! i = Some a -> ioctlent !! j = Some b ->
  (compare c a = Lt -> compare c b = Lt) /\ (compare c b = Gt -> compare c a = Gt).
Proof.
  intros Hij Ha Hb. pose proof (sorted_lookup i j a b Hij Ha Hb). unfold compare.
  rewrite !Z.compare_lt_iff, !Z.compare_gt_iff. lia.
Qed.

Lemma rewind_spec i c :
  code_at ioctlent i = Some c ->
  let j := rewind ioctlent i c in
  code_at ioctlent j = Some c /\ forall k, (k < j)%nat -> code_at ioctlent k <> Some c.
Proof.
  induction i as [|i IH]; intros Hi; cbn [rewind]; [split; [done|lia]|].
  destruct (bool_decide_reflect (code_at ioctlent i = Some c)) as [H|H]; [by apply IH|].
  split; [done|]. intros k Hk Hc. destruct (decide (k = i)) as [->|Hne]; [done|].
  unfold code_at in *. apply fmap_Some in Hi as (a & Ha & ->), Hc as (b & Hb & Heq).
  destruct (lookup_lt_is_Some_2 ioctlent i) as [x Hx]; [apply lookup_lt_Some in Ha; lia|].
  rewrite Hx in H. simpl in H.
  pose proof (sorted_lookup k i b x ltac:(lia) Hb Hx).
  pose proof (sorted_lookup i (S i) x a ltac:(lia) Hx Ha). apply H. f_equal. lia.
Qed.

(** The entries before the first one of a code do not have it. *)
Lemma matching_drop c j :
  (forall k, (k < j)%nat -> code_at ioctlent k <> Some c) -> matching c ioctlent = matching c (drop j ioctlent).
Proof.
  intros Hj. unfold matching. rewrite <- (take_drop j ioctlent) at 1. rewrite filter_app.
  fold (matching c (take j ioctlent)). rewrite matching_nil; [done|].
  intros x Hx Hc. apply list_elem_of_lookup in Hx as [k Hk].
  apply lookup_take_Some in Hk as [Hk Hlt]. apply (Hj k Hlt). unfold code_at. by rewrite Hk, <- Hc.
Qed.

(** The names of the entries after one of the code. *)
Lemma more_names_spec fuel i c :
  code_at ioctlent i = Some c -> (length (drop (S i) ioctlent) <= fuel)%nat ->
  more_names ioctlent fuel i =
  foldr (fun x t => " or " +:+ symbol x +:+ t) "" (matching c (drop (S i) ioctlent)).
Proof.
  revert i. induction fuel as [|fuel IH]; intros i Hi Hf.
  { destruct (drop (S i) ioctlent); [done|simpl in Hf; lia]. }
  cbn [more_names]. unfold ioctl_next_match. rewrite Hi.
  destruct (ioctlent !! S i) as [x|] eqn:Hx.
  - pose proof (lookup_lt_Some _ _ _ Hx) as Hlt. rewrite (proj2 (Nat.ltb_lt _ _) Hlt).
    rewrite andb_true_r, (drop_S _ _ _ Hx) in *. simpl in Hf. unfold matching.
    destruct (bool_decide_reflect (code_at ioctlent (S i) = Some c)) as [Hc|Hc].
    + rewrite filter_cons_True by (unfold code_at in Hc; rewrite Hx in Hc; by injection Hc).
      cbn [foldr]. rewrite Hx. by rewrite (IH (S i)) by (done || lia).
    + fold (matching c (x :: drop (S (S i)) ioctlent)). rewrite matching_nil; [done|].
      intros y Hy Hyc. rewrite <- (drop_S _ _ _ Hx) in Hy. apply list_elem_of_lookup in Hy as [k Hk].
      rewrite lookup_drop in Hk. unfold code_at in *. rewrite Hx in Hc. simpl in Hc.
      apply fmap_Some in Hi as (a & Ha & ->).
      pose proof (sorted_lookup i (S i) a x ltac:(lia) Ha Hx).
      pose proof (sorted_lookup (S i) (S i + k)%nat x y ltac:(lia) Hx Hk). apply Hc. f_equal. lia.
  - apply lookup_ge_None_1 in Hx. rewrite (proj2 (Nat.ltb_ge _ _) Hx).
    rewrite andb_false_r. by rewrite drop_ge by lia.
Qed.

(** The names of a code. *)
Definition names_text (code : Z) : string :=
  match matching (Z.land code ioc_mask) ioctlent with
  | [] => hexl code
  | x :: l => symbol x +:+ foldr (fun x t => " or " +:+ symbol x +:+ t) "" l
  end.

Lemma ioctl_name_spec code : ioctl_name ioctlent code = names_text code.
Proof.
  unfold ioctl_name, ioctl_lookup, names_text. set (c := Z.land code ioc_mask).
  pose proof (bsearch_spec (compare c) ioctlent (compare_monotone c)) as Hb.
  destruct (bsearch (compare c) ioctlent) as [i|]; cbn [fmap option_fmap option_map].
  - destruct Hb as (a & Ha & Heq). apply Z.compare_eq in Heq.
    assert (Hi : code_at ioctlent i = Some c) by (unfold code_at; by rewrite Ha, Heq).
    destruct (rewind_spec i c Hi) as [Hj Hbefore]. set (j := rewind ioctlent i c) in *.
    rewrite (matching_drop c j Hbefore). pose proof Hj as Hj'. unfold code_at in Hj'.
    apply fmap_Some in Hj' as (x & Hx & Hxc). rewrite (drop_S _ _ _ Hx). unfold matching.
    rewrite filter_cons_True by done. rewrite Hx. cbn [fmap option_fmap option_map default].
    f_equal. apply more_names_spec; [done|]. rewrite length_drop. lia.
  - rewrite matching_nil; [done|]. intros x Hx Hc. apply (Hb x Hx). unfold compare.
    rewrite Hc. apply Z.compare_refl.
Qed.
End names.

(** ** What sys_ioctl needs *)

(** The group of a code: its second byte. *)
Definition ioc_type (code : Z) : Z := Z.land (Z.shiftr code 8) 0xff.

Section contract.
Context `{K : Kernel} (vla_ok : Z -> bool) (ioctlent : list struct_ioctlent).

Lemma Decodes_ioctl_decode e code a :
  env_ok e -> ioc_type code <> 0x89 -> code <> SG_IO \/ 0 < max_strlen e ->
  Decodes e (ioctl_decode vla_ok code a) shown_or_not.
Proof.
  intros Hok Hs Hg. unfold ioctl_decode. fold (ioc_type code). cbv zeta.
  destruct (_ =? 0x54); [decodes|]. destruct (Z.eqb_spec (ioc_type code) 0x89); [done|].
  destruct (_ =? _); [decodes|]. destruct (_ || _); [decodes|].
  destruct (_ =? 0x22); [by apply Decodes_scsi_ioctl|]. decodes.
Qed.

Lemma Decodes_sys_ioctl e fd code a rest :
  env_ok e -> u_arg e = fd :: code :: a :: rest ->
  ioc_type code <> 0x89 -> code <> SG_IO \/ 0 < max_strlen e ->
  Decodes e (sys_ioctl vla_ok ioctlent) (fun r => r = 0).
Proof.
  intros Hok Ha Hs Hg. pose proof (Decodes_ioctl_decode e code a Hok Hs Hg) as Hd.
  unfold sys_ioctl. apply Decodes_ask. do 3 apply Decodes_arg. rewrite Ha.
  cbn [lookup list_lookup default id]. destruct (d_entering e).
  - do 3 (apply Decodes_seq; [decodes|intros _]). eapply Decodes_bind; [exact Hd|]. intros r _.
    by apply Decodes_ret.
  - eapply Decodes_bind; [exact Hd|]. intros r [-> | ->].
    + apply Decodes_seq; [decodes|intros _]. by apply Decodes_ret.
    + by apply Decodes_ret.
Qed.
End contract.

(** The first byte of an empty copy of the command is missing. *)
Lemma print_sg_io_buffer_empty `{K : Kernel} m `{!MemOk m} e addr len s :
  env_ok e -> max_strlen e = 0 -> 0 < len < 2 ^ 31 -> buf_at m (wordsize e) addr [] ->
  print_sg_io_buffer addr len e s = None.
Proof.
  intros [Hws _ _ _] Hm Hlen Hat. unfold print_sg_io_buffer. unfold mbind at 1, D_bind at 1, ask.
  rewrite Hm. replace (len =? 0) with false by lia. replace (len <? 0) with false by lia.
  rewrite u32_id by wrap_lia. replace (len >? 0) with true by lia. change (s32 0) with (Z.of_nat (length (A := Z) [])).
  destruct (Does_umove_struct m e addr [] Hws Hat s) as (s1 & H1 & _).
  unfold mbind, D_bind. cbv zeta. by rewrite H1.
Qed.

(** ** Properties *)

(** C18: every ioctl outside the group of the sockets is decoded to the end, on
    entry and on exit, whatever its argument and the tracee's memory: the call
    returns 0 and only adds text to the line.  SCSI requests need a string limit
    that is not zero. *)
Theorem sys_ioctl_returns `{K : Kernel} vla_ok ioctlent e fd code a rest s :
  env_ok e -> u_arg e = fd :: code :: a :: rest ->
  ioc_type code <> 0x89 -> code <> SG_IO \/ 0 < max_strlen e ->
  exists s', sys_ioctl vla_ok ioctlent e s = Some (0, s') /\ only_prints s s'.
Proof.
  intros Hok Ha Ht Hg.
  destruct (Decodes_sys_ioctl vla_ok ioctlent e fd code a rest Hok Ha Ht Hg s) as (r & s' & H1 & -> & H2).
  eauto.
Qed.

(** With a string limit of zero ("-s 0", which alice-record passes), a SCSI
    request stops the tracer: print_sg_io_buffer prints the first byte of the
    command, of which it has copied none. *)
Theorem sg_io_needs_strings `{K : Kernel} m `{!MemOk m} vla_ok ioctlent e fd a sg rest s :
  env_ok e -> d_entering e = true -> max_strlen e = 0 ->
  u_arg e = fd :: SG_IO :: a :: rest ->
  buf_at m (wordsize e) a sg -> fills 88 sg ->
  0 < fld 1 8 sg < 256 -> buf_at m (wordsize e) (fld 8 24 sg) [] ->
  sys_ioctl vla_ok ioctlent e s = None.
Proof.
  intros Hok He Hm Ha Hat Hsg Hlen Hcmd. unfold sys_ioctl.
  do 4 (apply aborts_later; intros ? ? [= <- <-]). rewrite Ha, He. cbn [lookup list_lookup default id].
  do 3 (apply aborts_later; intros ? ? _). apply aborts_now. unfold ioctl_decode.
  change (Z.land (Z.shiftr SG_IO 8) 255) with 0x22. cbn -[scsi_ioctl]. unfold scsi_ioctl.
  apply aborts_later; intros ? ? [= <- <-]. apply aborts_now. rewrite He. unfold arg_struct.
  apply aborts_later; intros bs s1 H1. rewrite <- Hsg in H1.
  destruct (Does_umove_struct m e a sg (ws_pos e Hok) Hat s'1) as (s2 & H2 & _).
  rewrite H2 in H1. injection H1 as <- <-. unfold print_sg_io_req.
  do 4 (apply aborts_later; intros ? ? _). apply aborts_now, (print_sg_io_buffer_empty m); auto. lia.
Qed.

(** A request at 4096 whose command of six bytes is at 4160. *)
Definition sg_demo : list Z :=
  bytes_le 4 83 ++ bytes_le 4 (-1) ++ [6; 0] ++ replicate 14 0 ++ bytes_le 8 4160 ++ replicate 56 0.
Definition sg_mem : memory := page_mem 4096 (fun i => default 0 (sg_demo !! Z.to_nat i)).
Definition sg_kernel : Kernel := mem_kernel true sg_mem.
#[global] Instance sg_mem_ok : @MemOk sg_kernel sg_mem.
Proof.
  apply mem_kernel_ok; [|by apply page_mem_words]. apply page_mem_u8.
Qed.

Definition no_strings (args : list Z) : denv :=
  mk_denv 7 8 0 args true 0 0 true true 0 0 false (fun _ => None) (fun _ => 0) 3.

Lemma sys_ioctl_returns_witness :
  exists s', @sys_ioctl io_kernel (fun _ => true) [] (io_env [3; SG_IO; 4096; 0; 0; 0]) io_state =
    Some (0, s') /\ only_prints io_state s'.
Proof.
  refine (@sys_ioctl_returns io_kernel (fun _ => true) [] (io_env [3; SG_IO; 4096; 0; 0; 0]) 3 SG_IO 4096
    [0; 0; 0] io_state (io_env_ok _) eq_refl _ (or_intror eq_refl)).
  discriminate.
Defined.

Lemma sg_io_needs_strings_witness :
  @sys_ioctl sg_kernel (fun _ => true) [] (no_strings [3; SG_IO; 4096; 0; 0; 0]) io_state = None.
Proof.
  refine (@sg_io_needs_strings sg_kernel sg_mem sg_mem_ok (fun _ => true) []
    (no_strings [3; SG_IO; 4096; 0; 0; 0]) 3 4096 sg_demo [0; 0; 0] io_state _ eq_refl eq_refl eq_refl _ eq_refl
    _ _).
  - split; [done| |done|done]. intros i. vm_compute. split; congruence.
  - at_buf.
  - vm_compute. split; congruence.
  - at_buf.
Defined.
