(* ===== verification/Ioctlent.v ===== *)
(** * The table of ioctl names (linux/ioctlent.h)

    The entries in the order of the file, with consecutive entries of one header
    written together; the file is generated by ioctlsort from the kernel's
    headers and has to be sorted for the search of ioctl_lookup. *)

From stdpp Require Import sorting.
From S2P Require Import Prelude Xlat Quote Tracee Decode Io Args Process Device Sockio Term Mtd Ioctl.
Local Open Scope string_scope.
Local Open Scope list_scope.
Local Open Scope Z_scope.

(** Entries of one header. *)
Definition from (doth : string) (l : list (string * Z)) : list struct_ioctlent :=
  (fun '(s, c) => mk_ioctlent doth s c) <$> l.

Definition ioctlent_1 : list struct_ioctlent :=
  from "linux/fs.h"
    [("FIBMAP", 0x0001); ("FIGETBSZ", 0x0002)] ++
  from "linux/fd.h"
    [("FDGETPRM", 0x0204); ("FDGETMAXERRS", 0x020e); ("FDGETDRVTYP", 0x020f);
     ("FDGETDRVPRM", 0x0211); ("FDGETDRVSTAT", 0x0212); ("FDPOLLDRVSTAT", 0x0213);
     ("FDGETFDCSTAT", 0x0215); ("FDWERRORGET", 0x0217); ("FDCLRPRM", 0x0241);
     ("FDSETPRM", 0x0242); ("FDDEFPRM", 0x0243); ("FDMSGON", 0x0245); ("FDMSGOFF", 0x0246);
     ("FDFMTBEG", 0x0247); ("FDFMTTRK", 0x0248); ("FDFMTEND", 0x0249); ("FDSETEMSGTRESH", 0x024a);
     ("FDFLUSH", 0x024b); ("FDSETMAXERRS", 0x024c); ("FDRESET", 0x0254); ("FDWERRORCLR", 0x0256);
     ("FDRAWCMD", 0x0258); ("FDTWADDLE", 0x0259); ("FDEJECT", 0x025a); ("FDSETDRVPRM", 0x0290)] ++
  from "linux/hdreg.h"
    [("HDIO_GETGEO", 0x0301); ("HDIO_GET_UNMASKINTR", 0x0302); ("HDIO_GET_MULTCOUNT", 0x0304);
     ("HDIO_GET_QDMA", 0x0305); ("HDIO_SET_XFER", 0x0306); ("HDIO_OBSOLETE_IDENTITY", 0x0307);
     ("HDIO_GET_KEEPSETTINGS", 0x0308); ("HDIO_GET_32BIT", 0x0309); ("HDIO_GET_NOWERR", 0x030a);
     ("HDIO_GET_DMA", 0x030b); ("HDIO_GET_NICE", 0x030c); ("HDIO_GET_IDENTITY", 0x030d);
     ("HDIO_GET_WCACHE", 0x030e); ("HDIO_GET_ACOUSTIC", 0x030f); ("HDIO_GET_ADDRESS", 0x0310);
     ("HDIO_GET_BUSSTATE", 0x031a); ("HDIO_TRISTATE_HWIF", 0x031b); ("HDIO_DRIVE_RESET", 0x031c);
     ("HDIO_DRIVE_TASKFILE", 0x031d); ("HDIO_DRIVE_TASK", 0x031e); ("HDIO_DRIVE_CMD", 0x031f);
     ("HDIO_SET_MULTCOUNT", 0x0321); ("HDIO_SET_UNMASKINTR", 0x0322);
     ("HDIO_SET_KEEPSETTINGS", 0x0323); ("HDIO_SET_32BIT", 0x0324); ("HDIO_SET_NOWERR", 0x0325);
     ("HDIO_SET_DMA", 0x0326); ("HDIO_SET_PIO_MODE", 0x0327); ("HDIO_SCAN_HWIF", 0x0328);
     ("HDIO_SET_NICE", 0x0329); ("HDIO_UNREGISTER_HWIF", 0x032a); ("HDIO_SET_WCACHE", 0x032b);
     ("HDIO_SET_ACOUSTIC", 0x032c); ("HDIO_SET_BUSSTATE", 0x032d); ("HDIO_SET_QDMA", 0x032e);
     ("HDIO_SET_ADDRESS", 0x032f)] ++
  from "linux/vm_sockets.h"
    [("IOCTL_VM_SOCKETS_GET_LOCAL_CID", 0x07b9)] ++
  from "linux/raid/md_u.h"
    [("RAID_VERSION", 0x0910); ("GET_ARRAY_INFO", 0x0911); ("GET_DISK_INFO", 0x0912);
     ("PRINT_RAID_DEBUG", 0x0913); ("RAID_AUTORUN", 0x0914); ("GET_BITMAP_FILE", 0x0915);
     ("CLEAR_ARRAY", 0x0920); ("ADD_NEW_DISK", 0x0921); ("HOT_REMOVE_DISK", 0x0922);
     ("SET_ARRAY_INFO", 0x0923); ("SET_DISK_INFO", 0x0924); ("WRITE_RAID_INFO", 0x0925);
     ("UNPROTECT_ARRAY", 0x0926); ("PROTECT_ARRAY", 0x0927); ("HOT_ADD_DISK", 0x0928);
     ("SET_DISK_FAULTY", 0x0929); ("HOT_GENERATE_ERROR", 0x092a); ("SET_BITMAP_FILE", 0x092b);
     ("RUN_ARRAY", 0x0930); ("STOP_ARRAY", 0x0932); ("STOP_ARRAY_RO", 0x0933);
     ("RESTART_ARRAY_RW", 0x0934)] ++
  from "linux/fs.h"
    [("BLKROSET", 0x125d); ("BLKROGET", 0x125e); ("BLKRRPART", 0x125f); ("BLKGETSIZE", 0x1260);
     ("BLKFLSBUF", 0x1261); ("BLKRASET", 0x1262); ("BLKRAGET", 0x1263); ("BLKFRASET", 0x1264);
     ("BLKFRAGET", 0x1265); ("BLKSECTSET", 0x1266); ("BLKSECTGET", 0x1267); ("BLKSSZGET", 0x1268)] ++
  from "linux/blkpg.h"
    [("BLKPG", 0x1269)] ++
  from "linux/fs.h"
    [("BLKELVGET", 0x126a); ("BLKELVSET", 0x126b); ("BLKBSZGET", 0x1270); ("BLKBSZSET", 0x1271);
     ("BLKGETSIZE64", 0x1272); ("BLKTRACESETUP", 0x1273); ("BLKTRACESTART", 0x1274);
     ("BLKTRACESTOP", 0x1275); ("BLKTRACETEARDOWN", 0x1276); ("BLKDISCARD", 0x1277);
     ("BLKIOMIN", 0x1278); ("BLKIOOPT", 0x1279); ("BLKALIGNOFF", 0x127a); ("BLKPBSZGET", 0x127b);
     ("BLKDISCARDZEROES", 0x127c); ("BLKSECDISCARD", 0x127d); ("BLKROTATIONAL", 0x127e);
     ("BLKZEROOUT", 0x127f)] ++
  from "rdma/ib_user_mad.h"
    [("IB_USER_MAD_REGISTER_AGENT", 0x1b01); ("IB_USER_MAD_UNREGISTER_AGENT", 0x1b02);
     ("IB_USER_MAD_ENABLE_PKEY", 0x1b03)] ++
  from "scsi/sg.h"
    [("SG_SET_TIMEOUT", 0x2201); ("SG_GET_TIMEOUT", 0x2202); ("SG_EMULATED_HOST", 0x2203);
     ("SG_SET_TRANSFORM", 0x2204); ("SG_GET_TRANSFORM", 0x2205); ("SG_GET_COMMAND_Q", 0x2270);
     ("SG_SET_COMMAND_Q", 0x2271); ("SG_GET_RESERVED_SIZE", 0x2272);
     ("SG_SET_RESERVED_SIZE", 0x2275); ("SG_GET_SCSI_ID", 0x2276);
     ("SG_SET_FORCE_LOW_DMA", 0x2279); ("SG_GET_LOW_DMA", 0x227a);
     ("SG_SET_FORCE_PACK_ID", 0x227b); ("SG_GET_PACK_ID", 0x227c); ("SG_GET_NUM_WAITING", 0x227d);
     ("SG_SET_DEBUG", 0x227e); ("SG_GET_SG_TABLESIZE", 0x227f); ("SG_GET_VERSION_NUM", 0x2282);
     ("SG_NEXT_CMD_LEN", 0x2283); ("SG_SCSI_RESET", 0x2284); ("SG_IO", 0x2285);
     ("SG_GET_REQUEST_TABLE", 0x2286); ("SG_SET_KEEP_ORPHAN", 0x2287);
     ("SG_GET_KEEP_ORPHAN", 0x2288); ("SG_GET_ACCESS_COUNT", 0x2289)] ++
  from "linux/firewire-cdev.h"
    [("FW_CDEV_IOC_GET_INFO", 0x2300); ("FW_CDEV_IOC_SEND_REQUEST", 0x2301);
     ("FW_CDEV_IOC_ALLOCATE", 0x2302); ("FW_CDEV_IOC_DEALLOCATE", 0x2303);
     ("FW_CDEV_IOC_SEND_RESPONSE", 0x2304)].

Definition ioctlent_2 : list struct_ioctlent :=
  from "linux/firewire-cdev.h"
    [("FW_CDEV_IOC_INITIATE_BUS_RESET", 0x2305); ("FW_CDEV_IOC_ADD_DESCRIPTOR", 0x2306);
     ("FW_CDEV_IOC_REMOVE_DESCRIPTOR", 0x2307); ("FW_CDEV_IOC_CREATE_ISO_CONTEXT", 0x2308);
     ("FW_CDEV_IOC_QUEUE_ISO", 0x2309); ("FW_CDEV_IOC_START_ISO", 0x230a);
     ("FW_CDEV_IOC_STOP_ISO", 0x230b); ("FW_CDEV_IOC_GET_CYCLE_TIMER", 0x230c);
     ("FW_CDEV_IOC_ALLOCATE_ISO_RESOURCE", 0x230d);
     ("FW_CDEV_IOC_DEALLOCATE_ISO_RESOURCE", 0x230e);
     ("FW_CDEV_IOC_ALLOCATE_ISO_RESOURCE_ONCE", 0x230f);
     ("FW_CDEV_IOC_DEALLOCATE_ISO_RESOURCE_ONCE", 0x2310); ("FW_CDEV_IOC_GET_SPEED", 0x2311);
     ("FW_CDEV_IOC_SEND_BROADCAST_REQUEST", 0x2312); ("FW_CDEV_IOC_SEND_STREAM_PACKET", 0x2313);
     ("FW_CDEV_IOC_GET_CYCLE_TIMER2", 0x2314); ("FW_CDEV_IOC_SEND_PHY_PACKET", 0x2315);
     ("FW_CDEV_IOC_RECEIVE_PHY_PACKETS", 0x2316); ("FW_CDEV_IOC_SET_ISO_CHANNELS", 0x2317);
     ("FW_CDEV_IOC_FLUSH_ISO", 0x2318)] ++
  from "linux/perf_event.h"
    [("PERF_EVENT_IOC_ENABLE", 0x2400); ("PERF_EVENT_IOC_DISABLE", 0x2401);
     ("PERF_EVENT_IOC_REFRESH", 0x2402); ("PERF_EVENT_IOC_RESET", 0x2403);
     ("PERF_EVENT_IOC_PERIOD", 0x2404); ("PERF_EVENT_IOC_SET_OUTPUT", 0x2405);
     ("PERF_EVENT_IOC_SET_FILTER", 0x2406)] ++
  from "linux/suspend_ioctls.h"
    [("SNAPSHOT_FREEZE", 0x3301); ("SNAPSHOT_UNFREEZE", 0x3302);
     ("SNAPSHOT_ATOMIC_RESTORE", 0x3304); ("SNAPSHOT_FREE", 0x3305);
     ("SNAPSHOT_FREE_SWAP_PAGES", 0x3309); ("SNAPSHOT_S2RAM", 0x330b);
     ("SNAPSHOT_SET_SWAP_AREA", 0x330d); ("SNAPSHOT_GET_IMAGE_SIZE", 0x330e);
     ("SNAPSHOT_PLATFORM_SUPPORT", 0x330f); ("SNAPSHOT_POWER_OFF", 0x3310);
     ("SNAPSHOT_CREATE_IMAGE", 0x3311); ("SNAPSHOT_PREF_IMAGE_SIZE", 0x3312);
     ("SNAPSHOT_AVAIL_SWAP_SIZE", 0x3313); ("SNAPSHOT_ALLOC_SWAP_PAGE", 0x3314)] ++
  from "linux/vfio.h"
    [("VFIO_GET_API_VERSION", 0x3b64); ("VFIO_CHECK_EXTENSION", 0x3b65);
     ("VFIO_SET_IOMMU", 0x3b66); ("VFIO_GROUP_GET_STATUS", 0x3b67);
     ("VFIO_GROUP_SET_CONTAINER", 0x3b68); ("VFIO_GROUP_UNSET_CONTAINER", 0x3b69);
     ("VFIO_GROUP_GET_DEVICE_FD", 0x3b6a); ("VFIO_DEVICE_GET_INFO", 0x3b6b);
     ("VFIO_DEVICE_GET_REGION_INFO", 0x3b6c); ("VFIO_DEVICE_GET_IRQ_INFO", 0x3b6d);
     ("VFIO_DEVICE_SET_IRQS", 0x3b6e); ("VFIO_DEVICE_RESET", 0x3b6f);
     ("VFIO_IOMMU_GET_INFO", 0x3b70); ("VFIO_IOMMU_MAP_DMA", 0x3b71);
     ("VFIO_IOMMU_UNMAP_DMA", 0x3b72)] ++
  from "linux/ptp_clock.h"
    [("PTP_CLOCK_GETCAPS", 0x3d01); ("PTP_EXTTS_REQUEST", 0x3d02); ("PTP_PEROUT_REQUEST", 0x3d03);
     ("PTP_ENABLE_PPS", 0x3d04); ("PTP_SYS_OFFSET", 0x3d05)] ++
  from "linux/radeonfb.h"
    [("FBIO_RADEON_GET_MIRROR", 0x4003); ("FBIO_RADEON_SET_MIRROR", 0x4004)] ++
  from "linux/agpgart.h"
    [("AGPIOC_INFO", 0x4100)] ++
  from "sound/asound.h"
    [("SNDRV_PCM_IOCTL_PVERSION", 0x4100)] ++
  from "linux/agpgart.h"
    [("AGPIOC_ACQUIRE", 0x4101)] ++
  from "linux/apm_bios.h"
    [("APM_IOC_STANDBY", 0x4101)] ++
  from "sound/asound.h"
    [("SNDRV_PCM_IOCTL_INFO", 0x4101)] ++
  from "linux/agpgart.h"
    [("AGPIOC_RELEASE", 0x4102)] ++
  from "linux/apm_bios.h"
    [("APM_IOC_SUSPEND", 0x4102)] ++
  from "sound/asound.h"
    [("SNDRV_PCM_IOCTL_TSTAMP", 0x4102)] ++
  from "linux/agpgart.h"
    [("AGPIOC_SETUP", 0x4103)] ++
  from "sound/asound.h"
    [("SNDRV_PCM_IOCTL_TTSTAMP", 0x4103)] ++
  from "linux/agpgart.h"
    [("AGPIOC_RESERVE", 0x4104); ("AGPIOC_PROTECT", 0x4105); ("AGPIOC_ALLOCATE", 0x4106);
     ("AGPIOC_DEALLOCATE", 0x4107); ("AGPIOC_BIND", 0x4108); ("AGPIOC_UNBIND", 0x4109);
     ("AGPIOC_CHIPSET_FLUSH", 0x410a)] ++
  from "sound/asound.h"
    [("SNDRV_PCM_IOCTL_HW_REFINE", 0x4110); ("SNDRV_PCM_IOCTL_HW_PARAMS", 0x4111);
     ("SNDRV_PCM_IOCTL_HW_FREE", 0x4112); ("SNDRV_PCM_IOCTL_SW_PARAMS", 0x4113);
     ("SNDRV_PCM_IOCTL_STATUS", 0x4120); ("SNDRV_PCM_IOCTL_DELAY", 0x4121);
     ("SNDRV_PCM_IOCTL_HWSYNC", 0x4122); ("SNDRV_PCM_IOCTL_SYNC_PTR", 0x4123);
     ("SNDRV_PCM_IOCTL_CHANNEL_INFO", 0x4132); ("SNDRV_PCM_IOCTL_PREPARE", 0x4140);
     ("SNDRV_PCM_IOCTL_RESET", 0x4141); ("SNDRV_PCM_IOCTL_START", 0x4142);
     ("SNDRV_PCM_IOCTL_DROP", 0x4143); ("SNDRV_PCM_IOCTL_DRAIN", 0x4144);
     ("SNDRV_PCM_IOCTL_PAUSE", 0x4145); ("SNDRV_PCM_IOCTL_REWIND", 0x4146);
     ("SNDRV_PCM_IOCTL_RESUME", 0x4147); ("SNDRV_PCM_IOCTL_XRUN", 0x4148);
     ("SNDRV_PCM_IOCTL_FORWARD", 0x4149); ("SNDRV_PCM_IOCTL_WRITEI_FRAMES", 0x4150);
     ("SNDRV_PCM_IOCTL_READI_FRAMES", 0x4151); ("SNDRV_PCM_IOCTL_WRITEN_FRAMES", 0x4152);
     ("SNDRV_PCM_IOCTL_READN_FRAMES", 0x4153); ("SNDRV_PCM_IOCTL_LINK", 0x4160);
     ("SNDRV_PCM_IOCTL_UNLINK", 0x4161)] ++
  from "linux/pmu.h"
    [("PMU_IOC_SLEEP", 0x4200)] ++
  from "linux/cciss_ioctl.h"
    [("CCISS_GETPCIINFO", 0x4201)] ++
  from "linux/pmu.h"
    [("PMU_IOC_GET_BACKLIGHT", 0x4201)] ++
  from "linux/cciss_ioctl.h"
    [("CCISS_GETINTINFO", 0x4202)] ++
  from "linux/pmu.h"
    [("PMU_IOC_SET_BACKLIGHT", 0x4202)] ++
  from "linux/cciss_ioctl.h"
    [("CCISS_SETINTINFO", 0x4203)] ++
  from "linux/pmu.h"
    [("PMU_IOC_GET_MODEL", 0x4203)] ++
  from "linux/cciss_ioctl.h"
    [("CCISS_GETNODENAME", 0x4204)] ++
  from "linux/pmu.h"
    [("PMU_IOC_HAS_ADB", 0x4204)] ++
  from "linux/cciss_ioctl.h"
    [("CCISS_SETNODENAME", 0x4205)] ++
  from "linux/pmu.h"
    [("PMU_IOC_CAN_SLEEP", 0x4205)] ++
  from "linux/cciss_ioctl.h"
    [("CCISS_GETHEARTBEAT", 0x4206)] ++
  from "linux/pmu.h"
    [("PMU_IOC_GRAB_BACKLIGHT", 0x4206)] ++
  from "linux/cciss_ioctl.h"
    [("CCISS_GETBUSTYPES", 0x4207); ("CCISS_GETFIRMVER", 0x4208); ("CCISS_GETDRIVVER", 0x4209);
     ("CCISS_REVALIDVOLS", 0x420a); ("CCISS_PASSTHRU", 0x420b); ("CCISS_DEREGDISK", 0x420c);
     ("CCISS_REGNEWDISK", 0x420d); ("CCISS_REGNEWD", 0x420e); ("CCISS_RESCANDISK", 0x4210);
     ("CCISS_GETLUNINFO", 0x4211); ("CCISS_BIG_PASSTHRU", 0x4212)] ++
  from "linux/soundcard.h"
    [("SNDCTL_COPR_RESET", 0x4300)] ++
  from "sound/compress_offload.h"
    [("SNDRV_COMPRESS_IOCTL_VERSION", 0x4300)] ++
  from "linux/capi.h"
    [("CAPI_REGISTER", 0x4301)] ++
  from "linux/soundcard.h"
    [("SNDCTL_COPR_LOAD", 0x4301); ("SNDCTL_COPR_RDATA", 0x4302); ("SNDCTL_COPR_RCODE", 0x4303);
     ("SNDCTL_COPR_WDATA", 0x4304); ("SNDCTL_COPR_WCODE", 0x4305)] ++
  from "linux/capi.h"
    [("CAPI_GET_MANUFACTURER", 0x4306)] ++
  from "linux/soundcard.h"
    [("SNDCTL_COPR_RUN", 0x4306)] ++
  from "linux/capi.h"
    [("CAPI_GET_VERSION", 0x4307)] ++
  from "linux/soundcard.h"
    [("SNDCTL_COPR_HALT", 0x4307)] ++
  from "linux/capi.h"
    [("CAPI_GET_SERIAL", 0x4308)] ++
  from "linux/soundcard.h"
    [("SNDCTL_COPR_SENDMSG", 0x4308)] ++
  from "linux/capi.h"
    [("CAPI_GET_PROFILE", 0x4309)] ++
  from "linux/soundcard.h"
    [("SNDCTL_COPR_RCVMSG", 0x4309)] ++
  from "sound/compress_offload.h"
    [("SNDRV_COMPRESS_GET_CAPS", 0x4310); ("SNDRV_COMPRESS_GET_CODEC_CAPS", 0x4311);
     ("SNDRV_COMPRESS_SET_PARAMS", 0x4312); ("SNDRV_COMPRESS_GET_PARAMS", 0x4313);
     ("SNDRV_COMPRESS_SET_METADATA", 0x4314)].

Definition ioctlent_3 : list struct_ioctlent :=
  from "sound/compress_offload.h"
    [("SNDRV_COMPRESS_GET_METADATA", 0x4315)] ++
  from "linux/capi.h"
    [("CAPI_MANUFACTURER_CMD", 0x4320)] ++
  from "sound/compress_offload.h"
    [("SNDRV_COMPRESS_TSTAMP", 0x4320)] ++
  from "linux/capi.h"
    [("CAPI_GET_ERRCODE", 0x4321)] ++
  from "sound/compress_offload.h"
    [("SNDRV_COMPRESS_AVAIL", 0x4321)] ++
  from "linux/capi.h"
    [("CAPI_INSTALLED", 0x4322); ("CAPI_GET_FLAGS", 0x4323); ("CAPI_SET_FLAGS", 0x4324);
     ("CAPI_CLR_FLAGS", 0x4325); ("CAPI_NCCI_OPENCOUNT", 0x4326); ("CAPI_NCCI_GETUNIT", 0x4327)] ++
  from "sound/compress_offload.h"
    [("SNDRV_COMPRESS_PAUSE", 0x4330); ("SNDRV_COMPRESS_RESUME", 0x4331);
     ("SNDRV_COMPRESS_START", 0x4332); ("SNDRV_COMPRESS_STOP", 0x4333);
     ("SNDRV_COMPRESS_DRAIN", 0x4334); ("SNDRV_COMPRESS_NEXT_TRACK", 0x4335);
     ("SNDRV_COMPRESS_PARTIAL_DRAIN", 0x4336)] ++
  from "linux/input.h"
    [("EVIOCGVERSION", 0x4501); ("EVIOCGID", 0x4502); ("EVIOCGREP", 0x4503);
     ("EVIOCSREP", 0x4503); ("EVIOCGKEYCODE", 0x4504); ("EVIOCGKEYCODE_V2", 0x4504);
     ("EVIOCSKEYCODE", 0x4504); ("EVIOCSKEYCODE_V2", 0x4504); ("EVIOCRMFF", 0x4581);
     ("EVIOCGEFFECTS", 0x4584); ("EVIOCGRAB", 0x4590); ("EVIOCSCLOCKID", 0x45a0)] ++
  from "linux/fb.h"
    [("FBIOGET_VSCREENINFO", 0x4600)] ++
  from "video/da8xx-fb.h"
    [("FBIOGET_CONTRAST", 0x4601)] ++
  from "linux/fb.h"
    [("FBIOPUT_VSCREENINFO", 0x4601); ("FBIOGET_FSCREENINFO", 0x4602)] ++
  from "video/da8xx-fb.h"
    [("FBIOPUT_CONTRAST", 0x4602); ("FBIGET_BRIGHTNESS", 0x4603); ("FBIPUT_BRIGHTNESS", 0x4603)] ++
  from "linux/fb.h"
    [("FBIOGETCMAP", 0x4604)] ++
  from "video/da8xx-fb.h"
    [("FBIGET_COLOR", 0x4605)] ++
  from "linux/fb.h"
    [("FBIOPUTCMAP", 0x4605); ("FBIOPAN_DISPLAY", 0x4606)] ++
  from "video/da8xx-fb.h"
    [("FBIPUT_COLOR", 0x4606)] ++
  from "linux/fb.h"
    [("FBIO_CURSOR", 0x4608)] ++
  from "video/da8xx-fb.h"
    [("FBIPUT_HSYNC", 0x4609); ("FBIPUT_VSYNC", 0x460a)] ++
  from "linux/fb.h"
    [("FBIOGET_CON2FBMAP", 0x460f); ("FBIOPUT_CON2FBMAP", 0x4610); ("FBIOBLANK", 0x4611);
     ("FBIOGET_VBLANK", 0x4612); ("FBIO_ALLOC", 0x4613); ("FBIO_FREE", 0x4614);
     ("FBIOGET_GLYPH", 0x4615); ("FBIOGET_HWCINFO", 0x4616); ("FBIOPUT_MODEINFO", 0x4617);
     ("FBIOGET_DISPINFO", 0x4618); ("FBIO_WAITFORVSYNC", 0x4620)] ++
  from "linux/arcfb.h"
    [("FBIO_WAITEVENT", 0x4688); ("FBIO_GETCONTROL2", 0x4689)] ++
  from "video/sstfb.h"
    [("SSTFB_GET_VGAPASS", 0x46dd); ("SSTFB_SET_VGAPASS", 0x46dd)] ++
  from "linux/gigaset_dev.h"
    [("GIGASET_REDIR", 0x4700); ("GIGASET_CONFIG", 0x4701); ("GIGASET_BRKCHARS", 0x4702);
     ("GIGASET_VERSION", 0x4703)] ++
  from "sound/asound.h"
    [("SNDRV_HWDEP_IOCTL_PVERSION", 0x4800)] ++
  from "linux/hidraw.h"
    [("HIDIOCGRDESCSIZE", 0x4801)] ++
  from "linux/hiddev.h"
    [("HIDIOCGVERSION", 0x4801)] ++
  from "sound/asound.h"
    [("SNDRV_HWDEP_IOCTL_INFO", 0x4801)] ++
  from "linux/hiddev.h"
    [("HIDIOCAPPLICATION", 0x4802)] ++
  from "linux/hidraw.h"
    [("HIDIOCGRDESC", 0x4802)] ++
  from "sound/asound.h"
    [("SNDRV_HWDEP_IOCTL_DSP_STATUS", 0x4802)] ++
  from "linux/hiddev.h"
    [("HIDIOCGDEVINFO", 0x4803)] ++
  from "linux/hidraw.h"
    [("HIDIOCGRAWINFO", 0x4803)] ++
  from "sound/asound.h"
    [("SNDRV_HWDEP_IOCTL_DSP_LOAD", 0x4803)] ++
  from "linux/hiddev.h"
    [("HIDIOCGSTRING", 0x4804); ("HIDIOCINITREPORT", 0x4805); ("HIDIOCGREPORT", 0x4807);
     ("HIDIOCSREPORT", 0x4808); ("HIDIOCGREPORTINFO", 0x4809); ("HIDIOCGFIELDINFO", 0x480a);
     ("HIDIOCGUSAGE", 0x480b); ("HIDIOCSUSAGE", 0x480c); ("HIDIOCGUCODE", 0x480d);
     ("HIDIOCGFLAG", 0x480e); ("HIDIOCSFLAG", 0x480f); ("HIDIOCGCOLLECTIONINDEX", 0x4810)] ++
  from "sound/emu10k1.h"
    [("SNDRV_EMU10K1_IOCTL_INFO", 0x4810)] ++
  from "sound/sb16_csp.h"
    [("SNDRV_SB_CSP_IOCTL_INFO", 0x4810)] ++
  from "linux/hiddev.h"
    [("HIDIOCGCOLLECTIONINFO", 0x4811)] ++
  from "sound/emu10k1.h"
    [("SNDRV_EMU10K1_IOCTL_CODE_POKE", 0x4811); ("SNDRV_EMU10K1_IOCTL_CODE_PEEK", 0x4812)] ++
  from "sound/sb16_csp.h"
    [("SNDRV_SB_CSP_IOCTL_UNLOAD_CODE", 0x4812)] ++
  from "linux/hiddev.h"
    [("HIDIOCGUSAGES", 0x4813)] ++
  from "sound/sb16_csp.h"
    [("SNDRV_SB_CSP_IOCTL_START", 0x4813)] ++
  from "linux/hiddev.h"
    [("HIDIOCSUSAGES", 0x4814)] ++
  from "sound/sb16_csp.h"
    [("SNDRV_SB_CSP_IOCTL_STOP", 0x4814); ("SNDRV_SB_CSP_IOCTL_PAUSE", 0x4815);
     ("SNDRV_SB_CSP_IOCTL_RESTART", 0x4816)] ++
  from "sound/asound_fm.h"
    [("SNDRV_DM_FM_IOCTL_INFO", 0x4820)] ++
  from "sound/emu10k1.h"
    [("SNDRV_EMU10K1_IOCTL_TRAM_SETUP", 0x4820)] ++
  from "sound/asound_fm.h"
    [("SNDRV_DM_FM_IOCTL_RESET", 0x4821)] ++
  from "sound/emu10k1.h"
    [("SNDRV_EMU10K1_IOCTL_TRAM_POKE", 0x4821)] ++
  from "sound/asound_fm.h"
    [("SNDRV_DM_FM_IOCTL_PLAY_NOTE", 0x4822)] ++
  from "sound/emu10k1.h"
    [("SNDRV_EMU10K1_IOCTL_TRAM_PEEK", 0x4822)] ++
  from "sound/asound_fm.h"
    [("SNDRV_DM_FM_IOCTL_SET_VOICE", 0x4823); ("SNDRV_DM_FM_IOCTL_SET_PARAMS", 0x4824);
     ("SNDRV_DM_FM_IOCTL_SET_MODE", 0x4825); ("SNDRV_DM_FM_IOCTL_SET_CONNECTION", 0x4826)] ++
  from "sound/emu10k1.h"
    [("SNDRV_EMU10K1_IOCTL_PCM_POKE", 0x4830); ("SNDRV_EMU10K1_IOCTL_PCM_PEEK", 0x4831)] ++
  from "sound/asound_fm.h"
    [("SNDRV_DM_FM_IOCTL_CLEAR_PATCHES", 0x4840)] ++
  from "sound/emu10k1.h"
    [("SNDRV_EMU10K1_IOCTL_PVERSION", 0x4840)] ++
  from "sound/hdsp.h"
    [("SNDRV_HDSP_IOCTL_GET_PEAK_RMS", 0x4840); ("SNDRV_HDSP_IOCTL_GET_CONFIG_INFO", 0x4841);
     ("SNDRV_HDSP_IOCTL_UPLOAD_FIRMWARE", 0x4842); ("SNDRV_HDSP_IOCTL_GET_VERSION", 0x4843)] ++
  from "sound/hdspm.h"
    [("SNDRV_HDSPM_IOCTL_GET_MIXER", 0x4844)] ++
  from "sound/hdsp.h"
    [("SNDRV_HDSP_IOCTL_GET_MIXER", 0x4844); ("SNDRV_HDSP_IOCTL_GET_9632_AEB", 0x4845)] ++
  from "sound/hdspm.h"
    [("SNDRV_HDSPM_IOCTL_GET_LTC", 0x4846); ("SNDRV_HDSPM_IOCTL_GET_VERSION", 0x4848)] ++
  from "sound/emu10k1.h"
    [("SNDRV_EMU10K1_IOCTL_STOP", 0x4880)] ++
  from "sound/sfnt_info.h"
    [("SNDRV_EMUX_IOCTL_VERSION", 0x4880)] ++
  from "sound/emu10k1.h"
    [("SNDRV_EMU10K1_IOCTL_CONTINUE", 0x4881)] ++
  from "sound/sfnt_info.h"
    [("SNDRV_EMUX_IOCTL_LOAD_PATCH", 0x4881)] ++
  from "sound/emu10k1.h"
    [("SNDRV_EMU10K1_IOCTL_ZERO_TRAM_COUNTER", 0x4882)] ++
  from "sound/sfnt_info.h"
    [("SNDRV_EMUX_IOCTL_RESET_SAMPLES", 0x4882)] ++
  from "sound/emu10k1.h"
    [("SNDRV_EMU10K1_IOCTL_SINGLE_STEP", 0x4883)] ++
  from "sound/sfnt_info.h"
    [("SNDRV_EMUX_IOCTL_REMOVE_LAST_SAMPLES", 0x4883)] ++
  from "sound/emu10k1.h"
    [("SNDRV_EMU10K1_IOCTL_DBG_READ", 0x4884)] ++
  from "sound/sfnt_info.h"
    [("SNDRV_EMUX_IOCTL_MEM_AVAIL", 0x4884); ("SNDRV_EMUX_IOCTL_MISC_MODE", 0x4884)] ++
  from "net/bluetooth/hci.h"
    [("HCIDEVUP", 0x48c9); ("HCIDEVDOWN", 0x48ca); ("HCIDEVRESET", 0x48cb);
     ("HCIDEVRESTAT", 0x48cc); ("HCIGETDEVLIST", 0x48d2); ("HCIGETDEVINFO", 0x48d3);
     ("HCIGETCONNLIST", 0x48d4); ("HCIGETCONNINFO", 0x48d5); ("HCIGETAUTHINFO", 0x48d7);
     ("HCISETRAW", 0x48dc); ("HCISETSCAN", 0x48dd); ("HCISETAUTH", 0x48de);
     ("HCISETENCRYPT", 0x48df); ("HCISETPTYPE", 0x48e0); ("HCISETLINKPOL", 0x48e1);
     ("HCISETLINKMODE", 0x48e2); ("HCISETACLMTU", 0x48e3); ("HCISETSCOMTU", 0x48e4)].

Definition ioctlent_4 : list struct_ioctlent :=
  from "net/bluetooth/hci.h"
    [("HCIBLOCKADDR", 0x48e6); ("HCIUNBLOCKADDR", 0x48e7); ("HCIINQUIRY", 0x48f0)] ++
  from "linux/isdn.h"
    [("IIOCNETAIF", 0x4901); ("IIOCNETDIF", 0x4902); ("IIOCNETSCF", 0x4903);
     ("IIOCNETGCF", 0x4904); ("IIOCNETANM", 0x4905); ("IIOCNETDNM", 0x4906);
     ("IIOCNETGNM", 0x4907); ("IIOCGETSET", 0x4908); ("IIOCSETSET", 0x4909);
     ("IIOCSETVER", 0x490a); ("IIOCNETHUP", 0x490b); ("IIOCSETGST", 0x490c);
     ("IIOCSETBRJ", 0x490d); ("IIOCSIGPRF", 0x490e); ("IIOCGETPRF", 0x490f);
     ("IIOCSETPRF", 0x4910); ("IIOCGETMAP", 0x4911); ("IIOCSETMAP", 0x4912);
     ("IIOCNETASL", 0x4913); ("IIOCNETDIL", 0x4914); ("IIOCGETCPS", 0x4915);
     ("IIOCGETDVR", 0x4916); ("IIOCNETLCR", 0x4917); ("IIOCNETDWRSET", 0x4918);
     ("IIOCNETALN", 0x4920); ("IIOCNETDLN", 0x4921); ("IIOCNETGPN", 0x4922);
     ("IIOCDBGVAR", 0x497f); ("IIOCDRVCTL", 0x4980)] ++
  from "linux/kd.h"
    [("KIOCSOUND", 0x4b2f); ("KDMKTONE", 0x4b30); ("KDGETLED", 0x4b31); ("KDSETLED", 0x4b32);
     ("KDGKBTYPE", 0x4b33); ("KDADDIO", 0x4b34); ("KDDELIO", 0x4b35); ("KDENABIO", 0x4b36);
     ("KDDISABIO", 0x4b37); ("KDSETMODE", 0x4b3a); ("KDGETMODE", 0x4b3b); ("KDMAPDISP", 0x4b3c);
     ("KDUNMAPDISP", 0x4b3d); ("GIO_SCRNMAP", 0x4b40); ("PIO_SCRNMAP", 0x4b41);
     ("KDGKBMODE", 0x4b44); ("KDSKBMODE", 0x4b45); ("KDGKBENT", 0x4b46); ("KDSKBENT", 0x4b47);
     ("KDGKBSENT", 0x4b48); ("KDSKBSENT", 0x4b49); ("KDGKBDIACR", 0x4b4a); ("KDSKBDIACR", 0x4b4b);
     ("KDGETKEYCODE", 0x4b4c); ("KDSETKEYCODE", 0x4b4d); ("KDSIGACCEPT", 0x4b4e);
     ("KDKBDREP", 0x4b52); ("GIO_FONT", 0x4b60); ("PIO_FONT", 0x4b61); ("KDGKBMETA", 0x4b62);
     ("KDSKBMETA", 0x4b63); ("KDGKBLED", 0x4b64); ("KDSKBLED", 0x4b65); ("GIO_UNIMAP", 0x4b66);
     ("PIO_UNIMAP", 0x4b67); ("PIO_UNIMAPCLR", 0x4b68); ("GIO_UNISCRNMAP", 0x4b69);
     ("PIO_UNISCRNMAP", 0x4b6a); ("GIO_FONTX", 0x4b6b); ("PIO_FONTX", 0x4b6c);
     ("PIO_FONTRESET", 0x4b6d); ("GIO_CMAP", 0x4b70); ("PIO_CMAP", 0x4b71); ("KDFONTOP", 0x4b72);
     ("KDGKBDIACRUC", 0x4bfa); ("KDSKBDIACRUC", 0x4bfb)] ++
  from "linux/loop.h"
    [("LOOP_SET_FD", 0x4c00); ("LOOP_CLR_FD", 0x4c01); ("LOOP_SET_STATUS", 0x4c02);
     ("LOOP_GET_STATUS", 0x4c03); ("LOOP_SET_STATUS64", 0x4c04); ("LOOP_GET_STATUS64", 0x4c05);
     ("LOOP_CHANGE_FD", 0x4c06); ("LOOP_SET_CAPACITY", 0x4c07); ("LOOP_CTL_ADD", 0x4c80);
     ("LOOP_CTL_REMOVE", 0x4c81); ("LOOP_CTL_GET_FREE", 0x4c82)] ++
  from "asm/mtrr.h"
    [("MTRRIOC_ADD_ENTRY", 0x4d00)] ++
  from "asm/mce.h"
    [("MCE_GET_RECORD_LEN", 0x4d01)] ++
  from "mtd/mtd-abi.h"
    [("MEMGETINFO", 0x4d01)] ++
  from "asm/mtrr.h"
    [("MTRRIOC_SET_ENTRY", 0x4d01)] ++
  from "asm/mce.h"
    [("MCE_GET_LOG_LEN", 0x4d02)] ++
  from "mtd/mtd-abi.h"
    [("MEMERASE", 0x4d02)] ++
  from "asm/mtrr.h"
    [("MTRRIOC_DEL_ENTRY", 0x4d02)] ++
  from "asm/mce.h"
    [("MCE_GETCLEAR_FLAGS", 0x4d03)] ++
  from "mtd/mtd-abi.h"
    [("MEMWRITEOOB", 0x4d03)] ++
  from "asm/mtrr.h"
    [("MTRRIOC_GET_ENTRY", 0x4d03)] ++
  from "mtd/mtd-abi.h"
    [("MEMREADOOB", 0x4d04)] ++
  from "asm/mtrr.h"
    [("MTRRIOC_KILL_ENTRY", 0x4d04)] ++
  from "mtd/mtd-abi.h"
    [("MEMLOCK", 0x4d05)] ++
  from "asm/mtrr.h"
    [("MTRRIOC_ADD_PAGE_ENTRY", 0x4d05)] ++
  from "mtd/mtd-abi.h"
    [("MEMUNLOCK", 0x4d06)] ++
  from "asm/mtrr.h"
    [("MTRRIOC_SET_PAGE_ENTRY", 0x4d06)] ++
  from "mtd/mtd-abi.h"
    [("MEMGETREGIONCOUNT", 0x4d07)] ++
  from "asm/mtrr.h"
    [("MTRRIOC_DEL_PAGE_ENTRY", 0x4d07)] ++
  from "mtd/mtd-abi.h"
    [("MEMGETREGIONINFO", 0x4d08)] ++
  from "asm/mtrr.h"
    [("MTRRIOC_GET_PAGE_ENTRY", 0x4d08); ("MTRRIOC_KILL_PAGE_ENTRY", 0x4d09)] ++
  from "mtd/mtd-abi.h"
    [("MEMGETOOBSEL", 0x4d0a); ("MEMGETBADBLOCK", 0x4d0b); ("MEMSETBADBLOCK", 0x4d0c);
     ("OTPSELECT", 0x4d0d); ("OTPGETREGIONCOUNT", 0x4d0e); ("OTPGETREGIONINFO", 0x4d0f);
     ("OTPLOCK", 0x4d10); ("ECCGETLAYOUT", 0x4d11); ("ECCGETSTATS", 0x4d12);
     ("MTDFILEMODE", 0x4d13); ("MEMERASE64", 0x4d14); ("MEMWRITEOOB64", 0x4d15);
     ("MEMREADOOB64", 0x4d16); ("MEMISLOCKED", 0x4d17); ("MEMWRITE", 0x4d18)] ++
  from "linux/soundcard.h"
    [("SOUND_MIXER_INFO", 0x4d65); ("SOUND_OLD_MIXER_INFO", 0x4d65);
     ("SOUND_MIXER_ACCESS", 0x4d66); ("SOUND_MIXER_AGC", 0x4d67); ("SOUND_MIXER_3DSE", 0x4d68);
     ("SOUND_MIXER_PRIVATE1", 0x4d6f); ("SOUND_MIXER_PRIVATE2", 0x4d70);
     ("SOUND_MIXER_PRIVATE3", 0x4d71); ("SOUND_MIXER_PRIVATE4", 0x4d72);
     ("SOUND_MIXER_PRIVATE5", 0x4d73); ("SOUND_MIXER_GETLEVELS", 0x4d74);
     ("SOUND_MIXER_SETLEVELS", 0x4d75); ("OSS_GETVERSION", 0x4d76)] ++
  from "mtd/ubi-user.h"
    [("UBI_IOCVOLUP", 0x4f00); ("UBI_IOCEBER", 0x4f01); ("UBI_IOCEBCH", 0x4f02);
     ("UBI_IOCEBMAP", 0x4f03); ("UBI_IOCEBUNMAP", 0x4f04); ("UBI_IOCEBISMAP", 0x4f05);
     ("UBI_IOCSETVOLPROP", 0x4f06)] ++
  from "linux/soundcard.h"
    [("SNDCTL_DSP_RESET", 0x5000); ("SNDCTL_DSP_SYNC", 0x5001); ("SNDCTL_DSP_SPEED", 0x5002);
     ("SOUND_PCM_READ_RATE", 0x5002); ("SNDCTL_DSP_STEREO", 0x5003)].

Definition ioctlent_5 : list struct_ioctlent :=
  from "linux/soundcard.h"
    [("SNDCTL_DSP_GETBLKSIZE", 0x5004); ("SNDCTL_DSP_SETFMT", 0x5005);
     ("SOUND_PCM_READ_BITS", 0x5005); ("SNDCTL_DSP_CHANNELS", 0x5006);
     ("SOUND_PCM_READ_CHANNELS", 0x5006); ("SOUND_PCM_READ_FILTER", 0x5007);
     ("SOUND_PCM_WRITE_FILTER", 0x5007); ("SNDCTL_DSP_POST", 0x5008);
     ("SNDCTL_DSP_SUBDIVIDE", 0x5009); ("SNDCTL_DSP_SETFRAGMENT", 0x500a);
     ("SNDCTL_DSP_GETFMTS", 0x500b); ("SNDCTL_DSP_GETOSPACE", 0x500c);
     ("SNDCTL_DSP_GETISPACE", 0x500d); ("SNDCTL_DSP_NONBLOCK", 0x500e);
     ("SNDCTL_DSP_GETCAPS", 0x500f); ("SNDCTL_DSP_GETTRIGGER", 0x5010);
     ("SNDCTL_DSP_SETTRIGGER", 0x5010); ("SNDCTL_DSP_GETIPTR", 0x5011);
     ("SNDCTL_DSP_GETOPTR", 0x5012); ("SNDCTL_DSP_MAPINBUF", 0x5013);
     ("SNDCTL_DSP_MAPOUTBUF", 0x5014); ("SNDCTL_DSP_SETSYNCRO", 0x5015);
     ("SNDCTL_DSP_SETDUPLEX", 0x5016); ("SNDCTL_DSP_GETODELAY", 0x5017);
     ("SNDCTL_DSP_PROFILE", 0x5017); ("SNDCTL_DSP_GETCHANNELMASK", 0x5040);
     ("SNDCTL_DSP_BIND_CHANNEL", 0x5041); ("SNDCTL_DSP_SETSPDIF", 0x5042);
     ("SNDCTL_DSP_GETSPDIF", 0x5043); ("SNDCTL_SEQ_RESET", 0x5100); ("SNDCTL_SEQ_SYNC", 0x5101);
     ("SNDCTL_SYNTH_INFO", 0x5102); ("SNDCTL_SEQ_CTRLRATE", 0x5103);
     ("SNDCTL_SEQ_GETOUTCOUNT", 0x5104); ("SNDCTL_SEQ_GETINCOUNT", 0x5105);
     ("SNDCTL_SEQ_PERCMODE", 0x5106); ("SNDCTL_FM_LOAD_INSTR", 0x5107);
     ("SNDCTL_SEQ_TESTMIDI", 0x5108); ("SNDCTL_SEQ_RESETSAMPLES", 0x5109);
     ("SNDCTL_SEQ_NRSYNTHS", 0x510a); ("SNDCTL_SEQ_NRMIDIS", 0x510b);
     ("SNDCTL_MIDI_INFO", 0x510c); ("SNDCTL_SEQ_THRESHOLD", 0x510d);
     ("SNDCTL_SYNTH_MEMAVL", 0x510e); ("SNDCTL_FM_4OP_ENABLE", 0x510f);
     ("SNDCTL_SEQ_PANIC", 0x5111); ("SNDCTL_SEQ_OUTOFBAND", 0x5112);
     ("SNDCTL_SEQ_GETTIME", 0x5113); ("SNDCTL_SYNTH_ID", 0x5114);
     ("SNDCTL_SYNTH_CONTROL", 0x5115); ("SNDCTL_SYNTH_REMOVESAMPLE", 0x5116)] ++
  from "linux/random.h"
    [("RNDGETENTCNT", 0x5200)] ++
  from "linux/rfkill.h"
    [("RFKILL_IOCTL_NOINPUT", 0x5201)] ++
  from "linux/random.h"
    [("RNDADDTOENTCNT", 0x5201)] ++
  from "media/saa6588.h"
    [("SAA6588_CMD_OPEN", 0x5201)] ++
  from "linux/random.h"
    [("RNDGETPOOL", 0x5202)] ++
  from "media/saa6588.h"
    [("SAA6588_CMD_CLOSE", 0x5202)] ++
  from "linux/random.h"
    [("RNDADDENTROPY", 0x5203)] ++
  from "media/saa6588.h"
    [("SAA6588_CMD_READ", 0x5203)] ++
  from "linux/random.h"
    [("RNDZAPENTCNT", 0x5204)] ++
  from "media/saa6588.h"
    [("SAA6588_CMD_POLL", 0x5204)] ++
  from "linux/random.h"
    [("RNDCLEARPOOL", 0x5206)] ++
  from "net/bluetooth/rfcomm.h"
    [("RFCOMMCREATEDEV", 0x52c8); ("RFCOMMRELEASEDEV", 0x52c9); ("RFCOMMGETDEVLIST", 0x52d2);
     ("RFCOMMGETDEVINFO", 0x52d3); ("RFCOMMSTEALDLC", 0x52dc)] ++
  from "sound/asequencer.h"
    [("SNDRV_SEQ_IOCTL_PVERSION", 0x5300)] ++
  from "linux/cdrom.h"
    [("CDROMPAUSE", 0x5301)] ++
  from "sound/asequencer.h"
    [("SNDRV_SEQ_IOCTL_CLIENT_ID", 0x5301)] ++
  from "linux/cdrom.h"
    [("CDROMRESUME", 0x5302)] ++
  from "sound/asequencer.h"
    [("SNDRV_SEQ_IOCTL_SYSTEM_INFO", 0x5302)] ++
  from "linux/cdrom.h"
    [("CDROMPLAYMSF", 0x5303)] ++
  from "sound/asequencer.h"
    [("SNDRV_SEQ_IOCTL_RUNNING_MODE", 0x5303)] ++
  from "linux/cdrom.h"
    [("CDROMPLAYTRKIND", 0x5304); ("CDROMREADTOCHDR", 0x5305); ("CDROMREADTOCENTRY", 0x5306);
     ("CDROMSTOP", 0x5307); ("CDROMSTART", 0x5308); ("CDROMEJECT", 0x5309);
     ("CDROMVOLCTRL", 0x530a); ("CDROMSUBCHNL", 0x530b); ("CDROMREADMODE2", 0x530c);
     ("CDROMREADMODE1", 0x530d); ("CDROMREADAUDIO", 0x530e); ("CDROMEJECT_SW", 0x530f);
     ("CDROMMULTISESSION", 0x5310)] ++
  from "sound/asequencer.h"
    [("SNDRV_SEQ_IOCTL_GET_CLIENT_INFO", 0x5310)] ++
  from "linux/cdrom.h"
    [("CDROM_GET_MCN", 0x5311)] ++
  from "sound/asequencer.h"
    [("SNDRV_SEQ_IOCTL_SET_CLIENT_INFO", 0x5311)] ++
  from "linux/cdrom.h"
    [("CDROMRESET", 0x5312); ("CDROMVOLREAD", 0x5313); ("CDROMREADRAW", 0x5314);
     ("CDROMREADCOOKED", 0x5315); ("CDROMSEEK", 0x5316); ("CDROMPLAYBLK", 0x5317);
     ("CDROMREADALL", 0x5318); ("CDROMCLOSETRAY", 0x5319); ("CDROMGETSPINDOWN", 0x531d);
     ("CDROMSETSPINDOWN", 0x531e); ("CDROM_SET_OPTIONS", 0x5320)] ++
  from "sound/asequencer.h"
    [("SNDRV_SEQ_IOCTL_CREATE_PORT", 0x5320)] ++
  from "linux/cdrom.h"
    [("CDROM_CLEAR_OPTIONS", 0x5321)] ++
  from "sound/asequencer.h"
    [("SNDRV_SEQ_IOCTL_DELETE_PORT", 0x5321)] ++
  from "linux/cdrom.h"
    [("CDROM_SELECT_SPEED", 0x5322)] ++
  from "sound/asequencer.h"
    [("SNDRV_SEQ_IOCTL_GET_PORT_INFO", 0x5322)] ++
  from "linux/cdrom.h"
    [("CDROM_SELECT_DISC", 0x5323)] ++
  from "sound/asequencer.h"
    [("SNDRV_SEQ_IOCTL_SET_PORT_INFO", 0x5323)] ++
  from "linux/cdrom.h"
    [("CDROM_MEDIA_CHANGED", 0x5325); ("CDROM_DRIVE_STATUS", 0x5326);
     ("CDROM_DISC_STATUS", 0x5327); ("CDROM_CHANGER_NSLOTS", 0x5328); ("CDROM_LOCKDOOR", 0x5329);
     ("CDROM_DEBUG", 0x5330)] ++
  from "sound/asequencer.h"
    [("SNDRV_SEQ_IOCTL_SUBSCRIBE_PORT", 0x5330)] ++
  from "linux/cdrom.h"
    [("CDROM_GET_CAPABILITY", 0x5331)] ++
  from "sound/asequencer.h"
    [("SNDRV_SEQ_IOCTL_UNSUBSCRIBE_PORT", 0x5331); ("SNDRV_SEQ_IOCTL_CREATE_QUEUE", 0x5332);
     ("SNDRV_SEQ_IOCTL_DELETE_QUEUE", 0x5333); ("SNDRV_SEQ_IOCTL_GET_QUEUE_INFO", 0x5334);
     ("SNDRV_SEQ_IOCTL_SET_QUEUE_INFO", 0x5335); ("SNDRV_SEQ_IOCTL_GET_NAMED_QUEUE", 0x5336);
     ("SNDRV_SEQ_IOCTL_GET_QUEUE_STATUS", 0x5340); ("SNDRV_SEQ_IOCTL_GET_QUEUE_TEMPO", 0x5341);
     ("SNDRV_SEQ_IOCTL_SET_QUEUE_TEMPO", 0x5342); ("SNDRV_SEQ_IOCTL_GET_QUEUE_OWNER", 0x5343);
     ("SNDRV_SEQ_IOCTL_SET_QUEUE_OWNER", 0x5344); ("SNDRV_SEQ_IOCTL_GET_QUEUE_TIMER", 0x5345);
     ("SNDRV_SEQ_IOCTL_SET_QUEUE_TIMER", 0x5346); ("SNDRV_SEQ_IOCTL_GET_QUEUE_CLIENT", 0x5349);
     ("SNDRV_SEQ_IOCTL_SET_QUEUE_CLIENT", 0x534a); ("SNDRV_SEQ_IOCTL_GET_CLIENT_POOL", 0x534b);
     ("SNDRV_SEQ_IOCTL_SET_CLIENT_POOL", 0x534c); ("SNDRV_SEQ_IOCTL_REMOVE_EVENTS", 0x534e);
     ("SNDRV_SEQ_IOCTL_QUERY_SUBS", 0x534f); ("SNDRV_SEQ_IOCTL_GET_SUBSCRIPTION", 0x5350);
     ("SNDRV_SEQ_IOCTL_QUERY_NEXT_CLIENT", 0x5351); ("SNDRV_SEQ_IOCTL_QUERY_NEXT_PORT", 0x5352);
     ("SNDRV_SEQ_IOCTL_GET_QUEUE_SYNC", 0x5353); ("SNDRV_SEQ_IOCTL_SET_QUEUE_SYNC", 0x5354)] ++
  from "scsi/scsi_ioctl.h"
    [("SCSI_IOCTL_DOORLOCK", 0x5380); ("SCSI_IOCTL_DOORUNLOCK", 0x5381)] ++
  from "linux/cdrom.h"
    [("CDROMAUDIOBUFSIZ", 0x5382)] ++
  from "scsi/scsi.h"
    [("SCSI_IOCTL_GET_IDLUN", 0x5382); ("SCSI_IOCTL_PROBE_HOST", 0x5385);
     ("SCSI_IOCTL_GET_BUS_NUMBER", 0x5386); ("SCSI_IOCTL_GET_PCI", 0x5387)] ++
  from "linux/cdrom.h"
    [("DVD_READ_STRUCT", 0x5390); ("DVD_WRITE_STRUCT", 0x5391); ("DVD_AUTH", 0x5392)].

Definition ioctlent_6 : list struct_ioctlent :=
  from "linux/cdrom.h"
    [("CDROM_SEND_PACKET", 0x5393); ("CDROM_NEXT_WRITABLE", 0x5394);
     ("CDROM_LAST_WRITTEN", 0x5395)] ++
  from "sound/asound.h"
    [("SNDRV_TIMER_IOCTL_PVERSION", 0x5400)] ++
  from "linux/soundcard.h"
    [("SNDCTL_TMR_TIMEBASE", 0x5401)] ++
  from "sound/asound.h"
    [("SNDRV_TIMER_IOCTL_NEXT_DEVICE", 0x5401)] ++
  from "asm-generic/ioctls.h"
    [("TCGETS", 0x5401)] ++
  from "linux/soundcard.h"
    [("SNDCTL_TMR_START", 0x5402)] ++
  from "sound/asound.h"
    [("SNDRV_TIMER_IOCTL_TREAD", 0x5402)] ++
  from "asm-generic/ioctls.h"
    [("TCSETS", 0x5402)] ++
  from "linux/soundcard.h"
    [("SNDCTL_TMR_STOP", 0x5403)] ++
  from "sound/asound.h"
    [("SNDRV_TIMER_IOCTL_GINFO", 0x5403)] ++
  from "asm-generic/ioctls.h"
    [("TCSETSW", 0x5403)] ++
  from "linux/soundcard.h"
    [("SNDCTL_TMR_CONTINUE", 0x5404)] ++
  from "sound/asound.h"
    [("SNDRV_TIMER_IOCTL_GPARAMS", 0x5404)] ++
  from "asm-generic/ioctls.h"
    [("TCSETSF", 0x5404)] ++
  from "linux/soundcard.h"
    [("SNDCTL_TMR_TEMPO", 0x5405)] ++
  from "sound/asound.h"
    [("SNDRV_TIMER_IOCTL_GSTATUS", 0x5405)] ++
  from "asm-generic/ioctls.h"
    [("TCGETA", 0x5405)] ++
  from "linux/soundcard.h"
    [("SNDCTL_TMR_SOURCE", 0x5406)] ++
  from "asm-generic/ioctls.h"
    [("TCSETA", 0x5406)] ++
  from "linux/soundcard.h"
    [("SNDCTL_TMR_METRONOME", 0x5407)] ++
  from "asm-generic/ioctls.h"
    [("TCSETAW", 0x5407)] ++
  from "linux/soundcard.h"
    [("SNDCTL_TMR_SELECT", 0x5408)] ++
  from "asm-generic/ioctls.h"
    [("TCSETAF", 0x5408); ("TCSBRK", 0x5409); ("TCXONC", 0x540a); ("TCFLSH", 0x540b);
     ("TIOCEXCL", 0x540c); ("TIOCNXCL", 0x540d); ("TIOCSCTTY", 0x540e); ("TIOCGPGRP", 0x540f)] ++
  from "sound/asound.h"
    [("SNDRV_TIMER_IOCTL_SELECT", 0x5410)] ++
  from "asm-generic/ioctls.h"
    [("TIOCSPGRP", 0x5410)] ++
  from "sound/asound.h"
    [("SNDRV_TIMER_IOCTL_INFO", 0x5411)] ++
  from "asm-generic/ioctls.h"
    [("TIOCOUTQ", 0x5411)] ++
  from "sound/asound.h"
    [("SNDRV_TIMER_IOCTL_PARAMS", 0x5412)] ++
  from "asm-generic/ioctls.h"
    [("TIOCSTI", 0x5412); ("TIOCGWINSZ", 0x5413)] ++
  from "sound/asound.h"
    [("SNDRV_TIMER_IOCTL_STATUS", 0x5414)] ++
  from "asm-generic/ioctls.h"
    [("TIOCSWINSZ", 0x5414); ("TIOCMGET", 0x5415); ("TIOCMBIS", 0x5416); ("TIOCMBIC", 0x5417);
     ("TIOCMSET", 0x5418); ("TIOCGSOFTCAR", 0x5419); ("TIOCSSOFTCAR", 0x541a);
     ("FIONREAD", 0x541b); ("TIOCLINUX", 0x541c); ("TIOCCONS", 0x541d); ("TIOCGSERIAL", 0x541e);
     ("TIOCSSERIAL", 0x541f); ("TIOCPKT", 0x5420); ("FIONBIO", 0x5421); ("TIOCNOTTY", 0x5422);
     ("TIOCSETD", 0x5423); ("TIOCGETD", 0x5424); ("TCSBRKP", 0x5425); ("TIOCSBRK", 0x5427);
     ("TIOCCBRK", 0x5428); ("TIOCGSID", 0x5429); ("TCGETS2", 0x542a); ("TCSETS2", 0x542b);
     ("TCSETSW2", 0x542c); ("TCSETSF2", 0x542d); ("TIOCGRS485", 0x542e); ("TIOCSRS485", 0x542f);
     ("TIOCGPTN", 0x5430); ("TIOCSPTLCK", 0x5431); ("TCGETX", 0x5432); ("TIOCGDEV", 0x5432);
     ("TCSETX", 0x5433); ("TCSETXF", 0x5434); ("TCSETXW", 0x5435); ("TIOCSIG", 0x5436);
     ("TIOCVHANGUP", 0x5437); ("TIOCGPKT", 0x5438); ("TIOCGPTLCK", 0x5439); ("TIOCGEXCL", 0x5440);
     ("FIONCLEX", 0x5450); ("FIOCLEX", 0x5451); ("FIOASYNC", 0x5452); ("TIOCSERCONFIG", 0x5453);
     ("TIOCSERGWILD", 0x5454); ("TIOCSERSWILD", 0x5455); ("TIOCGLCKTRMIOS", 0x5456);
     ("TIOCSLCKTRMIOS", 0x5457); ("TIOCSERGSTRUCT", 0x5458); ("TIOCSERGETLSR", 0x5459);
     ("TIOCSERGETMULTI", 0x545a); ("TIOCSERSETMULTI", 0x545b); ("TIOCMIWAIT", 0x545c);
     ("TIOCGICOUNT", 0x545d); ("FIOQSIZE", 0x5460)] ++
  from "sound/asound.h"
    [("SNDRV_TIMER_IOCTL_START", 0x54a0); ("SNDRV_TIMER_IOCTL_STOP", 0x54a1);
     ("SNDRV_TIMER_IOCTL_CONTINUE", 0x54a2); ("SNDRV_TIMER_IOCTL_PAUSE", 0x54a3)] ++
  from "linux/if_tun.h"
    [("TUNSETNOCSUM", 0x54c8); ("TUNSETDEBUG", 0x54c9); ("TUNSETIFF", 0x54ca);
     ("TUNSETPERSIST", 0x54cb); ("TUNSETOWNER", 0x54cc); ("TUNSETLINK", 0x54cd);
     ("TUNSETGROUP", 0x54ce); ("TUNGETFEATURES", 0x54cf); ("TUNSETOFFLOAD", 0x54d0);
     ("TUNSETTXFILTER", 0x54d1); ("TUNGETIFF", 0x54d2); ("TUNGETSNDBUF", 0x54d3);
     ("TUNSETSNDBUF", 0x54d4); ("TUNATTACHFILTER", 0x54d5); ("TUNDETACHFILTER", 0x54d6);
     ("TUNGETVNETHDRSZ", 0x54d7); ("TUNSETVNETHDRSZ", 0x54d8); ("TUNSETQUEUE", 0x54d9)] ++
  from "sound/asound.h"
    [("SNDRV_CTL_IOCTL_PVERSION", 0x5500)] ++
  from "linux/usbdevice_fs.h"
    [("USBDEVFS_CONTROL", 0x5500)] ++
  from "sound/asound.h"
    [("SNDRV_CTL_IOCTL_CARD_INFO", 0x5501)] ++
  from "linux/uinput.h"
    [("UI_DEV_CREATE", 0x5501); ("UI_DEV_DESTROY", 0x5502)] ++
  from "linux/usbdevice_fs.h"
    [("USBDEVFS_BULK", 0x5502); ("USBDEVFS_RESETEP", 0x5503); ("USBDEVFS_SETINTERFACE", 0x5504);
     ("USBDEVFS_SETCONFIGURATION", 0x5505); ("USBDEVFS_GETDRIVER", 0x5508);
     ("USBDEVFS_SUBMITURB", 0x550a); ("USBDEVFS_DISCARDURB", 0x550b);
     ("USBDEVFS_REAPURB", 0x550c); ("USBDEVFS_REAPURBNDELAY", 0x550d);
     ("USBDEVFS_DISCSIGNAL", 0x550e); ("USBDEVFS_CLAIMINTERFACE", 0x550f)] ++
  from "sound/asound.h"
    [("SNDRV_CTL_IOCTL_ELEM_LIST", 0x5510)] ++
  from "linux/usbdevice_fs.h"
    [("USBDEVFS_RELEASEINTERFACE", 0x5510)] ++
  from "sound/asound.h"
    [("SNDRV_CTL_IOCTL_ELEM_INFO", 0x5511)] ++
  from "linux/usbdevice_fs.h"
    [("USBDEVFS_CONNECTINFO", 0x5511)] ++
  from "sound/asound.h"
    [("SNDRV_CTL_IOCTL_ELEM_READ", 0x5512)] ++
  from "linux/usbdevice_fs.h"
    [("USBDEVFS_IOCTL", 0x5512)] ++
  from "sound/asound.h"
    [("SNDRV_CTL_IOCTL_ELEM_WRITE", 0x5513)] ++
  from "linux/usbdevice_fs.h"
    [("USBDEVFS_HUB_PORTINFO", 0x5513)] ++
  from "sound/asound.h"
    [("SNDRV_CTL_IOCTL_ELEM_LOCK", 0x5514)] ++
  from "linux/usbdevice_fs.h"
    [("USBDEVFS_RESET", 0x5514)] ++
  from "sound/asound.h"
    [("SNDRV_CTL_IOCTL_ELEM_UNLOCK", 0x5515)] ++
  from "linux/usbdevice_fs.h"
    [("USBDEVFS_CLEAR_HALT", 0x5515)] ++
  from "sound/asound.h"
    [("SNDRV_CTL_IOCTL_SUBSCRIBE_EVENTS", 0x5516)] ++
  from "linux/usbdevice_fs.h"
    [("USBDEVFS_DISCONNECT", 0x5516)] ++
  from "sound/asound.h"
    [("SNDRV_CTL_IOCTL_ELEM_ADD", 0x5517)] ++
  from "linux/usbdevice_fs.h"
    [("USBDEVFS_CONNECT", 0x5517)] ++
  from "sound/asound.h"
    [("SNDRV_CTL_IOCTL_ELEM_REPLACE", 0x5518)] ++
  from "linux/usbdevice_fs.h"
    [("USBDEVFS_CLAIM_PORT", 0x5518)].

Definition ioctlent_7 : list struct_ioctlent :=
  from "sound/asound.h"
    [("SNDRV_CTL_IOCTL_ELEM_REMOVE", 0x5519)] ++
  from "linux/usbdevice_fs.h"
    [("USBDEVFS_RELEASE_PORT", 0x5519)] ++
  from "sound/asound.h"
    [("SNDRV_CTL_IOCTL_TLV_READ", 0x551a)] ++
  from "linux/usbdevice_fs.h"
    [("USBDEVFS_GET_CAPABILITIES", 0x551a)] ++
  from "sound/asound.h"
    [("SNDRV_CTL_IOCTL_TLV_WRITE", 0x551b)] ++
  from "linux/usbdevice_fs.h"
    [("USBDEVFS_DISCONNECT_CLAIM", 0x551b)] ++
  from "sound/asound.h"
    [("SNDRV_CTL_IOCTL_TLV_COMMAND", 0x551c); ("SNDRV_CTL_IOCTL_HWDEP_NEXT_DEVICE", 0x5520);
     ("SNDRV_CTL_IOCTL_HWDEP_INFO", 0x5521); ("SNDRV_CTL_IOCTL_PCM_NEXT_DEVICE", 0x5530);
     ("SNDRV_CTL_IOCTL_PCM_INFO", 0x5531); ("SNDRV_CTL_IOCTL_PCM_PREFER_SUBDEVICE", 0x5532);
     ("SNDRV_CTL_IOCTL_RAWMIDI_NEXT_DEVICE", 0x5540); ("SNDRV_CTL_IOCTL_RAWMIDI_INFO", 0x5541);
     ("SNDRV_CTL_IOCTL_RAWMIDI_PREFER_SUBDEVICE", 0x5542)] ++
  from "linux/uinput.h"
    [("UI_SET_EVBIT", 0x5564); ("UI_SET_KEYBIT", 0x5565); ("UI_SET_RELBIT", 0x5566);
     ("UI_SET_ABSBIT", 0x5567); ("UI_SET_MSCBIT", 0x5568); ("UI_SET_LEDBIT", 0x5569);
     ("UI_SET_SNDBIT", 0x556a); ("UI_SET_FFBIT", 0x556b); ("UI_SET_PHYS", 0x556c);
     ("UI_SET_SWBIT", 0x556d); ("UI_SET_PROPBIT", 0x556e); ("UI_BEGIN_FF_UPLOAD", 0x55c8);
     ("UI_END_FF_UPLOAD", 0x55c9); ("UI_BEGIN_FF_ERASE", 0x55ca); ("UI_END_FF_ERASE", 0x55cb)] ++
  from "sound/asound.h"
    [("SNDRV_CTL_IOCTL_POWER", 0x55d0); ("SNDRV_CTL_IOCTL_POWER_STATE", 0x55d1)] ++
  from "linux/videodev2.h"
    [("VIDIOC_QUERYCAP", 0x5600)] ++
  from "linux/vt.h"
    [("VT_OPENQRY", 0x5600)] ++
  from "linux/videodev2.h"
    [("VIDIOC_RESERVED", 0x5601)] ++
  from "linux/vt.h"
    [("VT_GETMODE", 0x5601)] ++
  from "linux/videodev2.h"
    [("VIDIOC_ENUM_FMT", 0x5602)] ++
  from "linux/vt.h"
    [("VT_SETMODE", 0x5602); ("VT_GETSTATE", 0x5603)] ++
  from "linux/videodev2.h"
    [("VIDIOC_G_FMT", 0x5604)] ++
  from "linux/v4l2-subdev.h"
    [("VIDIOC_SUBDEV_G_FMT", 0x5604)] ++
  from "linux/vt.h"
    [("VT_SENDSIG", 0x5604)] ++
  from "linux/v4l2-subdev.h"
    [("VIDIOC_SUBDEV_S_FMT", 0x5605)] ++
  from "linux/videodev2.h"
    [("VIDIOC_S_FMT", 0x5605)] ++
  from "linux/vt.h"
    [("VT_RELDISP", 0x5605); ("VT_ACTIVATE", 0x5606); ("VT_WAITACTIVE", 0x5607)] ++
  from "linux/videodev2.h"
    [("VIDIOC_REQBUFS", 0x5608)] ++
  from "linux/vt.h"
    [("VT_DISALLOCATE", 0x5608)] ++
  from "linux/videodev2.h"
    [("VIDIOC_QUERYBUF", 0x5609)] ++
  from "linux/vt.h"
    [("VT_RESIZE", 0x5609)] ++
  from "linux/videodev2.h"
    [("VIDIOC_G_FBUF", 0x560a)] ++
  from "linux/vt.h"
    [("VT_RESIZEX", 0x560a)] ++
  from "linux/videodev2.h"
    [("VIDIOC_S_FBUF", 0x560b)] ++
  from "linux/vt.h"
    [("VT_LOCKSWITCH", 0x560b); ("VT_UNLOCKSWITCH", 0x560c); ("VT_GETHIFONTMASK", 0x560d)] ++
  from "linux/videodev2.h"
    [("VIDIOC_OVERLAY", 0x560e)] ++
  from "linux/vt.h"
    [("VT_WAITEVENT", 0x560e)] ++
  from "linux/videodev2.h"
    [("VIDIOC_QBUF", 0x560f)] ++
  from "linux/vt.h"
    [("VT_SETACTIVATE", 0x560f)] ++
  from "linux/videodev2.h"
    [("VIDIOC_EXPBUF", 0x5610); ("VIDIOC_DQBUF", 0x5611); ("VIDIOC_STREAMON", 0x5612);
     ("VIDIOC_STREAMOFF", 0x5613); ("VIDIOC_G_PARM", 0x5615); ("VIDIOC_S_PARM", 0x5616);
     ("VIDIOC_G_STD", 0x5617); ("VIDIOC_S_STD", 0x5618); ("VIDIOC_ENUMSTD", 0x5619);
     ("VIDIOC_ENUMINPUT", 0x561a); ("VIDIOC_G_CTRL", 0x561b); ("VIDIOC_S_CTRL", 0x561c);
     ("VIDIOC_G_TUNER", 0x561d); ("VIDIOC_S_TUNER", 0x561e); ("VIDIOC_G_AUDIO", 0x5621);
     ("VIDIOC_S_AUDIO", 0x5622); ("VIDIOC_QUERYCTRL", 0x5624); ("VIDIOC_QUERYMENU", 0x5625);
     ("VIDIOC_G_INPUT", 0x5626); ("VIDIOC_S_INPUT", 0x5627)] ++
  from "linux/v4l2-subdev.h"
    [("VIDIOC_SUBDEV_G_EDID", 0x5628); ("VIDIOC_SUBDEV_S_EDID", 0x5629)] ++
  from "linux/videodev2.h"
    [("VIDIOC_G_OUTPUT", 0x562e); ("VIDIOC_S_OUTPUT", 0x562f); ("VIDIOC_ENUMOUTPUT", 0x5630);
     ("VIDIOC_G_AUDOUT", 0x5631); ("VIDIOC_S_AUDOUT", 0x5632); ("VIDIOC_G_MODULATOR", 0x5636);
     ("VIDIOC_S_MODULATOR", 0x5637); ("VIDIOC_G_FREQUENCY", 0x5638);
     ("VIDIOC_S_FREQUENCY", 0x5639); ("VIDIOC_CROPCAP", 0x563a); ("VIDIOC_G_CROP", 0x563b)] ++
  from "linux/v4l2-subdev.h"
    [("VIDIOC_SUBDEV_G_CROP", 0x563b); ("VIDIOC_SUBDEV_S_CROP", 0x563c)] ++
  from "linux/videodev2.h"
    [("VIDIOC_S_CROP", 0x563c); ("VIDIOC_G_JPEGCOMP", 0x563d); ("VIDIOC_S_JPEGCOMP", 0x563e);
     ("VIDIOC_QUERYSTD", 0x563f); ("VIDIOC_TRY_FMT", 0x5640); ("VIDIOC_ENUMAUDIO", 0x5641);
     ("VIDIOC_ENUMAUDOUT", 0x5642); ("VIDIOC_G_PRIORITY", 0x5643); ("VIDIOC_S_PRIORITY", 0x5644);
     ("VIDIOC_G_SLICED_VBI_CAP", 0x5645); ("VIDIOC_LOG_STATUS", 0x5646);
     ("VIDIOC_G_EXT_CTRLS", 0x5647); ("VIDIOC_S_EXT_CTRLS", 0x5648);
     ("VIDIOC_TRY_EXT_CTRLS", 0x5649); ("VIDIOC_ENUM_FRAMESIZES", 0x564a);
     ("VIDIOC_ENUM_FRAMEINTERVALS", 0x564b); ("VIDIOC_G_ENC_INDEX", 0x564c);
     ("VIDIOC_ENCODER_CMD", 0x564d); ("VIDIOC_TRY_ENCODER_CMD", 0x564e);
     ("VIDIOC_DBG_S_REGISTER", 0x564f); ("VIDIOC_DBG_G_REGISTER", 0x5650);
     ("VIDIOC_DBG_G_CHIP_IDENT", 0x5651); ("VIDIOC_S_HW_FREQ_SEEK", 0x5652);
     ("VIDIOC_ENUM_DV_PRESETS", 0x5653); ("VIDIOC_S_DV_PRESET", 0x5654);
     ("VIDIOC_G_DV_PRESET", 0x5655); ("VIDIOC_QUERY_DV_PRESET", 0x5656);
     ("VIDIOC_S_DV_TIMINGS", 0x5657); ("VIDIOC_G_DV_TIMINGS", 0x5658); ("VIDIOC_DQEVENT", 0x5659);
     ("VIDIOC_SUBSCRIBE_EVENT", 0x565a); ("VIDIOC_UNSUBSCRIBE_EVENT", 0x565b);
     ("VIDIOC_CREATE_BUFS", 0x565c); ("VIDIOC_PREPARE_BUF", 0x565d);
     ("VIDIOC_G_SELECTION", 0x565e); ("VIDIOC_S_SELECTION", 0x565f);
     ("VIDIOC_DECODER_CMD", 0x5660); ("VIDIOC_TRY_DECODER_CMD", 0x5661);
     ("VIDIOC_ENUM_DV_TIMINGS", 0x5662); ("VIDIOC_QUERY_DV_TIMINGS", 0x5663);
     ("VIDIOC_DV_TIMINGS_CAP", 0x5664); ("VIDIOC_ENUM_FREQ_BANDS", 0x5665)] ++
  from "linux/ivtvfb.h"
    [("IVTVFB_IOC_DMA_FRAME", 0x56c0)] ++
  from "linux/ivtv.h"
    [("IVTV_IOC_DMA_FRAME", 0x56c0)] ++
  from "media/si4713.h"
    [("SI4713_IOC_MEASURE_RNL", 0x56c0)] ++
  from "linux/ivtv.h"
    [("IVTV_IOC_PASSTHROUGH_MODE", 0x56c1)] ++
  from "sound/asound.h"
    [("SNDRV_RAWMIDI_IOCTL_PVERSION", 0x5700)] ++
  from "linux/watchdog.h"
    [("WDIOC_GETSUPPORT", 0x5700)] ++
  from "sound/asound.h"
    [("SNDRV_RAWMIDI_IOCTL_INFO", 0x5701)] ++
  from "linux/watchdog.h"
    [("WDIOC_GETSTATUS", 0x5701); ("WDIOC_GETBOOTSTATUS", 0x5702); ("WDIOC_GETTEMP", 0x5703);
     ("WDIOC_SETOPTIONS", 0x5704); ("WDIOC_KEEPALIVE", 0x5705)].

Definition ioctlent_8 : list struct_ioctlent :=
  from "linux/watchdog.h"
    [("WDIOC_SETTIMEOUT", 0x5706); ("WDIOC_GETTIMEOUT", 0x5707); ("WDIOC_SETPRETIMEOUT", 0x5708);
     ("WDIOC_GETPRETIMEOUT", 0x5709); ("WDIOC_GETTIMELEFT", 0x570a)] ++
  from "sound/asound.h"
    [("SNDRV_RAWMIDI_IOCTL_PARAMS", 0x5710); ("SNDRV_RAWMIDI_IOCTL_STATUS", 0x5720);
     ("SNDRV_RAWMIDI_IOCTL_DROP", 0x5730); ("SNDRV_RAWMIDI_IOCTL_DRAIN", 0x5731)] ++
  from "linux/pktcdvd.h"
    [("PACKET_CTRL_CMD", 0x5801)] ++
  from "linux/fs.h"
    [("FIFREEZE", 0x5877); ("FITHAW", 0x5878); ("FITRIM", 0x5879)] ++
  from "linux/usb/tmc.h"
    [("USBTMC_IOCTL_INDICATOR_PULSE", 0x5b01); ("USBTMC_IOCTL_CLEAR", 0x5b02);
     ("USBTMC_IOCTL_ABORT_BULK_OUT", 0x5b03); ("USBTMC_IOCTL_ABORT_BULK_IN", 0x5b04);
     ("USBTMC_IOCTL_CLEAR_OUT_HALT", 0x5b06); ("USBTMC_IOCTL_CLEAR_IN_HALT", 0x5b07)] ++
  from "linux/sonet.h"
    [("SONET_GETSTAT", 0x6110); ("SONET_GETSTATZ", 0x6111); ("SONET_SETDIAG", 0x6112);
     ("SONET_CLRDIAG", 0x6113); ("SONET_GETDIAG", 0x6114); ("SONET_SETFRAMING", 0x6115);
     ("SONET_GETFRAMING", 0x6116); ("SONET_GETFRSENSE", 0x6117)] ++
  from "linux/atm_idt77105.h"
    [("IDT77105_GETSTAT", 0x6132); ("IDT77105_GETSTATZ", 0x6133)] ++
  from "linux/atmdev.h"
    [("ATM_GETSTAT", 0x6150); ("ATM_GETSTATZ", 0x6151); ("ATM_GETLOOP", 0x6152);
     ("ATM_SETLOOP", 0x6153); ("ATM_QUERYLOOP", 0x6154)] ++
  from "linux/atm_eni.h"
    [("ENI_MEMDUMP", 0x6160)] ++
  from "linux/atm_he.h"
    [("HE_GET_REG", 0x6160)] ++
  from "linux/atm_nicstar.h"
    [("NS_GETPSTAT", 0x6161)] ++
  from "linux/atm_zatm.h"
    [("ZATM_GETPOOL", 0x6161)] ++
  from "linux/atm_nicstar.h"
    [("NS_SETBUFLEV", 0x6162)] ++
  from "linux/atm_zatm.h"
    [("ZATM_GETPOOLZ", 0x6162)] ++
  from "linux/atm_nicstar.h"
    [("NS_ADJBUFLEV", 0x6163)] ++
  from "linux/atm_zatm.h"
    [("ZATM_SETPOOL", 0x6163)] ++
  from "linux/atm_eni.h"
    [("ENI_SETMULT", 0x6167)] ++
  from "linux/atm_tcp.h"
    [("SIOCSIFATMTCP", 0x6180)] ++
  from "linux/atmdev.h"
    [("ATM_GETLINKRATE", 0x6181); ("ATM_GETNAMES", 0x6183); ("ATM_GETTYPE", 0x6184);
     ("ATM_GETESI", 0x6185); ("ATM_GETADDR", 0x6186); ("ATM_RSTADDR", 0x6187);
     ("ATM_ADDADDR", 0x6188); ("ATM_DELADDR", 0x6189); ("ATM_GETCIRANGE", 0x618a);
     ("ATM_SETCIRANGE", 0x618b); ("ATM_SETESI", 0x618c); ("ATM_SETESIF", 0x618d)] ++
  from "linux/atm_tcp.h"
    [("ATMTCP_CREATE", 0x618e)] ++
  from "linux/atmdev.h"
    [("ATM_ADDLECSADDR", 0x618e)] ++
  from "linux/atm_tcp.h"
    [("ATMTCP_REMOVE", 0x618f)] ++
  from "linux/atmdev.h"
    [("ATM_DELLECSADDR", 0x618f); ("ATM_GETLECSADDR", 0x6190)] ++
  from "linux/atmbr2684.h"
    [("BR2684_SETFILT", 0x6190)] ++
  from "linux/atmlec.h"
    [("ATMLEC_CTRL", 0x61d0); ("ATMLEC_DATA", 0x61d1); ("ATMLEC_MCAST", 0x61d2)] ++
  from "linux/atmmpc.h"
    [("ATMMPC_CTRL", 0x61d8); ("ATMMPC_DATA", 0x61d9)] ++
  from "linux/atmclip.h"
    [("SIOCMKCLIP", 0x61e0)] ++
  from "linux/atmarp.h"
    [("ATMARPD_CTRL", 0x61e1); ("ATMARP_MKIP", 0x61e2); ("ATMARP_SETENTRY", 0x61e3);
     ("ATMARP_ENCAP", 0x61e5)] ++
  from "linux/atmsvc.h"
    [("ATMSIGD_CTRL", 0x61f0)] ++
  from "linux/atmdev.h"
    [("ATM_SETSC", 0x61f1); ("ATM_SETBACKEND", 0x61f2); ("ATM_NEWBACKENDIF", 0x61f3);
     ("ATM_ADDPARTY", 0x61f4); ("COMPAT_ATM_ADDPARTY", 0x61f4); ("ATM_DROPPARTY", 0x61f5)] ++
  from "media/bt819.h"
    [("BT819_FIFO_RESET_LOW", 0x6200); ("BT819_FIFO_RESET_HIGH", 0x6201)] ++
  from "linux/cm4000_cs.h"
    [("CM_IOCGSTATUS", 0x6300)] ++
  from "linux/chio.h"
    [("CHIOMOVE", 0x6301)] ++
  from "linux/cm4000_cs.h"
    [("CM_IOCGATR", 0x6301)] ++
  from "linux/chio.h"
    [("CHIOEXCHANGE", 0x6302)] ++
  from "linux/cm4000_cs.h"
    [("CM_IOCSPTS", 0x6302)] ++
  from "linux/chio.h"
    [("CHIOPOSITION", 0x6303)] ++
  from "linux/cm4000_cs.h"
    [("CM_IOCSRDR", 0x6303)] ++
  from "linux/chio.h"
    [("CHIOGPICKER", 0x6304)] ++
  from "linux/cm4000_cs.h"
    [("CM_IOCARDOFF", 0x6304)] ++
  from "linux/chio.h"
    [("CHIOSPICKER", 0x6305); ("CHIOGPARAMS", 0x6306); ("CHIOGSTATUS", 0x6308)] ++
  from "linux/coda.h"
    [("CIOC_KERNEL_VERSION", 0x630a)] ++
  from "linux/chio.h"
    [("CHIOGELEM", 0x6310); ("CHIOINITELEM", 0x6311); ("CHIOSVOLTAG", 0x6312);
     ("CHIOGVPARAMS", 0x6313)] ++
  from "asm/msr.h"
    [("X86_IOC_RDMSR_REGS", 0x63a0); ("X86_IOC_WRMSR_REGS", 0x63a1)] ++
  from "linux/cm4000_cs.h"
    [("CM_IOSDBGLVL", 0x63fa)] ++
  from "media/v4l2-common.h"
    [("TUNER_SET_CONFIG", 0x645c); ("VIDIOC_INT_RESET", 0x6466)] ++
  from "media/s5p_fimc.h"
    [("S5P_FIMC_TX_END_NOTIFY", 0x6500)] ++
  from "linux/fs.h"
    [("FS_IOC32_GETFLAGS", 0x6601); ("FS_IOC_GETFLAGS", 0x6601); ("FS_IOC32_SETFLAGS", 0x6602);
     ("FS_IOC_SETFLAGS", 0x6602); ("FS_IOC_FIEMAP", 0x660b)] ++
  from "linux/usb/functionfs.h"
    [("FUNCTIONFS_FIFO_STATUS", 0x6701)] ++
  from "linux/usb/gadgetfs.h"
    [("GADGETFS_FIFO_STATUS", 0x6701)] ++
  from "linux/usb/functionfs.h"
    [("FUNCTIONFS_FIFO_FLUSH", 0x6702)] ++
  from "linux/usb/gadgetfs.h"
    [("GADGETFS_FIFO_FLUSH", 0x6702)] ++
  from "linux/usb/functionfs.h"
    [("FUNCTIONFS_CLEAR_HALT", 0x6703)] ++
  from "linux/usb/gadgetfs.h"
    [("GADGETFS_CLEAR_HALT", 0x6703)] ++
  from "linux/usb/g_printer.h"
    [("GADGET_GET_PRINTER_STATUS", 0x6721); ("GADGET_SET_PRINTER_STATUS", 0x6722)] ++
  from "linux/usb/functionfs.h"
    [("FUNCTIONFS_INTERFACE_REVMAP", 0x6780); ("FUNCTIONFS_ENDPOINT_REVMAP", 0x6781)] ++
  from "linux/hpet.h"
    [("HPET_IE_ON", 0x6801); ("HPET_IE_OFF", 0x6802); ("HPET_INFO", 0x6803); ("HPET_EPI", 0x6804);
     ("HPET_DPI", 0x6805); ("HPET_IRQFREQ", 0x6806)] ++
  from "linux/i2o-dev.h"
    [("I2OGETIOPS", 0x6900)] ++
  from "media/lirc.h"
    [("LIRC_GET_FEATURES", 0x6900)] ++
  from "linux/i2o-dev.h"
    [("I2OHRTGET", 0x6901)] ++
  from "media/lirc.h"
    [("LIRC_GET_SEND_MODE", 0x6901)] ++
  from "linux/i2o-dev.h"
    [("I2OLCTGET", 0x6902)] ++
  from "media/lirc.h"
    [("LIRC_GET_REC_MODE", 0x6902)] ++
  from "linux/i2o-dev.h"
    [("I2OPARMSET", 0x6903)] ++
  from "media/lirc.h"
    [("LIRC_GET_SEND_CARRIER", 0x6903)] ++
  from "linux/i2o-dev.h"
    [("I2OPARMGET", 0x6904)] ++
  from "media/lirc.h"
    [("LIRC_GET_REC_CARRIER", 0x6904)] ++
  from "linux/i2o-dev.h"
    [("I2OSWDL", 0x6905)] ++
  from "media/lirc.h"
    [("LIRC_GET_SEND_DUTY_CYCLE", 0x6905)] ++
  from "linux/i2o-dev.h"
    [("I2OSWUL", 0x6906)] ++
  from "media/lirc.h"
    [("LIRC_GET_REC_DUTY_CYCLE", 0x6906)] ++
  from "linux/i2o-dev.h"
    [("I2OSWDEL", 0x6907)] ++
  from "media/lirc.h"
    [("LIRC_GET_REC_RESOLUTION", 0x6907)] ++
  from "linux/i2o-dev.h"
    [("I2OVALIDATE", 0x6908)] ++
  from "media/lirc.h"
    [("LIRC_GET_MIN_TIMEOUT", 0x6908)] ++
  from "linux/i2o-dev.h"
    [("I2OHTML", 0x6909)] ++
  from "media/lirc.h"
    [("LIRC_GET_MAX_TIMEOUT", 0x6909)] ++
  from "linux/i2o-dev.h"
    [("I2OEVTREG", 0x690a)] ++
  from "media/lirc.h"
    [("LIRC_GET_MIN_FILTER_PULSE", 0x690a)] ++
  from "linux/i2o-dev.h"
    [("I2OEVTGET", 0x690b)] ++
  from "linux/ipmi.h"
    [("IPMICTL_RECEIVE_MSG_TRUNC", 0x690b)] ++
  from "media/lirc.h"
    [("LIRC_GET_MAX_FILTER_PULSE", 0x690b)].

Definition ioctlent_9 : list struct_ioctlent :=
  from "linux/i2o-dev.h"
    [("I2OPASSTHRU", 0x690c)] ++
  from "linux/ipmi.h"
    [("IPMICTL_RECEIVE_MSG", 0x690c)] ++
  from "media/lirc.h"
    [("LIRC_GET_MIN_FILTER_SPACE", 0x690c)] ++
  from "linux/ipmi.h"
    [("IPMICTL_SEND_COMMAND", 0x690d)] ++
  from "media/lirc.h"
    [("LIRC_GET_MAX_FILTER_SPACE", 0x690d)] ++
  from "linux/ipmi.h"
    [("IPMICTL_REGISTER_FOR_CMD", 0x690e); ("IPMICTL_UNREGISTER_FOR_CMD", 0x690f)] ++
  from "media/lirc.h"
    [("LIRC_GET_LENGTH", 0x690f)] ++
  from "linux/ipmi.h"
    [("IPMICTL_SET_GETS_EVENTS_CMD", 0x6910); ("IPMICTL_SET_MY_ADDRESS_CMD", 0x6911)] ++
  from "media/lirc.h"
    [("LIRC_SET_SEND_MODE", 0x6911)] ++
  from "linux/ipmi.h"
    [("IPMICTL_GET_MY_ADDRESS_CMD", 0x6912)] ++
  from "media/lirc.h"
    [("LIRC_SET_REC_MODE", 0x6912)] ++
  from "linux/ipmi.h"
    [("IPMICTL_SET_MY_LUN_CMD", 0x6913)] ++
  from "media/lirc.h"
    [("LIRC_SET_SEND_CARRIER", 0x6913)] ++
  from "linux/ipmi.h"
    [("IPMICTL_GET_MY_LUN_CMD", 0x6914)] ++
  from "media/lirc.h"
    [("LIRC_SET_REC_CARRIER", 0x6914)] ++
  from "linux/ipmi.h"
    [("IPMICTL_SEND_COMMAND_SETTIME", 0x6915)] ++
  from "media/lirc.h"
    [("LIRC_SET_SEND_DUTY_CYCLE", 0x6915)] ++
  from "linux/ipmi.h"
    [("IPMICTL_SET_TIMING_PARMS_CMD", 0x6916)] ++
  from "media/lirc.h"
    [("LIRC_SET_REC_DUTY_CYCLE", 0x6916)] ++
  from "linux/ipmi.h"
    [("IPMICTL_GET_TIMING_PARMS_CMD", 0x6917)] ++
  from "media/lirc.h"
    [("LIRC_SET_TRANSMITTER_MASK", 0x6917); ("LIRC_SET_REC_TIMEOUT", 0x6918);
     ("LIRC_SET_REC_TIMEOUT_REPORTS", 0x6919); ("LIRC_SET_REC_FILTER_PULSE", 0x691a);
     ("LIRC_SET_REC_FILTER_SPACE", 0x691b)] ++
  from "linux/ipmi.h"
    [("IPMICTL_REGISTER_FOR_CMD_CHANS", 0x691c)] ++
  from "media/lirc.h"
    [("LIRC_SET_REC_FILTER", 0x691c)] ++
  from "linux/ipmi.h"
    [("IPMICTL_UNREGISTER_FOR_CMD_CHANS", 0x691d)] ++
  from "media/lirc.h"
    [("LIRC_SET_MEASURE_CARRIER_MODE", 0x691d)] ++
  from "linux/ipmi.h"
    [("IPMICTL_GET_MAINTENANCE_MODE_CMD", 0x691e)] ++
  from "media/lirc.h"
    [("LIRC_SET_REC_DUTY_CYCLE_RANGE", 0x691e)] ++
  from "linux/ipmi.h"
    [("IPMICTL_SET_MAINTENANCE_MODE_CMD", 0x691f)] ++
  from "media/lirc.h"
    [("LIRC_SET_REC_CARRIER_RANGE", 0x691f); ("LIRC_NOTIFY_DECODE", 0x6920);
     ("LIRC_SETUP_START", 0x6921); ("LIRC_SETUP_END", 0x6922);
     ("LIRC_SET_WIDEBAND_RECEIVER", 0x6923)] ++
  from "linux/i8k.h"
    [("I8K_BIOS_VERSION", 0x6980); ("I8K_MACHINE_ID", 0x6981); ("I8K_POWER_STATUS", 0x6982);
     ("I8K_FN_STATUS", 0x6983); ("I8K_GET_TEMP", 0x6984); ("I8K_GET_SPEED", 0x6985);
     ("I8K_GET_FAN", 0x6986); ("I8K_SET_FAN", 0x6987)] ++
  from "linux/joystick.h"
    [("JSIOCGVERSION", 0x6a01); ("JSIOCGAXES", 0x6a11); ("JSIOCGBUTTONS", 0x6a12);
     ("JSIOCSCORR", 0x6a21); ("JSIOCGCORR", 0x6a22); ("JSIOCSAXMAP", 0x6a31);
     ("JSIOCGAXMAP", 0x6a32); ("JSIOCSBTNMAP", 0x6a33); ("JSIOCGBTNMAP", 0x6a34)] ++
  from "video/kyro.h"
    [("KYRO_IOCTL_OVERLAY_CREATE", 0x6b00); ("KYRO_IOCTL_OVERLAY_VIEWPORT_SET", 0x6b01)] ++
  from "linux/spi/spidev.h"
    [("SPI_IOC_RD_MODE", 0x6b01); ("SPI_IOC_WR_MODE", 0x6b01)] ++
  from "video/kyro.h"
    [("KYRO_IOCTL_SET_VIDEO_MODE", 0x6b02)] ++
  from "linux/spi/spidev.h"
    [("SPI_IOC_RD_LSB_FIRST", 0x6b02); ("SPI_IOC_WR_LSB_FIRST", 0x6b02)] ++
  from "video/kyro.h"
    [("KYRO_IOCTL_UVSTRIDE", 0x6b03)] ++
  from "linux/spi/spidev.h"
    [("SPI_IOC_RD_BITS_PER_WORD", 0x6b03); ("SPI_IOC_WR_BITS_PER_WORD", 0x6b03)] ++
  from "video/kyro.h"
    [("KYRO_IOCTL_OVERLAY_OFFSET", 0x6b04)] ++
  from "linux/spi/spidev.h"
    [("SPI_IOC_RD_MAX_SPEED_HZ", 0x6b04); ("SPI_IOC_WR_MAX_SPEED_HZ", 0x6b04)] ++
  from "video/kyro.h"
    [("KYRO_IOCTL_STRIDE", 0x6b05)] ++
  from "linux/udf_fs_i.h"
    [("UDF_GETEASIZE", 0x6c40); ("UDF_GETEABLOCK", 0x6c41); ("UDF_GETVOLIDENT", 0x6c42);
     ("UDF_RELOCATE_BLOCKS", 0x6c43)] ++
  from "linux/synclink.h"
    [("MGSL_IOCSPARAMS", 0x6d00)] ++
  from "linux/mmtimer.h"
    [("MMTIMER_GETOFFSET", 0x6d00)] ++
  from "linux/soundcard.h"
    [("SNDCTL_MIDI_PRETIME", 0x6d00)] ++
  from "linux/synclink.h"
    [("MGSL_IOCGPARAMS", 0x6d01)] ++
  from "linux/mmtimer.h"
    [("MMTIMER_GETRES", 0x6d01)] ++
  from "linux/mtio.h"
    [("MTIOCTOP", 0x6d01)] ++
  from "linux/soundcard.h"
    [("SNDCTL_MIDI_MPUMODE", 0x6d01)] ++
  from "linux/synclink.h"
    [("MGSL_IOCSTXIDLE", 0x6d02)] ++
  from "linux/mmtimer.h"
    [("MMTIMER_GETFREQ", 0x6d02)] ++
  from "linux/mtio.h"
    [("MTIOCGET", 0x6d02)] ++
  from "linux/soundcard.h"
    [("SNDCTL_MIDI_MPUCMD", 0x6d02)] ++
  from "linux/synclink.h"
    [("MGSL_IOCGTXIDLE", 0x6d03)] ++
  from "linux/mtio.h"
    [("MTIOCPOS", 0x6d03)] ++
  from "linux/synclink.h"
    [("MGSL_IOCTXENABLE", 0x6d04)] ++
  from "linux/mmtimer.h"
    [("MMTIMER_GETBITS", 0x6d04)] ++
  from "linux/synclink.h"
    [("MGSL_IOCRXENABLE", 0x6d05); ("MGSL_IOCTXABORT", 0x6d06)] ++
  from "linux/mmtimer.h"
    [("MMTIMER_MMAPAVAIL", 0x6d06)] ++
  from "linux/synclink.h"
    [("MGSL_IOCGSTATS", 0x6d07); ("MGSL_IOCWAITEVENT", 0x6d08); ("MGSL_IOCLOOPTXDONE", 0x6d09)] ++
  from "linux/mmtimer.h"
    [("MMTIMER_GETCOUNTER", 0x6d09)] ++
  from "linux/synclink.h"
    [("MGSL_IOCSIF", 0x6d0a); ("MGSL_IOCGIF", 0x6d0b); ("MGSL_IOCCLRMODCOUNT", 0x6d0f);
     ("MGSL_IOCSGPIO", 0x6d10); ("MGSL_IOCGGPIO", 0x6d11); ("MGSL_IOCWAITGPIO", 0x6d12);
     ("MGSL_IOCSXSYNC", 0x6d13); ("MGSL_IOCGXSYNC", 0x6d14); ("MGSL_IOCSXCTRL", 0x6d15);
     ("MGSL_IOCGXCTRL", 0x6d16)] ++
  from "linux/ncp_fs.h"
    [("NCP_IOC_NCPREQUEST", 0x6e01); ("NCP_IOC_GETMOUNTUID", 0x6e02);
     ("NCP_IOC_GETMOUNTUID2", 0x6e02); ("NCP_IOC_CONN_LOGGED_IN", 0x6e03);
     ("NCP_IOC_GET_FS_INFO", 0x6e04); ("NCP_IOC_GET_FS_INFO_V2", 0x6e04);
     ("NCP_IOC_SIGN_INIT", 0x6e05); ("NCP_IOC_SET_SIGN_WANTED", 0x6e06);
     ("NCP_IOC_SIGN_WANTED", 0x6e06); ("NCP_IOC_LOCKUNLOCK", 0x6e07); ("NCP_IOC_GETROOT", 0x6e08);
     ("NCP_IOC_SETROOT", 0x6e08); ("NCP_IOC_GETOBJECTNAME", 0x6e09);
     ("NCP_IOC_SETOBJECTNAME", 0x6e09); ("NCP_IOC_GETPRIVATEDATA", 0x6e0a);
     ("NCP_IOC_SETPRIVATEDATA", 0x6e0a); ("NCP_IOC_GETCHARSETS", 0x6e0b);
     ("NCP_IOC_SETCHARSETS", 0x6e0b); ("NCP_IOC_GETDENTRYTTL", 0x6e0c);
     ("NCP_IOC_SETDENTRYTTL", 0x6e0c)] ++
  from "linux/matroxfb.h"
    [("MATROXFB_GET_OUTPUT_CONNECTION", 0x6ef8); ("MATROXFB_SET_OUTPUT_CONNECTION", 0x6ef8)] ++
  from "video/sisfb.h"
    [("SISFB_GET_INFO_OLD", 0x6ef8)] ++
  from "linux/matroxfb.h"
    [("MATROXFB_GET_AVAILABLE_OUTPUTS", 0x6ef9)] ++
  from "video/sisfb.h"
    [("SISFB_GET_VBRSTATUS_OLD", 0x6ef9)] ++
  from "linux/matroxfb.h"
    [("MATROXFB_GET_OUTPUT_MODE", 0x6efa); ("MATROXFB_SET_OUTPUT_MODE", 0x6efa)] ++
  from "video/sisfb.h"
    [("SISFB_GET_AUTOMAXIMIZE_OLD", 0x6efa); ("SISFB_SET_AUTOMAXIMIZE_OLD", 0x6efa)] ++
  from "linux/matroxfb.h"
    [("MATROXFB_GET_ALL_OUTPUTS", 0x6efb)] ++
  from "mtd/ubi-user.h"
    [("UBI_IOCMKVOL", 0x6f00)] ++
  from "linux/dvb/audio.h"
    [("AUDIO_STOP", 0x6f01)] ++
  from "mtd/ubi-user.h"
    [("UBI_IOCRMVOL", 0x6f01)] ++
  from "linux/dvb/audio.h"
    [("AUDIO_PLAY", 0x6f02)] ++
  from "mtd/ubi-user.h"
    [("UBI_IOCRSVOL", 0x6f02)] ++
  from "linux/dvb/audio.h"
    [("AUDIO_PAUSE", 0x6f03)] ++
  from "mtd/ubi-user.h"
    [("UBI_IOCRNVOL", 0x6f03)] ++
  from "linux/dvb/audio.h"
    [("AUDIO_CONTINUE", 0x6f04); ("AUDIO_SELECT_SOURCE", 0x6f05); ("AUDIO_SET_MUTE", 0x6f06);
     ("AUDIO_SET_AV_SYNC", 0x6f07); ("AUDIO_SET_BYPASS_MODE", 0x6f08);
     ("AUDIO_CHANNEL_SELECT", 0x6f09); ("AUDIO_GET_STATUS", 0x6f0a)].

Definition ioctlent_10 : list struct_ioctlent :=
  from "linux/dvb/audio.h"
    [("AUDIO_GET_CAPABILITIES", 0x6f0b); ("AUDIO_CLEAR_BUFFER", 0x6f0c); ("AUDIO_SET_ID", 0x6f0d);
     ("AUDIO_SET_MIXER", 0x6f0e); ("AUDIO_SET_STREAMTYPE", 0x6f0f); ("AUDIO_SET_EXT_ID", 0x6f10);
     ("AUDIO_SET_ATTRIBUTES", 0x6f11); ("AUDIO_SET_KARAOKE", 0x6f12); ("AUDIO_GET_PTS", 0x6f13);
     ("AUDIO_BILINGUAL_CHANNEL_SELECT", 0x6f14)] ++
  from "linux/dvb/video.h"
    [("VIDEO_STOP", 0x6f15); ("VIDEO_PLAY", 0x6f16); ("VIDEO_FREEZE", 0x6f17);
     ("VIDEO_CONTINUE", 0x6f18); ("VIDEO_SELECT_SOURCE", 0x6f19); ("VIDEO_SET_BLANK", 0x6f1a);
     ("VIDEO_GET_STATUS", 0x6f1b); ("VIDEO_GET_EVENT", 0x6f1c);
     ("VIDEO_SET_DISPLAY_FORMAT", 0x6f1d); ("VIDEO_STILLPICTURE", 0x6f1e);
     ("VIDEO_FAST_FORWARD", 0x6f1f); ("VIDEO_SLOWMOTION", 0x6f20);
     ("VIDEO_GET_CAPABILITIES", 0x6f21); ("VIDEO_CLEAR_BUFFER", 0x6f22); ("VIDEO_SET_ID", 0x6f23);
     ("VIDEO_SET_STREAMTYPE", 0x6f24); ("VIDEO_SET_FORMAT", 0x6f25); ("VIDEO_SET_SYSTEM", 0x6f26);
     ("VIDEO_SET_HIGHLIGHT", 0x6f27)] ++
  from "linux/dvb/dmx.h"
    [("DMX_START", 0x6f29); ("DMX_STOP", 0x6f2a); ("DMX_SET_FILTER", 0x6f2b);
     ("DMX_SET_PES_FILTER", 0x6f2c); ("DMX_SET_BUFFER_SIZE", 0x6f2d);
     ("DMX_GET_PES_PIDS", 0x6f2f); ("DMX_GET_CAPS", 0x6f30); ("DMX_SET_SOURCE", 0x6f31);
     ("DMX_GET_STC", 0x6f32)] ++
  from "linux/dvb/video.h"
    [("VIDEO_SET_SPU", 0x6f32)] ++
  from "linux/dvb/dmx.h"
    [("DMX_ADD_PID", 0x6f33)] ++
  from "linux/dvb/video.h"
    [("VIDEO_SET_SPU_PALETTE", 0x6f33)] ++
  from "linux/dvb/dmx.h"
    [("DMX_REMOVE_PID", 0x6f34)] ++
  from "linux/dvb/net.h"
    [("NET_ADD_IF", 0x6f34)] ++
  from "linux/dvb/video.h"
    [("VIDEO_GET_NAVI", 0x6f34)] ++
  from "linux/dvb/net.h"
    [("NET_REMOVE_IF", 0x6f35)] ++
  from "linux/dvb/video.h"
    [("VIDEO_SET_ATTRIBUTES", 0x6f35)] ++
  from "linux/dvb/net.h"
    [("NET_GET_IF", 0x6f36)] ++
  from "linux/dvb/video.h"
    [("VIDEO_GET_SIZE", 0x6f37); ("VIDEO_GET_FRAME_RATE", 0x6f38); ("VIDEO_GET_PTS", 0x6f39);
     ("VIDEO_GET_FRAME_COUNT", 0x6f3a); ("VIDEO_COMMAND", 0x6f3b); ("VIDEO_TRY_COMMAND", 0x6f3c)] ++
  from "linux/dvb/frontend.h"
    [("FE_GET_INFO", 0x6f3d); ("FE_DISEQC_RESET_OVERLOAD", 0x6f3e);
     ("FE_DISEQC_SEND_MASTER_CMD", 0x6f3f); ("FE_DISEQC_RECV_SLAVE_REPLY", 0x6f40)] ++
  from "mtd/ubi-user.h"
    [("UBI_IOCATT", 0x6f40)] ++
  from "linux/dvb/frontend.h"
    [("FE_DISEQC_SEND_BURST", 0x6f41)] ++
  from "mtd/ubi-user.h"
    [("UBI_IOCDET", 0x6f41)] ++
  from "linux/dvb/frontend.h"
    [("FE_SET_TONE", 0x6f42); ("FE_SET_VOLTAGE", 0x6f43); ("FE_ENABLE_HIGH_LNB_VOLTAGE", 0x6f44);
     ("FE_READ_STATUS", 0x6f45); ("FE_READ_BER", 0x6f46); ("FE_READ_SIGNAL_STRENGTH", 0x6f47);
     ("FE_READ_SNR", 0x6f48); ("FE_READ_UNCORRECTED_BLOCKS", 0x6f49); ("FE_SET_FRONTEND", 0x6f4c);
     ("FE_GET_FRONTEND", 0x6f4d); ("FE_GET_EVENT", 0x6f4e);
     ("FE_DISHNETWORK_SEND_LEGACY_CMD", 0x6f50); ("FE_SET_FRONTEND_TUNE_MODE", 0x6f51);
     ("FE_SET_PROPERTY", 0x6f52); ("FE_GET_PROPERTY", 0x6f53)] ++
  from "linux/dvb/ca.h"
    [("CA_RESET", 0x6f80); ("CA_GET_CAP", 0x6f81); ("CA_GET_SLOT_INFO", 0x6f82);
     ("CA_GET_DESCR_INFO", 0x6f83); ("CA_GET_MSG", 0x6f84); ("CA_SEND_MSG", 0x6f85);
     ("CA_SET_DESCR", 0x6f86); ("CA_SET_PID", 0x6f87)] ++
  from "linux/dvb/osd.h"
    [("OSD_SEND_CMD", 0x6fa0); ("OSD_GET_CAPABILITY", 0x6fa1)] ++
  from "linux/phantom.h"
    [("PHN_GET_REG", 0x7000); ("PHN_SET_REG", 0x7001)] ++
  from "linux/rtc.h"
    [("RTC_AIE_ON", 0x7001)] ++
  from "linux/phantom.h"
    [("PHN_GET_REGS", 0x7002)] ++
  from "linux/rtc.h"
    [("RTC_AIE_OFF", 0x7002)] ++
  from "linux/phantom.h"
    [("PHN_SET_REGS", 0x7003)] ++
  from "linux/rtc.h"
    [("RTC_UIE_ON", 0x7003)] ++
  from "linux/phantom.h"
    [("PHN_NOT_OH", 0x7004)] ++
  from "linux/rtc.h"
    [("RTC_UIE_OFF", 0x7004)] ++
  from "linux/phantom.h"
    [("PHN_GETREG", 0x7005)] ++
  from "linux/rtc.h"
    [("RTC_PIE_ON", 0x7005)] ++
  from "linux/phantom.h"
    [("PHN_SETREG", 0x7006)] ++
  from "linux/rtc.h"
    [("RTC_PIE_OFF", 0x7006)] ++
  from "linux/phantom.h"
    [("PHN_GETREGS", 0x7007)] ++
  from "linux/rtc.h"
    [("RTC_ALM_SET", 0x7007)] ++
  from "linux/phantom.h"
    [("PHN_SETREGS", 0x7008)] ++
  from "linux/rtc.h"
    [("RTC_ALM_READ", 0x7008); ("RTC_RD_TIME", 0x7009); ("RTC_SET_TIME", 0x700a);
     ("RTC_IRQP_READ", 0x700b); ("RTC_IRQP_SET", 0x700c); ("RTC_EPOCH_READ", 0x700d);
     ("RTC_EPOCH_SET", 0x700e); ("RTC_WIE_ON", 0x700f); ("RTC_WKALM_SET", 0x700f);
     ("RTC_WIE_OFF", 0x7010); ("RTC_WKALM_RD", 0x7010); ("RTC_PLL_GET", 0x7011);
     ("RTC_PLL_SET", 0x7012); ("RTC_VL_READ", 0x7013); ("RTC_VL_CLR", 0x7014)] ++
  from "linux/nvram.h"
    [("NVRAM_INIT", 0x7040); ("NVRAM_SETCKS", 0x7041)] ++
  from "linux/ppdev.h"
    [("PPSETMODE", 0x7080); ("PPRSTATUS", 0x7081); ("PPRCONTROL", 0x7083); ("PPWCONTROL", 0x7084);
     ("PPRDATA", 0x7085); ("PPWDATA", 0x7086); ("PPCLAIM", 0x708b); ("PPRELEASE", 0x708c);
     ("PPYIELD", 0x708d); ("PPFCONTROL", 0x708e); ("PPEXCL", 0x708f); ("PPDATADIR", 0x7090);
     ("PPNEGOT", 0x7091); ("PPWCTLONIRQ", 0x7092); ("PPCLRIRQ", 0x7093); ("PPSETPHASE", 0x7094);
     ("PPGETTIME", 0x7095); ("PPSETTIME", 0x7096); ("PPGETMODES", 0x7097); ("PPGETMODE", 0x7098);
     ("PPGETPHASE", 0x7099); ("PPGETFLAGS", 0x709a); ("PPSETFLAGS", 0x709b)] ++
  from "linux/pps.h"
    [("PPS_GETPARAMS", 0x70a1); ("PPS_SETPARAMS", 0x70a2); ("PPS_GETCAP", 0x70a3);
     ("PPS_FETCH", 0x70a4); ("PPS_KC_BIND", 0x70a5)] ++
  from "linux/serio.h"
    [("SPIOCSTYPE", 0x7101)] ++
  from "linux/telephony.h"
    [("PHONE_CAPABILITIES", 0x7180); ("PHONE_CAPABILITIES_LIST", 0x7181);
     ("PHONE_CAPABILITIES_CHECK", 0x7182)].

Definition ioctlent_11 : list struct_ioctlent :=
  from "linux/telephony.h"
    [("PHONE_RING", 0x7183); ("PHONE_HOOKSTATE", 0x7184); ("PHONE_MAXRINGS", 0x7185);
     ("PHONE_RING_CADENCE", 0x7186); ("OLD_PHONE_RING_START", 0x7187);
     ("PHONE_RING_START", 0x7187); ("PHONE_RING_STOP", 0x7188); ("PHONE_REC_CODEC", 0x7189);
     ("PHONE_REC_START", 0x718a); ("PHONE_REC_STOP", 0x718b); ("PHONE_REC_DEPTH", 0x718c);
     ("PHONE_FRAME", 0x718d); ("PHONE_REC_VOLUME", 0x718e); ("PHONE_REC_LEVEL", 0x718f);
     ("PHONE_PLAY_CODEC", 0x7190); ("PHONE_PLAY_START", 0x7191); ("PHONE_PLAY_STOP", 0x7192);
     ("PHONE_PLAY_DEPTH", 0x7193); ("PHONE_PLAY_VOLUME", 0x7194); ("PHONE_PLAY_LEVEL", 0x7195);
     ("PHONE_DTMF_READY", 0x7196); ("PHONE_GET_DTMF", 0x7197); ("PHONE_GET_DTMF_ASCII", 0x7198);
     ("PHONE_DTMF_OOB", 0x7199); ("PHONE_EXCEPTION", 0x719a); ("PHONE_PLAY_TONE", 0x719b);
     ("PHONE_SET_TONE_ON_TIME", 0x719c); ("PHONE_SET_TONE_OFF_TIME", 0x719d);
     ("PHONE_GET_TONE_ON_TIME", 0x719e); ("PHONE_GET_TONE_OFF_TIME", 0x719f);
     ("PHONE_GET_TONE_STATE", 0x71a0); ("PHONE_BUSY", 0x71a1); ("PHONE_RINGBACK", 0x71a2);
     ("PHONE_DIALTONE", 0x71a3); ("PHONE_CPT_STOP", 0x71a4); ("PHONE_PSTN_SET_STATE", 0x71a4);
     ("PHONE_PSTN_GET_STATE", 0x71a5); ("PHONE_WINK_DURATION", 0x71a6);
     ("PHONE_QUERY_CODEC", 0x71a7); ("PHONE_PSTN_LINETEST", 0x71a8); ("PHONE_VAD", 0x71a9);
     ("PHONE_WINK", 0x71aa)] ++
  from "linux/ixjuser.h"
    [("IXJCTL_DSP_RESET", 0x71c0); ("IXJCTL_CARDTYPE", 0x71c1); ("IXJCTL_SERIAL", 0x71c2);
     ("IXJCTL_DSP_TYPE", 0x71c3); ("IXJCTL_DSP_VERSION", 0x71c4); ("IXJCTL_DSP_IDLE", 0x71c5);
     ("IXJCTL_TESTRAM", 0x71c6); ("IXJCTL_SET_FILTER", 0x71c7);
     ("IXJCTL_GET_FILTER_HIST", 0x71c8); ("IXJCTL_INIT_TONE", 0x71c9);
     ("IXJCTL_TONE_CADENCE", 0x71ca); ("IXJCTL_AEC_START", 0x71cb); ("IXJCTL_AEC_STOP", 0x71cc);
     ("IXJCTL_AEC_GET_LEVEL", 0x71cd); ("IXJCTL_SET_LED", 0x71ce); ("IXJCTL_MIXER", 0x71cf);
     ("IXJCTL_DAA_COEFF_SET", 0x71d0); ("IXJCTL_PORT", 0x71d1); ("IXJCTL_DAA_AGAIN", 0x71d2);
     ("IXJCTL_PSTN_LINETEST", 0x71d3); ("IXJCTL_CID", 0x71d4); ("IXJCTL_POTS_PSTN", 0x71d5);
     ("IXJCTL_FILTER_CADENCE", 0x71d6); ("IXJCTL_PLAY_CID", 0x71d7); ("IXJCTL_VMWI", 0x71d8);
     ("IXJCTL_CIDCW", 0x71d9); ("IXJCTL_VERSION", 0x71da)] ++
  from "linux/telephony.h"
    [("PHONE_REC_VOLUME_LINEAR", 0x71db); ("PHONE_PLAY_VOLUME_LINEAR", 0x71dc)] ++
  from "linux/ixjuser.h"
    [("IXJCTL_SET_FILTER_RAW", 0x71dd); ("IXJCTL_HZ", 0x71e0); ("IXJCTL_RATE", 0x71e1);
     ("IXJCTL_FRAMES_READ", 0x71e2); ("IXJCTL_FRAMES_WRITTEN", 0x71e3);
     ("IXJCTL_READ_WAIT", 0x71e4); ("IXJCTL_WRITE_WAIT", 0x71e5);
     ("IXJCTL_DRYBUFFER_READ", 0x71e6); ("IXJCTL_DRYBUFFER_CLEAR", 0x71e7);
     ("IXJCTL_DTMF_PRESCALE", 0x71e8); ("IXJCTL_SIGCTL", 0x71e9); ("IXJCTL_SC_RXG", 0x71ea);
     ("IXJCTL_SC_TXG", 0x71eb); ("IXJCTL_INTERCOM_START", 0x71fd);
     ("IXJCTL_INTERCOM_STOP", 0x71fe)] ++
  from "linux/msdos_fs.h"
    [("VFAT_IOCTL_READDIR_BOTH", 0x7201); ("VFAT_IOCTL_READDIR_SHORT", 0x7202);
     ("FAT_IOCTL_GET_ATTRIBUTES", 0x7210); ("FAT_IOCTL_SET_ATTRIBUTES", 0x7211)] ++
  from "linux/ppp-ioctl.h"
    [("PPPIOCGL2TPSTATS", 0x7436); ("PPPIOCGCHAN", 0x7437); ("PPPIOCATTCHAN", 0x7438);
     ("PPPIOCDISCONN", 0x7439); ("PPPIOCCONNECT", 0x743a); ("PPPIOCSMRRU", 0x743b);
     ("PPPIOCDETACH", 0x743c); ("PPPIOCATTACH", 0x743d); ("PPPIOCNEWUNIT", 0x743e);
     ("PPPIOCGIDLE", 0x743f); ("PPPIOCSDEBUG", 0x7440); ("PPPIOCGDEBUG", 0x7441);
     ("PPPIOCSACTIVE", 0x7446); ("PPPIOCSPASS", 0x7447); ("PPPIOCSNPMODE", 0x744b);
     ("PPPIOCGNPMODE", 0x744c); ("PPPIOCSCOMPRESS", 0x744d); ("PPPIOCXFERUNIT", 0x744e);
     ("PPPIOCSXASYNCMAP", 0x744f); ("PPPIOCGXASYNCMAP", 0x7450); ("PPPIOCSMAXCID", 0x7451);
     ("PPPIOCSMRU", 0x7452); ("PPPIOCGMRU", 0x7453); ("PPPIOCSRASYNCMAP", 0x7454);
     ("PPPIOCGRASYNCMAP", 0x7455); ("PPPIOCGUNIT", 0x7456); ("PPPIOCSASYNCMAP", 0x7457);
     ("PPPIOCGASYNCMAP", 0x7458); ("PPPIOCSFLAGS", 0x7459); ("PPPIOCGFLAGS", 0x745a)] ++
  from "linux/isdn_ppp.h"
    [("PPPIOCGCALLINFO", 0x7480); ("PPPIOCBUNDLE", 0x7481); ("PPPIOCGMPFLAGS", 0x7482);
     ("PPPIOCSMPFLAGS", 0x7483); ("PPPIOCSMPMTU", 0x7484); ("PPPIOCSMPMRU", 0x7485);
     ("PPPIOCGCOMPRESSORS", 0x7486); ("PPPIOCSCOMPRESSOR", 0x7487); ("PPPIOCGIFNAME", 0x7488)] ++
  from "linux/toshiba.h"
    [("TOSH_SMM", 0x7490)] ++
  from "linux/uvcvideo.h"
    [("UVCIOC_CTRL_MAP", 0x7520); ("UVCIOC_CTRL_QUERY", 0x7521)] ++
  from "linux/sonypi.h"
    [("SONYPI_IOCGBRT", 0x7600); ("SONYPI_IOCSBRT", 0x7600)] ++
  from "media/v4l2-subdev.h"
    [("V4L2_SUBDEV_IR_RX_NOTIFY", 0x7600)] ++
  from "linux/fs.h"
    [("FS_IOC32_GETVERSION", 0x7601); ("FS_IOC_GETVERSION", 0x7601)] ++
  from "media/v4l2-subdev.h"
    [("V4L2_SUBDEV_IR_TX_NOTIFY", 0x7601)] ++
  from "linux/fs.h"
    [("FS_IOC32_SETVERSION", 0x7602); ("FS_IOC_SETVERSION", 0x7602)] ++
  from "linux/sonypi.h"
    [("SONYPI_IOCGBAT1CAP", 0x7602); ("SONYPI_IOCGBAT1REM", 0x7603);
     ("SONYPI_IOCGBAT2CAP", 0x7604); ("SONYPI_IOCGBAT2REM", 0x7605);
     ("SONYPI_IOCGBATFLAGS", 0x7607); ("SONYPI_IOCGBLUE", 0x7608); ("SONYPI_IOCSBLUE", 0x7609);
     ("SONYPI_IOCGFAN", 0x760a); ("SONYPI_IOCSFAN", 0x760b); ("SONYPI_IOCGTEMP", 0x760c)].

Definition ioctlent_12 : list struct_ioctlent :=
  from "linux/meye.h"
    [("MEYEIOC_G_PARAMS", 0x76c0); ("MEYEIOC_S_PARAMS", 0x76c1); ("MEYEIOC_QBUF_CAPT", 0x76c2);
     ("MEYEIOC_SYNC", 0x76c3); ("MEYEIOC_STILLCAPT", 0x76c4); ("MEYEIOC_STILLJCAPT", 0x76c5)] ++
  from "linux/media.h"
    [("MEDIA_IOC_DEVICE_INFO", 0x7c00); ("MEDIA_IOC_ENUM_ENTITIES", 0x7c01);
     ("MEDIA_IOC_ENUM_LINKS", 0x7c02); ("MEDIA_IOC_SETUP_LINK", 0x7c03)] ++
  from "asm-generic/sockios.h"
    [("FIOSETOWN", 0x8901); ("SIOCSPGRP", 0x8902); ("FIOGETOWN", 0x8903); ("SIOCGPGRP", 0x8904);
     ("SIOCATMARK", 0x8905); ("SIOCGSTAMP", 0x8906); ("SIOCGSTAMPNS", 0x8907)] ++
  from "linux/sockios.h"
    [("SIOCADDRT", 0x890b); ("SIOCDELRT", 0x890c); ("SIOCRTMSG", 0x890d); ("SIOCGIFNAME", 0x8910);
     ("SIOCSIFLINK", 0x8911); ("SIOCGIFCONF", 0x8912); ("SIOCGIFFLAGS", 0x8913);
     ("SIOCSIFFLAGS", 0x8914); ("SIOCGIFADDR", 0x8915); ("SIOCSIFADDR", 0x8916);
     ("SIOCGIFDSTADDR", 0x8917); ("SIOCSIFDSTADDR", 0x8918); ("SIOCGIFBRDADDR", 0x8919);
     ("SIOCSIFBRDADDR", 0x891a); ("SIOCGIFNETMASK", 0x891b); ("SIOCSIFNETMASK", 0x891c);
     ("SIOCGIFMETRIC", 0x891d); ("SIOCSIFMETRIC", 0x891e); ("SIOCGIFMEM", 0x891f);
     ("SIOCSIFMEM", 0x8920); ("SIOCGIFMTU", 0x8921); ("SIOCSIFMTU", 0x8922);
     ("SIOCSIFNAME", 0x8923); ("SIOCSIFHWADDR", 0x8924); ("SIOCGIFENCAP", 0x8925);
     ("SIOCSIFENCAP", 0x8926); ("SIOCGIFHWADDR", 0x8927); ("SIOCGIFSLAVE", 0x8929);
     ("SIOCSIFSLAVE", 0x8930); ("SIOCADDMULTI", 0x8931); ("SIOCDELMULTI", 0x8932);
     ("SIOCGIFINDEX", 0x8933); ("SIOCSIFPFLAGS", 0x8934); ("SIOCGIFPFLAGS", 0x8935);
     ("SIOCDIFADDR", 0x8936); ("SIOCSIFHWBROADCAST", 0x8937); ("SIOCGIFCOUNT", 0x8938);
     ("SIOCGIFBR", 0x8940); ("SIOCSIFBR", 0x8941); ("SIOCGIFTXQLEN", 0x8942);
     ("SIOCSIFTXQLEN", 0x8943); ("SIOCETHTOOL", 0x8946); ("SIOCGMIIPHY", 0x8947);
     ("SIOCGMIIREG", 0x8948); ("SIOCSMIIREG", 0x8949); ("SIOCWANDEV", 0x894a);
     ("SIOCOUTQNSD", 0x894b); ("SIOCDARP", 0x8953); ("SIOCGARP", 0x8954); ("SIOCSARP", 0x8955);
     ("SIOCDRARP", 0x8960); ("SIOCGRARP", 0x8961); ("SIOCSRARP", 0x8962); ("SIOCGIFMAP", 0x8970);
     ("SIOCSIFMAP", 0x8971); ("SIOCADDDLCI", 0x8980); ("SIOCDELDLCI", 0x8981);
     ("SIOCGIFVLAN", 0x8982); ("SIOCSIFVLAN", 0x8983); ("SIOCBONDENSLAVE", 0x8990);
     ("SIOCBONDRELEASE", 0x8991); ("SIOCBONDSETHWADDR", 0x8992);
     ("SIOCBONDSLAVEINFOQUERY", 0x8993); ("SIOCBONDINFOQUERY", 0x8994);
     ("SIOCBONDCHANGEACTIVE", 0x8995); ("SIOCBRADDBR", 0x89a0); ("SIOCBRDELBR", 0x89a1);
     ("SIOCBRADDIF", 0x89a2); ("SIOCBRDELIF", 0x89a3); ("SIOCSHWTSTAMP", 0x89b0)] ++
  from "linux/dn.h"
    [("OSIOCSNETADDR", 0x89e0)] ++
  from "linux/sockios.h"
    [("SIOCPROTOPRIVATE", 0x89e0)] ++
  from "linux/dn.h"
    [("SIOCSNETADDR", 0x89e0); ("OSIOCGNETADDR", 0x89e1); ("SIOCGNETADDR", 0x89e1)] ++
  from "linux/sockios.h"
    [("SIOCDEVPRIVATE", 0x89f0)] ++
  from "linux/wireless.h"
    [("SIOCIWFIRST", 0x8b00); ("SIOCSIWCOMMIT", 0x8b00); ("SIOCGIWNAME", 0x8b01);
     ("SIOCSIWNWID", 0x8b02); ("SIOCGIWNWID", 0x8b03); ("SIOCSIWFREQ", 0x8b04);
     ("SIOCGIWFREQ", 0x8b05); ("SIOCSIWMODE", 0x8b06); ("SIOCGIWMODE", 0x8b07);
     ("SIOCSIWSENS", 0x8b08); ("SIOCGIWSENS", 0x8b09); ("SIOCSIWRANGE", 0x8b0a);
     ("SIOCGIWRANGE", 0x8b0b); ("SIOCSIWPRIV", 0x8b0c); ("SIOCGIWPRIV", 0x8b0d);
     ("SIOCSIWSTATS", 0x8b0e); ("SIOCGIWSTATS", 0x8b0f); ("SIOCSIWSPY", 0x8b10);
     ("SIOCGIWSPY", 0x8b11); ("SIOCSIWTHRSPY", 0x8b12); ("SIOCGIWTHRSPY", 0x8b13);
     ("SIOCSIWAP", 0x8b14); ("SIOCGIWAP", 0x8b15); ("SIOCSIWMLME", 0x8b16);
     ("SIOCGIWAPLIST", 0x8b17); ("SIOCSIWSCAN", 0x8b18); ("SIOCGIWSCAN", 0x8b19);
     ("SIOCSIWESSID", 0x8b1a); ("SIOCGIWESSID", 0x8b1b); ("SIOCSIWNICKN", 0x8b1c);
     ("SIOCGIWNICKN", 0x8b1d); ("SIOCSIWRATE", 0x8b20); ("SIOCGIWRATE", 0x8b21);
     ("SIOCSIWRTS", 0x8b22); ("SIOCGIWRTS", 0x8b23); ("SIOCSIWFRAG", 0x8b24);
     ("SIOCGIWFRAG", 0x8b25); ("SIOCSIWTXPOW", 0x8b26); ("SIOCGIWTXPOW", 0x8b27);
     ("SIOCSIWRETRY", 0x8b28); ("SIOCGIWRETRY", 0x8b29); ("SIOCSIWENCODE", 0x8b2a);
     ("SIOCGIWENCODE", 0x8b2b); ("SIOCSIWPOWER", 0x8b2c); ("SIOCGIWPOWER", 0x8b2d);
     ("SIOCSIWGENIE", 0x8b30); ("SIOCGIWGENIE", 0x8b31); ("SIOCSIWAUTH", 0x8b32);
     ("SIOCGIWAUTH", 0x8b33); ("SIOCSIWENCODEEXT", 0x8b34); ("SIOCGIWENCODEEXT", 0x8b35);
     ("SIOCSIWPMKSA", 0x8b36); ("SIOCIWFIRSTPRIV", 0x8be0); ("SIOCIWLASTPRIV", 0x8bff)] ++
  from "linux/auto_fs.h"
    [("AUTOFS_IOC_READY", 0x9360); ("AUTOFS_IOC_FAIL", 0x9361); ("AUTOFS_IOC_CATATONIC", 0x9362)].

Definition ioctlent_13 : list struct_ioctlent :=
  from "linux/auto_fs.h"
    [("AUTOFS_IOC_PROTOVER", 0x9363); ("AUTOFS_IOC_SETTIMEOUT", 0x9364);
     ("AUTOFS_IOC_EXPIRE", 0x9365)] ++
  from "linux/auto_fs4.h"
    [("AUTOFS_IOC_EXPIRE_MULTI", 0x9366); ("AUTOFS_IOC_PROTOSUBVER", 0x9367);
     ("AUTOFS_IOC_ASKUMOUNT", 0x9370)] ++
  from "linux/btrfs.h"
    [("BTRFS_IOC_SNAP_CREATE", 0x9401); ("BTRFS_IOC_DEFRAG", 0x9402);
     ("BTRFS_IOC_RESIZE", 0x9403); ("BTRFS_IOC_SCAN_DEV", 0x9404);
     ("BTRFS_IOC_TRANS_START", 0x9406); ("BTRFS_IOC_TRANS_END", 0x9407);
     ("BTRFS_IOC_SYNC", 0x9408); ("BTRFS_IOC_CLONE", 0x9409); ("BTRFS_IOC_ADD_DEV", 0x940a);
     ("BTRFS_IOC_RM_DEV", 0x940b); ("BTRFS_IOC_BALANCE", 0x940c);
     ("BTRFS_IOC_CLONE_RANGE", 0x940d); ("BTRFS_IOC_SUBVOL_CREATE", 0x940e);
     ("BTRFS_IOC_SNAP_DESTROY", 0x940f); ("BTRFS_IOC_DEFRAG_RANGE", 0x9410);
     ("BTRFS_IOC_TREE_SEARCH", 0x9411); ("BTRFS_IOC_INO_LOOKUP", 0x9412);
     ("BTRFS_IOC_DEFAULT_SUBVOL", 0x9413); ("BTRFS_IOC_SPACE_INFO", 0x9414);
     ("BTRFS_IOC_WAIT_SYNC", 0x9416); ("BTRFS_IOC_SNAP_CREATE_V2", 0x9417);
     ("BTRFS_IOC_START_SYNC", 0x9418); ("BTRFS_IOC_SUBVOL_CREATE_V2", 0x9418);
     ("BTRFS_IOC_SUBVOL_GETFLAGS", 0x9419); ("BTRFS_IOC_SUBVOL_SETFLAGS", 0x941a);
     ("BTRFS_IOC_SCRUB", 0x941b); ("BTRFS_IOC_SCRUB_CANCEL", 0x941c);
     ("BTRFS_IOC_SCRUB_PROGRESS", 0x941d); ("BTRFS_IOC_DEV_INFO", 0x941e);
     ("BTRFS_IOC_FS_INFO", 0x941f); ("BTRFS_IOC_BALANCE_V2", 0x9420);
     ("BTRFS_IOC_BALANCE_CTL", 0x9421); ("BTRFS_IOC_BALANCE_PROGRESS", 0x9422);
     ("BTRFS_IOC_INO_PATHS", 0x9423); ("BTRFS_IOC_LOGICAL_INO", 0x9424);
     ("BTRFS_IOC_SET_RECEIVED_SUBVOL", 0x9425); ("BTRFS_IOC_SEND", 0x9426);
     ("BTRFS_IOC_DEVICES_READY", 0x9427); ("BTRFS_IOC_QUOTA_CTL", 0x9428);
     ("BTRFS_IOC_QGROUP_ASSIGN", 0x9429); ("BTRFS_IOC_QGROUP_CREATE", 0x942a);
     ("BTRFS_IOC_QGROUP_LIMIT", 0x942b); ("BTRFS_IOC_GET_FSLABEL", 0x9431);
     ("BTRFS_IOC_SET_FSLABEL", 0x9432); ("BTRFS_IOC_GET_DEV_STATS", 0x9434);
     ("BTRFS_IOC_DEV_REPLACE", 0x9435)] ++
  from "linux/nbd.h"
    [("NBD_SET_SOCK", 0xab00); ("NBD_SET_BLKSIZE", 0xab01); ("NBD_SET_SIZE", 0xab02);
     ("NBD_DO_IT", 0xab03); ("NBD_CLEAR_SOCK", 0xab04); ("NBD_CLEAR_QUE", 0xab05);
     ("NBD_PRINT_DEBUG", 0xab06); ("NBD_SET_SIZE_BLOCKS", 0xab07); ("NBD_DISCONNECT", 0xab08);
     ("NBD_SET_TIMEOUT", 0xab09); ("NBD_SET_FLAGS", 0xab0a)] ++
  from "linux/raw.h"
    [("RAW_SETBIND", 0xac00); ("RAW_GETBIND", 0xac01)] ++
  from "linux/kvm.h"
    [("KVM_GET_API_VERSION", 0xae00); ("KVM_CREATE_VM", 0xae01);
     ("KVM_GET_MSR_INDEX_LIST", 0xae02); ("KVM_CHECK_EXTENSION", 0xae03);
     ("KVM_GET_VCPU_MMAP_SIZE", 0xae04); ("KVM_GET_SUPPORTED_CPUID", 0xae05);
     ("KVM_S390_ENABLE_SIE", 0xae06); ("KVM_SET_MEMORY_REGION", 0xae40);
     ("KVM_CREATE_VCPU", 0xae41); ("KVM_GET_DIRTY_LOG", 0xae42); ("KVM_SET_MEMORY_ALIAS", 0xae43);
     ("KVM_SET_NR_MMU_PAGES", 0xae44); ("KVM_GET_NR_MMU_PAGES", 0xae45);
     ("KVM_SET_USER_MEMORY_REGION", 0xae46); ("KVM_SET_TSS_ADDR", 0xae47);
     ("KVM_SET_IDENTITY_MAP_ADDR", 0xae48); ("KVM_S390_UCAS_MAP", 0xae50);
     ("KVM_S390_UCAS_UNMAP", 0xae51); ("KVM_S390_VCPU_FAULT", 0xae52);
     ("KVM_CREATE_IRQCHIP", 0xae60); ("KVM_IRQ_LINE", 0xae61); ("KVM_GET_IRQCHIP", 0xae62);
     ("KVM_SET_IRQCHIP", 0xae63); ("KVM_CREATE_PIT", 0xae64); ("KVM_GET_PIT", 0xae65);
     ("KVM_SET_PIT", 0xae66); ("KVM_IRQ_LINE_STATUS", 0xae67); ("KVM_ASSIGN_PCI_DEVICE", 0xae69);
     ("KVM_SET_GSI_ROUTING", 0xae6a); ("KVM_ASSIGN_DEV_IRQ", 0xae70);
     ("KVM_REINJECT_CONTROL", 0xae71); ("KVM_DEASSIGN_PCI_DEVICE", 0xae72);
     ("KVM_ASSIGN_SET_MSIX_NR", 0xae73); ("KVM_ASSIGN_SET_MSIX_ENTRY", 0xae74);
     ("KVM_DEASSIGN_DEV_IRQ", 0xae75); ("KVM_IRQFD", 0xae76); ("KVM_CREATE_PIT2", 0xae77);
     ("KVM_SET_BOOT_CPU_ID", 0xae78); ("KVM_IOEVENTFD", 0xae79); ("KVM_XEN_HVM_CONFIG", 0xae7a);
     ("KVM_SET_CLOCK", 0xae7b); ("KVM_GET_CLOCK", 0xae7c); ("KVM_RUN", 0xae80);
     ("KVM_GET_REGS", 0xae81); ("KVM_SET_REGS", 0xae82); ("KVM_GET_SREGS", 0xae83);
     ("KVM_SET_SREGS", 0xae84); ("KVM_TRANSLATE", 0xae85); ("KVM_INTERRUPT", 0xae86);
     ("KVM_GET_MSRS", 0xae88); ("KVM_SET_MSRS", 0xae89); ("KVM_SET_CPUID", 0xae8a);
     ("KVM_SET_SIGNAL_MASK", 0xae8b); ("KVM_GET_FPU", 0xae8c); ("KVM_SET_FPU", 0xae8d);
     ("KVM_GET_LAPIC", 0xae8e); ("KVM_SET_LAPIC", 0xae8f); ("KVM_SET_CPUID2", 0xae90);
     ("KVM_GET_CPUID2", 0xae91); ("KVM_TPR_ACCESS_REPORTING", 0xae92);
     ("KVM_SET_VAPIC_ADDR", 0xae93); ("KVM_S390_INTERRUPT", 0xae94);
     ("KVM_S390_STORE_STATUS", 0xae95); ("KVM_S390_SET_INITIAL_PSW", 0xae96);
     ("KVM_S390_INITIAL_RESET", 0xae97); ("KVM_GET_MP_STATE", 0xae98);
     ("KVM_SET_MP_STATE", 0xae99); ("KVM_IA64_VCPU_GET_STACK", 0xae9a); ("KVM_NMI", 0xae9a);
     ("KVM_IA64_VCPU_SET_STACK", 0xae9b); ("KVM_SET_GUEST_DEBUG", 0xae9b);
     ("KVM_X86_SETUP_MCE", 0xae9c); ("KVM_X86_GET_MCE_CAP_SUPPORTED", 0xae9d);
     ("KVM_X86_SET_MCE", 0xae9e); ("KVM_GET_PIT2", 0xae9f); ("KVM_GET_VCPU_EVENTS", 0xae9f);
     ("KVM_SET_PIT2", 0xaea0); ("KVM_SET_VCPU_EVENTS", 0xaea0); ("KVM_GET_DEBUGREGS", 0xaea1);
     ("KVM_PPC_GET_PVINFO", 0xaea1); ("KVM_SET_DEBUGREGS", 0xaea2); ("KVM_SET_TSC_KHZ", 0xaea2);
     ("KVM_ENABLE_CAP", 0xaea3); ("KVM_GET_TSC_KHZ", 0xaea3);
     ("KVM_ASSIGN_SET_INTX_MASK", 0xaea4)].

Definition ioctlent_14 : list struct_ioctlent :=
  from "linux/kvm.h"
    [("KVM_GET_XSAVE", 0xaea4); ("KVM_SET_XSAVE", 0xaea5); ("KVM_SIGNAL_MSI", 0xaea5);
     ("KVM_GET_XCRS", 0xaea6); ("KVM_PPC_GET_SMMU_INFO", 0xaea6);
     ("KVM_PPC_ALLOCATE_HTAB", 0xaea7); ("KVM_SET_XCRS", 0xaea7);
     ("KVM_CREATE_SPAPR_TCE", 0xaea8); ("KVM_ALLOCATE_RMA", 0xaea9); ("KVM_DIRTY_TLB", 0xaeaa);
     ("KVM_PPC_GET_HTAB_FD", 0xaeaa); ("KVM_ARM_SET_DEVICE_ADDR", 0xaeab);
     ("KVM_GET_ONE_REG", 0xaeab); ("KVM_SET_ONE_REG", 0xaeac); ("KVM_KVMCLOCK_CTRL", 0xaead);
     ("KVM_ARM_VCPU_INIT", 0xaeae); ("KVM_GET_REG_LIST", 0xaeb0)] ++
  from "linux/vhost.h"
    [("VHOST_GET_FEATURES", 0xaf00); ("VHOST_SET_FEATURES", 0xaf00); ("VHOST_SET_OWNER", 0xaf01);
     ("VHOST_RESET_OWNER", 0xaf02); ("VHOST_SET_MEM_TABLE", 0xaf03);
     ("VHOST_SET_LOG_BASE", 0xaf04); ("VHOST_SET_LOG_FD", 0xaf07);
     ("VHOST_SET_VRING_NUM", 0xaf10); ("VHOST_SET_VRING_ADDR", 0xaf11);
     ("VHOST_GET_VRING_BASE", 0xaf12); ("VHOST_SET_VRING_BASE", 0xaf12);
     ("VHOST_SET_VRING_KICK", 0xaf20); ("VHOST_SET_VRING_CALL", 0xaf21);
     ("VHOST_SET_VRING_ERR", 0xaf22); ("VHOST_NET_SET_BACKEND", 0xaf30)] ++
  from "linux/if_pppox.h"
    [("PPPOEIOCSFWD", 0xb100); ("PPPOEIOCDFWD", 0xb101)] ++
  from "linux/mmc/ioctl.h"
    [("MMC_IOC_CMD", 0xb300)] ++
  from "linux/reiserfs_fs.h"
    [("REISERFS_IOC_UNPACK", 0xcd01)] ++
  from "video/sisfb.h"
    [("SISFB_GET_INFO_SIZE", 0xf300); ("SISFB_GET_INFO", 0xf301); ("SISFB_GET_VBRSTATUS", 0xf302);
     ("SISFB_GET_AUTOMAXIMIZE", 0xf303); ("SISFB_SET_AUTOMAXIMIZE", 0xf303);
     ("SISFB_GET_TVPOSOFFSET", 0xf304); ("SISFB_SET_TVPOSOFFSET", 0xf304);
     ("SISFB_COMMAND", 0xf305); ("SISFB_SET_LOCK", 0xf306)] ++
  from "video/mbxfb.h"
    [("MBXFB_IOCX_OVERLAY", 0xf400); ("MBXFB_IOCG_ALPHA", 0xf401); ("MBXFB_IOCS_ALPHA", 0xf402);
     ("MBXFB_IOCS_PLANEORDER", 0xf403); ("MBXFB_IOCS_REG", 0xf404); ("MBXFB_IOCX_REG", 0xf405)] ++
  from "linux/dm-ioctl.h"
    [("DM_VERSION", 0xfd00); ("DM_REMOVE_ALL", 0xfd01); ("DM_LIST_DEVICES", 0xfd02);
     ("DM_DEV_CREATE", 0xfd03); ("DM_DEV_REMOVE", 0xfd04); ("DM_DEV_RENAME", 0xfd05);
     ("DM_DEV_SUSPEND", 0xfd06); ("DM_DEV_STATUS", 0xfd07); ("DM_DEV_WAIT", 0xfd08);
     ("DM_TABLE_LOAD", 0xfd09); ("DM_TABLE_CLEAR", 0xfd0a); ("DM_TABLE_DEPS", 0xfd0b);
     ("DM_TABLE_STATUS", 0xfd0c); ("DM_LIST_VERSIONS", 0xfd0d); ("DM_TARGET_MSG", 0xfd0e);
     ("DM_DEV_SET_GEOMETRY", 0xfd0f)].

Definition ioctlent0 : list struct_ioctlent :=
  ioctlent_1 ++ ioctlent_2 ++ ioctlent_3 ++ ioctlent_4 ++ ioctlent_5 ++ ioctlent_6 ++ ioctlent_7 ++
  ioctlent_8 ++ ioctlent_9 ++ ioctlent_10 ++ ioctlent_11 ++ ioctlent_12 ++ ioctlent_13 ++ ioctlent_14.

(** ** The table is sorted *)

Fixpoint ascending (l : list struct_ioctlent) : bool :=
  match l with
  | a :: ((b :: _) as l') => (ioc_code a <=? ioc_code b) && ascending l'
  | _ => true
  end.

Lemma ascending_sorted l : ascending l = true -> StronglySorted ioc_le l.
Proof.
  intros H. apply Sorted_StronglySorted; [apply _|]. induction l as [|a [|b l] IH]; [constructor|repeat constructor|].
  cbn [ascending] in H. apply andb_true_iff in H as [Hab%Z.leb_le H]. constructor; [by apply IH|].
  by constructor.
Qed.

Lemma ioctlent0_sorted : StronglySorted ioc_le ioctlent0.
Proof. apply ascending_sorted. vm_compute. reflexivity. Qed.

Lemma ioctlent0_codes x : x ∈ ioctlent0 -> Z.land (ioc_code x) ioc_mask = ioc_code x.
Proof.
  assert (H : forallb (fun x => Z.land (ioc_code x) ioc_mask =? ioc_code x) ioctlent0 = true)
    by (vm_compute; reflexivity).
  intros Hx. rewrite forallb_forall in H. apply Z.eqb_eq, H. by apply list_elem_of_In.
Qed.

Lemma printfd_tp e fd s : printfd fd e s = tp (fd_text e fd) e s.
Proof. unfold printfd, fd_text, mbind, D_bind, ask. by destruct (fdpath e (s32 fd)). Qed.

(** ** Properties *)

(** C16: on its entry an ioctl shows the descriptor and then all names of the
    code, in the order of the table and separated by "or", or the code in hex
    when the table has no name for it; only then the argument is decoded.  Every
    entry of the table is shown for its own code: the table is sorted, so that
    the bisection misses none. *)
Theorem sys_ioctl_shows_names `{K : Kernel} vla_ok e s fd code a rest :
  d_entering e = true -> u_arg e = fd :: code :: a :: rest ->
  sys_ioctl vla_ok ioctlent0 e s =
    (_ ← tp (fd_text e fd +:+ ", " +:+ names_text ioctlent0 code);
     _ ← ioctl_decode vla_ok code a;
     mret 0) e s /\
  (forall x, x ∈ ioctlent0 -> x ∈ matching (Z.land (ioc_code x) ioc_mask) ioctlent0).
Proof.
  intros He Ha. split.
  - unfold sys_ioctl, mbind, D_bind, ask, arg. rewrite He, Ha. cbn [lookup list_lookup default id].
    rewrite (ioctl_name_spec ioctlent0 ioctlent0_sorted), printfd_tp.
    unfold tp, lift, tprints. cbn [d_p p_out p_err readv_not_supported d_dump d_strbuf d_auxstr
      d_cache_dropped d_new_rval]. by rewrite !sapp_assoc.
  - intros x Hx. apply list_elem_of_filter. split; [|done]. by rewrite ioctlent0_codes.
Qed.

(** The code 0x4101 has three names: AGPIOC_ACQUIRE, APM_IOC_STANDBY and
    SNDRV_PCM_IOCTL_INFO. *)
Lemma sys_ioctl_shows_names_witness :
  @sys_ioctl io_kernel (fun _ => true) ioctlent0 (io_env [3; 0x4101; 77; 0; 0; 0]) io_state =
    (_ ← tp (fd_text (io_env [3; 0x4101; 77; 0; 0; 0]) 3 +:+ ", " +:+ names_text ioctlent0 0x4101);
     _ ← @ioctl_decode io_kernel (fun _ => true) 0x4101 77;
     mret 0) (io_env [3; 0x4101; 77; 0; 0; 0]) io_state /\
  (forall x, x ∈ ioctlent0 -> x ∈ matching (Z.land (ioc_code x) ioc_mask) ioctlent0).
Proof.
  refine (@sys_ioctl_shows_names io_kernel (fun _ => true) (io_env [3; 0x4101; 77; 0; 0; 0]) io_state
    3 0x4101 77 [0; 0; 0] eq_refl eq_refl).
Defined.
