(* ===== verification/Ioctlgen.v ===== *)
(** * The generators of the table of ioctl names (linux/ioctlsort.c, ioctlsort.c)

    linux/ioctlsort is compiled with the entries that ioctlent.sh has collected
    from the kernel's headers and prints the table that ioctl_lookup searches;
    the older ioctlsort does the same for a list that is written by hand.  A
    generator is its array, here an argument, and the text that it prints; [qsort]
    is the library's. *)

From Stdlib Require Import Sorting.Sorted.
From stdpp Require Import sorting.
From S2P Require Import Prelude Clib Xlat Quote Tracee Decode Io Args Process Device Sockio Term Mtd Ioctl Ioctlent.
Local Open Scope string_scope.
Local Open Scope list_scope.
Local Open Scope Z_scope.

Definition tab : string := String "009" "".
Definition newline : string := String "010" "".
Definition quoted (s : string) : string := dquote +:+ s +:+ dquote.
Definition texts : list string -> string := foldr (fun a b => a +:+ b) "".

Section generators.
Context (qsort : (struct_ioctlent -> struct_ioctlent -> Z) -> list struct_ioctlent -> list struct_ioctlent).

(** ** linux/ioctlsort.c *)

Definition compare (a b : struct_ioctlent) : Z :=
  if ioc_code a >? ioc_code b then 1 else if ioc_code a <? ioc_code b then -1
  else strcmp (symbol a) (symbol b).

(** ioctls[i].code &= the bits of NR and TYPE *)
Definition mask_code (e : struct_ioctlent) : struct_ioctlent :=
  mk_ioctlent (doth e) (symbol e) (Z.land (ioc_code e) ioc_mask).

(** The entries that are printed; [prev] is ioctls[i - 1]. *)
Fixpoint printed_ents (prev : option struct_ioctlent) (ioctls : list struct_ioctlent) : list struct_ioctlent :=
  match ioctls with
  | [] => []
  | e :: ioctls =>
      (if match prev with
          | None => true
          | Some p => negb (ioc_code e =? ioc_code p) || negb (strcmp (symbol e) (symbol p) =? 0)
          end then [e] else []) ++ printed_ents (Some e) ioctls
  end.
Definition generated (ioctls : list struct_ioctlent) : list struct_ioctlent :=
  printed_ents None (qsort compare (mask_code <$> ioctls)).

(** %#06lx; the prefix is left out for zero. *)
Definition fmt_06lx (n : Z) : string :=
  if n =? 0 then "000000" else "0x" +:+ pad_left 4 "0" (fmt_x n).
Definition ioctl_line (e : struct_ioctlent) : string :=
  tab +:+ "{" +:+ quoted (doth e) +:+ "," +:+ tab +:+ quoted (symbol e) +:+ "," +:+ tab +:+
  fmt_06lx (ioc_code e) +:+ "}," +:+ newline.
Definition ioctlsort_main (ioctls : list struct_ioctlent) : string :=
  tab +:+ "/* Generated by ioctlsort */" +:+ newline +:+ texts (ioctl_line <$> generated ioctls).

(** ** ioctlsort.c *)

Definition old_compare (a b : struct_ioctlent) : Z :=
  if ioc_code a >? ioc_code b then 1 else if ioc_code a <? ioc_code b then -1 else 0.
(** printf of %#lx, which leaves the prefix out for zero. *)
Definition old_ioctl_line (e : struct_ioctlent) : string :=
  "{" +:+ quoted (doth e) +:+ ", " +:+ quoted (symbol e) +:+ ", " +:+ fmt_sx (ioc_code e) +:+ "}," +:+ newline.
Definition old_main (ioctlent : list struct_ioctlent) : string :=
  texts (old_ioctl_line <$> qsort old_compare ioctlent).
End generators.

(** ** The table is sorted, by code and then by name *)

Lemma sorted_mono {A} (R Q : A -> A -> Prop) l :
  StronglySorted R l -> (forall a b, R a b -> Q a b) -> StronglySorted Q l.
Proof. induction 1 as [|a l _ IH Ha]; intros H; constructor; [by apply IH|]. eapply Forall_impl; [exact Ha|auto]. Qed.
Lemma sorted_filter {A} (R : A -> A -> Prop) (P : A -> Prop) `{!forall x, Decision (P x)} l :
  StronglySorted R l -> StronglySorted R (filter P l).
Proof.
  induction 1 as [|a l _ IH Ha]; [constructor|]. rewrite filter_cons. case_decide; [|done].
  constructor; [done|]. rewrite Forall_forall in *. intros x [_ Hx]%list_elem_of_filter. auto.
Qed.
Lemma sorted_fmap {A B} (R : A -> A -> Prop) (Q : B -> B -> Prop) (f : A -> B) l :
  StronglySorted R l -> (forall a b, a ∈ l -> b ∈ l -> R a b -> Q (f a) (f b)) -> StronglySorted Q (f <$> l).
Proof.
  induction 1 as [|a l _ IH Ha]; intros H; [constructor|]. cbn. constructor.
  - apply IH. intros x y Hx Hy. apply H; by right.
  - apply Forall_fmap. rewrite Forall_forall in *. intros x Hx. apply H; [by left|by right|by apply Ha].
Qed.

Definition ent_lt (a b : struct_ioctlent) : Prop := compare a b < 0.

Lemma compare_cases a b :
  compare a b <= 0 <-> ioc_code a < ioc_code b \/ ioc_code a = ioc_code b /\ strcmp (symbol a) (symbol b) <= 0.
Proof.
  unfold compare. destruct (Z.gtb_spec (ioc_code a) (ioc_code b)); [lia|].
  destruct (Z.ltb_spec (ioc_code a) (ioc_code b)); lia.
Qed.

Lemma compare_ordering : ordering compare.
Proof.
  split; intros *; rewrite !compare_cases.
  - pose proof (strcmp_antisym (symbol a) (symbol b)). lia.
  - intros [H1|[H1 H1']] [H2|[H2 H2']]; try lia. right. split; [lia|]. by eapply strcmp_trans.
Qed.

Lemma old_compare_ordering : ordering old_compare.
Proof. unfold old_compare. split; intros *; repeat case_match; lia. Qed.

Lemma old_table_sorted qsort l : qsort_ok qsort -> StronglySorted ioc_le (qsort old_compare l).
Proof.
  intros Hq. pose proof (qsort_sorted qsort old_compare l Hq old_compare_ordering) as Hs.
  apply (sorted_mono _ _ _ Hs). unfold old_compare, ioc_le. intros a b. repeat case_match; lia.
Qed.

Lemma ent_lt_spec a b :
  ent_lt a b <-> ioc_code a < ioc_code b \/ ioc_code a = ioc_code b /\ str_lt (symbol a) (symbol b).
Proof.
  unfold ent_lt, str_lt, compare. destruct (Z.gtb_spec (ioc_code a) (ioc_code b)); [lia|].
  destruct (Z.ltb_spec (ioc_code a) (ioc_code b)); lia.
Qed.

Lemma ent_lt_trans a b c : ent_lt a b -> ent_lt b c -> ent_lt a c.
Proof.
  rewrite !ent_lt_spec. intros [H1|[H1 H1']] [H2|[H2 H2']]; try lia.
  right. split; [lia|]. by eapply str_lt_trans.
Qed.

(** What the loop leaves out: an entry whose code and name are those of the one
    before it. *)
Definition same_ent (a b : struct_ioctlent) : Prop := ioc_code a = ioc_code b /\ symbol a = symbol b.

Lemma compare_0 a b : compare a b = 0 <-> same_ent a b.
Proof.
  unfold compare, same_ent. rewrite <- strcmp_0. destruct (Z.gtb_spec (ioc_code a) (ioc_code b)); [lia|].
  destruct (Z.ltb_spec (ioc_code a) (ioc_code b)); lia.
Qed.

(** What it prints of a sorted array. *)
Lemma printed_in prev l x : x ∈ printed_ents prev l -> x ∈ l.
Proof.
  revert prev. induction l as [|e l IH]; intros prev Hx; [done|]. cbn [printed_ents] in Hx.
  apply elem_of_app in Hx as [Hx|Hx]; [|right; by eapply IH].
  lazymatch type of Hx with _ ∈ (if ?b then _ else _) => destruct b end.
  - apply list_elem_of_singleton in Hx as ->. left.
  - by apply not_elem_of_nil in Hx.
Qed.

Lemma printed_same prev l e : e ∈ l ->
  (exists p, prev = Some p /\ same_ent e p) \/ exists x, x ∈ printed_ents prev l /\ same_ent e x.
Proof.
  revert prev. induction l as [|a l IH]; intros prev He; [by apply not_elem_of_nil in He|]. cbn [printed_ents].
  assert (Ha : (exists p, prev = Some p /\ same_ent a p) \/
               exists x, x ∈ printed_ents prev (a :: l) /\ same_ent a x).
  { cbn [printed_ents]. destruct prev as [p|]; [|right; exists a; split; [cbn; by left|done]].
    destruct (Z.eqb_spec (ioc_code a) (ioc_code p)); [|right; exists a; split; [cbn; by left|done]].
    destruct (Z.eqb_spec (strcmp (symbol a) (symbol p)) 0) as [H|H]; [|right; exists a; split; [cbn; by left|done]].
    left. exists p. split; [done|]. split; [done|by apply strcmp_0]. }
  apply elem_of_cons in He as [->|He]; [exact Ha|].
  destruct (IH (Some a) He) as [(p & [= <-] & Hp)|(x & Hx & Hex)].
  - unfold same_ent in *. destruct Ha as [(p & Hprev & Hap)|(x & Hx & Hax)]; [left; exists p|right; exists x].
    + split; [done|]. intuition congruence.
    + split; [exact Hx|]. intuition congruence.
  - right. exists x. split; [|done]. apply elem_of_app. by right.
Qed.

Lemma printed_sorted prev l :
  StronglySorted (fun a b => compare a b <= 0) l ->
  match prev with Some p => Forall (fun b => compare p b <= 0) l | None => True end ->
  StronglySorted ent_lt (printed_ents prev l) /\
  match prev with Some p => Forall (ent_lt p) (printed_ents prev l) | None => True end.
Proof.
  intros Hs. revert prev. induction Hs as [|e l _ IH He]; intros prev Hp; [destruct prev; repeat constructor|].
  destruct (IH (Some e) He) as [I1 I2]. cbn [printed_ents].
  assert (Hcons : StronglySorted ent_lt (e :: printed_ents (Some e) l)) by by constructor.
  destruct prev as [p|]; [|done]. apply Forall_cons in Hp as [Hpe Hpl].
  assert (Htrans : ent_lt p e -> Forall (ent_lt p) (e :: printed_ents (Some e) l)).
  { intros H. constructor; [done|]. eapply Forall_impl; [exact I2|]. intros x Hx.
    by eapply ent_lt_trans. }
  destruct (Z.eqb_spec (ioc_code e) (ioc_code p)) as [Hc|Hc];
    [destruct (Z.eqb_spec (strcmp (symbol e) (symbol p)) 0) as [Hn|Hn]|].
  - split; [exact I1|]. cbn. eapply Forall_impl; [exact I2|]. intros x. rewrite !ent_lt_spec.
    apply strcmp_0 in Hn. by rewrite Hc, Hn.
  - split; [exact Hcons|]. apply Htrans, ent_lt_spec. right. split; [done|]. unfold str_lt.
    rewrite compare_cases in Hpe. pose proof (strcmp_antisym (symbol p) (symbol e)). lia.
  - split; [exact Hcons|]. apply Htrans, ent_lt_spec. left. rewrite compare_cases in Hpe. lia.
Qed.

Section table.
Context (qsort : (struct_ioctlent -> struct_ioctlent -> Z) -> list struct_ioctlent -> list struct_ioctlent)
  (Hq : qsort_ok qsort).

Lemma generated_sorted l : StronglySorted ent_lt (generated qsort l).
Proof. apply printed_sorted; [|done]. by apply qsort_sorted, compare_ordering. Qed.

Lemma generated_ioc_sorted l : StronglySorted ioc_le (generated qsort l).
Proof.
  apply (sorted_mono _ _ _ (generated_sorted l)). intros a b. rewrite ent_lt_spec. unfold ioc_le. lia.
Qed.

(** The entries of the table are those of the list, up to the header. *)
Lemma generated_from l x : x ∈ generated qsort l -> exists e, e ∈ l /\ x = mask_code e.
Proof.
  intros Hx%printed_in. rewrite (proj1 (Hq _ _)) in Hx. apply list_elem_of_fmap in Hx as (e & -> & He). eauto.
Qed.
Lemma generated_all l e : e ∈ l -> exists x, x ∈ generated qsort l /\ same_ent (mask_code e) x.
Proof.
  intros He. destruct (printed_same None (qsort compare (mask_code <$> l)) (mask_code e)) as [(p & ? & _)|H]; [|done|done].
  rewrite (proj1 (Hq _ _)). by apply list_elem_of_fmap_2.
Qed.
End table.

(** ** The names that the tracer shows with a generated table *)

(** The names of a code, as sys_ioctl shows them. *)
Definition shown_names (code : Z) (names : list string) : string :=
  match names with [] => hexl code | _ => String.concat " or " names end.

Lemma concat_foldr sep x l :
  String.concat sep (x :: l) = x +:+ foldr (fun y t => sep +:+ y +:+ t) "" l.
Proof.
  revert x. induction l as [|y l IH]; intros x; [cbn; by rewrite sapp_nil_r|].
  change (String.concat sep (x :: y :: l)) with (x +:+ sep +:+ String.concat sep (y :: l)).
  by rewrite IH.
Qed.

Lemma names_text_shown t code :
  names_text t code = shown_names code (symbol <$> matching (Z.land code ioc_mask) t).
Proof.
  unfold names_text, shown_names. destruct (matching _ t) as [|x l]; [done|].
  cbn [fmap list_fmap]. rewrite concat_foldr. f_equal. induction l as [|y l IH]; [done|]. cbn. by rewrite IH.
Qed.

Lemma mask_mask code : Z.land (Z.land code ioc_mask) ioc_mask = Z.land code ioc_mask.
Proof. by rewrite <- Z.land_assoc, Z.land_diag. Qed.

(** ** Properties *)

(** C17: The tables that linux/ioctlsort generates are right for the search of the
    tracer.  Whatever entries it is compiled with, in any order and with any
    repetitions, an ioctl is shown under the names of exactly the entries whose
    number and type are those of its code, each once and in ascending order, or
    in hex when there is none. *)
Theorem generated_names_shown qsort ioctls code :
  qsort_ok qsort ->
  exists names, ioctl_name (generated qsort ioctls) code = shown_names code names /\
    StronglySorted str_lt names /\
    forall n, n ∈ names <-> exists e, e ∈ ioctls /\ symbol e = n /\
                                      Z.land (ioc_code e) ioc_mask = Z.land code ioc_mask.
Proof.
  intros Hq. set (c := Z.land code ioc_mask).
  exists (symbol <$> matching c (generated qsort ioctls)). split_and!.
  - rewrite (ioctl_name_spec _ (generated_ioc_sorted qsort Hq ioctls)). apply names_text_shown.
  - apply (sorted_fmap ent_lt).
    + apply sorted_filter, generated_sorted, Hq.
    + intros a b [Ha _]%list_elem_of_filter [Hb _]%list_elem_of_filter. rewrite ent_lt_spec. intros [?|[_ ?]]; [lia|done].
  - intros n. rewrite list_elem_of_fmap. split.
    + intros (x & -> & [Hc Hx]%list_elem_of_filter). apply (generated_from qsort Hq) in Hx as (e & He & ->).
      by exists e.
    + intros (e & He & Hn & Hc). destruct (generated_all qsort Hq ioctls e He) as (x & Hx & Hxc & Hxn).
      exists x. split; [by rewrite <- Hn, <- Hxn|]. apply list_elem_of_filter. split; [|done].
      by rewrite <- Hxc.
Qed.

(** Two headers that give one code two names, and one entry twice; the codes of
    the headers have a direction and a size. *)
Definition demo_raw : list struct_ioctlent :=
  [mk_ioctlent "linux/fs.h" "FS_IOC_B" 0x80086602; mk_ioctlent "linux/fs.h" "FIBMAP" 0x1;
   mk_ioctlent "linux/a.h" "FS_IOC_A" 0x40046602; mk_ioctlent "linux/b.h" "FIBMAP" 0x1].

Lemma generated_names_shown_witness :
  qsort_ok (@merge_qsort struct_ioctlent) /\
  ioctl_name (generated merge_qsort demo_raw) 0x40046602 = "FS_IOC_A or FS_IOC_B" /\
  exists names, ioctl_name (generated merge_qsort demo_raw) 0x40046602 = shown_names 0x40046602 names /\
    StronglySorted str_lt names /\
    forall n, n ∈ names <-> exists e, e ∈ demo_raw /\ symbol e = n /\
                                      Z.land (ioc_code e) ioc_mask = Z.land 0x40046602 ioc_mask.
Proof.
  split_and!; [exact merge_qsort_ok|vm_compute; reflexivity|].
  exact (generated_names_shown merge_qsort demo_raw 0x40046602 merge_qsort_ok).
Defined.

Example demo_printed : printed_ents None (merge_qsort compare (mask_code <$> demo_raw)) =
  [mk_ioctlent "linux/fs.h" "FIBMAP" 0x1; mk_ioctlent "linux/a.h" "FS_IOC_A" 0x6602;
   mk_ioctlent "linux/fs.h" "FS_IOC_B" 0x6602].
Proof. vm_compute. reflexivity. Qed.

(** ** The shipped table *)

Fixpoint strictly_ascending (l : list struct_ioctlent) : bool :=
  match l with
  | a :: ((b :: _) as l') => (compare a b <? 0) && strictly_ascending l'
  | _ => true
  end.

Lemma strictly_ascending_sorted l : strictly_ascending l = true -> StronglySorted ent_lt l.
Proof.
  intros H. apply Sorted_StronglySorted.
  { exact ent_lt_trans. }
  induction l as [|a [|b l] IH]; [constructor|repeat constructor|].
  cbn [strictly_ascending] in H. apply andb_true_iff in H as [Hab%Z.ltb_lt H]. constructor; [by apply IH|].
  by constructor.
Qed.

Lemma printed_all prev l :
  StronglySorted ent_lt l -> match prev with Some p => Forall (ent_lt p) l | None => True end ->
  printed_ents prev l = l.
Proof.
  intros Hs. revert prev. induction Hs as [|e l _ IH He]; intros prev Hp; [done|]. cbn [printed_ents].
  rewrite (IH (Some e) He). destruct prev as [p|]; [|done]. apply Forall_cons in Hp as [Hp _].
  apply ent_lt_spec in Hp. unfold str_lt in Hp.
  destruct (Z.eqb_spec (ioc_code e) (ioc_code p)); [|done]. destruct (Z.eqb_spec (strcmp (symbol e) (symbol p)) 0); [|done].
  pose proof (strcmp_antisym (symbol p) (symbol e)). lia.
Qed.

Lemma sorted_same l a b :
  StronglySorted ent_lt l -> a ∈ l -> b ∈ l -> compare a b <= 0 -> compare b a <= 0 -> a = b.
Proof.
  intros Hs. assert (Hlt : forall x y, ent_lt x y -> ~ compare y x <= 0).
  { intros x y. rewrite ent_lt_spec, compare_cases. unfold str_lt.
    pose proof (strcmp_antisym (symbol x) (symbol y)). lia. }
  induction Hs as [|e l _ IH He]; intros Ha Hb H1 H2; [by apply not_elem_of_nil in Ha|].
  rewrite Forall_forall in He. apply elem_of_cons in Ha as [->|Ha], Hb as [->|Hb]; [done| | |by apply IH].
  - by destruct (Hlt _ _ (He _ Hb)).
  - by destruct (Hlt _ _ (He _ Ha)).
Qed.

(** Of a table in its order the generator makes the same table. *)
Lemma generated_fixed qsort l :
  qsort_ok qsort -> strictly_ascending l = true -> mask_code <$> l = l -> generated qsort l = l.
Proof.
  intros Hq Hs%strictly_ascending_sorted Hm. unfold generated. rewrite Hm.
  assert (Hle : StronglySorted (fun a b => compare a b <= 0) l)
    by (apply (sorted_mono _ _ _ Hs); unfold ent_lt; lia).
  rewrite (StronglySorted_unique_strong (fun a b => compare a b <= 0) (qsort compare l) l);
    [by apply printed_all| |by apply qsort_sorted, compare_ordering|done|by apply Hq].
  intros a b Ha Hb H1 H2. apply (sorted_same l a b Hs); [|done..]. by rewrite <- (proj1 (Hq compare l)).
Qed.

(** The shipped table is in this order and has no repetitions. *)
Lemma shipped_table_generated qsort : qsort_ok qsort -> generated qsort ioctlent0 = ioctlent0.
Proof.
  intros Hq. apply generated_fixed; [done|vm_compute; reflexivity|].
  transitivity (id <$> ioctlent0); [|apply list_fmap_id]. apply list_fmap_ext. intros i [d s c] Hx.
  unfold mask_code. cbn. f_equal. by apply (ioctlent0_codes (mk_ioctlent d s c)), list_elem_of_lookup_2 with i.
Qed.
