(* ===== verification/Sockets.v ===== *)
(** * What the socket calls show of addresses and of descriptors that are passed
      (net.c: printsock, printcmsghdr) *)

From S2P Require Import Prelude Xlat Quote Tracee Decode Io Args Stat Inet Net.
Local Open Scope string_scope.
Local Open Scope list_scope.
Local Open Scope Z_scope.

(** ** Reading a mapped structure *)

Section mapped.
Context `{K : Kernel} (m : memory) `{!MemOk m} (e : denv).
Context (Hws : 0 < wordsize e) (ifname : Z -> option string).

Lemma Does_umove_struct_n a bs n :
  buf_at m (wordsize e) a bs -> Z.of_nat (length bs) = n ->
  Does e (umove_struct a n) (Some bs) "" [].
Proof.
  intros Hat <-. by apply (Does_umove_struct m).
Qed.

(** printsock of a readable address of stated length [n]. *)
Lemma Does_printsock a n bs t :
  d_verbose e = true -> 2 <= n <= sizeof_addrbuf -> buf_at m (wordsize e) a bs ->
  Z.of_nat (length bs) = n ->
  Does e (print_sockaddr ifname a n (addrbuf bs)) tt t [] ->
  Does e (printsock ifname a n) tt
    ("{sa_family=" +:+ printxval addrfams (s32 (fld 2 0 (addrbuf bs))) "AF_???" +:+ ", " +:+ t +:+ "}") [].
Proof.
  intros Hv Hn Hat Hl Ht. unfold printsock, sizeof_addrbuf in *.
  eapply Does_silent; [apply Does_ask|]. rewrite s32_id by wrap_lia. cbv zeta.
  pose proof Hat as ((Ha & _) & _). replace (a =? 0) with false by lia. rewrite Hv. cbn [negb].
  replace ((n <? 2) || (n >? 128)) with false by lia.
  eapply Does_silent; [by apply Does_umove_struct_n|]. cbv beta iota.
  apply Does_tp_bind. eapply Does_eq; [eapply Does_bind; [apply Does_print_xval|]|reflexivity|reflexivity].
  apply Does_tp_bind. eapply Does_eq; [eapply Does_bind; [exact Ht|apply Does_tp]|done|done].
Qed.
End mapped.

(** ** Descriptors in ancillary data *)

Definition fd_bytes (fds : list Z) : list Z := concat ((fun fd => bytes_le 4 (u32 fd)) <$> fds).

(** A message that passes [fds]: the header, then the descriptors. *)
Definition rights (len : Z) (fds : list Z) : list Z :=
  bytes_le 8 len ++ bytes_le 4 SOL_SOCKET ++ bytes_le 4 SCM_RIGHTS ++ fd_bytes fds.

Lemma length_fds fds : length (fd_bytes fds) = (4 * length fds)%nat.
Proof.
  induction fds as [|fd fds IH]; [done|]. unfold fd_bytes in *. cbn [fmap list_fmap concat].
  rewrite length_app, length_bytes_le, IH. simpl length. lia.
Qed.

Lemma length_rights len fds : Z.of_nat (length (rights len fds)) = 16 + 4 * Z.of_nat (length fds).
Proof. unfold rights. rewrite !length_app, !length_bytes_le, length_fds. lia. Qed.

Lemma s32_of_u32 z : is_s32 z -> s32 (u32 z) = z.
Proof. unfold is_s32. wrap_lia. Qed.

Lemma Does_scm_fds e n fds first pre :
  (length fds <= n)%nat -> Forall is_s32 fds ->
  let cmsg := pre ++ fd_bytes fds in
  Does e (scm_fds n (Z.of_nat (length pre)) (Z.of_nat (length cmsg)) first cmsg) tt
    ((if first || (length fds =? 0)%nat then "" else ", ") +:+ String.concat ", " (fmt_d <$> fds)) [].
Proof.
  revert n first pre. induction fds as [|fd fds IH]; intros n first pre Hn Hf; cbv zeta.
  - cbn [fd_bytes fmap list_fmap concat length]. rewrite app_nil_r, orb_true_r. destruct n; cbn [scm_fds]; rewrite ?Z.ltb_irrefl; apply Does_ret.
  - destruct n as [|n]; [simpl in Hn; lia|]. inversion Hf as [|? ? Hfd Hf']; subst.
    cbn [scm_fds]. set (cmsg := pre ++ _).
    assert (Hl : Z.of_nat (length cmsg) = Z.of_nat (length pre) + 4 + 4 * Z.of_nat (length fds)).
    { unfold cmsg. rewrite length_app, length_fds. simpl length. lia. }
    replace (Z.of_nat (length pre) <? Z.of_nat (length cmsg)) with true by lia.
    replace (Z.of_nat (length cmsg) <? Z.of_nat (length pre) + 4) with false by lia.
    assert (Hc : cmsg = (pre ++ bytes_le 4 (u32 fd)) ++ fd_bytes fds).
    { unfold cmsg. by rewrite <- app_assoc. }
    assert (Hv : fld_int (Z.to_nat (Z.of_nat (length pre))) cmsg = fd).
    { unfold fld_int, cmsg. rewrite Nat2Z.id. rewrite <- (Nat.add_0_r (length pre)), fld_skip.
      unfold fd_bytes. cbn [fmap list_fmap concat]. rewrite fld_here by wrap_lia.
      by apply s32_of_u32. }
    rewrite Hv. specialize (IH n false (pre ++ bytes_le 4 (u32 fd)) ltac:(simpl in Hn; lia) Hf').
    cbv zeta in IH. rewrite <- Hc, length_app, length_bytes_le, Nat2Z.inj_add in IH.
    change (length (fd :: fds) =? 0)%nat with false. rewrite orb_false_r.
    assert (Hsep : Does e (if first then mret tt else tp ", ") tt (if first then "" else ", ") []).
    { destruct first; [apply Does_ret|apply Does_tp]. }
    eapply Does_eq; [eapply Does_bind; [exact Hsep|apply Does_tp_bind; exact IH]|..].
    + destruct fds as [|fd' fds]; [by rewrite !sapp_nil_r; destruct first|]. by destruct first.
    + by destruct first.
Qed.

Section cmsg.
Context `{K : Kernel} (m : memory) `{!MemOk m} (e : denv).
Context (Hws : 0 < wordsize e) (malloc_ok : Z -> bool).

(** printcmsghdr of a readable message reaches print_cmsg with its bytes. *)
Lemma printcmsghdr_reads a bs s :
  buf_at m (wordsize e) a bs -> 16 <= Z.of_nat (length bs) -> malloc_ok (Z.of_nat (length bs)) = true ->
  exists s1, p_out (d_p s1) = p_out (d_p s) /\ d_dump s1 = d_dump s /\ d_new_rval s1 = d_new_rval s /\
    printcmsghdr malloc_ok a (Z.of_nat (length bs)) e s = print_cmsg (Z.of_nat (length bs)) bs e s1.
Proof.
  intros Hat Hn Hm. pose proof Hat as (_ & _ & H31 & _).
  destruct (Does_umoven m e Hws a bs Hat s) as (s1 & H1 & Ho & Hd & Hr). exists s1.
  rewrite sapp_nil_r in Ho. rewrite app_nil_r in Hd. split_and!; [done..|].
  unfold printcmsghdr, sizeof_cmsghdr, mbind, D_bind, ask. rewrite Hm. cbn [negb].
  replace (Z.of_nat (length bs) <? 16) with false by lia. cbn [orb].
  rewrite s32_id by (unfold is_s32; lia). rewrite H1. cbv beta iota. change (0 <? 0) with false.
  cbv beta iota. unfold pad_buf. rewrite Nat2Z.id, Nat.sub_diag. cbn [seq fmap list_fmap].
  by rewrite app_nil_r.
Qed.

Lemma rights_members len fds :
  0 <= len < 2 ^ 64 ->
  fld 8 0 (rights len fds) = len /\ fld_int 8 (rights len fds) = SOL_SOCKET /\
  fld_int 12 (rights len fds) = SCM_RIGHTS.
Proof.
  intros Hl. unfold rights, fld_int. split_and!.
  - by apply fld_here.
  - rewrite fld_past, Nat.sub_diag by lia. by rewrite fld_here.
  - do 2 rewrite fld_past by lia. by rewrite fld_here.
Qed.
End cmsg.

Definition rights_head (len : Z) : string :=
  ", {cmsg_len=" +:+ fmt_uint len +:+ ", cmsg_level=SOL_SOCKET, cmsg_type=SCM_RIGHTS, {".

Lemma length_addrbuf bs : length (addrbuf bs) = 128%nat.
Proof. unfold addrbuf. rewrite length_app, length_take, length_app, length_replicate. cbn [length]. lia. Qed.

Lemma byte_at_addrbuf i bs : (i < length bs)%nat -> (i < 127)%nat -> byte_at i (addrbuf bs) = byte_at i bs.
Proof.
  intros Hi H7. unfold byte_at, addrbuf.
  rewrite lookup_app_l by (rewrite length_take, length_app, length_replicate; lia).
  by rewrite lookup_take_lt, lookup_app_l by lia.
Qed.

(** The text of an AF_INET address depends on its first eight bytes only. *)
Lemma in_text_addrbuf f0 f1 b2 b3 b4 b5 b6 b7 r :
  let bs := f0 :: f1 :: b2 :: b3 :: b4 :: b5 :: b6 :: b7 :: r in
  in_text (addrbuf bs) =
  "sin_port=htons(" +:+ fmt_u (256 * b2 + b3) +:+ "), sin_addr=inet_addr(" +:+ dquote +:+
  inet_ntoa 4 bs +:+ dquote +:+ ")".
Proof.
  reflexivity.
Qed.

(** ** Properties *)

(** C21: bind shows the address of an AF_INET socket completely: family, port in
    host order, and the four bytes of the address in the dotted form from which
    they can be read back; the length is shown after it. *)
Theorem bind_shows_ipv4 `{K : Kernel} m `{!MemOk m} e ifname fd a n bs rest :
  0 < wordsize e -> d_entering e = true -> d_verbose e = true ->
  u_arg e = fd :: a :: n :: rest -> 8 <= n <= 128 ->
  buf_at m (wordsize e) a bs -> Z.of_nat (length bs) = n -> Forall is_u8 bs ->
  take 2 bs = bytes_le 2 AF_INET ->
  exists port addr,
    Does e (sys_bind ifname) 0
      (fmt_ld fd +:+ ", {sa_family=AF_INET, sin_port=htons(" +:+ fmt_u port +:+
       "), sin_addr=inet_addr(" +:+ dquote +:+ addr +:+ dquote +:+ ")}, " +:+ fmt_u n) [] /\
    port = 256 * byte_at 2 bs + byte_at 3 bs /\
    read_dotted 4 addr = Some (take 4 (drop 4 bs)).
Proof.
  intros Hws He Hv Ha Hn Hat Hl Hu8 Hf.
  destruct bs as [|b0 [|b1 [|b2 [|b3 [|b4 [|b5 [|b6 [|b7 r]]]]]]]]; simpl in Hl; try lia.
  change (bytes_le 2 AF_INET) with [2; 0] in Hf. simpl in Hf. injection Hf as -> ->.
  set (bs := 2 :: 0 :: b2 :: b3 :: b4 :: b5 :: b6 :: b7 :: r) in *.
  exists (256 * b2 + b3), (inet_ntoa 4 bs). split_and!; [|done|].
  - apply Does_eq with (t := ((fmt_ld fd +:+ ", ") +:+
      ("{sa_family=" +:+ "AF_INET" +:+ ", " +:+ in_text (addrbuf bs) +:+ "}") +:+ (", " +:+ fmt_u n)) +:+ "")
      (bs := ([] ++ []) ++ []); [|by rewrite (in_text_addrbuf _ _ _ _ _ _ _ _ _ : in_text (addrbuf bs) = _), sapp_nil_r, !sapp_assoc|done].
    unfold sys_bind. eapply Does_bind; [|apply Does_ret]. apply Does_if_entering; [done|].
    do 3 (eapply Does_silent; [apply Does_arg|]). rewrite Ha. cbn [lookup list_lookup default id].
    apply Does_tp_bind. eapply Does_bind; [|apply Does_tp].
    apply (Does_printsock m e Hws ifname a n bs (in_text (addrbuf bs))); try done; [unfold sizeof_addrbuf; lia|].
    apply Does_tp.
  - apply read_dotted_inet_ntoa; [done|simpl; lia].
Qed.

(** C40: the hardware address of an AF_PACKET socket is printed for as many
    bytes as the tracee's sll_halen says: from 117 on the tracer reads past its
    own 128-byte buffer.  With at most 116 the call is shown to its end. *)
Theorem printsock_overruns `{K : Kernel} m `{!MemOk m} e ifname a bs s :
  0 < wordsize e -> d_verbose e = true ->
  buf_at m (wordsize e) a bs -> Z.of_nat (length bs) = 20 -> Forall is_u8 bs ->
  take 2 bs = bytes_le 2 AF_PACKET ->
  printsock ifname a 20 e s = None <-> 116 < byte_at 11 bs.
Proof.
  intros Hws Hv Hat Hl Hu8 Hf.
  assert (Hh : byte_at 11 (addrbuf bs) = byte_at 11 bs) by (apply byte_at_addrbuf; lia).
  assert (Hfam : fld 2 0 (addrbuf bs) = AF_PACKET).
  { destruct bs as [|b0 [|b1 bs]]; [done..|]. change (bytes_le 2 AF_PACKET) with [17; 0] in Hf.
    simpl in Hf. by injection Hf as -> ->. }
  pose proof Hat as ((Ha & _) & _).
  destruct (Does_umove_struct_n m e Hws a bs 20 Hat Hl s) as (s1 & H1 & _).
  unfold printsock, print_sockaddr, print_ll, mbind, D_bind, ask, sizeof_addrbuf.
  change (s32 20) with 20. replace (a =? 0) with false by lia. rewrite Hv. cbn [negb].
  change ((20 <? 2) || (20 >? 128)) with false. cbv iota. rewrite H1, Hfam, Hh, length_addrbuf.
  unfold tp, lift, print_xval, abort. cbv beta iota.
  change (Z.of_nat 128 <? 12 + byte_at 11 bs) with (128 <? 12 + byte_at 11 bs).
  change (AF_PACKET =? AF_UNIX) with false. cbv iota.
  destruct (Z.ltb_spec 128 (12 + byte_at 11 bs)); split; try done; lia.
Qed.

(** C22: passed descriptors are shown exactly: of an SCM_RIGHTS message whose
    stated length covers [fds], every descriptor appears in decimal and in
    order. *)
Theorem scm_rights_shown `{K : Kernel} m `{!MemOk m} e malloc_ok a fds s :
  let len := 16 + 4 * Z.of_nat (length fds) in
  0 < wordsize e -> malloc_ok len = true -> fds <> [] -> Forall is_s32 fds ->
  buf_at m (wordsize e) a (rights len fds) ->
  exists s', printcmsghdr malloc_ok a len e s = Some (tt, s') /\
    p_out (d_p s') = p_out (d_p s) +:+ rights_head len +:+ String.concat ", " (fmt_d <$> fds) +:+ "}}" /\
    d_dump s' = d_dump s.
Proof.
  intros len Hws Hm Hne Hf Hat.
  assert (Hl : Z.of_nat (length (rights len fds)) = len) by apply length_rights.
  assert (Hn1 : (1 <= length fds)%nat) by (destruct fds; [done|simpl; lia]).
  pose proof Hat as (_ & _ & H31 & _). rewrite Hl in H31.
  destruct (printcmsghdr_reads m e Hws malloc_ok a (rights len fds) s Hat) as (s1 & Ho & Hd & _ & Hrun);
    [rewrite Hl; lia|by rewrite Hl|]. rewrite Hl in Hrun.
  destruct (rights_members len fds ltac:(lia)) as (Hst & Hlev & Hty).
  assert (Hd1 : Does e (print_cmsg len (rights len fds)) tt
            (rights_head len +:+ String.concat ", " (fmt_d <$> fds) +:+ "}}") []).
  { unfold print_cmsg. rewrite Hst, Hlev, Hty, Z.ltb_irrefl. cbv zeta.
    change (SCM_RIGHTS =? SCM_RIGHTS) with true. replace (20 <=? len) with true by lia. cbn [andb].
    eapply Does_eq.
    - apply Does_tp_bind. eapply Does_bind; [apply Does_print_xval|]. apply Does_tp_bind.
      change (SOL_SOCKET =? SOL_SOCKET) with true. cbv iota.
      eapply Does_bind; [apply Does_print_xval|]. apply Does_tp_bind.
      eapply Does_bind; [|apply Does_tp].
      pose proof (Does_scm_fds e (Z.to_nat (len / 4)) fds true (bytes_le 8 len ++ bytes_le 4 SOL_SOCKET ++ bytes_le 4 SCM_RIGHTS)) as Hs.
      cbv zeta in Hs. rewrite <- !app_assoc in Hs. fold (rights len fds) in Hs. rewrite Hl in Hs.
      apply Hs; [|done]. unfold len. Z.div_mod_to_equations. lia.
    - unfold rights_head. rewrite !sapp_assoc. reflexivity.
    - done. }
  destruct (Hd1 s1) as (s2 & H2 & Ho2 & Hd2 & _). exists s2.
  by rewrite Hrun, H2, Ho2, Ho, Hd2, Hd, app_nil_r.
Qed.

(** ** Examples *)

(** 192.168.1.10, port 8080; a packet address; and a message with the
    descriptors 5 and -1. *)
Definition inet_bytes : list Z := [2; 0; 31; 144; 192; 168; 1; 10] ++ replicate 8 0.
Definition ll_bytes : list Z := [17; 0; 8; 0; 2; 0; 0; 0; 1; 0; 0; 200] ++ replicate 8 7.
Definition sock_mem (l : list Z) : memory := mapped_mem 4096 4096 (fun i => default 0 (l !! Z.to_nat i)).
Definition sock_kernel (l : list Z) : Kernel := mem_kernel true (sock_mem l).
#[global] Instance sock_mem_ok l : @MemOk (sock_kernel l) (sock_mem l).
Proof. apply mem_kernel_ok; [apply mapped_mem_u8|by apply mapped_mem_words]. Qed.

Definition sock_denv (args : list Z) : denv :=
  mk_denv 7 8 0 args true 0 0 true true 0 0 false (fun _ => None) (fun _ => 0) 3.
Definition sock_state : dstate := mk_dstate (demo_state false) [] false None false None.

Lemma bind_shows_ipv4_witness :
  exists port addr,
    @Does _ (sock_denv [3; 4096; 16]) (@sys_bind (sock_kernel inet_bytes) (fun _ => None)) 0
      (fmt_ld 3 +:+ ", {sa_family=AF_INET, sin_port=htons(" +:+ fmt_u port +:+
       "), sin_addr=inet_addr(" +:+ dquote +:+ addr +:+ dquote +:+ ")}, " +:+ fmt_u 16) [] /\
    port = 8080 /\ read_dotted 4 addr = Some [192; 168; 1; 10].
Proof.
  refine (@bind_shows_ipv4 (sock_kernel inet_bytes) (sock_mem inet_bytes) _ (sock_denv [3; 4096; 16])
    (fun _ => None) 3 4096 16 inet_bytes [] eq_refl eq_refl eq_refl eq_refl _ _ eq_refl _ eq_refl).
  - split; discriminate.
  - split_and!; try (vm_compute; congruence). eexists. vm_compute. reflexivity.
  - repeat constructor; discriminate.
Defined.

Lemma printsock_overruns_witness :
  @printsock (sock_kernel ll_bytes) (fun _ => None) 4096 20 (sock_denv []) sock_state = None <->
  116 < 200.
Proof.
  refine (@printsock_overruns (sock_kernel ll_bytes) (sock_mem ll_bytes) _ (sock_denv [])
    (fun _ => None) 4096 ll_bytes sock_state eq_refl eq_refl _ eq_refl _ eq_refl).
  - split_and!; try (vm_compute; congruence). eexists. vm_compute. reflexivity.
  - repeat constructor; discriminate.
Defined.

Lemma scm_rights_shown_witness :
  exists s', @printcmsghdr (sock_kernel (rights 24 [5; -1])) (fun _ => true) 4096 24 (sock_denv [])
    sock_state = Some (tt, s') /\
    p_out (d_p s') = "" +:+ rights_head 24 +:+ String.concat ", " (fmt_d <$> [5; -1]) +:+ "}}" /\
    d_dump s' = [].
Proof.
  refine (@scm_rights_shown (sock_kernel (rights 24 [5; -1])) (sock_mem (rights 24 [5; -1])) _
    (sock_denv []) (fun _ => true) 4096 [5; -1] sock_state eq_refl eq_refl _ _ _).
  - discriminate.
  - repeat constructor; discriminate.
  - split_and!; try (vm_compute; congruence). eexists. vm_compute. reflexivity.
Defined.
