(* ===== verification/Ready.v ===== *)
(** * What select and poll say about ready descriptors (desc.c: decode_select;
      stream.c: decode_poll)

    [Yields e c Q]: when [c] returns, its result satisfies [Q] and tcp->auxstr
    is as it was. *)

From S2P Require Import Prelude Xlat Quote Tracee Decode Io Args Signal Time File Sigcalls Desc.
Local Open Scope string_scope.
Local Open Scope list_scope.
Local Open Scope Z_scope.

Definition Yields {A} (e : denv) (c : D A) (Q : A -> Prop) : Prop := forall s,
  match c e s with Some (x, s') => Q x /\ d_auxstr s' = d_auxstr s | None => True end.
Definition Quiets {A} (e : denv) (c : D A) : Prop := Yields e c (fun _ => True).

Section rules.
Context {A B : Type} (e : denv).

Lemma Yields_ret (x : A) (Q : A -> Prop) : Q x -> Yields e (mret x) Q.
Proof. by intros HQ s. Qed.
Lemma Yields_abort (Q : A -> Prop) : Yields e abort Q.
Proof. by intros s. Qed.
Lemma Yields_bind (c : D A) (k : A -> D B) Q R :
  Yields e c Q -> (forall x, Q x -> Yields e (k x) R) -> Yields e (c ≫= k) R.
Proof.
  intros Hc Hk s. specialize (Hc s). unfold mbind, D_bind. destruct (c e s) as [[x s1]|]; [|done].
  destruct Hc as [HQ Ha]. specialize (Hk x HQ s1). destruct (k x e s1) as [[y s2]|]; [|done].
  by rewrite <- Ha.
Qed.
Lemma Yields_seq (c : D A) (k : A -> D B) R :
  Quiets e c -> (forall x, Yields e (k x) R) -> Yields e (c ≫= k) R.
Proof. intros Hc Hk. eapply Yields_bind; [exact Hc|auto]. Qed.
Lemma Yields_ask (k : denv -> D B) R : Yields e (k e) R -> Yields e (ask ≫= k) R.
Proof. intros Hk s. exact (Hk s). Qed.
Lemma Yields_lift (c : P A) (Q : A -> Prop) : (forall s, Q (c s).1) -> Yields e (lift c) Q.
Proof. intros HQ s. unfold lift. specialize (HQ (d_p s)). by destruct (c (d_p s)). Qed.
Lemma Yields_mono (c : D A) (Q R : A -> Prop) :
  Yields e c Q -> (forall x, Q x -> R x) -> Yields e c R.
Proof.
  intros Hc HQ s. specialize (Hc s). destruct (c e s) as [[x s1]|]; [|done].
  destruct Hc. auto.
Qed.
End rules.

Create HintDb yields.

Lemma Quiets_tp e t : Quiets e (tp t).
Proof. by apply Yields_lift. Qed.
Lemma Quiets_arg e i : Quiets e (arg i).
Proof. by intros s. Qed.
Lemma Quiets_lift {A} e (c : P A) : Quiets e (lift c).
Proof. by apply Yields_lift. Qed.
#[export] Hint Resolve Quiets_tp Quiets_arg Quiets_lift : yields.

Ltac yields_head t := lazymatch t with ?f _ => yields_head f | _ => t end.
Ltac yields_step :=
  lazymatch goal with
  | |- True => exact I
  | |- forall _, _ => intro
  | |- Quiets _ (mret _) => apply Yields_ret; exact I
  | |- Quiets _ abort => apply Yields_abort
  | |- Quiets _ (ask ≫= _) => apply Yields_ask; cbv beta
  | |- Quiets _ (_ ≫= _) => apply Yields_seq
  | |- Quiets _ (match ?x with _ => _ end) => destruct x
  | |- Quiets _ (let _ := _ in _) => cbv zeta
  | |- Yields ?e ?c (fun _ => True) => change (Quiets e c)
  | |- Quiets _ ?c => let h := yields_head c in unfold h
  end.
Ltac yields := repeat first [ solve [auto with yields nocore] | progress yields_step ].

Section ready.
Context `{K : Kernel} `{Hbytes : !BytesOk} (e : denv).

(** ** What is read *)

Definition read_of (n : Z) (o : option (list Z)) : Prop :=
  match o with Some bs => length bs = Z.to_nat n /\ Forall is_u8 bs | None => True end.

Lemma Yields_umove_struct a n : 0 <= n -> Yields e (umove_struct a n) (read_of n).
Proof.
  intros Hn. unfold umove_struct. eapply Yields_bind; [|intros [r bs] H].
  - unfold d_umoven. apply Yields_ask, Yields_lift. intros s. exact (umoven_shape _ _ a n s Hn).
  - apply Yields_ret. unfold read_of. destruct (Z.ltb_spec r 0); [done|]. by apply H.
Qed.

Lemma fld_u64 off bs : Forall is_u8 bs -> is_u64 (fld 8 off bs).
Proof.
  intros Hb. unfold fld. set (l := take 8 (drop off bs)).
  assert (Hl : Forall is_u8 l) by by apply Forall_take, Forall_drop.
  pose proof (le_range l Hl) as H. assert (Hn : (length l <= 8)%nat) by (unfold l; rewrite length_take; lia).
  assert (256 ^ Z.of_nat (length l) <= 256 ^ 8) by (apply Z.pow_le_mono_r; lia).
  unfold is_u64. change (2 ^ 64) with (256 ^ 8). lia.
Qed.

Lemma fld4_u64 off bs : Forall is_u8 bs -> is_u64 (fld 4 off bs).
Proof.
  intros Hb. unfold fld. set (l := take 4 (drop off bs)).
  assert (Hl : Forall is_u8 l) by by apply Forall_take, Forall_drop.
  pose proof (le_range l Hl) as H. assert (Hn : (length l <= 4)%nat) by (unfold l; rewrite length_take; lia).
  assert (256 ^ Z.of_nat (length l) <= 256 ^ 4) by (apply Z.pow_le_mono_r; lia).
  unfold is_u64. change (256 ^ 4) with (2 ^ 32) in *. lia.
Qed.

Lemma slen_timeval sec usec : is_u64 sec -> is_u64 usec -> slen (timeval_text sec usec) <= 44.
Proof.
  intros H1 H2. unfold timeval_text. rewrite !slen_app.
  pose proof (slen_fmt_u_u64 sec H1). pose proof (slen_fmt_u_u64 usec H2).
  change (slen "{") with 1. change (slen ", ") with 2. change (slen "}") with 1. lia.
Qed.

Lemma pair_small bs : Forall is_u8 bs -> slen (timeval_text (pair_fst e bs) (pair_snd e bs)) <= 44.
Proof.
  intros Hb. apply slen_timeval; unfold pair_fst, pair_snd; destruct (wordsize e =? 4);
    auto using fld_u64, fld4_u64.
Qed.

Lemma pair_size_pos : 0 <= pair_size e.
Proof. unfold pair_size. destruct (_ =? _); lia. Qed.

Lemma Yields_sprinttv a special : Yields e (sprinttv a special) (fun t => slen t <= 44).
Proof.
  unfold sprinttv. apply Yields_ask. destruct (a =? 0); [by apply Yields_ret|].
  destruct (d_verbose e); cbn [negb].
  2: { apply Yields_ret. etrans; [apply slen_fmt_sx_u64, u64_range|done]. }
  eapply Yields_bind; [apply Yields_umove_struct, pair_size_pos|].
  intros [bs|] Hbs; apply Yields_ret; [|done]. cbv zeta.
  destruct (_ && _); [done|]. destruct (_ && _); [done|]. apply pair_small, Hbs.
Qed.

Lemma Yields_sprint_timespec a : Yields e (sprint_timespec a) (fun t => slen t <= 44).
Proof.
  unfold sprint_timespec. apply Yields_ask. destruct (a =? 0); [by apply Yields_ret|].
  destruct (d_verbose e); cbn [negb].
  2: { apply Yields_ret. etrans; [apply slen_fmt_sx_u64, u64_range|done]. }
  eapply Yields_bind; [apply Yields_umove_struct, pair_size_pos|].
  intros [bs|] Hbs; apply Yields_ret; [|done]. apply pair_small, Hbs.
Qed.

(** ** The buffer of select *)

(** Text, separator of a [select_out] of at most [b] bytes. *)
Definition small_out (b : Z) (o : select_out) : Prop :=
  slen (so_text o) <= b /\ slen (so_sep o) <= 2.

Lemma fd_isset_range j fds b : fd_isset j fds = Some b -> 0 <= j -> j < 8 * Z.of_nat (length fds).
Proof.
  unfold fd_isset. destruct (fds !! _) as [x|] eqn:Hx; [|done]. intros _ Hj.
  apply lookup_lt_Some in Hx. assert (j / 8 < Z.of_nat (length fds)) by lia.
  Z.div_mod_to_equations. lia.
Qed.

Lemma select_member_small b i j first o :
  1018 <= b -> 0 <= j < 10 ^ 7 -> small_out b o -> small_out b (select_member i j first o).2.
Proof.
  intros Hb Hj [Ht Hs]. unfold select_member. pose proof (slen_fmt_u j 7 ltac:(lia) Hj) as Hu.
  assert (Hn : slen (set_name i) <= 6) by (unfold set_name; repeat case_match; by vm_compute).
  destruct (Z.ltb_spec (slen (so_text o)) (sizeof_outstr - (11 + 4 * 3 + 2))) as [Hl|Hl]; [|done].
  unfold sizeof_outstr in Hl. unfold small_out.
  destruct first; cbn [snd so_text so_sep]; rewrite !slen_app.
  - change (slen " [") with 2. change (slen ", ") with 2. lia.
  - change (slen " ") with 1. lia.
Qed.

Lemma Yields_select_member_loop b n i j fds first o :
  1018 <= b -> 0 <= j -> Z.of_nat (length fds) <= 131072 -> small_out b o ->
  Yields e (select_member_loop n i j fds first o) (small_out b).
Proof.
  intros Hb Hj Hf. revert j first o Hj. induction n as [|n IH]; intros j first o Hj Ho;
    cbn [select_member_loop]; [by apply Yields_ret|].
  destruct (fd_isset j fds) as [[]|] eqn:Hset; [|apply IH; [lia|done]|apply Yields_abort].
  apply fd_isset_range in Hset; [|done].
  pose proof (select_member_small b i j first o Hb ltac:(lia) Ho) as Hm.
  destruct (select_member i j first o) as [first' o']. apply IH; [lia|done].
Qed.

Lemma select_fdsize_range n : 0 <= select_fdsize n <= 131072.
Proof.
  unfold select_fdsize. set (m := if n >? 1024 * 1024 then _ else _).
  assert (Hm : 0 <= m <= 1024 * 1024).
  { unfold m. destruct (n >? 1024 * 1024) eqn:?; [lia|]. destruct (Z.ltb_spec n 0); [lia|].
    rewrite u32_id by wrap_lia. lia. }
  change (-8) with (Z.lnot (Z.ones 3)). rewrite <- Z.ldiff_land, Z.ldiff_ones_r by lia.
  rewrite Z.shiftr_div_pow2, Z.shiftl_mul_pow2 by lia. change (2 ^ 3) with 8.
  Z.div_mod_to_equations. lia.
Qed.

Lemma Yields_select_sets i addrs n fdsize o :
  (length addrs <= 3)%nat -> 0 <= fdsize <= 131072 ->
  small_out (1021 - Z.of_nat (length addrs)) o ->
  Yields e (select_sets i addrs n fdsize o) (small_out 1021).
Proof.
  intros Hl Hf. revert i o Hl. induction addrs as [|a addrs IH]; intros i o Hl Ho;
    cbn [select_sets]; [apply Yields_ret; destruct Ho; split; simpl in *; lia|].
  cbn [length] in Hl, Ho.
  assert (Hw : forall o', small_out (1021 - Z.of_nat (S (length addrs))) o' ->
                small_out (1021 - Z.of_nat (length addrs)) o').
  { intros o' []. split; lia. }
  eapply Yields_bind with (Q := read_of fdsize).
  { destruct (a =? 0); [by apply Yields_ret|apply Yields_umove_struct; lia]. }
  intros [fds|] Hfds; [|apply IH; [lia|by apply Hw]].
  eapply Yields_bind; [apply (Yields_select_member_loop (1021 - Z.of_nat (S (length addrs)))); try done;
    destruct Hfds; lia|].
  intros o' [Ht Hs]. cbv zeta.
  set (o2 := if slen (so_text o') =? 0 then o' else _).
  assert (H2 : small_out (1021 - Z.of_nat (length addrs)) o2).
  { unfold o2. destruct (_ =? 0); [split; lia|]. split; [|done]. cbn [so_text].
    rewrite slen_app. change (slen "]") with 1. lia. }
  clearbody o2. destruct (_ =? 0); [|apply IH; [lia|done]].
  apply Yields_ret. destruct H2. split; lia.
Qed.

(** ** What a decoder leaves in tcp->auxstr fits its buffer *)

Definition fits (c : D Z) : Prop := forall s r s', c e s = Some (r, s') ->
  d_auxstr s' = d_auxstr s \/ exists t, d_auxstr s' = Some t /\ slen t + 1 <= sizeof_outstr.

Lemma fits_quiet c : Quiets e c -> fits c.
Proof. intros Hc s r s' H. specialize (Hc s). rewrite H in Hc. destruct Hc. by left. Qed.
Lemma fits_bind {A} (c : D A) k Q :
  Yields e c Q -> (forall x, Q x -> fits (k x)) -> fits (c ≫= k).
Proof.
  intros Hc Hk s r s'. specialize (Hc s). unfold mbind, D_bind.
  destruct (c e s) as [[x s1]|]; [|done]. destruct Hc as [HQ <-]. apply (Hk x HQ s1 r s').
Qed.
Lemma fits_then c (k : Z -> D Z) : fits c -> (forall x, Quiets e (k x)) -> fits (c ≫= k).
Proof.
  intros Hc Hk s r s'. specialize (Hc s). unfold mbind, D_bind.
  destruct (c e s) as [[x s1]|]; [|done]. intros H. specialize (Hk x s1). rewrite H in Hk.
  destruct Hk as [_ ->]. by apply (Hc x).
Qed.
Lemma fits_put t r : slen t + 1 <= sizeof_outstr -> fits (_ ← put_auxstr (Some t); mret r).
Proof. intros Ht s x s' [= <- <-]. right. by exists t. Qed.
Lemma fits_ask k : fits (k e) -> fits (ask ≫= k).
Proof. intros Hk s. exact (Hk s). Qed.

Lemma Quiets_select_set_loop n j fds sep : Quiets e (select_set_loop n j fds sep).
Proof. revert j sep. induction n as [|n IH]; intros j sep; cbn [select_set_loop]; yields. Qed.
Hint Resolve Quiets_select_set_loop : yields.

Lemma fits_decode_select args : fits (decode_select args).
Proof.
  unfold decode_select. apply fits_ask. cbv zeta. destruct (d_entering e); [apply fits_quiet; yields|].
  destruct (syserror e); [apply fits_quiet; yields|].
  destruct (_ =? 0); [by apply fits_put|].
  eapply fits_bind.
  { apply Yields_select_sets; [done|apply select_fdsize_range|done]. }
  intros o [Ht Hs]. eapply fits_bind with (Q := fun t => slen t + 1 <= sizeof_outstr).
  2: { intros t Hfit. by apply fits_put. }
  destruct (negb _ && _) eqn:Hroom; [|apply Yields_ret; unfold sizeof_outstr; lia].
  apply andb_prop in Hroom as [_ Hroom]. apply Z.ltb_lt in Hroom.
  eapply Yields_bind; [apply Yields_sprinttv|]. intros left Hleft. apply Yields_ret.
  rewrite !slen_app. change (slen "left ") with 5.
  unfold sizeof_outstr, timeval_bufsize in *. lia.
Qed.

(** ** The buffer of poll *)

Lemma poll_item_small out fd revents :
  is_s32 fd -> slen out <= 1022 -> slen (poll_item out fd revents) <= 1022.
Proof.
  intros Hfd Ho. unfold poll_item, sizeof_outstr. cbv zeta. set (flagstr := sprintflags _ _ _).
  pose proof (slen_fmt_d_s32 fd Hfd) as Hd.
  set (out1 := if slen out <? _ then _ else out).
  assert (H1 : slen out1 <= 1022).
  { unfold out1. destruct (Z.ltb_spec (slen out) (1024 - (17 + 4 * 3) + 1)); [|done].
    rewrite !slen_app. change (slen "{fd=") with 4. change (slen ", revents=") with 10. lia. }
  clearbody out1. destruct (Z.ltb_spec (slen out1) (1024 - (slen flagstr + 2))); [|done].
  rewrite !slen_app. change (slen "}") with 1. lia.
Qed.

Lemma Yields_poll_exit_loop n cur ae out :
  slen out <= 1022 -> Yields e (poll_exit_loop n cur ae out) (fun r => slen r.1 <= 1022).
Proof.
  revert cur out. induction n as [|n IH]; intros cur out Ho; cbn [poll_exit_loop];
    [by apply Yields_ret|].
  eapply Yields_bind; [by apply Yields_umove_struct|]. intros [fds|] _.
  2: { apply Yields_ret. cbn [fst]. unfold sizeof_outstr.
       destruct (Z.ltb_spec (slen out) (1024 - 2)); [|done]. rewrite slen_app. change (slen "?") with 1. lia. }
  cbv zeta. destruct (_ =? 0); [by apply IH|].
  set (out1 := if slen out =? 0 then _ else _).
  assert (H1 : slen out1 <= 1022).
  { unfold out1, sizeof_outstr. destruct (Z.eqb_spec (slen out) 0); [rewrite slen_app; change (slen "[") with 1; lia|].
    destruct (Z.ltb_spec (slen out) (1024 - 3)); [|done]. rewrite slen_app. change (slen ", ") with 2. lia. }
  clearbody out1. destruct (_ >=? _).
  - apply Yields_ret. cbn [fst]. unfold sizeof_outstr.
    destruct (Z.ltb_spec (slen out1) (1024 - 4)); [|done]. rewrite slen_app. change (slen "...") with 3. lia.
  - apply IH, poll_item_small; [apply s32_range|done].
Qed.

Lemma Quiets_poll_entry_loop n start cur ae : Quiets e (poll_entry_loop n start cur ae).
Proof. revert cur. induction n as [|n IH]; intros cur; cbn [poll_entry_loop]; yields. Qed.
Hint Resolve Quiets_poll_entry_loop : yields.

Lemma fits_decode_poll pts : fits (decode_poll pts).
Proof.
  unfold decode_poll. apply fits_ask.
  eapply fits_bind; [apply Quiets_arg|]. intros start _. eapply fits_bind; [apply Quiets_arg|].
  intros a1 _. cbv zeta. destruct (d_entering e); [apply fits_quiet; yields|].
  destruct (syserror e); [apply fits_quiet; yields|].
  destruct (d_rval e =? 0); [by apply fits_put|]. destruct (_ || _); [apply fits_quiet; yields|].
  eapply fits_bind; [by apply Yields_poll_exit_loop|].
  intros [out failed] Ho. cbn [fst] in Ho. destruct failed; [apply fits_quiet; yields|].
  set (out1 := if slen out =? 0 then out else _).
  assert (H1 : slen out1 <= 1023).
  { unfold out1. destruct (_ =? 0); [lia|]. rewrite slen_app. change (slen "]") with 1. lia. }
  clearbody out1. eapply fits_bind with (Q := fun t => slen t + 1 <= sizeof_outstr).
  2: { intros t Hfit. destruct (_ =? 0); [apply fits_quiet; yields|by apply fits_put]. }
  destruct (negb _ && _) eqn:Hroom; [|apply Yields_ret; unfold sizeof_outstr; lia].
  apply andb_prop in Hroom as [_ Hroom]. apply Z.ltb_lt in Hroom.
  eapply Yields_bind; [apply Yields_sprint_timespec|]. intros left Hleft. apply Yields_ret.
  rewrite !slen_app. assert (slen (if slen out1 =? 0 then "left " else ", left ") <= 7)
    by (destruct (_ =? 0); by vm_compute).
  unfold sizeof_outstr, timeval_bufsize in *. lia.
Qed.
End ready.

(** C24: the texts that select and poll build for the result of a call fit the
    static buffers of 1024 bytes they are written to, whatever the tracee's
    memory holds, whatever the call returned and however many descriptors are
    ready: the tests before each append leave room for the closing bracket, the
    time left and the final NUL. *)
Theorem ready_text_fits `{K : Kernel} `{!BytesOk} e c s r s' :
  In c [sys_select; sys_oldselect; sys_pselect6; sys_poll; sys_ppoll] -> c e s = Some (r, s') ->
  d_auxstr s' = d_auxstr s \/ exists t, d_auxstr s' = Some t /\ slen t + 1 <= sizeof_outstr.
Proof.
  intros Hc. enough (Hf : fits e c) by apply Hf.
  destruct Hc as [<-|[<-|[<-|[<-|[<-|[]]]]]].
  - unfold sys_select. apply fits_ask, fits_decode_select.
  - unfold sys_oldselect. eapply fits_bind; [apply Quiets_arg|]. intros a _.
    eapply fits_bind; [by apply Yields_umove_struct|].
    intros [bs|] _; [apply fits_decode_select|apply fits_quiet; yields].
  - unfold sys_pselect6. apply fits_ask. apply fits_then; [apply fits_decode_select|]. intros x. yields.
  - unfold sys_poll. apply fits_then; [apply fits_decode_poll|]. intros x. yields.
  - unfold sys_ppoll. eapply fits_bind; [apply Quiets_arg|]. intros a _.
    apply fits_then; [apply fits_decode_poll|]. intros x. yields.
Qed.

(** ** The descriptors shown *)

(** The descriptors below [n] in a set. *)
Definition in_set (fds : list Z) (j : Z) : bool := default false (fd_isset j fds).
Definition members (n : Z) (fds : list Z) : list Z := List.filter (in_set fds) (seqZ 0 n).

Lemma in_members n fds j : In j (members n fds) <-> 0 <= j < n /\ in_set fds j = true.
Proof. unfold members. rewrite filter_In, <- list_elem_of_In, elem_of_seqZ. intuition lia. Qed.

Fixpoint fds_text (e : denv) (sep : string) (js : list Z) : string :=
  match js with [] => "" | j :: js => sep +:+ fd_text e j +:+ fds_text e " " js end.

Section shown.
Context `{K : Kernel} (e : denv).

Lemma Does_select_set_loop k j fds sep :
  0 <= j -> j + Z.of_nat k <= 8 * Z.of_nat (length fds) ->
  Does e (select_set_loop k j fds sep) tt
    (fds_text e sep (List.filter (in_set fds) (seqZ j (Z.of_nat k)))) [].
Proof.
  revert j sep. induction k as [|k IH]; intros j sep Hj Hk; cbn [select_set_loop]; [apply Does_ret|].
  rewrite seqZ_cons by lia. replace (Z.pred (Z.of_nat (S k))) with (Z.of_nat k) by lia.
  cbn [List.filter]. unfold in_set at 1.
  assert (Hset : exists b, fd_isset j fds = Some b).
  { unfold fd_isset. destruct (lookup_lt_is_Some_2 fds (Z.to_nat (j / 8))) as [b ->]; [|by eexists].
    assert (j / 8 < Z.of_nat (length fds)) by (apply Z.div_lt_upper_bound; lia). lia. }
  destruct Hset as [b ->]. cbn [default]. rewrite <- Z.add_1_r. destruct b.
  - cbn [fds_text]. apply Does_tp_bind. eapply Does_eq; [eapply Does_bind; [apply Does_printfd|]| |].
    + apply IH; lia.
    + done.
    + done.
  - apply IH; lia.
Qed.

(** A loop that has more rounds than the buffer has bits does not return. *)
Lemma select_set_loop_aborts k j fds sep s :
  0 <= j <= 8 * Z.of_nat (length fds) -> 8 * Z.of_nat (length fds) < j + Z.of_nat k ->
  select_set_loop k j fds sep e s = None.
Proof.
  revert j sep s. induction k as [|k IH]; intros j sep s Hj Hk; [lia|]. cbn [select_set_loop].
  destruct (fd_isset j fds) as [b|] eqn:Hset; [|done].
  apply fd_isset_range in Hset; [|lia]. destruct b; [|apply IH; lia].
  unfold mbind, D_bind. cbn.
  match goal with |- context[printfd j e ?s] =>
    destruct (Does_printfd e j s) as (s' & Hp & _); rewrite Hp end.
  apply IH; lia.
Qed.
End shown.

Section sets.
Context `{K : Kernel} (m : memory) `{!MemOk m} (e : denv).

(** One argument of select on entry and its text: NULL, or the set at the
    address. *)
Inductive shows_set (n addr : Z) : string -> Prop :=
  | shows_null : addr = 0 -> shows_set n addr ", NULL"
  | shows_members fds :
      buf_at m (wordsize e) addr fds -> length fds = Z.to_nat (select_fdsize n) ->
      shows_set n addr (", [" +:+ fds_text e "" (members n fds) +:+ "]").

Lemma select_fdsize_bits n : 0 <= n <= 1024 * 1024 -> n <= 8 * select_fdsize n.
Proof.
  intros Hn. unfold select_fdsize.
  replace (n >? 1024 * 1024) with false by lia. replace (n <? 0) with false by lia.
  rewrite u32_id by wrap_lia.
  change (-8) with (Z.lnot (Z.ones 3)). rewrite <- Z.ldiff_land, Z.ldiff_ones_r by lia.
  rewrite Z.shiftr_div_pow2, Z.shiftl_mul_pow2 by lia. change (2 ^ 3) with 8.
  Z.div_mod_to_equations. lia.
Qed.

Lemma Does_select_set n addr t :
  0 < wordsize e -> d_verbose e = true -> 0 <= n <= 1024 * 1024 -> shows_set n addr t ->
  Does e (select_set n (select_fdsize n) addr) tt t [].
Proof.
  intros Hws Hv Hn Ht. unfold select_set. eapply Does_silent; [apply Does_ask|].
  destruct Ht as [->|fds Hbuf Hlen]; [apply Does_tp|].
  rewrite (proj2 (Z.eqb_neq addr 0)) by (destruct Hbuf; lia). rewrite Hv. cbn [negb].
  pose proof (select_fdsize_range n). pose proof (select_fdsize_bits n Hn).
  replace (select_fdsize n) with (Z.of_nat (length fds)) by lia.
  eapply Does_silent; [by apply (Does_umove_struct m)|]. apply Does_tp_bind.
  assert (Hr : fd_rounds n fds = Z.to_nat n) by (unfold fd_rounds; lia).
  rewrite Hr. eapply Does_eq; [eapply Does_bind; [apply Does_select_set_loop; lia|apply Does_tp]| |].
  - unfold members. by rewrite Z2Nat.id by lia.
  - done.
Qed.

(** C23: select shows its descriptor sets.  On entry, with a count of at most
    1024 * 1024, the line has the count and for each of the three sets NULL or
    exactly the descriptors below the count whose bit is set in the tracee's
    memory, in ascending order (with their paths under -y). *)
Theorem select_shows_sets n r w x rest tr tw tx :
  0 < wordsize e -> d_entering e = true -> d_verbose e = true -> 0 <= n <= 1024 * 1024 ->
  u_arg e = n :: r :: w :: x :: 0 :: rest ->
  shows_set n r tr -> shows_set n w tw -> shows_set n x tx ->
  Does e sys_select 0 (fmt_d n +:+ tr +:+ tw +:+ tx +:+ ", NULL") [].
Proof.
  intros Hws He Hv Hn Ha Hr Hw Hx. unfold sys_select. eapply Does_silent; [apply Does_ask|].
  unfold decode_select. eapply Does_silent; [apply Does_ask|]. rewrite He, Ha. cbn [lookup list_lookup default id].
  cbv zeta. rewrite s64_id, u32_id by wrap_lia. unfold fmt_int. rewrite s32_id by wrap_lia.
  pose proof (Does_select_set n r tr Hws Hv Hn Hr) as H1.
  pose proof (Does_select_set n w tw Hws Hv Hn Hw) as H2.
  pose proof (Does_select_set n x tx Hws Hv Hn Hx) as H3.
  assert (Htv : Does e (printtv_bitness 0 false) tt "NULL" []).
  { unfold printtv_bitness, sprinttv. eapply Does_silent; [|apply Does_tp].
    eapply Does_silent; [apply Does_ask|apply Does_ret]. }
  eapply Does_eq; [does_steps|does_collect..].
Qed.

(** A select whose count is beyond the sets' buffer ends the tracer.  The
    buffer holds at most 1024 * 1024 bits, and none for a negative count, but
    the loop over the descriptors runs up to the count itself, taken as an
    unsigned number: when the tracee passes a readable set with a negative count
    or one above 1024 * 1024, the loop leaves the buffer. *)
Theorem select_count_overruns n r w x rest fds s :
  0 < wordsize e -> d_entering e = true -> d_verbose e = true ->
  u_arg e = n :: r :: w :: x :: rest ->
  (s64 n < 0 \/ 1024 * 1024 < s64 n) -> 1024 * 1024 < u32 n ->
  buf_at m (wordsize e) r fds -> length fds = Z.to_nat (select_fdsize (s64 n)) ->
  sys_select e s = None.
Proof.
  intros Hws He Hv Ha Hn Hu Hbuf Hlen. unfold sys_select. apply aborts_later. intros ? ? [= <- <-].
  unfold decode_select. apply aborts_later. intros ? ? [= <- <-]. rewrite He, Ha.
  cbn [lookup list_lookup default id]. cbv zeta. apply aborts_later. intros ? s1 _. apply aborts_now.
  unfold select_set. apply aborts_later. intros ? ? [= <- <-].
  rewrite (proj2 (Z.eqb_neq r 0)) by (destruct Hbuf; lia). rewrite Hv. cbn [negb].
  pose proof (select_fdsize_range (s64 n)) as Hsz.
  replace (select_fdsize (s64 n)) with (Z.of_nat (length fds)) by lia.
  unfold mbind at 1, D_bind at 1.
  destruct (Does_umove_struct m e r fds Hws Hbuf s1) as (s2 & -> & _).
  apply aborts_later. intros ? s3 _. apply aborts_now. rewrite u32_s64.
  apply select_set_loop_aborts; unfold fd_rounds; lia.
Qed.
End sets.

(** ** Examples *)

(** Descriptors 1 and 3 in the set at 4096. *)
Definition ready_mem : memory := page_mem 4096 (fun i => if i =? 0 then 10 else 0).
Definition ready_kernel : Kernel := mem_kernel true ready_mem.
#[global] Instance ready_mem_ok : @MemOk ready_kernel ready_mem.
Proof. apply mem_kernel_ok; [apply page_mem_u8|by apply page_mem_words]. Qed.
#[global] Instance ready_bytes_ok : @BytesOk ready_kernel.
Proof. apply mem_kernel_bytes. apply page_mem_u8. Qed.

(** The exit of a select with the result 2. *)
Definition ready_env (args : list Z) : denv :=
  mk_denv 7 8 0 args false 0 2 true false 0 32 false (fun _ => None) (fun _ => 0) 6.

Lemma ready_text_fits_witness :
  exists s', @sys_select ready_kernel (ready_env [4; 4096; 0; 0; 0; 0]) io_state = Some (RVAL_STR, s') /\
    d_auxstr s' = Some "in [1 3]" /\
    (d_auxstr s' = None \/ exists t, d_auxstr s' = Some t /\ slen t + 1 <= sizeof_outstr).
Proof.
  destruct (@sys_select ready_kernel (ready_env [4; 4096; 0; 0; 0; 0]) io_state) as [[r s']|] eqn:E;
    [|vm_compute in E; discriminate E].
  exists s'. pose proof E as E'. vm_compute in E'. injection E' as <- <-. split; [reflexivity|].
  split; [reflexivity|].
  apply (@ready_text_fits ready_kernel ready_bytes_ok (ready_env [4; 4096; 0; 0; 0; 0])
           (@sys_select ready_kernel) io_state RVAL_STR _ (or_introl eq_refl) E).
Defined.

Lemma select_shows_sets_witness :
  Does (io_env [4; 4096; 0; 0; 0; 0]) (@sys_select ready_kernel) 0 "4, [1 3], NULL, NULL, NULL" [].
Proof.
  apply (@select_shows_sets ready_kernel ready_mem ready_mem_ok (io_env [4; 4096; 0; 0; 0; 0])
           4 4096 0 0 [0] ", [1 3]" ", NULL" ", NULL"); try reflexivity; try (left; reflexivity).
  - split; discriminate.
  - apply (shows_members ready_mem (io_env [4; 4096; 0; 0; 0; 0]) 4 4096 [10; 0; 0; 0; 0; 0; 0; 0]);
      [at_buf|reflexivity].
Defined.

Lemma select_count_overruns_witness :
  @sys_select ready_kernel (io_env [2 ^ 64 - 1; 4096; 0; 0; 0; 0]) io_state = None.
Proof.
  apply (@select_count_overruns ready_kernel ready_mem ready_mem_ok
           (io_env [2 ^ 64 - 1; 4096; 0; 0; 0; 0]) (2 ^ 64 - 1) 4096 0 0 [0; 0] []);
    try reflexivity.
  - left. reflexivity.
  - at_buf.
Defined.
