(* ===== verification/Decoders.v ===== *)
(** * The table of modelled decoders, and the contract they all satisfy

    [decoders] names the decoders the way the syscallent.h tables do, so that
    the [sys_func] pointer of an entry can be interpreted by [decoder_named].
    The write family of io.c, which fills the byte dump, the calls that change
    the memory map, those of system administration and the two whose decoders
    can end the tracer (ioctl and query_module) are in tables of their own. *)

From S2P Require Import Prelude Xlat Quote Tracee Decode Io Args Mem Signal Time File Stat Sigcalls Desc Resource Ipc Process Net System Quota Device Sockio Modules Ioctl.
Local Open Scope string_scope.
Local Open Scope list_scope.
Local Open Scope Z_scope.

Section tables.
Context `{K : Kernel} (localtime : Z -> option tm) (malloc_ok : Z -> bool).
Context (errnoent : nat -> list string) (ifname : Z -> option string).
Context (vla_ok : Z -> bool) (ioctlent : list struct_ioctlent).

(** io.c *)
Definition io_decoders : list (string * D Z) :=
  [("sys_read", sys_read); ("sys_readv", sys_readv); ("sys_pread", sys_pread);
   ("sys_preadv", sys_preadv); ("sys_sendfile", sys_sendfile);
   ("sys_sendfile64", sys_sendfile64); ("sys_tee", sys_tee); ("sys_splice", sys_splice);
   ("sys_vmsplice", sys_vmsplice)].

(** mem.c *)
Definition mem_decoders : list (string * D Z) :=
  [("sys_brk", sys_brk); ("sys_old_mmap", sys_old_mmap); ("sys_mmap_pgoff", sys_mmap_pgoff);
   ("sys_mmap_4koff", sys_mmap_4koff); ("sys_mremap", sys_mremap); ("sys_madvise", sys_madvise);
   ("sys_mlockall", sys_mlockall); ("sys_msync", sys_msync);
   ("sys_mincore", sys_mincore malloc_ok); ("sys_remap_file_pages", sys_remap_file_pages);
   ("sys_mbind", sys_mbind); ("sys_set_mempolicy", sys_set_mempolicy);
   ("sys_get_mempolicy", sys_get_mempolicy); ("sys_migrate_pages", sys_migrate_pages);
   ("sys_move_pages", sys_move_pages)].

(** time.c *)
Definition time_decoders : list (string * D Z) :=
  [("sys_time", sys_time); ("sys_stime", sys_stime); ("sys_gettimeofday", sys_gettimeofday);
   ("sys_settimeofday", sys_settimeofday); ("sys_adjtime", sys_adjtime);
   ("sys_nanosleep", sys_nanosleep); ("sys_getitimer", sys_getitimer);
   ("sys_setitimer", sys_setitimer); ("sys_adjtimex", sys_adjtimex);
   ("sys_clock_settime", sys_clock_settime); ("sys_clock_gettime", sys_clock_gettime);
   ("sys_clock_nanosleep", sys_clock_nanosleep); ("sys_clock_adjtime", sys_clock_adjtime);
   ("sys_timer_create", sys_timer_create); ("sys_timer_settime", sys_timer_settime);
   ("sys_timer_gettime", sys_timer_gettime); ("sys_timerfd", sys_timerfd);
   ("sys_timerfd_create", sys_timerfd_create); ("sys_timerfd_settime", sys_timerfd_settime);
   ("sys_timerfd_gettime", sys_timerfd_gettime)].

(** file.c: paths, modes and offsets *)
Definition file_decoders : list (string * D Z) :=
  [("sys_open", sys_open); ("sys_openat", sys_openat); ("sys_creat", sys_creat);
   ("sys_access", sys_access); ("sys_faccessat", sys_faccessat); ("sys_umask", sys_umask);
   ("sys_lseek", sys_lseek); ("sys_llseek", sys_llseek); ("sys_readahead", sys_readahead);
   ("sys_truncate", sys_truncate); ("sys_truncate64", sys_truncate64);
   ("sys_ftruncate", sys_ftruncate); ("sys_ftruncate64", sys_ftruncate64);
   ("sys_chdir", sys_chdir); ("sys_mkdir", sys_mkdir); ("sys_mkdirat", sys_mkdirat);
   ("sys_link", sys_link); ("sys_linkat", sys_linkat); ("sys_unlinkat", sys_unlinkat);
   ("sys_symlinkat", sys_symlinkat); ("sys_readlink", sys_readlink);
   ("sys_readlinkat", sys_readlinkat); ("sys_renameat", sys_renameat);
   ("sys_chown", sys_chown); ("sys_fchownat", sys_fchownat); ("sys_fchown", sys_fchown);
   ("sys_chmod", sys_chmod); ("sys_fchmodat", sys_fchmodat); ("sys_fchmod", sys_fchmod);
   ("sys_utimes", sys_utimes); ("sys_futimesat", sys_futimesat);
   ("sys_utimensat", sys_utimensat); ("sys_utime", sys_utime localtime);
   ("sys_mknod", sys_mknod); ("sys_mknodat", sys_mknodat); ("sys_fadvise64", sys_fadvise64);
   ("sys_fadvise64_64", sys_fadvise64_64); ("sys_inotify_add_watch", sys_inotify_add_watch);
   ("sys_inotify_rm_watch", sys_inotify_rm_watch); ("sys_inotify_init1", sys_inotify_init1);
   ("sys_fallocate", sys_fallocate); ("sys_swapon", sys_swapon)].

(** file.c: structures *)
Definition stat_decoders : list (string * D Z) :=
  [("sys_stat", sys_stat localtime); ("sys_stat64", sys_stat64 localtime);
   ("sys_oldstat", sys_oldstat localtime); ("sys_fstat", sys_fstat localtime);
   ("sys_fstat64", sys_fstat64 localtime); ("sys_oldfstat", sys_oldfstat localtime);
   ("sys_newfstatat", sys_newfstatat localtime); ("sys_statfs", sys_statfs);
   ("sys_fstatfs", sys_fstatfs); ("sys_statfs64", sys_statfs64);
   ("sys_fstatfs64", sys_fstatfs64); ("sys_readdir", sys_readdir); ("sys_getcwd", sys_getcwd);
   ("sys_setxattr", sys_setxattr malloc_ok); ("sys_fsetxattr", sys_fsetxattr malloc_ok);
   ("sys_getxattr", sys_getxattr malloc_ok); ("sys_fgetxattr", sys_fgetxattr malloc_ok);
   ("sys_listxattr", sys_listxattr); ("sys_flistxattr", sys_flistxattr);
   ("sys_removexattr", sys_removexattr); ("sys_fremovexattr", sys_fremovexattr)].

(** signal.c *)
Definition signal_decoders : list (string * D Z) :=
  [("sys_sigsetmask", sys_sigsetmask); ("sys_sigaction", sys_sigaction); ("sys_signal", sys_signal);
   ("sys_sigreturn", sys_sigreturn); ("sys_siggetmask", sys_siggetmask);
   ("sys_sigsuspend", sys_sigsuspend); ("sys_sigaltstack", sys_sigaltstack);
   ("sys_sigprocmask", sys_sigprocmask); ("sys_kill", sys_kill); ("sys_tgkill", sys_tgkill);
   ("sys_sigpending", sys_sigpending); ("sys_rt_sigprocmask", sys_rt_sigprocmask);
   ("sys_rt_sigaction", sys_rt_sigaction); ("sys_rt_sigpending", sys_rt_sigpending);
   ("sys_rt_sigsuspend", sys_rt_sigsuspend); ("sys_rt_sigqueueinfo", sys_rt_sigqueueinfo errnoent);
   ("sys_rt_tgsigqueueinfo", sys_rt_tgsigqueueinfo errnoent);
   ("sys_rt_sigtimedwait", sys_rt_sigtimedwait errnoent);
   ("sys_restart_syscall", sys_restart_syscall); ("sys_signalfd", sys_signalfd);
   ("sys_signalfd4", sys_signalfd4)].

(** desc.c and poll of stream.c; the select family is below *)
Definition desc_decoders : list (string * D Z) :=
  [("sys_fcntl", sys_fcntl); ("sys_flock", sys_flock); ("sys_close", sys_close);
   ("sys_dup2", sys_dup2); ("sys_dup3", sys_dup3); ("sys_epoll_create", sys_epoll_create);
   ("sys_epoll_create1", sys_epoll_create1); ("sys_epoll_ctl", sys_epoll_ctl);
   ("sys_epoll_wait", sys_epoll_wait); ("sys_epoll_pwait", sys_epoll_pwait);
   ("sys_io_setup", sys_io_setup); ("sys_io_destroy", sys_io_destroy);
   ("sys_io_submit", sys_io_submit); ("sys_io_cancel", sys_io_cancel);
   ("sys_io_getevents", sys_io_getevents); ("sys_eventfd", sys_eventfd);
   ("sys_eventfd2", sys_eventfd2); ("sys_perf_event_open", sys_perf_event_open);
   ("sys_poll", sys_poll); ("sys_ppoll", sys_ppoll)].

(** resource.c *)
Definition resource_decoders : list (string * D Z) :=
  [("sys_getrlimit", sys_getrlimit); ("sys_setrlimit", sys_setrlimit);
   ("sys_prlimit64", sys_prlimit64); ("sys_getrusage", sys_getrusage); ("sys_sysinfo", sys_sysinfo);
   ("sys_getpriority", sys_getpriority); ("sys_setpriority", sys_setpriority);
   ("sys_times", sys_times)].

(** ipc.c *)
Definition ipc_decoders : list (string * D Z) :=
  [("sys_msgget", sys_msgget); ("sys_msgctl", sys_msgctl); ("sys_msgsnd", sys_msgsnd);
   ("sys_msgrcv", sys_msgrcv); ("sys_semop", sys_semop); ("sys_semtimedop", sys_semtimedop);
   ("sys_semget", sys_semget); ("sys_semctl", sys_semctl); ("sys_shmget", sys_shmget);
   ("sys_shmctl", sys_shmctl); ("sys_shmdt", sys_shmdt); ("sys_mq_open", sys_mq_open);
   ("sys_mq_timedsend", sys_mq_timedsend); ("sys_mq_timedreceive", sys_mq_timedreceive);
   ("sys_mq_notify", sys_mq_notify); ("sys_mq_getsetattr", sys_mq_getsetattr);
   ("sys_ipc", sys_ipc)].

(** process.c *)
Definition process_decoders : list (string * D Z) :=
  [("sys_sethostname", sys_sethostname); ("sys_setdomainname", sys_setdomainname);
   ("sys_setuid", sys_setuid); ("sys_getresuid", sys_getresuid); ("sys_setreuid", sys_setreuid);
   ("sys_setresuid", sys_setresuid); ("sys_setgroups", sys_setgroups);
   ("sys_getgroups", sys_getgroups); ("sys_setgroups32", sys_setgroups32);
   ("sys_getgroups32", sys_getgroups32); ("sys_clone", sys_clone); ("sys_unshare", sys_unshare);
   ("sys_fork", sys_fork); ("sys_vfork", sys_vfork); ("sys_waitpid", sys_waitpid);
   ("sys_wait4", sys_wait4); ("sys_waitid", sys_waitid errnoent); ("sys_prctl", sys_prctl);
   ("sys_ptrace", sys_ptrace errnoent); ("sys_futex", sys_futex);
   ("sys_sched_setaffinity", sys_sched_setaffinity);
   ("sys_sched_getaffinity", sys_sched_getaffinity); ("sys_get_robust_list", sys_get_robust_list);
   ("sys_sched_getscheduler", sys_sched_getscheduler);
   ("sys_sched_setscheduler", sys_sched_setscheduler); ("sys_sched_getparam", sys_sched_getparam);
   ("sys_sched_setparam", sys_sched_setparam);
   ("sys_sched_get_priority_min", sys_sched_get_priority_min);
   ("sys_sched_rr_get_interval", sys_sched_rr_get_interval); ("sys_arch_prctl", sys_arch_prctl);
   ("sys_getcpu", sys_getcpu); ("sys_process_vm_readv", sys_process_vm_readv);
   ("sys_process_vm_writev", sys_process_vm_writev)].

(** net.c: the calls without socket addresses *)
Definition net_decoders : list (string * D Z) :=
  [("sys_socket", sys_socket); ("sys_listen", sys_listen); ("sys_send", sys_send);
   ("sys_recv", sys_recv); ("sys_shutdown", sys_shutdown); ("sys_pipe", sys_pipe);
   ("sys_pipe2", sys_pipe2); ("sys_socketpair", sys_socketpair); ("sys_getsockopt", sys_getsockopt);
   ("sys_setsockopt", sys_setsockopt); ("sys_socketcall", sys_socketcall)].

(** system.c, quota.c and the module calls of bjm.c *)
Definition system_decoders : list (string * D Z) :=
  [("sys_mount", sys_mount); ("sys_umount2", sys_umount2); ("sys_personality", sys_personality);
   ("sys_syslog", sys_syslog); ("sys_reboot", sys_reboot); ("sys_capget", sys_capget);
   ("sys_capset", sys_capset); ("sys_sysctl", sys_sysctl malloc_ok); ("sys_quotactl", sys_quotactl);
   ("sys_create_module", sys_create_module); ("sys_init_module", sys_init_module)].

Definition plain_decoders : list (string * D Z) :=
  io_decoders ++ mem_decoders ++ time_decoders ++ file_decoders ++ stat_decoders ++
  signal_decoders ++ desc_decoders ++ resource_decoders ++ ipc_decoders ++ process_decoders ++
  net_decoders ++ system_decoders.

(** The decoders that write the byte dump, change the memory map or the result
    of the call, or stop the tracer on some input: a directory entry of length
    zero, a set of descriptors longer than the kernel's, a socket address or an
    ancillary message read past its buffer, a system name without its NUL, some
    ioctls, a list of modules that ends too early. *)
Definition special_decoders : list (string * D Z) :=
  [("sys_write", sys_write); ("sys_writev", sys_writev); ("sys_pwrite", sys_pwrite);
   ("sys_pwritev", sys_pwritev); ("sys_mmap", sys_mmap); ("sys_munmap", sys_munmap);
   ("sys_mprotect", sys_mprotect); ("sys_getdents", sys_getdents);
   ("sys_getdents64", sys_getdents64); ("sys_oldselect", sys_oldselect); ("sys_select", sys_select);
   ("sys_pselect6", sys_pselect6); ("sys_getuid", sys_getuid); ("sys_setfsuid", sys_setfsuid);
   ("sys_shmat", sys_shmat); ("sys_uname", sys_uname); ("sys_execve", sys_execve);
   ("sys_bind", sys_bind ifname); ("sys_connect", sys_connect ifname);
   ("sys_accept", sys_accept ifname); ("sys_accept4", sys_accept4 ifname);
   ("sys_getsockname", sys_getsockname ifname); ("sys_getpeername", sys_getpeername ifname);
   ("sys_sendto", sys_sendto ifname); ("sys_recvfrom", sys_recvfrom ifname);
   ("sys_sendmsg", sys_sendmsg ifname malloc_ok); ("sys_sendmmsg", sys_sendmmsg ifname malloc_ok);
   ("sys_recvmsg", sys_recvmsg ifname malloc_ok); ("sys_recvmmsg", sys_recvmmsg ifname malloc_ok);
   ("sys_ioctl", sys_ioctl vla_ok ioctlent); ("sys_query_module", sys_query_module malloc_ok)].

(** The function a [sys_func] name stands for. *)
Definition decoder_named (f : string) : option (D Z) :=
  snd <$> List.find (fun d => String.eqb d.1 f) (plain_decoders ++ special_decoders).
End tables.

(** ** The contract *)

Section contract.
Context `{K : Kernel} (localtime : Z -> option tm) (malloc_ok : Z -> bool).
Context (errnoent : nat -> list string) (e : denv).
Context (Hok : env_ok e) (Hmalloc : forall n, malloc_ok n = true -> n < 2 ^ 48).

Definition obeys (d : string * D Z) : Prop := Decodes e d.2 rval_format_ok.

(** Unfold a decoder down to its first bind. *)
Ltac head_of t := lazymatch t with ?f _ => head_of f | _ => t end.
Ltac decode_entry :=
  unfold obeys; cbn [snd];
  try solve [auto with decodes nocore];
  repeat lazymatch goal with
  | |- Decodes _ (mret _) _ => apply Decodes_ret; auto with decodes nocore
  | |- Decodes _ (at_dirfd _) _ => apply Decodes_at_dirfd
  | |- Decodes _ (path_then _) _ => apply Prints_path_then; decodes
  | |- Decodes _ (fd_then _) _ => apply Prints_fd_then; decodes
  | |- Decodes _ (_ ≫= _) _ => decodes
  | |- Decodes _ ?c _ => let h := head_of c in unfold h
  end.
Ltac decode_table :=
  lazymatch goal with
  | |- Forall _ [] => constructor
  | |- Forall _ (_ :: _) => apply Forall_cons; split; [decode_entry|decode_table]
  end.

Lemma io_decoders_ok : Forall obeys io_decoders.
Proof. unfold io_decoders. decode_table. Qed.
Lemma mem_decoders_ok : Forall obeys (mem_decoders malloc_ok).
Proof. unfold mem_decoders. decode_table. Qed.
Lemma time_decoders_ok : Forall obeys time_decoders.
Proof. unfold time_decoders. decode_table. Qed.
Lemma file_decoders_ok : Forall obeys (file_decoders localtime).
Proof. unfold file_decoders. decode_table. Qed.
Lemma stat_decoders_ok : Forall obeys (stat_decoders localtime malloc_ok).
Proof. unfold stat_decoders. decode_table. Qed.

Lemma signal_decoders_ok : Forall obeys (signal_decoders errnoent).
Proof. unfold signal_decoders. decode_table. Qed.
Lemma desc_decoders_ok : Forall obeys desc_decoders.
Proof. unfold desc_decoders. decode_table. Qed.
Lemma resource_decoders_ok : Forall obeys resource_decoders.
Proof. unfold resource_decoders. decode_table. Qed.
Lemma ipc_decoders_ok : Forall obeys ipc_decoders.
Proof. unfold ipc_decoders. decode_table. Qed.
Lemma process_decoders_ok : Forall obeys (process_decoders errnoent).
Proof. unfold process_decoders. decode_table. Qed.
Lemma net_decoders_ok : Forall obeys net_decoders.
Proof. unfold net_decoders. decode_table. Qed.

Lemma system_decoders_ok : Forall obeys (system_decoders malloc_ok).
Proof. unfold system_decoders. decode_table. Qed.

Lemma plain_decoders_ok : Forall obeys (plain_decoders localtime malloc_ok errnoent).
Proof.
  unfold plain_decoders. rewrite !Forall_app.
  split_and!; auto using io_decoders_ok, mem_decoders_ok, time_decoders_ok, file_decoders_ok,
    stat_decoders_ok, signal_decoders_ok, desc_decoders_ok, resource_decoders_ok, ipc_decoders_ok,
    process_decoders_ok, net_decoders_ok, system_decoders_ok.
Qed.
End contract.

(** ** The calls that change the memory map *)

(** [c] prints, returns [r] and marks the cache iff the call has returned. *)
Definition drops_cache (e : denv) (c : D Z) (r : Z) : Prop :=
  forall s, exists s', c e s = Some (r, s') /\ d_dump s' = d_dump s /\
    d_cache_dropped s' = d_cache_dropped s || negb (d_entering e).

Lemma drops_cache_after {A} e (c : D A) (f : A -> Z) r :
  Decodes e c (fun x => f x = r) ->
  drops_cache e (x ← c; _ ← if_exiting drop_cache; mret (f x)) r.
Proof.
  intros Hc s. destruct (Hc s) as (x & s1 & H1 & Hf & [_ Hd Hx]).
  unfold if_exiting, mbind, D_bind, ask. rewrite H1, Hf.
  destruct (d_entering e); eexists; (split; [done|]); simpl; rewrite ?orb_false_r, ?orb_true_r; done.
Qed.

Lemma drops_cache_ask e k r : drops_cache e (k e) r -> drops_cache e (ask ≫= k) r.
Proof. intros H s. exact (H s). Qed.
Lemma drops_cache_arg e i k r :
  drops_cache e (k (default 0 (u_arg e !! i))) r -> drops_cache e (arg i ≫= k) r.
Proof. intros H s. exact (H s). Qed.

(** ** Properties *)

(** The contract between a decoder and the stop handlers, for the [plain]
    decoders: on entry and on exit, whatever the arguments, whatever the
    tracee's memory holds and however the kernel answers, the decoder returns;
    its result names a format that trace_syscall_exiting knows; it only adds
    text to the log line, and neither writes to the byte dump nor drops the
    cached memory map. *)
Theorem plain_decoders_return `{K : Kernel} localtime malloc_ok errnoent e :
  env_ok e -> (forall n, malloc_ok n = true -> n < 2 ^ 48) ->
  forall f c s, In (f, c) (plain_decoders localtime malloc_ok errnoent) ->
  exists r s', c e s = Some (r, s') /\ rval_format_ok r /\ only_prints s s'.
Proof.
  intros Hok Hm f c s Hin. pose proof (plain_decoders_ok localtime malloc_ok errnoent e Hok Hm) as Hall.
  rewrite List.Forall_forall in Hall. apply (Hall _ Hin).
Qed.

(** Mmap, munmap and mprotect mark the cached memory map as stale exactly
    when they return, and say nothing to the dump; these are the only decoders
    of mem.c that do. *)
Theorem mapping_calls_drop_cache `{K : Kernel} e :
  drops_cache e sys_mmap RVAL_HEX /\ drops_cache e sys_munmap 0 /\ drops_cache e sys_mprotect 0.
Proof.
  split_and!.
  - unfold sys_mmap. apply drops_cache_ask, drops_cache_arg, (drops_cache_after e _ id).
    unfold print_mmap. decodes. done.
  - unfold sys_munmap. apply (drops_cache_after e _ (fun _ => 0)), Decodes_any; [decodes|done].
  - unfold sys_mprotect. apply (drops_cache_after e _ (fun _ => 0)), Decodes_any; [decodes|done].
Qed.

Lemma plain_decoders_return_witness :
  exists r s',
    @sys_fstat io_kernel (fun _ => None) (io_env [3; 0; 0; 0; 0; 0]) io_state = Some (r, s') /\
    rval_format_ok r /\ only_prints io_state s'.
Proof.
  refine (@plain_decoders_return io_kernel (fun _ => None) (fun n => n <? 1000) (fun _ => [])
    (io_env [3; 0; 0; 0; 0; 0]) (io_env_ok _) _ "sys_fstat" _ io_state _).
  - intros n Hn. apply Z.ltb_lt in Hn. lia.
  - do 89 right. left. reflexivity.
Defined.
