(* ===== verification/Qual.v ===== *)
(** * Personalities and qualifiers (syscall.c: qual_options, reallocate_qual,
      qualify_one, qual_syscall, qual_signal, qual_desc, lookup_class, qualify;
      personality tables)

    The qualifier table qual_vec holds one byte per personality and number; the
    number is a system call, a signal or a descriptor depending on the bit.  The
    static tables of sysent_vec are parameters of the section: the
    operations are generic in them, as the C code is. *)

From S2P Require Import Prelude Options Signal.
Local Open Scope string_scope.
Local Open Scope list_scope.
Local Open Scope Z_scope.

(** struct sysent (defs.h) *)
Record struct_sysent := mk_sysent {
  nargs : Z;
  sys_flags : Z;
  sys_func : string;             (* the name of the C function *)
  sys_name : option string
}.

Definition QUAL_TRACE : Z := 0x001.
Definition QUAL_ABBREV : Z := 0x002.
Definition QUAL_VERBOSE : Z := 0x004.
Definition QUAL_RAW : Z := 0x008.
Definition QUAL_SIGNAL : Z := 0x010.
Definition QUAL_READ : Z := 0x020.
Definition QUAL_WRITE : Z := 0x040.
Definition UNDEFINED_SCNO : Z := 0x100.
Definition DEFAULT_QUAL_FLAGS : Z := Z.lor (Z.lor QUAL_TRACE QUAL_ABBREV) QUAL_VERBOSE.

Definition TRACE_FILE : Z := 0x01.
Definition TRACE_IPC : Z := 0x02.
Definition TRACE_NETWORK : Z := 0x04.
Definition TRACE_PROCESS : Z := 0x08.
Definition TRACE_SIGNAL : Z := 0x10.
Definition TRACE_DESC : Z := 0x20.
Definition TRACE_MEMORY : Z := 0x40.
Definition SYSCALL_NEVER_FAILS : Z := 0x80.

Definition SUPPORTED_PERSONALITIES : nat := 3.

(** ** The table *)

Record quals := mk_quals {
  num_quals : nat;
  qual_vec : list (list Z)       (* one array per personality *)
}.

Definition no_quals : quals := mk_quals 0 (replicate SUPPORTED_PERSONALITIES []).

(** realloc to [n] entries and zero the new ones *)
Definition reallocate_qual (n : nat) (q : quals) : quals :=
  mk_quals n ((fun v => v ++ replicate (n - num_quals q) 0) <$> qual_vec q).

Definition qual_bit (inv : bool) (bitflag v : Z) : Z :=
  u8 (if inv then clear_flag v bitflag else set_flag v bitflag).

(** [pers]: [None] is -1, all personalities. *)
Definition pers_hit (pers : option nat) (p : nat) : bool :=
  match pers with None => true | Some p' => (p' =? p)%nat end.

Definition qualify_one (n : nat) (bitflag : Z) (inv : bool) (pers : option nat) (q : quals)
    : quals :=
  let q := if (num_quals q <=? n)%nat then reallocate_qual (n + 1) q else q in
  mk_quals (num_quals q)
    (imap (fun p v => if pers_hit pers p then alter (qual_bit inv bitflag) n v else v)
       (qual_vec q)).

(** for (i = 0; i < n; i++) if (sel(i)) qualify_one(i, ...) *)
Definition qualify_range (sel : nat -> bool) (n : nat) (bitflag : Z) (inv : bool)
    (pers : option nat) (q : quals) : quals :=
  foldl (fun q i => if sel i then qualify_one i bitflag inv pers q else q) q (seq 0 n).

(** ** Text helpers of the C library *)

Definition lower (c : ascii) : ascii :=
  if (65 <=? ord c) && (ord c <=? 90) then chr (ord c + 32) else c.
Fixpoint strcasecmp_eq (s t : string) : bool :=
  match s, t with
  | EmptyString, EmptyString => true
  | String c s, String d t => Ascii.eqb (lower c) (lower d) && strcasecmp_eq s t
  | _, _ => false
  end.
Fixpoint take_str (n : nat) (s : string) : string :=
  match n, s with
  | S n, String c s => String c (take_str n s)
  | _, _ => EmptyString
  end.

(** strtok(s, ","): the non-empty pieces.  [cur] is the piece being read. *)
Fixpoint pieces (cur s : string) : list string :=
  let emit rest := if String.eqb cur "" then rest else cur :: rest in
  match s with
  | EmptyString => emit []
  | String c s => if Ascii.eqb c "," then emit (pieces "" s)
                  else pieces (cur +:+ String c "") s
  end.
Definition strtok_comma (s : string) : list string := pieces "" s.

Section qual.
Context (sysent_vec : list (list struct_sysent)).

Definition nsyscalls (p : nat) : nat := length (default [] (sysent_vec !! p)).
Definition MAX_NSYSCALLS : nat :=
  Nat.max (Nat.max (nsyscalls 0) (nsyscalls 1)) (nsyscalls 2).
Definition MIN_QUALS : nat := if (255 <? MAX_NSYSCALLS)%nat then MAX_NSYSCALLS else 255.

(** signame(i) + 3 in the loop of qual_signal.  The last round, i == NSIG,
    formats "65" over the static buffer that holds "SIGRT_32" and reads past
    the new terminator. *)
Definition signame3 (i : Z) : string :=
  if i =? NSIG then "RT_32" else drop_str 3 (signame i).

Definition name_is (s : string) (e : struct_sysent) : bool :=
  match sys_name e with Some n => String.eqb s n | None => false end.

(** sysent_vec[p][i] satisfies [f] *)
Definition sysent_test (f : struct_sysent -> bool) (p i : nat) : bool :=
  match default [] (sysent_vec !! p) !! i with Some e => f e | None => false end.

(** The double loop over personalities and their system calls. *)
Definition qualify_sysents (f : struct_sysent -> bool) (bitflag : Z) (inv : bool) (q : quals)
    : quals :=
  foldl (fun q p => qualify_range (sysent_test f p) (nsyscalls p) bitflag inv (Some p) q)
    q (seq 0 SUPPORTED_PERSONALITIES).

(** The qualify functions return [None] for a nonzero C result. *)
Definition qual_syscall (s : string) (bitflag : Z) (inv : bool) (q : quals) : option quals :=
  if starts_dec s then
    let i := u32 (string_to_uint s) in
    if i >=? Z.of_nat MAX_NSYSCALLS then None
    else Some (qualify_one (Z.to_nat i) bitflag inv None q)
  else
    if existsb (fun p => existsb (sysent_test (name_is s) p) (seq 0 (nsyscalls p)))
         (seq 0 SUPPORTED_PERSONALITIES)
    then Some (qualify_sysents (name_is s) bitflag inv q) else None.

Definition signal_number (s : string) : option nat :=
  let s := if strcasecmp_eq (take_str 3 s) "SIG" then drop_str 3 s else s in
  head (List.filter (fun i => strcasecmp_eq s (signame3 (Z.of_nat i)))
          (seq 0 (S (Z.to_nat NSIG)))).

Definition qual_signal (s : string) (bitflag : Z) (inv : bool) (q : quals) : option quals :=
  if starts_dec s then
    let signo := string_to_uint s in
    if (signo <? 0) || (signo >? 255) then None
    else Some (qualify_one (Z.to_nat signo) bitflag inv None q)
  else
    match signal_number s with
    | Some i => Some (qualify_one i bitflag inv None q)
    | None => None
    end.

Definition qual_desc (s : string) (bitflag : Z) (inv : bool) (q : quals) : option quals :=
  if starts_dec s then
    let desc := string_to_uint s in
    if (desc <? 0) || (desc >? 0x7fff) then None
    else Some (qualify_one (Z.to_nat desc) bitflag inv None q)
  else None.

Definition lookup_class (s : string) : Z :=
  if String.eqb s "file" then TRACE_FILE
  else if String.eqb s "ipc" then TRACE_IPC
  else if String.eqb s "network" then TRACE_NETWORK
  else if String.eqb s "process" then TRACE_PROCESS
  else if String.eqb s "signal" then TRACE_SIGNAL
  else if String.eqb s "desc" then TRACE_DESC
  else if String.eqb s "memory" then TRACE_MEMORY
  else -1.

Inductive qual_kind := QSyscall | QSignal | QDesc.
Definition qual_options : list (Z * string * qual_kind) :=
  [ (QUAL_TRACE, "trace", QSyscall); (QUAL_TRACE, "t", QSyscall);
    (QUAL_ABBREV, "abbrev", QSyscall); (QUAL_ABBREV, "a", QSyscall);
    (QUAL_VERBOSE, "verbose", QSyscall); (QUAL_VERBOSE, "v", QSyscall);
    (QUAL_RAW, "raw", QSyscall); (QUAL_RAW, "x", QSyscall);
    (QUAL_SIGNAL, "signal", QSignal); (QUAL_SIGNAL, "signals", QSignal);
    (QUAL_SIGNAL, "s", QSignal);
    (QUAL_READ, "read", QDesc); (QUAL_READ, "reads", QDesc); (QUAL_READ, "r", QDesc);
    (QUAL_WRITE, "write", QDesc); (QUAL_WRITE, "writes", QDesc); (QUAL_WRITE, "w", QDesc) ].

Definition qual_run (k : qual_kind) : string -> Z -> bool -> quals -> option quals :=
  match k with QSyscall => qual_syscall | QSignal => qual_signal | QDesc => qual_desc end.

(** The option whose name and "=" start the text, and what follows it. *)
Fixpoint find_option (os : list (Z * string * qual_kind)) (s : string)
    : option (Z * qual_kind * string) :=
  match os with
  | [] => None
  | (b, name, k) :: os =>
      if String.prefix (name +:+ "=") s
      then Some (b, k, drop_str (String.length name + 1) s)
      else find_option os s
  end.

Definition qualify_item (bitflag : Z) (k : qual_kind) (inv : bool) (p : string) (q : quals)
    : option quals :=
  let n := lookup_class p in
  if (bitflag =? QUAL_TRACE) && (n >? 0)
  then Some (qualify_sysents (fun e => has_flag (sys_flags e) n) bitflag inv q)
  else qual_run k p bitflag inv q.

Fixpoint qualify_items (bitflag : Z) (k : qual_kind) (inv : bool) (ps : list string) (q : quals)
    : option quals :=
  match ps with
  | [] => Some q
  | p :: ps =>
      match qualify_item bitflag k inv p q with
      | Some q => qualify_items bitflag k inv ps q
      | None => None                 (* error_msg_and_die("invalid %s '%s'") *)
      end
  end.

(** The parsed form of a qualifying expression: the bit, the kind, the negation
    and the text; "none" is "!all". *)
Definition parse_qual (s : string) : Z * qual_kind * bool * string :=
  let '(b, k, s) := match find_option qual_options s with
                    | Some r => r
                    | None => (QUAL_TRACE, QSyscall, s)
                    end in
  let '(inv, s) := match s with
                   | String c s' => if Ascii.eqb c "!" then (true, s') else (false, s)
                   | EmptyString => (false, s)
                   end in
  if String.eqb s "none" then (b, k, negb inv, "all") else (b, k, inv, s).

Definition qualify (s : string) (q : quals) : option quals :=
  let q := if (num_quals q =? 0)%nat then reallocate_qual MIN_QUALS q else q in
  let '(b, k, inv, s) := parse_qual s in
  if String.eqb s "all" then Some (qualify_range (fun _ => true) (num_quals q) b inv None q)
  else
    let q := qualify_range (fun _ => true) (num_quals q) b (negb inv) None q in
    qualify_items b k inv (strtok_comma s) q.
End qual.

(** ** Reading the table *)

Definition get_qual (q : quals) (p i : nat) : Z := default 0 (default [] (qual_vec q !! p) !! i).

(** Three arrays of num_quals bytes. *)
Record wf_quals (q : quals) : Prop := {
  wf_pers : length (qual_vec q) = SUPPORTED_PERSONALITIES;
  wf_len : Forall (fun v => length v = num_quals q) (qual_vec q);
  wf_u8 : Forall (Forall is_u8) (qual_vec q)
}.

Lemma wf_no_quals : wf_quals no_quals.
Proof. split; [done| |]; repeat constructor. Qed.

Lemma get_qual_u8 q p i : wf_quals q -> is_u8 (get_qual q p i).
Proof.
  intros [_ _ Hu]. unfold get_qual. destruct (qual_vec q !! p) as [v|] eqn:Hv; [|done]. simpl.
  destruct (v !! i) as [b|] eqn:Hb; [|done]. simpl.
  rewrite Forall_lookup in Hu. specialize (Hu _ _ Hv). rewrite Forall_lookup in Hu. eauto.
Qed.

Lemma get_qual_out q p i : wf_quals q -> (num_quals q <= i)%nat -> get_qual q p i = 0.
Proof.
  intros [_ Hl _] Hi. unfold get_qual. destruct (qual_vec q !! p) as [v|] eqn:Hv; [|done].
  rewrite Forall_lookup in Hl. specialize (Hl _ _ Hv). simpl. by rewrite lookup_ge_None_2 by lia.
Qed.

Lemma reallocate_wf n q : wf_quals q -> (num_quals q <= n)%nat -> wf_quals (reallocate_qual n q).
Proof.
  intros [Hp Hl Hu] Hn. split; simpl.
  - by rewrite length_fmap.
  - apply Forall_fmap. apply (Forall_impl _ _ _ Hl). intros v Hv. simpl.
    rewrite length_app, length_replicate. lia.
  - apply Forall_fmap. apply (Forall_impl _ _ _ Hu). intros v Hv. simpl.
    apply Forall_app. split; [done|]. by apply Forall_replicate.
Qed.

Lemma reallocate_get n q p i : get_qual (reallocate_qual n q) p i = get_qual q p i.
Proof.
  unfold get_qual. simpl. rewrite list_lookup_fmap. destruct (qual_vec q !! p) as [v|]; [|done].
  simpl. destruct (decide (i < length v)%nat); [by rewrite lookup_app_l|].
  rewrite lookup_app_r, (lookup_ge_None_2 v) by lia. simpl.
  destruct (replicate _ 0 !! _) as [z|] eqn:Hz; [|done]. by apply lookup_replicate in Hz as [-> _].
Qed.

Lemma qualify_one_wf n b inv pers q :
  wf_quals q -> wf_quals (qualify_one n b inv pers q) /\
  num_quals (qualify_one n b inv pers q) = Nat.max (num_quals q) (n + 1).
Proof.
  intros Hq. unfold qualify_one. set (q' := if (num_quals q <=? n)%nat then reallocate_qual (n + 1) q else q).
  assert (Hq' : wf_quals q' /\ num_quals q' = Nat.max (num_quals q) (n + 1)).
  { unfold q'. destruct (Nat.leb_spec (num_quals q) n).
    - split; [apply reallocate_wf; [done|lia]|simpl; lia].
    - split; [done|lia]. }
  destruct Hq' as [[Hp Hl Hu] Hn]. split; [|exact Hn]. split; simpl.
  - by rewrite length_imap.
  - apply Forall_lookup. intros p v Hv. rewrite list_lookup_imap in Hv.
    destruct (qual_vec q' !! p) as [w|] eqn:Hw; simpl in Hv; [|done]. simplify_eq.
    rewrite Forall_lookup in Hl. specialize (Hl _ _ Hw).
    destruct (pers_hit pers p); [by rewrite length_alter|done].
  - apply Forall_lookup. intros p v Hv. rewrite list_lookup_imap in Hv.
    destruct (qual_vec q' !! p) as [w|] eqn:Hw; simpl in Hv; [|done]. simplify_eq.
    rewrite Forall_lookup in Hu. specialize (Hu _ _ Hw).
    destruct (pers_hit pers p); [|done]. apply Forall_alter; [done|].
    intros z _ _. unfold qual_bit. auto with alice.
Qed.

Lemma qualify_one_get n b inv pers q p i :
  wf_quals q -> (p < SUPPORTED_PERSONALITIES)%nat ->
  get_qual (qualify_one n b inv pers q) p i =
    if (i =? n)%nat && pers_hit pers p then qual_bit inv b (get_qual q p i) else get_qual q p i.
Proof.
  intros Hq Hp. unfold qualify_one. set (q' := if (num_quals q <=? n)%nat then reallocate_qual (n + 1) q else q).
  assert (Hq' : wf_quals q' /\ (n < num_quals q')%nat /\ get_qual q' p i = get_qual q p i).
  { unfold q'. destruct (Nat.leb_spec (num_quals q) n).
    - split; [apply reallocate_wf; [done|lia]|]. split; [simpl; lia|apply reallocate_get].
    - split_and!; [done|lia|done]. }
  destruct Hq' as ([Hpl Hl _] & Hn & <-). unfold get_qual at 1. simpl.
  rewrite list_lookup_imap.
  destruct (lookup_lt_is_Some_2 (qual_vec q') p ltac:(lia)) as [v Hv].
  rewrite Forall_lookup in Hl. specialize (Hl _ _ Hv).
  unfold get_qual. rewrite Hv. simpl. destruct (pers_hit pers p).
  2: by rewrite andb_false_r. rewrite andb_true_r. destruct (Nat.eqb_spec i n) as [->|Hne].
  - rewrite list_lookup_alter, decide_True by done.
    by destruct (lookup_lt_is_Some_2 v n ltac:(lia)) as [z ->].
  - by rewrite list_lookup_alter, decide_False by done.
Qed.

(** A set of table positions and what one pass over it does. *)
Record marks (sel : nat -> nat -> bool) (b : Z) (inv : bool) (q q' : quals) : Prop := {
  marks_wf : wf_quals q';
  marks_num : (num_quals q <= num_quals q')%nat;
  marks_get p i : (p < SUPPORTED_PERSONALITIES)%nat ->
    get_qual q' p i = if sel p i then qual_bit inv b (get_qual q p i) else get_qual q p i
}.

Lemma qual_bit_idem inv b v : qual_bit inv b (qual_bit inv b v) = qual_bit inv b v.
Proof.
  unfold qual_bit, set_flag, clear_flag, u8. rewrite <- !Z.land_ones by lia.
  apply Z.bits_inj'. intros n Hn.
  destruct inv; repeat (rewrite Z.land_spec || rewrite Z.lor_spec || rewrite Z.lnot_spec by done);
    by destruct (Z.testbit v n), (Z.testbit b n), (Z.testbit (Z.ones 8) n).
Qed.

Lemma marks_refl sel b inv q :
  wf_quals q -> (forall p i, sel p i = false) -> marks sel b inv q q.
Proof. intros Hq Hs. split; [done|done|]. intros p i _. by rewrite Hs. Qed.

Lemma marks_trans s1 s2 s b inv q q1 q2 :
  marks s1 b inv q q1 -> marks s2 b inv q1 q2 ->
  (forall p i, (p < SUPPORTED_PERSONALITIES)%nat -> s p i = s1 p i || s2 p i) ->
  marks s b inv q q2.
Proof.
  intros [Hw1 Hn1 Hg1] [Hw2 Hn2 Hg2] Hs. split; [done|lia|].
  intros p i Hp. rewrite Hg2, Hg1, Hs by done.
  destruct (s1 p i), (s2 p i); simpl; rewrite ?qual_bit_idem; done.
Qed.

Lemma marks_one n b inv pers q :
  wf_quals q ->
  marks (fun p i => (i =? n)%nat && pers_hit pers p) b inv q (qualify_one n b inv pers q).
Proof.
  intros Hq. destruct (qualify_one_wf n b inv pers q Hq) as [Hw Hn].
  split; [done|lia|]. intros p i Hp. by apply qualify_one_get.
Qed.

Lemma marks_range sel n b inv pers q :
  wf_quals q ->
  marks (fun p i => (i <? n)%nat && sel i && pers_hit pers p) b inv q
    (qualify_range sel n b inv pers q).
Proof.
  intros Hq. unfold qualify_range. induction n as [|n IH].
  { apply marks_refl; [done|]. intros p i. by destruct (i <? 0)%nat eqn:?. }
  rewrite seq_S, foldl_app. cbn [foldl Nat.add]. set (q1 := foldl _ _ _) in *.
  destruct (sel n) eqn:Hn.
  - eapply marks_trans; [exact IH|apply marks_one, IH|]. intros p i _. cbv beta.
    destruct (Nat.eqb_spec i n) as [Heq|], (Nat.ltb_spec i (S n)), (Nat.ltb_spec i n);
      try lia; try rewrite Heq, Hn; simpl; by destruct (pers_hit pers p), (sel i).
  - destruct IH as [Hw Hl Hg]. split; [done|done|]. intros p i Hp. rewrite Hg by done.
    destruct (Nat.ltb_spec i (S n)), (Nat.ltb_spec i n); try lia; try done.
    replace i with n by lia. by rewrite Hn.
Qed.

Section qualify_ok.
Context (sysent_vec : list (list struct_sysent)).
Context (Htables : Z.of_nat (MAX_NSYSCALLS sysent_vec) < 2 ^ 31).

(** What an item of the list selects, for each kind of qualifier. *)
Definition item_selects (bitflag : Z) (k : qual_kind) (s : string) (p i : nat) : bool :=
  let n := lookup_class s in
  if (bitflag =? QUAL_TRACE) && (n >? 0) then
    sysent_test sysent_vec (fun e => has_flag (sys_flags e) n) p i
  else if starts_dec s then (Z.of_nat i =? string_to_uint s)
  else match k with
       | QSyscall => sysent_test sysent_vec (name_is s) p i
       | QSignal => match signal_number s with Some j => (i =? j)%nat | None => false end
       | QDesc => false
       end.

Lemma marks_ext s1 s2 b inv q q' :
  (forall p i, (p < SUPPORTED_PERSONALITIES)%nat -> s1 p i = s2 p i) ->
  marks s1 b inv q q' -> marks s2 b inv q q'.
Proof.
  intros Hs [Hw Hn Hg]. split; [done|done|]. intros p i Hp. rewrite <- Hs by done. by apply Hg.
Qed.

Lemma sysent_test_bound f p i :
  sysent_test sysent_vec f p i = (i <? nsyscalls sysent_vec p)%nat && sysent_test sysent_vec f p i.
Proof.
  unfold sysent_test, nsyscalls. destruct (default [] (sysent_vec !! p) !! i) eqn:Hi.
  - apply lookup_lt_Some in Hi. by rewrite (proj2 (Nat.ltb_lt _ _) Hi).
  - by rewrite andb_false_r.
Qed.

Lemma marks_sysents f b inv q :
  wf_quals q ->
  marks (sysent_test sysent_vec f) b inv q (qualify_sysents sysent_vec f b inv q).
Proof.
  intros Hq. unfold qualify_sysents, SUPPORTED_PERSONALITIES. simpl.
  eapply marks_trans; [eapply marks_trans; [by apply marks_range|apply marks_range|done]
                      |apply marks_range|].
  1: by apply marks_range.
  1: by eapply marks_range, marks_range.
  intros p i Hp. rewrite sysent_test_bound.
  destruct p as [|[|[|p]]]; [..|unfold SUPPORTED_PERSONALITIES in Hp; lia]; simpl;
    rewrite ?andb_true_r, ?andb_false_r, ?orb_false_r; done.
Qed.

Lemma marks_number s b inv q :
  wf_quals q -> 0 <= string_to_uint s ->
  marks (fun p i => Z.of_nat i =? string_to_uint s) b inv q
    (qualify_one (Z.to_nat (string_to_uint s)) b inv None q).
Proof.
  intros Hq Hs. eapply marks_ext; [|by apply marks_one]. intros p i _. cbn [pers_hit].
  rewrite andb_true_r.
  destruct (Nat.eqb_spec i (Z.to_nat (string_to_uint s))),
    (Z.eqb_spec (Z.of_nat i) (string_to_uint s)); done || lia.
Qed.

Lemma qualify_item_marks b k inv s q q' :
  wf_quals q -> qualify_item sysent_vec b k inv s q = Some q' ->
  marks (item_selects b k s) b inv q q'.
Proof.
  intros Hq. unfold qualify_item, item_selects. destruct (_ && _).
  { intros [= <-]. by apply marks_sysents. }
  pose proof (string_to_uint_range s) as Hs.
  unfold qual_run. destruct k; unfold qual_syscall, qual_signal, qual_desc;
    destruct (starts_dec s).
  - destruct (_ >=? _) eqn:Hi; [done|]. intros [= <-].
    destruct Hs as [Hs|Hs].
    + rewrite Hs in Hi. change (u32 (-1)) with (2 ^ 32 - 1) in Hi. lia.
    + rewrite u32_id by (unfold is_u32; lia). apply marks_number; [done|lia].
  - destruct (existsb _ _); [|done]. intros [= <-]. by apply marks_sysents.
  - destruct (_ || _) eqn:Hi; [done|]. intros [= <-]. apply marks_number; [done|lia].
  - destruct (signal_number s) as [j|]; [|done]. intros [= <-].
    eapply marks_ext; [|by apply marks_one]. intros p i _. cbn [pers_hit].
    by rewrite andb_true_r.
  - destruct (_ || _) eqn:Hi; [done|]. intros [= <-]. apply marks_number; [done|lia].
  - done.
Qed.

Lemma qualify_items_marks b k inv ps q q' :
  wf_quals q -> qualify_items sysent_vec b k inv ps q = Some q' ->
  marks (fun p i => existsb (fun s => item_selects b k s p i) ps) b inv q q'.
Proof.
  revert q. induction ps as [|s ps IH]; intros q Hq; simpl.
  { intros [= <-]. by apply marks_refl. }
  destruct (qualify_item _ _ _ _ _ _) as [q1|] eqn:H1; [|done]. intros H2.
  apply qualify_item_marks in H1; [|done].
  eapply marks_trans; [exact H1|apply IH; [apply H1|done]|done].
Qed.

(** One bit of the qual_bit update. *)
Lemma has_flag_land_u8 v b : is_u8 b -> has_flag (u8 v) b = has_flag v b.
Proof.
  intros Hb. unfold has_flag, u8. rewrite <- Z.land_ones by lia. f_equal. f_equal.
  rewrite <- Z.land_assoc. f_equal. rewrite Z.land_comm, Z.land_ones by lia.
  by apply Z.mod_small.
Qed.

Lemma has_flag_qual_bit inv b v : is_u8 b -> b <> 0 -> has_flag (qual_bit inv b v) b = negb inv.
Proof.
  intros Hb Hz. unfold qual_bit. rewrite has_flag_land_u8 by done.
  destruct inv; [by rewrite has_clear_sub by apply Z.land_diag|].
  by rewrite has_set_sub by (done || apply Z.land_diag).
Qed.

Lemma has_flag_qual_bit_other inv b g v :
  is_u8 g -> Z.land b g = 0 -> has_flag (qual_bit inv b v) g = has_flag v g.
Proof.
  intros Hg Hd. unfold qual_bit. rewrite has_flag_land_u8 by done.
  destruct inv; [by rewrite has_clear_disjoint|by rewrite has_set_disjoint].
Qed.

(** The table the lists start from. *)
Definition start_quals (q : quals) : quals :=
  if (num_quals q =? 0)%nat then reallocate_qual (MIN_QUALS sysent_vec) q else q.

Lemma start_quals_ok q :
  wf_quals q -> wf_quals (start_quals q) /\
  forall p i, get_qual (start_quals q) p i = get_qual q p i.
Proof.
  intros Hq. unfold start_quals. destruct (Nat.eqb_spec (num_quals q) 0); [|done].
  split; [apply reallocate_wf; [done|lia]|]. intros p i. apply reallocate_get.
Qed.
End qualify_ok.

(** ** Properties *)

(** C34: the meaning of a qualifying expression.  When qualify accepts
    "opt=[!]item,item,..." (or "[!]all", "none"), then for every personality and
    every number the table covered, the option's bit is set exactly when the
    number is selected (by a class of system calls, a number or a name,
    whatever the order of the items), inverted by "!" and "none"; every other
    bit of every entry keeps its value, including entries added when the table
    grows. *)
Theorem qualify_semantics sysent_vec q q' s b k inv text :
  Z.of_nat (MAX_NSYSCALLS sysent_vec) < 2 ^ 31 -> wf_quals q ->
  parse_qual s = (b, k, inv, text) -> is_u8 b -> b <> 0 ->
  qualify sysent_vec s q = Some q' ->
  let selected p i := String.eqb text "all" ||
    existsb (fun item => item_selects sysent_vec b k item p i) (strtok_comma text) in
  wf_quals q' /\
  (num_quals (start_quals sysent_vec q) <= num_quals q')%nat /\
  (forall p i, (p < SUPPORTED_PERSONALITIES)%nat ->
     (i < num_quals (start_quals sysent_vec q))%nat ->
     has_flag (get_qual q' p i) b = xorb inv (selected p i)) /\
  (forall p i g, (p < SUPPORTED_PERSONALITIES)%nat -> is_u8 g -> Z.land b g = 0 ->
     has_flag (get_qual q' p i) g = has_flag (get_qual q p i) g).
Proof.
  intros Htab Hq Hparse Hb Hb0 Hrun selected. unfold qualify in Hrun.
  fold (start_quals sysent_vec q) in Hrun. rewrite Hparse in Hrun.
  destruct (start_quals_ok sysent_vec q Hq) as [Hq0 Hg0]. set (q0 := start_quals _ q) in *.
  unfold selected. destruct (String.eqb text "all").
  - injection Hrun as <-. destruct (marks_range (fun _ => true) (num_quals q0) b inv None q0 Hq0)
      as [Hw Hn Hg]. split_and!; [done|done| |]; intros p i.
    + intros Hp Hi. rewrite Hg, (proj2 (Nat.ltb_lt _ _) Hi) by done. simpl.
      rewrite has_flag_qual_bit by done. by destruct inv.
    + intros g Hp Hgu Hd. rewrite Hg, <- Hg0 by done. case_match; [|done].
      by apply has_flag_qual_bit_other.
  - pose proof (marks_range (fun _ => true) (num_quals q0) b (negb inv) None q0 Hq0) as [Hw Hn Hg].
    set (q1 := qualify_range _ _ _ _ _ _) in *.
    apply qualify_items_marks in Hrun as [Hw' Hn' Hg']; [|done..].
    split_and!; [done|lia| |]; intros p i.
    + intros Hp Hi. rewrite Hg', Hg, (proj2 (Nat.ltb_lt _ _) Hi) by done. simpl.
      destruct (existsb _ _); rewrite ?has_flag_qual_bit by done; by destruct inv.
    + intros g Hp Hgu Hd. rewrite Hg', Hg, <- Hg0 by done.
      repeat case_match; rewrite ?has_flag_qual_bit_other by done; done.
Qed.

(** A small table for the witnesses: three system calls. *)
Definition demo_sysents : list (list struct_sysent) :=
  [ [ mk_sysent 3 TRACE_DESC "sys_read" (Some "read");
      mk_sysent 3 TRACE_FILE "sys_open" (Some "open"); mk_sysent 0 0 "printargs" None ];
    [ mk_sysent 1 TRACE_FILE "sys_open" (Some "open") ]; [] ].

Lemma qualify_semantics_witness :
  exists q', qualify demo_sysents "trace=!open" no_quals = Some q' /\
    has_flag (get_qual q' 0 1) QUAL_TRACE = false /\
    has_flag (get_qual q' 1 0) QUAL_TRACE = false /\
    has_flag (get_qual q' 0 0) QUAL_TRACE = true.
Proof.
  destruct (qualify demo_sysents "trace=!open" no_quals) as [q'|] eqn:H;
    [|vm_compute in H; discriminate].
  exists q'. split; [reflexivity|].
  destruct (qualify_semantics demo_sysents no_quals q' "trace=!open" QUAL_TRACE QSyscall true
              "open") as (_ & _ & Hsel & _).
  - vm_compute. reflexivity.
  - apply wf_no_quals.
  - reflexivity.
  - vm_compute. split; congruence.
  - discriminate.
  - exact H.
  - split; [|split]; rewrite Hsel; try (vm_compute; reflexivity);
      apply Nat.ltb_lt; vm_compute; reflexivity.
Defined.

(** "all" stops at the end of the table: after "-e write=all" on a fresh
    table, descriptors from MIN_QUALS up (which "-e write=N" would accept, up to
    32767) are not marked. *)
Theorem qualify_all_misses_large_descriptors sysent_vec p i :
  Z.of_nat (MAX_NSYSCALLS sysent_vec) < 2 ^ 31 -> (p < SUPPORTED_PERSONALITIES)%nat ->
  (MIN_QUALS sysent_vec <= i)%nat ->
  exists q', qualify sysent_vec "write=all" no_quals = Some q' /\
             has_flag (get_qual q' p i) QUAL_WRITE = false.
Proof.
  intros Htab Hp Hi. unfold qualify. fold (start_quals sysent_vec no_quals).
  destruct (start_quals_ok sysent_vec no_quals wf_no_quals) as [Hq0 Hg0].
  change (parse_qual "write=all") with (QUAL_WRITE, QDesc, false, "all"). simpl String.eqb. cbn iota.
  eexists. split; [done|]. set (q0 := start_quals _ _) in *.
  destruct (marks_range (fun _ => true) (num_quals q0) QUAL_WRITE false None q0 Hq0) as [_ _ Hg].
  rewrite Hg by done. change (num_quals q0) with (MIN_QUALS sysent_vec).
  rewrite (proj2 (Nat.ltb_ge _ _) Hi). simpl. rewrite Hg0.
  destruct p as [|[|[|p]]]; [done..|unfold SUPPORTED_PERSONALITIES in Hp; lia].
Qed.

Lemma qualify_all_misses_large_descriptors_witness :
  exists q', qualify demo_sysents "write=all" no_quals = Some q' /\
             has_flag (get_qual q' 0 300) QUAL_WRITE = false.
Proof.
  apply (qualify_all_misses_large_descriptors demo_sysents 0 300).
  - vm_compute. reflexivity.
  - apply Nat.ltb_lt. reflexivity.
  - apply Nat.leb_le. vm_compute. reflexivity.
Defined.
