(* ===== verification/Mmap.v ===== *)
(** * Stack traces: the /proc/pid/maps cache and address normalisation
      (syscall.c: alloc_mmap_cache, delete_mmap_cache, print_normalized_addr,
      print_i386_ebp_backtrace, output_stacktrace)

    EXITIF(c) terminates the program; here it is the outcome [ExitIf].  The
    contents of /proc/pid/maps are a string, read with fgets and scanned with
    sscanf as the code does. *)

From S2P Require Import Prelude Tracee Decode.
Local Open Scope string_scope.
Local Open Scope list_scope.
Local Open Scope Z_scope.

Record mmap_cache_t := mk_mmap {
  start_addr : Z;
  end_addr : Z;
  mmap_offset : Z;
  binary_filename : string
}.

(** ** Scanning a line *)

Definition hex_val (c : ascii) : option Z :=
  let o := ord c in
  if (48 <=? o) && (o <=? 57) then Some (o - 48)
  else if (97 <=? o) && (o <=? 102) then Some (o - 87)
  else if (65 <=? o) && (o <=? 70) then Some (o - 55)
  else None.

(** The digits of a number in [base] (16 for %lx and %x, 10 for %d); at least
    one is needed; a value beyond unsigned long saturates. *)
Fixpoint scan_digits (base acc : Z) (some : bool) (s : string) : option (Z * string) :=
  let stop := if some then Some (acc, s) else None in
  match s with
  | EmptyString => stop
  | String c s' =>
      match hex_val c with
      | Some d =>
          if d <? base then scan_digits base (Z.min (2 ^ 64 - 1) (base * acc + d)) true s'
          else stop
      | None => stop
      end
  end.
Definition scan_num (base : Z) (s : string) : option (Z * string) :=
  scan_digits base 0 false (skip_ws s).
Definition scan_lit (c : ascii) (s : string) : option string :=
  match s with
  | String d s => if Ascii.eqb c d then Some s else None
  | EmptyString => None
  end.
(** %*c%*c%*c%*c *)
Definition scan_4c (s : string) : option string :=
  match s with
  | String _ (String _ (String _ (String _ s))) => Some s
  | _ => None
  end.
(** %s *)
Fixpoint word_of (s : string) : string :=
  match s with
  | String c s => if is_space c then EmptyString else String c (word_of s)
  | EmptyString => EmptyString
  end.

(** sscanf(s, "%lx-%lx %*c%*c%*c%*c %lx %*x:%*x %*d %s", ..): the four values
    assigned when every directive matched.  [None]: binary_path was not
    assigned and is still the empty string. *)
Definition scan_line (s : string) : option mmap_cache_t :=
  '(a, s) ← scan_num 16 s;
  s ← scan_lit "-" s;
  '(b, s) ← scan_num 16 s;
  s ← scan_4c (skip_ws s);
  '(off, s) ← scan_num 16 s;
  '(_, s) ← scan_num 16 s;
  s ← scan_lit ":" s;
  '(_, s) ← scan_num 16 s;
  '(_, s) ← scan_num 10 s;
  let path := word_of (skip_ws s) in
  if String.eqb path "" then None else Some (mk_mmap a b off path).

(** while (fgets(s, 300, f)): chunks of at most 299 characters that end at a
    newline.  The first component is the chunk being read. *)
Fixpoint fgets_chunks (room : nat) (s : string) : string * list string :=
  match s with
  | EmptyString => ("", [])
  | String c s =>
      match room with
      | S (S room) =>
          if Ascii.eqb c "010" then
            (String c "", if String.eqb s "" then []
                          else let '(h, t) := fgets_chunks 299 s in h :: t)
          else let '(h, t) := fgets_chunks (S room) s in (String c h, t)
      | _ =>
          (String c "", if String.eqb s "" then []
                        else let '(h, t) := fgets_chunks 299 s in h :: t)
      end
  end.
Definition fgets_lines (s : string) : list string :=
  if String.eqb s "" then [] else let '(h, t) := fgets_chunks 299 s in h :: t.

(** ** Building the cache *)

Fixpoint last_char (s : string) : option ascii :=
  match s with
  | EmptyString => None
  | String c EmptyString => Some c
  | String _ s => last_char s
  end.
(** "[vdso]", "[heap]", ... *)
Definition fake_file (path : string) : bool :=
  match path, last_char path with
  | String c _, Some d => Ascii.eqb c "[" && Ascii.eqb d "]"
  | _, _ => false
  end.

Inductive outcome (A : Type) :=
  | Ok (x : A)
  | ExitIf              (* EXITIF: message and exit(1) *)
  | Overflow            (* access outside an allocated array *)
  | NoFuel.             (* the loop is still running *)
Arguments Ok {A}. Arguments ExitIf {A}. Arguments Overflow {A}. Arguments NoFuel {A}.

(** The array under construction: its entries, in order, and the number of
    slots allocated. *)
Record cache := mk_cache { entries : list mmap_cache_t; cap : Z }.
Definition cache_size (c : cache) : Z := Z.of_nat (length (entries c)).

Definition add_entry (c : cache) (m : mmap_cache_t) : outcome cache :=
  if end_addr m <? start_addr m then ExitIf
  else if cap c <=? cache_size c then Overflow
  else
    let bad := match last (entries c) with
               | Some p => (start_addr p >=? start_addr m) || (end_addr p >? start_addr m)
               | None => false
               end in
    if bad then ExitIf
    else
      let size := cache_size c + 1 in
      Ok (mk_cache (entries c ++ [m]) (if size >=? cap c then cap c * 2 else cap c)).

Fixpoint add_lines (ls : list string) (c : cache) : outcome cache :=
  match ls with
  | [] => Ok c
  | l :: ls =>
      match scan_line l with
      | None => add_lines ls c
      | Some m =>
          if fake_file (binary_filename m) then add_lines ls c
          else match add_entry c m with
               | Ok c => add_lines ls c
               | ExitIf => ExitIf | Overflow => Overflow | NoFuel => NoFuel
               end
      end
  end.

(** [file] is what fopen and the reads of /proc/pid/maps give; [old] is
    tcp->mmap_cache. *)
Definition alloc_mmap_cache (old : option cache) (file : option string) : outcome cache :=
  match old, file with
  | Some _, _ | _, None => ExitIf
  | None, Some text => add_lines (fgets_lines text) (mk_cache [] 10)
  end.

Definition delete_mmap_cache (old : option cache) : option cache := None.

(** ** Looking up an address *)

(** Slot [i] of the array: an entry, or the uninitialised contents of a slot
    that is allocated and not yet used. *)
Definition slot (garbage : nat -> mmap_cache_t) (c : cache) (i : Z) : option mmap_cache_t :=
  if (0 <=? i) && (i <? cap c) then
    Some (default (garbage (Z.to_nat i)) (entries c !! Z.to_nat i))
  else None.

Definition covers (m : mmap_cache_t) (addr : Z) : bool :=
  (addr >=? start_addr m) && (addr <? end_addr m).

Definition norm_text (m : mmap_cache_t) (addr : Z) : string :=
  binary_filename m +:+ ":0x" +:+ fmt_x (u64 (addr - start_addr m + mmap_offset m)) +:+
  ":0x" +:+ fmt_x addr +:+ " ".

(** The binary search: the slot index where it stopped with a hit. *)
Fixpoint search (fuel : nat) (garbage : nat -> mmap_cache_t) (c : cache) (addr lower upper : Z)
    : outcome (option Z) :=
  match fuel with
  | O => NoFuel
  | S fuel =>
      if lower <=? upper then
        let mid := Z.quot (upper + lower) 2 in
        match slot garbage c mid with
        | None => Overflow
        | Some cur =>
            if covers cur addr then Ok (Some mid)
            else if lower =? upper then
              if lower =? mid then Ok None else ExitIf
            else if addr <? start_addr cur then search fuel garbage c addr lower (mid - 1)
            else search fuel garbage c addr (mid + 1) upper
        end
      else Ok None
  end.

Definition search_fuel (c : cache) : nat := S (S (length (entries c))).

Definition print_normalized_addr (garbage : nat -> mmap_cache_t) (c : option cache) (addr : Z)
    : outcome string :=
  match c with
  | None => ExitIf
  | Some c =>
      match search (search_fuel c) garbage c addr 0 (cache_size c) with
      | Ok (Some i) =>
          match slot garbage c i with
          | Some m => Ok (norm_text m addr)
          | None => Overflow
          end
      | Ok None => Ok ""
      | ExitIf => ExitIf | Overflow => Overflow | NoFuel => NoFuel
      end
  end.

(** ** Invariant: sorted, disjoint regions and a spare slot *)

Definition region_ok (m : mmap_cache_t) : Prop := start_addr m <= end_addr m.
Definition before (p m : mmap_cache_t) : Prop :=
  start_addr p < start_addr m /\ end_addr p <= start_addr m.

Record wf_cache (c : cache) : Prop := {
  wf_room : cache_size c < cap c;
  wf_regions : Forall region_ok (entries c);
  wf_sorted : forall i j p m, (i < j)%nat ->
    entries c !! i = Some p -> entries c !! j = Some m -> before p m
}.

Lemma before_trans p q m : region_ok q -> before p q -> before q m -> before p m.
Proof. unfold region_ok, before. lia. Qed.

(** What add_entry accepts. *)
Definition fits (es : list mmap_cache_t) (m : mmap_cache_t) : bool :=
  (start_addr m <=? end_addr m) &&
  match last es with
  | Some p => (start_addr p <? start_addr m) && (end_addr p <=? start_addr m)
  | None => true
  end.

Definition grown (c : cache) (m : mmap_cache_t) : cache :=
  mk_cache (entries c ++ [m]) (if cache_size c + 1 >=? cap c then cap c * 2 else cap c).

Lemma add_entry_spec c m :
  cache_size c < cap c ->
  add_entry c m = if fits (entries c) m then Ok (grown c m) else ExitIf.
Proof.
  intros Hroom. unfold add_entry, fits. rewrite (proj2 (Z.leb_gt _ _) Hroom).
  destruct (Z.ltb_spec (end_addr m) (start_addr m)), (Z.leb_spec (start_addr m) (end_addr m));
    try lia; [done|]. simpl.
  destruct (last (entries c)) as [p|]; [|done].
  replace ((start_addr p >=? start_addr m) || (end_addr p >? start_addr m))
    with (negb ((start_addr p <? start_addr m) && (end_addr p <=? start_addr m))) by lia.
  by destruct (_ && _).
Qed.

Lemma grown_wf c m : wf_cache c -> fits (entries c) m = true -> wf_cache (grown c m).
Proof.
  intros [Hroom Hreg Hsort] Hfit. unfold fits in Hfit. apply andb_true_iff in Hfit as [Hm Hlast].
  apply Z.leb_le in Hm. split; simpl.
  - unfold cache_size in *. simpl. rewrite length_app. simpl. destruct (_ >=? _) eqn:?; lia.
  - apply Forall_app. split; [done|]. by repeat constructor.
  - assert (Hnew : forall i p, entries c !! i = Some p -> before p m).
    { intros i p Hp. destruct (last (entries c)) as [q|] eqn:Hq.
      2: { apply last_None in Hq. rewrite Hq in Hp. done. }
      rewrite last_lookup in Hq. assert (Hqm : before q m) by (unfold before; lia).
      apply lookup_lt_Some in Hp as Hi.
      destruct (decide (i = pred (length (entries c)))) as [->|Hne]; [congruence|].
      eapply (before_trans p q m); [|eapply Hsort; [|done..]; lia|done].
      rewrite Forall_lookup in Hreg. by eapply Hreg. }
    intros i j p q Hij Hp Hq. apply lookup_app_Some in Hq as [Hq|[Hj Hq]].
    + rewrite lookup_app_l in Hp by (apply lookup_lt_Some in Hq; lia). by eapply Hsort.
    + apply list_lookup_singleton_Some in Hq as [Hj0 <-].
      rewrite lookup_app_l in Hp by lia. by eapply Hnew.
Qed.

(** The regions of a file, and whether alloc_mmap_cache accepts them. *)
Definition file_regions (text : string) : list mmap_cache_t :=
  filter (fun m => fake_file (binary_filename m) = false) (omap scan_line (fgets_lines text)).

Fixpoint all_fit (es ms : list mmap_cache_t) : bool :=
  match ms with
  | [] => true
  | m :: ms => fits es m && all_fit (es ++ [m]) ms
  end.

Lemma add_lines_spec ls c :
  wf_cache c ->
  let ms := filter (fun m => fake_file (binary_filename m) = false) (omap scan_line ls) in
  if all_fit (entries c) ms
  then exists c', add_lines ls c = Ok c' /\ entries c' = entries c ++ ms /\ wf_cache c'
  else add_lines ls c = ExitIf.
Proof.
  revert c. induction ls as [|l ls IH]; intros c Hc; simpl.
  { exists c. by rewrite app_nil_r. }
  destruct (scan_line l) as [m|]; [|by apply IH]. rewrite filter_cons.
  destruct (fake_file (binary_filename m)) eqn:Hf; simpl; [by apply IH|].
  rewrite add_entry_spec by apply Hc.
  destruct (fits (entries c) m) eqn:Hfit; [|done]. simpl.
  specialize (IH (grown c m) (grown_wf c m Hc Hfit)). simpl in IH.
  by rewrite <- app_assoc in IH.
Qed.

Lemma wf_empty : wf_cache (mk_cache [] 10).
Proof. split; [done|constructor|]. done. Qed.

(** ** The search *)

Lemma slot_entry g c i m : entries c !! i = Some m -> Z.of_nat i < cap c ->
  slot g c (Z.of_nat i) = Some m.
Proof.
  intros Hm Hi. unfold slot. replace (_ && _) with true by lia. by rewrite Nat2Z.id, Hm.
Qed.

Lemma search_spec g c addr fuel lower upper :
  wf_cache c -> 0 <= lower -> lower <= upper + 1 -> upper <= cache_size c ->
  upper - lower + 1 < Z.of_nat fuel ->
  exists r,
    search fuel g c addr lower upper = Ok r /\
    (forall i m, entries c !! i = Some m -> covers m addr = true ->
       lower <= Z.of_nat i <= upper -> r = Some (Z.of_nat i)) /\
    (forall j, r = Some j -> lower <= j <= upper /\
       exists m, slot g c j = Some m /\ covers m addr = true).
Proof.
  intros Hc. revert lower upper. induction fuel as [|fuel IH]; intros lower upper Hl Hlu Hu Hf;
    [lia|].
  cbn [search]. destruct (Z.leb_spec lower upper) as [Hle|Hgt].
  2: { exists None. split; [done|]. split; [intros; lia|done]. }
  destruct Hc as [Hroom Hreg Hsort].
  rewrite Z.quot_div_nonneg by lia. set (mid := (upper + lower) / 2).
  assert (Hmid : lower <= mid <= upper) by (unfold mid; Z.div_mod_to_equations; lia).
  destruct (slot g c mid) as [cur|] eqn:Hcur.
  2: { unfold slot in Hcur. replace (_ && _) with true in Hcur by lia. done. }
  (* an entry that covers the address is the one probed, or on the right side *)
  assert (Hside : forall i m, entries c !! i = Some m -> covers m addr = true ->
     (Z.of_nat i < mid -> lower <= Z.of_nat i -> addr < start_addr cur) /\
     (Z.of_nat i > mid -> addr >= start_addr cur /\ addr >= end_addr cur) /\ (Z.of_nat i = mid -> cur = m)).
  { intros i m Hm Hcov. apply lookup_lt_Some in Hm as Hi. unfold covers in Hcov.
    unfold slot in Hcur. replace (_ && _) with true in Hcur by lia. simplify_eq.
    destruct (entries c !! Z.to_nat mid) as [q|] eqn:Hq.
    - split_and!; intros.
      + pose proof (Hsort i (Z.to_nat mid) m q ltac:(lia) Hm Hq) as [? ?]. simpl. lia.
      + pose proof (Hsort (Z.to_nat mid) i q m ltac:(lia) Hq Hm) as [? ?]. simpl. lia.
      + simpl. replace i with (Z.to_nat mid) in Hm by lia. congruence.
    - apply lookup_ge_None in Hq. unfold cache_size in *.
      assert (lower < upper -> mid < upper) by (unfold mid; Z.div_mod_to_equations; lia).
      split_and!; intros; lia. }
  destruct (covers cur addr) eqn:Hcov.
  - exists (Some mid). split; [done|]. split.
    + intros i m Hm Hcm Hi. destruct (Hside i m Hm Hcm) as (H1 & H2 & H3). unfold covers in *.
      destruct (Z.lt_trichotomy (Z.of_nat i) mid) as [?|[->|?]]; [|done|].
      * exfalso. specialize (H1 ltac:(lia) ltac:(lia)). lia.
      * exfalso. specialize (H2 ltac:(lia)). lia.
    + intros j [= <-]. eauto.
  - assert (Hnot : forall i m, entries c !! i = Some m -> covers m addr = true ->
                     Z.of_nat i <> mid).
    { intros i m Hm Hcm Hi. destruct (Hside i m Hm Hcm) as (_ & _ & H3).
      rewrite H3 in Hcov by done. congruence. }
    destruct (Z.eqb_spec lower upper) as [->|Hne].
    { replace (upper =? mid) with true by lia. exists None. split; [done|]. split; [|done].
      intros i m Hm Hcm Hi. exfalso. eapply Hnot; [done..|lia]. }
    destruct (Z.ltb_spec addr (start_addr cur)) as [Hlt|Hge].
    + destruct (IH lower (mid - 1)) as (r & Hr & Hfound & Hhit); [lia..|].
      exists r. split_and!; [done| |].
      * intros i m Hm Hcm Hi. destruct (Hside i m Hm Hcm) as (_ & H2 & _).
        specialize (Hnot i m Hm Hcm). eapply Hfound; [done..|]. lia.
      * intros j Hj. destruct (Hhit j Hj) as [? ?]. split; [lia|done].
    + destruct (IH (mid + 1) upper) as (r & Hr & Hfound & Hhit); [lia..|].
      exists r. split_and!; [done| |].
      * intros i m Hm Hcm Hi. destruct (Hside i m Hm Hcm) as (H1 & _ & _).
        specialize (Hnot i m Hm Hcm). eapply Hfound; [done..|]. lia.
      * intros j Hj. destruct (Hhit j Hj) as [? ?]. split; [lia|done].
Qed.

(** ** The frame-pointer walk *)

Section backtrace.
Context `{K : Kernel} (ws pid : Z) (garbage : nat -> mmap_cache_t) (c : option cache).

(** A [long] variable whose first bytes were overwritten by umoven. *)
Definition overlay (bs : list Z) (old : Z) : Z :=
  le (bs ++ drop (length bs) (bytes_le 8 old)).

(** while (ret == 0 && cur_ebp != 0): the text printed.  The frames the tracee
    lays out are not bounded by the code; [fuel] bounds the walk. *)
Fixpoint ebp_loop (fuel : nat) (cur_ebp retaddr : Z) (s : pstate) : outcome (string * pstate) :=
  match fuel with
  | O => NoFuel
  | S fuel =>
      if cur_ebp =? 0 then Ok ("", s)
      else
        let '((_, bs), s) := umoven ws pid (u64 (cur_ebp + ws)) ws s in
        let retaddr := overlay bs retaddr in
        match print_normalized_addr garbage c retaddr with
        | Ok t =>
            let '((ret, bs), s) := umoven ws pid cur_ebp ws s in
            let cur_ebp := overlay bs cur_ebp in
            if ret =? 0 then
              match ebp_loop fuel cur_ebp retaddr s with
              | Ok (t', s) => Ok (t +:+ t', s)
              | ExitIf => ExitIf | Overflow => Overflow | NoFuel => NoFuel
              end
            else Ok (t, s)
        | ExitIf => ExitIf | Overflow => Overflow | NoFuel => NoFuel
        end
  end.

(** [regs]: rip and rbp from PTRACE_GETREGS, [None] when it failed. *)
Definition print_i386_ebp_backtrace (fuel : nat) (regs : option (Z * Z)) (s : pstate)
    : outcome (string * pstate) :=
  match regs with
  | None => ExitIf
  | Some (rip, rbp) =>
      match print_normalized_addr garbage c rip with
      | Ok t =>
          match ebp_loop fuel rbp 0 s with
          | Ok (t', s) => Ok (t +:+ t', s)
          | ExitIf => ExitIf | Overflow => Overflow | NoFuel => NoFuel
          end
      | ExitIf => ExitIf | Overflow => Overflow | NoFuel => NoFuel
      end
  end.
End backtrace.

(** A chain of 64-bit frames in memory: at [ebp] the address of the next frame
    and above it the return address; the last frame pointer is 0. *)
Fixpoint frames_at (m : memory) (ebp : Z) (rets : list Z) : Prop :=
  match rets with
  | [] => ebp = 0
  | ret :: rets =>
      is_u64 ret /\
      exists next, is_u64 next /\ frames_at m next rets /\
        buf_at m 8 ebp (bytes_le 8 next) /\ buf_at m 8 (ebp + 8) (bytes_le 8 ret)
  end.

Definition addr_text (garbage : nat -> mmap_cache_t) (c : cache) (addr : Z) : string :=
  match print_normalized_addr garbage (Some c) addr with Ok t => t | _ => "" end.

Lemma print_normalized_addr_total g c addr :
  wf_cache c -> print_normalized_addr g (Some c) addr = Ok (addr_text g c addr).
Proof.
  intros Hc. unfold addr_text. unfold print_normalized_addr.
  destruct (search_spec g c addr (search_fuel c) 0 (cache_size c) Hc) as (r & -> & _ & Hhit);
    [lia|unfold cache_size; lia|lia|unfold search_fuel, cache_size; lia|].
  destruct r as [j|]; [|done]. by destruct (Hhit j eq_refl) as (_ & m & -> & _).
Qed.

Lemma overlay_full v old : is_u64 v -> overlay (bytes_le 8 v) old = v.
Proof.
  intros Hv. unfold overlay. rewrite length_bytes_le, drop_ge, app_nil_r
    by (rewrite length_bytes_le; lia).
  apply le_bytes_le. exact Hv.
Qed.

Lemma umoven_buf `{K : Kernel} m `{!MemOk m} pid a l s :
  buf_at m 8 a l -> l <> [] -> (umoven 8 pid a (Z.of_nat (length l)) s).1 = (0, l).
Proof.
  intros (H0 & Hl & H31 & _ & Hr) Hne.
  pose proof (umoven_reads m 8 pid a (Z.of_nat (length l)) s) as H.
  change (addr_lim 8) with (2 ^ 64) in *. change (mask_addr 8 a) with a in H.
  rewrite Nat2Z.id, Hr in H. destruct l; [done|]. apply H; simpl in *; lia.
Qed.

Lemma ebp_loop_frames `{K : Kernel} m `{!MemOk m} pid g c rets :
  wf_cache c -> forall ebp retaddr s, frames_at m ebp rets ->
  exists s', ebp_loop 8 pid g (Some c) (S (length rets)) ebp retaddr s =
             Ok (foldr (fun a t => addr_text g c a +:+ t) "" rets, s').
Proof.
  intros Hc. induction rets as [|ret rets IH]; intros ebp retaddr s Hf.
  { simpl in Hf. subst. by eexists. }
  destruct Hf as (Hret & next & Hnext & Hf & Hb1 & Hb2).
  pose proof Hb2 as ((H1 & H2) & _). pose proof Hb1 as ((H3 & _) & _).
  change (addr_lim 8) with (2 ^ 64) in H2.
  assert (Hne : forall z, bytes_le 8 z <> []) by done.
  change (length (ret :: rets)) with (S (length rets)).
  set (f := S (length rets)) in *. cbn [ebp_loop]. replace (ebp =? 0) with false by lia.
  rewrite (u64_id (ebp + 8)) by (unfold is_u64; lia).
  pose proof (umoven_buf m pid (ebp + 8) _ s Hb2 (Hne _)) as Hr1.
  change (Z.of_nat (length (bytes_le 8 ret))) with 8 in Hr1.
  destruct (umoven 8 pid (ebp + 8) 8 s) as [[? ?] s1]. simpl in Hr1. simplify_eq.
  rewrite overlay_full, print_normalized_addr_total by done.
  pose proof (umoven_buf m pid ebp _ s1 Hb1 (Hne _)) as Hr2.
  change (Z.of_nat (length (bytes_le 8 next))) with 8 in Hr2.
  destruct (umoven 8 pid ebp 8 s1) as [[? ?] s2]. simpl in Hr2. simplify_eq.
  rewrite overlay_full by done. change (0 =? 0) with true. cbn iota.
  destruct (IH next ret s2 Hf) as [s' ->]. by eexists.
Qed.

(** ** Properties *)

(** C36: alloc_mmap_cache builds what the binary search needs.  For every
    contents of /proc/pid/maps it either stops with EXITIF or yields exactly
    the file-backed regions in file order (special entries such as "[heap]" and
    anonymous mappings are skipped), sorted and disjoint, with every array
    access inside the allocated slots; it stops exactly when the regions are not
    in ascending disjoint order. *)
Theorem alloc_mmap_cache_spec text :
  if all_fit [] (file_regions text)
  then exists c, alloc_mmap_cache None (Some text) = Ok c /\
                 entries c = file_regions text /\ wf_cache c
  else alloc_mmap_cache None (Some text) = ExitIf.
Proof. apply (add_lines_spec (fgets_lines text) (mk_cache [] 10)), wf_empty. Qed.

(** C37: print_normalized_addr finds the mapping of an address.  On a cache
    built by alloc_mmap_cache the binary search always terminates within the
    allocated array, never trips its sanity check, and an address inside a
    cached region prints "file:0xoffset:0xaddr " of that very region, whatever
    the unused slots contain. *)
Theorem print_normalized_addr_finds text c g addr :
  alloc_mmap_cache None (Some text) = Ok c ->
  (exists t, print_normalized_addr g (Some c) addr = Ok t) /\
  forall i m, entries c !! i = Some m -> covers m addr = true ->
    print_normalized_addr g (Some c) addr = Ok (norm_text m addr).
Proof.
  intros Hal. pose proof (add_lines_spec (fgets_lines text) (mk_cache [] 10) wf_empty) as H.
  simpl in H. unfold alloc_mmap_cache in Hal.
  destruct (all_fit [] _); [|congruence]. destruct H as (c' & Hc' & _ & Hwf).
  rewrite Hc' in Hal. simplify_eq.
  split; [eexists; by apply print_normalized_addr_total|].
  intros i m Hm Hcov. unfold print_normalized_addr.
  destruct (search_spec g c addr (search_fuel c) 0 (cache_size c) Hwf) as (r & -> & Hfound & _);
    [lia|unfold cache_size; lia|lia|unfold search_fuel, cache_size; lia|].
  apply lookup_lt_Some in Hm as Hi. pose proof (wf_room _ Hwf) as Hroom. unfold cache_size in *.
  rewrite (Hfound i m Hm Hcov) by lia. by rewrite (slot_entry g c i m) by (done || lia).
Qed.

Definition nl : string := String "010" "".
Definition demo_maps : string :=
  "00400000-0040b000 r-xp 00000000 fc:00 1180 /bin/cat" +:+ nl +:+
  "0060a000-0060b000 r--p 0000a000 fc:00 1180 /bin/cat" +:+ nl +:+
  "01c3e000-01c5f000 rw-p 00000000 00:00 0 [heap]" +:+ nl +:+
  "7f0000000000-7f0000001000 rw-p 00000000 00:00 0" +:+ nl +:+
  "7fabbb09b000-7fabbb09f000 r--p 00179000 fc:00 1180246 /lib/libc-2.11.1.so" +:+ nl.
Definition demo_cache : cache :=
  mk_cache [ mk_mmap 0x400000 0x40b000 0 "/bin/cat"; mk_mmap 0x60a000 0x60b000 0xa000 "/bin/cat";
             mk_mmap 0x7fabbb09b000 0x7fabbb09f000 0x179000 "/lib/libc-2.11.1.so" ] 10.

Definition no_region : nat -> mmap_cache_t := fun _ => mk_mmap 0 0 0 "".

Lemma print_normalized_addr_finds_witness :
  print_normalized_addr no_region (Some demo_cache) 0x7fabbb09c004 =
  Ok "/lib/libc-2.11.1.so:0x17a004:0x7fabbb09c004 ".
Proof.
  refine (proj2 (print_normalized_addr_finds demo_maps demo_cache no_region 0x7fabbb09c004 _)
            2%nat (mk_mmap 0x7fabbb09b000 0x7fabbb09f000 0x179000 "/lib/libc-2.11.1.so") _ _);
    vm_compute; reflexivity.
Defined.

(** The upper bound of that search is one too large ([upper =
    mmap_cache_size] with an inclusive loop): for an address above the last
    region the uninitialised slot after the last entry is probed, and its stale
    contents can be printed as a match. *)
Theorem print_normalized_addr_probes_unused_slot :
  alloc_mmap_cache None (Some demo_maps) = Ok demo_cache /\
  (forall m, m ∈ entries demo_cache -> covers m 0x7fffffff0000 = false) /\
  let stale := mk_mmap 0 (2 ^ 64 - 1) 0 "stale" in
  print_normalized_addr (fun _ => stale) (Some demo_cache) 0x7fffffff0000 =
    Ok "stale:0x7fffffff0000:0x7fffffff0000 ".
Proof.
  split; [vm_compute; reflexivity|]. split; [|vm_compute; reflexivity].
  intros m Hm. repeat (apply elem_of_cons in Hm as [-> | Hm]; [reflexivity|]).
  by apply not_elem_of_nil in Hm.
Qed.

(** C38: the frame-pointer walk prints the call chain.  On a chain of 64-bit
    frames in readable memory, print_i386_ebp_backtrace prints the normalised
    instruction pointer and then the normalised return address of every frame
    from the innermost out, and stops at the null frame pointer. *)
Theorem ebp_backtrace_follows_frames `{K : Kernel} m `{!MemOk m} pid g c rip rbp rets s :
  wf_cache c -> frames_at m rbp rets ->
  exists s', print_i386_ebp_backtrace 8 pid g (Some c) (S (length rets)) (Some (rip, rbp)) s =
    Ok (addr_text g c rip +:+ foldr (fun a t => addr_text g c a +:+ t) "" rets, s').
Proof.
  intros Hc Hf. unfold print_i386_ebp_backtrace. rewrite print_normalized_addr_total by done.
  destruct (ebp_loop_frames m pid g c rets Hc rbp 0 s Hf) as [s' ->]. by eexists.
Qed.

(** Two frames at 4096 and 4112. *)
Definition frame_page : list Z :=
  bytes_le 8 4112 ++ bytes_le 8 0x400010 ++ bytes_le 8 0 ++ bytes_le 8 0x60a020.
Definition frame_mem : memory := page_mem 4096 (fun i => default 0 (frame_page !! Z.to_nat i)).
#[global] Instance frame_mem_ok : @MemOk (mem_kernel true frame_mem) frame_mem.
Proof. apply mem_kernel_ok; [apply page_mem_u8|by apply page_mem_words]. Qed.

Lemma demo_cache_wf : wf_cache demo_cache.
Proof.
  split.
  - reflexivity.
  - repeat constructor; vm_compute; congruence.
  - intros [|[|[|i]]] [|[|[|j]]] p m Hij Hp Hm; simpl in *; simplify_eq; try lia;
      split; vm_compute; congruence.
Qed.

Ltac at_buf := split_and!; try (vm_compute; congruence); eexists; vm_compute; reflexivity.

Lemma ebp_backtrace_follows_frames_witness :
  exists s', @print_i386_ebp_backtrace (mem_kernel true frame_mem) 8 1 no_region
               (Some demo_cache) 3 (Some (0x400000, 4096)) (demo_state false) =
    Ok (addr_text no_region demo_cache 0x400000 +:+ addr_text no_region demo_cache 0x400010 +:+
        addr_text no_region demo_cache 0x60a020 +:+ "", s').
Proof.
  refine (@ebp_backtrace_follows_frames (mem_kernel true frame_mem) frame_mem frame_mem_ok
           1 no_region demo_cache 0x400000 4096 [0x400010; 0x60a020] (demo_state false)
           demo_cache_wf _).
  split; [split; vm_compute; congruence|]. exists 4112.
  split; [split; vm_compute; congruence|]. split; [|split; at_buf].
  split; [split; vm_compute; congruence|]. exists 0. split; [split; vm_compute; congruence|].
  split; [reflexivity|split; at_buf].
Defined.

Definition loop_mem : memory :=
  page_mem 4096 (fun i => default 0 (bytes_le 8 4096 !! Z.to_nat i)).
#[global] Instance loop_mem_ok : @MemOk (mem_kernel true loop_mem) loop_mem.
Proof. apply mem_kernel_ok; [apply page_mem_u8|by apply page_mem_words]. Qed.

(** Nothing bounds the walk itself: a frame pointer that points to itself,
    which any tracee can install, keeps print_i386_ebp_backtrace running
    forever. *)
Theorem ebp_backtrace_cyclic_diverges fuel g rip s :
  @print_i386_ebp_backtrace (mem_kernel true loop_mem) 8 1 g (Some demo_cache) fuel
    (Some (rip, 4096)) s = NoFuel.
Proof.
  unfold print_i386_ebp_backtrace. rewrite print_normalized_addr_total by apply demo_cache_wf.
  assert (Hne : forall z, bytes_le 8 z <> []) by done.
  assert (Hloop : forall retaddr s, @ebp_loop (mem_kernel true loop_mem) 8 1 g (Some demo_cache)
                    fuel 4096 retaddr s = NoFuel).
  { induction fuel as [|f IH]; intros retaddr s'; [done|]. cbn [ebp_loop].
    change (4096 =? 0) with false. cbn iota. change (u64 (4096 + 8)) with 4104.
    assert (Hb1 : buf_at loop_mem 8 4104 (bytes_le 8 0)) by at_buf.
    assert (Hb2 : buf_at loop_mem 8 4096 (bytes_le 8 4096)) by at_buf.
    pose proof (@umoven_buf (mem_kernel true loop_mem) loop_mem loop_mem_ok 1 4104 _ s' Hb1 (Hne _)) as Hr1.
    change (Z.of_nat (length (bytes_le 8 0))) with 8 in Hr1.
    destruct (umoven 8 1 4104 8 s') as [[? ?] s1]. simpl in Hr1. simplify_eq.
    rewrite overlay_full, print_normalized_addr_total
      by (apply demo_cache_wf || (split; vm_compute; congruence)).
    pose proof (@umoven_buf (mem_kernel true loop_mem) loop_mem loop_mem_ok 1 4096 _ s1 Hb2 (Hne _)) as Hr2.
    change (Z.of_nat (length (bytes_le 8 4096))) with 8 in Hr2.
    destruct (umoven 8 1 4096 8 s1) as [[? ?] s2]. simpl in Hr2. simplify_eq.
    rewrite overlay_full by (split; vm_compute; congruence).
    change (0 =? 0) with true. cbn iota. by rewrite IH. }
  by rewrite Hloop.
Qed.
