(* ===== verification/Count.v ===== *)
(** * Call statistics, -c (count.c: count_syscall, set_sortby, set_overhead and
      the accumulation of call_summary_pers)

    The report itself is in Report.v.  The counters and their totals are of type
    [int] and wrap around; that C leaves the overflow undefined is not modelled. *)

From S2P Require Import Prelude Timeval.
Local Open Scope list_scope.
Local Open Scope Z_scope.

Record call_counts := mk_cc { cc_time : timeval; calls : Z; errors : Z }.
Definition cc_zero : call_counts := mk_cc tv_zero 0 0.

(** countv, and the static variables shortest, one_tick and overhead. *)
Record count_state := mk_counts {
  countv : list (option (list call_counts));   (* one table per personality *)
  shortest : timeval;
  one_tick : timeval;
  overhead : timeval
}.

Definition counts0 : count_state :=
  mk_counts [None; None; None] (mk_tv 1000000 0) (mk_tv (-1) 0) (mk_tv (-1) (-1)).

(** SCNO_IN_RANGE *)
Definition scno_in_range (nsyscalls : nat) (scno : Z) : bool := u64 scno <? Z.of_nat nsyscalls.

(** counts, allocated on first use *)
Definition counts (nsyscalls pers : nat) (c : count_state) : list call_counts :=
  match countv c !! pers with
  | Some (Some v) => v
  | _ => replicate nsyscalls cc_zero
  end.

(** The time charged to a call: [wall] is the wall clock time spent in it,
    [dtime] the system time, [tick] what getitimer answers.  Also the value of
    one_tick afterwards. *)
Definition charged (wall dtime tick : timeval) (c : count_state) : timeval * timeval :=
  if tv_cmp wall dtime >? 0 then
    let tick := if tv_sec (one_tick c) =? -1 then tick else one_tick c in
    if tv_nz dtime then (dtime, tick)
    else if tv_cmp wall tick >? 0 then
      (if tv_cmp (shortest c) tick <? 0 then shortest c else tick, tick)
    else (wall, tick)
  else (wall, one_tick c).

(** count_syscall(tcp, tv): the system call's number, error and times, and the
    exit time stamp [tv]. *)
Definition count_syscall (nsyscalls pers : nat) (scno u_error : Z) (etime dtime tick tv : timeval)
    (c : count_state) : count_state :=
  if negb (scno_in_range nsyscalls scno) then c
  else
    let '(t, tick) := charged (tv_sub tv etime) dtime tick c in
    let bump cc := mk_cc (tv_add (cc_time cc) t) (s32 (calls cc + 1))
                     (if u_error =? 0 then errors cc else s32 (errors cc + 1)) in
    mk_counts
      (<[pers := Some (alter bump (Z.to_nat (u64 scno)) (counts nsyscalls pers c))]> (countv c))
      (if tv_cmp t (shortest c) <? 0 then t else shortest c) tick (overhead c).

Inductive sortfun := SortTime | SortCalls | SortName | SortNone.
#[global] Instance sortfun_eq_dec : EqDecision sortfun.
Proof. solve_decision. Defined.
(** [None]: error_msg_and_die("invalid sortby") *)
Definition set_sortby (s : string) : option sortfun :=
  if String.eqb s "time" then Some SortTime
  else if String.eqb s "calls" then Some SortCalls
  else if String.eqb s "name" then Some SortName
  else if String.eqb s "nothing" then Some SortNone
  else None.

Definition set_overhead (n : Z) (c : count_state) : count_state :=
  mk_counts (countv c) (shortest c) (one_tick c) (mk_tv (Z.quot n 1000000) (Z.rem n 1000000)).

(** The first loop of call_summary_pers: the overhead is deducted from each
    system call and the totals are accumulated. *)
Definition default_overhead (c : count_state) : timeval :=
  if tv_sec (overhead c) =? -1 then tv_div (tv_mul (shortest c) 8) 10 else overhead c.
Fixpoint cum_loop (ov : timeval) (v : list call_counts) (call_cum error_cum : Z) (tv_cum : timeval)
    : list call_counts * Z * Z * timeval :=
  match v with
  | [] => ([], call_cum, error_cum, tv_cum)
  | cc :: v =>
      if calls cc =? 0 then
        let '(v', a, b, t) := cum_loop ov v call_cum error_cum tv_cum in (cc :: v', a, b, t)
      else
        let cc' := mk_cc (tv_sub (cc_time cc) (tv_mul ov (calls cc))) (calls cc) (errors cc) in
        let '(v', a, b, t) := cum_loop ov v (s32 (call_cum + calls cc)) (s32 (error_cum + errors cc))
                                (tv_add tv_cum (cc_time cc')) in
        (cc' :: v', a, b, t)
  end.

Lemma s32_add a b : s32 (s32 a + b) = s32 (a + b).
Proof. wrap_lia. Qed.
Lemma s32_succ a : s32 (s32 a + 1) = s32 (a + 1).
Proof. wrap_lia. Qed.

(** ** Histories *)

(** One traced call. *)
Record sample := mk_sample {
  sm_pers : nat; sm_scno : Z; sm_error : Z;
  sm_etime : timeval; sm_dtime : timeval; sm_tick : timeval; sm_tv : timeval
}.

Section history.
Context (nsys : nat -> nat).

Definition count_one (c : count_state) (s : sample) : count_state :=
  count_syscall (nsys (sm_pers s)) (sm_pers s) (sm_scno s) (sm_error s)
    (sm_etime s) (sm_dtime s) (sm_tick s) (sm_tv s) c.
Definition count_all (ss : list sample) : count_state := foldl count_one counts0 ss.

(** The entry of a system call, and which samples belong to it. *)
Definition entry (c : count_state) (p i : nat) : call_counts :=
  default cc_zero (counts (nsys p) p c !! i).
Definition is_call (p i : nat) (s : sample) : bool :=
  (sm_pers s =? p)%nat && (u64 (sm_scno s) =? Z.of_nat i).

Lemma entry_counts0 p i : entry counts0 p i = cc_zero.
Proof.
  unfold entry, counts, counts0. simpl.
  assert (default cc_zero (replicate (nsys p) cc_zero !! i) = cc_zero).
  { destruct (replicate (nsys p) cc_zero !! i) as [x|] eqn:E; [|done].
    by apply lookup_replicate in E as [-> _]. }
  by destruct p as [|[|[|p]]].
Qed.

Lemma counts_shape c s :
  length (countv c) = 3%nat ->
  (forall p v, countv c !! p = Some (Some v) -> length v = nsys p) ->
  length (countv (count_one c s)) = 3%nat /\
  (forall p v, countv (count_one c s) !! p = Some (Some v) -> length v = nsys p).
Proof.
  intros H3 Hl. unfold count_one, count_syscall. destruct (negb _); [done|].
  destruct (charged _ _ _ _) as [t tick]. simpl. rewrite length_insert. split; [done|].
  intros p v [(<- & [= <-] & Hlt)|[Hne Hv]]%list_lookup_insert_Some; [|by eapply Hl].
  rewrite length_alter. unfold counts.
  destruct (countv c !! sm_pers s) as [[v'|]|] eqn:E; [by eapply Hl|by rewrite length_replicate..].
Qed.

Lemma entry_same c c' p i : countv c' !! p = countv c !! p -> entry c' p i = entry c p i.
Proof. intros H. unfold entry, counts. by rewrite H. Qed.

Lemma entry_at c' p i v :
  countv c' !! p = Some (Some v) -> entry c' p i = default cc_zero (v !! i).
Proof. intros H. unfold entry, counts. by rewrite H. Qed.

Lemma count_one_entry c s p i :
  length (countv c) = 3%nat -> (sm_pers s < 3)%nat -> (i < nsys p)%nat ->
  (forall p v, countv c !! p = Some (Some v) -> length v = nsys p) ->
  calls (entry (count_one c s) p i) =
    (if is_call p i s then s32 (calls (entry c p i) + 1) else calls (entry c p i)) /\
  errors (entry (count_one c s) p i) =
    (if is_call p i s && negb (sm_error s =? 0) then s32 (errors (entry c p i) + 1)
     else errors (entry c p i)).
Proof.
  intros H3 Hp Hi Hl. unfold count_one, count_syscall, is_call.
  destruct (scno_in_range (nsys (sm_pers s)) (sm_scno s)) eqn:Hr; simpl.
  2: { unfold scno_in_range in Hr.
       destruct (Nat.eqb_spec (sm_pers s) p) as [<-|]; simpl; [|done].
       replace (u64 (sm_scno s) =? Z.of_nat i) with false by lia. done. }
  destruct (charged _ _ _ _) as [t tick].
  destruct (Nat.eqb_spec (sm_pers s) p) as [<-|Hne]; simpl.
  2: { rewrite !(entry_same c); [done|]. simpl. by rewrite list_lookup_insert_ne. }
  erewrite !entry_at by (simpl; apply list_lookup_insert_eq; lia). rewrite list_lookup_alter.
  assert (Hlen : length (counts (nsys (sm_pers s)) (sm_pers s) c) = nsys (sm_pers s)).
  { unfold counts. destruct (countv c !! sm_pers s) as [[v|]|] eqn:E;
      [by eapply Hl|by rewrite length_replicate..]. }
  destruct (lookup_lt_is_Some_2 (counts (nsys (sm_pers s)) (sm_pers s) c) i ltac:(lia)) as [x Hx].
  unfold entry. rewrite Hx. unfold scno_in_range in Hr. pose proof (u64_range (sm_scno s)) as Hu.
  unfold is_u64 in Hu.
  destruct (decide (Z.to_nat (u64 (sm_scno s)) = i)) as [<-|Hni]; simpl.
  - rewrite Z2Nat.id, Z.eqb_refl by lia. rewrite Hx. by destruct (sm_error s =? 0).
  - by rewrite (proj2 (Z.eqb_neq _ _)) by lia.
Qed.
End history.

(** ** Properties *)

(** The counters of -c are exact, up to the width of an int.  After any history
    of traced calls, the entry of each system call of each personality has the
    number of its calls and of its failed calls; numbers outside the table are
    ignored and never touch another entry. *)
Theorem count_syscall_exact nsys ss p i :
  Forall (fun s => (sm_pers s < 3)%nat) ss -> (p < 3)%nat -> (i < nsys p)%nat ->
  calls (entry nsys (count_all nsys ss) p i) =
    s32 (Z.of_nat (length (List.filter (is_call p i) ss))) /\
  errors (entry nsys (count_all nsys ss) p i) =
    s32 (Z.of_nat (length (List.filter (fun s => is_call p i s && negb (sm_error s =? 0)) ss))).
Proof.
  intros Hss Hp Hi. unfold count_all.
  enough (H : forall c a b,
    length (countv c) = 3%nat -> (forall q v, countv c !! q = Some (Some v) -> length v = nsys q) ->
    calls (entry nsys c p i) = s32 a -> errors (entry nsys c p i) = s32 b ->
    calls (entry nsys (foldl (count_one nsys) c ss) p i) =
      s32 (a + Z.of_nat (length (List.filter (is_call p i) ss))) /\
    errors (entry nsys (foldl (count_one nsys) c ss) p i) =
      s32 (b + Z.of_nat (length (List.filter (fun s => is_call p i s && negb (sm_error s =? 0)) ss)))).
  { apply (H counts0 0 0); [done| |by rewrite entry_counts0..]. intros [|[|[|q]]] v Hv; done. }
  induction Hss as [|s ss Hs _ IH]; intros c a b H3 Hl Ha Hb; simpl.
  { by rewrite !Z.add_0_r. }
  destruct (counts_shape nsys c s H3 Hl) as [H3' Hl'].
  destruct (count_one_entry nsys c s p i H3 Hs Hi Hl) as [Hc He]. rewrite Ha in Hc. rewrite Hb in He.
  destruct (IH (count_one nsys c s) (if is_call p i s then a + 1 else a)
              (if is_call p i s && negb (sm_error s =? 0) then b + 1 else b) H3' Hl') as [-> ->].
  - rewrite Hc. destruct (is_call p i s); [apply s32_succ|done].
  - rewrite He. destruct (is_call p i s && _); [apply s32_succ|done].
  - destruct (is_call p i s); simpl; [|done]. destruct (negb _); simpl; split; f_equal; lia.
Qed.

Lemma count_syscall_exact_witness :
  let s1 := mk_sample 0 1 0 tv_zero tv_zero tv_zero (mk_tv 1 0) in
  let s2 := mk_sample 0 1 2 tv_zero tv_zero tv_zero (mk_tv 2 0) in
  let s3 := mk_sample 0 7 2 tv_zero tv_zero tv_zero (mk_tv 2 0) in
  calls (entry (fun _ => 3%nat) (count_all (fun _ => 3%nat) [s1; s2; s3]) 0 1) = 2 /\
  errors (entry (fun _ => 3%nat) (count_all (fun _ => 3%nat) [s1; s2; s3]) 0 1) = 1.
Proof.
  intros s1 s2 s3.
  refine (count_syscall_exact (fun _ => 3%nat) [s1; s2; s3] 0 1 _ _ _);
    [repeat constructor; apply Nat.ltb_lt; reflexivity|apply Nat.ltb_lt; reflexivity..].
Defined.

(** A call is never charged more than the wall clock time it took: the
    time added to its entry is at most the difference of the exit and entry time
    stamps, whatever the system time and the timer tick are. *)
Theorem charged_at_most_wall wall dtime tick c :
  tv_ok wall -> tv_ok dtime -> tv_ok tick -> tv_ok (one_tick c) -> tv_ok (shortest c) ->
  tv_us (charged wall dtime tick c).1 <= tv_us wall.
Proof.
  intros Hw Hd Ht Ho Hs. unfold charged.
  set (tk := if tv_sec (one_tick c) =? -1 then tick else one_tick c).
  assert (Htk : tv_ok tk) by (unfold tk; by case_match).
  assert (Hcmp : forall a b, tv_ok a -> tv_ok b ->
            ((tv_cmp a b >? 0) = true -> tv_us b <= tv_us a) /\
            ((tv_cmp a b <? 0) = true -> tv_us a <= tv_us b)).
  { intros a b Ha Hb. unfold tv_cmp. unfold tv_us, tv_ok in *. clear -Ha Hb.
    tv_cases; split; intros ?; lia. }
  destruct (tv_cmp wall dtime >? 0) eqn:E1; [|simpl; lia].
  apply Hcmp in E1; [|done..]. destruct (tv_nz dtime); [done|].
  destruct (tv_cmp wall tk >? 0) eqn:E2; [|simpl; lia]. apply Hcmp in E2; [|done..].
  destruct (tv_cmp (shortest c) tk <? 0) eqn:E3; simpl; [|done].
  apply Hcmp in E3; [|done..]. lia.
Qed.

Lemma charged_at_most_wall_witness :
  tv_us (charged (mk_tv 1 500) (mk_tv 0 0) (mk_tv 0 1) counts0).1 <= tv_us (mk_tv 1 500).
Proof.
  apply (charged_at_most_wall (mk_tv 1 500) (mk_tv 0 0) (mk_tv 0 1) counts0);
    split; vm_compute; congruence.
Defined.
