(* ===== verification/Report.v ===== *)
(** * The report of -c (count.c: time_cmp, syscall_cmp, count_cmp,
      call_summary_pers; util.c: tv_float)

    double is the binary64 of IEEE 754, by the operations of SpecFloat, and "%f"
    the decimal expansion rounded to even, as the C library does.  [qsort] is
    the library's function, a parameter.  A name that is missing makes strcmp
    read a null pointer: sorting by name then crashes, as every element takes
    part in a comparison. *)

From Stdlib Require Import Floats.SpecFloat Sorting.Sorted.
From stdpp Require Import sorting.
From S2P Require Import Prelude Clib Timeval Qual Count.
Local Open Scope string_scope.
Local Open Scope list_scope.
Local Open Scope Z_scope.

(** ** double *)

Definition prec : Z := 53.
Definition emax : Z := 1024.
Definition double_of (z : Z) : spec_float := binary_normalize prec emax z 0 false.
Definition dadd : spec_float -> spec_float -> spec_float := SFadd prec emax.
Definition dmul : spec_float -> spec_float -> spec_float := SFmul prec emax.
Definition ddiv : spec_float -> spec_float -> spec_float := SFdiv prec emax.

Definition tv_float (tv : timeval) : spec_float :=
  dadd (double_of (tv_sec tv)) (ddiv (double_of (tv_usec tv)) (double_of 1000000)).

(** [n / 2 ^ k] rounded to the nearest, ties to even. *)
Definition round_even (n k : Z) : Z :=
  let q := Z.shiftr n k in
  let r := n - Z.shiftl q k in
  let half := Z.shiftl 1 (k - 1) in
  if (r >? half) || ((r =? half) && Z.odd q) then q + 1 else q.

(** "%w.pf" *)
Definition fmt_f (w p : Z) (x : spec_float) : string :=
  let sign (s : bool) := if s then "-" else "" in
  pad_left w " "
    match x with
    | S754_nan => "nan"
    | S754_infinity s => sign s +:+ "inf"
    | S754_zero s => sign s +:+ "0." +:+ pad_left p "0" ""
    | S754_finite s m e =>
        let n := Z.pos m * 10 ^ p in
        let n := if e <? 0 then round_even n (- e) else Z.shiftl n e in
        sign s +:+ fmt_d (n / 10 ^ p) +:+ "." +:+ pad_left p "0" (fmt_d (n mod 10 ^ p))
    end.

Example fmt_f_half : fmt_f 6 2 (ddiv (double_of 1) (double_of 8)) = "  0.12".
Proof. vm_compute. reflexivity. Qed.
Example fmt_f_seconds : fmt_f 11 6 (tv_float (mk_tv 12 345678)) = "  12.345678".
Proof. vm_compute. reflexivity. Qed.

(** ** The order of the calls *)

Section report.
Context (qsort : (nat -> nat -> Z) -> list nat -> list nat).

Section order.
Context (ents : list struct_sysent) (v : list call_counts).

Definition cc_at (i : nat) : call_counts := default cc_zero (v !! i).
Definition name_of (i : nat) : option string := ents !! i ≫= sys_name.

Definition time_cmp (a b : nat) : Z := - tv_cmp (cc_time (cc_at a)) (cc_time (cc_at b)).
Definition syscall_cmp (a b : nat) : Z := strcmp (default "" (name_of a)) (default "" (name_of b)).
Definition count_cmp (a b : nat) : Z :=
  let m := calls (cc_at a) in
  let n := calls (cc_at b) in
  if m <? n then 1 else if n <? m then -1 else 0.

(** sorted_count; [None] is the crash in strcmp. *)
Definition sorted_count (f : sortfun) : option (list nat) :=
  let ids := List.seq 0 (length ents) in
  match f with
  | SortTime => Some (qsort time_cmp ids)
  | SortCalls => Some (qsort count_cmp ids)
  | SortName => if forallb (fun e => bool_decide (is_Some (sys_name e))) ents
                then Some (qsort syscall_cmp ids) else None
  | SortNone => Some ids
  end.

(** ** The lines *)

Record row := mk_row {
  r_percent : spec_float; r_seconds : spec_float; r_usecs : Z; r_calls : Z; r_errors : Z;
  r_name : option string
}.

Definition row_of (total : spec_float) (i : nat) : row :=
  let cc := cc_at i in
  let dtv := tv_div (cc_time cc) (calls cc) in
  let seconds := tv_float (cc_time cc) in
  let percent := dmul (double_of 100) seconds in
  let percent := match percent with S754_zero _ => percent | _ => ddiv percent total end in
  mk_row percent seconds (1000000 * tv_sec dtv + tv_usec dtv) (calls cc) (errors cc) (name_of i).

Definition rows (total : spec_float) (ids : list nat) : list row :=
  row_of total <$> List.filter (fun i => negb (calls (cc_at i) =? 0)) ids.
End order.

(** "%w.ws" *)
Definition field (w : nat) (s : string) : string := pad_left (Z.of_nat w) " " (String.substring 0 w s).
Definition error_str (n : Z) : string := if n =? 0 then "" else fmt_u (u32 n).
Definition line6 (a b c d e f : string) : string :=
  a +:+ " " +:+ b +:+ " " +:+ c +:+ " " +:+ d +:+ " " +:+ e +:+ " " +:+ f +:+ String "010" "".

Definition row_text (r : row) : string :=
  line6 (fmt_f 6 2 (r_percent r)) (fmt_f 11 6 (r_seconds r)) (pad_left 11 " " (fmt_u (u64 (r_usecs r))))
    (pad_left 9 " " (fmt_u (u32 (r_calls r)))) (field 9 (error_str (r_errors r)))
    (default "(null)" (r_name r)).
Definition dashes : string := "----------------".
Definition dash_line : string :=
  line6 (field 6 dashes) (field 11 dashes) (field 11 dashes) (field 9 dashes) (field 9 dashes) dashes.
Definition head_line : string :=
  line6 (field 6 "% time") (field 11 "seconds") (field 11 "usecs/call") (field 9 "calls") (field 9 "errors")
    "syscall".
Definition total_line (total : spec_float) (call_cum error_cum : Z) : string :=
  line6 (field 6 "100.00") (fmt_f 11 6 total) (field 11 "") (pad_left 9 " " (fmt_u (u32 call_cum)))
    (field 9 (error_str error_cum)) "total".

(** call_summary_pers for the personality [pers] with the table [ents]: the text
    and the counters, from which the overhead has been deducted. *)
Definition call_summary_pers (f : sortfun) (ents : list struct_sysent) (pers : nat) (c : count_state)
    : option (string * count_state) :=
  let ov := default_overhead c in
  let '(v, call_cum, error_cum, tv_cum) := cum_loop ov (counts (length ents) pers c) 0 0 tv_zero in
  let total := tv_float tv_cum in
  ids ← sorted_count ents v f;
  Some (head_line +:+ dash_line +:+ String.concat "" (row_text <$> rows ents v total ids) +:+
        dash_line +:+ total_line total call_cum error_cum,
        mk_counts (<[pers := Some v]> (countv c)) (shortest c) (one_tick c) ov).
End report.

(** ** What the report says *)

Lemma cum_loop_spec ov v a b t :
  is_s32 a -> is_s32 b ->
  let '(v', a', b', _) := cum_loop ov v a b t in
  length v' = length v /\
  (forall i, calls (default cc_zero (v' !! i)) = calls (default cc_zero (v !! i)) /\
             errors (default cc_zero (v' !! i)) = errors (default cc_zero (v !! i))) /\
  a' = s32 (a + foldr (fun cc n => if calls cc =? 0 then n else calls cc + n) 0 v') /\
  b' = s32 (b + foldr (fun cc n => if calls cc =? 0 then n else errors cc + n) 0 v').
Proof.
  revert a b t. induction v as [|cc v IH]; intros a b t Ha Hb; cbn [cum_loop].
  { cbn. by rewrite !Z.add_0_r, !s32_id. }
  destruct (calls cc =? 0) eqn:E.
  - specialize (IH a b t Ha Hb). destruct (cum_loop ov v a b t) as [[[v' a'] b'] t'].
    destruct IH as (IH1 & IH2 & -> & ->). cbn [length foldr]. rewrite E. split_and!; [lia| |done|done].
    intros [|i]; [done|apply IH2].
  - set (cc' := mk_cc _ _ _).
    specialize (IH (s32 (a + calls cc)) (s32 (b + errors cc)) (tv_add t (cc_time cc')) (s32_range _) (s32_range _)).
    destruct (cum_loop ov v _ _ _) as [[[v' a'] b'] t'].
    destruct IH as (IH1 & IH2 & -> & ->). cbn [length foldr]. change (calls cc') with (calls cc).
    change (errors cc') with (errors cc). rewrite E, !s32_add, !Z.add_assoc. split_and!; [lia| |done|done].
    intros [|i]; [done|apply IH2].
Qed.

(** The calls made, and a sum over them in any order. *)
Definition made (v : list call_counts) (i : nat) : bool := negb (calls (cc_at v i) =? 0).
Definition sum_over (g : nat -> Z) (ids : list nat) : Z := foldr (fun i n => g i + n) 0 ids.

Lemma sum_over_perm g l l' : l ≡ₚ l' -> sum_over g l = sum_over g l'.
Proof. induction 1; simpl; lia. Qed.
Lemma sum_over_ext g h l : (forall i, i ∈ l -> g i = h i) -> sum_over g l = sum_over h l.
Proof.
  induction l as [|x l IH]; intros H; simpl; [done|]. rewrite (H x) by (by left).
  rewrite IH; [done|]. intros i Hi. apply H. by right.
Qed.

Lemma filter_perm (P : nat -> bool) l l' : l ≡ₚ l' -> List.filter P l ≡ₚ List.filter P l'.
Proof.
  induction 1 as [|x l l' _ IH|x y l|l1 l2 l3 _ IH1 _ IH2]; simpl; [done| | |by etrans].
  - by destruct (P x); [constructor|].
  - destruct (P x), (P y); try done. by constructor.
Qed.

Lemma foldr_made (g : call_counts -> Z) v k :
  foldr (fun cc n => if calls cc =? 0 then n else g cc + n) 0 v =
  foldr (fun i n => g (default cc_zero (v !! (i - k)%nat)) + n) 0
    (List.filter (fun i => negb (calls (default cc_zero (v !! (i - k)%nat)) =? 0)) (List.seq k (length v))).
Proof.
  revert k. induction v as [|cc v IH]; intros k; [done|]. cbn [length List.seq foldr List.filter].
  rewrite Nat.sub_diag. cbn [lookup list_lookup default from_option id].
  assert (Hshift : forall i, i ∈ List.seq (S k) (length v) ->
            (cc :: v) !! (i - k)%nat = v !! (i - S k)%nat).
  { intros i Hi. apply list_elem_of_In, in_seq in Hi. replace (i - k)%nat with (S (i - S k)) by lia. done. }
  rewrite (IH (S k)).
  assert (Hf : List.filter (fun i => negb (calls (default cc_zero (v !! (i - S k)%nat)) =? 0))
                 (List.seq (S k) (length v)) =
               List.filter (fun i => negb (calls (default cc_zero ((cc :: v) !! (i - k)%nat)) =? 0))
                 (List.seq (S k) (length v))).
  { apply List.filter_ext_in. intros i Hi%list_elem_of_In. by rewrite Hshift. }
  rewrite Hf.
  assert (Hs : forall l, (forall i, i ∈ l -> i ∈ List.seq (S k) (length v)) ->
            foldr (fun i n => g (default cc_zero (v !! (i - S k)%nat)) + n) 0 l =
            foldr (fun i n => g (default cc_zero ((cc :: v) !! (i - k)%nat)) + n) 0 l).
  { induction l as [|x l IHl]; intros Hl; [done|]. cbn [foldr]. rewrite IHl, Hshift; [done|..].
    - apply Hl. by left.
    - intros i Hi. apply Hl. by right. }
  rewrite Hs.
  - destruct (calls cc =? 0); cbn [negb foldr]; [done|]. by rewrite Nat.sub_diag.
  - intros i Hi. apply list_elem_of_In, filter_In in Hi as [Hi _]. by apply list_elem_of_In.
Qed.

Lemma foldr_made_0 (g : call_counts -> Z) v :
  foldr (fun cc n => if calls cc =? 0 then n else g cc + n) 0 v =
  sum_over (fun i => g (cc_at v i)) (List.filter (made v) (List.seq 0 (length v))).
Proof.
  rewrite (foldr_made g v 0). unfold sum_over, cc_at, made, cc_at.
  assert (H : forall l, foldr (fun i n => g (default cc_zero (v !! (i - 0)%nat)) + n) 0 l =
                        foldr (fun i n => g (default cc_zero (v !! i)) + n) 0 l).
  { induction l as [|x l IH]; [done|]. cbn [foldr]. by rewrite IH, Nat.sub_0_r. }
  rewrite H. f_equal. apply List.filter_ext. intros i. by rewrite Nat.sub_0_r.
Qed.

(** ** Properties *)

Section report_ok.
Context (qsort : (nat -> nat -> Z) -> list nat -> list nat).
Context (Hq : qsort_ok qsort).

Definition all_named (ents : list struct_sysent) : bool :=
  forallb (fun e => bool_decide (is_Some (sys_name e))) ents.

Lemma sorted_count_perm ents v f :
  f <> SortName \/ all_named ents = true ->
  exists ids, sorted_count qsort ents v f = Some ids /\ ids ≡ₚ List.seq 0 (length ents).
Proof.
  intros Hf. destruct f; simpl.
  - eexists. split; [done|]. apply Hq.
  - eexists. split; [done|]. apply Hq.
  - destruct Hf as [Hf|Hf]; [done|]. unfold all_named in Hf. rewrite Hf. eexists. split; [done|]. apply Hq.
  - by eexists.
Qed.

Lemma time_cmp_order v : ordering (time_cmp v).
Proof.
  unfold time_cmp, tv_cmp. split; intros *; tv_cases; lia.
Qed.

Lemma count_cmp_order v : ordering (count_cmp v).
Proof. unfold count_cmp. split; intros *; repeat case_match; lia. Qed.

Lemma syscall_cmp_order ents : ordering (syscall_cmp ents).
Proof.
  unfold syscall_cmp. split; intros *; [|apply strcmp_trans].
  rewrite (strcmp_antisym (default "" (name_of ents a))). lia.
Qed.

Lemma sorted_calls cmp (P : nat -> bool) (R : nat -> nat -> Prop) l :
  ordering cmp -> (forall a b, cmp a b <= 0 -> R a b) ->
  StronglySorted R (List.filter P (qsort cmp l)).
Proof.
  intros Ho HR. pose proof (qsort_sorted qsort cmp l Hq Ho) as Hs.
  induction Hs as [|x k _ IH Hx]; simpl; [constructor|]. destruct (P x); [|done].
  constructor; [done|]. rewrite List.Forall_forall in *. intros y [Hy _]%filter_In. by apply HR, Hx.
Qed.
End report_ok.

Lemma sorted_seq_filter (P : nat -> bool) k n : StronglySorted lt (List.filter P (List.seq k n)).
Proof.
  revert k. induction n as [|n IH]; intros k; simpl; [constructor|]. destruct (P k); [|apply IH].
  constructor; [apply IH|]. apply List.Forall_forall. intros x [Hx _]%filter_In. apply in_seq in Hx. lia.
Qed.

Definition failed (s : sample) : bool := negb (sm_error s =? 0).
Definition tally (P : sample -> bool) (ss : list sample) : Z := Z.of_nat (length (List.filter P ss)).

Lemma tally_cons P s ss : tally P (s :: ss) = tally P ss + (if P s then 1 else 0).
Proof. unfold tally. simpl. destruct (P s); simpl; lia. Qed.

Lemma tally_ext P Q ss : (forall s, P s = Q s) -> tally P ss = tally Q ss.
Proof. intros H. unfold tally. f_equal. f_equal. by apply List.filter_ext. Qed.

Lemma sum_over_add g h l : sum_over (fun i => g i + h i) l = sum_over g l + sum_over h l.
Proof. induction l as [|x l IH]; simpl; [done|]. rewrite IH. lia. Qed.

Lemma tally_pos (P : sample -> bool) ss : tally P ss <> 0 <-> exists s, s ∈ ss /\ P s = true.
Proof.
  unfold tally. split.
  - intros H. destruct (List.filter P ss) as [|s l] eqn:E; [done|]. exists s.
    rewrite list_elem_of_In, <- filter_In, E. by left.
  - intros (s & Hs & HP). assert (Hin : In s (List.filter P ss)).
    { apply filter_In. split; [by apply list_elem_of_In|done]. }
    destruct (List.filter P ss); [done|simpl; lia].
Qed.

Section report_lists.
Context (qsort : (nat -> nat -> Z) -> list nat -> list nat) (Hq : qsort_ok qsort).
Context (nsys : nat -> nat) (p : nat) (Hp : (p < 3)%nat).

(** The samples of a history that the table of [p] counts. *)
Definition counted (s : sample) : bool := (sm_pers s =? p)%nat && scno_in_range (nsys p) (sm_scno s).
Lemma sum_over_one s b (n : nat) k :
  sum_over (fun i => if is_call p i s && b then 1 else 0) (List.seq k n) =
  if (sm_pers s =? p)%nat && (Z.of_nat k <=? u64 (sm_scno s)) &&
     (u64 (sm_scno s) <? Z.of_nat (k + n)) && b then 1 else 0.
Proof.
  unfold is_call. destruct (sm_pers s =? p)%nat; simpl.
  2: { revert k. induction n; intros k; simpl; [done|]. by rewrite IHn. }
  destruct b; rewrite ?andb_false_r.
  2: { revert k. induction n; intros k; simpl; rewrite ?andb_false_r; [done|]. by rewrite IHn. }
  generalize (u64 (sm_scno s)) as x. intros x.
  revert k. induction n as [|n IH]; intros k; simpl; rewrite ?andb_true_r in *.
  - destruct (Z.leb_spec (Z.of_nat k) x), (Z.ltb_spec x (Z.of_nat (k + 0))); simpl; lia.
  - rewrite IH. replace (k + S n)%nat with (S k + n)%nat by lia. rewrite andb_true_r.
    destruct (Z.eqb_spec x (Z.of_nat k)), (Z.leb_spec (Z.of_nat k) x), (Z.leb_spec (Z.of_nat (S k)) x),
      (Z.ltb_spec x (Z.of_nat (S k + n))); simpl; lia.
Qed.

(** The calls of each number add up to the calls that are counted. *)
Lemma sum_tally (Q : sample -> bool) ss :
  sum_over (fun i => tally (fun s => is_call p i s && Q s) ss) (List.seq 0 (nsys p)) =
  tally (fun s => counted s && Q s) ss.
Proof.
  induction ss as [|s ss IH].
  { change (tally _ []) with 0. generalize (List.seq 0 (nsys p)). induction l as [|x l IHl]; [done|].
    simpl. by rewrite IHl. }
  rewrite tally_cons, <- IH.
  rewrite (sum_over_ext _ (fun i => tally (fun s => is_call p i s && Q s) ss +
                                    (if is_call p i s && Q s then 1 else 0))).
  2: { intros i _. apply tally_cons. }
  rewrite sum_over_add, sum_over_one. unfold counted, scno_in_range.
  pose proof (u64_range (sm_scno s)) as Hu. unfold is_u64 in Hu.
  rewrite (proj2 (Z.leb_le (Z.of_nat 0) _)) by (apply Hu). by rewrite andb_true_r.
Qed.

Lemma sum_made g v (n : nat) : (forall i, made v i = false -> g i = 0) ->
  sum_over g (List.filter (made v) (List.seq 0 n)) = sum_over g (List.seq 0 n).
Proof.
  intros Hg. generalize (List.seq 0 n). induction l as [|x l IH]; simpl; [done|].
  destruct (made v x) eqn:E; simpl; rewrite IH; [done|]. rewrite (Hg x E). lia.
Qed.

Lemma count_all_shape ss :
  length (counts (nsys p) p (count_all nsys ss)) = nsys p.
Proof.
  assert (H : forall c, length (countv c) = 3%nat ->
            (forall q v, countv c !! q = Some (Some v) -> length v = nsys q) ->
            length (counts (nsys p) p (foldl (count_one nsys) c ss)) = nsys p).
  { induction ss as [|s l IH]; intros c H3 Hl; simpl.
    - unfold counts. destruct (countv c !! p) as [[v|]|] eqn:E; [by eapply Hl|by rewrite length_replicate..].
    - destruct (counts_shape nsys c s H3 Hl). by apply IH. }
  apply H; [done|]. by intros [|[|[|q]]] v Hv.
Qed.

(** What the deduction of the overhead leaves in the table, after a history that
    the counters can count. *)
Lemma tally_int P ss : Z.of_nat (length ss) < 2 ^ 31 -> is_s32 (tally P ss).
Proof. unfold tally, is_s32. pose proof (List.filter_length_le P ss). lia. Qed.

Lemma cum_loop_counts ss v a b t :
  Forall (fun s => (sm_pers s < 3)%nat) ss -> Z.of_nat (length ss) < 2 ^ 31 ->
  cum_loop (default_overhead (count_all nsys ss)) (counts (nsys p) p (count_all nsys ss)) 0 0 tv_zero =
    (v, a, b, t) ->
  length v = nsys p /\
  (forall i, (i < nsys p)%nat -> calls (cc_at v i) = tally (is_call p i) ss /\
  errors (cc_at v i) = tally (fun s => is_call p i s && failed s) ss) /\
  a = tally counted ss /\ b = tally (fun s => counted s && failed s) ss.
Proof.
  intros Hss Hint E. set (c := count_all nsys ss) in *.
  pose proof (cum_loop_spec (default_overhead c) (counts (nsys p) p c) 0 0 tv_zero) as H.
  rewrite E in H. destruct H as (Hlen & Hcc & -> & ->); [by unfold is_s32; lia..|].
  rewrite (count_all_shape ss : length (counts (nsys p) p c) = nsys p) in Hlen.
  assert (Hn : forall i, (i < nsys p)%nat -> calls (cc_at v i) = tally (is_call p i) ss /\
  errors (cc_at v i) = tally (fun s => is_call p i s && failed s) ss).
  { intros i Hi. unfold cc_at. destruct (Hcc i) as [-> ->].
    destruct (count_syscall_exact nsys ss p i Hss Hp Hi) as [H1 H2]. unfold entry in H1, H2.
    fold c in H1, H2. rewrite H1, H2. split; apply s32_id; by apply tally_int. }
  split_and!; [done|done|..]; rewrite foldr_made_0, Hlen, sum_made, Z.add_0_l.
  - rewrite (sum_over_ext _ (fun i => tally (fun s => is_call p i s && true) ss)).
    + rewrite (sum_tally (fun _ => true)). rewrite (tally_ext _ counted) by (intros s; apply andb_true_r).
      by apply s32_id, tally_int.
    + intros i Hi%list_elem_of_In%in_seq. destruct (Hn i) as [-> _]; [lia|].
      apply tally_ext. intros s. by rewrite andb_true_r.
  - intros i Hi. unfold made in Hi. lia.
  - rewrite (sum_over_ext _ (fun i => tally (fun s => is_call p i s && failed s) ss)).
    + rewrite sum_tally. by apply s32_id, tally_int.
    + intros i Hi%list_elem_of_In%in_seq. apply Hn. lia.
  - intros i Hi. unfold made in Hi. destruct (decide (i < nsys p)%nat) as [Hl|Hl].
    + destruct (Hn i Hl) as [H1 ->]. rewrite H1 in Hi.
      destruct (Z.eq_dec (tally (fun s => is_call p i s && failed s) ss) 0) as [|Hne]; [done|].
      apply tally_pos in Hne as (s & Hs & [Hc _]%andb_true_iff).
      assert (tally (is_call p i) ss <> 0) by (apply tally_pos; by exists s). lia.
    + unfold cc_at. rewrite lookup_ge_None_2 by lia. done.
Qed.
End report_lists.


Definition demo_ents : list struct_sysent :=
  [mk_sysent 3 0 "" (Some "read"); mk_sysent 3 0 "" (Some "write"); mk_sysent 1 0 "" (Some "close")].
Definition demo_samples : list sample :=
  [mk_sample 0 0 0 (mk_tv 1 0) (mk_tv 0 250000) tv_zero (mk_tv 1 300000);
   mk_sample 0 2 0 (mk_tv 2 0) (mk_tv 0 500000) tv_zero (mk_tv 2 600000);
   mk_sample 0 2 9 (mk_tv 3 0) (mk_tv 0 500000) tv_zero (mk_tv 3 600000)].
Example report_text :
  fst <$> call_summary_pers merge_qsort SortTime demo_ents 0
            (set_overhead 0 (count_all (fun _ => 3%nat) demo_samples)) = Some
"% time     seconds  usecs/call     calls    errors syscall
------ ----------- ----------- --------- --------- ----------------
 80.00    1.000000      500000         2         1 close
 20.00    0.250000      250000         1           read
------ ----------- ----------- --------- --------- ----------------
100.00    1.250000                     3         1 total
".
Proof. vm_compute. reflexivity. Qed.

