(* ===== verification/Sysent.v ===== *)
(** * The tables of system calls (linux/x86_64/syscallent.h, linux/i386/syscallent.h,
      linux/x32/syscallent.h)

    One row of the code for each entry, in order: number of arguments, groups,
    decoder and name.  The decoder is named after the function that dummy.h and
    the macros make of it; a call without a decoder has the empty name.  The
    three tables are those of the personalities of the x86_64 build. *)

From S2P Require Import Prelude Qual.
Local Open Scope string_scope.
Local Open Scope list_scope.
Local Open Scope Z_scope.

(** The abbreviations of the tables (syscall.c) *)
Definition TD : Z := TRACE_DESC.
Definition TF : Z := TRACE_FILE.
Definition TI : Z := TRACE_IPC.
Definition TN : Z := TRACE_NETWORK.
Definition TP : Z := TRACE_PROCESS.
Definition TS : Z := TRACE_SIGNAL.
Definition TM : Z := TRACE_MEMORY.
Definition NF : Z := SYSCALL_NEVER_FAILS.
Definition MA : Z := 6.   (* MAX_ARGS *)

Definition row (nargs flags : Z) (func name : string) : struct_sysent :=
  mk_sysent nargs flags func (Some name).
Definition hole (nargs flags : Z) : struct_sysent := mk_sysent nargs flags "" None.

(** ** sysent0: linux/x86_64/syscallent.h *)

Definition sysent0_1 : list struct_sysent :=
  [row 3 TD "sys_read" "read"; row 3 TD "sys_write" "write"; row 3 (Z.lor TD TF) "sys_open" "open";
   row 1 TD "sys_close" "close"; row 2 TF "sys_stat" "stat"; row 2 TD "sys_fstat" "fstat";
   row 2 TF "sys_stat" "lstat"; row 3 TD "sys_poll" "poll"; row 3 TD "sys_lseek" "lseek";
   row 6 (Z.lor TD TM) "sys_mmap" "mmap"; row 3 TM "sys_mprotect" "mprotect";
   row 2 TM "sys_munmap" "munmap"; row 1 TM "sys_brk" "brk";
   row 4 TS "sys_rt_sigaction" "rt_sigaction"; row 4 TS "sys_rt_sigprocmask" "rt_sigprocmask";
   row 0 TS "printargs" "rt_sigreturn"; row 3 TD "sys_ioctl" "ioctl"; row 4 TD "sys_pread" "pread";
   row 4 TD "sys_pwrite" "pwrite"; row 3 TD "sys_readv" "readv"; row 3 TD "sys_writev" "writev";
   row 2 TF "sys_access" "access"; row 1 TD "sys_pipe" "pipe"; row 5 TD "sys_select" "select";
   row 0 0 "printargs" "sched_yield"; row 5 TM "sys_mremap" "mremap"; row 3 TM "sys_msync" "msync";
   row 3 TM "sys_mincore" "mincore"; row 3 TM "sys_madvise" "madvise";
   row 4 TI "sys_shmget" "shmget"; row 4 TI "sys_shmat" "shmat"; row 4 TI "sys_shmctl" "shmctl";
   row 1 TD "sys_close" "dup"; row 2 TD "sys_dup2" "dup2"; row 0 TS "printargs" "pause";
   row 2 0 "sys_nanosleep" "nanosleep"; row 2 0 "sys_getitimer" "getitimer";
   row 1 0 "printargs_lu" "alarm"; row 3 0 "sys_setitimer" "setitimer";
   row 0 0 "printargs" "getpid"; row 4 (Z.lor TD TN) "sys_sendfile64" "sendfile";
   row 3 TN "sys_socket" "socket"; row 3 TN "sys_connect" "connect"; row 3 TN "sys_accept" "accept";
   row 6 TN "sys_sendto" "sendto"; row 6 TN "sys_recvfrom" "recvfrom";
   row 3 TN "sys_sendmsg" "sendmsg"; row 3 TN "sys_recvmsg" "recvmsg";
   row 2 TN "sys_shutdown" "shutdown"; row 3 TN "sys_bind" "bind"; row 2 TN "sys_listen" "listen";
   row 3 TN "sys_getsockname" "getsockname"; row 3 TN "sys_getpeername" "getpeername";
   row 4 TN "sys_socketpair" "socketpair"; row 5 TN "sys_setsockopt" "setsockopt";
   row 5 TN "sys_getsockopt" "getsockopt"; row 5 TP "sys_clone" "clone"; row 0 TP "sys_fork" "fork";
   row 0 TP "sys_vfork" "vfork"; row 3 (Z.lor TF TP) "sys_execve" "execve";
   row 1 TP "sys_exit" "_exit"; row 4 TP "sys_wait4" "wait4"; row 2 TS "sys_kill" "kill";
   row 1 0 "sys_uname" "uname"; row 4 TI "sys_semget" "semget"; row 4 TI "sys_semop" "semop";
   row 4 TI "sys_semctl" "semctl"; row 4 TI "sys_shmdt" "shmdt"; row 4 TI "sys_msgget" "msgget";
   row 4 TI "sys_msgsnd" "msgsnd"; row 5 TI "sys_msgrcv" "msgrcv"; row 3 TI "sys_msgctl" "msgctl";
   row 3 TD "sys_fcntl" "fcntl"; row 2 TD "sys_flock" "flock"; row 1 TD "sys_close" "fsync";
   row 1 TD "sys_close" "fdatasync"; row 2 TF "sys_truncate" "truncate";
   row 2 TD "sys_ftruncate" "ftruncate"; row 3 TD "sys_getdents" "getdents";
   row 2 TF "sys_getcwd" "getcwd"; row 1 TF "sys_chdir" "chdir"; row 1 TD "sys_close" "fchdir";
   row 2 TF "sys_link" "rename"; row 2 TF "sys_mkdir" "mkdir"; row 1 TF "sys_chdir" "rmdir";
   row 2 (Z.lor TD TF) "sys_creat" "creat"; row 2 TF "sys_link" "link";
   row 1 TF "sys_chdir" "unlink"; row 2 TF "sys_link" "symlink"; row 3 TF "sys_readlink" "readlink";
   row 2 TF "sys_chmod" "chmod"; row 2 TD "sys_fchmod" "fchmod"; row 3 TF "sys_chown" "chown";
   row 3 TD "sys_fchown" "fchown"; row 3 TF "sys_chown" "lchown"; row 1 0 "sys_umask" "umask";
   row 2 0 "sys_gettimeofday" "gettimeofday"; row 2 0 "sys_getrlimit" "getrlimit";
   row 2 0 "sys_getrusage" "getrusage"; row 1 0 "sys_sysinfo" "sysinfo";
   row 1 0 "sys_times" "times"; row 4 0 "sys_ptrace" "ptrace"; row 0 NF "sys_getuid" "getuid";
   row 3 0 "sys_syslog" "syslog"; row 0 NF "sys_getuid" "getgid"; row 1 0 "sys_setuid" "setuid";
   row 1 0 "sys_setuid" "setgid"; row 0 NF "sys_getuid" "geteuid"; row 0 NF "sys_getuid" "getegid";
   row 2 0 "printargs_lu" "setpgid"; row 0 0 "printargs" "getppid";
   row 0 0 "printargs_lu" "getpgrp"; row 0 0 "printargs" "setsid";
   row 2 0 "sys_setreuid" "setreuid"; row 2 0 "sys_setreuid" "setregid";
   row 2 0 "sys_getgroups" "getgroups"; row 2 0 "sys_setgroups" "setgroups";
   row 3 0 "sys_setresuid" "setresuid"; row 3 0 "sys_getresuid" "getresuid";
   row 3 0 "sys_setresuid" "setresgid"; row 3 0 "sys_getresuid" "getresgid";
   row 1 0 "printargs" "getpgid"; row 1 NF "sys_setfsuid" "setfsuid";
   row 1 NF "sys_setfsuid" "setfsgid"; row 1 0 "printargs_lu" "getsid";
   row 2 0 "sys_capget" "capget"; row 2 0 "sys_capset" "capset";
   row 2 TS "sys_rt_sigpending" "rt_sigpending"; row 4 TS "sys_rt_sigtimedwait" "rt_sigtimedwait";
   row 3 TS "sys_rt_sigqueueinfo" "rt_sigqueueinfo"; row 2 TS "sys_rt_sigsuspend" "rt_sigsuspend";
   row 2 TS "sys_sigaltstack" "sigaltstack"; row 2 TF "sys_utime" "utime";
   row 3 TF "sys_mknod" "mknod"; row 1 TF "sys_chdir" "uselib";
   row 1 0 "sys_personality" "personality"; row 2 0 "printargs" "ustat";
   row 2 TF "sys_statfs" "statfs"; row 2 TD "sys_fstatfs" "fstatfs"; row 3 0 "printargs" "sysfs";
   row 2 0 "sys_getpriority" "getpriority"; row 3 0 "sys_setpriority" "setpriority";
   row 0 0 "sys_sched_setparam" "sched_setparam"; row 2 0 "sys_sched_getparam" "sched_getparam";
   row 3 0 "sys_sched_setscheduler" "sched_setscheduler";
   row 1 0 "sys_sched_getscheduler" "sched_getscheduler";
   row 1 0 "sys_sched_get_priority_min" "sched_get_priority_max";
   row 1 0 "sys_sched_get_priority_min" "sched_get_priority_min"].

Definition sysent0_2 : list struct_sysent :=
  [row 2 0 "sys_sched_rr_get_interval" "sched_rr_get_interval"; row 2 TM "sys_munmap" "mlock";
   row 2 TM "sys_munmap" "munlock"; row 1 TM "sys_mlockall" "mlockall";
   row 0 TM "printargs" "munlockall"; row 0 0 "printargs" "vhangup";
   row 3 0 "printargs" "modify_ldt"; row 2 TF "sys_link" "pivot_root";
   row 1 0 "sys_sysctl" "_sysctl"; row 5 0 "sys_prctl" "prctl";
   row 2 TP "sys_arch_prctl" "arch_prctl"; row 1 0 "sys_adjtimex" "adjtimex";
   row 2 0 "sys_setrlimit" "setrlimit"; row 1 TF "sys_chdir" "chroot"; row 0 0 "printargs" "sync";
   row 1 TF "sys_chdir" "acct"; row 2 0 "sys_settimeofday" "settimeofday";
   row 5 TF "sys_mount" "mount"; row 2 TF "sys_umount2" "umount"; row 2 TF "sys_swapon" "swapon";
   row 1 TF "sys_chdir" "swapoff"; row 4 0 "sys_reboot" "reboot";
   row 2 0 "sys_sethostname" "sethostname"; row 2 0 "sys_setdomainname" "setdomainname";
   row 1 0 "printargs" "iopl"; row 3 0 "printargs" "ioperm";
   row 2 0 "sys_create_module" "create_module"; row 3 0 "sys_init_module" "init_module";
   row 2 0 "sys_open" "delete_module"; row 1 0 "printargs" "get_kernel_syms";
   row 5 0 "sys_query_module" "query_module"; row 4 TF "sys_quotactl" "quotactl";
   row 3 0 "printargs" "nfsservctl"; row 5 0 "printargs" "getpmsg"; row 5 0 "printargs" "putpmsg";
   row 5 0 "printargs" "afs_syscall"; row 3 0 "printargs" "tuxcall"; row 3 0 "printargs" "security";
   row 0 0 "printargs" "gettid"; row 3 TD "sys_readahead" "readahead";
   row 5 TF "sys_setxattr" "setxattr"; row 5 TF "sys_setxattr" "lsetxattr";
   row 5 TD "sys_fsetxattr" "fsetxattr"; row 4 TF "sys_getxattr" "getxattr";
   row 4 TF "sys_getxattr" "lgetxattr"; row 4 TD "sys_fgetxattr" "fgetxattr";
   row 3 TF "sys_listxattr" "listxattr"; row 3 TF "sys_listxattr" "llistxattr";
   row 3 TD "sys_flistxattr" "flistxattr"; row 2 TF "sys_removexattr" "removexattr";
   row 2 TF "sys_removexattr" "lremovexattr"; row 2 TD "sys_fremovexattr" "fremovexattr";
   row 2 TS "sys_kill" "tkill"; row 1 0 "sys_time" "time"; row 6 0 "sys_futex" "futex";
   row 3 0 "sys_sched_setaffinity" "sched_setaffinity";
   row 3 0 "sys_sched_getaffinity" "sched_getaffinity"; row 1 0 "printargs" "set_thread_area";
   row 2 0 "sys_io_setup" "io_setup"; row 1 0 "sys_io_destroy" "io_destroy";
   row 5 0 "sys_io_getevents" "io_getevents"; row 3 0 "sys_io_submit" "io_submit";
   row 3 0 "sys_io_cancel" "io_cancel"; row 1 0 "printargs" "get_thread_area";
   row 3 0 "printargs" "lookup_dcookie"; row 1 TD "sys_epoll_create" "epoll_create";
   row 4 0 "printargs" "epoll_ctl_old"; row 4 0 "printargs" "epoll_wait_old";
   row 5 TM "sys_remap_file_pages" "remap_file_pages"; row 3 TD "sys_getdents64" "getdents64";
   row 1 0 "printargs" "set_tid_address"; row 0 0 "sys_restart_syscall" "restart_syscall";
   row 5 TI "sys_semtimedop" "semtimedop"; row 4 TD "sys_fadvise64" "fadvise64";
   row 3 0 "sys_timer_create" "timer_create"; row 4 0 "sys_timer_settime" "timer_settime";
   row 2 0 "sys_timer_gettime" "timer_gettime"; row 1 0 "printargs" "timer_getoverrun";
   row 1 0 "printargs" "timer_delete"; row 2 0 "sys_clock_settime" "clock_settime";
   row 2 0 "sys_clock_gettime" "clock_gettime"; row 2 0 "sys_clock_gettime" "clock_getres";
   row 4 0 "sys_clock_nanosleep" "clock_nanosleep"; row 1 TP "sys_exit" "exit_group";
   row 4 TD "sys_epoll_wait" "epoll_wait"; row 4 TD "sys_epoll_ctl" "epoll_ctl";
   row 3 TS "sys_tgkill" "tgkill"; row 2 TF "sys_utimes" "utimes"; row 5 0 "printargs" "vserver";
   row 6 TM "sys_mbind" "mbind"; row 3 TM "sys_set_mempolicy" "set_mempolicy";
   row 5 TM "sys_get_mempolicy" "get_mempolicy"; row 4 0 "sys_mq_open" "mq_open";
   row 1 0 "sys_chdir" "mq_unlink"; row 5 0 "sys_mq_timedsend" "mq_timedsend";
   row 5 0 "sys_mq_timedreceive" "mq_timedreceive"; row 2 0 "sys_mq_notify" "mq_notify";
   row 3 0 "sys_mq_getsetattr" "mq_getsetattr"; row 4 0 "printargs" "kexec_load";
   row 5 TP "sys_waitid" "waitid"; row 5 0 "printargs" "add_key"; row 4 0 "printargs" "request_key";
   row 5 0 "printargs" "keyctl"; row 3 0 "printargs" "ioprio_set"; row 2 0 "printargs" "ioprio_get";
   row 0 TD "printargs" "inotify_init"; row 3 TD "sys_inotify_add_watch" "inotify_add_watch";
   row 2 TD "sys_inotify_rm_watch" "inotify_rm_watch"; row 4 TM "sys_migrate_pages" "migrate_pages";
   row 4 (Z.lor TD TF) "sys_openat" "openat"; row 3 (Z.lor TD TF) "sys_mkdirat" "mkdirat";
   row 4 (Z.lor TD TF) "sys_mknodat" "mknodat"; row 5 (Z.lor TD TF) "sys_fchownat" "fchownat";
   row 3 (Z.lor TD TF) "sys_futimesat" "futimesat";
   row 4 (Z.lor TD TF) "sys_newfstatat" "newfstatat"; row 3 (Z.lor TD TF) "sys_unlinkat" "unlinkat";
   row 4 (Z.lor TD TF) "sys_renameat" "renameat"; row 5 (Z.lor TD TF) "sys_linkat" "linkat";
   row 3 (Z.lor TD TF) "sys_symlinkat" "symlinkat";
   row 4 (Z.lor TD TF) "sys_readlinkat" "readlinkat"; row 3 (Z.lor TD TF) "sys_fchmodat" "fchmodat";
   row 3 (Z.lor TD TF) "sys_faccessat" "faccessat"; row 6 TD "sys_pselect6" "pselect6";
   row 5 TD "sys_ppoll" "ppoll"; row 1 TP "sys_unshare" "unshare";
   row 2 0 "sys_munmap" "set_robust_list"; row 3 0 "sys_get_robust_list" "get_robust_list";
   row 6 TD "sys_splice" "splice"; row 4 TD "sys_tee" "tee"; row 4 TD "printargs" "sync_file_range";
   row 4 TD "sys_vmsplice" "vmsplice"; row 6 TM "sys_move_pages" "move_pages";
   row 4 (Z.lor TD TF) "sys_utimensat" "utimensat"; row 6 TD "sys_epoll_pwait" "epoll_pwait";
   row 3 (Z.lor TD TS) "sys_signalfd" "signalfd"; row 2 TD "sys_timerfd_create" "timerfd_create";
   row 1 TD "sys_eventfd" "eventfd"; row 4 TD "sys_fallocate" "fallocate";
   row 4 TD "sys_timerfd_settime" "timerfd_settime";
   row 2 TD "sys_timerfd_gettime" "timerfd_gettime"; row 4 TN "sys_accept4" "accept4";
   row 4 (Z.lor TD TS) "sys_signalfd4" "signalfd4"; row 2 TD "sys_eventfd2" "eventfd2";
   row 1 TD "sys_epoll_create1" "epoll_create1"; row 3 TD "sys_dup3" "dup3";
   row 2 TD "sys_pipe2" "pipe2"; row 1 TD "sys_inotify_init1" "inotify_init1";
   row 4 TD "sys_preadv" "preadv"].

Definition sysent0_3 : list struct_sysent :=
  [row 4 TD "sys_pwritev" "pwritev";
   row 4 (Z.lor TP TS) "sys_rt_tgsigqueueinfo" "rt_tgsigqueueinfo";
   row 5 TD "sys_perf_event_open" "perf_event_open"; row 5 TN "sys_recvmmsg" "recvmmsg";
   row 2 TD "printargs" "fanotify_init"; row 5 (Z.lor TD TF) "printargs" "fanotify_mark";
   row 4 0 "sys_prlimit64" "prlimit64"; row 5 (Z.lor TD TF) "printargs" "name_to_handle_at";
   row 3 TD "printargs" "open_by_handle_at"; row 2 0 "sys_clock_adjtime" "clock_adjtime";
   row 1 TD "sys_close" "syncfs"; row 4 TN "sys_sendmmsg" "sendmmsg";
   row 2 TD "sys_inotify_rm_watch" "setns"; row 3 0 "sys_getcpu" "getcpu";
   row 6 0 "sys_process_vm_readv" "process_vm_readv";
   row 6 0 "sys_process_vm_writev" "process_vm_writev"; row 5 0 "printargs" "kcmp";
   row 3 TD "printargs" "finit_module"].

Definition sysent0 : list struct_sysent := sysent0_1 ++ sysent0_2 ++ sysent0_3.

(** ** sysent1: linux/i386/syscallent.h *)

Definition sysent1_1 : list struct_sysent :=
  [row 0 0 "sys_restart_syscall" "restart_syscall"; row 1 TP "sys_exit" "_exit";
   row 0 TP "sys_fork" "fork"; row 3 TD "sys_read" "read"; row 3 TD "sys_write" "write";
   row 3 (Z.lor TD TF) "sys_open" "open"; row 1 TD "sys_close" "close";
   row 3 TP "sys_waitpid" "waitpid"; row 2 (Z.lor TD TF) "sys_creat" "creat";
   row 2 TF "sys_link" "link"; row 1 TF "sys_chdir" "unlink";
   row 3 (Z.lor TF TP) "sys_execve" "execve"; row 1 TF "sys_chdir" "chdir";
   row 1 0 "sys_time" "time"; row 3 TF "sys_mknod" "mknod"; row 2 TF "sys_chmod" "chmod";
   row 3 TF "sys_chown" "lchown"; row 0 TM "printargs" "break"; row 2 TF "sys_oldstat" "oldstat";
   row 3 TD "sys_lseek" "lseek"; row 0 0 "printargs" "getpid"; row 5 TF "sys_mount" "mount";
   row 1 TF "sys_chdir" "oldumount"; row 1 0 "sys_setuid" "setuid"; row 0 NF "sys_getuid" "getuid";
   row 1 0 "sys_stime" "stime"; row 4 0 "sys_ptrace" "ptrace"; row 1 0 "printargs_lu" "alarm";
   row 2 TD "sys_oldfstat" "oldfstat"; row 0 TS "printargs" "pause"; row 2 TF "sys_utime" "utime";
   row 2 0 "printargs" "stty"; row 2 0 "printargs" "gtty"; row 2 TF "sys_access" "access";
   row 1 0 "printargs_ld" "nice"; row 0 0 "printargs" "ftime"; row 0 0 "printargs" "sync";
   row 2 TS "sys_kill" "kill"; row 2 TF "sys_link" "rename"; row 2 TF "sys_mkdir" "mkdir";
   row 1 TF "sys_chdir" "rmdir"; row 1 TD "sys_close" "dup"; row 1 TD "sys_pipe" "pipe";
   row 1 0 "sys_times" "times"; row 0 0 "printargs" "prof"; row 1 TM "sys_brk" "brk";
   row 1 0 "sys_setuid" "setgid"; row 0 NF "sys_getuid" "getgid"; row 3 TS "sys_signal" "signal";
   row 0 NF "sys_getuid" "geteuid"; row 0 NF "sys_getuid" "getegid"; row 1 TF "sys_chdir" "acct";
   row 2 TF "sys_umount2" "umount"; row 0 0 "printargs" "lock"; row 3 TD "sys_ioctl" "ioctl";
   row 3 TD "sys_fcntl" "fcntl"; row 0 0 "printargs" "mpx"; row 2 0 "printargs_lu" "setpgid";
   row 2 0 "printargs" "ulimit"; row 1 0 "printargs" "oldolduname"; row 1 0 "sys_umask" "umask";
   row 1 TF "sys_chdir" "chroot"; row 2 0 "printargs" "ustat"; row 2 TD "sys_dup2" "dup2";
   row 0 0 "printargs" "getppid"; row 0 0 "printargs_lu" "getpgrp"; row 0 0 "printargs" "setsid";
   row 3 TS "sys_sigaction" "sigaction"; row 0 TS "sys_siggetmask" "sgetmask";
   row 1 TS "sys_sigsetmask" "ssetmask"; row 2 0 "sys_setreuid" "setreuid";
   row 2 0 "sys_setreuid" "setregid"; row 3 TS "sys_sigsuspend" "sigsuspend";
   row 1 TS "sys_sigpending" "sigpending"; row 2 0 "sys_sethostname" "sethostname";
   row 2 0 "sys_setrlimit" "setrlimit"; row 2 0 "sys_getrlimit" "old_getrlimit";
   row 2 0 "sys_getrusage" "getrusage"; row 2 0 "sys_gettimeofday" "gettimeofday";
   row 2 0 "sys_settimeofday" "settimeofday"; row 2 0 "sys_getgroups" "getgroups";
   row 2 0 "sys_setgroups" "setgroups"; row 1 TD "sys_oldselect" "oldselect";
   row 2 TF "sys_link" "symlink"; row 2 TF "sys_oldstat" "oldlstat";
   row 3 TF "sys_readlink" "readlink"; row 1 TF "sys_chdir" "uselib";
   row 2 TF "sys_swapon" "swapon"; row 4 0 "sys_reboot" "reboot"; row 3 TD "sys_readdir" "readdir";
   row 6 (Z.lor TD TM) "sys_old_mmap" "old_mmap"; row 2 TM "sys_munmap" "munmap";
   row 2 TF "sys_truncate" "truncate"; row 2 TD "sys_ftruncate" "ftruncate";
   row 2 TD "sys_fchmod" "fchmod"; row 3 TD "sys_fchown" "fchown";
   row 2 0 "sys_getpriority" "getpriority"; row 3 0 "sys_setpriority" "setpriority";
   row 4 0 "printargs" "profil"; row 2 TF "sys_statfs" "statfs"; row 2 TD "sys_fstatfs" "fstatfs";
   row 3 0 "printargs" "ioperm"; row 2 TD "sys_socketcall" "socketcall";
   row 3 0 "sys_syslog" "syslog"; row 3 0 "sys_setitimer" "setitimer";
   row 2 0 "sys_getitimer" "getitimer"; row 2 TF "sys_stat" "stat"; row 2 TF "sys_stat" "lstat";
   row 2 TD "sys_fstat" "fstat"; row 1 0 "printargs" "olduname"; row 1 0 "printargs" "iopl";
   row 0 0 "printargs" "vhangup"; row 0 0 "printargs" "idle"; row 1 0 "printargs" "vm86old";
   row 4 TP "sys_wait4" "wait4"; row 1 TF "sys_chdir" "swapoff"; row 1 0 "sys_sysinfo" "sysinfo";
   row 6 TI "sys_ipc" "ipc"; row 1 TD "sys_close" "fsync"; row 0 TS "sys_sigreturn" "sigreturn";
   row 5 TP "sys_clone" "clone"; row 2 0 "sys_setdomainname" "setdomainname";
   row 1 0 "sys_uname" "uname"; row 3 0 "printargs" "modify_ldt"; row 1 0 "sys_adjtimex" "adjtimex";
   row 3 TM "sys_mprotect" "mprotect"; row 3 TS "sys_sigprocmask" "sigprocmask";
   row 2 0 "sys_create_module" "create_module"; row 3 0 "sys_init_module" "init_module";
   row 2 0 "sys_open" "delete_module"; row 1 0 "printargs" "get_kernel_syms";
   row 4 TF "sys_quotactl" "quotactl"; row 1 0 "printargs" "getpgid"; row 1 TD "sys_close" "fchdir";
   row 0 0 "printargs" "bdflush"; row 3 0 "printargs" "sysfs";
   row 1 0 "sys_personality" "personality"; row 5 0 "printargs" "afs_syscall";
   row 1 NF "sys_setfsuid" "setfsuid"; row 1 NF "sys_setfsuid" "setfsgid";
   row 5 TD "sys_llseek" "_llseek"; row 3 TD "sys_getdents" "getdents";
   row 5 TD "sys_select" "select"; row 2 TD "sys_flock" "flock"; row 3 TM "sys_msync" "msync";
   row 3 TD "sys_readv" "readv"; row 3 TD "sys_writev" "writev"; row 1 0 "printargs_lu" "getsid"].

Definition sysent1_2 : list struct_sysent :=
  [row 1 TD "sys_close" "fdatasync"; row 1 0 "sys_sysctl" "_sysctl"; row 2 TM "sys_munmap" "mlock";
   row 2 TM "sys_munmap" "munlock"; row 1 TM "sys_mlockall" "mlockall";
   row 0 TM "printargs" "munlockall"; row 0 0 "sys_sched_setparam" "sched_setparam";
   row 2 0 "sys_sched_getparam" "sched_getparam";
   row 3 0 "sys_sched_setscheduler" "sched_setscheduler";
   row 1 0 "sys_sched_getscheduler" "sched_getscheduler"; row 0 0 "printargs" "sched_yield";
   row 1 0 "sys_sched_get_priority_min" "sched_get_priority_max";
   row 1 0 "sys_sched_get_priority_min" "sched_get_priority_min";
   row 2 0 "sys_sched_rr_get_interval" "sched_rr_get_interval"; row 2 0 "sys_nanosleep" "nanosleep";
   row 5 TM "sys_mremap" "mremap"; row 3 0 "sys_setresuid" "setresuid";
   row 3 0 "sys_getresuid" "getresuid"; row 5 0 "printargs" "vm86";
   row 5 0 "sys_query_module" "query_module"; row 3 TD "sys_poll" "poll";
   row 3 0 "printargs" "nfsservctl"; row 3 0 "sys_setresuid" "setresgid";
   row 3 0 "sys_getresuid" "getresgid"; row 5 0 "sys_prctl" "prctl";
   row 0 TS "printargs" "rt_sigreturn"; row 4 TS "sys_rt_sigaction" "rt_sigaction";
   row 4 TS "sys_rt_sigprocmask" "rt_sigprocmask"; row 2 TS "sys_rt_sigpending" "rt_sigpending";
   row 4 TS "sys_rt_sigtimedwait" "rt_sigtimedwait";
   row 3 TS "sys_rt_sigqueueinfo" "rt_sigqueueinfo"; row 2 TS "sys_rt_sigsuspend" "rt_sigsuspend";
   row 5 TD "sys_pread" "pread64"; row 5 TD "sys_pwrite" "pwrite64"; row 3 TF "sys_chown" "chown";
   row 2 TF "sys_getcwd" "getcwd"; row 2 0 "sys_capget" "capget"; row 2 0 "sys_capset" "capset";
   row 2 TS "sys_sigaltstack" "sigaltstack"; row 4 (Z.lor TD TN) "sys_sendfile" "sendfile";
   row 5 0 "printargs" "getpmsg"; row 5 0 "printargs" "putpmsg"; row 0 TP "sys_vfork" "vfork";
   row 2 0 "sys_getrlimit" "getrlimit"; row 6 (Z.lor TD TM) "sys_mmap_pgoff" "mmap2";
   row 3 TF "sys_truncate64" "truncate64"; row 3 TD "sys_ftruncate64" "ftruncate64";
   row 2 TF "sys_stat64" "stat64"; row 2 TF "sys_stat64" "lstat64";
   row 2 TD "sys_fstat64" "fstat64"; row 3 TF "sys_chown" "lchown32";
   row 0 NF "sys_getuid" "getuid32"; row 0 NF "sys_getuid" "getgid32";
   row 0 NF "sys_getuid" "geteuid32"; row 0 NF "sys_getuid" "getegid32";
   row 2 0 "sys_setreuid" "setreuid32"; row 2 0 "sys_setreuid" "setregid32";
   row 2 0 "sys_getgroups32" "getgroups32"; row 2 0 "sys_setgroups32" "setgroups32";
   row 3 TD "sys_fchown" "fchown32"; row 3 0 "sys_setresuid" "setresuid32";
   row 3 0 "sys_getresuid" "getresuid32"; row 3 0 "sys_setresuid" "setresgid32";
   row 3 0 "sys_getresuid" "getresgid32"; row 3 TF "sys_chown" "chown32";
   row 1 0 "sys_setuid" "setuid32"; row 1 0 "sys_setuid" "setgid32";
   row 1 NF "sys_setfsuid" "setfsuid32"; row 1 NF "sys_setfsuid" "setfsgid32";
   row 2 TF "sys_link" "pivot_root"; row 3 TM "sys_mincore" "mincore";
   row 3 TM "sys_madvise" "madvise"; row 3 TD "sys_getdents64" "getdents64";
   row 3 TD "sys_fcntl" "fcntl64"; hole 6 0; row 5 0 "printargs" "security";
   row 0 0 "printargs" "gettid"; row 4 TD "sys_readahead" "readahead";
   row 5 TF "sys_setxattr" "setxattr"; row 5 TF "sys_setxattr" "lsetxattr";
   row 5 TD "sys_fsetxattr" "fsetxattr"; row 4 TF "sys_getxattr" "getxattr";
   row 4 TF "sys_getxattr" "lgetxattr"; row 4 TD "sys_fgetxattr" "fgetxattr";
   row 3 TF "sys_listxattr" "listxattr"; row 3 TF "sys_listxattr" "llistxattr";
   row 3 TD "sys_flistxattr" "flistxattr"; row 2 TF "sys_removexattr" "removexattr";
   row 2 TF "sys_removexattr" "lremovexattr"; row 2 TD "sys_fremovexattr" "fremovexattr";
   row 2 TS "sys_kill" "tkill"; row 4 (Z.lor TD TN) "sys_sendfile64" "sendfile64";
   row 6 0 "sys_futex" "futex"; row 3 0 "sys_sched_setaffinity" "sched_setaffinity";
   row 3 0 "sys_sched_getaffinity" "sched_getaffinity"; row 1 0 "printargs" "set_thread_area";
   row 1 0 "printargs" "get_thread_area"; row 2 0 "sys_io_setup" "io_setup";
   row 1 0 "sys_io_destroy" "io_destroy"; row 5 0 "sys_io_getevents" "io_getevents";
   row 3 0 "sys_io_submit" "io_submit"; row 3 0 "sys_io_cancel" "io_cancel";
   row 5 TD "sys_fadvise64" "fadvise64"; hole 6 0; row 1 TP "sys_exit" "exit_group";
   row 4 0 "printargs" "lookup_dcookie"; row 1 TD "sys_epoll_create" "epoll_create";
   row 4 TD "sys_epoll_ctl" "epoll_ctl"; row 4 TD "sys_epoll_wait" "epoll_wait";
   row 5 TM "sys_remap_file_pages" "remap_file_pages"; row 1 0 "printargs" "set_tid_address";
   row 3 0 "sys_timer_create" "timer_create"; row 4 0 "sys_timer_settime" "timer_settime";
   row 2 0 "sys_timer_gettime" "timer_gettime"; row 1 0 "printargs" "timer_getoverrun";
   row 1 0 "printargs" "timer_delete"; row 2 0 "sys_clock_settime" "clock_settime";
   row 2 0 "sys_clock_gettime" "clock_gettime"; row 2 0 "sys_clock_gettime" "clock_getres";
   row 4 0 "sys_clock_nanosleep" "clock_nanosleep"; row 3 TF "sys_statfs64" "statfs64";
   row 3 TD "sys_fstatfs64" "fstatfs64"; row 3 TS "sys_tgkill" "tgkill";
   row 2 TF "sys_utimes" "utimes"; row 6 TD "sys_fadvise64_64" "fadvise64_64";
   row 5 0 "printargs" "vserver"; row 6 TM "sys_mbind" "mbind";
   row 5 TM "sys_get_mempolicy" "get_mempolicy"; row 3 TM "sys_set_mempolicy" "set_mempolicy";
   row 4 0 "sys_mq_open" "mq_open"; row 1 0 "sys_chdir" "mq_unlink";
   row 5 0 "sys_mq_timedsend" "mq_timedsend"; row 5 0 "sys_mq_timedreceive" "mq_timedreceive";
   row 2 0 "sys_mq_notify" "mq_notify"; row 3 0 "sys_mq_getsetattr" "mq_getsetattr";
   row 4 0 "printargs" "kexec_load"; row 5 TP "sys_waitid" "waitid"; hole 6 0;
   row 5 0 "printargs" "add_key"; row 4 0 "printargs" "request_key"; row 5 0 "printargs" "keyctl";
   row 3 0 "printargs" "ioprio_set"; row 2 0 "printargs" "ioprio_get";
   row 0 TD "printargs" "inotify_init"; row 3 TD "sys_inotify_add_watch" "inotify_add_watch";
   row 2 TD "sys_inotify_rm_watch" "inotify_rm_watch"].

Definition sysent1_3 : list struct_sysent :=
  [row 4 TM "sys_migrate_pages" "migrate_pages"; row 4 (Z.lor TD TF) "sys_openat" "openat";
   row 3 (Z.lor TD TF) "sys_mkdirat" "mkdirat"; row 4 (Z.lor TD TF) "sys_mknodat" "mknodat";
   row 5 (Z.lor TD TF) "sys_fchownat" "fchownat"; row 3 (Z.lor TD TF) "sys_futimesat" "futimesat";
   row 4 (Z.lor TD TF) "sys_newfstatat" "fstatat64"; row 3 (Z.lor TD TF) "sys_unlinkat" "unlinkat";
   row 4 (Z.lor TD TF) "sys_renameat" "renameat"; row 5 (Z.lor TD TF) "sys_linkat" "linkat";
   row 3 (Z.lor TD TF) "sys_symlinkat" "symlinkat";
   row 4 (Z.lor TD TF) "sys_readlinkat" "readlinkat"; row 3 (Z.lor TD TF) "sys_fchmodat" "fchmodat";
   row 3 (Z.lor TD TF) "sys_faccessat" "faccessat"; row 6 TD "sys_pselect6" "pselect6";
   row 5 TD "sys_ppoll" "ppoll"; row 1 TP "sys_unshare" "unshare";
   row 2 0 "sys_munmap" "set_robust_list"; row 3 0 "sys_get_robust_list" "get_robust_list";
   row 6 TD "sys_splice" "splice"; row 6 TD "printargs" "sync_file_range"; row 4 TD "sys_tee" "tee";
   row 4 TD "sys_vmsplice" "vmsplice"; row 6 TM "sys_move_pages" "move_pages";
   row 3 0 "sys_getcpu" "getcpu"; row 6 TD "sys_epoll_pwait" "epoll_pwait";
   row 4 (Z.lor TD TF) "sys_utimensat" "utimensat"; row 3 (Z.lor TD TS) "sys_signalfd" "signalfd";
   row 2 TD "sys_timerfd_create" "timerfd_create"; row 1 TD "sys_eventfd" "eventfd";
   row 6 TD "sys_fallocate" "fallocate"; row 4 TD "sys_timerfd_settime" "timerfd_settime";
   row 2 TD "sys_timerfd_gettime" "timerfd_gettime";
   row 4 (Z.lor TD TS) "sys_signalfd4" "signalfd4"; row 2 TD "sys_eventfd2" "eventfd2";
   row 1 TD "sys_epoll_create1" "epoll_create1"; row 3 TD "sys_dup3" "dup3";
   row 2 TD "sys_pipe2" "pipe2"; row 1 TD "sys_inotify_init1" "inotify_init1";
   row 5 TD "sys_preadv" "preadv"; row 5 TD "sys_pwritev" "pwritev";
   row 4 (Z.lor TP TS) "sys_rt_tgsigqueueinfo" "rt_tgsigqueueinfo";
   row 5 TD "sys_perf_event_open" "perf_event_open"; row 5 TN "sys_recvmmsg" "recvmmsg";
   row 2 TD "printargs" "fanotify_init"; row 5 (Z.lor TD TF) "printargs" "fanotify_mark";
   row 4 0 "sys_prlimit64" "prlimit64"; row 5 (Z.lor TD TF) "printargs" "name_to_handle_at";
   row 3 TD "printargs" "open_by_handle_at"; row 2 0 "sys_clock_adjtime" "clock_adjtime";
   row 1 TD "sys_close" "syncfs"; row 4 TN "sys_sendmmsg" "sendmmsg";
   row 2 TD "sys_inotify_rm_watch" "setns"; row 6 0 "sys_process_vm_readv" "process_vm_readv";
   row 6 0 "sys_process_vm_writev" "process_vm_writev"; row 5 0 "printargs" "kcmp";
   row 3 TD "printargs" "finit_module"; hole 5 0; hole 5 0; hole 5 0; hole 5 0; hole 5 0; hole 5 0;
   hole 5 0; hole 5 0; hole 5 0; hole 5 0; hole 5 0; hole 5 0; hole 5 0; hole 5 0; hole 5 0;
   hole 5 0; hole 5 0; hole 5 0; hole 5 0; hole 5 0; hole 5 0; hole 5 0; hole 5 0; hole 5 0;
   hole 5 0; hole 5 0; hole 5 0; hole 5 0; hole 5 0; hole 5 0; hole 5 0; hole 5 0; hole 5 0;
   hole 5 0; hole 5 0; hole 5 0; hole 5 0; hole 5 0; hole 5 0; hole 5 0; hole 5 0; hole 5 0;
   hole 5 0; hole 5 0; hole 5 0; hole 5 0; hole 5 0; hole 5 0; hole 5 0;
   row 6 0 "printargs" "socket_subcall"; row 3 TN "sys_socket" "socket"; row 3 TN "sys_bind" "bind";
   row 3 TN "sys_connect" "connect"; row 2 TN "sys_listen" "listen"; row 3 TN "sys_accept" "accept";
   row 3 TN "sys_getsockname" "getsockname"; row 3 TN "sys_getpeername" "getpeername";
   row 4 TN "sys_socketpair" "socketpair"; row 4 TN "sys_send" "send"; row 4 TN "sys_recv" "recv";
   row 6 TN "sys_sendto" "sendto"; row 6 TN "sys_recvfrom" "recvfrom";
   row 2 TN "sys_shutdown" "shutdown"; row 5 TN "sys_setsockopt" "setsockopt";
   row 5 TN "sys_getsockopt" "getsockopt"; row 3 TN "sys_sendmsg" "sendmsg";
   row 3 TN "sys_recvmsg" "recvmsg"; row 4 TN "sys_accept4" "accept4";
   row 5 TN "sys_recvmmsg" "recvmmsg"; row 4 0 "printargs" "ipc_subcall";
   row 4 TI "sys_semop" "semop"; row 4 TI "sys_semget" "semget"; row 4 TI "sys_semctl" "semctl";
   row 5 TI "sys_semtimedop" "semtimedop"; row 4 0 "printargs" "ipc_subcall";
   row 4 0 "printargs" "ipc_subcall"; row 4 0 "printargs" "ipc_subcall";
   row 4 0 "printargs" "ipc_subcall"; row 4 0 "printargs" "ipc_subcall";
   row 4 0 "printargs" "ipc_subcall"; row 4 TI "sys_msgsnd" "msgsnd";
   row 4 TI "sys_msgrcv" "msgrcv"; row 4 TI "sys_msgget" "msgget"; row 4 TI "sys_msgctl" "msgctl";
   row 4 0 "printargs" "ipc_subcall"].

Definition sysent1_4 : list struct_sysent :=
  [row 4 0 "printargs" "ipc_subcall"; row 4 0 "printargs" "ipc_subcall";
   row 4 0 "printargs" "ipc_subcall"; row 4 0 "printargs" "ipc_subcall";
   row 4 0 "printargs" "ipc_subcall"; row 4 TI "sys_shmat" "shmat"; row 4 TI "sys_shmdt" "shmdt";
   row 4 TI "sys_shmget" "shmget"; row 4 TI "sys_shmctl" "shmctl"].

Definition sysent1 : list struct_sysent := sysent1_1 ++ sysent1_2 ++ sysent1_3 ++ sysent1_4.

(** ** sysent2: linux/x32/syscallent.h *)

Definition sysent2_1 : list struct_sysent :=
  [row 3 TD "sys_read" "read"; row 3 TD "sys_write" "write"; row 3 (Z.lor TD TF) "sys_open" "open";
   row 1 TD "sys_close" "close"; row 2 TF "sys_stat" "stat"; row 2 TD "sys_fstat" "fstat";
   row 2 TF "sys_stat" "lstat"; row 3 TD "sys_poll" "poll"; row 3 TD "sys_lseek" "lseek";
   row 6 (Z.lor TD TM) "sys_mmap" "mmap"; row 3 TM "sys_mprotect" "mprotect";
   row 2 TM "sys_munmap" "munmap"; row 1 TM "sys_brk" "brk"; row 4 TS "printargs" "64:rt_sigaction";
   row 4 TS "sys_rt_sigprocmask" "rt_sigprocmask"; row 0 TS "printargs" "64:rt_sigreturn";
   row 3 TD "printargs" "64:ioctl"; row 4 TD "sys_pread" "pread"; row 4 TD "sys_pwrite" "pwrite";
   row 3 TD "printargs" "64:readv"; row 3 TD "printargs" "64:writev";
   row 2 TF "sys_access" "access"; row 1 TD "sys_pipe" "pipe"; row 5 TD "sys_select" "select";
   row 0 0 "printargs" "sched_yield"; row 5 TM "sys_mremap" "mremap"; row 3 TM "sys_msync" "msync";
   row 3 TM "sys_mincore" "mincore"; row 3 TM "sys_madvise" "madvise";
   row 4 TI "sys_shmget" "shmget"; row 4 TI "sys_shmat" "shmat"; row 4 TI "sys_shmctl" "shmctl";
   row 1 TD "sys_close" "dup"; row 2 TD "sys_dup2" "dup2"; row 0 TS "printargs" "pause";
   row 2 0 "sys_nanosleep" "nanosleep"; row 2 0 "sys_getitimer" "getitimer";
   row 1 0 "printargs_lu" "alarm"; row 3 0 "sys_setitimer" "setitimer";
   row 0 0 "printargs" "getpid"; row 4 (Z.lor TD TN) "sys_sendfile64" "sendfile";
   row 3 TN "sys_socket" "socket"; row 3 TN "sys_connect" "connect"; row 3 TN "sys_accept" "accept";
   row 6 TN "sys_sendto" "sendto"; row 6 TN "printargs" "64:recvfrom";
   row 3 TN "printargs" "64:sendmsg"; row 5 TN "printargs" "64:recvmsg";
   row 2 TN "sys_shutdown" "shutdown"; row 3 TN "sys_bind" "bind"; row 2 TN "sys_listen" "listen";
   row 3 TN "sys_getsockname" "getsockname"; row 3 TN "sys_getpeername" "getpeername";
   row 4 TN "sys_socketpair" "socketpair"; row 5 TN "printargs" "64:setsockopt";
   row 5 TN "printargs" "64:getsockopt"; row 5 TP "sys_clone" "clone"; row 0 TP "sys_fork" "fork";
   row 0 TP "sys_vfork" "vfork"; row 3 (Z.lor TF TP) "printargs" "64:execve";
   row 1 TP "sys_exit" "_exit"; row 4 TP "sys_wait4" "wait4"; row 2 TS "sys_kill" "kill";
   row 1 0 "sys_uname" "uname"; row 4 TI "sys_semget" "semget"; row 4 TI "sys_semop" "semop";
   row 4 TI "sys_semctl" "semctl"; row 4 TI "sys_shmdt" "shmdt"; row 4 TI "sys_msgget" "msgget";
   row 4 TI "sys_msgsnd" "msgsnd"; row 5 TI "sys_msgrcv" "msgrcv"; row 3 TI "sys_msgctl" "msgctl";
   row 3 TD "sys_fcntl" "fcntl"; row 2 TD "sys_flock" "flock"; row 1 TD "sys_close" "fsync";
   row 1 TD "sys_close" "fdatasync"; row 2 TF "sys_truncate64" "truncate";
   row 2 TD "sys_ftruncate64" "ftruncate"; row 3 TD "sys_getdents" "getdents";
   row 2 TF "sys_getcwd" "getcwd"; row 1 TF "sys_chdir" "chdir"; row 1 TD "sys_close" "fchdir";
   row 2 TF "sys_link" "rename"; row 2 TF "sys_mkdir" "mkdir"; row 1 TF "sys_chdir" "rmdir";
   row 2 (Z.lor TD TF) "sys_creat" "creat"; row 2 TF "sys_link" "link";
   row 1 TF "sys_chdir" "unlink"; row 2 TF "sys_link" "symlink"; row 3 TF "sys_readlink" "readlink";
   row 2 TF "sys_chmod" "chmod"; row 2 TD "sys_fchmod" "fchmod"; row 3 TF "sys_chown" "chown";
   row 3 TD "sys_fchown" "fchown"; row 3 TF "sys_chown" "lchown"; row 1 0 "sys_umask" "umask";
   row 2 0 "sys_gettimeofday" "gettimeofday"; row 2 0 "sys_getrlimit" "getrlimit";
   row 2 0 "sys_getrusage" "getrusage"; row 1 0 "sys_sysinfo" "sysinfo";
   row 1 0 "sys_times" "times"; row 4 0 "printargs" "64:ptrace"; row 0 NF "sys_getuid" "getuid";
   row 3 0 "sys_syslog" "syslog"; row 0 NF "sys_getuid" "getgid"; row 1 0 "sys_setuid" "setuid";
   row 1 0 "sys_setuid" "setgid"; row 0 NF "sys_getuid" "geteuid"; row 0 NF "sys_getuid" "getegid";
   row 2 0 "printargs_lu" "setpgid"; row 0 0 "printargs" "getppid";
   row 0 0 "printargs_lu" "getpgrp"; row 0 0 "printargs" "setsid";
   row 2 0 "sys_setreuid" "setreuid"; row 2 0 "sys_setreuid" "setregid";
   row 2 0 "sys_getgroups" "getgroups"; row 2 0 "sys_setgroups" "setgroups";
   row 3 0 "sys_setresuid" "setresuid"; row 3 0 "sys_getresuid" "getresuid";
   row 3 0 "sys_setresuid" "setresgid"; row 3 0 "sys_getresuid" "getresgid";
   row 1 0 "printargs" "getpgid"; row 1 NF "sys_setfsuid" "setfsuid";
   row 1 NF "sys_setfsuid" "setfsgid"; row 1 0 "printargs_lu" "getsid";
   row 2 0 "sys_capget" "capget"; row 2 0 "sys_capset" "capset";
   row 2 TS "printargs" "64:rt_sigpending"; row 4 TS "printargs" "64:rt_sigtimedwait";
   row 3 TS "printargs" "64:rt_sigqueueinfo"; row 2 TS "sys_rt_sigsuspend" "rt_sigsuspend";
   row 2 TS "printargs" "64:sigaltstack"; row 2 TF "sys_utime" "utime";
   row 3 TF "sys_mknod" "mknod"; row 1 TF "printargs" "64:uselib";
   row 1 0 "sys_personality" "personality"; row 2 0 "printargs" "ustat";
   row 2 TF "sys_statfs" "statfs"; row 2 TD "sys_fstatfs" "fstatfs"; row 3 0 "printargs" "sysfs";
   row 2 0 "sys_getpriority" "getpriority"; row 3 0 "sys_setpriority" "setpriority";
   row 0 0 "sys_sched_setparam" "sched_setparam"; row 2 0 "sys_sched_getparam" "sched_getparam";
   row 3 0 "sys_sched_setscheduler" "sched_setscheduler";
   row 1 0 "sys_sched_getscheduler" "sched_getscheduler";
   row 1 0 "sys_sched_get_priority_min" "sched_get_priority_max";
   row 1 0 "sys_sched_get_priority_min" "sched_get_priority_min"].

Definition sysent2_2 : list struct_sysent :=
  [row 2 0 "sys_sched_rr_get_interval" "sched_rr_get_interval"; row 2 TM "sys_munmap" "mlock";
   row 2 TM "sys_munmap" "munlock"; row 1 TM "sys_mlockall" "mlockall";
   row 0 TM "printargs" "munlockall"; row 0 0 "printargs" "vhangup";
   row 3 0 "printargs" "modify_ldt"; row 2 TF "sys_link" "pivot_root";
   row 1 0 "printargs" "64:_sysctl"; row 5 0 "sys_prctl" "prctl";
   row 2 TP "sys_arch_prctl" "arch_prctl"; row 1 0 "sys_adjtimex" "adjtimex";
   row 2 0 "sys_setrlimit" "setrlimit"; row 1 TF "sys_chdir" "chroot"; row 0 0 "printargs" "sync";
   row 1 TF "sys_chdir" "acct"; row 2 0 "sys_settimeofday" "settimeofday";
   row 5 TF "sys_mount" "mount"; row 2 TF "sys_umount2" "umount"; row 2 TF "sys_swapon" "swapon";
   row 1 TF "sys_chdir" "swapoff"; row 4 0 "sys_reboot" "reboot";
   row 2 0 "sys_sethostname" "sethostname"; row 2 0 "sys_setdomainname" "setdomainname";
   row 1 0 "printargs" "iopl"; row 3 0 "printargs" "ioperm"; row 2 0 "printargs" "64:create_module";
   row 3 0 "sys_init_module" "init_module"; row 2 0 "sys_open" "delete_module";
   row 1 0 "printargs" "64:get_kernel_syms"; row 5 0 "printargs" "64:query_module";
   row 4 TF "sys_quotactl" "quotactl"; row 3 0 "printargs" "64:nfsservctl";
   row 5 0 "printargs" "getpmsg"; row 5 0 "printargs" "putpmsg"; row 5 0 "printargs" "afs_syscall";
   row 3 0 "printargs" "tuxcall"; row 3 0 "printargs" "security"; row 0 0 "printargs" "gettid";
   row 3 TD "sys_readahead" "readahead"; row 5 TF "sys_setxattr" "setxattr";
   row 5 TF "sys_setxattr" "lsetxattr"; row 5 TD "sys_fsetxattr" "fsetxattr";
   row 4 TF "sys_getxattr" "getxattr"; row 4 TF "sys_getxattr" "lgetxattr";
   row 4 TD "sys_fgetxattr" "fgetxattr"; row 3 TF "sys_listxattr" "listxattr";
   row 3 TF "sys_listxattr" "llistxattr"; row 3 TD "sys_flistxattr" "flistxattr";
   row 2 TF "sys_removexattr" "removexattr"; row 2 TF "sys_removexattr" "lremovexattr";
   row 2 TD "sys_fremovexattr" "fremovexattr"; row 2 TS "sys_kill" "tkill";
   row 1 0 "sys_time" "time"; row 6 0 "sys_futex" "futex";
   row 3 0 "sys_sched_setaffinity" "sched_setaffinity";
   row 3 0 "sys_sched_getaffinity" "sched_getaffinity"; row 1 0 "printargs" "64:set_thread_area";
   row 2 0 "sys_io_setup" "io_setup"; row 1 0 "sys_io_destroy" "io_destroy";
   row 5 0 "sys_io_getevents" "io_getevents"; row 3 0 "sys_io_submit" "io_submit";
   row 3 0 "sys_io_cancel" "io_cancel"; row 1 0 "printargs" "64:get_thread_area";
   row 4 0 "printargs" "lookup_dcookie"; row 1 TD "sys_epoll_create" "epoll_create";
   row 4 0 "printargs" "64:epoll_ctl_old"; row 4 0 "printargs" "64:epoll_wait_old";
   row 5 TM "sys_remap_file_pages" "remap_file_pages"; row 3 TD "sys_getdents64" "getdents64";
   row 1 0 "printargs" "set_tid_address"; row 0 0 "sys_restart_syscall" "restart_syscall";
   row 5 TI "sys_semtimedop" "semtimedop"; row 4 TD "sys_fadvise64_64" "fadvise64";
   row 3 0 "printargs" "64:timer_create"; row 4 0 "sys_timer_settime" "timer_settime";
   row 2 0 "sys_timer_gettime" "timer_gettime"; row 1 0 "printargs" "timer_getoverrun";
   row 1 0 "printargs" "timer_delete"; row 2 0 "sys_clock_settime" "clock_settime";
   row 2 0 "sys_clock_gettime" "clock_gettime"; row 2 0 "sys_clock_gettime" "clock_getres";
   row 4 0 "sys_clock_nanosleep" "clock_nanosleep"; row 1 TP "sys_exit" "exit_group";
   row 4 TD "sys_epoll_wait" "epoll_wait"; row 4 TD "sys_epoll_ctl" "epoll_ctl";
   row 3 TS "sys_tgkill" "tgkill"; row 2 TF "sys_utimes" "utimes"; row 5 0 "printargs" "64:vserver";
   row 6 TM "sys_mbind" "mbind"; row 3 TM "sys_set_mempolicy" "set_mempolicy";
   row 5 TM "sys_get_mempolicy" "get_mempolicy"; row 4 0 "sys_mq_open" "mq_open";
   row 1 0 "sys_chdir" "mq_unlink"; row 5 0 "sys_mq_timedsend" "mq_timedsend";
   row 5 0 "sys_mq_timedreceive" "mq_timedreceive"; row 2 0 "printargs" "64:mq_notify";
   row 3 0 "sys_mq_getsetattr" "mq_getsetattr"; row 4 0 "printargs" "64:kexec_load";
   row 5 TP "printargs" "64:waitid"; row 5 0 "printargs" "add_key";
   row 4 0 "printargs" "request_key"; row 5 0 "printargs" "keyctl";
   row 3 0 "printargs" "ioprio_set"; row 2 0 "printargs" "ioprio_get";
   row 0 TD "printargs" "inotify_init"; row 3 TD "sys_inotify_add_watch" "inotify_add_watch";
   row 2 TD "sys_inotify_rm_watch" "inotify_rm_watch"; row 4 TM "sys_migrate_pages" "migrate_pages";
   row 4 (Z.lor TD TF) "sys_openat" "openat"; row 3 (Z.lor TD TF) "sys_mkdirat" "mkdirat";
   row 4 (Z.lor TD TF) "sys_mknodat" "mknodat"; row 5 (Z.lor TD TF) "sys_fchownat" "fchownat";
   row 3 (Z.lor TD TF) "sys_futimesat" "futimesat";
   row 4 (Z.lor TD TF) "sys_newfstatat" "newfstatat"; row 3 (Z.lor TD TF) "sys_unlinkat" "unlinkat";
   row 4 (Z.lor TD TF) "sys_renameat" "renameat"; row 5 (Z.lor TD TF) "sys_linkat" "linkat";
   row 3 (Z.lor TD TF) "sys_symlinkat" "symlinkat";
   row 4 (Z.lor TD TF) "sys_readlinkat" "readlinkat"; row 3 (Z.lor TD TF) "sys_fchmodat" "fchmodat";
   row 3 (Z.lor TD TF) "sys_faccessat" "faccessat"; row 6 TD "sys_pselect6" "pselect6";
   row 5 TD "sys_ppoll" "ppoll"; row 1 TP "sys_unshare" "unshare";
   row 2 0 "printargs" "64:set_robust_list"; row 3 0 "printargs" "64:get_robust_list";
   row 6 TD "sys_splice" "splice"; row 4 TD "sys_tee" "tee"; row 4 TD "printargs" "sync_file_range";
   row 4 TD "printargs" "64:vmsplice"; row 6 TM "printargs" "64:move_pages";
   row 4 (Z.lor TD TF) "sys_utimensat" "utimensat"; row 6 TD "sys_epoll_pwait" "epoll_pwait";
   row 3 (Z.lor TD TS) "sys_signalfd" "signalfd"; row 2 TD "sys_timerfd_create" "timerfd_create";
   row 1 TD "sys_eventfd" "eventfd"; row 4 TD "sys_fallocate" "fallocate";
   row 4 TD "sys_timerfd_settime" "timerfd_settime";
   row 2 TD "sys_timerfd_gettime" "timerfd_gettime"; row 4 TN "sys_accept4" "accept4";
   row 4 (Z.lor TD TS) "sys_signalfd4" "signalfd4"; row 2 TD "sys_eventfd2" "eventfd2";
   row 1 TD "sys_epoll_create1" "epoll_create1"; row 3 TD "sys_dup3" "dup3";
   row 2 TD "sys_pipe2" "pipe2"; row 1 TD "sys_inotify_init1" "inotify_init1";
   row 4 TD "printargs" "64:preadv"].

Definition sysent2_3 : list struct_sysent :=
  [row 4 TD "printargs" "64:pwritev"; row 4 (Z.lor TP TS) "printargs" "64:rt_tgsigqueueinfo";
   row 5 TD "sys_perf_event_open" "perf_event_open"; row 5 TN "printargs" "64:recvmmsg";
   row 2 TD "printargs" "fanotify_init"; row 5 (Z.lor TD TF) "printargs" "fanotify_mark";
   row 4 0 "sys_prlimit64" "prlimit64"; row 5 (Z.lor TD TF) "printargs" "name_to_handle_at";
   row 3 TD "printargs" "open_by_handle_at"; row 2 0 "sys_clock_adjtime" "clock_adjtime";
   row 1 TD "sys_close" "syncfs"; row 4 TN "printargs" "64:sendmmsg";
   row 2 TD "sys_inotify_rm_watch" "setns"; row 3 0 "sys_getcpu" "getcpu";
   row 6 0 "printargs" "64:process_vm_readv"; row 6 0 "printargs" "64:process_vm_writev";
   row 5 0 "printargs" "kcmp"; row 3 TD "printargs" "finit_module"] ++
  replicate 198 (hole 0 0) ++
  [row 4 TS "sys_rt_sigaction" "rt_sigaction"; row 0 TS "printargs" "rt_sigreturn";
   row 3 TD "sys_ioctl" "ioctl"; row 3 TD "sys_readv" "readv"; row 3 TD "sys_writev" "writev";
   row 6 TN "sys_recvfrom" "recvfrom"; row 3 TN "sys_sendmsg" "sendmsg";
   row 3 TN "sys_recvmsg" "recvmsg"; row 3 (Z.lor TF TP) "sys_execve" "execve";
   row 4 0 "sys_ptrace" "ptrace"; row 2 TS "sys_rt_sigpending" "rt_sigpending";
   row 4 TS "sys_rt_sigtimedwait" "rt_sigtimedwait";
   row 3 TS "sys_rt_sigqueueinfo" "rt_sigqueueinfo"; row 2 TS "sys_sigaltstack" "sigaltstack";
   row 3 0 "sys_timer_create" "timer_create"; row 2 0 "sys_mq_notify" "mq_notify";
   row 4 0 "printargs" "kexec_load"; row 5 TP "sys_waitid" "waitid";
   row 2 0 "sys_munmap" "set_robust_list"; row 3 0 "sys_get_robust_list" "get_robust_list";
   row 4 TD "sys_vmsplice" "vmsplice"; row 6 TM "sys_move_pages" "move_pages";
   row 4 TD "sys_preadv" "preadv"; row 4 TD "sys_pwritev" "pwritev";
   row 4 (Z.lor TP TS) "sys_rt_tgsigqueueinfo" "rt_tgsigqueueinfo";
   row 5 TN "sys_recvmmsg" "recvmmsg"; row 4 TN "sys_sendmmsg" "sendmmsg";
   row 6 0 "sys_process_vm_readv" "process_vm_readv";
   row 6 0 "sys_process_vm_writev" "process_vm_writev"; row 5 TN "sys_setsockopt" "setsockopt";
   row 5 TN "sys_getsockopt" "getsockopt"].

Definition sysent2 : list struct_sysent := sysent2_1 ++ sysent2_2 ++ sysent2_3.

(** sysent_vec (syscall.c) *)
Definition sysent_vec : list (list struct_sysent) := [sysent0; sysent1; sysent2].
