(* ===== verification/Errnoent.v ===== *)
(** * The names of the error numbers (linux/errnoent.h)

    The table is indexed by the number; it serves all three personalities. *)

From S2P Require Import Prelude.
Local Open Scope string_scope.
Local Open Scope list_scope.
Local Open Scope Z_scope.

Definition errnoent_1 : list string :=
  ["ERRNO_0"; "EPERM"; "ENOENT"; "ESRCH"; "EINTR"; "EIO"; "ENXIO"; "E2BIG"; "ENOEXEC"; "EBADF";
   "ECHILD"; "EAGAIN"; "ENOMEM"; "EACCES"; "EFAULT"; "ENOTBLK"; "EBUSY"; "EEXIST"; "EXDEV";
   "ENODEV"; "ENOTDIR"; "EISDIR"; "EINVAL"; "ENFILE"; "EMFILE"; "ENOTTY"; "ETXTBSY"; "EFBIG";
   "ENOSPC"; "ESPIPE"; "EROFS"; "EMLINK"; "EPIPE"; "EDOM"; "ERANGE"; "EDEADLK"; "ENAMETOOLONG";
   "ENOLCK"; "ENOSYS"; "ENOTEMPTY"; "ELOOP"; "ERRNO_41"; "ENOMSG"; "EIDRM"; "ECHRNG"; "EL2NSYNC";
   "EL3HLT"; "EL3RST"; "ELNRNG"; "EUNATCH"; "ENOCSI"; "EL2HLT"; "EBADE"; "EBADR"; "EXFULL";
   "ENOANO"; "EBADRQC"; "EBADSLT"; "ERRNO_58"; "EBFONT"; "ENOSTR"; "ENODATA"; "ETIME"; "ENOSR";
   "ENONET"; "ENOPKG"; "EREMOTE"; "ENOLINK"; "EADV"; "ESRMNT"; "ECOMM"; "EPROTO"; "EMULTIHOP";
   "EDOTDOT"; "EBADMSG"; "EOVERFLOW"; "ENOTUNIQ"; "EBADFD"; "EREMCHG"; "ELIBACC"; "ELIBBAD";
   "ELIBSCN"; "ELIBMAX"; "ELIBEXEC"; "EILSEQ"; "ERESTART"; "ESTRPIPE"; "EUSERS"; "ENOTSOCK";
   "EDESTADDRREQ"; "EMSGSIZE"; "EPROTOTYPE"; "ENOPROTOOPT"; "EPROTONOSUPPORT"; "ESOCKTNOSUPPORT";
   "EOPNOTSUPP"; "EPFNOSUPPORT"; "EAFNOSUPPORT"; "EADDRINUSE"; "EADDRNOTAVAIL"; "ENETDOWN";
   "ENETUNREACH"; "ENETRESET"; "ECONNABORTED"; "ECONNRESET"; "ENOBUFS"; "EISCONN"; "ENOTCONN";
   "ESHUTDOWN"; "ETOOMANYREFS"; "ETIMEDOUT"; "ECONNREFUSED"; "EHOSTDOWN"; "EHOSTUNREACH";
   "EALREADY"; "EINPROGRESS"; "ESTALE"; "EUCLEAN"; "ENOTNAM"; "ENAVAIL"; "EISNAM"; "EREMOTEIO";
   "EDQUOT"; "ENOMEDIUM"; "EMEDIUMTYPE"; "ECANCELED"; "ENOKEY"; "EKEYEXPIRED"; "EKEYREVOKED";
   "EKEYREJECTED"; "EOWNERDEAD"; "ENOTRECOVERABLE"; "ERFKILL"; "EHWPOISON"; "ERRNO_134";
   "ERRNO_135"; "ERRNO_136"; "ERRNO_137"; "ERRNO_138"; "ERRNO_139"].

Definition errnoent_2 : list string :=
  ["ERRNO_140"; "ERRNO_141"; "ERRNO_142"; "ERRNO_143"; "ERRNO_144"; "ERRNO_145"; "ERRNO_146";
   "ERRNO_147"; "ERRNO_148"; "ERRNO_149"; "ERRNO_150"; "ERRNO_151"; "ERRNO_152"; "ERRNO_153";
   "ERRNO_154"; "ERRNO_155"; "ERRNO_156"; "ERRNO_157"; "ERRNO_158"; "ERRNO_159"; "ERRNO_160";
   "ERRNO_161"; "ERRNO_162"; "ERRNO_163"; "ERRNO_164"; "ERRNO_165"; "ERRNO_166"; "ERRNO_167";
   "ERRNO_168"; "ERRNO_169"; "ERRNO_170"; "ERRNO_171"; "ERRNO_172"; "ERRNO_173"; "ERRNO_174";
   "ERRNO_175"; "ERRNO_176"; "ERRNO_177"; "ERRNO_178"; "ERRNO_179"; "ERRNO_180"; "ERRNO_181";
   "ERRNO_182"; "ERRNO_183"; "ERRNO_184"; "ERRNO_185"; "ERRNO_186"; "ERRNO_187"; "ERRNO_188";
   "ERRNO_189"; "ERRNO_190"; "ERRNO_191"; "ERRNO_192"; "ERRNO_193"; "ERRNO_194"; "ERRNO_195";
   "ERRNO_196"; "ERRNO_197"; "ERRNO_198"; "ERRNO_199"; "ERRNO_200"; "ERRNO_201"; "ERRNO_202";
   "ERRNO_203"; "ERRNO_204"; "ERRNO_205"; "ERRNO_206"; "ERRNO_207"; "ERRNO_208"; "ERRNO_209";
   "ERRNO_210"; "ERRNO_211"; "ERRNO_212"; "ERRNO_213"; "ERRNO_214"; "ERRNO_215"; "ERRNO_216";
   "ERRNO_217"; "ERRNO_218"; "ERRNO_219"; "ERRNO_220"; "ERRNO_221"; "ERRNO_222"; "ERRNO_223";
   "ERRNO_224"; "ERRNO_225"; "ERRNO_226"; "ERRNO_227"; "ERRNO_228"; "ERRNO_229"; "ERRNO_230";
   "ERRNO_231"; "ERRNO_232"; "ERRNO_233"; "ERRNO_234"; "ERRNO_235"; "ERRNO_236"; "ERRNO_237";
   "ERRNO_238"; "ERRNO_239"; "ERRNO_240"; "ERRNO_241"; "ERRNO_242"; "ERRNO_243"; "ERRNO_244";
   "ERRNO_245"; "ERRNO_246"; "ERRNO_247"; "ERRNO_248"; "ERRNO_249"; "ERRNO_250"; "ERRNO_251";
   "ERRNO_252"; "ERRNO_253"; "ERRNO_254"; "ERRNO_255"; "ERRNO_256"; "ERRNO_257"; "ERRNO_258";
   "ERRNO_259"; "ERRNO_260"; "ERRNO_261"; "ERRNO_262"; "ERRNO_263"; "ERRNO_264"; "ERRNO_265";
   "ERRNO_266"; "ERRNO_267"; "ERRNO_268"; "ERRNO_269"; "ERRNO_270"; "ERRNO_271"; "ERRNO_272";
   "ERRNO_273"; "ERRNO_274"; "ERRNO_275"; "ERRNO_276"; "ERRNO_277"; "ERRNO_278"; "ERRNO_279"].

Definition errnoent_3 : list string :=
  ["ERRNO_280"; "ERRNO_281"; "ERRNO_282"; "ERRNO_283"; "ERRNO_284"; "ERRNO_285"; "ERRNO_286";
   "ERRNO_287"; "ERRNO_288"; "ERRNO_289"; "ERRNO_290"; "ERRNO_291"; "ERRNO_292"; "ERRNO_293";
   "ERRNO_294"; "ERRNO_295"; "ERRNO_296"; "ERRNO_297"; "ERRNO_298"; "ERRNO_299"; "ERRNO_300";
   "ERRNO_301"; "ERRNO_302"; "ERRNO_303"; "ERRNO_304"; "ERRNO_305"; "ERRNO_306"; "ERRNO_307";
   "ERRNO_308"; "ERRNO_309"; "ERRNO_310"; "ERRNO_311"; "ERRNO_312"; "ERRNO_313"; "ERRNO_314";
   "ERRNO_315"; "ERRNO_316"; "ERRNO_317"; "ERRNO_318"; "ERRNO_319"; "ERRNO_320"; "ERRNO_321";
   "ERRNO_322"; "ERRNO_323"; "ERRNO_324"; "ERRNO_325"; "ERRNO_326"; "ERRNO_327"; "ERRNO_328";
   "ERRNO_329"; "ERRNO_330"; "ERRNO_331"; "ERRNO_332"; "ERRNO_333"; "ERRNO_334"; "ERRNO_335";
   "ERRNO_336"; "ERRNO_337"; "ERRNO_338"; "ERRNO_339"; "ERRNO_340"; "ERRNO_341"; "ERRNO_342";
   "ERRNO_343"; "ERRNO_344"; "ERRNO_345"; "ERRNO_346"; "ERRNO_347"; "ERRNO_348"; "ERRNO_349";
   "ERRNO_350"; "ERRNO_351"; "ERRNO_352"; "ERRNO_353"; "ERRNO_354"; "ERRNO_355"; "ERRNO_356";
   "ERRNO_357"; "ERRNO_358"; "ERRNO_359"; "ERRNO_360"; "ERRNO_361"; "ERRNO_362"; "ERRNO_363";
   "ERRNO_364"; "ERRNO_365"; "ERRNO_366"; "ERRNO_367"; "ERRNO_368"; "ERRNO_369"; "ERRNO_370";
   "ERRNO_371"; "ERRNO_372"; "ERRNO_373"; "ERRNO_374"; "ERRNO_375"; "ERRNO_376"; "ERRNO_377";
   "ERRNO_378"; "ERRNO_379"; "ERRNO_380"; "ERRNO_381"; "ERRNO_382"; "ERRNO_383"; "ERRNO_384";
   "ERRNO_385"; "ERRNO_386"; "ERRNO_387"; "ERRNO_388"; "ERRNO_389"; "ERRNO_390"; "ERRNO_391";
   "ERRNO_392"; "ERRNO_393"; "ERRNO_394"; "ERRNO_395"; "ERRNO_396"; "ERRNO_397"; "ERRNO_398";
   "ERRNO_399"; "ERRNO_400"; "ERRNO_401"; "ERRNO_402"; "ERRNO_403"; "ERRNO_404"; "ERRNO_405";
   "ERRNO_406"; "ERRNO_407"; "ERRNO_408"; "ERRNO_409"; "ERRNO_410"; "ERRNO_411"; "ERRNO_412";
   "ERRNO_413"; "ERRNO_414"; "ERRNO_415"; "ERRNO_416"; "ERRNO_417"; "ERRNO_418"; "ERRNO_419"].

Definition errnoent_4 : list string :=
  ["ERRNO_420"; "ERRNO_421"; "ERRNO_422"; "ERRNO_423"; "ERRNO_424"; "ERRNO_425"; "ERRNO_426";
   "ERRNO_427"; "ERRNO_428"; "ERRNO_429"; "ERRNO_430"; "ERRNO_431"; "ERRNO_432"; "ERRNO_433";
   "ERRNO_434"; "ERRNO_435"; "ERRNO_436"; "ERRNO_437"; "ERRNO_438"; "ERRNO_439"; "ERRNO_440";
   "ERRNO_441"; "ERRNO_442"; "ERRNO_443"; "ERRNO_444"; "ERRNO_445"; "ERRNO_446"; "ERRNO_447";
   "ERRNO_448"; "ERRNO_449"; "ERRNO_450"; "ERRNO_451"; "ERRNO_452"; "ERRNO_453"; "ERRNO_454";
   "ERRNO_455"; "ERRNO_456"; "ERRNO_457"; "ERRNO_458"; "ERRNO_459"; "ERRNO_460"; "ERRNO_461";
   "ERRNO_462"; "ERRNO_463"; "ERRNO_464"; "ERRNO_465"; "ERRNO_466"; "ERRNO_467"; "ERRNO_468";
   "ERRNO_469"; "ERRNO_470"; "ERRNO_471"; "ERRNO_472"; "ERRNO_473"; "ERRNO_474"; "ERRNO_475";
   "ERRNO_476"; "ERRNO_477"; "ERRNO_478"; "ERRNO_479"; "ERRNO_480"; "ERRNO_481"; "ERRNO_482";
   "ERRNO_483"; "ERRNO_484"; "ERRNO_485"; "ERRNO_486"; "ERRNO_487"; "ERRNO_488"; "ERRNO_489";
   "ERRNO_490"; "ERRNO_491"; "ERRNO_492"; "ERRNO_493"; "ERRNO_494"; "ERRNO_495"; "ERRNO_496";
   "ERRNO_497"; "ERRNO_498"; "ERRNO_499"; "ERRNO_500"; "ERRNO_501"; "ERRNO_502"; "ERRNO_503";
   "ERRNO_504"; "ERRNO_505"; "ERRNO_506"; "ERRNO_507"; "ERRNO_508"; "ERRNO_509"; "ERRNO_510";
   "ERRNO_511"; "ERESTARTSYS"; "ERESTARTNOINTR"; "ERESTARTNOHAND"; "ENOIOCTLCMD";
   "ERESTART_RESTARTBLOCK"; "EPROBE_DEFER"; "EOPENSTALE"; "ERRNO_519"; "ERRNO_520"; "EBADHANDLE";
   "ENOTSYNC"; "EBADCOOKIE"; "ENOTSUPP"; "ETOOSMALL"; "ESERVERFAULT"; "EBADTYPE"; "EJUKEBOX";
   "EIOCBQUEUED"; "EIOCBRETRY"].

Definition errnoent0 : list string := errnoent_1 ++ errnoent_2 ++ errnoent_3 ++ errnoent_4.
