(* ===== verification/Tcb.v ===== *)
(** * The tracer's state: trace control blocks, options, events
      (defs.h: struct tcb; the static variables of alice-strace.c)

    A [struct tcb *] is the index of its slot in tcbtab: slots are never moved
    or freed.  Everything the tracer does to the outside is an event of the log
    in the state; what the kernel answers to a request is given by an oracle on
    the history, so that the whole tracer is an executable function of the
    oracle.  Debugging output (-d) is not modelled. *)

From S2P Require Import Prelude Timeval Tracee Mmap Signal Qual Count.
Local Open Scope string_scope.
Local Open Scope list_scope.
Local Open Scope Z_scope.

(** ** struct tcb *)

(** Where a stream goes: the common file (or stderr), or the -ff file of a
    process. *)
Inductive stream := Shared | PidFile (pid : Z).
#[global] Instance stream_eq_dec : EqDecision stream.
Proof. solve_decision. Defined.

Record tcb := mk_tcb {
  flags : Z;
  pid : Z;
  qual_flg : Z;
  u_error : Z;
  scno : Z;
  u_args : list Z;                 (* u_arg[MAX_ARGS], unsigned 64-bit images *)
  u_rval : Z;
  currpers : nat;
  curcol : Z;
  outf : option stream;
  out_dump_f : option stream;
  out_stack_f : option stream;
  auxstr : option string;
  s_ent : option struct_sysent;
  stime : timeval;
  dtime : timeval;
  etime : timeval;
  inst : Z * Z;
  mmap_cache : option cache
}.

(** memset of the whole block to 0 *)
Definition zero_tcb : tcb :=
  mk_tcb 0 0 0 0 0 [0; 0; 0; 0; 0; 0] 0 0 0 None None None None None tv_zero tv_zero tv_zero (0, 0) None.

Definition set_flags (f : Z -> Z) (t : tcb) : tcb :=
  mk_tcb (f (flags t)) (pid t) (qual_flg t) (u_error t) (scno t) (u_args t) (u_rval t)
    (currpers t) (curcol t) (outf t) (out_dump_f t) (out_stack_f t) (auxstr t) (s_ent t)
    (stime t) (dtime t) (etime t) (inst t) (mmap_cache t).
Definition set_pid (p : Z) (t : tcb) : tcb :=
  mk_tcb (flags t) p (qual_flg t) (u_error t) (scno t) (u_args t) (u_rval t)
    (currpers t) (curcol t) (outf t) (out_dump_f t) (out_stack_f t) (auxstr t) (s_ent t)
    (stime t) (dtime t) (etime t) (inst t) (mmap_cache t).
Definition set_curcol (f : Z -> Z) (t : tcb) : tcb :=
  mk_tcb (flags t) (pid t) (qual_flg t) (u_error t) (scno t) (u_args t) (u_rval t)
    (currpers t) (f (curcol t)) (outf t) (out_dump_f t) (out_stack_f t) (auxstr t) (s_ent t)
    (stime t) (dtime t) (etime t) (inst t) (mmap_cache t).
Definition set_out (o d k : option stream) (t : tcb) : tcb :=
  mk_tcb (flags t) (pid t) (qual_flg t) (u_error t) (scno t) (u_args t) (u_rval t)
    (currpers t) (curcol t) o d k (auxstr t) (s_ent t)
    (stime t) (dtime t) (etime t) (inst t) (mmap_cache t).
Definition set_scno (n q : Z) (e : option struct_sysent) (t : tcb) : tcb :=
  mk_tcb (flags t) (pid t) q (u_error t) n (u_args t) (u_rval t)
    (currpers t) (curcol t) (outf t) (out_dump_f t) (out_stack_f t) (auxstr t) e
    (stime t) (dtime t) (etime t) (inst t) (mmap_cache t).
Definition set_args (a : list Z) (t : tcb) : tcb :=
  mk_tcb (flags t) (pid t) (qual_flg t) (u_error t) (scno t) a (u_rval t)
    (currpers t) (curcol t) (outf t) (out_dump_f t) (out_stack_f t) (auxstr t) (s_ent t)
    (stime t) (dtime t) (etime t) (inst t) (mmap_cache t).
Definition set_result (rval err : Z) (t : tcb) : tcb :=
  mk_tcb (flags t) (pid t) (qual_flg t) err (scno t) (u_args t) rval
    (currpers t) (curcol t) (outf t) (out_dump_f t) (out_stack_f t) (auxstr t) (s_ent t)
    (stime t) (dtime t) (etime t) (inst t) (mmap_cache t).
Definition set_currpers (p : nat) (t : tcb) : tcb :=
  mk_tcb (flags t) (pid t) (qual_flg t) (u_error t) (scno t) (u_args t) (u_rval t)
    p (curcol t) (outf t) (out_dump_f t) (out_stack_f t) (auxstr t) (s_ent t)
    (stime t) (dtime t) (etime t) (inst t) (mmap_cache t).
Definition set_auxstr (a : option string) (t : tcb) : tcb :=
  mk_tcb (flags t) (pid t) (qual_flg t) (u_error t) (scno t) (u_args t) (u_rval t)
    (currpers t) (curcol t) (outf t) (out_dump_f t) (out_stack_f t) a (s_ent t)
    (stime t) (dtime t) (etime t) (inst t) (mmap_cache t).
Definition set_times (s d e : timeval) (t : tcb) : tcb :=
  mk_tcb (flags t) (pid t) (qual_flg t) (u_error t) (scno t) (u_args t) (u_rval t)
    (currpers t) (curcol t) (outf t) (out_dump_f t) (out_stack_f t) (auxstr t) (s_ent t)
    s d e (inst t) (mmap_cache t).
Definition set_inst (i : Z * Z) (t : tcb) : tcb :=
  mk_tcb (flags t) (pid t) (qual_flg t) (u_error t) (scno t) (u_args t) (u_rval t)
    (currpers t) (curcol t) (outf t) (out_dump_f t) (out_stack_f t) (auxstr t) (s_ent t)
    (stime t) (dtime t) (etime t) i (mmap_cache t).
Definition set_cache (c : option cache) (t : tcb) : tcb :=
  mk_tcb (flags t) (pid t) (qual_flg t) (u_error t) (scno t) (u_args t) (u_rval t)
    (currpers t) (curcol t) (outf t) (out_dump_f t) (out_stack_f t) (auxstr t) (s_ent t)
    (stime t) (dtime t) (etime t) (inst t) c.

Definition TCB_INUSE : Z := 0x01.
Definition TCB_STARTUP : Z := 0x02.
Definition TCB_IGNORE_ONE_SIGSTOP : Z := 0x04.
Definition TCB_INSYSCALL : Z := 0x08.
Definition TCB_ATTACHED : Z := 0x10.
Definition TCB_STRACE_CHILD : Z := 0x20.
Definition TCB_BPTSET : Z := 0x40.
Definition TCB_REPRINT : Z := 0x80.
Definition TCB_FILTERED : Z := 0x100.

Definition inuse (t : tcb) : bool := has_flag (flags t) TCB_INUSE.
Definition exiting (t : tcb) : bool := has_flag (flags t) TCB_INSYSCALL.
Definition entering (t : tcb) : bool := negb (exiting t).

(** ** Options (set by init, constant while tracing) *)

Record options := mk_options {
  followfork : Z;
  qflag : Z;
  tflag : Z;
  cflag : Z;                     (* CFLAG_NONE, CFLAG_ONLY_STATS, CFLAG_BOTH *)
  iflag : bool; rflag : bool; Tflag : bool;
  print_pid_pfx : bool;
  outfname : option string;
  acolumn : Z;
  ptrace_setoptions : Z;
  syscall_trap_sig : Z;
  post_attach_sigstop : Z;       (* use_seize is post_attach_sigstop == 0 *)
  detach_on_execve : bool;
  need_fork_exec_workarounds : bool;
  not_failing_only : bool;
  output_stacktraces : bool;
  use_libunwind : bool;
  os_release : Z;
  strace_child : Z;
  strace_tracer_pid : Z;
  opt_xflag : Z;
  opt_max_strlen : Z;
  sortby : sortfun
}.

Definition CFLAG_NONE : Z := 0.
Definition CFLAG_ONLY_STATS : Z := 1.
Definition CFLAG_BOTH : Z := 2.
Definition use_seize (o : options) : bool := post_attach_sigstop o =? 0.

(** ** Registers: the union of the 64-bit and the i386 layouts *)

(** The bytes of x86_regs_union and x86_io.iov_len. *)
Record regset := mk_regset { reg_bytes : list Z; x86_io_len : Z }.

(** ** Requests and events *)

Inductive request :=
  | RWait4 (pid options : Z)
  | RTime                                        (* gettimeofday *)
  | RIntr                                        (* reading the volatile interrupted *)
  | RTick                                        (* getitimer in count_syscall *)
  | RPtrace (op pid addr data : Z)
  | RKill (pid sig : Z)
  | RTkill (pid sig : Z)
  | RMaps (pid : Z)                              (* reading /proc/pid/maps *)
  | RFork                                        (* fork and vfork, in the parent *)
  | RTaskDir (pid : Z)                           (* opendir of /proc/pid/task *)
  | RTask (pid : Z)                              (* read_dir: 1 and a number, or 0 at the end *)
  | RPipe (cmd : string)                         (* pipe and fdopen of strace_popen *)
  | ROpen (kind : nat) (f : stream).             (* output files: log, dump, stack trace *)

(** What a request returned: the result, errno and the data it filled in. *)
Record reply := mk_reply {
  r_ret : Z;
  r_errno : Z;
  r_val : Z;                 (* wait status, event message, peeked word *)
  r_tv : timeval;            (* time of day, system time of the waited process *)
  r_regs : regset;           (* registers *)
  r_si : siginfo;            (* siginfo *)
  r_text : option string     (* file contents *)
}.

Inductive event :=
  | EWrite (f : stream) (t : string)             (* log text *)
  | EDump (f : stream) (bs : list Z)             (* byte dump *)
  | EStack (f : stream) (t : string)             (* stack traces *)
  | EReport (t : string)                         (* the report of -c, to shared_log *)
  | EClose (f : stream)
  | EErr (t : string)                            (* message on stderr *)
  | EReq (r : request).

(** ** The state *)

(** The variables that are neither the table nor the log. *)
Record globals := mk_globals {
  current_personality : nat;
  otv : timeval;   (* printleader's previous time stamp *)
  g_exit_code : Z;
  popen_pid : Z;
  wait4_wall : bool;   (* wait4_options & __WALL *)
  skip_one_b_execve : bool;
  hide_log_until_execve : bool;
  getregset_support : Z;
  get_regs_error : Z;
  regs : regset;
  g_readv_ns : bool;   (* process_vm_readv_not_supported *)
  g_strbuf : bool;   (* printstr's buffers exist *)
  g_counts : count_state;   (* the statistics of -c *)
  clone_scno : list Z   (* setbpt's static table *)
}.

Definition set_pers (current_personality_ : nat) (g : globals) : globals :=
  mk_globals current_personality_ (otv g) (g_exit_code g) (popen_pid g)
    (wait4_wall g) (skip_one_b_execve g) (hide_log_until_execve g) (getregset_support g)
    (get_regs_error g) (regs g) (g_readv_ns g) (g_strbuf g) (g_counts g) (clone_scno g).
Definition set_otv (otv_ : timeval) (g : globals) : globals :=
  mk_globals (current_personality g) otv_ (g_exit_code g) (popen_pid g)
    (wait4_wall g) (skip_one_b_execve g) (hide_log_until_execve g) (getregset_support g)
    (get_regs_error g) (regs g) (g_readv_ns g) (g_strbuf g) (g_counts g) (clone_scno g).
Definition set_exit_code (g_exit_code_ : Z) (g : globals) : globals :=
  mk_globals (current_personality g) (otv g) g_exit_code_ (popen_pid g)
    (wait4_wall g) (skip_one_b_execve g) (hide_log_until_execve g) (getregset_support g)
    (get_regs_error g) (regs g) (g_readv_ns g) (g_strbuf g) (g_counts g) (clone_scno g).
Definition set_popen_pid (popen_pid_ : Z) (g : globals) : globals :=
  mk_globals (current_personality g) (otv g) (g_exit_code g) popen_pid_
    (wait4_wall g) (skip_one_b_execve g) (hide_log_until_execve g) (getregset_support g)
    (get_regs_error g) (regs g) (g_readv_ns g) (g_strbuf g) (g_counts g) (clone_scno g).
Definition set_wall (wait4_wall_ : bool) (g : globals) : globals :=
  mk_globals (current_personality g) (otv g) (g_exit_code g) (popen_pid g)
    wait4_wall_ (skip_one_b_execve g) (hide_log_until_execve g) (getregset_support g)
    (get_regs_error g) (regs g) (g_readv_ns g) (g_strbuf g) (g_counts g) (clone_scno g).
Definition set_skip (skip_one_b_execve_ : bool) (g : globals) : globals :=
  mk_globals (current_personality g) (otv g) (g_exit_code g) (popen_pid g)
    (wait4_wall g) skip_one_b_execve_ (hide_log_until_execve g) (getregset_support g)
    (get_regs_error g) (regs g) (g_readv_ns g) (g_strbuf g) (g_counts g) (clone_scno g).
Definition set_hide (hide_log_until_execve_ : bool) (g : globals) : globals :=
  mk_globals (current_personality g) (otv g) (g_exit_code g) (popen_pid g)
    (wait4_wall g) (skip_one_b_execve g) hide_log_until_execve_ (getregset_support g)
    (get_regs_error g) (regs g) (g_readv_ns g) (g_strbuf g) (g_counts g) (clone_scno g).
Definition set_regsup (getregset_support_ : Z) (g : globals) : globals :=
  mk_globals (current_personality g) (otv g) (g_exit_code g) (popen_pid g)
    (wait4_wall g) (skip_one_b_execve g) (hide_log_until_execve g) getregset_support_
    (get_regs_error g) (regs g) (g_readv_ns g) (g_strbuf g) (g_counts g) (clone_scno g).
Definition set_regs (get_regs_error_ : Z) (regs_ : regset) (g : globals) : globals :=
  mk_globals (current_personality g) (otv g) (g_exit_code g) (popen_pid g)
    (wait4_wall g) (skip_one_b_execve g) (hide_log_until_execve g) (getregset_support g)
    get_regs_error_ regs_ (g_readv_ns g) (g_strbuf g) (g_counts g) (clone_scno g).
Definition set_dflags (g_readv_ns_ : bool) (g_strbuf_ : bool) (g : globals) : globals :=
  mk_globals (current_personality g) (otv g) (g_exit_code g) (popen_pid g)
    (wait4_wall g) (skip_one_b_execve g) (hide_log_until_execve g) (getregset_support g)
    (get_regs_error g) (regs g) g_readv_ns_ g_strbuf_ (g_counts g) (clone_scno g).
Definition set_counts (g_counts_ : count_state) (g : globals) : globals :=
  mk_globals (current_personality g) (otv g) (g_exit_code g) (popen_pid g)
    (wait4_wall g) (skip_one_b_execve g) (hide_log_until_execve g) (getregset_support g)
    (get_regs_error g) (regs g) (g_readv_ns g) (g_strbuf g) g_counts_ (clone_scno g).
Definition set_clone (clone_scno_ : list Z) (g : globals) : globals :=
  mk_globals (current_personality g) (otv g) (g_exit_code g) (popen_pid g)
    (wait4_wall g) (skip_one_b_execve g) (hide_log_until_execve g) (getregset_support g)
    (get_regs_error g) (regs g) (g_readv_ns g) (g_strbuf g) (g_counts g) clone_scno_.

Record tracer := mk_tracer {
  tcbtab : list tcb;
  nprocs : Z;
  printing_tcp : option nat;
  current_tcp : option nat;
  glb : globals;
  log : list event
}.

Definition tcbtabsize (s : tracer) : nat := length (tcbtab s).

(** ** The monad: state and exit *)

Inductive res (A : Type) :=
  | Ret (x : A) (s : tracer)
  | Exit (code : Z) (s : tracer)        (* exit(code) *)
  | Die (s : tracer).                   (* die(): cleanup, then exit(1) *)
Arguments Ret {A}. Arguments Exit {A}. Arguments Die {A}.

Definition M (A : Type) : Type := tracer -> res A.
#[global] Instance M_ret : MRet M := fun A x s => Ret x s.
#[global] Instance M_bind : MBind M := fun A B k c s =>
  match c s with
  | Ret x s => k x s
  | Exit code s => Exit code s
  | Die s => Die s
  end.

Definition get : M tracer := fun s => Ret s s.
Definition gets {A} (f : tracer -> A) : M A := fun s => Ret (f s) s.
Definition put_tab (t : list tcb) (n : Z) : M unit := fun s =>
  Ret tt (mk_tracer t n (printing_tcp s) (current_tcp s) (glb s) (log s)).
Definition set_printing (p : option nat) : M unit := fun s =>
  Ret tt (mk_tracer (tcbtab s) (nprocs s) p (current_tcp s) (glb s) (log s)).
Definition set_current (p : option nat) : M unit := fun s =>
  Ret tt (mk_tracer (tcbtab s) (nprocs s) (printing_tcp s) p (glb s) (log s)).
Definition modify_glb (f : globals -> globals) : M unit := fun s =>
  Ret tt (mk_tracer (tcbtab s) (nprocs s) (printing_tcp s) (current_tcp s) (f (glb s)) (log s)).
Definition emit (e : event) : M unit := fun s =>
  Ret tt (mk_tracer (tcbtab s) (nprocs s) (printing_tcp s) (current_tcp s) (glb s) (log s ++ [e])).
(** exit(code) *)
Definition exit_ {A} (code : Z) : M A := fun s => Exit code s.
(** message on stderr *)
Definition err_msg (t : string) : M unit := emit (EErr t).
(** error_msg_and_die, perror_msg_and_die *)
Definition die {A} : M A := fun s => Die s.
Definition die_msg {A} (t : string) : M A := _ ← err_msg t; die.

(** *tcp *)
Definition tcb_of (i : nat) : M tcb := gets (fun s => default zero_tcb (tcbtab s !! i)).
Definition upd_tcb (i : nat) (f : tcb -> tcb) : M unit := fun s =>
  Ret tt (mk_tracer (alter f i (tcbtab s)) (nprocs s) (printing_tcp s) (current_tcp s)
            (glb s) (log s)).

Definition when (b : bool) (c : M unit) : M unit := if b then c else mret tt.

Section requests.
Context (oracle : list event -> request -> reply).

Definition ask_kernel (r : request) : M reply := fun s =>
  match emit (EReq r) s with
  | Ret _ s' => Ret (oracle (log s) r) s'
  | Exit c s' => Exit c s'
  | Die s' => Die s'
  end.
End requests.

(** ** ptrace requests *)

Definition PTRACE_PEEKUSER : Z := 3.
Definition PTRACE_POKEUSER : Z := 6.
Definition PTRACE_GETREGS : Z := 12.
Definition PTRACE_GETREGSET : Z := 0x4204.
Definition PTRACE_CONT : Z := 7.
Definition PTRACE_ATTACH : Z := 16.
Definition PTRACE_DETACH : Z := 17.
Definition PTRACE_SYSCALL : Z := 24.
Definition PTRACE_SETOPTIONS : Z := 0x4200.
Definition PTRACE_GETEVENTMSG : Z := 0x4201.
Definition PTRACE_GETSIGINFO : Z := 0x4202.
Definition PTRACE_SEIZE : Z := 0x4206.
Definition PTRACE_INTERRUPT : Z := 0x4207.
Definition PTRACE_LISTEN : Z := 0x4208.
Definition PTRACE_EVENT_EXEC : Z := 4.
Definition PTRACE_EVENT_STOP : Z := 128.

(** The requests that let a stopped process go on (or detach it): operation,
    process and signal. *)
Definition restart_of (e : event) : list (Z * Z * Z) :=
  match e with
  | EReq (RPtrace op p _ sig) =>
      if existsb (Z.eqb op) [PTRACE_CONT; PTRACE_DETACH; PTRACE_SYSCALL; PTRACE_LISTEN]
      then [(op, p, sig)] else []
  | _ => []
  end.
Definition restarts (evs : list event) : list (Z * Z * Z) := evs ≫= restart_of.

Lemma restarts_app l1 l2 : restarts (l1 ++ l2) = restarts l1 ++ restarts l2.
Proof. apply bind_app. Qed.
