(* ===== verification/Regs.v ===== *)
(** * The register union (syscall.c: struct i386_user_regs_struct,
      x86_regs_union, the i386 half of get_regs; sys/user.h)

    x86_regs_union is kept as its bytes: the 64-bit and the i386 layouts are
    views of the same memory. *)

From stdpp Require Import sets.
From S2P Require Import Prelude Tracee Signal Timeval Mmap Qual Count Tcb.
Local Open Scope Z_scope.

(** Offsets of struct user_regs_struct. *)
Definition o_rbp : nat := 32.
Definition o_rbx : nat := 40.
Definition o_r10 : nat := 56.
Definition o_r9 : nat := 64.
Definition o_r8 : nat := 72.
Definition o_rax : nat := 80.
Definition o_rcx : nat := 88.
Definition o_rdx : nat := 96.
Definition o_rsi : nat := 104.
Definition o_rdi : nat := 112.
Definition o_orig_rax : nat := 120.
Definition o_rip : nat := 128.
Definition o_cs : nat := 136.
Definition o_rsp : nat := 152.
Definition sizeof_x86_64_regs : nat := 216.

(** Offsets of struct i386_user_regs_struct. *)
Definition o_ebx : nat := 0.
Definition o_ecx : nat := 4.
Definition o_edx : nat := 8.
Definition o_esi : nat := 12.
Definition o_edi : nat := 16.
Definition o_ebp : nat := 20.
Definition o_eax : nat := 24.
Definition o_orig_eax : nat := 44.
Definition o_eip : nat := 48.
Definition o_esp : nat := 60.
Definition sizeof_i386_regs : nat := 68.

Definition reg64 (off : nat) (b : list Z) : Z := le (take 8 (drop off b)).
Definition reg32 (off : nat) (b : list Z) : Z := le (take 4 (drop off b)).

(** Store [bs] at offset [off]. *)
Definition store (off : nat) (bs b : list Z) : list Z :=
  take off b ++ bs ++ drop (off + length bs) b.

(** The assignments i386_regs.X = x86_64_regs.Y, in program order. *)
Definition i386_moves : list (nat * nat) :=
  [ (o_ebx, o_rbx); (o_ecx, o_rcx); (o_edx, o_rdx); (o_esi, o_rsi); (o_edi, o_rdi);
    (o_ebp, o_rbp); (o_eax, o_rax); (o_orig_eax, o_orig_rax); (o_eip, o_rip); (o_esp, o_rsp) ].

Definition move (b : list Z) (m : nat * nat) : list Z :=
  store m.1 (bytes_le 4 (reg64 m.2 b)) b.

Definition to_i386 (b : list Z) : list Z := foldl move b i386_moves.

Definition is_i386 (r : regset) : bool := x86_io_len r =? Z.of_nat sizeof_i386_regs.

(** ** Reading what was stored *)

Lemma length_store off bs b :
  (off + length bs <= length b)%nat -> length (store off bs b) = length b.
Proof. intros H. unfold store. rewrite !length_app, length_take, length_drop. lia. Qed.

Lemma reg32_store_same off bs b :
  length bs = 4%nat -> (off <= length b)%nat -> reg32 off (store off bs b) = le bs.
Proof.
  intros Hb Ho. unfold reg32, store. rewrite drop_app_length' by (rewrite length_take; lia).
  by rewrite take_app_length' by done.
Qed.

Lemma reg32_store_other off off' bs b :
  (off + 4 <= off' \/ off' + length bs <= off)%nat -> (off' + length bs <= length b)%nat ->
  reg32 off (store off' bs b) = reg32 off b.
Proof.
  intros Hd Hl. unfold reg32, store. f_equal. apply list_eq. intros i.
  destruct (decide (i < 4)%nat) as [Hi|Hi].
  2: { rewrite !(lookup_ge_None_2 (take 4 _)); [done|rewrite length_take; lia..]. }
  rewrite !lookup_take, !lookup_drop. destruct Hd as [Hd|Hd].
  all: case_decide; try lia.
  - by rewrite lookup_app_l, lookup_take, decide_True by (rewrite ?length_take; lia).
  - rewrite !lookup_app_r, length_take, lookup_drop by (rewrite ?length_take; lia).
    f_equal. lia.
Qed.

(** The low half of a 64-bit register is a 32-bit read. *)
Lemma reg64_low off b :
  (off + 8 <= length b)%nat -> Forall is_u8 b -> u32 (reg64 off b) = reg32 off b.
Proof.
  intros Hl Hb. unfold reg64, reg32.
  assert (H8 : length (take 8 (drop off b)) = 8%nat) by (rewrite length_take, length_drop; lia).
  assert (Hu : Forall is_u8 (take 8 (drop off b))) by by apply Forall_take, Forall_drop.
  replace (take 4 (drop off b)) with (take 4 (take 8 (drop off b))) by (by rewrite take_take).
  set (l := take 8 (drop off b)) in *. clearbody l. clear Hl Hb b.
  do 8 (destruct l as [|? l]; [done|]). destruct l; [|done].
  repeat (apply Forall_cons in Hu as [? Hu]). simpl. unfold u32, is_u8 in *.
  change (2 ^ 8) with 256 in *. change (2 ^ 32) with 4294967296. Z.div_mod_to_equations. lia.
Qed.

Lemma le_bytes_le4 z : le (bytes_le 4 z) = u32 z.
Proof.
  unfold bytes_le. simpl. unfold u32. change (2 ^ 32) with 4294967296.
  Z.div_mod_to_equations. lia.
Qed.

(** The bytes of a register dump. *)
Definition wf_regs (b : list Z) : Prop := (sizeof_x86_64_regs <= length b)%nat /\ Forall is_u8 b.

Lemma move_wf b m : (m.1 + 4 <= sizeof_x86_64_regs)%nat -> wf_regs b -> wf_regs (move b m).
Proof.
  intros Hm [Hl Hu]. unfold move, wf_regs.
  rewrite length_store by (rewrite length_bytes_le; lia). split; [done|].
  unfold store. rewrite !Forall_app.
  split_and!; [by apply Forall_take|apply bytes_le_u8|by apply Forall_drop].
Qed.

Definition apart (off d : nat) : bool := ((off + 4 <=? d) || (d + 4 <=? off))%nat.

Lemma apart_spec off d : apart off d = true -> (off + 4 <= d \/ d + 4 <= off)%nat.
Proof. unfold apart. rewrite orb_true_iff, !Nat.leb_le. done. Qed.

(** A list of moves that leaves the four bytes at [off] alone. *)
Lemma moves_other off ms b :
  forallb (fun m => (m.1 + 4 <=? sizeof_x86_64_regs)%nat && apart off m.1) ms = true ->
  wf_regs b -> reg32 off (foldl move b ms) = reg32 off b /\ wf_regs (foldl move b ms).
Proof.
  revert b. induction ms as [|m ms IH]; intros b Hms Hb; simpl; [done|].
  simpl in Hms. apply andb_true_iff in Hms as [Hm Hms]. apply andb_true_iff in Hm as [Hm Hap].
  apply Nat.leb_le in Hm. destruct (IH (move b m) Hms (move_wf b m Hm Hb)) as [-> ?].
  split; [|done]. unfold move. apply reg32_store_other.
  - rewrite length_bytes_le. by apply apart_spec.
  - rewrite length_bytes_le. destruct Hb. lia.
Qed.

(** Every destination of [ms] is apart from the sources and from the other
    destinations. *)
Definition moves_ok (ms : list (nat * nat)) : Prop :=
  Forall (fun m => (m.1 + 4 <= sizeof_x86_64_regs /\ m.2 + 8 <= sizeof_x86_64_regs)%nat) ms /\
  (forall m m', m ∈ ms -> m' ∈ ms -> apart m.2 m'.1 = true /\ (m.1 <> m'.1 -> apart m.1 m'.1 = true)) /\
  NoDup ms.*1.

Lemma moves_result ms b d src :
  moves_ok ms -> wf_regs b -> (d, src) ∈ ms ->
  reg32 d (foldl move b ms) = u32 (reg64 src b).
Proof.
  intros (Hrange & Hap & Hnd) Hb Hin. apply list_elem_of_split in Hin as (ms1 & ms2 & ->).
  rewrite Forall_app, Forall_cons in Hrange. destruct Hrange as (Hr1 & [Hd Hs] & Hr2).
  rewrite fmap_app, fmap_cons, NoDup_app, NoDup_cons in Hnd.
  destruct Hnd as (_ & Hnd1 & Hnd2 & _). simpl in *.
  assert (H1 : reg32 src (foldl move b ms1) = reg32 src b /\ wf_regs (foldl move b ms1)).
  { apply moves_other; [|done]. apply forallb_forall. intros m Hm%list_elem_of_In.
    rewrite Forall_forall in Hr1. destruct (Hr1 m Hm).
    destruct (Hap (d, src) m) as [Ha _]; [set_solver..|]. simpl in Ha.
    rewrite Ha, andb_true_r. by apply Nat.leb_le. }
  destruct H1 as [H1 Hb1]. rewrite foldl_app. simpl. set (b1 := foldl move b ms1) in *.
  assert (H2 : reg32 d (foldl move (move b1 (d, src)) ms2) = reg32 d (move b1 (d, src)) /\
               wf_regs (foldl move (move b1 (d, src)) ms2)).
  { apply moves_other; [|by apply move_wf]. apply forallb_forall. intros m Hm%list_elem_of_In.
    rewrite Forall_forall in Hr2. destruct (Hr2 m Hm).
    destruct (Hap (d, src) m) as [_ Ha]; [set_solver..|]. simpl in Ha.
    rewrite Ha, andb_true_r; [by apply Nat.leb_le|]. intros ->. apply Hnd2. set_solver. }
  destruct H2 as [-> _]. destruct Hb as [Hl Hu], Hb1 as [Hl1 Hu1].
  unfold move. simpl. rewrite reg32_store_same by (rewrite ?length_bytes_le; lia).
  rewrite le_bytes_le4, !reg64_low by (done || lia). done.
Qed.

Definition moves_okb (ms : list (nat * nat)) : bool :=
  forallb (fun m => ((m.1 + 4 <=? sizeof_x86_64_regs) && (m.2 + 8 <=? sizeof_x86_64_regs))%nat &&
                    forallb (fun m' => apart m.2 m'.1 && ((m.1 =? m'.1)%nat || apart m.1 m'.1)) ms) ms.

Lemma moves_okb_spec ms : moves_okb ms = true -> NoDup ms.*1 -> moves_ok ms.
Proof.
  intros H Hnd. unfold moves_okb in H. rewrite forallb_forall in H. split_and!; [| |done].
  - apply Forall_forall. intros m Hm%list_elem_of_In. specialize (H m Hm).
    rewrite !andb_true_iff, !Nat.leb_le in H. apply H.
  - intros m m' Hm%list_elem_of_In Hm'%list_elem_of_In. specialize (H m Hm).
    apply andb_true_iff in H as [_ H]. rewrite forallb_forall in H. specialize (H m' Hm').
    apply andb_true_iff in H as [-> H]. split; [done|]. intros Hne.
    apply Nat.eqb_neq in Hne. by rewrite Hne in H.
Qed.

Lemma moves_ok_perm ms ms' : ms ≡ₚ ms' -> moves_ok ms -> moves_ok ms'.
Proof.
  intros Hp (H1 & H2 & H3). split_and!.
  - by rewrite <- Hp.
  - intros m m'. rewrite <- !Hp. apply H2.
  - by rewrite <- Hp.
Qed.

(** ** Properties *)

(** The fallback path of get_regs gives correct i386 registers.  Although
    the two layouts overlap in memory, each of the ten i386 registers ends up as
    the low half of the 64-bit register of the original dump; and, unlike the
    comment in the source says, this holds for every order of the ten
    assignments. *)
Theorem to_i386_low_halves b ms d src :
  wf_regs b -> ms ≡ₚ i386_moves -> (d, src) ∈ ms ->
  reg32 d (foldl move b ms) = u32 (reg64 src b).
Proof.
  intros Hb Hp Hin. apply moves_result; [|done|done].
  apply (moves_ok_perm i386_moves); [done|]. apply moves_okb_spec; [vm_compute; reflexivity|].
  apply (bool_decide_unpack (NoDup i386_moves.*1)). vm_compute. exact I.
Qed.

Definition demo_regs : list Z := (fun i => Z.of_nat i) <$> seq 0 216.

Lemma to_i386_low_halves_witness :
  reg32 o_eax (to_i386 demo_regs) = u32 (reg64 o_rax demo_regs).
Proof.
  apply (to_i386_low_halves demo_regs i386_moves o_eax o_rax).
  - split; [apply Nat.leb_le; vm_compute; reflexivity|].
    apply (bool_decide_unpack (Forall (fun z => 0 <= z < 256) demo_regs)). vm_compute. exact I.
  - reflexivity.
  - apply (bool_decide_unpack ((o_eax, o_rax) ∈ i386_moves)). vm_compute. exact I.
Defined.
