(* ===== verification/Log.v ===== *)
(** * Writing the log (alice-strace.c: tprintf, tprints, tprintstackinfo, tdump,
      line_ended, printleader, tabto; syscall.c: printcall)

    Writes are taken to succeed.  The text of a stream is the concatenation of
    its writes ([text_of]). *)

From S2P Require Import Prelude Timeval Tracee Mmap Signal Qual Count Tcb Regs.
Local Open Scope string_scope.
Local Open Scope list_scope.
Local Open Scope Z_scope.

Section log.
Context (oracle : list event -> request -> reply) (opt : options).
(** strftime("%T", localtime(t)) *)
Context (hms : Z -> string).

(** tprints and tprintf: the text goes to current_tcp's file. *)
Definition tprints (t : string) : M unit :=
  cur ← gets current_tcp;
  match cur with
  | None => mret tt
  | Some i =>
      tcp ← tcb_of i;
      match outf tcp with
      | Some f => _ ← emit (EWrite f t); upd_tcb i (set_curcol (fun c => c + slen t))
      | None => exit_ 139               (* a null FILE pointer *)
      end
  end.

Definition tprintstackinfo (t : string) : M unit :=
  cur ← gets current_tcp;
  match cur with
  | None => mret tt
  | Some i =>
      tcp ← tcb_of i;
      match out_stack_f tcp with Some f => emit (EStack f t) | None => exit_ 139 end
  end.

(** tdump dereferences current_tcp unconditionally. *)
Definition tdump (bs : list Z) : M unit :=
  cur ← gets current_tcp;
  match cur with
  | None => exit_ 139
  | Some i =>
      tcp ← tcb_of i;
      match out_dump_f tcp with Some f => emit (EDump f bs) | None => exit_ 134 end
  end.

Definition line_ended : M unit :=
  cur ← gets current_tcp;
  _ ← match cur with Some i => upd_tcb i (set_curcol (fun _ => 0)) | None => mret tt end;
  prn ← gets printing_tcp;
  match prn with
  | Some i => _ ← upd_tcb i (set_curcol (fun _ => 0)); set_printing None
  | None => mret tt
  end.

Definition nl : string := String "010" "".

(** printcall: "[%08x] " of eip or "[%016lx] " of rip *)
Definition printcall : M unit :=
  g ← gets glb;
  if negb (get_regs_error g =? 0) then tprints "[????????????????] "
  else if is_i386 (regs g)
  then tprints ("[" +:+ pad_left 8 "0" (fmt_x (reg32 o_eip (reg_bytes (regs g)))) +:+ "] ")
  else tprints ("[" +:+ pad_left 16 "0" (fmt_x (reg64 o_rip (reg_bytes (regs g)))) +:+ "] ").

Definition usec6 (n : Z) : string := pad_left 6 "0" (fmt_d n).

(** The time stamp of the leader. *)
Definition print_time : M unit :=
  if tflag opt =? 0 then mret tt
  else
    r ← ask_kernel oracle RTime;
    let tv := r_tv r in
    if rflag opt then
      g ← gets glb;
      let otv := if tv_sec (otv g) =? 0 then tv else otv g in
      let dtv := tv_sub tv otv in
      _ ← tprints (pad_left 6 " " (fmt_d (tv_sec dtv)) +:+ "." +:+ usec6 (tv_usec dtv) +:+ " ");
      modify_glb (set_otv tv)
    else if tflag opt >? 2 then
      tprints (fmt_d (tv_sec tv) +:+ "." +:+ usec6 (tv_usec tv) +:+ " ")
    else if tflag opt >? 1 then
      tprints (hms (tv_sec tv) +:+ "." +:+ usec6 (tv_usec tv) +:+ " ")
    else tprints (hms (tv_sec tv) +:+ " ").

(** The part of printleader that ends a line left unfinished. *)
Definition finish_pending (tcp : nat) : M unit :=
  _ ← when (followfork opt >=? 2) (set_printing (Some tcp));
  prn ← gets printing_tcp;
  match prn with
  | None => mret tt
  | Some p =>
      _ ← set_current (Some p);
      pt ← tcb_of p;
      when (negb (curcol pt =? 0) && ((followfork opt <? 2) || (p =? tcp)%nat))
        (_ ← tprints (" <unfinished ...>" +:+ nl);
         upd_tcb p (set_curcol (fun _ => 0)))
  end.

Definition printleader (tcp : nat) : M unit :=
  _ ← finish_pending tcp;
  _ ← set_printing (Some tcp);
  _ ← set_current (Some tcp);
  _ ← upd_tcb tcp (set_curcol (fun _ => 0));
  t ← tcb_of tcp;
  n ← gets nprocs;
  _ ← (if print_pid_pfx opt then tprints (pad_right 5 " " (fmt_d (pid t)) +:+ " ")
       else when ((n >? 1) && match outfname opt with None => true | Some _ => false end)
              (tprints ("[pid " +:+ pad_left 5 " " (fmt_u (u32 (pid t))) +:+ "] ")));
  _ ← print_time;
  when (iflag opt) printcall.

Fixpoint spaces (n : nat) : string :=
  match n with O => EmptyString | S n => String " " (spaces n) end.

(** tabto: acolumn_spaces + curcol *)
Definition tabto : M unit :=
  cur ← gets current_tcp;
  match cur with
  | None => exit_ 139
  | Some i =>
      t ← tcb_of i;
      when (curcol t <? acolumn opt) (tprints (spaces (Z.to_nat (acolumn opt - curcol t))))
  end.
End log.

(** ** The text of a stream *)

Fixpoint text_of (f : stream) (evs : list event) : string :=
  match evs with
  | [] => ""
  | EWrite g t :: evs => if decide (g = f) then t +:+ text_of f evs else text_of f evs
  | _ :: evs => text_of f evs
  end.

Lemma text_of_app f l1 l2 : text_of f (l1 ++ l2) = text_of f l1 +:+ text_of f l2.
Proof.
  induction l1 as [|e l1 IH]; [done|]. destruct e; simpl; try exact IH.
  case_decide; [by rewrite IH, sapp_assoc|exact IH].
Qed.

(** Beginning of a line: nothing written yet, or a newline last. *)
Fixpoint at_bol (s : string) : bool :=
  match s with
  | EmptyString => true
  | String c EmptyString => Ascii.eqb c "010"
  | String _ s => at_bol s
  end.

Lemma at_bol_nl s : at_bol (s +:+ nl) = true.
Proof.
  induction s as [|c s IH]; [done|]. rewrite app_String. cbn [at_bol].
  destruct (s +:+ nl) eqn:E; [|exact IH]. destruct s; done.
Qed.

(** ** Steps that only print *)

(** [c] prints some text for tcb [i], the current one, and changes nothing else
    of the log state. *)
Definition Says {A} (i : nat) (f : stream) (c : M A) : Prop := forall s t,
  current_tcp s = Some i -> tcbtab s !! i = Some t -> outf t = Some f ->
  exists x s' txt,
    c s = Ret x s' /\
    tcbtab s' = alter (set_curcol (fun col => col + slen txt)) i (tcbtab s) /\
    (forall g, text_of g (log s') = text_of g (log s) +:+ if decide (g = f) then txt else "") /\
    nprocs s' = nprocs s /\ printing_tcp s' = printing_tcp s /\ current_tcp s' = Some i.

Lemma set_curcol_comp (a b : Z) t :
  set_curcol (fun c => c + b) (set_curcol (fun c => c + a) t) = set_curcol (fun c => c + (a + b)) t.
Proof. unfold set_curcol. simpl. f_equal. lia. Qed.

Lemma set_curcol_0 t : set_curcol (fun c => c + 0) t = t.
Proof. destruct t. unfold set_curcol. simpl. f_equal. lia. Qed.

Lemma alter_id_eq {A} (g : A -> A) i (l : list A) : (forall x, g x = x) -> alter g i l = l.
Proof. intros Hg. apply list_alter_id. done. Qed.

Lemma Says_ret {A} i f (x : A) : Says i f (mret x).
Proof.
  intros s t Hc Ht Hf. exists x, s, "". split_and!; try done.
  - rewrite alter_id_eq; [done|]. intros u. apply set_curcol_0.
  - intros g. case_decide; by rewrite sapp_nil_r.
Qed.

Lemma Says_bind {A B} i f (c : M A) (k : A -> M B) :
  Says i f c -> (forall x, Says i f (k x)) -> Says i f (c ≫= k).
Proof.
  intros Hc Hk s t Hcur Ht Hf.
  destruct (Hc s t Hcur Ht Hf) as (x & s1 & t1 & H1 & Htab1 & Htxt1 & Hn1 & Hp1 & Hc1).
  assert (Ht1 : tcbtab s1 !! i = Some (set_curcol (fun col => col + slen t1) t))
    by (rewrite Htab1, list_lookup_alter, decide_True, Ht by done; done).
  destruct (Hk x s1 _ Hc1 Ht1 Hf) as (y & s2 & t2 & H2 & Htab2 & Htxt2 & Hn2 & Hp2 & Hc2).
  exists y, s2, (t1 +:+ t2). unfold mbind, M_bind. rewrite H1. split_and!; try congruence.
  - rewrite Htab2, Htab1, list_alter_alter_eq. apply list_alter_ext; [|done].
    intros u _. unfold compose. rewrite set_curcol_comp, slen_app. done.
  - intros g. rewrite Htxt2, Htxt1. case_decide; by rewrite ?sapp_nil_r, ?sapp_assoc.
Qed.

Lemma Says_tprints i f x : Says i f (tprints x).
Proof.
  intros s t Hc Ht Hf. unfold tprints, mbind, M_bind, gets, tcb_of. rewrite Hc.
  unfold gets. rewrite Ht. simpl. rewrite Hf. eexists _, _, x. split_and!; try done.
  intros g. simpl. rewrite text_of_app. simpl.
  destruct (decide (f = g)) as [->|], (decide (g = g)); try done.
  - by rewrite sapp_nil_r.
  - rewrite decide_False by done. done.
Qed.

Lemma Says_gets {A} i f (g : tracer -> A) : Says i f (gets g).
Proof. intros s t Hc Ht Hf. destruct (Says_ret i f (g s) s t Hc Ht Hf) as (x & s' & ? & ? & ?). eauto 10. Qed.

Lemma Says_ask oracle i f r : Says i f (ask_kernel oracle r).
Proof.
  intros s t Hc Ht Hf. eexists _, _, "". split_and!; try done.
  - simpl. rewrite alter_id_eq; [done|]. intros u. apply set_curcol_0.
  - intros g. simpl. rewrite text_of_app. simpl. case_decide; by rewrite !sapp_nil_r.
Qed.

Lemma Says_modify_glb i f g : Says i f (modify_glb g).
Proof.
  intros s t Hc Ht Hf. eexists _, _, "". split_and!; try done.
  - simpl. rewrite alter_id_eq; [done|]. intros u. apply set_curcol_0.
  - intros h. simpl. case_decide; by rewrite sapp_nil_r.
Qed.

Create HintDb says.
#[export] Hint Resolve Says_ret Says_tprints Says_gets Says_ask Says_modify_glb : says.
Ltac says :=
  repeat first
    [ solve [eauto with says]
    | apply Says_bind; [|intros ?]
    | match goal with |- Says _ _ (if ?b then _ else _) => destruct b end
    | match goal with |- Says _ _ (when ?b _) => destruct b; unfold when end ].

Lemma Says_print_time oracle opt hms i f : Says i f (print_time oracle opt hms).
Proof. unfold print_time. says. Qed.
Lemma Says_printcall i f : Says i f printcall.
Proof. unfold printcall. says. Qed.
#[export] Hint Resolve Says_print_time Says_printcall : says.

(** ** The line discipline of a shared log *)

(** Without -ff: every open tcb writes to the shared file; a pending column
    belongs to printing_tcp; and if the text does not end a line, a pending
    column says so. *)
Record log_inv (opt : options) (s : tracer) : Prop := {
  li_shared : followfork opt < 2;
  li_outf i t : tcbtab s !! i = Some t -> outf t = Some Shared \/ outf t = None;
  li_col i t : tcbtab s !! i = Some t -> 0 <= curcol t;
  li_print i t : tcbtab s !! i = Some t -> curcol t <> 0 ->
    printing_tcp s = Some i /\ outf t = Some Shared;
  li_bol : at_bol (text_of Shared (log s)) = false ->
    exists i t, tcbtab s !! i = Some t /\ curcol t <> 0
}.

(** The tcb is allocated and has its log. *)
Definition open_tcb (s : tracer) (i : nat) : Prop :=
  exists t, tcbtab s !! i = Some t /\ outf t = Some Shared.

Lemma Says_log_inv {A} opt i (c : M A) s s' x :
  Says i Shared c -> log_inv opt s -> open_tcb s i ->
  current_tcp s = Some i -> printing_tcp s = Some i -> c s = Ret x s' ->
  log_inv opt s' /\ current_tcp s' = Some i /\ printing_tcp s' = Some i /\ open_tcb s' i.
Proof.
  intros Hc [H1 H2 H3 H4 H5] (t & Ht & Hf) Hcur Hprn Hrun.
  destruct (Hc s t Hcur Ht Hf) as (x' & s1 & txt & Hr & Htab & Htxt & Hn & Hp & Hcr).
  rewrite Hr in Hrun. simplify_eq.
  assert (Hi : tcbtab s' !! i = Some (set_curcol (fun col => col + slen txt) t))
    by (rewrite Htab, list_lookup_alter, decide_True, Ht by done; done).
  assert (Hj : forall j u, tcbtab s' !! j = Some u ->
            (j = i /\ u = set_curcol (fun col => col + slen txt) t) \/
            (j <> i /\ tcbtab s !! j = Some u)).
  { intros j u Hu. destruct (decide (j = i)) as [->|Hne]; [left; split; congruence|right].
    split; [done|]. by rewrite Htab, list_lookup_alter_ne in Hu by done. }
  pose proof (H3 _ _ Ht). pose proof (slen_nonneg txt).
  split_and!; [split|done|congruence|by exists (set_curcol (fun col => col + slen txt) t)].
  - done.
  - intros j u Hu. destruct (Hj j u Hu) as [[-> ->]|[? ?]]; [by left|by eapply H2].
  - intros j u Hu. destruct (Hj j u Hu) as [[-> ->]|[? ?]]; [simpl; lia|by eapply H3].
  - intros j u Hu Hcol. destruct (Hj j u Hu) as [[-> ->]|[Hne Hu']]; [split; [congruence|done]|].
    rewrite Hp. by eapply H4.
  - rewrite (Htxt Shared), decide_True by done. intros Hbol. exists i. eexists. split; [done|].
    simpl. destruct txt as [|ch txt]; [|unfold slen in *; simpl in *; lia].
    rewrite sapp_nil_r in Hbol. destruct (H5 Hbol) as (j & u & Hu & Hcol).
    destruct (H4 j u Hu Hcol) as [Hpj _]. rewrite Hpj in Hprn. simplify_eq. simpl. lia.
Qed.

(** The log ends with the leader's text, on a line of its own. *)
Section leader.
Context (oracle : list event -> request -> reply) (opt : options) (hms : Z -> string).

(** What finish_pending leaves: a line start, and no pending column. *)
Record finished (s s' : tracer) (pre : string) : Prop := {
  fin_text : text_of Shared (log s') = text_of Shared (log s) +:+ pre;
  fin_bol : at_bol (text_of Shared (log s')) = true;
  fin_pre : pre = "" \/ pre = " <unfinished ...>" +:+ nl;
  fin_iff : pre <> "" <-> exists p t, tcbtab s !! p = Some t /\ curcol t <> 0;
  fin_nprocs : nprocs s' = nprocs s;
  fin_len : length (tcbtab s') = length (tcbtab s);
  fin_tab j u : tcbtab s' !! j = Some u -> curcol u = 0 /\
    exists u0, tcbtab s !! j = Some u0 /\ outf u0 = outf u /\ pid u0 = pid u /\ flags u0 = flags u
}.

Lemma finished_clean s s' :
  log_inv opt s -> (forall p t, tcbtab s !! p = Some t -> curcol t = 0) ->
  tcbtab s' = tcbtab s -> log s' = log s -> nprocs s' = nprocs s -> finished s s' "".
Proof.
  intros [_ _ _ _ H5] Hz Ht Hl Hn. split; rewrite ?Ht, ?Hl; try done.
  - by rewrite sapp_nil_r.
  - destruct (at_bol _) eqn:Hb; [done|]. destruct (H5 eq_refl) as (p & t & Hp & Hc).
    by apply Hz in Hp.
  - by left.
  - split; [done|]. intros (p & t & Hp & Hc). by apply Hz in Hp.
  - intros j u Hu. split; [by eapply Hz|]. by exists u.
Qed.

Lemma finish_pending_spec s i :
  log_inv opt s -> exists s' pre, finish_pending opt i s = Ret tt s' /\ finished s s' pre.
Proof.
  intros Hinv. pose proof Hinv as [H1 H2 H3 H4 H5]. unfold finish_pending.
  replace (followfork opt >=? 2) with false by lia. unfold when at 1.
  unfold mbind, M_bind, mret, M_ret, gets. simpl.
  destruct (printing_tcp s) as [p|] eqn:Hprn.
  2: { exists s, "". split; [done|]. apply finished_clean; try done. intros p t Hp.
       destruct (decide (curcol t = 0)); [done|]. by destruct (H4 p t Hp). }
  unfold set_current, tcb_of, gets. simpl.
  assert (Hoth : forall q u, tcbtab s !! q = Some u -> q <> p -> curcol u = 0).
  { intros q u Hq Hne. destruct (decide (curcol u = 0)); [done|].
    destruct (H4 q u Hq) as [? _]; [done|]. congruence. }
  destruct (tcbtab s !! p) as [t|] eqn:Hp; simpl.
  2: { eexists _, "". split; [done|]. apply finished_clean; try done. intros q u Hq.
       apply (Hoth q u Hq). intros ->. congruence. }
  replace (followfork opt <? 2) with true by lia. simpl. rewrite andb_true_r.
  destruct (Z.eqb_spec (curcol t) 0) as [Hz|Hnz]; simpl.
  { eexists _, "". split; [done|]. apply finished_clean; try done. intros q u Hq.
    destruct (decide (q = p)) as [->|]; [congruence|eauto]. }
  destruct (H4 p t Hp Hnz) as [_ Hf]. unfold tprints, mbind, M_bind, gets, tcb_of. simpl.
  unfold gets. rewrite Hp. simpl. rewrite Hf. simpl.
  eexists _, (" <unfinished ...>" +:+ nl). split; [done|]. split; simpl.
  - rewrite text_of_app. simpl. by rewrite sapp_nil_r.
  - rewrite text_of_app. simpl. rewrite sapp_nil_r, <- sapp_assoc. apply at_bol_nl.
  - by right.
  - split; [intros _; eauto|done].
  - done.
  - by rewrite !length_alter.
  - intros j u Hu. rewrite list_alter_alter_eq in Hu. destruct (decide (j = p)) as [->|Hne].
    + rewrite list_lookup_alter, decide_True, Hp in Hu by done. simpl in Hu. injection Hu as <-. split; [reflexivity|].
      by exists t.
    + rewrite list_lookup_alter_ne in Hu by done. split; [by eapply Hoth|]. by exists u.
Qed.

(** The state printleader writes its own text in. *)
Definition begin_line (i : nat) (s : tracer) : tracer :=
  mk_tracer (alter (set_curcol (fun _ => 0)) i (tcbtab s)) (nprocs s) (Some i) (Some i)
    (glb s) (log s).

Lemma begin_line_inv s s' pre i :
  log_inv opt s -> open_tcb s i -> finished s s' pre ->
  log_inv opt (begin_line i s') /\ open_tcb (begin_line i s') i.
Proof.
  intros [H1 H2 H3 H4 H5] (t & Ht & Hf) [Ftxt Fbol _ _ _ Flen Ftab].
  assert (Hz : forall j u, tcbtab (begin_line i s') !! j = Some u -> curcol u = 0 /\
            exists u0, tcbtab s !! j = Some u0 /\ outf u0 = outf u).
  { intros j u Hu. simpl in Hu. rewrite list_lookup_alter in Hu.
    destruct (decide (i = j)) as [->|Hne].
    - destruct (tcbtab s' !! j) as [u1|] eqn:Hu1; simpl in Hu; [|done]. simplify_eq.
      destruct (Ftab _ _ Hu1) as (_ & u0 & ? & ? & _). eauto.
    - destruct (Ftab _ _ Hu) as (? & u0 & ? & ? & _). eauto. }
  split.
  - split; [done|..].
    + intros j u Hu. destruct (Hz j u Hu) as (_ & u0 & Hu0 & <-). by eapply H2.
    + intros j u Hu. destruct (Hz j u Hu) as [-> _]. lia.
    + intros j u Hu Hc. by destruct (Hz j u Hu).
    + simpl. rewrite Fbol. done.
  - apply lookup_lt_Some in Ht as Hlt. rewrite <- Flen in Hlt.
    destruct (lookup_lt_is_Some_2 _ _ Hlt) as [t' Ht'].
    exists (set_curcol (fun _ => 0) t'). simpl.
    rewrite list_lookup_alter, decide_True, Ht' by done. split; [done|].
    destruct (Ftab _ _ Ht') as (_ & t0 & Ht0 & <- & _). congruence.
Qed.

(** The rest of printleader only prints. *)
Definition leader_text (i : nat) : M unit :=
  t ← tcb_of i;
  n ← gets nprocs;
  _ ← (if print_pid_pfx opt then tprints (pad_right 5 " " (fmt_d (pid t)) +:+ " ")
       else when ((n >? 1) && match outfname opt with None => true | Some _ => false end)
              (tprints ("[pid " +:+ pad_left 5 " " (fmt_u (u32 (pid t))) +:+ "] ")));
  _ ← print_time oracle opt hms;
  when (iflag opt) printcall.

Lemma Says_leader_text i f : Says i f (leader_text i).
Proof. unfold leader_text, tcb_of. says. Qed.

Lemma printleader_split i s s1 :
  finish_pending opt i s = Ret tt s1 ->
  printleader oracle opt hms i s = leader_text i (begin_line i s1).
Proof. intros H. unfold printleader, mbind at 1, M_bind at 1. by rewrite H. Qed.

Lemma printleader_ok s i :
  log_inv opt s -> open_tcb s i ->
  exists s' pre leader,
    printleader oracle opt hms i s = Ret tt s' /\
    text_of Shared (log s') = text_of Shared (log s) +:+ pre +:+ leader /\
    at_bol (text_of Shared (log s) +:+ pre) = true /\
    (pre = "" \/ pre = " <unfinished ...>" +:+ nl) /\
    (pre <> "" <-> exists p t, tcbtab s !! p = Some t /\ curcol t <> 0) /\
    log_inv opt s' /\ current_tcp s' = Some i /\ printing_tcp s' = Some i /\ open_tcb s' i.
Proof.
  intros Hinv Hop. destruct (finish_pending_spec s i Hinv) as (s1 & pre & Hrun & Hfin).
  destruct (begin_line_inv s s1 pre i Hinv Hop Hfin) as [Hinv1 Hop1].
  rewrite (printleader_split i s s1 Hrun).
  destruct Hop1 as (t & Ht & Hf).
  destruct (Says_leader_text i Shared (begin_line i s1) t) as ([] & s2 & txt & H2 & _ & Htxt & _);
    [done..|].
  exists s2, pre, txt. split; [done|].
  destruct (Says_log_inv opt i _ (begin_line i s1) s2 tt (Says_leader_text i Shared))
    as (? & ? & ? & ?); [done|by exists t|done|done|done|].
  destruct Hfin as [Ftxt Fbol Fpre Fiff _ _ _]. split_and!; try done; try by apply Fiff.
  - rewrite (Htxt Shared), decide_True by done. simpl. by rewrite Ftxt, sapp_assoc.
  - by rewrite <- Ftxt.
Qed.
End leader.

(** line_ended after text that ends a line. *)
Lemma line_ended_ok opt s i :
  log_inv opt s -> current_tcp s = Some i -> printing_tcp s = Some i ->
  at_bol (text_of Shared (log s)) = true ->
  exists s', line_ended s = Ret tt s' /\ log_inv opt s' /\ printing_tcp s' = None /\
             log s' = log s /\ nprocs s' = nprocs s.
Proof.
  intros [H1 H2 H3 H4 H5] Hc Hp Hb.
  unfold line_ended, mbind, M_bind, gets. rewrite Hc. simpl. rewrite Hp. simpl.
  eexists. split; [done|]. split_and!; try done.
  assert (Hz : forall j u,
    alter (set_curcol (fun _ => 0)) i (alter (set_curcol (fun _ => 0)) i (tcbtab s)) !! j = Some u ->
    curcol u = 0 /\ exists u0, tcbtab s !! j = Some u0 /\ outf u0 = outf u).
  { intros j u. rewrite list_alter_alter_eq, list_lookup_alter. destruct (decide (i = j)) as [->|Hne].
    - destruct (tcbtab s !! j) as [u0|]; simpl; [|done]. intros [= <-]. eauto.
    - intros Hu. split; [|eauto]. destruct (decide (curcol u = 0)); [done|].
      destruct (H4 j u Hu) as [? _]; [done|]. congruence. }
  split; simpl.
  - done.
  - intros j u Hu. destruct (Hz j u Hu) as (_ & u0 & Hu0 & <-). by eapply H2.
  - intros j u Hu. destruct (Hz j u Hu) as [-> _]. lia.
  - intros j u Hu Hcol. by destruct (Hz j u Hu).
  - by rewrite Hb.
Qed.

(** ** Properties *)

(** A whole message line: leader, text, newline (the "+++ exited with 0 +++" and
    "--- SIGCHLD ---" lines). *)
Definition message (oracle : list event -> request -> reply) (opt : options) (hms : Z -> string)
    (i : nat) (msg : string) : M unit :=
  _ ← printleader oracle opt hms i;
  _ ← tprints (msg +:+ nl);
  line_ended.

(** The line discipline of a shared log.  From every state in which at most
    the line of printing_tcp is unfinished, printing a message never dereferences
    a missing file, starts on a new line (an unfinished line is first ended by
    " <unfinished ...>", which appears exactly when a line is pending), appends
    the leader, the text and a newline to the shared file and nothing else, and
    leaves no pending line. *)
Theorem message_is_one_line oracle opt hms s i msg :
  log_inv opt s -> open_tcb s i ->
  exists s' pre leader,
    message oracle opt hms i msg s = Ret tt s' /\
    text_of Shared (log s') = text_of Shared (log s) +:+ pre +:+ leader +:+ msg +:+ nl /\
    at_bol (text_of Shared (log s) +:+ pre) = true /\
    (pre = "" \/ pre = " <unfinished ...>" +:+ nl) /\
    (pre <> "" <-> exists p t, tcbtab s !! p = Some t /\ curcol t <> 0) /\
    log_inv opt s' /\ printing_tcp s' = None.
Proof.
  intros Hinv Hop.
  destruct (printleader_ok oracle opt hms s i Hinv Hop)
    as (s1 & pre & leader & H1 & Htxt1 & Hbol & Hpre & Hiff & Hinv1 & Hc1 & Hp1 & Hop1).
  pose proof Hop1 as (t & Ht & Hf).
  destruct (Says_tprints i Shared (msg +:+ nl) s1 t Hc1 Ht Hf)
    as ([] & s2 & txt & H2 & _ & _ & _).
  destruct (Says_log_inv opt i _ s1 s2 tt (Says_tprints i Shared (msg +:+ nl)))
    as (Hinv2 & Hc2 & Hp2 & _); [done..|].
  assert (Htxt2 : text_of Shared (log s2) = text_of Shared (log s1) +:+ msg +:+ nl).
  { unfold tprints, mbind, M_bind, gets, tcb_of in H2. rewrite Hc1 in H2. unfold gets in H2.
    rewrite Ht in H2. simpl in H2. rewrite Hf in H2. injection H2 as <-. simpl.
    rewrite text_of_app. simpl. by rewrite sapp_nil_r. }
  destruct (line_ended_ok opt s2 i Hinv2 Hc2 Hp2) as (s3 & H3 & Hinv3 & Hp3 & Hl3 & _).
  { rewrite Htxt2, <- sapp_assoc. apply at_bol_nl. }
  exists s3, pre, leader. split_and!; try done; try by apply Hiff.
  - unfold message, mbind, M_bind. by rewrite H1, H2.
  - rewrite Hl3, Htxt2, Htxt1. by rewrite !sapp_assoc.
Qed.

Definition demo_options : options :=
  mk_options 1 0 0 0 false false false true (Some "log") 40 0 (128 + SIGTRAP) 4 false false false
    false true 0x30000 10 9 0 32 SortTime.
Definition demo_reply : reply :=
  mk_reply 0 0 0 tv_zero (mk_regset (replicate 216 0) 216)
    (mk_siginfo 0 0 0 0 0 0 0 0 0 0 0 0) None.
Definition demo_globals : globals :=
  mk_globals 0 tv_zero 0 0 true false false 0 0 (mk_regset (replicate 216 0) 216) false false
    counts0 [56; 0; 0].
Definition demo_tcb (p col : Z) : tcb :=
  set_curcol (fun _ => col)
    (set_out (Some Shared) (Some Shared) (Some Shared)
       (set_pid p (set_flags (fun _ => TCB_INUSE) zero_tcb))).
(** Process 10 is in the middle of a line; process 11 is idle. *)
Definition demo_tracer : tracer :=
  mk_tracer [demo_tcb 10 5; demo_tcb 11 0] 2 (Some 0%nat) (Some 0%nat) demo_globals
    [EWrite Shared "10    read("].

Lemma demo_log_inv : log_inv demo_options demo_tracer.
Proof.
  split.
  - reflexivity.
  - intros [|[|i]] t Ht; simpl in Ht; simplify_eq; by left.
  - intros [|[|i]] t Ht; simpl in Ht; simplify_eq; vm_compute; congruence.
  - intros [|[|i]] t Ht; simpl in Ht; simplify_eq; done.
  - intros _. exists 0%nat, (demo_tcb 10 5). split; [reflexivity|discriminate].
Qed.

Lemma message_is_one_line_witness :
  exists s' pre leader,
    message (fun _ _ => demo_reply) demo_options (fun _ => "") 1 "+++ exited with 0 +++"
      demo_tracer = Ret tt s' /\
    text_of Shared (log s') =
      "10    read(" +:+ pre +:+ leader +:+ "+++ exited with 0 +++" +:+ nl /\
    pre <> "" /\ printing_tcp s' = None.
Proof.
  destruct (message_is_one_line (fun _ _ => demo_reply) demo_options (fun _ => "") demo_tracer 1
              "+++ exited with 0 +++") as (s' & pre & leader & H1 & H2 & _ & _ & Hiff & _ & Hp).
  - apply demo_log_inv.
  - exists (demo_tcb 11 0). split; reflexivity.
  - exists s', pre, leader. split; [exact H1|]. split; [exact H2|]. split; [|exact Hp].
    apply Hiff. exists 0%nat, (demo_tcb 10 5). split; [reflexivity|discriminate].
Defined.
