(* ===== verification/Table.v ===== *)
(** * The table of trace control blocks (alice-strace.c: expand_tcbtab, alloctcb,
      droptcb, pid2tcb, newoutf, process_opt_p_list)

    The table is shown to implement a finite map from process ids to control
    blocks ([abs]): alloctcb inserts, droptcb deletes, pid2tcb looks up, and
    nprocs is the size. *)

From stdpp Require Import gmap.
From S2P Require Import Prelude Timeval Tracee Mmap Signal Options Qual Count Tcb Regs Log.
Local Open Scope string_scope.
Local Open Scope list_scope.
Local Open Scope Z_scope.

Section table.
Context (oracle : list event -> request -> reply) (opt : options).

Definition newoutf (i : nat) : M unit :=
  _ ← upd_tcb i (set_out (Some Shared) (Some Shared) (Some Shared));
  if followfork opt >=? 2 then
    t ← tcb_of i;
    let f := PidFile (pid t) in
    r ← ask_kernel oracle (ROpen 0 f);
    if r_ret r <? 0 then die_msg "Can't fopen"
    else
      d ← ask_kernel oracle (ROpen 1 f);
      k ← ask_kernel oracle (ROpen 2 f);
      upd_tcb i (set_out (Some f) (if r_ret d <? 0 then None else Some f)
                   (if r_ret k <? 0 then None else Some f))
  else mret tt.

(** calloc of tcbtabsize new blocks, realloc of the pointer table *)
Definition expand_tcbtab : M unit :=
  s ← get;
  put_tab (tcbtab s ++ replicate (tcbtabsize s) zero_tcb) (nprocs s).

(** The first slot that is not in use. *)
Fixpoint free_slot (tab : list tcb) : option nat :=
  match tab with
  | [] => None
  | t :: tab => if inuse t then S <$> free_slot tab else Some 0%nat
  end.

Definition new_tcb (p : Z) (pers : nat) : tcb :=
  set_currpers pers (set_pid p (set_flags (fun _ => TCB_INUSE) zero_tcb)).

Definition alloctcb (p : Z) : M nat :=
  s ← get;
  _ ← when (nprocs s =? Z.of_nat (tcbtabsize s)) expand_tcbtab;
  s ← get;
  match free_slot (tcbtab s) with
  | Some i =>
      _ ← put_tab (<[i := new_tcb p (current_personality (glb s))]> (tcbtab s)) (nprocs s + 1);
      mret i
  | None => die_msg "bug in alloctcb"
  end.

Definition detached_text : string := " <detached ...>" +:+ nl.

Definition droptcb (i : nat) : M unit :=
  s ← get;
  tcp ← tcb_of i;
  if pid tcp =? 0 then mret tt
  else
    _ ← put_tab (tcbtab s) (nprocs s - 1);
    _ ← match outf tcp with
        | None => mret tt
        | Some f =>
            if followfork opt >=? 2 then
              _ ← when (negb (curcol tcp =? 0)) (emit (EWrite f detached_text));
              emit (EClose f)
            else
              when (bool_decide (printing_tcp s = Some i) && negb (curcol tcp =? 0))
                (emit (EWrite f detached_text))
        end;
    (* delete_mmap_cache(tcp) and memset(tcp, 0) *)
    _ ← when (bool_decide (current_tcp s = Some i)) (set_current None);
    _ ← when (bool_decide (printing_tcp s = Some i)) (set_printing None);
    upd_tcb i (fun _ => zero_tcb).

Fixpoint find_pid (p : Z) (tab : list tcb) : option nat :=
  match tab with
  | [] => None
  | t :: tab => if (pid t =? p) && inuse t then Some 0%nat else S <$> find_pid p tab
  end.

Definition pid2tcb (p : Z) : M (option nat) :=
  if p <=? 0 then mret None else gets (fun s => find_pid p (tcbtab s)).

(** strcspn(opt, ", \n\t") *)
Definition is_delim (c : ascii) : bool :=
  Ascii.eqb c "," || Ascii.eqb c " " || Ascii.eqb c "010" || Ascii.eqb c "009".
Fixpoint split_delim (s : string) : string * option string :=
  match s with
  | EmptyString => (EmptyString, None)
  | String c s =>
      if is_delim c then (EmptyString, Some s)
      else let '(w, rest) := split_delim s in (String c w, rest)
  end.

(** -p LIST; one round per list element, [fuel] bounds the length of the text. *)
Fixpoint process_opt_p_list (fuel : nat) (s : string) : M unit :=
  match fuel, s with
  | S fuel, String _ _ =>
      let '(w, rest) := split_delim s in
      let p := string_to_uint w in
      if p <=? 0 then die_msg ("Invalid process id: '" +:+ w +:+ "'")
      else if p =? strace_tracer_pid opt then die_msg "I'm sorry, I can't let you do that, Dave."
      else
        _ ← alloctcb p;
        match rest with None => mret tt | Some rest => process_opt_p_list fuel rest end
  | _, _ => mret tt
  end.
End table.

(** ** Invariant and abstraction *)

Definition used (tab : list tcb) : list tcb := List.filter inuse tab.

Record wf_tab (s : tracer) : Prop := {
  wt_size : (0 < length (tcbtab s))%nat;
  wt_nprocs : nprocs s = Z.of_nat (length (used (tcbtab s)));
  wt_free t : t ∈ tcbtab s -> inuse t = false -> pid t = 0;
  wt_pos t : t ∈ tcbtab s -> inuse t = true -> 0 < pid t;
  wt_nodup i j t u : tcbtab s !! i = Some t -> tcbtab s !! j = Some u ->
    inuse t = true -> inuse u = true -> pid t = pid u -> i = j
}.

(** The process table a client sees. *)
Definition abs (tab : list tcb) : gmap Z tcb :=
  list_to_map ((fun t => (pid t, t)) <$> used tab).

Lemma inuse_new p pers : inuse (new_tcb p pers) = true.
Proof. done. Qed.
Lemma inuse_zero : inuse zero_tcb = false.
Proof. done. Qed.

Lemma free_slot_spec tab :
  match free_slot tab with
  | Some i => exists t, tab !! i = Some t /\ inuse t = false
  | None => used tab = tab
  end.
Proof.
  induction tab as [|t tab IH]; simpl; [done|]. destruct (inuse t) eqn:Ht; [|by exists t].
  destruct (free_slot tab); simpl; [done|by rewrite IH].
Qed.

Lemma find_pid_spec p tab :
  match find_pid p tab with
  | Some i => exists t, tab !! i = Some t /\ pid t = p /\ inuse t = true
  | None => forall t, t ∈ tab -> inuse t = true -> pid t <> p
  end.
Proof.
  induction tab as [|t tab IH]; simpl; [by intros ? ?%not_elem_of_nil|].
  destruct ((pid t =? p) && inuse t) eqn:E.
  { apply andb_true_iff in E as [E1%Z.eqb_eq E2]. by exists t. }
  destruct (find_pid p tab) as [i|]; simpl; [done|].
  intros u [->|Hu]%elem_of_cons Hin; [|by apply IH]. intros Hp. rewrite Hin in E. lia.
Qed.

Lemma length_used_alter i t u tab :
  tab !! i = Some t ->
  Z.of_nat (length (used (<[i := u]> tab))) =
  Z.of_nat (length (used tab)) + (if inuse u then 1 else 0) - (if inuse t then 1 else 0).
Proof.
  revert i. induction tab as [|x tab IH]; intros [|i] Hi; simpl in *; try done.
  - simplify_eq. unfold used. simpl. destruct (inuse u), (inuse t); simpl; lia.
  - specialize (IH i Hi). unfold used in *. simpl.
    change (<[S i:=u]> (x :: tab)) with (x :: <[i:=u]> tab). simpl. destruct (inuse x); simpl; lia.
Qed.

Lemma used_replicate_zero n : used (replicate n zero_tcb) = [].
Proof. induction n; [done|]. simpl. done. Qed.

Lemma used_app l1 l2 : used (l1 ++ l2) = used l1 ++ used l2.
Proof. apply List.filter_app. Qed.

Lemma elem_of_used t tab : t ∈ used tab <-> t ∈ tab /\ inuse t = true.
Proof. unfold used. rewrite !list_elem_of_In, filter_In. done. Qed.

Lemma NoDup_used_pids tab :
  (forall i j t u, tab !! i = Some t -> tab !! j = Some u ->
     inuse t = true -> inuse u = true -> pid t = pid u -> i = j) ->
  NoDup (((fun t => (pid t, t)) <$> used tab).*1).
Proof.
  rewrite <- list_fmap_compose.
  induction tab as [|t tab IH]; intros H; [constructor|].
  assert (IH' : NoDup (fst ∘ (fun t => (pid t, t)) <$> used tab)).
  { apply IH. intros i j x y Hx Hy Hix Hiy Hp.
    assert (S i = S j) by (eapply (H (S i) (S j)); eauto). lia. }
  unfold used. simpl. destruct (inuse t) eqn:Ht; [|exact IH'].
  simpl. constructor; [|exact IH'].
  intros (u & Hpu & Hu)%list_elem_of_fmap. apply elem_of_used in Hu as [Hu Hin].
  apply list_elem_of_lookup in Hu as [k Hk]. simpl in Hpu.
  assert (0%nat = S k) by (eapply (H 0%nat (S k)); eauto). lia.
Qed.

Lemma abs_lookup s p t :
  wf_tab s -> (abs (tcbtab s) !! p = Some t <->
               exists i, tcbtab s !! i = Some t /\ inuse t = true /\ pid t = p).
Proof.
  intros [_ _ _ _ Hnd]. unfold abs.
  rewrite <- elem_of_list_to_map by by apply NoDup_used_pids.
  rewrite list_elem_of_fmap. split.
  - intros (u & [= -> ->] & Hu). apply elem_of_used in Hu as [Hu Hin].
    apply list_elem_of_lookup in Hu as [i Hi]. eauto.
  - intros (i & Hi & Hin & <-). exists t. split; [done|]. apply elem_of_used. split; [|done].
    by eapply list_elem_of_lookup_2.
Qed.

Lemma size_abs s : wf_tab s -> nprocs s = Z.of_nat (size (abs (tcbtab s))).
Proof.
  intros Hwf. rewrite (wt_nprocs _ Hwf). unfold abs.
  assert (Hnd := NoDup_used_pids (tcbtab s) (wt_nodup _ Hwf)).
  rewrite <- length_map_to_list, map_to_list_to_map by done. by rewrite length_fmap.
Qed.

(** ** alloctcb *)

(** The table after the possible expansion. *)
Definition grown_tab (s : tracer) : list tcb :=
  if nprocs s =? Z.of_nat (tcbtabsize s)
  then tcbtab s ++ replicate (tcbtabsize s) zero_tcb else tcbtab s.

Lemma grown_lookup s i t :
  grown_tab s !! i = Some t -> tcbtab s !! i = Some t \/ t = zero_tcb.
Proof.
  unfold grown_tab. destruct (_ =? _); [|by left].
  intros [H|[_ H]]%lookup_app_Some; [by left|right]. by apply lookup_replicate in H as [-> _].
Qed.

Lemma used_all_length tab : length (used tab) = length tab -> used tab = tab.
Proof.
  intros H. induction tab as [|t tab IH]; [done|]. unfold used in *. simpl in *.
  pose proof (List.filter_length_le inuse tab). destruct (inuse t); simpl in *; [f_equal; auto|lia].
Qed.

Lemma grown_has_free s : wf_tab s -> exists i, free_slot (grown_tab s) = Some i.
Proof.
  intros [Hsz Hn _ _ _]. pose proof (free_slot_spec (grown_tab s)) as H.
  destruct (free_slot (grown_tab s)) as [i|]; [by eexists|exfalso].
  apply (f_equal length) in H. unfold grown_tab, tcbtabsize in *.
  destruct (Z.eqb_spec (nprocs s) (Z.of_nat (length (tcbtab s)))) as [E|E].
  - rewrite used_app, used_replicate_zero, app_nil_r, length_app, length_replicate in H. lia.
  - lia.
Qed.

Lemma grown_props s :
  wf_tab s ->
  (length (tcbtab s) <= length (grown_tab s))%nat /\
  length (used (grown_tab s)) = length (used (tcbtab s)) /\
  (forall i t, tcbtab s !! i = Some t -> grown_tab s !! i = Some t).
Proof.
  intros _. unfold grown_tab. destruct (_ =? _); [|done].
  rewrite length_app, used_app, used_replicate_zero, app_nil_r. split_and!; [lia|done|].
  intros i t H. apply lookup_app_Some. by left.
Qed.

Lemma alloctcb_run p s :
  wf_tab s -> exists i, free_slot (grown_tab s) = Some i /\
    alloctcb p s = Ret i (mk_tracer (<[i := new_tcb p (current_personality (glb s))]> (grown_tab s))
                            (nprocs s + 1) (printing_tcp s) (current_tcp s) (glb s) (log s)).
Proof.
  intros Hwf. destruct (grown_has_free s Hwf) as [i Hi]. exists i. split; [done|].
  unfold alloctcb, mbind, M_bind, get, when, expand_tcbtab. unfold grown_tab in *.
  destruct (_ =? _); unfold put_tab, mret, M_ret, mbind, M_bind, get; simpl; by rewrite Hi.
Qed.

Lemma alloctcb_wf p s i tab :
  wf_tab s -> 0 < p -> abs (tcbtab s) !! p = None ->
  free_slot (grown_tab s) = Some i ->
  tab = <[i := new_tcb p (current_personality (glb s))]> (grown_tab s) ->
  forall s', tcbtab s' = tab -> nprocs s' = nprocs s + 1 -> wf_tab s'.
Proof.
  intros Hwf Hp Hnew Hi -> s' Htab Hn. pose proof Hwf as [Hsz Hnp Hfree Hpos Hnd].
  destruct (grown_props s Hwf) as (Hlen & Hused & Hkeep).
  pose proof (free_slot_spec (grown_tab s)) as Hspec. rewrite Hi in Hspec.
  destruct Hspec as (t0 & Ht0 & Hf0). set (nt := new_tcb p _) in *.
  assert (Hlk : forall j u, tcbtab s' !! j = Some u -> (j = i /\ u = nt) \/
            (j <> i /\ (tcbtab s !! j = Some u \/ u = zero_tcb))).
  { intros j u. rewrite Htab. intros [(<- & <- & _)|[? Hu]]%list_lookup_insert_Some; [by left|right].
    split; [done|]. by apply grown_lookup. }
  assert (Hother : forall j u, tcbtab s !! j = Some u -> inuse u = true -> pid u <> p).
  { intros j u Hu Hin He. assert (abs (tcbtab s) !! p = Some u) by (apply abs_lookup; eauto).
    congruence. }
  split.
  - rewrite Htab, length_insert. lia.
  - pose proof (length_used_alter i t0 nt _ Ht0) as H. rewrite Hf0 in H.
    change (inuse nt) with true in H. rewrite Htab, Hn, H, Hused, Hnp. lia.
  - intros u [j Hu]%list_elem_of_lookup Hin. destruct (Hlk j u Hu) as [[_ ->]|[_ [Hu' | ->]]]; [done| |done].
    apply Hfree; [|done]. by eapply list_elem_of_lookup_2.
  - intros u [j Hu]%list_elem_of_lookup Hin. destruct (Hlk j u Hu) as [[_ ->]|[_ [Hu' | ->]]]; [done| |done].
    apply Hpos; [|done]. by eapply list_elem_of_lookup_2.
  - intros j k u v Hu Hv Hiu Hiv He.
    destruct (Hlk j u Hu) as [[-> ->]|[Hj [Hu' | ->]]], (Hlk k v Hv) as [[-> ->]|[Hk [Hv' | ->]]];
      try done; try by eapply Hnd.
    + exfalso. by eapply (Hother k v).
    + exfalso. by eapply (Hother j u).
Qed.

(** ** droptcb *)

Lemma droptcb_run opt i s t :
  tcbtab s !! i = Some t -> pid t <> 0 ->
  exists evs, droptcb opt i s =
    Ret tt (mk_tracer (alter (fun _ => zero_tcb) i (tcbtab s)) (nprocs s - 1)
              (if bool_decide (printing_tcp s = Some i) then None else printing_tcp s)
              (if bool_decide (current_tcp s = Some i) then None else current_tcp s)
              (glb s) (log s ++ evs)) /\
    (forall e, e ∈ evs -> (exists f, e = EClose f) \/ exists f, e = EWrite f detached_text).
Proof.
  intros Ht Hp. unfold droptcb, mbind, M_bind, get, tcb_of, gets. rewrite Ht. simpl.
  rewrite (proj2 (Z.eqb_neq _ _) Hp).
  assert (Hnil : log s = log s ++ []) by (by rewrite app_nil_r).
  destruct (outf t) as [f|]; [destruct (followfork opt >=? 2)|].
  - destruct (curcol t =? 0); simpl; [exists [EClose f]|exists [EWrite f detached_text; EClose f]];
      split; try (intros e He; set_solver).
    + by do 2 case_bool_decide.
    + rewrite <- app_assoc. by do 2 case_bool_decide.
  - destruct (bool_decide (printing_tcp s = Some i) && negb (curcol t =? 0)) eqn:E; simpl.
    + exists [EWrite f detached_text]. split; [|set_solver]. by do 2 case_bool_decide.
    + exists []. split; [|set_solver]. rewrite <- Hnil. by do 2 case_bool_decide.
  - exists []. split; [|set_solver]. rewrite <- Hnil. by do 2 case_bool_decide.
Qed.

Lemma droptcb_wf i t s s' :
  wf_tab s -> tcbtab s !! i = Some t -> pid t <> 0 ->
  tcbtab s' = alter (fun _ => zero_tcb) i (tcbtab s) -> nprocs s' = nprocs s - 1 -> wf_tab s'.
Proof.
  intros [Hsz Hnp Hfree Hpos Hnd] Ht Hp Htab Hn.
  assert (Hin : inuse t = true).
  { destruct (inuse t) eqn:E; [done|]. exfalso. apply Hp, Hfree; [|done].
    by eapply list_elem_of_lookup_2. }
  assert (Hlk : forall j u, tcbtab s' !! j = Some u -> u = zero_tcb \/ tcbtab s !! j = Some u).
  { intros j u. rewrite Htab, list_lookup_alter. destruct (decide (i = j)) as [->|]; [|by right].
    rewrite Ht. simpl. intros [= <-]. by left. }
  split.
  - rewrite Htab, length_alter. done.
  - pose proof (length_used_alter i t zero_tcb _ Ht) as H. rewrite Hin, inuse_zero in H.
    rewrite list_insert_alter in H. rewrite Htab, Hn, H, Hnp. lia.
  - intros u [j Hu]%list_elem_of_lookup Hiu. destruct (Hlk j u Hu) as [-> | Hu']; [done|].
    apply Hfree; [|done]. by eapply list_elem_of_lookup_2.
  - intros u [j Hu]%list_elem_of_lookup Hiu. destruct (Hlk j u Hu) as [-> | Hu']; [done|].
    apply Hpos; [|done]. by eapply list_elem_of_lookup_2.
  - intros j k u v Hu Hv Hiu Hiv He.
    destruct (Hlk j u Hu) as [-> | Hu'], (Hlk k v Hv) as [-> | Hv']; try done. by eapply Hnd.
Qed.

(** ** Properties *)

Lemma abs_eq s (m : gmap Z tcb) :
  wf_tab s ->
  (forall p t, m !! p = Some t <-> exists i, tcbtab s !! i = Some t /\ inuse t = true /\ pid t = p) ->
  abs (tcbtab s) = m.
Proof.
  intros Hwf Hm. apply map_eq. intros p. apply option_eq. intros t.
  by rewrite abs_lookup, Hm by done.
Qed.

Lemma pid2tcb_spec p s :
  wf_tab s -> exists r, pid2tcb p s = Ret r s /\
    match r with
    | Some i => exists t, tcbtab s !! i = Some t /\ abs (tcbtab s) !! p = Some t
    | None => abs (tcbtab s) !! p = None
    end.
Proof.
  intros Hwf. unfold pid2tcb. destruct (Z.leb_spec p 0) as [Hp|Hp].
  - exists None. split; [done|]. destruct (abs _ !! p) as [t|] eqn:E; [exfalso|done].
    apply abs_lookup in E as (i & Hi & Hin & <-); [|done].
    pose proof (wt_pos _ Hwf t). specialize (H ltac:(by eapply list_elem_of_lookup_2) Hin). lia.
  - unfold gets. eexists. split; [done|]. pose proof (find_pid_spec p (tcbtab s)) as H.
    destruct (find_pid p (tcbtab s)) as [i|].
    + destruct H as (t & Ht & Hpt & Hin). exists t. split; [done|]. apply abs_lookup; eauto.
    + destruct (abs _ !! p) as [t|] eqn:E; [exfalso|done].
      apply abs_lookup in E as (i & Hi & Hin & <-); [|done].
      eapply H; [by eapply list_elem_of_lookup_2|done|done].
Qed.

(** C28: alloctcb and pid2tcb implement insertion and lookup in the map of
    traced processes.  On a well-formed table and for a new pid, alloctcb never
    reaches its "bug in alloctcb" exit, whether or not the table must be
    expanded; afterwards the map has exactly one more entry, a zeroed block in
    use with the current personality, which pid2tcb finds; nprocs is the size of
    the map; and no block in use has moved or changed. *)
Theorem alloctcb_inserts p s :
  wf_tab s -> 0 < p -> abs (tcbtab s) !! p = None ->
  exists i s',
    alloctcb p s = Ret i s' /\ wf_tab s' /\
    abs (tcbtab s') = <[p := new_tcb p (current_personality (glb s))]> (abs (tcbtab s)) /\
    nprocs s' = Z.of_nat (size (abs (tcbtab s'))) /\
    pid2tcb p s' = Ret (Some i) s' /\
    (forall j t, tcbtab s !! j = Some t -> inuse t = true -> tcbtab s' !! j = Some t).
Proof.
  intros Hwf Hp Hnew. destruct (alloctcb_run p s Hwf) as (i & Hi & Hrun).
  set (s' := mk_tracer _ _ _ _ _ _) in Hrun. set (nt := new_tcb p _) in *.
  assert (Hwf' : wf_tab s') by by eapply alloctcb_wf.
  destruct (grown_props s Hwf) as (_ & _ & Hkeep).
  pose proof (free_slot_spec (grown_tab s)) as Hspec. rewrite Hi in Hspec.
  destruct Hspec as (t0 & Ht0 & Hf0).
  assert (Hinew : tcbtab s' !! i = Some nt)
    by (apply list_lookup_insert_eq; by apply lookup_lt_Some in Ht0).
  assert (Hold : forall j t, tcbtab s !! j = Some t -> inuse t = true -> tcbtab s' !! j = Some t).
  { intros j t Ht Hin. simpl. rewrite list_lookup_insert_ne; [by apply Hkeep|].
    intros ->. rewrite (Hkeep _ _ Ht) in Ht0. simplify_eq. congruence. }
  assert (Habs : abs (tcbtab s') = <[p := nt]> (abs (tcbtab s))).
  { apply abs_eq; [done|]. intros q t. rewrite lookup_insert_Some, abs_lookup by done. split.
    - intros [[<- <-]|[Hne (j & Hj & Hin & Hpid)]]; [by exists i|]. exists j. eauto.
    - intros (j & Hj & Hin & Hpid). simpl in Hj.
      apply list_lookup_insert_Some in Hj as [(<- & <- & _)|[Hne Hj]]; [by left|right].
      apply grown_lookup in Hj as [Hj | ->]; [|done]. split; [|by exists j].
      intros <-. assert (abs (tcbtab s) !! p = Some t) by (apply abs_lookup; eauto). congruence. }
  exists i, s'. split_and!; try done; [by apply size_abs|].
  destruct (pid2tcb_spec p s' Hwf') as (r & Hr & Hspec). rewrite Hr. f_equal.
  rewrite Habs, lookup_insert_eq in Hspec. destruct r as [j|]; [|done].
  destruct Hspec as (t & Hj & [= <-]). f_equal. by eapply (wt_nodup _ Hwf' j i nt nt).
Qed.

(** Droptcb implements deletion.  Dropping a block in use removes exactly
    its pid from the map, frees the slot (all bytes zero, so that alloctcb can
    reuse it), decrements nprocs to the new size, and leaves neither
    printing_tcp nor current_tcp pointing to it; dropping a free block does
    nothing. *)
Theorem droptcb_deletes opt i s t :
  wf_tab s -> tcbtab s !! i = Some t ->
  if inuse t then
    exists s',
      droptcb opt i s = Ret tt s' /\ wf_tab s' /\
      abs (tcbtab s') = delete (pid t) (abs (tcbtab s)) /\
      nprocs s' = Z.of_nat (size (abs (tcbtab s'))) /\ nprocs s' = nprocs s - 1 /\
      tcbtab s' !! i = Some zero_tcb /\
      printing_tcp s' <> Some i /\ current_tcp s' <> Some i
  else droptcb opt i s = Ret tt s.
Proof.
  intros Hwf Ht. assert (Hmem : t ∈ tcbtab s) by by eapply list_elem_of_lookup_2.
  destruct (inuse t) eqn:Hin.
  2: { unfold droptcb, mbind, M_bind, get, tcb_of, gets. rewrite Ht. simpl.
       by rewrite (wt_free _ Hwf t Hmem Hin). }
  pose proof (wt_pos _ Hwf t Hmem Hin) as Hpos.
  destruct (droptcb_run opt i s t Ht ltac:(lia)) as (evs & Hrun & _).
  set (s' := mk_tracer _ _ _ _ _ _) in Hrun.
  assert (Hwf' : wf_tab s') by (eapply (droptcb_wf i t s s'); [done|done|lia|done|done]).
  exists s'. split_and!; try done.
  - apply abs_eq; [done|]. intros p u. rewrite lookup_delete_Some, abs_lookup by done. split.
    + intros [Hne (j & Hj & Hju & Hpu)]. exists j. split; [|done]. simpl.
      rewrite list_lookup_alter_ne; [done|]. intros ->. congruence.
    + intros (j & Hj & Hju & Hpu). simpl in Hj. rewrite list_lookup_alter in Hj.
      destruct (decide (i = j)) as [->|Hne].
      { rewrite Ht in Hj. simpl in Hj. injection Hj as <-. done. }
      split; [|by exists j]. intros He. apply Hne. by eapply (wt_nodup _ Hwf i j t u); [..|lia].
  - by apply size_abs.
  - simpl. by rewrite list_lookup_alter, decide_True, Ht by done.
  - simpl. by case_bool_decide.
  - simpl. by case_bool_decide.
Qed.

Lemma demo_wf_tab : wf_tab demo_tracer.
Proof.
  split.
  - apply Nat.ltb_lt. reflexivity.
  - reflexivity.
  - intros t Ht. repeat (apply elem_of_cons in Ht as [-> | Ht]; [done|]). by apply not_elem_of_nil in Ht.
  - intros t Ht. repeat (apply elem_of_cons in Ht as [-> | Ht]; [done|]). by apply not_elem_of_nil in Ht.
  - intros [|[|i]] [|[|j]] t u Ht Hu; simpl in *; simplify_eq; done.
Qed.

Lemma alloctcb_inserts_witness :
  exists i s', alloctcb 12 demo_tracer = Ret i s' /\ wf_tab s' /\ pid2tcb 12 s' = Ret (Some i) s'.
Proof.
  destruct (alloctcb_inserts 12 demo_tracer) as (i & s' & H & Hwf & _ & _ & Hp & _).
  - apply demo_wf_tab.
  - reflexivity.
  - reflexivity.
  - exists i, s'. split; [exact H|]. split; [exact Hwf|exact Hp].
Defined.

Lemma droptcb_deletes_witness :
  exists s', droptcb demo_options 0 demo_tracer = Ret tt s' /\ nprocs s' = 1 /\
             printing_tcp s' <> Some 0%nat.
Proof.
  destruct (droptcb_deletes demo_options 0 demo_tracer (demo_tcb 10 5) demo_wf_tab eq_refl)
    as (s' & H & _ & _ & _ & Hn & _ & Hp & _).
  exists s'. split; [exact H|]. split; [exact Hn|exact Hp].
Defined.
