(* ===== verification/Pathtrace.v ===== *)
(** * Tracing by path, -P (pathtrace.c)

    The set of selected paths is a list without duplicates; whether a system
    call accesses one of them is decided in the decoder monad, because it reads
    the tracee's memory. *)

From S2P Require Import Prelude Xlat Quote Tracee Decode Signal Options Qual.
Local Open Scope string_scope.
Local Open Scope list_scope.
Local Open Scope Z_scope.

Definition pathmatch (paths : list string) (path : string) : bool :=
  existsb (String.eqb path) paths.

(** storepath: append unless present *)
Definition storepath (path : string) (paths : list string) : list string :=
  if pathmatch paths path then paths else paths ++ [path].

(** pathtrace_select; [rpath] is what realpath returns. *)
Definition pathtrace_select (path : string) (rpath : option string) (paths : list string)
    : list string :=
  let paths := storepath path paths in
  match rpath with
  | None => paths
  | Some r => if String.eqb path r then paths else storepath r paths
  end.

(** A NUL-terminated buffer as a C string. *)
Definition cstring (buf : list Z) : string := string_of_bytes (until 0 buf).

(** a || b, the second operand evaluated only when needed *)
Definition orM (a b : D bool) : D bool := x ← a; if x : bool then mret true else b.

Section pathtrace.
Context `{K : Kernel} (paths : list string).

Definition upathmatch (upath : Z) : D bool :=
  '(r, buf) ← d_umovestr upath (MAXPATHLEN + 1);
  mret ((r >? 0) && pathmatch paths (cstring buf)).

Definition fdmatch (fd : Z) : D bool :=
  e ← ask;
  mret match getfdpath e (s32 fd) with Some p => pathmatch paths p | None => false end.

(** FD_ISSET(j, fds) *)
Definition fd_isset (j : nat) (fds : list Z) : bool :=
  Z.testbit (default 0 (fds !! (j / 8)%nat)) (Z.of_nat (j mod 8)).

Fixpoint select_fds (js : list nat) (fds : list Z) : D bool :=
  match js with
  | [] => mret false
  | j :: js =>
      if fd_isset j fds then orM (fdmatch (Z.of_nat j)) (select_fds js fds)
      else select_fds js fds
  end.

Fixpoint select_sets (addrs : list Z) (nfds fdsize : Z) : D bool :=
  match addrs with
  | [] => mret false
  | a :: addrs =>
      if a =? 0 then select_sets addrs nfds fdsize
      else
        '(r, fds) ← d_umoven a fdsize;
        if r <? 0 then _ ← lift (error_msg "umoven() failed"); select_sets addrs nfds fdsize
        else orM (select_fds (seq 0 (Z.to_nat nfds)) fds) (select_sets addrs nfds fdsize)
  end.

(** The select case, on the five arguments. *)
Definition match_select (args : list Z) : D bool :=
  let a0 := s64 (default 0 (args !! 0%nat)) in
  let nfds := u32 a0 in
  let nfds := if a0 >? 1024 * 1024 then 1024 * 1024 else nfds in
  let nfds := if a0 <? 0 then 0 else nfds in
  let fdsize := Z.land ((nfds + 7) / 8 + 8 - 1) (-8) in
  select_sets (take 3 (drop 1 args)) nfds fdsize.

Definition words (n : nat) (bs : list Z) : list Z :=
  (fun i => le (take 8 (drop (8 * i) bs))) <$> seq 0 n.

(** sizeof(struct pollfd) is 8; [fuel] is the number of elements. *)
Fixpoint poll_loop (fuel : nat) (cur fin : Z) : D bool :=
  match fuel with
  | O => mret false
  | S fuel =>
      if cur <? fin then
        '(r, fds) ← d_umoven cur 8;
        hit ← (if r =? 0 then fdmatch (le (take 4 fds)) else mret false);
        if hit : bool then mret true else poll_loop fuel (u64 (cur + 8)) fin
      else mret false
  end.

Definition match_poll (start nfds : Z) : D bool :=
  let nfds := u32 nfds in
  let fin := u64 (start + 8 * nfds) in
  if (nfds =? 0) || (fin <? start) then mret false
  else poll_loop (Z.to_nat nfds) start fin.

Definition is_fn (s : struct_sysent) (names : list string) : bool :=
  existsb (String.eqb (sys_func s)) names.

Definition fn_fd_fd := ["sys_dup2"; "sys_dup3"; "sys_sendfile"; "sys_sendfile64"; "sys_tee"].
Definition fn_fd_path :=
  ["sys_inotify_add_watch"; "sys_faccessat"; "sys_fchmodat"; "sys_futimesat"; "sys_mkdirat";
   "sys_unlinkat"; "sys_newfstatat"; "sys_mknodat"; "sys_openat"; "sys_readlinkat";
   "sys_utimensat"; "sys_fchownat"; "sys_pipe2"].
Definition fn_none :=
  ["printargs"; "sys_pipe"; "sys_pipe2"; "sys_eventfd2"; "sys_eventfd"; "sys_inotify_init1";
   "sys_timerfd_create"; "sys_timerfd_settime"; "sys_timerfd_gettime"; "sys_epoll_create"].

Definition pathtrace_match (s : struct_sysent) : D bool :=
  if negb (has_flag (sys_flags s) (Z.lor TRACE_FILE TRACE_DESC)) then mret false
  else
    a0 ← arg 0; a1 ← arg 1; a2 ← arg 2; a3 ← arg 3; a4 ← arg 4;
    if is_fn s fn_fd_fd then orM (fdmatch a0) (fdmatch a1)
    else if is_fn s fn_fd_path then orM (fdmatch a0) (upathmatch a1)
    else if is_fn s ["sys_link"; "sys_mount"] then orM (upathmatch a0) (upathmatch a1)
    else if is_fn s ["sys_quotactl"] then upathmatch a1
    else if is_fn s ["sys_renameat"; "sys_linkat"] then
      orM (fdmatch a0) (orM (fdmatch a2) (orM (upathmatch a1) (upathmatch a3)))
    else if is_fn s ["sys_old_mmap"; "sys_mmap"; "sys_mmap_pgoff"; "sys_mmap_4koff"]
    then fdmatch a4
    else if is_fn s ["sys_symlinkat"] then
      orM (fdmatch a1) (orM (upathmatch a0) (upathmatch a2))
    else if is_fn s ["sys_splice"] then orM (fdmatch a0) (fdmatch a2)
    else if is_fn s ["sys_epoll_ctl"] then fdmatch a2
    else if is_fn s ["sys_oldselect"] then
      '(r, bs) ← d_umoven a0 40;
      if r <? 0 then _ ← lift (error_msg "umoven() failed"); mret false
      else match_select (words 5 bs)
    else if is_fn s ["sys_select"; "sys_pselect6"] then match_select [a0; a1; a2; a3; a4]
    else if is_fn s ["sys_poll"; "sys_ppoll"] then match_poll a0 a1
    else if is_fn s fn_none || bool_decide (sys_name s = Some "fanotify_init") then mret false
    else if has_flag (sys_flags s) TRACE_FILE then upathmatch a0
    else if has_flag (sys_flags s) TRACE_DESC then fdmatch a0
    else mret false.
End pathtrace.

(** ** What a match means *)

(** A path the call can reach: the target of a descriptor or the string at a
    user address. *)
Section sound.
Context `{K : Kernel} (paths : list string) (e : denv).

Inductive reaches (path : string) : Prop :=
  | reaches_fd fd : getfdpath e fd = Some path -> reaches path
  | reaches_mem a s r buf s' :
      d_umovestr a (MAXPATHLEN + 1) e s = Some ((r, buf), s') -> 0 < r -> cstring buf = path ->
      reaches path.

(** A test that only answers yes when a selected path is reached. *)
Definition sound (c : D bool) : Prop := forall s s',
  c e s = Some (true, s') -> exists path, path ∈ paths /\ reaches path.

Lemma pathmatch_elem path : pathmatch paths path = true -> path ∈ paths.
Proof.
  unfold pathmatch. rewrite existsb_exists. intros (p & Hp & ->%String.eqb_eq).
  by apply list_elem_of_In.
Qed.

Lemma sound_false : sound (mret false).
Proof. intros s s' [= ]. Qed.

Lemma sound_or a b : sound a -> sound b -> sound (orM a b).
Proof.
  intros Ha Hb s s'. unfold orM, mbind, D_bind. destruct (a e s) as [[[] s1]|] eqn:E; [|by apply Hb|done].
  intros _. by eapply Ha.
Qed.

Lemma sound_bind {A} (c : D A) k : (forall x, sound (k x)) -> sound (c ≫= k).
Proof.
  intros Hk s s'. unfold mbind, D_bind. destruct (c e s) as [[x s1]|]; [|done]. apply Hk.
Qed.

Lemma sound_fd fd : sound (fdmatch paths fd).
Proof.
  intros s s'. unfold fdmatch, mbind, D_bind, ask. destruct (getfdpath e (s32 fd)) as [p|] eqn:E; [|done].
  intros [= Hp _]. exists p. split; [by apply pathmatch_elem|by eapply reaches_fd].
Qed.

Lemma sound_path a : sound (upathmatch paths a).
Proof.
  intros s s'. unfold upathmatch, mbind, D_bind.
  destruct (d_umovestr a (MAXPATHLEN + 1) e s) as [[[r buf] s1]|] eqn:E; [|done].
  intros [= [Hr Hp]%andb_true_iff _]. exists (cstring buf). split; [by apply pathmatch_elem|].
  eapply reaches_mem; [done|lia|done].
Qed.

Lemma sound_fds js fds : sound (select_fds paths js fds).
Proof.
  induction js as [|j js IH]; simpl; [apply sound_false|].
  destruct (fd_isset j fds); [|done]. by apply sound_or; [apply sound_fd|].
Qed.

Lemma sound_sets addrs nfds sz : sound (select_sets paths addrs nfds sz).
Proof.
  induction addrs as [|a addrs IH]; simpl; [apply sound_false|].
  destruct (a =? 0); [done|]. apply sound_bind. intros [r fds].
  destruct (r <? 0); [by apply sound_bind|]. apply sound_or; [apply sound_fds|done].
Qed.

Lemma sound_poll fuel cur fin : sound (poll_loop paths fuel cur fin).
Proof.
  revert cur. induction fuel as [|fuel IH]; intros cur; simpl; [apply sound_false|].
  destruct (cur <? fin); [|apply sound_false]. apply sound_bind. intros [r fds].
  apply (sound_or (if r =? 0 then fdmatch paths (le (take 4 fds)) else mret false)); [|done].
  destruct (r =? 0); [apply sound_fd|apply sound_false].
Qed.

Lemma pathtrace_match_sound s : sound (pathtrace_match paths s).
Proof.
  unfold pathtrace_match, match_select, match_poll.
  repeat first
    [ apply sound_false | apply sound_fd | apply sound_path | apply sound_sets | apply sound_poll
    | apply sound_or
    | match goal with
      | |- sound (if _ then _ else _) => case_match
      | |- sound (_ ≫= _) => apply sound_bind; intros ?
      | |- sound (let '(_, _) := ?x in _) => destruct x
      | |- sound (match ?x with _ => _ end) => destruct x
      end ].
Qed.
End sound.

(** ** Properties *)

(** Path filtering has no false positives.  Whatever the system call, if
    pathtrace_match says that it accesses a selected path, then a selected path
    is the target of one of the tracee's descriptors or a string at a user
    address that was read successfully; in particular, contrary to the comment
    above it, nothing matches when no path is selected. *)
Theorem pathtrace_match_no_false_positive `{K : Kernel} paths e s st st' :
  pathtrace_match paths s e st = Some (true, st') ->
  exists path, path ∈ paths /\ reaches e path.
Proof. apply pathtrace_match_sound. Qed.

Lemma pathtrace_match_no_false_positive_witness :
  let e := mk_denv 7 8 0 [3; 0; 0; 0; 0; 0] true 0 0 true true 0 32 false
             (fun fd => if fd =? 3 then Some "/etc/passwd" else None) (fun _ => 0) 3 in
  exists path, path ∈ ["/etc/passwd"] /\ @reaches (mem_kernel true demo_mem) e path.
Proof.
  intros e.
  refine (@pathtrace_match_no_false_positive (mem_kernel true demo_mem) ["/etc/passwd"] e
            (mk_sysent 3 TRACE_DESC "sys_read" (Some "read"))
            (mk_dstate (demo_state false) [] false None false None) _ _).
  reflexivity.
Defined.

(** The selected set.  pathtrace_select adds the path and its
    canonicalised form and keeps what was selected; the set never holds a path
    twice. *)
Theorem pathtrace_select_spec path rpath paths :
  NoDup paths ->
  NoDup (pathtrace_select path rpath paths) /\
  forall p, p ∈ pathtrace_select path rpath paths <-> p ∈ paths \/ p = path \/ rpath = Some p.
Proof.
  assert (Hmem : forall ps p, pathmatch ps p = true <-> p ∈ ps).
  { intros ps p. split; [apply pathmatch_elem|]. intros Hp. apply existsb_exists.
    exists p. split; [by apply list_elem_of_In|apply String.eqb_refl]. }
  assert (Hst : forall q ps, NoDup ps -> NoDup (storepath q ps) /\
            forall p, p ∈ storepath q ps <-> p ∈ ps \/ p = q).
  { intros q ps Hnd. unfold storepath. destruct (pathmatch ps q) eqn:E.
    - apply Hmem in E. split; [done|]. intros p. naive_solver.
    - assert (q ∉ ps) by (intros Hq; apply Hmem in Hq; congruence). split.
      + apply NoDup_app. split_and!; [done| |apply NoDup_singleton].
        intros x Hx ->%list_elem_of_singleton. done.
      + intros p. rewrite elem_of_app, list_elem_of_singleton. done. }
  intros Hnd. destruct (Hst path paths Hnd) as [Hnd1 H1]. unfold pathtrace_select.
  destruct rpath as [r|]; [|split; [done|]; intros p; rewrite H1; naive_solver].
  destruct (String.eqb_spec path r) as [->|Hne].
  - split; [done|]. intros p. rewrite H1. naive_solver.
  - destruct (Hst r _ Hnd1) as [Hnd2 H2]. split; [done|]. intros p. rewrite H2, H1. naive_solver.
Qed.

Lemma pathtrace_select_spec_witness :
  NoDup (pathtrace_select "/lib" (Some "/usr/lib") ["/etc"]).
Proof.
  apply (pathtrace_select_spec "/lib" (Some "/usr/lib") ["/etc"]).
  apply (bool_decide_unpack (NoDup ["/etc"])). vm_compute. exact I.
Defined.
