(* ===== verification/Syscall.v ===== *)
(** * System call stops (syscall.c: get_regs, get_scno, update_personality,
      syscall_fixup_on_sysenter, get_syscall_args, decode_socket_subcall,
      decode_ipc_subcall, internal_fork, trace_syscall_entering, is_negated_errno,
      get_error, dumpio, trace_syscall_exiting, trace_syscall, output_stacktrace;
      util.c: setbpt, clearbpt)

    The x86_64 build (three personalities: x86_64, i386, x32) is modelled.  The
    generated tables, the decoders behind [sys_func] pointers, the C library and
    what the tracee's memory holds are the fields of [world]. *)

From S2P Require Import Prelude Timeval Xlat Quote Tracee Decode Io Options Signal Qual Mmap Count.
From S2P Require Import Tcb Regs Log Table Pathtrace.
Local Open Scope string_scope.
Local Open Scope list_scope.
Local Open Scope Z_scope.

(** ** What is not under src/ or is generated *)

Record world := mk_world {
  sysent_vec : list (list struct_sysent);
  quals_of : quals;                          (* the table after option parsing *)
  errnoent : nat -> list string;             (* per personality *)
  strerror : Z -> string;
  hms : Z -> string;                         (* strftime("%T") of localtime *)
  paths_selected : list string;
  show_paths : bool;                         (* -y *)
  kern : list event -> Z -> Kernel;          (* the memory of a process at a point of the history *)
  fd_target : list event -> Z -> Z -> option string;
  sys_call : string -> Kernel -> D Z;        (* the decoder a sys_func pointer names *)
  unwind : list event -> Z -> option (list (option Z));  (* libunwind: the frames' IPs *)
  loop_fuel : nat;                          (* bound of the model on loops the kernel or the tracee controls *)
  indeterminate : nat -> Z;                  (* contents of uninitialised buffers *)
  indeterminate_map : nat -> mmap_cache_t;
  qsort : (nat -> nat -> Z) -> list nat -> list nat
}.

(** The exit codes of a crash: assert/abort, a null pointer, EXITIF; and the
    model's own for a loop longer than [loop_fuel]. *)
Definition SIGABRT_exit : Z := 134.
Definition SIGSEGV_exit : Z := 139.
Definition EXITIF_exit : Z := 1.
Definition out_of_fuel : Z := -1.

Definition NT_PRSTATUS : Z := 1.
Definition RBX : Z := 5.
Definition RCX : Z := 11.
Definition RSI : Z := 13.
Definition RDI : Z := 14.
Definition ORIG_RAX : Z := 15.
Definition CLONE_VM : Z := 0x100.
Definition CLONE_PTRACE : Z := 0x2000.
Definition CLONE_VFORK : Z := 0x4000.
Definition CLONE_UNTRACED : Z := 0x800000.
Definition X32_SYSCALL_BIT : Z := 0x40000000.
Definition SYS_socket_subcall : Z := 400.
Definition SYS_socket_nsubcalls : Z := 20.
Definition SYS_ipc_subcall : Z := 420.
Definition SYS_ipc_nsubcalls : Z := 25.
Definition MAX_ARGS : Z := 6.
(** PTRACE_O_TRACEFORK, PTRACE_O_TRACEVFORK and PTRACE_O_TRACECLONE *)
Definition TRACE_FORKS : Z := 0x0e.

Definition wordsize_of (pers : nat) : Z := match pers with O => 8 | _ => 4 end.
Definition mode_name (pers : nat) : string :=
  match pers with O => "64 bit" | S O => "32 bit" | _ => "x32" end.

Section syscall.
Context (oracle : list event -> request -> reply) (opt : options) (w : world).

Definition nerrnos (pers : nat) : Z := Z.of_nat (length (errnoent w pers)).
Definition sysent (pers : nat) (n : Z) : option struct_sysent :=
  if (0 <=? n) then default [] (sysent_vec w !! pers) !! Z.to_nat n else None.
(** SCNO_IS_VALID; an entry without a function has an empty [sys_func]. *)
Definition scno_valid (pers : nat) (scno : Z) : option struct_sysent :=
  match sysent pers (u64 scno) with
  | Some e => if String.eqb (sys_func e) "" then None else Some e
  | None => None
  end.
Definition qual_flags (pers : nat) (n : Z) : Z := get_qual (quals_of w) pers (Z.to_nat n).

(** tcp->s_ent, which points into a table once a system call was seen. *)
Definition unknown_ent : struct_sysent := mk_sysent MAX_ARGS 0 "printargs" (Some "unknown").
Definition ent (t : tcb) : struct_sysent := default unknown_ent (s_ent t).
Definition ent_name (t : tcb) : string := default "" (sys_name (ent t)).
Definition ent_func (t : tcb) : string := sys_func (ent t).
Definition fn_is (t : tcb) (f : string) : bool := String.eqb (ent_func t) f.

(** ** Registers *)

Definition clear_regs : M unit := modify_glb (fun g => set_regs (-1) (regs g) g).

(** Returns errno. *)
Definition get_regset (p : Z) : M Z :=
  r ← ask_kernel oracle (RPtrace PTRACE_GETREGSET p NT_PRSTATUS 0);
  _ ← modify_glb (fun g =>
        set_regs (r_ret r)
          (if r_ret r <? 0 then mk_regset (reg_bytes (regs g)) (Z.of_nat sizeof_x86_64_regs)
           else r_regs r) g);
  mret (r_errno r).

Definition get_regs (p : Z) : M unit :=
  g ← gets glb;
  done ← (if getregset_support g >=? 0 then
            err ← get_regset p;
            if getregset_support g >? 0 then mret true
            else
              g ← gets glb;
              if get_regs_error g >=? 0 then _ ← modify_glb (set_regsup 1); mret true
              else if (err =? EPERM) || (err =? ESRCH) then mret true
              else _ ← modify_glb (set_regsup (-1)); mret false
          else mret false);
  if done : bool then mret tt
  else
    r ← ask_kernel oracle (RPtrace PTRACE_GETREGS p 0 0);
    modify_glb (fun g =>
      let b := if r_ret r <? 0 then reg_bytes (regs g) else reg_bytes (r_regs r) in
      set_regs (r_ret r)
        (if (r_ret r =? 0) && (reg64 o_cs b =? 0x23)
         then mk_regset (to_i386 b) (Z.of_nat sizeof_i386_regs)
         else mk_regset b (Z.of_nat sizeof_x86_64_regs)) g).

(** ** Personality and system call number *)

(** set_personality switches the tables; they are functions of
    current_personality here. *)
Definition set_personality (pers : nat) : M unit := modify_glb (set_pers pers).

Definition update_personality (i : nat) (pers : nat) : M unit :=
  g ← gets glb;
  if (pers =? current_personality g)%nat then mret tt
  else
    _ ← set_personality pers;
    t ← tcb_of i;
    if (pers =? currpers t)%nat then mret tt
    else
      _ ← upd_tcb i (set_currpers pers);
      when (qflag opt =? 0)
        (err_msg ("[ Process PID=" +:+ fmt_d (pid t) +:+ " runs in " +:+ mode_name pers +:+
                  " mode. ]" +:+ nl)).

(** The number and the personality in the registers. *)
Definition scno_pers (r : regset) : Z * nat :=
  if is_i386 r then (reg32 o_orig_eax (reg_bytes r), 1%nat)
  else
    let scno := s64 (reg64 o_orig_rax (reg_bytes r)) in
    if has_flag scno X32_SYSCALL_BIT then (scno - X32_SYSCALL_BIT, 2%nat) else (scno, 0%nat).

Definition get_scno (i : nat) : M Z :=
  g ← gets glb;
  let '(n, pers) := scno_pers (regs g) in
  _ ← update_personality i pers;
  _ ← upd_tcb i
        (match scno_valid pers n with
         | Some e => set_scno n (qual_flags pers n) (Some e)
         | None => set_scno n (Z.lor (Z.lor UNDEFINED_SCNO QUAL_RAW) DEFAULT_QUAL_FLAGS)
                     (Some unknown_ent)
         end);
  mret 1.

Definition undefined_scno_name (t : tcb) : string := "syscall_" +:+ fmt_u (u64 (scno t)).

(** rax: the i386 register sign-extended. *)
Definition result_reg (r : regset) : Z :=
  if is_i386 r then s32 (reg32 o_eax (reg_bytes r)) else s64 (reg64 o_rax (reg_bytes r)).

Definition syscall_fixup_on_sysenter : M Z :=
  g ← gets glb; mret (if result_reg (regs g) =? - ENOSYS then 1 else 0).

Definition args_of (r : regset) : list Z :=
  if is_i386 r then
    (fun o => reg32 o (reg_bytes r)) <$> [o_ebx; o_ecx; o_edx; o_esi; o_edi; o_ebp]
  else (fun o => reg64 o (reg_bytes r)) <$> [o_rdi; o_rsi; o_rdx; o_r10; o_r8; o_r9].

Definition get_syscall_args (i : nat) : M Z :=
  g ← gets glb; _ ← upd_tcb i (set_args (args_of (regs g))); mret 1.

(** ** Decoders *)

Definition nonempty_str (s : string) : bool := match s with EmptyString => false | _ => true end.

(** What a decoder sees of the tracer. *)
Definition denv_of (s : tracer) (t : tcb) : denv :=
  mk_denv (pid t) (wordsize_of (current_personality (glb s))) (current_personality (glb s)) (u_args t) (entering t) (u_error t)
    (u_rval t) (has_flag (qual_flg t) QUAL_VERBOSE) (has_flag (qual_flg t) QUAL_ABBREV)
    (opt_xflag opt) (opt_max_strlen opt) (show_paths w) (fd_target w (log s) (pid t))
    (indeterminate w) (nargs (ent t)).
Definition dstate_of (s : tracer) (t : tcb) : dstate :=
  mk_dstate (mk_pstate (g_readv_ns (glb s)) "" []) [] (g_strbuf (glb s)) (auxstr t) false None.

(** What a decoder assigned in its tcb. *)
Definition decoder_sets (st : dstate) (t : tcb) : tcb :=
  let t := if d_cache_dropped st then set_cache None t else t in
  set_auxstr (d_auxstr st)
    match d_new_rval st with Some v => set_result v (u_error t) t | None => t end.

(** The effects of a decoder: the text goes to the log, the dump to the byte
    dump, messages to stderr.  Each stream gets its part in one piece. *)
Definition put_effects (i : nat) (st : dstate) : M unit :=
  _ ← modify_glb (set_dflags (readv_not_supported (d_p st)) (d_strbuf st));
  _ ← upd_tcb i (decoder_sets st);
  _ ← when (negb (bool_decide (p_err (d_p st) = []))) (err_msg (String.concat nl (p_err (d_p st))));
  _ ← when (nonempty_str (p_out (d_p st))) (tprints (p_out (d_p st)));
  when (negb (bool_decide (d_dump st = []))) (tdump (d_dump st)).

Definition run_D {A} (i : nat) (c : Kernel -> D A) : M A :=
  s ← get;
  t ← tcb_of i;
  match c (kern w (log s) (pid t)) (denv_of s t) (dstate_of s t) with
  | None => exit_ SIGABRT_exit
  | Some (x, st) => _ ← put_effects i st; mret x
  end.

(** tcp->s_ent->sys_func(tcp) *)
Definition call_sys_func (t : tcb) (K : Kernel) : D Z :=
  if fn_is t "printargs" then printargs (nargs (ent t))
  else if fn_is t "printargs_lu" then printargs_lu (nargs (ent t))
  else if fn_is t "printargs_ld" then printargs_ld (nargs (ent t))
  else sys_call w (ent_func t) K.

(** The loop of decode_socket_subcall: [n] arguments from [addr]. *)
Fixpoint read_args `{K : Kernel} (n : nat) (addr : Z) : D (list Z) :=
  match n with
  | O => mret []
  | S n =>
      e ← ask;
      a ← umove addr (if wordsize e =? 4 then 4%nat else 8%nat);
      rest ← read_args n (u64 (addr + wordsize e));
      mret (default 0 a :: rest)
  end.

(** The first arguments replaced by [new]. *)
Definition overwrite (new old : list Z) : list Z := new ++ drop (length new) old.

Definition set_subcall (i : nat) (n : Z) : M unit :=
  g ← gets glb;
  let pers := current_personality g in
  upd_tcb i (set_scno n (qual_flags pers n) (sysent pers n)).

Definition decode_socket_subcall (i : nat) : M unit :=
  t ← tcb_of i;
  let a0 := s64 (default 0 (u_args t !! 0%nat)) in
  if (a0 <? 0) || (a0 >=? SYS_socket_nsubcalls) then mret tt
  else
    _ ← set_subcall i (SYS_socket_subcall + a0);
    t ← tcb_of i;
    args ← run_D i (fun K => read_args (Z.to_nat (nargs (ent t))) (default 0 (u_args t !! 1%nat)));
    upd_tcb i (fun t => set_args (overwrite args (u_args t)) t).

Definition decode_ipc_subcall (i : nat) : M unit :=
  t ← tcb_of i;
  let a0 := s64 (default 0 (u_args t !! 0%nat)) in
  if (a0 <? 0) || (a0 >=? SYS_ipc_nsubcalls) then mret tt
  else
    _ ← set_subcall i (SYS_ipc_subcall + a0);
    upd_tcb i (fun t =>
      set_args (overwrite (take (Z.to_nat (nargs (ent t))) (drop 1 (u_args t))) (u_args t)) t).

Definition decode_subcall (i : nat) : M unit :=
  t ← tcb_of i;
  if fn_is t "sys_socketcall" then decode_socket_subcall i
  else if fn_is t "sys_ipc" then decode_ipc_subcall i
  else mret tt.

(** ** Following forks on old kernels (util.c) *)

Definition arg0_offset (pers : nat) : Z := 8 * match pers with O => RDI | _ => RBX end.
Definition arg1_offset (pers : nat) : Z := 8 * match pers with O => RSI | _ => RCX end.

(** PTRACE_POKEUSER: the result and errno. *)
Definition poke_user (i : nat) (off val : Z) : M (Z * Z) :=
  t ← tcb_of i;
  r ← ask_kernel oracle (RPtrace PTRACE_POKEUSER (pid t) off val);
  mret (r_ret r, r_errno r).
Definition set_arg0 (i : nat) (val : Z) : M (Z * Z) :=
  g ← gets glb; poke_user i (arg0_offset (current_personality g)) val.
Definition set_arg1 (i : nat) (val : Z) : M (Z * Z) :=
  g ← gets glb; poke_user i (arg1_offset (current_personality g)) val.
Definition change_syscall (i : nat) (new : Z) : M (Z * Z) := poke_user i (ORIG_RAX * 8) new.

Definition get_arg (i : nat) (off : nat -> Z) : M (option Z) :=
  g ← gets glb;
  t ← tcb_of i;
  '(_, v) ← run_D i (fun K => lift (@upeek K (pid t) (off (current_personality g))));
  mret v.

(** The search for the number of clone, remembered in clone_scno. *)
Fixpoint find_func (f : string) (tab : list struct_sysent) : option nat :=
  match tab with
  | [] => None
  | e :: tab => if String.eqb (sys_func e) f then Some 0%nat else S <$> find_func f tab
  end.
Definition init_clone_scno : M Z :=
  g ← gets glb;
  let pers := current_personality g in
  let known := default 0 (clone_scno g !! pers) in
  if known =? 0 then
    match find_func "sys_clone" (default [] (sysent_vec w !! pers)) with
    | Some n => _ ← modify_glb (set_clone (<[pers := Z.of_nat n]> (clone_scno g)));
                mret (Z.of_nat n)
    | None => mret 0
    end
  else mret known.

(** a < 0 || b: run [next] only when the poke succeeded. *)
Definition and_then (c : M (Z * Z)) (next : M Z) : M Z :=
  '(r, _) ← c; if r <? 0 then mret (-1) else next.

Definition setbpt (i : nat) : M Z :=
  t ← tcb_of i;
  if has_flag (flags t) TCB_BPTSET then
    _ ← err_msg ("PANIC: TCB already set in pid " +:+ fmt_u (u32 (pid t)) +:+ nl); mret (-1)
  else
    clone ← init_clone_scno;
    if fn_is t "sys_fork" || fn_is t "sys_vfork" then
      a0 ← get_arg i arg0_offset;
      match a0 with
      | None => mret (-1)
      | Some a0 =>
          _ ← upd_tcb i (fun t => set_inst (a0, (inst t).2) t);
          a1 ← get_arg i arg1_offset;
          match a1 with
          | None => mret (-1)
          | Some a1 =>
              _ ← upd_tcb i (fun t => set_inst ((inst t).1, a1) t);
              and_then (change_syscall i clone)
                (and_then (set_arg0 i (Z.lor CLONE_PTRACE SIGCHLD))
                  (and_then (set_arg1 i 0)
                    (_ ← upd_tcb i (fun t =>
                        set_args (overwrite [Z.lor CLONE_PTRACE SIGCHLD; 0] (u_args t))
                          (set_flags (fun f => set_flag f TCB_BPTSET) t));
                     mret 0)))
          end
      end
    else if fn_is t "sys_clone" then
      let a0 := default 0 (u_args t !! 0%nat) in
      let a1 := default 0 (u_args t !! 1%nat) in
      let new_arg0 := Z.lor a0 CLONE_PTRACE in
      let new_arg0 :=
        if has_flag new_arg0 CLONE_VFORK
        then clear_flag new_arg0 (Z.lor CLONE_VFORK CLONE_VM) else new_arg0 in
      and_then (set_arg0 i new_arg0)
        (_ ← upd_tcb i (fun t => set_inst (a0, a1) (set_flags (fun f => set_flag f TCB_BPTSET) t));
         mret 0)
    else
      _ ← err_msg ("PANIC: setbpt for syscall " +:+ fmt_d (scno t) +:+ " on " +:+
                   fmt_u (u32 (pid t)) +:+ "???" +:+ nl);
      mret (-1).

Definition clearbpt (i : nat) : M Z :=
  t ← tcb_of i;
  let clear := _ ← upd_tcb i (set_flags (fun f => clear_flag f TCB_BPTSET)); mret 0 in
  let give_up_unless_dead err := if err =? ESRCH then clear else mret (-1) in
  '(r, err) ← change_syscall i (scno t);
  if r <? 0 then give_up_unless_dead err
  else
    '(r, err) ← set_arg0 i (inst t).1;
    if r <? 0 then give_up_unless_dead err
    else
      '(r, err) ← set_arg1 i (inst t).2;
      if r <? 0 then give_up_unless_dead err else clear.

Definition internal_fork (i : nat) : M unit :=
  if Z.land (ptrace_setoptions opt) TRACE_FORKS =? TRACE_FORKS then mret tt
  else if followfork opt =? 0 then mret tt
  else
    t ← tcb_of i;
    if entering t then
      if fn_is t "sys_clone" && has_flag (default 0 (u_args t !! 0%nat)) CLONE_UNTRACED then mret tt
      else _ ← setbpt i; mret tt
    else if has_flag (flags t) TCB_BPTSET then _ ← clearbpt i; mret tt
    else mret tt.

(** TCB_WAITEXECVE is not defined on x86: only forks. *)
Definition syscall_fixup_for_fork_exec (i : nat) : M unit :=
  t ← tcb_of i;
  if fn_is t "sys_fork" || fn_is t "sys_vfork" || fn_is t "sys_clone" then internal_fork i
  else mret tt.

(** ** Stack traces *)

(** The result of a computation that can fail EXITIF, or crash. *)
Definition of_outcome {A} (o : outcome A) : M A :=
  match o with
  | Ok x => mret x
  | ExitIf => exit_ EXITIF_exit
  | Overflow => exit_ SIGSEGV_exit
  | NoFuel => exit_ out_of_fuel
  end.

(** print_libunwind_backtrace: [n] frames were printed; [ips] are the program
    counters of the frames left, [None] where unw_get_reg fails. *)
Fixpoint libunwind_loop (c : option cache) (n : nat) (ips : list (option Z)) : M unit :=
  match ips with
  | [] => mret tt
  | None :: _ => exit_ EXITIF_exit
  | Some ip :: ips =>
      txt ← of_outcome (print_normalized_addr (indeterminate_map w) c ip);
      _ ← tprintstackinfo txt;
      if (255 <? S n)%nat then
        err_msg ("libunwind warning: too deeply nested---assuming bogus unwind" +:+ nl)
      else libunwind_loop c (S n) ips
  end.

Definition print_libunwind_backtrace (i : nat) : M unit :=
  s ← get;
  t ← tcb_of i;
  match unwind w (log s) (pid t) with
  | None => exit_ EXITIF_exit
  | Some ips => libunwind_loop (mmap_cache t) 0 ips
  end.

Definition print_ebp_backtrace (i : nat) : M unit :=
  t ← tcb_of i;
  r ← ask_kernel oracle (RPtrace PTRACE_GETREGS (pid t) 0 0);
  s ← get;
  let b := reg_bytes (r_regs r) in
  let st := mk_pstate (g_readv_ns (glb s)) "" [] in
  '(txt, st) ← of_outcome
      (@print_i386_ebp_backtrace (kern w (log s) (pid t))
         (wordsize_of (current_personality (glb s))) (pid t) (indeterminate_map w) (mmap_cache t)
         (loop_fuel w) (if r_ret r <? 0 then None else Some (reg64 o_rip b, reg64 o_rbp b)) st);
  _ ← modify_glb (fun g => set_dflags (readv_not_supported st) (g_strbuf g) g);
  tprintstackinfo txt.

Definition output_stacktrace (really : bool) (i : nat) : M unit :=
  if negb really then tprintstackinfo ("[]" +:+ nl)
  else
    _ ← tprintstackinfo "[ ";
    t ← tcb_of i;
    _ ← match mmap_cache t with
        | Some _ => mret tt
        | None =>
            r ← ask_kernel oracle (RMaps (pid t));
            c ← of_outcome (alloc_mmap_cache None (r_text r));
            upd_tcb i (set_cache (Some c))
        end;
    g ← gets glb;
    (* IS_32BIT_EMU is current_personality == 1 *)
    _ ← (if (current_personality g =? 1)%nat || negb (use_libunwind opt) then print_ebp_backtrace i
         else print_libunwind_backtrace i);
    tprintstackinfo ("]" +:+ nl).

(** The calls without a stack trace. *)
Definition no_stack_names : list string :=
  ["fstat"; "mmap"; "munmap"; "gettid"; "close"; "lseek"; "rt_sigprocmask"; "gettimeofday";
   "stat"; "mprotect"].

(** ** System call entry *)

Definition set_insyscall (i : nat) : M unit :=
  upd_tcb i (set_flags (fun f => set_flag f TCB_INSYSCALL)).
Definition clear_insyscall (i : nat) : M unit :=
  upd_tcb i (set_flags (fun f => clear_flag f TCB_INSYSCALL)).

(** The label ret of trace_syscall_entering. *)
Definition entering_ret (i : nat) (res : Z) : M Z :=
  _ ← set_insyscall i;
  _ ← when (Tflag opt || negb (cflag opt =? CFLAG_NONE))
        (r ← ask_kernel oracle RTime; upd_tcb i (fun t => set_times (stime t) (dtime t) (r_tv r) t));
  mret res.

Definition undefined (t : tcb) : bool := has_flag (qual_flg t) UNDEFINED_SCNO.
Definition call_name (t : tcb) : string :=
  if undefined t then undefined_scno_name t else ent_name t.

(** The part for a failed ptrace. *)
Definition entering_failed (i : nat) (scno_good res : Z) : M Z :=
  _ ← printleader oracle opt (hms w) i;
  t ← tcb_of i;
  _ ← (if negb (scno_good =? 1) then tprints "????(" else tprints (call_name t +:+ "("));
  entering_ret i res.

(** sys_exit (process.c) is not a printer of arguments only: it completes the
    line, as no exit stop follows. *)
Definition sys_exit (i : nat) : M Z :=
  t ← tcb_of i;
  if exiting t then _ ← err_msg ("_exit returned!" +:+ nl); mret (-1)
  else
    _ ← tprints (fmt_d (s64 (default 0 (u_args t !! 0%nat))) +:+ ") ");
    _ ← tabto opt;
    _ ← tprints ("= ?" +:+ nl);
    _ ← line_ended;
    mret 0.

(** res = tcp->s_ent->sys_func(tcp), for the entry [t] has. *)
Definition call_decoder (i : nat) (t : tcb) : M Z :=
  if fn_is t "sys_exit" then sys_exit i else run_D i (call_sys_func t).

(** The message of a traced call: leader, name, stack trace, arguments. *)
Definition show_entry (i : nat) : M Z :=
  _ ← printleader oracle opt (hms w) i;
  t ← tcb_of i;
  _ ← tprints (call_name t +:+ "(");
  _ ← when (output_stacktraces opt)
        (output_stacktrace
           (negb (undefined t) && negb (existsb (String.eqb (ent_name t)) no_stack_names)) i);
  t ← tcb_of i;
  if has_flag (qual_flg t) QUAL_RAW && negb (fn_is t "sys_exit")
  then run_D i (fun _ => printargs (nargs (ent t)))
  else call_decoder i t.

(** The rest of trace_syscall_entering for a call with its arguments read. *)
Definition entering_known (i : nat) : M Z :=
  t ← tcb_of i;
  _ ← when (fn_is t "sys_execve") (modify_glb (set_hide false));
  _ ← decode_subcall i;
  _ ← when (need_fork_exec_workarounds opt) (syscall_fixup_for_fork_exec i);
  t ← tcb_of i;
  skip ← (if negb (has_flag (qual_flg t) QUAL_TRACE) then mret true
          else if bool_decide (paths_selected w = []) then mret false
          else
            hit ← run_D i (fun K => pathtrace_match (paths_selected w) (ent t));
            mret (negb hit));
  if skip : bool then
    _ ← upd_tcb i (set_flags (fun f => set_flag f (Z.lor TCB_INSYSCALL TCB_FILTERED)));
    mret 0
  else
    _ ← upd_tcb i (set_flags (fun f => clear_flag f TCB_FILTERED));
    g ← gets glb;
    if (cflag opt =? CFLAG_ONLY_STATS) || hide_log_until_execve g then entering_ret i 0
    else res ← show_entry i; entering_ret i res.

Definition trace_syscall_entering (i : nat) : M Z :=
  g ← gets glb;
  scno_good ← (if negb (get_regs_error g =? 0) then mret (-1) else get_scno i);
  if scno_good =? 0 then mret scno_good
  else if scno_good =? 1 then
    res ← syscall_fixup_on_sysenter;
    if res =? 0 then mret res
    else
      res ← (if res =? 1 then get_syscall_args i else mret res);
      if negb (res =? 1) then entering_failed i scno_good res else entering_known i
  else entering_failed i scno_good scno_good.

(** ** System call exit *)

Definition is_negated_errno (pers : nat) (val : Z) : bool :=
  let max := u64 (- nerrnos pers) in
  if wordsize_of pers <? 8 then u32 val >? u32 max else val >? max.

(** The result value and the error number. *)
Definition error_of (pers : nat) (never_fails : bool) (rax : Z) : Z * Z :=
  if negb never_fails && is_negated_errno pers (u64 rax) then (-1, s32 (- rax)) else (rax, 0).

Definition get_error (i : nat) : M unit :=
  g ← gets glb;
  t ← tcb_of i;
  let '(rval, err) :=
    error_of (current_personality g) (has_flag (sys_flags (ent t)) SYSCALL_NEVER_FAILS)
      (result_reg (regs g)) in
  upd_tcb i (set_result rval err).

(** The functions whose data -e read= and -e write= dump. *)
Definition dumpio (i : nat) : M unit :=
  t ← tcb_of i;
  g ← gets glb;
  let a n := default 0 (u_args t !! n) in
  if negb (u_error t =? 0) then mret tt
  else if a 0%nat >=? Z.of_nat (num_quals (quals_of w)) then mret tt
  else if fn_is t "printargs" then mret tt
  else
    let q := qual_flags (current_personality g) (a 0%nat) in
    if has_flag q QUAL_READ then
      if is_fn (ent t) ["sys_read"; "sys_pread"; "sys_recv"; "sys_recvfrom"]
      then run_D i (fun K => dumpstr (a 1%nat) (u_rval t))
      else if is_fn (ent t) ["sys_readv"] then run_D i (fun K => dumpiov (a 2%nat) (a 1%nat))
      else mret tt
    else if has_flag q QUAL_WRITE then
      if is_fn (ent t) ["sys_write"; "sys_pwrite"; "sys_send"; "sys_sendto"]
      then run_D i (fun K => dumpstr (a 1%nat) (a 2%nat))
      else if is_fn (ent t) ["sys_writev"] then run_D i (fun K => dumpiov (a 2%nat) (a 1%nat))
      else mret tt
    else mret tt.

(** The text after "= " for an error. *)
Definition error_text (pers : nat) (u_error : Z) : string :=
  if u_error =? ERESTARTSYS then "= ? ERESTARTSYS (To be restarted if SA_RESTART is set)"
  else if u_error =? ERESTARTNOINTR then "= ? ERESTARTNOINTR (To be restarted)"
  else if u_error =? ERESTARTNOHAND then "= ? ERESTARTNOHAND (To be restarted if no handler)"
  else if u_error =? ERESTART_RESTARTBLOCK then "= ? ERESTART_RESTARTBLOCK (Interrupted by signal)"
  else if u_error <? 0 then "= -1 E??? (errno " +:+ fmt_d u_error +:+ ")"
  else if u_error <? nerrnos pers then
    "= -1 " +:+ default "" (errnoent w pers !! Z.to_nat u_error) +:+ " (" +:+ strerror w u_error +:+ ")"
  else "= -1 ERRNO_" +:+ fmt_d u_error +:+ " (" +:+ strerror w u_error +:+ ")".

(** The text for a value; [None] is an invalid format, reported on stderr. *)
Definition value_text (sys_res u_rval : Z) : option string :=
  let m := Z.land sys_res RVAL_MASK in
  if m =? RVAL_HEX then Some ("= " +:+ fmt_sx (u64 u_rval))
  else if m =? RVAL_OCTAL then Some ("= " +:+ fmt_so (u64 u_rval))
  else if m =? RVAL_UDECIMAL then Some ("= " +:+ fmt_u (u64 u_rval))
  else if m =? RVAL_DECIMAL then Some ("= " +:+ fmt_d u_rval)
  else None.

Definition aux_text (sys_res : Z) (t : tcb) : string :=
  match auxstr t with
  | Some a => if has_flag sys_res RVAL_STR then " (" +:+ a +:+ ")" else ""
  | None => ""
  end.

(** The text of the result, from "= " on. *)
Definition show_result (i : nat) (sys_res : Z) : M unit :=
  t ← tcb_of i;
  g ← gets glb;
  if has_flag (qual_flg t) QUAL_RAW then
    tprints (if negb (u_error t =? 0) then "= -1 (errno " +:+ fmt_d (u_error t) +:+ ")"
             else "= " +:+ fmt_sx (u64 (u_rval t)))
  else
    _ ← (if has_flag sys_res RVAL_NONE then tprints "= ?"
         else if negb (u_error t =? 0) then tprints (error_text (current_personality g) (u_error t))
         else
           match value_text sys_res (u_rval t) with
           | Some txt => tprints txt
           | None => err_msg ("invalid rval format" +:+ nl)
           end);
    when (nonempty_str (aux_text sys_res t)) (tprints (aux_text sys_res t)).

(** " <%ld.%06ld>": the time spent in the call *)
Definition spent_text (tv etime : timeval) : string :=
  let d := tv_sub tv etime in
  " <" +:+ fmt_d (tv_sec d) +:+ "." +:+ usec6 (tv_usec d) +:+ ">".

Definition count_call (i : nat) (tv : timeval) : M unit :=
  t ← tcb_of i;
  g ← gets glb;
  let wall := tv_sub tv (etime t) in
  let pers := current_personality g in
  tick ← (if scno_in_range (nsyscalls (sysent_vec w) pers) (scno t) && (tv_cmp wall (dtime t) >? 0) && (tv_sec (one_tick (g_counts g)) =? -1)
          then r ← ask_kernel oracle RTick; mret (r_tv r) else mret tv_zero);
  modify_glb (set_counts
    (count_syscall (nsyscalls (sysent_vec w) pers) pers (scno t) (u_error t) (etime t) (dtime t)
       tick tv (g_counts g))).

(** "<... name resumed> " when the log does not end with the entry of this call *)
Definition resume_line (i : nat) : M unit :=
  t ← tcb_of i;
  prn ← gets printing_tcp;
  _ ← when (((followfork opt <? 2) && negb (bool_decide (prn = Some i)))
            || has_flag (flags t) TCB_REPRINT)
        (_ ← upd_tcb i (set_flags (fun f => clear_flag f TCB_REPRINT));
         _ ← printleader oracle opt (hms w) i;
         tprints ("<... " +:+ call_name t +:+ " resumed> "));
  set_printing (Some i).

(** From "res != 1" to the end. *)
Definition show_exit (i : nat) (res : Z) (tv : timeval) : M Z :=
  if negb (res =? 1) then
    _ ← tprints ") ";
    _ ← tabto opt;
    _ ← tprints ("= ? <unavailable>" +:+ nl);
    _ ← line_ended;
    _ ← clear_insyscall i;
    mret res
  else
    t ← tcb_of i;
    if negb (has_flag (qual_flg t) QUAL_RAW) && not_failing_only opt && negb (u_error t =? 0)
    then _ ← clear_insyscall i; mret 0
    else
      sys_res ← (if has_flag (qual_flg t) QUAL_RAW then mret 0 else call_decoder i t);
      _ ← tprints ") ";
      _ ← tabto opt;
      _ ← show_result i sys_res;
      t ← tcb_of i;
      _ ← when (Tflag opt) (tprints (spent_text tv (etime t)));
      _ ← tprints nl;
      _ ← dumpio i;
      _ ← line_ended;
      _ ← clear_insyscall i;
      mret 0.

Definition trace_syscall_exiting (i : nat) : M Z :=
  tv ← (if Tflag opt || negb (cflag opt =? CFLAG_NONE)
        then r ← ask_kernel oracle RTime; mret (r_tv r) else mret tv_zero);
  t ← tcb_of i;
  _ ← update_personality i (currpers t);
  g ← gets glb;
  let res := if negb (get_regs_error g =? 0) then -1 else 1 in
  hidden ← (if res =? 1 then
              _ ← get_error i;
              _ ← when (need_fork_exec_workarounds opt) (syscall_fixup_for_fork_exec i);
              t ← tcb_of i;
              g ← gets glb;
              mret (has_flag (flags t) TCB_FILTERED || hide_log_until_execve g)
            else mret false);
  if hidden : bool then _ ← clear_insyscall i; mret 0
  else
    _ ← when (negb (cflag opt =? CFLAG_NONE)) (count_call i tv);
    if cflag opt =? CFLAG_ONLY_STATS then _ ← clear_insyscall i; mret 0
    else _ ← resume_line i; show_exit i res tv.

Definition trace_syscall (i : nat) : M Z :=
  t ← tcb_of i;
  if exiting t then trace_syscall_exiting i else trace_syscall_entering i.
End syscall.
