(* ===== verification/Frame.v ===== *)
(** * What no step changes: the processes, their files and the flags of a mask

    [Frames m c]: when [c] returns, the table has the same processes in the same
    slots, with the same files and the same flags within [m].  The steps of a
    system call stop are shown to frame all flags but those they are about. *)

From S2P Require Import Prelude Timeval Xlat Quote Tracee Decode Io Options Signal Qual Mmap Count.
From S2P Require Import Tcb Regs Log Table Pathtrace Syscall.
Local Open Scope string_scope.
Local Open Scope list_scope.
Local Open Scope Z_scope.

Definition view (m : Z) (t : tcb) :=
  (pid t, outf t, out_dump_f t, out_stack_f t, Z.land (flags t) m).

Record frame (m : Z) (s s' : tracer) : Prop := {
  fr_nprocs : nprocs s' = nprocs s;
  fr_tab j : view m <$> tcbtab s' !! j = view m <$> tcbtab s !! j;
  fr_restarts : restarts (log s') = restarts (log s);
  fr_code : g_exit_code (glb s') = g_exit_code (glb s)
}.

Lemma frame_refl m s : frame m s s.
Proof. done. Qed.
Lemma frame_trans m s1 s2 s3 : frame m s1 s2 -> frame m s2 s3 -> frame m s1 s3.
Proof. intros [A1 A2 A3 A4] [B1 B2 B3 B4]. split; [congruence|intros j; by rewrite B2|congruence..]. Qed.

Lemma frame_tcb m s s' j t' :
  frame m s s' -> tcbtab s' !! j = Some t' ->
  exists t, tcbtab s !! j = Some t /\ view m t = view m t'.
Proof.
  intros [_ H _ _] Ht. specialize (H j). rewrite Ht in H. simpl in H.
  destruct (tcbtab s !! j) as [t|]; simpl in H; [|done]. exists t. split; [done|congruence].
Qed.
Lemma frame_tcb' m s s' j t :
  frame m s s' -> tcbtab s !! j = Some t ->
  exists t', tcbtab s' !! j = Some t' /\ view m t' = view m t.
Proof.
  intros [_ H _ _] Ht. specialize (H j). rewrite Ht in H. simpl in H.
  destruct (tcbtab s' !! j) as [t'|]; simpl in H; [|done]. exists t'. split; [done|congruence].
Qed.

(** Flags inside the mask. *)
Lemma view_flag m b t t' :
  Z.land m b = b -> view m t = view m t' -> has_flag (flags t) b = has_flag (flags t') b.
Proof.
  intros Hm [= _ _ _ _ H]. unfold has_flag. rewrite <- Hm, !Z.land_assoc.
  by rewrite H.
Qed.

(** The same processes in the same slots. *)
Definition key (t : tcb) := (pid t, inuse t).
Record tsame (s s' : tracer) : Prop := {
  ts_nprocs : nprocs s' = nprocs s;
  ts_tab j : key <$> tcbtab s' !! j = key <$> tcbtab s !! j
}.

Lemma tsame_sym s s' : tsame s s' -> tsame s' s.
Proof. intros [H1 H2]. by split. Qed.
Lemma tsame_trans s1 s2 s3 : tsame s1 s2 -> tsame s2 s3 -> tsame s1 s3.
Proof. intros [A1 A2] [B1 B2]. split; [congruence|intros j; by rewrite B2]. Qed.
Lemma tsame_tcb s s' j t' :
  tsame s s' -> tcbtab s' !! j = Some t' ->
  exists t, tcbtab s !! j = Some t /\ pid t = pid t' /\ inuse t = inuse t'.
Proof.
  intros [_ H] Ht. specialize (H j). rewrite Ht in H. simpl in H.
  destruct (tcbtab s !! j) as [t|]; simpl in H; [|done]. injection H as -> ->. eauto.
Qed.

Lemma frame_tsame m s s' : Z.land m TCB_INUSE = TCB_INUSE -> frame m s s' -> tsame s s'.
Proof.
  intros Hm [H1 H2 _ _]. split; [done|]. intros j. specialize (H2 j).
  destruct (tcbtab s' !! j) as [t'|], (tcbtab s !! j) as [t|]; simpl in *; try done.
  injection H2 as Ha Hb Hc Hd He. unfold key. do 2 f_equal; [done|].
  eapply (view_flag m TCB_INUSE); [done|]. unfold view. congruence.
Qed.

Lemma tsame_length s s' : tsame s s' -> length (tcbtab s') = length (tcbtab s).
Proof.
  intros Hs. assert (H : key <$> tcbtab s' = key <$> tcbtab s).
  { apply list_eq. intros j. rewrite !list_lookup_fmap. apply (ts_tab _ _ Hs). }
  apply (f_equal length) in H. by rewrite !length_fmap in H.
Qed.

Lemma tsame_used s s' : tsame s s' -> length (used (tcbtab s')) = length (used (tcbtab s)).
Proof.
  intros Hs. assert (H : key <$> tcbtab s' = key <$> tcbtab s).
  { apply list_eq. intros j. rewrite !list_lookup_fmap. apply (ts_tab _ _ Hs). }
  revert H. unfold used. generalize (tcbtab s). generalize (tcbtab s'). intros l.
  induction l as [|a l IH]; intros [|b l']; simpl; try done. intros [= _ Hab Hl]. rewrite Hab.
  destruct (inuse b); simpl; by rewrite (IH l').
Qed.

Lemma tsame_wf s s' : tsame s s' -> wf_tab s -> wf_tab s'.
Proof.
  intros Hs [H1 H2 H3 H4 H5]. pose proof (fun j t' => tsame_tcb s s' j t' Hs) as Hb. split.
  - by rewrite (tsame_length s s').
  - by rewrite (ts_nprocs _ _ Hs), (tsame_used s s').
  - intros t' [j Ht']%list_elem_of_lookup Hin. destruct (Hb j t' Ht') as (t & Ht & <- & Hi).
    apply H3; [by eapply list_elem_of_lookup_2|congruence].
  - intros t' [j Ht']%list_elem_of_lookup Hin. destruct (Hb j t' Ht') as (t & Ht & <- & Hi).
    apply H4; [by eapply list_elem_of_lookup_2|congruence].
  - intros i j t' u' Ht' Hu' Hti Hui Hp.
    destruct (Hb i t' Ht') as (t & Ht & Hpt & Hit), (Hb j u' Hu') as (u & Hu0 & Hpu & Hiu).
    eapply (H5 i j t u); congruence.
Qed.

Definition Frames (m : Z) {A} (c : M A) : Prop := forall s,
  match c s with Ret _ s' => frame m s s' | _ => True end.

Lemma Frames_ret m {A} (x : A) : Frames m (mret x).
Proof. intros s. apply frame_refl. Qed.
Lemma Frames_bind m {A B} (c : M A) (k : A -> M B) :
  Frames m c -> (forall x, Frames m (k x)) -> Frames m (c ≫= k).
Proof.
  intros Hc Hk s. unfold mbind, M_bind. specialize (Hc s). destruct (c s) as [x s1| |]; [|done..].
  specialize (Hk x s1). destruct (k x s1); [|done..]. by eapply frame_trans.
Qed.
Lemma Frames_gets m {A} (f : tracer -> A) : Frames m (gets f).
Proof. intros s. apply frame_refl. Qed.
Lemma Frames_get m : Frames m get.
Proof. intros s. apply frame_refl. Qed.
Lemma Frames_tcb_of m i : Frames m (tcb_of i).
Proof. intros s. apply frame_refl. Qed.
Lemma Frames_exit m {A} code : Frames m (exit_ code : M A).
Proof. done. Qed.
Lemma Frames_modify_glb m f :
  (forall g, g_exit_code (f g) = g_exit_code g) -> Frames m (modify_glb f).
Proof. intros Hf s. by split; [..|apply Hf]. Qed.
Lemma Frames_set_printing m p : Frames m (set_printing p).
Proof. done. Qed.
Lemma Frames_set_current m p : Frames m (set_current p).
Proof. done. Qed.
Lemma Frames_emit m e : restart_of e = [] -> Frames m (emit e).
Proof.
  intros He s. split; try done. simpl. rewrite restarts_app. unfold restarts at 2. simpl.
  by rewrite He, !app_nil_r.
Qed.
Lemma Frames_err_msg m t : Frames m (err_msg t).
Proof. by apply Frames_emit. Qed.
Lemma Frames_ask m oracle r : restart_of (EReq r) = [] -> Frames m (ask_kernel oracle r).
Proof. intros Hr s. apply (Frames_emit m (EReq r) Hr s). Qed.
Lemma Frames_upd m i f : (forall t, view m (f t) = view m t) -> Frames m (upd_tcb i f).
Proof.
  intros Hf s. split; [done| |done..]. intros j. simpl. rewrite list_lookup_alter.
  case_decide; [subst|done]. destruct (tcbtab s !! j); simpl; [by rewrite Hf|done].
Qed.

(** Flags outside the mask. *)
Lemma view_set_flags m b t : Z.land b m = 0 -> view m (set_flags (fun f => set_flag f b) t) = view m t.
Proof.
  intros H. unfold view, set_flags, set_flag. simpl. by rewrite Z.land_lor_distr_l, H, Z.lor_0_r.
Qed.
Lemma view_clear_flags m b t :
  Z.land b m = 0 -> view m (set_flags (fun f => clear_flag f b) t) = view m t.
Proof.
  intros H. unfold view, set_flags, clear_flag. simpl. f_equal.
  apply Z.bits_inj'. intros n Hn. apply (f_equal (fun z => Z.testbit z n)) in H.
  rewrite Z.land_spec, Z.bits_0 in H.
  rewrite !Z.land_spec, Z.lnot_spec by done.
  destruct (Z.testbit b n), (Z.testbit m n), (Z.testbit (flags t) n); simpl in *; congruence.
Qed.

Create HintDb frames.
#[export] Hint Resolve Frames_ret Frames_gets Frames_get Frames_tcb_of Frames_exit
  Frames_set_printing Frames_set_current Frames_err_msg : frames.
#[export] Hint Extern 1 (Frames _ (modify_glb _)) =>
  (apply Frames_modify_glb; intros ?; solve [reflexivity | repeat case_match; reflexivity]) : frames.
#[export] Hint Extern 1 (Frames _ (emit _)) => (apply Frames_emit; reflexivity) : frames.
#[export] Hint Extern 1 (Frames _ (ask_kernel _ _)) => (apply Frames_ask; reflexivity) : frames.
Ltac frames :=
  repeat first
    [ solve [eauto with frames]
    | apply Frames_bind; [|intros ?]
    | apply Frames_upd; first [by intros [] | intros ?; by apply view_set_flags
                              | intros ?; by apply view_clear_flags ]
    | match goal with
      | |- Frames _ (if ?b then _ else _) => destruct b
      | |- Frames _ (when ?b _) => destruct b; unfold when
      | |- Frames _ (let '(_, _) := ?x in _) => destruct x
      | |- Frames _ (match ?x with _ => _ end) => destruct x
      end ].

(** All flags but the bookkeeping of breakpoints, reprinting and filtering. *)
Definition kept : Z :=
  Z.lor TCB_INUSE (Z.lor TCB_STARTUP (Z.lor TCB_IGNORE_ONE_SIGSTOP (Z.lor TCB_INSYSCALL
    (Z.lor TCB_ATTACHED TCB_STRACE_CHILD)))).

Section frames.
Context (oracle : list event -> request -> reply) (opt : options) (w : world).

Lemma Frames_tprints m x : Frames m (tprints x).
Proof. unfold tprints. frames. Qed.
Lemma Frames_stack m x : Frames m (tprintstackinfo x).
Proof. unfold tprintstackinfo. frames. Qed.
Lemma Frames_dump m x : Frames m (tdump x).
Proof. unfold tdump. frames. Qed.
#[local] Hint Resolve Frames_tprints Frames_stack Frames_dump : frames.

Lemma Frames_line_ended m : Frames m line_ended.
Proof. unfold line_ended. frames. Qed.
Lemma Frames_tabto m : Frames m (tabto opt).
Proof. unfold tabto. frames. Qed.
Lemma Frames_print_time m hms : Frames m (print_time oracle opt hms).
Proof. unfold print_time. frames. Qed.
Lemma Frames_printcall m : Frames m printcall.
Proof. unfold printcall. frames. Qed.
Lemma Frames_finish_pending m i : Frames m (finish_pending opt i).
Proof. unfold finish_pending. frames. Qed.
#[local] Hint Resolve Frames_line_ended Frames_tabto Frames_print_time Frames_printcall
  Frames_finish_pending : frames.
Lemma Frames_printleader m hms i : Frames m (printleader oracle opt hms i).
Proof. unfold printleader. frames. Qed.
#[local] Hint Resolve Frames_printleader : frames.

Lemma Frames_put_effects m i st : Frames m (put_effects i st).
Proof.
  unfold put_effects. frames. apply Frames_upd. intros []. unfold decoder_sets.
  by destruct (d_cache_dropped st), (d_new_rval st).
Qed.
#[local] Hint Resolve Frames_put_effects : frames.
Lemma Frames_run_D m {A} i (c : Kernel -> D A) : Frames m (run_D opt w i c).
Proof. unfold run_D. frames. Qed.
#[local] Hint Resolve Frames_run_D : frames.
Lemma Frames_call_decoder m i t : Frames m (call_decoder opt w i t).
Proof. unfold call_decoder, sys_exit. frames. Qed.
Lemma Frames_of_outcome m {A} (o : outcome A) : Frames m (of_outcome o).
Proof. unfold of_outcome. frames. Qed.
#[local] Hint Resolve Frames_of_outcome : frames.
Lemma Frames_libunwind_loop m c n ips : Frames m (libunwind_loop w c n ips).
Proof. revert n. induction ips as [|[] ips IH]; intros n; simpl; frames. Qed.
#[local] Hint Resolve Frames_libunwind_loop : frames.
Lemma Frames_output_stacktrace m b i : Frames m (output_stacktrace oracle opt w b i).
Proof. unfold output_stacktrace, print_ebp_backtrace, print_libunwind_backtrace. frames. Qed.
#[local] Hint Resolve Frames_output_stacktrace : frames.

Lemma Frames_update_personality m i p : Frames m (update_personality opt i p).
Proof. unfold update_personality, set_personality. frames. Qed.
#[local] Hint Resolve Frames_update_personality : frames.
Lemma Frames_get_scno m i : Frames m (get_scno opt w i).
Proof.
  unfold get_scno. frames. apply Frames_upd. intros []. by case_match.
Qed.
Lemma Frames_get_syscall_args m i : Frames m (get_syscall_args i).
Proof. unfold get_syscall_args. frames. Qed.
Lemma Frames_decode_subcall m i : Frames m (decode_subcall opt w i).
Proof. unfold decode_subcall, decode_socket_subcall, decode_ipc_subcall, set_subcall. frames. Qed.
#[local] Hint Resolve Frames_get_scno Frames_get_syscall_args Frames_decode_subcall : frames.

Lemma Frames_poke m i off v : Frames m (poke_user oracle i off v).
Proof. unfold poke_user. frames. Qed.
#[local] Hint Resolve Frames_poke : frames.
Lemma Frames_setbpt i : Frames kept (setbpt oracle opt w i).
Proof.
  unfold setbpt, init_clone_scno, get_arg, and_then, change_syscall, set_arg0, set_arg1. frames;
    (apply Frames_upd; intros [] || intros ?; unfold view, set_flags, set_flag; simpl;
     by rewrite Z.land_lor_distr_l, Z.lor_0_r).
Qed.
Lemma Frames_clearbpt i : Frames kept (clearbpt oracle i).
Proof. unfold clearbpt, change_syscall, set_arg0, set_arg1. frames. Qed.
#[local] Hint Resolve Frames_setbpt Frames_clearbpt : frames.
Lemma Frames_fork_exec i : Frames kept (syscall_fixup_for_fork_exec oracle opt w i).
Proof. unfold syscall_fixup_for_fork_exec, internal_fork. frames. Qed.
End frames.
#[export] Hint Resolve Frames_tprints Frames_stack Frames_dump Frames_line_ended Frames_tabto
  Frames_print_time Frames_printcall Frames_finish_pending Frames_printleader Frames_put_effects
  Frames_run_D Frames_call_decoder Frames_of_outcome Frames_output_stacktrace Frames_update_personality
  Frames_get_scno Frames_get_syscall_args Frames_decode_subcall Frames_poke Frames_setbpt
  Frames_clearbpt Frames_fork_exec : frames.
