(* ===== verification/Line.v ===== *)
(** * What system call stops leave alone: the line discipline of a shared log
      and the fields of the control blocks

    A small program logic for the tracer monad.  [post] describes the possible
    outcomes of a step; [tri] is a Hoare triple with exits; [Silent] steps write
    nothing to a log; [Frames] steps keep pids, files and the flags of a mask. *)

From S2P Require Import Prelude Timeval Xlat Quote Tracee Decode Io Options Signal Qual Mmap Count.
From S2P Require Import Tcb Regs Log Table Pathtrace Syscall.
Local Open Scope string_scope.
Local Open Scope list_scope.
Local Open Scope Z_scope.

(** ** Outcomes *)

(** [c] returns with [Q], or exits with a code in [E]; it never dies. *)
Definition post (E : Z -> Prop) {A} (Q : A -> tracer -> Prop) (r : res A) : Prop :=
  match r with Ret x s => Q x s | Exit code _ => E code | Die _ => False end.

Section triples.
Context (E : Z -> Prop).

Definition tri (P : tracer -> Prop) {A} (c : M A) (Q : A -> tracer -> Prop) : Prop :=
  forall s, P s -> post E Q (c s).

Lemma post_mono {A} (Q Q' : A -> tracer -> Prop) r :
  (forall x s, Q x s -> Q' x s) -> post E Q r -> post E Q' r.
Proof. destruct r; simpl; eauto. Qed.

Lemma post_bind {A B} (c : M A) (k : A -> M B) (R : A -> tracer -> Prop) Q s :
  post E R (c s) -> (forall x s', R x s' -> post E Q (k x s')) -> post E Q ((c ≫= k) s).
Proof. unfold mbind, M_bind. destruct (c s); simpl; eauto. Qed.

Lemma tri_bind {A B} P R Q (c : M A) (k : A -> M B) :
  tri P c R -> (forall x, tri (R x) (k x) Q) -> tri P (c ≫= k) Q.
Proof. intros Hc Hk s Hs. eapply post_bind; [by apply Hc|]. intros x s' H. by apply Hk. Qed.

Lemma tri_ret {A} (P : tracer -> Prop) (x : A) (Q : A -> tracer -> Prop) :
  (forall s, P s -> Q x s) -> tri P (mret x) Q.
Proof. intros H s Hs. apply H, Hs. Qed.

Lemma tri_exit {A} P code Q : E code -> tri P (exit_ code : M A) Q.
Proof. intros H s _. exact H. Qed.

Lemma tri_pre {A} (P P' : tracer -> Prop) (c : M A) Q :
  (forall s, P s -> P' s) -> tri P' c Q -> tri P c Q.
Proof. intros H Hc s Hs. apply Hc, H, Hs. Qed.

Lemma tri_post {A} P (c : M A) (Q Q' : A -> tracer -> Prop) :
  (forall x s, Q x s -> Q' x s) -> tri P c Q -> tri P c Q'.
Proof. intros H Hc s Hs. eapply post_mono; [exact H|by apply Hc]. Qed.

(** Reading the state. *)
Lemma tri_gets {A B} P Q (f : tracer -> A) (k : A -> M B) :
  (forall x, tri (fun s => P s /\ f s = x) (k x) Q) -> tri P (gets f ≫= k) Q.
Proof. intros H s Hs. exact (H (f s) s (conj Hs eq_refl)). Qed.

(** ** Steps that write nothing *)

Definition profile (t : tcb) := (outf t, out_dump_f t, out_stack_f t, curcol t).

Record silent (s s' : tracer) : Prop := {
  sil_text f : text_of f (log s') = text_of f (log s);
  sil_print : printing_tcp s' = printing_tcp s;
  sil_cur : current_tcp s' = current_tcp s;
  sil_tab j : profile <$> tcbtab s' !! j = profile <$> tcbtab s !! j
}.

Lemma silent_refl s : silent s s.
Proof. done. Qed.
Lemma silent_trans s1 s2 s3 : silent s1 s2 -> silent s2 s3 -> silent s1 s3.
Proof.
  intros [A1 A2 A3 A4] [B1 B2 B3 B4]. split; [intros f; by rewrite B1|congruence..|intros j; by rewrite B4].
Qed.

Definition Silent {A} (c : M A) : Prop := forall s, post E (fun _ s' => silent s s') (c s).

Lemma Silent_ret {A} (x : A) : Silent (mret x).
Proof. intros s. apply silent_refl. Qed.
Lemma Silent_bind {A B} (c : M A) (k : A -> M B) :
  Silent c -> (forall x, Silent (k x)) -> Silent (c ≫= k).
Proof.
  intros Hc Hk s. eapply post_bind; [apply Hc|]. intros x s' H.
  eapply post_mono; [|apply Hk]. intros y s'' H'. exact (silent_trans _ _ _ H H').
Qed.
Lemma Silent_gets {A} (f : tracer -> A) : Silent (gets f).
Proof. intros s. apply silent_refl. Qed.
Lemma Silent_get : Silent get.
Proof. intros s. apply silent_refl. Qed.
Lemma Silent_tcb_of i : Silent (tcb_of i).
Proof. intros s. apply silent_refl. Qed.
Lemma Silent_exit {A} code : E code -> Silent (exit_ code : M A).
Proof. intros H s. exact H. Qed.
Lemma Silent_upd i f : (forall t, profile (f t) = profile t) -> Silent (upd_tcb i f).
Proof.
  intros Hf s. split; try done. intros j. simpl. rewrite list_lookup_alter.
  case_decide; [subst|done]. destruct (tcbtab s !! j); simpl; [by rewrite Hf|done].
Qed.
Lemma Silent_modify_glb f : Silent (modify_glb f).
Proof. intros s. done. Qed.
Lemma Silent_emit e :
  (match e with EWrite _ _ => False | _ => True end) -> Silent (emit e).
Proof.
  intros He s. split; try done. intros f. simpl. rewrite text_of_app.
  destruct e; try done; simpl; by rewrite sapp_nil_r.
Qed.
Lemma Silent_err_msg t : Silent (err_msg t).
Proof. by apply Silent_emit. Qed.
Lemma Silent_ask oracle r : Silent (ask_kernel oracle r).
Proof. intros s. apply (Silent_emit (EReq r) I s). Qed.
End triples.

Create HintDb silent.
#[export] Hint Resolve Silent_ret Silent_gets Silent_get Silent_tcb_of Silent_exit
  Silent_modify_glb Silent_err_msg Silent_ask : silent.
Ltac silent :=
  repeat first
    [ solve [eauto with silent]
    | apply Silent_bind; [|intros ?]
    | apply Silent_upd; by intros []
    | match goal with
      | |- Silent _ (if ?b then _ else _) => destruct b
      | |- Silent _ (when ?b _) => destruct b; unfold when
      | |- Silent _ (let '(_, _) := ?x in _) => destruct x
      | |- Silent _ (match ?x with _ => _ end) => destruct x
      end ].

(** ** Decoders that print nothing, or whole lines, and never abort *)

Definition Total {A} (R : string -> string -> Prop) (c : D A) : Prop := forall e st,
  match c e st with
  | Some (_, st') => R (p_out (d_p st)) (p_out (d_p st')) /\ d_dump st' = d_dump st
  | None => False
  end.
(** Prints nothing; prints whole lines. *)
Definition Quiet {A} (c : D A) : Prop := Total (fun a b => b = a) c.
Definition Lines {A} (c : D A) : Prop :=
  Total (fun a b => at_bol a = true -> at_bol b = true) c.

Lemma Total_bind {A B} (R : string -> string -> Prop) (c : D A) (k : A -> D B) :
  (forall x y z, R x y -> R y z -> R x z) ->
  Total R c -> (forall x, Total R (k x)) -> Total R (c ≫= k).
Proof.
  intros HR Hc Hk e st. unfold mbind, D_bind. specialize (Hc e st).
  destruct (c e st) as [[x st1]|]; [|done]. destruct Hc as [Hc1 Hc2].
  specialize (Hk x e st1). destruct (k x e st1) as [[y st2]|]; [|done].
  destruct Hk as [Hk1 Hk2]. split; [by eapply HR|congruence].
Qed.

Lemma Quiet_bind {A B} (c : D A) (k : A -> D B) :
  Quiet c -> (forall x, Quiet (k x)) -> Quiet (c ≫= k).
Proof. apply Total_bind. congruence. Qed.
Lemma Lines_bind {A B} (c : D A) (k : A -> D B) :
  Lines c -> (forall x, Lines (k x)) -> Lines (c ≫= k).
Proof. apply Total_bind. auto. Qed.

Lemma Quiet_Lines {A} (c : D A) : Quiet c -> Lines c.
Proof.
  intros H e st. specialize (H e st). destruct (c e st) as [[x st']|]; [|done].
  destruct H as [-> ?]. done.
Qed.

Lemma Quiet_ret {A} (x : A) : Quiet (mret x).
Proof. intros e st. done. Qed.
Lemma Quiet_ask : Quiet ask.
Proof. intros e st. done. Qed.
Lemma Quiet_arg i : Quiet (arg i).
Proof. intros e st. done. Qed.
Lemma Quiet_lift {A} (c : P A) : quiet c -> Quiet (lift c).
Proof.
  intros Hc e st. unfold lift. specialize (Hc (d_p st)). destruct (c (d_p st)) as [x p].
  simpl in *. done.
Qed.

Create HintDb quiet.
#[export] Hint Resolve Quiet_ret Quiet_ask Quiet_arg : quiet.

Section quiet.
Context `{K : Kernel}.

Lemma Quiet_d_umoven a n : Quiet (d_umoven a n).
Proof. apply Quiet_bind; [apply Quiet_ask|]. intros e. apply Quiet_lift, quiet_umoven. Qed.
Lemma Quiet_d_umovestr a n : Quiet (d_umovestr a n).
Proof. apply Quiet_bind; [apply Quiet_ask|]. intros e. apply Quiet_lift, quiet_umovestr. Qed.
Lemma Quiet_error_msg t : Quiet (lift (error_msg t)).
Proof. apply Quiet_lift, quiet_error_msg. Qed.
Lemma Quiet_upeek pid off : Quiet (lift (upeek pid off)).
Proof.
  apply Quiet_lift. unfold upeek. destruct (peekuser off); [apply quiet_ret|].
  destruct (_ =? _); [apply quiet_ret|]. apply quiet_bind; [apply quiet_error_msg|].
  intros _. apply quiet_ret.
Qed.
End quiet.
#[export] Hint Resolve @Quiet_d_umoven @Quiet_d_umovestr Quiet_error_msg @Quiet_upeek : quiet.

Ltac quiet :=
  repeat first
    [ solve [eauto with quiet]
    | apply Quiet_bind; [|intros ?]
    | match goal with
      | |- Quiet (if ?b then _ else _) => destruct b
      | |- Quiet (let '(_, _) := ?x in _) => destruct x
      | |- Quiet (match ?x with _ => _ end) => destruct x
      end ].

Section quiet_decoders.
Context `{K : Kernel} (paths : list string).

Lemma Quiet_umove a n : Quiet (umove a n).
Proof. unfold umove. quiet. Qed.
Lemma Quiet_read_args n a : Quiet (read_args n a).
Proof.
  revert a. induction n as [|n IH]; intros a; simpl; quiet; first [apply Quiet_umove|apply IH].
Qed.

Lemma Quiet_orM a b : Quiet a -> Quiet b -> Quiet (orM a b).
Proof. unfold orM. intros. quiet. Qed.
Lemma Quiet_fdmatch fd : Quiet (fdmatch paths fd).
Proof. unfold fdmatch. quiet. Qed.
Lemma Quiet_upathmatch a : Quiet (upathmatch paths a).
Proof. unfold upathmatch. quiet. Qed.
Lemma Quiet_select_fds js fds : Quiet (select_fds paths js fds).
Proof.
  induction js as [|j js IH]; simpl; [quiet|]. destruct (fd_isset j fds); [|done].
  apply Quiet_orM; [apply Quiet_fdmatch|done].
Qed.
Lemma Quiet_select_sets addrs nfds sz : Quiet (select_sets paths addrs nfds sz).
Proof.
  induction addrs as [|a addrs IH]; simpl; quiet; first [apply Quiet_select_fds|exact IH].
Qed.
Lemma Quiet_poll_loop fuel cur fin : Quiet (poll_loop paths fuel cur fin).
Proof.
  revert cur. induction fuel as [|fuel IH]; intros cur; simpl; quiet;
    first [apply Quiet_fdmatch|apply IH].
Qed.
Lemma Quiet_pathtrace_match s : Quiet (pathtrace_match paths s).
Proof.
  unfold pathtrace_match, match_select, match_poll.
  repeat first
    [ apply Quiet_fdmatch | apply Quiet_upathmatch | apply Quiet_select_sets
    | apply Quiet_poll_loop | apply Quiet_orM
    | match goal with |- Quiet (if ?b then _ else _) => destruct b end
    | progress quiet ].
Qed.
End quiet_decoders.
#[export] Hint Resolve @Quiet_read_args @Quiet_pathtrace_match : quiet.

(** ** Whole lines *)

(** Ends with a newline. *)
Definition ends_line (s : string) : Prop := at_bol s = true /\ s <> "".

Lemma ends_line_app a b : ends_line b -> ends_line (a +:+ b).
Proof.
  intros [Hb Hne]. induction a as [|c a [IH1 IH2]]; [done|]. rewrite app_String. split; [|done].
  cbn [at_bol]. destruct (a +:+ b) eqn:E; [done|exact IH1].
Qed.
Lemma at_bol_app a b : at_bol a = true -> at_bol b = true -> at_bol (a +:+ b) = true.
Proof.
  intros Ha Hb. destruct b as [|c b]; [by rewrite sapp_nil_r|]. by apply ends_line_app.
Qed.
Lemma ends_line_nl s : at_bol s = true -> ends_line (String "010" s).
Proof. by destruct s. Qed.

Lemma at_bol_dump_lines fuel i len src : at_bol (dump_lines fuel i len src) = true.
Proof.
  revert i src. induction fuel as [|fuel IH]; intros i src; simpl; [done|].
  destruct (i <? len); [|done]. cut (ends_line (String "010" (dump_lines fuel (i + 16) len (drop 16 src)))).
  - intros H. by repeat apply ends_line_app.
  - apply ends_line_nl, IH.
Qed.

Section line_decoders.
Context `{K : Kernel}.

Lemma Lines_tp t : at_bol t = true -> Lines (tp t).
Proof. intros Ht e st. split; [|done]. intros Hb. by apply at_bol_app. Qed.

Lemma Lines_dumpstr a n : Lines (dumpstr a n).
Proof.
  apply Lines_bind; [apply Quiet_Lines; quiet|]. intros [r bs].
  destruct (r <? 0); [apply Quiet_Lines; quiet|apply Lines_tp, at_bol_dump_lines].
Qed.

Lemma Lines_dumpiov n a : Lines (dumpiov n a).
Proof.
  assert (Hloop : forall k i bs, Lines (dumpiov_loop k i bs)).
  { induction k as [|k IH]; intros i bs; simpl; [apply Quiet_Lines; quiet|].
    apply Lines_bind; [apply Quiet_Lines; quiet|]. intros e.
    apply Lines_bind; [|intros _; apply Lines_bind; [apply Lines_dumpstr|intros _; apply IH]].
    apply Lines_tp. repeat apply ends_line_app. by apply ends_line_nl. }
  apply Lines_bind; [apply Quiet_Lines; quiet|]. intros e.
  destruct (u32 _ >? _); [apply Quiet_Lines; quiet|].
  apply Lines_bind; [apply Quiet_Lines; quiet|]. intros [r bs].
  destruct (r >=? 0); [apply Hloop|apply Quiet_Lines; quiet].
Qed.
End line_decoders.

(** ** The log while a stop of tcb [i] is handled *)

(** All files of the tcb are the shared ones, as newoutf leaves them. *)
Definition opened (s : tracer) (i : nat) : Prop :=
  exists t, tcbtab s !! i = Some t /\ outf t = Some Shared /\ out_dump_f t = Some Shared /\
            out_stack_f t = Some Shared.

Lemma opened_open s i : opened s i -> open_tcb s i.
Proof. intros (t & Ht & Hf & _). by exists t. Qed.

Section lines.
Context (E : Z -> Prop) (oracle : list event -> request -> reply) (opt : options) (w : world).

(** Between two lines, or in somebody's line. *)
Record ready (i : nat) (s : tracer) : Prop := {
  rd_inv : log_inv opt s;
  rd_open : opened s i;
  rd_cur : current_tcp s = Some i
}.
(** In the line of [i]. *)
Definition printing (i : nat) (s : tracer) : Prop := ready i s /\ printing_tcp s = Some i.
(** In the line of [i], which is complete. *)
Definition ended (i : nat) (s : tracer) : Prop :=
  printing i s /\ at_bol (text_of Shared (log s)) = true.

Lemma silent_tcb s s' j t' :
  silent s s' -> tcbtab s' !! j = Some t' ->
  exists t, tcbtab s !! j = Some t /\ profile t = profile t'.
Proof.
  intros [_ _ _ H] Ht. specialize (H j). rewrite Ht in H. simpl in H.
  destruct (tcbtab s !! j) as [t|]; simpl in H; [|done]. exists t. split; [done|congruence].
Qed.

Lemma silent_sym s s' : silent s s' -> silent s' s.
Proof. intros [A B C D]. split; [intros f; by rewrite A|congruence..|intros j; by rewrite D]. Qed.

Lemma silent_inv s s' : silent s s' -> log_inv opt s -> log_inv opt s'.
Proof.
  intros Hs [H1 H2 H3 H4 H5]. pose proof (silent_tcb s s') as Hb.
  pose proof (silent_tcb s' s) as Hf. split; [done|..].
  - intros j t' Ht. destruct (Hb j t' Hs Ht) as (t & Ht0 & [= <- _ _ _]). by eapply H2.
  - intros j t' Ht. destruct (Hb j t' Hs Ht) as (t & Ht0 & [= _ _ _ <-]). by eapply H3.
  - intros j t' Ht. destruct (Hb j t' Hs Ht) as (t & Ht0 & [= <- _ _ <-]).
    rewrite (sil_print _ _ Hs). by eapply H4.
  - rewrite (sil_text _ _ Hs). intros Hbol. destruct (H5 Hbol) as (j & t & Ht & Hc).
    destruct (Hf j t (silent_sym _ _ Hs) Ht) as (t' & Ht' & [= _ _ _ Hcol]).
    exists j, t'. split; [done|congruence].
Qed.

Lemma silent_opened s s' i : silent s s' -> opened s i -> opened s' i.
Proof.
  intros Hs (t & Ht & H1 & H2 & H3).
  destruct (silent_tcb s' s i t (silent_sym _ _ Hs) Ht) as (t' & Ht' & [= ? ? ? ?]).
  exists t'. split_and!; congruence.
Qed.

(** Assertions that only depend on what silent steps keep. *)
Definition stable (P : tracer -> Prop) : Prop := forall s s', silent s s' -> P s -> P s'.

Lemma stable_ready i : stable (ready i).
Proof.
  intros s s' Hs [H1 H2 H3]. split; [by eapply silent_inv|by eapply silent_opened|].
  by rewrite (sil_cur _ _ Hs).
Qed.
Lemma stable_printing i : stable (printing i).
Proof.
  intros s s' Hs [H1 H2]. split; [by eapply stable_ready|]. by rewrite (sil_print _ _ Hs).
Qed.
Lemma stable_ended i : stable (ended i).
Proof.
  intros s s' Hs [H1 H2]. split; [by eapply stable_printing|]. by rewrite (sil_text _ _ Hs).
Qed.

Lemma tri_silent {A} P (c : M A) : stable P -> Silent E c -> tri E P c (fun _ => P).
Proof. intros HP Hc s Hs. eapply post_mono; [|apply Hc]. intros x s' H. exact (HP s s' H Hs). Qed.

(** Writing to the log. *)
Lemma tprints_run i x s :
  printing i s -> exists s', tprints x s = Ret tt s' /\ printing i s' /\
    text_of Shared (log s') = text_of Shared (log s) +:+ x.
Proof.
  intros [[Hinv Hop Hcur] Hprn]. pose proof Hop as (t & Ht & Hf & Hd & Hk).
  eexists. unfold tprints, mbind, M_bind, gets, tcb_of. rewrite Hcur. unfold gets.
  rewrite Ht. simpl. rewrite Hf. unfold emit, upd_tcb. simpl. split; [reflexivity|]. split.
  - edestruct (Says_log_inv opt i (tprints x) s) as (H1 & H2 & H3 & H4);
      [apply Says_tprints|done|by apply opened_open|done|done| |].
    { unfold tprints, mbind, M_bind, gets, tcb_of. rewrite Hcur. unfold gets.
      rewrite Ht. simpl. rewrite Hf. reflexivity. }
    split; [split; [exact H1| |exact H2]|exact H3].
    exists (set_curcol (fun c => c + slen x) t). simpl.
    by rewrite list_lookup_alter, decide_True, Ht by done.
  - simpl. rewrite text_of_app. simpl. by rewrite sapp_nil_r.
Qed.

Lemma tri_tprints i x : tri E (printing i) (tprints x) (fun _ => printing i).
Proof. intros s Hs. destruct (tprints_run i x s Hs) as (s' & -> & Hs' & _). exact Hs'. Qed.

Lemma tri_tprints_nl i x :
  ends_line x -> tri E (printing i) (tprints x) (fun _ => ended i).
Proof.
  intros Hx s Hs. destruct (tprints_run i x s Hs) as (s' & -> & Hs' & Ht).
  split; [exact Hs'|]. rewrite Ht. by apply ends_line_app.
Qed.

Lemma tri_tprints_lines i x :
  at_bol x = true -> tri E (ended i) (tprints x) (fun _ => ended i).
Proof.
  intros Hx s [Hs Hb]. destruct (tprints_run i x s Hs) as (s' & -> & Hs' & Ht).
  split; [exact Hs'|]. rewrite Ht. by apply at_bol_app.
Qed.

(** Writing elsewhere. *)
Lemma tprintstackinfo_run i x s :
  ready i s -> exists s', tprintstackinfo x s = Ret tt s' /\ silent s s'.
Proof.
  intros [_ (t & Ht & _ & _ & Hk) Hcur]. eexists. unfold tprintstackinfo, mbind, M_bind, gets, tcb_of.
  rewrite Hcur. unfold gets. rewrite Ht. simpl. rewrite Hk. split; [reflexivity|].
  apply (Silent_emit E (EStack Shared x) I).
Qed.
Lemma tdump_run i bs s : ready i s -> exists s', tdump bs s = Ret tt s' /\ silent s s'.
Proof.
  intros [_ (t & Ht & _ & Hd & _) Hcur]. eexists. unfold tdump, mbind, M_bind, gets, tcb_of.
  rewrite Hcur. unfold gets. rewrite Ht. simpl. rewrite Hd. split; [reflexivity|].
  apply (Silent_emit E (EDump Shared bs) I).
Qed.
Lemma tri_stack i P x :
  stable P -> (forall s, P s -> ready i s) -> tri E P (tprintstackinfo x) (fun _ => P).
Proof.
  intros HP Hr s Hs. destruct (tprintstackinfo_run i x s (Hr s Hs)) as (s' & -> & H).
  exact (HP s s' H Hs).
Qed.
Lemma tri_dump i P bs :
  stable P -> (forall s, P s -> ready i s) -> tri E P (tdump bs) (fun _ => P).
Proof.
  intros HP Hr s Hs. destruct (tdump_run i bs s (Hr s Hs)) as (s' & -> & H).
  exact (HP s s' H Hs).
Qed.

Lemma printing_ready i s : printing i s -> ready i s.
Proof. by intros []. Qed.
Lemma ended_ready i s : ended i s -> ready i s.
Proof. by intros [[]]. Qed.
Lemma ended_printing i s : ended i s -> printing i s.
Proof. by intros []. Qed.
End lines.
Create HintDb lines.
#[export] Hint Resolve stable_ready stable_printing stable_ended printing_ready ended_ready : lines.
