(* ===== verification/Stops.v ===== *)
(** * System call stops keep the log in order

    trace_syscall is taken apart with the triples of Line.v: the line discipline
    of a shared log holds across every system call stop, whatever the kernel
    answers, and stops alternate between entry and exit. *)

From S2P Require Import Prelude Clib Timeval Xlat Quote Tracee Decode Io Options Signal Qual Mmap Count Report.
From S2P Require Import Tcb Regs Log Table Pathtrace Syscall Frame Line.
Local Open Scope string_scope.
Local Open Scope list_scope.
Local Open Scope Z_scope.

Section stops.
Context (E : Z -> Prop) (oracle : list event -> request -> reply) (opt : options) (w : world).
(** What may end the tracer in the middle of a stop: a decoder that aborts, and
    failures while a stack is walked. *)
Context (Hdec : forall t K e st, call_sys_func w t K e st = None -> E SIGABRT_exit).
Context (Hstk : output_stacktraces opt = true ->
                E EXITIF_exit /\ E SIGSEGV_exit /\ E out_of_fuel).

#[local] Abbreviation ready := (ready opt).
#[local] Abbreviation printing := (printing opt).
#[local] Abbreviation ended := (ended opt).

(** ** Decoders *)

Lemma denv_state s i t :
  tcb_of i s = Ret t s -> t = default zero_tcb (tcbtab s !! i).
Proof. by intros [= <-]. Qed.

(** The part of put_effects before the text. *)
Lemma put_effects_silent_part i st :
  Silent E (_ ← modify_glb (set_dflags (readv_not_supported (d_p st)) (d_strbuf st));
            _ ← upd_tcb i (decoder_sets st);
            when (negb (bool_decide (p_err (d_p st) = [])))
              (err_msg (String.concat nl (p_err (d_p st))))).
Proof. silent. apply Silent_upd. intros []. unfold decoder_sets. by destruct (d_cache_dropped st), (d_new_rval st). Qed.

Lemma put_effects_eq i st :
  forall s, put_effects i st s =
  (_ ← (_ ← modify_glb (set_dflags (readv_not_supported (d_p st)) (d_strbuf st));
        _ ← upd_tcb i (decoder_sets st);
        when (negb (bool_decide (p_err (d_p st) = [])))
          (err_msg (String.concat nl (p_err (d_p st)))));
   _ ← when (nonempty_str (p_out (d_p st))) (tprints (p_out (d_p st)));
   when (negb (bool_decide (d_dump st = []))) (tdump (d_dump st))) s.
Proof. intros s. unfold put_effects, mbind, M_bind. simpl. done. Qed.

Lemma tri_put_effects i P st :
  stable P -> (forall s, P s -> Line.ready opt i s) ->
  tri E P (tprints (p_out (d_p st))) (fun _ => P) ->
  tri E P (put_effects i st) (fun _ => P).
Proof.
  intros HP Hr Ht s Hs. rewrite put_effects_eq. revert s Hs.
  apply (tri_bind E P (fun _ => P)); [apply tri_silent, put_effects_silent_part; done|intros _].
  apply (tri_bind E P (fun _ => P)).
  - destruct (nonempty_str _); [exact Ht|by apply tri_ret].
  - intros _. destruct (bool_decide _); simpl; [by apply tri_ret|eapply tri_dump; eauto].
Qed.

Lemma put_effects_quiet i st :
  p_out (d_p st) = "" -> d_dump st = [] -> Silent E (put_effects i st).
Proof.
  intros Ho Hd s. rewrite put_effects_eq, Ho, Hd. revert s.
  apply Silent_bind; [apply put_effects_silent_part|intros _]. simpl.
  apply Silent_bind; [apply Silent_ret|intros _]. apply Silent_ret.
Qed.

Lemma run_D_silent {A} i (c : Kernel -> D A) : (forall K, Quiet (c K)) -> Silent E (run_D opt w i c).
Proof.
  intros Hc s. unfold run_D. eapply post_bind; [apply Silent_get|]. intros s1 s2 H1.
  eapply post_bind; [apply Silent_tcb_of|]. intros t s3 H3.
  assert (H : silent s s3) by exact (silent_trans _ _ _ H1 H3).
  specialize (Hc (kern w (log s1) (pid t)) (denv_of opt w s1 t) (dstate_of s1 t)).
  destruct (c _ _ _) as [[x st]|]; [|done]. destruct Hc as [Ho Hd].
  eapply post_bind; [by apply put_effects_quiet|]. intros u s4 H4.
  exact (silent_trans _ _ _ H H4).
Qed.

Lemma run_D_tri {A} i P (c : Kernel -> D A) :
  stable P -> (forall s, P s -> Line.ready opt i s) ->
  (forall K e st, c K e st = None -> E SIGABRT_exit) ->
  (forall K e st x st', p_out (d_p st) = "" -> c K e st = Some (x, st') ->
     tri E P (tprints (p_out (d_p st'))) (fun _ => P)) ->
  tri E P (run_D opt w i c) (fun _ => P).
Proof.
  intros HP Hr Hno Hout. unfold run_D.
  apply (tri_bind E P (fun _ => P)); [apply tri_silent, Silent_get; done|intros s].
  apply (tri_bind E P (fun _ => P)); [apply tri_silent, Silent_tcb_of; done|intros t].
  destruct (c _ _ _) as [[x st]|] eqn:Hrun.
  - apply (tri_bind E P (fun _ => P)); [|intros _; by apply tri_ret].
    apply tri_put_effects; [done..|]. refine (Hout _ _ _ _ _ _ Hrun). reflexivity.
  - apply tri_exit. eapply Hno. exact Hrun.
Qed.

Lemma run_D_printing {A} i (c : Kernel -> D A) :
  (forall K e st, c K e st = None -> E SIGABRT_exit) ->
  tri E (printing i) (run_D opt w i c) (fun _ => printing i).
Proof.
  intros Hno. apply run_D_tri; eauto with lines. intros. apply tri_tprints.
Qed.

Lemma run_D_ended {A} i (c : Kernel -> D A) :
  (forall K, Lines (c K)) -> tri E (ended i) (run_D opt w i c) (fun _ => ended i).
Proof.
  intros Hc. apply run_D_tri; eauto with lines.
  - intros K e st Hn. specialize (Hc K e st). by rewrite Hn in Hc.
  - intros K e st x st' Ho Hr. specialize (Hc K e st). rewrite Hr in Hc. destruct Hc as [Hc _].
    apply tri_tprints_lines, Hc. by rewrite Ho.
Qed.

Lemma run_D_total_printing {A} i (c : Kernel -> D A) :
  (forall K e st, c K e st <> None) ->
  tri E (printing i) (run_D opt w i c) (fun _ => printing i).
Proof. intros Hc. apply run_D_printing. intros K e st Hn. by apply Hc in Hn. Qed.

(** ** Silent parts *)

#[local] Hint Extern 1 (Silent _ (run_D _ _ _ _)) =>
  (apply run_D_silent; intros ?; solve [quiet]) : silent.

Lemma Silent_update_personality i p : Silent E (update_personality opt i p).
Proof. unfold update_personality, set_personality. silent. Qed.
#[local] Hint Resolve Silent_update_personality : silent.

Lemma Silent_get_scno i : Silent E (get_scno opt w i).
Proof.
  unfold get_scno. apply Silent_bind; [apply Silent_gets|intros g].
  destruct (scno_pers (regs g)) as [n p].
  apply Silent_bind; [apply Silent_update_personality|intros _].
  apply Silent_bind; [|intros _; apply Silent_ret]. apply Silent_upd. intros [].
  by destruct (scno_valid w p n).
Qed.

Lemma Silent_get_syscall_args i : Silent E (get_syscall_args i).
Proof. unfold get_syscall_args. silent. Qed.

Lemma Silent_decode_subcall i : Silent E (decode_subcall opt w i).
Proof.
  unfold decode_subcall, decode_socket_subcall, decode_ipc_subcall, set_subcall.
  silent.
Qed.

Lemma Silent_poke_user i off v : Silent E (poke_user oracle i off v).
Proof. unfold poke_user. silent. Qed.
#[local] Hint Resolve Silent_poke_user : silent.
Lemma Silent_set_arg0 i v : Silent E (set_arg0 oracle i v).
Proof. unfold set_arg0. silent. Qed.
#[local] Hint Resolve Silent_set_arg0 : silent.
Lemma Silent_set_arg1 i v : Silent E (set_arg1 oracle i v).
Proof. unfold set_arg1. silent. Qed.
#[local] Hint Resolve Silent_set_arg1 : silent.
Lemma Silent_change_syscall i n : Silent E (change_syscall oracle i n).
Proof. apply Silent_poke_user. Qed.
#[local] Hint Resolve Silent_change_syscall : silent.
Lemma Silent_get_arg i off : Silent E (get_arg opt w i off).
Proof.
  unfold get_arg. apply Silent_bind; [apply Silent_gets|intros g].
  apply Silent_bind; [apply Silent_tcb_of|intros t].
  apply Silent_bind; [solve [eauto with silent]|]. intros [r v]. apply Silent_ret.
Qed.
#[local] Hint Resolve Silent_get_arg : silent.
Lemma Silent_and_then c n : Silent E c -> Silent E n -> Silent E (and_then c n).
Proof. unfold and_then. intros. silent. Qed.

Lemma Silent_setbpt i : Silent E (setbpt oracle opt w i).
Proof.
  unfold setbpt, init_clone_scno. silent;
    repeat first [ apply Silent_and_then; [solve [eauto with silent]|] | progress silent ].
Qed.
#[local] Hint Resolve Silent_setbpt : silent.
Lemma Silent_clearbpt i : Silent E (clearbpt oracle i).
Proof.
  unfold clearbpt. silent.
Qed.
#[local] Hint Resolve Silent_clearbpt : silent.
Lemma Silent_fork_exec i : Silent E (syscall_fixup_for_fork_exec oracle opt w i).
Proof.
  unfold syscall_fixup_for_fork_exec, internal_fork. silent.
Qed.

Lemma Silent_entering_ret i r : Silent E (entering_ret oracle opt i r).
Proof. unfold entering_ret, set_insyscall. silent. Qed.
Lemma Silent_clear_insyscall i : Silent E (clear_insyscall i).
Proof. unfold clear_insyscall. silent. Qed.
Lemma Silent_get_error i : Silent E (get_error w i).
Proof. unfold get_error. silent. Qed.
Lemma Silent_count_call i tv : Silent E (count_call oracle w i tv).
Proof. unfold count_call. silent. Qed.

(** ** Stack traces *)

Lemma tri_of_outcome {A} P (o : outcome A) :
  output_stacktraces opt = true -> tri E P (of_outcome o) (fun _ => P).
Proof.
  intros Ho. destruct (Hstk Ho) as (H1 & H2 & H3). destruct o; simpl;
    first [by apply tri_ret|by apply tri_exit].
Qed.

Lemma tri_libunwind_loop i P c n ips :
  output_stacktraces opt = true -> stable P -> (forall s, P s -> Line.ready opt i s) ->
  tri E P (libunwind_loop w c n ips) (fun _ => P).
Proof.
  intros Ho HP Hr. destruct (Hstk Ho) as (H1 & _). revert n.
  induction ips as [|[ip|] ips IH]; intros n; simpl; [by apply tri_ret| |by apply tri_exit].
  apply (tri_bind E P (fun _ => P)); [by apply tri_of_outcome|intros txt].
  apply (tri_bind E P (fun _ => P)); [by eapply tri_stack; eauto|intros _].
  destruct (_ <? _)%nat; [by apply tri_silent; [|silent]|apply IH].
Qed.

Lemma tri_output_stacktrace i P really :
  output_stacktraces opt = true -> stable P -> (forall s, P s -> Line.ready opt i s) ->
  tri E P (output_stacktrace oracle opt w really i) (fun _ => P).
Proof.
  intros Ho HP Hr. destruct (Hstk Ho) as (H1 & _ & _).
  assert (Hst : forall x, tri E P (tprintstackinfo x) (fun _ => P)) by (intros x; eapply tri_stack; eauto).
  assert (Hsil : forall B (c : M B), Silent E c -> tri E P c (fun _ => P)) by (intros; by apply tri_silent).
  assert (Hout : forall B (o : outcome B), tri E P (of_outcome o) (fun _ => P))
    by (intros; by apply tri_of_outcome).
  unfold output_stacktrace. destruct really; simpl; [|apply Hst].
  apply (tri_bind E P (fun _ => P)); [apply Hst|intros _].
  apply (tri_bind E P (fun _ => P)); [apply Hsil; silent|intros t].
  apply (tri_bind E P (fun _ => P)).
  { destruct (mmap_cache t); [by apply tri_ret|].
    apply (tri_bind E P (fun _ => P)); [apply Hsil; silent|intros r].
    apply (tri_bind E P (fun _ => P)); [apply Hout|intros c]. apply Hsil. silent. }
  intros _. apply (tri_bind E P (fun _ => P)); [apply Hsil; silent|intros g].
  apply (tri_bind E P (fun _ => P)); [|intros _; apply Hst].
  destruct (_ || _); unfold print_ebp_backtrace, print_libunwind_backtrace.
  - apply (tri_bind E P (fun _ => P)); [apply Hsil; silent|intros t'].
    apply (tri_bind E P (fun _ => P)); [apply Hsil; silent|intros r].
    apply (tri_bind E P (fun _ => P)); [apply Hsil; silent|intros s].
    apply (tri_bind E P (fun _ => P)); [apply Hout|intros [txt st]].
    apply (tri_bind E P (fun _ => P)); [apply Hsil; silent|intros _]. apply Hst.
  - apply (tri_bind E P (fun _ => P)); [apply Hsil; silent|intros s].
    apply (tri_bind E P (fun _ => P)); [apply Hsil; silent|intros t'].
    destruct (unwind w _ _); [|by apply tri_exit]. by eapply tri_libunwind_loop; eauto.
Qed.

(** ** System call entry *)

Lemma frame_opened m s s' i : frame m s s' -> opened s i -> opened s' i.
Proof.
  intros Hf (t & Ht & H1 & H2 & H3). destruct (frame_tcb' m s s' i t Hf Ht) as (t' & Ht' & [= ? ? ? ?]).
  exists t'. split_and!; congruence.
Qed.

Lemma tri_printleader i :
  tri E (ready i) (printleader oracle opt (hms w) i) (fun _ => printing i).
Proof.
  intros s [Hinv Hop Hcur].
  destruct (printleader_ok oracle opt (hms w) s i Hinv (opened_open s i Hop))
    as (s' & pre & leader & H1 & _ & _ & _ & _ & Hinv' & Hc & Hp & _).
  pose proof (Frames_printleader oracle opt 0 (hms w) i s) as Hf. rewrite H1 in Hf |- *.
  split; [split|]; [done|by eapply frame_opened|done|done].
Qed.

Lemma tri_tabto i : tri E (printing i) (tabto opt) (fun _ => printing i).
Proof.
  unfold tabto. apply tri_gets. intros cur.
  apply (tri_pre E _ (fun s => printing i s /\ cur = Some i)).
  { intros s [Hs <-]. split; [done|]. by destruct Hs as [[_ _ Hc] _]. }
  intros s [Hs ->]. revert s Hs.
  eapply tri_bind; [apply tri_silent; [apply stable_printing|silent]|intros t].
  destruct (_ <? _); simpl; [apply tri_tprints|by apply tri_ret].
Qed.

Lemma tri_line_ended i : tri E (ended i) line_ended (fun _ => ready i).
Proof.
  intros s [[[Hinv Hop Hcur] Hprn] Hbol].
  destruct (line_ended_ok opt s i Hinv Hcur Hprn Hbol) as (s' & H1 & Hinv' & _).
  pose proof (Frames_line_ended 0 s) as Hf.
  assert (Hc : current_tcp s' = Some i).
  { unfold line_ended, mbind, M_bind, gets in H1. rewrite Hcur in H1. simpl in H1.
    rewrite Hprn in H1. simpl in H1. by injection H1 as <-. }
  rewrite H1 in Hf |- *. split; [done|by eapply frame_opened|done].
Qed.

(** sys_exit completes the line on entry and leaves it alone on exit. *)
Lemma tri_sys_exit i : tri E (printing i) (sys_exit opt i) (fun _ => ready i).
Proof.
  unfold sys_exit.
  eapply tri_bind; [apply tri_silent; [apply stable_printing|silent]|intros t].
  destruct (exiting t).
  - eapply tri_post; [intros ? s; apply printing_ready|].
    apply tri_silent; [apply stable_printing|silent].
  - eapply tri_bind; [apply tri_tprints|intros ?].
    eapply tri_bind; [apply tri_tabto|intros ?].
    eapply tri_bind; [apply tri_tprints_nl; by apply ends_line_app, ends_line_nl|intros ?].
    eapply tri_bind; [apply tri_line_ended|intros ?]. by apply tri_ret.
Qed.

(** At the exit of its call. *)
Definition in_call (i : nat) (s : tracer) : Prop :=
  forall t, tcbtab s !! i = Some t -> exiting t = true.

Lemma in_call_frame i s s' : frame kept s s' -> in_call i s -> in_call i s'.
Proof.
  intros Hf Hc t' Ht'. destruct (frame_tcb kept s s' i t' Hf Ht') as (t & Ht & Hv).
  rewrite <- (Hc t Ht). symmetry. by eapply view_flag; [|exact Hv].
Qed.

Lemma tri_in_call {A} i P (c : M A) Q :
  Frames kept c -> tri E P c Q ->
  tri E (fun s => P s /\ in_call i s) c (fun x s => Q x s /\ in_call i s).
Proof.
  intros Hf Hc s [Hs Hi]. specialize (Hc s Hs). specialize (Hf s). unfold post in *.
  destruct (c s); [|done..]. split; [done|]. by eapply in_call_frame.
Qed.

Lemma tri_call_decoder i t :
  tri E (fun s => printing i s /\ in_call i s) (call_decoder opt w i t) (fun _ => printing i).
Proof.
  unfold call_decoder. destruct (fn_is t "sys_exit").
  - unfold sys_exit. apply tri_gets. intros t'. destruct (exiting t') eqn:Hex.
    + eapply tri_pre; [intros s [[Hs _] _]; exact Hs|].
      apply tri_silent; [apply stable_printing|silent].
    + intros s [[[[_ (u & Hu & _) _] _] Hi] Ht]. rewrite Hu in Ht. change (u = t') in Ht.
      subst t'. rewrite (Hi u Hu) in Hex. done.
  - eapply tri_pre; [intros s [Hs _]; exact Hs|].
    apply run_D_printing. intros K e st Hn. by eapply Hdec.
Qed.

Lemma tri_entering_failed i g r :
  tri E (ready i) (entering_failed oracle opt w i g r) (fun _ => ready i).
Proof.
  unfold entering_failed.
  eapply tri_bind; [apply tri_printleader|intros ?].
  eapply tri_bind; [apply tri_silent; [apply stable_printing|silent]|intros t].
  apply (tri_bind E _ (fun _ => printing i)); [destruct (negb _); apply tri_tprints|intros ?].
  eapply tri_post; [intros ? s; apply printing_ready|].
  apply tri_silent; [apply stable_printing|apply Silent_entering_ret].
Qed.

Lemma tri_show_entry i :
  tri E (ready i) (show_entry oracle opt w i) (fun _ => ready i).
Proof.
  unfold show_entry.
  eapply tri_bind; [apply tri_printleader|intros ?].
  eapply tri_bind; [apply tri_silent; [apply stable_printing|silent]|intros t].
  eapply tri_bind; [apply tri_tprints|intros ?].
  apply (tri_bind E _ (fun _ => printing i)).
  { case_eq (output_stacktraces opt); intros Ho; simpl; [|by apply tri_ret].
    apply tri_output_stacktrace; eauto with lines. }
  intros ?. eapply tri_bind; [apply tri_silent; [apply stable_printing|silent]|intros t'].
  destruct (_ && _); [|unfold call_decoder; destruct (fn_is t' "sys_exit"); [apply tri_sys_exit|]].
  all: eapply tri_post; [intros ? s; apply printing_ready|].
  - apply run_D_total_printing. intros K e st. unfold printargs, printargs_fmt, mbind, D_bind, ask.
    by destruct (d_entering e).
  - apply run_D_printing. intros K e st Hn. by eapply Hdec.
Qed.

Lemma tri_entering_known i :
  tri E (ready i) (entering_known oracle opt w i) (fun _ => ready i).
Proof.
  assert (Hsil : forall B (c : M B), Silent E c -> tri E (ready i) c (fun _ => ready i))
    by (intros; apply tri_silent; [apply stable_ready|done]).
  unfold entering_known.
  eapply tri_bind; [apply Hsil; silent|intros t].
  eapply tri_bind; [apply Hsil; silent|intros ?].
  eapply tri_bind; [apply Hsil, Silent_decode_subcall|intros ?].
  eapply tri_bind; [apply Hsil; destruct (need_fork_exec_workarounds opt);
                    [apply Silent_fork_exec|apply Silent_ret]|intros ?].
  eapply tri_bind; [apply Hsil; silent|intros t1].
  apply (tri_bind E _ (fun _ => ready i)); [apply Hsil; silent|intros skip].
  destruct skip.
  - apply Hsil. silent.
  - eapply tri_bind; [apply Hsil; silent|intros ?].
    eapply tri_bind; [apply Hsil; silent|intros g].
    destruct (_ || _); [apply Hsil, Silent_entering_ret|].
    eapply tri_bind; [apply tri_show_entry|intros r]. apply Hsil, Silent_entering_ret.
Qed.

Lemma tri_entering i :
  tri E (ready i) (trace_syscall_entering oracle opt w i) (fun _ => ready i).
Proof.
  assert (Hsil : forall B (c : M B), Silent E c -> tri E (ready i) c (fun _ => ready i))
    by (intros; apply tri_silent; [apply stable_ready|done]).
  unfold trace_syscall_entering.
  eapply tri_bind; [apply Hsil; silent|intros g].
  apply (tri_bind E _ (fun _ => ready i)).
  { destruct (negb _); [by apply tri_ret|apply Hsil, Silent_get_scno]. }
  intros good. destruct (good =? 0); [by apply tri_ret|].
  destruct (good =? 1); [|apply tri_entering_failed].
  eapply tri_bind; [apply Hsil; unfold syscall_fixup_on_sysenter; silent|intros r].
  destruct (r =? 0); [by apply tri_ret|].
  apply (tri_bind E _ (fun _ => ready i)).
  { destruct (r =? 1); [apply Hsil, Silent_get_syscall_args|by apply tri_ret]. }
  intros r'. destruct (negb _); [apply tri_entering_failed|apply tri_entering_known].
Qed.

(** ** System call exit *)

Lemma tri_dumpio i : tri E (ended i) (dumpio opt w i) (fun _ => ended i).
Proof.
  unfold dumpio.
  eapply tri_bind; [apply tri_silent; [apply stable_ended|silent]|intros t].
  eapply tri_bind; [apply tri_silent; [apply stable_ended|silent]|intros g].
  repeat case_match; try (by apply tri_ret);
    apply run_D_ended; intros K; first [apply Lines_dumpstr|apply Lines_dumpiov].
Qed.

Lemma tri_show_result i r : tri E (printing i) (show_result w i r) (fun _ => printing i).
Proof.
  unfold show_result.
  eapply tri_bind; [apply tri_silent; [apply stable_printing|silent]|intros t].
  eapply tri_bind; [apply tri_silent; [apply stable_printing|silent]|intros g].
  destruct (has_flag _ QUAL_RAW); [apply tri_tprints|].
  apply (tri_bind E _ (fun _ => printing i)).
  - repeat case_match; first [apply tri_tprints|apply tri_silent; [apply stable_printing|silent]].
  - intros ?. destruct (nonempty_str _); [apply tri_tprints|by apply tri_ret].
Qed.

Lemma tri_resume_line i : tri E (ready i) (resume_line oracle opt w i) (fun _ => printing i).
Proof.
  unfold resume_line.
  eapply tri_bind; [apply tri_silent; [apply stable_ready|silent]|intros t].
  apply tri_gets. intros prn.
  apply (tri_bind E _ (fun _ => printing i)); [|intros ? s Hs].
  - destruct (_ || _) eqn:Hc; simpl.
    + apply (tri_pre E _ (ready i)); [by intros s []|].
      eapply tri_bind; [apply tri_silent; [apply stable_ready|silent]|intros ?].
      eapply tri_bind; [apply tri_printleader|intros ?]. apply tri_tprints.
    + apply orb_false_iff in Hc as [Hc _]. intros s [Hs <-].
      split; [done|]. destruct Hs as [[Hff _ _ _ _] _ _].
      apply Z.ltb_lt in Hff. rewrite Hff in Hc. simpl in Hc.
      apply negb_false_iff, bool_decide_eq_true in Hc. done.
  - split; [|done]. destruct Hs as [[Hinv Hop Hcur] Hprn].
    destruct s as [tab n p c g l]. simpl in *. subst p. by split.
Qed.

Lemma tri_show_exit i r tv :
  tri E (fun s => printing i s /\ in_call i s) (show_exit opt w i r tv) (fun _ => ready i).
Proof.
  assert (Hsil : forall B (c : M B), Silent E c -> tri E (printing i) c (fun _ => printing i))
    by (intros; apply tri_silent; [apply stable_printing|done]).
  assert (Hend : forall x, tri E (ready i) (_ ← clear_insyscall i; mret x : M Z) (fun _ => ready i)).
  { intros x. apply tri_silent; [apply stable_ready|]. apply Silent_bind; [|intros _; apply Silent_ret].
    apply Silent_clear_insyscall. }
  unfold show_exit. destruct (negb _); [eapply tri_pre; [intros s [Hs _]; exact Hs|]|].
  - eapply tri_bind; [apply tri_tprints|intros ?].
    eapply tri_bind; [apply tri_tabto|intros ?].
    eapply tri_bind; [apply tri_tprints_nl; by apply ends_line_app, ends_line_nl|intros ?].
    eapply tri_bind; [apply tri_line_ended|intros ?]. apply Hend.
  - eapply tri_bind; [apply tri_in_call; [frames|apply Hsil; silent]|intros t]. destruct (_ && _ && _).
    { eapply tri_pre; [intros s [Hs _]; exact (printing_ready opt i s Hs)|]. apply Hend. }
    apply (tri_bind E _ (fun _ => printing i)).
    { destruct (has_flag _ _); [by apply tri_ret; intros s []|apply tri_call_decoder]. }
    intros sys_res. eapply tri_bind; [apply tri_tprints|intros ?].
    eapply tri_bind; [apply tri_tabto|intros ?].
    eapply tri_bind; [apply tri_show_result|intros ?].
    eapply tri_bind; [apply Hsil; silent|intros t'].
    apply (tri_bind E _ (fun _ => printing i));
      [destruct (Tflag opt); [apply tri_tprints|by apply tri_ret]|intros ?].
    eapply tri_bind; [apply tri_tprints_nl; by apply ends_line_nl|intros ?].
    eapply tri_bind; [apply tri_dumpio|intros ?].
    eapply tri_bind; [apply tri_line_ended|intros ?]. apply Hend.
Qed.

Lemma tri_exiting i :
  tri E (fun s => ready i s /\ in_call i s) (trace_syscall_exiting oracle opt w i) (fun _ => ready i).
Proof.
  assert (Hsil : forall B (c : M B), Silent E c -> tri E (ready i) c (fun _ => ready i))
    by (intros; apply tri_silent; [apply stable_ready|done]).
  assert (Hsil' : forall B (c : M B), Frames kept c -> Silent E c ->
            tri E (fun s => ready i s /\ in_call i s) c (fun _ s => ready i s /\ in_call i s))
    by (intros; apply tri_in_call; auto).
  assert (Hend : forall x, tri E (fun s => ready i s /\ in_call i s)
            (_ ← clear_insyscall i; mret x : M Z) (fun _ => ready i)).
  { intros x. eapply tri_pre; [intros s [Hs _]; exact Hs|]. apply Hsil.
    apply Silent_bind; [|intros _; apply Silent_ret]. apply Silent_clear_insyscall. }
  unfold trace_syscall_exiting.
  eapply tri_bind; [apply Hsil'; [frames|silent]|intros tv].
  eapply tri_bind; [apply Hsil'; [frames|silent]|intros t].
  eapply tri_bind; [apply Hsil'; [frames|apply Silent_update_personality]|intros ?].
  eapply tri_bind; [apply Hsil'; [frames|silent]|intros g].
  eapply tri_bind.
  { apply Hsil'; [unfold get_error; frames|]. destruct (_ =? _); [|apply Silent_ret].
    apply Silent_bind; [apply Silent_get_error|intros ?].
    apply Silent_bind; [|intros ?; silent].
    destruct (need_fork_exec_workarounds opt); [apply Silent_fork_exec|apply Silent_ret]. }
  intros hidden. cbv beta. destruct hidden; [apply Hend|].
  eapply tri_bind.
  { apply Hsil'; [unfold count_call; frames|].
    destruct (negb _); [apply Silent_count_call|apply Silent_ret]. }
  intros ?. cbv beta. destruct (_ =? _); [apply Hend|].
  eapply tri_bind; [apply tri_in_call; [unfold resume_line; frames|apply tri_resume_line]|intros ?].
  apply tri_show_exit.
Qed.

Lemma tri_trace_syscall i :
  tri E (ready i) (trace_syscall oracle opt w i) (fun _ => ready i).
Proof.
  unfold trace_syscall. apply tri_gets. intros t. destruct (exiting t) eqn:Hex.
  - eapply tri_pre; [|apply tri_exiting]. intros s [Hs Ht]. split; [done|].
    intros u Hu. rewrite Hu in Ht. change (u = t) in Ht. by subst u.
  - eapply tri_pre; [|apply tri_entering]. by intros s [].
Qed.
End stops.

(** ** Stops alternate *)

(** The flags no system call stop touches. *)
Definition still : Z :=
  Z.lor TCB_INUSE (Z.lor TCB_STARTUP (Z.lor TCB_IGNORE_ONE_SIGSTOP
    (Z.lor TCB_ATTACHED TCB_STRACE_CHILD))).

Lemma frame_sub m m' s s' : Z.land m' m = m -> frame m' s s' -> frame m s s'.
Proof.
  intros Hm [H1 H2 H3 H4]. split; [done| |done..]. intros j. specialize (H2 j).
  destruct (tcbtab s' !! j) as [t'|], (tcbtab s !! j) as [t|]; simpl in *; try done.
  injection H2 as Ha Hb Hc Hd He. f_equal. unfold view.
  rewrite Ha, Hb, Hc, Hd, <- Hm, !Z.land_assoc, He. done.
Qed.
Lemma Frames_sub m m' {A} (c : M A) : Z.land m' m = m -> Frames m' c -> Frames m c.
Proof. intros Hm Hc s. specialize (Hc s). destruct (c s); [by eapply frame_sub|done..]. Qed.

Section alternation.
Context (oracle : list event -> request -> reply) (opt : options) (w : world) (i : nat).

(** [c] frames the other flags and leaves TCB_INSYSCALL of [i] as [b]. *)
Definition Ends (b : bool) {A} (c : M A) : Prop := forall s,
  match c s with
  | Ret _ s' => frame still s s' /\ forall t', tcbtab s' !! i = Some t' -> exiting t' = b
  | _ => True
  end.

Lemma Ends_pre {A B} b (c : M A) (k : A -> M B) :
  Frames still c -> (forall x, Ends b (k x)) -> Ends b (c ≫= k).
Proof.
  intros Hc Hk s. unfold mbind, M_bind. specialize (Hc s). destruct (c s) as [x s1| |]; [|done..].
  specialize (Hk x s1). destruct (k x s1); [|done..]. destruct Hk as [Hk ?].
  split; [by eapply frame_trans|done].
Qed.

Lemma Ends_post {A B} b (c : M A) (k : A -> M B) :
  Ends b c -> (forall x, Frames kept (k x)) -> Ends b (c ≫= k).
Proof.
  intros Hc Hk s. unfold mbind, M_bind. specialize (Hc s). destruct (c s) as [x s1| |]; [|done..].
  destruct Hc as [Hc Hb]. specialize (Hk x s1). destruct (k x s1) as [y s2| |]; [|done..]. split.
  - eapply frame_trans; [exact Hc|]. by eapply frame_sub; [|exact Hk].
  - intros t' Ht'. destruct (frame_tcb kept s1 s2 i t' Hk Ht') as (t & Ht & Hv).
    rewrite <- (Hb t Ht). symmetry. by eapply view_flag; [|exact Hv].
Qed.

Lemma Ends_set m : Z.land TCB_INSYSCALL m = TCB_INSYSCALL -> Z.land m still = 0 ->
  Ends true (upd_tcb i (set_flags (fun f => set_flag f m))).
Proof.
  intros H1 H2 s. split.
  - apply (Frames_upd still i (set_flags (fun f => set_flag f m))). intros t. by apply view_set_flags.
  - intros t'. simpl. rewrite list_lookup_alter, decide_True by done.
    destruct (tcbtab s !! i) as [t|]; simpl; [|done]. intros [= <-].
    unfold exiting. simpl. apply has_set_sub; [done|by rewrite Z.land_comm].
Qed.

Lemma Ends_clear : Ends false (clear_insyscall i).
Proof.
  intros s. split.
  - apply (Frames_upd still i (set_flags (fun f => clear_flag f TCB_INSYSCALL))).
    intros t. by apply view_clear_flags.
  - intros t'. simpl. rewrite list_lookup_alter, decide_True by done.
    destruct (tcbtab s !! i) as [t|]; simpl; [|done]. intros [= <-].
    unfold exiting. simpl. by apply has_clear_sub.
Qed.

Lemma Ends_clear_ret {A} (x : A) : Ends false (_ ← clear_insyscall i; mret x).
Proof. apply Ends_post; [apply Ends_clear|]. intros _. apply Frames_ret. Qed.

Lemma Ends_entering_ret r : Ends true (entering_ret oracle opt i r).
Proof.
  apply Ends_post; [by apply Ends_set|]. intros _. frames.
Qed.

Lemma Frames_still_fork_exec : Frames still (syscall_fixup_for_fork_exec oracle opt w i).
Proof. by eapply Frames_sub; [|apply Frames_fork_exec]. Qed.
#[local] Hint Resolve Frames_still_fork_exec : frames.

Lemma Ends_entering_failed g r : Ends true (entering_failed oracle opt w i g r).
Proof.
  unfold entering_failed. do 3 (apply Ends_pre; [frames|intros ?]). apply Ends_entering_ret.
Qed.

Lemma Ends_entering_known : Ends true (entering_known oracle opt w i).
Proof.
  unfold entering_known. do 6 (apply Ends_pre; [frames|intros ?]).
  match goal with |- Ends _ (if ?b then _ else _) => destruct b end.
  { apply Ends_post; [by apply Ends_set|]. intros _. frames. }
  do 2 (apply Ends_pre; [frames|intros ?]).
  destruct (_ || _); [apply Ends_entering_ret|].
  apply Ends_pre; [|intros ?; apply Ends_entering_ret]. unfold show_entry. frames.
Qed.

Lemma Ends_exiting : Ends false (trace_syscall_exiting oracle opt w i).
Proof.
  unfold trace_syscall_exiting, get_error. do 5 (apply Ends_pre; [frames|intros ?]).
  match goal with |- Ends _ (if ?b then _ else _) => destruct b end; [apply Ends_clear_ret|].
  apply Ends_pre; [unfold count_call; frames|intros ?].
  destruct (_ =? _); [apply Ends_clear_ret|].
  apply Ends_pre; [unfold resume_line; frames|intros ?].
  unfold show_exit. destruct (negb _).
  { do 4 (apply Ends_pre; [frames|intros ?]). apply Ends_clear_ret. }
  apply Ends_pre; [frames|intros ?]. destruct (_ && _ && _); [apply Ends_clear_ret|].
  do 9 (apply Ends_pre; [unfold show_result, dumpio; frames|intros ?]). apply Ends_clear_ret.
Qed.

(** What get_scno leaves alone. *)
Lemma get_scno_run s :
  exists s', get_scno opt w i s = Ret 1 s' /\ frame kept s s' /\ regs (glb s') = regs (glb s).
Proof.
  pose proof (Frames_get_scno opt w kept i s) as Hf.
  assert (H : exists s', get_scno opt w i s = Ret 1 s' /\ regs (glb s') = regs (glb s)).
  { unfold get_scno, update_personality, set_personality, mbind, M_bind, gets, tcb_of, when.
    destruct (scno_pers _) as [n p]. unfold gets.
    destruct (p =? _)%nat; [by eexists|].
    simpl. destruct (p =? _)%nat; [by eexists|]. simpl.
    destruct (qflag opt =? 0); by eexists. }
  destruct H as (s' & H1 & H2). rewrite H1 in Hf. eauto.
Qed.

Lemma trace_syscall_flips s t :
  tcbtab s !! i = Some t ->
  match trace_syscall oracle opt w i s with
  | Ret _ s' =>
      frame still s s' /\
      forall t', tcbtab s' !! i = Some t' ->
        exiting t' = negb (exiting t) &&
                     (negb (get_regs_error (glb s) =? 0) || (result_reg (regs (glb s)) =? - ENOSYS))
  | _ => True
  end.
Proof.
  intros Ht. unfold trace_syscall. unfold mbind at 1, M_bind at 1, tcb_of at 1, gets at 1.
  rewrite Ht. simpl. destruct (exiting t) eqn:Hex; simpl; [apply Ends_exiting|].
  unfold trace_syscall_entering. unfold mbind at 1, M_bind at 1, gets at 1.
  destruct (get_regs_error (glb s) =? 0) eqn:Hg; simpl.
  2: { unfold mbind at 1, M_bind at 1, mret at 1, M_ret at 1. simpl. apply Ends_entering_failed. }
  unfold mbind at 1, M_bind at 1. destruct (get_scno_run s) as (s1 & -> & Hf1 & Hr1).
  change (1 =? 0) with false. change (1 =? 1) with true. cbv iota.
  unfold syscall_fixup_on_sysenter. unfold mbind at 1, M_bind at 1. unfold mbind at 1, M_bind at 1.
  unfold gets at 1. simpl. unfold mret at 1, M_ret at 1. rewrite Hr1.
  assert (Hf1' : frame still s s1) by (by eapply frame_sub; [|exact Hf1]).
  destruct (result_reg _ =? - ENOSYS); simpl.
  - match goal with |- match ?c s1 with _ => _ end => assert (He : Ends true c) end.
    { apply Ends_pre; [frames|intros r]. destruct (negb _);
        [apply Ends_entering_failed|apply Ends_entering_known]. }
    specialize (He s1). match goal with |- match ?c with _ => _ end => destruct c end; [|done..].
    destruct He as [H1 H2]. split; [by eapply frame_trans|done].
  - split; [done|]. intros t' Ht'. destruct (frame_tcb kept s s1 i t' Hf1 Ht') as (t0 & Ht0 & Hv).
    rewrite Ht in Ht0. injection Ht0 as <-. rewrite <- Hex. symmetry. by eapply view_flag; [|exact Hv].
Qed.
End alternation.

(** ** Properties *)

(** The process of a block and its files. *)
Definition identity (t : tcb) := (pid t, inuse t, outf t, out_dump_f t, out_stack_f t).

(** C8: a system call stop never spoils a shared log.  From every state in which
    at most the line of printing_tcp is unfinished, and whatever the kernel
    answers, trace_syscall on an open tcb returns to such a state: the number of
    processes, and in every slot the process and its three files, are the same,
    and the tcb is still the current one.  It never dies, never dereferences a
    missing log, and exits only where a decoder aborts or a stack cannot be
    walked (with codes in [E]); with decoders that do not abort and no stack
    traces [E] can be empty, and then it always returns. *)
Theorem trace_syscall_keeps_log_in_order E oracle opt w i s :
  (forall t K e st, call_sys_func w t K e st = None -> E SIGABRT_exit) ->
  (output_stacktraces opt = true -> E EXITIF_exit /\ E SIGSEGV_exit /\ E out_of_fuel) ->
  log_inv opt s -> opened s i -> current_tcp s = Some i ->
  match trace_syscall oracle opt w i s with
  | Ret _ s' =>
      log_inv opt s' /\ opened s' i /\ current_tcp s' = Some i /\
      nprocs s' = nprocs s /\
      forall j, identity <$> tcbtab s' !! j = identity <$> tcbtab s !! j
  | Exit code _ => E code
  | Die _ => False
  end.
Proof.
  intros Hdec Hstk H1 H2 H3.
  pose proof (tri_trace_syscall E oracle opt w Hdec Hstk i s (Build_ready opt i s H1 H2 H3)) as H.
  destruct H2 as (t & Ht & _). pose proof (trace_syscall_flips oracle opt w i s t Ht) as Hf.
  destruct (trace_syscall oracle opt w i s) as [r s'| |]; simpl in H; [|done..].
  destruct H as [L1 L2 L3], Hf as [Hf _].
  split_and!; [done..|by apply (fr_nprocs still)|]. intros j. pose proof (fr_tab still _ _ Hf j) as Hj.
  destruct (tcbtab s' !! j) as [u'|], (tcbtab s !! j) as [u|]; try done. apply (inj Some) in Hj. simpl. f_equal.
  pose proof (view_flag still TCB_INUSE u' u eq_refl Hj) as Hin. injection Hj as ? ? ? ? _.
  unfold identity, inuse. congruence.
Qed.

(** The tables of a small machine: read, write and exit_group. *)
Definition demo_world (d : string -> Kernel -> D Z) : world :=
  mk_world
    [ [mk_sysent 3 TRACE_DESC "sys_read" (Some "read"); mk_sysent 3 TRACE_DESC "sys_write" (Some "write");
       mk_sysent 1 0 "sys_exit" (Some "exit_group")]; []; [] ]
    (mk_quals 255 (replicate 3 (replicate 255 (Z.lor DEFAULT_QUAL_FLAGS QUAL_SIGNAL))))
    (fun _ => [""; "EPERM"; "ENOENT"]) (fun _ => "error") (fun _ => "00:00:00") [] false
    (fun _ _ => mem_kernel true demo_mem) (fun _ _ _ => None) d (fun _ _ => None) 100
    (fun _ => 0) no_region merge_qsort.

Definition quiet_world : world := demo_world (fun _ _ => mret 0).

Lemma quiet_world_returns t K e st : call_sys_func quiet_world t K e st <> None.
Proof.
  unfold call_sys_func, printargs, printargs_lu, printargs_ld, printargs_fmt.
  repeat case_match; unfold mbind, D_bind, ask; destruct (d_entering e); discriminate.
Qed.

(** The registers at the entry of system call [n] with the arguments [a], and
    at its exit with the result [r]. *)
Definition call_regs (n r : Z) (a : list Z) : regset :=
  mk_regset
    (foldl (fun b m => store m.1 (bytes_le 8 m.2) b) (replicate 216 0)
       ((o_orig_rax, n) :: (o_rax, r) :: zip [o_rdi; o_rsi; o_rdx; o_r10; o_r8; o_r9] a)) 216.

(** Process 11 enters write(3, 0x1000, 2) while 10 is in the middle of a line. *)
Definition entry_tracer : tracer :=
  mk_tracer (tcbtab demo_tracer) 2 (Some 0%nat) (Some 1%nat)
    (set_regs 0 (call_regs 1 (- ENOSYS) [3; 0x1000; 2]) demo_globals) (log demo_tracer).

Lemma entry_log_inv : log_inv demo_options entry_tracer.
Proof. destruct demo_log_inv as [H1 H2 H3 H4 H5]. by split. Qed.
Lemma entry_opened : opened entry_tracer 1.
Proof. by exists (demo_tcb 11 0). Qed.

Lemma trace_syscall_keeps_log_in_order_witness :
  match trace_syscall (fun _ _ => demo_reply) demo_options quiet_world 1 entry_tracer with
  | Ret _ s' => log_inv demo_options s'
  | _ => False
  end.
Proof.
  pose proof (trace_syscall_keeps_log_in_order (fun _ => False) (fun _ _ => demo_reply) demo_options
                quiet_world 1 entry_tracer) as H.
  specialize (H (fun t K e st Hn => quiet_world_returns t K e st Hn)).
  specialize (H (fun Hs => ltac:(discriminate Hs)) entry_log_inv entry_opened eq_refl).
  destruct (trace_syscall _ _ _ _ _); [exact (proj1 H)|exact H|exact H].
Defined.

(** C9: entry and exit alternate.  After trace_syscall returned, the tcb is
    inside a system call iff it was outside and the stop was an entry: the
    registers could not be read, or the result register holds -ENOSYS; a stray
    SIGTRAP such as the one after execve is ignored.  Pids, files, and the
    flags that say how the process is traced stay the same for every tcb. *)
Theorem trace_syscall_alternates oracle opt w i s t r s' :
  tcbtab s !! i = Some t -> trace_syscall oracle opt w i s = Ret r s' ->
  exists t', tcbtab s' !! i = Some t' /\
    exiting t' = negb (exiting t) &&
                 (negb (get_regs_error (glb s) =? 0) || (result_reg (regs (glb s)) =? - ENOSYS)) /\
    nprocs s' = nprocs s /\
    forall j u', tcbtab s' !! j = Some u' -> exists u, tcbtab s !! j = Some u /\
      pid u' = pid u /\ outf u' = outf u /\ inuse u' = inuse u.
Proof.
  intros Ht Hrun. pose proof (trace_syscall_flips oracle opt w i s t Ht) as H.
  rewrite Hrun in H. destruct H as [Hf H].
  destruct (frame_tcb' still s s' i t Hf Ht) as (t' & Ht' & _). exists t'.
  split_and!; [done|by apply H|by apply (fr_nprocs still)|].
  intros j u' Hu'. destruct (frame_tcb still s s' j u' Hf Hu') as (u & Hu & Hv).
  exists u. split; [done|]. pose proof (view_flag still TCB_INUSE u u' eq_refl Hv) as Hin.
  injection Hv as -> -> _ _ _. done.
Qed.

Lemma trace_syscall_alternates_witness :
  match trace_syscall (fun _ _ => demo_reply) demo_options quiet_world 1 entry_tracer with
  | Ret _ s' => exists t', tcbtab s' !! 1%nat = Some t' /\ exiting t' = true
  | _ => False
  end.
Proof.
  destruct (trace_syscall _ _ _ _ _) as [r s'| |] eqn:Hrun;
    [|vm_compute in Hrun; discriminate Hrun..].
  destruct (trace_syscall_alternates (fun _ _ => demo_reply) demo_options
              quiet_world 1 entry_tracer (demo_tcb 11 0) r s' eq_refl Hrun)
    as (t' & Ht' & He & _).
  exists t'. split; [exact Ht'|]. rewrite He. vm_compute. reflexivity.
Defined.
