(* ===== verification/Shipped.v ===== *)
(** * The tracer with the tables it ships

    [shipped w] is the world [w] with the tables of Sysent.v, the error names of
    Errnoent.v and the decoders of Decoders.v: what the parameters of Syscall.v
    stand for in the x86_64 build. *)

From S2P Require Import Prelude Timeval Xlat Quote Tracee Decode Io Args Time File Ioctl Ioctlent Decoders Options Signal Status Qual Mmap Count Report Sysent Errnoent Tcb Regs Log Table Pathtrace Syscall Frame Line Stops.
Local Open Scope string_scope.
Local Open Scope list_scope.
Local Open Scope Z_scope.

Section shipped.
Context (localtime : Z -> option tm) (malloc_ok vla_ok : Z -> bool) (ifname : Z -> option string).

Definition shipped_decoder (f : string) (K : Kernel) : D Z :=
  default abort (@decoder_named K localtime malloc_ok (fun _ => errnoent0) ifname vla_ok ioctlent0 f).

Definition shipped (w : world) : world :=
  mk_world Sysent.sysent_vec (quals_of w) (fun _ => errnoent0) (strerror w) (hms w)
    (paths_selected w) (show_paths w) (kern w) (fd_target w) shipped_decoder (unwind w)
    (loop_fuel w) (indeterminate w) (indeterminate_map w) (qsort w).
End shipped.

(** The functions that the contract of the plain decoders leaves out; sys_exit
    is in Syscall.v. *)
Definition special_names : list string :=
  ["sys_exit"; "sys_write"; "sys_writev"; "sys_pwrite"; "sys_pwritev"; "sys_mmap"; "sys_munmap";
   "sys_mprotect"; "sys_getdents"; "sys_getdents64"; "sys_oldselect"; "sys_select"; "sys_pselect6";
   "sys_getuid"; "sys_setfsuid"; "sys_shmat"; "sys_uname"; "sys_execve"; "sys_bind"; "sys_connect";
   "sys_accept"; "sys_accept4"; "sys_getsockname"; "sys_getpeername"; "sys_sendto"; "sys_recvfrom";
   "sys_sendmsg"; "sys_sendmmsg"; "sys_recvmsg"; "sys_recvmmsg"; "sys_ioctl"; "sys_query_module"].

(** ** The tables name decoders that exist *)

Section tables.
Context `{K : Kernel} (localtime : Z -> option tm) (malloc_ok : Z -> bool).

Abbreviation plain := (plain_decoders localtime malloc_ok (fun _ => errnoent0)).

Definition names_decoder (ent : struct_sysent) : bool :=
  existsb (String.eqb (sys_func ent)) (["printargs"; "printargs_lu"; "printargs_ld"] ++ special_names) ||
  existsb (String.eqb (sys_func ent)) (fst <$> plain).

Definition row_ok (ent : struct_sysent) : bool :=
  (0 <=? nargs ent) && (nargs ent <=? MAX_ARGS) &&
  (String.eqb (sys_func ent) "" || names_decoder ent).

Lemma tables_ok : forallb (forallb row_ok) Sysent.sysent_vec = true.
Proof. vm_compute. reflexivity. Qed.

(** A name of the table of plain decoders is found there. *)
Lemma decoder_named_plain errnoent ifname vla_ok tbl f :
  f ∈ fst <$> plain_decoders localtime malloc_ok errnoent ->
  exists c, decoder_named localtime malloc_ok errnoent ifname vla_ok tbl f = Some c /\
            In (f, c) (plain_decoders localtime malloc_ok errnoent).
Proof.
  intros Hf. unfold decoder_named. generalize (special_decoders malloc_ok ifname vla_ok tbl) as sp.
  revert Hf. generalize (plain_decoders localtime malloc_ok errnoent) as l.
  induction l as [|[g c] l IH]; intros Hf sp; [by apply elem_of_nil in Hf|].
  cbn [app List.find fst]. destruct (String.eqb_spec g f) as [->|Hne].
  - exists c. split; [done|by left].
  - rewrite fmap_cons in Hf. apply elem_of_cons in Hf as [Hf|Hf]; [by simpl in Hf|].
    destruct (IH Hf sp) as (c' & Hc & Hin). exists c'. split; [done|by right].
Qed.

Lemma found_named (l : list (string * D Z)) f :
  f ∈ fst <$> l -> is_Some (snd <$> List.find (fun d => String.eqb d.1 f) l).
Proof.
  intros Hf. destruct (List.find _ l) as [d|] eqn:E; [by eexists|].
  apply list_elem_of_fmap in Hf as ([g c] & -> & Hin). apply list_elem_of_In in Hin.
  pose proof (List.find_none _ _ E _ Hin) as H. cbn in H. by rewrite String.eqb_refl in H.
Qed.

(** The special functions are found, but for sys_exit. *)
Lemma special_found ifname vla_ok tbl :
  forallb (fun f => existsb (String.eqb f) (fst <$> special_decoders malloc_ok ifname vla_ok tbl))
    (tail special_names) = true.
Proof. vm_compute. reflexivity. Qed.

(** The functions that call_decoder and call_sys_func know by themselves. *)
Definition builtin_names : list string := ["printargs"; "printargs_lu"; "printargs_ld"; "sys_exit"].

Lemma names_decoder_found errnoent ifname vla_ok tbl ent :
  fst <$> plain_decoders localtime malloc_ok errnoent = fst <$> plain ->
  names_decoder ent = true -> sys_func ent ∉ builtin_names ->
  is_Some (decoder_named localtime malloc_ok errnoent ifname vla_ok tbl (sys_func ent)).
Proof.
  intros Hpl Hn Hb. apply found_named. rewrite fmap_app, elem_of_app, Hpl.
  unfold names_decoder in Hn. apply orb_true_iff in Hn as [Hn|Hn];
    apply existsb_exists in Hn as (f & Hf & <-%String.eqb_eq); [|left; by apply list_elem_of_In].
  right. apply in_app_or in Hf as [Hf|Hf].
  - destruct Hb. apply list_elem_of_In. cbn in Hf |- *. tauto.
  - destruct Hf as [Hf|Hf]; [destruct Hb; rewrite <- Hf; by repeat constructor|].
    pose proof (special_found ifname vla_ok tbl) as H. rewrite forallb_forall in H. specialize (H _ Hf).
    apply existsb_exists in H as (g & Hg & ->%String.eqb_eq). by apply list_elem_of_In.
Qed.
End tables.

Lemma shipped_row w localtime malloc_ok vla_ok ifname pers n ent :
  scno_valid (shipped localtime malloc_ok vla_ok ifname w) pers n = Some ent ->
  (forall K : Kernel, @row_ok K localtime malloc_ok ent = true) /\ sys_func ent <> "".
Proof.
  unfold scno_valid, sysent. simpl. destruct (0 <=? u64 n); [|done].
  destruct (default [] (Sysent.sysent_vec !! pers) !! Z.to_nat (u64 n)) as [e|] eqn:He; [|done].
  destruct (String.eqb_spec (sys_func e) "") as [|Hne]; [done|]. intros [= <-]. split; [|done]. intros K.
  pose proof (@tables_ok K localtime malloc_ok) as H.
  destruct (Sysent.sysent_vec !! pers) as [tbl|] eqn:Ht; [|done]. simpl in He.
  apply list_elem_of_lookup_2, list_elem_of_In in Ht. rewrite forallb_forall in H. specialize (H _ Ht).
  rewrite forallb_forall in H. apply H. apply list_elem_of_In. by eapply list_elem_of_lookup_2.
Qed.

Lemma Decodes_printargs_fmt f n e : Decodes e (printargs_fmt f n) rval_format_ok.
Proof. unfold printargs_fmt. decodes. Qed.

(** ** The text of an error names its number *)

(** The text up to the first space. *)
Fixpoint word (s : string) : string :=
  match s with
  | EmptyString => ""
  | String c s => if Ascii.eqb c " " then "" else String c (word s)
  end.

Fixpoint index_of (f : string) (l : list string) (i : Z) : option Z :=
  match l with
  | [] => None
  | x :: l => if String.eqb x f then Some i else index_of f l (i + 1)
  end.

(** The number of a name: a reader's view of the log. *)
Definition errno_of_name (name : string) : option Z :=
  match strip "ERRNO_" name with
  | Some d => Some (scan_dec 0 d).1
  | None => index_of name errnoent0 0
  end.

(** The number in the text of a failed call. *)
Definition read_error (s : string) : option Z :=
  match strip "= -1 " s with
  | Some s => errno_of_name (word s)
  | None => match strip "= ? " s with Some s => errno_of_name (word s) | None => None end
  end.

Lemma word_app s t : word s = s -> word (s +:+ " " +:+ t) = s.
Proof.
  induction s as [|c s IH]; intros H; [done|]. rewrite app_String. simpl in *.
  destruct (Ascii.eqb c " ") eqn:E; [done|]. f_equal. apply IH. by injection H.
Qed.

(** Every name is a word and is read back as its index. *)
Definition name_ok (i : nat) (name : string) : bool :=
  String.eqb (word name) name && bool_decide (errno_of_name name = Some (Z.of_nat i)).
Lemma errnoent0_ok : forallb (fun p => name_ok p.1 p.2) (imap pair errnoent0) = true.
Proof. vm_compute. reflexivity. Qed.

Lemma errno_name i name :
  errnoent0 !! i = Some name -> word name = name /\ errno_of_name name = Some (Z.of_nat i).
Proof.
  intros Hi. pose proof errnoent0_ok as H. rewrite forallb_forall in H.
  assert (Hin : (i, name) ∈ imap pair errnoent0).
  { apply list_elem_of_lookup. exists i. by rewrite list_lookup_imap, Hi. }
  apply list_elem_of_In, H, andb_true_iff in Hin as [Hw%String.eqb_eq Hn%bool_decide_eq_true]. done.
Qed.

Lemma read_error_plain name rest : word name = name ->
  read_error ("= -1 " +:+ name +:+ " " +:+ rest) = errno_of_name name.
Proof. intros Hw. unfold read_error. rewrite strip_app. by rewrite word_app. Qed.

Lemma word_digits ds : Forall (fun d => 0 <= d < 10) ds -> word (text_of_digits ds) = text_of_digits ds.
Proof.
  induction ds as [|d ds IH] using rev_ind; intros Hds; [done|].
  apply Forall_app in Hds as [Hds Hd]. inversion Hd as [|? ? Hd0 _]; subst.
  rewrite text_of_digits_snoc. cbn [word]. destruct (Ascii.eqb_spec (digit_char d) " ") as [E|_].
  - destruct (dec_digit_char d Hd0) as [H _]. by rewrite E in H.
  - f_equal. by apply IH.
Qed.
Lemma word_fmt_u n : 0 <= n -> word (fmt_u n) = fmt_u n.
Proof. intros. by apply word_digits, digits_range. Qed.

Lemma errno_of_name_filler n : 0 <= n -> errno_of_name ("ERRNO_" +:+ fmt_u n) = Some n.
Proof.
  intros Hn. unfold errno_of_name. rewrite strip_app, <- (sapp_nil_r (fmt_u n)).
  by rewrite scan_dec_fmt_u.
Qed.

(** ** Properties *)

(** C14: the tables that are shipped are complete: in each personality every
    number of a call has at most MAX_ARGS arguments and a function that exists:
    one of the four that trace_syscall knows by itself, or a decoder of the
    shipped collection, which is then what is called.  Unless that function is
    one of the special ones, the call is decoded to the end, on entry and on
    exit, whatever the arguments, the tracee's memory and the kernel's answers,
    with a result format that trace_syscall_exiting knows and no other effect
    than text in the log. *)
Theorem shipped_calls_return `{K : Kernel} localtime malloc_ok vla_ok ifname w pers n ent t e s :
  env_ok e -> (forall n, malloc_ok n = true -> n < 2 ^ 48) ->
  scno_valid (shipped localtime malloc_ok vla_ok ifname w) pers n = Some ent -> s_ent t = Some ent ->
  0 <= nargs ent <= MAX_ARGS /\
  (sys_func ent ∉ builtin_names -> exists c,
    decoder_named localtime malloc_ok (fun _ => errnoent0) ifname vla_ok ioctlent0 (sys_func ent) = Some c /\
    call_sys_func (shipped localtime malloc_ok vla_ok ifname w) t K = c) /\
  (sys_func ent ∉ special_names -> exists r s',
    call_sys_func (shipped localtime malloc_ok vla_ok ifname w) t K e s = Some (r, s') /\
    rval_format_ok r /\ only_prints s s').
Proof.
  intros Hok Hm Hv Ht. destruct (shipped_row _ _ _ _ _ _ _ _ Hv) as [Hrow Hne]. specialize (Hrow K).
  unfold row_ok in Hrow. rewrite (proj2 (String.eqb_neq _ _) Hne), !andb_true_iff, orb_false_l in Hrow.
  destruct Hrow as [[H0 H6] Hn]. split; [lia|]. split.
  { intros Hb. destruct (names_decoder_found localtime malloc_ok (fun _ => errnoent0) ifname vla_ok ioctlent0
                           ent eq_refl Hn Hb) as [c Hc].
    exists c. split; [done|]. unfold call_sys_func, fn_is, ent_func, Syscall.ent. rewrite Ht. cbn [default id].
    assert (forall f, f ∈ builtin_names -> (sys_func ent =? f)%string = false) as Hf.
    { intros f Hf. apply String.eqb_neq. by intros <-. }
    rewrite !Hf by (by repeat constructor).
    cbn [shipped sys_call]. unfold shipped_decoder. by rewrite Hc. }
  intros Hsp. revert s.
  unfold call_sys_func, fn_is, ent_func, Syscall.ent, printargs, printargs_lu, printargs_ld. rewrite Ht. cbn [default id].
  destruct (String.eqb_spec (sys_func ent) "printargs"); [apply Decodes_printargs_fmt|].
  destruct (String.eqb_spec (sys_func ent) "printargs_lu"); [apply Decodes_printargs_fmt|].
  destruct (String.eqb_spec (sys_func ent) "printargs_ld"); [apply Decodes_printargs_fmt|].
  assert (Hf : sys_func ent ∈ fst <$> plain_decoders localtime malloc_ok (fun _ => errnoent0)).
  { unfold names_decoder in Hn. apply orb_true_iff in Hn as [Hn|Hn];
      apply existsb_exists in Hn as (f & Hf & <-%String.eqb_eq); [|by apply list_elem_of_In].
    apply list_elem_of_In, elem_of_app in Hf as [Hf|Hf]; [|done].
    repeat (apply elem_of_cons in Hf as [Hf|Hf]; [done|]). by apply elem_of_nil in Hf. }
  destruct (decoder_named_plain localtime malloc_ok (fun _ => errnoent0) ifname vla_ok ioctlent0 _ Hf)
    as (c & Hc & Hin). unfold shipped, shipped_decoder, sys_call. rewrite Hc. simpl default.
  pose proof (plain_decoders_ok localtime malloc_ok (fun _ => errnoent0) e Hok Hm) as Hall.
  rewrite List.Forall_forall in Hall. apply (Hall _ Hin).
Qed.

(** C19: with the shipped tables, the line of a failed call names its error
    without loss: the number of the error, the kernel's restart codes and
    numbers beyond the table included, can be read back from the text. *)
Theorem error_text_lossless localtime malloc_ok vla_ok ifname w pers u_error :
  0 <= u_error ->
  read_error (error_text (shipped localtime malloc_ok vla_ok ifname w) pers u_error) = Some u_error.
Proof.
  intros H0. unfold error_text.
  destruct (Z.eqb_spec u_error ERESTARTSYS) as [->|_]; [vm_compute; reflexivity|].
  destruct (Z.eqb_spec u_error ERESTARTNOINTR) as [->|_]; [vm_compute; reflexivity|].
  destruct (Z.eqb_spec u_error ERESTARTNOHAND) as [->|_]; [vm_compute; reflexivity|].
  destruct (Z.eqb_spec u_error ERESTART_RESTARTBLOCK) as [->|_]; [vm_compute; reflexivity|].
  destruct (Z.ltb_spec u_error 0) as [|_]; [lia|].
  unfold nerrnos. cbn [errnoent shipped]. destruct (Z.ltb_spec u_error (Z.of_nat (length errnoent0))) as [Hlt|Hge].
  - destruct (lookup_lt_is_Some_2 errnoent0 (Z.to_nat u_error) ltac:(lia)) as [name Hname].
    rewrite Hname. cbn [default id]. destruct (errno_name _ _ Hname) as [Hw Hn].
    change (" (" +:+ _) with (" " +:+ ("(" +:+ strerror w u_error +:+ ")")).
    rewrite read_error_plain by done. rewrite Hn. f_equal. lia.
  - change ("= -1 ERRNO_" +:+ ?x) with ("= -1 " +:+ ("ERRNO_" +:+ x)).
    replace (fmt_d u_error) with (fmt_u u_error) by (unfold fmt_d; by rewrite (proj2 (Z.ltb_ge _ _) H0)).
    change (" (" +:+ _) with (" " +:+ ("(" +:+ strerror w u_error +:+ ")")).
    rewrite <- (sapp_assoc "ERRNO_"), read_error_plain; [by apply errno_of_name_filler|].
    change (word ("ERRNO_" +:+ fmt_u u_error)) with ("ERRNO_" +:+ word (fmt_u u_error)).
    by rewrite word_fmt_u.
Qed.

(** The i386 and x32 tables have entries without a name, which syscall_cmp hands
    to strcmp. *)
Lemma sort_by_name_crashes q lt mal vla ifn w v p : (p < 3)%nat ->
  is_Some (sorted_count q (default [] (sysent_vec (shipped lt mal vla ifn w) !! p)) v SortName)
  <-> p = 0%nat.
Proof.
  intros Hp. unfold sorted_count. destruct p as [|[|[|p]]]; [| | |lia].
  all: lazymatch goal with |- context [forallb ?f ?l] => let b := eval vm_compute in (forallb f l) in change (forallb f l) with b end.
  - split; [done|]. intros _. by eexists.
  - split; [by intros [? [=]]|done].
  - split; [by intros [? [=]]|done].
Qed.

(** close, number 3 of the 64-bit personality *)
Definition close_ent : struct_sysent := row 1 TD "sys_close" "close".
Definition close_tcb : tcb := set_scno 3 0 (Some close_ent) (demo_tcb 11 0).
Definition small_world : world :=
  shipped (fun _ => None) (fun n => n <? 1000) (fun _ => true) (fun _ => None) quiet_world.

Lemma shipped_calls_return_witness :
  0 <= 1 <= MAX_ARGS /\ exists r s',
    call_sys_func small_world close_tcb io_kernel (io_env [3; 0; 0; 0; 0; 0]) io_state = Some (r, s') /\
    rval_format_ok r /\ only_prints io_state s'.
Proof.
  destruct (@shipped_calls_return io_kernel (fun _ => None) (fun n => n <? 1000) (fun _ => true)
              (fun _ => None) quiet_world 0 3 close_ent close_tcb (io_env [3; 0; 0; 0; 0; 0]) io_state
              (io_env_ok _)) as (H1 & _ & H2).
  - intros n Hn. apply Z.ltb_lt in Hn. lia.
  - vm_compute. reflexivity.
  - reflexivity.
  - split; [exact H1|]. apply H2. intros H.
    repeat (apply elem_of_cons in H as [H|H]; [discriminate H|]). by apply elem_of_nil in H.
Defined.

(** EAGAIN *)
Lemma error_text_lossless_witness : read_error (error_text small_world 1 11) = Some 11.
Proof. apply error_text_lossless. discriminate. Defined.
