(* ===== verification/Abi.v ===== *)
(** * Reading the system call ABI: results, personalities, and the trick for
      following forks (properties of Syscall.v) *)

From S2P Require Import Prelude Timeval Xlat Quote Tracee Decode Io Options Signal Qual Mmap Count.
From S2P Require Import Tcb Regs Log Table Pathtrace Syscall Frame Line Stops.
Local Open Scope string_scope.
Local Open Scope list_scope.
Local Open Scope Z_scope.

(** ** Results *)

Lemma negated_errno_64 w rax :
  0 < nerrnos w 0 < 2 ^ 31 -> is_s64 rax ->
  is_negated_errno w 0 (u64 rax) = (- nerrnos w 0 <? rax) && (rax <? 0).
Proof.
  intros Hn Hr. unfold is_negated_errno. cbn [wordsize_of]. change (8 <? 8) with false. cbv iota.
  assert (Hm : u64 (- nerrnos w 0) = 2 ^ 64 - nerrnos w 0).
  { unfold u64. rewrite <- (Z.mod_unique (- nerrnos w 0) (2 ^ 64) (-1) (2 ^ 64 - nerrnos w 0)); lia. }
  rewrite Hm. unfold is_s64 in Hr.
  destruct (Z.ltb_spec rax 0).
  - rewrite andb_true_r. unfold u64.
    rewrite <- (Z.mod_unique rax (2 ^ 64) (-1) (2 ^ 64 + rax)) by lia. lia.
  - rewrite andb_false_r. unfold u64. rewrite Z.mod_small by lia. lia.
Qed.

Lemma negated_errno_32 w pers rax :
  pers <> 0%nat -> 0 < nerrnos w pers < 2 ^ 31 -> is_s32 rax ->
  is_negated_errno w pers (u64 rax) = (- nerrnos w pers <? rax) && (rax <? 0).
Proof.
  intros Hp Hn Hr. unfold is_negated_errno.
  replace (wordsize_of pers <? 8) with true by by destruct pers.
  assert (Hu : forall z, u32 (u64 z) = u32 z).
  { intros z. unfold u32, u64. apply Z.mod_mod_divide. by exists (2 ^ 32). }
  rewrite !Hu. unfold is_s32 in Hr.
  assert (Hm : u32 (- nerrnos w pers) = 2 ^ 32 - nerrnos w pers).
  { unfold u32. rewrite <- (Z.mod_unique _ (2 ^ 32) (-1) (2 ^ 32 - nerrnos w pers)); lia. }
  rewrite Hm. destruct (Z.ltb_spec rax 0).
  - rewrite andb_true_r. unfold u32.
    rewrite <- (Z.mod_unique rax (2 ^ 32) (-1) (2 ^ 32 + rax)) by lia. lia.
  - rewrite andb_false_r. unfold u32. rewrite Z.mod_small by lia. lia.
Qed.

Lemma result_reg_range r : if is_i386 r then is_s32 (result_reg r) else is_s64 (result_reg r).
Proof. unfold result_reg. destruct (is_i386 r); [apply s32_range|apply s64_range]. Qed.

(** The kernel's convention: a result between -(nerrnos-1) and -1 is an error. *)
Definition kernel_result (nerr rax : Z) (never_fails : bool) : Z * Z :=
  if negb never_fails && ((- nerr <? rax) && (rax <? 0)) then (-1, - rax) else (rax, 0).

Lemma error_of_convention w pers r never :
  0 < nerrnos w pers < 2 ^ 31 -> (is_i386 r = true /\ pers = 1%nat \/ is_i386 r = false /\ pers = 0%nat) ->
  error_of w pers never (result_reg r) = kernel_result (nerrnos w pers) (result_reg r) never.
Proof.
  intros Hn Hp. unfold error_of, kernel_result. pose proof (result_reg_range r) as Hr.
  assert (H : is_negated_errno w pers (u64 (result_reg r)) =
              (- nerrnos w pers <? result_reg r) && (result_reg r <? 0)).
  { destruct Hp as [[Hi ->]|[Hi ->]]; rewrite Hi in Hr;
      [by apply negated_errno_32|by apply negated_errno_64]. }
  rewrite H. destruct (negb never); [|done]. simpl.
  destruct ((- nerrnos w pers <? result_reg r) && (result_reg r <? 0)) eqn:E; [|done].
  f_equal. apply s32_id. unfold is_s32. lia.
Qed.

(** ** Personalities *)

(** get_scno keeps the personality of the process and the current one in step,
    unless the current one was already the new one while the process's was not. *)
Lemma update_personality_run opt i p s t :
  tcbtab s !! i = Some t ->
  exists s', update_personality opt i p s = Ret tt s' /\ current_personality (glb s') = p /\
    exists t', tcbtab s' !! i = Some t' /\
      currpers t' = (if (p =? current_personality (glb s))%nat then currpers t else p).
Proof.
  intros Ht. unfold update_personality, set_personality, mbind, M_bind, gets, tcb_of, when, mret, M_ret.
  destruct (Nat.eqb_spec p (current_personality (glb s))) as [->|Hne].
  { eexists. split; [reflexivity|]. split; [done|]. by exists t. }
  unfold modify_glb, gets. simpl. rewrite Ht. simpl.
  destruct (Nat.eqb_spec p (currpers t)) as [->|Hne2].
  { eexists. split; [reflexivity|]. split; [done|]. by exists t. }
  simpl. assert (Hl : alter (set_currpers p) i (tcbtab s) !! i = Some (set_currpers p t))
    by by rewrite list_lookup_alter, decide_True, Ht.
  destruct (qflag opt =? 0); eexists; (split; [reflexivity|]; split; [done|]);
    exists (set_currpers p t); split; done.
Qed.

(** ** Properties *)

(** C27: get_error follows the kernel's convention.  For the x86_64 and the i386
    personalities, as get_scno sets them from the registers, a result between
    -(nerrnos-1) and -1 becomes the return value -1 with its positive error
    number, every other one is the return value itself without an error, and a
    call marked as never failing has no error; nothing else of the tcb changes. *)
Theorem get_error_decodes_result w i s t :
  let r := regs (glb s) in
  let pers := current_personality (glb s) in
  tcbtab s !! i = Some t -> 0 < nerrnos w pers < 2 ^ 31 ->
  (is_i386 r = true /\ pers = 1%nat \/ is_i386 r = false /\ pers = 0%nat) ->
  exists s',
    get_error w i s = Ret tt s' /\
    tcbtab s' !! i = Some
      (let '(rval, err) := kernel_result (nerrnos w pers) (result_reg r)
                             (has_flag (sys_flags (ent t)) SYSCALL_NEVER_FAILS) in
       set_result rval err t).
Proof.
  intros r pers Ht Hn Hp. unfold get_error, mbind, M_bind, gets, tcb_of, gets. rewrite Ht. simpl.
  fold r pers. rewrite (error_of_convention w pers r _ Hn Hp).
  destruct (kernel_result _ _ _) as [rval err]. eexists. split; [reflexivity|].
  simpl. by rewrite list_lookup_alter, decide_True, Ht.
Qed.

Lemma get_error_decodes_result_witness :
  let s := mk_tracer [demo_tcb 10 0] 1 None None (set_regs 0 (call_regs 1 (-2) []) demo_globals) [] in
  exists s' t', get_error quiet_world 0 s = Ret tt s' /\ tcbtab s' !! 0%nat = Some t' /\
    u_rval t' = -1 /\ u_error t' = 2.
Proof.
  intros s.
  destruct (get_error_decodes_result quiet_world 0 s (demo_tcb 10 0)) as (s' & H1 & H2).
  - reflexivity.
  - split; reflexivity.
  - right. split; reflexivity.
  - eexists s', _. split; [exact H1|]. split; [exact H2|]. split; vm_compute; reflexivity.
Defined.

(** In the x86_64 build an x32 process's 64-bit results are cut to 32 bits
    before the test, because the test goes by the word size: whenever a 64-bit
    result has error-like low half, such as an lseek to 2^32 - 2, a successful
    call is reported as failed. *)
Theorem get_error_x32_reports_large_results w hi e :
  0 < nerrnos w 2 < 2 ^ 31 -> 0 < e < nerrnos w 2 -> 0 < hi < 2 ^ 31 ->
  let rax := hi * 2 ^ 32 - e in
  0 < rax /\ error_of w 2 false rax = (-1, e).
Proof.
  intros Hn He Hhi rax. split; [lia|]. unfold error_of, is_negated_errno. cbn [wordsize_of negb andb].
  change (4 <? 8) with true. cbv iota.
  assert (H1 : u32 (u64 rax) = 2 ^ 32 - e).
  { unfold u32, u64. rewrite Z.mod_mod_divide by (by exists (2 ^ 32)). unfold rax.
    rewrite <- (Z.mod_unique _ (2 ^ 32) (hi - 1) (2 ^ 32 - e)); lia. }
  assert (H2 : u32 (u64 (- nerrnos w 2)) = 2 ^ 32 - nerrnos w 2).
  { unfold u32, u64. rewrite Z.mod_mod_divide by (by exists (2 ^ 32)).
    rewrite <- (Z.mod_unique _ (2 ^ 32) (-1) (2 ^ 32 - nerrnos w 2)); lia. }
  rewrite H1, H2. replace (2 ^ 32 - e >? 2 ^ 32 - nerrnos w 2) with true by lia.
  f_equal. unfold s32, rax.
  replace (- (hi * 2 ^ 32 - e) + 2 ^ 31) with (e + 2 ^ 31 + (- hi) * 2 ^ 32) by lia.
  rewrite Z.mod_add by lia. rewrite Z.mod_small by lia. lia.
Qed.

Lemma get_error_x32_reports_large_results_witness :
  error_of quiet_world 2 false (2 ^ 32 - 2) = (-1, 2).
Proof.
  apply (get_error_x32_reports_large_results quiet_world 1 2); vm_compute; split; reflexivity.
Defined.

(** Update_personality loses a change of personality.  When the personality
    the process switched to is already the current one (another process of
    that kind was handled last), the process's own record is not updated; at the
    exit of the same call the tracer switches back to the stale personality and
    decodes the rest of the call with the wrong tables and word size. *)
Theorem update_personality_forgets opt i s t :
  tcbtab s !! i = Some t -> currpers t <> current_personality (glb s) ->
  exists s1 s2 t1,
    update_personality opt i (current_personality (glb s)) s = Ret tt s1 /\
    tcbtab s1 !! i = Some t1 /\ currpers t1 = currpers t /\
    update_personality opt i (currpers t1) s1 = Ret tt s2 /\
    current_personality (glb s2) = currpers t.
Proof.
  intros Ht Hne.
  destruct (update_personality_run opt i (current_personality (glb s)) s t Ht)
    as (s1 & H1 & _ & t1 & Ht1 & Hc1). rewrite Nat.eqb_refl in Hc1.
  destruct (update_personality_run opt i (currpers t1) s1 t1 Ht1) as (s2 & H2 & Hp2 & _).
  exists s1, s2, t1. split_and!; try done. congruence.
Qed.

Lemma update_personality_forgets_witness :
  let s := mk_tracer [demo_tcb 10 0] 1 None None (set_pers 1 demo_globals) [] in
  exists s1 s2, update_personality demo_options 0 1 s = Ret tt s1 /\
    update_personality demo_options 0 0 s1 = Ret tt s2 /\ current_personality (glb s2) = 0%nat.
Proof.
  intros s.
  destruct (update_personality_forgets demo_options 0 s (demo_tcb 10 0)) as (s1 & s2 & t1 & H1 & _ & H2 & H3 & H4).
  - reflexivity.
  - discriminate.
  - exists s1, s2. split; [exact H1|]. rewrite H2 in H3. split; [exact H3|exact H4].
Defined.
