(* ===== verification/Trace.v ===== *)
(** * The event loop (alice-strace.c: ptrace_restart, ptrace_attach_or_seize,
      detach, cleanup, trace, main)

    One round of the loop in trace() is [iteration]; what main does after the
    loop is [main_loop].  The report of -c is one event, [EReport]: its text goes
    to shared_log at the very end, behind every line, and text_of leaves it out.
    The signal masks around wait4 are not modelled. *)

From S2P Require Import Prelude Timeval Xlat Quote Tracee Decode Io Options Signal Qual Mmap Count Report.
From S2P Require Import Tcb Regs Log Table Pathtrace Syscall.
Local Open Scope string_scope.
Local Open Scope list_scope.
Local Open Scope Z_scope.

Definition WALL : Z := 0x40000000.
Definition WCLONE : Z := 0x80000000.

(** The event in the status of a ptrace stop. *)
Definition event_of (status : Z) : Z := Z.shiftr (u32 status) 16.

Section trace.
Context (oracle : list event -> request -> reply) (opt : options) (w : world).

Definition perror_msg (err : Z) (t : string) : M unit :=
  err_msg (t +:+ ": " +:+ strerror w err +:+ nl).

(** The volatile variable interrupted. *)
Definition interrupted : M Z := r ← ask_kernel oracle RIntr; mret (r_val r).

Definition ptrace (op p addr data : Z) : M reply := ask_kernel oracle (RPtrace op p addr data).

Definition ptrace_attach_or_seize (p : Z) : M Z :=
  if negb (use_seize opt) then r ← ptrace PTRACE_ATTACH p 0 0; mret (r_ret r)
  else
    r ← ptrace PTRACE_SEIZE p 0 0;
    if negb (r_ret r =? 0) then mret (r_ret r)
    else r ← ptrace PTRACE_INTERRUPT p 0 0; mret (r_ret r).

Definition op_name (op : Z) : string :=
  if op =? PTRACE_CONT then "CONT"
  else if op =? PTRACE_DETACH then "DETACH"
  else if op =? PTRACE_LISTEN then "LISTEN"
  else "SYSCALL".

Definition ptrace_restart (op : Z) (i : nat) (sig : Z) : M Z :=
  t ← tcb_of i;
  r ← ptrace op (pid t) 0 sig;
  let err := if r_ret r <? 0 then r_errno r else 0 in
  if err =? 0 then mret 0
  else
    cur ← gets current_tcp;
    _ ← match cur with
        | None => mret tt
        | Some c =>
            ct ← tcb_of c;
            when (negb (curcol ct =? 0))
              (_ ← tprints (" <ptrace(" +:+ op_name op +:+ "):" +:+ strerror w err +:+ ">" +:+ nl);
               line_ended)
        end;
    if err =? ESRCH then mret 0
    else
      _ ← perror_msg err ("ptrace(PTRACE_" +:+ op_name op +:+ ",pid:" +:+ fmt_d (pid t) +:+ ",sig:" +:+
                          fmt_d sig +:+ ")");
      mret (-1).

(** ** detach *)

(** The waits of detach: a status, or [None] to leave the loop. *)
Definition detach_wait (i : nat) : M (option Z) :=
  t ← tcb_of i;
  r ← ask_kernel oracle (RWait4 (pid t) WALL);
  if negb (r_ret r <? 0) then mret (Some (r_val r))
  else if r_errno r =? ECHILD then mret None
  else if negb (r_errno r =? EINVAL) then
    _ ← perror_msg (r_errno r) "detach: waiting"; mret None
  else
    r ← ask_kernel oracle (RWait4 (pid t) 0);
    if negb (r_ret r <? 0) then mret (Some (r_val r))
    else if negb (r_errno r =? ECHILD) then
      _ ← perror_msg (r_errno r) "detach: waiting"; mret None
    else
      r ← ask_kernel oracle (RWait4 (pid t) WCLONE);
      if negb (r_ret r <? 0) then mret (Some (r_val r))
      else
        _ ← when (negb (r_errno r =? ECHILD)) (perror_msg (r_errno r) "detach: waiting");
        mret None.

(** The loop that waits for the SIGSTOP. *)
Fixpoint detach_loop (fuel : nat) (i : nat) (error : Z) : M Z :=
  match fuel with
  | O => exit_ out_of_fuel
  | S fuel =>
      st ← detach_wait i;
      match st with
      | None => mret error
      | Some status =>
          if negb (WIFSTOPPED status) then mret error
          else if WSTOPSIG status =? SIGSTOP then
            _ ← ptrace_restart PTRACE_DETACH i 0; mret error
          else
            error ← ptrace_restart PTRACE_CONT i
                      (if WSTOPSIG status =? syscall_trap_sig opt then 0 else WSTOPSIG status);
            if error <? 0 then mret error else detach_loop fuel i error
      end
  end.

(** PTRACE_DETACH and, when the process runs, SIGSTOP: the error and whether
    to wait for a SIGSTOP. *)
Definition detach_request (i : nat) : M (Z * bool) :=
  t ← tcb_of i;
  let expected := has_flag (flags t) TCB_IGNORE_ONE_SIGSTOP in
  r ← ptrace PTRACE_DETACH (pid t) 1 0;
  let error := r_ret r in
  if error =? 0 then mret (error, expected)
  else if negb (r_errno r =? ESRCH) then
    _ ← perror_msg (r_errno r) "detach: ptrace(PTRACE_DETACH, ...)"; mret (error, expected)
  else
    k ← ask_kernel oracle (RTkill (pid t) 0);
    if r_ret k <? 0 then
      _ ← when (negb (r_errno k =? ESRCH)) (perror_msg (r_errno k) "detach: checking sanity");
      mret (error, expected)
    else if expected then mret (error, true)
    else
      k ← ask_kernel oracle (RTkill (pid t) SIGSTOP);
      if r_ret k <? 0 then
        _ ← when (negb (r_errno k =? ESRCH)) (perror_msg (r_errno k) "detach: stopping child");
        mret (error, expected)
      else mret (error, true).

Definition detach (i : nat) : M Z :=
  t ← tcb_of i;
  _ ← (if has_flag (flags t) TCB_BPTSET then _ ← clearbpt oracle i; mret tt else mret tt);
  '(error, expected) ← (if has_flag (flags t) TCB_ATTACHED then detach_request i
                        else mret (0, false));
  error ← (if expected : bool then detach_loop (loop_fuel w) i error else mret error);
  _ ← when ((qflag opt =? 0) && has_flag (flags t) TCB_ATTACHED)
        (err_msg ("Process " +:+ fmt_u (u32 (pid t)) +:+ " detached" +:+ nl));
  _ ← droptcb opt i;
  mret error.

(** ** cleanup *)

Fixpoint cleanup_from (n i : nat) (fatal_sig : Z) : M unit :=
  match n with
  | O => mret tt
  | S n =>
      t ← tcb_of i;
      _ ← (if inuse t then
             _ ← (if has_flag (flags t) TCB_STRACE_CHILD then
                    _ ← ask_kernel oracle (RKill (pid t) SIGCONT);
                    _ ← ask_kernel oracle (RKill (pid t) fatal_sig); mret tt
                  else mret tt);
             _ ← detach i; mret tt
           else mret tt);
      cleanup_from n (S i) fatal_sig
  end.

(** call_summary: the report of each personality that has a table. *)
Definition summary_header (p : nat) : string :=
  match p with
  | O => ""
  | _ => "System call usage summary for " +:+ fmt_d (wordsize_of p * 8) +:+ " bit mode:" +:+ nl
  end.
Definition summary_of (p : nat) : M unit :=
  g ← gets glb;
  match countv (g_counts g) !! p with
  | Some (Some _) =>
      _ ← when (negb (current_personality g =? p)%nat) (set_personality p);
      match call_summary_pers (qsort w) (sortby opt) (default [] (sysent_vec w !! p)) p (g_counts g) with
      | Some (text, c) => _ ← emit (EReport (summary_header p +:+ text)); modify_glb (set_counts c)
      | None => exit_ SIGSEGV_exit
      end
  | _ => mret tt
  end.
Definition call_summary : M unit :=
  old ← gets (fun s => current_personality (glb s));
  _ ← summary_of 0; _ ← summary_of 1; _ ← summary_of 2;
  p ← gets (fun s => current_personality (glb s));
  when (negb (old =? p)%nat) (set_personality old).

Definition cleanup : M unit :=
  sig ← interrupted;
  s ← get;
  _ ← cleanup_from (tcbtabsize s) 0 (if sig =? 0 then SIGTERM else sig);
  when (negb (cflag opt =? CFLAG_NONE)) call_summary.

(** ** One round of the loop *)

Inductive flow := Continue | Return (r : Z).

(** The waits of trace(): the last reply. *)
Definition wait_for_stop : M reply :=
  g ← gets glb;
  r ← ask_kernel oracle (RWait4 (-1) (if wait4_wall g then WALL else 0));
  r ← (if (r_ret r <? 0) && wait4_wall g && (r_errno r =? EINVAL) then
         _ ← modify_glb (set_wall false);
         ask_kernel oracle (RWait4 (-1) 0)
       else mret r);
  g ← gets glb;
  if (r_ret r <? 0) && negb (wait4_wall g) && (r_errno r =? ECHILD) then
    r ← ask_kernel oracle (RWait4 (-1) WCLONE);
    _ ← when (r_ret r <? 0) (perror_msg (r_errno r) "wait4(__WCLONE) failed");
    mret r
  else mret r.

(** The tcb of the process that stopped, a new one for a new child. *)
Definition find_tracee (p status : Z) : M nat :=
  known ← pid2tcb p;
  match known with
  | Some i => mret i
  | None =>
      if negb (followfork opt =? 0) then
        i ← alloctcb p;
        _ ← upd_tcb i (set_flags (fun f =>
              set_flag f (Z.lor TCB_ATTACHED (Z.lor TCB_STARTUP (post_attach_sigstop opt)))));
        _ ← newoutf oracle opt i;
        _ ← when (qflag opt =? 0) (err_msg ("Process " +:+ fmt_d p +:+ " attached" +:+ nl));
        mret i
      else
        _ ← (if WIFSTOPPED status then _ ← ptrace PTRACE_CONT p 0 0; mret tt else mret tt);
        die_msg ("Unknown pid: " +:+ fmt_u (u32 p))
  end.

(** The thread whose execve made it take over pid [p]. *)
Definition execve_thread (p event : Z) : M (option (nat * Z)) :=
  if (event =? PTRACE_EVENT_EXEC) && (os_release opt >=? 0x30000) then
    r ← ptrace PTRACE_GETEVENTMSG p 0 0;
    let old_pid := r_val r in
    if (r_ret r <? 0) || (old_pid <=? 0) || (old_pid =? p) then mret None
    else
      th ← pid2tcb (s32 old_pid);
      mret (option_map (fun e => (e, old_pid)) th)
  else mret None.

(** The switch of tcbs on a threaded execve: the tcb to go on with. *)
Definition exec_switch (i : nat) (p event : Z) : M nat :=
  th ← execve_thread p event;
  match th with
  | None => mret i
  | Some (e, old_pid) =>
      et ← tcb_of e;
      _ ← (if curcol et =? 0 then mret tt
           else
             match outf et with
             | Some f => emit (EWrite f (" <pid changed to " +:+ fmt_d p +:+ " ...>" +:+ nl))
             | None => exit_ SIGSEGV_exit
             end);
      tcp ← tcb_of i;
      _ ← upd_tcb e (fun t => set_curcol (fun _ => curcol tcp)
                                (set_out (outf tcp) (out_dump_f tcp) (out_stack_f tcp) t));
      _ ← upd_tcb i (fun t => set_curcol (fun _ => 0)
                                (set_out (outf et) (out_dump_f et) (out_stack_f et) t));
      _ ← droptcb opt i;
      _ ← upd_tcb e (set_pid p);
      _ ← (if cflag opt =? CFLAG_ONLY_STATS then mret tt
           else
             _ ← printleader oracle opt (hms w) e;
             _ ← tprints ("+++ superseded by execve in pid " +:+ fmt_u (u64 old_pid) +:+ " +++" +:+ nl);
             _ ← line_ended;
             upd_tcb e (set_flags (fun f => set_flag f TCB_REPRINT)));
      mret e
  end.

(** -b execve *)
Definition exec_detach (i : nat) (event : Z) : M unit :=
  if event =? PTRACE_EVENT_EXEC then
    g ← gets glb;
    _ ← (if detach_on_execve opt && negb (skip_one_b_execve g) then _ ← detach i; mret tt
         else mret tt);
    modify_glb (set_skip false)
  else mret tt.

(** A message line of [i]. *)
Definition say (i : nat) (txt : string) : M unit := message oracle opt (hms w) i txt.

Definition traces_signal (g : globals) (sig : Z) : bool :=
  has_flag (qual_flags w (current_personality g) sig) QUAL_SIGNAL.

Definition death_killed (i : nat) (p status : Z) : M unit :=
  let sig := WTERMSIG status in
  _ ← when (p =? strace_child opt) (modify_glb (set_exit_code (Z.lor 0x100 sig)));
  g ← gets glb;
  _ ← when (negb (cflag opt =? CFLAG_ONLY_STATS) && traces_signal g sig)
        (say i ("+++ killed by " +:+ signame sig +:+ " " +:+
                (if WCOREDUMP status then "(core dumped) " else "") +:+ "+++"));
  droptcb opt i.

Definition death_exited (i : nat) (p status : Z) : M unit :=
  _ ← when (p =? strace_child opt) (modify_glb (set_exit_code (WEXITSTATUS status)));
  _ ← when (negb (cflag opt =? CFLAG_ONLY_STATS) && (qflag opt <? 2))
        (say i ("+++ exited with " +:+ fmt_d (WEXITSTATUS status) +:+ " +++"));
  droptcb opt i.

(** The first stop of a tracee; false when it must be given up. *)
Definition startup_stop (i : nat) : M bool :=
  t ← tcb_of i;
  if negb (has_flag (flags t) TCB_STARTUP) then mret true
  else
    _ ← upd_tcb i (set_flags (fun f => clear_flag f TCB_STARTUP));
    ok ← (if has_flag (flags t) TCB_BPTSET then
            r ← clearbpt oracle i;
            if r <? 0 then _ ← droptcb opt i; _ ← cleanup; mret false else mret true
          else mret true);
    if negb ok then mret false
    else if ptrace_setoptions opt =? 0 then mret true
    else
      r ← ptrace PTRACE_SETOPTIONS (pid t) 0 (ptrace_setoptions opt);
      if (r_ret r <? 0) && negb (r_errno r =? ESRCH) then die_msg "PTRACE_SETOPTIONS"
      else mret true.

(** restart_tracee *)
Definition restart_tracee (op : Z) (i : nat) (sig : Z) : M flow :=
  r ← ptrace_restart op i sig;
  if r <? 0 then _ ← cleanup; mret (Return (-1)) else mret Continue.

(** From show_stopsig: [si] is the signal's information, [None] for a
    group-stop. *)
Definition show_stopsig (i : nat) (sig : Z) (si : option siginfo) : M flow :=
  g ← gets glb;
  t ← tcb_of i;
  _ ← when (negb (cflag opt =? CFLAG_ONLY_STATS) && negb (hide_log_until_execve g) && traces_signal g sig)
        (say i match si with
               | Some si => "--- " +:+ signame sig +:+ " " +:+
                            printsiginfo (errnoent w (current_personality g)) si (has_flag (qual_flg t) QUAL_VERBOSE) +:+ " ---"
               | None => "--- stopped by " +:+ signame sig +:+ " ---"
               end);
  match si with
  | Some _ => restart_tracee PTRACE_SYSCALL i sig
  | None => if use_seize opt then restart_tracee PTRACE_LISTEN i 0
            else restart_tracee PTRACE_SYSCALL i sig
  end.

Definition group_stop_sig (sig : Z) : bool :=
  existsb (Z.eqb sig) [SIGSTOP; SIGTSTP; SIGTTIN; SIGTTOU].

(** A stop of a tracee that is set up. *)
Definition dispatch_stop (i : nat) (p status : Z) : M flow :=
  let sig := WSTOPSIG status in
  let event := event_of status in
  t ← tcb_of i;
  if negb (event =? 0) then
    if (event =? PTRACE_EVENT_STOP) && group_stop_sig sig then show_stopsig i sig None
    else restart_tracee PTRACE_SYSCALL i 0
  else if (sig =? SIGSTOP) && has_flag (flags t) TCB_IGNORE_ONE_SIGSTOP then
    _ ← upd_tcb i (set_flags (fun f => clear_flag f TCB_IGNORE_ONE_SIGSTOP));
    restart_tracee PTRACE_SYSCALL i 0
  else if negb (sig =? syscall_trap_sig opt) then
    r ← ptrace PTRACE_GETSIGINFO p 0 0;
    show_stopsig i sig (if r_ret r <? 0 then None else Some (r_si r))
  else
    intr ← interrupted;
    if negb (intr =? 0) then mret (Return 0)
    else
      r ← trace_syscall oracle opt w i;
      if r <? 0 then mret Continue else restart_tracee PTRACE_SYSCALL i 0.

(** What happened to tcb [i] of process [p]. *)
Definition handle_status (i : nat) (p status : Z) : M flow :=
  if WIFSIGNALED status then _ ← death_killed i p status; mret Continue
  else if WIFEXITED status then _ ← death_exited i p status; mret Continue
  else if negb (WIFSTOPPED status) then
    _ ← err_msg ("PANIC: pid " +:+ fmt_u (u32 p) +:+ " not stopped" +:+ nl);
    _ ← droptcb opt i; mret Continue
  else
    ok ← startup_stop i;
    if negb ok then mret (Return (-1)) else dispatch_stop i p status.

Definition iteration : M flow :=
  intr ← interrupted;
  if negb (intr =? 0) then mret (Return 0)
  else
    r ← wait_for_stop;
    let p := r_ret r in
    let status := r_val r in
    if p <? 0 then
      if r_errno r =? EINTR then mret Continue
      else if r_errno r =? ECHILD then mret (Return 0)
      else _ ← perror_msg (r_errno r) "wait"; mret (Return (-1))
    else
      g ← gets glb;
      if p =? popen_pid g then
        _ ← when (WIFEXITED status || WIFSIGNALED status) (modify_glb (set_popen_pid 0));
        mret Continue
      else
        i ← find_tracee p status;
        _ ← clear_regs;
        _ ← (if WIFSTOPPED status then get_regs oracle p else mret tt);
        i ← exec_switch i p (event_of status);
        _ ← exec_detach i (event_of status);
        _ ← set_current (Some i);
        _ ← when (negb (cflag opt =? CFLAG_NONE))
              (upd_tcb i (fun t => set_times (r_tv r) (tv_sub (r_tv r) (stime t)) (etime t) t));
        handle_status i p status.

(** while (nprocs != 0); [fuel] bounds the rounds. *)
Fixpoint trace (fuel : nat) : M Z :=
  n ← gets nprocs;
  if n =? 0 then mret 0
  else
    match fuel with
    | O => exit_ out_of_fuel
    | S fuel =>
        fl ← iteration;
        match fl with Return r => mret r | Continue => trace fuel end
    end.

(** The loop as a transition system: rounds after which it goes on. *)
Inductive step : tracer -> tracer -> Prop :=
  | step_round s s' : nprocs s <> 0 -> iteration s = Ret Continue s' -> step s s'.

(** ** The end of main *)

(** How the process ends: the signal it raises first, and its exit code. *)
Definition mimic (code : Z) : option Z * Z :=
  if code >? 0xff then (Some (Z.land code 0xff), Z.land code 0xff + 128) else (None, code).

(** while (waitpid(popen_pid, ...) < 0 && errno == EINTR) *)
Fixpoint wait_popen (fuel : nat) (p : Z) : M unit :=
  match fuel with
  | O => exit_ out_of_fuel
  | S fuel =>
      r ← ask_kernel oracle (RWait4 p 0);
      if (r_ret r <? 0) && (r_errno r =? EINTR) then wait_popen fuel p else mret tt
  end.

(** main after init. *)
Definition main_loop (fuel : nat) : M (option Z * Z) :=
  r ← trace fuel;
  if r <? 0 then mret (None, 1)
  else
    _ ← cleanup;
    g ← gets glb;
    _ ← when (negb (popen_pid g =? 0)) (wait_popen (loop_fuel w) (popen_pid g));
    mret (mimic (g_exit_code g)).
End trace.
