(* ===== verification/Init.v ===== *)
(** * The command line (alice-strace.c: init, usage, error_opt_arg)

    The options are read by getopt, whose string starts with "+": the first
    argument that is not an option ends them.  What they set is the record
    [config]; the processes of -p go to the table.  Where the code prints help
    or its version and ends, only the end is modelled. *)

From S2P Require Import Prelude Timeval Xlat Quote Tracee Decode Io Options Signal Qual Mmap Count.
From S2P Require Import Tcb Regs Log Table Pathtrace Syscall Frame Line Stops Trace.
Local Open Scope string_scope.
Local Open Scope list_scope.
Local Open Scope Z_scope.

(** ** getopt *)

(** An option and its argument, or the message for one that is not known or
    lacks its argument. *)
Inductive opt_event := Opt (c : ascii) (optarg : string) | BadOpt (msg : string).

Fixpoint char_in (c : ascii) (s : string) : bool :=
  match s with String x s => Ascii.eqb x c || char_in c s | EmptyString => false end.

(** The letters of the option string, with and without a colon. *)
Definition takes_arg (c : ascii) : bool := char_in c "baeoOpsSuEPI".
Definition is_flag (c : ascii) : bool := char_in c "cCdfFhiqrtTvVxyzkwD".

(** The options at the front of the arguments, and the other arguments. *)
Fixpoint getopt (args : list string) : list opt_event * list string :=
  match args with
  | [] => ([], [])
  | a :: args' =>
      match a with
      | String "-" (String _ _ as s) =>
          if String.eqb s "-" then ([], args')
          else
            (fix cluster (s : string) : list opt_event * list string :=
               match s with
               | EmptyString => getopt args'
               | String c s' =>
                   if takes_arg c then
                     match s', args' with
                     | String _ _, _ => let '(evs, rest) := getopt args' in (Opt c s' :: evs, rest)
                     | EmptyString, b :: args'' =>
                         let '(evs, rest) := getopt args'' in (Opt c b :: evs, rest)
                     | EmptyString, [] =>
                         ([BadOpt ("option requires an argument -- '" +:+ String c "'")], [])
                     end
                   else if is_flag c then let '(evs, rest) := cluster s' in (Opt c "" :: evs, rest)
                   else ([BadOpt ("invalid option -- '" +:+ String c "'")], [])
               end) s
      | _ => ([], args)
      end
  end.

(** ** The configuration *)

Record config := mk_config {
  c_followfork : Z;
  c_qflag : Z;
  c_tflag : Z;
  c_xflag : Z;
  c_cflag : Z;
  c_iflag : bool;
  c_rflag : bool;
  c_Tflag : bool;
  c_optF : bool;
  c_daemonized : bool;
  c_show_fd_path : bool;
  c_not_failing_only : bool;
  c_detach_on_execve : bool;
  c_stacktraces : bool;
  c_libunwind : bool;
  c_acolumn : Z;
  c_max_strlen : Z;
  c_outfname : option string;
  c_username : option string;
  c_opt_intr : Z;
  c_quals : quals;
  c_paths : list string;
  c_sortfun : sortfun;
  c_environ : list string
}.

Definition with_followfork (v : Z) (c : config) : config :=
  mk_config v (c_qflag c) (c_tflag c) (c_xflag c) (c_cflag c) (c_iflag c) (c_rflag c) (c_Tflag c)
    (c_optF c) (c_daemonized c) (c_show_fd_path c) (c_not_failing_only c) (c_detach_on_execve c)
    (c_stacktraces c) (c_libunwind c) (c_acolumn c) (c_max_strlen c) (c_outfname c) (c_username c)
    (c_opt_intr c) (c_quals c) (c_paths c) (c_sortfun c) (c_environ c).
Definition with_qflag (v : Z) (c : config) : config :=
  mk_config (c_followfork c) v (c_tflag c) (c_xflag c) (c_cflag c) (c_iflag c) (c_rflag c)
    (c_Tflag c) (c_optF c) (c_daemonized c) (c_show_fd_path c) (c_not_failing_only c)
    (c_detach_on_execve c) (c_stacktraces c) (c_libunwind c) (c_acolumn c) (c_max_strlen c)
    (c_outfname c) (c_username c) (c_opt_intr c) (c_quals c) (c_paths c) (c_sortfun c)
    (c_environ c).
Definition with_tflag (v : Z) (c : config) : config :=
  mk_config (c_followfork c) (c_qflag c) v (c_xflag c) (c_cflag c) (c_iflag c) (c_rflag c)
    (c_Tflag c) (c_optF c) (c_daemonized c) (c_show_fd_path c) (c_not_failing_only c)
    (c_detach_on_execve c) (c_stacktraces c) (c_libunwind c) (c_acolumn c) (c_max_strlen c)
    (c_outfname c) (c_username c) (c_opt_intr c) (c_quals c) (c_paths c) (c_sortfun c)
    (c_environ c).
Definition with_xflag (v : Z) (c : config) : config :=
  mk_config (c_followfork c) (c_qflag c) (c_tflag c) v (c_cflag c) (c_iflag c) (c_rflag c)
    (c_Tflag c) (c_optF c) (c_daemonized c) (c_show_fd_path c) (c_not_failing_only c)
    (c_detach_on_execve c) (c_stacktraces c) (c_libunwind c) (c_acolumn c) (c_max_strlen c)
    (c_outfname c) (c_username c) (c_opt_intr c) (c_quals c) (c_paths c) (c_sortfun c)
    (c_environ c).
Definition with_cflag (v : Z) (c : config) : config :=
  mk_config (c_followfork c) (c_qflag c) (c_tflag c) (c_xflag c) v (c_iflag c) (c_rflag c)
    (c_Tflag c) (c_optF c) (c_daemonized c) (c_show_fd_path c) (c_not_failing_only c)
    (c_detach_on_execve c) (c_stacktraces c) (c_libunwind c) (c_acolumn c) (c_max_strlen c)
    (c_outfname c) (c_username c) (c_opt_intr c) (c_quals c) (c_paths c) (c_sortfun c)
    (c_environ c).
Definition with_iflag (v : bool) (c : config) : config :=
  mk_config (c_followfork c) (c_qflag c) (c_tflag c) (c_xflag c) (c_cflag c) v (c_rflag c)
    (c_Tflag c) (c_optF c) (c_daemonized c) (c_show_fd_path c) (c_not_failing_only c)
    (c_detach_on_execve c) (c_stacktraces c) (c_libunwind c) (c_acolumn c) (c_max_strlen c)
    (c_outfname c) (c_username c) (c_opt_intr c) (c_quals c) (c_paths c) (c_sortfun c)
    (c_environ c).
Definition with_rflag (v : bool) (c : config) : config :=
  mk_config (c_followfork c) (c_qflag c) (c_tflag c) (c_xflag c) (c_cflag c) (c_iflag c) v
    (c_Tflag c) (c_optF c) (c_daemonized c) (c_show_fd_path c) (c_not_failing_only c)
    (c_detach_on_execve c) (c_stacktraces c) (c_libunwind c) (c_acolumn c) (c_max_strlen c)
    (c_outfname c) (c_username c) (c_opt_intr c) (c_quals c) (c_paths c) (c_sortfun c)
    (c_environ c).
Definition with_Tflag (v : bool) (c : config) : config :=
  mk_config (c_followfork c) (c_qflag c) (c_tflag c) (c_xflag c) (c_cflag c) (c_iflag c)
    (c_rflag c) v (c_optF c) (c_daemonized c) (c_show_fd_path c) (c_not_failing_only c)
    (c_detach_on_execve c) (c_stacktraces c) (c_libunwind c) (c_acolumn c) (c_max_strlen c)
    (c_outfname c) (c_username c) (c_opt_intr c) (c_quals c) (c_paths c) (c_sortfun c)
    (c_environ c).
Definition with_optF (v : bool) (c : config) : config :=
  mk_config (c_followfork c) (c_qflag c) (c_tflag c) (c_xflag c) (c_cflag c) (c_iflag c)
    (c_rflag c) (c_Tflag c) v (c_daemonized c) (c_show_fd_path c) (c_not_failing_only c)
    (c_detach_on_execve c) (c_stacktraces c) (c_libunwind c) (c_acolumn c) (c_max_strlen c)
    (c_outfname c) (c_username c) (c_opt_intr c) (c_quals c) (c_paths c) (c_sortfun c)
    (c_environ c).
Definition with_daemonized (v : bool) (c : config) : config :=
  mk_config (c_followfork c) (c_qflag c) (c_tflag c) (c_xflag c) (c_cflag c) (c_iflag c)
    (c_rflag c) (c_Tflag c) (c_optF c) v (c_show_fd_path c) (c_not_failing_only c)
    (c_detach_on_execve c) (c_stacktraces c) (c_libunwind c) (c_acolumn c) (c_max_strlen c)
    (c_outfname c) (c_username c) (c_opt_intr c) (c_quals c) (c_paths c) (c_sortfun c)
    (c_environ c).
Definition with_show_fd_path (v : bool) (c : config) : config :=
  mk_config (c_followfork c) (c_qflag c) (c_tflag c) (c_xflag c) (c_cflag c) (c_iflag c)
    (c_rflag c) (c_Tflag c) (c_optF c) (c_daemonized c) v (c_not_failing_only c)
    (c_detach_on_execve c) (c_stacktraces c) (c_libunwind c) (c_acolumn c) (c_max_strlen c)
    (c_outfname c) (c_username c) (c_opt_intr c) (c_quals c) (c_paths c) (c_sortfun c)
    (c_environ c).
Definition with_not_failing_only (v : bool) (c : config) : config :=
  mk_config (c_followfork c) (c_qflag c) (c_tflag c) (c_xflag c) (c_cflag c) (c_iflag c)
    (c_rflag c) (c_Tflag c) (c_optF c) (c_daemonized c) (c_show_fd_path c) v
    (c_detach_on_execve c) (c_stacktraces c) (c_libunwind c) (c_acolumn c) (c_max_strlen c)
    (c_outfname c) (c_username c) (c_opt_intr c) (c_quals c) (c_paths c) (c_sortfun c)
    (c_environ c).
Definition with_detach_on_execve (v : bool) (c : config) : config :=
  mk_config (c_followfork c) (c_qflag c) (c_tflag c) (c_xflag c) (c_cflag c) (c_iflag c)
    (c_rflag c) (c_Tflag c) (c_optF c) (c_daemonized c) (c_show_fd_path c) (c_not_failing_only c)
    v (c_stacktraces c) (c_libunwind c) (c_acolumn c) (c_max_strlen c) (c_outfname c)
    (c_username c) (c_opt_intr c) (c_quals c) (c_paths c) (c_sortfun c) (c_environ c).
Definition with_stacktraces (v : bool) (c : config) : config :=
  mk_config (c_followfork c) (c_qflag c) (c_tflag c) (c_xflag c) (c_cflag c) (c_iflag c)
    (c_rflag c) (c_Tflag c) (c_optF c) (c_daemonized c) (c_show_fd_path c) (c_not_failing_only c)
    (c_detach_on_execve c) v (c_libunwind c) (c_acolumn c) (c_max_strlen c) (c_outfname c)
    (c_username c) (c_opt_intr c) (c_quals c) (c_paths c) (c_sortfun c) (c_environ c).
Definition with_libunwind (v : bool) (c : config) : config :=
  mk_config (c_followfork c) (c_qflag c) (c_tflag c) (c_xflag c) (c_cflag c) (c_iflag c)
    (c_rflag c) (c_Tflag c) (c_optF c) (c_daemonized c) (c_show_fd_path c) (c_not_failing_only c)
    (c_detach_on_execve c) (c_stacktraces c) v (c_acolumn c) (c_max_strlen c) (c_outfname c)
    (c_username c) (c_opt_intr c) (c_quals c) (c_paths c) (c_sortfun c) (c_environ c).
Definition with_acolumn (v : Z) (c : config) : config :=
  mk_config (c_followfork c) (c_qflag c) (c_tflag c) (c_xflag c) (c_cflag c) (c_iflag c)
    (c_rflag c) (c_Tflag c) (c_optF c) (c_daemonized c) (c_show_fd_path c) (c_not_failing_only c)
    (c_detach_on_execve c) (c_stacktraces c) (c_libunwind c) v (c_max_strlen c) (c_outfname c)
    (c_username c) (c_opt_intr c) (c_quals c) (c_paths c) (c_sortfun c) (c_environ c).
Definition with_max_strlen (v : Z) (c : config) : config :=
  mk_config (c_followfork c) (c_qflag c) (c_tflag c) (c_xflag c) (c_cflag c) (c_iflag c)
    (c_rflag c) (c_Tflag c) (c_optF c) (c_daemonized c) (c_show_fd_path c) (c_not_failing_only c)
    (c_detach_on_execve c) (c_stacktraces c) (c_libunwind c) (c_acolumn c) v (c_outfname c)
    (c_username c) (c_opt_intr c) (c_quals c) (c_paths c) (c_sortfun c) (c_environ c).
Definition with_outfname (v : option string) (c : config) : config :=
  mk_config (c_followfork c) (c_qflag c) (c_tflag c) (c_xflag c) (c_cflag c) (c_iflag c)
    (c_rflag c) (c_Tflag c) (c_optF c) (c_daemonized c) (c_show_fd_path c) (c_not_failing_only c)
    (c_detach_on_execve c) (c_stacktraces c) (c_libunwind c) (c_acolumn c) (c_max_strlen c) v
    (c_username c) (c_opt_intr c) (c_quals c) (c_paths c) (c_sortfun c) (c_environ c).
Definition with_username (v : option string) (c : config) : config :=
  mk_config (c_followfork c) (c_qflag c) (c_tflag c) (c_xflag c) (c_cflag c) (c_iflag c)
    (c_rflag c) (c_Tflag c) (c_optF c) (c_daemonized c) (c_show_fd_path c) (c_not_failing_only c)
    (c_detach_on_execve c) (c_stacktraces c) (c_libunwind c) (c_acolumn c) (c_max_strlen c)
    (c_outfname c) v (c_opt_intr c) (c_quals c) (c_paths c) (c_sortfun c) (c_environ c).
Definition with_opt_intr (v : Z) (c : config) : config :=
  mk_config (c_followfork c) (c_qflag c) (c_tflag c) (c_xflag c) (c_cflag c) (c_iflag c)
    (c_rflag c) (c_Tflag c) (c_optF c) (c_daemonized c) (c_show_fd_path c) (c_not_failing_only c)
    (c_detach_on_execve c) (c_stacktraces c) (c_libunwind c) (c_acolumn c) (c_max_strlen c)
    (c_outfname c) (c_username c) v (c_quals c) (c_paths c) (c_sortfun c) (c_environ c).
Definition with_quals (v : quals) (c : config) : config :=
  mk_config (c_followfork c) (c_qflag c) (c_tflag c) (c_xflag c) (c_cflag c) (c_iflag c)
    (c_rflag c) (c_Tflag c) (c_optF c) (c_daemonized c) (c_show_fd_path c) (c_not_failing_only c)
    (c_detach_on_execve c) (c_stacktraces c) (c_libunwind c) (c_acolumn c) (c_max_strlen c)
    (c_outfname c) (c_username c) (c_opt_intr c) v (c_paths c) (c_sortfun c) (c_environ c).
Definition with_paths (v : list string) (c : config) : config :=
  mk_config (c_followfork c) (c_qflag c) (c_tflag c) (c_xflag c) (c_cflag c) (c_iflag c)
    (c_rflag c) (c_Tflag c) (c_optF c) (c_daemonized c) (c_show_fd_path c) (c_not_failing_only c)
    (c_detach_on_execve c) (c_stacktraces c) (c_libunwind c) (c_acolumn c) (c_max_strlen c)
    (c_outfname c) (c_username c) (c_opt_intr c) (c_quals c) v (c_sortfun c) (c_environ c).
Definition with_sortfun (v : sortfun) (c : config) : config :=
  mk_config (c_followfork c) (c_qflag c) (c_tflag c) (c_xflag c) (c_cflag c) (c_iflag c)
    (c_rflag c) (c_Tflag c) (c_optF c) (c_daemonized c) (c_show_fd_path c) (c_not_failing_only c)
    (c_detach_on_execve c) (c_stacktraces c) (c_libunwind c) (c_acolumn c) (c_max_strlen c)
    (c_outfname c) (c_username c) (c_opt_intr c) (c_quals c) (c_paths c) v (c_environ c).
Definition with_environ (v : list string) (c : config) : config :=
  mk_config (c_followfork c) (c_qflag c) (c_tflag c) (c_xflag c) (c_cflag c) (c_iflag c)
    (c_rflag c) (c_Tflag c) (c_optF c) (c_daemonized c) (c_show_fd_path c) (c_not_failing_only c)
    (c_detach_on_execve c) (c_stacktraces c) (c_libunwind c) (c_acolumn c) (c_max_strlen c)
    (c_outfname c) (c_username c) (c_opt_intr c) (c_quals c) (c_paths c) (c_sortfun c) v.

(** What the options find of the machine: realpath, getpwnam with the user and
    group of a name, the real and effective ids, and malloc. *)
Record machine := mk_machine {
  realpath : string -> option string;
  getpwnam : string -> option (Z * Z);
  getuid : Z;
  geteuid : Z;
  getgid : Z;
  getpid : Z;
  release : Z;                  (* os_release *)
  heap_ok : Z -> bool           (* malloc *)
}.

Definition DEFAULT_ACOLUMN : Z := 40.
Definition DEFAULT_STRLEN : Z := 32.
Definition INTR_ANYWHERE : Z := 1.
Definition INTR_WHILE_WAIT : Z := 2.
Definition INTR_NEVER : Z := 3.
Definition NUM_INTR_OPTS : Z := 5.

(** usage(stderr, 1) *)
Definition usage_die {A} : M A := exit_ 1.

Section init.
Context (oracle : list event -> request -> reply) (w : world) (pc : machine).
Context (sysent_vec : list (list struct_sysent)).

(** qualify(s) of an expression of the code or of -e. *)
Definition qualified (s : string) (c : config) : M config :=
  match qualify sysent_vec s (c_quals c) with
  | Some q => mret (with_quals q c)
  | None => die
  end.

(** The state before the first option. *)
Definition config0 : config :=
  mk_config 0 0 0 0 CFLAG_NONE false false false false false false false false false true
    DEFAULT_ACOLUMN DEFAULT_STRLEN None None 0 no_quals [] SortTime [].

Definition error_opt_arg {A} (c : ascii) (a : string) : M A :=
  die_msg ("Invalid -" +:+ String c (" argument: '" +:+ a +:+ "'")).

(** A number that is not negative. *)
Definition number_arg (c : ascii) (a : string) : M Z :=
  let i := string_to_uint a in if i <? 0 then error_opt_arg c a else mret i.

Definition select_path (path : string) (c : config) : M config :=
  let r := realpath pc path in
  _ ← match r with
      | Some r => when (negb (String.eqb path r))
                    (err_msg ("Requested path '" +:+ path +:+ "' resolved into '" +:+ r +:+ "'" +:+ nl))
      | None => mret tt
      end;
  mret (with_paths (pathtrace_select path r (c_paths c)) c).

(** The process_opt_p_list of Table.v needs the tracer's own pid only. *)
Definition pid_options : options :=
  mk_options 0 0 0 0 false false false false None 0 0 SIGTRAP 0 false false false false true
    (release pc) 0 (getpid pc) 0 0 SortTime.

(** The body of the switch. *)
Definition handle_option (o : ascii) (a : string) (c : config) : M config :=
  let opt_is x := Ascii.eqb o x in
  if opt_is "b"%char then
    if String.eqb a "execve" then mret (with_detach_on_execve true c)
    else die_msg ("Syscall '" +:+ a +:+ "' for -b isn't supported")
  else if opt_is "c"%char then
    if c_cflag c =? CFLAG_BOTH then die_msg "-c and -C are mutually exclusive"
    else mret (with_cflag CFLAG_ONLY_STATS c)
  else if opt_is "C"%char then
    if c_cflag c =? CFLAG_ONLY_STATS then die_msg "-c and -C are mutually exclusive"
    else mret (with_cflag CFLAG_BOTH c)
  else if opt_is "d"%char then mret c
  else if opt_is "D"%char then mret (with_daemonized true c)
  else if opt_is "F"%char then mret (with_optF true c)
  else if opt_is "f"%char then mret (with_followfork (c_followfork c + 1) c)
  else if opt_is "h"%char then exit_ 0
  else if opt_is "i"%char then mret (with_iflag true c)
  else if opt_is "q"%char then mret (with_qflag (c_qflag c + 1) c)
  else if opt_is "r"%char then mret (with_tflag (c_tflag c + 1) (with_rflag true c))
  else if opt_is "t"%char then mret (with_tflag (c_tflag c + 1) c)
  else if opt_is "T"%char then mret (with_Tflag true c)
  else if opt_is "x"%char then mret (with_xflag (c_xflag c + 1) c)
  else if opt_is "y"%char then mret (with_show_fd_path true c)
  else if opt_is "v"%char then qualified "abbrev=none" c
  else if opt_is "V"%char then exit_ 0
  else if opt_is "z"%char then mret (with_not_failing_only true c)
  else if opt_is "a"%char then n ← number_arg o a; mret (with_acolumn n c)
  else if opt_is "e"%char then qualified a c
  else if opt_is "o"%char then mret (with_outfname (Some a) c)
  else if opt_is "O"%char then
    n ← number_arg o a;
    _ ← modify_glb (fun g => set_counts (set_overhead n (g_counts g)) g);
    mret c
  else if opt_is "p"%char then _ ← process_opt_p_list pid_options (S (String.length a)) a; mret c
  else if opt_is "P"%char then select_path a c
  else if opt_is "s"%char then n ← number_arg o a; mret (with_max_strlen n c)
  else if opt_is "S"%char then
    match set_sortby a with
    | Some f => mret (with_sortfun f c)
    | None => die_msg ("invalid sortby: '" +:+ a +:+ "'")
    end
  else if opt_is "u"%char then mret (with_username (Some a) c)
  else if opt_is "E"%char then mret (with_environ (c_environ c ++ [a]) c)
  else if opt_is "I"%char then
    let i := string_to_uint a in
    if (i <=? 0) || (i >=? NUM_INTR_OPTS) then error_opt_arg o a else mret (with_opt_intr i c)
  else if opt_is "k"%char then mret (with_stacktraces true c)
  else if opt_is "w"%char then mret (with_libunwind false c)
  else usage_die.

Fixpoint handle_options (evs : list opt_event) (c : config) : M config :=
  match evs with
  | [] => mret c
  | Opt o a :: evs => c ← handle_option o a c; handle_options evs c
  | BadOpt msg :: _ => _ ← err_msg (msg +:+ nl); usage_die
  end.

(** The qualifiers set before the first option. *)
Definition default_quals (c : config) : M config :=
  c ← qualified "trace=all" c; c ← qualified "abbrev=all" c;
  c ← qualified "verbose=all" c; qualified "signal=all" c.

(** ** After the options *)

Definition piped (name : string) : bool :=
  match name with String c _ => Ascii.eqb c "|" || Ascii.eqb c "!" | EmptyString => false end.

Definition drop_char (s : string) : string := match s with String _ s => s | EmptyString => "" end.

(** The checks of what was asked for, up to the tests of the kernel; the
    result has the user and group to run as. *)
Definition check_options (cmd : list string) (c : config) : M (config * (Z * Z)) :=
  n ← gets nprocs;
  if negb (heap_ok pc (u64 (s32 (c_acolumn c + 1)))) then die_msg "Out of memory"
  else if Bool.eqb (bool_decide (cmd = [])) (n =? 0) then usage_die
  else if negb (n =? 0) && c_daemonized c then die_msg "-D and -p are mutually exclusive"
  else
    let c := if c_followfork c =? 0 then with_followfork (if c_optF c then 1 else 0) c else c in
    if (2 <=? c_followfork c) && negb (c_cflag c =? 0) then
      die_msg "(-c or -C) and -ff are mutually exclusive"
    else
      match c_username c with
      | None => mret (c, (getuid pc, getgid pc))
      | Some u =>
          if negb (getuid pc =? 0) || negb (geteuid pc =? 0) then
            die_msg "You must be root to use the -u option"
          else match getpwnam pc u with
               | None => die_msg ("Cannot find user '" +:+ u +:+ "'")
               | Some ids => mret (c, ids)
               end
      end.

(** /tmp/strace_dump and /tmp/strace_stackinfo; failures are not noticed. *)
Definition open_extra : M unit :=
  _ ← ask_kernel oracle (ROpen 1 Shared); _ ← ask_kernel oracle (ROpen 2 Shared); mret tt.

(** Opening the output: a pipe to a command, a file, or stderr.  The two extra files are
    opened again whatever the output is. *)
Definition open_output (c : config) : M config :=
  match c_outfname c with
  | Some name =>
      _ ← (if piped name then
             if 2 <=? c_followfork c then die_msg "Piping the output and -ff are mutually exclusive"
             else
               r ← ask_kernel oracle (RPipe (drop_char name));
               if r_ret r <? 0 then die
               else _ ← modify_glb (set_popen_pid (r_val r)); open_extra
           else when (c_followfork c <? 2)
                  (r ← ask_kernel oracle (ROpen 0 Shared);
                   if r_ret r <? 0 then die_msg ("Can't fopen '" +:+ name +:+ "'") else mret tt));
      _ ← open_extra;
      mret c
  | None => mret (if 2 <=? c_followfork c then with_followfork 1 c else c)
  end.

(** The last of the settings. *)
Definition settle (cmd : list string) (c : config) : M config :=
  let to_stderr := match c_outfname c with Some name => piped name | None => true end in
  if to_stderr && negb (heap_ok pc 8192) then die_msg "Out of memory"
  else
    let quiet := bool_decide (is_Some (c_outfname c)) && bool_decide (cmd <> []) in
    let c := if quiet then
               with_qflag 1 (if c_opt_intr c =? 0 then with_opt_intr INTR_NEVER c else c)
             else c in
    mret (if c_opt_intr c =? 0 then with_opt_intr INTR_WHILE_WAIT c else c).
End init.
