(* ===== verification/Startup.v ===== *)
(** * Start-up (alice-strace.c: the tests of ptrace, startup_child,
      startup_attach, init, main)

    What the kernel does is an answer of the oracle, as in Trace.v; the code of
    the forked children is not part of the tracer.  A fork in which the child
    goes on as the tracer (-D) returns the child's own pid as its value.  The
    signal dispositions and masks are not modelled. *)

From S2P Require Import Prelude Timeval Xlat Quote Tracee Decode Io Options Signal Status Qual Mmap Count.
From S2P Require Import Tcb Regs Log Table Pathtrace Syscall Frame Line Stops Trace Init.
Local Open Scope string_scope.
Local Open Scope list_scope.
Local Open Scope Z_scope.

Definition WSTOPPED : Z := 2.
Definition PTRACE_O_TRACESYSGOOD : Z := 0x01.
Definition PTRACE_O_TRACEFORK : Z := 0x02.
Definition PTRACE_O_TRACEVFORK : Z := 0x04.
Definition PTRACE_O_TRACECLONE : Z := 0x08.
Definition PTRACE_O_TRACEEXEC : Z := 0x10.
Definition PTRACE_EVENT_FORK : Z := 1.
Definition SIGKILL : Z := 9.
Definition SIGCONT : Z := 18.

Section startup.
Context (oracle : list event -> request -> reply) (w : world).

Definition fork : M reply :=
  r ← ask_kernel oracle RFork;
  if r_ret r <? 0 then die_msg "fork" else mret r.
Definition kill (p sig : Z) : M unit := _ ← ask_kernel oracle (RKill p sig); mret tt.

(** What is printed about a child that does not behave, before the end. *)
Definition unexpected {A} (fn what : string) (v : Z) : M A :=
  die_msg (fn +:+ ": unexpected " +:+ what +:+ " " +:+ fmt_d v).

(** ** The tests of ptrace *)

(** test_ptrace_setoptions_followfork: [expected] and [found] are the pids of
    the grandchild that the event message and wait name. *)
Definition followfork_options : Z :=
  Z.lor PTRACE_O_TRACECLONE (Z.lor PTRACE_O_TRACEFORK PTRACE_O_TRACEVFORK).

Fixpoint followfork_loop (fuel : nat) (p expected found : Z) : M (Z * Z) :=
  let fn := "test_ptrace_setoptions_followfork" in
  match fuel with
  | O => exit_ out_of_fuel
  | S fuel =>
      r ← ask_kernel oracle (RWait4 (-1) 0);
      let q := r_ret r in
      let status := r_val r in
      if q <=? 0 then
        if r_errno r =? EINTR then followfork_loop fuel p expected found
        else if r_errno r =? ECHILD then mret (expected, found)
        else _ ← kill p SIGKILL; unexpected fn "wait result" q
      else if WIFEXITED status then
        if negb (WEXITSTATUS status =? 0) then
          _ ← when (negb (q =? p)) (kill p SIGKILL); unexpected fn "exit status" (WEXITSTATUS status)
        else followfork_loop fuel p expected found
      else if WIFSIGNALED status then
        _ ← when (negb (q =? p)) (kill p SIGKILL); unexpected fn "signal" (WTERMSIG status)
      else if negb (WIFSTOPPED status) then
        _ ← when (negb (q =? p)) (kill q SIGKILL);
        _ ← kill p SIGKILL; unexpected fn "wait status" status
      else if negb (q =? p) then
        c ← ptrace oracle PTRACE_CONT q 0 0;
        if r_ret c <? 0 then
          _ ← kill q SIGKILL; _ ← kill p SIGKILL; die_msg "PTRACE_CONT doesn't work"
        else followfork_loop fuel p expected q
      else
        expected ←
          (if WSTOPSIG status =? SIGSTOP then
             o ← ptrace oracle PTRACE_SETOPTIONS p 0 followfork_options;
             _ ← when ((r_ret o <? 0) && negb (r_errno o =? EINVAL) && negb (r_errno o =? EIO))
                   (perror_msg w (r_errno o) "PTRACE_SETOPTIONS");
             mret expected
           else if (WSTOPSIG status =? SIGTRAP) && (Z.shiftr status 16 =? PTRACE_EVENT_FORK) then
             m ← ptrace oracle PTRACE_GETEVENTMSG p 0 0;
             mret (if r_ret m =? 0 then s32 (r_val m) else expected)
           else mret expected);
        c ← ptrace oracle PTRACE_SYSCALL p 0 0;
        if r_ret c <? 0 then _ ← kill p SIGKILL; die_msg "PTRACE_SYSCALL doesn't work"
        else followfork_loop fuel p expected found
  end.

(** The options to add and whether the workarounds are needed. *)
Definition test_ptrace_setoptions_followfork : M (Z * bool) :=
  r ← fork;
  '(expected, found) ← followfork_loop (loop_fuel w) (r_ret r) 0 0;
  if negb (expected =? 0) && (expected =? found) then mret (followfork_options, false)
  else
    _ ← err_msg ("Test for PTRACE_O_TRACECLONE failed, giving up using this feature." +:+ nl);
    mret (0, true).

Definition for_all_options : Z := Z.lor PTRACE_O_TRACESYSGOOD PTRACE_O_TRACEEXEC.

Fixpoint for_all_loop (fuel : nat) (p : Z) (it_worked : bool) : M bool :=
  let fn := "test_ptrace_setoptions_for_all" in
  match fuel with
  | O => exit_ out_of_fuel
  | S fuel =>
      r ← ask_kernel oracle (RWait4 (-1) 0);
      let status := r_val r in
      if r_ret r <=? 0 then
        if r_errno r =? EINTR then for_all_loop fuel p it_worked
        else _ ← kill p SIGKILL; unexpected fn "wait result" (r_ret r)
      else if WIFEXITED status then
        if WEXITSTATUS status =? 0 then mret it_worked
        else unexpected fn "exit status" (WEXITSTATUS status)
      else if WIFSIGNALED status then unexpected fn "signal" (WTERMSIG status)
      else if negb (WIFSTOPPED status) then _ ← kill p SIGKILL; unexpected fn "wait status" status
      else
        _ ← (if WSTOPSIG status =? SIGSTOP then
               o ← ptrace oracle PTRACE_SETOPTIONS p 0 for_all_options;
               when ((r_ret o <? 0) && negb (r_errno o =? EINVAL) && negb (r_errno o =? EIO))
                 (perror_msg w (r_errno o) "PTRACE_SETOPTIONS")
             else mret tt);
        c ← ptrace oracle PTRACE_SYSCALL p 0 0;
        if r_ret c <? 0 then _ ← kill p SIGKILL; die_msg "PTRACE_SYSCALL doesn't work"
        else for_all_loop fuel p (it_worked || (WSTOPSIG status =? Z.lor SIGTRAP 0x80))
  end.

(** syscall_trap_sig, the options to add, and whether workarounds are needed. *)
Definition test_ptrace_setoptions_for_all : M (Z * Z * bool) :=
  r ← fork;
  it_worked ← for_all_loop (loop_fuel w) (r_ret r) false;
  if it_worked : bool then mret (Z.lor SIGTRAP 0x80, for_all_options, false)
  else
    _ ← err_msg ("Test for PTRACE_O_TRACESYSGOOD failed, giving up using this feature." +:+ nl);
    mret (SIGTRAP, 0, true).

Fixpoint seize_wait (fuel : nat) (p : Z) : M unit :=
  match fuel with
  | O => exit_ out_of_fuel
  | S fuel =>
      r ← ask_kernel oracle (RWait4 p 0);
      if r_ret r <=? 0 then
        if r_errno r =? EINTR then seize_wait fuel p
        else unexpected "test_ptrace_seize" "wait result" (r_ret r)
      else if WIFSIGNALED (r_val r) then mret tt
      else unexpected "test_ptrace_seize" "wait status" (r_val r)
  end.

(** post_attach_sigstop *)
Definition test_ptrace_seize : M Z :=
  r ← fork;
  let p := r_ret r in
  s ← ptrace oracle PTRACE_SEIZE p 0 0;
  _ ← kill p SIGKILL;
  _ ← seize_wait (loop_fuel w) p;
  mret (if r_ret s =? 0 then 0 else TCB_IGNORE_ONE_SIGSTOP).
End startup.

(** ** Looking for the program *)

(** What stat says of a path: mode, owner and group. *)
Record file_status := mk_status { st_mode : Z; st_uid : Z; st_gid : Z }.

Definition S_ISREG (mode : Z) : bool := Z.land mode 0xf000 =? 0x8000.
Definition is_program (st : option file_status) : bool :=
  match st with Some st => S_ISREG (st_mode st) && negb (Z.land (st_mode st) 0x49 =? 0) | None => false end.

Fixpoint has_slash (s : string) : bool :=
  match s with String c s => Ascii.eqb c "/" || has_slash s | EmptyString => false end.
Fixpoint ends_slash (s : string) : bool :=
  match s with
  | EmptyString => false
  | String c EmptyString => Ascii.eqb c "/"
  | String _ s => ends_slash s
  end.

(** The text up to the first colon, and what is behind it. *)
Fixpoint split_colon (s : string) : string * option string :=
  match s with
  | EmptyString => ("", None)
  | String c s =>
      if Ascii.eqb c ":" then ("", Some s)
      else let '(a, rest) := split_colon s in (String c a, rest)
  end.

(** The directories the loop visits: it ends at the end of the text, so that
    nothing behind a last colon is a directory. *)
Fixpoint path_dirs (fuel : nat) (path : string) : list string :=
  match fuel, path with
  | S fuel, String _ _ =>
      let '(d, rest) := split_colon path in
      d :: match rest with Some rest => path_dirs fuel rest | None => [] end
  | _, _ => []
  end.

Section search.
Context (stat_file : string -> option file_status) (getcwd : option string).

(** strcpy behind the directory; [None] when the buffer of MAXPATHLEN bytes is
    too small, which is not tested. *)
Definition candidate (dir filename : string) : option string :=
  let p := (if nonempty_str dir && negb (ends_slash dir) then dir +:+ "/" else dir) +:+ filename in
  if slen p + 1 <=? MAXPATHLEN then Some p else None.

(** The loop over the directories; [found] is what the buffer holds. *)
Fixpoint search_path (dirs : list string) (filename : string) (found : option string)
    : option (option string) :=
  match dirs with
  | [] => Some found
  | d :: dirs =>
      match (if String.eqb d "" then getcwd
             else if slen d >? MAXPATHLEN - 1 then None else Some d) with
      | None => search_path dirs filename found
      | Some dir =>
          match candidate dir filename with
          | None => None
          | Some p => if is_program (stat_file p) then Some (Some p) else search_path dirs filename (Some p)
          end
      end
  end.
End search.

(** getenv("PATH") after the assignments of -E; a name alone removes it. *)
Definition getenv_PATH (path : option string) (assignments : list string) : option string :=
  foldl (fun p a => match strip "PATH=" a with
                    | Some v => Some v
                    | None => if String.eqb a "PATH" then None else p
                    end) path assignments.

(** ** Options, states and worlds *)

(** What the tests of ptrace found. *)
Record features := mk_features {
  f_setoptions : Z; f_trap_sig : Z; f_workarounds : bool; f_sigstop : Z
}.

Definition options_of (pc : machine) (c : config) (f : features) (pfx : bool) (child tracer_pid : Z)
    : options :=
  mk_options (c_followfork c) (c_qflag c) (c_tflag c) (c_cflag c) (c_iflag c) (c_rflag c) (c_Tflag c)
    pfx (c_outfname c) (c_acolumn c) (f_setoptions f) (f_trap_sig f) (f_sigstop f)
    (c_detach_on_execve c) (f_workarounds f) (c_not_failing_only c) (c_stacktraces c) (c_libunwind c)
    (release pc) child tracer_pid (c_xflag c) (c_max_strlen c) (c_sortfun c).

(** The world with the qualifiers and paths of the command line. *)
Definition world_of (c : config) (w : world) : world :=
  mk_world (sysent_vec w) (c_quals c) (errnoent w) (strerror w) (hms w) (c_paths c) (c_show_fd_path c)
    (kern w) (fd_target w) (sys_call w) (unwind w) (loop_fuel w) (indeterminate w)
    (indeterminate_map w) (qsort w).

Definition SYS_clone : Z := 56.

(** The static variables and the table of [argc] empty blocks. *)
Definition globals0 : globals :=
  mk_globals 0 tv_zero 0 0 true false false 0 0 (mk_regset (replicate sizeof_x86_64_regs 0) 0) false false
    counts0 [SYS_clone; 0; 0].
Definition tracer0 (argc : nat) : tracer := mk_tracer (replicate argc zero_tcb) 0 None None globals0 [].

(** ** The program to trace *)

(** What the file system and the environment say at start-up. *)
Record files := mk_files {
  stat_file : string -> option file_status;
  cwd : option string;
  env_path : option string;       (* PATH before -E *)
  junk_path : string              (* the buffer when no directory was tried *)
}.

Section child.
Context (oracle : list event -> request -> reply) (w : world) (pc : machine) (fs : files).

(** The path of the program. *)
Definition find_program (filename : string) (c : config) : M string :=
  if has_slash filename then
    if slen filename >? MAXPATHLEN - 1 then die_msg "exec" else mret filename
  else
    let path := default "" (getenv_PATH (env_path fs) (c_environ c)) in
    match search_path (stat_file fs) (cwd fs) (path_dirs (S (String.length path)) path) filename None with
    | None => exit_ SIGABRT_exit
    | Some found => mret (default (junk_path fs) found)
    end.

(** The attached process in slot [i]: its flags and its output. *)
Definition attached (opt : options) (i : nat) (fl : Z) : M unit :=
  _ ← upd_tcb i (set_flags (fun f => set_flag f (Z.lor fl (Z.lor TCB_ATTACHED
                   (Z.lor TCB_STARTUP (post_attach_sigstop opt))))));
  newoutf oracle opt i.

(** while (waitpid(pid, &status, WSTOPPED) < 0) *)
Fixpoint wait_stopped (fuel : nat) (p : Z) : M Z :=
  match fuel with
  | O => exit_ out_of_fuel
  | S fuel =>
      r ← ask_kernel oracle (RWait4 p WSTOPPED);
      if r_ret r <? 0 then
        if r_errno r =? EINTR then wait_stopped fuel p else die_msg "waitpid"
      else mret (r_val r)
  end.

(** With PTRACE_SEIZE the tracer waits for the child's SIGSTOP and seizes it. *)
Definition seize_child (opt : options) (p : Z) : M unit :=
  status ← wait_stopped (loop_fuel w) p;
  if negb (WIFSTOPPED status) || negb (WSTOPSIG status =? SIGSTOP) then
    _ ← kill oracle p SIGKILL;
    die_msg ("Unexpected wait status " +:+ fmt_x (u32 status))
  else
    a ← ptrace_attach_or_seize oracle opt p;
    if negb (a =? 0) then _ ← kill oracle p SIGKILL; die_msg ("Can't attach to " +:+ fmt_d p)
    else kill oracle p SIGCONT.

(** The result is strace_child and the tracer's own pid. *)
Definition startup_child (opt : options) (c : config) (filename : string) : M (Z * Z) :=
  path ← find_program filename c;
  match stat_file fs path with
  | None => die_msg ("Can't stat '" +:+ filename +:+ "'")
  | Some _ =>
      r ← fork oracle;
      if c_daemonized c then
        _ ← alloctcb (getpid pc);
        mret (0, r_val r)
      else
        let p := r_ret r in
        _ ← (if use_seize opt then seize_child opt p else mret tt);
        i ← alloctcb p;
        _ ← attached opt i TCB_STRACE_CHILD;
        mret (p, getpid pc)
  end.

(** ** The processes of -p, and the parent of -D *)

(** The loop over /proc/pid/task; [ntid] and [nerr] count. *)
Fixpoint attach_tasks (fuel : nat) (opt : options) (i : nat) (p ntid nerr : Z) : M (Z * Z) :=
  match fuel with
  | O => exit_ out_of_fuel
  | S fuel =>
      d ← ask_kernel oracle (RTask p);
      let tid := r_val d in
      if r_ret d =? 0 then mret (ntid, nerr)
      else if tid <=? 0 then attach_tasks fuel opt i p ntid nerr
      else
        a ← ptrace_attach_or_seize oracle opt tid;
        if a <? 0 then attach_tasks fuel opt i p (ntid + 1) (nerr + 1)
        else
          j ← (if tid =? p then mret i else alloctcb tid);
          _ ← attached opt j 0;
          attach_tasks fuel opt i p (ntid + 1) nerr
  end.

Definition attach_failed : M unit := err_msg "attach: ptrace(PTRACE_ATTACH, ...)".

(** The process of slot [i] and its threads; [true] when the user interrupted. *)
Definition attach_threads (opt : options) (interactive : bool) (i : nat) : M bool :=
  t ← tcb_of i;
  '(ntid, nerr) ← attach_tasks (loop_fuel w) opt i (pid t) 0 0;
  stop ← (if interactive then n ← interrupted oracle; mret (negb (n =? 0)) else mret false);
  if stop : bool then mret true
  else
    let n := ntid - nerr in
    if n =? 0 then _ ← attach_failed; _ ← droptcb opt i; mret false
    else
      _ ← when (qflag opt =? 0)
            (err_msg ("Process " +:+ fmt_u (u32 (pid t)) +:+ " attached" +:+
                      (if 1 <? n then " with " +:+ fmt_u n +:+ " threads" else "") +:+ nl));
      t ← tcb_of i;
      _ ← when (negb (has_flag (flags t) TCB_ATTACHED)) (droptcb opt i);
      mret false.

Definition attach_process (opt : options) (daemonized : bool) (i : nat) : M unit :=
  t ← tcb_of i;
  a ← ptrace_attach_or_seize oracle opt (pid t);
  if a <? 0 then _ ← attach_failed; droptcb opt i
  else
    _ ← attached opt i 0;
    _ ← when daemonized (kill oracle (strace_tracer_pid opt) SIGKILL);
    when (qflag opt =? 0) (err_msg ("Process " +:+ fmt_u (u32 (pid t)) +:+ " attached" +:+ nl)).

(** One round of the loop over the table. *)
Definition attach_slot (opt : options) (daemonized interactive : bool) (i : nat) : M bool :=
  t ← tcb_of i;
  if negb (inuse t) || has_flag (flags t) TCB_ATTACHED then mret false
  else
    dir ← (if negb (followfork opt =? 0) && negb daemonized then
             r ← ask_kernel oracle (RTaskDir (pid t)); mret (r_ret r >=? 0)
           else mret false);
    if dir : bool then attach_threads opt interactive i
    else _ ← attach_process opt daemonized i; mret false.

(** for (tcbi = 0; tcbi < tcbtabsize; tcbi++); the table can grow on the way. *)
Fixpoint attach_from (fuel : nat) (opt : options) (daemonized interactive : bool) (i : nat) : M unit :=
  match fuel with
  | O => exit_ out_of_fuel
  | S fuel =>
      s ← get;
      if (i <? tcbtabsize s)%nat then
        stop ← attach_slot opt daemonized interactive i;
        if stop : bool then mret tt else attach_from fuel opt daemonized interactive (S i)
      else mret tt
  end.

(** The result is the tracer's own pid, which changes under -D. *)
Definition startup_attach (opt : options) (c : config) : M Z :=
  self ← (if c_daemonized c then r ← fork oracle; mret (r_val r) else mret (strace_tracer_pid opt));
  _ ← attach_from (loop_fuel w) opt (c_daemonized c) (c_opt_intr c =? INTR_WHILE_WAIT) 0;
  mret self.

(** ** init and main *)

Definition test_ptrace (c : config) : M features :=
  '(o1, w1) ← (if c_followfork c =? 0 then mret (0, false)
               else test_ptrace_setoptions_followfork oracle w);
  '(sig, o2, w2) ← test_ptrace_setoptions_for_all oracle w;
  sigstop ← test_ptrace_seize oracle w;
  mret (mk_features (Z.lor o1 o2) sig (w1 || w2) sigstop).

(** init(argc, argv); the table has been allocated for [argc] processes. *)
Definition init (args : list string) : M (options * config) :=
  _ ← open_extra oracle;
  c ← default_quals (sysent_vec w) config0;
  let '(evs, cmd) := getopt args in
  c ← handle_options pc (sysent_vec w) evs c;
  '(c, _) ← check_options pc cmd c;
  f ← test_ptrace c;
  c ← open_output oracle c;
  c ← settle pc cmd c;
  '(child, self) ←
    (match cmd with
     | [] => mret (0, getpid pc)
     | filename :: _ =>
         _ ← modify_glb (fun g => set_skip true (set_hide true g));
         startup_child (options_of pc c f false 0 (getpid pc)) c filename
     end);
  n ← gets nprocs;
  self ← (if negb (n =? 0) || c_daemonized c
          then startup_attach (options_of pc c f false child self) c else mret self);
  n ← gets nprocs;
  let pfx := bool_decide (is_Some (c_outfname c)) && (c_followfork c <? 2) &&
             ((c_followfork c =? 1) || (1 <? n)) in
  mret (options_of pc c f pfx child self, c).

(** main(argc, argv); [fuel] bounds the rounds of trace. *)
Definition main (fuel : nat) (argv : list string) : M (option Z * Z) :=
  '(opt, c) ← init (drop 1 argv);
  main_loop oracle opt (world_of c w) fuel.
End child.
