(* ===== verification/Child.v ===== *)
(** * The forked children (alice-strace.c: exec_or_die, the children of the tests
      of ptrace, strace_popen and startup_attach; the signals init sets up)

    A child is a process of its own: it shares nothing with the tracer after the
    fork, so it has a history and a monad of its own.  The history is the list of
    the calls it made with their answers; what a call answers is given by an
    argument, as for the tracer; that it stops at its own SIGSTOP, until the tracer
    restarts it, is behind the answer to kill.  A message stands for the line
    perror_msg prints, without the name of the program and the text of errno.

    Under -D the program is run by the process strace was started in, and the
    tracer is its child.  The former is then strace_tracer_pid and its die() calls
    cleanup, but on a table that is empty (-D excludes -p), so it does no more
    than exit(1). *)

From stdpp Require Import gmap.
From S2P Require Import Prelude Timeval Xlat Quote Tracee Decode Io Options Signal File Status Qual Mmap Count.
From S2P Require Import Tcb Regs Log Table Pathtrace Syscall Frame Line Stops Trace Init Startup.
Local Open Scope string_scope.
Local Open Scope list_scope.
Local Open Scope Z_scope.

Inductive ccall :=
  | CClose (fd : Z)
  | CDup2 (fd fd' : Z)
  | CTraceme
  | CInitgroups (user : string) (gid : Z)
  | CSetregid (rgid egid : Z)
  | CSetreuid (ruid euid : Z)
  | CGeteuid
  | CGetpid
  | CKill (pid sig : Z)
  | CFork
  | CAlarm (n : Z)
  | CWait
  | CPause
  | CMessage (t : string)
  | CExec (path : string) (argv : list string).

Definition history := list (ccall * Z).

Inductive cres (A : Type) :=
  | CRet (x : A) (h : history)
  | CExit (code : Z) (h : history)
  | CExeced (path : string) (argv : list string) (h : history).   (* the program runs *)
Arguments CRet {A}. Arguments CExit {A}. Arguments CExeced {A}.

Definition C (A : Type) : Type := history -> cres A.
#[global] Instance C_ret : MRet C := fun A x h => CRet x h.
#[global] Instance C_bind : MBind C := fun A B k c h =>
  match c h with
  | CRet x h => k x h
  | CExit code h => CExit code h
  | CExeced p a h => CExeced p a h
  end.

Section child.
Context (answer : history -> ccall -> Z).

Definition call (c : ccall) : C Z := fun h => let r := answer h c in CRet r (h ++ [(c, r)]).
Definition cexit {A} (code : Z) : C A := fun h => CExit code h.
(** perror_msg_and_die in a child, which is not the tracer: exit(1). *)
Definition cdie {A} (t : string) : C A := _ ← call (CMessage t); cexit 1.
(** execv, which returns only when it fails. *)
Definition execv (path : string) (argv : list string) : C Z := fun h =>
  let r := answer h (CExec path argv) in
  let h := h ++ [(CExec path argv, r)] in
  if r <? 0 then CRet r h else CExeced path argv h.
(** if (call < 0) perror_msg_and_die *)
Definition must (c : ccall) (t : string) : C unit :=
  r ← call c; if r <? 0 then cdie t else mret tt.

(** ** exec_or_die *)

(** params_for_tracee, as startup_child fills it in: [log_fd] is the descriptor of
    a log that is not stderr. *)
Record exec_params := mk_params {
  fd_to_close : Z; run_euid : Z; run_egid : Z; ep_argv : list string; ep_pathname : string
}.
Definition params_for_tracee (log_fd : option Z) (st : file_status) (run_uid run_gid : Z)
    (pathname : string) (argv : list string) : exec_params :=
  mk_params (default (-1) log_fd)
    (if has_flag (st_mode st) S_ISUID then st_uid st else run_uid)
    (if has_flag (st_mode st) S_ISGID then st_gid st else run_gid) argv pathname.

Definition exec_or_die {A} (daemonized seize : bool) (username : option string) (run_uid run_gid : Z)
    (params : exec_params) : C A :=
  _ ← (if 0 <=? fd_to_close params then call (CClose (fd_to_close params)) else mret 0);
  _ ← (if negb daemonized && negb seize then must CTraceme "ptrace(PTRACE_TRACEME, ...)" else mret tt);
  _ ← match username with
      | Some u =>
          _ ← must (CInitgroups u run_gid) "initgroups";
          _ ← must (CSetregid run_gid (run_egid params)) "setregid";
          must (CSetreuid run_uid (run_euid params)) "setreuid"
      | None =>
          e ← call CGeteuid;
          if negb (e =? 0) then must (CSetreuid run_uid run_uid) "setreuid" else mret tt
      end;
  _ ← (if negb daemonized then p ← call CGetpid; call (CKill p SIGSTOP)
       else _ ← call (CAlarm 3); _ ← call CWait; call (CAlarm 0));
  _ ← execv (ep_pathname params) (ep_argv params);
  cdie "exec".

(** ** The other children *)

(** The child of test_ptrace_setoptions_followfork. *)
Definition followfork_child : C unit :=
  p ← call CGetpid;
  _ ← must CTraceme "test_ptrace_setoptions_followfork: PTRACE_TRACEME doesn't work";
  _ ← call (CKill p SIGSTOP);
  _ ← must CFork "fork";
  cexit 0.

(** The child of test_ptrace_setoptions_for_all. *)
Definition for_all_child : C unit :=
  p ← call CGetpid;
  _ ← must CTraceme "test_ptrace_setoptions_for_all: PTRACE_TRACEME doesn't work";
  _ ← call (CKill p SIGSTOP);
  cexit 0.

(** The child of test_ptrace_seize, and under -D the parent in startup_attach. *)
Definition pausing_child : C unit := _ ← call CPause; cexit 0.

(** The child of strace_popen; [fds] are the ends of the pipe. *)
Definition popen_child (fds : Z * Z) (command : string) : C unit :=
  _ ← call (CClose fds.2);
  _ ← (if negb (fds.1 =? 0) then
         r ← call (CDup2 fds.1 0);
         _ ← (if negb (r =? 0) then cdie "dup2" else mret tt);
         _ ← call (CClose fds.1); mret tt
       else mret tt);
  _ ← execv "/bin/sh" ["sh"; "-c"; command];
  cdie "Can't execute '/bin/sh'".
End child.

(** ** Signals *)

(** What init does with the tracer's signals, after the program has been started:
    it does not inherit this. *)
Inductive disposition := SigIgn | SigDfl | SigInterrupt.
Definition SIGHUP : Z := 1.
Definition SIGINT : Z := 2.
Definition SIGQUIT : Z := 3.
Definition SIGPIPE : Z := 13.
Definition INTR_BLOCK_TSTP_TOO : Z := 4.
Definition fatal_signals : list Z := [SIGHUP; SIGINT; SIGQUIT; SIGPIPE; SIGTERM].

(** The calls of sigaction, in their order; before the options,
    signal(SIGCHLD, SIG_DFL). *)
Definition signal_actions (opt_intr : Z) : list (Z * disposition) :=
  [(SIGTTOU, SigIgn); (SIGTTIN, SigIgn)] ++
  if negb (opt_intr =? INTR_ANYWHERE) then
    (if opt_intr =? INTR_BLOCK_TSTP_TOO then [(SIGTSTP, SigIgn)] else []) ++
    map (fun sig => (sig, if opt_intr =? INTR_WHILE_WAIT then SigInterrupt else SigIgn)) fatal_signals
  else [].

(** The signals sigprocmask blocks while a stop is handled. *)
Definition blocked_set (opt_intr : Z) : list Z :=
  if negb (opt_intr =? INTR_ANYWHERE) && (opt_intr =? INTR_WHILE_WAIT) then fatal_signals else [].

(** The handler runs only between two stops: what it handles is blocked. *)
Lemma handled_blocked opt_intr sig :
  (sig, SigInterrupt) ∈ signal_actions opt_intr <-> sig ∈ blocked_set opt_intr.
Proof.
  unfold signal_actions, blocked_set, INTR_WHILE_WAIT, INTR_ANYWHERE, INTR_BLOCK_TSTP_TOO.
  destruct (Z.eqb_spec opt_intr 2) as [->|H2].
  - cbn. set_solver.
  - rewrite andb_false_r. destruct (opt_intr =? 1), (opt_intr =? 4); cbn; set_solver.
Qed.

(** ** Properties *)

(** The calls that change what the program may do, in their order. *)
Definition credentials (username : option string) (run_uid run_gid : Z) (params : exec_params)
    (h : history) : Prop :=
  match username with
  | Some u => exists r1 r2 r3, 0 <= r1 /\ 0 <= r2 /\ 0 <= r3 /\
      h = [(CInitgroups u run_gid, r1); (CSetregid run_gid (run_egid params), r2);
           (CSetreuid run_uid (run_euid params), r3)]
  | None => (h = [(CGeteuid, 0)]) \/ exists e r, e <> 0 /\ 0 <= r /\
      h = [(CGeteuid, e); (CSetreuid run_uid run_uid, r)]
  end.

(** Before them: the log is closed, and the child asks to be traced. *)
Definition preparation (daemonized seize : bool) (params : exec_params) (h : history) : Prop :=
  exists r r', 0 <= r' /\
    h = (if 0 <=? fd_to_close params then [(CClose (fd_to_close params), r)] else []) ++
        (if negb daemonized && negb seize then [(CTraceme, r')] else []).
(** Behind them: the child stops itself, or waits for the tracer to attach. *)
Definition waiting (daemonized : bool) (h : history) : Prop :=
  if daemonized then exists r1 r2 r3, h = [(CAlarm 3, r1); (CWait, r2); (CAlarm 0, r3)]
  else exists p r, h = [(CGetpid, p); (CKill p SIGSTOP, r)].

(** The history of a child that runs the program. *)
Definition ran_program (daemonized seize : bool) (username : option string) (run_uid run_gid : Z)
    (params : exec_params) (h : history) : Prop :=
  exists pre cred stop r, preparation daemonized seize params pre /\
    credentials username run_uid run_gid params cred /\ waiting daemonized stop /\ 0 <= r /\
    h = pre ++ cred ++ stop ++ [(CExec (ep_pathname params) (ep_argv params), r)].

(** No program has been run. *)
Definition no_exec (h : history) : Prop := Forall (fun cr => match cr.1 with CExec _ _ => cr.2 < 0 | _ => True end) h.

(** A part of a child: what it adds to the history when it goes on; otherwise it
    ends with status 1. *)
Definition Part {A} (c : C A) (P : A -> history -> Prop) : Prop := forall h0,
  match c h0 with
  | CRet x h => exists h1, h = h0 ++ h1 /\ P x h1 /\ no_exec h1
  | CExit code h => code = 1 /\ exists h1, h = h0 ++ h1 /\ no_exec h1
  | CExeced _ _ _ => False
  end.

Section parts.
Context (answer : history -> ccall -> Z).

Lemma Part_ret {A} (x : A) (P : A -> history -> Prop) : P x [] -> Part (mret x) P.
Proof. intros H h0. exists []. rewrite app_nil_r. split_and!; [done|done|constructor]. Qed.

Lemma Part_bind {A B} (c : C A) (k : A -> C B) P R :
  Part c P -> (forall x, exists Q, Part (k x) Q /\ forall y h1 h2, P x h1 -> Q y h2 -> R y (h1 ++ h2)) ->
  Part (c ≫= k) R.
Proof.
  intros Hc Hk h0. unfold mbind, C_bind. specialize (Hc h0). destruct (c h0) as [x h|code h|p a h]; [|done..].
  destruct Hc as (h1 & -> & HP & Hn1). destruct (Hk x) as (Q & HQ & HR). specialize (HQ (h0 ++ h1)).
  destruct (k x (h0 ++ h1)) as [y h|code h|p a h]; [| |done].
  - destruct HQ as (h2 & -> & Hy & Hn2). exists (h1 ++ h2). rewrite app_assoc. split_and!; [done|by eapply HR|].
    by apply Forall_app.
  - destruct HQ as (Hcode & h2 & -> & Hn2). split; [done|]. exists (h1 ++ h2). rewrite app_assoc.
    split; [done|]. by apply Forall_app.
Qed.

Lemma Part_weaken {A} (c : C A) (P R : A -> history -> Prop) :
  Part c P -> (forall x h, P x h -> R x h) -> Part c R.
Proof.
  intros Hc HR h0. specialize (Hc h0). destruct (c h0); [|done..]. destruct Hc as (h1 & -> & HP & Hn).
  exists h1. auto.
Qed.

Lemma Part_call c : (forall p a, c <> CExec p a) -> Part (call answer c) (fun r h => h = [(c, r)]).
Proof.
  intros Hc h0. unfold call. eexists. split_and!; [done|done|]. constructor; [|constructor].
  destruct c; try done. by destruct (Hc path argv).
Qed.

Lemma Part_die {A} t P : Part (cdie answer t : C A) P.
Proof.
  intros h0. unfold cdie, mbind, C_bind, call, cexit. split; [done|]. eexists. split; [done|].
  constructor; [done|constructor].
Qed.

Lemma Part_must c t : (forall p a, c <> CExec p a) ->
  Part (must answer c t) (fun _ h => exists r, 0 <= r /\ h = [(c, r)]).
Proof.
  intros Hc. unfold must. eapply Part_bind; [by apply Part_call|]. intros r. cbn beta.
  destruct (Z.ltb_spec r 0) as [H|H].
  - exists (fun _ _ => False). split; [apply Part_die|done].
  - exists (fun _ h => h = []). split; [by apply Part_ret|]. intros _ h1 h2 -> ->. exists r. done.
Qed.

Lemma close_part params :
  Part (if 0 <=? fd_to_close params then call answer (CClose (fd_to_close params)) else mret 0)
    (fun _ h => exists r, h = if 0 <=? fd_to_close params then [(CClose (fd_to_close params), r)] else []).
Proof.
  destruct (0 <=? fd_to_close params); [|apply Part_ret; by exists 0].
  eapply Part_weaken; [by apply Part_call|]. intros r h ->. by exists r.
Qed.

Lemma traceme_part (b : bool) t :
  Part (if b then must answer CTraceme t else mret tt)
    (fun _ h => exists r, 0 <= r /\ h = if b then [(CTraceme, r)] else []).
Proof. destruct b; [by apply Part_must|]. apply Part_ret. by exists 0. Qed.

Lemma credentials_part username run_uid run_gid params :
  Part (match username with
        | Some u =>
            _ ← must answer (CInitgroups u run_gid) "initgroups";
            _ ← must answer (CSetregid run_gid (run_egid params)) "setregid";
            must answer (CSetreuid run_uid (run_euid params)) "setreuid"
        | None =>
            e ← call answer CGeteuid;
            if negb (e =? 0) then must answer (CSetreuid run_uid run_uid) "setreuid" else mret tt
        end) (fun _ => credentials username run_uid run_gid params).
Proof.
  destruct username as [u|].
  - eapply Part_bind; [by apply Part_must|]. intros [].
    exists (fun _ h => exists r2 r3, 0 <= r2 /\ 0 <= r3 /\
      h = [(CSetregid run_gid (run_egid params), r2); (CSetreuid run_uid (run_euid params), r3)]). split.
    + eapply Part_bind; [by apply Part_must|]. intros []. eexists. split; [by apply Part_must|].
      intros _ h1 h2 (r2 & Hr2 & ->) (r3 & Hr3 & ->). by exists r2, r3.
    + intros _ h1 h2 (r1 & Hr1 & ->) (r2 & r3 & Hr2 & Hr3 & ->). by exists r1, r2, r3.
  - eapply Part_bind; [by apply Part_call|]. intros e. destruct (Z.eqb_spec e 0) as [->|He]; cbn [negb].
    + exists (fun _ h => h = []). split; [by apply Part_ret|]. intros _ h1 h2 -> ->. by left.
    + eexists. split; [by apply Part_must|]. intros _ h1 h2 -> (r & Hr & ->). right. by exists e, r.
Qed.

Lemma waiting_part (daemonized : bool) :
  Part (if negb daemonized then p ← call answer CGetpid; call answer (CKill p SIGSTOP)
        else _ ← call answer (CAlarm 3); _ ← call answer CWait; call answer (CAlarm 0))
    (fun _ => waiting daemonized).
Proof.
  destruct daemonized; cbn [negb waiting].
  - eapply Part_bind; [by apply Part_call|]. intros r1.
    exists (fun _ h => exists r2 r3, h = [(CWait, r2); (CAlarm 0, r3)]). split.
    + eapply Part_bind; [by apply Part_call|]. intros r2. eexists. split; [by apply Part_call|].
      intros r3 h1 h2 -> ->. eauto.
    + intros _ h1 h2 -> (r2 & r3 & ->). by exists r1, r2, r3.
  - eapply Part_bind; [by apply Part_call|]. intros p. eexists. split; [by apply Part_call|].
    intros r h1 h2 -> ->. by exists p, r.
Qed.

(** A whole child: it runs [path], having added a history to its own, or ends
    with status 1 and without having run anything. *)
Definition Runs {A} (path : string) (argv : list string) (c : C A) (h0 : history) (R : history -> Prop) : Prop :=
  match c h0 with
  | CRet _ _ => False
  | CExit code h => code = 1 /\ exists h1, h = h0 ++ h1 /\ no_exec h1
  | CExeced p a h => p = path /\ a = argv /\ exists h1, h = h0 ++ h1 /\ R h1
  end.

Lemma Runs_bind {A B} path argv (c : C A) (k : A -> C B) h0 P (R : history -> Prop) :
  Part c P -> (forall x h1, P x h1 -> Runs path argv (k x) (h0 ++ h1) (fun h2 => R (h1 ++ h2))) ->
  Runs path argv (c ≫= k) h0 R.
Proof.
  intros Hc Hk. specialize (Hc h0). unfold Runs, mbind, C_bind. destruct (c h0) as [x h|code h|]; [|done..].
  destruct Hc as (h1 & -> & HP & Hn1). specialize (Hk x h1 HP). unfold Runs in Hk.
  destruct (k x (h0 ++ h1)) as [|code h|p a h]; [done| |].
  - destruct Hk as (-> & h2 & -> & Hn2). split; [done|]. exists (h1 ++ h2). rewrite app_assoc.
    split; [done|]. by apply Forall_app.
  - destruct Hk as (-> & -> & h2 & -> & HR). split_and!; [done..|]. exists (h1 ++ h2). by rewrite app_assoc.
Qed.

Lemma Runs_weaken {A} path argv (c : C A) h0 (Q R : history -> Prop) :
  Runs path argv c h0 Q -> (forall h, Q h -> R h) -> Runs path argv c h0 R.
Proof.
  unfold Runs. destruct (c h0); [done..|]. intros (-> & -> & h1 & -> & HQ) H. split_and!; [done..|].
  exists h1. auto.
Qed.

Lemma execv_runs {A} path argv t h0 :
  Runs path argv (_ ← execv answer path argv; cdie answer t : C A) h0
    (fun h => exists r, 0 <= r /\ h = [(CExec path argv, r)]).
Proof.
  unfold Runs, mbind, C_bind, execv. destruct (Z.ltb_spec (answer h0 (CExec path argv)) 0) as [H|H].
  - pose proof (Part_die t (fun (_ : A) _ => True)
      (h0 ++ [(CExec path argv, answer h0 (CExec path argv))])) as Hd.
    destruct (cdie answer t _) as [? ?|code h|? ? ?] eqn:E; [done| |done].
    destruct Hd as (-> & h1 & -> & Hn). split; [done|]. eexists. rewrite <- app_assoc. split; [done|].
    by constructor.
  - eauto 10.
Qed.
End parts.

(** C13: The program is run with the privileges asked for, and only so.  Whatever the
    calls answer, the child ends by running the program or with status 1 and
    without having run it.  When it runs the program it has closed the log; it has
    asked to be traced, if the tracer does not seize it; with -u it has set its
    groups, its group and its user, in this order and each with success, and
    otherwise given up the rights of a setuid tracer; and then it has stopped
    itself, or waited for the tracer of -D. *)
Theorem program_runs_as_asked answer daemonized seize username run_uid run_gid params :
  match exec_or_die answer daemonized seize username run_uid run_gid params [] : cres unit with
  | CRet _ _ => False
  | CExit code h => code = 1 /\ no_exec h
  | CExeced path argv h => path = ep_pathname params /\ argv = ep_argv params /\
      ran_program daemonized seize username run_uid run_gid params h
  end.
Proof.
  cut (Runs (ep_pathname params) (ep_argv params)
         (exec_or_die answer daemonized seize username run_uid run_gid params : C unit) []
         (ran_program daemonized seize username run_uid run_gid params)).
  { unfold Runs. destruct (exec_or_die _ _ _ _ _ _ _ _) as [|code h|p a h]; [done| |].
    - by intros (-> & h1 & -> & Hn).
    - by intros (-> & -> & h1 & -> & HR). }
  unfold exec_or_die.
  eapply Runs_bind; [apply close_part|]. intros ? h1 [r1 ->].
  eapply Runs_bind; [apply traceme_part|]. intros ? h2 (r2 & Hr2 & ->).
  eapply Runs_bind; [apply credentials_part|]. intros ? h3 H3.
  eapply Runs_bind; [apply waiting_part|]. intros ? h4 H4.
  eapply Runs_weaken; [apply execv_runs|]. intros h5 (r5 & Hr5 & ->).
  eexists _, h3, h4, r5. split_and!; [by exists r1, r2|done..|]. by rewrite <- app_assoc.
Qed.
