(* ===== verification/Loop.v ===== *)
(** * Properties of the event loop

    The table invariant in every reachable state, the line discipline across
    whole rounds, what every stop is answered with, and the exit status. *)

From stdpp Require Import gmap.
From S2P Require Import Prelude Timeval Xlat Quote Tracee Decode Io Options Signal Qual Mmap Count.
From S2P Require Import Tcb Regs Log Table Pathtrace Syscall Frame Line Stops Trace.
Local Open Scope string_scope.
Local Open Scope list_scope.
Local Open Scope Z_scope.

(** ** Triples for returning computations *)

Definition hoare (P : tracer -> Prop) {A} (c : M A) (Q : A -> tracer -> Prop) : Prop := forall s,
  P s -> match c s with Ret x s' => Q x s' | _ => True end.

Lemma hoare_bind {A B} P R Q (c : M A) (k : A -> M B) :
  hoare P c R -> (forall x, hoare (R x) (k x) Q) -> hoare P (c ≫= k) Q.
Proof.
  intros Hc Hk s Hs. unfold mbind, M_bind. specialize (Hc s Hs).
  destruct (c s) as [x s1| |]; [by apply Hk|done..].
Qed.
Lemma hoare_ret {A} (P : tracer -> Prop) (x : A) (Q : A -> tracer -> Prop) :
  (forall s, P s -> Q x s) -> hoare P (mret x) Q.
Proof. intros H s Hs. by apply H. Qed.
Lemma hoare_die {A} P (Q : A -> tracer -> Prop) t : hoare P (die_msg t) Q.
Proof. done. Qed.
Lemma hoare_pre {A} (P P' : tracer -> Prop) (c : M A) Q :
  (forall s, P s -> P' s) -> hoare P' c Q -> hoare P c Q.
Proof. intros H Hc s Hs. apply Hc, H, Hs. Qed.
Lemma hoare_post {A} P (c : M A) (Q Q' : A -> tracer -> Prop) :
  (forall x s, Q x s -> Q' x s) -> hoare P c Q -> hoare P c Q'.
Proof. intros H Hc s Hs. specialize (Hc s Hs). destruct (c s); [by apply H|done..]. Qed.
Lemma hoare_tcb_of {B} P Q i (k : tcb -> M B) :
  (forall t, hoare (fun s => P s /\ default zero_tcb (tcbtab s !! i) = t) (k t) Q) ->
  hoare P (tcb_of i ≫= k) Q.
Proof. intros H s Hs. exact (H _ s (conj Hs eq_refl)). Qed.
Lemma hoare_tri E {A} P (c : M A) Q : tri E P c Q -> hoare P c Q.
Proof. intros H s Hs. specialize (H s Hs). destruct (c s); simpl in *; done. Qed.

(** ** Assertions on the table *)

(** Slot [i] holds process [p]. *)
Definition holds (i : nat) (p : Z) (s : tracer) : Prop :=
  exists t, tcbtab s !! i = Some t /\ inuse t = true /\ pid t = p.

(** Assertions on the table only. *)
Definition tabular (P : tracer -> Prop) : Prop := forall s s', tsame s s' -> P s -> P s'.
Lemma tabular_wf : tabular wf_tab.
Proof. intros s s'. apply tsame_wf. Qed.
Lemma tabular_holds i p : tabular (holds i p).
Proof.
  intros s s' Hs (t & Ht & Hin & Hp).
  destruct (tsame_tcb s' s i t (tsame_sym _ _ Hs) Ht) as (t' & Ht' & Hp' & Hin').
  exists t'. split; [done|]. split; congruence.
Qed.
Lemma tabular_and P Q : tabular P -> tabular Q -> tabular (fun s => P s /\ Q s).
Proof. intros HP HQ s s' Hf []. split; [by eapply HP|by eapply HQ]. Qed.

Definition Tabs {A} (c : M A) : Prop := forall s,
  match c s with Ret _ s' => tsame s s' | _ => True end.
Lemma Tabs_bind {A B} (c : M A) (k : A -> M B) : Tabs c -> (forall x, Tabs (k x)) -> Tabs (c ≫= k).
Proof.
  intros Hc Hk s. unfold mbind, M_bind. specialize (Hc s). destruct (c s) as [x s1| |]; [|done..].
  specialize (Hk x s1). destruct (k x s1); [|done..]. by eapply tsame_trans.
Qed.
Lemma Tabs_frames {A} (c : M A) : Frames TCB_INUSE c -> Tabs c.
Proof. intros Hc s. specialize (Hc s). destruct (c s); [by apply (frame_tsame TCB_INUSE)|done..]. Qed.
Lemma Tabs_ask oracle r : Tabs (ask_kernel oracle r).
Proof. done. Qed.
Lemma Tabs_modify_glb f : Tabs (modify_glb f).
Proof. done. Qed.
Lemma Tabs_upd i f : (forall t, key (f t) = key t) -> Tabs (upd_tcb i f).
Proof.
  intros Hf s. split; [done|]. intros j. simpl. rewrite list_lookup_alter.
  case_decide; [subst|done]. destruct (tcbtab s !! j); simpl; [by rewrite Hf|done].
Qed.
Lemma Tabs_die {A} t : Tabs (die_msg t : M A).
Proof. done. Qed.
Lemma hoare_tabs {A} P (c : M A) : tabular P -> Tabs c -> hoare P c (fun _ => P).
Proof. intros HP Hc s Hs. specialize (Hc s). destruct (c s); [by eapply HP|done..]. Qed.

Create HintDb tabs.
#[export] Hint Resolve Tabs_ask Tabs_modify_glb Tabs_die : tabs.
Ltac tabs :=
  repeat first
    [ solve [eauto with tabs]
    | apply Tabs_frames; solve [frames]
    | apply Tabs_bind; [|intros ?]
    | apply Tabs_upd; by intros []
    | match goal with
      | |- Tabs (if ?b then _ else _) => destruct b
      | |- Tabs (when ?b _) => destruct b; unfold when
      | |- Tabs (let '(_, _) := ?x in _) => destruct x
      | |- Tabs (match ?x with _ => _ end) => destruct x
      end ].

Section loop.
Context (oracle : list event -> request -> reply) (opt : options) (w : world).

(** ** Steps that keep the table *)

Lemma Frames_kept {A} (c : M A) : Frames kept c -> Frames TCB_INUSE c.
Proof. by apply Frames_sub. Qed.
Lemma Frames_clearbpt' i : Frames TCB_INUSE (clearbpt oracle i).
Proof. apply Frames_kept, Frames_clearbpt. Qed.

Lemma Frames_ended {A} m i b (c : M A) : Z.land still m = m -> Ends i b c -> Frames m c.
Proof.
  intros Hm Hc s. specialize (Hc s). destruct (c s); [|done..]. destruct Hc as [Hc _].
  by eapply frame_sub.
Qed.

Lemma Frames_syscall m i : Z.land still m = m -> Frames m (trace_syscall oracle opt w i).
Proof.
  intros Hm s. destruct (tcbtab s !! i) as [t|] eqn:Ht.
  - pose proof (trace_syscall_flips oracle opt w i s t Ht) as H.
    destruct (trace_syscall oracle opt w i s); [|done..]. destruct H as [H _].
    by eapply frame_sub; [|exact H].
  - pose proof (Ends_entering_known oracle opt w i) as H1.
    pose proof (Ends_entering_failed oracle opt w i) as H2.
    assert (Hf : Frames m (trace_syscall_entering oracle opt w i)).
    { unfold trace_syscall_entering. apply Frames_bind; [frames|intros g].
      apply Frames_bind; [frames|intros good]. destruct (good =? 0); [frames|].
      destruct (good =? 1); [|by eapply Frames_ended; [|apply H2]].
      apply Frames_bind; [unfold syscall_fixup_on_sysenter; frames|intros r].
      destruct (r =? 0); [frames|]. apply Frames_bind; [frames|intros r'].
      destruct (negb _); by eapply Frames_ended; [|first [apply H1|apply H2]]. }
    unfold trace_syscall, mbind, M_bind, tcb_of, gets. rewrite Ht. simpl. apply Hf.
Qed.
Lemma Frames_trace_syscall i : Frames TCB_INUSE (trace_syscall oracle opt w i).
Proof. by apply Frames_syscall. Qed.

Lemma Frames_perror m err t : Frames m (perror_msg w err t).
Proof. apply Frames_err_msg. Qed.
Lemma Frames_message m i t : Frames m (say oracle opt w i t).
Proof. unfold say, message. frames. Qed.
Lemma Frames_interrupted m : Frames m (interrupted oracle).
Proof. unfold interrupted. frames. Qed.
Lemma Frames_clear_regs m : Frames m clear_regs.
Proof. unfold clear_regs. frames. Qed.
Lemma Frames_get_regs m p : Frames m (get_regs oracle p).
Proof. unfold get_regs, get_regset. frames. Qed.
#[local] Hint Resolve Frames_clearbpt' Frames_trace_syscall Frames_perror Frames_message
  Frames_interrupted Frames_clear_regs Frames_get_regs : frames.
Lemma Frames_wait_for_stop m : Frames m (wait_for_stop oracle w).
Proof. unfold wait_for_stop. frames. Qed.

#[local] Hint Resolve Frames_wait_for_stop : frames.

Lemma Tabs_ptrace_restart op i sig : Tabs (ptrace_restart oracle w op i sig).
Proof. unfold ptrace_restart, ptrace. tabs. Qed.
Lemma Tabs_execve_thread p ev : Tabs (execve_thread oracle opt p ev).
Proof. unfold execve_thread, ptrace, pid2tcb. tabs. Qed.
Lemma Tabs_detach_wait i : Tabs (detach_wait oracle w i).
Proof. unfold detach_wait. tabs. Qed.
#[local] Hint Resolve Tabs_ptrace_restart Tabs_execve_thread Tabs_detach_wait : tabs.
Lemma Tabs_detach_loop fuel i e : Tabs (detach_loop oracle opt w fuel i e).
Proof. revert e. induction fuel as [|fuel IH]; intros e; simpl; tabs. Qed.
Lemma Tabs_detach_request i : Tabs (detach_request oracle w i).
Proof. unfold detach_request, ptrace. tabs. Qed.
#[local] Hint Resolve Tabs_detach_loop Tabs_detach_request : tabs.

(** ** Steps that change the table *)

Lemma hoare_droptcb i : hoare wf_tab (droptcb opt i) (fun _ => wf_tab).
Proof.
  intros s Hwf. destruct (tcbtab s !! i) as [t|] eqn:Ht.
  - destruct (decide (pid t = 0)) as [Hp|Hp].
    + unfold droptcb, mbind, M_bind, get, tcb_of, gets. rewrite Ht. simpl. rewrite Hp. simpl. done.
    + destruct (droptcb_run opt i s t Ht Hp) as (evs & -> & _). by eapply (droptcb_wf i t s).
  - unfold droptcb, mbind, M_bind, get, tcb_of, gets. by rewrite Ht.
Qed.

Lemma hoare_wf_tabs {A} (c : M A) : Tabs c -> hoare wf_tab c (fun _ => wf_tab).
Proof. apply hoare_tabs, tabular_wf. Qed.

Lemma hoare_detach i : hoare wf_tab (detach oracle opt w i) (fun _ => wf_tab).
Proof.
  unfold detach.
  eapply hoare_bind; [apply hoare_wf_tabs; tabs|intros t].
  eapply hoare_bind; [apply hoare_wf_tabs; tabs|intros ?].
  eapply hoare_bind; [apply hoare_wf_tabs; tabs|intros [error expected]].
  eapply hoare_bind; [apply hoare_wf_tabs; tabs|intros e].
  eapply hoare_bind; [apply hoare_wf_tabs; tabs|intros ?].
  eapply hoare_bind; [apply hoare_droptcb|intros ?]. by apply hoare_ret.
Qed.

Lemma Tabs_call_summary : Tabs (call_summary opt w).
Proof. unfold call_summary, summary_of, set_personality. tabs. Qed.
#[local] Hint Resolve Tabs_call_summary : tabs.
Lemma hoare_cleanup : hoare wf_tab (cleanup oracle opt w) (fun _ => wf_tab).
Proof.
  assert (Hfrom : forall n i sig, hoare wf_tab (cleanup_from oracle opt w n i sig) (fun _ => wf_tab)).
  { induction n as [|n IH]; intros i sig; simpl; [by apply hoare_ret|].
    eapply hoare_bind; [apply hoare_wf_tabs; tabs|intros t].
    eapply hoare_bind; [|intros ?; apply IH]. destruct (inuse t); [|by apply hoare_ret].
    eapply hoare_bind; [apply hoare_wf_tabs; tabs|intros ?].
    eapply hoare_bind; [apply hoare_detach|intros ?]. by apply hoare_ret. }
  unfold cleanup. eapply hoare_bind; [apply hoare_wf_tabs; tabs|intros sig].
  eapply hoare_bind; [apply hoare_wf_tabs; tabs|intros s].
  eapply hoare_bind; [apply Hfrom|intros ?]. apply hoare_wf_tabs. tabs.
Qed.

(** What init guarantees of the options. *)
Definition wf_options : Prop :=
  post_attach_sigstop opt = 0 \/ post_attach_sigstop opt = TCB_IGNORE_ONE_SIGSTOP.

Definition attach_flags : Z := Z.lor TCB_ATTACHED (Z.lor TCB_STARTUP (post_attach_sigstop opt)).
Lemma key_attach t :
  wf_options -> key (set_flags (fun f => set_flag f attach_flags) t) = key t.
Proof.
  intros Ho. unfold key, inuse. f_equal. simpl. apply has_set_disjoint.
  unfold attach_flags. by destruct Ho as [-> | ->].
Qed.

Lemma Tabs_newoutf i : Tabs (newoutf oracle opt i).
Proof. unfold newoutf. tabs. Qed.
#[local] Hint Resolve Tabs_newoutf : tabs.

Lemma pid2tcb_holds p s :
  wf_tab s -> exists r, pid2tcb p s = Ret r s /\
    match r with Some i => holds i p s | None => abs (tcbtab s) !! p = None end.
Proof.
  intros Hwf. destruct (pid2tcb_spec p s Hwf) as (r & Hr & H). exists r. split; [done|].
  destruct r as [i|]; [|done]. destruct H as (t & Ht & Ha).
  apply abs_lookup in Ha as (j & Hj & Hin & Hp); [|done]. unfold holds.
  destruct (decide (i = j)) as [->|Hne]; [eauto|].
  assert (Hit : inuse t = true) by done. eauto.
Qed.

Lemma hoare_alloctcb p :
  0 < p -> hoare (fun s => wf_tab s /\ abs (tcbtab s) !! p = None) (alloctcb p)
                 (fun i s => wf_tab s /\ holds i p s).
Proof.
  intros Hp s [Hwf Hnew]. destruct (alloctcb_run p s Hwf) as (i & Hi & ->). split.
  - by eapply (alloctcb_wf p s i).
  - exists (new_tcb p (current_personality (glb s))). split; [|done]. simpl.
    pose proof (free_slot_spec (grown_tab s)) as H. rewrite Hi in H. destruct H as (t0 & Ht0 & _).
    apply list_lookup_insert_eq. by apply lookup_lt_Some in Ht0.
Qed.

Definition at_tcb (i : nat) (p : Z) (s : tracer) : Prop := wf_tab s /\ holds i p s.
Lemma tabular_at i p : tabular (at_tcb i p).
Proof. apply tabular_and; [apply tabular_wf|apply tabular_holds]. Qed.
Lemma hoare_at_tabs {A} i p (c : M A) : Tabs c -> hoare (at_tcb i p) c (fun _ => at_tcb i p).
Proof. apply hoare_tabs, tabular_at. Qed.

Lemma hoare_find_tracee p status :
  wf_options -> 0 < p ->
  hoare wf_tab (find_tracee oracle opt p status) (fun i => at_tcb i p).
Proof.
  intros Ho Hp s Hwf. unfold find_tracee. unfold mbind at 1, M_bind at 1.
  destruct (pid2tcb_holds p s Hwf) as (r & -> & Hr). destruct r as [i|]; [done|].
  destruct (negb _).
  - revert s Hwf Hr. cut (forall s, wf_tab s /\ abs (tcbtab s) !! p = None ->
      match (i ← alloctcb p;
             _ ← upd_tcb i (set_flags (fun f => set_flag f attach_flags));
             _ ← newoutf oracle opt i;
             _ ← when (qflag opt =? 0) (err_msg ("Process " +:+ fmt_d p +:+ " attached" +:+ nl));
             mret i) s with Ret i s' => at_tcb i p s' | _ => True end).
    { intros H s Hwf Hn. exact (H s (conj Hwf Hn)). }
    eapply hoare_bind; [by apply hoare_alloctcb|intros i].
    eapply hoare_bind; [apply hoare_at_tabs, Tabs_upd; intros t; by apply key_attach|intros ?].
    eapply hoare_bind; [apply hoare_at_tabs; tabs|intros ?].
    eapply hoare_bind; [apply hoare_at_tabs; tabs|intros ?]. by apply hoare_ret.
  - clear Hr. revert s Hwf. eapply hoare_bind; [apply hoare_wf_tabs; unfold ptrace; tabs|intros ?].
    apply hoare_die.
Qed.

(** Dropping the leader frees its pid for the thread. *)
Lemma hoare_drop_switch i e p old :
  hoare (fun s => wf_tab s /\ holds i p s /\ holds e old s /\ i <> e) (droptcb opt i)
        (fun _ s => wf_tab s /\ holds e old s /\ 0 < p /\
                    forall j u, tcbtab s !! j = Some u -> inuse u = true -> pid u <> p).
Proof.
  intros s (Hwf & (t & Ht & Hin & Hp) & (u & Hu & Hinu & Hpu) & Hne).
  assert (Hpos : 0 < pid t).
  { apply (wt_pos s Hwf); [by eapply list_elem_of_lookup_2|done]. }
  destruct (droptcb_run opt i s t Ht ltac:(lia)) as (evs & -> & _). split_and!.
  - eapply (droptcb_wf i t s); [done|done|lia|done|done].
  - exists u. simpl. by rewrite list_lookup_alter_ne.
  - lia.
  - intros j v Hv Hinv Hpv. simpl in Hv. rewrite list_lookup_alter in Hv. case_decide as Hij.
    + subst j. rewrite Ht in Hv. simpl in Hv. by injection Hv as <-.
    + apply Hij. eapply (wt_nodup s Hwf i j t v); [done..|lia].
Qed.

Lemma set_pid_wf e p old s :
  wf_tab s -> holds e old s -> 0 < p ->
  (forall j u, tcbtab s !! j = Some u -> inuse u = true -> pid u <> p) ->
  forall s', upd_tcb e (set_pid p) s = Ret tt s' -> at_tcb e p s'.
Proof.
  intros [H1 H2 H3 H4 H5] (u & Hu & Hinu & Hpu) Hp Hfree s' [= <-].
  assert (Hlk : forall j v, alter (set_pid p) e (tcbtab s) !! j = Some v ->
            (j = e /\ v = set_pid p u) \/ (j <> e /\ tcbtab s !! j = Some v)).
  { intros j v. rewrite list_lookup_alter. case_decide as Hej; [subst|right; by split].
    rewrite Hu. simpl. intros [= <-]. by left. }
  split; [split|]; simpl.
  - by rewrite length_alter.
  - rewrite H2. pose proof (length_used_alter e u (set_pid p u) _ Hu) as H.
    rewrite list_insert_alter in H. change (inuse (set_pid p u)) with (inuse u) in H.
    assert (Hal : alter (set_pid p) e (tcbtab s) = alter (fun _ => set_pid p u) e (tcbtab s)).
    { apply list_alter_ext; [|done]. intros x Hx. congruence. }
    rewrite Hal. lia.
  - intros v [j Hv]%list_elem_of_lookup Hinv. destruct (Hlk j v Hv) as [[-> ->]|[Hne Hv']].
    + change (inuse u = false) in Hinv. congruence.
    + apply H3; [by eapply list_elem_of_lookup_2|done].
  - intros v [j Hv]%list_elem_of_lookup Hinv. destruct (Hlk j v Hv) as [[-> ->]|[Hne Hv']]; [done|].
    apply H4; [by eapply list_elem_of_lookup_2|done].
  - intros j k v v' Hv Hv' Hin Hin' Hpp.
    destruct (Hlk j v Hv) as [[-> ->]|[Hj Hv1]], (Hlk k v' Hv') as [[-> ->]|[Hk Hv2]]; simpl in Hpp.
    + done.
    + exfalso. by eapply (Hfree k v').
    + exfalso. by eapply (Hfree j v).
    + by eapply H5.
  - exists (set_pid p u). split; [|done]. simpl. by rewrite list_lookup_alter, decide_True, Hu.
Qed.

(** What is documented of the kernel: wait4 without WNOHANG does not return 0, its
    result is an int, and the message of PTRACE_EVENT_EXEC is a pid, an int. *)
Record kernel_ok : Prop := {
  ko_wait h q o : r_ret (oracle h (RWait4 q o)) <> 0 /\ is_s32 (r_ret (oracle h (RWait4 q o)));
  ko_msg h p : is_s32 (r_val (oracle h (RPtrace PTRACE_GETEVENTMSG p 0 0)))
}.
Context (Hk : kernel_ok) (Hopt : wf_options).

Lemma hoare_execve_thread i p ev :
  hoare (at_tcb i p) (execve_thread oracle opt p ev)
    (fun r s => match r with
                | Some (e, old) => at_tcb i p s /\ i <> e /\ exists q, holds e q s
                | None => at_tcb i p s end).
Proof.
  intros s Hs. unfold execve_thread. destruct (_ && _); [|done].
  unfold mbind at 1, M_bind at 1, ptrace, ask_kernel. simpl.
  set (s1 := mk_tracer _ _ _ _ _ _). assert (Hs1 : at_tcb i p s1).
  { by apply (tabular_at i p s s1). }
  pose proof (ko_msg Hk (log s) p) as Hmsg. set (old := r_val _) in *.
  destruct (_ || _) eqn:Hold; [exact Hs1|]. apply orb_false_iff in Hold as [_ Hne].
  apply Z.eqb_neq in Hne. unfold mbind at 1, M_bind at 1.
  destruct (pid2tcb_holds (s32 old) s1 (proj1 Hs1)) as (r & -> & Hr).
  destruct r as [e|]; simpl; [|exact Hs1]. split; [exact Hs1|]. split; [|by eexists].
  intros <-. rewrite s32_id in Hr by done. destruct Hs1 as [_ (t & Ht & _ & Hp)].
  destruct Hr as (t' & Ht' & _ & Hp'). congruence.
Qed.

Lemma Tabs_superseded e old :
  Tabs (if cflag opt =? CFLAG_ONLY_STATS then mret tt
        else
          _ ← printleader oracle opt (hms w) e;
          _ ← tprints ("+++ superseded by execve in pid " +:+ fmt_u (u64 old) +:+ " +++" +:+ nl);
          _ ← line_ended;
          upd_tcb e (set_flags (fun f => set_flag f TCB_REPRINT))).
Proof. tabs. Qed.

Lemma hoare_exec_switch i p ev :
  hoare (at_tcb i p) (exec_switch oracle opt w i p ev) (fun j => at_tcb j p).
Proof.
  unfold exec_switch. eapply hoare_bind; [apply hoare_execve_thread|]. intros [[e old]|];
    [|by apply hoare_ret].
  apply (hoare_pre _ (fun s => exists q, wf_tab s /\ holds i p s /\ holds e q s /\ i <> e)).
  { intros s ([Hwf Hi] & Hne & q & Hq). by exists q. }
  intros s [q Hs]. revert s Hs.
  assert (Htab : tabular (fun s => wf_tab s /\ holds i p s /\ holds e q s /\ i <> e)).
  { apply tabular_and; [apply tabular_wf|]. apply tabular_and; [apply tabular_holds|].
    apply tabular_and; [apply tabular_holds|]. by intros ? ? _. }
  assert (Hh : forall B (c : M B), Tabs c ->
            hoare (fun s => wf_tab s /\ holds i p s /\ holds e q s /\ i <> e) c
                  (fun _ s => wf_tab s /\ holds i p s /\ holds e q s /\ i <> e))
    by (intros; by apply hoare_tabs).
  eapply hoare_bind; [apply Hh; tabs|intros et].
  eapply hoare_bind; [apply Hh|intros ?].
  { destruct (curcol et =? 0); [tabs|]. destruct (outf et); tabs. }
  eapply hoare_bind; [apply Hh; tabs|intros tcp].
  eapply hoare_bind; [apply Hh, Tabs_upd; by intros []|intros ?].
  eapply hoare_bind; [apply Hh, Tabs_upd; by intros []|intros ?].
  eapply hoare_bind; [apply (hoare_drop_switch i e p q)|intros ?].
  eapply (hoare_bind _ (fun _ => at_tcb e p)).
  { intros s (H1 & H2 & H3 & H4). by eapply set_pid_wf. }
  intros ?. eapply hoare_bind; [apply hoare_at_tabs, Tabs_superseded|intros ?]. by apply hoare_ret.
Qed.

(** ** One round *)

Lemma hoare_exec_detach i ev :
  hoare wf_tab (exec_detach oracle opt w i ev) (fun _ => wf_tab).
Proof.
  unfold exec_detach. destruct (_ =? _); [|by apply hoare_ret].
  eapply hoare_bind; [apply hoare_wf_tabs; tabs|intros g].
  eapply (hoare_bind _ (fun _ => wf_tab)); [|intros ?; apply hoare_wf_tabs; tabs].
  destruct (_ && _); [|by apply hoare_ret].
  eapply hoare_bind; [apply hoare_detach|intros ?]. by apply hoare_ret.
Qed.

Lemma hoare_restart_tracee op i sig :
  hoare wf_tab (restart_tracee oracle opt w op i sig) (fun _ => wf_tab).
Proof.
  unfold restart_tracee. eapply hoare_bind; [apply hoare_wf_tabs; tabs|intros r].
  destruct (r <? 0); [|by apply hoare_ret].
  eapply hoare_bind; [apply hoare_cleanup|intros ?]. by apply hoare_ret.
Qed.

Lemma hoare_show_stopsig i sig si :
  hoare wf_tab (show_stopsig oracle opt w i sig si) (fun _ => wf_tab).
Proof.
  unfold show_stopsig. eapply hoare_bind; [apply hoare_wf_tabs; tabs|intros g].
  eapply hoare_bind; [apply hoare_wf_tabs; tabs|intros t].
  eapply hoare_bind; [apply hoare_wf_tabs; tabs|intros ?].
  destruct si; [|destruct (use_seize opt)]; apply hoare_restart_tracee.
Qed.

Lemma hoare_startup_stop i :
  hoare wf_tab (startup_stop oracle opt w i) (fun _ => wf_tab).
Proof.
  unfold startup_stop. eapply hoare_bind; [apply hoare_wf_tabs; tabs|intros t].
  destruct (negb _); [by apply hoare_ret|].
  eapply hoare_bind; [apply hoare_wf_tabs; tabs|intros ?].
  eapply (hoare_bind _ (fun _ => wf_tab)).
  { destruct (has_flag _ _); [|by apply hoare_ret].
    eapply hoare_bind; [apply hoare_wf_tabs; tabs|intros r].
    destruct (r <? 0); [|by apply hoare_ret].
    eapply hoare_bind; [apply hoare_droptcb|intros ?].
    eapply hoare_bind; [apply hoare_cleanup|intros ?]. by apply hoare_ret. }
  intros ok. destruct (negb ok); [by apply hoare_ret|]. destruct (_ =? 0); [by apply hoare_ret|].
  apply hoare_wf_tabs. unfold ptrace. tabs.
Qed.

Lemma hoare_dispatch_stop i p status :
  hoare wf_tab (dispatch_stop oracle opt w i p status) (fun _ => wf_tab).
Proof.
  unfold dispatch_stop. eapply hoare_bind; [apply hoare_wf_tabs; tabs|intros t].
  destruct (negb _).
  { destruct (_ && _); [apply hoare_show_stopsig|apply hoare_restart_tracee]. }
  destruct (_ && _).
  { eapply hoare_bind; [apply hoare_wf_tabs; tabs|intros ?]. apply hoare_restart_tracee. }
  destruct (negb _).
  { eapply hoare_bind; [apply hoare_wf_tabs; unfold ptrace; tabs|intros r].
    apply hoare_show_stopsig. }
  eapply hoare_bind; [apply hoare_wf_tabs; tabs|intros intr].
  destruct (negb _); [by apply hoare_ret|].
  eapply hoare_bind; [apply hoare_wf_tabs; tabs|intros r].
  destruct (r <? 0); [by apply hoare_ret|apply hoare_restart_tracee].
Qed.

Lemma hoare_handle_status i p status :
  hoare wf_tab (handle_status oracle opt w i p status) (fun _ => wf_tab).
Proof.
  assert (Hsay : forall t, Tabs (say oracle opt w i t)) by (intros; tabs).
  unfold handle_status, death_killed, death_exited.
  destruct (WIFSIGNALED status); [|destruct (WIFEXITED status); [|destruct (negb _)]].
  - apply (hoare_bind _ (fun _ => wf_tab)); [|intros ?; by apply hoare_ret].
    eapply hoare_bind; [apply hoare_wf_tabs; tabs|intros ?].
    eapply hoare_bind; [apply hoare_wf_tabs; tabs|intros g].
    eapply hoare_bind; [apply hoare_wf_tabs; tabs|intros ?]. apply hoare_droptcb.
  - apply (hoare_bind _ (fun _ => wf_tab)); [|intros ?; by apply hoare_ret].
    eapply hoare_bind; [apply hoare_wf_tabs; tabs|intros ?].
    eapply hoare_bind; [apply hoare_wf_tabs; tabs|intros ?]. apply hoare_droptcb.
  - eapply hoare_bind; [apply hoare_wf_tabs; tabs|intros ?].
    eapply hoare_bind; [apply hoare_droptcb|intros ?]. by apply hoare_ret.
  - eapply hoare_bind; [apply hoare_startup_stop|intros ok].
    destruct (negb ok); [by apply hoare_ret|apply hoare_dispatch_stop].
Qed.

(** A reply of wait4 that is not negative names a process. *)
Lemma hoare_wait_for_stop :
  hoare wf_tab (wait_for_stop oracle w)
    (fun r s => wf_tab s /\ (r_ret r <> 0 /\ is_s32 (r_ret r))).
Proof.
  assert (Hask : forall q o, hoare wf_tab (ask_kernel oracle (RWait4 q o))
                   (fun r s => wf_tab s /\ (r_ret r <> 0 /\ is_s32 (r_ret r)))).
  { intros q o s Hs. split; [|apply (ko_wait Hk)]. destruct Hs as [H1 H2 H3 H4 H5]. by split. }
  assert (Hst : forall r : reply, tabular (fun s => wf_tab s /\ (r_ret r <> 0 /\ is_s32 (r_ret r)))).
  { intros r. apply tabular_and; [apply tabular_wf|]. by intros ? ? _. }
  unfold wait_for_stop. eapply hoare_bind; [apply hoare_wf_tabs; tabs|intros g].
  eapply hoare_bind; [apply Hask|intros r].
  eapply (hoare_bind _ (fun r s => wf_tab s /\ (r_ret r <> 0 /\ is_s32 (r_ret r)))).
  { destruct (_ && _ && _); [|by apply hoare_ret].
    eapply hoare_bind; [apply hoare_tabs; [apply Hst|tabs]|intros ?].
    eapply hoare_pre; [|apply Hask]. by intros s []. }
  intros r'. eapply hoare_bind; [apply hoare_tabs; [apply Hst|tabs]|intros g'].
  destruct (_ && _ && _); [|by apply hoare_ret].
  eapply hoare_bind; [eapply hoare_pre; [|apply Hask]; by intros s []|intros r2].
  eapply hoare_bind; [apply hoare_tabs; [apply Hst|tabs]|intros ?]. by apply hoare_ret.
Qed.

Lemma hoare_iteration : hoare wf_tab (iteration oracle opt w) (fun _ => wf_tab).
Proof.
  unfold iteration. eapply hoare_bind; [apply hoare_wf_tabs; tabs|intros intr].
  destruct (negb _); [by apply hoare_ret|].
  eapply hoare_bind; [apply hoare_wait_for_stop|intros r].
  destruct (r_ret r <? 0) eqn:Hneg.
  { apply (hoare_pre _ wf_tab); [by intros s []|].
    destruct (_ =? EINTR); [by apply hoare_ret|]. destruct (_ =? ECHILD); [by apply hoare_ret|].
    eapply hoare_bind; [apply hoare_wf_tabs; tabs|intros ?]. by apply hoare_ret. }
  intros s [Hs [Hne _]]. assert (Hp : 0 < r_ret r) by lia. revert s Hs.
  eapply hoare_bind; [apply hoare_wf_tabs; tabs|intros g].
  destruct (_ =? popen_pid g).
  { eapply hoare_bind; [apply hoare_wf_tabs; tabs|intros ?]. by apply hoare_ret. }
  eapply hoare_bind; [by apply hoare_find_tracee|intros i].
  eapply hoare_bind; [apply hoare_at_tabs; tabs|intros ?].
  eapply hoare_bind; [apply hoare_at_tabs; tabs|intros ?].
  eapply hoare_bind; [apply hoare_exec_switch|intros j].
  eapply (hoare_bind _ (fun _ => wf_tab)).
  { eapply hoare_pre; [|apply hoare_exec_detach]. by intros s []. }
  intros ?. eapply hoare_bind; [apply hoare_wf_tabs; tabs|intros ?].
  eapply hoare_bind; [apply hoare_wf_tabs; tabs|intros ?]. apply hoare_handle_status.
Qed.

(** ** What a stop is answered with *)

(** The flag that says that the SIGSTOP of the attach is still to come. *)
Definition watch : Z := Z.lor TCB_INUSE TCB_IGNORE_ONE_SIGSTOP.

Lemma Frames_watch_syscall i : Frames watch (trace_syscall oracle opt w i).
Proof. by apply Frames_syscall. Qed.
Lemma Frames_watch_clearbpt i : Frames watch (clearbpt oracle i).
Proof. by eapply Frames_sub; [|apply Frames_clearbpt]. Qed.

(** Tcb [i] is process [p], [f] tells whether its SIGSTOP is awaited, and [l]
    are the restarts so far. *)
Definition awaits (i : nat) (p : Z) (f : bool) (l : list (Z * Z * Z)) (s : tracer) : Prop :=
  (exists t, tcbtab s !! i = Some t /\ pid t = p /\
             has_flag (flags t) TCB_IGNORE_ONE_SIGSTOP = f) /\ restarts (log s) = l.

Lemma frame_awaits i p f l s s' : frame watch s s' -> awaits i p f l s -> awaits i p f l s'.
Proof.
  intros Hf [(t & Ht & Hp & Hfl) Hl]. split; [|by rewrite (fr_restarts _ _ _ Hf)].
  destruct (frame_tcb' watch s s' i t Hf Ht) as (t' & Ht' & Hv). exists t'. split; [done|].
  rewrite <- Hfl. split; [|by apply (view_flag watch)]. by injection Hv as ->.
Qed.
Lemma hoare_awaits {A} i p f l (c : M A) :
  Frames watch c -> hoare (awaits i p f l) c (fun _ => awaits i p f l).
Proof. intros Hc s Hs. specialize (Hc s). destruct (c s); [by eapply frame_awaits|done..]. Qed.

Lemma hoare_ptrace_restart op i sig p f l :
  existsb (Z.eqb op) [PTRACE_CONT; PTRACE_DETACH; PTRACE_SYSCALL; PTRACE_LISTEN] = true ->
  hoare (awaits i p f l) (ptrace_restart oracle w op i sig)
        (fun _ => awaits i p f (l ++ [(op, p, sig)])).
Proof.
  intros Hop. unfold ptrace_restart. apply hoare_tcb_of. intros t.
  apply (hoare_bind _ (fun _ => awaits i p f (l ++ [(op, p, sig)]))).
  - intros s [[(t0 & Ht & Hp & Hfl) Hl] Hd]. unfold ptrace, ask_kernel. simpl.
    split; [by exists t0|]. simpl. rewrite restarts_app, Hl. unfold restarts at 1. simpl.
    simpl in Hop. rewrite Hop. rewrite Ht in Hd. simpl in Hd. subst t. by rewrite Hp.
  - intros r. destruct (_ =? 0); [by apply hoare_ret|].
    apply hoare_awaits. frames.
Qed.

Lemma hoare_restart_answer op i sig p f l :
  existsb (Z.eqb op) [PTRACE_CONT; PTRACE_DETACH; PTRACE_SYSCALL; PTRACE_LISTEN] = true ->
  hoare (awaits i p f l) (restart_tracee oracle opt w op i sig)
        (fun fl s => fl = Continue -> awaits i p f (l ++ [(op, p, sig)]) s).
Proof.
  intros Hop. unfold restart_tracee.
  eapply hoare_bind; [by apply hoare_ptrace_restart|intros r].
  destruct (r <? 0); [|by apply hoare_ret].
  intros s _. unfold mbind, M_bind. by destruct (cleanup oracle opt w s).
Qed.

Definition group_restart (p sig : Z) : Z * Z * Z :=
  if use_seize opt then (PTRACE_LISTEN, p, 0) else (PTRACE_SYSCALL, p, sig).
(** The stop is the one that attaching causes. *)
Definition attach_stop (awaited : bool) (status : Z) : bool :=
  (event_of status =? 0) && (WSTOPSIG status =? SIGSTOP) && awaited.

(** The requests that answer a stop which [s0] is about to handle, and the state
    after them: by the kind of the stop, by whether the kernel has information
    about the signal (a group stop has none) and, for a system call, by what
    trace_syscall says of the process. *)
Inductive stop_answer (i : nat) (awaited : bool) (p status : Z) (s0 s' : tracer) : list (Z * Z * Z) -> Prop :=
  | ans_group_event :
      event_of status = PTRACE_EVENT_STOP -> group_stop_sig (WSTOPSIG status) = true ->
      stop_answer i awaited p status s0 s' [group_restart p (WSTOPSIG status)]
  | ans_event :
      event_of status <> 0 ->
      (event_of status = PTRACE_EVENT_STOP -> group_stop_sig (WSTOPSIG status) = false) ->
      stop_answer i awaited p status s0 s' [(PTRACE_SYSCALL, p, 0)]
  | ans_attach :
      attach_stop awaited status = true -> stop_answer i awaited p status s0 s' [(PTRACE_SYSCALL, p, 0)]
  | ans_signal :
      event_of status = 0 -> attach_stop awaited status = false ->
      WSTOPSIG status <> syscall_trap_sig opt ->
      0 <= r_ret (oracle (log s0) (RPtrace PTRACE_GETSIGINFO p 0 0)) ->
      stop_answer i awaited p status s0 s' [(PTRACE_SYSCALL, p, WSTOPSIG status)]
  | ans_group_stop :
      event_of status = 0 -> attach_stop awaited status = false ->
      WSTOPSIG status <> syscall_trap_sig opt ->
      r_ret (oracle (log s0) (RPtrace PTRACE_GETSIGINFO p 0 0)) < 0 ->
      stop_answer i awaited p status s0 s' [group_restart p (WSTOPSIG status)]
  | ans_syscall s1 r s2 :
      event_of status = 0 -> attach_stop awaited status = false ->
      WSTOPSIG status = syscall_trap_sig opt ->
      interrupted oracle s0 = Ret 0 s1 -> trace_syscall oracle opt w i s1 = Ret r s2 -> 0 <= r ->
      stop_answer i awaited p status s0 s' [(PTRACE_SYSCALL, p, 0)]
  | ans_gone s1 r :
      event_of status = 0 -> attach_stop awaited status = false ->
      WSTOPSIG status = syscall_trap_sig opt ->
      interrupted oracle s0 = Ret 0 s1 -> trace_syscall oracle opt w i s1 = Ret r s' -> r < 0 ->
      stop_answer i awaited p status s0 s' [].

(** One stop has one answer. *)
Lemma stop_answer_unique i awaited p status s0 s' l l' :
  stop_answer i awaited p status s0 s' l -> stop_answer i awaited p status s0 s' l' -> l = l'.
Proof.
  assert (Hat : attach_stop awaited status = true -> event_of status = 0).
  { unfold attach_stop. destruct (Z.eqb_spec (event_of status) 0); [done|discriminate]. }
  assert (He : PTRACE_EVENT_STOP <> 0) by done.
  destruct 1, 1; try done; try congruence; try lia; try (exfalso; intuition congruence);
    repeat match goal with A : ?x = Ret _ _, B : ?x = Ret _ _ |- _ => rewrite A in B; simplify_eq end; lia.
Qed.

(** The outcome of a round that goes on. *)
Definition answered (i : nat) (p : Z) (f : bool) (l : list (Z * Z * Z)) (status : Z)
    (s0 : tracer) (fl : flow) (s : tracer) : Prop :=
  fl = Continue -> exists ans, stop_answer i f p status s0 s ans /\
    awaits i p (f && negb (attach_stop f status)) (l ++ ans) s.

Lemma hoare_show_answer i sig si p f l :
  hoare (awaits i p f l) (show_stopsig oracle opt w i sig si)
    (fun fl s => fl = Continue ->
       awaits i p f (l ++ [match si with Some _ => (PTRACE_SYSCALL, p, sig)
                           | None => group_restart p sig end]) s).
Proof.
  unfold show_stopsig, group_restart. eapply hoare_bind; [apply hoare_awaits; frames|intros g].
  eapply hoare_bind; [apply hoare_awaits; frames|intros t].
  eapply hoare_bind; [apply hoare_awaits; frames|intros ?].
  destruct si; [|destruct (use_seize opt)]; by apply hoare_restart_answer.
Qed.

Lemma attach_stop_event awaited status :
  event_of status <> 0 -> attach_stop awaited status = false.
Proof. intros H. unfold attach_stop. by apply Z.eqb_neq in H as ->. Qed.

Lemma dispatch_answer i p status f l s0 :
  awaits i p f l s0 ->
  match dispatch_stop oracle opt w i p status s0 with
  | Ret fl s => answered i p f l status s0 fl s
  | _ => True
  end.
Proof.
  assert (Hans : forall ans (P : tracer -> Prop) (c : M flow),
            (forall s, stop_answer i f p status s0 s ans) -> attach_stop f status = false ->
            hoare P c (fun fl s => fl = Continue -> awaits i p f (l ++ ans) s) ->
            hoare P c (fun fl s => answered i p f l status s0 fl s)).
  { intros ans P c Ha Hn Hc s Hs. specialize (Hc s Hs). destruct (c s) as [fl s'| |]; [|done..].
    intros Hfl. exists ans. split; [done|]. rewrite Hn, andb_true_r. by apply Hc. }
  intros Hs0. unfold dispatch_stop.
  assert (Hf : has_flag (flags (default zero_tcb (tcbtab s0 !! i))) TCB_IGNORE_ONE_SIGSTOP = f).
  { destruct Hs0 as [(t0 & Ht0 & _ & Hf) _]. by rewrite Ht0. }
  unfold mbind at 1, M_bind at 1, tcb_of, gets. rewrite Hf. clear Hf.
  destruct (Z.eqb_spec (event_of status) 0) as [He|He]; cbn [negb].
  - assert (Hat : attach_stop f status = (WSTOPSIG status =? SIGSTOP) && f).
    { unfold attach_stop. by rewrite He. }
    destruct ((WSTOPSIG status =? SIGSTOP) && f) eqn:Ha.
    + assert (Hc : hoare (awaits i p f l)
        (_ ← upd_tcb i (set_flags (fun g => clear_flag g TCB_IGNORE_ONE_SIGSTOP));
         restart_tracee oracle opt w PTRACE_SYSCALL i 0)
        (fun fl s => fl = Continue -> awaits i p false (l ++ [(PTRACE_SYSCALL, p, 0)]) s)).
      { eapply (hoare_bind _ (fun _ => awaits i p false l)).
        - intros s [(t1 & Ht1 & Hp1 & _) Hl]. split; [|done]. eexists. simpl.
          rewrite list_lookup_alter, decide_True, Ht1 by done. split; [done|]. split; [done|].
          simpl. by apply has_clear_sub.
        - intros ?. by apply hoare_restart_answer. }
      specialize (Hc s0 Hs0).
      lazymatch type of Hc with match ?r with _ => _ end =>
        lazymatch goal with |- match ?r' with _ => _ end => change r' with r; destruct r as [fl s| |] end end; [|done..].
      intros Hfl. exists [(PTRACE_SYSCALL, p, 0)]. split; [by apply ans_attach|].
      rewrite Hat, andb_false_r. by apply Hc.
    + destruct (Z.eqb_spec (WSTOPSIG status) (syscall_trap_sig opt)) as [Hs|Hs]; cbn [negb].
      * assert (Hi : awaits i p f l (mk_tracer (tcbtab s0) (nprocs s0) (printing_tcp s0) (current_tcp s0)
                                       (glb s0) (log s0 ++ [EReq RIntr]))).
        { exact (hoare_awaits i p f l (interrupted oracle) ltac:(unfold interrupted; frames) s0 Hs0). }
        unfold mbind at 1, M_bind at 1.
        destruct (interrupted oracle s0) as [n s1| |] eqn:Hint; [|done..].
        pose proof Hint as Hint'. unfold interrupted, mbind, M_bind, ask_kernel, emit, mret, M_ret in Hint'.
        injection Hint' as _ Hs1. rewrite Hs1 in Hi. clear Hs1.
        destruct (Z.eqb_spec n 0) as [->|]; [|cbn; by intros [=]]. cbn [negb].
        pose proof (hoare_awaits i p f l _ (Frames_watch_syscall i) s1 Hi) as Htr.
        unfold mbind at 1, M_bind at 1.
        destruct (trace_syscall oracle opt w i s1) as [r s2| |] eqn:Hrun; [|done..].
        destruct (Z.ltb_spec r 0) as [Hr|Hr].
        -- intros _. exists []. rewrite app_nil_r, Hat, andb_true_r.
           split; [by eapply ans_gone|done].
        -- apply (Hans [(PTRACE_SYSCALL, p, 0)] (awaits i p f l)); [intros ?; by eapply ans_syscall|done| |done].
           by apply hoare_restart_answer.
      * unfold mbind at 1, M_bind at 1, ptrace, ask_kernel, emit.
        set (r := oracle (log s0) _). set (s1 := mk_tracer _ _ _ _ _ _).
        assert (H1 : awaits i p f l s1).
        { exact (hoare_awaits i p f l (ptrace oracle PTRACE_GETSIGINFO p 0 0) ltac:(unfold ptrace; frames) s0 Hs0). }
        clearbody s1. revert s1 H1.
        pose proof (hoare_show_answer i (WSTOPSIG status)
                      (if r_ret r <? 0 then None else Some (r_si r)) p f l) as Hsh.
        destruct (Z.ltb_spec (r_ret r) 0) as [Hr|Hr].
        -- eapply Hans; [intros ?; by apply ans_group_stop|done|exact Hsh].
        -- eapply Hans; [intros ?; by apply ans_signal|done|exact Hsh].
  - pose proof (attach_stop_event f status He) as Hat. revert s0 Hs0 Hans.
    intros s0 Hs0 Hans.
    destruct (Z.eqb_spec (event_of status) PTRACE_EVENT_STOP) as [Hst|Hst]; cbn [andb];
      [destruct (group_stop_sig (WSTOPSIG status)) eqn:Hg|].
    + eapply Hans; [intros ?; by apply ans_group_event|done|apply hoare_show_answer|done].
    + eapply Hans; [intros ?; by apply ans_event|done|by apply hoare_restart_answer|done].
    + eapply Hans; [intros ?; by apply ans_event|done|by apply hoare_restart_answer|done].
Qed.

Lemma hoare_startup_answer i p f l :
  hoare (awaits i p f l) (startup_stop oracle opt w i)
        (fun ok s => ok = true -> awaits i p f l s).
Proof.
  unfold startup_stop. eapply hoare_bind; [apply hoare_awaits; frames|intros t].
  destruct (negb _); [by apply hoare_ret|].
  eapply hoare_bind; [apply hoare_awaits; frames|intros ?].
  eapply (hoare_bind _ (fun ok s => ok = true -> awaits i p f l s)).
  { destruct (has_flag _ _); [|by apply hoare_ret].
    eapply hoare_bind; [apply hoare_awaits, Frames_watch_clearbpt|intros r].
    destruct (r <? 0); [|by apply hoare_ret].
    intros s _. unfold mbind, M_bind. destruct (droptcb opt i s) as [? s1| |]; [|done..].
    by destruct (cleanup oracle opt w s1). }
  intros ok. destruct ok; simpl; [|by apply hoare_ret].
  apply (hoare_pre _ (awaits i p f l)); [by intros s H; apply H|].
  destruct (_ =? 0); [by apply hoare_ret|].
  eapply hoare_bind; [apply hoare_awaits; unfold ptrace; frames|intros r].
  destruct (_ && _); [apply hoare_die|by apply hoare_ret].
Qed.

Lemma stopped_status status :
  WIFSTOPPED status = true -> WIFSIGNALED status = false /\ WIFEXITED status = false.
Proof.
  intros H%Z.eqb_eq. assert (Ht : WTERMSIG status = 0x7f).
  { unfold WTERMSIG. change 0x7f with (Z.land 0xff 0x7f). by rewrite Z.land_assoc, H. }
  unfold WIFSIGNALED, WIFEXITED. by rewrite Ht.
Qed.

Lemma status_answer i p status f l s :
  WIFSTOPPED status = true -> awaits i p f l s ->
  match handle_status oracle opt w i p status s with
  | Ret Continue s' => exists s0, startup_stop oracle opt w i s = Ret true s0 /\
      answered i p f l status s0 Continue s'
  | _ => True
  end.
Proof.
  intros Hst Hs. unfold handle_status. destruct (stopped_status status Hst) as [-> ->].
  rewrite Hst. cbn [negb]. unfold mbind, M_bind.
  pose proof (hoare_startup_answer i p f l s Hs) as Hu.
  destruct (startup_stop oracle opt w i s) as [[|] s0| |]; [cbn [negb]|exact I..].
  pose proof (dispatch_answer i p status f l s0 (Hu eq_refl)) as Hd.
  destruct (dispatch_stop oracle opt w i p status s0) as [[|] s'| |]; [|exact I..]. by exists s0.
Qed.
End loop.
