(* ===== verification/Release.v ===== *)
(** * The end of tracing (alice-strace.c: cleanup, die)

    What cleanup does to the table and asks of the kernel, and die(), which
    calls it before exit(1).  The tracer ends its run through one of the two. *)

From stdpp Require Import gmap.
From S2P Require Import Prelude Timeval Xlat Quote Tracee Decode Io Options Signal Qual Mmap Count Report.
From S2P Require Import Tcb Regs Log Table Pathtrace Syscall Frame Line Stops Trace Loop.
Local Open Scope string_scope.
Local Open Scope list_scope.
Local Open Scope Z_scope.

(** ** die *)

(** cflag = 0 *)
Definition without_cflag (o : options) : options :=
  mk_options (followfork o) (qflag o) (tflag o) CFLAG_NONE (iflag o) (rflag o) (Tflag o) (print_pid_pfx o)
    (outfname o) (acolumn o) (ptrace_setoptions o) (syscall_trap_sig o) (post_attach_sigstop o)
    (detach_on_execve o) (need_fork_exec_workarounds o) (not_failing_only o) (output_stacktraces o)
    (use_libunwind o) (os_release o) (strace_child o) (strace_tracer_pid o) (opt_xflag o) (opt_max_strlen o)
    (sortby o).

(** die() of a process with the pid [self], in the state where it was called;
    the children forked at start-up die without a cleanup. *)
Definition die_exit (oracle : list event -> request -> reply) (opt : options) (w : world) (self : Z)
    (s : tracer) : res unit :=
  if strace_tracer_pid opt =? self then
    match cleanup oracle (without_cflag opt) w s with
    | Ret _ s' => Exit 1 s'
    | Exit code s' => Exit code s'
    | Die s' => Die s'
    end
  else Exit 1 s.

(** ** Requests for a status *)

Definition is_wait (e : event) : bool :=
  match e with EReq (RWait4 _ _) => true | _ => false end.
Definition waits (evs : list event) : nat := length (List.filter is_wait evs).

Lemma waits_app l1 l2 : waits (l1 ++ l2) = (waits l1 + waits l2)%nat.
Proof. unfold waits. by rewrite List.filter_app, length_app. Qed.
Lemma waits_prefix l1 l2 : l1 `prefix_of` l2 -> (waits l1 <= waits l2)%nat.
Proof. intros [t ->]. rewrite waits_app. lia. Qed.

(** The state once [q] was asked. *)
Definition asked (q : request) (s : tracer) : tracer :=
  mk_tracer (tcbtab s) (nprocs s) (printing_tcp s) (current_tcp s) (glb s) (log s ++ [EReq q]).

(** ** What detaching leaves alone *)

(** A block with an unfinished line has a file. *)
Definition writable (s : tracer) : Prop := forall i t,
  tcbtab s !! i = Some t -> curcol t <> 0 -> outf t <> None.
Lemma log_inv_writable opt s : log_inv opt s -> writable s.
Proof. intros Hl i t Ht Hc. by destruct (li_print opt s Hl i t Ht Hc) as [_ ->]. Qed.

(** The pids, files and flags of all slots; the history is only extended. *)
Record settled (s s' : tracer) : Prop := {
  se_tab j : view kept <$> tcbtab s' !! j = view kept <$> tcbtab s !! j;
  se_nprocs : nprocs s' = nprocs s;
  se_log : log s `prefix_of` log s';
  se_writable : writable s -> writable s'
}.
Lemma settled_refl s : settled s s.
Proof. done. Qed.
Lemma settled_trans s1 s2 s3 : settled s1 s2 -> settled s2 s3 -> settled s1 s3.
Proof. intros [A1 A2 A3 A4] [B1 B2 B3 B4]. split; [intros j; by rewrite B1|congruence|by etrans|auto]. Qed.

(** Parts that return, and settle. *)
Definition settles_from {A} (c : M A) (s : tracer) : Prop :=
  match c s with Ret _ s' => settled s s' | _ => False end.
Definition Settles {A} (c : M A) : Prop := forall s, writable s -> settles_from c s.

Lemma Settles_ret {A} (x : A) : Settles (mret x).
Proof. intros s _. apply settled_refl. Qed.
Lemma settles_bind {A B} (c : M A) (k : A -> M B) s :
  writable s -> settles_from c s -> (forall x s1, settled s s1 -> writable s1 -> settles_from (k x) s1) ->
  settles_from (c ≫= k) s.
Proof.
  unfold settles_from, mbind, M_bind. intros Hs Hc Hk. destruct (c s) as [x s1| |]; [|done..].
  specialize (Hk x s1 Hc (se_writable _ _ Hc Hs)). destruct (k x s1); [|done..]. by eapply settled_trans.
Qed.
Lemma Settles_bind {A B} (c : M A) (k : A -> M B) :
  Settles c -> (forall x, Settles (k x)) -> Settles (c ≫= k).
Proof. intros Hc Hk s Hs. apply settles_bind; [done|by apply Hc|]. intros x s1 _ H1. by apply Hk. Qed.
Lemma Settles_gets {A} (f : tracer -> A) : Settles (gets f).
Proof. intros s _. apply settled_refl. Qed.
Lemma Settles_tcb_of i : Settles (tcb_of i).
Proof. intros s _. apply settled_refl. Qed.
Lemma Settles_modify_glb f : Settles (modify_glb f).
Proof. by intros s _. Qed.
Lemma Settles_set_printing p : Settles (set_printing p).
Proof. by intros s _. Qed.
Lemma Settles_emit e : Settles (emit e).
Proof. intros s _. split; [done|done| |done]. by eexists. Qed.
Lemma Settles_ask oracle r : Settles (ask_kernel oracle r).
Proof. intros s _. split; [done|done| |done]. by eexists. Qed.
Lemma settles_upd i f s t :
  tcbtab s !! i = Some t -> view kept (f t) = view kept t ->
  (curcol (f t) <> 0 -> outf t <> None) -> settles_from (upd_tcb i f) s.
Proof.
  intros Ht Hf Hc. split; unfold writable; simpl; [|done|done|].
  - intros j. rewrite list_lookup_alter. case_decide; [subst|done]. rewrite Ht. simpl. by rewrite Hf.
  - intros Hw j u. rewrite list_lookup_alter. case_decide; [subst|apply (Hw j u)]. rewrite Ht. intros [= <-] Hn.
    specialize (Hc Hn). unfold view in Hf. injection Hf as _ Ho _ _ _. by rewrite Ho.
Qed.
Lemma Settles_upd i f :
  (forall t, view kept (f t) = view kept t) -> (forall t, curcol (f t) <> 0 -> curcol t <> 0) ->
  Settles (upd_tcb i f).
Proof.
  intros Hf Hc s Hs. destruct (tcbtab s !! i) as [t|] eqn:Ht.
  - eapply settles_upd; [done..|]. intros Hn. by apply (Hs i t Ht), Hc.
  - split; unfold writable; simpl; [|done|done|].
    + intros j. rewrite list_lookup_alter. case_decide; [subst|done]. by rewrite Ht.
    + intros _ j u. rewrite list_lookup_alter. case_decide; [subst; by rewrite Ht|apply (Hs j u)].
Qed.

Create HintDb settles.
#[export] Hint Resolve Settles_ret Settles_gets Settles_tcb_of Settles_modify_glb Settles_set_printing
  Settles_emit Settles_ask : settles.
Ltac settles :=
  repeat first
    [ solve [eauto with settles]
    | apply Settles_bind; [|intros ?]
    | apply Settles_upd; [first [by intros [] | intros ?; by apply view_clear_flags]|by intros []]
    | match goal with
      | |- Settles (if ?b then _ else _) => destruct b
      | |- Settles (when ?b _) => destruct b; unfold when
      | |- Settles (let '(_, _) := ?x in _) => destruct x
      | |- Settles (match ?x with _ => _ end) => destruct x
      end ].

Section release.
Context (oracle : list event -> request -> reply) (opt : options) (w : world).

Lemma Settles_err_msg t : Settles (err_msg t).
Proof. apply Settles_emit. Qed.
Lemma Settles_perror e t : Settles (perror_msg w e t).
Proof. apply Settles_emit. Qed.
Lemma Settles_line_ended : Settles line_ended.
Proof. unfold line_ended. settles. Qed.
#[local] Hint Resolve Settles_err_msg Settles_perror Settles_line_ended : settles.
Lemma Settles_clearbpt i : Settles (clearbpt oracle i).
Proof. unfold clearbpt, change_syscall, set_arg0, set_arg1, poke_user. settles. Qed.
(** ptrace_restart writes into the current line only, which has a file. *)
Lemma settles_tprints t s c u :
  current_tcp s = Some c -> tcbtab s !! c = Some u -> outf u <> None -> settles_from (tprints t) s.
Proof.
  intros Hc Hu Ho. unfold settles_from, tprints, mbind, M_bind, gets, tcb_of. rewrite Hc. unfold gets.
  rewrite Hu. cbn [default from_option id]. destruct (outf u) as [f|] eqn:Hf; [|done].
  split; unfold writable; simpl; [|done|by eexists|].
  - intros j. rewrite list_lookup_alter. case_decide; [subst|done]. by rewrite Hu.
  - intros Hw j v. rewrite list_lookup_alter. case_decide; [subst|apply (Hw j v)]. rewrite Hu. intros [= <-] _.
    simpl. by rewrite Hf.
Qed.
Lemma settles_gets_bind {A B} (f : tracer -> A) (k : A -> M B) s :
  settles_from (k (f s)) s -> settles_from (gets f ≫= k) s.
Proof. done. Qed.
Ltac settles_here :=
  lazymatch goal with |- settles_from ?c ?s =>
    let H := fresh in cut (Settles c); [intros H; by apply (H s)|settles] end.
Lemma Settles_restart op i sig : Settles (ptrace_restart oracle w op i sig).
Proof.
  unfold ptrace_restart, ptrace. apply Settles_bind; [settles|intros t].
  apply Settles_bind; [settles|intros r]. destruct (_ =? 0); [settles|].
  intros s Hs. apply settles_gets_bind.
  apply settles_bind; [done| |intros ? s1 _ H1; settles_here].
  destruct (current_tcp s) as [c|] eqn:Hc; [|by apply Settles_ret].
  apply settles_gets_bind.
  destruct (tcbtab s !! c) as [u|] eqn:Hu; [|by apply Settles_ret]. cbn [default from_option id].
  destruct (Z.eqb_spec (curcol u) 0) as [|Hn]; [by apply Settles_ret|].
  apply settles_bind; [done|by apply (settles_tprints _ s c u); eauto|intros ? s1 _ H1].
  by apply Settles_line_ended.
Qed.
Lemma Settles_detach_wait i : Settles (detach_wait oracle w i).
Proof. unfold detach_wait. settles. Qed.
#[local] Hint Resolve Settles_clearbpt Settles_restart Settles_detach_wait : settles.
Lemma Settles_detach_request i : Settles (detach_request oracle w i).
Proof. unfold detach_request, ptrace. settles. Qed.
#[local] Hint Resolve Settles_detach_request : settles.

(** The report ends the tracer only where it sorts by names and an entry of the
    table has none. *)
Definition reported (r : res unit) (s : tracer) : Prop :=
  match r with
  | Ret _ s' => settled s s'
  | Exit code s' => code = SIGSEGV_exit /\ settled s s' /\ sortby opt = SortName
  | Die _ => False
  end.
Lemma reported_bind (c : M unit) (k : unit -> M unit) s :
  reported (c s) s -> (forall s1, settled s s1 -> reported (k tt s1) s1) -> reported ((c ≫= k) s) s.
Proof.
  unfold reported, mbind, M_bind. intros Hc Hk. destruct (c s) as [[] s1| |]; [|done..].
  specialize (Hk s1 Hc). destruct (k tt s1); [|destruct Hk as (? & ? & ?); split_and!; try done|done];
    by eapply settled_trans.
Qed.
Lemma settles_reported (c : M unit) s : settles_from c s -> reported (c s) s.
Proof. unfold settles_from. by destruct (c s). Qed.

Lemma summary_of_run p s : writable s -> reported (summary_of opt w p s) s.
Proof.
  intros Hs. unfold summary_of. unfold mbind at 1, M_bind at 1, gets.
  destruct (countv (g_counts (glb s)) !! p) as [[cnt|]|]; [|apply settled_refl..].
  apply reported_bind; [apply settles_reported; unfold set_personality; settles_here|].
  intros s1 H1. pose proof (se_writable _ _ H1 Hs) as Hw.
  destruct (call_summary_pers _ _ _ _ _) as [[text c]|] eqn:Hc.
  - apply settles_reported. settles_here.
  - split_and!; [done|apply settled_refl|]. revert Hc. unfold call_summary_pers.
    destruct (cum_loop _ _ _ _ _) as [[[v a] b] t]. by destruct (sortby opt).
Qed.
Lemma call_summary_run s : writable s -> reported (call_summary opt w s) s.
Proof.
  intros Hs. unfold call_summary. unfold mbind at 1, M_bind at 1, gets.
  apply reported_bind; [by apply summary_of_run|intros s1 H1].
  apply reported_bind; [by apply summary_of_run, (se_writable _ _ H1)|intros s2 H2].
  apply reported_bind; [by apply summary_of_run, (se_writable _ _ H2), (se_writable _ _ H1)|intros s3 H3].
  apply settles_reported.
  assert (Hw : writable s3) by (by apply (se_writable _ _ H3), (se_writable _ _ H2), (se_writable _ _ H1)).
  unfold set_personality. settles_here.
Qed.

(** ** The waits of detach *)

(** What a status has to be for detach to stop waiting: no stop, or the one of
    the SIGSTOP. *)
Definition last_status (status : Z) : Prop := WIFSTOPPED status = false \/ WSTOPSIG status = SIGSTOP.

(** From the [N]-th request for a status on the kernel has no other stop to
    report: a process that is sent SIGSTOP has finitely many stops before it. *)
Definition stops_end (N : nat) : Prop := forall h p f, (N <= waits h)%nat ->
  r_ret (oracle h (RWait4 p f)) < 0 \/ last_status (r_val (oracle h (RWait4 p f))).
Context (N : nat) (Hstops : stops_end N).

Lemma ask_bind_run {B} q (k : reply -> M B) s :
  (ask_kernel oracle q ≫= k) s = k (oracle (log s) q) (asked q s).
Proof. done. Qed.
Lemma asked_settled q s : settled s (asked q s).
Proof. split; [done|done|by eexists|done]. Qed.
Lemma waits_asked_wait p f s : waits (log (asked (RWait4 p f) s)) = S (waits (log s)).
Proof. simpl. rewrite waits_app. unfold waits at 2. simpl. lia. Qed.

Definition waited (s : tracer) (r : res (option Z)) : Prop :=
  match r with
  | Ret st s' => (N <= waits (log s))%nat -> match st with Some status => last_status status | None => True end
  | _ => False
  end.
(** One request of detach_wait: a status is taken, otherwise [k] goes on. *)
Lemma waited_ask p f s0 s (k : reply -> M (option Z)) :
  settled s0 s ->
  waited s0 (k (oracle (log s) (RWait4 p f)) (asked (RWait4 p f) s)) ->
  waited s0 ((r ← ask_kernel oracle (RWait4 p f);
              if negb (r_ret r <? 0) then mret (Some (r_val r)) else k r) s).
Proof.
  intros Hs Hk. rewrite ask_bind_run. destruct (Z.ltb_spec (r_ret (oracle (log s) (RWait4 p f))) 0) as [|Hr];
    cbn [negb]; [done|]. intros Hn. destruct (Hstops (log s) p f) as [|Hl]; [|lia|done].
  etrans; [exact Hn|]. by apply waits_prefix, Hs.
Qed.
Lemma waited_none s0 s (c : M (option Z)) :
  (exists s', c s = Ret None s') -> waited s0 (c s).
Proof. intros [s' ->]. done. Qed.
Lemma detach_wait_waited i s : waited s (detach_wait oracle w i s).
Proof.
  unfold detach_wait. set (p := pid (default zero_tcb (tcbtab s !! i))).
  apply (waited_ask p WALL s s); [apply settled_refl|]. set (s1 := asked _ s). set (r1 := oracle _ _).
  assert (H1 : settled s s1) by apply asked_settled. clearbody s1.
  destruct (_ =? ECHILD); [done|]. destruct (_ =? EINVAL); cbn [negb]; [|done].
  apply (waited_ask p 0 s s1 (fun r => if negb (r_errno r =? ECHILD)
    then _ ← perror_msg w (r_errno r) "detach: waiting"; mret None
    else r ← ask_kernel oracle (RWait4 p WCLONE);
         if negb (r_ret r <? 0) then mret (Some (r_val r))
         else _ ← when (negb (r_errno r =? ECHILD)) (perror_msg w (r_errno r) "detach: waiting"); mret None)); [done|].
  set (s2 := asked _ s1). set (r2 := oracle _ _).
  assert (H2 : settled s s2) by (eapply settled_trans; [done|apply asked_settled]). clearbody s2.
  destruct (_ =? ECHILD); cbn [negb]; [|done].
  apply (waited_ask p WCLONE s s2 (fun r => _ ← when (negb (r_errno r =? ECHILD))
    (perror_msg w (r_errno r) "detach: waiting"); mret None)); [done|].
  destruct (_ =? ECHILD); done.
Qed.
Lemma detach_wait_more i s : writable s ->
  match detach_wait oracle w i s with Ret _ s' => (waits (log s) < waits (log s'))%nat | _ => True end.
Proof.
  intros Hs. unfold detach_wait. unfold mbind at 1, M_bind at 1, tcb_of, gets. rewrite ask_bind_run.
  set (p := pid _). pose proof (waits_asked_wait p WALL s) as Hw.
  pose proof (se_writable _ _ (asked_settled (RWait4 p WALL) s) Hs) as Hs1.
  set (s1 := asked _ s) in *. set (r := oracle _ _). clearbody s1.
  lazymatch goal with |- match ?c s1 with _ => _ end =>
    assert (Hc : Settles c) by settles; specialize (Hc s1 Hs1); unfold settles_from in Hc;
    destruct (c s1) as [st s2| |]; [|done..] end.
  pose proof (waits_prefix _ _ (se_log _ _ Hc)). lia.
Qed.

Lemma detach_loop_S fuel i e :
  detach_loop oracle opt w (S fuel) i e =
  (st ← detach_wait oracle w i;
   match st with
   | None => mret e
   | Some status =>
       if negb (WIFSTOPPED status) then mret e
       else if WSTOPSIG status =? SIGSTOP then _ ← ptrace_restart oracle w PTRACE_DETACH i 0; mret e
       else
         e ← ptrace_restart oracle w PTRACE_CONT i
               (if WSTOPSIG status =? syscall_trap_sig opt then 0 else WSTOPSIG status);
         if e <? 0 then mret e else detach_loop oracle opt w fuel i e
   end).
Proof. done. Qed.

Lemma detach_loop_settles fuel i e s :
  writable s -> (N <= waits (log s) + fuel)%nat -> settles_from (detach_loop oracle opt w (S fuel) i e) s.
Proof.
  revert e s. induction fuel as [|fuel IH]; intros e s Hs Hn;
    rewrite detach_loop_S;
    unfold settles_from, mbind at 1, M_bind at 1;
    pose proof (Settles_detach_wait i s Hs) as H1; pose proof (detach_wait_waited i s) as H2;
    pose proof (detach_wait_more i s Hs) as H3; unfold settles_from, waited in *;
    destruct (detach_wait oracle w i s) as [st s1| |]; try done; pose proof (se_writable _ _ H1 Hs) as Hs1;
    (destruct st as [status|]; [|done]).
  - destruct (H2 ltac:(lia)) as [-> | ->]; cbn [negb]; [done|].
    destruct (negb (WIFSTOPPED status)); [done|]. rewrite Z.eqb_refl.
    assert (Hc : Settles (_ ← ptrace_restart oracle w PTRACE_DETACH i 0; mret e)) by settles.
    specialize (Hc s1 Hs1). unfold settles_from in Hc.
    lazymatch goal with |- match ?c s1 with _ => _ end => destruct (c s1); [by eapply settled_trans|done..] end.
  - destruct (negb (WIFSTOPPED status)); [done|]. destruct (_ =? SIGSTOP).
    { assert (Hc : Settles (_ ← ptrace_restart oracle w PTRACE_DETACH i 0; mret e)) by settles.
      specialize (Hc s1 Hs1). unfold settles_from in Hc.
      lazymatch goal with |- match ?c s1 with _ => _ end => destruct (c s1); [by eapply settled_trans|done..] end. }
    unfold mbind, M_bind. set (sig := if _ =? _ then _ else _).
    pose proof (Settles_restart PTRACE_CONT i sig s1 Hs1) as H4. unfold settles_from in H4.
    destruct (ptrace_restart oracle w PTRACE_CONT i sig s1) as [e' s2| |]; [|done..].
    assert (H : settled s s2) by (by eapply settled_trans).
    destruct (e' <? 0); [done|]. pose proof (waits_prefix _ _ (se_log _ _ H4)).
    specialize (IH e' s2 (se_writable _ _ H Hs) ltac:(lia)). unfold settles_from in IH.
    destruct (detach_loop _ _ _ _ _ _ s2); [by eapply settled_trans|done..].
Qed.

(** ** detach *)

Definition detach_event (t : tcb) : event := EReq (RPtrace PTRACE_DETACH (pid t) 1 0).

(** One slot less. *)
Record released (i : nat) (t : tcb) (s s' : tracer) : Prop := {
  re_len : length (tcbtab s') = length (tcbtab s);
  re_slot : tcbtab s' !! i = Some zero_tcb;
  re_tab j : j <> i -> view kept <$> tcbtab s' !! j = view kept <$> tcbtab s !! j;
  re_nprocs : nprocs s' = nprocs s - 1;
  re_log : exists evs, log s' = log s ++ evs /\ (has_flag (flags t) TCB_ATTACHED = true -> detach_event t ∈ evs);
  re_writable : writable s'
}.

Lemma detach_request_asks i t s :
  tcbtab s !! i = Some t -> writable s ->
  match detach_request oracle w i s with
  | Ret _ s' => exists evs, log s' = log s ++ evs /\ detach_event t ∈ evs
  | _ => True
  end.
Proof.
  intros Ht Hs. unfold detach_request, mbind at 1, M_bind at 1, tcb_of, gets. rewrite Ht. cbn [default from_option id].
  unfold mbind at 1, M_bind at 1, ptrace, ask_kernel at 1. cbn [emit].
  set (s1 := mk_tracer _ _ _ _ _ _).
  lazymatch goal with |- match ?c s1 with _ => _ end => assert (Hc : Settles c) by settles; specialize (Hc s1 Hs);
    unfold settles_from in Hc; destruct (c s1) as [x s2| |]; [|done..] end.
  destruct Hc as [_ _ [evs He] _]. exists (detach_event t :: evs). split; [|by left].
  rewrite He. cbn [s1 log]. by rewrite <- app_assoc.
Qed.

(** The view of a slot after settling. *)
Lemma settled_slot s s' i t : settled s s' -> tcbtab s !! i = Some t ->
  exists t', tcbtab s' !! i = Some t' /\ view kept t' = view kept t.
Proof.
  intros [Ht _ _ _] Hi. specialize (Ht i). rewrite Hi in Ht.
  destruct (tcbtab s' !! i) as [t'|]; [|done]. injection Ht as ?. exists t'. split; [done|].
  unfold view. congruence.
Qed.
Lemma settled_length s s' : settled s s' -> length (tcbtab s') = length (tcbtab s).
Proof.
  intros [Ht _ _ _]. rewrite <- (length_fmap (view kept) (tcbtab s')), <- (length_fmap (view kept) (tcbtab s)).
  f_equal. apply list_eq. intros j. by rewrite !list_lookup_fmap.
Qed.
Lemma view_pid m t t' : view m t' = view m t -> pid t' = pid t.
Proof. unfold view. congruence. Qed.

(** The kernel is done with stops before the bound of detach's loop. *)
Definition in_time (s : tracer) : Prop := (N < waits (log s) + loop_fuel w)%nat.
Lemma in_time_later s s' : log s `prefix_of` log s' -> in_time s -> in_time s'.
Proof. unfold in_time. intros H%waits_prefix. lia. Qed.

Lemma detach_loop_in_time i e s :
  (0 < loop_fuel w)%nat -> writable s -> in_time s -> settles_from (detach_loop oracle opt w (loop_fuel w) i e) s.
Proof.
  unfold in_time. intros H0 Hs Hn. replace (loop_fuel w) with (S (pred (loop_fuel w))) by lia.
  apply detach_loop_settles; [done|lia].
Qed.
Context (Hfuel : (0 < loop_fuel w)%nat).

Lemma detach_releases i t s :
  tcbtab s !! i = Some t -> pid t <> 0 -> writable s -> in_time s ->
  match detach oracle opt w i s with
  | Ret _ s' => released i t s s'
  | _ => False
  end.
Proof.
  intros Ht Hp Hw Hn. unfold detach, mbind at 1, M_bind at 1, tcb_of at 1, gets. rewrite Ht. cbn [default from_option id].
  unfold mbind at 1, M_bind at 1.
  lazymatch goal with |- context [(if ?b then ?c else _) s] =>
    assert (Hc : Settles (if b then c else mret tt)) by settles; specialize (Hc s Hw); unfold settles_from in Hc;
    destruct ((if b then c else mret tt) s) as [[] s1| |]; [|done..] end.
  rename Hc into H1. destruct (settled_slot s s1 i t H1 Ht) as (t1 & Ht1 & Hv1).
  pose proof (se_writable _ _ H1 Hw) as Hw1. unfold mbind at 1, M_bind at 1.
  assert (H2 : match (if has_flag (flags t) TCB_ATTACHED then detach_request oracle w i else mret (0, false)) s1 with
               | Ret _ s2 => settled s1 s2 /\ exists evs, log s2 = log s1 ++ evs /\
                   (has_flag (flags t) TCB_ATTACHED = true -> detach_event t ∈ evs)
               | _ => False end).
  { destruct (has_flag (flags t) TCB_ATTACHED).
    - pose proof (Settles_detach_request i s1 Hw1) as Hs. pose proof (detach_request_asks i t1 s1 Ht1 Hw1) as Ha.
      unfold settles_from in Hs. destruct (detach_request oracle w i s1); [|done..]. split; [done|].
      destruct Ha as (evs & He & Hin). exists evs. split; [done|]. intros _.
      unfold detach_event. by rewrite <- (view_pid _ _ _ Hv1).
    - split; [apply settled_refl|]. exists []. by rewrite app_nil_r. }
  destruct ((if has_flag (flags t) TCB_ATTACHED then detach_request oracle w i else mret (0, false)) s1) as [[error expected] s2| |]; [|done..].
  destruct H2 as (H2 & evs & He & Hin). pose proof (se_writable _ _ H2 Hw1) as Hw2. unfold mbind at 1, M_bind at 1.
  assert (H3 : settles_from (if expected then detach_loop oracle opt w (loop_fuel w) i error else mret error) s2).
  { destruct expected; [|apply settled_refl]. apply detach_loop_in_time; [done..|].
    eapply in_time_later; [|exact Hn]. etrans; [apply H1|apply H2]. }
  unfold settles_from in H3.
  destruct ((if expected then detach_loop oracle opt w (loop_fuel w) i error else mret error) s2) as [e3 s3| |]; [|done..].
  unfold mbind at 1, M_bind at 1.
  lazymatch goal with |- context [when ?b ?c s3] =>
    assert (Hc : Settles (when b c)) by settles; specialize (Hc s3 (se_writable _ _ H3 Hw2)); unfold settles_from in Hc;
    destruct (when b c s3) as [[] s4| |]; [|done..] end.
  assert (H24 : settled s2 s4) by (eapply settled_trans; [exact H3|exact Hc]).
  assert (H4 : settled s s4) by (eapply settled_trans; [exact H1|]; eapply settled_trans; [exact H2|exact H24]).
  destruct (settled_slot s s4 i t H4 Ht) as (t4 & Ht4 & Hv4).
  unfold mbind, M_bind. destruct (droptcb_run opt i s4 t4 Ht4) as (evs' & Hd & _).
  { by rewrite (view_pid _ _ _ Hv4). }
  rewrite Hd. cbn [mret M_ret]. pose proof (settled_length s s4 H4) as Hlen.
  pose proof (se_writable _ _ H4 Hw) as Hw4. destruct H4 as [Htab Hnp Hlog _]. split; cbn [tcbtab nprocs log].
  - by rewrite length_alter.
  - by rewrite list_lookup_alter_eq, Ht4.
  - intros j Hj. rewrite list_lookup_alter_ne by done. apply Htab.
  - lia.
  - destruct (se_log _ _ H1) as [l1 E1]. destruct (se_log _ _ H24) as [l2 E2].
    exists (l1 ++ evs ++ l2 ++ evs'). split; [by rewrite E2, He, E1, <- !app_assoc|].
    intros Ha. apply elem_of_app. right. apply elem_of_app. left. by apply Hin.
  - intros j u. cbn [tcbtab]. rewrite list_lookup_alter. destruct (decide (i = j)) as [<-|]; [|apply (Hw4 j u)].
    rewrite Ht4. by intros [= <-].
Qed.

(** ** cleanup *)

(** What cleanup asks of the kernel about the process of a block. *)
Definition asks (sig : Z) (t : tcb) (evs : list event) : Prop :=
  (has_flag (flags t) TCB_ATTACHED = true -> detach_event t ∈ evs) /\
  (has_flag (flags t) TCB_STRACE_CHILD = true ->
     EReq (RKill (pid t) SIGCONT) ∈ evs /\ EReq (RKill (pid t) sig) ∈ evs).

Lemma asks_app sig t l1 l2 : asks sig t l1 \/ asks sig t l2 -> asks sig t (l1 ++ l2).
Proof. intros [[A1 A2]|[A1 A2]]; split; intros H; rewrite ?elem_of_app; naive_solver. Qed.

(** The signals for the program that the tracer started. *)
Lemma kills_run (b : bool) p sig s : exists ks s1,
  (if b then _ ← ask_kernel oracle (RKill p SIGCONT); _ ← ask_kernel oracle (RKill p sig); mret tt
   else mret tt : M unit) s = Ret tt s1 /\
  tcbtab s1 = tcbtab s /\ log s1 = log s ++ ks /\
  (b = true -> EReq (RKill p SIGCONT) ∈ ks /\ EReq (RKill p sig) ∈ ks).
Proof.
  destruct b.
  - exists [EReq (RKill p SIGCONT); EReq (RKill p sig)]. eexists. split; [done|].
    split_and!; [done|cbn; by rewrite <- app_assoc|]. intros _. split; [by left|right; by left].
  - exists [], s. split_and!; [done|done|by rewrite app_nil_r|done].
Qed.

(** What a part of cleanup does to the slots of [mine], and asks about them. *)
Record cleaned (mine : nat -> Prop) (sig : Z) (s s' : tracer) : Prop := {
  cl_len : length (tcbtab s') = length (tcbtab s);
  cl_free j t' : mine j -> tcbtab s' !! j = Some t' -> inuse t' = false;
  cl_keep j : ~ mine j -> view kept <$> tcbtab s' !! j = view kept <$> tcbtab s !! j;
  cl_log : exists evs, log s' = log s ++ evs /\
    forall j t, mine j -> tcbtab s !! j = Some t -> inuse t = true -> asks sig t evs;
  cl_writable : writable s'
}.
Lemma cleaned_log mine sig s s' : cleaned mine sig s s' -> log s `prefix_of` log s'.
Proof. intros [_ _ _ (evs & -> & _) _]. by eexists. Qed.

(** One round of its loop. *)
Lemma slot_cleaned i t sig s :
  tcbtab s !! i = Some t -> (inuse t = true -> pid t <> 0) -> writable s -> in_time s ->
  match (if inuse t then
           _ ← (if has_flag (flags t) TCB_STRACE_CHILD then
                  _ ← ask_kernel oracle (RKill (pid t) SIGCONT);
                  _ ← ask_kernel oracle (RKill (pid t) sig); mret tt
                else mret tt);
           _ ← detach oracle opt w i; mret tt
         else mret tt) s with
  | Ret _ s1 => cleaned (eq i) sig s s1
  | _ => False
  end.
Proof.
  intros Ht Hpos Hw Hn. destruct (inuse t) eqn:Hin.
  2: { split; [done| |done| |done].
       - intros j t' <-. rewrite Ht. by intros [= <-].
       - exists []. split; [by rewrite app_nil_r|]. intros j u <-. rewrite Ht. intros [= <-]. congruence. }
  unfold mbind at 1, M_bind at 1.
  destruct (kills_run (has_flag (flags t) TCB_STRACE_CHILD) (pid t) sig s) as (ks & s1 & -> & Htab & Hlog & Hks).
  unfold mbind at 1, M_bind at 1. pose proof (detach_releases i t s1) as Hd.
  unfold writable in Hd. rewrite Htab in Hd.
  specialize (Hd Ht (Hpos eq_refl) Hw). destruct (detach oracle opt w i s1) as [e s2| |].
  2, 3: destruct Hd; eapply in_time_later; [|exact Hn]; rewrite Hlog; by eexists.
  destruct Hd as [R0 R1 R2 _ (evs & R4 & R5) R6].
  { eapply in_time_later; [|exact Hn]. rewrite Hlog. by eexists. }
  cbn [mret M_ret]. split.
  - by rewrite R0, Htab.
  - intros j t' <-. rewrite R1. by intros [= <-].
  - intros j Hj. by rewrite R2, Htab.
  - exists (ks ++ evs). split; [by rewrite R4, Hlog, app_assoc|]. intros j u <- Hu _.
    rewrite Ht in Hu. injection Hu as <-. split.
    + intros Ha. apply elem_of_app. right. by apply R5.
    + intros Hc. rewrite !elem_of_app. naive_solver.
  - done.
Qed.

(** A slot that was left alone: the same process, asked about in the same way. *)
Lemma kept_slot s s1 j u : view kept <$> tcbtab s1 !! j = view kept <$> tcbtab s !! j ->
  tcbtab s1 !! j = Some u ->
  exists t, tcbtab s !! j = Some t /\ pid u = pid t /\ inuse u = inuse t /\
    forall sig evs, asks sig u evs -> asks sig t evs.
Proof.
  intros H Hu. rewrite Hu in H. destruct (tcbtab s !! j) as [t|]; [|done]. apply (inj Some) in H.
  assert (Hf : forall b, Z.land kept b = b -> has_flag (flags u) b = has_flag (flags t) b)
    by (intros b Hb; by apply (view_flag kept b)).
  exists t. split_and!; [done|by eapply view_pid|by apply (Hf TCB_INUSE)|].
  intros sig evs [A1 A2]. unfold asks, detach_event in *.
  rewrite (view_pid _ _ _ H), Hf in A1 by done. by rewrite (view_pid _ _ _ H), Hf in A2 by done.
Qed.

Lemma cleaned_trans (mine mine' : nat -> Prop) sig s s1 s2 :
  cleaned mine sig s s1 -> cleaned mine' sig s1 s2 -> (forall j, mine j -> ~ mine' j) ->
  cleaned (fun j => mine j \/ mine' j) sig s s2.
Proof.
  intros [A1 A2 A3 (e1 & A4 & A5) _] [B1 B2 B3 (e2 & B4 & B5) B6] Hdis. split.
  - congruence.
  - intros j t' [Hj|Hj] H'; [|by eapply B2].
    destruct (kept_slot _ _ _ _ (B3 j (Hdis j Hj)) H') as (t & Ht & _ & -> & _). by eapply A2.
  - intros j Hj. rewrite B3, A3; tauto.
  - exists (e1 ++ e2). split; [by rewrite B4, A4, app_assoc|]. intros j t Hm Ht Hin. apply asks_app.
    destruct Hm as [Hj|Hj]; [left; by eapply A5|right].
    assert (Hnm : ~ mine j) by (intros ?; by eapply Hdis). specialize (A3 j Hnm).
    destruct (tcbtab s1 !! j) as [u|] eqn:Hu; [|by rewrite Ht in A3]. rewrite <- Hu in A3.
    destruct (kept_slot _ _ _ _ A3 Hu) as (t0 & H0 & _ & Hiu & Hask). rewrite Ht in H0. injection H0 as <-.
    apply Hask. eapply B5; [done..|congruence].
  - done.
Qed.

Lemma cleanup_from_releases n i sig s :
  (forall t, t ∈ tcbtab s -> inuse t = true -> pid t <> 0) -> (i + n)%nat = tcbtabsize s ->
  writable s -> in_time s ->
  match cleanup_from oracle opt w n i sig s with
  | Ret _ s' => cleaned (fun j => i <= j)%nat sig s s'
  | _ => False
  end.
Proof.
  unfold tcbtabsize. revert i s. induction n as [|n IH]; intros i s Hpos Hn Hw Ht0; cbn [cleanup_from].
  { split; [done| |done| |done].
    - intros j t' Hj Ht%lookup_lt_Some. lia.
    - exists []. split; [by rewrite app_nil_r|]. intros j t Hj Ht%lookup_lt_Some. lia. }
  destruct (lookup_lt_is_Some_2 (tcbtab s) i) as [t Ht]; [lia|].
  unfold mbind at 1, M_bind at 1, tcb_of, gets. rewrite Ht. cbn [default from_option id].
  pose proof (slot_cleaned i t sig s Ht (Hpos t (list_elem_of_lookup_2 _ _ _ Ht)) Hw Ht0) as Hstep.
  unfold mbind at 1, M_bind at 1.
  lazymatch type of Hstep with match ?c s with _ => _ end => destruct (c s) as [[] s1| |]; [|done..] end.
  assert (Hpos1 : forall t1, t1 ∈ tcbtab s1 -> inuse t1 = true -> pid t1 <> 0).
  { intros t1 [j Hj]%list_elem_of_lookup Hin. destruct (decide (i = j)) as [->|Hne].
    - by rewrite (cl_free _ _ _ _ Hstep j t1 eq_refl Hj) in Hin.
    - destruct (kept_slot _ _ _ _ (cl_keep _ _ _ _ Hstep j Hne) Hj) as (t0 & H0 & -> & Hiu & _).
      apply Hpos; [by eapply list_elem_of_lookup_2|congruence]. }
  specialize (IH (S i) s1 Hpos1 ltac:(rewrite (cl_len _ _ _ _ Hstep); lia) (cl_writable _ _ _ _ Hstep)
                (in_time_later _ _ (cleaned_log _ _ _ _ Hstep) Ht0)).
  destruct (cleanup_from oracle opt w n (S i) sig s1) as [[] s2| |]; [|done..].
  destruct (cleaned_trans _ _ _ _ _ _ Hstep IH) as [C1 C2 C3 (evs & C4 & C5) C6]; [lia|].
  split; [done| | |exists evs; split; [done|]|done].
  - intros j t' Hj. apply C2. lia.
  - intros j Hj. apply C3. lia.
  - intros j u Hj. apply C5. lia.
Qed.

(** fatal_sig *)
Definition fatal_sig (s : tracer) : Z :=
  let n := r_val (oracle (log s) RIntr) in if n =? 0 then SIGTERM else n.

(** No process is left in the table, and for each one that was there the kernel
    has been asked. *)
Definition all_released (s s' : tracer) : Prop :=
  (forall t, t ∈ tcbtab s' -> inuse t = false) /\
  exists evs, log s' = log s ++ evs /\
    forall t, t ∈ tcbtab s -> inuse t = true -> asks (fatal_sig s) t evs.

Lemma cleanup_run s : wf_tab s -> writable s -> in_time s ->
  match cleanup oracle opt w s with
  | Ret _ s' => all_released s s'
  | Exit code s' => cflag opt <> CFLAG_NONE /\ sortby opt = SortName /\ code = SIGSEGV_exit /\ all_released s s'
  | Die _ => False
  end.
Proof.
  intros Hwf Hw Hn. unfold cleanup, interrupted. unfold mbind at 1, M_bind at 1.
  unfold mbind at 1, M_bind at 1, ask_kernel. cbn [emit mret M_ret].
  set (s1 := mk_tracer _ _ _ _ _ _). unfold mbind at 1, M_bind at 1, get. unfold mbind at 1, M_bind at 1.
  fold (fatal_sig s).
  assert (H : match cleanup_from oracle opt w (tcbtabsize s1) 0 (fatal_sig s) s1 with
              | Ret _ s' => cleaned (fun j => 0 <= j)%nat (fatal_sig s) s1 s' | _ => False end).
  { apply cleanup_from_releases; [|done|done|].
    - intros t Ht Hin. pose proof (wt_pos _ Hwf t Ht Hin). lia.
    - eapply in_time_later; [|exact Hn]. by eexists. }
  destruct (cleanup_from oracle opt w (tcbtabsize s1) 0 (fatal_sig s) s1) as [[] s2| |]; [|done..].
  destruct H as [_ H1 _ (evs & H3 & H4) H5].
  assert (Hend : forall s3, settled s2 s3 -> all_released s s3).
  { intros s3 [Htab _ [l El] _]. split.
    - intros t [j Ht]%list_elem_of_lookup. destruct (kept_slot _ _ _ _ (Htab j) Ht) as (t2 & H2 & _ & -> & _).
      apply (H1 j); [lia|done].
    - exists ([EReq RIntr] ++ evs ++ l). split; [rewrite El, H3; cbn [s1 log]; by rewrite <- !app_assoc|].
      intros t [j Ht]%list_elem_of_lookup Hin. apply asks_app. right. apply asks_app. left.
      apply (H4 j); [lia|done..]. }
  destruct (Z.eqb_spec (cflag opt) CFLAG_NONE) as [|Hc]; cbn [negb when]; [by apply Hend|].
  pose proof (call_summary_run s2 H5) as Hs. unfold reported in Hs.
  destruct (call_summary opt w s2); [by apply Hend| |done].
  destruct Hs as (? & ? & ?). split_and!; [done..|by apply Hend].
Qed.
End release.

(** C12: no process is left behind.  From a sound table, cleanup asks the kernel
    to detach from every process that is attached, wakes and kills the program
    the tracer started, with the signal that interrupted it or SIGTERM, leaves
    every block free, and returns.  The one exception is a report of -c sorted by
    names over a table with an unnamed entry: the tracer crashes in it, when all
    of that is done.  die() does the same without the report, and ends the tracer
    with status 1.  Assumed of the kernel is that a process that was sent SIGSTOP
    has finitely many stops before it: from the N-th request for a status on
    there is no other stop to report, with N within the bound on the rounds of
    detach's wait; and of the state, that a block with an unfinished line has a
    file, as in every state with the invariant of the log (log_inv_writable). *)
Theorem cleanup_releases oracle opt w N s :
  wf_tab s -> writable s -> stops_end oracle N ->
  (0 < loop_fuel w)%nat -> (N < waits (log s) + loop_fuel w)%nat ->
  match cleanup oracle opt w s with
  | Ret _ s' => all_released oracle s s'
  | Exit code s' => cflag opt <> CFLAG_NONE /\ sortby opt = SortName /\ code = SIGSEGV_exit /\
      all_released oracle s s'
  | Die _ => False
  end /\
  exists s', die_exit oracle opt w (strace_tracer_pid opt) s = Exit 1 s' /\ all_released oracle s s'.
Proof.
  intros Hwf Hw Hstops H0 Hn. split; [by eapply cleanup_run|]. unfold die_exit. rewrite Z.eqb_refl.
  pose proof (cleanup_run oracle (without_cflag opt) w N Hstops H0 s Hwf Hw Hn) as H.
  destruct (cleanup oracle (without_cflag opt) w s); [by eexists|by destruct H|done].
Qed.

(** Process 10, which the tracer started and attached to, and a kernel that
    has it in a stop for SIGINT before the SIGSTOP. *)
Definition last_tcb : tcb :=
  set_flags (fun f => Z.lor f (Z.lor TCB_ATTACHED TCB_STRACE_CHILD)) (demo_tcb 10 0).
Definition last_tracer : tracer := mk_tracer [last_tcb; zero_tcb] 1 None None demo_globals [].
Definition stopping : list event -> request -> reply := fun h r =>
  let answer ret err v := mk_reply ret err v tv_zero (r_regs demo_reply) (r_si demo_reply) None in
  match r with
  | RPtrace op _ a _ => if (op =? PTRACE_DETACH) && (a =? 1) then answer (-1) ESRCH 0 else answer 0 0 0
  | RWait4 _ _ => answer 10 0 (if (waits h =? 0)%nat then 0x027f else 0x137f)
  | _ => answer 0 0 0
  end.

Lemma cleanup_releases_witness :
  match cleanup stopping demo_options quiet_world last_tracer with
  | Ret _ s' => (forall t, t ∈ tcbtab s' -> inuse t = false) /\ detach_event last_tcb ∈ log s' /\ waits (log s') = 2%nat
  | _ => False
  end.
Proof.
  destruct (cleanup_releases stopping demo_options quiet_world 1 last_tracer) as [H _].
  - split.
    + apply Nat.ltb_lt. reflexivity.
    + reflexivity.
    + intros t Ht. repeat (apply elem_of_cons in Ht as [-> | Ht]; [done|]). by apply not_elem_of_nil in Ht.
    + intros t Ht. repeat (apply elem_of_cons in Ht as [-> | Ht]; [done|]). by apply not_elem_of_nil in Ht.
    + intros [|[|i]] [|[|j]] t u Ht Hu; simpl in *; simplify_eq; done.
  - intros [|[|i]] t Ht; simpl in Ht; simplify_eq; done.
  - intros h p f Hh. right. right. cbn [stopping r_val]. destruct (waits h); [lia|]. reflexivity.
  - apply Nat.ltb_lt. reflexivity.
  - apply Nat.ltb_lt. reflexivity.
  - destruct (cleanup _ _ _ _) as [[] s'|code s'|s'] eqn:E; [|vm_compute in E; discriminate E|done].
    destruct H as (H1 & evs & H2 & H3). split; [exact H1|]. split.
    + rewrite H2. cbn [last_tracer log app]. apply (H3 last_tcb); [by left|reflexivity|reflexivity].
    + vm_compute in E. injection E as <-. reflexivity.
Defined.
