(* ===== verification/Rounds.v ===== *)
(** * The line discipline across rounds, and the properties of the event loop *)

From stdpp Require Import gmap.
From S2P Require Import Prelude Timeval Xlat Quote Tracee Decode Io Options Signal Qual Mmap Count.
From S2P Require Import Tcb Regs Log Table Pathtrace Syscall Frame Line Stops Trace Loop.
Local Open Scope string_scope.
Local Open Scope list_scope.
Local Open Scope Z_scope.

(** Every traced process writes to the shared files. *)
Record loop_inv (opt : options) (s : tracer) : Prop := {
  lv_wf : wf_tab s;
  lv_log : log_inv opt s;
  lv_open i t : tcbtab s !! i = Some t -> inuse t = true ->
    outf t = Some Shared /\ out_dump_f t = Some Shared /\ out_stack_f t = Some Shared;
  lv_free i t : tcbtab s !! i = Some t -> inuse t = false -> outf t = None
}.

Definition anything : Z -> Prop := fun _ => True.

(** ** The status that a round is about *)

Definition nowait (e : event) : Prop := match e with EReq (RWait4 _ _) => False | _ => True end.

(** [r] is what the last request for a status in [l] was answered with. *)
Definition last_reply (oracle : list event -> request -> reply) (l : list event) (r : reply) : Prop :=
  exists h q o h', l = h ++ EReq (RWait4 q o) :: h' /\ Forall nowait h' /\ r = oracle h (RWait4 q o).

(** Only leaders of thread groups call execve: when the kernel, after the status
    of an execve of [p], is asked which thread called it, it names [p] or does
    not answer (before Linux 3.0 it is not asked). *)
Definition leaders_exec (oracle : list event -> request -> reply) (opt : options) : Prop := forall l r,
  0x30000 <= os_release opt -> last_reply oracle l r -> event_of (r_val r) = PTRACE_EVENT_EXEC ->
  let m := oracle l (RPtrace PTRACE_GETEVENTMSG (r_ret r) 0 0) in
  r_ret m < 0 \/ r_val m <= 0 \/ r_val m = r_ret r.

(** Computations that do not ask for a status. *)
Definition Waitless {A} (c : M A) : Prop := forall s,
  match c s with Ret _ s' => exists evs, log s' = log s ++ evs /\ Forall nowait evs | _ => True end.

Lemma Waitless_ret {A} (x : A) : Waitless (mret x).
Proof. intros s. exists []. by rewrite app_nil_r. Qed.
Lemma Waitless_bind {A B} (c : M A) (k : A -> M B) :
  Waitless c -> (forall x, Waitless (k x)) -> Waitless (c ≫= k).
Proof.
  intros Hc Hk s. unfold mbind, M_bind. specialize (Hc s). destruct (c s) as [x s1| |]; [|done..].
  destruct Hc as (e1 & H1 & F1). specialize (Hk x s1). destruct (k x s1); [|done..].
  destruct Hk as (e2 & H2 & F2). exists (e1 ++ e2). rewrite H2, H1, app_assoc. split; [done|by apply Forall_app].
Qed.
Lemma Waitless_gets {A} (f : tracer -> A) : Waitless (gets f).
Proof. intros s. exists []. by rewrite app_nil_r. Qed.
Lemma Waitless_get : Waitless get.
Proof. apply (Waitless_gets id). Qed.
Lemma Waitless_tcb_of i : Waitless (tcb_of i).
Proof. apply Waitless_gets. Qed.
Lemma Waitless_silent f : (forall s, log (f s) = log s) -> Waitless (fun s => Ret tt (f s)).
Proof. intros Hf s. exists []. by rewrite app_nil_r, Hf. Qed.
Lemma Waitless_upd i f : Waitless (upd_tcb i f).
Proof. by apply Waitless_silent. Qed.
Lemma Waitless_put_tab t n : Waitless (put_tab t n).
Proof. by apply Waitless_silent. Qed.
Lemma Waitless_modify_glb f : Waitless (modify_glb f).
Proof. by apply Waitless_silent. Qed.
Lemma Waitless_exit {A} n : Waitless (exit_ n : M A).
Proof. done. Qed.
Lemma Waitless_die {A} t : Waitless (die_msg t : M A).
Proof. done. Qed.
Lemma Waitless_err_msg t : Waitless (err_msg t).
Proof. intros s. exists [EErr t]. split; [done|by repeat constructor]. Qed.
Lemma Waitless_ask oracle r : nowait (EReq r) -> Waitless (ask_kernel oracle r).
Proof. intros Hr s. exists [EReq r]. split; [done|by repeat constructor]. Qed.

Create HintDb waitless.
#[export] Hint Resolve Waitless_ret Waitless_gets Waitless_get Waitless_tcb_of Waitless_upd Waitless_put_tab
  Waitless_modify_glb Waitless_exit Waitless_die Waitless_err_msg : waitless.
#[export] Hint Extern 1 (Waitless (ask_kernel _ _)) => (apply Waitless_ask; exact I) : waitless.
Ltac waitless :=
  repeat first
    [ solve [auto with waitless nocore]
    | lazymatch goal with
      | |- Waitless (_ ≫= _) => apply Waitless_bind; [|intros ?]
      | |- Waitless (when ?b _) => destruct b; unfold when
      | |- Waitless (match ?x with _ => _ end) => destruct x
      | |- Waitless (let _ := _ in _) => cbv zeta
      end ].

Lemma last_reply_app oracle l evs r : Forall nowait evs -> last_reply oracle l r -> last_reply oracle (l ++ evs) r.
Proof.
  intros He (h & q & o & h' & -> & Hn & Hr). exists h, q, o, (h' ++ evs). rewrite <- app_assoc.
  split; [done|]. split; [by apply Forall_app|done].
Qed.
Lemma hoare_waitless {A} oracle r P (c : M A) (Q : A -> tracer -> Prop) :
  Waitless c -> hoare P c Q ->
  hoare (fun s => P s /\ last_reply oracle (log s) r) c (fun x s => Q x s /\ last_reply oracle (log s) r).
Proof.
  intros Hw Hc s [Hs Hr]. specialize (Hw s). specialize (Hc s Hs). destruct (c s) as [x s'| |]; [|done..].
  split; [done|]. destruct Hw as (evs & -> & He). by apply last_reply_app.
Qed.

Section rounds.
Context (oracle : list event -> request -> reply) (opt : options) (w : world).
Context (Hk : kernel_ok oracle) (Hopt : wf_options opt).
(** No execve by a thread that is not the leader, and no -b execve. *)
Context (Hmsg : leaders_exec oracle opt).
Context (Hdet : detach_on_execve opt = false).

Lemma silent_inv_open s s' :
  silent s s' -> tsame s s' -> loop_inv opt s -> loop_inv opt s'.
Proof.
  intros Hs Ht [H1 H2 H3 H4]. split; [by eapply tsame_wf|by eapply silent_inv| |];
    intros i t' Ht' Hin; destruct (silent_tcb s s' i t' Hs Ht') as (t & Ht0 & [= He1 He2 He3 _]);
    destruct (tsame_tcb s s' i t' Ht Ht') as (t1 & Ht1 & _ & Hi).
  - rewrite <- He1, <- He2, <- He3. apply (H3 i t Ht0). congruence.
  - rewrite <- He1. apply (H4 i t Ht0). congruence.
Qed.

Lemma hoare_quiet {A} (c : M A) :
  Silent anything c -> Tabs c -> hoare (loop_inv opt) c (fun _ => loop_inv opt).
Proof.
  intros Hs Ht s Hi. specialize (Hs s). specialize (Ht s). destruct (c s); [|done..].
  by eapply silent_inv_open.
Qed.

(** The loop's state while the stop of process [p] in slot [i] is handled. *)
Definition at_loop (i : nat) (p : Z) (s : tracer) : Prop := loop_inv opt s /\ holds i p s.
Definition handling (i : nat) (p : Z) (s : tracer) : Prop :=
  at_loop i p s /\ current_tcp s = Some i.

Lemma handling_ready i p s : handling i p s -> Line.ready opt i s.
Proof.
  intros [[[H1 H2 H3 H4] (t & Ht & Hin & _)] Hc]. split; [done| |done].
  exists t. split; [done|]. by apply (H3 i).
Qed.

Lemma hoare_at_quiet {A} i p (c : M A) :
  Silent anything c -> Tabs c -> hoare (at_loop i p) c (fun _ => at_loop i p).
Proof.
  intros Hs Ht s [Hi Hh]. pose proof (hoare_quiet c Hs Ht s Hi) as H.
  specialize (Ht s). destruct (c s); [|done..]. split; [done|]. by eapply tabular_holds.
Qed.
Lemma hoare_h_quiet {A} i p (c : M A) :
  Silent anything c -> Tabs c -> hoare (handling i p) c (fun _ => handling i p).
Proof.
  intros Hs Ht s [Hi Hc]. pose proof (hoare_at_quiet i p c Hs Ht s Hi) as H.
  specialize (Hs s). destruct (c s); [|done..]. split; [done|]. by rewrite (sil_cur _ _ Hs).
Qed.

(** Steps that print. *)
Lemma hoare_h_print {A} i p (c : M A) :
  tri anything (Line.ready opt i) c (fun _ => Line.ready opt i) -> Frames TCB_INUSE c ->
  hoare (handling i p) c (fun _ => handling i p).
Proof.
  intros Hc Hf s Hs. pose proof (Hc s (handling_ready i p s Hs)) as Hr. specialize (Hf s).
  destruct (c s) as [x s'| |]; [|done..]. destruct Hr as [R1 R2 R3].
  destruct Hs as [[[H1 H2 H3 H4] Hh] _]. pose proof (frame_tsame TCB_INUSE s s' eq_refl Hf) as Ht.
  split; [split; [split|]|done].
  - by eapply tsame_wf.
  - done.
  - intros j t' Ht' Hin. destruct (frame_tcb TCB_INUSE s s' j t' Hf Ht') as (t & Ht0 & Hv).
    pose proof (view_flag TCB_INUSE TCB_INUSE t t' eq_refl Hv) as Hi.
    injection Hv as _ <- <- <- _. apply (H3 j t Ht0). unfold inuse in *. congruence.
  - intros j t' Ht' Hin. destruct (frame_tcb TCB_INUSE s s' j t' Hf Ht') as (t & Ht0 & Hv).
    pose proof (view_flag TCB_INUSE TCB_INUSE t t' eq_refl Hv) as Hi.
    injection Hv as _ <- _ _ _. apply (H4 j t Ht0). unfold inuse in *. congruence.
  - by eapply tabular_holds.
Qed.

Lemma tri_say i t :
  tri anything (Line.ready opt i) (say oracle opt w i t) (fun _ => Line.ready opt i).
Proof.
  unfold say, message. eapply tri_bind; [apply tri_printleader|intros ?].
  eapply tri_bind; [apply tri_tprints_nl; by apply ends_line_app, ends_line_nl|intros ?].
  apply tri_line_ended.
Qed.
Lemma hoare_say i p t : hoare (handling i p) (say oracle opt w i t) (fun _ => handling i p).
Proof. apply hoare_h_print; [apply tri_say|apply Frames_message]. Qed.

(** The note of ptrace_restart on the unfinished line. *)
Lemma tri_restart_note i txt : ends_line txt ->
  tri anything (Line.ready opt i)
    (ct ← tcb_of i; when (negb (curcol ct =? 0)) (_ ← tprints txt; line_ended))
    (fun _ => Line.ready opt i).
Proof.
  intros Htxt s Hs. unfold mbind, M_bind, tcb_of, gets.
  destruct Hs as [Hinv (t & Ht & Hf & Hd & Hst) Hc]. rewrite Ht. simpl.
  assert (Hr : Line.ready opt i s) by (split; [done|by exists t|done]).
  destruct (Z.eqb_spec (curcol t) 0) as [Hz|Hnz]; simpl; [exact Hr|].
  destruct (li_print _ _ Hinv i t Ht Hnz) as [Hp _].
  exact (tri_bind anything _ _ (fun _ : unit => Line.ready opt i) (tprints txt) (fun _ => line_ended)
           (tri_tprints_nl anything opt i txt Htxt)
           (fun _ => tri_line_ended anything opt i) s (conj Hr Hp)).
Qed.

Lemma hoare_h_restart i p op sig :
  hoare (handling i p) (ptrace_restart oracle w op i sig) (fun _ => handling i p).
Proof.
  unfold ptrace_restart. eapply hoare_bind; [apply hoare_h_quiet; [silent|tabs]|intros t].
  eapply hoare_bind; [apply hoare_h_quiet; [unfold ptrace; silent|unfold ptrace; tabs]|intros r].
  destruct (_ =? 0); [by apply hoare_ret|].
  apply (hoare_bind _ (fun cur s => handling i p s /\ cur = Some i)).
  { intros s Hs. split; [done|]. by destruct Hs. }
  intros cur s [Hs ->]. revert s Hs. apply (hoare_bind _ (fun _ => handling i p)).
  - apply hoare_h_print; [|frames]. apply tri_restart_note.
    repeat apply ends_line_app. by apply ends_line_nl.
  - intros ?. destruct (_ =? ESRCH); [by apply hoare_ret|].
    apply hoare_h_quiet; [unfold perror_msg; silent|unfold perror_msg; tabs].
Qed.

(** ** A tcb goes *)

Lemma dropped_log_inv i t s s' :
  log_inv opt s -> tcbtab s !! i = Some t ->
  tcbtab s' = alter (fun _ => zero_tcb) i (tcbtab s) ->
  printing_tcp s' = (if bool_decide (printing_tcp s = Some i) then None else printing_tcp s) ->
  text_of Shared (log s') = text_of Shared (log s) +:+
    (if bool_decide (printing_tcp s = Some i) && negb (curcol t =? 0) then detached_text else "") ->
  log_inv opt s'.
Proof.
  intros [H1 H2 H3 H4 H5] Ht Htab Hprn Htxt.
  assert (Hlk : forall j u, tcbtab s' !! j = Some u ->
            (j = i /\ u = zero_tcb) \/ (j <> i /\ tcbtab s !! j = Some u)).
  { intros j u. rewrite Htab, list_lookup_alter. destruct (decide (i = j)) as [Hij|Hij].
    - subst. rewrite Ht. simpl. intros [= <-]. by left.
    - intros Hu. right. split; [congruence|done]. }
  split; [done|..].
  - intros j u Hu. destruct (Hlk j u Hu) as [[-> ->]|[_ Hu']]; [by right|by eapply H2].
  - intros j u Hu. destruct (Hlk j u Hu) as [[-> ->]|[_ Hu']]; [done|by eapply H3].
  - intros j u Hu Hc. destruct (Hlk j u Hu) as [[-> ->]|[Hne Hu']]; [by destruct Hc|].
    destruct (H4 j u Hu' Hc) as [Hp Hf]. rewrite Hprn, Hp. split; [|done].
    rewrite bool_decide_false; [done|congruence].
  - rewrite Htxt. intros Hbol.
    destruct (bool_decide (printing_tcp s = Some i) && negb (curcol t =? 0)) eqn:Hb.
    { exfalso. assert (Hd : ends_line detached_text) by (by apply ends_line_app, ends_line_nl).
      apply (ends_line_app (text_of Shared (log s))) in Hd. destruct Hd. congruence. }
    rewrite sapp_nil_r in Hbol. destruct (H5 Hbol) as (j & u & Hu & Hc).
    exists j, u. split; [|done]. rewrite Htab, list_lookup_alter_ne; [done|]. intros <-.
    rewrite Ht in Hu. injection Hu as <-. destruct (H4 i t Ht Hc) as [Hp _].
    rewrite bool_decide_true in Hb by done. apply Z.eqb_neq in Hc. rewrite Hc in Hb. done.
Qed.

Lemma droptcb_log_inv i : hoare (log_inv opt) (droptcb opt i) (fun _ => log_inv opt).
Proof.
  intros s Hinv. pose proof Hinv as [H1 H2 H3 H4 H5].
  unfold droptcb, mbind, M_bind, get, tcb_of, gets.
  destruct (tcbtab s !! i) as [t|] eqn:Ht; simpl; [|done].
  destruct (pid t =? 0); simpl; [done|].
  assert (Hff : (followfork opt >=? 2) = false) by lia. rewrite Hff.
  assert (Hout : outf t = Some Shared \/ outf t = None) by by eapply H2.
  destruct Hout as [Ho|Ho]; rewrite Ho; simpl.
  - destruct (bool_decide (printing_tcp s = Some i) && negb (curcol t =? 0)) eqn:Hb; simpl;
      destruct (bool_decide (current_tcp s = Some i)), (bool_decide (printing_tcp s = Some i)) eqn:Hp;
      simpl; apply (dropped_log_inv i t s); simpl; rewrite ?Hp, ?text_of_app, ?Hb, ?sapp_nil_r; done.
  - assert (Hc : curcol t = 0).
    { destruct (decide (curcol t = 0)); [done|]. destruct (H4 i t Ht); [done|congruence]. }
    destruct (bool_decide (current_tcp s = Some i)), (bool_decide (printing_tcp s = Some i)) eqn:Hp;
      simpl; apply (dropped_log_inv i t s); simpl; rewrite ?Hp, ?Hc, ?sapp_nil_r; done.
Qed.

Lemma hoare_loop_drop i : hoare (loop_inv opt) (droptcb opt i) (fun _ => loop_inv opt).
Proof.
  intros s [H1 H2 H3 H4]. pose proof (hoare_droptcb opt i s H1) as Hwf.
  pose proof (droptcb_log_inv i s H2) as Hlog. destruct (tcbtab s !! i) as [t|] eqn:Ht.
  - destruct (decide (pid t = 0)) as [Hp|Hp].
    + revert Hwf Hlog. unfold droptcb, mbind, M_bind, get, tcb_of, gets. rewrite Ht. simpl.
      rewrite Hp. simpl. by split.
    + destruct (droptcb_run opt i s t Ht Hp) as (evs & Hrun & _). rewrite Hrun in Hwf, Hlog |- *.
      split; [done..| |]; intros j u; simpl; rewrite list_lookup_alter;
        (destruct (decide (i = j)) as [<-|]; [rewrite Ht; intros Hu; injection Hu as <-; done|first [apply H3|apply H4]]).
  - revert Hwf Hlog. unfold droptcb, mbind, M_bind, get, tcb_of, gets. rewrite Ht. simpl. by split.
Qed.

(** ** A tcb comes *)

(** alloctcb leaves the new tcb without files. *)
Lemma hoare_loop_alloc p :
  0 < p ->
  hoare (fun s => loop_inv opt s /\ abs (tcbtab s) !! p = None) (alloctcb p)
    (fun i s => log_inv opt s /\ at_tcb i p s /\ forall j t, tcbtab s !! j = Some t -> j <> i ->
       if inuse t then outf t = Some Shared /\ out_dump_f t = Some Shared /\ out_stack_f t = Some Shared
       else outf t = None).
Proof.
  intros Hp s [[H1 H2 H3 H4] Hnew].
  pose proof (hoare_alloctcb p Hp s (conj H1 Hnew)) as Hal.
  destruct (alloctcb_run p s H1) as (i & Hi & Hrun).
  rewrite Hrun in Hal |- *. set (s1 := mk_tracer _ _ _ _ _ _) in *. set (nt := new_tcb p _) in *.
  pose proof H2 as [L1 L2 L3 L4 L5].
  assert (Hlk : forall j u, tcbtab s1 !! j = Some u ->
            (j = i /\ u = nt) \/ (j <> i /\ (tcbtab s !! j = Some u \/ u = zero_tcb))).
  { intros j u. intros [(<- & <- & _)|[? Hu]]%list_lookup_insert_Some; [by left|right].
    split; [done|]. by apply grown_lookup. }
  assert (Hkeep : forall j u, tcbtab s !! j = Some u -> curcol u <> 0 -> tcbtab s1 !! j = Some u).
  { intros j u Hu Hc. destruct (grown_props s H1) as (_ & _ & Hg). simpl.
    rewrite list_lookup_insert_ne; [by apply Hg|]. intros ->.
    pose proof (free_slot_spec (grown_tab s)) as Hf. rewrite Hi in Hf.
    destruct Hf as (t0 & Ht0 & Hf0). rewrite (Hg _ _ Hu) in Ht0. injection Ht0 as <-.
    destruct (L4 j u Hu Hc) as [_ Ho]. by rewrite (H4 j u Hu Hf0) in Ho. }
  split; [split|split; [exact Hal|]].
  - done.
  - intros j u Hu. destruct (Hlk j u Hu) as [[_ ->]|[_ [Hu' | ->]]]; [by right|by eapply L2|by right].
  - intros j u Hu. destruct (Hlk j u Hu) as [[_ ->]|[_ [Hu' | ->]]]; [done|by eapply L3|done].
  - intros j u Hu Hc. destruct (Hlk j u Hu) as [[_ ->]|[_ [Hu' | ->]]];
      [by destruct Hc|by eapply L4|by destruct Hc].
  - intros Hb. destruct (L5 Hb) as (j & u & Hu & Hc). exists j, u. split; [by apply Hkeep|done].
  - intros j u Hu Hne. destruct (Hlk j u Hu) as [[-> _]|[_ [Hu' | ->]]]; [done| |done].
    destruct (inuse u) eqn:Hin; [by apply (H3 j)|by apply (H4 j)].
Qed.

Lemma hoare_loop_find p status :
  0 < p -> followfork opt < 2 ->
  hoare (loop_inv opt) (find_tracee oracle opt p status) (fun i => at_loop i p).
Proof.
  intros Hp Hff s Hinv. unfold find_tracee. unfold mbind at 1, M_bind at 1.
  destruct (pid2tcb_holds p s (lv_wf _ _ Hinv)) as (r & -> & Hr). destruct r as [i|]; [done|].
  destruct (negb _).
  - pose proof (hoare_loop_alloc p Hp s (conj Hinv Hr)) as Hal.
    unfold mbind at 1, M_bind at 1. destruct (alloctcb p s) as [i s1| |]; [|done..].
    destruct Hal as (Hlog & Hat & Hoth). unfold newoutf.
    assert (Hge : (followfork opt >=? 2) = false) by lia. rewrite Hge.
    set (s2 := mk_tracer (alter (set_out (Some Shared) (Some Shared) (Some Shared)) i
                 (alter (set_flags (fun f => set_flag f (attach_flags opt))) i (tcbtab s1)))
                 (nprocs s1) (printing_tcp s1) (current_tcp s1) (glb s1) (log s1)).
    assert (H2 : at_loop i p s2).
    { assert (Hts : tsame s1 s2).
      { split; [done|]. intros j. simpl. rewrite list_alter_alter_eq, list_lookup_alter.
        case_decide; [subst|done]. destruct (tcbtab s1 !! j) as [u|]; simpl; [|done].
        f_equal. exact (key_attach opt u Hopt). }
      assert (Hlk : forall j u, tcbtab s2 !! j = Some u ->
                (j = i /\ outf u = Some Shared /\ out_dump_f u = Some Shared /\ out_stack_f u = Some Shared /\
                 exists u0, tcbtab s1 !! j = Some u0 /\ curcol u = curcol u0 /\ inuse u0 = inuse u) \/
                (j <> i /\ tcbtab s1 !! j = Some u)).
      { intros j u. simpl. rewrite list_alter_alter_eq, list_lookup_alter. case_decide as Hij.
        - subst. destruct (tcbtab s1 !! j) as [u0|]; simpl; [|done]. intros [= <-]. left.
          split_and!; try done. exists u0. split_and!; try done.
          pose proof (key_attach opt u0 Hopt) as Hk0. by injection Hk0.
        - intros Hu. right. split; [congruence|done]. }
      destruct Hat as [Hwf Hh]. destruct Hh as (t & Ht & Hin & Hpt). destruct Hlog as [L1 L2 L3 L4 L5].
      split; [split|].
      - by eapply tsame_wf.
      - split; [done|..].
        + intros j u Hu. destruct (Hlk j u Hu) as [(-> & Ho & _)|[_ Hu']]; [by left|by eapply L2].
        + intros j u Hu. destruct (Hlk j u Hu) as [(-> & _ & _ & _ & u0 & Hu0 & -> & _)|[_ Hu']];
            [by eapply L3|by eapply L3].
        + intros j u Hu Hc. destruct (Hlk j u Hu) as [(-> & Ho & _ & _ & u0 & Hu0 & Hcc & _)|[_ Hu']];
            [|by eapply L4]. rewrite Hcc in Hc. destruct (L4 i u0 Hu0 Hc). by split.
        + intros Hb. destruct (L5 Hb) as (j & u & Hu & Hc). 
          destruct (tsame_tcb s2 s1 j u (tsame_sym _ _ Hts) Hu) as (u' & Hu' & _).
          exists j, u'. split; [done|]. destruct (Hlk j u' Hu') as [(-> & _ & _ & _ & u0 & Hu0 & -> & _)|[_ Hu2]];
            congruence.
      - intros j u Hu Hinu. destruct (Hlk j u Hu) as [(_ & ? & ? & ? & _)|[Hne Hu']]; [done|].
        specialize (Hoth j u Hu' Hne). by rewrite Hinu in Hoth.
      - intros j u Hu Hinu. destruct (Hlk j u Hu) as [(-> & _ & _ & _ & u0 & Hu0 & _ & Hiu)|[Hne Hu']].
        + rewrite Ht in Hu0. injection Hu0 as <-. congruence.
        + specialize (Hoth j u Hu' Hne). by rewrite Hinu in Hoth.
      - eapply tabular_holds; [exact Hts|]. by exists t. }
    unfold mbind, M_bind, upd_tcb, when, mret, M_ret. simpl. destruct (qflag opt =? 0); [|exact H2].
    eapply (hoare_at_quiet i p (err_msg ("Process " +:+ fmt_d p +:+ " attached" +:+ nl))) in H2;
      [|silent|tabs]. exact H2.
  - unfold mbind, M_bind. destruct (WIFSTOPPED status); done.
Qed.

(** ** One round *)

Lemma hoare_loop_switch i p r :
  p = r_ret r ->
  hoare (fun s => at_loop i p s /\ last_reply oracle (log s) r)
    (exec_switch oracle opt w i p (event_of (r_val r))) (fun j => at_loop j p).
Proof.
  intros Hp. unfold exec_switch. apply (hoare_bind _ (fun r s => at_loop i p s /\ r = None)).
  - intros s [Hs Hl]. unfold execve_thread. destruct (_ && _) eqn:Hev; [|done].
    apply andb_true_iff in Hev as [Hev%Z.eqb_eq Hos].
    pose proof (Hmsg (log s) r ltac:(lia) Hl Hev) as Hm. rewrite <- Hp in Hm.
    unfold mbind, M_bind, ptrace. pose proof (hoare_at_quiet i p
      (ask_kernel oracle (RPtrace PTRACE_GETEVENTMSG p 0 0)) (Silent_ask anything _ _) (Tabs_ask _ _) s Hs) as H.
    unfold ask_kernel in *. simpl in *. set (m := oracle _ _) in *.
    replace ((r_ret m <? 0) || (r_val m <=? 0) || (r_val m =? p)) with true by lia. done.
  - intros o s [Hs ->]. exact Hs.
Qed.

Lemma hoare_loop_exec_detach i p ev :
  hoare (at_loop i p) (exec_detach oracle opt w i ev) (fun _ => at_loop i p).
Proof.
  unfold exec_detach. destruct (_ =? _); [|by apply hoare_ret]. rewrite Hdet. simpl.
  eapply hoare_bind; [apply hoare_at_quiet; [silent|tabs]|intros g].
  apply (hoare_bind _ (fun _ => at_loop i p)); [by apply hoare_ret|intros ?].
  apply hoare_at_quiet; [silent|tabs].
Qed.

Lemma hoare_loop_restart op i p sig :
  hoare (handling i p) (restart_tracee oracle opt w op i sig)
        (fun fl s => fl = Continue -> loop_inv opt s).
Proof.
  unfold restart_tracee. eapply hoare_bind; [apply hoare_h_restart|intros r].
  destruct (r <? 0); [|by apply hoare_ret; intros s [[]]].
  intros s _. unfold mbind, M_bind. by destruct (cleanup oracle opt w s).
Qed.

Lemma hoare_loop_stopsig i p sig si :
  hoare (handling i p) (show_stopsig oracle opt w i sig si)
        (fun fl s => fl = Continue -> loop_inv opt s).
Proof.
  unfold show_stopsig. eapply hoare_bind; [apply hoare_h_quiet; [silent|tabs]|intros g].
  eapply hoare_bind; [apply hoare_h_quiet; [silent|tabs]|intros t].
  apply (hoare_bind _ (fun _ => handling i p)).
  { destruct (_ && _ && _); simpl; [apply hoare_say|by apply hoare_ret]. }
  intros ?. destruct si; [|destruct (use_seize opt)]; apply hoare_loop_restart.
Qed.

Lemma Silent_clearbpt' i : Silent anything (clearbpt oracle i).
Proof. by apply Silent_clearbpt. Qed.

Lemma hoare_loop_startup i p :
  hoare (handling i p) (startup_stop oracle opt w i)
        (fun ok s => ok = true -> handling i p s).
Proof.
  unfold startup_stop. eapply hoare_bind; [apply hoare_h_quiet; [silent|tabs]|intros t].
  destruct (negb _); [by apply hoare_ret|].
  eapply hoare_bind; [apply hoare_h_quiet; [silent|tabs]|intros ?].
  eapply (hoare_bind _ (fun ok s => ok = true -> handling i p s)).
  { destruct (has_flag _ _); [|by apply hoare_ret].
    eapply hoare_bind; [apply hoare_h_quiet; [apply Silent_clearbpt'|apply Tabs_frames, Frames_clearbpt']|].
    intros r. destruct (r <? 0); [|by apply hoare_ret].
    intros s _. unfold mbind, M_bind. destruct (droptcb opt i s) as [? s1| |]; [|done..].
    by destruct (cleanup oracle opt w s1). }
  intros ok. destruct ok; simpl; [|by apply hoare_ret].
  apply (hoare_pre _ (handling i p)); [by intros s H; apply H|].
  destruct (_ =? 0); [by apply hoare_ret|].
  eapply hoare_bind; [apply hoare_h_quiet; unfold ptrace; [silent|tabs]|intros r].
  destruct (_ && _); [apply hoare_die|by apply hoare_ret].
Qed.

Lemma hoare_loop_syscall i p :
  hoare (handling i p) (trace_syscall oracle opt w i) (fun _ => handling i p).
Proof. apply hoare_h_print; [by apply tri_trace_syscall|apply Frames_trace_syscall]. Qed.

Lemma hoare_loop_dispatch i p status :
  hoare (handling i p) (dispatch_stop oracle opt w i p status)
        (fun fl s => fl = Continue -> loop_inv opt s).
Proof.
  unfold dispatch_stop. eapply hoare_bind; [apply hoare_h_quiet; [silent|tabs]|intros t].
  destruct (negb _).
  { destruct (_ && _); [apply hoare_loop_stopsig|apply hoare_loop_restart]. }
  destruct (_ && _).
  { eapply hoare_bind; [apply hoare_h_quiet; [silent|tabs]|intros ?]. apply hoare_loop_restart. }
  destruct (negb _).
  { eapply hoare_bind; [apply hoare_h_quiet; unfold ptrace; [silent|tabs]|intros r].
    apply hoare_loop_stopsig. }
  eapply hoare_bind; [apply hoare_h_quiet; unfold interrupted; [silent|tabs]|intros intr].
  destruct (negb _); [by apply hoare_ret|].
  eapply hoare_bind; [apply hoare_loop_syscall|intros r].
  destruct (r <? 0); [by apply hoare_ret; intros s [[]]|apply hoare_loop_restart].
Qed.

Lemma hoare_loop_status i p status :
  hoare (handling i p) (handle_status oracle opt w i p status)
        (fun fl s => fl = Continue -> loop_inv opt s).
Proof.
  assert (Hdrop : hoare (handling i p) (_ ← droptcb opt i; mret Continue)
                    (fun fl s => fl = Continue -> loop_inv opt s)).
  { eapply hoare_bind; [eapply hoare_pre; [|apply hoare_loop_drop]; by intros s [[]]|].
    intros ?. by apply hoare_ret. }
  unfold handle_status, death_killed, death_exited.
  destruct (WIFSIGNALED status); [|destruct (WIFEXITED status); [|destruct (negb _)]].
  - apply (hoare_bind _ (fun _ => loop_inv opt)); [|intros ?; by apply hoare_ret].
    eapply hoare_bind; [apply hoare_h_quiet; [silent|tabs]|intros ?].
    eapply hoare_bind; [apply hoare_h_quiet; [silent|tabs]|intros g].
    apply (hoare_bind _ (fun _ => handling i p)).
    { destruct (_ && _); simpl; [apply hoare_say|by apply hoare_ret]. }
    intros ?. eapply hoare_pre; [|apply hoare_loop_drop]. by intros s [[]].
  - apply (hoare_bind _ (fun _ => loop_inv opt)); [|intros ?; by apply hoare_ret].
    eapply hoare_bind; [apply hoare_h_quiet; [silent|tabs]|intros ?].
    apply (hoare_bind _ (fun _ => handling i p)).
    { destruct (_ && _); simpl; [apply hoare_say|by apply hoare_ret]. }
    intros ?. eapply hoare_pre; [|apply hoare_loop_drop]. by intros s [[]].
  - eapply hoare_bind; [apply hoare_h_quiet; [silent|tabs]|intros ?]. exact Hdrop.
  - eapply hoare_bind; [apply hoare_loop_startup|intros ok]. destruct ok; simpl; [|by apply hoare_ret].
    apply (hoare_pre _ (handling i p)); [by intros s H; apply H|]. apply hoare_loop_dispatch.
Qed.

(** The reply that wait_for_stop gives is the last one. *)
Lemma wait_for_stop_last :
  hoare (fun _ => True) (wait_for_stop oracle w) (fun r s => last_reply oracle (log s) r).
Proof.
  assert (Hask : forall q o, hoare (fun _ => True) (ask_kernel oracle (RWait4 q o))
                               (fun r s => last_reply oracle (log s) r)).
  { intros q o s _. by exists (log s), q, o, []. }
  assert (Ht : forall A (c : M A), hoare (fun _ => True) c (fun _ _ => True)).
  { intros A c s _. by destruct (c s). }
  unfold wait_for_stop. eapply hoare_bind; [apply Ht|intros g]. eapply hoare_bind; [apply Hask|intros r].
  eapply (hoare_bind _ (fun r s => last_reply oracle (log s) r)).
  { destruct (_ && _ && _); [|by apply hoare_ret].
    eapply hoare_bind; [eapply hoare_pre; [|apply Ht]; done|intros ?]. apply Hask. }
  intros r1. eapply (hoare_bind _ (fun _ s => last_reply oracle (log s) r1)); [by intros s Hs|intros g1].
  destruct (_ && _ && _); [|by apply hoare_ret].
  eapply hoare_bind; [eapply hoare_pre; [|apply Hask]; done|intros r2].
  eapply (hoare_bind _ (fun _ s => last_reply oracle (log s) r2)); [|intros ?; by apply hoare_ret].
  eapply hoare_pre; [|eapply hoare_post; [|apply (hoare_waitless oracle r2 (fun _ => True) _ (fun _ _ => True))]].
  - intros s Hs. by split.
  - by intros x s [].
  - unfold perror_msg. waitless.
  - apply Ht.
Qed.

Lemma hoare_loop_wait :
  hoare (loop_inv opt) (wait_for_stop oracle w)
    (fun r s => (loop_inv opt s /\ (r_ret r <> 0 /\ is_s32 (r_ret r))) /\ last_reply oracle (log s) r).
Proof.
  intros s Hs. assert (Hq : Silent anything (wait_for_stop oracle w))
    by (unfold wait_for_stop, perror_msg; silent).
  pose proof (hoare_quiet _ Hq (Tabs_frames _ (Frames_wait_for_stop oracle w _)) s Hs) as H1.
  pose proof (hoare_wait_for_stop oracle w Hk s (lv_wf _ _ Hs)) as H2.
  pose proof (wait_for_stop_last s I) as H3.
  destruct (wait_for_stop oracle w s); [|done..]. by destruct H2.
Qed.

Lemma Waitless_find_tracee p status : Waitless (find_tracee oracle opt p status).
Proof. unfold find_tracee, pid2tcb, alloctcb, expand_tcbtab, newoutf, ptrace. waitless. Qed.
Lemma Waitless_get_regs p : Waitless (get_regs oracle p).
Proof. unfold get_regs, get_regset. waitless. Qed.

Lemma hoare_loop_iteration :
  followfork opt < 2 ->
  hoare (loop_inv opt) (iteration oracle opt w) (fun fl s => fl = Continue -> loop_inv opt s).
Proof.
  intros Hff. unfold iteration.
  eapply hoare_bind; [apply hoare_quiet; unfold interrupted; [silent|tabs]|intros intr].
  destruct (negb _); [by apply hoare_ret|].
  eapply hoare_bind; [apply hoare_loop_wait|intros r].
  destruct (r_ret r <? 0) eqn:Hneg.
  { apply (hoare_pre _ (loop_inv opt)); [by intros s [[]]|].
    destruct (_ =? EINTR); [by apply hoare_ret|]. destruct (_ =? ECHILD); [by apply hoare_ret|].
    eapply hoare_bind; [apply hoare_quiet; unfold perror_msg; [silent|tabs]|intros ?]. by apply hoare_ret. }
  intros s [[Hs [Hne Hint]] Hlast]. assert (Hp : 0 < r_ret r) by lia.
  assert (Hsl : loop_inv opt s /\ last_reply oracle (log s) r) by done. clear Hs Hlast. revert s Hsl.
  eapply hoare_bind; [apply hoare_waitless; [waitless|apply hoare_quiet; [silent|tabs]]|intros g].
  destruct (_ =? popen_pid g).
  { apply (hoare_pre _ (loop_inv opt)); [by intros s []|].
    eapply hoare_bind; [apply hoare_quiet; [silent|tabs]|intros ?]. by apply hoare_ret. }
  eapply hoare_bind; [apply hoare_waitless; [apply Waitless_find_tracee|by apply hoare_loop_find]|intros i].
  eapply hoare_bind; [apply hoare_waitless; [unfold clear_regs; waitless|apply hoare_at_quiet; unfold clear_regs; [silent|tabs]]|intros ?].
  eapply hoare_bind.
  { apply hoare_waitless.
    - destruct (WIFSTOPPED (r_val r)); [apply Waitless_get_regs|waitless].
    - apply hoare_at_quiet; unfold get_regs, get_regset; [silent|tabs]. }
  intros ?. eapply hoare_bind; [by apply hoare_loop_switch|intros j].
  eapply hoare_bind; [apply hoare_loop_exec_detach|intros ?].
  eapply (hoare_bind _ (fun _ => handling j (r_ret r))).
  { intros s Hs. split; [|done]. destruct Hs as [[H1 [L1 L2 L3 L4 L5] H3 H4] (t & Ht)].
    split; [|by exists t]. split; [by apply (tsame_wf s)|by split|exact H3|exact H4]. }
  intros ?. eapply hoare_bind; [apply hoare_h_quiet; [silent|tabs]|intros ?].
  apply hoare_loop_status.
Qed.
End rounds.

(** ** Exit status *)

Lemma droptcb_code opt i s x s' :
  droptcb opt i s = Ret x s' -> g_exit_code (glb s') = g_exit_code (glb s).
Proof.
  destruct (tcbtab s !! i) as [t|] eqn:Ht.
  - destruct (decide (pid t = 0)) as [Hp|Hp].
    + unfold droptcb, mbind, M_bind, get, tcb_of, gets. rewrite Ht. simpl. rewrite Hp. simpl.
      by intros [= _ <-].
    + destruct (droptcb_run opt i s t Ht Hp) as (evs & -> & _). by intros [= _ <-].
  - unfold droptcb, mbind, M_bind, get, tcb_of, gets. rewrite Ht. simpl. by intros [= _ <-].
Qed.

Lemma WEXITSTATUS_range status : 0 <= WEXITSTATUS status < 256.
Proof.
  unfold WEXITSTATUS. rewrite Z.shiftr_land. change (Z.shiftr 0xff00 8) with (Z.ones 8).
  rewrite Z.land_ones by lia. apply Z.mod_pos_bound. lia.
Qed.
Lemma WTERMSIG_range status : 0 <= WTERMSIG status < 128.
Proof.
  unfold WTERMSIG. change 0x7f with (Z.ones 7). rewrite Z.land_ones by lia.
  apply Z.mod_pos_bound. lia.
Qed.

Lemma mimic_killed status :
  mimic (Z.lor 0x100 (WTERMSIG status)) = (Some (WTERMSIG status), WTERMSIG status + 128).
Proof.
  pose proof (WTERMSIG_range status) as Hr. set (n := WTERMSIG status) in *.
  assert (Hl : Z.lor 256 n = 256 + n) by (apply (lor_add 8 1 n); lia).
  unfold mimic. change 0x100 with 256. rewrite Hl.
  replace (256 + n >? 255) with true by lia.
  assert (Ha : Z.land (256 + n) 255 = n).
  { change 255 with (Z.ones 8). rewrite Z.land_ones by lia. change (2 ^ 8) with 256.
    rewrite <- (Z.mod_unique (256 + n) 256 1 n); lia. }
  by rewrite Ha.
Qed.

(** The exit code that the death of a process leaves. *)
Definition code_after (opt : options) (p status old : Z) : Z :=
  if p =? strace_child opt then
    if WIFSIGNALED status then Z.lor 0x100 (WTERMSIG status) else WEXITSTATUS status
  else old.

Definition code_is (v : Z) (s : tracer) : Prop := g_exit_code (glb s) = v.

Lemma hoare_code_frames {A} m v (c : M A) : Frames m c -> hoare (code_is v) c (fun _ => code_is v).
Proof.
  intros Hc s Hs. specialize (Hc s). destruct (c s); [|done..]. unfold code_is in *.
  by rewrite (fr_code _ _ _ Hc).
Qed.
Lemma hoare_code_drop opt i v : hoare (code_is v) (droptcb opt i) (fun _ => code_is v).
Proof.
  intros s Hs. destruct (droptcb opt i s) eqn:E; [|done..]. apply droptcb_code in E.
  unfold code_is in *. congruence.
Qed.
(** The assignment of exit_code. *)
Lemma hoare_code_set (b : bool) v old :
  hoare (code_is old) (when b (modify_glb (set_exit_code v))) (fun _ => code_is (if b then v else old)).
Proof. intros s Hs. by destruct b. Qed.

Lemma hoare_death oracle opt w i p status old :
  WIFSIGNALED status || WIFEXITED status = true ->
  hoare (code_is old) (handle_status oracle opt w i p status)
    (fun fl s => fl = Continue /\ code_is (code_after opt p status old) s).
Proof.
  intros Hdead. unfold handle_status, code_after, death_killed, death_exited.
  destruct (WIFSIGNALED status); [|destruct (WIFEXITED status); [|done]].
  - eapply hoare_bind; [|intros ?; apply hoare_ret; intros s Hs; exact (conj eq_refl Hs)].
    eapply hoare_bind; [apply hoare_code_set|intros ?].
    eapply hoare_bind; [apply (hoare_code_frames 0); frames|intros g].
    eapply hoare_bind; [apply (hoare_code_frames 0)|intros ?; apply hoare_code_drop].
    destruct (_ && _); [apply Frames_message|apply Frames_ret].
  - eapply hoare_bind; [|intros ?; apply hoare_ret; intros s Hs; exact (conj eq_refl Hs)].
    eapply hoare_bind; [apply hoare_code_set|intros ?].
    eapply hoare_bind; [apply (hoare_code_frames 0)|intros ?; apply hoare_code_drop].
    destruct (_ && _); [apply Frames_message|apply Frames_ret].
Qed.

(** ** Properties *)

(** C2: the table invariant of the event loop.  In every state that the loop of
    trace() reaches, whatever the kernel reports (new children, deaths, threads
    whose execve takes over the leader's pid, -b execve), every block in use
    has its own positive pid, free blocks have none, nprocs is the number of
    blocks in use, and looking a pid up never finds two processes. *)
Theorem reachable_tables_well_formed oracle opt w s0 s :
  kernel_ok oracle -> wf_options opt -> wf_tab s0 -> rtc (step oracle opt w) s0 s ->
  wf_tab s /\ nprocs s = Z.of_nat (size (abs (tcbtab s))).
Proof.
  intros Hk Ho H0 Hr. cut (wf_tab s); [intros H; split; [done|by apply size_abs]|].
  induction Hr as [s|s s1 s2 Hs _ IH]; [done|]. apply IH. destruct Hs as [s s1 _ Hrun].
  pose proof (hoare_iteration oracle opt w Hk Ho s H0) as H. by rewrite Hrun in H.
Qed.

(** A kernel that reports that process [p] ended with [status]. *)
Definition reporting (p status : Z) : list event -> request -> reply := fun _ r =>
  let answer ret v :=
    mk_reply ret 0 v tv_zero (r_regs demo_reply) (r_si demo_reply) None in
  match r with
  | RWait4 _ _ => answer p status
  | RPtrace op q _ _ =>
      if (op =? PTRACE_GETEVENTMSG) && (s32 q =? q) then answer 0 q else answer 0 0
  | _ => answer 0 0
  end.

Lemma reporting_ok p status : is_s32 p -> p <> 0 -> kernel_ok (reporting p status).
Proof.
  intros Hp Hne. split; [by intros; split|]. intros h q. simpl.
  destruct (Z.eqb_spec (s32 q) q) as [E|E]; [|done]. simpl. rewrite <- E. apply s32_range.
Qed.

(** One round from demo_tracer, in which process 10 is found to have exited. *)
Lemma demo_step :
  exists s, step (reporting 10 0) demo_options quiet_world demo_tracer s /\ nprocs s = 1.
Proof.
  destruct (iteration (reporting 10 0) demo_options quiet_world demo_tracer) as [fl s| |] eqn:E;
    [|vm_compute in E; discriminate E..].
  exists s. assert (Hf : fl = Continue /\ nprocs s = 1).
  { vm_compute in E. injection E as <- <-. split; reflexivity. }
  destruct Hf as [-> Hn]. split; [|done]. by constructor.
Qed.

Lemma reachable_tables_well_formed_witness :
  exists s, nprocs s = 1 /\ wf_tab s /\ nprocs s = Z.of_nat (size (abs (tcbtab s))).
Proof.
  destruct demo_step as (s & Hs & Hn). exists s. split; [exact Hn|].
  apply (reachable_tables_well_formed (reporting 10 0) demo_options quiet_world demo_tracer s).
  - apply reporting_ok; [unfold is_s32; lia|discriminate].
  - right. reflexivity.
  - apply demo_wf_tab.
  - apply rtc_once. exact Hs.
Defined.

Lemma reached_loop_inv oracle opt w s0 s :
  kernel_ok oracle -> wf_options opt -> detach_on_execve opt = false -> followfork opt < 2 ->
  leaders_exec oracle opt ->
  loop_inv opt s0 -> rtc (step oracle opt w) s0 s -> loop_inv opt s.
Proof.
  intros Hk Ho Hd Hff Hm H0 Hr.
  induction Hr as [s|s s1 s2 Hs _ IH]; [done|]. apply IH. destruct Hs as [s s1 _ Hrun].
  pose proof (hoare_loop_iteration oracle opt w Hk Ho Hm Hd Hff s H0) as H. rewrite Hrun in H.
  by apply H.
Qed.

Lemma loop_inv_one_line opt s :
  loop_inv opt s -> at_bol (text_of Shared (log s)) = false ->
  exists i t, printing_tcp s = Some i /\ tcbtab s !! i = Some t /\ curcol t <> 0 /\
    forall j u, tcbtab s !! j = Some u -> curcol u <> 0 -> j = i.
Proof.
  intros H Hb. destruct (lv_log _ _ H) as [_ _ _ L4 L5].
  destruct (L5 Hb) as (i & t & Ht & Hc). destruct (L4 i t Ht Hc) as [Hp _].
  exists i, t. split_and!; [done..|]. intros j u Hu Hcu. destruct (L4 j u Hu Hcu). congruence.
Qed.

(** C1: the line discipline of the event loop.  When all processes share one log
    (fewer than two -f), no thread but a leader calls execve and -b execve is
    off, every state that the loop reaches from one with its invariant has this
    invariant, and at most one unfinished line, that of printing_tcp, however
    the stops of the processes interleave.  An execve by another thread can
    join two lines: exec_switch_joins_lines below. *)
Theorem reachable_logs_in_order oracle opt w s0 s :
  kernel_ok oracle -> wf_options opt -> detach_on_execve opt = false -> followfork opt < 2 ->
  leaders_exec oracle opt ->
  loop_inv opt s0 -> rtc (step oracle opt w) s0 s ->
  loop_inv opt s /\
  (at_bol (text_of Shared (log s)) = false ->
   exists i t, printing_tcp s = Some i /\ tcbtab s !! i = Some t /\ curcol t <> 0 /\
     forall j u, tcbtab s !! j = Some u -> curcol u <> 0 -> j = i).
Proof.
  intros Hk Ho Hd Hff Hm H0 Hr. pose proof (reached_loop_inv oracle opt w s0 s Hk Ho Hd Hff Hm H0 Hr) as H.
  split; [done|by apply (loop_inv_one_line opt)].
Qed.

Lemma demo_loop_inv : loop_inv demo_options demo_tracer.
Proof.
  split; [apply demo_wf_tab|apply demo_log_inv| |];
    intros [|[|i]] t Ht Hin; simpl in Ht; simplify_eq; done.
Qed.

Lemma reachable_logs_in_order_witness :
  exists s, nprocs s = 1 /\ loop_inv demo_options s.
Proof.
  destruct demo_step as (s & Hs & Hn). exists s. split; [exact Hn|].
  apply (reachable_logs_in_order (reporting 10 0) demo_options quiet_world demo_tracer s).
  - apply reporting_ok; [unfold is_s32; lia|discriminate].
  - right. reflexivity.
  - reflexivity.
  - reflexivity.
  - intros l r _ (h & q & o & h' & _ & _ & ->) _. right. right. reflexivity.
  - apply demo_loop_inv.
  - apply rtc_once. exact Hs.
Defined.

(** C6: every stop is answered, in the one way that is right for it.  When the
    loop goes on after a stop of process [p], it has sent exactly one restarting
    request, to [p], or none.  [s0] is the state once a first stop has been set
    up.  A group stop (reported as one, or a signal stop of which the kernel
    has no information) is answered with PTRACE_LISTEN, or on old kernels with
    PTRACE_SYSCALL and its signal; a signal that the kernel does have
    information of with PTRACE_SYSCALL and this signal; the SIGSTOP of an
    attach, once, and every other event with PTRACE_SYSCALL and no signal; so is
    a system call that trace_syscall has handled; and when it has found the
    process gone, nothing is sent.  [stop_answer] is a function of the stop
    (Loop.stop_answer_unique). *)
Theorem stops_are_answered oracle opt w i p status t s s' :
  tcbtab s !! i = Some t -> pid t = p -> WIFSTOPPED status = true ->
  handle_status oracle opt w i p status s = Ret Continue s' ->
  let awaited := has_flag (flags t) TCB_IGNORE_ONE_SIGSTOP in
  exists s0 ans t',
    startup_stop oracle opt w i s = Ret true s0 /\
    stop_answer oracle opt w i awaited p status s0 s' ans /\
    restarts (log s') = restarts (log s) ++ ans /\
    tcbtab s' !! i = Some t' /\ pid t' = p /\
    has_flag (flags t') TCB_IGNORE_ONE_SIGSTOP = awaited && negb (attach_stop awaited status).
Proof.
  intros Ht Hp Hst Hrun awaited.
  pose proof (status_answer oracle opt w i p status awaited (restarts (log s)) s Hst) as H.
  rewrite Hrun in H. destruct H as (s0 & Hs0 & H); [split; [by exists t|done]|].
  destruct (H eq_refl) as (ans & Ha & (t' & Ht' & Hp' & Hf) & Hl). by exists s0, ans, t'.
Qed.

(** Process 10 receives signal 12. *)
Lemma stops_are_answered_witness :
  match handle_status (reporting 10 0) demo_options quiet_world 0 10 (12 * 256 + 0x7f) demo_tracer with
  | Ret Continue s' => restarts (log s') = [(PTRACE_SYSCALL, 10, 12)]
  | _ => False
  end.
Proof.
  destruct (handle_status _ _ _ _ _ _ _) as [fl s| |] eqn:E; [|vm_compute in E; discriminate E..].
  destruct fl; [|vm_compute in E; discriminate E].
  destruct (stops_are_answered (reporting 10 0) demo_options quiet_world 0 10 (12 * 256 + 0x7f)
              (demo_tcb 10 5) demo_tracer s eq_refl eq_refl eq_refl E) as (s0 & ans & t' & _ & Ha & Hl & _).
  rewrite Hl. destruct Ha as [H _|H _|H|_ _ _ _|_ _ _ H|? ? ? _ _ H _ _ _|? ? _ _ H _ _ _]; [| | |reflexivity|..].
  - vm_compute in H. discriminate H.
  - destruct H. reflexivity.
  - vm_compute in H. discriminate H.
  - vm_compute in H. discriminate H.
  - vm_compute in H. discriminate H.
  - vm_compute in H. discriminate H.
Defined.

(** C26: the tracer ends like the traced program.  After the exit of the
    program it started, the exit code recorded makes main return the program's
    exit status; after its death by a signal, main raises the same signal and,
    should it survive, returns 128 plus the signal; the deaths of other
    processes do not matter. *)
Theorem exit_status_is_mimicked oracle opt w i p status s fl s' :
  WIFSIGNALED status || WIFEXITED status = true ->
  handle_status oracle opt w i p status s = Ret fl s' ->
  if p =? strace_child opt then
    mimic (g_exit_code (glb s')) =
      if WIFSIGNALED status then (Some (WTERMSIG status), WTERMSIG status + 128)
      else (None, WEXITSTATUS status)
  else g_exit_code (glb s') = g_exit_code (glb s).
Proof.
  intros Hdead Hrun.
  pose proof (hoare_death oracle opt w i p status _ Hdead s eq_refl) as H. rewrite Hrun in H.
  destruct H as [_ ->]. unfold code_after. destruct (p =? strace_child opt); [|done].
  destruct (WIFSIGNALED status); [apply mimic_killed|]. unfold mimic.
  pose proof (WEXITSTATUS_range status). by replace (WEXITSTATUS status >? 0xff) with false by lia.
Qed.

(** The program, process 10, is killed by signal 9. *)
Lemma exit_status_is_mimicked_witness :
  let opt := mk_options 1 0 0 0 false false false true (Some "log") 40 0 (128 + SIGTRAP) 4 false false
               false false true 0x30000 10 9 0 32 SortTime in
  match handle_status (reporting 10 9) opt quiet_world 0 10 9 demo_tracer with
  | Ret _ s' => mimic (g_exit_code (glb s')) = (Some 9, 137)
  | _ => False
  end.
Proof.
  intros opt. destruct (handle_status _ _ _ _ _ _ _) as [fl s| |] eqn:E;
    [|vm_compute in E; discriminate E..].
  exact (exit_status_is_mimicked (reporting 10 9) opt quiet_world 0 10 9 demo_tracer fl s eq_refl E).
Defined.

(** A threaded execve can join two lines.  Process 10, a leader, is in the
    middle of the line of a system call when thread 11's execve makes 11 take
    over pid 10: the leader's tcb is dropped with its column already given away,
    so neither " <detached ...>" nor " <unfinished ...>" ends its line, and the
    next message continues it. *)
Theorem exec_switch_joins_lines :
  let thread_10 := fun (_ : list event) (_ : request) =>
        mk_reply 0 0 11 tv_zero (r_regs demo_reply) (r_si demo_reply) None in
  match exec_switch thread_10 demo_options quiet_world 0 10 PTRACE_EVENT_EXEC demo_tracer with
  | Ret i s' =>
      i = 1%nat /\ text_of Shared (log demo_tracer) = "10    read(" /\
      text_of Shared (log s') =
        "10    read(10    +++ superseded by execve in pid 11 +++" +:+ nl
  | _ => False
  end.
Proof. vm_compute. repeat split. Qed.
