(* ===== verification/Started.v ===== *)
(** * What start-up leaves behind

    The state that init hands to the event loop satisfies the invariants of
    Rounds.v.  [starting] is the invariant of start-up: a slot is free, waits to
    be attached, or is attached with its output open; the attached processes
    are distinct, although -p may name a process twice. *)

From stdpp Require Import gmap.
From S2P Require Import Prelude Timeval Xlat Quote Tracee Decode Io Options Signal Status Qual Mmap Count.
From S2P Require Import Tcb Regs Log Table Pathtrace Syscall Frame Line Stops Trace Init Startup Loop Rounds.
Local Open Scope string_scope.
Local Open Scope list_scope.
Local Open Scope Z_scope.

(** ** Computations that leave the table alone *)

Definition Emits (P : event -> Prop) {A} (c : M A) : Prop := forall s,
  match c s with
  | Ret _ s' => tcbtab s' = tcbtab s /\ nprocs s' = nprocs s /\ printing_tcp s' = printing_tcp s /\
                exists evs, log s' = log s ++ evs /\ Forall P evs
  | _ => True
  end.

Section emits.
Context (P : event -> Prop).

Lemma Emits_ret {A} (x : A) : Emits P (mret x).
Proof. intros s. split_and!; try done. exists []. by rewrite app_nil_r. Qed.
Lemma Emits_bind {A B} (c : M A) (k : A -> M B) :
  Emits P c -> (forall x, Emits P (k x)) -> Emits P (c ≫= k).
Proof.
  intros Hc Hk s. unfold mbind, M_bind. specialize (Hc s). destruct (c s) as [x s1| |]; [|done..].
  destruct Hc as (H1 & H2 & H3 & evs & H4 & H5). specialize (Hk x s1).
  destruct (k x s1) as [y s2| |]; [|done..]. destruct Hk as (K1 & K2 & K3 & evs' & K4 & K5).
  split_and!; [congruence..|]. exists (evs ++ evs'). rewrite K4, H4, app_assoc. split; [done|].
  by apply Forall_app.
Qed.
Lemma Emits_gets {A} (f : tracer -> A) : Emits P (gets f).
Proof. intros s. split_and!; try done. exists []. by rewrite app_nil_r. Qed.
Lemma Emits_get : Emits P get.
Proof. apply (Emits_gets id). Qed.
Lemma Emits_exit {A} n : Emits P (exit_ n : M A).
Proof. done. Qed.
Lemma Emits_die {A} : Emits P (die : M A).
Proof. done. Qed.
Lemma Emits_die_msg {A} t : Emits P (die_msg t : M A).
Proof. done. Qed.
Lemma Emits_modify f : Emits P (modify_glb f).
Proof. intros s. split_and!; try done. exists []. by rewrite app_nil_r. Qed.
Lemma Emits_emit e : P e -> Emits P (emit e).
Proof. intros He s. split_and!; try done. exists [e]. split; [done|by repeat constructor]. Qed.
Lemma Emits_ask oracle r : P (EReq r) -> Emits P (ask_kernel oracle r).
Proof. intros He s. split_and!; try done. exists [EReq r]. split; [done|by repeat constructor]. Qed.
Lemma Emits_when b c : Emits P c -> Emits P (when b c).
Proof. intros Hc. unfold when. destruct b; [done|apply Emits_ret]. Qed.
End emits.

Create HintDb emits.
#[export] Hint Resolve Emits_ret Emits_gets Emits_get Emits_exit Emits_die Emits_die_msg Emits_modify : emits.
Ltac emits_step :=
  lazymatch goal with
  | |- forall _, _ => intro
  | |- Emits _ (_ ≫= _) => apply Emits_bind
  | |- Emits _ (when _ _) => apply Emits_when
  | |- Emits _ (err_msg _) => apply Emits_emit; exact I
  | |- Emits _ (ask_kernel _ _) => apply Emits_ask; exact I
  | |- Emits _ (match ?x with _ => _ end) => destruct x
  | |- Emits _ (let _ := _ in _) => cbv zeta
  end.
Ltac emits := repeat first [ solve [auto with emits nocore] | progress emits_step ].

(** No text in a log; and no wait that could end a process either. *)
Definition calm (e : event) : Prop := match e with EWrite _ _ => False | _ => True end.
Definition unwaited (e : event) : Prop :=
  match e with
  | EWrite _ _ | EReq (RWait4 _ _) => False
  | EReq (RPtrace op _ _ _) => op <> PTRACE_DETACH
  | _ => True
  end.
Lemma unwaited_calm e : unwaited e -> calm e.
Proof. by destruct e. Qed.

Lemma text_of_calm f l : Forall calm l -> text_of f l = "".
Proof. induction 1 as [|e l He _ IH]; [done|]. by destruct e. Qed.

(** ** The invariant *)

Definition att (t : tcb) : bool := has_flag (flags t) TCB_ATTACHED.
Definition waiting (t : tcb) : Prop := inuse t = true /\ att t = false.

(** [ff] is the number of -f; [HP] is what is known of an attached process. *)
Section starting.
Context (ff : Z) (HP : list event -> Z -> Prop).

(** The output of a process: the shared log, or under -ff files of its own; the
    byte dump and the stack traces may fail to open there. *)
Definition own_out (t : tcb) : stream := if ff <? 2 then Shared else PidFile (pid t).
Definition opened_out (t : tcb) : Prop :=
  outf t = Some (own_out t) /\
  (out_dump_f t = Some (own_out t) \/ 2 <= ff /\ out_dump_f t = None) /\
  (out_stack_f t = Some (own_out t) \/ 2 <= ff /\ out_stack_f t = None).

Inductive slot_ok : tcb -> Prop :=
  | slot_free : slot_ok zero_tcb
  | slot_waiting t : waiting t -> 0 < pid t -> curcol t = 0 -> outf t = None -> slot_ok t
  | slot_attached t : inuse t = true -> att t = true -> 0 < pid t -> curcol t = 0 -> opened_out t ->
      slot_ok t.

Record starting (s : tracer) : Prop := {
  su_size : (0 < length (tcbtab s))%nat;
  su_nprocs : nprocs s = Z.of_nat (length (used (tcbtab s)));
  su_slots i t : tcbtab s !! i = Some t -> slot_ok t;
  su_log f : text_of f (log s) = "";
  su_print : printing_tcp s = None;
  su_hist i t : tcbtab s !! i = Some t -> att t = true -> HP (log s) (pid t);
  su_nodup i j t u : tcbtab s !! i = Some t -> tcbtab s !! j = Some u ->
    att t = true -> att u = true -> pid t = pid u -> i = j
}.

Lemma att_inuse t : slot_ok t -> att t = true -> inuse t = true.
Proof. intros [| u [Hu _] |] Ha; done. Qed.

(** No slot waits that did not wait before. *)
Definition settles (s s' : tracer) : Prop := forall i t',
  tcbtab s' !! i = Some t' -> waiting t' -> exists t, tcbtab s !! i = Some t /\ waiting t.

Lemma settles_refl s : settles s s.
Proof. intros i t. eauto. Qed.
Lemma settles_refl_tab s s' : tcbtab s' = tcbtab s -> settles s s'.
Proof. intros H i t. rewrite H. eauto. Qed.
Lemma settles_trans s1 s2 s3 : settles s1 s2 -> settles s2 s3 -> settles s1 s3.
Proof. intros H1 H2 i t Ht Hw. destruct (H2 i t Ht Hw) as (u & Hu & Hwu). by eapply H1. Qed.

Lemma starting_log P s s' evs :
  (forall l p, HP l p -> HP (l ++ evs) p) -> Forall P evs -> (forall e, P e -> calm e) ->
  starting s -> tcbtab s' = tcbtab s -> nprocs s' = nprocs s -> printing_tcp s' = printing_tcp s ->
  log s' = log s ++ evs -> starting s'.
Proof.
  intros Hst HP' Hcalm [H1 H2 H3 H4 H5 H6 H7] Ht Hn Hp Hl. split; rewrite ?Ht, ?Hn, ?Hp, ?Hl; try done.
  - intros f. rewrite text_of_app, H4. apply text_of_calm. eapply Forall_impl; [exact HP'|done].
  - intros i t Hi Ha. eapply Hst, H6; eauto.
Qed.

Lemma hoare_emits {A} P (c : M A) :
  Emits P c -> (forall e, P e -> calm e) -> (forall l p evs, Forall P evs -> HP l p -> HP (l ++ evs) p) ->
  hoare starting c (fun _ => starting).
Proof.
  intros Hc Hcalm Hst s Hs. specialize (Hc s). destruct (c s) as [x s'| |]; [|done..].
  destruct Hc as (H1 & H2 & H3 & evs & H4 & H5). eapply (starting_log P s s' evs); eauto.
Qed.
End starting.

(** ** Blocks that come and go *)

Lemma inuse_att t p : waiting (new_tcb p t).
Proof. done. Qed.

Section blocks.
Context (ff : Z) (HP : list event -> Z -> Prop).
Abbreviation starting := (starting ff HP).

(** alloctcb finds a slot; the new process waits. *)
Lemma starting_alloc p s :
  starting s -> 0 < p ->
  exists i s', alloctcb p s = Ret i s' /\ starting s' /\ log s' = log s /\
    tcbtab s' !! i = Some (new_tcb p (current_personality (glb s))) /\
    (forall j t, j <> i -> tcbtab s' !! j = Some t -> inuse t = true -> tcbtab s !! j = Some t) /\
    (forall j t, tcbtab s !! j = Some t -> inuse t = true -> j <> i /\ tcbtab s' !! j = Some t).
Proof.
  intros [H1 H2 H3 H4 H5 H6 H7] Hp.
  assert (Hfree : exists i, free_slot (grown_tab s) = Some i).
  { pose proof (free_slot_spec (grown_tab s)) as H.
    destruct (free_slot (grown_tab s)) as [i|]; [by eexists|exfalso].
    apply (f_equal length) in H. unfold grown_tab, tcbtabsize in *.
    destruct (Z.eqb_spec (nprocs s) (Z.of_nat (length (tcbtab s)))) as [E|E]; [|lia].
    rewrite used_app, used_replicate_zero, app_nil_r, length_app, length_replicate in H. lia. }
  destruct Hfree as [i Hi]. set (nt := new_tcb p (current_personality (glb s))).
  exists i, (mk_tracer (<[i := nt]> (grown_tab s)) (nprocs s + 1) (printing_tcp s) (current_tcp s) (glb s)
              (log s)).
  pose proof (free_slot_spec (grown_tab s)) as Hspec. rewrite Hi in Hspec.
  destruct Hspec as (t0 & Ht0 & Hf0).
  assert (Hlk : forall j u, <[i := nt]> (grown_tab s) !! j = Some u -> (j = i /\ u = nt) \/
            (j <> i /\ (tcbtab s !! j = Some u \/ u = zero_tcb))).
  { intros j u [(<- & <- & _)|[? Hu]]%list_lookup_insert_Some; [by left|right].
    split; [done|]. by apply grown_lookup. }
  assert (Hlen : (length (tcbtab s) <= length (grown_tab s))%nat).
  { unfold grown_tab. destruct (_ =? _); [rewrite length_app; lia|done]. }
  assert (Hused : length (used (grown_tab s)) = length (used (tcbtab s))).
  { unfold grown_tab. destruct (_ =? _); [|done]. by rewrite used_app, used_replicate_zero, app_nil_r. }
  split_and!.
  - unfold alloctcb, mbind, M_bind, get, when, expand_tcbtab. unfold grown_tab in *.
    destruct (_ =? _); unfold put_tab, mret, M_ret, mbind, M_bind, get; simpl; by rewrite Hi.
  - split; simpl; try done.
    + rewrite length_insert. lia.
    + pose proof (length_used_alter i t0 nt _ Ht0) as H. rewrite Hf0 in H.
      change (inuse nt) with true in H. rewrite H, Hused. lia.
    + intros j u Hu. destruct (Hlk j u Hu) as [[_ ->]|[_ [Hu' | ->]]].
      * by apply slot_waiting.
      * by eapply H3.
      * apply slot_free.
    + intros j u Hu Ha. destruct (Hlk j u Hu) as [[_ ->]|[_ [Hu' | ->]]]; [done|by eapply H6|done].
    + intros j k u v Hu Hv Hau Hav He.
      destruct (Hlk j u Hu) as [[-> ->]|[Hj [Hu' | ->]]], (Hlk k v Hv) as [[-> ->]|[Hk [Hv' | ->]]];
        try done. by eapply H7.
  - done.
  - simpl. apply list_lookup_insert_eq. by apply lookup_lt_Some in Ht0.
  - intros j t Hne Ht Hw. simpl in Ht. destruct (Hlk j t Ht) as [[? _]|[_ [Ht' | ->]]]; [done|done|].
    done.
  - intros j t Ht Hin. assert (Hg : grown_tab s !! j = Some t).
    { unfold grown_tab. destruct (_ =? _); [|done]. apply lookup_app_Some. by left. }
    assert (Hne : j <> i) by (intros ->; rewrite Ht0 in Hg; injection Hg as ->; congruence).
    split; [done|]. simpl. by rewrite list_lookup_insert_ne.
Qed.

(** droptcb of a process that has printed nothing writes nothing. *)
Lemma droptcb_idle opt i s t :
  tcbtab s !! i = Some t -> pid t <> 0 -> curcol t = 0 -> printing_tcp s = None ->
  exists evs, Forall unwaited evs /\ droptcb opt i s =
    Ret tt (mk_tracer (alter (fun _ => zero_tcb) i (tcbtab s)) (nprocs s - 1) None
              (if bool_decide (current_tcp s = Some i) then None else current_tcp s)
              (glb s) (log s ++ evs)).
Proof.
  intros Ht Hp Hc Hpr. unfold droptcb, mbind, M_bind, get, tcb_of, gets. rewrite Ht. simpl.
  rewrite (proj2 (Z.eqb_neq _ _) Hp), Hc, Hpr.
  destruct (outf t) as [f|]; [destruct (followfork opt >=? 2)|].
  - exists [EClose f]. split; [by repeat constructor|]. simpl. by case_bool_decide.
  - exists []. split; [constructor|]. rewrite app_nil_r. simpl. by case_bool_decide.
  - exists []. split; [constructor|]. rewrite app_nil_r. simpl. by case_bool_decide.
Qed.

Lemma starting_drop opt i t s :
  starting s -> tcbtab s !! i = Some t -> inuse t = true ->
  (forall l p evs, Forall unwaited evs -> HP l p -> HP (l ++ evs) p) ->
  exists s', droptcb opt i s = Ret tt s' /\ starting s' /\ settles s s' /\
    tcbtab s' !! i = Some zero_tcb.
Proof.
  intros [H1 H2 H3 H4 H5 H6 H7] Ht Hin Hst.
  assert (Hp : 0 < pid t /\ curcol t = 0) by (destruct (H3 i t Ht); done). destruct Hp as [Hp Hc].
  destruct (droptcb_idle opt i s t Ht ltac:(lia) Hc H5) as (evs & Hevs & Hrun). rewrite Hrun.
  eexists. split; [done|].
  assert (Hlk : forall j u, alter (fun _ => zero_tcb) i (tcbtab s) !! j = Some u ->
            u = zero_tcb \/ (j <> i /\ tcbtab s !! j = Some u)).
  { intros j u. rewrite list_lookup_alter. destruct (decide (i = j)) as [<-|E]; [|intros Hu; right; split; congruence].
    rewrite Ht. simpl. intros [= <-]. by left. }
  split_and!.
  - split; simpl; try done.
    + by rewrite length_alter.
    + pose proof (length_used_alter i t zero_tcb _ Ht) as H. rewrite Hin, inuse_zero in H.
      rewrite list_insert_alter in H. lia.
    + intros j u Hu. destruct (Hlk j u Hu) as [-> | [_ Hu']]; [apply slot_free|by eapply H3].
    + intros f. rewrite text_of_app, H4. apply text_of_calm. eapply Forall_impl; [exact Hevs|apply unwaited_calm].
    + intros j u Hu Ha. destruct (Hlk j u Hu) as [-> | [_ Hu']]; [done|]. eapply Hst, H6; eauto.
    + intros j k u v Hu Hv Hau Hav He.
      destruct (Hlk j u Hu) as [-> | [_ Hu']], (Hlk k v Hv) as [-> | [_ Hv']]; try done. by eapply H7.
  - intros j u Hu Hw. simpl in Hu. destruct (Hlk j u Hu) as [-> | [_ Hu']]; [by destruct Hw|eauto].
  - simpl. by rewrite list_lookup_alter, decide_True, Ht.
Qed.
End blocks.

(** ** Attaching *)

Section attaching.
Context (oracle : list event -> request -> reply) (ff : Z) (HP : list event -> Z -> Prop).
Context (Hst : forall l p evs, Forall unwaited evs -> HP l p -> HP (l ++ evs) p).
Abbreviation starting := (starting ff HP).

Lemma alter_insert {A} (f : A -> A) (i : nat) (l : list A) t : l !! i = Some t -> alter f i l = <[i := f t]> l.
Proof.
  revert i. induction l as [|x l IH]; intros [|i] H; simpl in *; [done..|by injection H as ->|].
  f_equal. by apply IH.
Qed.

(** What [attached] makes of the slot. *)
Lemma attached_run opt i fl s t :
  followfork opt = ff -> tcbtab s !! i = Some t -> inuse t = true ->
  match attached oracle opt i fl s with
  | Ret _ s' => exists t' evs, tcbtab s' = <[i := t']> (tcbtab s) /\ nprocs s' = nprocs s /\
      printing_tcp s' = printing_tcp s /\ log s' = log s ++ evs /\ Forall unwaited evs /\
      pid t' = pid t /\ curcol t' = curcol t /\ inuse t' = true /\ att t' = true /\ opened_out ff t'
  | _ => True
  end.
Proof.
  intros Hff Ht Hin. unfold attached, mbind at 1, M_bind at 1, upd_tcb. set (g := set_flags _).
  assert (Hg : pid (g t) = pid t /\ curcol (g t) = curcol t /\ inuse (g t) = true /\ att (g t) = true).
  { do 2 (split; [done|]). split; unfold inuse, att, g; simpl.
    - unfold inuse, has_flag in Hin. apply negb_true_iff, Z.eqb_neq in Hin.
      unfold has_flag. apply negb_true_iff, Z.eqb_neq. intros H0. apply Hin.
      unfold set_flag in H0. rewrite Z.land_lor_distr_l in H0. by apply Z.lor_eq_0_iff in H0 as [? _].
    - apply has_set_sub; [done|]. apply Z.bits_inj'. intros n Hn.
      rewrite Z.land_spec, !Z.lor_spec.
      destruct (Z.testbit TCB_ATTACHED n); rewrite ?orb_true_r, ?andb_true_l, ?andb_false_r; done. }
  clearbody g. destruct Hg as (Hp & Hc & Hi & Ha).
  unfold newoutf, mbind, M_bind, upd_tcb. rewrite Hff. simpl.
  rewrite (alter_insert _ _ _ _ Ht).
  assert (Hi1 : forall x, (<[i := x]> (tcbtab s)) !! i = Some x).
  { intros x. apply list_lookup_insert_eq. by apply lookup_lt_Some in Ht. }
  rewrite (alter_insert _ _ _ _ (Hi1 (g t))), list_insert_insert_eq.
  destruct (Z.geb_spec ff 2) as [H2|H2].
  - unfold tcb_of, gets, ask_kernel, emit. simpl. rewrite Hi1. simpl.
    destruct (r_ret _ <? 0); [done|]. simpl.
    rewrite (alter_insert _ _ _ _ (Hi1 _)), list_insert_insert_eq.
    eexists. exists (EReq ∘ flip ROpen (PidFile (pid (g t))) <$> [0%nat; 1%nat; 2%nat]).
    split; [reflexivity|]. split_and!; try done.
    + by rewrite <- !app_assoc.
    + by repeat constructor.
    + unfold opened_out, own_out. cbn. rewrite (proj2 (Z.ltb_ge ff 2)) by lia.
      split; [done|]. split; (destruct (_ <? 0); [by right|by left]).
  - eexists _, []. split_and!; try done; [by rewrite app_nil_r|].
    unfold opened_out, own_out. cbn. rewrite (proj2 (Z.ltb_lt ff 2)) by lia. split; [done|]. split; by left.
Qed.

(** A waiting process is attached. *)
Lemma starting_attached opt i fl s t :
  followfork opt = ff -> starting s -> tcbtab s !! i = Some t -> waiting t ->
  HP (log s) (pid t) -> (forall j u, tcbtab s !! j = Some u -> att u = true -> pid u <> pid t) ->
  match attached oracle opt i fl s with
  | Ret _ s' => starting s' /\ settles s s' /\
      (exists t', tcbtab s' !! i = Some t' /\ inuse t' = true /\ att t' = true /\ pid t' = pid t) /\
      (forall j u, j <> i -> tcbtab s !! j = Some u -> tcbtab s' !! j = Some u)
  | _ => True
  end.
Proof.
  intros Hff Hs Ht [Hin Hna] Hhp Hother. pose proof Hs as [H1 H2 H3 H4 H5 H6 H7].
  pose proof (attached_run opt i fl s t Hff Ht Hin) as Hrun.
  destruct (attached oracle opt i fl s) as [[] s'| |]; [|done..].
  destruct Hrun as (t' & evs & Htab & Hn & Hpr & Hlog & Hev & Hp' & Hc' & Hi' & Ha' & Ho').
  assert (Hpc : 0 < pid t /\ curcol t = 0) by (destruct (H3 i t Ht); done). destruct Hpc as [Hp Hc].
  assert (Hlk : forall j u, tcbtab s' !! j = Some u ->
            (j = i /\ u = t') \/ (j <> i /\ tcbtab s !! j = Some u)).
  { intros j u. rewrite Htab. intros [(<- & <- & _)|[? Hu]]%list_lookup_insert_Some; [by left|right].
    split; [congruence|done]. }
  assert (Hii : tcbtab s' !! i = Some t').
  { rewrite Htab. apply list_lookup_insert_eq. by apply lookup_lt_Some in Ht. }
  split_and!.
  - split; try done.
    + by rewrite Htab, length_insert.
    + rewrite Hn, H2, Htab. pose proof (length_used_alter i t t' _ Ht) as H. rewrite Hin, Hi' in H. lia.
    + intros j u Hu. destruct (Hlk j u Hu) as [[-> ->]|[_ Hu']]; [|by eapply H3].
      apply slot_attached; [done|done|lia|congruence|done].
    + intros f. rewrite Hlog, text_of_app, H4. apply text_of_calm. eapply Forall_impl; [exact Hev|apply unwaited_calm].
    + congruence.
    + intros j u Hu Hau. rewrite Hlog. apply Hst; [done|].
      destruct (Hlk j u Hu) as [[-> ->]|[_ Hu']]; [by rewrite Hp'|by eapply H6].
    + intros j k u v Hu Hv Hau Hav He.
      destruct (Hlk j u Hu) as [[-> ->]|[Hj Hu']], (Hlk k v Hv) as [[-> ->]|[Hk Hv']]; [done| | |by eapply H7].
      * exfalso. eapply (Hother k v); [done..|congruence].
      * exfalso. eapply (Hother j u); [done..|congruence].
  - intros j u Hu [Hw1 Hw2]. destruct (Hlk j u Hu) as [[-> ->]|[_ Hu']]; [congruence|].
    exists u. done.
  - eauto.
  - intros j u Hne Hu. rewrite Htab. by rewrite list_lookup_insert_ne.
Qed.

(** A new process is entered and attached. *)
Lemma starting_enter opt fl p s :
  followfork opt = ff -> starting s -> 0 < p -> HP (log s) p ->
  (forall j u, tcbtab s !! j = Some u -> att u = true -> pid u <> p) ->
  match (i ← alloctcb p; attached oracle opt i fl) s with
  | Ret _ s' => starting s' /\ settles s s' /\
      (forall j u, tcbtab s !! j = Some u -> inuse u = true -> tcbtab s' !! j = Some u)
  | _ => True
  end.
Proof.
  intros Hff Hs Hp Hhp Hother. unfold mbind, M_bind.
  destruct (starting_alloc ff HP p s Hs Hp) as (i & s1 & -> & Hs1 & Hlog & Hi & Hback & Hfwd).
  pose proof (starting_attached opt i fl s1 _ Hff Hs1 Hi (inuse_att _ _)) as H. rewrite Hlog in H.
  change (pid (new_tcb p _)) with p in H. specialize (H Hhp).
  assert (Hoth : forall j u, tcbtab s1 !! j = Some u -> att u = true -> pid u <> p).
  { intros j u Hu Ha He. destruct (decide (j = i)) as [->|Hne]; [rewrite Hi in Hu; by injection Hu as <-|].
    assert (Hin : inuse u = true) by (eapply att_inuse; [by eapply (su_slots _ _ _ Hs1)|done]).
    by eapply (Hother j u); [eapply Hback|..]. }
  specialize (H Hoth). destruct (attached oracle opt i fl s1) as [[] s2| |]; [|done..].
  destruct H as (Hs2 & Hset & (ti & Hti & _ & Hati & _) & Hkeep). split_and!; [done| |].
  - intros j u Hu Hw. destruct (Hset j u Hu Hw) as (v & Hv & Hwv).
    destruct (decide (j = i)) as [->|Hne].
    + rewrite Hti in Hu. injection Hu as <-. destruct Hw. congruence.
    + exists v. split; [|done]. apply Hback; [done|done|apply Hwv].
  - intros j u Hu Hin. destruct (Hfwd j u Hu Hin) as [Hne Hu1]. by apply Hkeep.
Qed.
End attaching.

(** ** The processes of -p *)

Definition is_attach (op : Z) : Prop := op = PTRACE_ATTACH \/ op = PTRACE_SEIZE.

Section attach_phase.
Context (oracle : list event -> request -> reply) (w : world) (opt : options).

(** The history has a request that attached [p], and no wait after it. *)
Definition attached_in (l : list event) (p : Z) : Prop := exists h h' op,
  l = h ++ EReq (RPtrace op p 0 0) :: h' /\ is_attach op /\ Forall unwaited h' /\
  0 <= r_ret (oracle h (RPtrace op p 0 0)).

(** What is documented of ptrace: a process that is traced cannot be attached
    again. *)
Definition attach_ok : Prop := forall h p op,
  attached_in h p -> is_attach op -> r_ret (oracle h (RPtrace op p 0 0)) < 0.

(** A signal that ends the tracer was seen in the history: [interrupted] was
    read, and it was not 0. *)
Definition interrupted_in (l : list event) : Prop := exists h h',
  l = h ++ EReq RIntr :: h' /\ r_val (oracle h RIntr) <> 0.

Lemma attached_in_app l p evs : Forall unwaited evs -> attached_in l p -> attached_in (l ++ evs) p.
Proof.
  intros He (h & h' & op & -> & Ho & Hu & Hr). exists h, (h' ++ evs), op.
  rewrite <- app_assoc. split_and!; try done. by apply Forall_app.
Qed.

Context (Hk : attach_ok).
Abbreviation starting := (starting (followfork opt) attached_in).

Lemma attach_or_seize_run p s :
  match ptrace_attach_or_seize oracle opt p s with
  | Ret a s' => tcbtab s' = tcbtab s /\ nprocs s' = nprocs s /\ printing_tcp s' = printing_tcp s /\
      (exists evs, log s' = log s ++ evs /\ Forall unwaited evs) /\
      (0 <= a -> attached_in (log s') p /\ ~ attached_in (log s) p)
  | _ => False
  end.
Proof.
  unfold ptrace_attach_or_seize, ptrace, ask_kernel, mbind, M_bind, emit. simpl.
  assert (Hd : forall op, is_attach op -> op <> PTRACE_DETACH) by (intros op [-> | ->]; done).
  assert (Hone : forall op evs, is_attach op -> Forall unwaited evs ->
            0 <= r_ret (oracle (log s) (RPtrace op p 0 0)) ->
            attached_in ((log s ++ [EReq (RPtrace op p 0 0)]) ++ evs) p /\ ~ attached_in (log s) p).
  { intros op evs Ho He H0. split.
    - exists (log s), evs, op. rewrite <- app_assoc. done.
    - intros Hin. pose proof (Hk (log s) p op Hin Ho). lia. }
  destruct (negb (use_seize opt)); simpl.
  - split_and!; try done.
    + eexists. split; [done|]. repeat constructor. apply Hd. by left.
    + intros H. specialize (Hone PTRACE_ATTACH [] (or_introl eq_refl) (Forall_nil_2 _) H).
      by rewrite app_nil_r in Hone.
  - destruct (Z.eqb_spec (r_ret (oracle (log s) (RPtrace PTRACE_SEIZE p 0 0))) 0) as [E|E]; simpl.
    + split_and!; try done.
      * eexists. rewrite <- app_assoc. split; [done|]. repeat constructor; discriminate.
      * intros _. apply Hone; [by right|repeat constructor; discriminate|lia].
    + split_and!; try done.
      * eexists. split; [done|]. repeat constructor. discriminate.
      * intros H. specialize (Hone PTRACE_SEIZE [] (or_intror eq_refl) (Forall_nil_2 _) H).
        by rewrite app_nil_r in Hone.
Qed.

(** No slot is attached to a process that could just be attached. *)
Lemma starting_fresh s s1 p :
  starting s -> tcbtab s1 = tcbtab s -> ~ attached_in (log s) p ->
  forall j u, tcbtab s1 !! j = Some u -> att u = true -> pid u <> p.
Proof. intros Hs Ht Hn j u Hu Ha <-. rewrite Ht in Hu. apply Hn. by eapply (su_hist _ _ _ Hs). Qed.

Lemma starting_same P s s' evs :
  (forall e, P e -> unwaited e) -> Forall P evs ->
  starting s -> tcbtab s' = tcbtab s -> nprocs s' = nprocs s -> printing_tcp s' = printing_tcp s ->
  log s' = log s ++ evs -> starting s'.
Proof.
  intros HP He Hs. apply (starting_log _ _ P); try done.
  - intros l p. apply attached_in_app. by eapply Forall_impl.
  - intros e Hp. by apply unwaited_calm, HP.
Qed.

(** Slot [i] is that of process [p], and nothing new waits. *)
Definition round (i : nat) (p : Z) (s s' : tracer) : Prop :=
  starting s' /\ settles s s' /\ exists t, tcbtab s' !! i = Some t /\ inuse t = true /\ pid t = p.

(** A request that changes neither the table nor who is attached. *)
Lemma round_ask i p r s t :
  unwaited (EReq r) -> starting s -> tcbtab s !! i = Some t -> inuse t = true -> pid t = p ->
  match ask_kernel oracle r s with Ret _ s' => round i p s s' /\ tcbtab s' = tcbtab s | _ => False end.
Proof.
  intros Hr Hs Ht Hin Hp. unfold ask_kernel. simpl. split; [|done]. split.
  - eapply (starting_same unwaited s _ [EReq r]); try done. by repeat constructor.
  - split; [apply settles_refl_tab; done|]. by exists t.
Qed.

Lemma round_trans i p s1 s2 s3 : round i p s1 s2 -> round i p s2 s3 -> round i p s1 s3.
Proof. intros (A1 & A2 & A3) (B1 & B2 & B3). split; [done|]. split; [by eapply settles_trans|done]. Qed.

(** A thread that was found is attached, in slot [i] or in one of its own. *)
Lemma attach_task_ok i p tid s t :
  starting s -> tcbtab s !! i = Some t -> inuse t = true -> pid t = p -> 0 < tid ->
  match (a ← ptrace_attach_or_seize oracle opt tid;
         if a <? 0 then mret false
         else j ← (if tid =? p then mret i else alloctcb tid); _ ← attached oracle opt j 0; mret true) s with
  | Ret _ s' => round i p s s'
  | _ => True
  end.
Proof.
  intros Hs Ht Hin Hp Htid. unfold mbind at 1, M_bind at 1.
  pose proof (attach_or_seize_run tid s) as Ha.
  destruct (ptrace_attach_or_seize oracle opt tid s) as [a s2| |]; [|done..].
  destruct Ha as (Ht2 & Hn2 & Hp2 & (evs & Hl2 & He2) & Hhist).
  assert (Hs2 : starting s2) by by eapply (starting_same unwaited s s2 evs).
  assert (Hset2 : settles s s2) by by apply settles_refl_tab.
  assert (Ht' : tcbtab s2 !! i = Some t) by congruence.
  destruct (Z.ltb_spec a 0) as [Hneg|Hpos].
  { split; [done|]. split; [done|]. by exists t. }
  destruct (Hhist Hpos) as [Hin2 Hnot]. pose proof (starting_fresh s s2 _ Hs Ht2 Hnot) as Hfresh.
  pose (Hst := fun l q ev H => attached_in_app l q ev H).
  destruct (Z.eqb_spec tid p) as [E|E].
  - assert (Hw : waiting t).
    { split; [done|]. destruct (att t) eqn:Hat; [|done]. exfalso. apply (Hfresh i t Ht' Hat). congruence. }
    pose proof (starting_attached oracle (followfork opt) attached_in Hst opt i 0 s2 t eq_refl Hs2 Ht' Hw) as H.
    rewrite Hp, <- E in H. specialize (H Hin2 Hfresh).
    unfold mbind, M_bind, mret, M_ret. destruct (attached oracle opt i 0 s2) as [[] s3| |]; [|done..].
    destruct H as (Hs3 & Hset & (t' & Hl' & Hi' & _ & Hp') & _).
    split; [done|]. split; [by eapply settles_trans|]. exists t'. split_and!; [done..|congruence].
  - pose proof (starting_enter oracle (followfork opt) attached_in Hst opt 0 tid s2 eq_refl Hs2 Htid Hin2
                  Hfresh) as H.
    unfold mbind, M_bind, mret, M_ret in *. destruct (alloctcb tid s2) as [j s3| |]; [|done..].
    destruct (attached oracle opt j 0 s3) as [[] s4| |]; [|done..]. destruct H as (Hs4 & Hset & Hkeep).
    split; [done|]. split; [by eapply settles_trans|]. exists t. split_and!; [by apply Hkeep|done..].
Qed.

Lemma attach_tasks_ok fuel i p ntid nerr s t :
  starting s -> tcbtab s !! i = Some t -> inuse t = true -> pid t = p ->
  match attach_tasks oracle fuel opt i p ntid nerr s with
  | Ret _ s' => round i p s s'
  | _ => True
  end.
Proof.
  revert ntid nerr s t. induction fuel as [|fuel IH]; intros ntid nerr s t Hs Ht Hin Hp; [done|].
  cbn [attach_tasks]. pose proof (round_ask i p (RTask p) s t I Hs Ht Hin Hp) as Hask.
  unfold mbind at 1, M_bind at 1. destruct (ask_kernel oracle (RTask p) s) as [d s1| |]; [|done..].
  destruct Hask as [Hr1 Htab1]. destruct (r_ret d =? 0); [exact Hr1|].
  assert (Hnext : forall (c : M bool) n,
    match c s1 with Ret _ s2 => round i p s1 s2 | _ => True end ->
    match (b ← c; attach_tasks oracle fuel opt i p (n b).1 (n b).2) s1 with
    | Ret _ s' => round i p s s' | _ => True end).
  { intros c n Hc. unfold mbind, M_bind. destruct (c s1) as [b s2| |]; [|done..].
    destruct Hc as (C1 & C2 & t2 & C3 & C4 & C5).
    specialize (IH (n b).1 (n b).2 s2 t2 C1 C3 C4 C5).
    destruct (attach_tasks _ _ _ _ _ _ _ s2); [|done..].
    eapply round_trans; [exact Hr1|]. eapply round_trans; [|exact IH]. split; [done|]. split; [done|by exists t2]. }
  destruct (Z.leb_spec (r_val d) 0) as [H0|H0].
  { specialize (Hnext (mret false) (fun _ => (ntid, nerr))). unfold mbind, M_bind, mret, M_ret in Hnext.
    apply Hnext. destruct Hr1 as (R1 & R2 & R3). split; [done|]. split; [apply settles_refl|done]. }
  pose proof (attach_task_ok i p (r_val d) s1 t ltac:(apply Hr1) ltac:(congruence) Hin Hp H0) as Htask.
  specialize (Hnext _ (fun b : bool => if b then (ntid + 1, nerr) else (ntid + 1, nerr + 1)) Htask).
  unfold mbind, M_bind, mret, M_ret in *.
  destruct (ptrace_attach_or_seize oracle opt (r_val d) s1) as [a s2| |]; [|done..].
  destruct (a <? 0); [exact Hnext|].
  destruct ((if r_val d =? p then _ else alloctcb (r_val d)) s2) as [j s3| |]; [|done..].
  by destruct (attached oracle opt j 0 s3).
Qed.
(** ** One slot of the table *)

Lemma hoare_pure {A} (phi : Prop) P (c : M A) Q :
  (phi -> hoare P c Q) -> hoare (fun s => phi /\ P s) c Q.
Proof. intros H s [Hphi Hs]. by apply H. Qed.

(** Slot [i] no longer waits. *)
Definition settled (i : nat) (s s' : tracer) : Prop :=
  starting s' /\ settles s s' /\ forall t, tcbtab s' !! i = Some t -> ~ waiting t.

Lemma hoare_round_emits {A} P i p s0 (c : M A) :
  Emits P c -> (forall e, P e -> unwaited e) -> hoare (round i p s0) c (fun _ => round i p s0).
Proof.
  intros Hc HP s (R1 & R2 & t & R3 & R4). specialize (Hc s). destruct (c s) as [x s'| |]; [|done..].
  destruct Hc as (H1 & H2 & H3 & evs & H4 & H5).
  split; [by eapply (starting_same P s s' evs)|].
  split; [eapply settles_trans; [exact R2|by apply settles_refl_tab]|]. exists t. by rewrite H1.
Qed.

Lemma hoare_settled_emits {A} P i s0 (c : M A) :
  Emits P c -> (forall e, P e -> unwaited e) -> hoare (settled i s0) c (fun _ => settled i s0).
Proof.
  intros Hc HP s (R1 & R2 & R3). specialize (Hc s). destruct (c s) as [x s'| |]; [|done..].
  destruct Hc as (H1 & H2 & H3 & evs & H4 & H5).
  split; [by eapply (starting_same P s s' evs)|].
  split; [eapply settles_trans; [exact R2|by apply settles_refl_tab]|]. by rewrite H1.
Qed.

Lemma hoare_round_drop i p s0 : hoare (round i p s0) (droptcb opt i) (fun _ => settled i s0).
Proof.
  intros s (R1 & R2 & t & R3 & R4 & R5).
  destruct (starting_drop (followfork opt) attached_in opt i t s R1 R3 R4
              (fun l q ev H => attached_in_app l q ev H)) as (s' & -> & Hs' & Hset & Hz).
  split; [done|]. split; [by eapply settles_trans|]. rewrite Hz. intros ? [= <-] [? _]. done.
Qed.

Lemma hoare_round_tasks fuel i p ntid nerr s0 :
  hoare (round i p s0) (attach_tasks oracle fuel opt i p ntid nerr) (fun _ => round i p s0).
Proof.
  intros s (R1 & R2 & t & R3 & R4 & R5).
  pose proof (attach_tasks_ok fuel i p ntid nerr s t R1 R3 R4 R5) as H.
  destruct (attach_tasks _ _ _ _ _ _ _ s); [|done..]. eapply round_trans; [|exact H].
  split; [done|]. split; [done|by exists t].
Qed.

Lemma round_slot i p s0 s : round i p s0 s -> pid (default zero_tcb (tcbtab s !! i)) = p.
Proof. intros (_ & _ & t & -> & _ & ?). done. Qed.

Lemma hoare_threads interactive i p s0 :
  hoare (round i p s0) (attach_threads oracle w opt interactive i)
    (fun stop s => if stop : bool then starting s /\ interrupted_in (log s) else settled i s0 s).
Proof.
  unfold attach_threads. apply hoare_tcb_of. intros t.
  destruct (decide (pid t = p)) as [Hp|Hp].
  2:{ intros s [Hs <-]. by destruct Hp; eapply round_slot. }
  rewrite Hp. apply (hoare_pre _ (round i p s0)); [by intros s []|].
  eapply hoare_bind; [apply hoare_round_tasks|]. intros [ntid nerr].
  apply (hoare_bind _ (fun (stop : bool) s => round i p s0 s /\ (stop = true -> interrupted_in (log s)))).
  { destruct interactive; [|by apply hoare_ret; intros s Hs]. intros s Hs.
    pose proof (hoare_round_emits unwaited i p s0 (interrupted oracle)) as H.
    unfold mbind, M_bind, interrupted in *.
    specialize (H ltac:(emits) (fun e He => He) s Hs). unfold ask_kernel, mret, M_ret in *. simpl in *.
    split; [exact H|]. intros Hn%negb_true_iff%Z.eqb_neq. by exists (log s), []. }
  intros [|].
  { apply hoare_ret. intros s [(Hs & _) Hi]. split; [exact Hs|by apply Hi]. }
  apply (hoare_pre _ (round i p s0)); [by intros s [? _]|]. destruct (_ =? 0).
  - eapply hoare_bind; [apply (hoare_round_emits unwaited); [unfold attach_failed; emits|done]|intros ?].
    eapply hoare_bind; [apply hoare_round_drop|intros ?]. by apply hoare_ret.
  - eapply hoare_bind; [apply (hoare_round_emits unwaited); [emits|done]|intros ?].
    apply hoare_tcb_of. intros t'. apply (hoare_bind _ (fun _ => settled i s0)); [|intros ?; by apply hoare_ret].
    destruct (has_flag (flags t') TCB_ATTACHED) eqn:Ha; simpl.
    + intros s [(R1 & R2 & u & R3 & R4) <-]. rewrite R3 in Ha. split; [done|]. split; [done|].
      rewrite R3. intros ? [= <-] [_ Hna]. unfold att in Hna. simpl in Ha. congruence.
    + eapply hoare_pre; [|apply hoare_round_drop]. by intros s [? _].
Qed.

Lemma hoare_process daemonized i s0 :
  hoare (fun s => s = s0 /\ starting s /\ exists t, tcbtab s !! i = Some t /\ waiting t)
    (attach_process oracle opt daemonized i) (fun _ => settled i s0).
Proof.
  intros s [-> [Hs (t & Ht & Hw)]]. unfold attach_process. unfold mbind at 1, M_bind at 1, tcb_of, gets.
  rewrite Ht. simpl. unfold mbind at 1, M_bind at 1.
  pose proof (attach_or_seize_run (pid t) s0) as Ha.
  destruct (ptrace_attach_or_seize oracle opt (pid t) s0) as [a s2| |]; [|done..].
  destruct Ha as (Ht2 & Hn2 & Hp2 & (evs & Hl2 & He2) & Hhist).
  assert (Hs2 : starting s2) by by eapply (starting_same unwaited s0 s2 evs).
  assert (Ht' : tcbtab s2 !! i = Some t) by congruence.
  assert (Hr2 : round i (pid t) s0 s2).
  { split; [done|]. split; [by apply settles_refl_tab|]. exists t. by destruct Hw. }
  destruct (Z.ltb_spec a 0) as [Hneg|Hpos].
  { revert s2 Hr2 Hs2 Ht2 Hn2 Hp2 Hl2 Hhist Ht'. intros s2 Hr2 _ _ _ _ _ _ _.
    refine (hoare_bind _ (fun _ => round i (pid t) s0) _ attach_failed (fun _ => droptcb opt i) _ _ s2 Hr2).
    - apply (hoare_round_emits unwaited); [unfold attach_failed; emits|done].
    - intros ?. apply hoare_round_drop. }
  destruct (Hhist Hpos) as [Hin2 Hnot]. pose proof (starting_fresh s0 s2 _ Hs Ht2 Hnot) as Hfresh.
  pose proof (starting_attached oracle (followfork opt) attached_in
                (fun l q ev H => attached_in_app l q ev H) opt i 0 s2 t eq_refl Hs2 Ht' Hw Hin2 Hfresh) as H.
  unfold mbind at 1, M_bind at 1. destruct (attached oracle opt i 0 s2) as [[] s3| |]; [|done..].
  destruct H as (Hs3 & Hset & (t' & Hl' & Hi' & Ha' & Hp') & _).
  assert (Hd : settled i s0 s3).
  { split; [done|]. split; [eapply settles_trans; [by apply settles_refl_tab|exact Hset]|].
    rewrite Hl'. intros ? [= <-] [_ ?]. congruence. }
  revert s3 Hd Hs3 Hset Hl'. intros s3 Hd _ _ _. revert s3 Hd.
  apply (hoare_settled_emits unwaited); [unfold kill; emits|done].
Qed.

(** The slot that the loop over the table visits is settled. *)
Lemma hoare_slot daemonized interactive i s0 :
  starting s0 ->
  match attach_slot oracle w opt daemonized interactive i s0 with
  | Ret stop s => if stop : bool then starting s /\ interrupted_in (log s) else settled i s0 s
  | _ => True
  end.
Proof.
  intros Hs. unfold attach_slot. unfold mbind at 1, M_bind at 1, tcb_of, gets.
  destruct (tcbtab s0 !! i) as [t|] eqn:Ht; simpl.
  2:{ split; [done|]. split; [apply settles_refl|]. by rewrite Ht. }
  destruct (inuse t) eqn:Hin; simpl.
  2:{ split; [done|]. split; [apply settles_refl|]. rewrite Ht. intros ? [= <-] [? _]. congruence. }
  destruct (has_flag (flags t) TCB_ATTACHED) eqn:Hatt.
  { split; [done|]. split; [apply settles_refl|]. rewrite Ht. intros ? [= <-] [_ ?].
    unfold att in *. congruence. }
  set (dir := if _ : bool then _ else mret false).
  assert (Hdir : hoare (fun s => s = s0) dir (fun b s => round i (pid t) s0 s /\
            exists t, tcbtab s !! i = Some t /\ waiting t)).
  { intros s ->. unfold dir. destruct (_ && _).
    - unfold mbind, M_bind.
      pose proof (round_ask i (pid t) (RTaskDir (pid t)) s0 t I Hs Ht Hin eq_refl) as H.
      destruct (ask_kernel _ _ _) as [r s1| |]; [|done..]. destruct H as [H1 H2]. split; [done|].
      exists t. rewrite H2. done.
    - split; [|by exists t]. split; [done|]. split; [apply settles_refl|by exists t]. }
  clearbody dir. specialize (Hdir s0 eq_refl). unfold mbind at 1, M_bind at 1.
  destruct (dir s0) as [b s1| |]; [|done..]. destruct Hdir as [Hr Hw]. destruct b.
  - exact (hoare_threads interactive i (pid t) s0 s1 Hr).
  - destruct Hr as (R1 & R2 & R3). unfold mbind, M_bind.
    pose proof (hoare_process daemonized i s1 s1 (conj eq_refl (conj R1 Hw))) as H.
    destruct (attach_process _ _ _ _ s1) as [x s2| |]; [|done..]. destruct H as (K1 & K2 & K3).
    split; [done|]. split; [by eapply settles_trans|done].
Qed.

(** When the loop has ended no slot waits, unless it was interrupted. *)
Lemma attach_from_ok fuel daemonized interactive i s :
  starting s -> (forall j t, (j < i)%nat -> tcbtab s !! j = Some t -> ~ waiting t) ->
  match attach_from oracle w fuel opt daemonized interactive i s with
  | Ret _ s' => starting s' /\
      (interrupted_in (log s') \/ forall j t, tcbtab s' !! j = Some t -> ~ waiting t)
  | _ => True
  end.
Proof.
  revert i s. induction fuel as [|fuel IH]; intros i s Hs Hdone; [done|].
  cbn [attach_from]. unfold mbind at 1, M_bind at 1, get. unfold tcbtabsize.
  destruct (Nat.ltb_spec i (length (tcbtab s))) as [Hlt|Hge].
  - unfold mbind at 1, M_bind at 1. pose proof (hoare_slot daemonized interactive i s Hs) as H.
    destruct (attach_slot _ _ _ _ _ _ s) as [stop s1| |]; [|done..]. destruct stop; [destruct H; split; [done|by left]|]. destruct H as (K1 & K2 & K3).
    apply IH; [done|]. intros j t Hj Ht Hw. destruct (decide (j = i)) as [->|Hne]; [by apply (K3 t)|].
    destruct (K2 j t Ht Hw) as (u & Hu & Hwu). apply (Hdone j u); [lia|done|done].
  - split; [done|]. right. intros j t Ht. apply (Hdone j t); [|done]. apply lookup_lt_Some in Ht. lia.
Qed.
End attach_phase.

(** ** From the start to the loop *)

(** No process is attached yet. *)
Definition fresh : tracer -> Prop := starting 0 (fun _ _ => False).

Lemma fresh_starting ff HP s : fresh s -> starting ff HP s.
Proof.
  intros [H1 H2 H3 H4 H5 H6 H7]. split; try done.
  - intros i t Ht. destruct (H3 i t Ht) as [|t Hw Hp Hc Ho|t Hi Ha Hp Hc Ho]; [apply slot_free|by apply slot_waiting|].
    by destruct (H6 i t Ht).
  - intros i t Ht Ha. by destruct (H6 i t Ht).
Qed.

Lemma hoare_fresh {A} (c : M A) : Emits calm c -> hoare fresh c (fun _ => fresh).
Proof. intros Hc. by apply (hoare_emits 0 _ calm). Qed.

(** [n] processes have been named, none is attached. *)
Definition named (n : Z) (s : tracer) : Prop := fresh s /\ nprocs s = n.

Lemma hoare_named {A} n (c : M A) : Emits calm c -> hoare (named n) c (fun _ => named n).
Proof.
  intros Hc s [Hs Hn]. pose proof (hoare_fresh c Hc s Hs) as H. specialize (Hc s).
  destruct (c s); [|done..]. split; [done|]. destruct Hc as (_ & -> & _). done.
Qed.

Lemma named_0 s : named 0 s -> forall j t, tcbtab s !! j = Some t -> ~ waiting t.
Proof.
  intros [Hs Hn] j t Ht [Hin _]. rewrite (su_nprocs _ _ _ Hs) in Hn.
  assert (Hu : t ∈ used (tcbtab s)) by (apply elem_of_used; split; [by eapply list_elem_of_lookup_2|done]).
  destruct (used (tcbtab s)); [by apply elem_of_nil in Hu|done].
Qed.

Lemma tracer0_fresh argc : (0 < argc)%nat -> fresh (tracer0 argc).
Proof.
  intros Ha.
  assert (Hz : forall i t, replicate argc zero_tcb !! i = Some t -> t = zero_tcb)
    by (by intros i t [? _]%lookup_replicate).
  split; simpl; try done.
  - by rewrite length_replicate.
  - by rewrite used_replicate_zero.
  - intros i t ->%Hz. apply slot_free.
  - by intros i t ->%Hz.
  - by intros i j t u ->%Hz.
Qed.

Section phases.
Context (oracle : list event -> request -> reply) (w : world) (pc : machine) (fs : files).

Lemma Emits_fork : Emits calm (fork oracle).
Proof. unfold fork. emits. Qed.
Lemma Emits_kill p sig : Emits calm (kill oracle p sig).
Proof. unfold kill. emits. Qed.
Lemma Emits_ptrace op p a d : Emits calm (ptrace oracle op p a d).
Proof. unfold ptrace. emits. Qed.
Lemma Emits_unexpected {A} fn what v : Emits calm (unexpected fn what v : M A).
Proof. unfold unexpected. emits. Qed.
Lemma Emits_perror e t : Emits calm (perror_msg w e t).
Proof. unfold perror_msg. emits. Qed.
#[local] Hint Resolve Emits_fork Emits_kill Emits_ptrace Emits_unexpected Emits_perror : emits.

Lemma Emits_followfork_loop fuel p x y : Emits calm (followfork_loop oracle w fuel p x y).
Proof. revert p x y. induction fuel; intros; simpl; emits. Qed.
Lemma Emits_for_all_loop fuel p b : Emits calm (for_all_loop oracle w fuel p b).
Proof. revert p b. induction fuel; intros; simpl; emits. Qed.
Lemma Emits_seize_wait fuel p : Emits calm (seize_wait oracle fuel p).
Proof. induction fuel; simpl; emits. Qed.
Lemma Emits_wait_stopped fuel p : Emits calm (wait_stopped oracle fuel p).
Proof. induction fuel; simpl; emits. Qed.
#[local] Hint Resolve Emits_followfork_loop Emits_for_all_loop Emits_seize_wait Emits_wait_stopped : emits.

Lemma hoare_test_ptrace n c :
  hoare (named n) (test_ptrace oracle w c)
    (fun f s => named n s /\ (f_sigstop f = 0 \/ f_sigstop f = TCB_IGNORE_ONE_SIGSTOP)).
Proof.
  unfold test_ptrace.
  eapply hoare_bind; [apply hoare_named; unfold test_ptrace_setoptions_followfork; emits|intros [o1 w1]].
  eapply hoare_bind; [apply hoare_named; unfold test_ptrace_setoptions_for_all; emits|intros [[sig o2] w2]].
  apply (hoare_bind _ (fun z s => named n s /\ (z = 0 \/ z = TCB_IGNORE_ONE_SIGSTOP))).
  - unfold test_ptrace_seize. do 4 (eapply hoare_bind; [apply hoare_named; emits|intros ?]).
    apply hoare_ret. intros s Hs. split; [done|]. destruct (_ =? 0); auto.
  - intros z. by apply hoare_ret.
Qed.

(** ** The options *)

Lemma hoare_p_list opt fuel a : hoare fresh (process_opt_p_list opt fuel a) (fun _ => fresh).
Proof.
  revert a. induction fuel as [|fuel IH]; intros a; [by destruct a; apply hoare_ret|].
  destruct a as [|c a]; [by apply hoare_ret|]. cbn [process_opt_p_list].
  destruct (split_delim _) as [x rest]. destruct (Z.leb_spec (string_to_uint x) 0) as [H0|H0]; [done|].
  destruct (_ =? _); [done|]. apply (hoare_bind _ (fun _ => fresh)).
  - intros s Hs. destruct (starting_alloc _ _ _ s Hs H0) as (i & s' & -> & Hs' & _). done.
  - intros _. destruct rest; [apply IH|by apply hoare_ret].
Qed.

Lemma Emits_qualified sysent a c : Emits calm (qualified sysent a c).
Proof. unfold qualified. emits. Qed.
Lemma Emits_number_arg o a : Emits calm (number_arg o a).
Proof. unfold number_arg, error_opt_arg. emits. Qed.
Lemma Emits_select_path a c : Emits calm (select_path pc a c).
Proof. unfold select_path. emits. Qed.
#[local] Hint Resolve Emits_qualified Emits_number_arg Emits_select_path : emits.

Lemma hoare_option sysent o a c : hoare fresh (handle_option pc sysent o a c) (fun _ => fresh).
Proof.
  unfold handle_option, usage_die, error_opt_arg. cbv zeta.
  repeat (match goal with |- hoare _ (if Ascii.eqb _ ?x then _ else _) _ =>
            destruct (Ascii.eqb o x);
            [first [ apply hoare_fresh; solve [emits]
                   | eapply hoare_bind; [apply hoare_p_list|intros ?; by apply hoare_ret] ]|] end).
  by apply hoare_fresh.
Qed.

Lemma hoare_options sysent evs c : hoare fresh (handle_options pc sysent evs c) (fun _ => fresh).
Proof.
  revert c. induction evs as [|[o a|msg] evs IH]; intros c; simpl; [by apply hoare_ret| |apply hoare_fresh; unfold usage_die; emits].
  eapply hoare_bind; [apply hoare_option|intros c']. apply IH.
Qed.

(** ** The processes to trace *)

(** Every block in use is attached. *)
Definition all_attached (opt : options) (s : tracer) : Prop :=
  starting (followfork opt) (fun _ _ => True) s /\ forall j t, tcbtab s !! j = Some t -> ~ waiting t.

Lemma all_attached_of ff HP opt s :
  ff = followfork opt -> starting ff HP s -> (forall j t, tcbtab s !! j = Some t -> ~ waiting t) ->
  all_attached opt s.
Proof. intros -> [H1 H2 H3 H4 H5 H6 H7] Hw. by split. Qed.

(** So it is at the end of start-up, unless that was interrupted. *)
Definition handed_over (opt : options) (s : tracer) : Prop :=
  starting (followfork opt) (fun _ _ => True) s /\
  (interrupted_in oracle (log s) \/ forall j t, tcbtab s !! j = Some t -> ~ waiting t).
Lemma all_attached_over opt s : all_attached opt s -> handed_over opt s.
Proof. intros [H1 H2]. split; [done|by right]. Qed.
Lemma handed_over_of ff HP opt s :
  ff = followfork opt -> starting ff HP s ->
  interrupted_in oracle (log s) \/ (forall j t, tcbtab s !! j = Some t -> ~ waiting t) ->
  handed_over opt s.
Proof. intros -> [H1 H2 H3 H4 H5 H6 H7] Hw. by split. Qed.

(** With nothing to attach the loop over the table does nothing. *)
Lemma attach_from_idle fuel opt d b i s :
  (forall j t, tcbtab s !! j = Some t -> ~ waiting t) ->
  match attach_from oracle w fuel opt d b i s with Ret _ s' => s' = s | _ => True end.
Proof.
  revert i. induction fuel as [|fuel IH]; intros i Hw; [done|]. cbn [attach_from].
  unfold mbind at 1, M_bind at 1, get. destruct (_ <? _)%nat; [|done].
  unfold mbind, M_bind, attach_slot, tcb_of, gets at 1.
  assert (Hskip : negb (inuse (default zero_tcb (tcbtab s !! i))) ||
            has_flag (flags (default zero_tcb (tcbtab s !! i))) TCB_ATTACHED = true).
  { destruct (tcbtab s !! i) as [t|] eqn:Ht; simpl; [|done].
    specialize (Hw i t Ht). unfold waiting, att in Hw.
    destruct (inuse t), (has_flag (flags t) TCB_ATTACHED); try done. by destruct Hw. }
  unfold mbind, M_bind. rewrite Hskip. exact (IH (S i) Hw).
Qed.

Lemma Emits_find_program filename c : Emits calm (find_program fs filename c).
Proof. unfold find_program. emits. Qed.
Lemma Emits_attach_or_seize opt p : Emits calm (ptrace_attach_or_seize oracle opt p).
Proof. unfold ptrace_attach_or_seize. emits. Qed.
#[local] Hint Resolve Emits_find_program Emits_attach_or_seize : emits.
Lemma Emits_seize_child opt p : Emits calm (seize_child oracle w opt p).
Proof. unfold seize_child. emits. Qed.
#[local] Hint Resolve Emits_seize_child : emits.

(** The documented results of fork: the parent gets the child's pid. *)
Context (Hfork : forall h, r_ret (oracle h RFork) <> 0) (Hself : 0 < getpid pc).

Lemma fork_pid n s :
  named n s -> match fork oracle s with Ret r s' => named n s' /\ 0 < r_ret r | _ => True end.
Proof.
  intros Hs. pose proof (hoare_named n (fork oracle) Emits_fork s Hs) as H. revert H.
  unfold fork, mbind, M_bind, ask_kernel, emit, mret, M_ret, die_msg. simpl.
  pose proof (Hfork (log s)). destruct (Z.ltb_spec (r_ret (oracle (log s) RFork)) 0); [done|].
  intros Hf. split; [done|]. lia.
Qed.

(** With no process named by -p, the program is the only process; under -D it is
    the parent, to be attached. *)
Lemma child_ok opt c filename :
  hoare (named 0) (startup_child oracle w pc fs opt c filename)
    (fun _ s => if c_daemonized c then fresh s else all_attached opt s).
Proof.
  unfold startup_child. eapply hoare_bind; [apply hoare_named; emits|intros path].
  destruct (stat_file fs path); [|done].
  apply (hoare_bind _ (fun r s => named 0 s /\ 0 < r_ret r)); [intros s; apply fork_pid|intros r].
  intros s [Hs Hp]. revert s Hs. destruct (c_daemonized c).
  - intros s [Hs _]. unfold mbind, M_bind.
    destruct (starting_alloc _ _ _ s Hs Hself) as (i & s' & -> & Hs' & _). exact Hs'.
  - match goal with |- forall s, _ -> match ?m s with Ret _ s' => @?Q s' | _ => _ end =>
      change (hoare (named 0) m (fun _ => Q)) end.
    eapply hoare_bind; [apply hoare_named; destruct (use_seize opt); emits|intros ?].
    intros s Hn. pose proof Hn as [Hs _].
    pose proof (fresh_starting (followfork opt) (fun _ _ => True) s Hs) as Hs'.
    pose proof (starting_enter oracle (followfork opt) (fun _ _ => True) (fun _ _ _ _ _ => I) opt
                  TCB_STRACE_CHILD (r_ret r) s eq_refl Hs' Hp I) as H.
    unfold mbind, M_bind, mret, M_ret in *. destruct (alloctcb (r_ret r) s) as [i s1| |]; [|done..].
    destruct (attached oracle opt i TCB_STRACE_CHILD s1) as [[] s2| |]; [|done..].
    destruct H as (H1 & H2 & _); [intros j u Hu Ha; by destruct (su_hist _ _ _ Hs j u Hu)|].
    split; [done|]. intros j t Ht Hw. destruct (H2 j t Ht Hw) as (u & Hu & Hwu).
    by eapply named_0.
Qed.

(** ** All of init *)

Context (Hatt : attach_ok oracle).

Lemma attach_ok_named opt c n :
  hoare (named n) (startup_attach oracle w opt c) (fun _ => handed_over opt).
Proof.
  unfold startup_attach. eapply hoare_bind.
  { apply hoare_named. destruct (c_daemonized c); emits. }
  intros self s [Hs _]. unfold mbind, M_bind.
  pose proof (attach_from_ok oracle w opt Hatt (loop_fuel w) (c_daemonized c)
                (c_opt_intr c =? INTR_WHILE_WAIT) 0 s (fresh_starting _ _ s Hs)) as H.
  destruct (attach_from _ _ _ _ _ _ _ s) as [[] s'| |]; [|done..].
  destruct H as [H1 H2]; [intros; lia|]. by eapply handed_over_of.
Qed.

Lemma attach_idle opt c s :
  c_daemonized c = false -> all_attached opt s ->
  match startup_attach oracle w opt c s with Ret _ s' => all_attached opt s' | _ => True end.
Proof.
  intros Hd Hs. unfold startup_attach. rewrite Hd. unfold mbind, M_bind, mret, M_ret.
  pose proof (attach_from_idle (loop_fuel w) opt false (c_opt_intr c =? INTR_WHILE_WAIT) 0 s (proj2 Hs)) as H.
  destruct (attach_from _ _ _ _ _ _ _ s) as [[] s'| |]; [|done..]. by subst.
Qed.

Lemma check_options_ok cmd c n :
  hoare (named n) (check_options pc cmd c) (fun _ s => named n s /\ (cmd <> [] -> n = 0)).
Proof.
  intros s Hs. assert (Hc : Emits calm (check_options pc cmd c)) by (unfold check_options, usage_die; emits).
  pose proof (hoare_named n _ Hc s Hs) as H. destruct (check_options pc cmd c s) as [x s'| |] eqn:Hrun; [|done..].
  split; [done|]. revert Hrun. unfold check_options, mbind, M_bind, gets, usage_die.
  destruct (negb _); [done|]. destruct (Bool.eqb _ _) eqn:He; [done|].
  intros _ Hne. rewrite bool_decide_false in He by done. destruct Hs as [_ <-].
  destruct (Z.eqb_spec (nprocs s) 0); done.
Qed.

Lemma hoare_defaults n sysent c : hoare (named n) (default_quals sysent c) (fun _ => named n).
Proof. apply hoare_named. unfold default_quals. emits. Qed.
Lemma hoare_open_output n c : hoare (named n) (open_output oracle c) (fun _ => named n).
Proof. apply hoare_named. unfold open_output, open_extra. emits. Qed.
Lemma hoare_settle n cmd c : hoare (named n) (settle pc cmd c) (fun _ => named n).
Proof. apply hoare_named. unfold settle. emits. Qed.

(** The program of the command line, or the processes of -p. *)
Lemma hoare_attach_all c f cmd n :
  (cmd <> [] -> n = 0) ->
  let opts := options_of pc c f false in
  hoare (named n)
    ('(child, self) ←
       (match cmd with
        | [] => mret (0, getpid pc)
        | filename :: _ =>
            _ ← modify_glb (fun g => set_skip true (set_hide true g));
            startup_child oracle w pc fs (opts 0 (getpid pc)) c filename
        end);
     n ← gets nprocs;
     self ← (if negb (n =? 0) || c_daemonized c
             then startup_attach oracle w (opts child self) c else mret self);
     mret (child, self))
    (fun _ => handed_over (opts 0 0)).
Proof.
  intros Hn opts. destruct cmd as [|filename cmd].
  - intros s Hs. unfold mbind, M_bind, mret, M_ret, gets.
    destruct (negb (nprocs s =? 0) || c_daemonized c) eqn:Hb.
    + pose proof (attach_ok_named (opts 0 (getpid pc)) c n s Hs) as H.
      destruct (startup_attach _ _ _ _ s); [exact H|done..].
    + apply orb_false_iff in Hb as [Hb _]. apply negb_false_iff, Z.eqb_eq in Hb.
      destruct Hs as [Hs Hns]. apply all_attached_over, (all_attached_of (c_followfork c) (fun _ _ => False)); [done|by apply fresh_starting|].
      apply named_0. by split.
  - rewrite (Hn ltac:(done)). eapply hoare_bind.
    + eapply hoare_bind; [apply hoare_named; emits|intros ?]. apply child_ok.
    + intros [child self] s Hs. unfold mbind, M_bind, mret, M_ret, gets.
      destruct (c_daemonized c) eqn:Hd.
      * rewrite orb_true_r. pose proof (attach_ok_named (opts child self) c (nprocs s) s (conj Hs eq_refl)) as H.
        destruct (startup_attach _ _ _ _ s); [exact H|done..].
      * destruct (_ || _); [|exact (all_attached_over _ _ Hs)]. pose proof (attach_idle (opts child self) c s Hd Hs) as H.
        destruct (startup_attach _ _ _ _ s); [exact (all_attached_over _ _ H)|done..].
Qed.

Lemma init_attaches args :
  hoare fresh (init oracle w pc fs args)
    (fun r s => wf_options r.1 /\ handed_over r.1 s).
Proof.
  unfold init. eapply hoare_bind; [apply hoare_fresh; unfold open_extra; emits|intros ?].
  eapply hoare_bind; [apply hoare_fresh; unfold default_quals; emits|intros c0].
  destruct (getopt args) as [evs cmd].
  eapply hoare_bind; [apply hoare_options|intros c1].
  intros s Hs. revert s Hs.
  intros s Hs. pose proof (conj Hs (eq_refl (nprocs s))) as Hn. change (named (nprocs s) s) in Hn.
  set (n := nprocs s) in *. clearbody n. clear Hs. revert s Hn.
  match goal with |- forall s, _ -> match ?m s with Ret x s' => @?Q x s' | _ => _ end =>
    change (hoare (named n) m Q) end.
  eapply hoare_bind; [apply check_options_ok|intros [c2 ids]].
  apply (hoare_pre _ (fun s => (cmd <> [] -> n = 0) /\ named n s)); [tauto|].
  apply hoare_pure. intros Hn.
  eapply hoare_bind; [apply hoare_test_ptrace|intros f].
  apply (hoare_pre _ (fun s => (f_sigstop f = 0 \/ f_sigstop f = TCB_IGNORE_ONE_SIGSTOP) /\ named n s)); [tauto|].
  apply hoare_pure. intros Hf.
  eapply hoare_bind; [apply hoare_open_output|intros c3].
  eapply hoare_bind; [apply hoare_settle|intros c4].
  intros s Hs. pose proof (hoare_attach_all c4 f cmd n Hn s Hs) as H. revert H.
  cbv zeta. lazymatch goal with |- context [?m ≫= _] => generalize m end. intros start.
  unfold mbind, M_bind, gets, mret, M_ret. destruct (start s) as [[child self] s1| |]; [|done..].
  lazymatch goal with |- context [(if ?b then ?x else ?y) s1] => destruct ((if b then x else y) s1) end; [|done..].
  intros H. split; [exact Hf|exact H].
Qed.
End phases.

Lemma all_attached_wf opt s : all_attached opt s -> wf_tab s.
Proof.
  intros [[H1 H2 H3 H4 H5 H6 H7] Hw].
  assert (Hatt : forall i t, tcbtab s !! i = Some t -> inuse t = true -> att t = true).
  { intros i t Ht Hin. destruct (att t) eqn:Ha; [done|]. by destruct (Hw i t Ht). }
  split; try done.
  - intros t [i Ht]%list_elem_of_lookup Hin. destruct (H3 i t Ht) as [|t [? _]|]; [done|congruence..].
  - intros t [i Ht]%list_elem_of_lookup Hin. by destruct (H3 i t Ht).
  - intros i j t u Ht Hu Hi Hj. eapply H7; eauto.
Qed.

Lemma all_attached_loop opt s : all_attached opt s -> followfork opt < 2 -> loop_inv opt s.
Proof.
  intros Ha Hff. pose proof (all_attached_wf opt s Ha) as Hwf. destruct Ha as [[H1 H2 H3 H4 H5 H6 H7] Hw].
  assert (Hs : forall i t, tcbtab s !! i = Some t -> curcol t = 0 /\
            (if inuse t then outf t = Some Shared /\ out_dump_f t = Some Shared /\ out_stack_f t = Some Shared
             else outf t = None)).
  { intros i t Ht. specialize (Hw i t Ht). destruct (H3 i t Ht) as [|t Hwt|t Hi _ _ Hc Ho]; [done|done|].
    rewrite Hi. split; [done|]. unfold opened_out, own_out in Ho. rewrite (proj2 (Z.ltb_lt _ 2) Hff) in Ho.
    destruct Ho as (H & [Hd|[? _]] & [Hk|[? _]]); [done|lia..]. }
  split; [done| | |].
  - split; [done| | | |].
    + intros i t Ht. destruct (Hs i t Ht) as [_ Ho]. destruct (inuse t); [left; apply Ho|by right].
    + intros i t Ht. destruct (Hs i t Ht) as [-> _]. lia.
    + intros i t Ht Hc. by destruct (Hs i t Ht).
    + by rewrite H4.
  - intros i t Ht Hin. destruct (Hs i t Ht) as [_ Ho]. by rewrite Hin in Ho.
  - intros i t Ht Hin. destruct (Hs i t Ht) as [_ Ho]. by rewrite Hin in Ho.
Qed.

(** C4: start-up hands a sound state to the event loop.  Whatever the command
    line, the processes of -p (named twice or not), the threads found on the way
    and the kernel's answers, when init returns, post_attach_sigstop is a flag
    that the loop understands and nothing has been written to any log; every
    process that was attached has a block of its own, with its positive pid and
    its output (the shared log, or with -ff its own files); and either start-up
    was interrupted while it attached to the threads of a process, or all is
    done: every block in use is attached, free blocks have no pid, nprocs is the
    number of blocks in use, and without -ff this is the invariant of the event
    loop.  Assumed is that a traced process cannot be attached again and that
    fork gives the parent the child's pid. *)
Theorem init_starts_the_loop oracle w pc fs args argc opt c s :
  attach_ok oracle -> (forall h, r_ret (oracle h RFork) <> 0) -> 0 < getpid pc -> (0 < argc)%nat ->
  init oracle w pc fs args (tracer0 argc) = Ret (opt, c) s ->
  wf_options opt /\ (forall f, text_of f (log s) = "") /\
  (forall i t, tcbtab s !! i = Some t -> has_flag (flags t) TCB_ATTACHED = true ->
     inuse t = true /\ 0 < pid t /\ opened_out (followfork opt) t) /\
  (forall i j t u, tcbtab s !! i = Some t -> tcbtab s !! j = Some u ->
     has_flag (flags t) TCB_ATTACHED = true -> has_flag (flags u) TCB_ATTACHED = true -> pid t = pid u -> i = j) /\
  (interrupted_in oracle (log s) \/
   wf_tab s /\
   (forall i t, tcbtab s !! i = Some t -> inuse t = true -> has_flag (flags t) TCB_ATTACHED = true) /\
   (followfork opt < 2 -> loop_inv opt s)).
Proof.
  intros Ha Hf Hp Hargc Hrun.
  pose proof (init_attaches oracle w pc fs Hf Hp Ha args _ (tracer0_fresh argc Hargc)) as H.
  rewrite Hrun in H. destruct H as [Ho [Hs Hi]]. split_and!; [done|apply Hs| |apply Hs|].
  - intros i t Ht Hat. pose proof (su_slots _ _ _ Hs i t Ht) as Hok.
    destruct Hok as [|t [_ Hna]|t]; [done|unfold att in Hna; congruence|done].
  - destruct Hi as [Hi|Hw]; [by left|right]. pose proof (conj Hs Hw : all_attached opt s) as Hall.
    split_and!; [by eapply all_attached_wf| |by apply all_attached_loop].
    intros i t Ht Hin. destruct (att t) eqn:Hatt; [done|]. by destruct (Hw i t Ht).
Qed.

(** ** A run: -p names process 7 twice *)

Definition attached_before (h : list event) (p : Z) : bool :=
  existsb (fun e => match e with
                    | EReq (RPtrace op q _ _) => ((op =? PTRACE_ATTACH) || (op =? PTRACE_SEIZE)) && (q =? p)
                    | _ => false
                    end) h.

Definition is_fork (e : event) : bool := match e with EReq RFork => true | _ => false end.

(** A kernel on which PTRACE_SEIZE works, the other features do not, children
    stop as they should, and process 7 ends when the loop waits. *)
Definition booting : list event -> request -> reply := fun h r =>
  let answer ret v := mk_reply ret 0 v tv_zero (r_regs demo_reply) (r_si demo_reply) None in
  match r with
  | RFork => answer (10 + Z.of_nat (length (List.filter is_fork h))) 0
  | RWait4 q o =>
      if o =? WSTOPPED then answer 10 0x137f
      else if negb (o =? 0) then answer 7 0
      else if q =? -1 then
        match last h with
        | Some (EReq RFork) => answer 10 0
        | _ => mk_reply (-1) ECHILD 0 tv_zero (r_regs demo_reply) (r_si demo_reply) None
        end
      else answer 10 9
  | RPtrace op q _ _ =>
      if ((op =? PTRACE_ATTACH) || (op =? PTRACE_SEIZE)) && attached_before h q then answer (-1) 0
      else if (op =? PTRACE_GETEVENTMSG) && (s32 q =? q) then answer 0 q
      else answer 0 0
  | _ => answer 0 0
  end.

Lemma booting_attach : attach_ok booting.
Proof.
  intros h p op (h1 & h2 & op1 & -> & Ho1 & _) Ho. unfold booting.
  assert (Hop : forall o, is_attach o -> (o =? PTRACE_ATTACH) || (o =? PTRACE_SEIZE) = true).
  { intros o [-> | ->]; done. }
  rewrite (Hop op Ho).
  assert (Hb : attached_before (h1 ++ EReq (RPtrace op1 p 0 0) :: h2) p = true).
  { unfold attached_before. rewrite existsb_app. simpl. by rewrite (Hop op1 Ho1), Z.eqb_refl, orb_true_r. }
  rewrite Hb. simpl. lia.
Qed.
Lemma booting_kernel : kernel_ok booting.
Proof.
  split.
  - intros h q o. unfold booting. repeat case_match; (split; [done|]); simpl; unfold is_s32; lia.
  - intros h p. unfold booting. cbn [andb orb Z.eqb]. destruct (Z.eqb_spec (s32 p) p) as [E|E]; simpl.
    + rewrite <- E at 1. apply s32_range.
    + done.
Qed.

Lemma booting_fork h : r_ret (booting h RFork) <> 0.
Proof. simpl. lia. Qed.
Lemma booting_msg opt : leaders_exec booting opt.
Proof.
  intros l r _ (h & q & o & h' & _ & _ & ->) He. revert He. unfold booting.
  repeat case_match; vm_compute; try discriminate; intros [=].
Qed.
Lemma booting_calm h : r_val (booting h RIntr) = 0.
Proof. done. Qed.

Definition demo_machine : machine :=
  mk_machine (fun _ => None) (fun _ => None) 1000 1000 1000 4 (Z.shiftl 3 16) (fun _ => true).
Definition demo_files : files :=
  mk_files (fun p => if String.eqb p "/bin/true" then Some (mk_status 0x81ed 0 0) else None) None
    (Some "/usr/bin:/bin") "".

Lemma init_starts_the_loop_witness :
  exists opt c s, init booting quiet_world demo_machine demo_files ["-p"; "7,7"; "-o"; "log"] (tracer0 5) =
    Ret (opt, c) s /\ (pid <$> tcbtab s) = [7; 0; 0; 0; 0] /\ wf_options opt /\ loop_inv opt s.
Proof.
  destruct (init booting quiet_world demo_machine demo_files ["-p"; "7,7"; "-o"; "log"] (tracer0 5))
    as [[opt c] s| |] eqn:E; [|vm_compute in E; discriminate E..].
  exists opt, c, s. split; [reflexivity|].
  assert (Hff : (pid <$> tcbtab s) = [7; 0; 0; 0; 0] /\ followfork opt = 0).
  { vm_compute in E. injection E as <- _ <-. split; reflexivity. }
  split; [apply Hff|].
  destruct (init_starts_the_loop booting quiet_world demo_machine demo_files
              ["-p"; "7,7"; "-o"; "log"] 5 opt c s booting_attach) as (H1 & _ & _ & _ & H2).
  - intros h. apply booting_fork.
  - reflexivity.
  - lia.
  - exact E.
  - split; [exact H1|]. destruct H2 as [(h & h' & _ & H2)|(_ & _ & H2)].
    + destruct H2. apply booting_calm.
    + apply H2. rewrite (proj2 Hff). reflexivity.
Defined.

(** The variable interrupted is never reset: once it is seen set, it stays set. *)
Definition stays_interrupted (oracle : list event -> request -> reply) : Prop := forall h evs,
  r_val (oracle h RIntr) <> 0 -> r_val (oracle (h ++ evs) RIntr) <> 0.

(** An interrupted start makes no rounds. *)
Lemma interrupted_stops oracle opt w s s' :
  stays_interrupted oracle -> interrupted_in oracle (log s) -> rtc (step oracle opt w) s s' -> s' = s.
Proof.
  intros Hst (h & h' & Hl & Hi) Hr. destruct Hr as [s|s s1 s2 Hs _]; [done|]. exfalso.
  destruct Hs as [s s1 _ Hrun]. specialize (Hst h (EReq RIntr :: h') Hi). rewrite <- Hl in Hst.
  apply Z.eqb_neq in Hst. revert Hrun. unfold iteration, interrupted, mbind at 1, M_bind at 1.
  unfold mbind at 1, M_bind at 1, ask_kernel at 1. cbn [emit mret M_ret]. by rewrite Hst.
Qed.

(** C3: from the command line to every line of the log.  When the processes share
    one log (fewer than two -f), -b execve is off and no thread but a leader
    calls execve, every state that the whole program reaches, from init through
    any number of rounds of the event loop, has at most one unfinished line,
    that of printing_tcp, and a sound table; only a start that was interrupted
    may leave processes that are not attached yet, and then there are no
    rounds. *)
Theorem program_logs_in_order oracle w pc fs args argc opt c s0 s :
  attach_ok oracle -> kernel_ok oracle -> (forall h, r_ret (oracle h RFork) <> 0) ->
  leaders_exec oracle opt -> stays_interrupted oracle -> 0 < getpid pc -> (0 < argc)%nat ->
  init oracle w pc fs args (tracer0 argc) = Ret (opt, c) s0 ->
  detach_on_execve opt = false -> followfork opt < 2 ->
  rtc (step oracle opt (world_of c w)) s0 s ->
  (wf_tab s \/ s = s0 /\ interrupted_in oracle (log s0)) /\
  (at_bol (text_of Shared (log s)) = false ->
   exists i t, printing_tcp s = Some i /\ tcbtab s !! i = Some t /\ curcol t <> 0 /\
     forall j u, tcbtab s !! j = Some u -> curcol u <> 0 -> j = i).
Proof.
  intros Ha Hk Hf Hm Hint Hp Hargc Hrun Hd Hff Hr.
  pose proof (init_attaches oracle w pc fs Hf Hp Ha args _ (tracer0_fresh argc Hargc)) as H.
  rewrite Hrun in H. destruct H as [Ho [Hs [Hi|Hw]]].
  - pose proof (interrupted_stops oracle opt (world_of c w) s0 s Hint Hi Hr) as ->.
    split; [by right|]. by rewrite (su_log _ _ _ Hs).
  - pose proof (reached_loop_inv oracle opt (world_of c w) s0 s Hk Ho Hd Hff Hm
                  (all_attached_loop opt s0 (conj Hs Hw) Hff) Hr) as Hl.
    split; [left; apply Hl|by apply (loop_inv_one_line opt)].
Qed.

Lemma program_logs_in_order_witness :
  exists opt c s0 s,
    init booting quiet_world demo_machine demo_files ["-p"; "7,7"; "-o"; "log"] (tracer0 5) =
      Ret (opt, c) s0 /\
    iteration booting opt (world_of c quiet_world) s0 = Ret Continue s /\
    text_of Shared (log s) = "+++ exited with 0 +++" +:+ nl /\ wf_tab s.
Proof.
  destruct (init booting quiet_world demo_machine demo_files ["-p"; "7,7"; "-o"; "log"] (tracer0 5))
    as [[opt c] s0| |] eqn:E; [|vm_compute in E; discriminate E..].
  destruct (iteration booting opt (world_of c quiet_world) s0) as [fl s| |] eqn:E1;
    [|vm_compute in E; injection E as <- <- <-; vm_compute in E1; discriminate E1..].
  assert (Hx : nprocs s0 <> 0 /\ fl = Continue /\ text_of Shared (log s) = "+++ exited with 0 +++" +:+ nl /\
            detach_on_execve opt = false /\ followfork opt = 0).
  { vm_compute in E. injection E as <- <- <-. vm_compute in E1. injection E1 as <- <-.
    split; [discriminate|]. repeat split. }
  destruct Hx as (H0 & -> & Htxt & Hd & Hff). exists opt, c, s0, s.
  split; [reflexivity|]. split; [exact E1|]. split; [exact Htxt|].
  destruct (program_logs_in_order booting quiet_world demo_machine demo_files ["-p"; "7,7"; "-o"; "log"] 5
           opt c s0 s booting_attach booting_kernel) as [[Hwf|[_ (h & h' & _ & Hi)]] _].
  - intros h. apply booting_fork.
  - apply booting_msg.
  - intros h evs Hi. destruct Hi. apply booting_calm.
  - reflexivity.
  - lia.
  - exact E.
  - exact Hd.
  - rewrite Hff. reflexivity.
  - apply rtc_once. constructor; [exact H0|exact E1].
  - exact Hwf.
  - destruct Hi. apply booting_calm.
Defined.
