(* ===== verification/Cmdline.v ===== *)
(** * The command line of alice-record, and where the program is found

    What init makes of the options that alice-record gives, and the search of
    startup_child through PATH. *)

From S2P Require Import Prelude Timeval Xlat Quote Tracee Decode Io Options Signal Status Qual Mmap Count.
From S2P Require Import Tcb Regs Log Table Pathtrace Syscall Frame Line Stops Trace Init Startup Loop Rounds Started.
Local Open Scope string_scope.
Local Open Scope list_scope.
Local Open Scope Z_scope.

(** ** The command line of alice-record *)

(** workload_strace_command *)
Definition workload_strace_command (out : string) (cmd : list string) : list string :=
  ["-k"; "-s"; "0"; "-ff"; "-tt"; "-o"; out] ++ cmd.

(** What the options set, with the qualifiers [q] of the start. *)
Definition recording (out : string) (q : quals) : config :=
  with_outfname (Some out) (with_tflag 2 (with_followfork 2 (with_max_strlen 0
    (with_stacktraces true (with_quals q config0))))).

Lemma getopt_recording out filename args :
  match filename with String "-" (String _ _) => False | _ => True end ->
  getopt (workload_strace_command out (filename :: args)) =
    ([Opt "k" ""; Opt "s" "0"; Opt "f" ""; Opt "f" ""; Opt "t" ""; Opt "t" ""; Opt "o" out], filename :: args).
Proof.
  intros Hf. assert (Hg : getopt (filename :: args) = ([], filename :: args)).
  { destruct filename as [|ch [|ch' f]]; [done|by destruct ch as [[] [] [] [] [] [] [] []]|].
    by destruct ch as [[] [] [] [] [] [] [] []]. }
  unfold workload_strace_command. revert Hg. generalize (filename :: args). intros rest Hg.
  simpl. by rewrite Hg.
Qed.

Lemma handle_recording pc sysent out q s :
  handle_options pc sysent
    [Opt "k" ""; Opt "s" "0"; Opt "f" ""; Opt "f" ""; Opt "t" ""; Opt "t" ""; Opt "o" out]
    (with_quals q config0) s = Ret (recording out q) s.
Proof. reflexivity. Qed.

Definition always : tracer -> Prop := fun _ => True.
Lemma hoare_always {A} (c : M A) : hoare always c (fun _ => always).
Proof. intros s _. by destruct (c s). Qed.
Lemma hoare_value {A} (c : M A) (phi : A -> Prop) {B} (k : A -> M B) (Q : B -> tracer -> Prop) :
  hoare always c (fun x _ => phi x) -> (forall x, phi x -> hoare always (k x) Q) -> hoare always (c ≫= k) Q.
Proof.
  intros Hc Hk s Hs. unfold mbind, M_bind. specialize (Hc s Hs). destruct (c s) as [x s1| |]; [|done..].
  by apply (Hk x Hc).
Qed.

Lemma defaults_quals sysent :
  hoare always (default_quals sysent config0) (fun c _ => exists q, c = with_quals q config0).
Proof.
  unfold default_quals, qualified, die. intros s _. unfold mbind, M_bind, mret, M_ret.
  repeat (case_match; simplify_eq; try done). by eexists.
Qed.

Lemma check_recording pc cmd out q :
  hoare always (check_options pc cmd (recording out q)) (fun r _ => r.1 = recording out q).
Proof.
  intros s _. unfold check_options, mbind, M_bind, gets, usage_die, mret, M_ret. simpl.
  repeat lazymatch goal with |- match (if ?b then _ else _) _ with _ => _ end => destruct b; try done end.
Qed.

Lemma open_recording oracle out q :
  hoare always (open_output oracle (recording out q)) (fun c _ => c = recording out q /\ piped out = false).
Proof.
  unfold open_output. cbn [recording c_outfname with_outfname c_followfork with_tflag with_followfork].
  destruct (piped out); [done|]. apply (hoare_value _ (fun _ => True)); [by intros s _; case_match|intros _ _].
  apply (hoare_value _ (fun _ => True)); [by intros s _; case_match|intros _ _]. by apply hoare_ret.
Qed.

(** C5: what alice-record asks for.  Its command line, -k -s 0 -ff -tt -o and the
    name of the trace before the workload, is understood as: no byte of a
    string is shown, every process has files of its own, named after the trace
    and its pid and without pid prefixes, times have microseconds, stacks are
    recorded, the tracer is quiet and is not interrupted; nothing of the
    workload's own arguments is taken for an option. *)
Theorem alice_record_options oracle w pc fs out filename args s opt c s' :
  match filename with String "-" (String _ _) => False | _ => True end ->
  init oracle w pc fs (workload_strace_command out (filename :: args)) s = Ret (opt, c) s' ->
  (getopt (workload_strace_command out (filename :: args))).2 = filename :: args /\
  opt_max_strlen opt = 0 /\ followfork opt = 2 /\ tflag opt = 2 /\ output_stacktraces opt = true /\
  use_libunwind opt = true /\ outfname opt = Some out /\ piped out = false /\
  print_pid_pfx opt = false /\ qflag opt = 1 /\ cflag opt = CFLAG_NONE /\
  detach_on_execve opt = false /\ c_opt_intr c = INTR_NEVER.
Proof.
  intros Hf Hrun. pose proof (getopt_recording out filename args Hf) as Hg. rewrite Hg. split; [done|].
  set (Q := fun (r : options * config) (_ : tracer) =>
    opt_max_strlen r.1 = 0 /\ followfork r.1 = 2 /\ tflag r.1 = 2 /\ output_stacktraces r.1 = true /\
    use_libunwind r.1 = true /\ outfname r.1 = Some out /\ piped out = false /\
    print_pid_pfx r.1 = false /\ qflag r.1 = 1 /\ cflag r.1 = CFLAG_NONE /\
    detach_on_execve r.1 = false /\ c_opt_intr r.2 = INTR_NEVER).
  assert (H : hoare always (init oracle w pc fs (workload_strace_command out (filename :: args))) Q).
  2:{ specialize (H s I). rewrite Hrun in H. exact H. }
  unfold init. eapply hoare_bind; [apply hoare_always|intros ?].
  apply (hoare_value _ _ _ _ (defaults_quals _)). intros ? [q ->]. rewrite Hg.
  apply (hoare_value _ (fun c => c = recording out q)); [by intros s1 _; rewrite handle_recording|intros ? ->].
  apply (hoare_value _ _ _ _ (check_recording _ _ _ _)). intros [c1 ids] Hc. simpl in Hc. subst c1.
  eapply hoare_bind; [apply hoare_always|intros f].
  apply (hoare_value _ _ _ _ (open_recording _ _ _)). intros c1 [-> Hp].
  apply (hoare_value _ (fun c => c = with_qflag 1 (with_opt_intr INTR_NEVER (recording out q)))).
  { intros s1 _. unfold settle. cbn [recording c_outfname with_outfname]. rewrite Hp. done. }
  intros c1 ->. eapply hoare_bind; [apply hoare_always|intros [child self]].
  do 3 (eapply hoare_bind; [apply hoare_always|intros ?]). apply hoare_ret. intros s1 _. unfold Q. simpl. done.
Qed.

Lemma alice_record_options_witness :
  exists opt c s,
    init booting quiet_world demo_machine demo_files
      (workload_strace_command "strace.out" ["true"; "-x"]) (tracer0 10) = Ret (opt, c) s /\
    opt_max_strlen opt = 0 /\ followfork opt = 2 /\ outfname opt = Some "strace.out".
Proof.
  destruct (init booting quiet_world demo_machine demo_files
              (workload_strace_command "strace.out" ["true"; "-x"]) (tracer0 10))
    as [[opt c] s| |] eqn:E; [|vm_compute in E; discriminate E..].
  exists opt, c, s. split; [reflexivity|].
  destruct (alice_record_options booting quiet_world demo_machine demo_files "strace.out" "true" ["-x"]
              (tracer0 10) opt c s I E) as (_ & H1 & H2 & _ & _ & _ & H3 & _).
  split; [exact H1|]. split; [exact H2|exact H3].
Defined.

(** ** Looking for the program *)

(** What the buffer holds for a directory. *)
Definition path_in (dir filename : string) : string :=
  (if nonempty_str dir && negb (ends_slash dir) then dir +:+ "/" else dir) +:+ filename.
(** The paths tried for the directories of PATH, an empty one being the current
    directory; too long a directory is skipped. *)
Definition tried (cwd : option string) (filename : string) (dirs : list string) : list string :=
  omap (fun d => (fun dir => path_in dir filename) <$>
          (if String.eqb d "" then cwd else if slen d >? MAXPATHLEN - 1 then None else Some d)) dirs.

Lemma search_first stat cwd filename dirs found :
  Forall (fun p => slen p + 1 <= MAXPATHLEN) (tried cwd filename dirs) ->
  search_path stat cwd dirs filename found =
    Some (match List.find (fun p => is_program (stat p)) (tried cwd filename dirs) with
          | Some p => Some p
          | None => match last (tried cwd filename dirs) with Some p => Some p | None => found end
          end).
Proof.
  revert found. induction dirs as [|d dirs IH]; intros found Hfit; [done|].
  unfold tried in *. cbn [omap list_omap search_path] in *.
  destruct (if String.eqb d "" then _ else _) as [dir|]; simpl in *; [|by apply IH].
  inversion Hfit as [|x l Hx Hl]; subst. unfold candidate. fold (path_in dir filename).
  rewrite (proj2 (Z.leb_le _ _) Hx). destruct (is_program (stat (path_in dir filename))); [done|].
  rewrite IH by done. do 2 f_equal. destruct (List.find _ _); [done|].
  match goal with |- context [last ?l] => destruct l end; [done|]. by destruct (last (_ :: _)) eqn:E; [|apply last_None in E].
Qed.

(** The length of the name is not tested: behind a directory of PATH a long one
    is copied past the end of the buffer. *)
Lemma search_overruns stat cwd d dirs filename found :
  nonempty_str d = true -> ends_slash d = false -> slen d <= MAXPATHLEN - 1 ->
  MAXPATHLEN < slen d + 1 + slen filename + 1 ->
  search_path stat cwd (d :: dirs) filename found = None.
Proof.
  intros Hne Hs Hd Hf. cbn [search_path]. destruct (String.eqb_spec d "") as [->|_]; [done|].
  rewrite Z.gtb_ltb, (proj2 (Z.ltb_ge _ _) Hd). unfold candidate. rewrite Hne, Hs. simpl andb. cbv iota.
  rewrite !slen_app. change (slen "/") with 1. rewrite (proj2 (Z.leb_gt _ _)); [done|lia].
Qed.

Definition no_colon (s : string) : Prop := char_in ":" s = false.

Lemma split_colon_app d rest : no_colon d -> split_colon (d +:+ String ":" rest) = (d, Some rest).
Proof.
  unfold no_colon. induction d as [|c d IH]; [done|]. rewrite app_String. simpl.
  intros [Hc Hd]%orb_false_iff. rewrite Hc. by rewrite IH.
Qed.
Lemma split_colon_none d : no_colon d -> split_colon d = (d, None).
Proof.
  unfold no_colon. induction d as [|c d IH]; [done|]. simpl. intros [Hc Hd]%orb_false_iff.
  rewrite Hc. by rewrite IH.
Qed.

(** The directories of a PATH in which no name has a colon and the last is not
    empty. *)
Lemma path_dirs_concat fuel dirs :
  Forall no_colon dirs -> last dirs <> Some "" -> (String.length (String.concat ":" dirs) < fuel)%nat ->
  path_dirs fuel (String.concat ":" dirs) = dirs.
Proof.
  revert fuel. induction dirs as [|d dirs IH]; intros fuel Hc Hl Hf; [by destruct fuel|].
  inversion Hc as [|x l Hd Hds]; subst. destruct fuel as [|fuel]; [lia|].
  destruct dirs as [|d' dirs].
  - simpl in *. destruct d as [|c d]; [done|]. by rewrite split_colon_none.
  - change (String.concat ":" (d :: d' :: dirs)) with (d +:+ String ":" (String.concat ":" (d' :: dirs))) in *.
    set (rest := String.concat ":" (d' :: dirs)) in *.
    assert (Hr : path_dirs fuel rest = d' :: dirs).
    { apply IH; [done|by destruct dirs|]. pose proof (slen_app d (String ":" rest)) as H. unfold slen in H. simpl in H. lia. }
    rewrite <- Hr. clearbody rest. destruct d as [|c d].
    + done.
    + rewrite app_String. cbn [path_dirs]. rewrite <- app_String. by rewrite split_colon_app.
Qed.

(** C30: the program is looked for like execvp does.  A name without a slash is
    tried in the directories of PATH, as -E changed it, from left to right, an
    empty name being the current directory; the first path with a regular file
    that somebody may execute is taken.  When there is none the last path tried
    is, and when none was tried the bytes that happen to be in the buffer. *)
Theorem program_found_in_path fs filename c dirs s :
  has_slash filename = false -> getenv_PATH (env_path fs) (c_environ c) = Some (String.concat ":" dirs) ->
  Forall no_colon dirs -> last dirs <> Some "" ->
  Forall (fun p => slen p + 1 <= MAXPATHLEN) (tried (cwd fs) filename dirs) ->
  find_program fs filename c s =
    Ret (match List.find (fun p => is_program (stat_file fs p)) (tried (cwd fs) filename dirs) with
         | Some p => p
         | None => default (junk_path fs) (last (tried (cwd fs) filename dirs))
         end) s.
Proof.
  intros Hs Hp Hc Hl Hfit. unfold find_program. rewrite Hs, Hp. cbv zeta. cbn [default from_option id].
  rewrite path_dirs_concat by (done || lia). rewrite search_first by done.
  destruct (List.find _ _); [reflexivity|]. destruct (last (tried _ _ _)); reflexivity.
Qed.

Lemma program_found_in_path_witness :
  find_program demo_files "true" config0 (tracer0 1) = Ret "/bin/true" (tracer0 1).
Proof.
  apply (program_found_in_path demo_files "true" config0 ["/usr/bin"; "/bin"] (tracer0 1)).
  - reflexivity.
  - reflexivity.
  - repeat constructor.
  - discriminate.
  - repeat constructor; vm_compute; discriminate.
Defined.
