(* ===== verification/Dump.v ===== *)
(** * What reaches the byte dump

    Of all system calls only the write family adds to the byte dump, and only on
    its entry; nothing else in the tracer does.  [next_stop] and [before_decoder]
    name the states that a round passes through on its way to the decoder. *)

From stdpp Require Import gmap.
From S2P Require Import Prelude Timeval Xlat Quote Tracee Decode Io Args Mem Options Signal Time File Stat Sigcalls Desc Resource Ipc Process Net System Quota Device Sockio Term Mtd Modules Ioctl Ioctlent Decoders Status Qual Mmap Count.
From S2P Require Import Sysent Errnoent Tcb Regs Log Table Pathtrace Syscall Frame Line Stops Shipped Trace Loop.
Local Open Scope string_scope.
Local Open Scope list_scope.
Local Open Scope Z_scope.

(** ** Decoders that leave the dump alone *)

Definition Dry {A} (e : denv) (c : D A) : Prop := forall s,
  match c e s with Some (_, s') => d_dump s' = d_dump s | None => True end.

Section dry.
Context (e : denv).

Lemma Dry_ret {A} (x : A) : Dry e (mret x).
Proof. done. Qed.
Lemma Dry_bind {A B} (c : D A) (k : A -> D B) : Dry e c -> (forall x, Dry e (k x)) -> Dry e (c ≫= k).
Proof.
  intros Hc Hk s. unfold mbind, D_bind. specialize (Hc s). destruct (c e s) as [[x s1]|]; [|done].
  specialize (Hk x s1). destruct (k x e s1) as [[y s2]|]; [|done]. congruence.
Qed.
Lemma Dry_ask_bind {B} (k : denv -> D B) : Dry e (k e) -> Dry e (ask ≫= k).
Proof. done. Qed.
Lemma Dry_abort {A} : Dry e (abort : D A).
Proof. done. Qed.
Lemma Dry_lift {A} (c : P A) : Dry e (lift c).
Proof. intros s. unfold lift. by destruct (c (d_p s)). Qed.
Lemma Dry_arg i : Dry e (arg i).
Proof. done. Qed.
Lemma Dry_tp t : Dry e (tp t).
Proof. apply Dry_lift. Qed.
Lemma Dry_put_auxstr a : Dry e (put_auxstr a).
Proof. done. Qed.
Lemma Dry_get_auxstr : Dry e get_auxstr.
Proof. done. Qed.
Lemma Dry_drop_cache : Dry e drop_cache.
Proof. done. Qed.
Lemma Dry_put_rval v : Dry e (put_rval v).
Proof. done. Qed.
Lemma Dry_get_strbuf : Dry e get_strbuf.
Proof. done. Qed.
Lemma Dry_put_strbuf : Dry e put_strbuf.
Proof. done. Qed.
Lemma Dry_decodes {A} (c : D A) Q : Decodes e c Q -> Dry e c.
Proof. intros Hc s. destruct (Hc s) as (x & s' & -> & _ & Ho). apply (op_dump _ _ Ho). Qed.
Lemma Dry_quiet {A} (c : D A) : Quiet c -> Dry e c.
Proof. intros Hc s. specialize (Hc e s). destruct (c e s) as [[x s']|]; [|done]. apply Hc. Qed.
End dry.

Create HintDb dry.
#[export] Hint Resolve Dry_ret Dry_abort Dry_lift Dry_arg Dry_tp Dry_put_auxstr Dry_get_auxstr
  Dry_drop_cache Dry_put_rval Dry_get_strbuf Dry_put_strbuf : dry.

(** Unfold a decoder down to the primitives. *)
Ltac dry_head t := lazymatch t with ?f _ => dry_head f | _ => t end.
Ltac dry_upto := fail.
Ltac dry_getdents := fail.
Ltac dry_step :=
  lazymatch goal with
  | |- forall _, _ => intro
  | |- Dry _ (ask ≫= _) => apply Dry_ask_bind
  | |- Dry _ (_ ≫= _) => apply Dry_bind
  | |- Dry _ (upto _ _ _) => dry_upto
  | |- Dry _ (getdents_loop _ _ _ _ _) => dry_getdents
  | |- Dry _ (match ?x with _ => _ end) => destruct x
  | |- Dry _ (let _ := _ in _) => cbv zeta
  | |- Dry ?e ?c => let h := dry_head c in unfold h
  end.
Ltac dry := repeat first [ solve [auto with dry nocore] | progress dry_step ].

Section shared.
Context `{K : Kernel} (e : denv).

Lemma Dry_umoven a n : Dry e (d_umoven a n).
Proof. dry. Qed.
Lemma Dry_umovestr a n : Dry e (d_umovestr a n).
Proof. dry. Qed.
Lemma Dry_umove a n : Dry e (umove a n).
Proof. unfold umove. dry. Qed.
Lemma Dry_printstr a l : Dry e (printstr a l).
Proof. unfold printstr, printstr_quote. dry. Qed.
End shared.

(** The loops. *)
Section loops.
Context `{K : Kernel} (e : denv).

Lemma Dry_upto {A B} (body : A -> D (A + B)) p a : (forall a, Dry e (body a)) -> Dry e (upto body p a).
Proof. intros Hb. revert a. induction p; intros; cbn [upto]; dry. Qed.
Lemma Dry_getdents_loop fuel entry buf i dents :
  (forall b j, Dry e (entry b j)) -> Dry e (getdents_loop fuel entry buf i dents).
Proof. intros He. revert i dents. induction fuel; intros; cbn [getdents_loop]; dry. Qed.
Lemma Dry_select_set_loop n j fds sep : Dry e (select_set_loop n j fds sep).
Proof. revert j sep. induction n; intros; cbn [select_set_loop]; dry. Qed.
Lemma Dry_select_member_loop n i j fds first o : Dry e (select_member_loop n i j fds first o).
Proof. revert j first o. induction n; intros; cbn [select_member_loop]; dry. Qed.
Lemma Dry_tprint_iov_loop fuel addr ae fin dec cur size :
  Dry e (tprint_iov_loop fuel addr ae fin dec cur size).
Proof. revert cur size. induction fuel; intros; cbn [tprint_iov_loop]; dry. Qed.
Lemma Dry_module_names n first off data : Dry e (module_names n first off data).
Proof. revert first off. induction n; intros; cbn [module_names]; dry. Qed.
Lemma Dry_module_symbols n idx data : Dry e (module_symbols n idx data).
Proof. revert idx. induction n; intros; cbn [module_symbols]; dry. Qed.
Lemma Dry_rnvol_loop n c rnvol : Dry e (rnvol_loop n c rnvol).
Proof. revert c. induction n; intros; cbn [rnvol_loop]; dry. Qed.
Lemma Dry_scm_fds n off len first cmsg : Dry e (scm_fds n off len first cmsg).
Proof. revert off first. induction n; intros; cbn [scm_fds]; dry. Qed.
Lemma Dry_ifconf_loop n i a2 ifra : Dry e (ifconf_loop n i a2 ifra).
Proof. revert i. induction n; intros; cbn [ifconf_loop]; dry. Qed.
End loops.
Ltac dry_upto ::= apply Dry_upto.
Ltac dry_getdents ::= apply Dry_getdents_loop.
#[export] Hint Resolve @Dry_select_set_loop @Dry_select_member_loop @Dry_tprint_iov_loop
  @Dry_module_names @Dry_module_symbols @Dry_rnvol_loop @Dry_scm_fds @Dry_ifconf_loop : dry.

Lemma Dry_mmsg_loop `{K : Kernel} ifname malloc_ok e n addr i len :
  Dry e (mmsg_loop ifname malloc_ok n addr i len).
Proof. revert addr i. induction n; intros; cbn [mmsg_loop]; dry. Qed.
#[export] Hint Resolve @Dry_mmsg_loop : dry.

(** ** The table of decoders *)

Definition write_family : list string := ["sys_write"; "sys_writev"; "sys_pwrite"; "sys_pwritev"].

Section table.
Context `{K : Kernel} (localtime : Z -> option tm) (malloc_ok vla_ok : Z -> bool).
Context (ifname : Z -> option string) (e : denv).
Context (Hok : env_ok e) (Hmalloc : forall n, malloc_ok n = true -> n < 2 ^ 48).

Definition spares_dump (d : string * D Z) : Prop :=
  (d.1 ∈ write_family -> d_entering e = false) -> Dry e d.2.

Lemma Dry_write_exit : d_entering e = false ->
  Dry e sys_write /\ Dry e sys_writev /\ Dry e sys_pwrite /\ Dry e sys_pwritev.
Proof.
  intros He. unfold sys_write, sys_writev, sys_pwrite, sys_pwritev.
  split_and!; apply Dry_ask_bind; rewrite He; dry.
Qed.

Lemma special_spare : Forall spares_dump (special_decoders malloc_ok ifname vla_ok ioctlent0).
Proof.
  unfold special_decoders, spares_dump.
  repeat lazymatch goal with
  | |- Forall _ [] => constructor
  | |- Forall _ (_ :: _) => apply Forall_cons; split; cbn [fst snd]
  end; intros Hf.
  1-4: apply Dry_write_exit, Hf; unfold write_family; set_solver.
  all: clear Hf; solve [dry].
Qed.

Lemma all_spare :
  Forall spares_dump (plain_decoders localtime malloc_ok (fun _ => errnoent0) ++
                      special_decoders malloc_ok ifname vla_ok ioctlent0).
Proof.
  apply Forall_app. split; [|apply special_spare].
  eapply Forall_impl; [exact (plain_decoders_ok localtime malloc_ok (fun _ => errnoent0) e Hok Hmalloc)|].
  intros d Hd _. exact (Dry_decodes e _ _ Hd).
Qed.
End table.

(** The decoder of a call adds to the dump on the entry of the write family
    only. *)
Lemma shipped_dry localtime malloc_ok vla_ok ifname w t K e :
  env_ok e -> (forall n, malloc_ok n = true -> n < 2 ^ 48) ->
  (ent_func t ∈ write_family -> d_entering e = false) ->
  Dry e (call_sys_func (shipped localtime malloc_ok vla_ok ifname w) t K).
Proof.
  intros Hok Hm Hf. unfold call_sys_func, printargs, printargs_lu, printargs_ld.
  do 3 (destruct (fn_is t _); [unfold printargs_fmt; dry|]).
  unfold shipped, shipped_decoder, sys_call, decoder_named.
  destruct (List.find _ _) as [[f c]|] eqn:Hfind; [|apply Dry_abort]. simpl.
  apply List.find_some in Hfind as [Hin He]. simpl in He. apply String.eqb_eq in He. subst f.
  pose proof (all_spare localtime malloc_ok vla_ok ifname e Hok Hm) as Hall.
  rewrite List.Forall_forall in Hall. exact (Hall _ Hin Hf).
Qed.

(** ** Steps that do not write the dump *)

Definition no_dump (e : event) : Prop := match e with EDump _ _ => False | _ => True end.

(** [b]: the current process stays the same. *)
Definition undumped (b : bool) (s s' : tracer) : Prop :=
  (exists evs, log s' = log s ++ evs /\ Forall no_dump evs) /\
  (b = true -> current_tcp s' = current_tcp s).
Definition Undumped (b : bool) {A} (c : M A) : Prop := forall s,
  match c s with Ret _ s' => undumped b s s' | _ => True end.

#[global] Instance undumped_preorder b : PreOrder (undumped b).
Proof.
  split.
  - intros s. split; [exists []|done]. by rewrite app_nil_r.
  - intros s1 s2 s3 [(e1 & H1 & F1) C1] [(e2 & H2 & F2) C2]. split.
    + exists (e1 ++ e2). rewrite H2, H1, app_assoc. split; [done|by apply Forall_app].
    + intros Hb. rewrite C2, C1; done.
Qed.

Section undumped.
Context (b : bool).

Lemma Undumped_ret {A} (x : A) : Undumped b (mret x).
Proof. intros s. simpl. reflexivity. Qed.
Lemma Undumped_bind {A B} (c : M A) (k : A -> M B) :
  Undumped b c -> (forall x, Undumped b (k x)) -> Undumped b (c ≫= k).
Proof.
  intros Hc Hk s. unfold mbind, M_bind. specialize (Hc s). destruct (c s) as [x s1| |]; [|done..].
  specialize (Hk x s1). destruct (k x s1); [|done..]. by etrans.
Qed.
Lemma Undumped_gets {A} (f : tracer -> A) : Undumped b (gets f).
Proof. intros s. simpl. reflexivity. Qed.
Lemma Undumped_get : Undumped b get.
Proof. apply (Undumped_gets id). Qed.
Lemma Undumped_tcb_of i : Undumped b (tcb_of i).
Proof. apply Undumped_gets. Qed.
Lemma Undumped_exit {A} code : Undumped b (exit_ code : M A).
Proof. done. Qed.
Lemma Undumped_die {A} t : Undumped b (die_msg t : M A).
Proof. done. Qed.
Lemma Undumped_silent {A} (x : A) (f : tracer -> tracer) :
  (forall s, log (f s) = log s /\ (b = true -> current_tcp (f s) = current_tcp s)) ->
  Undumped b (fun s => Ret x (f s)).
Proof.
  intros Hf s. destruct (Hf s) as [H1 H2]. split; [exists []|done]. by rewrite H1, app_nil_r.
Qed.
Lemma Undumped_modify_glb f : Undumped b (modify_glb f).
Proof. by apply Undumped_silent. Qed.
Lemma Undumped_set_printing p : Undumped b (set_printing p).
Proof. by apply Undumped_silent. Qed.
Lemma Undumped_put_tab t n : Undumped b (put_tab t n).
Proof. by apply Undumped_silent. Qed.
Lemma Undumped_upd i f : Undumped b (upd_tcb i f).
Proof. by apply Undumped_silent. Qed.
Lemma Undumped_emit e : no_dump e -> Undumped b (emit e).
Proof. intros He s. split; [exists [e]|done]. split; [done|by repeat constructor]. Qed.
Lemma Undumped_ask oracle r : Undumped b (ask_kernel oracle r).
Proof. intros s. split; [exists [EReq r]|done]. split; [done|by repeat constructor]. Qed.
End undumped.

Lemma Undumped_set_current p : Undumped false (set_current p).
Proof. by apply Undumped_silent. Qed.
Lemma Undumped_weaken b {A} (c : M A) : Undumped true c -> Undumped b c.
Proof.
  intros Hc s. specialize (Hc s). destruct (c s); [|done..]. destruct Hc as [H1 H2]. split; [done|by intros _; apply H2].
Qed.

Create HintDb undumped.
Create HintDb stays.
#[export] Hint Resolve Undumped_ret Undumped_gets Undumped_get Undumped_tcb_of Undumped_exit Undumped_die
  Undumped_modify_glb Undumped_set_printing Undumped_put_tab Undumped_upd Undumped_ask
  Undumped_set_current : undumped.

Ltac undumped_step :=
  lazymatch goal with
  | |- Undumped _ (emit _) => apply Undumped_emit; exact I
  | |- Undumped _ (_ ≫= _) => apply Undumped_bind; [|intros ?]
  | |- Undumped _ (match ?x with _ => _ end) => destruct x
  | |- Undumped _ (let _ := _ in _) => cbv zeta
  | |- Undumped _ (when ?b _) => destruct b; unfold when
  | |- Undumped _ ?c => let h := dry_head c in unfold h
  end.
Ltac undumped := repeat first [ solve [auto with undumped nocore] | undumped_step ].

(** Printing the effects of a decoder that left the dump alone. *)
Section stops.
Context (oracle : list event -> request -> reply) (opt : options) (w : world).

Lemma Undumped_put_effects i st : d_dump st = [] -> Undumped true (put_effects i st).
Proof.
  intros Hd. unfold put_effects.
  assert (bool_decide (d_dump st = []) = true) as -> by (by apply bool_decide_eq_true).
  change (when (negb true) (tdump (d_dump st))) with (mret tt : M unit). undumped.
Qed.

Lemma Undumped_run_D {A} i (c : Kernel -> D A) :
  (forall K e, Dry e (c K)) -> Undumped true (run_D opt w i c).
Proof.
  intros Hc s. unfold run_D, mbind, M_bind, get, tcb_of, gets.
  set (t := default zero_tcb _). specialize (Hc (kern w (log s) (pid t)) (denv_of opt w s t) (dstate_of s t)).
  destruct (c _ _ _) as [[x st]|]; [|done]. pose proof (Undumped_put_effects i st Hc s) as H.
  destruct (put_effects i st s); [|done..]. exact H.
Qed.

Lemma Dry_upeek `{K : Kernel} e p off : Dry e (lift (upeek p off)).
Proof. apply Dry_lift. Qed.
Lemma Dry_pathtrace `{K : Kernel} e paths s : Dry e (pathtrace_match paths s).
Proof. apply Dry_quiet. auto with quiet. Qed.
Lemma Dry_read_args `{K : Kernel} e n a : Dry e (read_args n a).
Proof. apply Dry_quiet. auto with quiet. Qed.
Lemma Dry_dumpstr `{K : Kernel} e a n : Dry e (dumpstr a n).
Proof. dry. Qed.
Lemma Dry_dumpiov_loop `{K : Kernel} e n i bs : Dry e (dumpiov_loop n i bs).
Proof. revert i bs. induction n; intros; cbn [dumpiov_loop]; dry. Qed.
Hint Resolve Dry_dumpiov_loop : dry.
Lemma Dry_dumpiov `{K : Kernel} e n a : Dry e (dumpiov n a).
Proof. dry. Qed.
Lemma Dry_printargs e n : Dry e (printargs n).
Proof. dry. Qed.
Hint Extern 2 (Undumped true (run_D _ _ _ _)) =>
  apply Undumped_run_D; intros ? ?; first [apply Dry_upeek | apply Dry_pathtrace | apply Dry_read_args
    | apply Dry_dumpstr | apply Dry_dumpiov | apply Dry_printargs] : undumped.

Lemma Undumped_libunwind_loop c n ips : Undumped true (libunwind_loop w c n ips).
Proof. revert n. induction ips as [|[ip|] ips IH]; intros n; cbn [libunwind_loop]; undumped. Qed.
Hint Resolve Undumped_libunwind_loop : undumped.
Lemma Undumped_output_stacktrace r i : Undumped true (output_stacktrace oracle opt w r i).
Proof. undumped. Qed.
Lemma Undumped_setbpt i : Undumped true (setbpt oracle opt w i).
Proof. undumped. Qed.
Lemma Undumped_fork_exec i : Undumped true (syscall_fixup_for_fork_exec oracle opt w i).
Proof. undumped. Qed.
Lemma Undumped_dumpio i : Undumped true (dumpio opt w i).
Proof. undumped. Qed.
Lemma Undumped_sys_exit i : Undumped true (sys_exit opt i).
Proof. undumped. Qed.
Hint Resolve Undumped_output_stacktrace Undumped_fork_exec Undumped_dumpio Undumped_sys_exit : undumped.

(** ** The way to the decoder *)

(** Computations with the same outcome. *)
Definition meq {A} (c d : M A) : Prop := forall s, c s = d s.

Lemma meq_bind {A B} (c : M A) (k k' : A -> M B) : (forall x, meq (k x) (k' x)) -> meq (c ≫= k) (c ≫= k').
Proof. intros H s. unfold mbind, M_bind. destruct (c s) as [x s1| |]; [apply H|done..]. Qed.
Lemma meq_assoc {A B C} (c : M A) (k : A -> M B) (f : B -> M C) d :
  meq (c ≫= fun x => k x ≫= f) d -> meq ((c ≫= k) ≫= f) d.
Proof. intros H s. rewrite <- H. unfold mbind, M_bind. by destruct (c s). Qed.
Lemma meq_refl {A} (c : M A) : meq c c.
Proof. by intros s. Qed.
Lemma meq_sym {A} (c d : M A) : meq c d -> meq d c.
Proof. intros H s. by rewrite H. Qed.

Lemma meq_ret {A B} (x : A) (k : A -> M B) d : meq (k x) d -> meq (mret x ≫= k) d.
Proof. intros H s. by rewrite <- H. Qed.
Lemma meq_if {A} (b : bool) (c d e : M A) : (b = true -> meq c e) -> (b = false -> meq d e) -> meq (if b then c else d) e.
Proof. destruct b; auto. Qed.

Ltac meq_step :=
  lazymatch goal with
  | |- meq (?c ≫= _) (?c ≫= _) => apply meq_bind; intros ?
  | |- meq ((_ ≫= _) ≫= _) _ => apply meq_assoc
  | |- meq _ ((_ ≫= _) ≫= _) => apply meq_sym, meq_assoc, meq_sym
  | |- meq (mret _ ≫= _) _ => apply meq_ret
  | |- meq _ (mret _ ≫= _) => apply meq_sym, meq_ret, meq_sym
  | |- meq ((if ?b then _ else _) ≫= _) _ => destruct b
  | |- meq _ (if ?b then _ else _) => destruct b
  | |- _ => apply meq_refl
  end.
Ltac meq := cbv zeta; repeat meq_step.

(** A round of the loop up to the handling of the status: the block, the
    process and the status, unless the round ends before. *)
Definition next_stop : M (flow + nat * Z * Z) :=
  intr ← interrupted oracle;
  if negb (intr =? 0) then mret (inl (Return 0))
  else
    r ← wait_for_stop oracle w;
    let p := r_ret r in
    let status := r_val r in
    if p <? 0 then
      if r_errno r =? EINTR then mret (inl Continue)
      else if r_errno r =? ECHILD then mret (inl (Return 0))
      else _ ← perror_msg w (r_errno r) "wait"; mret (inl (Return (-1)))
    else
      g ← gets glb;
      if p =? popen_pid g then
        _ ← when (WIFEXITED status || WIFSIGNALED status) (modify_glb (set_popen_pid 0));
        mret (inl Continue)
      else
        i ← find_tracee oracle opt p status;
        _ ← clear_regs;
        _ ← (if WIFSTOPPED status then get_regs oracle p else mret tt);
        i ← exec_switch oracle opt w i p (event_of status);
        _ ← exec_detach oracle opt w i (event_of status);
        _ ← set_current (Some i);
        _ ← when (negb (cflag opt =? CFLAG_NONE))
              (upd_tcb i (fun t => set_times (r_tv r) (tv_sub (r_tv r) (stime t)) (etime t) t));
        mret (inr (i, p, status)).

Lemma iteration_next_stop :
  meq (iteration oracle opt w)
    (x ← next_stop; match x with inl fl => mret fl | inr (i, p, status) => handle_status oracle opt w i p status end).
Proof. apply meq_sym. unfold next_stop, iteration. meq. Qed.

(** show_entry up to the decoder. *)
Definition entry_head (i : nat) : M unit :=
  _ ← printleader oracle opt (hms w) i;
  t ← tcb_of i;
  _ ← tprints (call_name t +:+ "(");
  when (output_stacktraces opt)
    (output_stacktrace oracle opt w
       (negb (undefined t) && negb (existsb (String.eqb (ent_name t)) no_stack_names)) i).

(** trace_syscall_entering up to the decoder: its result, unless it comes
    there. *)
Definition before_decoder (i : nat) : M (Z + unit) :=
  g ← gets glb;
  scno_good ← (if negb (get_regs_error g =? 0) then mret (-1) else get_scno opt w i);
  if scno_good =? 0 then mret (inl scno_good)
  else if scno_good =? 1 then
    res ← syscall_fixup_on_sysenter;
    if res =? 0 then mret (inl res)
    else
      res ← (if res =? 1 then get_syscall_args i else mret res);
      if negb (res =? 1) then r ← entering_failed oracle opt w i scno_good res; mret (inl r)
      else
        t ← tcb_of i;
        _ ← when (fn_is t "sys_execve") (modify_glb (set_hide false));
        _ ← decode_subcall opt w i;
        _ ← when (need_fork_exec_workarounds opt) (syscall_fixup_for_fork_exec oracle opt w i);
        t ← tcb_of i;
        skip ← (if negb (has_flag (qual_flg t) QUAL_TRACE) then mret true
                else if bool_decide (paths_selected w = []) then mret false
                else
                  hit ← run_D opt w i (fun K => pathtrace_match (paths_selected w) (ent t));
                  mret (negb hit));
        if skip : bool then
          _ ← upd_tcb i (set_flags (fun f => set_flag f (Z.lor TCB_INSYSCALL TCB_FILTERED)));
          mret (inl 0)
        else
          _ ← upd_tcb i (set_flags (fun f => clear_flag f TCB_FILTERED));
          g ← gets glb;
          if (cflag opt =? CFLAG_ONLY_STATS) || hide_log_until_execve g
          then r ← entering_ret oracle opt i 0; mret (inl r)
          else _ ← entry_head i; mret (inr tt)
  else r ← entering_failed oracle opt w i scno_good scno_good; mret (inl r).

(** From the decoder on. *)
Definition from_decoder (i : nat) : M Z :=
  t ← tcb_of i;
  res ← (if has_flag (qual_flg t) QUAL_RAW && negb (fn_is t "sys_exit")
         then run_D opt w i (fun _ => printargs (nargs (ent t)))
         else call_decoder opt w i t);
  entering_ret oracle opt i res.

Lemma entering_before_decoder i :
  meq (trace_syscall_entering oracle opt w i)
    (x ← before_decoder i; match x with inl r => mret r | inr _ => from_decoder i end).
Proof.
  apply meq_sym. unfold before_decoder, trace_syscall_entering, entering_known, show_entry, entry_head, from_decoder.
  meq. all: intros s; unfold mbind, M_bind; by case_match.
Qed.

Lemma Undumped_restart b op i sig : Undumped b (ptrace_restart oracle w op i sig).
Proof. undumped. Qed.
Hint Resolve Undumped_restart : undumped.
Lemma Undumped_clearbpt b i : Undumped b (clearbpt oracle i).
Proof. undumped. Qed.
Hint Resolve Undumped_clearbpt : undumped.
Lemma Undumped_detach_loop b fuel i e : Undumped b (detach_loop oracle opt w fuel i e).
Proof. revert e. induction fuel; intros e; cbn [detach_loop]; undumped. Qed.
Hint Resolve Undumped_detach_loop : undumped.
Lemma Undumped_droptcb i : Undumped false (droptcb opt i).
Proof. undumped. Qed.
Hint Resolve Undumped_droptcb : undumped.
Lemma Undumped_detach i : Undumped false (detach oracle opt w i).
Proof. undumped. Qed.
Hint Resolve Undumped_detach : undumped.
Lemma Undumped_cleanup_from n i sig : Undumped false (cleanup_from oracle opt w n i sig).
Proof. revert i. induction n; intros i; cbn [cleanup_from]; undumped. Qed.
Hint Resolve Undumped_cleanup_from : undumped.
Lemma Undumped_cleanup : Undumped false (cleanup oracle opt w).
Proof. undumped. Qed.
Hint Resolve Undumped_cleanup : undumped.
Lemma Undumped_restart_tracee op i sig : Undumped false (restart_tracee oracle opt w op i sig).
Proof. undumped. Qed.
Hint Resolve Undumped_restart_tracee : undumped.

Lemma startup_stop_stays i s :
  current_tcp s = Some i ->
  match startup_stop oracle opt w i s with
  | Ret ok s' => undumped false s s' /\ (ok = true -> current_tcp s' = Some i)
  | _ => True
  end.
Proof.
  intros Hs.
  assert (Hw : Undumped false (startup_stop oracle opt w i)) by undumped.
  specialize (Hw s). destruct (startup_stop oracle opt w i s) as [ok s'| |] eqn:Hrun; [|done..].
  split; [exact Hw|]. intros ->. revert Hrun.
  unfold startup_stop, mbind at 1, M_bind at 1, tcb_of, gets.
  destruct (negb _); [by intros [= <-]|].
  unfold mbind at 1, M_bind at 1, upd_tcb. set (s1 := mk_tracer _ _ _ _ _ _).
  assert (H1 : current_tcp s1 = Some i) by done. clearbody s1. clear Hw.
  unfold mbind at 1, M_bind at 1. destruct (has_flag _ TCB_BPTSET).
  - unfold mbind at 1, M_bind at 1. pose proof (Undumped_clearbpt true i s1) as Hc.
    destruct (clearbpt oracle i s1) as [r s2| |]; [|done..]. destruct Hc as [_ Hc].
    destruct (r <? 0).
    + unfold mbind, M_bind. destruct (droptcb opt i s2) as [? s3| |]; [|done..].
      by destruct (cleanup oracle opt w s3).
    + simpl. destruct (ptrace_setoptions opt =? 0); [intros [= <-]; rewrite Hc; done|].
      unfold mbind, M_bind, ptrace, ask_kernel, emit. simpl. destruct (_ && _); [done|].
      intros [= <-]. simpl. rewrite Hc; done.
  - simpl. destruct (ptrace_setoptions opt =? 0); [intros [= <-]; done|].
    unfold mbind, M_bind, ptrace, ask_kernel, emit. simpl. destruct (_ && _); [done|].
    intros [= <-]. done.
Qed.

(** Steps that do not write the dump when the current process is [i]. *)
Definition Stays (i : nat) {A} (c : M A) : Prop := forall s, current_tcp s = Some i ->
  match c s with Ret _ s' => undumped true s s' | _ => True end.

Lemma undumped_current s s' p : undumped true s s' -> current_tcp s = p -> current_tcp s' = p.
Proof. intros [_ H] <-. by apply H. Qed.
Lemma Stays_bind {A B} i (c : M A) (k : A -> M B) :
  Stays i c -> (forall x, Stays i (k x)) -> Stays i (c ≫= k).
Proof.
  intros Hc Hk s Hs. unfold mbind, M_bind. specialize (Hc s Hs). destruct (c s) as [x s1| |]; [|done..].
  specialize (Hk x s1 (undumped_current _ _ _ Hc Hs)). destruct (k x s1) as [y s2| |]; [|done..]. by etrans.
Qed.
Lemma Stays_undumped {A} i (c : M A) : Undumped true c -> Stays i c.
Proof. intros Hc s _. apply Hc. Qed.

Ltac stays :=
  repeat first
    [ solve [eauto with stays nocore]
    | solve [apply Stays_undumped; undumped]
    | lazymatch goal with
      | |- Stays _ (_ ≫= _) => apply Stays_bind; [|intros ?]
      | |- Stays _ (if ?b then _ else _) => destruct b
      | |- Stays _ (when ?b _) => destruct b; unfold when
      end ].

Lemma Stays_printleader i : Stays i (printleader oracle opt (hms w) i).
Proof.
  intros s Hs. unfold printleader, mbind at 1, M_bind at 1.
  assert (Hp : Undumped false (finish_pending opt i)) by undumped. specialize (Hp s).
  destruct (finish_pending opt i s) as [[] s1| |]; [|done..].
  unfold mbind at 1, M_bind at 1, set_printing. unfold mbind at 1, M_bind at 1, set_current.
  set (s2 := mk_tracer _ _ _ _ _ _).
  match goal with |- match ?c s2 with _ => _ end =>
    assert (Hc : Undumped true c) by undumped; specialize (Hc s2); destruct (c s2) as [x s3| |]; [|done..] end.
  destruct Hp as [(e1 & H1 & F1) _], Hc as [(e2 & H2 & F2) Hc]. split.
  - exists (e1 ++ e2). rewrite H2. simpl. rewrite H1, app_assoc. split; [done|by apply Forall_app].
  - intros _. rewrite Hc by done. by rewrite Hs.
Qed.
Hint Resolve Stays_printleader : stays.
Lemma Stays_entering_failed i g r : Stays i (entering_failed oracle opt w i g r).
Proof. unfold entering_failed. stays. Qed.
Lemma Stays_entry_head i : Stays i (entry_head i).
Proof. unfold entry_head. stays. Qed.
Lemma Stays_resume_line i : Stays i (resume_line oracle opt w i).
Proof. unfold resume_line. stays. Qed.
Hint Resolve Stays_entering_failed Stays_entry_head Stays_resume_line : stays.
Lemma Stays_before_decoder i : Stays i (before_decoder i).
Proof. unfold before_decoder. stays. Qed.

Lemma Undumped_next_stop : Undumped false next_stop.
Proof. unfold next_stop. undumped. Qed.

(** What [next_stop] finds. *)
Lemma next_stop_current :
  hoare (fun _ => True) next_stop
    (fun x s => match x with inr (i, _, _) => current_tcp s = Some i | inl _ => True end).
Proof.
  assert (Ht : forall A (c : M A), hoare (fun _ => True) c (fun _ _ => True)).
  { intros A c s _. by destruct (c s). }
  unfold next_stop. eapply hoare_bind; [apply Ht|intros intr]. destruct (negb _); [by apply hoare_ret|].
  eapply hoare_bind; [apply Ht|intros r]. cbv zeta. destruct (_ <? 0).
  { destruct (_ =? _); [by apply hoare_ret|]. destruct (_ =? _); [by apply hoare_ret|].
    eapply hoare_bind; [apply Ht|intros ?]. by apply hoare_ret. }
  eapply hoare_bind; [apply Ht|intros g]. destruct (_ =? _).
  { eapply hoare_bind; [apply Ht|intros ?]. by apply hoare_ret. }
  eapply hoare_bind; [apply Ht|intros i0]. do 2 (eapply hoare_bind; [apply Ht|intros ?]).
  eapply hoare_bind; [apply Ht|intros i]. eapply hoare_bind; [apply Ht|intros ?].
  eapply (hoare_bind _ (fun _ s => current_tcp s = Some i)); [by intros s _|intros ?].
  eapply (hoare_bind _ (fun _ s => current_tcp s = Some i)); [|intros ?; by apply hoare_ret].
  intros s Hs. by destruct (negb _).
Qed.

Lemma next_stop_at (Hk : kernel_ok oracle) (Hopt : wf_options opt) :
  hoare wf_tab next_stop
    (fun x s => match x with inr (i, p, status) => event_of status = 0 -> at_tcb i p s | inl _ => True end).
Proof.
  unfold next_stop. eapply hoare_bind; [apply hoare_wf_tabs, Tabs_frames, Frames_interrupted|intros intr].
  destruct (negb _); [by apply hoare_ret|].
  eapply hoare_bind; [by apply (hoare_wait_for_stop oracle w)|intros r]. cbv zeta.
  destruct (r_ret r <? 0) eqn:Hneg.
  { apply (hoare_pre _ (fun _ => True)); [done|].
    intros s _. destruct (_ =? _); [done|]. by destruct (_ =? _). }
  intros s [Hs [Hne _]]. assert (Hp : 0 < r_ret r) by lia. revert s Hs.
  eapply hoare_bind; [apply hoare_wf_tabs; tabs|intros g].
  destruct (_ =? popen_pid g).
  { intros s _. by destruct (_ || _). }
  eapply hoare_bind; [by apply hoare_find_tracee|intros i].
  eapply hoare_bind; [apply hoare_at_tabs, Tabs_frames, Frames_clear_regs|intros ?].
  eapply hoare_bind; [apply hoare_at_tabs; destruct (WIFSTOPPED _); [apply Tabs_frames, Frames_get_regs|tabs]|intros ?].
  eapply hoare_bind; [by apply hoare_exec_switch|intros j].
  destruct (decide (event_of (r_val r) = 0)) as [He|He].
  - unfold exec_detach. rewrite He. change (0 =? PTRACE_EVENT_EXEC) with false. cbv iota.
    eapply hoare_bind; [apply hoare_at_tabs; tabs|intros ?].
    eapply hoare_bind; [apply hoare_at_tabs; tabs|intros ?].
    eapply hoare_bind; [apply hoare_at_tabs; tabs|intros ?]. by apply hoare_ret.
  - assert (Ht : forall A (c : M A), hoare (fun _ => True) c (fun _ _ => True)).
    { intros A c s _. by destruct (c s). }
    eapply hoare_pre; [|do 3 (eapply hoare_bind; [apply Ht|intros ?]); by apply hoare_ret]. done.
Qed.

(** The decoder of the current process writes the dump at most once, at its end. *)
Definition decoder_dumps (i : nat) (s s' : tracer) : Prop := exists t x st f text,
  tcbtab s !! i = Some t /\ out_dump_f t = Some f /\
  call_sys_func w t (kern w (log s) (pid t)) (denv_of opt w s t) (dstate_of s t) = Some (x, st) /\
  d_dump st <> [] /\ log s' = log s ++ text ++ [EDump f (d_dump st)] /\ Forall no_dump text.

Lemma call_decoder_dumps i s :
  current_tcp s = Some i ->
  match call_decoder opt w i (default zero_tcb (tcbtab s !! i)) s with
  | Ret _ s' => undumped true s s' \/ decoder_dumps i s s'
  | _ => True
  end.
Proof.
  intros Hs. unfold call_decoder. set (t := default zero_tcb (tcbtab s !! i)).
  destruct (fn_is t "sys_exit").
  { pose proof (Undumped_sys_exit i s) as H. destruct (sys_exit opt i s); [by left|done..]. }
  unfold run_D, mbind, M_bind, get, tcb_of, gets. fold t.
  destruct (call_sys_func w t (kern w (log s) (pid t)) (denv_of opt w s t) (dstate_of s t))
    as [[x st]|] eqn:Hrun; [|done].
  destruct (decide (d_dump st = [])) as [Hd|Hd].
  { pose proof (Undumped_put_effects i st Hd s) as H. destruct (put_effects i st s); [by left|done..]. }
  unfold put_effects, mbind, M_bind, modify_glb, upd_tcb. cbv beta iota.
  set (s1 := mk_tracer _ _ _ _ _ _).
  assert (Htext : Undumped true (_ ← when (negb (bool_decide (p_err (d_p st) = [])))
                                      (err_msg (String.concat nl (p_err (d_p st))));
                                 when (nonempty_str (p_out (d_p st))) (tprints (p_out (d_p st)))) /\
                  Frames TCB_INUSE (_ ← when (negb (bool_decide (p_err (d_p st) = [])))
                                      (err_msg (String.concat nl (p_err (d_p st))));
                                 when (nonempty_str (p_out (d_p st))) (tprints (p_out (d_p st))))).
  { split; [undumped|frames]. }
  destruct Htext as [Hu Hf]. specialize (Hu s1). specialize (Hf s1). unfold mbind, M_bind in Hu, Hf.
  destruct (when (negb (bool_decide (p_err (d_p st) = []))) _ s1) as [u s2| |]; [|done..].
  destruct (when (nonempty_str _) _ s2) as [u' s3| |]; [|done..].
  destruct Hu as [(text & Hlog & Htext) Hc]. simpl in Hlog.
  assert (Hcur : current_tcp s3 = Some i) by (rewrite Hc; done).
  unfold when. rewrite bool_decide_false by done. cbn [negb].
  unfold tdump, mbind, M_bind, gets, tcb_of. rewrite Hcur. unfold gets.
  destruct (tcbtab s3 !! i) as [t3|] eqn:Ht3; [|done]. cbn [default id].
  destruct (out_dump_f t3) as [f|] eqn:Hf3; [|done]. simpl. right.
  destruct (frame_tcb TCB_INUSE s1 s3 i t3 Hf Ht3) as (t1 & Ht1 & Hv). injection Hv as _ _ Hv _ _.
  simpl in Ht1. rewrite list_lookup_alter, decide_True in Ht1 by done.
  destruct (tcbtab s !! i) as [t0|] eqn:Ht0; [|done]. simpl in Ht1. injection Ht1 as <-.
  exists t0, x, st, f, text. simpl. rewrite Hlog, app_assoc. split_and!; try done.
  rewrite <- Hf3, <- Hv. unfold decoder_sets. by destruct (d_cache_dropped st), (d_new_rval st).
Qed.

(** ** At the exit of a call *)

Definition at_exit (i : nat) (s : tracer) : Prop :=
  current_tcp s = Some i /\ exiting (default zero_tcb (tcbtab s !! i)) = true.

Lemma hoare_exit {A} i s0 (c : M A) :
  Stays i c -> Frames kept c ->
  hoare (fun s => undumped true s0 s /\ at_exit i s) c (fun _ s => undumped true s0 s /\ at_exit i s).
Proof.
  intros Hc Hf s (Hs0 & Hcur & Hex). specialize (Hc s Hcur). specialize (Hf s).
  destruct (c s) as [x s'| |]; [|done..]. split; [by etrans|].
  split; [by eapply undumped_current|]. revert Hex.
  destruct (tcbtab s !! i) as [t|] eqn:Ht; [|done].
  destruct (frame_tcb' kept s s' i t Hf Ht) as (t' & -> & Hv). simpl. unfold exiting.
  by rewrite (view_flag kept TCB_INSYSCALL t' t).
Qed.
Lemma hoare_stays {A} i s0 (c : M A) :
  Stays i c -> hoare (fun s => undumped true s0 s /\ at_exit i s) c (fun _ s => undumped true s0 s).
Proof.
  intros Hc s (Hs0 & Hcur & _). specialize (Hc s Hcur). destruct (c s); [by etrans|done..].
Qed.
End stops.
#[export] Hint Resolve Undumped_output_stacktrace Undumped_fork_exec Undumped_dumpio Undumped_sys_exit
  Undumped_restart Undumped_clearbpt Undumped_droptcb Undumped_detach Undumped_cleanup
  Undumped_restart_tracee : undumped.
#[export] Hint Extern 2 (Undumped true (run_D _ _ _ _)) =>
  apply Undumped_run_D; intros ? ?; first [apply Dry_upeek | apply Dry_pathtrace | apply Dry_read_args
    | apply Dry_dumpstr | apply Dry_dumpiov | apply Dry_printargs] : undumped.

(** With the shipped decoders. *)
Section shipped.
Context (localtime : Z -> option tm) (malloc_ok vla_ok : Z -> bool) (ifname : Z -> option string).
Context (oracle : list event -> request -> reply) (opt : options) (w0 : world).
Let w : world := shipped localtime malloc_ok vla_ok ifname w0.
Context (Hm : forall n, malloc_ok n = true -> n < 2 ^ 48) (Hj : forall i, is_u8 (indeterminate w i)).
Context (Hlen : 0 <= opt_max_strlen opt) (Hmax : 4 * opt_max_strlen opt + 3 < 2 ^ 32).

Lemma denv_of_ok s t : env_ok (denv_of opt w s t).
Proof. split; try done. simpl. destruct (current_personality (glb s)) as [|]; simpl; lia. Qed.

(** Only the write family, only on entry. *)
Lemma decoder_writes t s x st :
  call_sys_func w t (kern w (log s) (pid t)) (denv_of opt w s t) (dstate_of s t) = Some (x, st) ->
  d_dump st <> [] -> ent_func t ∈ write_family /\ entering t = true.
Proof.
  intros Hrun Hne.
  assert (Hdry : ~ Dry (denv_of opt w s t) (call_sys_func w t (kern w (log s) (pid t)))).
  { intros Hdry. specialize (Hdry (dstate_of s t)). rewrite Hrun in Hdry. simpl in Hdry. congruence. }
  pose proof (shipped_dry localtime malloc_ok vla_ok ifname w0 t (kern w (log s) (pid t)) _
                (denv_of_ok s t) Hm) as Hsd.
  destruct (decide (ent_func t ∈ write_family)) as [Hin|Hin]; [|by destruct Hdry; apply Hsd].
  split; [done|]. destruct (entering t) eqn:He; [done|]. destruct Hdry. apply Hsd. intros _. exact He.
Qed.

Lemma call_decoder_exit i s0 :
  hoare (fun s => undumped true s0 s /\ at_exit i s) (t ← tcb_of i; call_decoder opt w i t)
        (fun _ s => undumped true s0 s).
Proof.
  intros s (Hs0 & Hcur & Hex). unfold mbind, M_bind, tcb_of, gets.
  pose proof (call_decoder_dumps opt w i s Hcur) as H. destruct (call_decoder _ _ _ _ s) as [x s'| |]; [|done..].
  destruct H as [H|(t & y & st & f & text & Ht & _ & Hrun & Hne & _)]; [by etrans|].
  apply decoder_writes in Hrun as [_ He]; [|done]. rewrite Ht in Hex. unfold entering in He. simpl in Hex.
  by rewrite Hex in He.
Qed.

Lemma exiting_undumped i s :
  at_exit i s ->
  match trace_syscall_exiting oracle opt w i s with Ret _ s' => undumped true s s' | _ => True end.
Proof.
  intros Hs. cut (hoare (fun s' => undumped true s s' /\ at_exit i s') (trace_syscall_exiting oracle opt w i)
                        (fun _ s' => undumped true s s')).
  { intros H. apply (H s). by split. }
  assert (Hu : forall A (c : M A), Undumped true c -> Frames kept c ->
             hoare (fun s' => undumped true s s' /\ at_exit i s') c (fun _ s' => undumped true s s' /\ at_exit i s')).
  { intros A c Hc Hf. by apply hoare_exit; [apply Stays_undumped|]. }
  assert (Hl : forall A (c : M A), Undumped true c ->
             hoare (fun s' => undumped true s s' /\ at_exit i s') c (fun _ s' => undumped true s s')).
  { intros A c Hc. by apply (hoare_stays i), Stays_undumped. }
  unfold trace_syscall_exiting, get_error, count_call.
  do 4 (eapply hoare_bind; [apply Hu; [undumped|frames]|intros ?]).
  eapply hoare_bind; [apply Hu; [undumped|frames]|intros hidden].
  destruct hidden; [apply Hl; undumped|].
  eapply hoare_bind; [apply Hu; [undumped|frames]|intros ?].
  destruct (_ =? _); [apply Hl; undumped|].
  eapply hoare_bind; [apply hoare_exit; [apply Stays_resume_line|unfold resume_line; frames]|intros ?].
  unfold show_exit. destruct (negb _); [apply Hl; undumped|].
  intros s1 Hs1. pose proof (call_decoder_exit i s s1 Hs1) as Hd.
  unfold mbind at 1, M_bind at 1, tcb_of at 1, gets at 1 in Hd.
  unfold mbind at 1, M_bind at 1, tcb_of at 1, gets at 1.
  set (t := default zero_tcb (tcbtab s1 !! i)) in *.
  destruct (_ && _ && _).
  { match goal with |- match ?c s1 with _ => _ end =>
      assert (Hc : Undumped true c) by undumped; exact (Hl _ c Hc s1 Hs1) end. }
  assert (Hsys : match (if has_flag (qual_flg t) QUAL_RAW then mret 0 else call_decoder opt w i t) s1 with
                 | Ret _ s' => undumped true s s' | _ => True end).
  { destruct (has_flag _ _); [apply Hs1|exact Hd]. }
  unfold mbind at 1, M_bind at 1. destruct ((if has_flag (qual_flg t) QUAL_RAW then mret 0 else call_decoder opt w i t) s1) as [r s2| |]; [|done..].
  match goal with |- match ?c s2 with _ => _ end =>
    assert (Hc : Undumped true c) by undumped; specialize (Hc s2); destruct (c s2); [by etrans|done..] end.
Qed.

(** ** At the entry *)

(** From the state [s1], about to decode the entry of the call of block [i], the
    decoder puts [bs] into the dump [f] of its process [p]. *)
Definition entry_dumps (s1 : tracer) (i : nat) (p : Z) (f : stream) (bs : list Z) : Prop :=
  exists t x st,
    tcbtab s1 !! i = Some t /\ pid t = p /\ out_dump_f t = Some f /\ entering t = true /\
    ent_func t ∈ write_family /\
    call_sys_func w t (kern w (log s1) p) (denv_of opt w s1 t) (dstate_of s1 t) = Some (x, st) /\
    bs = d_dump st.

(** The log of [s'] is that of [s] with one piece for the dump in between. *)
Definition one_dump (s s' : tracer) (f : stream) (bs : list Z) : Prop := exists pre post,
  log s' = log s ++ pre ++ EDump f bs :: post /\ Forall no_dump pre /\ Forall no_dump post.

Lemma one_dump_after b s s1 s' f bs : undumped b s s1 -> one_dump s1 s' f bs -> one_dump s s' f bs.
Proof.
  intros [(e & He & Hn) _] (pre & post & Hl & H1 & H2). exists (e ++ pre), post.
  rewrite Hl, He, !app_assoc. split_and!; [done|by apply Forall_app|done].
Qed.
Lemma one_dump_before b s s1 s' f bs : one_dump s s1 f bs -> undumped b s1 s' -> one_dump s s' f bs.
Proof.
  intros (pre & post & Hl & H1 & H2) [(e & He & Hn) _]. exists pre, (post ++ e).
  rewrite He, Hl, <- !app_assoc, <- app_comm_cons. split_and!; [done..|by apply Forall_app].
Qed.

Lemma from_decoder_dumps i s :
  current_tcp s = Some i ->
  match from_decoder oracle opt w i s with
  | Ret _ s' => undumped true s s' \/ exists p f bs, entry_dumps s i p f bs /\ one_dump s s' f bs
  | _ => True
  end.
Proof.
  intros Hs. unfold from_decoder, mbind at 1, M_bind at 1, tcb_of, gets. set (t := default zero_tcb _).
  assert (Hd : match (if has_flag (qual_flg t) QUAL_RAW && negb (fn_is t "sys_exit")
                      then run_D opt w i (fun _ => printargs (nargs (ent t))) else call_decoder opt w i t) s with
               | Ret _ s' => undumped true s s' \/ decoder_dumps opt w i s s' | _ => True end).
  { destruct (_ && _); [|by apply call_decoder_dumps].
    assert (Hu : Undumped true (run_D opt w i (fun _ => printargs (nargs (ent t))))) by undumped.
    specialize (Hu s). destruct (run_D _ _ _ _ s); [by left|done..]. }
  unfold mbind at 1, M_bind at 1. destruct ((if has_flag (qual_flg t) QUAL_RAW && negb (fn_is t "sys_exit")
                      then run_D opt w i (fun _ => printargs (nargs (ent t))) else call_decoder opt w i t) s)
    as [r s1| |]; [|done..].
  assert (He : Undumped true (entering_ret oracle opt i r)) by undumped. specialize (He s1).
  destruct (entering_ret oracle opt i r s1) as [y s2| |]; [|done..].
  destruct Hd as [Hd|(u & x & st & f & text & Hu & Hf & Hrun & Hne & Hlog & Hn)]; [left; by etrans|right].
  destruct (decoder_writes u s x st Hrun Hne) as [Hfam Hent].
  exists (pid u), f, (d_dump st). split; [by exists u, x, st|].
  eapply (one_dump_before true _ s1); [|done]. exists text, []. by rewrite Hlog.
Qed.

(** ** A round *)

Definition syscall_stop (status : Z) : Prop :=
  WIFSTOPPED status = true /\ event_of status = 0 /\ WSTOPSIG status = syscall_trap_sig opt.

(** The round that starts at [s] gets a system call stop of the process [p] of
    block [i], finds it at the entry of a call and comes to the decoder at [s1]. *)
Definition enters (s s1 : tracer) (i : nat) (p : Z) : Prop := exists status s2 s3 s4,
  next_stop oracle opt w s = Ret (inr (i, p, status)) s2 /\ syscall_stop status /\
  startup_stop oracle opt w i s2 = Ret true s3 /\ interrupted oracle s3 = Ret 0 s4 /\
  exiting (default zero_tcb (tcbtab s4 !! i)) = false /\
  before_decoder oracle opt w i s4 = Ret (inr tt) s1.

Lemma trace_syscall_dumps i s :
  current_tcp s = Some i ->
  match trace_syscall oracle opt w i s with
  | Ret _ s' => undumped true s s' \/ exists s1 p f bs,
      exiting (default zero_tcb (tcbtab s !! i)) = false /\ before_decoder oracle opt w i s = Ret (inr tt) s1 /\
      entry_dumps s1 i p f bs /\ one_dump s s' f bs
  | _ => True
  end.
Proof.
  intros Hs. unfold trace_syscall, mbind, M_bind, tcb_of, gets.
  destruct (exiting (default zero_tcb (tcbtab s !! i))) eqn:He.
  { pose proof (exiting_undumped i s (conj Hs He)) as H. destruct (trace_syscall_exiting _ _ _ _ s); [by left|done..]. }
  rewrite entering_before_decoder. unfold mbind, M_bind.
  pose proof (Stays_before_decoder oracle opt w i s Hs) as Hb.
  destruct (before_decoder oracle opt w i s) as [[r|[]] s1| |]; [by left| |done..].
  pose proof (from_decoder_dumps i s1 (undumped_current _ _ _ Hb Hs)) as Hd.
  destruct (from_decoder oracle opt w i s1) as [r s'| |]; [|done..].
  destruct Hd as [Hd|(p & f & bs & Hd & Ho)]; [left; by etrans|right].
  exists s1, p, f, bs. split_and!; [done..|by eapply one_dump_after].
Qed.

Lemma dispatch_dumps i p status s :
  current_tcp s = Some i ->
  match dispatch_stop oracle opt w i p status s with
  | Ret _ s' => undumped false s s' \/ exists s4 s1 q f bs,
      event_of status = 0 /\ WSTOPSIG status = syscall_trap_sig opt /\ interrupted oracle s = Ret 0 s4 /\
      exiting (default zero_tcb (tcbtab s4 !! i)) = false /\ before_decoder oracle opt w i s4 = Ret (inr tt) s1 /\
      entry_dumps s1 i q f bs /\ one_dump s s' f bs
  | _ => True
  end.
Proof.
  intros Hs.
  assert (Hl : forall (c : M flow) P, Undumped false c ->
             match c s with Ret _ s' => undumped false s s' \/ P s' | _ => True end).
  { intros c P Hc. specialize (Hc s). destruct (c s); [by left|done..]. }
  unfold dispatch_stop. cbv zeta. unfold mbind at 1, M_bind at 1, tcb_of, gets.
  destruct (Z.eqb_spec (event_of status) 0) as [He|]; cbn [negb]; [|apply Hl; undumped].
  destruct (_ && _); [apply Hl; undumped|].
  destruct (Z.eqb_spec (WSTOPSIG status) (syscall_trap_sig opt)) as [Hg|]; cbn [negb]; [|apply Hl; undumped].
  unfold mbind at 1, M_bind at 1.
  assert (Hi : Undumped true (interrupted oracle)) by undumped. specialize (Hi s).
  destruct (interrupted oracle s) as [n s4| |]; [|done..].
  assert (H4 : undumped false s s4) by (destruct Hi; by split).
  destruct (Z.eqb_spec n 0) as [->|]; cbn [negb]; [|by left].
  unfold mbind at 1, M_bind at 1.
  pose proof (trace_syscall_dumps i s4 (undumped_current _ _ _ Hi Hs)) as Ht.
  destruct (trace_syscall oracle opt w i s4) as [r s5| |]; [|done..].
  assert (Hr : Undumped false (if r <? 0 then mret Continue else restart_tracee oracle opt w PTRACE_SYSCALL i 0))
    by undumped.
  specialize (Hr s5). destruct ((if r <? 0 then mret Continue else restart_tracee oracle opt w PTRACE_SYSCALL i 0) s5) as [fl s'| |]; [|done..].
  destruct Ht as [[Ht _]|(s1 & q & f & bs & Hx & Hb & Hd & Ho)].
  - left. etrans; [exact H4|]. etrans; [by split|done].
  - right. exists s4, s1, q, f, bs. split_and!; try done.
    eapply one_dump_after; [exact H4|]. by eapply one_dump_before.
Qed.

Lemma iteration_dumps s (Hk : kernel_ok oracle) (Hopt : wf_options opt) :
  wf_tab s ->
  match iteration oracle opt w s with
  | Ret _ s' => undumped false s s' \/ exists s1 i p f bs,
      enters s s1 i p /\ entry_dumps s1 i p f bs /\ one_dump s s' f bs
  | _ => True
  end.
Proof.
  intros Hwf. rewrite iteration_next_stop. unfold mbind, M_bind.
  pose proof (Undumped_next_stop oracle opt w s) as Hn.
  pose proof (next_stop_current oracle opt w s I) as Hc.
  pose proof (next_stop_at oracle opt w Hk Hopt s Hwf) as Hat.
  destruct (next_stop oracle opt w s) as [[fl|[[i p] status]] s2| |] eqn:Hns; [by left| |done..].
  assert (Hl : forall (c : M flow) P, Undumped false c ->
             match c s2 with Ret _ s' => undumped false s s' \/ P s' | _ => True end).
  { intros c P H. specialize (H s2). destruct (c s2); [left; by etrans|done..]. }
  unfold handle_status. destruct (WIFSIGNALED status); [apply Hl; undumped|].
  destruct (WIFEXITED status); [apply Hl; undumped|].
  destruct (WIFSTOPPED status) eqn:Hst; cbn [negb]; [|apply Hl; undumped].
  unfold mbind, M_bind. pose proof (startup_stop_stays oracle opt w i s2 Hc) as Hu.
  pose proof (fun f => hoare_startup_answer oracle opt w i p f (restarts (log s2)) s2) as Hp.
  destruct (startup_stop oracle opt w i s2) as [[|] s3| |] eqn:Hss; cbn [negb]; [| |done..].
  2:{ left. destruct Hu. by etrans. }
  destruct Hu as [Hu Hc3]. specialize (Hc3 eq_refl).
  pose proof (dispatch_dumps i p status s3 Hc3) as Hd.
  destruct (dispatch_stop oracle opt w i p status s3) as [fl s'| |]; [|done..].
  destruct Hd as [Hd|(s4 & s1 & q & f & bs & He & Hg & Hi & Hx & Hb & Hd & Ho)].
  { left. etrans; [exact Hn|]. by etrans. }
  right. exists s1, i, p, f, bs. split; [by exists status, s2, s3, s4|].
  split; [|eapply one_dump_after; [exact Hn|]; by eapply one_dump_after].
  replace p with q; [done|].
  destruct (Hat He) as [_ (t2 & Ht2 & _ & Hpt)].
  specialize (Hp (has_flag (flags t2) TCB_IGNORE_ONE_SIGSTOP)).
  destruct Hp as [(t3 & Ht3 & Hp3 & _) _]; [split; [by exists t2|done]|done|].
  destruct Hd as (t1 & x & st & Ht1 & Hp1 & _).
  assert (Hf4 : frame TCB_INUSE s3 s4).
  { pose proof (Frames_interrupted oracle TCB_INUSE s3) as H. by rewrite Hi in H. }
  assert (Hf1 : frame TCB_INUSE s4 s1).
  { assert (H : Frames TCB_INUSE (before_decoder oracle opt w i)).
    { assert (Hfe : forall j, Frames TCB_INUSE (syscall_fixup_for_fork_exec oracle opt w j))
        by (intros; apply Frames_kept, Frames_fork_exec).
      unfold before_decoder, entering_failed, entering_ret, set_insyscall, entry_head, syscall_fixup_on_sysenter. frames. }
    specialize (H s4). by rewrite Hb in H. }
  destruct (frame_tcb TCB_INUSE s4 s1 i t1 Hf1 Ht1) as (t4 & Ht4 & Hv4).
  destruct (frame_tcb TCB_INUSE s3 s4 i t4 Hf4 Ht4) as (t3' & Ht3' & Hv3).
  injection Hv4 as Hv4 _ _ _ _. injection Hv3 as Hv3 _ _ _ _. congruence.
Qed.

Lemma reached_extends s s' (Hk : kernel_ok oracle) (Hopt : wf_options opt) :
  wf_tab s -> rtc (step oracle opt w) s s' -> exists e, log s' = log s ++ e.
Proof.
  intros Hwf Hr. induction Hr as [s|s s1 s' Hs _ IH]; [exists []; by rewrite app_nil_r|].
  destruct Hs as [s s1 _ Hrun].
  pose proof (hoare_iteration oracle opt w Hk Hopt s Hwf) as Hwf1. rewrite Hrun in Hwf1.
  pose proof (iteration_dumps s Hk Hopt Hwf) as Hd. rewrite Hrun in Hd. destruct (IH Hwf1) as [e ->].
  destruct Hd as [[(evs & -> & _) _]|(? & ? & ? & ? & ? & _ & _ & pre & post & -> & _)];
    rewrite <- app_assoc; by eexists.
Qed.

(** The round in which a piece of the dump was written. *)
Lemma round_of_dump s0 s f bs h0 h1 (Hk : kernel_ok oracle) (Hopt : wf_options opt) :
  wf_tab s0 -> rtc (step oracle opt w) s0 s ->
  log s = h0 ++ EDump f bs :: h1 -> (length (log s0) <= length h0)%nat ->
  exists sa sb s1 i p text post,
    rtc (step oracle opt w) s0 sa /\ step oracle opt w sa sb /\ rtc (step oracle opt w) sb s /\
    enters sa s1 i p /\ entry_dumps s1 i p f bs /\
    h0 = log sa ++ text /\ log sb = h0 ++ EDump f bs :: post /\ Forall no_dump text /\ Forall no_dump post.
Proof.
  intros Hwf Hr. revert Hwf. induction Hr as [s|s0 s1 s Hs Hr IH]; intros Hwf Hlog Hlen0.
  { apply (f_equal length) in Hlog. rewrite length_app in Hlog. simpl in Hlog. lia. }
  pose proof Hs as Hst. destruct Hs as [s0 s1 Hnp Hrun].
  pose proof (hoare_iteration oracle opt w Hk Hopt s0 Hwf) as Hwf1. rewrite Hrun in Hwf1.
  pose proof (iteration_dumps s0 Hk Hopt Hwf) as Hd. rewrite Hrun in Hd.
  destruct (reached_extends s1 s Hk Hopt Hwf1 Hr) as [e2 He2].
  destruct (decide (length (log s1) <= length h0)%nat) as [Hle|Hgt].
  { destruct (IH Hwf1 Hlog Hle) as (sa & sb & s2 & i & p & text & post & H1 & H2).
    exists sa, sb, s2, i, p, text, post. split; [by eapply rtc_l|done]. }
  assert (exists post, log s1 = h0 ++ EDump f bs :: post) as [post Hpost].
  { rewrite He2 in Hlog. apply app_eq_app in Hlog as [k [[Hk1 Hk2]|[Hk1 Hk2]]].
    - destruct k as [|ev k]; [rewrite Hk1, app_nil_r in Hgt; lia|]. injection Hk2 as <- _. by exists k.
    - rewrite Hk1, length_app in Hgt. lia. }
  destruct Hd as [[(evs & Hevs & Hn) _]|(s2 & i & p & f' & bs' & Hen & Hd & pre & post' & Hl & Hn1 & Hn2)].
  - exfalso. rewrite Hevs in Hpost. apply app_eq_app in Hpost as [k [[Hk1 Hk2]|[Hk1 Hk2]]].
    + destruct k as [|ev k]; [rewrite app_nil_r in Hk1; simpl in Hk2; rewrite <- Hk2 in Hn; by inversion Hn|].
      rewrite Hk1, length_app in Hlen0. simpl in Hlen0. lia.
    + rewrite Hk2 in Hn. apply Forall_app in Hn as [_ Hn]. by inversion Hn.
  - rewrite Hl in Hpost. assert (exists text, h0 = log s0 ++ text) as [text ->].
    { apply app_eq_app in Hpost as [k [[Hk1 Hk2]|[Hk1 Hk2]]]; [|by eexists].
      exists []. assert (k = []) as -> by (destruct k; [done|rewrite Hk1, length_app in Hlen0; simpl in Hlen0; lia]).
      by rewrite Hk1, !app_nil_r. }
    rewrite <- app_assoc in Hpost. apply app_inv_head in Hpost.
    assert (Heq : pre = text /\ f' = f /\ bs' = bs /\ post' = post).
    { apply app_eq_app in Hpost as [[|ev k] [[-> Hk2]|[-> Hk2]]]; simpl in Hk2.
      - injection Hk2 as -> -> ->. by rewrite app_nil_r.
      - injection Hk2 as -> -> ->. by rewrite app_nil_r.
      - injection Hk2 as <- _. apply Forall_app in Hn1 as [_ Hn1]. by inversion Hn1.
      - injection Hk2 as _ ->. apply Forall_app in Hn2 as [_ Hn2]. by inversion Hn2. }
    destruct Heq as (<- & -> & -> & <-).
    exists s0, s1, s2, i, p, pre, post'. split_and!; try done. by rewrite Hl, <- app_assoc.
Qed.
End shipped.

(** ** The byte dumps of a run *)

(** C7: the byte dumps hold what the write family wrote, and nothing else.  Each
    piece that a run of trace() adds to a byte dump was added in a round of its
    own, which handled a system call stop of a process p whose block was at the
    entry of write, pwrite, writev or pwritev: the piece is what the decoder of
    that call gives in the very state in which trace_syscall_entering comes to
    it, from the memory of p at that point of the history, and it goes to p's
    own dump file (the states on the way are those of iteration and
    trace_syscall_entering: iteration_next_stop, entering_before_decoder).  No other round, no other decoder and not -e write reaches a
    dump.  It is said of the shipped decoders, a string limit whose quoting
    fits its buffer, and a kernel whose wait4 and GETEVENTMSG return ints. *)
Theorem dumps_are_written_data localtime malloc_ok vla_ok ifname oracle opt w s0 s h0 f bs h1 :
  let w := shipped localtime malloc_ok vla_ok ifname w in
  (forall n, malloc_ok n = true -> n < 2 ^ 48) -> (forall i, is_u8 (indeterminate w i)) ->
  0 <= opt_max_strlen opt -> 4 * opt_max_strlen opt + 3 < 2 ^ 32 ->
  kernel_ok oracle -> wf_options opt -> wf_tab s0 ->
  rtc (step oracle opt w) s0 s ->
  log s = h0 ++ EDump f bs :: h1 -> (length (log s0) <= length h0)%nat ->
  exists sa sb i p status s2 s3 s4 s1 t x st text post,
    (* the round *)
    rtc (step oracle opt w) s0 sa /\ step oracle opt w sa sb /\ rtc (step oracle opt w) sb s /\
    h0 = log sa ++ text /\ log sb = h0 ++ EDump f bs :: post /\
    Forall no_dump text /\ Forall no_dump post /\
    (* the stop, and the way to the decoder at the entry *)
    next_stop oracle opt w sa = Ret (inr (i, p, status)) s2 /\ syscall_stop opt status /\
    startup_stop oracle opt w i s2 = Ret true s3 /\ interrupted oracle s3 = Ret 0 s4 /\
    exiting (default zero_tcb (tcbtab s4 !! i)) = false /\
    before_decoder oracle opt w i s4 = Ret (inr tt) s1 /\
    (* the decoder *)
    tcbtab s1 !! i = Some t /\ pid t = p /\ out_dump_f t = Some f /\ entering t = true /\
    ent_func t ∈ write_family /\
    call_sys_func w t (kern w (log s1) p) (denv_of opt w s1 t) (dstate_of s1 t) = Some (x, st) /\
    bs = d_dump st.
Proof.
  intros w' Hm Hj H0 Hmax Hk Hopt Hwf Hr Hlog Hlen.
  destruct (round_of_dump localtime malloc_ok vla_ok ifname oracle opt w Hm Hj H0 Hmax s0 s f bs h0 h1
              Hk Hopt Hwf Hr Hlog Hlen)
    as (sa & sb & s1 & i & p & text & post & R1 & R2 & R3 & (status & s2 & s3 & s4 & E1 & E2 & E3 & E4 & E5 & E6) &
        (t & x & st & D) & T1 & T2 & T3 & T4).
  exists sa, sb, i, p, status, s2, s3, s4, s1, t, x, st, text, post. by split_and!; try apply D.
Qed.

(** A kernel that reports that process 11 enters write(3, 0x1000, 2). *)
Definition writing : list event -> request -> reply := fun _ r =>
  let answer ret v := mk_reply ret 0 v tv_zero (call_regs 1 (- ENOSYS) [3; 0x1000; 2]) (r_si demo_reply) None in
  match r with RWait4 _ _ => answer 11 0x857f | _ => answer 0 0 end.

Definition shipped_demo : world :=
  shipped (fun _ => None) (fun n => n <? 2 ^ 48) (fun _ => true) (fun _ => None) quiet_world.

Lemma writing_ok : kernel_ok writing.
Proof. split; [by intros; split|]. by intros. Qed.

Lemma dumps_are_written_data_witness :
  exists s h0 h1 t sa s1 i, step writing demo_options shipped_demo demo_tracer s /\
    log s = h0 ++ EDump Shared [97; 98] :: h1 /\
    before_decoder writing demo_options shipped_demo i sa = Ret (inr tt) s1 /\ tcbtab s1 !! i = Some t /\
    entering t = true /\ ent_func t ∈ write_family.
Proof.
  destruct (iteration writing demo_options shipped_demo demo_tracer) as [fl s| |] eqn:E;
    [|vm_compute in E; discriminate E..].
  set (h0 := take 9 (log s)). set (h1 := drop 10 (log s)). exists s, h0, h1.
  assert (H : fl = Continue /\ log s = h0 ++ EDump Shared [97; 98] :: h1 /\ length h0 = 9%nat).
  { vm_compute in E. injection E as <- <-. repeat split. }
  destruct H as (-> & Hlog & Hlen).
  assert (Hs : step writing demo_options shipped_demo demo_tracer s) by (constructor; [discriminate|exact E]).
  destruct (dumps_are_written_data (fun _ => None) (fun n => n <? 2 ^ 48) (fun _ => true) (fun _ => None)
              writing demo_options quiet_world demo_tracer s h0 Shared [97; 98] h1)
    as (sa & sb & i & p & status & s2 & s3 & s4 & s1 & t & x & st & text & post & _ & _ & _ & _ & _ & _ & _ &
        _ & _ & _ & _ & _ & Hb & Ht & _ & _ & He & Hf & _).
  - intros n. apply Z.ltb_lt.
  - intros i. simpl. unfold is_u8. lia.
  - discriminate.
  - reflexivity.
  - apply writing_ok.
  - right. reflexivity.
  - apply demo_wf_tab.
  - apply rtc_once. exact Hs.
  - exact Hlog.
  - rewrite Hlen. simpl. lia.
  - exists t, s4, s1, i. split; [exact Hs|]. split; [exact Hlog|]. split; [exact Hb|].
    split; [exact Ht|]. split; [exact He|exact Hf].
Defined.
