(* ===== verification/Drain.v ===== *)
(** * Termination of the event loop

    The trace only grows, every round that lets the loop go on has asked the
    kernel for a wait status, and a kernel that has no children left to report
    ends the loop. *)

From stdpp Require Import gmap.
From S2P Require Import Prelude Timeval Xlat Quote Tracee Decode Io Options Signal Qual Mmap Count.
From S2P Require Import Tcb Regs Log Table Pathtrace Syscall Frame Line Stops Trace Loop Release Rounds.
Local Open Scope string_scope.
Local Open Scope list_scope.
Local Open Scope Z_scope.

(** ** Computations only add events, and end *)

Definition grows_from {A} (c : M A) (s : tracer) : Prop :=
  match c s with
  | Ret _ s' => log s `prefix_of` log s'
  | Exit code _ => code <> out_of_fuel
  | Die _ => True
  end.
Definition Grows {A} (c : M A) : Prop := forall s, grows_from c s.

Lemma Grows_ret {A} (x : A) : Grows (mret x).
Proof. intros s. unfold grows_from. simpl. reflexivity. Qed.
Lemma Grows_bind {A B} (c : M A) (k : A -> M B) :
  Grows c -> (forall x, Grows (k x)) -> Grows (c ≫= k).
Proof.
  intros Hc Hk s. unfold grows_from, mbind, M_bind. specialize (Hc s). unfold grows_from in Hc.
  destruct (c s) as [x s1| |]; [|done..].
  specialize (Hk x s1). unfold grows_from in Hk. destruct (k x s1); [|done..]. by etrans.
Qed.
Lemma Grows_gets {A} (f : tracer -> A) : Grows (gets f).
Proof. intros s. unfold grows_from. simpl. reflexivity. Qed.
Lemma Grows_get : Grows get.
Proof. intros s. unfold grows_from. simpl. reflexivity. Qed.
Lemma Grows_tcb_of i : Grows (tcb_of i).
Proof. intros s. unfold grows_from. simpl. reflexivity. Qed.
Lemma Grows_exit {A} code : code <> out_of_fuel -> Grows (exit_ code : M A).
Proof. by intros H s. Qed.
Lemma Grows_die {A} t : Grows (die_msg t : M A).
Proof. done. Qed.
Lemma Grows_modify_glb f : Grows (modify_glb f).
Proof. intros s. unfold grows_from. simpl. reflexivity. Qed.
Lemma Grows_set_printing p : Grows (set_printing p).
Proof. intros s. unfold grows_from. simpl. reflexivity. Qed.
Lemma Grows_set_current p : Grows (set_current p).
Proof. intros s. unfold grows_from. simpl. reflexivity. Qed.
Lemma Grows_put_tab t n : Grows (put_tab t n).
Proof. intros s. unfold grows_from. simpl. reflexivity. Qed.
Lemma Grows_upd i f : Grows (upd_tcb i f).
Proof. intros s. unfold grows_from. simpl. reflexivity. Qed.
Lemma Grows_emit e : Grows (emit e).
Proof. intros s. by eexists. Qed.
Lemma Grows_ask oracle r : Grows (ask_kernel oracle r).
Proof. intros s. by eexists. Qed.

Create HintDb grows.
#[export] Hint Resolve Grows_ret Grows_gets Grows_get Grows_tcb_of Grows_die
  Grows_modify_glb Grows_set_printing Grows_set_current Grows_put_tab Grows_upd Grows_emit
  Grows_ask : grows.

(** Unfold operations down to the primitives. *)
Ltac grows_head t := lazymatch t with ?f _ => grows_head f | _ => t end.
Ltac grows_step :=
  lazymatch goal with
  | |- Grows (exit_ _) => apply Grows_exit; discriminate
  | |- Grows (_ ≫= _) => apply Grows_bind; [|intros ?]
  | |- Grows (match ?x with _ => _ end) => destruct x
  | |- Grows (let _ := _ in _) => cbv zeta
  | |- Grows (when ?b _) => destruct b; unfold when
  | |- Grows ?c => let h := grows_head c in unfold h
  end.
Ltac grows := repeat first [ solve [auto with grows nocore] | grows_step ].

(** Where the state does not matter. *)
Ltac grows_here :=
  lazymatch goal with |- grows_from ?c ?s => let H := fresh in cut (Grows c); [intros H; exact (H s)|grows] end.

Lemma ask_bind oracle {B} q (k : reply -> M B) s :
  (ask_kernel oracle q ≫= k) s = k (oracle (log s) q) (asked q s).
Proof. done. Qed.
Lemma tcb_of_bind {B} i (k : tcb -> M B) s :
  (tcb_of i ≫= k) s = k (default zero_tcb (tcbtab s !! i)) s.
Proof. done. Qed.
Lemma gets_bind {A B} (f : tracer -> A) (k : A -> M B) s : (gets f ≫= k) s = k (f s) s.
Proof. done. Qed.
Lemma ret_bind {A B} (x : A) (k : A -> M B) s : (mret x ≫= k) s = k x s.
Proof. done. Qed.
(** The parts of a sequence, where the first one ends. *)
Lemma grows_from_bind {A B} (c : M A) (k : A -> M B) s :
  grows_from c s -> (forall x s1, c s = Ret x s1 -> grows_from (k x) s1) ->
  grows_from (c ≫= k) s.
Proof.
  unfold grows_from, mbind, M_bind. intros Hc Hk. destruct (c s) as [x s1| |]; [|done..].
  specialize (Hk x s1 eq_refl). destruct (k x s1); [|done..]. by etrans.
Qed.

(** ** Stack traces *)

(** The binary search of print_normalized_addr always ends: its interval
    shrinks, whatever the array holds. *)
Lemma search_ends g c addr fuel lower upper :
  0 <= lower -> 0 <= upper - lower + 1 < Z.of_nat fuel -> search fuel g c addr lower upper <> NoFuel.
Proof.
  revert lower upper. induction fuel as [|fuel IH]; intros lower upper Hl Hf; [lia|]. cbn [search].
  destruct (Z.leb_spec lower upper) as [Hle|]; [|done]. rewrite Z.quot_div_nonneg by lia.
  assert (Hmid : lower <= (upper + lower) / 2 <= upper) by (Z.div_mod_to_equations; lia).
  set (mid := (upper + lower) / 2) in *. clearbody mid.
  destruct (slot g c _) as [cur|]; [|done]. destruct (covers cur addr); [done|].
  destruct (_ =? _); [by destruct (_ =? _)|]. destruct (_ <? _); apply IH; lia.
Qed.
Lemma print_normalized_addr_ends g c addr : print_normalized_addr g c addr <> NoFuel.
Proof.
  destruct c as [c|]; [|done]. unfold print_normalized_addr.
  pose proof (search_ends g c addr (search_fuel c) 0 (cache_size c) ltac:(lia)) as H.
  destruct (search _ _ _ _ _ _) as [[i|]| | |]; try done.
  - by destruct (slot g c i).
  - exfalso. apply H; [unfold search_fuel, cache_size; lia|done].
Qed.
Lemma alloc_mmap_cache_ends old file : alloc_mmap_cache old file <> NoFuel.
Proof.
  destruct old, file as [text|]; try done. unfold alloc_mmap_cache. generalize (mk_cache [] 10).
  induction (fgets_lines text) as [|l ls IH]; intros c; cbn [add_lines]; [done|].
  destruct (scan_line l) as [m|]; [|apply IH]. destruct (fake_file _); [apply IH|].
  unfold add_entry. destruct (_ <? _); [done|]. destruct (_ <=? _); [done|]. cbv zeta.
  destruct (match last _ with Some _ => _ | None => _ end); [done|apply IH].
Qed.

Section loop.
Context (oracle : list event -> request -> reply) (opt : options) (w : world).

(** Every walk over frame pointers that -k makes meets a null frame pointer or
    memory that cannot be read within [loop_fuel] frames.  The walk is made for
    32-bit processes, and for all in a build without libunwind. *)
Definition stack_walks_end : Prop := output_stacktraces opt = true ->
  forall h p ws c ebp st, ws = 4 \/ ws = 8 /\ use_libunwind opt = false ->
    @ebp_loop (kern w h p) ws p (indeterminate_map w) c (loop_fuel w) ebp 0 st <> NoFuel.
Hypothesis Hstack : stack_walks_end.

Lemma Grows_run_D {A} i (c : Kernel -> D A) : Grows (run_D opt w i c).
Proof. unfold run_D. grows. Qed.
Hint Resolve Grows_run_D : grows.
Lemma Grows_of_outcome {A} (o : outcome A) : o <> NoFuel -> Grows (of_outcome o).
Proof. intros Ho. destruct o; simpl; grows. by destruct Ho. Qed.
Lemma Grows_libunwind_loop c n ips : Grows (libunwind_loop w c n ips).
Proof.
  revert n. induction ips as [|[ip|] ips IH]; intros n; cbn [libunwind_loop]; try solve [grows].
  apply Grows_bind; [apply Grows_of_outcome, print_normalized_addr_ends|intros txt].
  apply Grows_bind; [grows|intros ?]. destruct (_ <? _)%nat; [grows|apply IH].
Qed.
Hint Resolve Grows_libunwind_loop : grows.
Lemma ebp_backtrace_ends h p ws c regs st :
  output_stacktraces opt = true -> ws = 4 \/ ws = 8 /\ use_libunwind opt = false ->
  @print_i386_ebp_backtrace (kern w h p) ws p (indeterminate_map w) c (loop_fuel w) regs st <> NoFuel.
Proof.
  intros Ho Hws. destruct regs as [[rip rbp]|]; [|done]. unfold print_i386_ebp_backtrace.
  pose proof (print_normalized_addr_ends (indeterminate_map w) c rip) as Hn.
  destruct (print_normalized_addr _ _ _) as [t| | |]; try done.
  pose proof (Hstack Ho h p ws c rbp st Hws) as Hw. by destruct (ebp_loop _ _ _ _ _ _ _ _) as [[]| | |].
Qed.
Lemma print_ebp_backtrace_grows i s :
  output_stacktraces opt = true -> current_personality (glb s) = 1%nat \/ use_libunwind opt = false ->
  grows_from (print_ebp_backtrace oracle w i) s.
Proof.
  intros Ho Hp. unfold print_ebp_backtrace.
  apply grows_from_bind; [apply Grows_tcb_of|]. intros t s0 [= <- <-].
  apply grows_from_bind; [apply Grows_ask|]. intros r s1 H1.
  assert (Hg : glb s1 = glb s) by (by injection H1 as _ <-). clear H1.
  apply grows_from_bind; [apply Grows_get|]. intros s2 s3 [= <- <-].
  apply grows_from_bind; [|intros [txt st] s4 _; grows_here].
  apply Grows_of_outcome, ebp_backtrace_ends; [done|]. rewrite Hg. destruct Hp as [-> |Hp]; [by left|].
  destruct (current_personality (glb s)); [by right|by left].
Qed.
Lemma Grows_output_stacktrace really i :
  output_stacktraces opt = true -> Grows (output_stacktrace oracle opt w really i).
Proof.
  intros Ho. unfold output_stacktrace. destruct (negb really); [grows|].
  apply Grows_bind; [grows|intros _]. apply Grows_bind; [grows|intros t].
  apply Grows_bind.
  { destruct (mmap_cache t); [grows|]. apply Grows_bind; [grows|intros r].
    apply Grows_bind; [apply Grows_of_outcome, alloc_mmap_cache_ends|intros c]. grows. }
  intros _ s. apply grows_from_bind; [apply Grows_gets|]. intros g s0 [= <- <-].
  apply grows_from_bind; [|intros [] s1 _; grows_here].
  destruct (Nat.eqb_spec (current_personality (glb s)) 1) as [Hp|]; cbn [orb].
  { apply print_ebp_backtrace_grows; [done|by left]. }
  destruct (use_libunwind opt) eqn:Hl; cbn [negb]; [grows_here|].
  apply print_ebp_backtrace_grows; [done|by right].
Qed.
Lemma Grows_show_entry i : Grows (show_entry oracle opt w i).
Proof.
  unfold show_entry. do 3 (apply Grows_bind; [grows|intros ?]).
  apply Grows_bind; [|intros ?; grows].
  destruct (output_stacktraces opt) eqn:Ho; [by apply Grows_output_stacktrace|apply Grows_ret].
Qed.
Hint Resolve Grows_show_entry : grows.
Lemma Grows_restart op i sig : Grows (ptrace_restart oracle w op i sig).
Proof. grows. Qed.
Lemma Grows_trace_syscall i : Grows (trace_syscall oracle opt w i).
Proof. grows. Qed.
Hint Resolve Grows_trace_syscall : grows.

(** ** Waits *)

Lemma waits_asked q s : (waits (log s) <= waits (log (asked q s)))%nat.
Proof. unfold asked. simpl. rewrite waits_app. lia. Qed.

(** A computation that adds events, the request for a status among them. *)
Definition asks_from {A} (c : M A) (s : tracer) : Prop :=
  grows_from c s /\
  match c s with Ret _ s' => (waits (log s) < waits (log s'))%nat | _ => True end.

Lemma asks_from_ask {B} p f (k : reply -> M B) s :
  (forall r, Grows (k r)) -> asks_from (ask_kernel oracle (RWait4 p f) ≫= k) s.
Proof.
  intros Hk. split; [by apply Grows_bind; [apply Grows_ask|]|]. rewrite ask_bind.
  specialize (Hk (oracle (log s) (RWait4 p f)) (asked (RWait4 p f) s)). unfold grows_from in Hk.
  destruct (k _ _); [|done..]. apply waits_prefix in Hk. unfold asked in Hk. simpl in Hk.
  rewrite waits_app in Hk. change (waits [EReq (RWait4 p f)]) with 1%nat in Hk. lia.
Qed.

Lemma wait_for_stop_asks s : asks_from (wait_for_stop oracle w) s.
Proof. apply (asks_from_ask (-1)). intros r. grows. Qed.
Lemma detach_wait_asks i s : asks_from (detach_wait oracle w i) s.
Proof. apply (asks_from_ask (pid (default zero_tcb (tcbtab s !! i))) WALL). intros r. grows. Qed.

(** ** A kernel without children *)

Section drained.
(** After [n] requests for a status there is none left to give. *)
Context (n : nat) (Hdone : forall h p f, (n <= waits h)%nat ->
  r_ret (oracle h (RWait4 p f)) < 0 /\ r_errno (oracle h (RWait4 p f)) = ECHILD).
Context (Hfuel : (n < loop_fuel w)%nat).

Lemma detach_wait_drained i s :
  (n <= waits (log s))%nat -> exists s', detach_wait oracle w i s = Ret None s'.
Proof.
  intros Hn. unfold detach_wait. rewrite tcb_of_bind, ask_bind.
  edestruct (Hdone (log s)) as [Hr He]; [exact Hn|].
  rewrite (proj2 (Z.ltb_lt _ 0) Hr), He. by eexists.
Qed.

Lemma wait_for_stop_drained s :
  (n <= waits (log s))%nat ->
  match wait_for_stop oracle w s with
  | Ret r _ => r_ret r < 0 /\ r_errno r = ECHILD
  | _ => True
  end.
Proof.
  intros Hn. unfold wait_for_stop. rewrite gets_bind, ask_bind.
  set (f := if wait4_wall (glb s) then WALL else 0).
  destruct (Hdone (log s) (-1) f Hn) as [Hr He]. rewrite He, andb_false_r, ret_bind, gets_bind, He.
  set (b := _ && _). assert (Hb : b = true \/ b = false) by (destruct b; auto).
  destruct Hb as [-> | ->]; [|done]. rewrite ask_bind. set (h := log (asked _ s)).
  destruct (Hdone h (-1) WCLONE) as [Hr2 He2].
  { etrans; [exact Hn|apply waits_asked]. }
  rewrite (proj2 (Z.ltb_lt _ 0)) by done. done.
Qed.

Lemma detach_loop_grows fuel i e s :
  (n <= waits (log s) + fuel)%nat -> grows_from (detach_loop oracle opt w (S fuel) i e) s.
Proof.
  revert e s. induction fuel as [|fuel IH]; intros e s Hn; cbn [detach_loop];
    (apply grows_from_bind; [apply detach_wait_asks|]); intros st s1 Hs.
  - destruct (detach_wait_drained i s ltac:(lia)) as [s2 H2]. rewrite H2 in Hs.
    injection Hs as <- <-. apply Grows_ret.
  - pose proof (proj2 (detach_wait_asks i s)) as Hw. rewrite Hs in Hw.
    destruct st as [status|]; [|apply Grows_ret].
    destruct (negb _); [apply Grows_ret|].
    destruct (_ =? SIGSTOP); [grows_here|].
    apply grows_from_bind; [grows_here|].
    intros e' s2 H2. destruct (e' <? 0); [apply Grows_ret|]. apply IH.
    pose proof (Grows_restart PTRACE_CONT i
      (if WSTOPSIG status =? syscall_trap_sig opt then 0 else WSTOPSIG status) s1) as Hg.
    unfold grows_from in Hg. rewrite H2 in Hg. apply waits_prefix in Hg. lia.
Qed.

Lemma loop_fuel_S : loop_fuel w = S (pred (loop_fuel w)).
Proof. lia. Qed.
Lemma Grows_detach i : Grows (detach oracle opt w i).
Proof.
  assert (Hl : forall e, Grows (detach_loop oracle opt w (loop_fuel w) i e)).
  { intros e s. rewrite loop_fuel_S. apply detach_loop_grows. lia. }
  unfold detach. generalize (detach_loop oracle opt w (loop_fuel w) i), Hl. intros loop Hl'.
  repeat first [ solve [auto with grows nocore] | apply Hl' | grows_step ].
Qed.
Hint Resolve Grows_detach : grows.
Lemma Grows_cleanup_from m i sig : Grows (cleanup_from oracle opt w m i sig).
Proof. revert i. induction m as [|m IH]; intros i; simpl; grows. Qed.
Hint Resolve Grows_cleanup_from : grows.
Lemma Grows_handle_status i p status : Grows (handle_status oracle opt w i p status).
Proof. grows. Qed.
Lemma Grows_find_tracee p status : Grows (find_tracee oracle opt p status).
Proof. grows. Qed.
Lemma Grows_exec_switch i p ev : Grows (exec_switch oracle opt w i p ev).
Proof. grows. Qed.
Hint Resolve Grows_handle_status Grows_find_tracee Grows_exec_switch : grows.

(** What is left of a round once a status is there. *)
Definition handle_reply (r : reply) : M flow :=
  let p := r_ret r in
  let status := r_val r in
  if p <? 0 then
    if r_errno r =? EINTR then mret Continue
    else if r_errno r =? ECHILD then mret (Return 0)
    else _ ← perror_msg w (r_errno r) "wait"; mret (Return (-1))
  else
    g ← gets glb;
    if p =? popen_pid g then
      _ ← when (WIFEXITED status || WIFSIGNALED status) (modify_glb (set_popen_pid 0));
      mret Continue
    else
      i ← find_tracee oracle opt p status;
      _ ← clear_regs;
      _ ← (if WIFSTOPPED status then get_regs oracle p else mret tt);
      i ← exec_switch oracle opt w i p (event_of status);
      _ ← exec_detach oracle opt w i (event_of status);
      _ ← set_current (Some i);
      _ ← when (negb (cflag opt =? CFLAG_NONE))
            (upd_tcb i (fun t => set_times (r_tv r) (tv_sub (r_tv r) (stime t)) (etime t) t));
      handle_status oracle opt w i p status.

Lemma iteration_handles s :
  iteration oracle opt w s =
    (intr ← interrupted oracle;
     if negb (intr =? 0) then mret (Return 0)
     else r ← wait_for_stop oracle w; handle_reply r) s.
Proof. done. Qed.

Lemma interrupted_bind {B} (k : Z -> M B) s :
  (interrupted oracle ≫= k) s = k (r_val (oracle (log s) RIntr)) (asked RIntr s).
Proof. done. Qed.

Lemma Grows_handle_reply r : Grows (handle_reply r).
Proof. unfold handle_reply. grows. Qed.

(** A round adds events and ends; when the loop goes on, it has asked for a
    status, and was given one. *)
Lemma iteration_asks s :
  grows_from (iteration oracle opt w) s /\
  forall s', iteration oracle opt w s = Ret Continue s' ->
    (waits (log s) < waits (log s'))%nat /\ (waits (log s) < n)%nat.
Proof.
  pose proof (waits_asked RIntr s) as H1. unfold grows_from.
  rewrite iteration_handles, interrupted_bind. set (s1 := asked RIntr s) in *.
  assert (Hl : log s `prefix_of` log s1) by by eexists.
  destruct (negb _); [done|].
  destruct (wait_for_stop_asks s1) as [Hg Hw].
  pose proof (wait_for_stop_drained s1) as Hd. unfold grows_from in Hg. unfold mbind, M_bind.
  destruct (wait_for_stop oracle w s1) as [r s2| |]; [|done..].
  pose proof (Grows_handle_reply r s2) as Hh. unfold grows_from in Hh. split.
  { destruct (handle_reply r s2); [|done..]. by etrans; [etrans|]. }
  intros s' Hr. rewrite Hr in Hh. apply waits_prefix in Hh. split; [lia|].
  destruct (decide (waits (log s) < n)%nat) as [|Hn]; [done|].
  destruct Hd as [Hr0 He]; [lia|]. exfalso. revert Hr. unfold handle_reply.
  rewrite (proj2 (Z.ltb_lt _ 0)), He by done. done.
Qed.

Lemma trace_grows fuel s :
  (n <= waits (log s) + fuel)%nat -> grows_from (trace oracle opt w (S fuel)) s.
Proof.
  revert s. induction fuel as [|fuel IH]; intros s Hf; cbn [trace];
    (apply grows_from_bind; [apply Grows_gets|]); intros m s0 Hm; injection Hm as <- <-;
    (destruct (_ =? 0); [apply Grows_ret|]);
    (apply grows_from_bind; [apply iteration_asks|]); intros [|r] s1 H1; try apply Grows_ret;
    destruct (proj2 (iteration_asks s) s1 H1); [lia|]. apply IH. lia.
Qed.

Lemma Grows_wait_popen p : Grows (wait_popen oracle (loop_fuel w) p).
Proof.
  enough (H : forall fuel s, (n <= waits (log s) + fuel)%nat ->
    grows_from (wait_popen oracle (S fuel) p) s).
  { intros s. rewrite loop_fuel_S. apply H. lia. }
  intros fuel. induction fuel as [|fuel IH]; intros s Hf; cbn [wait_popen];
    (apply grows_from_bind; [apply Grows_ask|]); intros r s1 Hr; injection Hr as <- <-.
  - edestruct (Hdone (log s)) as [Hr He]; [lia|]. rewrite He. rewrite andb_false_r. apply Grows_ret.
  - destruct (_ && _); [|apply Grows_ret]. apply IH. simpl. rewrite waits_app.
    change (waits [EReq (RWait4 p 0)]) with 1%nat. lia.
Qed.

Lemma Grows_cleanup : Grows (cleanup oracle opt w).
Proof. unfold cleanup. grows. Qed.

Lemma main_loop_grows s : grows_from (main_loop oracle opt w (S n)) s.
Proof.
  apply grows_from_bind; [apply trace_grows; lia|]. intros r s1 _.
  pose proof Grows_cleanup as Hc. pose proof Grows_wait_popen as Hp.
  generalize (cleanup oracle opt w), (wait_popen oracle (loop_fuel w)), Hc, Hp.
  intros cl wp Hc' Hp'.
  lazymatch goal with |- grows_from ?c ?s => cut (Grows c); [intros H; exact (H s)|] end.
  repeat first [ solve [auto with grows nocore] | apply Hc' | apply Hp' | grows_step ].
Qed.
End drained.

(** A run that the bounds of the model did not cut. *)
Definition in_fuel {A} (r : res A) : Prop :=
  match r with Exit code _ => code <> out_of_fuel | _ => True end.

Lemma grows_in_fuel {A} (c : M A) s : grows_from c s -> in_fuel (c s).
Proof. unfold grows_from, in_fuel. by destruct (c s). Qed.

(** More rounds than the loop needs change nothing. *)
Lemma trace_more fuel k s :
  in_fuel (trace oracle opt w fuel s) -> trace oracle opt w (fuel + k) s = trace oracle opt w fuel s.
Proof.
  revert s. induction fuel as [|fuel IH]; intros s.
  - destruct k as [|k]; [done|]. cbn [trace Nat.add]. rewrite !gets_bind.
    destruct (_ =? 0); [done|]. by intros [].
  - cbn [trace Nat.add]. rewrite !gets_bind. destruct (_ =? 0); [done|].
    unfold mbind, M_bind. destruct (iteration oracle opt w s) as [[|r] s1| |]; [|done..].
    apply IH.
Qed.

End loop.

(** Process 10 enters a read, then it is found to have exited, then no child is
    left.  Its memory cannot be read. *)
Definition one_call : list event -> request -> reply := fun h r =>
  let answer ret err v :=
    mk_reply ret err v tv_zero (call_regs 0 (- ENOSYS) [3; 0; 0]) (r_si demo_reply) (Some "") in
  match r with
  | RWait4 _ _ =>
      match waits h with
      | O => answer 10 0 0x857f
      | S O => answer 10 0 0
      | _ => answer (-1) ECHILD 0
      end
  | _ => answer 0 0 0
  end.
Definition stack_options : options :=
  mk_options 1 0 0 0 false false false true (Some "log") 40 0 (128 + SIGTRAP) 4 false false false
    true false 0x30000 10 9 0 32 SortTime.
Definition blind_world : world :=
  mk_world (sysent_vec quiet_world) (quals_of quiet_world) (errnoent quiet_world) (strerror quiet_world)
    (hms quiet_world) [] false (fun _ _ => mem_kernel true (fun _ => None)) (fd_target quiet_world)
    (sys_call quiet_world) (unwind quiet_world) 100 (indeterminate quiet_world)
    (indeterminate_map quiet_world) (qsort quiet_world).

Lemma blind_umoven h p ws a s :
  ws = 4 \/ ws = 8 -> (@umoven (kern blind_world h p) ws p a ws s).1.1 = -1.
Proof.
  intros Hws. unfold umoven, get_ns, mbind, P_bind. destruct (readv_not_supported s).
  - unfold umoven_peek. destruct (_ =? 0); destruct Hws as [-> | ->]; reflexivity.
  - destruct Hws as [-> | ->]; reflexivity.
Qed.
Lemma blind_walks_end : stack_walks_end stack_options blind_world.
Proof.
  intros _ h p ws c ebp st Hws. change (loop_fuel blind_world) with 100%nat. change 100%nat with (S 99). generalize 99%nat.
  intros k. cbn [ebp_loop]. destruct (ebp =? 0); [done|].
  destruct (umoven _ _ _ _ st) as [[r bs] st1].
  pose proof (print_normalized_addr_ends (indeterminate_map blind_world) c (overlay bs 0)) as Hn.
  destruct (print_normalized_addr _ _ _); try done.
  pose proof (blind_umoven h p ws ebp st1 ltac:(tauto)) as Hb.
  destruct (umoven _ _ _ _ st1) as [[r2 bs2] st2]. simpl in Hb. by subst r2.
Qed.

(** A stack trace is in the log. *)
Definition stack_logged {A} (r : res A) : bool :=
  match r with
  | Ret _ s => existsb (fun e => match e with EStack _ _ => true | _ => false end) (log s)
  | _ => false
  end.

