(* ===== verification/Recorded.v ===== *)
(** * What a system call stop records

    The composition of the stop handler, the argument printers and the
    decoders: what one stop adds to the log of the process and to its byte
    dump.  [Writes] is a triple for steps that print for a fixed tcb: it keeps
    track of the text and the bytes, for any decoder specified by [Does]. *)

From stdpp Require Import list sets.
From S2P Require Import Prelude Timeval Xlat Quote Tracee Decode Io Options Signal Qual Mmap Count.
From S2P Require Import Tcb Regs Log Table Pathtrace Syscall Frame Line Stops.
Local Open Scope string_scope.
Local Open Scope list_scope.
Local Open Scope Z_scope.

(** The bytes of a dump file. *)
Fixpoint dump_of (f : stream) (evs : list event) : list Z :=
  match evs with
  | [] => []
  | EDump g bs :: evs => if decide (g = f) then bs ++ dump_of f evs else dump_of f evs
  | _ :: evs => dump_of f evs
  end.

Lemma dump_of_app f l1 l2 : dump_of f (l1 ++ l2) = dump_of f l1 ++ dump_of f l2.
Proof.
  induction l1 as [|e l1 IH]; [done|]. destruct e; simpl; try exact IH.
  case_decide; [by rewrite IH, app_assoc|exact IH].
Qed.

(** What no printing step changes of a tcb and of the globals. *)
Definition core (t : tcb) :=
  (flags t, pid t, qual_flg t, (u_error t, scno t, u_args t, u_rval t, currpers t),
   (outf t, out_dump_f t, out_stack_f t), s_ent t, (dtime t, etime t)).
Definition gcore (g : globals) :=
  (current_personality g, hide_log_until_execve g, get_regs_error g, regs g).

(** [s'] adds nothing to the files and has the same current processes. *)
Record mute (s s' : tracer) : Prop := {
  mu_text g : text_of g (log s') = text_of g (log s);
  mu_dump g : dump_of g (log s') = dump_of g (log s);
  mu_cur : current_tcp s' = current_tcp s;
  mu_print : printing_tcp s' = printing_tcp s;
  mu_log : log s `prefix_of` log s'
}.

Lemma mute_refl s : mute s s.
Proof. done. Qed.
Lemma mute_trans s1 s2 s3 : mute s1 s2 -> mute s2 s3 -> mute s1 s3.
Proof.
  intros [A1 A2 A3 A4 A5] [B1 B2 B3 B4 B5].
  split; [intros g; by rewrite B1|intros g; by rewrite B2|congruence..|by etrans].
Qed.

(** One event that is no output. *)
Lemma mute_event s s' e :
  log s' = log s ++ [e] -> (match e with EWrite _ _ | EDump _ _ => False | _ => True end) ->
  current_tcp s' = current_tcp s -> printing_tcp s' = printing_tcp s -> mute s s'.
Proof.
  intros Hl He Hc Hp. split; try done; rewrite Hl; [..|by eexists]; intros g;
    rewrite ?text_of_app, ?dump_of_app; destruct e; try done; simpl;
    by rewrite ?sapp_nil_r, ?app_nil_r.
Qed.

Section writes.
Context (E : Z -> Prop) (oracle : list event -> request -> reply) (opt : options) (w : world).
Context (Hstk : output_stacktraces opt = true ->
                E EXITIF_exit /\ E SIGSEGV_exit /\ E out_of_fuel).
(** The tcb, its files, and what is known of it and of the globals. *)
Context (i : nat) (f d : stream) (c0 : tcb) (g0 : globals) (h0 : list event).
Context (Hf : outf c0 = Some f) (Hd : out_dump_f c0 = Some d) (Hk : is_Some (out_stack_f c0)).

Record at_ (s : tracer) : Prop := {
  at_cur : current_tcp s = Some i;
  at_tcb : core <$> tcbtab s !! i = Some (core c0);
  at_glb : gcore (glb s) = gcore g0;
  at_log : h0 `prefix_of` log s
}.

Record written (s s' : tracer) (txt : string) (bs : list Z) : Prop := {
  wr_text g : text_of g (log s') = text_of g (log s) +:+ if decide (g = f) then txt else "";
  wr_dump g : dump_of g (log s') = dump_of g (log s) ++ if decide (g = d) then bs else [];
  wr_cur : current_tcp s' = current_tcp s;
  wr_print : printing_tcp s' = printing_tcp s;
  wr_glb : gcore (glb s') = gcore (glb s);
  wr_tcb : core <$> tcbtab s' !! i = core <$> tcbtab s !! i;
  wr_log : log s `prefix_of` log s'
}.

Lemma written_refl s : written s s "" [].
Proof. split; try done; intros g; case_decide; by rewrite ?sapp_nil_r, ?app_nil_r. Qed.

Lemma written_trans s1 s2 s3 t1 t2 b1 b2 :
  written s1 s2 t1 b1 -> written s2 s3 t2 b2 -> written s1 s3 (t1 +:+ t2) (b1 ++ b2).
Proof.
  intros [A1 A2 A3 A4 A5 A6 A7] [B1 B2 B3 B4 B5 B6 B7]. split; [| |congruence..|by etrans].
  - intros g. rewrite B1, A1. case_decide; by rewrite ?sapp_nil_r, ?sapp_assoc.
  - intros g. rewrite B2, A2. case_decide; by rewrite ?app_nil_r, ?app_assoc.
Qed.

Lemma written_at s s' txt bs : at_ s -> written s s' txt bs -> at_ s'.
Proof. intros [A1 A2 A3 A4] [B1 B2 B3 B4 B5 B6 B7]. split; [congruence..|by etrans]. Qed.

Lemma at_core s : at_ s -> exists t, tcbtab s !! i = Some t /\ core t = core c0.
Proof.
  intros [_ H _ _]. destruct (tcbtab s !! i) as [t|]; [|done]. exists t. split; [done|].
  by apply (inj Some) in H.
Qed.

(** From a state of [at_], [c] writes [txt] and [bs] and returns [x], related
    by [Q]; or it exits with a code in [E]. *)
Definition Writes {A} (c : M A) (Q : A -> string -> list Z -> Prop) : Prop := forall s,
  at_ s -> post E (fun x s' => exists txt bs, written s s' txt bs /\ Q x txt bs) (c s).

(** Nothing is written; the result satisfies [P]. *)
Definition Mute {A} (c : M A) (P : A -> Prop) : Prop :=
  Writes c (fun x t b => P x /\ t = "" /\ b = []).

Lemma Writes_mono {A} (c : M A) (Q Q' : A -> string -> list Z -> Prop) :
  (forall x t b, Q x t b -> Q' x t b) -> Writes c Q -> Writes c Q'.
Proof.
  intros H Hc s Hs. eapply post_mono; [|by apply Hc]. intros x s' (t & b & Hw & Hq).
  exists t, b. split; [done|]. by apply H.
Qed.

Lemma Writes_bind {A B} (c : M A) (k : A -> M B) Q R :
  Writes c Q ->
  (forall x t b, Q x t b -> Writes (k x) (fun y t' b' => R y (t +:+ t') (b ++ b'))) ->
  Writes (c ≫= k) R.
Proof.
  intros Hc Hk' s Hs. eapply post_bind; [by apply Hc|]. intros x s1 (t1 & b1 & Hw1 & Hq).
  eapply post_mono; [|apply (Hk' x t1 b1 Hq s1 (written_at _ _ _ _ Hs Hw1))].
  intros y s2 (t2 & b2 & Hw2 & Hr). exists (t1 +:+ t2), (b1 ++ b2).
  split; [by eapply written_trans|exact Hr].
Qed.

Lemma Mute_bind {A B} (c : M A) (k : A -> M B) P R :
  Mute c P -> (forall x, P x -> Writes (k x) R) -> Writes (c ≫= k) R.
Proof.
  intros Hc Hk'. eapply Writes_bind; [exact Hc|]. intros x t b (Hx & -> & ->). by apply Hk'.
Qed.

Lemma Writes_ret {A} (x : A) (Q : A -> string -> list Z -> Prop) : Q x "" [] -> Writes (mret x) Q.
Proof. intros H s Hs. exists "", []. split; [apply written_refl|done]. Qed.
Lemma Mute_ret {A} (x : A) (P : A -> Prop) : P x -> Mute (mret x) P.
Proof. intros H. by apply Writes_ret. Qed.

Lemma Mute_gets {A} (g : tracer -> A) (P : A -> Prop) :
  (forall s, at_ s -> P (g s)) -> Mute (gets g) P.
Proof. intros H s Hs. exists "", []. split; [apply written_refl|]. split; [by apply H|done]. Qed.
Lemma Mute_get (P : tracer -> Prop) : (forall s, at_ s -> P s) -> Mute get P.
Proof. exact (Mute_gets (fun s => s) P). Qed.

Lemma Mute_tcb : Mute (tcb_of i) (fun t => core t = core c0).
Proof. apply Mute_gets. intros s Hs. destruct (at_core s Hs) as (t & -> & Ht). done. Qed.
Lemma Mute_glb : Mute (gets glb) (fun g => gcore g = gcore g0).
Proof. apply Mute_gets. by intros s []. Qed.

Lemma Mute_emit e :
  (match e with EWrite _ _ | EDump _ _ => False | _ => True end) -> Mute (emit e) (fun _ => True).
Proof.
  intros He s Hs. exists "", []. split; [|done]. split; try done; [..|by eexists].
  - intros g. simpl. rewrite text_of_app. by destruct e; try done; simpl; case_decide.
  - intros g. simpl. rewrite dump_of_app. by destruct e; try done; simpl; case_decide.
Qed.
Lemma Mute_err_msg t : Mute (err_msg t) (fun _ => True).
Proof. by apply Mute_emit. Qed.
Lemma Mute_ask r : Mute (ask_kernel oracle r) (fun _ => True).
Proof. intros s Hs. exact (Mute_emit (EReq r) I s Hs). Qed.

Lemma Mute_upd u : (forall t, core (u t) = core t) -> Mute (upd_tcb i u) (fun _ => True).
Proof.
  intros Hu s Hs. exists "", []. split; [|done].
  split; try done; intros; try case_decide; rewrite ?sapp_nil_r, ?app_nil_r; try done.
  simpl. rewrite list_lookup_alter, decide_True by done.
  destruct (tcbtab s !! i); simpl; [by rewrite Hu|done].
Qed.
Lemma Mute_modify u : (forall g, gcore (u g) = gcore g) -> Mute (modify_glb u) (fun _ => True).
Proof.
  intros Hu s Hs. exists "", []. split; [|done].
  split; try done; intros; try case_decide; rewrite ?sapp_nil_r, ?app_nil_r; try done. apply Hu.
Qed.

Lemma Writes_tprints x : Writes (tprints x) (fun _ t b => t = x /\ b = []).
Proof.
  intros s Hs. destruct (at_core s Hs) as (t & Ht & Hc). pose proof (at_cur s Hs) as Hcur.
  assert (Hft : outf t = Some f) by (injection Hc; congruence).
  unfold tprints, mbind, M_bind, gets, tcb_of. rewrite Hcur. unfold gets. rewrite Ht. simpl.
  rewrite Hft. simpl. exists x, []. split; [|done]. split; try done; simpl.
  - intros g. rewrite text_of_app. simpl. destruct (decide (f = g)) as [->|]; [|by rewrite decide_False].
    by rewrite decide_True, sapp_nil_r.
  - intros g. rewrite dump_of_app. by case_decide.
  - rewrite list_lookup_alter, decide_True, Ht by done. done.
  - by eexists.
Qed.

Lemma Writes_tdump bs : Writes (tdump bs) (fun _ t b => t = "" /\ b = bs).
Proof.
  intros s Hs. destruct (at_core s Hs) as (t & Ht & Hc). pose proof (at_cur s Hs) as Hcur.
  assert (Hdt : out_dump_f t = Some d) by (injection Hc; congruence).
  unfold tdump, mbind, M_bind, gets, tcb_of. rewrite Hcur. unfold gets. rewrite Ht. simpl.
  rewrite Hdt. simpl. exists "", bs. split; [|done]. split; try done; simpl.
  - intros g. rewrite text_of_app. by case_decide.
  - intros g. rewrite dump_of_app. simpl. destruct (decide (d = g)) as [->|]; [|by rewrite decide_False].
    by rewrite decide_True, app_nil_r.
  - by eexists.
Qed.

Lemma Mute_tprintstackinfo x : Mute (tprintstackinfo x) (fun _ => True).
Proof.
  intros s Hs. destruct (at_core s Hs) as (t & Ht & Hc). pose proof (at_cur s Hs) as Hcur.
  destruct Hk as [k Hk']. assert (Hkt : out_stack_f t = Some k) by (injection Hc; congruence).
  unfold tprintstackinfo, mbind, M_bind, gets, tcb_of. rewrite Hcur. unfold gets. rewrite Ht. simpl.
  rewrite Hkt. exact (Mute_emit (EStack k x) I s Hs).
Qed.

Lemma Mute_exit {A} code (P : A -> Prop) : E code -> Mute (exit_ code) P.
Proof. intros H s _. exact H. Qed.

(** ** The steps of a stop *)

(** What the decoders see of the tcb when the history is [h]. *)
Definition env_at (h : list event) : denv :=
  mk_denv (pid c0) (wordsize_of (current_personality g0)) (current_personality g0) (u_args c0) (entering c0) (u_error c0)
    (u_rval c0) (has_flag (qual_flg c0) QUAL_VERBOSE) (has_flag (qual_flg c0) QUAL_ABBREV)
    (opt_xflag opt) (opt_max_strlen opt) (show_paths w) (fd_target w h (pid c0)) (indeterminate w)
    (nargs (ent c0)).

Lemma denv_at s t : at_ s -> core t = core c0 -> denv_of opt w s t = env_at (log s).
Proof.
  intros [_ _ Hg _] Hc. injection Hc as H1 H2 H3 H4 H5 H6 H7 H8 H9 H10 H11 H12 H13 H14.
  injection Hg as H15 H16 H17 H18. unfold denv_of, env_at, entering, exiting, ent. congruence.
Qed.

Lemma Writes_put_effects st : d_new_rval st = None ->
  Writes (put_effects i st) (fun _ t b => t = p_out (d_p st) /\ b = d_dump st).
Proof.
  intros Hrv. unfold put_effects.
  eapply Mute_bind; [by apply Mute_modify|intros _ _].
  eapply Mute_bind.
  { apply Mute_upd. intros []. unfold decoder_sets. rewrite Hrv. by destruct (d_cache_dropped st). }
  intros _ _.
  eapply Mute_bind; [destruct (negb _); [apply Mute_err_msg|by apply Mute_ret]|intros _ _].
  apply Writes_bind with (Q := fun _ t b => t = p_out (d_p st) /\ b = []).
  - destruct (p_out (d_p st)); simpl; [by apply Writes_ret|apply Writes_tprints].
  - intros _ t b [-> ->].
    apply Writes_mono with (Q := fun _ t b => t = "" /\ b = d_dump st).
    { intros _ t b [-> ->]. by rewrite sapp_nil_r. }
    case_bool_decide as Hb; simpl; [by apply Writes_ret|apply Writes_tdump].
Qed.

(** A decoder with a known effect in every state that may be met. *)
Lemma Writes_run_D {A} (c : Kernel -> D A) (x : A) (R : string -> list Z -> Prop) :
  (forall h, h0 `prefix_of` h -> exists txt bs,
     R txt bs /\ Does (env_at h) (c (kern w h (pid c0))) x txt bs) ->
  Writes (run_D opt w i c) (fun y t b => y = x /\ R t b).
Proof.
  intros Hc s Hs. unfold run_D, mbind at 1, M_bind at 1, get at 1.
  unfold mbind at 1, M_bind at 1, tcb_of at 1, gets at 1.
  destruct (at_core s Hs) as (t & Ht & Hcore). rewrite Ht. change (default zero_tcb (Some t)) with t.
  assert (Hp : pid t = pid c0) by (injection Hcore; congruence).
  rewrite (denv_at s t Hs Hcore), Hp.
  destruct (Hc (log s) (at_log s Hs)) as (txt & bs & HR & Hdo).
  destruct (Hdo (dstate_of s t)) as (st & -> & Ho & Hb & Hrv).
  simpl in Ho, Hb, Hrv. rewrite app_Empty in Ho. subst txt bs.
  refine (Writes_bind (put_effects i st) _ _ _ (Writes_put_effects st Hrv) _ s Hs).
  intros _ t' b' [-> ->]. apply Writes_ret. rewrite sapp_nil_r, app_nil_r. done.
Qed.

Lemma Mute_of_outcome {A} (o : outcome A) :
  output_stacktraces opt = true -> Mute (of_outcome o) (fun _ => True).
Proof.
  intros Ho. destruct (Hstk Ho) as (H1 & H2 & H3).
  destruct o; simpl; first [by apply Mute_ret|by apply Mute_exit].
Qed.

Lemma Mute_libunwind_loop c n ips :
  output_stacktraces opt = true -> Mute (libunwind_loop w c n ips) (fun _ => True).
Proof.
  intros Ho. destruct (Hstk Ho) as (H1 & _). revert n.
  induction ips as [|[ip|] ips IH]; intros n; simpl; [by apply Mute_ret| |by apply Mute_exit].
  eapply Mute_bind; [by apply Mute_of_outcome|intros txt _].
  eapply Mute_bind; [apply Mute_tprintstackinfo|intros _ _].
  destruct (_ <? _)%nat; [apply Mute_err_msg|apply IH].
Qed.

(** Stack traces go to a file of their own. *)
Lemma Mute_output_stacktrace really :
  output_stacktraces opt = true -> Mute (output_stacktrace oracle opt w really i) (fun _ => True).
Proof.
  intros Ho. destruct (Hstk Ho) as (H1 & _ & _).
  assert (Hst : forall x, Mute (tprintstackinfo x) (fun _ => True)) by apply Mute_tprintstackinfo.
  assert (Hget : Mute get (fun _ => True)) by by apply Mute_get.
  unfold output_stacktrace. destruct really; simpl; [|apply Hst].
  eapply Mute_bind; [apply Hst|intros _ _].
  eapply Mute_bind; [apply Mute_tcb|intros t _].
  apply (Mute_bind _ _ (fun _ => True)).
  { destruct (mmap_cache t); [by apply Mute_ret|].
    eapply Mute_bind; [apply Mute_ask|intros r _].
    eapply Mute_bind; [by apply Mute_of_outcome|intros c _]. by apply Mute_upd. }
  intros _ _. eapply Mute_bind; [apply Mute_glb|intros g _].
  apply (Mute_bind _ _ (fun _ => True)); [|intros _ _; apply Hst].
  destruct (_ || _); unfold print_ebp_backtrace, print_libunwind_backtrace.
  - eapply Mute_bind; [apply Mute_tcb|intros t' _].
    eapply Mute_bind; [apply Mute_ask|intros r _].
    eapply Mute_bind; [exact Hget|intros s _].
    eapply Mute_bind; [by apply Mute_of_outcome|intros [txt st] _].
    eapply Mute_bind; [by apply Mute_modify|intros _ _]. apply Hst.
  - eapply Mute_bind; [exact Hget|intros s _].
    eapply Mute_bind; [apply Mute_tcb|intros t' _].
    destruct (unwind w _ _); [by apply Mute_libunwind_loop|by apply Mute_exit].
Qed.

Definition printed (x : string) : unit -> string -> list Z -> Prop := fun _ t b => t = x /\ b = [].

Lemma Writes_when b c x : Writes c (printed x) -> Writes (when b c) (printed (if b then x else "")).
Proof. destruct b; [done|]. intros _. by apply Writes_ret. Qed.

Lemma Mute_when b (c : M unit) : Mute c (fun _ => True) -> Mute (when b c) (fun _ => True).
Proof. destruct b; [done|]. intros _. by apply Mute_ret. Qed.

(** The time stamp and the instruction pointer, if asked for. *)
Lemma Writes_print_time :
  Writes (print_time oracle opt (hms w)) (fun _ t b => b = [] /\ (tflag opt = 0 -> t = "")).
Proof.
  unfold print_time. destruct (Z.eqb_spec (tflag opt) 0) as [Hz|Hz]; [by apply Writes_ret|].
  eapply Mute_bind; [apply Mute_ask|intros r _].
  assert (Hp : forall x, Writes (tprints x) (fun _ t b => b = [] /\ (tflag opt = 0 -> t = ""))).
  { intros x. eapply Writes_mono; [|apply Writes_tprints]. by intros ? t b [-> ->]. }
  destruct (rflag opt); [|repeat case_match; apply Hp].
  eapply Mute_bind; [apply Mute_glb|intros g _].
  eapply Writes_bind; [apply Hp|]. intros _ t b [-> _].
  eapply Writes_mono; [|by apply Mute_modify]. by intros _ t' b' (_ & -> & ->).
Qed.

Lemma Writes_printcall : Writes printcall (fun _ t b => b = []).
Proof.
  unfold printcall. eapply Mute_bind; [apply Mute_glb|intros g _].
  repeat case_match; (eapply Writes_mono; [|apply Writes_tprints]); by intros ? t b [-> ->].
Qed.

(** The padding of the result column. *)
Lemma Writes_tabto : Writes (tabto opt) (fun _ t b => (exists n, t = spaces n) /\ b = []).
Proof.
  unfold tabto. eapply Mute_bind with (P := fun c => c = Some i).
  { apply Mute_gets. by intros s []. }
  intros _ ->. eapply Mute_bind; [apply Mute_tcb|intros t _]. unfold when. destruct (_ <? _).
  - eapply Writes_mono; [|apply Writes_tprints]. intros ? t' b [-> ->]. eauto.
  - apply Writes_ret. split; [by exists 0%nat|done].
Qed.

(** The text of a result, as show_result prints it. *)
Definition result_text (sys_res : Z) : option string :=
  if has_flag (qual_flg c0) QUAL_RAW then
    Some (if negb (u_error c0 =? 0) then "= -1 (errno " +:+ fmt_d (u_error c0) +:+ ")"
          else "= " +:+ fmt_sx (u64 (u_rval c0)))
  else if has_flag sys_res RVAL_NONE then Some "= ?"
  else if negb (u_error c0 =? 0) then Some (error_text w (current_personality g0) (u_error c0))
  else value_text sys_res (u_rval c0).

Lemma Writes_show_result sys_res txt :
  result_text sys_res = Some txt -> has_flag sys_res RVAL_STR = false ->
  Writes (show_result w i sys_res) (printed txt).
Proof.
  unfold result_text, show_result. intros Htxt Haux.
  eapply Mute_bind; [apply Mute_tcb|intros t Ht].
  eapply Mute_bind; [apply Mute_glb|intros g Hg].
  assert (qual_flg t = qual_flg c0 /\ u_error t = u_error c0 /\ u_rval t = u_rval c0) as (-> & -> & ->)
    by (injection Ht; intros; split_and!; congruence).
  assert (current_personality g = current_personality g0) as -> by (injection Hg; congruence).
  destruct (has_flag (qual_flg c0) QUAL_RAW); [injection Htxt as <-; apply Writes_tprints|].
  apply Writes_bind with (Q := fun _ t b => t = txt /\ b = []).
  - destruct (has_flag sys_res RVAL_NONE); [injection Htxt as <-; apply Writes_tprints|].
    destruct (negb _); [injection Htxt as <-; apply Writes_tprints|]. rewrite Htxt. apply Writes_tprints.
  - intros _ ? ? [-> ->]. unfold aux_text. rewrite Haux.
    replace (match auxstr t with Some _ => "" | None => "" end) with "" by (by destruct (auxstr t)).
    apply Writes_ret. by rewrite sapp_nil_r.
Qed.
End writes.

(** ** The leader of a message *)

Definition unfinished : string := " <unfinished ...>" +:+ nl.

(** The pid in front of a message. *)
Definition pid_text (opt : options) (p n : Z) : string :=
  if print_pid_pfx opt then pad_right 5 " " (fmt_d p) +:+ " "
  else if (n >? 1) && match outfname opt with None => true | Some _ => false end
       then "[pid " +:+ pad_left 5 " " (fmt_u (u32 p)) +:+ "] " else "".

(** Without -ff, an unfinished line of another process is in the same file. *)
Definition same_file (opt : options) (f : stream) (s : tracer) : Prop :=
  followfork opt < 2 -> forall p u,
  printing_tcp s = Some p -> tcbtab s !! p = Some u -> curcol u <> 0 -> outf u = Some f.

Section leader.
Context (oracle : list event -> request -> reply) (opt : options) (w : world).
Context (i : nat) (f d : stream) (c0 : tcb) (g0 : globals) (h0 : list event).
Context (Hf : outf c0 = Some f) (Hd : out_dump_f c0 = Some d) (Hk : is_Some (out_stack_f c0)).

(** A state in which a line may be started. *)
Record before (s : tracer) : Prop := {
  bf_tcb : core <$> tcbtab s !! i = Some (core c0);
  bf_glb : gcore (glb s) = gcore g0;
  bf_log : h0 `prefix_of` log s;
  bf_file : same_file opt f s
}.

(** What was added to the files before [s']: only [txt], to [f]. *)
Record added (s s' : tracer) (txt : string) (bs : list Z) : Prop := {
  ad_text g : text_of g (log s') = text_of g (log s) +:+ if decide (g = f) then txt else "";
  ad_dump g : dump_of g (log s') = dump_of g (log s) ++ if decide (g = d) then bs else [];
  ad_log : log s `prefix_of` log s'
}.

Lemma added_refl s s' : log s' = log s -> added s s' "" [].
Proof.
  intros H. split; rewrite H; try done; intros g; case_decide; by rewrite ?sapp_nil_r, ?app_nil_r.
Qed.
Lemma added_trans s1 s2 s3 t1 t2 b1 b2 :
  added s1 s2 t1 b1 -> added s2 s3 t2 b2 -> added s1 s3 (t1 +:+ t2) (b1 ++ b2).
Proof.
  intros [A1 A2 A3] [B1 B2 B3]. split; [| |by etrans].
  - intros g. rewrite B1, A1. case_decide; by rewrite ?sapp_nil_r, ?sapp_assoc.
  - intros g. rewrite B2, A2. case_decide; by rewrite ?app_nil_r, ?app_assoc.
Qed.
Lemma written_added s s' txt bs : written i f d s s' txt bs -> added s s' txt bs.
Proof. by intros []. Qed.
Lemma mute_added s s' : mute s s' -> added s s' "" [].
Proof.
  intros [A1 A2 _ _ A5]. split; [intros g; rewrite A1|intros g; rewrite A2|done];
    case_decide; by rewrite ?sapp_nil_r, ?app_nil_r.
Qed.

Lemma finish_run s :
  before s -> exists s' pre, finish_pending opt i s = Ret tt s' /\
    added s s' pre [] /\ (pre = "" \/ pre = unfinished) /\
    core <$> tcbtab s' !! i = Some (core c0) /\ gcore (glb s') = gcore g0 /\ nprocs s' = nprocs s.
Proof.
  intros [Ht Hg Hl Hsame]. unfold finish_pending, unfinished, set_printing, set_current, when.
  unfold mbind, M_bind, mret, M_ret, tcb_of, gets.
  assert (Hprint : forall s0 p u, tcbtab s0 = tcbtab s -> log s0 = log s -> gcore (glb s0) = gcore g0 ->
    nprocs s0 = nprocs s -> current_tcp s0 = Some p -> tcbtab s !! p = Some u -> outf u = Some f ->
    exists s', (_ ← tprints (" <unfinished ...>" +:+ nl); upd_tcb p (set_curcol (fun _ => 0))) s0 = Ret tt s' /\
      added s s' unfinished [] /\ core <$> tcbtab s' !! i = Some (core c0) /\
      gcore (glb s') = gcore g0 /\ nprocs s' = nprocs s).
  { intros s0 p u Htab Hlog Hg0 Hn0 Hcur Hu Hout. unfold tprints, mbind, M_bind, tcb_of, gets.
    rewrite Hcur. unfold gets. rewrite Htab, Hu. simpl. rewrite Hout. simpl.
    eexists. split; [reflexivity|]. simpl. split_and!; try done.
    - split; simpl; rewrite Hlog.
      + intros g. rewrite text_of_app. simpl.
        destruct (decide (f = g)) as [->|]; [|by rewrite decide_False].
        by rewrite decide_True, sapp_nil_r.
      + intros g. rewrite dump_of_app. by case_decide.
      + by eexists.
    - rewrite Htab, list_alter_alter_eq, list_lookup_alter. case_decide; [subst p|done].
      rewrite Hu in Ht |- *. exact Ht. }
  destruct (tcbtab s !! i) as [t|] eqn:Hti; [|done]. simpl in Ht.
  assert (Hout : outf t = Some f) by (apply (inj Some) in Ht; injection Ht; congruence).
  destruct (followfork opt >=? 2) eqn:Hff; simpl.
  - rewrite Hti. simpl. rewrite Nat.eqb_refl, orb_true_r, andb_true_r.
    destruct (curcol t =? 0); simpl.
    + eexists _, "". split; [reflexivity|]. simpl. rewrite Hti.
      split_and!; try done; [by apply added_refl|by left].
    + destruct (Hprint (mk_tracer (tcbtab s) (nprocs s) (Some i) (Some i) (glb s) (log s)) i t)
        as (s' & Hr & Ha & Hc & Hg' & Hn'); try done.
      exists s', unfinished. split_and!; [done|done|by right|done..].
  - destruct (printing_tcp s) as [p|] eqn:Hprn; simpl.
    2: { eexists s, "". split; [reflexivity|]. rewrite Hti.
         split_and!; try done; [by apply added_refl|by left]. }
    replace (followfork opt <? 2) with true by lia. rewrite orb_true_l, andb_true_r.
    destruct (tcbtab s !! p) as [u|] eqn:Hu; simpl.
    2: { eexists _, "". split; [reflexivity|]. simpl. rewrite Hti.
         split_and!; try done; [by apply added_refl|by left]. }
    destruct (Z.eqb_spec (curcol u) 0) as [Hz|Hz]; simpl.
    + eexists _, "". split; [reflexivity|]. simpl. rewrite Hti.
      split_and!; try done; [by apply added_refl|by left].
    + destruct (Hprint (mk_tracer (tcbtab s) (nprocs s) (printing_tcp s) (Some p) (glb s) (log s)) p u)
        as (s' & Hr & Ha & Hc & Hg' & Hn'); try done; [eapply Hsame; try done; lia|].
      exists s', unfinished. split_and!; [done|done|by right|done..].
Qed.

Lemma leader_run s :
  before s -> exists s' pre stamp, printleader oracle opt (hms w) i s = Ret tt s' /\
    added s s' (pre +:+ pid_text opt (pid c0) (nprocs s) +:+ stamp) [] /\
    (pre = "" \/ pre = unfinished) /\ (tflag opt = 0 -> iflag opt = false -> stamp = "") /\
    at_ i c0 g0 h0 s' /\ printing_tcp s' = Some i.
Proof.
  intros Hb. destruct (finish_run s Hb) as (s1 & pre & H1 & Hadd & Hpre & Hc & Hg & Hn).
  rewrite (printleader_split oracle opt (hms w) i s s1 H1).
  set (s2 := begin_line i s1).
  assert (Hat : at_ i c0 g0 h0 s2).
  { split; [done| |done|].
    - unfold s2, begin_line. simpl. rewrite list_lookup_alter, decide_True by done.
      destruct (tcbtab s1 !! i); [exact Hc|done].
    - etrans; [apply Hb|]. apply Hadd. }
  assert (Hw : post (fun _ => False) (fun _ s' => exists txt bs, written i f d s2 s' txt bs /\
             exists stamp, txt = pid_text opt (pid c0) (nprocs s) +:+ stamp /\ bs = [] /\
               (tflag opt = 0 -> iflag opt = false -> stamp = ""))
            (leader_text oracle opt (hms w) i s2)).
  { assert (Htcb := at_core i c0 g0 h0 s2 Hat). destruct Htcb as (t & Ht & Hcore).
    assert (Hp : pid t = pid c0) by (injection Hcore; congruence).
    unfold leader_text, mbind at 1, M_bind at 1, tcb_of at 1, gets at 1. rewrite Ht.
    change (default zero_tcb (Some t)) with t. unfold mbind at 1, M_bind at 1, gets at 1.
    change (nprocs s2) with (nprocs s1). rewrite Hn, Hp.
    refine (Writes_bind (fun _ => False) i f d c0 g0 h0 _ _ (printed (pid_text opt (pid c0) (nprocs s))) _ _ _ s2 Hat).
    { unfold pid_text. destruct (print_pid_pfx opt); [by apply Writes_tprints|].
      destruct (_ && _); [by apply Writes_tprints|]. by apply Writes_ret. }
    intros _ ? ? [-> ->]. eapply Writes_bind; [by apply Writes_print_time|].
    intros _ t1 b1 [-> Ht1]. unfold when. destruct (iflag opt).
    - eapply Writes_mono; [|by apply Writes_printcall]. intros _ t2 b2 ->. by exists (t1 +:+ t2).
    - apply Writes_ret. exists (t1 +:+ ""). split_and!; try done. intros Hz _. by rewrite (Ht1 Hz). }
  destruct (leader_text oracle opt (hms w) i s2) as [[] s3| |]; [|done..].
  destruct Hw as (txt & bs & Hw & stamp & -> & -> & Hs).
  exists s3, pre, stamp. split_and!; try done.
  - apply (added_trans s s1 s3 pre _ [] [] Hadd). by destruct Hw as [W1 W2 _ _ _ _ W7].
  - by eapply written_at.
  - by rewrite (wr_print _ _ _ _ _ _ _ Hw).
Qed.
End leader.

(** ** System call entry *)

(** A call without special treatment at its entry, and that does not end the
    process. *)
Definition plain (opt : options) (e : struct_sysent) : bool :=
  negb (is_fn e ["sys_execve"; "sys_socketcall"; "sys_ipc"; "sys_exit"]) &&
  (negb (need_fork_exec_workarounds opt) || negb (is_fn e ["sys_fork"; "sys_vfork"; "sys_clone"])).

Lemma plain_not opt e f :
  plain opt e = true -> f ∈ ["sys_execve"; "sys_socketcall"; "sys_ipc"; "sys_exit"] -> String.eqb (sys_func e) f = false.
Proof.
  unfold plain, is_fn. intros [H _]%andb_true_iff Hin. destruct (String.eqb _ f) eqn:E; [|done].
  apply negb_true_iff in H. assert (existsb (String.eqb (sys_func e)) ["sys_execve"; "sys_socketcall"; "sys_ipc"; "sys_exit"] = true).
  { apply existsb_exists. exists f. split; [by apply list_elem_of_In|done]. } congruence.
Qed.

Lemma plain_fork opt t :
  plain opt (ent t) = true -> need_fork_exec_workarounds opt = true ->
  fn_is t "sys_fork" || fn_is t "sys_vfork" || fn_is t "sys_clone" = false.
Proof.
  unfold plain, is_fn, fn_is, ent_func. intros [_ H]%andb_true_iff Hn. rewrite Hn in H. simpl in H.
  by rewrite orb_false_r, orb_assoc, negb_true_iff in H.
Qed.

(** The decoder that is called does not depend on the rest of the tcb. *)
Lemma call_decoder_run opt w i t c0 :
  core t = core c0 -> plain opt (ent c0) = true ->
  call_decoder opt w i t = run_D opt w i (call_sys_func w t).
Proof.
  intros Hc Hp. unfold call_decoder, fn_is, ent_func.
  replace (ent t) with (ent c0) by (unfold ent; injection Hc; congruence).
  by rewrite (plain_not opt (ent c0) "sys_exit" Hp) by set_solver.
Qed.

Section entry.
Context (E : Z -> Prop) (oracle : list event -> request -> reply) (opt : options) (w : world).
Context (Hstk : output_stacktraces opt = true ->
                E EXITIF_exit /\ E SIGSEGV_exit /\ E out_of_fuel).
Context (i : nat) (f d : stream).

(** The message of a call: [c0] is the tcb when it is shown. *)
Lemma show_entry_run c0 g0 s r (R : string -> list Z -> Prop) :
  outf c0 = Some f -> out_dump_f c0 = Some d -> is_Some (out_stack_f c0) ->
  has_flag (qual_flg c0) QUAL_RAW = false -> plain opt (ent c0) = true ->
  before opt i f c0 g0 (log s) s ->
  (forall h t, log s `prefix_of` h -> core t = core c0 -> exists txt bs,
     R txt bs /\ Does (env_at opt w c0 g0 h) (call_sys_func w t (kern w h (pid c0))) r txt bs) ->
  post E (fun x s' => x = r /\ exists pre stamp txt bs,
    R txt bs /\ (pre = "" \/ pre = unfinished) /\
    (tflag opt = 0 -> iflag opt = false -> stamp = "") /\
    added f d s s' (pre +:+ pid_text opt (pid c0) (nprocs s) +:+ stamp +:+
                    call_name c0 +:+ "(" +:+ txt) bs /\
    at_ i c0 g0 (log s) s' /\ printing_tcp s' = Some i) (show_entry oracle opt w i s).
Proof.
  intros Hf Hd Hk Hraw Hpl Hb Hdec.
  destruct (leader_run oracle opt w i f d c0 g0 (log s) Hf s Hb)
    as (s1 & pre & stamp & H1 & Hadd & Hpre & Hst & Hat & Hprn).
  unfold show_entry, mbind at 1, M_bind at 1. rewrite H1.
  assert (Hw : Writes E i f d c0 g0 (log s)
    (t ← tcb_of i;
     _ ← tprints (call_name t +:+ "(");
     _ ← when (output_stacktraces opt)
       (output_stacktrace oracle opt w
          (negb (undefined t) && negb (existsb (String.eqb (ent_name t)) no_stack_names)) i);
     t ← tcb_of i;
     if has_flag (qual_flg t) QUAL_RAW && negb (fn_is t "sys_exit")
     then run_D opt w i (fun _ => printargs (nargs (ent t)))
     else call_decoder opt w i t)
    (fun x t b => x = r /\ exists txt, R txt b /\ t = call_name c0 +:+ "(" +:+ txt)).
  { eapply Mute_bind; [apply Mute_tcb|intros t Ht].
    assert (call_name t = call_name c0) as ->.
    { assert (qual_flg t = qual_flg c0 /\ s_ent t = s_ent c0 /\ scno t = scno c0) as (H2 & H3 & H4)
        by (injection Ht; intros; split_and!; congruence).
      unfold call_name, undefined, undefined_scno_name, ent_name, ent. by rewrite H2, H3, H4. }
    eapply Writes_bind; [by apply Writes_tprints|]. intros _ ? ? [-> ->].
    eapply Mute_bind.
    { unfold when. destruct (output_stacktraces opt) eqn:Ho in |- *; [by apply Mute_output_stacktrace|].
      exact (Mute_ret E i f d c0 g0 (log s) tt (fun _ => True) I). }
    intros _ _. eapply Mute_bind; [apply Mute_tcb|intros t' Ht'].
    assert (qual_flg t' = qual_flg c0) as -> by (injection Ht'; congruence). rewrite Hraw. simpl andb. cbv iota.
    rewrite (call_decoder_run opt w i t' c0 Ht' Hpl).
    eapply Writes_mono; [|by apply (Writes_run_D E opt w i f d c0 g0 (log s) Hf Hd _ r R);
                             intros h Hh; apply Hdec].
    intros x txt b [-> HR]. split; [done|]. exists txt. split; [done|]. by rewrite !sapp_assoc. }
  specialize (Hw s1 Hat). eapply post_mono; [|exact Hw].
  intros x s2 (t & b & Hwr & -> & txt & HR & ->). split; [done|].
  exists pre, stamp, txt, b. split_and!; try done.
  - pose proof (added_trans f d s s1 s2 _ _ [] b Hadd (written_added i f d _ _ _ _ Hwr)) as H.
    by rewrite !sapp_assoc in H.
  - by eapply written_at.
  - by rewrite (wr_print _ _ _ _ _ _ _ Hwr).
Qed.

(** ** Reading the number and the arguments *)

(** What is known of the tcb after get_scno and get_syscall_args.  The
    personality is recorded only when it is not the current one. *)
Definition scno_tcb (s : tracer) (n : Z) (pers : nat) (e : struct_sysent) (t : tcb) : tcb :=
  set_scno n (qual_flags w pers n) (Some e)
    (set_currpers (if (pers =? current_personality (glb s))%nat then currpers t else pers) t).

Lemma get_scno_known s t n pers e :
  tcbtab s !! i = Some t -> scno_pers (regs (glb s)) = (n, pers) -> scno_valid w pers n = Some e ->
  exists s1, get_scno opt w i s = Ret 1 s1 /\ mute s s1 /\ glb s1 = set_pers pers (glb s) /\
    nprocs s1 = nprocs s /\
    forall j, tcbtab s1 !! j = if decide (j = i) then Some (scno_tcb s n pers e t) else tcbtab s !! j.
Proof.
  intros Ht Hn He. unfold get_scno, mbind at 1, M_bind at 1, gets at 1. rewrite Hn, He.
  assert (Hset : forall s1, mute s s1 -> glb s1 = set_pers pers (glb s) -> nprocs s1 = nprocs s ->
    (forall j, tcbtab s1 !! j = if decide (j = i) then
       Some (set_currpers (if (pers =? current_personality (glb s))%nat then currpers t else pers) t)
       else tcbtab s !! j) ->
    exists s2, (_ ← upd_tcb i (set_scno n (qual_flags w pers n) (Some e)); mret 1 : M Z) s1 = Ret 1 s2 /\
      mute s s2 /\ glb s2 = set_pers pers (glb s) /\ nprocs s2 = nprocs s /\
      forall j, tcbtab s2 !! j = if decide (j = i) then Some (scno_tcb s n pers e t) else tcbtab s !! j).
  { intros s1 [M1 M2 M3 M4 M5] Hg Hn1 Htab. eexists. split; [reflexivity|]. simpl.
    split_and!; [by split|done..|]. intros j. rewrite list_lookup_alter.
    destruct (decide (i = j)) as [<-|Hne].
    - rewrite Htab, decide_True by done. by rewrite decide_True.
    - rewrite Htab, !decide_False by congruence. done. }
  unfold mbind at 1, M_bind at 1, update_personality, set_personality.
  unfold mbind at 1, M_bind at 1, gets at 1.
  destruct (Nat.eqb_spec pers (current_personality (glb s))) as [Hp|Hp].
  - apply (Hset s); [apply mute_refl|by subst pers; destruct (glb s)|done|].
    intros j. case_decide; [subst j; rewrite Ht; by destruct t|done].
  - unfold mbind at 1, M_bind at 1, modify_glb at 1. unfold mbind at 1, M_bind at 1, tcb_of at 1, gets at 1.
    simpl. rewrite Ht. simpl.
    destruct (Nat.eqb_spec pers (currpers t)) as [Hq|Hq]; simpl.
    + apply Hset; try done. intros j. simpl. case_decide; [subst j; rewrite Ht, Hq; by destruct t|done].
    + unfold mbind at 1, M_bind at 1. unfold upd_tcb at 1. simpl.
      assert (Htab : forall j, alter (set_currpers pers) i (tcbtab s) !! j =
                if decide (j = i) then Some (set_currpers pers t) else tcbtab s !! j).
      { intros j. rewrite list_lookup_alter. destruct (decide (i = j)) as [<-|Hne].
        - by rewrite Ht, decide_True.
        - by rewrite decide_False by congruence. }
      unfold when. destruct (qflag opt =? 0); simpl; apply Hset; try done.
      eapply mute_event; [reflexivity|done..].
Qed.

(** A stop at the entry of the call [e] with number [n], which is traced. *)
Record entry_stop (s : tracer) (t : tcb) (n : Z) (pers : nat) (e : struct_sysent) : Prop := {
  es_tcb : tcbtab s !! i = Some t;
  es_entering : exiting t = false;
  es_out : outf t = Some f;
  es_dump : out_dump_f t = Some d;
  es_stack : is_Some (out_stack_f t);
  es_regs : get_regs_error (glb s) = 0;
  es_enosys : result_reg (regs (glb s)) = - ENOSYS;
  es_scno : scno_pers (regs (glb s)) = (n, pers);
  es_ent : scno_valid w pers n = Some e;
  es_plain : plain opt e = true;
  es_trace : has_flag (qual_flags w pers n) QUAL_TRACE = true;
  es_raw : has_flag (qual_flags w pers n) QUAL_RAW = false;
  es_paths : paths_selected w = [];
  es_cflag : cflag opt <> CFLAG_ONLY_STATS;
  es_hide : hide_log_until_execve (glb s) = false;
  es_file : same_file opt f s
}.

(** The tcb when the call is shown, and when the process goes on. *)
Definition shown_tcb (s : tracer) (t : tcb) (n : Z) (pers : nat) (e : struct_sysent) : tcb :=
  set_flags (fun fl => clear_flag fl TCB_FILTERED)
    (set_args (args_of (regs (glb s))) (scno_tcb s n pers e t)).
Definition entered_tcb (c0 : tcb) (et : timeval) : tcb :=
  set_times (stime c0) (dtime c0) et (set_flags (fun fl => set_flag fl TCB_INSYSCALL) c0).

(** Up to the message. *)
Lemma entering_shown s t n pers e :
  entry_stop s t n pers e ->
  exists s', trace_syscall oracle opt w i s =
               (res ← show_entry oracle opt w i; entering_ret oracle opt i res) s' /\
    mute s s' /\ nprocs s' = nprocs s /\ glb s' = set_pers pers (glb s) /\
    tcbtab s' !! i = Some (shown_tcb s t n pers e) /\
    forall j, j <> i -> tcbtab s' !! j = tcbtab s !! j.
Proof.
  intros [Ht Hent Hout Hdump Hst Hreg Hen Hn He Hpl Htr Hraw Hpaths Hcf Hhide Hfile].
  unfold trace_syscall, mbind at 1, M_bind at 1, tcb_of at 1, gets at 1. rewrite Ht.
  change (default zero_tcb (Some t)) with t. rewrite Hent.
  unfold trace_syscall_entering, mbind at 1, M_bind at 1, gets at 1. rewrite Hreg. simpl negb. cbv iota.
  unfold mbind at 1, M_bind at 1.
  destruct (get_scno_known s t n pers e Ht Hn He) as (s1 & -> & Hm & Hg & Hnp & Htab).
  change (1 =? 0) with false. change (1 =? 1) with true. cbv iota.
  assert (Hr1 : regs (glb s1) = regs (glb s)) by by rewrite Hg.
  unfold mbind at 1, M_bind at 1, syscall_fixup_on_sysenter at 1.
  unfold mbind at 1, M_bind at 1, gets at 1. rewrite Hr1, Hen, Z.eqb_refl.
  unfold mret at 1, M_ret at 1. change (1 =? 0) with false. change (1 =? 1) with true. cbv iota.
  unfold mbind at 1, M_bind at 1, get_syscall_args at 1.
  unfold mbind at 1, M_bind at 1, gets at 1. rewrite Hr1.
  unfold mbind at 1, M_bind at 1, upd_tcb at 1, mret at 1, M_ret at 1.
  change (negb (1 =? 1)) with false. cbv iota.
  set (t1 := set_args (args_of (regs (glb s))) (scno_tcb s n pers e t)).
  match goal with |- context [entering_known _ _ _ _ ?x] => set (s2 := x) end.
  assert (Ht2 : tcbtab s2 !! i = Some t1).
  { unfold s2. simpl. rewrite list_lookup_alter, decide_True, Htab, decide_True by done. done. }
  assert (Hent1 : ent t1 = e) by done.
  assert (Hno : forall fn, fn ∈ ["sys_execve"; "sys_socketcall"; "sys_ipc"; "sys_exit"] -> fn_is t1 fn = false)
    by (intros fn Hfn; unfold fn_is, ent_func; rewrite Hent1; by eapply plain_not).
  unfold entering_known, mbind at 1, M_bind at 1, tcb_of at 1, gets at 1. rewrite Ht2.
  change (default zero_tcb (Some t1)) with t1. rewrite Hno by set_solver.
  unfold mbind at 1, M_bind at 1, when at 1, mret at 1, M_ret at 1.
  unfold mbind at 1, M_bind at 1, decode_subcall at 1, mbind at 1, M_bind at 1, tcb_of at 1, gets at 1.
  rewrite Ht2. change (default zero_tcb (Some t1)) with t1. rewrite !Hno by set_solver.
  unfold mret at 1, M_ret at 1.
  assert (Hfork : when (need_fork_exec_workarounds opt) (syscall_fixup_for_fork_exec oracle opt w i) s2
                  = Ret tt s2).
  { unfold when. destruct (need_fork_exec_workarounds opt) eqn:Hnf; [|done].
    unfold syscall_fixup_for_fork_exec, mbind, M_bind, tcb_of, gets. rewrite Ht2.
    change (default zero_tcb (Some t1)) with t1.
    rewrite (plain_fork opt t1); [done|by rewrite Hent1|done]. }
  unfold mbind at 1, M_bind at 1. rewrite Hfork.
  unfold mbind at 1, M_bind at 1, tcb_of at 1, gets at 1. rewrite Ht2.
  change (default zero_tcb (Some t1)) with t1. change (qual_flg t1) with (qual_flags w pers n).
  rewrite Htr, bool_decide_true by done. change (negb true) with false. cbv iota.
  unfold mbind at 1, M_bind at 1, mret at 1, M_ret at 1.
  unfold mbind at 1, M_bind at 1, upd_tcb at 1. unfold mbind at 1, M_bind at 1, gets at 1.
  replace ((cflag opt =? CFLAG_ONLY_STATS) || _) with false.
  2: { simpl. rewrite Hg. simpl. rewrite Hhide. symmetry. apply orb_false_iff. split; [lia|done]. }
  eexists. split; [reflexivity|]. simpl. split_and!.
  - destruct Hm. by split.
  - done.
  - done.
  - rewrite list_lookup_alter, decide_True by done.
    change (alter _ i (tcbtab s1)) with (tcbtab s2). by rewrite Ht2.
  - intros j Hj. rewrite !list_lookup_alter_ne by done. by rewrite Htab, decide_False.
Qed.

(** The line of an entry: the closing of a pending one, the leader, the name and
    the arguments. *)
Definition entry_line (s : tracer) (c0 : tcb) (txt line : string) : Prop :=
  exists pre stamp, (pre = "" \/ pre = unfinished) /\
    (tflag opt = 0 -> iflag opt = false -> stamp = "") /\
    line = pre +:+ pid_text opt (pid c0) (nprocs s) +:+ stamp +:+ call_name c0 +:+ "(" +:+ txt.

Lemma entry_records s t n pers e r (R : string -> list Z -> Prop) :
  let c0 := shown_tcb s t n pers e in
  entry_stop s t n pers e ->
  (forall h t', log s `prefix_of` h -> core t' = core c0 -> exists txt bs,
     R txt bs /\
     Does (env_at opt w c0 (set_pers pers (glb s)) h) (call_sys_func w t' (kern w h (pid c0))) r txt bs) ->
  post E (fun x s' => x = r /\ exists txt bs line et,
    R txt bs /\ entry_line s c0 txt line /\ added f d s s' line bs /\
    core <$> tcbtab s' !! i = Some (core (entered_tcb c0 et)) /\
    gcore (glb s') = gcore (set_pers pers (glb s)) /\
    current_tcp s' = Some i /\ printing_tcp s' = Some i) (trace_syscall oracle opt w i s).
Proof.
  intros c0 Hes Hdec. pose proof Hes as [Ht Hent Hout Hdump Hst Hreg Hen Hn He Hpl Htr Hraw _ _ _ Hfile].
  destruct (entering_shown s t n pers e Hes) as (s1 & -> & Hm & Hnp & Hg & Ht1 & Hoth).
  fold c0 in Ht1. pose proof Hm as [M1 M2 M3 M4 M5].
  assert (Hb : before opt i f c0 (set_pers pers (glb s)) (log s1) s1).
  { split; [by rewrite Ht1|by rewrite Hg|done|]. intros Hff p u Hp Hu Hc. rewrite M4 in Hp.
    destruct (decide (p = i)) as [->|Hne]; [|rewrite Hoth in Hu by done; by eapply Hfile].
    rewrite Ht1 in Hu. injection Hu as <-. exact Hout. }
  eapply post_bind; [apply (show_entry_run c0 (set_pers pers (glb s)) s1 r R); try done|].
  { intros h t' Hh. apply Hdec. by etrans. }
  intros x s2 (-> & pre & stamp & txt & bs & HR & Hpre & Hstamp & Hadd & Hat & Hprn).
  destruct (at_core _ _ _ _ s2 Hat) as (t2 & Ht2 & Hc2).
  assert (Hline : entry_line s c0 txt (pre +:+ pid_text opt (pid c0) (nprocs s) +:+ stamp +:+
                    call_name c0 +:+ "(" +:+ txt)) by (exists pre, stamp; by split_and!).
  assert (Hadd0 := added_trans f d s s1 s2 _ _ _ _ (mute_added f d s s1 Hm) Hadd).
  rewrite app_Empty, Hnp in Hadd0. simpl app in Hadd0.
  unfold entering_ret, set_insyscall, mbind at 1, M_bind at 1, upd_tcb at 1.
  unfold mbind at 1, M_bind at 1, when.
  assert (Hcore : forall u et, core u = core c0 ->
    core (set_times (stime u) (dtime u) et (set_flags (fun fl => set_flag fl TCB_INSYSCALL) u)) =
    core (entered_tcb c0 et)).
  { intros u et Hu. unfold core, entered_tcb in *. simpl. injection Hu. intros. congruence. }
  destruct (_ || _); simpl.
  - split; [done|]. eexists txt, bs, _, _. split_and!; [exact HR|exact Hline| | |apply Hat|apply Hat|done].
    + destruct Hadd0 as [D1 D2 D3]. split; simpl.
      * intros g. by rewrite text_of_app, D1, sapp_nil_r.
      * intros g. by rewrite dump_of_app, D2, app_nil_r.
      * etrans; [exact D3|]. by eexists.
    + simpl. rewrite !list_lookup_alter, !decide_True, Ht2 by done. simpl. f_equal.
      exact (Hcore t2 _ Hc2).
  - split; [done|]. exists txt, bs, (pre +:+ pid_text opt (pid c0) (nprocs s) +:+ stamp +:+
                    call_name c0 +:+ "(" +:+ txt), (etime c0). split_and!; [exact HR|exact Hline| | |apply Hat|apply Hat|done].
    + by destruct Hadd0.
    + simpl. rewrite list_lookup_alter, decide_True, Ht2 by done. simpl. f_equal.
      etrans; [|exact (Hcore t2 (etime c0) Hc2)].
      unfold core. simpl. injection Hc2. intros. congruence.
Qed.
End entry.

(** ** System call exit *)

Section exit.
Context (E : Z -> Prop) (oracle : list event -> request -> reply) (opt : options) (w : world).
Context (i : nat) (f d : stream).

(** A stop at the exit of a call whose entry was shown. *)
Record exit_stop (s : tracer) (t : tcb) : Prop := {
  xs_cur : current_tcp s = Some i;
  xs_tcb : tcbtab s !! i = Some t;
  xs_exiting : exiting t = true;
  xs_shown : has_flag (flags t) TCB_FILTERED = false;
  xs_out : outf t = Some f;
  xs_dump : out_dump_f t = Some d;
  xs_stack : is_Some (out_stack_f t);
  xs_regs : get_regs_error (glb s) = 0;
  xs_plain : plain opt (ent t) = true;
  xs_raw : has_flag (qual_flg t) QUAL_RAW = false;
  xs_failing : not_failing_only opt = false;
  xs_reprint : has_flag (flags t) TCB_REPRINT = false;
  xs_noio : forall a, has_flag (qual_flags w (currpers t) a) QUAL_READ = false /\
                      has_flag (qual_flags w (currpers t) a) QUAL_WRITE = false;
  xs_cflag : cflag opt <> CFLAG_ONLY_STATS;
  xs_hide : hide_log_until_execve (glb s) = false;
  xs_file : same_file opt f s
}.

(** The tcb with the result of the call. *)
Definition result_tcb (s : tracer) (t : tcb) : tcb :=
  let '(rval, err) :=
    error_of w (currpers t) (has_flag (sys_flags (ent t)) SYSCALL_NEVER_FAILS)
      (result_reg (regs (glb s))) in
  set_result rval err t.
Definition exit_glb (s : tracer) (t : tcb) : globals := set_pers (currpers t) (glb s).

Lemma update_personality_own s t :
  tcbtab s !! i = Some t ->
  update_personality opt i (currpers t) s =
    Ret tt (mk_tracer (tcbtab s) (nprocs s) (printing_tcp s) (current_tcp s) (exit_glb s t) (log s)).
Proof.
  intros Ht. unfold update_personality, mbind, M_bind, gets, set_personality, tcb_of.
  unfold exit_glb. destruct (Nat.eqb_spec (currpers t) (current_personality (glb s))) as [Hp|Hp].
  - rewrite Hp. destruct s as [? ? ? ? []]. done.
  - unfold modify_glb, gets. simpl. rewrite Ht. simpl. by rewrite Nat.eqb_refl.
Qed.

(** Up to the message. *)
Lemma exiting_shown s t :
  exit_stop s t ->
  exists s' tv, trace_syscall oracle opt w i s =
      (_ ← resume_line oracle opt w i; show_exit opt w i 1 tv) s' /\
    mute s s' /\ nprocs s' = nprocs s /\ gcore (glb s') = gcore (exit_glb s t) /\
    tcbtab s' !! i = Some (result_tcb s t) /\ forall j, j <> i -> tcbtab s' !! j = tcbtab s !! j.
Proof.
  intros [Hcur Ht Hex Hsh Hout Hdump Hst Hreg Hpl Hraw Hnf Hrep Hno Hcf Hhide Hfile].
  unfold trace_syscall, mbind at 1, M_bind at 1, tcb_of at 1, gets at 1. rewrite Ht.
  change (default zero_tcb (Some t)) with t. rewrite Hex.
  unfold trace_syscall_exiting.
  set (gettime := if Tflag opt || negb (cflag opt =? CFLAG_NONE)
        then r ← ask_kernel oracle RTime; mret (r_tv r) else mret tv_zero : M timeval).
  assert (Htime : exists s1 tv, gettime s = Ret tv s1 /\ mute s s1 /\ nprocs s1 = nprocs s /\
            glb s1 = glb s /\ tcbtab s1 = tcbtab s).
  { unfold gettime. destruct (_ || _); [|by exists s, tv_zero].
    eexists _, _. split; [reflexivity|]. split_and!; try done.
    eapply mute_event; [reflexivity|done..]. }
  destruct Htime as (s1 & tv & H1 & Hm & Hnp & Hg & Htab). clearbody gettime.
  unfold mbind at 1, M_bind at 1. rewrite H1.
  unfold mbind at 1, M_bind at 1, tcb_of at 1, gets at 1. rewrite Htab, Ht.
  change (default zero_tcb (Some t)) with t.
  unfold mbind at 1, M_bind at 1. rewrite update_personality_own by by rewrite Htab.
  unfold mbind at 1, M_bind at 1, gets at 1. set (s2 := mk_tracer _ _ _ _ _ _).
  replace (get_regs_error (glb s2)) with 0 by (unfold s2, exit_glb; simpl; by rewrite Hg).
  change (0 =? 0) with true. simpl negb. cbv iota. change (1 =? 1) with true. cbv iota.
  assert (Herr : get_error w i s2 = Ret tt (mk_tracer (alter (fun _ => result_tcb s t) i (tcbtab s2))
            (nprocs s2) (printing_tcp s2) (current_tcp s2) (glb s2) (log s2))).
  { unfold get_error, mbind, M_bind, gets, tcb_of, result_tcb. simpl. unfold gets. simpl.
    unfold exit_glb. simpl. rewrite Htab, Ht, Hg. simpl.
    destruct (error_of _ _ _ _) as [rv er]. unfold upd_tcb. simpl. do 2 f_equal.
    apply list_eq. intros j. rewrite ?Htab, !list_lookup_alter. case_decide; [subst j; by rewrite Ht|done].
    unfold exit_glb. by rewrite Hg. }
  unfold mbind at 1, M_bind at 1, mbind at 1, M_bind at 1. rewrite Herr.
  set (s3 := mk_tracer _ _ _ _ _ _).
  assert (Ht3 : tcbtab s3 !! i = Some (result_tcb s t)).
  { simpl. rewrite list_lookup_alter, decide_True, Htab, Ht by done. done. }
  assert (Hent3 : s_ent (result_tcb s t) = s_ent t /\ flags (result_tcb s t) = flags t).
  { unfold result_tcb. by destruct (error_of _ _ _ _). }
  destruct Hent3 as [Hent3 Hfl3].
  assert (Hfork : when (need_fork_exec_workarounds opt) (syscall_fixup_for_fork_exec oracle opt w i) s3
                  = Ret tt s3).
  { unfold when. destruct (need_fork_exec_workarounds opt) eqn:Hnfw; [|done].
    unfold syscall_fixup_for_fork_exec, mbind, M_bind, tcb_of, gets. rewrite Ht3.
    change (default zero_tcb (Some ?u)) with u.
    rewrite (plain_fork opt); [done| |done]. unfold ent. by rewrite Hent3. }
  unfold mbind at 1, M_bind at 1. rewrite Hfork.
  unfold mbind at 1, M_bind at 1, tcb_of at 1, gets at 1. rewrite Ht3.
  change (default zero_tcb (Some ?u)) with u.
  unfold mbind at 1, M_bind at 1, gets at 1, mret at 1, M_ret at 1.
  rewrite Hfl3, Hsh.
  replace (hide_log_until_execve (glb s3)) with false by (unfold s3, s2, exit_glb; simpl; by rewrite Hg).
  change (false || false) with false. cbv iota.
  assert (Hcount : forall u0, exists s4,
    when (negb (cflag opt =? CFLAG_NONE)) (count_call oracle w i u0) s3 = Ret tt s4 /\
    mute s3 s4 /\ nprocs s4 = nprocs s3 /\ gcore (glb s4) = gcore (glb s3) /\ tcbtab s4 = tcbtab s3).
  { intros u0. unfold when. destruct (negb _); [|by exists s3].
    unfold count_call, mbind, M_bind, tcb_of, gets, mret, M_ret.
    destruct (_ && _ && _); simpl; eexists; (split; [reflexivity|]); split_and!; try done.
    eapply mute_event; [reflexivity|done..]. }
  destruct (Hcount tv) as (s4 & H4 & Hm4 & Hn4 & Hg4 & Htab4). clear Hcount.
  unfold mbind at 1, M_bind at 1. rewrite H4.
  replace (cflag opt =? CFLAG_ONLY_STATS) with false by lia.
  exists s4, tv. split; [reflexivity|]. rewrite Hn4, Hg4, Htab4. split_and!.
  - eapply mute_trans; [exact Hm|]. eapply mute_trans; [|exact Hm4]. by split.
  - exact Hnp.
  - unfold s3, s2. simpl. unfold exit_glb. by rewrite Hg.
  - exact Ht3.
  - intros j Hj. unfold s3, s2. simpl. by rewrite list_lookup_alter_ne, Htab.
Qed.

(** "<... name resumed> ", with its leader, or nothing. *)
Definition resumed (s : tracer) (c0 : tcb) (txt : string) : Prop :=
  txt = "" \/ exists pre stamp, (pre = "" \/ pre = unfinished) /\
    (tflag opt = 0 -> iflag opt = false -> stamp = "") /\
    txt = pre +:+ pid_text opt (pid c0) (nprocs s) +:+ stamp +:+
          "<... " +:+ call_name c0 +:+ " resumed> ".

Lemma clear_flag_id fl m : has_flag fl m = false -> clear_flag fl m = fl.
Proof.
  unfold has_flag, clear_flag. intros H%negb_false_iff%Z.eqb_eq. apply Z.bits_inj'. intros k Hk.
  assert (Hb : Z.testbit (Z.land fl m) k = false) by (rewrite H; apply Z.bits_0).
  rewrite Z.land_spec in Hb. rewrite Z.land_spec, Z.lnot_spec by done.
  by destruct (Z.testbit fl k), (Z.testbit m k).
Qed.

Lemma resume_line_run c0 g0 s :
  outf c0 = Some f -> out_dump_f c0 = Some d -> is_Some (out_stack_f c0) ->
  has_flag (flags c0) TCB_REPRINT = false ->
  current_tcp s = Some i -> before opt i f c0 g0 (log s) s ->
  exists s' txt, resume_line oracle opt w i s = Ret tt s' /\ resumed s c0 txt /\
    added f d s s' txt [] /\ at_ i c0 g0 (log s) s' /\ printing_tcp s' = Some i /\
    (printing_tcp s = Some i -> txt = "").
Proof.
  intros Hf Hd Hk Hrep Hcur Hb. pose proof Hb as [Ht Hg _ Hfile].
  destruct (tcbtab s !! i) as [t|] eqn:Hti; [|done]. simpl in Ht.
  assert (Hc : core t = core c0) by by apply (inj Some) in Ht.
  assert (Hfl : flags t = flags c0) by (injection Hc; congruence).
  unfold resume_line, mbind at 1, M_bind at 1, tcb_of at 1, gets at 1. rewrite Hti.
  change (default zero_tcb (Some t)) with t. rewrite Hfl, Hrep.
  unfold mbind at 1, M_bind at 1, gets at 1. unfold mbind at 1, M_bind at 1. rewrite orb_false_r.
  destruct ((followfork opt <? 2) && negb (bool_decide (printing_tcp s = Some i))) eqn:Hres.
  - apply andb_true_iff in Hres as [Hff Hprn]. apply negb_true_iff, bool_decide_eq_false in Hprn.
    unfold when. unfold mbind at 1, M_bind at 1, upd_tcb at 1.
    set (s1 := mk_tracer _ _ _ _ _ _).
    assert (Hb1 : before opt i f c0 g0 (log s) s1).
    { split; [|done|done|].
      - unfold s1. simpl. rewrite list_lookup_alter, decide_True, Hti by done. simpl. f_equal.
        rewrite <- Hc. unfold core, set_flags. simpl. by rewrite clear_flag_id by (by rewrite Hfl).
      - intros Hff2 p u Hp Hu Hcol. simpl in *. destruct (decide (p = i)) as [->|Hne]; [done|].
        rewrite list_lookup_alter_ne in Hu by done. by eapply Hfile. }
    destruct (leader_run oracle opt w i f d c0 g0 (log s) Hf s1 Hb1)
      as (s2 & pre & stamp & H2 & Hadd & Hpre & Hst & Hat & Hprn2).
    unfold mbind at 1, M_bind at 1. rewrite H2.
    assert (Hw := Writes_tprints (fun _ => False) i f d c0 g0 (log s) Hf
                    ("<... " +:+ call_name t +:+ " resumed> ") s2 Hat).
    destruct (tprints _ s2) as [[] s3| |]; [|done..]. destruct Hw as (txt & bs & Hw & -> & ->).
    eexists _, _. split; [reflexivity|].
    assert (Hname : call_name t = call_name c0).
    { assert (qual_flg t = qual_flg c0 /\ s_ent t = s_ent c0 /\ scno t = scno c0) as (E1 & E2 & E3)
        by (injection Hc; intros; split_and!; congruence).
      unfold call_name, undefined, undefined_scno_name, ent_name, ent. by rewrite E1, E2, E3. }
    rewrite Hname in Hw.
    assert (Hadd3 := added_trans f d s1 s2 s3 _ _ [] [] Hadd (written_added i f d _ _ _ _ Hw)).
    rewrite !sapp_assoc in Hadd3. split_and!.
    + right. exists pre, stamp. split_and!; try done.
    + by destruct Hadd3.
    + destruct (written_at i f d c0 g0 (log s) _ _ _ _ Hat Hw). by split.
    + done.
    + done.
  - exists (mk_tracer (tcbtab s) (nprocs s) (Some i) (current_tcp s) (glb s) (log s)), "".
    split; [reflexivity|]. split_and!; try done; [by left|by apply added_refl|].
    split; [done| |done|done]. simpl. by rewrite Hti.
Qed.

Lemma M_bind_assoc {A B C} (c : M A) (k : A -> M B) (k2 : B -> M C) s :
  ((c ≫= k) ≫= k2) s = (c ≫= (fun x => k x ≫= k2)) s.
Proof. unfold mbind, M_bind. by destruct (c s). Qed.
Lemma M_bind_ext {A B} (c : M A) (k k' : A -> M B) s :
  (forall x s', k x s' = k' x s') -> (c ≫= k) s = (c ≫= k') s.
Proof. intros H. unfold mbind, M_bind. by destruct (c s). Qed.

Section show_exit.
Context (c0 : tcb) (g0 : globals) (h0 : list event) (tv : timeval).
Context (Hf : outf c0 = Some f) (Hd : out_dump_f c0 = Some d) (Hk : is_Some (out_stack_f c0)).
Context (Hraw : has_flag (qual_flg c0) QUAL_RAW = false).
Context (Hnf : not_failing_only opt = false).
Context (Hno : forall a, has_flag (qual_flags w (current_personality g0) a) QUAL_READ = false /\
                         has_flag (qual_flags w (current_personality g0) a) QUAL_WRITE = false).

Lemma Mute_dumpio : Mute E i f d c0 g0 h0 (dumpio opt w i) (fun _ => True).
Proof.
  unfold dumpio. eapply Mute_bind; [apply Mute_tcb|intros t Ht].
  eapply Mute_bind; [apply Mute_glb|intros g Hg].
  assert (current_personality g = current_personality g0) as -> by (injection Hg; congruence).
  set (q := qual_flags w _ _). destruct (Hno (default 0 (u_args t !! 0%nat))) as [H1 H2]. fold q in H1, H2.
  rewrite H1, H2. repeat case_match; by apply Mute_ret.
Qed.

(** The end of a line: the value or the error, and the time spent. *)
Definition exit_line (r : Z) (txt line : string) : Prop :=
  exists n res, result_text w c0 g0 r = Some res /\
    line = txt +:+ ") " +:+ spaces n +:+ res +:+
           (if Tflag opt then spent_text tv (etime c0) else "") +:+ nl.

Lemma show_exit_run s r (R : string -> list Z -> Prop) :
  at_ i c0 g0 h0 s -> printing_tcp s = Some i ->
  has_flag r RVAL_STR = false -> plain opt (ent c0) = true -> is_Some (result_text w c0 g0 r) ->
  (forall h t, h0 `prefix_of` h -> core t = core c0 -> exists txt bs,
     R txt bs /\ Does (env_at opt w c0 g0 h) (call_sys_func w t (kern w h (pid c0))) r txt bs) ->
  post E (fun x s' => x = 0 /\ exists txt bs line,
    R txt bs /\ exit_line r txt line /\ added f d s s' line bs /\
    core <$> tcbtab s' !! i = Some (core (set_flags (fun fl => clear_flag fl TCB_INSYSCALL) c0)) /\
    gcore (glb s') = gcore g0 /\ current_tcp s' = Some i /\ printing_tcp s' = None)
    (show_exit opt w i 1 tv s).
Proof.
  intros Hat Hprn Hstr Hpl [res Hres] Hdec.
  unfold show_exit. change (negb (1 =? 1)) with false. cbv iota.
  unfold mbind at 1, M_bind at 1, tcb_of at 1, gets at 1.
  destruct (at_core i c0 g0 h0 s Hat) as (t & Ht & Hc). rewrite Ht.
  change (default zero_tcb (Some t)) with t.
  assert (qual_flg t = qual_flg c0) as -> by (injection Hc; congruence).
  rewrite Hraw, Hnf. simpl andb. cbv iota. rewrite (call_decoder_run opt w i t c0 Hc Hpl).
  set (body := sys_res ← run_D opt w i (call_sys_func w t);
               _ ← tprints ") "; _ ← tabto opt; _ ← show_result w i sys_res;
               t' ← tcb_of i; _ ← when (Tflag opt) (tprints (spent_text tv (etime t')));
               _ ← tprints nl; dumpio opt w i).
  assert (Hbody : Writes E i f d c0 g0 h0 body
            (fun _ l b => exists txt, R txt b /\ exit_line r txt l)).
  { unfold body.
    eapply Writes_bind; [by apply (Writes_run_D E opt w i f d c0 g0 h0 Hf Hd _ r R); intros; apply Hdec|].
    intros x txt b [-> HR].
    eapply Writes_bind; [by apply Writes_tprints|]. intros _ ? ? [-> ->].
    eapply Writes_bind; [by apply Writes_tabto|]. intros _ ? ? [[n ->] ->].
    eapply Writes_bind; [by apply Writes_show_result|]. intros _ ? ? [-> ->].
    eapply Mute_bind; [apply Mute_tcb|intros t' Ht'].
    assert (etime t' = etime c0) as -> by (injection Ht'; congruence).
    eapply Writes_bind; [apply Writes_when; by apply Writes_tprints|]. intros _ ? ? [-> ->].
    eapply Writes_bind; [by apply Writes_tprints|]. intros _ ? ? [-> ->].
    eapply Writes_mono; [|apply Mute_dumpio]. intros _ ? ? (_ & -> & ->). simpl.
    exists txt. rewrite !app_nil_r. split; [done|]. exists n, res. split; [done|].
    by rewrite !sapp_nil_r. }
  assert (Hrun : forall s0, (sys_res ← run_D opt w i (call_sys_func w t);
      _ ← tprints ") "; _ ← tabto opt; _ ← show_result w i sys_res;
      t' ← tcb_of i; _ ← when (Tflag opt) (tprints (spent_text tv (etime t')));
      _ ← tprints nl; _ ← dumpio opt w i; _ ← line_ended; _ ← clear_insyscall i; mret 0 : M Z) s0 =
    (_ ← body; _ ← line_ended; _ ← clear_insyscall i; mret 0 : M Z) s0).
  { intros s0. unfold body. symmetry.
    do 7 (rewrite M_bind_assoc; apply M_bind_ext; intros ? ?). done. }
  rewrite Hrun. eapply post_bind; [by apply Hbody|].
  intros _ s1 (line & bs & Hw & txt & HR & Hline).
  assert (Hprn1 : printing_tcp s1 = Some i) by by rewrite (wr_print _ _ _ _ _ _ _ Hw).
  destruct (written_at i f d c0 g0 h0 s s1 line bs Hat Hw) as [Hcur1 Ht1 Hg1 _].
  unfold line_ended, clear_insyscall, mbind, M_bind, gets. rewrite Hcur1. simpl. rewrite Hprn1. simpl.
  split; [done|]. exists txt, bs, line. split_and!; try done.
  - by destruct Hw.
  - rewrite !list_lookup_alter, !decide_True by done.
    destruct (tcbtab s1 !! i) as [t1|]; [|done]. simpl in Ht1 |- *. f_equal. apply (inj Some) in Ht1.
    unfold core in *. simpl. injection Ht1. intros. congruence.
Qed.
End show_exit.

Lemma exit_records s t r (R : string -> list Z -> Prop) :
  let c0 := result_tcb s t in
  exit_stop s t -> has_flag r RVAL_STR = false -> is_Some (result_text w c0 (exit_glb s t) r) ->
  (forall h t', log s `prefix_of` h -> core t' = core c0 -> exists txt bs,
     R txt bs /\ Does (env_at opt w c0 (exit_glb s t) h) (call_sys_func w t' (kern w h (pid c0))) r txt bs) ->
  post E (fun x s' => x = 0 /\ exists pre txt bs line tv,
    resumed s c0 pre /\ (printing_tcp s = Some i -> pre = "") /\
    R txt bs /\ exit_line c0 (exit_glb s t) tv r txt line /\ added f d s s' (pre +:+ line) bs /\
    core <$> tcbtab s' !! i = Some (core (set_flags (fun fl => clear_flag fl TCB_INSYSCALL) c0)) /\
    current_tcp s' = Some i /\ printing_tcp s' = None) (trace_syscall oracle opt w i s).
Proof.
  intros c0 Hxs Hstr Hres Hdec.
  destruct (exiting_shown s t Hxs) as (s1 & tv & -> & Hm & Hnp & Hg & Ht1 & Hoth).
  destruct Hxs as [Hcur Ht Hex Hsh Hout Hdump Hst Hreg Hpl Hraw Hnf Hrep Hno Hcf Hhide Hfile].
  fold c0 in Ht1. pose proof Hm as [M1 M2 M3 M4 M5].
  assert (Hc0 : outf c0 = outf t /\ out_dump_f c0 = out_dump_f t /\ out_stack_f c0 = out_stack_f t /\
            flags c0 = flags t /\ qual_flg c0 = qual_flg t /\ ent c0 = ent t).
  { unfold c0, result_tcb. by destruct (error_of _ _ _ _). }
  destruct Hc0 as (C1 & C2 & C3 & C4 & C5 & C6).
  assert (Hb : before opt i f c0 (exit_glb s t) (log s1) s1).
  { split; [by rewrite Ht1|by rewrite Hg|done|]. intros Hff p u Hp Hu Hc. rewrite M4 in Hp.
    destruct (decide (p = i)) as [->|Hne]; [|rewrite Hoth in Hu by done; by eapply Hfile].
    rewrite Ht1 in Hu. injection Hu as <-. by rewrite C1. }
  destruct (resume_line_run c0 (exit_glb s t) s1) as (s2 & pre & H2 & Hpre & Hadd & Hat & Hprn & Hnone);
    [by rewrite ?C1, ?C2, ?C3, ?C4, ?M3..|done|].
  unfold mbind at 1, M_bind at 1. rewrite H2.
  eapply post_mono; [|apply (show_exit_run c0 (exit_glb s t) (log s1) tv) with (R := R)];
    [|by rewrite ?C1, ?C2, ?C3, ?C5..|done|done|done|done|by rewrite C6|done|].
  2: { intros h t' Hh. apply Hdec. by etrans. }
  intros x s3 (-> & txt & bs & line & HR & Hline & Hadd3 & Hcore & _ & Hcur3 & Hprn3).
  split; [done|]. exists pre, txt, bs, line, tv. split_and!; try done.
  - destruct Hpre as [->|(p & st & Hp & Hs & ->)]; [by left|]. right. exists p, st. by rewrite Hnp.
  - intros Hp. apply Hnone. by rewrite M4.
  - assert (H := added_trans f d s s1 s3 _ _ _ _ (mute_added f d s s1 Hm)
                   (added_trans f d s1 s2 s3 _ _ _ _ Hadd Hadd3)). exact H.
Qed.
End exit.

(** ** A whole call *)

(** The registers found at the next stop. *)
Definition with_regs (r : regset) (s : tracer) : tracer :=
  mk_tracer (tcbtab s) (nprocs s) (printing_tcp s) (current_tcp s) (set_regs 0 r (glb s)) (log s).

Lemma core_fields t1 t2 : core t1 = core t2 ->
  flags t1 = flags t2 /\ pid t1 = pid t2 /\ qual_flg t1 = qual_flg t2 /\ currpers t1 = currpers t2 /\
  outf t1 = outf t2 /\ out_dump_f t1 = out_dump_f t2 /\ out_stack_f t1 = out_stack_f t2 /\
  s_ent t1 = s_ent t2 /\ scno t1 = scno t2 /\ u_args t1 = u_args t2.
Proof. intros [=]. split_and!; congruence. Qed.

(** After the exit stop of a call: nothing is pending, the process is outside. *)
Section call.
Context (oracle : list event -> request -> reply) (opt : options) (w : world).
Context (i : nat) (f d : stream).

(** The options under which a call is shown at its exit without additions. *)
Record shows_exit (pers : nat) : Prop := {
  se_failing : not_failing_only opt = false;
  se_noio a : has_flag (qual_flags w pers a) QUAL_READ = false /\
              has_flag (qual_flags w pers a) QUAL_WRITE = false
}.

Lemma exit_after_entry s t n pers e s1 et r' :
  entry_stop opt w i f d s t n pers e -> shows_exit pers ->
  currpers (shown_tcb w s t n pers e) = pers ->
  has_flag (flags t) TCB_REPRINT = false ->
  core <$> tcbtab s1 !! i = Some (core (entered_tcb (shown_tcb w s t n pers e) et)) ->
  gcore (glb s1) = gcore (set_pers pers (glb s)) ->
  current_tcp s1 = Some i -> printing_tcp s1 = Some i ->
  exists t1, core t1 = core (entered_tcb (shown_tcb w s t n pers e) et) /\
    exit_stop opt w i f d (with_regs r' s1) t1.
Proof.
  intros Hes [Hnf Hno] Hpers Hrep Ht1 Hg Hcur Hprn.
  destruct Hes as [Ht Hent Hout Hdump Hst Hreg Hen Hn He Hpl Htr Hraw _ Hcf Hhide Hfile].
  destruct (tcbtab s1 !! i) as [t1|] eqn:Hti; [|done]. simpl in Ht1. apply (inj Some) in Ht1.
  exists t1. split; [done|].
  destruct (core_fields _ _ Ht1) as (F1 & F2 & F3 & F4 & F5 & F6 & F7 & F8 & F9 & F10).
  simpl in F1, F4, F5, F6, F7, F8. change (currpers t1 = currpers (shown_tcb w s t n pers e)) in F4.
  rewrite Hpers in F4.
  split; try done; rewrite ?F3, ?F4, ?F5, ?F6, ?F7; try done.
  - unfold exiting. rewrite F1. by flags.
  - rewrite F1. by flags.
  - unfold ent. by rewrite F8.
  - rewrite F1. unfold set_flag. rewrite <- Hrep. by flags.
  - injection Hg. intros. simpl. congruence.
  - intros Hff p u Hp Hu _. simpl in *. rewrite Hprn in Hp. injection Hp as <-.
    rewrite Hti in Hu. injection Hu as <-. by rewrite F5.
Qed.
End call.

(** ** Properties *)

(** The demands on the environment of a traced write(fd, a, n) of a 64-bit
    process: the decoder is the one of io.c, and the tracee's memory holds [l]
    at [a] whenever it is read. *)
Record write_world (opt : options) (w : world) (p : Z) (m : memory) (a : Z) (l : list Z) : Prop := {
  ww_decoder K : sys_call w "sys_write" K = @sys_write K;
  ww_memory h : @MemOk (kern w h p) m;
  ww_buffer : buf_at m 8 a l;
  ww_junk k : is_u8 (indeterminate w k);
  ww_max : 0 <= opt_max_strlen opt;
  ww_fits : 4 * opt_max_strlen opt + 3 < 2 ^ 32;
  ww_paths : show_paths w = false
}.

(** The arguments of a write as they are shown. *)
Definition write_args (opt : options) (fd : Z) (l : list Z) (txt : string) : Prop :=
  exists lit, unquote lit = Some (take (Z.to_nat (opt_max_strlen opt)) l) /\
    txt = fmt_d (s32 fd) +:+ ", " +:+ lit +:+
          (if Z.of_nat (length l) >? opt_max_strlen opt then "..." else "") +:+ ", " +:+
          fmt_u (Z.of_nat (length l)).

Section write.
Context (oracle : list event -> request -> reply) (opt : options) (w : world).
Context (i : nat) (f d : stream) (s : tracer) (t : tcb) (n : Z) (e : struct_sysent).
Context (m : memory) (fd a lo hi x : Z) (l : list Z).
Let c0 := shown_tcb w s t n 0 e.

Lemma write_entry_does h t' :
  write_world opt w (pid t) m a l -> sys_func e = "sys_write" -> exiting t = false ->
  args_of (regs (glb s)) = [fd; a; Z.of_nat (length l); lo; hi; x] -> core t' = core c0 ->
  exists txt bs, (write_args opt fd l txt /\ bs = l) /\
    Does (env_at opt w c0 (set_pers 0%nat (glb s)) h) (call_sys_func w t' (kern w h (pid c0))) 0 txt bs.
Proof.
  intros [Hdec Hmem Hbuf Hj Hmax Hfit Hpaths] He Hent Hargs Hc.
  destruct (core_fields _ _ Hc) as (_ & _ & _ & _ & _ & _ & _ & Hse & _).
  set (env := env_at opt w c0 (set_pers 0%nat (glb s)) h).
  assert (Hok : env_ok env) by by split.
  assert (Hde : d_entering env = true).
  { unfold env, env_at, entering, exiting. simpl. unfold exiting in Hent.
    rewrite has_clear_disjoint, Hent by reflexivity. done. }
  pose proof (Hmem h) as Hm. change (pid t) with (pid c0) in Hm.
  destruct (@sys_write_does (kern w h (pid c0)) m Hm env fd a l lo hi x Hok Hde Hargs Hbuf)
    as (lit & Hu & Hdo & _).
  assert (Hfd : fd_text env fd = fmt_d (s32 fd)).
  { unfold fd_text, fdpath, env, env_at. cbn [show_fd_path]. by rewrite Hpaths. }
  eexists _, l. split; [split; [exists lit; split; [exact Hu|reflexivity]|done]|].
  unfold call_sys_func, fn_is, ent_func, ent. rewrite Hse. simpl sys_func. rewrite He. simpl String.eqb.
  cbv iota. rewrite Hdec, <- Hfd. exact Hdo.
Qed.

Lemma write_exit_does env (K : Kernel) : d_entering env = false -> Does env (@sys_write K) 0 "" [].
Proof. intros He. eapply Does_silent; [apply Does_ask|]. rewrite He. apply Does_ret. Qed.

Lemma write_exit_run (E : Z -> Prop) s1 t1 v :
  exit_stop opt w i f d s1 t1 -> ent t1 = e -> sys_func e = "sys_write" ->
  write_world opt w (pid t) m a l -> result_tcb w s1 t1 = set_result v 0 t1 ->
  printing_tcp s1 = Some i ->
  post E (fun y s2 => y = 0 /\ exists k spent, (Tflag opt = false -> spent = "") /\
    added f d s1 s2 (") " +:+ spaces k +:+ "= " +:+ fmt_d v +:+ spent +:+ nl) [])
    (trace_syscall oracle opt w i s1).
Proof.
  intros Hxs He1 He Hww Hc1 Hprn.
  pose proof (exit_records E oracle opt w i f d s1 t1 0 (fun txt bs => txt = "" /\ bs = []) Hxs) as H2.
  rewrite Hc1 in H2.
  assert (Hval : result_text w (set_result v 0 t1) (exit_glb s1 t1) 0 = Some ("= " +:+ fmt_d v)).
  { unfold result_text.
    by rewrite (xs_raw _ _ _ _ _ _ _ Hxs : has_flag (qual_flg (set_result v 0 t1)) QUAL_RAW = false). }
  specialize (H2 eq_refl (ex_intro _ _ Hval)).
  eapply post_mono; [|apply H2].
  - intros y s2 (-> & pre' & txt2 & bs2 & line2 & tv & _ & Hpre' & [-> ->] & (k & res & Hr & ->) & Hadd & _).
    rewrite Hpre' in Hadd by done. rewrite Hval in Hr. injection Hr as <-. split; [done|].
    exists k, (if Tflag opt then spent_text tv (etime (set_result v 0 t1)) else "").
    split; [by intros ->|]. by rewrite sapp_assoc in Hadd.
  - intros h t' _ Hc. exists "", []. split; [done|].
    destruct (core_fields _ _ Hc) as (_ & _ & _ & _ & _ & _ & _ & Hse' & _). simpl in Hse'.
    unfold call_sys_func, fn_is, ent_func, ent. rewrite Hse'. change (default _ (s_ent t1)) with (ent t1).
    rewrite He1, He. simpl String.eqb. cbv iota.
    rewrite (ww_decoder _ _ _ _ _ _ Hww). apply write_exit_does.
    unfold env_at, entering. simpl. change (exiting (set_result v 0 t1)) with (exiting t1).
    by rewrite (xs_exiting _ _ _ _ _ _ _ Hxs).
Qed.

(** C10: a write is recorded.  When a 64-bit process enters write(fd, a, n) with
    its buffer mapped and later leaves it with the result [v], the log of the
    process gets one line, the finished leader, name, arguments and result, on a
    line of its own, and its byte dump gets exactly the bytes written, whatever
    the string limit (-s 0 as well); nothing else is added to any file.  The
    tracer can only fail while it walks the stack for -k. *)
Theorem write_call_recorded r' v :
  entry_stop opt w i f d s t n 0 e -> shows_exit opt w 0 ->
  sys_func e = "sys_write" -> sys_name e = Some "write" ->
  has_flag (qual_flags w 0 n) UNDEFINED_SCNO = false ->
  currpers t = 0%nat -> has_flag (flags t) TCB_REPRINT = false ->
  args_of (regs (glb s)) = [fd; a; Z.of_nat (length l); lo; hi; x] ->
  write_world opt w (pid t) m a l ->
  error_of w 0 (has_flag (sys_flags e) SYSCALL_NEVER_FAILS) (result_reg r') = (v, 0) ->
  let unless_stack A (res : res A) (Q : A -> tracer -> Prop) :=
    match res with
    | Ret y s' => Q y s'
    | Exit _ _ => output_stacktraces opt = true
    | Die _ => False
    end in
  unless_stack _ (trace_syscall oracle opt w i s) (fun y1 s1 =>
    y1 = 0 /\
    unless_stack _ (trace_syscall oracle opt w i (with_regs r' s1)) (fun y2 s2 =>
      y2 = 0 /\ exists pre stamp shown k spent,
        write_args opt fd l shown /\ (pre = "" \/ pre = unfinished) /\
        (tflag opt = 0 -> iflag opt = false -> stamp = "") /\ (Tflag opt = false -> spent = "") /\
        added f d s s2 (pre +:+ pid_text opt (pid t) (nprocs s) +:+ stamp +:+ "write(" +:+ shown +:+
                        ") " +:+ spaces k +:+ "= " +:+ fmt_d v +:+ spent +:+ nl) l)).
Proof.
  intros Hes Hse He Hname Hund Hcp Hrep Hargs Hww Hres unless_stack.
  set (E := fun _ : Z => output_stacktraces opt = true).
  assert (Hent := es_entering _ _ _ _ _ _ _ _ _ _ Hes).
  pose proof (entry_records E oracle opt w ltac:(unfold E; by auto) i f d s t n 0 e 0
                (fun txt bs => write_args opt fd l txt /\ bs = l) Hes) as H1.
  specialize (H1 (fun h t' _ Hc => write_entry_does h t' Hww He Hent Hargs Hc)). fold c0 in H1.
  destruct (trace_syscall oracle opt w i s) as [y1 s1|code s1|s1]; [|exact H1|exact H1].
  destruct H1 as (-> & txt & bs & line & et & [Hshown ->] & Hline & Hadd & Hcore & Hg & Hcur & Hprn).
  split; [done|].
  destruct (exit_after_entry opt w i f d s t n 0 e s1 et r' Hes Hse) as (t1 & Hc1 & Hxs); try done.
  { simpl. by case_match. }
  destruct (core_fields _ _ Hc1) as (F1 & F2 & F3 & F4 & F5 & F6 & F7 & F8 & F9 & F10).
  assert (Hp1 : currpers t1 = 0%nat) by (rewrite F4; simpl; by case_match).
  assert (He1 : ent t1 = e) by (unfold ent; by rewrite F8).
  assert (Hc1' : result_tcb w (with_regs r' s1) t1 = set_result v 0 t1).
  { unfold result_tcb. rewrite Hp1, He1. simpl glb. cbn [regs set_regs]. by rewrite Hres. }
  pose proof (write_exit_run E (with_regs r' s1) t1 v Hxs He1 He Hww Hc1' Hprn) as H2.
  destruct (trace_syscall oracle opt w i (with_regs r' s1)) as [y2 s2|code s2|s2]; [|exact H2|exact H2].
  destruct H2 as (-> & k & spent & Hspent & Hadd2). split; [done|].
  destruct Hline as (pre & stamp & Hpre & Hstamp & ->).
  exists pre, stamp, txt, k, spent. split_and!; [exact Hshown|exact Hpre|exact Hstamp|exact Hspent|].
  assert (H := added_trans f d s s1 s2 _ _ _ _ Hadd ltac:(destruct Hadd2 as [A1 A2 A3]; by split)).
  assert (Hcn : call_name c0 = "write").
  { unfold call_name, undefined. simpl. rewrite Hund. unfold ent_name, ent. simpl. by rewrite Hname. }
  rewrite Hcn, app_nil_r in H. rewrite !sapp_assoc, ?app_Empty in H. exact H.
Qed.
End write.

Definition write_demo : world :=
  demo_world (fun name K => if String.eqb name "sys_write" then @sys_write K else mret 0).

Lemma write_demo_world : write_world demo_options write_demo 11 demo_mem 4096 [97; 98].
Proof.
  split; [done|intros h; apply demo_mem_ok| |done|done|done|done].
  split_and!; [done|reflexivity|vm_compute; congruence|done|by eexists|reflexivity].
Qed.

Lemma write_demo_shows_exit : shows_exit demo_options write_demo 0.
Proof.
  split; [done|]. intros a. unfold qual_flags, get_qual. cbn [quals_of write_demo demo_world qual_vec].
  rewrite (lookup_replicate_2 3 _ 0) by lia. change (default [] (Some ?x)) with x.
  destruct (replicate 255 _ !! Z.to_nat a) as [q|] eqn:Hq; [|done].
  apply lookup_replicate in Hq as [-> _]. done.
Qed.

(** Process 11 writes 2 bytes while process 10 is in the middle of a line. *)
Lemma write_call_recorded_witness :
  exists s1 s2, trace_syscall (fun _ _ => demo_reply) demo_options write_demo 1 entry_tracer = Ret 0 s1 /\
    trace_syscall (fun _ _ => demo_reply) demo_options write_demo 1
      (with_regs (call_regs 1 2 [3; 4096; 2]) s1) = Ret 0 s2 /\
    dump_of Shared (log s2) = dump_of Shared (log entry_tracer) ++ [97; 98].
Proof.
  assert (Hes : entry_stop demo_options write_demo 1 Shared Shared entry_tracer (demo_tcb 11 0) 1 0
                  (mk_sysent 3 TRACE_DESC "sys_write" (Some "write"))).
  { split; try reflexivity; [by eexists|discriminate|].
    intros _ p u [= <-] [= <-] _. reflexivity. }
  pose proof (write_call_recorded (fun _ _ => demo_reply) demo_options write_demo 1 Shared Shared
                entry_tracer (demo_tcb 11 0) 1 (mk_sysent 3 TRACE_DESC "sys_write" (Some "write"))
                demo_mem 3 4096 0 0 0 [97; 98] (call_regs 1 2 [3; 4096; 2]) 2 Hes) as H.
  specialize (H write_demo_shows_exit).
  specialize (H eq_refl eq_refl eq_refl eq_refl eq_refl eq_refl write_demo_world eq_refl).
  cbv zeta in H.
  destruct (trace_syscall _ _ _ 1 entry_tracer) as [y1 s1| |]; [|discriminate H|destruct H].
  destruct H as [-> H]. exists s1.
  destruct (trace_syscall _ _ _ 1 _) as [y2 s2| |]; [|discriminate H|destruct H].
  destruct H as (-> & pre & stamp & shown & k & spent & _ & _ & _ & _ & [_ Hd _]).
  exists s2. split; [reflexivity|]. split; [reflexivity|]. rewrite Hd. reflexivity.
Defined.
