(* ===== verification/Selftest.v ===== *)
(** * The test program (alice-strace_test.c)

    The program that exercises the calls whose data is recorded, as the tracer
    sees it: its strings and its array of struct iovec in memory, the arguments
    of its calls, and what their decoders add to the line and to the byte dump.
    The decoders are run, not reasoned about. *)

From S2P Require Import Prelude Quote Tracee Decode Io.
Local Open Scope string_scope.
Local Open Scope list_scope.
Local Open Scope Z_scope.

(** The strings, NUL-terminated, from 4096 on, and behind them x[3]. *)
Definition c_string (s : string) : list Z := map (fun c => Z.of_N (N_of_ascii c)) (String.list_ascii_of_string s) ++ [0].
Definition test_strings : list Z :=
  concat (map c_string ["hello"; "world"; "aaa"; "bbb"; "ccc"; "xxx"; "yyy"; "zzz"]).
Definition test_hello : Z := 4096.
Definition test_world : Z := 4102.
Definition test_letters (k : Z) : Z := 4108 + 4 * k.   (* "aaa" is number 0, "xxx" number 3 *)
Definition test_x : Z := 4132.

(** x with its bases from letter [k] on. *)
Definition test_iov (k : Z) : list Z :=
  concat (map (fun j => bytes_le 8 (test_letters (k + j)) ++ bytes_le 8 3) [0; 1; 2]).
(** The memory at the call for which x has been filled in from letter [k] on. *)
Definition test_kernel (k : Z) : Kernel :=
  mem_kernel true (page_mem 4096 (fun i => default 0 ((test_strings ++ test_iov k) !! Z.to_nat i))).

(** The descriptor that open returned. *)
Definition test_fd : Z := 3.
Definition test_calls : list (D Z * list Z) :=
  [(@sys_write (test_kernel 0), [test_fd; test_hello; 5; 0; 0; 0]);
   (@sys_pwrite (test_kernel 0), [test_fd; test_world; 5; 4; 0; 0]);
   (@sys_writev (test_kernel 0), [test_fd; test_x; 3; 0; 0; 0]);
   (@sys_pwritev (test_kernel 3), [test_fd; test_x; 3; 10; 0; 0])].

(** The entries of the calls, one after the other: the text and the dump. *)
Definition entry_of (call : D Z * list Z) : option (string * list Z) :=
  match call.1 (io_env call.2) io_state with
  | Some (_, s) => Some (p_out (d_p s), d_dump s)
  | None => None
  end.

Definition data (l : list string) : list Z := concat (map (fun s => removelast (c_string s)) l).

Example test_shown : map (fun c => fst <$> entry_of c) test_calls =
  let lit s := dquote +:+ s +:+ dquote in
  let iov a b c := "[{" +:+ lit a +:+ ", 3}, {" +:+ lit b +:+ ", 3}, {" +:+ lit c +:+ ", 3}]" in
  [Some ("3, " +:+ lit "hello" +:+ ", 5");
   Some ("3, " +:+ lit "world" +:+ ", 5, 4");
   Some ("3, " +:+ iov "aaa" "bbb" "ccc" +:+ ", 3, 9");
   Some ("3, " +:+ iov "xxx" "yyy" "zzz" +:+ ", 3, 10, 9")].
Proof. vm_compute. reflexivity. Qed.

Example test_recorded : map (fun c => snd <$> entry_of c) test_calls =
  [Some (data ["hello"]); Some (data ["world"]); Some (data ["aaa"; "bbb"; "ccc"]); Some (data ["xxx"; "yyy"; "zzz"])].
Proof. vm_compute. reflexivity. Qed.
